(* ===== verification/_CoqProject ===== *)
-Q . S2P
Prelude.v
PyValue.v
Regex.v
Sha256.v
PyFloat.v
Json.v
Config.v
Contract.v
ContractCanon.v
Resources.v
Kube.v
PyTime.v
PyText.v
Wire.v
Events.v
EventsSpec.v
Bridge.v
BridgeSpec.v
Ingest.v
IngestSpec.v
PipelineSpec.v
Stream.v
StreamSpec.v
Url.v
Ip.v
Registry.v
RegistrySpec.v
RegistryList.v
Console.v
ConsoleSpec.v
Gateway.v
GatewayViews.v
GatewaySpec.v
Lease.v
Status.v
Service.v
KubeLaws.v
Cluster.v
ServiceSpec.v
LeaseSpec.v
Asgi.v
AsgiSpec.v
Release.v
ReleaseSpec.v
Catalog.v
HostingViews.v
Discovery.v
CatalogFrame.v
CatalogSpec.v
DiscoverySpec.v
RoutesSpec.v
Identity.v
IdentitySpec.v
Iam.v
IamSpec.v
Render.v
RenderSpec.v
Policies.v
Worker.v
WorkerSpec.v
Client.v
ClientSpec.v
HostEnv.v
HostEnvSpec.v
PoliciesSpec.v
Inputs.v
InputsSpec.v
ControllerEnv.v
ControllerEnvSpec.v
Application.v
ApplicationSpec.v
DataEnv.v
DataAuth.v
DataSpec.v
DataViews.v
DataViewsSpec.v
Views.v
ViewsSpec.v
SystemSpec.v
