(* ===== verification/Prelude.v ===== *)
(** * ArchiDEAL: runtime management, the catalogue and its gateway, identities, the event
      pipeline, the device registry and the deployment

    ** The program
    Six parts of the platform are modelled.  DEALHost lets operators deploy published
    applications.  The host (src/components/DEALHost/apps/hosting) publishes immutable releases and queues
    operations in its database; a worker process claims the operations and calls an
    isolated controller (src/components/DEALHost/dealhost/runtime_controller_service),
    which validates the request and reconciles Kubernetes objects under a lease.  This
    library models that path end to end, from the operator's request to the Kubernetes API.
    The other path carries the events of field devices: a bridge
    (src/components/DEALIoT/mqtt-kafka-bridge/bridge.py) turns MQTT messages into records
    that are checked against the event contract (dealiot_contracts/events.py) and sent to
    Kafka; consumers (src/components/DEALData/dealdata_common/kafka.py and the gps and
    sensor layers) build rows from the records and store each of them once; the same layers take
    events over HTTP and list their rows (dealdata_common/views.py).
    Third, the registry of those devices: a console
    (src/components/DEALIoT/management-console/management_console/app.py) authenticates
    operators, checks the origin and the preconditions of their requests and calls
    device_registry.py, which keeps the devices in a PostgreSQL table that migrate.py sets up.
    Fourth, the catalogue of the host and the gateway in front of it: operators edit modules,
    tools, applications and datasets (apps/hosting/views.py), publish immutable versions of
    them (versioning.py) or let manifests be reconciled with the tables (discovery.py), and
    publish the routes of modules to APISIX, by hand after a preview or by a signed webhook
    of GitHub (apps/gateway/services.py and views.py).
    Fifth, who acts on the host: bearer tokens and OpenID Connect subjects
    (apps/common/authentication.py and oidc.py), and the local accounts that administrators
    bind to such subjects (apps/iam), to which the access lists of datasets refer.
    Sixth, the deployment: render.py (src/deploy/kubernetes) checks the values of a deployment,
    substitutes them in templates and checks the documents that result; the settings modules
    of the host (dealhost/settings) read what the deployment puts in the environment.

    ** Files
    - [Prelude]: exceptions, the result and state monads, the tactics and lemmas shared
      by all files.
    - [PyValue], [Regex], [Sha256], [PyFloat], [Json], [PyTime]: the parts of Python the
      code relies on: JSON values and [str] methods, [re.fullmatch] by derivatives,
      [hashlib.sha256], [repr] of floats, [json.dumps] and [json.loads] with their round
      trip, datetimes and ISO timestamps.
    - [Config]: the record of the controller's settings (config.py).
    - [Contract], [ContractCanon]: contract.py, the validation of a desired deployment,
      and the properties of its canonical text.
    - [Resources]: resources.py, names and Kubernetes objects.
    - [Kube]: kubernetes.py, the client over an abstract transport ([Transport]) and the
      interface [KubeClient] the rest is written against.
    - [Lease]: lease.py, the per-deployment lease, and the step relation of competing
      controllers.
    - [Status], [Service]: service.py, what is computed from observed objects and the
      reconciler's operations.
    - [KubeLaws], [Cluster]: the laws of an API server as a class, and an in-memory
      server that satisfies them, the instance every witness uses.
    - [ServiceSpec], [LeaseSpec]: the theorems on the reconciler and on operations held
      under a lease.
    - [Asgi], [AsgiSpec]: asgi.py, from the HTTP request to the reply.
    - [Release], [ReleaseSpec]: runtime_release.py, the releases of the host and their
      agreement with the controller's validation.
    - [Worker], [WorkerSpec]: runtime_worker.py over the tables of models.py, the
      interleavings of any number of workers, and their theorems.
    - [Client], [ClientSpec]: runtime_controller.py, the worker's client of the controller
      over an abstract HTTP transport ([ClientTransport]).
    - [Inputs], [InputsSpec]: the validation of runtime inputs in serializers.py and its
      agreement with the controller's.
    - [Views], [ViewsSpec]: the handlers of runtime_views.py as transactions over the same
      tables, and what each may do to them.
    - [SystemSpec]: the handlers and the workers together.
    - [PyText]: more of Python for the events: [lower], [split], [repr], base64, numbers of
      mixed types, [float()], [fromtimestamp].  The Unicode database is the class
      [UnicodeData], which ASCII text never consults.
    - [Wire]: [json.dumps] as records travel through Kafka, and its round trip.
    - [Events], [EventsSpec]: events.py, [validate_event] and its contract as propositions.
    - [Bridge], [BridgeSpec]: bridge.py from a message to a record, and the loop.
    - [Ingest], [IngestSpec]: models.py, ingestion.py and kafka.py of DEALData and its
      layers: rows, idempotent persistence in atomic steps, and the consumer with crashes,
      rebalances and other writers as a step relation.  The conversions of the serializer
      fields are the class [Framework].
    - [PipelineSpec]: the bridge and the consumer together.
    - [Stream], [StreamSpec]: the streaming job (flink/jobs/streaming_minimal.py) and the
      media backfill (pipelines/media_backfill.py).
    - [Url]: [urlparse], [unquote] and [parse_qs] of Python; what the network location of a
      URL may hold beyond ASCII is the class [NetlocRules].
    - [Ip]: [ipaddress] of Python, addresses and networks as integers; only the text of an
      IPv4-mapped address, which differs between versions of Python, is the class [MappedText].
    - [Registry]: device_registry.py and migrate.py: validation, the statements on the
      [devices] table, listing, migrations and readiness.  PostgreSQL's collation, case
      folding and [jsonb] are the class [Postgres] with laws [PostgresLaws].
    - [RegistrySpec], [RegistryList]: the histories of competing clients; listing across
      pages, the ledger of migrations.
    - [Console], [ConsoleSpec]: app.py from the HTTP request to the reply of the device
      routes, identity, and readiness.
    - [Gateway], [GatewayViews], [GatewaySpec]: gateway/services.py (manifests, validation of
      paths and upstreams, plans, publication, the GitHub service) and gateway/views.py.
      What APISIX answers, the event bus and Django's [validate_slug] are parameters.
    - [Catalog]: the tables of the catalogue and versioning.py.
    - [HostingViews]: the handlers of hosting/views.py and the permissions; the REST
      framework's serializers are the class [Serializers].
    - [Discovery], [DiscoverySpec]: discovery.py, and that a run is all or nothing.
    - [CatalogFrame], [CatalogSpec]: what any sequence of these calls may change, the
      immutability of versions, If-Match, and the access lists of datasets.
    - [RoutesSpec]: the gateway and the views on modules together.
    - [Identity], [IdentitySpec]: authentication.py and oidc.py.  The introspection endpoint is
      a function of the token; IDNA beyond ASCII is the class [Idna].
    - [Iam], [IamSpec]: apps/iam: the tables of users and identities, services.py with the
      windows between its statements, and the views; the fields of the serializers are the
      class [UserSerializers].
    - [HostEnv], [HostEnvSpec]: settings/env.py, base.py, prod.py and runtime_worker.py as
      functions of the environment.
    - [Render], [RenderSpec]: the values and the templates of render.py.
    - [ControllerEnv], [ControllerEnvSpec]: config.py, the settings of the controller as a
      function of its environment and files, and what the host and the controller share.
    - [Application], [ApplicationSpec]: the rest of asgi.py around [Asgi.serve]: probes and
      lifespan, and metrics.py.
    - [DataEnv], [DataAuth], [DataSpec]: the settings of the DEALData services, the checks of
      their deployment and their bearers (dealdata_common/django_settings.py, deployment.py
      and authentication.py).
    - [DataViews], [DataViewsSpec]: their HTTP interface (dealdata_common/views.py and the
      views.py of the gps and sensor layers): single events, batches and listings.
    - [Policies], [PoliciesSpec]: its checks of label selectors, of the routes of the gateway
      and of the namespace of managed applications, and their consequences for a host started
      in the deployment.

    ** How code becomes definitions
    A function that may raise returns [res]; a coroutine or a function with effects is a
    computation [M W A] over a world [W] (the API server, the clock, the database), in
    which an exception keeps the effects before it.  A database transaction is a function
    [db -> res db], rolled back by an exception.  Interfaces are classes ([KubeClient],
    [Transport], [Runtime], [HostWorld], [ClientTransport]) with their laws as classes ([KubeLaws],
    [RuntimeLaws]).  Names are the source's, underscores included.

    ** What the theorems show
    - Contract: whatever JSON arrives, an accepted deployment satisfies the policy;
      normalisation is idempotent; the stored text parses back to the deployment; the
      digest does not depend on key order.
    - Reconciler: deploy and undeploy touch only the objects of their deployment, refuse
      older generations and altered payloads, never write an object another owner holds,
      record what was applied, and remove everything on undeploy; observation reports
      running only when the cluster serves the desired generation.
    - Lease: at most one live holder, takeover after expiry, termination of acquisition,
      and the outcome of operations when the lease is lost.
    - HTTP: no request without the token reaches the reconciler; bodies are bounded; a
      request for a deployment leaves the others alone.
    - Worker: terminal operations are final, claims are exclusive, a superseded worker
      changes nothing, generations are monotone, retries and reconciliation are bounded,
      a success means the desired state was observed, and the sequential worker refines
      the interleaved steps.
    - Releases: integrity, immutability and acceptance by the controller.
    - Client: whatever is answered, a snapshot handed to the worker is within its limits
      and about the deployment asked for; the controller's own answers are understood.
    - API: a mutation is performed once however often it is retried, a stale revision is
      refused, a deployment has one unfinished mutation at a time, the handlers satisfy
      what the worker's theorems assume of them, and the payload of whatever they queue
      passes the controller's validation.
    - Events: [validate_event] accepts exactly what the contract of the topic describes;
      the bridge sends one record for each message it handles, valid or dead-lettered;
      which messages it handles, and one that ends it.
    - Ingestion: a committed offset means that the message is settled, rows stay unique,
      redelivery changes nothing; a message on which the code raises blocks its partition;
      what the consumer decodes is what the bridge sent, and no record is lost between the
      broker and the table.
    - Streams: the job splits its input without loss and keeps the newest row of each
      entity; a backfill publishes every object of its window.
    - Registry: accepted payloads are well formed and free of secret keys; over any history
      of clients the rows stay within the table's constraints, no update is lost and
      retirement is final; pages list each device that stays exactly once, and the listing
      ends; a search finds its text literally; which ledgers the readiness check accepts,
      and that migrating makes the registry ready.
    - Console: the registry changes only for a principal with the write level whose request
      passed the origin check; a success answers exactly the revision of If-Match; in
      production an identity comes only from the introspection endpoint; origins have one
      normal form.

    - Gateway: whatever is asked, only canonical, unreserved and disjoint paths are
      published, to allowed upstreams of enabled and reviewed modules; with a preview's etag
      only the previewed route; a webhook acts once, and only under the shared secret; and
      the views on modules keep the routes of different modules disjoint in any order of
      requests, with the requests that escape the guard shown by examples.
    - Identity: an authenticated bearer has the authority of a token of the settings or of a
      group of its introspected claims; an issuer is accepted in one form only; whatever
      administrators do, in any order, each bound account stays unprivileged, without password
      and under the name derived from its subject; two attempts to provision a subject end
      with the same binding, deprovisioning takes only unused ones, a token reaches the account
      of its subject, and no other subject's token does.
    - Settings: production and the runtime worker start with secured settings or not at all,
      and with the values base.py reads; so does the controller, whose lease outlasts a request,
      and the controller takes the host's requests exactly when both hold the same token.
      It counts each of its answers once, in at most 55 series, one line for each sample,
      and says it is ready exactly when its files and the API are.
    - DEALData: a service that starts after its checks is secured, and takes events only with
      its token; a bearer has the authority of its claims and is the same person as on the host;
      the counts of a batch are true and sending it again writes nothing; a listing reaches the
      first 1,001,000 rows and no other.
    - Deployment: accepted networks are apart; what is substituted cannot leave the quotes of
      a template; label selectors mean what Kubernetes means; the namespace of managed
      applications holds only the reviewed documents; and a host started in the deployment
      sends routes only to the five reviewed upstreams.
    - Catalogue: a published version never changes; an If-Match takes effect once; a run of
      autodiscovery is all or nothing and its report counts the rows it created; readers
      learn nothing of the access lists beyond their own entries.

    ** Fuel
    Loops bounded by their input are structural.  [Json.parse_value] and
    [Contract.py_remove] take the length of the text plus one as fuel, which every call
    decreases; [Lease.acquire_loop] takes the number of polls the deadline allows and
    [acquire_ends] shows that it always answers; [Ip.hex_text_from] writes a hextet in at most
    four digits; the numeric routines of [PyValue], [PyFloat] and [Sha256] take the number of
    digits or blocks, with lemmas that it is enough where a theorem depends on it.

    ** Not modelled
    Logging, the ASGI server, httpx, Django and the REST framework themselves (the field
    types of the serializers, permissions, the list and retrieve endpoints); column widths
    and actor columns of the tables; paho and kafka-python (a poll may return any next
    records, a send is the record handed over), Flink and boto3, the settings and metrics
    of these programs, the recursion limit of the JSON decoder; the other services of
    DEALIoT, the accounts, metadata views and metrics of DEALData and the web interface.
    Of the deployment: the reading of YAML and the files render.py writes, its
    validate_runtime_contracts, a long list of exact comparisons of single manifests, and
    the scripts that query a cluster or compare files of the repository.  A request on the
    catalogue is a JSON object (a form that omits a boolean field counts as false for the
    framework) and one atomic step, which the row locks of the code make it; the expiry of
    the delivery ids in the cache is not modelled.  Of the
    console: the probes, the backfill trigger, static files and the catalog, which is
    constant text ([Console.elsewhere] stands for its routes); of the registry, the SQL text
    itself, whose statements are modelled as steps on a map. *)

From Stdlib Require Export ZArith Lia Ascii String.
From stdpp Require Export base tactics option list gmap strings.

(** stdpp blocks the reduction of string concatenation; the string lemmas of this
    development compute with it. *)
#[global] Arguments String.append !s1 s2 / : simpl nomatch.

(** ** Exceptions

    Every Python exception class the modelled code raises or lets escape, as one
    tagged union.  [ContractError], [RuntimeNotFound], [RuntimeConflict] and
    [RuntimeBusy] of the source are one constructor: the subclasses only fix the
    detail, the code and the HTTP status.  So are the subclasses of
    [RoutePublicationError], which fix the code. *)
Inductive pyexn :=
| ContractError (detail code : string) (status_code : Z)
| KubernetesApiError (detail : string) (status_code : option Z)
| RuntimeReleaseNotDeployable (detail code : string)
| RuntimeControllerUnavailable (detail : string)
| RuntimeControllerError (detail : string) (status_code : option Z)
| ValidationError (detail : string)
| RuntimeIdempotencyConflict
| IntegrityError
| AssertionError
| CommandError (detail : string)
| RuntimeError (detail : string)
| RegistryUnavailableError (detail : string)
| DeviceValidationError (detail : string)
| DeviceNotFoundError (detail : string)
| DeviceConflictError (detail : string)
| RevisionConflictError (detail : string)
| DevicePreconditionRequiredError
| RoutePublicationError (detail code : string)
| VersionMetadataConflict (version : string)
| VersionRevisionConflict (revision : Z)
| HTTPError
| AuthenticationFailed (detail : string)
| OIDCAclIdentityConflict (detail : string)
| Http404
| ProtectedError
| DoesNotExist
| UniqueViolation
| PsycopgError
| DuplicateJsonKey (key : string)
| JSONDecodeError
| UnicodeEncodeError
| UnicodeDecodeError
| ValueError (detail : string)
| TypeError
| KeyError (key : string)
| AttributeError (name : string)
| IndexError
| OSError
| ControllerConfigurationError (detail : string)
| OverflowError
| CancelledError
(** Not a Python exception: a loop of the model ran out of fuel. *)
| OutOfFuel.

(** [isinstance(exc, ValueError)]. *)
Definition is_value_error (e : pyexn) : bool :=
  match e with
  | ContractError _ _ _ | RuntimeReleaseNotDeployable _ _ | RoutePublicationError _ _
  | VersionMetadataConflict _ | VersionRevisionConflict _
  | DuplicateJsonKey _ | ValueError _ | JSONDecodeError | UnicodeDecodeError | UnicodeEncodeError => true
  | _ => false
  end.
Definition is_type_error (e : pyexn) : bool := match e with TypeError => true | _ => false end.

(** ** Results and state-passing computations *)
Inductive res (A : Type) :=
| Ok (a : A)
| Raise (e : pyexn).
Arguments Ok {A} a.
Arguments Raise {A} e.

#[export] Instance res_ret : MRet res := fun A a => Ok a.
#[export] Instance res_bind : MBind res :=
  fun A B f m => match m with Ok a => f a | Raise e => Raise e end.
#[export] Instance res_fmap : FMap res :=
  fun A B f m => match m with Ok a => Ok (f a) | Raise e => Raise e end.

(** A computation over a world [W]: an exception leaves the effects that were
    performed before it in place. *)
Definition M (W A : Type) : Type := W -> res A * W.

#[export] Instance M_ret {W} : MRet (M W) := fun A a w => (Ok a, w).
#[export] Instance M_bind {W} : MBind (M W) :=
  fun A B f m w =>
    match m w with
    | (Ok a, w') => f a w'
    | (Raise e, w') => (Raise e, w')
    end.

Definition raise {W A} (e : pyexn) : M W A := fun w => (Raise e, w).
Definition lift {W A} (r : res A) : M W A := fun w => (r, w).

(** [guard_not b e]: the code's [if b: raise e]. *)
Definition raise_if (b : bool) (e : pyexn) : res unit :=
  if b then Raise e else Ok tt.

Fixpoint mapM_res {A B} (f : A -> res B) (l : list A) : res (list B) :=
  match l with
  | [] => Ok []
  | x :: l => y ← f x; ys ← mapM_res f l; Ok (y :: ys)
  end.

Fixpoint foldM_res {A S} (f : S -> A -> res S) (s : S) (l : list A) : res S :=
  match l with
  | [] => Ok s
  | x :: l => s' ← f s x; foldM_res f s' l
  end.

Fixpoint forM_ {W A} (l : list A) (f : A -> M W unit) : M W unit :=
  match l with
  | [] => mret tt
  | x :: l => f x ≫= fun _ => forM_ l f
  end.

Fixpoint mapM_M {W A B} (f : A -> M W B) (l : list A) : M W (list B) :=
  match l with
  | [] => mret []
  | x :: l => y ← f x; ys ← mapM_M f l; mret (y :: ys)
  end.

(** ** Inversion lemmas and the tactics built on them *)
Lemma bind_Ok {A B} (m : res A) (f : A -> res B) (b : B) :
  m ≫= f = Ok b <-> exists a, m = Ok a /\ f a = Ok b.
Proof. destruct m; naive_solver. Qed.

Lemma Ok_inj {A} (a b : A) : Ok a = Ok b -> a = b.
Proof. congruence. Qed.

Lemma raise_if_Ok (c : bool) (e : pyexn) (u : unit) :
  raise_if c e = Ok u <-> c = false.
Proof. destruct c, u; naive_solver. Qed.

Lemma M_bind_run {W A B} (m : M W A) (f : A -> M W B) (w : W) (a : A) (w1 : W) :
  m w = (Ok a, w1) -> (m ≫= f) w = f a w1.
Proof. intros E. unfold mbind, M_bind. by rewrite E. Qed.
Lemma M_bind_Ok {W A B} (m : M W A) (f : A -> M W B) (w : W) (b : B) (w' : W) :
  (m ≫= f) w = (Ok b, w') <->
  exists a w1, m w = (Ok a, w1) /\ f a w1 = (Ok b, w').
Proof.
  unfold mbind, M_bind. destruct (m w) as [[a|e] w1]; naive_solver.
Qed.

Lemma M_bind_Raise {W A B} (m : M W A) (f : A -> M W B) (w : W) (e : pyexn) (w' : W) :
  (m ≫= f) w = (Raise e, w') <->
  m w = (Raise e, w') \/ exists a w1, m w = (Ok a, w1) /\ f a w1 = (Raise e, w').
Proof.
  unfold mbind, M_bind. destruct (m w) as [[a|e'] w1]; naive_solver.
Qed.

Lemma lift_Ok {W A} (r : res A) (w : W) (a : A) (w' : W) :
  lift r w = (Ok a, w') <-> r = Ok a /\ w' = w.
Proof. unfold lift. naive_solver. Qed.

Lemma mret_M_Ok {W A} (a b : A) (w w' : W) :
  (mret a : M W A) w = (Ok b, w') <-> b = a /\ w' = w.
Proof. unfold mret, M_ret. naive_solver. Qed.

(** Boolean connectives of guards, turned into propositions. *)
Create HintDb pyguard.
#[export] Hint Rewrite orb_true_iff orb_false_iff andb_true_iff andb_false_iff
  negb_true_iff negb_false_iff Z.ltb_lt Z.ltb_ge Z.leb_le Z.leb_gt
  Z.eqb_eq Z.eqb_neq : pyguard.

Ltac destruct_ex_and :=
  repeat match goal with
  | H : exists _, _ |- _ => destruct H
  | H : _ /\ _ |- _ => destruct H
  end.

(** [res_inv]: run the success path of a computation backwards. *)
Ltac res_step :=
  match goal with
  | H : mbind _ _ = Ok _ |- _ => apply bind_Ok in H; destruct H as (? & ? & ?)
  | H : mbind _ _ ?w = (Ok _, _) |- _ =>
      apply M_bind_Ok in H; destruct H as (? & ? & ? & ?)
  | H : lift _ _ = (Ok _, _) |- _ => apply lift_Ok in H; destruct H as [? ->]
  | H : lift _ _ = (Ok _, _) |- _ => apply lift_Ok in H; destruct H as [? ?]
  | H : mret _ _ = (Ok _, _) |- _ => apply mret_M_Ok in H; destruct H as [? ?]
  | H : raise_if _ _ = Ok _ |- _ => apply raise_if_Ok in H
  | H : Ok _ = Ok _ |- _ => injection H as H; try subst
  | H : mret _ = Ok _ |- _ => unfold mret, res_ret in H
  | H : Raise _ = Ok _ |- _ => discriminate H
  | H : (Raise _, _) = (Ok _, _) |- _ => discriminate H
  | H : raise _ _ = (Ok _, _) |- _ => discriminate H
  end.
Ltac res_inv := repeat res_step.

Lemma mapM_res_Ok {A B} (f : A -> res B) (l : list A) (k : list B) :
  mapM_res f l = Ok k <-> Forall2 (fun x y => f x = Ok y) l k.
Proof.
  revert k. induction l as [|x l IH]; intros k; simpl.
  - split; [intros [= <-]; constructor | intros H; inversion H; reflexivity].
  - split.
    + intros H. res_inv. constructor; [done | by apply IH].
    + intros H. inversion H as [|? y ? ys Hx Hl]; subst. rewrite Hx. simpl.
      apply IH in Hl. rewrite Hl. reflexivity.
Qed.

(** An invariant of the accumulator is an invariant of the fold. *)
Lemma foldM_res_inv {A S} (P : S -> Prop) (f : S -> A -> res S) (l : list A) (s s' : S) :
  (forall s x s', x ∈ l -> P s -> f s x = Ok s' -> P s') ->
  P s -> foldM_res f s l = Ok s' -> P s'.
Proof.
  revert s. induction l as [|x l IH]; intros s Hf Hs H; simpl in H.
  - by res_inv.
  - res_inv. eapply IH; [|eapply Hf|]; eauto using list_elem_of_here, list_elem_of_further.
Qed.

(** A boolean property of the integers below [k] is checked by evaluation. *)
Lemma range_forallb (P : Z -> bool) (k : nat) (x : Z) :
  forallb P (map Z.of_nat (seq 0 k)) = true -> (0 <= x < Z.of_nat k)%Z -> P x = true.
Proof.
  rewrite forallb_forall. intros H Hx. apply H. apply in_map_iff. exists (Z.to_nat x).
  split; [lia|]. apply in_seq. lia.
Qed.
