(* ===== verification/PyValue.v ===== *)
(** Python values: the objects [json.loads] produces, with the operations of
    [dict], [list], [str] and [int] the modelled code uses.

    A [str] is a Rocq [string] holding the UTF-8 encoding of its code points;
    that representation keeps equality, concatenation, prefix tests and the
    code-point order of [sorted].  A lone surrogate (which [json.loads] accepts in
    an escape) is the three bytes its code point would have, and [encode_utf8]
    raises on it, as [str.encode] does.  A [float] is its [repr], which identifies
    the value. *)

From S2P Require Import Prelude.
#[local] Open Scope Z_scope.

(** ** Values *)
Unset Elimination Schemes.
Inductive pyval :=
| PNone
| PBool (b : bool)
| PInt (z : Z)
| PFloat (repr : string)
| PStr (s : string)
| PList (l : list pyval)
| PDict (d : list (string * pyval)).
Set Elimination Schemes.

(** Induction that reaches the values inside lists and dicts. *)
Definition pyval_ind (P : pyval -> Prop)
  (Hnone : P PNone) (Hbool : forall b, P (PBool b)) (Hint : forall z, P (PInt z))
  (Hfloat : forall r, P (PFloat r)) (Hstr : forall s, P (PStr s))
  (Hlist : forall l, Forall P l -> P (PList l))
  (Hdict : forall d, Forall (fun kv => P kv.2) d -> P (PDict d)) :
  forall v, P v :=
  fix go v :=
    match v return P v with
    | PNone => Hnone
    | PBool b => Hbool b
    | PInt z => Hint z
    | PFloat r => Hfloat r
    | PStr s => Hstr s
    | PList l =>
        Hlist l ((fix gol l : Forall P l :=
          match l with
          | [] => Forall_nil_2 _
          | x :: l => Forall_cons_2 _ _ _ (go x) (gol l)
          end) l)
    | PDict d =>
        Hdict d ((fix god d : Forall (fun kv => P kv.2) d :=
          match d with
          | [] => Forall_nil_2 _
          | kv :: d => Forall_cons_2 (fun kv => P kv.2) _ _ (go kv.2) (god d)
          end) d)
    end.

#[export] Instance pyval_eq_dec : EqDecision pyval.
Proof.
  unfold EqDecision, Decision.
  refine (fix go (x y : pyval) {struct x} : {x = y} + {x <> y} := _).
  refine (match x, y return {x = y} + {x <> y} with
  | PNone, PNone => left eq_refl
  | PBool a, PBool b => if decide (a = b) then left _ else right _
  | PInt a, PInt b => if decide (a = b) then left _ else right _
  | PFloat a, PFloat b => if decide (a = b) then left _ else right _
  | PStr a, PStr b => if decide (a = b) then left _ else right _
  | PList a, PList b =>
      if (fix gol (a b : list pyval) {struct a} : {a = b} + {a <> b} := _) a b
      then left _ else right _
  | PDict a, PDict b =>
      if (fix god (a b : list (string * pyval)) {struct a} : {a = b} + {a <> b} := _) a b
      then left _ else right _
  | _, _ => right _
  end); try congruence.
  - destruct a as [|u a], b as [|v b]; try (by left); try (right; congruence).
    destruct (go u v) as [->|]; [|right; congruence].
    destruct (gol a b) as [->|]; [by left | right; congruence].
  - destruct a as [|[k u] a], b as [|[k' v] b]; try (by left); try (right; congruence).
    destruct (decide (k = k')) as [->|]; [|right; congruence].
    destruct (go u v) as [->|]; [|right; congruence].
    destruct (god a b) as [->|]; [by left | right; congruence].
Defined.

(** ** Dicts: association lists in insertion order *)
Fixpoint dget {A} (k : string) (d : list (string * A)) : option A :=
  match d with
  | [] => None
  | (k', v) :: d => if String.eqb k k' then Some v else dget k d
  end.

(** [d[k] = v]: replaces in place, or appends. *)
Fixpoint dset {A} (k : string) (v : A) (d : list (string * A)) : list (string * A) :=
  match d with
  | [] => [(k, v)]
  | (k', v') :: d => if String.eqb k k' then (k', v) :: d else (k', v') :: dset k v d
  end.

Definition keys {A} (d : list (string * A)) : list string := d.*1.
Definition has_key {A} (k : string) (d : list (string * A)) : bool :=
  match dget k d with Some _ => true | None => false end.

(** [d.get(k, default)]. *)
Definition dget_or {A} (k : string) (default : A) (d : list (string * A)) : A :=
  match dget k d with Some v => v | None => default end.
(** [d.get(k)] on a dict of JSON values. *)
Definition vget (k : string) (d : list (string * pyval)) : pyval := dget_or k PNone d.

(** [x.get(k, default)] where [x] may not be a dict. *)
Definition attr_get_or (k : string) (default : pyval) (v : pyval) : res pyval :=
  match v with PDict d => Ok (dget_or k default d) | _ => Raise (AttributeError "get") end.

(** [dict(pairs)] for pairs in order: a later duplicate replaces the value. *)
Definition dict_of_pairs {A} (ps : list (string * A)) : list (string * A) :=
  fold_left (fun d kv => dset kv.1 kv.2 d) ps [].

(** ** Sets of strings, as lists *)
Definition mem (k : string) (l : list string) : bool := existsb (String.eqb k) l.
Fixpoint nodupb (l : list string) : bool :=
  match l with [] => true | x :: l => negb (mem x l) && nodupb l end.
(** [a - b], [a <= b], [a == b] as sets. *)
Definition set_diff (a b : list string) : list string :=
  List.filter (fun k => negb (mem k b)) a.
Definition subsetb (a b : list string) : bool := forallb (fun k => mem k b) a.
Definition set_eqb (a b : list string) : bool := subsetb a b && subsetb b a.
Definition disjointb (a b : list string) : bool := forallb (fun k => negb (mem k b)) a.

(** ** isinstance, truth value, equality with a constant *)
Definition is_str (v : pyval) : bool := match v with PStr _ => true | _ => false end.
Definition is_dict (v : pyval) : bool := match v with PDict _ => true | _ => false end.
Definition is_list (v : pyval) : bool := match v with PList _ => true | _ => false end.

(** [v == "s"]. *)
Definition eq_str (v : pyval) (s : string) : bool :=
  match v with PStr t => String.eqb t s | _ => false end.
(** [v == 1]: [True] and [1.0] compare equal to [1] in Python. *)
Definition eq_one (v : pyval) : bool :=
  match v with
  | PInt z => z =? 1
  | PBool b => b
  | PFloat r => String.eqb r "1.0"
  | _ => false
  end.
(** [isinstance(v, int) and not isinstance(v, bool)]. *)
Definition as_int (v : pyval) : option Z := match v with PInt z => Some z | _ => None end.

Definition truthy (v : pyval) : bool :=
  match v with
  | PNone => false
  | PBool b => b
  | PInt z => negb (z =? 0)
  | PFloat r => negb (String.eqb r "0.0" || String.eqb r "-0.0")
  | PStr s => negb (String.eqb s "")
  | PList l => match l with [] => false | _ => true end
  | PDict d => match d with [] => false | _ => true end
  end.

(** ** Characters and strings *)
Definition byte_of (z : Z) : ascii := ascii_of_N (Z.to_N z).
Definition code (a : ascii) : Z := Z.of_N (N_of_ascii a).
Definition bytes (l : list Z) : string := string_of_list_ascii (map byte_of l).
Definition is_cont (a : ascii) : bool := (128 <=? code a) && (code a <? 192).

(** The characters (code points) of a string, each as its UTF-8 bytes: every
    continuation byte belongs to the byte before it. *)
Fixpoint pychars (s : string) : list string :=
  match s with
  | "" => []
  | String a r =>
      match pychars r with
      | String b c :: cs => if is_cont b then String a (String b c) :: cs
                            else String a "" :: String b c :: cs
      | cs => String a "" :: cs
      end
  end%string.

(** [len(s)]. *)
Definition py_len (s : string) : Z := Z.of_nat (length (pychars s)).
(** [len(s.encode("utf-8"))] when the encoding succeeds. *)
Definition byte_len (s : string) : Z := Z.of_nat (String.length s).
(** [s[:n]] and [s[-n:]]. *)
Definition py_take (n : nat) (s : string) : string := String.concat "" (take n (pychars s)).
Definition py_drop (n : nat) (s : string) : string := String.concat "" (drop n (pychars s)).

(** The characters [str.isspace] accepts. *)
Definition whitespace : list string :=
  map bytes ([[9]; [10]; [11]; [12]; [13]; [28]; [29]; [30]; [31]; [32];
             [194; 133]; [194; 160]; [225; 154; 128]] ++
             map (fun n => [226; 128; 128 + Z.of_nat n]) (seq 0 11) ++
             [[226; 128; 168]; [226; 128; 169]; [226; 128; 175]; [226; 129; 159];
              [227; 128; 128]]).
Definition is_space (c : string) : bool := mem c whitespace.
Definition any_space (s : string) : bool := existsb is_space (pychars s).

Fixpoint drop_while {A} (p : A -> bool) (l : list A) : list A :=
  match l with [] => [] | x :: r => if p x then drop_while p r else l end.
Definition strip_chars (p : string -> bool) (s : string) : string :=
  String.concat "" (rev (drop_while p (rev (drop_while p (pychars s))))).
(** [s.strip()]. *)
Definition py_strip (s : string) : string := strip_chars is_space s.
(** [s.rstrip("-")], [s.endswith(t)]. *)
Definition rstrip_char (c : string) (s : string) : string :=
  String.concat "" (rev (drop_while (String.eqb c) (rev (pychars s)))).
Definition startswith (p s : string) : bool := String.prefix p s.
Definition endswith (t s : string) : bool :=
  let n := (String.length s - String.length t)%nat in
  String.eqb (String.substring n (String.length t) s) t && (String.length t <=? String.length s)%nat.

(** [c in s] for a one-byte [c]. *)
Definition has_byte (z : Z) (s : string) : bool :=
  existsb (fun a => code a =? z) (list_ascii_of_string s).

(** A lone surrogate in the representation: byte ED followed by A0..BF. *)
Fixpoint has_surrogate (s : string) : bool :=
  match s with
  | String a (String b _ as r) =>
      ((code a =? 237) && (160 <=? code b)) || has_surrogate r
  | _ => false
  end.
(** [s.encode("utf-8")]. *)
Definition encode_utf8 (s : string) : res string :=
  if has_surrogate s then Raise UnicodeEncodeError else Ok s.

(** Strict UTF-8 ([bytes.decode("utf-8")]): well-formed sequences only. *)
Definition cont_in (lo hi : Z) (a : ascii) : bool := (lo <=? code a) && (code a <=? hi).
Fixpoint utf8_valid (s : string) : bool :=
  match s with
  | "" => true
  | String a r =>
      let c := code a in
      if c <? 128 then utf8_valid r
      else if (194 <=? c) && (c <=? 223) then
        match r with String b r => is_cont b && utf8_valid r | _ => false end
      else if (224 <=? c) && (c <=? 239) then
        match r with
        | String b (String d r) =>
            cont_in (if c =? 224 then 160 else 128) (if c =? 237 then 159 else 191) b &&
            is_cont d && utf8_valid r
        | _ => false
        end
      else if (240 <=? c) && (c <=? 244) then
        match r with
        | String b (String d (String e r)) =>
            cont_in (if c =? 240 then 144 else 128) (if c =? 244 then 143 else 191) b &&
            is_cont d && is_cont e && utf8_valid r
        | _ => false
        end
      else false
  end.
Definition decode_utf8 (s : string) : res string :=
  if utf8_valid s then Ok s else Raise UnicodeDecodeError.

(** ** Integers and text *)
Fixpoint digits_rev (fuel : nat) (n : Z) : list Z :=
  match fuel with
  | O => []
  | S f => if n <? 10 then [n] else n mod 10 :: digits_rev f (n / 10)
  end.
(** [str(n)] for a non-negative [n]; [Z.log2 n + 1] bounds the digits. *)
Definition str_nat (n : Z) : string :=
  bytes (map (Z.add 48) (rev (digits_rev (Z.to_nat (Z.log2 n) + 1) n))).
Definition py_str_int (z : Z) : string :=
  if z <? 0 then ("-" ++ str_nat (- z))%string else str_nat z.

Definition is_digit (a : ascii) : bool := (48 <=? code a) && (code a <=? 57).
(** The value of a run of decimal digits. *)
Definition digits_value (s : string) : Z :=
  fold_left (fun n a => 10 * n + (code a - 48)) (list_ascii_of_string s) 0.
(** CPython refuses to convert decimal text of more than 4300 digits. *)
Definition int_max_str_digits : Z := 4300.
(** [int(s)] on text the caller has matched against [[0-9]+]. *)
Definition int_of_digits (s : string) : res Z :=
  if int_max_str_digits <? byte_len s
  then Raise (ValueError "Exceeds the limit (4300 digits) for integer string conversion")
  else Ok (digits_value s).

(** [int(s)] on ASCII text: blanks, a sign and digit groups joined by single
    underscores; [None] is a [ValueError]. *)
Fixpoint int_body (n : Z) (digit_seen : bool) (s : string) : option Z :=
  match s with
  | ""%string => if digit_seen then Some n else None
  | String a r =>
      if is_digit a then int_body (10 * n + (code a - 48)) true r
      else if (code a =? 95) && digit_seen then int_body n false r
      else None
  end.
Definition int_opt (s : string) : option Z :=
  match py_strip s with
  | String a r =>
      if int_max_str_digits <? byte_len (py_strip s) then None
      else if code a =? 45 then Z.opp <$> int_body 0 false r
      else if code a =? 43 then int_body 0 false r
      else int_body 0 false (String a r)
  | ""%string => None
  end.

(** ** Lemmas: sets and dicts *)
Lemma mem_In (k : string) (l : list string) : mem k l = true <-> k ∈ l.
Proof.
  unfold mem. rewrite existsb_exists, list_elem_of_In. split.
  - intros (x & Hx & ->%String.eqb_eq). done.
  - intros H. exists k. by rewrite String.eqb_refl.
Qed.

Lemma mem_not_In (k : string) (l : list string) : mem k l = false <-> k ∉ l.
Proof. rewrite <- mem_In. destruct (mem k l); naive_solver. Qed.

Lemma nodupb_NoDup (l : list string) : nodupb l = true <-> NoDup l.
Proof.
  induction l as [|x l IH]; simpl; [split; [constructor|done]|].
  rewrite andb_true_iff, negb_true_iff, IH, mem_not_In, NoDup_cons. done.
Qed.

Lemma subsetb_spec (a b : list string) : subsetb a b = true <-> a ⊆ b.
Proof.
  unfold subsetb. rewrite forallb_forall. split.
  - intros H x Hx. apply mem_In, H. by apply list_elem_of_In.
  - intros H x Hx. apply mem_In, H. by apply list_elem_of_In.
Qed.

Lemma set_eqb_spec (a b : list string) : set_eqb a b = true <-> forall x, x ∈ a <-> x ∈ b.
Proof. unfold set_eqb. rewrite andb_true_iff, !subsetb_spec. set_solver. Qed.

Lemma disjointb_spec (a b : list string) :
  disjointb a b = true <-> forall k, k ∈ a -> k ∉ b.
Proof.
  unfold disjointb. rewrite forallb_forall. split.
  - intros H x Hx. apply mem_not_In. apply negb_true_iff, H. by apply list_elem_of_In.
  - intros H x Hx. apply negb_true_iff, mem_not_In, H. by apply list_elem_of_In.
Qed.

Lemma set_diff_nil (a b : list string) : set_diff a b = [] <-> a ⊆ b.
Proof.
  unfold set_diff. split.
  - intros H x Hx. apply mem_In. destruct (mem x b) eqn:E; [done|].
    assert (List.In x []) as []. rewrite <- H. apply filter_In.
    rewrite E. split; [by apply list_elem_of_In | done].
  - intros H. induction a as [|x a IH]; [done|]. simpl.
    assert (mem x b = true) as -> by (apply mem_In, H, list_elem_of_here).
    simpl. apply IH. intros y Hy. apply H. by apply list_elem_of_further.
Qed.

Lemma dget_Some_In {A} (k : string) (v : A) (d : list (string * A)) :
  dget k d = Some v -> (k, v) ∈ d.
Proof.
  induction d as [|[k' v'] d IH]; simpl; [done|].
  destruct (String.eqb_spec k k') as [->|]; intros H; simplify_eq.
  - apply list_elem_of_here.
  - apply list_elem_of_further, IH, H.
Qed.

Lemma dget_None {A} (k : string) (d : list (string * A)) :
  dget k d = None <-> k ∉ keys d.
Proof.
  unfold keys. induction d as [|[k' v'] d IH]; simpl.
  - split; [intros _; apply not_elem_of_nil | done].
  - rewrite not_elem_of_cons, <- IH.
    destruct (String.eqb_spec k k') as [->|]; naive_solver.
Qed.

Lemma dget_In {A} (k : string) (v : A) (d : list (string * A)) :
  NoDup (keys d) -> (k, v) ∈ d -> dget k d = Some v.
Proof.
  unfold keys. induction d as [|[k' v'] d IH]; simpl; intros Hnd Hin.
  - by apply not_elem_of_nil in Hin.
  - apply NoDup_cons in Hnd as [Hk Hnd].
    apply elem_of_cons in Hin as [Heq|Hin]; simplify_eq.
    + by rewrite String.eqb_refl.
    + destruct (String.eqb_spec k k') as [->|]; [|by apply IH].
      contradict Hk. apply list_elem_of_fmap. by exists (k', v).
Qed.

Lemma dget_dset {A} (k k' : string) (v : A) (d : list (string * A)) :
  dget k (dset k' v d) = if String.eqb k k' then Some v else dget k d.
Proof.
  induction d as [|[k1 v1] d IH]; simpl.
  - done.
  - destruct (String.eqb_spec k' k1) as [->|Hne]; simpl.
    + destruct (String.eqb_spec k k1); done.
    + destruct (String.eqb_spec k k1) as [->|]; [|done].
      destruct (String.eqb_spec k1 k'); congruence.
Qed.

Lemma keys_dset {A} (k : string) (v : A) (d : list (string * A)) :
  keys (dset k v d) = if mem k (keys d) then keys d else keys d ++ [k].
Proof.
  unfold keys. induction d as [|[k1 v1] d IH]; simpl; [done|].
  destruct (String.eqb_spec k k1) as [->|]; simpl; [done|].
  unfold fmap in *. rewrite IH. by destruct (mem k (list_fmap _ _ fst d)).
Qed.

Lemma NoDup_keys_dset {A} (k : string) (v : A) (d : list (string * A)) :
  NoDup (keys d) -> NoDup (keys (dset k v d)).
Proof.
  intros H. rewrite keys_dset. destruct (mem k (keys d)) eqn:E; [done|].
  apply NoDup_app. repeat split; [done| |apply NoDup_singleton].
  intros x Hx ->%list_elem_of_singleton. by apply mem_not_In in E.
Qed.

Lemma dset_fresh {A} (k : string) (v : A) (d : list (string * A)) :
  k ∉ keys d -> dset k v d = d ++ [(k, v)].
Proof.
  unfold keys. induction d as [|[k1 v1] d IH]; simpl; [done|].
  rewrite not_elem_of_cons. intros [Hne Hin].
  destruct (String.eqb_spec k k1); [done|]. by rewrite IH.
Qed.

Lemma dict_of_pairs_NoDup {A} (ps : list (string * A)) :
  NoDup (keys ps) -> dict_of_pairs ps = ps.
Proof.
  unfold dict_of_pairs. intros H.
  enough (forall acc : list (string * A), NoDup (keys (acc ++ ps)) ->
    fold_left (fun d kv => dset kv.1 kv.2 d) ps acc = acc ++ ps) as G.
  { apply (G []), H. }
  clear H. induction ps as [|[k v] ps IH]; intros acc H; simpl.
  - by rewrite app_nil_r.
  - rewrite dset_fresh.
    + rewrite IH; rewrite <- app_assoc; done.
    + unfold keys in *. rewrite fmap_app in H. simpl in H.
      apply NoDup_app in H as (_ & H & _). intros Hk. eapply H; [done|]. apply list_elem_of_here.
Qed.

(** ** Lemmas: strings *)
Lemma append_nil_r (s : string) : (s ++ "")%string = s.
Proof. induction s as [|a s IH]; simpl; [done|]. f_equal. exact IH. Qed.

Lemma append_assoc (a b c : string) : (a ++ (b ++ c))%string = ((a ++ b) ++ c)%string.
Proof. induction a as [|x a IH]; simpl; [done|]. f_equal. exact IH. Qed.

Lemma append_length (a b : string) :
  String.length (a ++ b)%string = (String.length a + String.length b)%nat.
Proof. induction a as [|x a IH]; simpl; [done|]. f_equal. exact IH. Qed.

Lemma concat_cons (x : string) (l : list string) :
  String.concat "" (x :: l) = (x ++ String.concat "" l)%string.
Proof. destruct l; simpl; [symmetry; apply append_nil_r | done]. Qed.

Lemma concat_app (l k : list string) :
  String.concat "" (l ++ k) = (String.concat "" l ++ String.concat "" k)%string.
Proof.
  induction l as [|x l IH]; [done|].
  change ((x :: l) ++ k) with (x :: (l ++ k)).
  by rewrite !concat_cons, IH, append_assoc.
Qed.

Lemma concat_pychars (s : string) : String.concat "" (pychars s) = s.
Proof.
  induction s as [|a s IH]; [done|]. simpl.
  destruct (pychars s) as [|[|b c] cs]; rewrite ?concat_cons in *; simpl in *.
  - by rewrite <- IH.
  - by rewrite IH.
  - destruct (is_cont b); rewrite ?concat_cons in *; simpl in *; rewrite ?concat_cons;
      simpl; by rewrite IH.
Qed.

Lemma pychars_nonempty (s : string) : "" ∉ pychars s.
Proof.
  induction s as [|a s IH]; simpl; [apply not_elem_of_nil|].
  destruct (pychars s) as [|[|b c] cs]; rewrite ?not_elem_of_cons in *; [done..|].
  destruct (is_cont b); rewrite ?not_elem_of_cons in *; naive_solver.
Qed.

Lemma concat_length_ge (l : list string) :
  "" ∉ l -> (length l <= String.length (String.concat "" l))%nat.
Proof.
  induction l as [|x l IH]; intros H; [simpl; lia|].
  apply not_elem_of_cons in H as [Hx Hl]. rewrite concat_cons, append_length.
  specialize (IH Hl). destruct x; [done|]. simpl in *. lia.
Qed.

Lemma py_len_byte_len (s : string) : 0 <= py_len s <= byte_len s.
Proof.
  unfold py_len, byte_len. split; [lia|].
  pose proof (concat_length_ge (pychars s) (pychars_nonempty s)) as H.
  rewrite concat_pychars in H. lia.
Qed.

(** ** Lemmas: decimal text *)
Lemma code_byte_of (z : Z) : 0 <= z < 256 -> code (byte_of z) = z.
Proof.
  intros H. unfold code, byte_of. rewrite N_ascii_embedding; lia.
Qed.

Lemma byte_of_code (a : ascii) : byte_of (code a) = a.
Proof. unfold code, byte_of. by rewrite N2Z.id, ascii_N_embedding. Qed.

Lemma code_range (a : ascii) : 0 <= code a < 256.
Proof. unfold code. pose proof (N_ascii_bounded a). lia. Qed.

Lemma list_ascii_bytes (l : list Z) : list_ascii_of_string (bytes l) = map byte_of l.
Proof. unfold bytes. by rewrite list_ascii_of_string_of_list_ascii. Qed.

Lemma digits_rev_spec (fuel : nat) (n : Z) :
  0 <= n < 10 ^ Z.of_nat fuel ->
  Forall (fun d => 0 <= d < 10) (digits_rev fuel n) /\
  fold_right (fun d acc => 10 * acc + d) 0 (digits_rev fuel n) = n.
Proof.
  revert n. induction fuel as [|f IH]; intros n Hn.
  - change (10 ^ Z.of_nat 0) with 1 in Hn. simpl. split; [constructor | lia].
  - rewrite Nat2Z.inj_succ, Z.pow_succ_r in Hn by lia. simpl.
    destruct (Z.ltb_spec n 10); [split; [constructor; [lia|constructor] | simpl; lia]|].
    destruct (IH (n / 10)) as [Hf Hv].
    { split; [apply Z.div_pos; lia | apply Z.div_lt_upper_bound; lia]. }
    pose proof (Z.mod_pos_bound n 10 ltac:(lia)). pose proof (Z.div_mod n 10 ltac:(lia)).
    split; [constructor; [lia | done] | simpl; rewrite Hv; lia].
Qed.

Lemma log2_fuel (n : Z) : 0 <= n -> n < 10 ^ Z.of_nat (Z.to_nat (Z.log2 n) + 1).
Proof.
  intros Hn. pose proof (Z.log2_nonneg n).
  replace (Z.of_nat (Z.to_nat (Z.log2 n) + 1)) with (Z.succ (Z.log2 n)) by lia.
  destruct (Z.eq_dec n 0) as [->|]; [apply Z.pow_pos_nonneg; simpl; lia|].
  eapply Z.lt_le_trans; [apply Z.log2_spec; lia|]. apply Z.pow_le_mono_l. lia.
Qed.

(** Decimal text denotes the number it was printed from. *)
Lemma digits_value_str_nat (n : Z) : 0 <= n -> digits_value (str_nat n) = n.
Proof.
  intros Hn. unfold digits_value, str_nat. rewrite list_ascii_bytes.
  destruct (digits_rev_spec (Z.to_nat (Z.log2 n) + 1) n) as [Hf Hv].
  { split; [lia | by apply log2_fuel]. }
  revert Hf Hv. generalize (digits_rev (Z.to_nat (Z.log2 n) + 1) n).
  intros l Hl <-. clear Hn.
  rewrite <- fold_left_rev_right, <- !map_rev, rev_involutive.
  induction Hl as [|d l Hd Hl IH]; [done|]. simpl. rewrite IH, code_byte_of; lia.
Qed.

Fixpoint all_digits (s : string) : bool :=
  match s with ""%string => true | String a s => is_digit a && all_digits s end.

Lemma all_digits_str_nat (n : Z) : 0 <= n -> all_digits (str_nat n) = true.
Proof.
  intros Hn. unfold str_nat, bytes.
  destruct (digits_rev_spec (Z.to_nat (Z.log2 n) + 1) n) as [Hf _].
  { split; [lia | by apply log2_fuel]. }
  apply Forall_rev in Hf. rewrite map_map.
  induction Hf as [|d l Hd Hl IH]; [done|]. simpl. rewrite IH.
  unfold is_digit. rewrite code_byte_of by lia.
  rewrite andb_true_r. apply andb_true_iff. lia.
Qed.

Lemma digits_rev_last (fuel : nat) (n : Z) :
  0 < n < 10 ^ Z.of_nat fuel -> exists l d, digits_rev fuel n = l ++ [d] /\ 0 < d < 10.
Proof.
  revert n. induction fuel as [|f IH]; intros n Hn.
  - change (10 ^ Z.of_nat 0) with 1 in Hn. lia.
  - rewrite Nat2Z.inj_succ, Z.pow_succ_r in Hn by lia. simpl.
    destruct (Z.ltb_spec n 10); [by exists [], n; split; [|lia]|].
    destruct (IH (n / 10)) as (l & d & -> & Hd).
    { split; [apply Z.div_str_pos; lia | apply Z.div_lt_upper_bound; lia]. }
    by exists (n mod 10 :: l), d.
Qed.

(** A positive number is printed without a leading zero. *)
Lemma str_nat_head (n : Z) :
  0 < n -> exists d r, str_nat n = String (byte_of (48 + d)) r /\ 0 < d < 10.
Proof.
  intros Hn. unfold str_nat.
  destruct (digits_rev_last (Z.to_nat (Z.log2 n) + 1) n) as (l & d & -> & Hd).
  { split; [done | apply log2_fuel; lia]. }
  rewrite rev_app_distr. exists d, (bytes (map (Z.add 48) (rev l))). done.
Qed.

(** ** Slices are no longer than asked *)
Definition char_ok (c : string) : Prop :=
  exists a conts, c = String a conts /\ forallb is_cont (list_ascii_of_string conts) = true.

Lemma pychars_ok (s : string) : Forall char_ok (pychars s).
Proof.
  induction s as [|a s IH]; [constructor|]. cbn [pychars].
  assert (char_ok (String a "")) by (by exists a, ""%string).
  destruct (pychars s) as [|[|b c] cs]; [by repeat constructor|by constructor|].
  destruct (is_cont b) eqn:Hb; [|by constructor].
  apply Forall_cons in IH as [(b' & c' & [= <- <-] & Hc) IH]. constructor; [|done].
  exists a, (String b c). split; [done|]. simpl. by rewrite Hb.
Qed.

Lemma pychars_head (a : ascii) (s : string) : exists c cs, pychars (String a s) = String a c :: cs.
Proof.
  cbn [pychars]. destruct (pychars s) as [|[|b c] cs]; [by eexists _, _..|]. destruct (is_cont b); by eexists _, _.
Qed.

Lemma pychars_cons (a : ascii) (r : string) :
  pychars (String a r) =
  match pychars r with
  | String b c :: cs => if is_cont b then String a (String b c) :: cs else String a "" :: String b c :: cs
  | cs => String a "" :: cs
  end.
Proof. reflexivity. Qed.

Lemma pychars_char (c s : string) : char_ok c -> (length (pychars (c ++ s)) <= S (length (pychars s)))%nat.
Proof.
  intros (a & conts & -> & Hc). revert a. induction conts as [|b conts IH]; intros a; simpl in Hc.
  - cbn [String.append pychars]. destruct (pychars s) as [|[|b c] cs]; [done|done|]. destruct (is_cont b); simpl; lia.
  - apply andb_true_iff in Hc as [Hb Hc]. specialize (IH Hc b). cbn [String.append] in *.
    destruct (pychars_head b (conts ++ s)) as (c & cs & E). rewrite (pychars_cons a), E, Hb. rewrite E in IH. exact IH.
Qed.

Lemma py_len_take (n : nat) (s : string) : py_len (py_take n s) <= Z.of_nat n.
Proof.
  unfold py_len, py_take. assert (Forall char_ok (take n (pychars s))) as H by apply Forall_take, pychars_ok.
  assert (length (take n (pychars s)) <= n)%nat as Hn by (rewrite length_take; lia).
  assert (forall l, Forall char_ok l -> (length (pychars (String.concat "" l)) <= length l)%nat) as K.
  { intros l Hl. induction Hl as [|c l Hc Hl IH]; [done|].
    pose proof (pychars_char c (String.concat "" l) Hc). destruct l as [|x l].
    - simpl in *. rewrite append_nil_r in *. lia.
    - change (String.concat "" (c :: x :: l)) with (c ++ String.concat "" (x :: l))%string. simpl length in *. lia. }
  specialize (K _ H). lia.
Qed.

Lemma drop_while_suffix {A} (p : A -> bool) (l : list A) :
  exists k, l = k ++ drop_while p l.
Proof.
  induction l as [|x l [k IH]]; [by exists []|]. simpl.
  destruct (p x); [|by exists []]. exists (x :: k). simpl. by f_equal.
Qed.

Lemma append_inj_l (p x y : string) : (p ++ x)%string = (p ++ y)%string -> x = y.
Proof. induction p as [|a p IH]; [done|]. cbn [String.append]. intros [= E]. by apply IH. Qed.
Lemma rstrip_prefix (c s : string) : exists t, s = (rstrip_char c s ++ t)%string.
Proof.
  unfold rstrip_char.
  destruct (drop_while_suffix (String.eqb c) (rev (pychars s))) as [k Hk].
  apply (f_equal (@rev string)) in Hk. rewrite rev_involutive, rev_app_distr in Hk.
  exists (String.concat "" (rev k)). rewrite <- concat_app, <- Hk. symmetry. apply concat_pychars.
Qed.
