(* ===== verification/Regex.v ===== *)
(** The fragment of Python's [re] the modelled code uses with [fullmatch]:
    character classes, sequence, alternative and bounded repetition over the bytes
    of a string.  [fullmatch] runs by derivatives; [matches] is its declarative
    reading, and the characterisations at the end are what the clients use. *)

From S2P Require Import Prelude PyValue.

Inductive regex :=
| Void
| Eps
| Cls (p : ascii -> bool)
| Seq (r s : regex)
| Alt (r s : regex)
| Rep (lo : nat) (hi : option nat) (r : regex).

(** ** Character classes *)
Definition between (lo hi : string) (a : ascii) : bool :=
  match lo, hi with
  | String l "", String h "" => ((code l <=? code a) && (code a <=? code h))%Z
  | _, _ => false
  end%string.
Definition one_of (cs : string) (a : ascii) : bool :=
  existsb (Ascii.eqb a) (list_ascii_of_string cs).
Definition por (p q : ascii -> bool) (a : ascii) : bool := p a || q a.
Definition lower_digit : ascii -> bool := por (between "a" "z") (between "0" "9").
Definition hex_lower : ascii -> bool := por (between "0" "9") (between "a" "f").

(** A literal. *)
Fixpoint lit (s : string) : regex :=
  match s with
  | "" => Eps
  | String a "" => Cls (Ascii.eqb a)
  | String a r => Seq (Cls (Ascii.eqb a)) (lit r)
  end%string.
Definition opt (r : regex) : regex := Rep 0 (Some 1%nat) r.
Definition star (r : regex) : regex := Rep 0 None r.

(** ** Matching *)
Fixpoint nullable (r : regex) : bool :=
  match r with
  | Void | Cls _ => false
  | Eps => true
  | Seq r s => nullable r && nullable s
  | Alt r s => nullable r || nullable s
  | Rep lo hi r => (lo =? 0)%nat ||
      (nullable r && match hi with Some h => (lo <=? h)%nat | None => true end)
  end.

Definition seq' (r s : regex) : regex :=
  match r, s with Void, _ => Void | _, Void => Void | Eps, s => s | r, s => Seq r s end.
Definition alt' (r s : regex) : regex :=
  match r, s with Void, s => s | r, Void => r | r, s => Alt r s end.

Fixpoint deriv (a : ascii) (r : regex) : regex :=
  match r with
  | Void | Eps => Void
  | Cls p => if p a then Eps else Void
  | Seq r s => if nullable r then alt' (seq' (deriv a r) s) (deriv a s)
               else seq' (deriv a r) s
  | Alt r s => alt' (deriv a r) (deriv a s)
  | Rep lo hi r =>
      match hi with
      | Some O => Void
      | Some (S h) => if (lo <=? S h)%nat then seq' (deriv a r) (Rep (pred lo) (Some h) r) else Void
      | None => seq' (deriv a r) (Rep (pred lo) None r)
      end
  end.

Fixpoint fullmatch (r : regex) (s : string) : bool :=
  match s with
  | ""%string => nullable r
  | String a s => fullmatch (deriv a r) s
  end.

(** ** Declarative reading *)
Fixpoint matches (r : regex) (s : string) : Prop :=
  match r with
  | Void => False
  | Eps => s = ""%string
  | Cls p => exists a, s = String a "" /\ p a = true
  | Seq r q => exists s1 s2, s = (s1 ++ s2)%string /\ matches r s1 /\ matches q s2
  | Alt r q => matches r s \/ matches q s
  | Rep lo hi r => exists ws, s = String.concat "" ws /\ Forall (matches r) ws /\
      (lo <= length ws)%nat /\ match hi with Some h => (length ws <= h)%nat | None => True end
  end.

Lemma matches_Seq_Void (r : regex) (s : string) : ~ matches (Seq r Void) s.
Proof. intros (s1 & s2 & _ & _ & []). Qed.

Lemma matches_Void_Seq (r : regex) (s : string) : ~ matches (Seq Void r) s.
Proof. intros (s1 & s2 & _ & [] & _). Qed.

Lemma matches_Eps_Seq (r : regex) (s : string) : matches (Seq Eps r) s <-> matches r s.
Proof.
  split.
  - intros (s1 & s2 & -> & -> & H). exact H.
  - intros H. by exists ""%string, s.
Qed.

Lemma matches_seq' (r q : regex) (s : string) :
  matches (seq' r q) s <-> matches (Seq r q) s.
Proof.
  pose proof (matches_Void_Seq q s). pose proof (matches_Seq_Void r s).
  pose proof (matches_Eps_Seq q s).
  destruct r, q; unfold seq'; first [reflexivity | tauto | simpl matches at 1; tauto].
Qed.

Lemma matches_alt' (r q : regex) (s : string) :
  matches (alt' r q) s <-> matches (Alt r q) s.
Proof. destruct r, q; simpl; naive_solver. Qed.

Lemma Forall_replicate_matches (r : regex) (n : nat) :
  matches r "" -> Forall (matches r) (replicate n ""%string).
Proof. intros H. by apply Forall_replicate. Qed.

Lemma concat_replicate_nil (n : nat) : String.concat "" (replicate n ""%string) = ""%string.
Proof. induction n as [|n IH]; [done|]. simpl replicate. by rewrite concat_cons, IH. Qed.

Lemma concat_nil_all (ws : list string) :
  String.concat "" ws = ""%string -> Forall (fun w => w = ""%string) ws.
Proof.
  induction ws as [|w ws IH]; [constructor|]. rewrite concat_cons.
  intros H. destruct w; [|done]. constructor; [done|]. by apply IH.
Qed.

Lemma nullable_spec (r : regex) : nullable r = true <-> matches r "".
Proof.
  induction r as [| |p|r1 IH1 r2 IH2|r1 IH1 r2 IH2|lo hi r IH]; simpl.
  - done.
  - done.
  - split; [done|]. naive_solver.
  - rewrite andb_true_iff, IH1, IH2. split.
    + intros []. by exists "", "".
    + intros (s1 & s2 & H & ? & ?). destruct s1, s2; done.
  - by rewrite orb_true_iff, IH1, IH2.
  - rewrite orb_true_iff, andb_true_iff, Nat.eqb_eq, IH. split.
    + intros [->|[Hr Hh]].
      * exists []. repeat split; [constructor|done|]. destruct hi; simpl; lia || done.
      * exists (replicate lo ""%string). rewrite length_replicate, concat_replicate_nil.
        repeat split; [by apply Forall_replicate_matches|done|].
        destruct hi; [by apply Nat.leb_le | done].
    + intros (ws & Hs & Hws & Hlo & Hhi). destruct lo as [|lo]; [by left|right].
      symmetry in Hs. apply concat_nil_all in Hs. destruct ws as [|w ws]; [simpl in Hlo; lia|].
      inversion Hs; inversion Hws; subst. split; [done|].
      destruct hi; [apply Nat.leb_le; simpl in *; lia | done].
Qed.

Lemma concat_split_first (ws : list string) (a : ascii) (s : string) :
  String.concat "" ws = String a s ->
  exists ws1 w ws2, ws = ws1 ++ String a w :: ws2 /\
    String.concat "" ws1 = ""%string /\ s = (w ++ String.concat "" ws2)%string.
Proof.
  induction ws as [|x ws IH]; [done|]. rewrite concat_cons. destruct x as [|b x]; simpl.
  - intros H. destruct (IH H) as (ws1 & w & ws2 & -> & H1 & ->).
    exists (""%string :: ws1), w, ws2. by rewrite concat_cons, H1.
  - intros [= -> <-]. by exists [], x, ws.
Qed.

(** A repetition that starts with the byte [a] has an iteration that does. *)
Lemma matches_Rep_cons (lo : nat) (hi : option nat) (r : regex) (a : ascii) (s : string) :
  matches (Rep lo hi r) (String a s) <->
  match hi with Some h => (1 <= h)%nat /\ (lo <= h)%nat | None => True end /\
  exists s1 s2, s = (s1 ++ s2)%string /\ matches r (String a s1) /\
    matches (Rep (pred lo) (pred <$> hi) r) s2.
Proof.
  split.
  - intros (ws & Hs & Hws & Hlo & Hhi). symmetry in Hs.
    apply concat_split_first in Hs as (ws1 & w & ws2 & -> & H1 & ->).
    rewrite length_app in *. simpl in *.
    split; [destruct hi; simpl in *; lia || done|].
    apply Forall_app in Hws as [Hws1 Hws2]. inversion Hws2; subst.
    exists w, (String.concat "" ws2). split; [done|]. split; [done|].
    exists (ws1 ++ ws2). rewrite concat_app, H1, length_app.
    repeat split; [by apply Forall_app | lia | destruct hi; simpl in *; lia || done].
  - intros (Hh & s1 & s2 & -> & H1 & ws & -> & Hws & Hlo & Hhi).
    exists (String a s1 :: ws). rewrite concat_cons. simpl.
    repeat split; [by constructor | lia | destruct hi; simpl in *; lia || done].
Qed.

Lemma deriv_spec (a : ascii) (r : regex) (s : string) :
  matches (deriv a r) s <-> matches r (String a s).
Proof.
  revert s. induction r as [| |p|r1 IH1 r2 IH2|r1 IH1 r2 IH2|lo hi r IH]; intros s.
  - done.
  - done.
  - simpl. destruct (p a) eqn:E; simpl; split; intros H.
    + subst. by exists a.
    + destruct H as (b & [= <- ->] & _). done.
    + done.
    + destruct H as (b & [= <- ->] & ?). congruence.
  - cbn [deriv]. destruct (nullable r1) eqn:En.
    + rewrite matches_alt'. cbn [matches]. rewrite matches_seq'. cbn [matches]. split.
      * intros [(s1 & s2 & -> & H1 & H2)|H].
        -- exists (String a s1), s2. by rewrite <- IH1.
        -- exists ""%string, (String a s). rewrite <- nullable_spec, <- IH2. done.
      * intros (s1 & s2 & Hs & H1 & H2). destruct s1 as [|b s1]; simpl in Hs.
        -- right. rewrite IH2. by subst.
        -- left. injection Hs as <- ->. exists s1, s2. by rewrite IH1.
    + rewrite matches_seq'. cbn [matches]. split.
      * intros (s1 & s2 & -> & H1 & H2). exists (String a s1), s2. by rewrite <- IH1.
      * intros (s1 & s2 & Hs & H1 & H2). destruct s1 as [|b s1]; simpl in Hs.
        -- apply nullable_spec in H1. congruence.
        -- injection Hs as <- ->. exists s1, s2. by rewrite IH1.
  - cbn [deriv]. rewrite matches_alt'. simpl. by rewrite IH1, IH2.
  - rewrite matches_Rep_cons. cbn [deriv]. destruct hi as [[|h]|]; cbn [fmap option_fmap option_map].
    + split; [done | lia].
    + simpl pred. destruct (Nat.leb_spec lo (S h)) as [Hle|Hgt].
      * rewrite matches_seq'. cbn [matches]. setoid_rewrite IH. split; [|tauto].
        intros H. split; [lia | exact H].
      * split; [done | lia].
    + rewrite matches_seq'. cbn [matches]. setoid_rewrite IH. tauto.
Qed.

(** [fullmatch] decides [matches]. *)
Lemma fullmatch_spec (r : regex) (s : string) : fullmatch r s = true <-> matches r s.
Proof.
  revert r. induction s as [|a s IH]; intros r; simpl.
  - apply nullable_spec.
  - by rewrite IH, deriv_spec.
Qed.

(** ** Characterisations the clients use *)
Fixpoint all_bytes (p : ascii -> bool) (s : string) : bool :=
  match s with ""%string => true | String a s => p a && all_bytes p s end.

Lemma all_bytes_app (p : ascii -> bool) (s t : string) :
  all_bytes p (s ++ t)%string = all_bytes p s && all_bytes p t.
Proof. induction s as [|a s IH]; simpl; [done|]. by rewrite IH, andb_assoc. Qed.

Lemma all_bytes_impl (p q : ascii -> bool) (s : string) :
  (forall a, p a = true -> q a = true) -> all_bytes p s = true -> all_bytes q s = true.
Proof.
  intros Hpq. induction s as [|a s IH]; simpl; [done|].
  rewrite !andb_true_iff. naive_solver.
Qed.

Lemma matches_Rep_Cls (lo : nat) (hi : option nat) (p : ascii -> bool) (s : string) :
  matches (Rep lo hi (Cls p)) s <->
  all_bytes p s = true /\ (lo <= String.length s)%nat /\
  match hi with Some h => (String.length s <= h)%nat | None => True end.
Proof.
  cbn [matches]. split.
  - intros (ws & -> & Hws & Hlo & Hhi).
    assert (all_bytes p (String.concat "" ws) = true /\
            String.length (String.concat "" ws) = length ws) as [Ha Hl].
    { clear Hlo Hhi. induction Hws as [|w ws (a & -> & Hp) Hws [IHa IHl]]; [done|].
      rewrite concat_cons. simpl. by rewrite Hp, IHa, IHl. }
    rewrite Hl. done.
  - intros (Ha & Hlo & Hhi).
    exists (map (fun a => String a "") (list_ascii_of_string s)).
    assert (String.concat "" (map (fun a => String a "") (list_ascii_of_string s)) = s /\
            Forall (fun w => exists a, w = String a "" /\ p a = true)
              (map (fun a => String a "") (list_ascii_of_string s)) /\
            length (list_ascii_of_string s) = String.length s) as (Hc & Hf & Hl).
    { clear Hlo Hhi. induction s as [|a s IH]; simpl in Ha; [done|].
      apply andb_true_iff in Ha as [Hp Ha]. destruct (IH Ha) as (Hc & Hf & Hl).
      cbn [map list_ascii_of_string]. rewrite concat_cons, Hc. simpl. rewrite Hl.
      repeat split. constructor; [by exists a | done]. }
    rewrite length_map, Hl, Hc. done.
Qed.

Lemma matches_lit (t s : string) : matches (lit t) s <-> s = t.
Proof.
  revert s. induction t as [|a t IH]; intros s; [done|].
  destruct t as [|b t].
  - simpl. split.
    + intros (c & -> & ->%Ascii.eqb_eq). done.
    + intros ->. exists a. by rewrite Ascii.eqb_refl.
  - change (lit (String a (String b t))) with (Seq (Cls (Ascii.eqb a)) (lit (String b t))).
    cbn [matches]. setoid_rewrite IH. split.
    + intros (s1 & s2 & -> & (c & -> & ->%Ascii.eqb_eq) & ->). done.
    + intros ->. exists (String a ""), (String b t). split; [done|]. split; [|done].
      exists a. by rewrite Ascii.eqb_refl.
Qed.

Lemma matches_Cls_Rep (p q : ascii -> bool) (lo : nat) (hi : option nat) (s : string) :
  matches (Seq (Cls p) (Rep lo hi (Cls q))) s ->
  exists a r, s = String a r /\ p a = true /\ all_bytes q r = true /\
    match hi with Some h => (String.length r <= h)%nat | None => True end.
Proof.
  intros (s1 & s2 & -> & (a & -> & Ha) & H%matches_Rep_Cls).
  exists a, s2. naive_solver.
Qed.

(** ** ASCII text: one byte per character *)
Definition is_ascii (a : ascii) : bool := (code a <? 128)%Z.

Lemma ascii_not_cont (a : ascii) : is_ascii a = true -> is_cont a = false.
Proof.
  unfold is_ascii, is_cont. intros H%Z.ltb_lt. apply andb_false_iff. left. apply Z.leb_gt. lia.
Qed.

Lemma pychars_ascii (s : string) :
  all_bytes is_ascii s = true -> pychars s = map (fun a => String a "") (list_ascii_of_string s).
Proof.
  induction s as [|a s IH]; [done|]. cbn [all_bytes]. rewrite andb_true_iff. intros [_ Hs].
  cbn [pychars list_ascii_of_string map]. rewrite IH by done.
  destruct s as [|b s]; [done|]. cbn [all_bytes] in Hs. apply andb_true_iff in Hs as [Hb _].
  cbn [list_ascii_of_string map]. by rewrite (ascii_not_cont b Hb).
Qed.

Lemma concat_singletons (l : list ascii) :
  String.concat "" (map (fun a => String a "") l) = string_of_list_ascii l.
Proof.
  induction l as [|a l IH]; [done|]. cbn [map string_of_list_ascii].
  rewrite concat_cons, IH. done.
Qed.

Lemma py_len_ascii (s : string) : all_bytes is_ascii s = true -> py_len s = byte_len s.
Proof.
  intros H. unfold py_len, byte_len. rewrite pychars_ascii, length_map by done.
  f_equal. clear H. induction s; simpl; congruence.
Qed.

Lemma py_take_ascii (n : nat) (s : string) :
  all_bytes is_ascii s = true -> py_take n s = string_of_list_ascii (take n (list_ascii_of_string s)).
Proof.
  intros H. unfold py_take. rewrite pychars_ascii by done.
  rewrite <- concat_singletons. f_equal. apply firstn_map.
Qed.

Lemma length_list_ascii (s : string) : length (list_ascii_of_string s) = String.length s.
Proof. induction s; simpl; congruence. Qed.

Lemma length_string_of_list (l : list ascii) : String.length (string_of_list_ascii l) = length l.
Proof. induction l; simpl; congruence. Qed.

Lemma all_bytes_list (p : ascii -> bool) (l : list ascii) :
  all_bytes p (string_of_list_ascii l) = forallb p l.
Proof. induction l as [|a l IH]; simpl; [done|]. by rewrite IH. Qed.

Lemma all_bytes_string (p : ascii -> bool) (s : string) :
  all_bytes p s = forallb p (list_ascii_of_string s).
Proof. induction s as [|a s IH]; simpl; [done|]. by rewrite IH. Qed.

Lemma digits_value_nonneg (s : string) : all_bytes is_digit s = true -> (0 <= digits_value s)%Z.
Proof.
  unfold digits_value. rewrite all_bytes_string. generalize (list_ascii_of_string s). intros l.
  assert (forall n, 0 <= n -> forallb is_digit l = true -> 0 <= fold_left (fun n a => 10 * n + (code a - 48)) l n)%Z as K;
    [|by apply K].
  induction l as [|a l IH]; intros n Hn; cbn; [done|]. intros [Ha Hl]%andb_true_iff. apply IH; [|done].
  unfold is_digit in Ha. lia.
Qed.

Lemma forallb_take {A} (p : A -> bool) (n : nat) (l : list A) :
  forallb p l = true -> forallb p (take n l) = true.
Proof.
  revert n. induction l as [|x l IH]; intros [|n]; simpl; try done.
  rewrite !andb_true_iff. naive_solver.
Qed.

(** A prefix of ASCII text. *)
Lemma py_take_shape (n : nat) (s : string) (p : ascii -> bool) :
  (forall a, p a = true -> is_ascii a = true) -> all_bytes p s = true ->
  all_bytes p (py_take n s) = true /\ String.length (py_take n s) = Nat.min n (String.length s).
Proof.
  intros Hp Hs. rewrite py_take_ascii by (by eapply all_bytes_impl).
  rewrite all_bytes_list, length_string_of_list, length_take, length_list_ascii.
  split; [|done]. apply forallb_take. by rewrite <- all_bytes_string.
Qed.

Lemma lower_digit_ascii (a : ascii) : lower_digit a = true -> is_ascii a = true.
Proof. destruct a as [[] [] [] [] [] [] [] []]; vm_compute; congruence. Qed.
Lemma hex_lower_digit (a : ascii) : hex_lower a = true -> lower_digit a = true.
Proof. destruct a as [[] [] [] [] [] [] [] []]; vm_compute; congruence. Qed.
