(* ===== verification/Sha256.v ===== *)
(** [hashlib.sha256(data).hexdigest()], executable: the FIPS 180-4 compression
    function on 32-bit words kept in [Z] with explicit wrap-around.  The only facts
    the rest of the development needs are the shape of a digest. *)

From S2P Require Import Prelude PyValue Regex.
#[local] Open Scope Z_scope.

Definition w32 (x : Z) : Z := x mod 2 ^ 32.
Definition rotr (n x : Z) : Z := Z.lor (Z.shiftr x n) (w32 (Z.shiftl x (32 - n))).
Definition xor3 (a b c : Z) : Z := Z.lxor (Z.lxor a b) c.
Definition big0 (x : Z) := xor3 (rotr 2 x) (rotr 13 x) (rotr 22 x).
Definition big1 (x : Z) := xor3 (rotr 6 x) (rotr 11 x) (rotr 25 x).
Definition small0 (x : Z) := xor3 (rotr 7 x) (rotr 18 x) (Z.shiftr x 3).
Definition small1 (x : Z) := xor3 (rotr 17 x) (rotr 19 x) (Z.shiftr x 10).
Definition ch (x y z : Z) := Z.lxor (Z.land x y) (Z.land (Z.lxor x (2 ^ 32 - 1)) z).
Definition maj (x y z : Z) := xor3 (Z.land x y) (Z.land x z) (Z.land y z).

(** The constants are the fractional bits of roots of the first primes. *)
Definition primes : list Z :=
  Eval vm_compute in
    List.filter (fun n => forallb (fun d => negb (n mod d =? 0)) (map Z.of_nat (seq 2 (Z.to_nat n - 2))))
      (map Z.of_nat (seq 2 310)).
(** The integer cube root of [n], bit by bit from [2 ^ fuel]. *)
Fixpoint cube_root (fuel : nat) (r n : Z) : Z :=
  match fuel with
  | O => r
  | S fuel => let q := r + 2 ^ Z.of_nat fuel in cube_root fuel (if q * q * q <=? n then q else r) n
  end.
Definition round_constants : list Z :=
  Eval vm_compute in map (fun p => w32 (cube_root 40 0 (p * 2 ^ 96))) primes.

Record hash := Hash { h0 : Z; h1 : Z; h2 : Z; h3 : Z; h4 : Z; h5 : Z; h6 : Z; h7 : Z }.
Definition initial_hash : hash :=
  Eval vm_compute in
    match map (fun p => w32 (Z.sqrt (p * 2 ^ 64))) primes with
    | a :: b :: c :: d :: e :: f :: g :: h :: _ => Hash a b c d e f g h
    | _ => Hash 0 0 0 0 0 0 0 0
    end.

(** The message schedule runs as a sliding window of sixteen words. *)
Definition next_word (w : list Z) : Z :=
  w32 (small1 (nth 14 w 0) + nth 9 w 0 + small0 (nth 1 w 0) + nth 0 w 0).

Definition round_step (k w : Z) (s : hash) : hash :=
  let t1 := h7 s + big1 (h4 s) + ch (h4 s) (h5 s) (h6 s) + k + w in
  let t2 := big0 (h0 s) + maj (h0 s) (h1 s) (h2 s) in
  Hash (w32 (t1 + t2)) (h0 s) (h1 s) (h2 s) (w32 (h3 s + t1)) (h4 s) (h5 s) (h6 s).

Fixpoint rounds (ks w : list Z) (s : hash) : hash :=
  match ks with
  | [] => s
  | k :: ks => rounds ks (tl w ++ [next_word w]) (round_step k (hd 0 w) s)
  end.

Definition compress (s : hash) (block : list Z) : hash :=
  let r := rounds round_constants block s in
  Hash (w32 (h0 s + h0 r)) (w32 (h1 s + h1 r)) (w32 (h2 s + h2 r)) (w32 (h3 s + h3 r))
       (w32 (h4 s + h4 r)) (w32 (h5 s + h5 r)) (w32 (h6 s + h6 r)) (w32 (h7 s + h7 r)).

(** Big-endian words of a byte list, then blocks of sixteen words. *)
Fixpoint to_words (l : list Z) : list Z :=
  match l with
  | a :: b :: c :: d :: l => (((a * 256 + b) * 256 + c) * 256 + d) :: to_words l
  | _ => []
  end.
Definition be_bytes (n x : Z) : list Z :=
  map (fun i => Z.shiftr x (8 * (n - 1 - Z.of_nat i)) mod 256) (seq 0 (Z.to_nat n)).
Definition pad (l : list Z) : list Z :=
  let n := Z.of_nat (length l) in
  l ++ [128] ++ replicate (Z.to_nat ((55 - n) mod 64)) 0 ++ be_bytes 8 (8 * n).
Fixpoint fold_blocks (fuel : nat) (s : hash) (ws : list Z) : hash :=
  match fuel, ws with
  | S f, _ :: _ => fold_blocks f (compress s (take 16 ws)) (drop 16 ws)
  | _, _ => s
  end.
Definition sha256_words (msg : list Z) : hash :=
  let ws := to_words (pad msg) in fold_blocks (length ws) initial_hash ws.

Definition hex_digit (n : Z) : ascii := byte_of (if n <? 10 then 48 + n else 87 + n).
(** The low [n] hexadecimal digits of [x]. *)
Fixpoint hex (n : nat) (x : Z) : string :=
  match n with
  | O => ""
  | S n => String (hex_digit (Z.shiftr x (4 * Z.of_nat n) mod 16)) (hex n x)
  end%string.

Definition hexdigest (h : hash) : string :=
  (hex 8 (h0 h) ++ hex 8 (h1 h) ++ hex 8 (h2 h) ++ hex 8 (h3 h) ++
   hex 8 (h4 h) ++ hex 8 (h5 h) ++ hex 8 (h6 h) ++ hex 8 (h7 h))%string.

(** [hashlib.sha256(data).hexdigest()]. *)
Definition sha256_hex (data : string) : string :=
  hexdigest (sha256_words (map code (list_ascii_of_string data))).

Example sha256_abc :
  sha256_hex "abc" = "ba7816bf8f01cfea414140de5dae2223b00361a396177a9cb410ff61f20015ad"%string.
Proof. vm_compute. reflexivity. Qed.

Example sha256_two_blocks :
  sha256_hex "abcdbcdecdefdefgefghfghighijhijkijkljklmklmnlmnomnopnopq" =
  "248d6a61d20638b8e5c026930c3e6039a33ce45964ff2167f6ecedd419db06c1"%string.
Proof. vm_compute. reflexivity. Qed.

Lemma hex_digit_hex (n : Z) : 0 <= n < 16 -> hex_lower (hex_digit n) = true.
Proof. intros H. apply (range_forallb (fun n => hex_lower (hex_digit n)) 16); [reflexivity|exact H]. Qed.

Lemma hex_shape (n : nat) (x : Z) :
  String.length (hex n x) = n /\ all_bytes hex_lower (hex n x) = true.
Proof.
  induction n as [|n [IHl IHb]]; [done|]. cbn [hex]. split.
  - simpl. by rewrite IHl.
  - cbn [all_bytes]. rewrite IHb, hex_digit_hex; [done|]. apply Z.mod_pos_bound. lia.
Qed.

Lemma hex_length (n : nat) (x : Z) : String.length (hex n x) = n.
Proof. apply hex_shape. Qed.

(** A digest is 64 lower-case hexadecimal characters. *)
Lemma sha256_hex_length (data : string) : String.length (sha256_hex data) = 64%nat.
Proof.
  unfold sha256_hex, hexdigest. rewrite !append_length, !hex_length. reflexivity.
Qed.

Lemma sha256_hex_bytes (data : string) : all_bytes hex_lower (sha256_hex data) = true.
Proof.
  unfold sha256_hex, hexdigest. rewrite !all_bytes_app.
  by rewrite !(proj2 (hex_shape _ _)).
Qed.
