(* ===== verification/PyFloat.v ===== *)
(** [float(text)] followed by [float.__repr__], executable: decimal text is rounded
    to the nearest IEEE binary64 value (ties to even) and printed with the fewest
    digits that round back to it.  A Python float is represented by this text, so
    the JSON decoder needs it for the numbers with a fraction or an exponent. *)

From S2P Require Import Prelude PyValue.
#[local] Open Scope Z_scope.

(** ** Binary64 rounding of a positive rational [num/den] *)
Definition div_round_even (a b : Z) : Z :=
  let q := a / b in
  let r := 2 * (a - q * b) in
  if r <? b then q else if b <? r then q + 1 else if Z.even q then q else q + 1.

Definition scaled (num den e : Z) : Z * Z :=
  if e <? 0 then (Z.shiftl num (- e), den) else (num, Z.shiftl den e).

Inductive binary64 := Finite (m e : Z) | Overflow.

Definition round64 (num den : Z) : binary64 :=
  let e0 := Z.max (-1074) (Z.log2 num - Z.log2 den - 53) in
  let e := let '(a, b) := scaled num den e0 in if 2 ^ 53 <=? a / b then e0 + 1 else e0 in
  let m := let '(a, b) := scaled num den e in div_round_even a b in
  let '(m, e) := if m =? 2 ^ 53 then (2 ^ 52, e + 1) else (m, e) in
  if 971 <? e then Overflow else Finite m e.

(** ** Shortest digits *)
Definition ratio10 (m e : Z) : Z * Z :=
  if e <? 0 then (m, 10 ^ (- e)) else (m * 10 ^ e, 1).
Definition ratio2 (m e : Z) : Z * Z :=
  if e <? 0 then (m, 2 ^ (- e)) else (m * 2 ^ e, 1).

(** The [d] with [10^(d-1) <= num/den < 10^d], by search from below. *)
Fixpoint decimal_point (fuel : nat) (num den d : Z) : Z :=
  match fuel with
  | O => d
  | S f =>
      let '(a, b) := ratio10 1 d in
      if num * b <? a * den then d else decimal_point f num den (d + 1)
  end.

Fixpoint shortest (fuel : nat) (m e num den d n : Z) : Z * Z :=
  let '(a, b) := ratio10 1 (n - d) in
  let digits := div_round_even (num * a) (den * b) in
  let '(cn, cd) := ratio10 digits (d - n) in
  match fuel with
  | O => (digits, d - n)
  | S f =>
      match round64 cn cd with
      | Finite m' e' => if (m =? m') && (e =? e') then (digits, d - n)
                        else shortest f m e num den d (n + 1)
      | Overflow => shortest f m e num den d (n + 1)
      end
  end.

Fixpoint strip_zeros (fuel : nat) (digits e : Z) : Z * Z :=
  match fuel with
  | O => (digits, e)
  | S f => if digits mod 10 =? 0 then strip_zeros f (digits / 10) (e + 1) else (digits, e)
  end.

Definition zeros (n : Z) : string := bytes (replicate (Z.to_nat n) 48).
Definition two_digits (n : Z) : string :=
  (if (n <? 10)%Z then "0" ++ str_nat n else str_nat n)%string.

(** [digits * 10^e] in the notation of [repr]: fixed for [-4 < point <= 16]. *)
Definition format_repr (digits e : Z) : string :=
  let ds := str_nat digits in
  let n := byte_len ds in
  let point := n + e in
  (if ((-4 <? point) && (point <=? 16))%Z then
     if (point <=? 0)%Z then "0." ++ zeros (- point)%Z ++ ds
     else if (n <=? point)%Z then ds ++ zeros (point - n)%Z ++ ".0"
     else String.substring 0 (Z.to_nat point) ds ++ "." ++
          String.substring (Z.to_nat point) (Z.to_nat (n - point)%Z) ds
   else
     let x := (point - 1)%Z in
     String.substring 0 1 ds ++
     (if (n =? 1)%Z then "" else "." ++ String.substring 1 (Z.to_nat (n - 1)%Z) ds) ++
     (if (x <? 0)%Z then "e-" ++ two_digits (- x)%Z else "e+" ++ two_digits x))%string.

(** [repr] of the positive binary64 value [m * 2^e]; at most 17 digits are tried,
    and the search for the decimal point starts at most three below it
    (log10 2 = 0.30103 to the precision the exponent range needs). *)
Definition repr64 (m e : Z) : string :=
  let '(num, den) := ratio2 m e in
  let d := decimal_point 5 num den ((Z.log2 num - Z.log2 den) * 30103 / 100000 - 1) in
  let '(digits, x) := shortest 17 m e num den d 1 in
  let '(digits, x) := strip_zeros 20 digits x in
  format_repr digits x.

(** The JSON text of [float(sign mantissa * 10^e)]. *)
Definition float_repr (neg : bool) (mantissa e : Z) : string :=
  ((if neg then "-" else "") ++
   if (mantissa =? 0)%Z then "0.0"
   else let '(num, den) := ratio10 mantissa e in
        match round64 num den with
        | Overflow => "Infinity"
        | Finite m x => if (m =? 0)%Z then "0.0" else repr64 m x
        end)%string.

Example float_repr_one : float_repr false 10 (-1) = "1.0"%string.
Proof. vm_compute. reflexivity. Qed.
Example float_repr_tenth : float_repr true 1000 (-4) = "-0.1"%string.
Proof. vm_compute. reflexivity. Qed.
Example float_repr_big : float_repr false 1 22 = "1e+22"%string.
Proof. vm_compute. reflexivity. Qed.
Example float_repr_third : float_repr false 33333333333333333333 (-20) = "0.3333333333333333"%string.
Proof. vm_compute. reflexivity. Qed.
Example float_repr_small : float_repr false 5 (-324) = "5e-324"%string.
Proof. vm_compute. reflexivity. Qed.
Example float_repr_max : float_repr false 17976931348623157 292 = "1.7976931348623157e+308"%string.
Proof. vm_compute. reflexivity. Qed.
