(* ===== verification/Json.v ===== *)
(** The JSON codec of the Python standard library as the controller uses it:
    [json.dumps] with [ensure_ascii=False] and the compact separators, with and
    without [sort_keys], and [json.loads] with an [object_pairs_hook].  The main
    results are the round trip of the codec and that the canonical text depends on
    a value only up to the order of dict items. *)

From stdpp Require Import sorting.
From S2P Require Import Prelude PyValue PyFloat.
#[local] Open Scope Z_scope.

(** ** Sorting dict items by key ([sorted(d.items())]; keys are unique) *)
Fixpoint insert_item {A} (kv : string * A) (l : list (string * A)) : list (string * A) :=
  match l with
  | [] => [kv]
  | kv' :: l' => if String.leb kv.1 kv'.1 then kv :: l else kv' :: insert_item kv l'
  end.
Definition sort_items {A} (l : list (string * A)) : list (string * A) :=
  fold_right insert_item [] l.

(** [sort_keys=True]: every dict of the value in key order. *)
Fixpoint sort_keys (v : pyval) : pyval :=
  match v with
  | PList l => PList (map sort_keys l)
  | PDict d => PDict (sort_items (map (fun '(k, x) => (k, sort_keys x)) d))
  | _ => v
  end.

(** ** json.dumps *)
Definition dquote : string := bytes [34].
Definition hex_char (n : Z) : ascii := byte_of (if n <? 10 then 48 + n else 87 + n).

(** The escape of one byte; bytes of non-ASCII characters are kept. *)
Definition esc_byte (a : ascii) : string :=
  let c := code a in
  if c =? 34 then bytes [92; 34]
  else if c =? 92 then bytes [92; 92]
  else if c =? 10 then bytes [92; 110]
  else if c =? 13 then bytes [92; 114]
  else if c =? 9 then bytes [92; 116]
  else if c =? 12 then bytes [92; 102]
  else if c =? 8 then bytes [92; 98]
  else if c <? 32 then
    (bytes [92; 117; 48; 48] ++ String (hex_char (c / 16)) (String (hex_char (c mod 16)) ""))%string
  else String a "".

Fixpoint esc (s : string) : string :=
  match s with ""%string => ""%string | String a r => (esc_byte a ++ esc r)%string end.
Definition json_string (s : string) : string := (dquote ++ esc s ++ dquote)%string.

Fixpoint dumps (v : pyval) : string :=
  match v with
  | PNone => "null"
  | PBool true => "true"
  | PBool false => "false"
  | PInt z => py_str_int z
  | PFloat r => r
  | PStr s => json_string s
  | PList l => "[" ++ String.concat "," (map dumps l) ++ "]"
  | PDict d =>
      "{" ++ String.concat "," (map (fun '(k, x) => json_string k ++ ":" ++ dumps x) d) ++ "}"
  end%string.

(** ** json.loads *)
Definition is_json_ws (a : ascii) : bool :=
  let c := code a in (c =? 32) || (c =? 9) || (c =? 10) || (c =? 13).
Fixpoint skip_ws (s : string) : string :=
  match s with
  | String a r => if is_json_ws a then skip_ws r else s
  | ""%string => s
  end.

Definition hex_value (a : ascii) : option Z :=
  let c := code a in
  if (48 <=? c) && (c <=? 57) then Some (c - 48)
  else if (97 <=? c) && (c <=? 102) then Some (c - 87)
  else if (65 <=? c) && (c <=? 70) then Some (c - 55)
  else None.
Definition hex4 (s : string) : option (Z * string) :=
  match s with
  | String a (String b (String c (String d r))) =>
      x ← hex_value a; y ← hex_value b; z ← hex_value c; t ← hex_value d;
      Some (((x * 16 + y) * 16 + z) * 16 + t, r)
  | _ => None
  end.

(** The UTF-8 bytes of a code point (surrogates included). *)
Definition utf8_char (cp : Z) : string :=
  if cp <? 128 then bytes [cp]
  else if cp <? 2048 then bytes [192 + cp / 64; 128 + cp mod 64]
  else if cp <? 65536 then bytes [224 + cp / 4096; 128 + cp / 64 mod 64; 128 + cp mod 64]
  else bytes [240 + cp / 262144; 128 + cp / 4096 mod 64; 128 + cp / 64 mod 64; 128 + cp mod 64].

Definition simple_escape (c : Z) : option Z :=
  if c =? 34 then Some 34 else if c =? 92 then Some 92 else if c =? 47 then Some 47
  else if c =? 98 then Some 8 else if c =? 102 then Some 12 else if c =? 110 then Some 10
  else if c =? 114 then Some 13 else if c =? 116 then Some 9 else None.

(** After [\u]: the escaped character and the rest of the input. *)
Definition unicode_escape (s : string) : option (string * string) :=
  '(u, r) ← hex4 s;
  if (55296 <=? u) && (u <=? 56319) then
    match r with
    | String b (String c r2) =>
        if (code b =? 92) && (code c =? 117) then
          '(u2, r3) ← hex4 r2;
          if (56320 <=? u2) && (u2 <=? 57343)
          then Some (utf8_char (65536 + (u - 55296) * 1024 + (u2 - 56320)), r3)
          else Some (utf8_char u, r)
        else Some (utf8_char u, r)
    | _ => Some (utf8_char u, r)
    end
  else Some (utf8_char u, r).

(** The body of a string after its opening quote. *)
Fixpoint parse_str (fuel : nat) (s : string) : res (string * string) :=
  match fuel with
  | O => Raise JSONDecodeError
  | S f =>
      match s with
      | ""%string => Raise JSONDecodeError
      | String a r =>
          let c := code a in
          if c =? 34 then Ok (""%string, r)
          else if c =? 92 then
            match r with
            | ""%string => Raise JSONDecodeError
            | String e r' =>
                if code e =? 117 then
                  match unicode_escape r' with
                  | Some (ch, r2) => '(t, q) ← parse_str f r2; Ok ((ch ++ t)%string, q)
                  | None => Raise JSONDecodeError
                  end
                else
                  match simple_escape (code e) with
                  | Some x => '(t, q) ← parse_str f r'; Ok (String (byte_of x) t, q)
                  | None => Raise JSONDecodeError
                  end
            end
          else if c <? 32 then Raise JSONDecodeError
          else '(t, q) ← parse_str f r; Ok (String a t, q)
      end
  end.

Fixpoint take_digits (s : string) : string * string :=
  match s with
  | String a r => if is_digit a then let '(d, q) := take_digits r in (String a d, q) else (""%string, s)
  | ""%string => (""%string, s)
  end.

(** Fraction and exponent of a number: the digits, the exponent and the rest. *)
Definition take_fraction (s : string) : option string * string :=
  match s with
  | String a r =>
      if code a =? 46 then
        match take_digits r with
        | (""%string, _) => (None, s)
        | (d, q) => (Some d, q)
        end
      else (None, s)
  | ""%string => (None, s)
  end.
Definition take_exponent (s : string) : option Z * string :=
  match s with
  | String a r =>
      if (code a =? 101) || (code a =? 69) then
        let '(sign, r') := match r with
          | String b r'' => if code b =? 45 then (-1, r'') else if code b =? 43 then (1, r'') else (1, r)
          | ""%string => (1, r)
          end in
        match take_digits r' with
        | (""%string, _) => (None, s)
        | (d, q) => (Some (sign * digits_value d), q)
        end
      else (None, s)
  | ""%string => (None, s)
  end.

Definition parse_number (s : string) : res (pyval * string) :=
  let '(neg, r) := match s with
    | String a r => if code a =? 45 then (true, r) else (false, s)
    | ""%string => (false, s)
    end in
  let '(int_part, r1) := match r with
    | String a r' => if code a =? 48 then (String a "", r') else take_digits r
    | ""%string => take_digits r
    end in
  match int_part with
  | ""%string => Raise JSONDecodeError
  | _ =>
      let '(frac, r2) := take_fraction r1 in
      let '(exp, r3) := take_exponent r2 in
      match frac, exp with
      | None, None =>
          n ← int_of_digits int_part;
          Ok (PInt (if neg then - n else n), r1)
      | _, _ =>
          let fd := match frac with Some d => d | None => ""%string end in
          let e := match exp with Some e => e | None => 0 end in
          Ok (PFloat (float_repr neg (digits_value (int_part ++ fd)%string) (e - byte_len fd)), r3)
      end
  end.

(** A literal at the head of the input. *)
Fixpoint strip_prefix (p s : string) : option string :=
  match p, s with
  | ""%string, _ => Some s
  | String a p, String b s => if Ascii.eqb a b then strip_prefix p s else None
  | String _ _, ""%string => None
  end.
Definition literals : list (string * pyval) :=
  [("null"%string, PNone); ("true"%string, PBool true); ("false"%string, PBool false);
   ("NaN"%string, PFloat "NaN"); ("Infinity"%string, PFloat "Infinity");
   ("-Infinity"%string, PFloat "-Infinity")].
Fixpoint parse_literal (ls : list (string * pyval)) (s : string) : option (pyval * string) :=
  match ls with
  | [] => None
  | (p, v) :: ls => match strip_prefix p s with
                    | Some r => Some (v, r)
                    | None => parse_literal ls s
                    end
  end.

Section Decoder.
(** [object_pairs_hook]. *)
Variable hook : list (string * pyval) -> res pyval.

Fixpoint parse_value (fuel : nat) (s : string) : res (pyval * string) :=
  match fuel with
  | O => Raise JSONDecodeError
  | S f =>
      match s with
      | ""%string => Raise JSONDecodeError
      | String a r =>
          let c := code a in
          if c =? 34 then '(t, q) ← parse_str (S (String.length r)) r; Ok (PStr t, q)
          else if c =? 91 then
            match skip_ws r with
            | String b q => if code b =? 93 then Ok (PList [], q)
                            else '(l, q) ← parse_elems f (String b q); Ok (PList l, q)
            | ""%string => Raise JSONDecodeError
            end
          else if c =? 123 then
            match skip_ws r with
            | String b q => if code b =? 125 then v ← hook []; Ok (v, q)
                            else '(l, q) ← parse_members f (String b q); v ← hook l; Ok (v, q)
            | ""%string => Raise JSONDecodeError
            end
          else match parse_literal literals s with
               | Some x => Ok x
               | None => parse_number s
               end
      end
  end
with parse_elems (fuel : nat) (s : string) : res (list pyval * string) :=
  match fuel with
  | O => Raise JSONDecodeError
  | S f =>
      '(v, r) ← parse_value f s;
      match skip_ws r with
      | String a q =>
          if code a =? 93 then Ok ([v], q)
          else if code a =? 44 then '(l, q) ← parse_elems f (skip_ws q); Ok (v :: l, q)
          else Raise JSONDecodeError
      | ""%string => Raise JSONDecodeError
      end
  end
with parse_members (fuel : nat) (s : string) : res (list (string * pyval) * string) :=
  match fuel with
  | O => Raise JSONDecodeError
  | S f =>
      match s with
      | String a r =>
          if code a =? 34 then
            '(k, r1) ← parse_str (S (String.length r)) r;
            match skip_ws r1 with
            | String b r2 =>
                if code b =? 58 then
                  '(v, r3) ← parse_value f (skip_ws r2);
                  match skip_ws r3 with
                  | String d q =>
                      if code d =? 125 then Ok ([(k, v)], q)
                      else if code d =? 44 then
                        '(l, q) ← parse_members f (skip_ws q); Ok ((k, v) :: l, q)
                      else Raise JSONDecodeError
                  | ""%string => Raise JSONDecodeError
                  end
                else Raise JSONDecodeError
            | ""%string => Raise JSONDecodeError
            end
          else Raise JSONDecodeError
      | ""%string => Raise JSONDecodeError
      end
  end.

(** [json.loads(s, object_pairs_hook=hook)]: a call uses at most two units of fuel
    for each byte it consumes. *)
Definition loads_with (s : string) : res pyval :=
  '(v, r) ← parse_value (2 * String.length s + 2) (skip_ws s);
  match skip_ws r with ""%string => Ok v | _ => Raise JSONDecodeError end.
End Decoder.

(** The default: a plain dict, in which a later duplicate key wins. *)
Definition dict_hook (ps : list (string * pyval)) : res pyval := Ok (PDict (dict_of_pairs ps)).
Definition loads : string -> res pyval := loads_with dict_hook.

Example loads_example :
  loads (bytes [123; 34; 97; 34; 58; 91; 49; 44; 45; 50; 46; 53; 44; 34; 92; 117; 48; 48; 101; 57; 34; 93; 125]) =
  Ok (PDict [("a"%string, PList [PInt 1; PFloat "-2.5"; PStr (bytes [195; 169])])]).
Proof. vm_compute. reflexivity. Qed.

(** ** Well-formed values

    What [json.loads] can have produced: dict keys are unique and an integer fits
    the decimal conversion limit.  A float is required to be the text the decoder
    returns for it. *)
Definition delim (s : string) : bool :=
  match s with
  | ""%string => true
  | String a _ => (code a =? 44) || (code a =? 93) || (code a =? 125)
  end.

Definition stable_float (r : string) : Prop :=
  (exists a t, r = String a t /\ (is_digit a = true \/ code a = 45)) /\
  forall rest, delim rest = true ->
    parse_literal literals (r ++ rest)%string = None /\
    parse_number (r ++ rest)%string = Ok (PFloat r, rest).

Inductive json_ok : pyval -> Prop :=
| ok_none : json_ok PNone
| ok_bool b : json_ok (PBool b)
| ok_int z : byte_len (str_nat (Z.abs z)) <= int_max_str_digits -> json_ok (PInt z)
| ok_float r : stable_float r -> json_ok (PFloat r)
| ok_str s : json_ok (PStr s)
| ok_list l : Forall json_ok l -> json_ok (PList l)
| ok_dict d : NoDup (keys d) -> Forall (fun kv => json_ok kv.2) d -> json_ok (PDict d).
#[export] Hint Constructors json_ok : pyjson.

(** ** Decoding strings *)
Lemma parse_str_esc_byte (f : nat) (a : ascii) (r : string) :
  parse_str (S f) (esc_byte a ++ r)%string =
  ('(t, q) ← parse_str f r; Ok (String a t, q)).
Proof. destruct a as [[] [] [] [] [] [] [] []]; reflexivity. Qed.

Lemma parse_str_esc (s : string) (f : nat) (rest : string) :
  (String.length s < f)%nat ->
  parse_str f (esc s ++ dquote ++ rest)%string = Ok (s, rest).
Proof.
  revert f. induction s as [|a s IH]; intros f Hf.
  - destruct f as [|f]; [simpl in Hf; lia|]. reflexivity.
  - destruct f as [|f]; [simpl in Hf; lia|]. simpl esc.
    rewrite <- append_assoc, parse_str_esc_byte, IH; [done | simpl in Hf; lia].
Qed.

Lemma esc_length (s : string) : (String.length s <= String.length (esc s))%nat.
Proof.
  induction s as [|a s IH]; [done|]. simpl. rewrite append_length.
  assert (1 <= String.length (esc_byte a))%nat.
  { destruct a as [[] [] [] [] [] [] [] []]; vm_compute; lia. }
  lia.
Qed.

(** A quoted string is read back by the string scanner, whatever follows. *)
Lemma parse_str_json_string (s rest : string) :
  exists r, (json_string s ++ rest)%string = String (byte_of 34) r /\
    parse_str (S (String.length r)) r = Ok (s, rest).
Proof.
  unfold json_string. exists (esc s ++ dquote ++ rest)%string. split.
  - rewrite <- !append_assoc. reflexivity.
  - apply parse_str_esc. pose proof (esc_length s). rewrite append_length. lia.
Qed.

(** ** Decoding numbers *)
Lemma take_digits_app (d rest : string) :
  all_digits d = true -> delim rest = true -> take_digits (d ++ rest)%string = (d, rest).
Proof.
  intros Hd Hr. induction d as [|a d IH]; simpl in *.
  - destruct rest as [|b r]; [done|]. simpl in Hr |- *.
    assert (is_digit b = false) as ->; [|done].
    unfold is_digit. autorewrite with pyguard in *. lia.
  - apply andb_true_iff in Hd as [-> Hd]. rewrite IH by done. done.
Qed.

Lemma delim_no_fraction (rest : string) :
  delim rest = true -> take_fraction rest = (None, rest) /\ take_exponent rest = (None, rest).
Proof.
  destruct rest as [|b r]; [done|]. simpl. autorewrite with pyguard. intros H.
  assert (code b =? 46 = false) as -> by (apply Z.eqb_neq; lia).
  assert (code b =? 101 = false) as -> by (apply Z.eqb_neq; lia).
  assert (code b =? 69 = false) as -> by (apply Z.eqb_neq; lia). done.
Qed.

Lemma str_nat_cases (n : Z) :
  0 <= n -> (n = 0 /\ str_nat n = "0"%string) \/
  (exists d r, str_nat n = String (byte_of (48 + d)) r /\ 0 < d < 10).
Proof.
  intros Hn. destruct (Z.eq_dec n 0) as [->|]; [by left|right]. apply str_nat_head. lia.
Qed.

(** The digits of a number are scanned whole, and the head selects the branch. *)
Lemma parse_number_nat (n : Z) (neg : bool) (rest : string) :
  0 <= n -> byte_len (str_nat n) <= int_max_str_digits -> delim rest = true ->
  parse_number ((if neg then "-" else "") ++ str_nat n ++ rest)%string =
  Ok (PInt (if neg then - n else n), rest).
Proof.
  intros Hn Hlen Hrest.
  destruct (delim_no_fraction rest Hrest) as [Hfr Hex].
  assert (int_of_digits (str_nat n) = Ok n) as Hint.
  { unfold int_of_digits. destruct (Z.ltb_spec int_max_str_digits (byte_len (str_nat n))); [lia|].
    by rewrite digits_value_str_nat. }
  pose proof (take_digits_app (str_nat n) rest (all_digits_str_nat n Hn) Hrest) as Htd.
  destruct (str_nat_cases n Hn) as [[-> Hs]|(d & r & Hs & Hd)].
  - rewrite Hs in *. destruct neg; unfold parse_number; simpl; rewrite Hfr, Hex; reflexivity.
  - assert (code (byte_of (48 + d)) = 48 + d) as Hc by (apply code_byte_of; lia).
    unfold parse_number. destruct neg; cbn [append String.append].
    + change (code "-" =? 45) with true. cbv iota beta.
      rewrite Hs in Htd |- *. cbn [String.append] in Htd |- *.
      rewrite Hc. destruct (Z.eqb_spec (48 + d) 48); [lia|].
      rewrite Htd, Hfr, Hex. rewrite <- Hs, Hint. reflexivity.
    + rewrite Hs in Htd |- *. cbn [String.append] in Htd |- *.
      rewrite Hc. destruct (Z.eqb_spec (48 + d) 45); [lia|]. rewrite Hc.
      destruct (Z.eqb_spec (48 + d) 48); [lia|].
      rewrite Htd, Hfr, Hex. rewrite <- Hs, Hint. reflexivity.
Qed.

Lemma digit_cases (P : Z -> Prop) (d : Z) :
  P 0 -> P 1 -> P 2 -> P 3 -> P 4 -> P 5 -> P 6 -> P 7 -> P 8 -> P 9 -> 0 <= d < 10 -> P d.
Proof.
  intros. assert (d = 0 \/ d = 1 \/ d = 2 \/ d = 3 \/ d = 4 \/ d = 5 \/ d = 6 \/ d = 7 \/
    d = 8 \/ d = 9) as Hd by lia.
  repeat destruct Hd as [->|Hd]; subst; done.
Qed.

Lemma parse_literal_digit (d : Z) (r : string) :
  0 <= d < 10 ->
  parse_literal literals (String (byte_of (48 + d)) r) = None /\
  parse_literal literals (String "-" (String (byte_of (48 + d)) r)) = None.
Proof.
  intros Hd. pattern d. apply digit_cases; [split; reflexivity..|exact Hd].
Qed.

Definition head_ok (s : string) : Prop :=
  exists a r, s = String a r /\ is_json_ws a = false /\ code a <> 93 /\ code a <> 125.

Lemma head_ok_skip (s rest : string) : head_ok s -> skip_ws (s ++ rest)%string = (s ++ rest)%string.
Proof. intros (a & r & -> & Hw & _). simpl. by rewrite Hw. Qed.

Lemma digit_head_ok (a : ascii) (r : string) :
  is_digit a = true \/ code a = 45 -> head_ok (String a r).
Proof.
  intros H. exists a, r. split; [done|].
  assert (code a = 45 \/ 48 <= code a <= 57) as Hc.
  { destruct H as [H|H]; [|by left]. unfold is_digit in H. autorewrite with pyguard in H. lia. }
  unfold is_json_ws. repeat split; [|lia..].
  repeat (apply orb_false_iff; split); apply Z.eqb_neq; lia.
Qed.

Lemma all_digits_head_ok (s : string) : all_digits s = true -> s <> ""%string -> head_ok s.
Proof.
  destruct s as [|a s]; [done|]. simpl. rewrite andb_true_iff. intros [Ha _] _.
  apply digit_head_ok. by left.
Qed.

Lemma str_nat_nonempty (n : Z) : 0 <= n -> str_nat n <> ""%string.
Proof. intros Hn. destruct (str_nat_cases n Hn) as [[_ ->]|(d & r & -> & _)]; done. Qed.

Lemma dumps_head (v : pyval) : json_ok v -> head_ok (dumps v).
Proof.
  destruct 1 as [|[]|z _|r [(a & t & -> & Ha) _]|s|l _|d _ _]; simpl.
  - by exists "n"%char, "ull"%string.
  - by exists "t"%char, "rue"%string.
  - by exists "f"%char, "alse"%string.
  - unfold py_str_int. destruct (Z.ltb_spec z 0).
    + apply digit_head_ok. by right.
    + apply all_digits_head_ok; [by apply all_digits_str_nat | by apply str_nat_nonempty].
  - by apply digit_head_ok.
  - eexists _, _. split; [reflexivity|done].
  - eexists _, _. split; [reflexivity|done].
  - eexists _, _. split; [reflexivity|done].
Qed.

(** ** The round trip *)
Definition value_roundtrip (v : pyval) : Prop :=
  forall fuel rest, (2 * String.length (dumps v) <= fuel)%nat -> delim rest = true ->
    parse_value dict_hook fuel (dumps v ++ rest)%string = Ok (v, rest).

Lemma concat_comma_cons (x : string) (l : list string) :
  String.concat "," (x :: l) =
  match l with [] => x | _ => (x ++ "," ++ String.concat "," l)%string end.
Proof. by destruct l. Qed.

Lemma parse_value_string (fuel : nat) (s rest : string) :
  parse_value dict_hook (S fuel) (json_string s ++ rest)%string = Ok (PStr s, rest).
Proof.
  destruct (parse_str_json_string s rest) as (r & -> & Hr). cbn [parse_value].
  change (code (byte_of 34) =? 34) with true. cbv iota zeta. by rewrite Hr.
Qed.

Lemma parse_elems_dumps (l : list pyval) (fuel : nat) (rest : string) :
  l <> [] -> Forall json_ok l -> Forall value_roundtrip l ->
  (2 * String.length (String.concat "," (map dumps l)) < fuel)%nat ->
  parse_elems dict_hook fuel (String.concat "," (map dumps l) ++ String "]" rest)%string = Ok (l, rest).
Proof.
  intros Hne Hok Hrt. revert fuel. induction l as [|v l IH]; [done|]; intros fuel Hf.
  inversion Hok as [|? ? Hv Hl]; subst. inversion Hrt as [|? ? Hrv Hrl]; subst.
  destruct fuel as [|f]; [lia|]. cbn [map] in Hf |- *. rewrite concat_comma_cons in Hf |- *.
  cbn [parse_elems]. destruct l as [|v' l].
  - cbn [map]. rewrite Hrv; [|cbn [map] in Hf; lia|done]. reflexivity.
  - remember (v' :: l) as l'. destruct (map dumps l') as [|x xs] eqn:E; [by subst|].
    rewrite <- E in *. clear E. rewrite !append_length in Hf. simpl String.length in Hf.
    rewrite <- !append_assoc. rewrite Hrv; [|lia|done]. cbn [mbind res_bind].
    cbn [String.append skip_ws]. change (is_json_ws ",") with false. cbv iota.
    change (code "," =? 93) with false. change (code "," =? 44) with true. cbv iota.
    assert (skip_ws (String.concat "," (map dumps l') ++ String "]" rest) =
            (String.concat "," (map dumps l') ++ String "]" rest))%string as ->.
    { subst l'. inversion Hl; subst. cbn [map]. rewrite concat_comma_cons.
      destruct (map dumps l); rewrite <- ?append_assoc; by apply head_ok_skip, dumps_head. }
    rewrite IH; [done|subst l'; done|done|done|lia].
Qed.

Definition dump_item (kv : string * pyval) : string :=
  let '(k, x) := kv in (json_string k ++ ":" ++ dumps x)%string.

Lemma parse_members_dumps (d : list (string * pyval)) (fuel : nat) (rest : string) :
  d <> [] -> Forall (fun kv => json_ok kv.2) d -> Forall (fun kv => value_roundtrip kv.2) d ->
  (2 * String.length (String.concat "," (map dump_item d)) < fuel)%nat ->
  parse_members dict_hook fuel (String.concat "," (map dump_item d) ++ String "}" rest)%string = Ok (d, rest).
Proof.
  intros Hne Hok Hrt. revert fuel. induction d as [|[k v] d IH]; [done|]; intros fuel Hf.
  inversion Hok as [|? ? Hv Hl]; subst. inversion Hrt as [|? ? Hrv Hrl]; subst.
  cbn [snd] in Hv, Hrv.
  destruct fuel as [|f]; [lia|]. cbn [map dump_item] in Hf |- *. rewrite concat_comma_cons in Hf |- *.
  set (tail := match d with [] => String "}" rest
    | _ => ("," ++ String.concat "," (map dump_item d) ++ String "}" rest)%string end).
  assert ((match map dump_item d with
    | [] => (json_string k ++ ":" ++ dumps v)%string
    | _ => ((json_string k ++ ":" ++ dumps v) ++ "," ++ String.concat "," (map dump_item d))%string
    end ++ String "}" rest = json_string k ++ ":" ++ dumps v ++ tail)%string) as ->.
  { subst tail. destruct d as [|kv d]; cbn [map]; by rewrite <- !append_assoc. }
  destruct (parse_str_json_string k (":" ++ dumps v ++ tail)%string) as (r & -> & Hr).
  cbn [parse_members]. change (code (byte_of 34) =? 34) with true. cbv iota.
  rewrite Hr. cbn [mbind res_bind String.append skip_ws].
  change (is_json_ws ":") with false. cbv iota. change (code ":" =? 58) with true. cbv iota.
  rewrite head_ok_skip by (by apply dumps_head).
  assert (String.length (dumps v) <= f /\ 2 * String.length (dumps v) <= f)%nat as [_ Hfv].
  { destruct (map dump_item d); rewrite !append_length in Hf; lia. }
  rewrite Hrv; [|done|subst tail; by destruct d]. cbn [mbind res_bind].
  subst tail. destruct d as [|kv d]; [done|]. remember (kv :: d) as d'.
  cbn [String.append skip_ws]. change (is_json_ws ",") with false. cbv iota.
  change (code "," =? 125) with false. change (code "," =? 44) with true. cbv iota.
  assert (skip_ws (String.concat "," (map dump_item d') ++ String "}" rest) =
          (String.concat "," (map dump_item d') ++ String "}" rest))%string as ->.
  { subst d'. destruct kv as [k' v']. cbn [map dump_item]. rewrite concat_comma_cons.
    destruct (map dump_item d); reflexivity. }
  rewrite IH; [done|by subst|done|done|].
  destruct (map dump_item d') as [|x xs] eqn:E; [by subst|].
  rewrite !append_length in Hf. change (String.length ",") with 1%nat in Hf. lia.
Qed.

Lemma value_roundtrip_all (v : pyval) : json_ok v -> value_roundtrip v.
Proof.
  induction v as [|b|z|r|s|l IH|d IH] using pyval_ind; intros Hok fuel rest Hf Hr;
    (destruct fuel as [|f]; [pose proof (dumps_head _ Hok) as (? & ? & E & _); rewrite E in Hf; simpl in Hf; lia|]).
  - reflexivity.
  - by destruct b.
  - inversion Hok as [| |? Hlen| | | |]; subst. cbn [dumps]. unfold py_str_int.
    destruct (Z.ltb_spec z 0).
    + pose proof (parse_number_nat (- z) true rest ltac:(lia)) as H1.
      rewrite Z.abs_neq in Hlen by lia. specialize (H1 Hlen Hr). cbv iota in H1.
      rewrite Z.opp_involutive in H1. rewrite <- append_assoc.
      destruct (str_nat_cases (- z) ltac:(lia)) as [[? ?]|(d & t & Hs & Hd)]; [lia|].
      rewrite Hs in H1 |- *. cbn [String.append] in H1 |- *. cbn [parse_value].
      destruct (parse_literal_digit d (t ++ rest) ltac:(lia)) as [_ ->]. exact H1.
    + pose proof (parse_number_nat z false rest ltac:(lia)) as H1.
      rewrite Z.abs_eq in Hlen by lia. specialize (H1 Hlen Hr). cbv iota in H1.
      cbn [String.append] in H1.
      assert (exists d t, str_nat z = String (byte_of (48 + d)) t /\ 0 <= d < 10) as (d & t & Hs & Hd).
      { destruct (str_nat_cases z ltac:(lia)) as [[-> ?]|(d & t & Hs & Hd)].
        - by exists 0, ""%string.
        - exists d, t. split; [done|lia]. }
      rewrite Hs in H1 |- *. cbn [String.append] in H1 |- *. cbn [parse_value].
      rewrite code_byte_of by lia.
      destruct (Z.eqb_spec (48 + d) 34); [lia|]. destruct (Z.eqb_spec (48 + d) 91); [lia|].
      destruct (Z.eqb_spec (48 + d) 123); [lia|].
      destruct (parse_literal_digit d (t ++ rest) ltac:(lia)) as [-> _]. exact H1.
  - inversion Hok as [| | |? [(a & t & -> & Ha) Hst]| | |]; subst. cbn [dumps].
    destruct (Hst rest Hr) as [H1 H2]. cbn [String.append] in *. cbn [parse_value].
    assert (code a = 45 \/ 48 <= code a <= 57) as Hc.
    { destruct Ha as [H|H]; [|by left]. unfold is_digit in H. autorewrite with pyguard in H. lia. }
    destruct (Z.eqb_spec (code a) 34); [lia|]. destruct (Z.eqb_spec (code a) 91); [lia|].
    destruct (Z.eqb_spec (code a) 123); [lia|]. by rewrite H1, H2.
  - apply parse_value_string.
  - inversion Hok as [| | | | |? Hl|]; subst. cbn [dumps] in Hf |- *. rewrite <- !append_assoc.
    cbn [String.append parse_value]. change (code "[" =? 34) with false.
    change (code "[" =? 91) with true. cbv iota zeta.
    destruct l as [|v l]; [reflexivity|].
    assert (head_ok (String.concat "," (map dumps (v :: l)))) as Hh.
    { inversion Hl as [|? ? Hv _]; subst. apply dumps_head in Hv as (a & r & E & H).
      cbn [map]. rewrite concat_comma_cons, E. destruct (map dumps l); eexists _, _; (split; [reflexivity|exact H]). }
    rewrite (head_ok_skip _ _ Hh). destruct Hh as (a & r & E & _ & Ha & _).
    assert (parse_elems dict_hook f (String.concat "," (map dumps (v :: l)) ++ String "]" rest)%string
            = Ok (v :: l, rest)) as He.
    { apply parse_elems_dumps; [done|done| |].
      - rewrite Forall_forall in IH, Hl |- *. intros x Hx. apply IH; [done|]. by apply Hl.
      - rewrite !append_length in Hf. simpl in Hf |- *. lia. }
    rewrite E in He |- *. cbn [String.append] in He |- *.
    destruct (Z.eqb_spec (code a) 93); [done|]. by rewrite He.
  - inversion Hok as [| | | | | |? Hnd Hd]; subst. cbn [dumps] in Hf |- *.
    change (fun '(k, x) => (json_string k ++ ":" ++ dumps x)%string) with dump_item in Hf |- *. rewrite <- !append_assoc.
    cbn [String.append parse_value]. change (code "{" =? 34) with false.
    change (code "{" =? 91) with false. change (code "{" =? 123) with true. cbv iota zeta.
    destruct d as [|[k v] d]; [reflexivity|].
    assert (exists r, (String.concat "," (map dump_item ((k, v) :: d)) ++ String "}" rest)%string
              = String (byte_of 34) r) as [r E].
    { cbn [map dump_item]. rewrite concat_comma_cons. destruct (map dump_item d); eexists; reflexivity. }
    assert (parse_members dict_hook f (String.concat "," (map dump_item ((k, v) :: d)) ++ String "}" rest)%string
            = Ok ((k, v) :: d, rest)) as He.
    { apply parse_members_dumps; [done|done| |].
      - rewrite Forall_forall in IH, Hd |- *. intros x Hx. apply IH; [done|]. by apply Hd.
      - rewrite !append_length in Hf. simpl in Hf |- *. lia. }
    rewrite E in He |- *. cbn [skip_ws]. change (is_json_ws (byte_of 34)) with false. cbv iota.
    change (code (byte_of 34) =? 125) with false. cbv iota. rewrite He. cbn [mbind res_bind].
    unfold dict_hook. by rewrite dict_of_pairs_NoDup.
Qed.

(** ** Sorting *)
Lemma insert_item_perm {A} (kv : string * A) (l : list (string * A)) :
  insert_item kv l ≡ₚ kv :: l.
Proof.
  induction l as [|kv' l IH]; simpl; [done|]. destruct (String.leb kv.1 kv'.1); [done|].
  rewrite IH. apply Permutation_swap.
Qed.

Lemma sort_items_perm {A} (l : list (string * A)) : sort_items l ≡ₚ l.
Proof.
  induction l as [|kv l IH]; [done|]. simpl. rewrite insert_item_perm. by rewrite IH.
Qed.

Lemma NoDup_keys_perm {A} (l k : list (string * A)) :
  l ≡ₚ k -> NoDup (keys l) -> NoDup (keys k).
Proof. unfold keys. intros H. by rewrite H. Qed.

Lemma keys_map_snd {A B} (f : A -> B) (d : list (string * A)) :
  keys (map (fun '(k, x) => (k, f x)) d) = keys d.
Proof. unfold keys. induction d as [|[k x] d IH]; [done|]. simpl. by f_equal. Qed.

Lemma sort_keys_ok (v : pyval) : json_ok v -> json_ok (sort_keys v).
Proof.
  induction v as [|b|z|r|s|l IH|d IH] using pyval_ind; intros Hok; try exact Hok.
  - inversion Hok as [| | | | |? Hl|]; subst. simpl. constructor.
    rewrite Forall_forall in IH, Hl |- *. intros x (y & <- & Hy)%list_elem_of_In%in_map_iff.
    apply list_elem_of_In in Hy. auto.
  - inversion Hok as [| | | | | |? Hnd Hd]; subst. simpl. constructor.
    + eapply NoDup_keys_perm; [symmetry; apply sort_items_perm|]. by rewrite keys_map_snd.
    + rewrite Forall_forall in IH, Hd |- *. intros kv. rewrite sort_items_perm.
      intros ([k x] & <- & Hx)%list_elem_of_In%in_map_iff. apply list_elem_of_In in Hx.
      simpl. apply (IH (k, x)); [done|]. by apply (Hd (k, x)).
Qed.

(** The codec: every well-formed value is read back from its text ... *)
Lemma loads_dumps (v : pyval) : json_ok v -> loads (dumps v) = Ok v.
Proof.
  intros Hok. unfold loads, loads_with.
  pose proof (dumps_head v Hok) as Hh. apply (head_ok_skip _ ""%string) in Hh.
  rewrite append_nil_r in Hh. rewrite Hh.
  pose proof (value_roundtrip_all v Hok (2 * String.length (dumps v) + 2)%nat ""%string) as H.
  rewrite append_nil_r in H. rewrite H by (done || lia). done.
Qed.

Lemma leb_cons (a b : ascii) (s t : string) :
  String.leb (String a s) (String b t) = true <->
  code a < code b \/ (a = b /\ String.leb s t = true).
Proof.
  unfold String.leb. simpl. unfold Ascii.compare, code.
  destruct (N.compare_spec (N_of_ascii a) (N_of_ascii b)) as [E|E|E].
  - assert (a = b) as -> by (by rewrite <- (ascii_N_embedding a), E, ascii_N_embedding).
    split; [intros H; by right | intros [?|[_ ?]]; [lia|done]].
  - split; [intros _; left; lia | done].
  - split; [done | intros [?|[-> _]]; lia].
Qed.

#[export] Instance string_leb_trans : Transitive (fun a b => String.leb a b = true).
Proof.
  intros x. induction x as [|a x IH]; intros [|b y] [|c z] H1 H2; try done.
  rewrite leb_cons in *.
  destruct H1 as [?|[-> ?]], H2 as [?|[-> ?]]; [left; lia|by left|by left|].
  right. split; [done|]. by eapply IH.
Qed.

Definition key_le {A} (x y : string * A) : Prop := String.leb x.1 y.1 = true.

Lemma insert_item_sorted {A} (kv : string * A) (l : list (string * A)) :
  StronglySorted key_le l -> StronglySorted key_le (insert_item kv l).
Proof.
  induction 1 as [|kv' l Hl IH Hall]; simpl; [repeat constructor|].
  destruct (String.leb kv.1 kv'.1) eqn:E.
  - constructor; [by constructor|]. constructor; [done|].
    eapply Forall_impl; [exact Hall|]. intros x Hx. unfold key_le in *.
    by eapply string_leb_trans.
  - constructor; [done|]. rewrite insert_item_perm. constructor; [|done].
    unfold key_le. destruct (String.leb_total kv.1 kv'.1); congruence.
Qed.

Lemma sort_items_sorted {A} (l : list (string * A)) : StronglySorted key_le (sort_items l).
Proof. induction l as [|kv l IH]; [constructor|]. by apply insert_item_sorted. Qed.

(** With unique keys the sorted list is determined by the set of items. *)
Lemma sort_items_unique {A} (l k : list (string * A)) :
  NoDup (keys l) -> l ≡ₚ k -> sort_items l = sort_items k.
Proof.
  intros Hnd Hp.
  apply StronglySorted_unique_strong with (R := key_le); [|apply sort_items_sorted..|].
  - intros [k1 x1] [k2 x2]. rewrite !sort_items_perm, <- Hp. unfold key_le. simpl.
    intros H1 H2 Hle Hge. assert (k1 = k2) as -> by (by apply String.leb_antisym).
    apply dget_In in H1; [|done]. apply dget_In in H2; [|done]. congruence.
  - by rewrite !sort_items_perm.
Qed.

(** ** Python equality of JSON values: dict items in any order *)
Inductive val_equiv : pyval -> pyval -> Prop :=
| equiv_refl v : val_equiv v v
| equiv_list l k : Forall2 val_equiv l k -> val_equiv (PList l) (PList k)
| equiv_dict d d1 d2 : Forall2 (fun x y => x.1 = y.1 /\ val_equiv x.2 y.2) d d1 -> d1 ≡ₚ d2 ->
    val_equiv (PDict d) (PDict d2).

Lemma Forall2_keys_eq (d d1 : list (string * pyval)) (R : pyval -> pyval -> Prop) :
  Forall2 (fun x y => x.1 = y.1 /\ R x.2 y.2) d d1 -> keys d = keys d1.
Proof.
  unfold keys. induction 1 as [|[] [] ? ? [? _] _ IH]; simpl in *; [done|]. by f_equal.
Qed.

Lemma sort_keys_equiv (v w : pyval) : json_ok v -> val_equiv v w -> sort_keys v = sort_keys w.
Proof.
  revert w. induction v as [|b|z|r|s|l IH|d IH] using pyval_ind; intros w Hok Heq;
    inversion Heq as [|? k Hl|? d1 d2 Hd Hp]; subst; try done.
  - inversion Hok as [| | | | |? Hall|]; subst. simpl. f_equal.
    clear Heq Hok. induction Hl as [|x y l k Hxy Hl IHl]; [done|].
    inversion IH; inversion Hall; subst. simpl. f_equal; auto.
  - inversion Hok as [| | | | | |? Hnd Hall]; subst. simpl. f_equal.
    assert (map (fun '(k, x) => (k, sort_keys x)) d = map (fun '(k, x) => (k, sort_keys x)) d1) as E.
    { clear Heq Hok Hp Hnd. induction Hd as [|[k x] [k' y] d d1 [Hk Hxy] Hd IHd]; [done|].
      simpl in Hk, Hxy. subst k'. inversion IH; inversion Hall; subst. simpl. f_equal; [|auto].
      f_equal. auto. }
    rewrite E. apply sort_items_unique; [|by rewrite Hp].
    rewrite keys_map_snd, <- (Forall2_keys_eq d d1 val_equiv); done.
Qed.

(** ** The canonical text and its digest *)
(** [json.dumps(value, ensure_ascii=False, separators=(",", ":"), sort_keys=True)]. *)
Definition dumps_sorted (v : pyval) : string := dumps (sort_keys v).

Lemma loads_dumps_sorted (v : pyval) : json_ok v -> loads (dumps_sorted v) = Ok (sort_keys v).
Proof. intros H. by apply loads_dumps, sort_keys_ok. Qed.

Lemma dumps_sorted_inj (v w : pyval) :
  json_ok v -> json_ok w -> dumps_sorted v = dumps_sorted w -> sort_keys v = sort_keys w.
Proof.
  intros Hv Hw H. apply loads_dumps_sorted in Hv, Hw. rewrite H in Hv. congruence.
Qed.

#[export] Hint Resolve sort_keys_ok : pyjson.

(** ** Sorted dicts: lookups, keys and idempotence *)
Definition sorted_dict (d : list (string * pyval)) : list (string * pyval) :=
  sort_items (map (fun '(k, x) => (k, sort_keys x)) d).

Lemma sort_items_map {A B} (f : A -> B) (d : list (string * A)) :
  sort_items (map (fun '(k, x) => (k, f x)) d) = map (fun '(k, x) => (k, f x)) (sort_items d).
Proof.
  induction d as [|[k x] d IH]; [done|]. simpl. rewrite IH. generalize (sort_items d) as l.
  induction l as [|[k' x'] l IHl]; [done|]. simpl. destruct (String.leb k k'); [done|].
  simpl. by f_equal.
Qed.

Lemma dget_perm {A} (k : string) (d e : list (string * A)) :
  NoDup (keys d) -> d ≡ₚ e -> dget k e = dget k d.
Proof.
  intros Hn Hp. destruct (dget k d) as [v|] eqn:E.
  - apply dget_In; [by eapply NoDup_keys_perm|]. rewrite <- Hp. by apply dget_Some_In.
  - apply dget_None in E. apply dget_None. unfold keys in *. by rewrite <- Hp.
Qed.

Lemma dget_sort_items {A} (k : string) (d : list (string * A)) :
  NoDup (keys d) -> dget k (sort_items d) = dget k d.
Proof. intros H. apply dget_perm; [done|]. symmetry. apply sort_items_perm. Qed.

Lemma dget_map_snd {A B} (f : A -> B) (k : string) (d : list (string * A)) :
  dget k (map (fun '(k, x) => (k, f x)) d) = f <$> dget k d.
Proof. induction d as [|[k' x] d IH]; [done|]. simpl. by destruct (String.eqb k k'). Qed.

Lemma dget_sorted_dict (k : string) (d : list (string * pyval)) :
  NoDup (keys d) -> dget k (sorted_dict d) = sort_keys <$> dget k d.
Proof.
  intros H. unfold sorted_dict. rewrite dget_sort_items; [apply dget_map_snd|].
  by rewrite keys_map_snd.
Qed.

Lemma keys_sorted_dict (d : list (string * pyval)) : keys (sorted_dict d) ≡ₚ keys d.
Proof.
  unfold sorted_dict. transitivity (keys (map (fun '(k, x) => (k, sort_keys x)) d)).
  - unfold keys. by rewrite sort_items_perm.
  - by rewrite keys_map_snd.
Qed.

Lemma sort_keys_idem (v : pyval) : json_ok v -> sort_keys (sort_keys v) = sort_keys v.
Proof.
  induction v as [|b|z|r|s|l IH|d IH] using pyval_ind; intros Hok; try done.
  - inversion Hok as [| | | | |? Hall|]; subst. simpl. f_equal. rewrite map_map.
    clear Hok. induction l as [|x l IHl]; [done|]. inversion IH; inversion Hall; subst.
    simpl. f_equal; auto.
  - inversion Hok as [| | | | | |? Hnd Hall]; subst. simpl. f_equal.
    rewrite <- sort_items_map, map_map.
    assert (map (fun x => let '(k, x) := let '(k, x) := x in (k, sort_keys x) in (k, sort_keys x)) d =
            map (fun '(k, x) => (k, sort_keys x)) d) as ->.
    { clear Hok Hnd. induction d as [|[k x] d IHd]; [done|]. inversion IH; inversion Hall; subst.
      simpl. f_equal; [|auto]. f_equal. auto. }
    apply sort_items_unique; [|apply sort_items_perm].
    eapply NoDup_keys_perm; [symmetry; apply sort_items_perm|]. by rewrite keys_map_snd.
Qed.

Lemma json_ok_dget (d : list (string * pyval)) (k : string) (v : pyval) :
  json_ok (PDict d) -> dget k d = Some v -> json_ok v.
Proof.
  inversion 1 as [| | | | | |? Hnd Hall]; subst. intros Hg%dget_Some_In.
  rewrite Forall_forall in Hall. by apply (Hall (k, v)).
Qed.

Lemma json_ok_NoDup (d : list (string * pyval)) : json_ok (PDict d) -> NoDup (keys d).
Proof. by inversion 1. Qed.

(** Reading a field of the sorted dict. *)
Lemma vget_sorted (k : string) (d : list (string * pyval)) :
  json_ok (PDict d) -> vget k (sorted_dict d) = sort_keys (vget k d) /\ json_ok (vget k d).
Proof.
  intros H. unfold vget, dget_or. rewrite dget_sorted_dict by (by apply json_ok_NoDup).
  destruct (dget k d) eqn:E; simpl; [split; [done|] | split; [done | constructor]].
  by eapply json_ok_dget.
Qed.

Lemma dget_or_sorted (k : string) (def : pyval) (d : list (string * pyval)) :
  json_ok (PDict d) -> json_ok def -> sort_keys def = def ->
  dget_or k def (sorted_dict d) = sort_keys (dget_or k def d) /\ json_ok (dget_or k def d).
Proof.
  intros H Hd Hs. unfold dget_or. rewrite dget_sorted_dict by (by apply json_ok_NoDup).
  destruct (dget k d) eqn:E; simpl; [split; [done|] | split; [done | done]].
  by eapply json_ok_dget.
Qed.

(** A decision procedure for values without floats. *)
Fixpoint json_okb (v : pyval) : bool :=
  match v with
  | PNone | PBool _ | PStr _ => true
  | PInt z => byte_len (str_nat (Z.abs z)) <=? int_max_str_digits
  | PFloat _ => false
  | PList l => forallb json_okb l
  | PDict d => nodupb (keys d) && forallb (fun kv => json_okb kv.2) d
  end.

Lemma json_okb_ok (v : pyval) : json_okb v = true -> json_ok v.
Proof.
  induction v as [|b|z|r|s|l IH|d IH] using pyval_ind; simpl; intros H; try constructor; try done.
  - by apply Z.leb_le.
  - induction IH as [|x l Hx IH IHl]; [constructor|]. simpl in H. apply andb_true_iff in H as [H1 H2].
    constructor; auto.
  - apply andb_true_iff in H as [H _]. by apply nodupb_NoDup.
  - apply andb_true_iff in H as [_ H]. induction IH as [|x l Hx IH IHl]; [constructor|].
    simpl in H. apply andb_true_iff in H as [H1 H2]. constructor; auto.
Qed.
