(* ===== verification/Config.v ===== *)
(** The immutable settings of the runtime controller
    (dealhost/runtime_controller_service/config.py). *)

From Stdlib Require Import QArith.
From S2P Require Import Prelude PyValue Regex.

(** [ControllerSettings]; the two float durations are rationals. *)
Record ControllerSettings := {
  auth_token : string;
  environment : string;
  namespace : string;
  kubernetes_url : string;
  kubernetes_token_file : string;
  kubernetes_ca_file : string;
  allowed_image_prefixes : list string;
  workload_service_account : string;
  image_pull_secret : string;
  secret_name_prefix : string;
  secret_catalog_name : string;
  secret_catalog_namespace : string;
  max_replicas : Z;
  request_timeout_seconds : Q;
  lease_duration_seconds : Z;
  lease_acquire_timeout_seconds : Q
}.



(** [_DNS_LABEL]. *)
Definition _DNS_LABEL : regex :=
  Seq (Cls lower_digit)
      (opt (Seq (Rep 0 (Some 61%nat) (Cls (por lower_digit (one_of "-")))) (Cls lower_digit))).
Definition dns_byte : ascii -> bool := por lower_digit (one_of "-").

(** A label is made of label bytes, begins and ends with a letter or digit, and has
    at most 63 of them. *)
Lemma dns_label_intro (a b : ascii) (mid : string) :
  lower_digit a = true -> lower_digit b = true -> all_bytes dns_byte mid = true ->
  (String.length mid <= 61)%nat ->
  fullmatch _DNS_LABEL (String a (mid ++ String b "")) = true.
Proof.
  intros Ha Hb Hm Hl. apply fullmatch_spec.
  exists (String a ""), (mid ++ String b "")%string. split; [done|]. split; [by exists a|].
  exists [(mid ++ String b "")%string]. split; [done|]. split; [|simpl; lia].
  constructor; [|constructor]. exists mid, (String b ""). split; [done|].
  split; [|by exists b]. apply matches_Rep_Cls. split; [done|]. split; [lia|done].
Qed.
