(* ===== verification/Contract.v ===== *)
(** The request contract of the runtime controller
    (dealhost/runtime_controller_service/contract.py): the validation and the
    normalisation of a desired deployment.

    The theorems: whatever JSON value arrives, an accepted deployment satisfies the
    whole policy ([wf_desired]); the digest pins the manifest; validation is the
    identity on what it has normalised; the only exceptions besides
    [ContractError] are the interpreter's. *)

From S2P Require Import Prelude PyValue Regex Sha256 Json Config.
#[local] Open Scope Z_scope.

Definition invalid (detail : string) : pyexn :=
  ContractError detail "invalid_runtime_contract" 422.

(** ** Patterns *)
Definition _COMPONENT_SLUG : regex :=
  Seq (Cls lower_digit) (Rep 0 (Some 62%nat) (Cls (por lower_digit (one_of "-")))).
Definition _ENV_KEY : regex :=
  Seq (Cls (between "A" "Z"))
      (Rep 0 (Some 63%nat) (Cls (por (between "A" "Z") (por (between "0" "9") (one_of "_"))))).
Definition _SECRET_NAME : regex :=
  Seq (Cls lower_digit)
      (opt (Seq (Rep 0 (Some 61%nat) (Cls (por lower_digit (one_of "-")))) (Cls lower_digit))).
Definition _IMAGE : regex :=
  Seq (Cls lower_digit)
      (Seq (opt (Seq (star (Cls (por lower_digit (one_of "._/-")))) (Cls lower_digit)))
           (Seq (lit "@sha256:") (Rep 64 (Some 64%nat) (Cls hex_lower)))).
Definition _HEX_DIGEST : regex := Rep 64 (Some 64%nat) (Cls hex_lower).
Definition _CPU : regex :=
  Alt (Seq (Cls (between "1" "9")) (star (Cls (between "0" "9"))))
      (Seq (Cls (between "1" "9")) (Seq (star (Cls (between "0" "9"))) (lit "m"))).
Definition _MEMORY : regex :=
  Seq (Cls (between "1" "9"))
      (Seq (star (Cls (between "0" "9"))) (Alt (lit "Ki") (Alt (lit "Mi") (lit "Gi")))).
Definition alnum : ascii -> bool := por (between "A" "Z") (por (between "a" "z") (between "0" "9")).
Definition _REQUEST_ID : regex :=
  Seq (Cls alnum) (Rep 7 (Some 127%nat) (Cls (por alnum (one_of "._:-")))).

(** ** Data *)
Record Resources := {
  requests_cpu : string; requests_memory : string;
  limits_cpu : string; limits_memory : string
}.

Inductive Scaling :=
| Fixed (replicas : Z)
| Autoscale (min_replicas max_replicas target_cpu_utilization : Z).

Record Component := {
  module_id : Z;
  slug : string;
  image : string;
  container_port : Z;
  healthcheck_path : string;
  resources : Resources;
  plain_keys : list string;
  secret_keys : list string;
  configuration : list (string * string);
  secret_refs : list (string * string);
  scaling : Scaling
}.

Record DesiredDeployment := {
  deployment_id : string;
  d_environment : string;
  generation : Z;
  desired_state : string;
  release_digest : string;
  manifest : list (string * pyval);
  components : list Component;
  normalized_payload : pyval
}.

(** ** canonical_json, payload_digest *)
Definition canonical_json (value : pyval) : res string := encode_utf8 (dumps_sorted value).
Definition payload_digest (value : pyval) : res string :=
  text ← canonical_json value; Ok (sha256_hex text).

(** ** Identifiers *)
Definition validate_request_id (value : string) : res string :=
  let normalized := py_strip value in
  if negb (fullmatch _REQUEST_ID normalized)
  then Raise (ContractError "Idempotency-Key must contain 8-128 safe characters."
                "invalid_idempotency_key" 400)
  else Ok normalized.

(** [s.replace(p, "")]. *)
Fixpoint remove_all (fuel : nat) (p s : string) : string :=
  match fuel, s with
  | S f, String a r =>
      match strip_prefix p s with
      | Some q => remove_all f p q
      | None => String a (remove_all f p r)
      end
  | _, _ => s
  end.
Definition py_remove (p s : string) : string := remove_all (S (String.length s)) p s.

Fixpoint hex_int (n : Z) (s : string) : option Z :=
  match s with
  | ""%string => Some n
  | String a r => d ← hex_value a; hex_int (16 * n + d) r
  end.
(** [uuid.UUID(value).int]: "urn:", "uuid:", braces and hyphens are dropped, then 32
    hexadecimal digits.  [int(hex, 16)] also takes signs, blanks and underscores;
    such text never equals the canonical form it is compared with below. *)
Definition uuid_of_string (s : string) : option Z :=
  let hex := py_remove "uuid:" (py_remove "urn:" s) in
  let hex := py_remove "-" (strip_chars (fun c => String.eqb c "{" || String.eqb c "}") hex) in
  if py_len hex =? 32 then hex_int 0 hex else None.
(** [str(uuid)]. *)
Definition uuid_str (n : Z) : string :=
  (hex 8 (Z.shiftr n 96) ++ "-" ++ hex 4 (Z.shiftr n 80) ++ "-" ++ hex 4 (Z.shiftr n 64) ++ "-" ++
   hex 4 (Z.shiftr n 48) ++ "-" ++ hex 12 n)%string.

Definition validate_deployment_id (value : pyval) : res string :=
  let bad := ContractError "The deployment identifier must be a canonical UUID."
               "invalid_runtime_contract" 400 in
  match value with
  | PStr s =>
      match uuid_of_string s with
      | Some parsed =>
          let canonical := uuid_str parsed in
          if String.eqb s canonical then Ok canonical else Raise bad
      | None => Raise bad
      end
  | _ => Raise bad
  end.

Example validate_deployment_id_ok :
  validate_deployment_id (PStr "0b9f1c6e-3c4d-4f7e-8a55-00c0ffee1234") =
  Ok "0b9f1c6e-3c4d-4f7e-8a55-00c0ffee1234"%string.
Proof. vm_compute. reflexivity. Qed.
Example validate_deployment_id_upper :
  validate_deployment_id (PStr "0B9F1C6E-3C4D-4F7E-8A55-00C0FFEE1234") =
  Raise (ContractError "The deployment identifier must be a canonical UUID."
           "invalid_runtime_contract" 400).
Proof. vm_compute. reflexivity. Qed.

(** ** Field helpers *)
(** JSON objects have string keys only, so the second test of [_object] is vacuous. *)
Definition _object (value : pyval) (label : string) : res (list (string * pyval)) :=
  match value with
  | PDict d => Ok d
  | _ => Raise (invalid (label ++ " must be a JSON object."))
  end.

Definition sort_strings (l : list string) : list string :=
  (sort_items (map (fun k => (k, tt)) l)).*1.
(** [repr] of a string: double quotes only when the text has a single quote and no
    double quote; non-ASCII characters are taken as printable. *)
Definition repr_byte (quote : Z) (a : ascii) : string :=
  let c := code a in
  if (c =? 92) || (c =? quote) then bytes [92; c]
  else if c =? 10 then bytes [92; 110] else if c =? 13 then bytes [92; 114]
  else if c =? 9 then bytes [92; 116]
  else if (c <? 32) || (c =? 127) then (bytes [92; 120] ++ hex 2 c)%string
  else String a "".
Definition repr_str (s : string) : string :=
  let quote := if has_byte 39 s && negb (has_byte 34 s) then 34 else 39 in
  (bytes [quote] ++ String.concat "" (map (repr_byte quote) (list_ascii_of_string s)) ++
   bytes [quote])%string.
Definition repr_list (l : list string) : string :=
  ("[" ++ String.concat ", " (map repr_str l) ++ "]")%string.

Definition _exact_fields {A} (value : list (string * A)) (allowed : list string)
    (label : string) (optional : list string) : res unit :=
  let unknown := set_diff (keys value) allowed in
  let missing := set_diff (set_diff allowed optional) (keys value) in
  match unknown, missing with
  | [], [] => Ok tt
  | _, _ => Raise (invalid (label ++ " fields are invalid (missing=" ++
      repr_list (sort_strings missing) ++ ", unknown=" ++ repr_list (sort_strings unknown) ++ ")."))
  end.

Definition _positive_int (value : pyval) (label : string) : res Z :=
  match value with
  | PInt z => if z <? 1 then Raise (invalid (label ++ " must be a positive integer.")) else Ok z
  | _ => Raise (invalid (label ++ " must be a positive integer."))
  end.

(** [s[:-n]] on the ASCII text the patterns accept. *)
Definition chop (n : nat) (s : string) : string := String.substring 0 (String.length s - n) s.
Definition last_bytes (n : nat) (s : string) : string := String.substring (String.length s - n) n s.

Definition _cpu_millis (value : string) : res Z :=
  if endswith "m" value then int_of_digits (chop 1 value)
  else n ← int_of_digits value; Ok (n * 1000).

Definition _memory_kib (value : string) : res Z :=
  number ← int_of_digits (chop 2 value);
  let suffix := last_bytes 2 value in
  match dget suffix [("Ki"%string, 1); ("Mi"%string, 1024); ("Gi"%string, 1024 * 1024)] with
  | Some factor => Ok (number * factor)
  | None => Raise (KeyError suffix)
  end.

(** [v in {"a", ...}]: testing a list or a dict for membership in a set raises. *)
Definition in_set (v : pyval) (l : list string) : res bool :=
  match v with
  | PStr s => Ok (mem s l)
  | PList _ | PDict _ => Raise TypeError
  | _ => Ok false
  end.

(** ** Runtime profiles *)
Definition resource_group (resources : list (string * pyval)) (group slug : string)
    : res (string * string) :=
  entries ← _object (vget group resources) ("Resource " ++ group ++ " for " ++ slug);
  _ ← _exact_fields entries ["cpu"; "memory"]%string ("Resource " ++ group ++ " for " ++ slug) [];
  match vget "cpu" entries with
  | PStr cpu =>
      _ ← raise_if (negb (fullmatch _CPU cpu)) (invalid ("CPU " ++ group ++ " for " ++ slug ++ " is invalid."));
      match vget "memory" entries with
      | PStr memory =>
          _ ← raise_if (negb (fullmatch _MEMORY memory))
                (invalid ("Memory " ++ group ++ " for " ++ slug ++ " is invalid."));
          Ok (cpu, memory)
      | _ => Raise (invalid ("Memory " ++ group ++ " for " ++ slug ++ " is invalid."))
      end
  | _ => Raise (invalid ("CPU " ++ group ++ " for " ++ slug ++ " is invalid."))
  end.

Definition _resources (value : pyval) (slug : string) : res Resources :=
  resources ← _object value ("Resources for " ++ slug);
  _ ← _exact_fields resources ["requests"; "limits"]%string ("Resources for " ++ slug) [];
  '(rc, rm) ← resource_group resources "requests" slug;
  '(lc, lm) ← resource_group resources "limits" slug;
  let above := invalid ("Resource requests for " ++ slug ++ " cannot exceed limits.") in
  rcpu ← _cpu_millis rc; lcpu ← _cpu_millis lc;
  _ ← raise_if (lcpu <? rcpu) above;
  rmem ← _memory_kib rm; lmem ← _memory_kib lm;
  _ ← raise_if (lmem <? rmem) above;
  Ok {| requests_cpu := rc; requests_memory := rm; limits_cpu := lc; limits_memory := lm |}.

Definition env_key_item (item : pyval) : option string :=
  match item with PStr s => if fullmatch _ENV_KEY s then Some s else None | _ => None end.

Definition _key_set (value : pyval) (slug : string) : res (list string) :=
  let bad := invalid ("Configuration schema keys for " ++ slug ++ " are invalid.") in
  match value with
  | PList items =>
      if (50 <? Z.of_nat (length items)) then Raise bad
      else match mapM env_key_item items with
           | Some ks => if nodupb ks then Ok ks else Raise bad
           | None => Raise bad
           end
  | _ => Raise bad
  end.

(** What [_parse_manifest] keeps of one release component. *)
Record ManifestComponent := {
  mc_module_id : Z;
  mc_image : string;
  mc_container_port : Z;
  mc_healthcheck_path : string;
  mc_resources : Resources;
  mc_plain_keys : list string;
  mc_secret_keys : list string
}.

Definition valid_health (health : pyval) : option string :=
  match health with
  | PStr h => if negb (startswith "/" h) || startswith "//" h || (255 <? py_len h) || any_space h
              then None else Some h
  | _ => None
  end.

Definition _parse_profile (module_id : Z) (slug image : string) (spec : list (string * pyval))
    : res ManifestComponent :=
  _ ← _exact_fields spec
        ["kind"; "container_port"; "healthcheck_path"; "resources"; "configuration"; "network_egress"]%string
        ("Runtime profile for " ++ slug) ["configuration"; "network_egress"]%string;
  _ ← raise_if (negb (eq_str (vget "kind" spec) "deployment"))
        (invalid ("Only stateless deployments are supported for " ++ slug ++ "."));
  port ← _positive_int (vget "container_port" spec) "container_port";
  _ ← raise_if (65535 <? port) (invalid ("Container port for " ++ slug ++ " is invalid."));
  match valid_health (vget "healthcheck_path" spec) with
  | None => Raise (invalid ("Healthcheck path for " ++ slug ++ " is invalid."))
  | Some health =>
      resources ← _resources (vget "resources" spec) slug;
      configuration ← _object (dget_or "configuration" (PDict []) spec)
                        ("Configuration schema for " ++ slug);
      _ ← _exact_fields configuration ["plain"; "secret"]%string
            ("Configuration schema for " ++ slug) ["plain"; "secret"]%string;
      plain ← _key_set (dget_or "plain" (PList []) configuration) slug;
      secret ← _key_set (dget_or "secret" (PList []) configuration) slug;
      _ ← raise_if (negb (disjointb plain secret))
            (invalid ("Configuration keys for " ++ slug ++ " cannot be both plain and secret."));
      match dget_or "network_egress" (PList []) spec with
      | PList [] =>
          Ok {| mc_module_id := module_id; mc_image := image; mc_container_port := port;
                mc_healthcheck_path := health; mc_resources := resources;
                mc_plain_keys := plain; mc_secret_keys := secret |}
      | PList _ =>
          Raise (ContractError ("FQDN network egress for " ++ slug ++
                   " is not enforced by this controller and is rejected.")
                   "network_egress_unsupported" 422)
      | _ => Raise (invalid ("Network egress for " ++ slug ++ " is invalid."))
      end
  end.

(** ** The release manifest *)
Definition allowed_image (settings : ControllerSettings) (image : string) : bool :=
  fullmatch _IMAGE image && existsb (fun prefix => startswith prefix image) (allowed_image_prefixes settings).

(** One iteration of the loop over [modules]: the parsed components so far, in
    order, and the module identifiers already used. *)
Definition parse_module (settings : ControllerSettings)
    (acc : list (string * ManifestComponent) * list Z) (raw_component : pyval)
    : res (list (string * ManifestComponent) * list Z) :=
  let '(parsed, module_ids) := acc in
  component ← _object raw_component "Release component";
  _ ← _exact_fields component
        ["module_id"; "slug"; "image"; "profile_schema_version"; "profile_digest"; "spec"]%string
        "Release component" [];
  module_id ← _positive_int (vget "module_id" component) "module_id";
  let bad_identity := invalid "Release component identities must be unique and canonical." in
  match vget "slug" component with
  | PStr slug =>
      _ ← raise_if (negb (fullmatch _COMPONENT_SLUG slug) || has_key slug parsed ||
                    existsb (Z.eqb module_id) module_ids) bad_identity;
      let bad_image := ContractError ("Image for " ++ slug ++ " is not an allowed immutable digest.")
                         "image_policy_rejected" 422 in
      match vget "image" component with
      | PStr image =>
          _ ← raise_if (negb (allowed_image settings image)) bad_image;
          _ ← raise_if (negb (eq_one (vget "profile_schema_version" component)))
                (invalid ("Runtime profile for " ++ slug ++ " is unsupported."));
          spec ← _object (vget "spec" component) ("Runtime profile for " ++ slug);
          let bad_digest := invalid ("Runtime profile digest for " ++ slug ++ " is invalid.") in
          match vget "profile_digest" component with
          | PStr profile_digest =>
              _ ← raise_if (negb (fullmatch _HEX_DIGEST profile_digest)) bad_digest;
              digest ← payload_digest (PDict spec);
              _ ← raise_if (negb (String.eqb digest profile_digest)) bad_digest;
              profile ← _parse_profile module_id slug image spec;
              Ok (dset slug profile parsed, module_ids ++ [module_id])
          | _ => Raise bad_digest
          end
      | _ => Raise bad_image
      end
  | _ => Raise bad_identity
  end.

Definition _parse_manifest (manifest : list (string * pyval)) (settings : ControllerSettings)
    : res (list (string * ManifestComponent)) :=
  _ ← _exact_fields manifest ["schema_version"; "application"; "version"; "version_source"; "modules"]%string
        "Release manifest" [];
  _ ← raise_if (negb (eq_one (vget "schema_version" manifest)))
        (invalid "The release manifest schema is unsupported.");
  application ← _object (vget "application" manifest) "Release application";
  _ ← _exact_fields application ["id"; "slug"]%string "Release application" [];
  _ ← raise_if (match vget "id" application with PInt _ => false | _ => true end)
        (invalid "The release application identifier is invalid.");
  _ ← raise_if (match vget "slug" application with PStr s => String.eqb s "" | _ => true end)
        (invalid "The release application slug is invalid.");
  _ ← raise_if (match vget "version" manifest with PStr s => String.eqb s "" | _ => true end)
        (invalid "The release version is invalid.");
  _ ← raise_if (negb (is_str (vget "version_source" manifest)))
        (invalid "The release version source is invalid.");
  match vget "modules" manifest with
  | PList modules =>
      _ ← raise_if (negb ((1 <=? Z.of_nat (length modules)) && (Z.of_nat (length modules) <=? 20)))
            (invalid "A release must contain between 1 and 20 components.");
      '(parsed, _) ← foldM_res (parse_module settings) ([], []) modules;
      Ok parsed
  | _ => Raise (invalid "A release must contain between 1 and 20 components.")
  end.

(** ** Configuration, secrets and scaling *)
Definition _component_mapping (value : pyval) (label : string)
    : res (list (string * list (string * pyval))) :=
  mapping ← _object value label;
  mapM_res (fun '(slug, entries) =>
    _ ← raise_if (negb (fullmatch _COMPONENT_SLUG slug))
          (invalid (label ++ " contains an invalid component slug."));
    raw_entries ← _object entries (label ++ " for " ++ slug);
    Ok (slug, raw_entries)) mapping.

Definition validate_value (allowed : list string) (slug : string) (secret : bool)
    (acc : list (string * string) * Z) (entry : string * pyval)
    : res (list (string * string) * Z) :=
  let '(normalized, total) := acc in
  let '(key, value) := entry in
  _ ← raise_if (negb (fullmatch _ENV_KEY key) || negb (mem key allowed))
        (invalid ("Configuration key " ++ key ++ " is not allowed for " ++ slug ++ "."));
  match value with
  | PStr text =>
      _ ← raise_if ((2048 <? py_len text) || has_byte 0 text)
            (invalid ("Configuration value for " ++ key ++ " is invalid."));
      _ ← raise_if (secret && negb (fullmatch _SECRET_NAME text))
            (invalid ("Secret reference for " ++ key ++ " is invalid."));
      key_bytes ← encode_utf8 key;
      value_bytes ← encode_utf8 text;
      let total := total + (byte_len key_bytes + byte_len value_bytes) in
      _ ← raise_if (16384 <? total) (invalid ("Configuration for " ++ slug ++ " exceeds 16 KiB."));
      Ok (dset key text normalized, total)
  | _ => Raise (invalid ("Configuration value for " ++ key ++ " is invalid."))
  end.

Definition _validate_values (values : list (string * pyval)) (allowed : list string)
    (slug : string) (secret : bool) : res (list (string * string)) :=
  _ ← raise_if (50 <? Z.of_nat (length values))
        (invalid ("Too many configuration values for " ++ slug ++ "."));
  '(normalized, _) ← foldM_res (validate_value allowed slug secret) ([], 0) values;
  Ok normalized.

Definition _scaling_policy (value : pyval) (slug : string) (maximum_allowed : Z) : res Scaling :=
  policy ← _object value ("Scaling for " ++ slug);
  let mode := vget "mode" policy in
  if eq_str mode "fixed" then
    _ ← _exact_fields policy ["mode"; "replicas"]%string ("Scaling for " ++ slug) [];
    replicas ← _positive_int (vget "replicas" policy) "replicas";
    _ ← raise_if (maximum_allowed <? replicas)
          (invalid ("Fixed scaling for " ++ slug ++ " exceeds the controller replica limit."));
    Ok (Fixed replicas)
  else if eq_str mode "autoscale" then
    _ ← _exact_fields policy ["mode"; "min_replicas"; "max_replicas"; "target_cpu_utilization"]%string
          ("Scaling for " ++ slug) [];
    minimum ← _positive_int (vget "min_replicas" policy) "min_replicas";
    maximum ← _positive_int (vget "max_replicas" policy) "max_replicas";
    target ← _positive_int (vget "target_cpu_utilization" policy) "target_cpu_utilization";
    _ ← raise_if ((maximum <? minimum) || (maximum_allowed <? maximum) ||
                  negb ((10 <=? target) && (target <=? 90)))
          (invalid ("Autoscaling for " ++ slug ++ " violates controller limits."));
    Ok (Autoscale minimum maximum target)
  else Raise (invalid ("Scaling mode for " ++ slug ++ " is unsupported.")).

(** The dicts the code builds back from the typed records. *)
Definition py_strings (d : list (string * string)) : pyval :=
  PDict (map (fun '(k, v) => (k, PStr v)) d).
Definition py_resources (r : Resources) : pyval :=
  PDict [("requests"%string, PDict [("cpu"%string, PStr (requests_cpu r)); ("memory"%string, PStr (requests_memory r))]);
         ("limits"%string, PDict [("cpu"%string, PStr (limits_cpu r)); ("memory"%string, PStr (limits_memory r))])].
Definition py_scaling (s : Scaling) : pyval :=
  match s with
  | Fixed n => PDict [("mode"%string, PStr "fixed"); ("replicas"%string, PInt n)]
  | Autoscale lo hi t =>
      PDict [("mode"%string, PStr "autoscale"); ("min_replicas"%string, PInt lo);
             ("max_replicas"%string, PInt hi); ("target_cpu_utilization"%string, PInt t)]
  end.

(** ** parse_desired_deployment *)
Definition check_known {A} (label : string) (mapping : list (string * A)) (expected : list string) : res unit :=
  match set_diff (keys mapping) expected with
  | [] => Ok tt
  | unknown => Raise (invalid (label ++ " contains unknown components: " ++
      String.concat ", " (sort_strings unknown) ++ "."))
  end.

(** One iteration of the loop over the manifest's components. *)
Definition build_component (settings : ControllerSettings)
    (configuration secret_refs : list (string * list (string * pyval))) (scaling : list (string * pyval))
    (entry : string * ManifestComponent) : res Component :=
  let '(slug, mc) := entry in
  plain_values ← _validate_values (dget_or slug [] configuration) (mc_plain_keys mc) slug false;
  secret_values ← _validate_values (dget_or slug [] secret_refs) (mc_secret_keys mc) slug true;
  match dget slug scaling with
  | None => Raise (KeyError slug)
  | Some policy =>
      scaling_policy ← _scaling_policy policy slug (max_replicas settings);
      Ok {| module_id := mc_module_id mc; slug := slug; image := mc_image mc;
            container_port := mc_container_port mc; healthcheck_path := mc_healthcheck_path mc;
            resources := mc_resources mc; plain_keys := mc_plain_keys mc;
            secret_keys := mc_secret_keys mc; configuration := plain_values;
            secret_refs := secret_values; scaling := scaling_policy |}
  end.

Definition normalize (deployment_id environment : string) (generation : Z)
    (desired_state release_digest : string) (manifest : list (string * pyval))
    (components : list Component) : pyval :=
  PDict [("deployment_id"%string, PStr deployment_id);
         ("environment"%string, PStr environment);
         ("generation"%string, PInt generation);
         ("desired_state"%string, PStr desired_state);
         ("release"%string, PDict [("digest"%string, PStr release_digest); ("manifest"%string, PDict manifest)]);
         ("configuration"%string, PDict (map (fun c => (slug c, py_strings (configuration c))) components));
         ("secret_refs"%string, PDict (map (fun c => (slug c, py_strings (secret_refs c))) components));
         ("scaling"%string, PDict (map (fun c => (slug c, py_scaling (scaling c))) components))].

Definition payload_fields : list string :=
  ["deployment_id"; "environment"; "generation"; "desired_state"; "release"; "configuration";
   "secret_refs"; "scaling"]%string.
Definition allowed_desired_states (allow_absent : bool) : list string :=
  ["running"%string; "stopped"%string] ++ if allow_absent then ["absent"%string] else [].

Definition parse_desired_deployment (value : pyval) (settings : ControllerSettings)
    (allow_absent : bool) : res DesiredDeployment :=
  payload ← _object value "Runtime payload";
  _ ← _exact_fields payload payload_fields "Runtime payload" [];
  deployment_id ← validate_deployment_id (vget "deployment_id" payload);
  _ ← raise_if (negb (eq_str (vget "environment" payload) (Config.environment settings)))
        (ContractError "The requested runtime environment is not managed by this controller."
           "environment_not_managed" 409);
  generation ← _positive_int (vget "generation" payload) "generation";
  known ← in_set (vget "desired_state" payload) (allowed_desired_states allow_absent);
  let unsupported := invalid "The requested desired state is unsupported by this operation." in
  _ ← raise_if (negb known) unsupported;
  match vget "desired_state" payload with
  | PStr desired_state =>
      release ← _object (vget "release" payload) "Release";
      _ ← _exact_fields release ["digest"; "manifest"]%string "Release" [];
      manifest ← _object (vget "manifest" release) "Release manifest";
      match vget "digest" release with
      | PStr release_digest =>
          _ ← raise_if (negb (fullmatch _HEX_DIGEST release_digest)) (invalid "The release digest is invalid.");
          digest ← payload_digest (PDict manifest);
          _ ← raise_if (negb (String.eqb digest release_digest))
                (ContractError "The release manifest does not match its digest."
                   "release_integrity_failed" 422);
          manifest_components ← _parse_manifest manifest settings;
          configuration ← _component_mapping (vget "configuration" payload) "Configuration";
          secret_refs ← _component_mapping (vget "secret_refs" payload) "Secret references";
          scaling ← _object (vget "scaling" payload) "Scaling";
          let expected_slugs := keys manifest_components in
          _ ← check_known "Configuration" configuration expected_slugs;
          _ ← check_known "Secret references" secret_refs expected_slugs;
          _ ← check_known "Scaling" scaling expected_slugs;
          _ ← raise_if (negb (set_eqb (keys scaling) expected_slugs))
                (invalid "Scaling must define every release component.");
          components ← mapM_res (build_component settings configuration secret_refs scaling) manifest_components;
          Ok {| deployment_id := deployment_id; d_environment := Config.environment settings;
                generation := generation; desired_state := desired_state;
                release_digest := release_digest; manifest := manifest; components := components;
                normalized_payload := normalize deployment_id (Config.environment settings) generation
                  desired_state release_digest manifest components |}
      | _ => Raise (invalid "The release digest is invalid.")
      end
  | _ => Raise unsupported
  end.

(** ** A sample deployment, used by the examples and the witnesses *)
Module Sample.
Definition settings : ControllerSettings := {|
  auth_token := "0123456789abcdef0123456789abcdef"; Config.environment := "production";
  namespace := "archideal-runtime"; kubernetes_url := "https://10.0.0.1:443";
  kubernetes_token_file := "/var/run/token"; kubernetes_ca_file := "/var/run/ca.crt";
  allowed_image_prefixes := ["ghcr.io/smartappli/"%string];
  workload_service_account := "dealhost-runtime-application";
  image_pull_secret := "archideal-registry-credentials"; secret_name_prefix := "dealapp";
  secret_catalog_name := "dealhost-runtime-secret-catalog"; secret_catalog_namespace := "archideal";
  max_replicas := 10; request_timeout_seconds := QArith_base.Qmake 15 1;
  lease_duration_seconds := 30; lease_acquire_timeout_seconds := QArith_base.Qmake 10 1 |}.

Definition spec : list (string * pyval) :=
  [("kind", PStr "deployment"); ("container_port", PInt 8080); ("healthcheck_path", PStr "/health");
   ("resources", PDict
     [("requests", PDict [("cpu", PStr "100m"); ("memory", PStr "128Mi")]);
      ("limits", PDict [("cpu", PStr "1"); ("memory", PStr "1Gi")])]);
   ("configuration", PDict [("plain", PList [PStr "LOG_LEVEL"]); ("secret", PList [PStr "DB_PASSWORD"])])]%string.
(** The digests of [spec] and of [manifest], as the release pipeline computes them. *)
Definition spec_digest : string := "a7f80fb07ca527356de5e3c530de643ae6b334e86bbee51dfcfb08bf592f37e4".
Definition manifest_digest : string := "d5be44535c486d8baf3112b1cdc8b4e3d023ed39523cc7966be96a528a37272b".
Definition image : string :=
  "ghcr.io/smartappli/web@sha256:0123456789abcdef0123456789abcdef0123456789abcdef0123456789abcdef".
Definition manifest : list (string * pyval) :=
  [("schema_version", PInt 1); ("application", PDict [("id", PInt 7); ("slug", PStr "shop")]);
   ("version", PStr "1.4.0"); ("version_source", PStr "manual");
   ("modules", PList [PDict
     [("module_id", PInt 3); ("slug", PStr "web"); ("image", PStr image);
      ("profile_schema_version", PInt 1); ("profile_digest", PStr spec_digest); ("spec", PDict spec)]])]%string.
Definition id : string := "0b9f1c6e-3c4d-4f7e-8a55-00c0ffee1234".
Definition payload_of (generation : Z) (state : string) : pyval :=
  PDict [("deployment_id", PStr id); ("environment", PStr "production"); ("generation", PInt generation);
   ("desired_state", PStr state);
   ("release", PDict [("digest", PStr manifest_digest); ("manifest", PDict manifest)]);
   ("configuration", PDict [("web", PDict [("LOG_LEVEL", PStr "info")])]);
   ("secret_refs", PDict [("web", PDict [("DB_PASSWORD", PStr "shop-db")])]);
   ("scaling", PDict [("web", PDict [("mode", PStr "fixed"); ("replicas", PInt 2)])])]%string.
Definition payload : pyval := payload_of 1 "running".

(** The deployment the sample payload parses to. *)
Definition component : Component := {|
  module_id := 3; slug := "web"; Contract.image := image; container_port := 8080;
  healthcheck_path := "/health";
  resources := {| requests_cpu := "100m"; requests_memory := "128Mi"; limits_cpu := "1"; limits_memory := "1Gi" |};
  plain_keys := ["LOG_LEVEL"%string]; secret_keys := ["DB_PASSWORD"%string];
  configuration := [("LOG_LEVEL", "info")]%string; secret_refs := [("DB_PASSWORD", "shop-db")]%string;
  scaling := Fixed 2 |}.
Definition desired_of (generation : Z) (state : string) : DesiredDeployment := {|
  deployment_id := id; d_environment := "production"; Contract.generation := generation;
  desired_state := state; release_digest := manifest_digest; Contract.manifest := manifest;
  components := [component];
  normalized_payload := normalize id "production" generation state manifest_digest manifest [component] |}.
Definition desired : DesiredDeployment := desired_of 1 "running".
End Sample.

Lemma parse_sample : parse_desired_deployment Sample.payload Sample.settings false = Ok Sample.desired.
Proof. vm_compute. reflexivity. Qed.

Lemma sample_json_ok : json_ok Sample.payload.
Proof. apply json_okb_ok. reflexivity. Qed.

(** ** The policy an accepted deployment satisfies *)
Definition wf_resources (r : Resources) : Prop :=
  matches _CPU (requests_cpu r) /\ matches _CPU (limits_cpu r) /\
  matches _MEMORY (requests_memory r) /\ matches _MEMORY (limits_memory r) /\
  exists rc lc rm lm,
    _cpu_millis (requests_cpu r) = Ok rc /\ _cpu_millis (limits_cpu r) = Ok lc /\ rc <= lc /\
    _memory_kib (requests_memory r) = Ok rm /\ _memory_kib (limits_memory r) = Ok lm /\ rm <= lm.

Definition wf_scaling (maximum : Z) (s : Scaling) : Prop :=
  match s with
  | Fixed n => 1 <= n <= maximum
  | Autoscale lo hi t => 1 <= lo <= hi /\ hi <= maximum /\ 10 <= t <= 90
  end.

Definition entry_bytes (kv : string * string) : Z := byte_len kv.1 + byte_len kv.2.
Definition total_bytes (d : list (string * string)) : Z := foldr (fun kv n => entry_bytes kv + n) 0 d.

Definition wf_entry (allowed : list string) (secret : bool) (kv : string * string) : Prop :=
  fullmatch _ENV_KEY kv.1 = true /\ mem kv.1 allowed = true /\
  (2048 <? py_len kv.2) || has_byte 0 kv.2 = false /\
  secret && negb (fullmatch _SECRET_NAME kv.2) = false /\
  has_surrogate kv.1 = false /\ has_surrogate kv.2 = false.

Definition wf_values (allowed : list string) (secret : bool) (d : list (string * string)) : Prop :=
  NoDup (keys d) /\ Forall (wf_entry allowed secret) d /\ total_bytes d <= 16384 /\
  Z.of_nat (length d) <= 50.

Record wf_manifest_component (settings : ControllerSettings) (mc : ManifestComponent) : Prop := {
  wf_mc_id : 1 <= mc_module_id mc;
  wf_mc_image : allowed_image settings (mc_image mc) = true;
  wf_mc_port : 1 <= mc_container_port mc <= 65535;
  wf_mc_health : valid_health (PStr (mc_healthcheck_path mc)) = Some (mc_healthcheck_path mc);
  wf_mc_resources : wf_resources (mc_resources mc);
  wf_mc_plain : NoDup (mc_plain_keys mc) /\ Forall (fun k => fullmatch _ENV_KEY k = true) (mc_plain_keys mc);
  wf_mc_secret : NoDup (mc_secret_keys mc) /\ Forall (fun k => fullmatch _ENV_KEY k = true) (mc_secret_keys mc);
  wf_mc_disjoint : forall k, k ∈ mc_plain_keys mc -> k ∉ mc_secret_keys mc
}.

(** The manifest part of a component. *)
Definition manifest_part (c : Component) : ManifestComponent := {|
  mc_module_id := module_id c; mc_image := image c; mc_container_port := container_port c;
  mc_healthcheck_path := healthcheck_path c; mc_resources := resources c;
  mc_plain_keys := plain_keys c; mc_secret_keys := secret_keys c |}.

Record wf_component (settings : ControllerSettings) (c : Component) : Prop := {
  wf_c_slug : fullmatch _COMPONENT_SLUG (slug c) = true;
  wf_c_manifest : wf_manifest_component settings (manifest_part c);
  wf_c_configuration : wf_values (plain_keys c) false (configuration c);
  wf_c_secrets : wf_values (secret_keys c) true (secret_refs c);
  wf_c_scaling : wf_scaling (max_replicas settings) (scaling c)
}.

Record wf_desired (settings : ControllerSettings) (d : DesiredDeployment) : Prop := {
  wf_d_id : validate_deployment_id (PStr (deployment_id d)) = Ok (deployment_id d);
  wf_d_environment : d_environment d = Config.environment settings;
  wf_d_generation : 1 <= generation d;
  wf_d_state : desired_state d ∈ ["running"; "stopped"; "absent"]%string;
  wf_d_digest : payload_digest (PDict (manifest d)) = Ok (release_digest d);
  wf_d_count : (1 <= length (components d) <= 20)%nat;
  wf_d_slugs : NoDup (slug <$> components d);
  wf_d_module_ids : NoDup (module_id <$> components d);
  wf_d_components : Forall (wf_component settings) (components d);
  wf_d_payload : normalized_payload d =
    normalize (deployment_id d) (d_environment d) (generation d) (desired_state d)
      (release_digest d) (manifest d) (components d)
}.

#[global] Arguments parse_module : simpl never.
#[global] Arguments validate_value : simpl never.
#[global] Arguments _validate_values : simpl never.
#[global] Arguments _scaling_policy : simpl never.
#[global] Arguments _parse_manifest : simpl never.
#[global] Arguments payload_digest : simpl never.
#[global] Arguments validate_deployment_id : simpl never.

(** ** Success of each step gives its part of the policy *)
Ltac vcase :=
  match goal with
  | H : match ?x with _ => _ end = Ok _ |- _ => destruct x eqn:?; try discriminate H
  end.
Ltac crush := repeat (res_inv; try vcase).

Lemma _object_Ok (v : pyval) (label : string) (d : list (string * pyval)) :
  _object v label = Ok d <-> v = PDict d.
Proof. destruct v; simpl; naive_solver. Qed.

Lemma _positive_int_Ok (v : pyval) (label : string) (z : Z) :
  _positive_int v label = Ok z <-> v = PInt z /\ 1 <= z.
Proof.
  destruct v; simpl; try naive_solver.
  destruct (Z.ltb_spec z0 1); split; intros Hz; destruct_ex_and; simplify_eq; try lia; done.
Qed.

Lemma _exact_fields_Ok {A} (d : list (string * A)) (allowed : list string) (label : string)
    (optional : list string) (u : unit) :
  _exact_fields d allowed label optional = Ok u <->
  keys d ⊆ allowed /\ set_diff allowed optional ⊆ keys d.
Proof.
  unfold _exact_fields. rewrite <- !set_diff_nil. destruct u.
  destruct (set_diff (keys d) allowed), (set_diff (set_diff allowed optional) (keys d)); naive_solver.
Qed.

Lemma resource_group_Ok (rs : list (string * pyval)) (group slug cpu mem : string) :
  resource_group rs group slug = Ok (cpu, mem) ->
  matches _CPU cpu /\ matches _MEMORY mem.
Proof.
  unfold resource_group. intros H. crush. simplify_eq.
  rewrite <- !fullmatch_spec. autorewrite with pyguard in *. done.
Qed.

Lemma _resources_wf (v : pyval) (slug : string) (r : Resources) :
  _resources v slug = Ok r -> wf_resources r.
Proof.
  unfold _resources. intros H. res_inv. vcase. res_inv. vcase. res_inv.
  repeat match goal with H : resource_group _ _ _ = Ok _ |- _ => apply resource_group_Ok in H end.
  autorewrite with pyguard in *. unfold wf_resources. simpl. destruct_ex_and.
  repeat split; try done.
  eexists _, _, _, _. repeat (split; [eassumption|]). eassumption.
Qed.

Lemma mapM_env_key (items : list pyval) (ks : list string) :
  mapM env_key_item items = Some ks ->
  Forall (fun k => fullmatch _ENV_KEY k = true) ks /\ items = PStr <$> ks.
Proof.
  intros H%mapM_Some. induction H as [|x k items ks Hx H [IH1 IH2]]; [done|].
  unfold env_key_item in Hx. destruct x; try done. destruct (fullmatch _ENV_KEY s) eqn:E; [|done].
  simplify_eq. split; [by constructor | done].
Qed.

Lemma _key_set_Ok (v : pyval) (slug : string) (ks : list string) :
  _key_set v slug = Ok ks ->
  v = PList (PStr <$> ks) /\ NoDup ks /\ Forall (fun k => fullmatch _ENV_KEY k = true) ks.
Proof.
  unfold _key_set. intros H. destruct v; try discriminate.
  destruct (50 <? _); [discriminate|]. destruct (mapM env_key_item l) as [ks'|] eqn:E; [|discriminate].
  destruct (nodupb ks') eqn:Hn; [|discriminate]. simplify_eq.
  apply mapM_env_key in E as [H1 ->]. by apply nodupb_NoDup in Hn.
Qed.

Lemma valid_health_idem (v : pyval) (h : string) :
  valid_health v = Some h -> v = PStr h.
Proof. unfold valid_health. destruct v; try done. destruct (_ || _); naive_solver. Qed.

Lemma _parse_profile_wf (settings : ControllerSettings) (id : Z) (slug img : string)
    (spec : list (string * pyval)) (mc : ManifestComponent) :
  1 <= id -> allowed_image settings img = true ->
  _parse_profile id slug img spec = Ok mc ->
  wf_manifest_component settings mc /\ mc_module_id mc = id.
Proof.
  unfold _parse_profile. intros Hid Himg H. crush.
  repeat match goal with
  | H : _key_set _ _ = Ok _ |- _ => apply _key_set_Ok in H
  | H : _resources _ _ = Ok _ |- _ => apply _resources_wf in H
  | H : _positive_int _ _ = Ok _ |- _ => apply _positive_int_Ok in H
  end.
  destruct_ex_and. autorewrite with pyguard in *. split; [|done].
  match goal with H : valid_health _ = Some _ |- _ =>
    pose proof (valid_health_idem _ _ H) as Hh; rewrite Hh in H end.
  constructor; simpl; try done. by apply disjointb_spec.
Qed.

(** ** The manifest loop *)
Definition manifest_inv (settings : ControllerSettings)
    (acc : list (string * ManifestComponent) * list Z) : Prop :=
  NoDup (keys acc.1) /\ NoDup acc.2 /\ (mc_module_id ∘ snd <$> acc.1) = acc.2 /\
  Forall (fun sm => fullmatch _COMPONENT_SLUG sm.1 = true /\ wf_manifest_component settings sm.2) acc.1.

Lemma existsb_Z_mem (z : Z) (l : list Z) : existsb (Z.eqb z) l = false -> z ∉ l.
Proof.
  intros H Hin. assert (existsb (Z.eqb z) l = true); [|congruence].
  apply existsb_exists. exists z. rewrite Z.eqb_refl. by apply list_elem_of_In in Hin.
Qed.

Lemma parse_module_Ok (settings : ControllerSettings) (parsed : list (string * ManifestComponent))
    (ids : list Z) (raw : pyval) (acc' : list (string * ManifestComponent) * list Z) :
  parse_module settings (parsed, ids) raw = Ok acc' ->
  exists slug mc, acc' = (parsed ++ [(slug, mc)], ids ++ [mc_module_id mc]) /\
    slug ∉ keys parsed /\ mc_module_id mc ∉ ids /\ fullmatch _COMPONENT_SLUG slug = true /\
    wf_manifest_component settings mc.
Proof.
  unfold parse_module. intros H. crush.
  repeat match goal with
  | H : _positive_int _ _ = Ok _ |- _ => apply _positive_int_Ok in H as [_ H]
  | H : (_ || _)%bool = false |- _ => apply orb_false_iff in H as [? ?]
  | H : negb _ = false |- _ => apply negb_false_iff in H
  end.
  match goal with H : _parse_profile _ _ _ _ = Ok _ |- _ =>
    apply (_parse_profile_wf settings) in H as [? <-]; [|done..] end.
  eexists _, _. match goal with H : has_key _ _ = false |- _ =>
    assert (dget s parsed = None) as Hd by (unfold has_key in H; by destruct (dget s parsed)) end.
  apply dget_None in Hd. rewrite dset_fresh by done.
  split_and!; try done. by apply existsb_Z_mem.
Qed.

Lemma parse_module_inv (settings : ControllerSettings) acc (raw : pyval) acc' :
  manifest_inv settings acc -> parse_module settings acc raw = Ok acc' -> manifest_inv settings acc'.
Proof.
  destruct acc as [parsed ids]. intros (H1 & H2 & H3 & H4) H.
  apply parse_module_Ok in H as (s & mc & -> & Hs & Hi & Hslug & Hwf).
  unfold manifest_inv, keys in *. simpl in *. rewrite !fmap_app, H3. simpl.
  repeat split; [apply NoDup_app; repeat split..|]; try done; try apply NoDup_singleton.
  - by intros x Hx ->%list_elem_of_singleton.
  - by intros x Hx ->%list_elem_of_singleton.
  - apply Forall_app. split; [done|]. by constructor.
Qed.

Lemma foldM_parse_length (settings : ControllerSettings) (modules : list pyval) acc acc' :
  foldM_res (parse_module settings) acc modules = Ok acc' ->
  length acc'.1 = (length acc.1 + length modules)%nat.
Proof.
  revert acc. induction modules as [|m ms IH]; intros [p i] H; simpl in *; res_inv; [simpl; lia|].
  match goal with H : parse_module _ _ _ = Ok _ |- _ =>
    apply parse_module_Ok in H as (? & ? & -> & _) end.
  rewrite (IH _ H0). simpl. rewrite length_app. simpl. lia.
Qed.

Lemma _parse_manifest_inv (settings : ControllerSettings) (m : list (string * pyval)) mcs :
  _parse_manifest m settings = Ok mcs ->
  NoDup (keys mcs) /\ NoDup (mc_module_id ∘ snd <$> mcs) /\ (1 <= length mcs <= 20)%nat /\
  Forall (fun sm => fullmatch _COMPONENT_SLUG sm.1 = true /\ wf_manifest_component settings sm.2) mcs.
Proof.
  unfold _parse_manifest. intros H. crush.
  match goal with H : foldM_res _ _ _ = Ok (_, ?ids) |- _ =>
    pose proof (foldM_parse_length _ _ _ _ H) as Hlen;
    assert (manifest_inv settings (mcs, ids)) as (G1 & G2 & G3 & G4) by
      (eapply (foldM_res_inv (manifest_inv settings)); [| |exact H];
       [intros; by eapply parse_module_inv | repeat split; constructor]) end.
  simpl in *. rewrite G3. autorewrite with pyguard in *. destruct_ex_and. split_and!; try done; lia.
Qed.

(** ** Configuration values *)
Lemma total_bytes_app (d e : list (string * string)) :
  total_bytes (d ++ e) = total_bytes d + total_bytes e.
Proof. induction d as [|kv d IH]; simpl; lia. Qed.

Lemma total_bytes_nonneg (d : list (string * string)) : 0 <= total_bytes d.
Proof. induction d as [|[k v] d IH]; simpl; unfold entry_bytes, byte_len; simpl; lia. Qed.

Lemma total_bytes_dset (k v : string) (d : list (string * string)) :
  total_bytes (dset k v d) <= total_bytes d + entry_bytes (k, v).
Proof.
  induction d as [|[k' v'] d IH]; simpl; [lia|].
  destruct (String.eqb_spec k k') as [->|]; simpl; unfold entry_bytes, byte_len in *; simpl in *; lia.
Qed.

Lemma length_dset {A} (k : string) (v : A) (d : list (string * A)) :
  (length (dset k v d) <= S (length d))%nat.
Proof. induction d as [|[k' v'] d IH]; simpl; [lia|]. destruct (String.eqb k k'); simpl; lia. Qed.

Lemma Forall_dset {A} (P : string * A -> Prop) (k : string) (v : A) (d : list (string * A)) :
  P (k, v) -> Forall P d -> Forall P (dset k v d).
Proof.
  intros Hp. induction 1 as [|[k' v'] d Hx Hd IH]; simpl; [by repeat constructor|].
  destruct (String.eqb_spec k k') as [<-|]; by constructor.
Qed.

Lemma encode_utf8_Ok (s t : string) : encode_utf8 s = Ok t <-> t = s /\ has_surrogate s = false.
Proof. unfold encode_utf8. destruct (has_surrogate s); naive_solver. Qed.

Lemma validate_value_Ok (allowed : list string) (slug : string) (secret : bool)
    (d : list (string * string)) (total : Z) (k : string) (v : pyval) acc' :
  validate_value allowed slug secret (d, total) (k, v) = Ok acc' ->
  exists t, v = PStr t /\ wf_entry allowed secret (k, t) /\
    acc' = (dset k t d, total + entry_bytes (k, t)) /\ total + entry_bytes (k, t) <= 16384.
Proof.
  unfold validate_value. intros H. crush.
  repeat match goal with H : encode_utf8 _ = Ok _ |- _ => apply encode_utf8_Ok in H as [-> ?] end.
  match goal with H : (negb _ || negb _)%bool = false |- _ =>
    apply orb_false_iff in H as [?%negb_false_iff ?%negb_false_iff] end.
  match goal with H : (16384 <? _) = false |- _ => apply Z.ltb_ge in H end.
  unfold wf_entry, entry_bytes. simpl. eexists. done.
Qed.

(** A step of [_validate_values] goes through on an entry of the policy. *)
Lemma validate_value_wf (allowed : list string) (slug : string) (secret : bool)
    (d : list (string * string)) (total : Z) (k t : string) :
  wf_entry allowed secret (k, t) -> total + entry_bytes (k, t) <= 16384 ->
  validate_value allowed slug secret (d, total) (k, PStr t) =
  Ok (dset k t d, total + entry_bytes (k, t)).
Proof.
  unfold wf_entry, validate_value, encode_utf8, entry_bytes. simpl.
  intros (-> & -> & -> & -> & -> & ->) Ht. cbn. destruct (Z.ltb_spec 16384 (total + (byte_len k + byte_len t))); [lia|].
  reflexivity.
Qed.

Lemma _validate_values_wf (values : list (string * pyval)) (allowed : list string)
    (slug : string) (secret : bool) (d : list (string * string)) :
  _validate_values values allowed slug secret = Ok d -> wf_values allowed secret d.
Proof.
  unfold _validate_values. intros H. crush.
  match goal with H : (50 <? _) = false |- _ => apply Z.ltb_ge in H; rename H into Hlen end.
  assert (forall vs d0 t0 d1 t1,
    foldM_res (validate_value allowed slug secret) (d0, t0) vs = Ok (d1, t1) ->
    NoDup (keys d0) -> Forall (wf_entry allowed secret) d0 -> total_bytes d0 <= t0 <= 16384 ->
    NoDup (keys d1) /\ Forall (wf_entry allowed secret) d1 /\ total_bytes d1 <= t1 <= 16384 /\
    (length d1 <= length d0 + length vs)%nat) as G.
  { clear. induction vs as [|[k v] vs IH]; intros d0 t0 d1 t1 H Hn Hf Ht; simpl in H; res_inv.
    - simplify_eq. repeat split; try done; simpl; lia.
    - match goal with H : validate_value _ _ _ _ _ = Ok _ |- _ =>
        apply validate_value_Ok in H as (t & -> & Hwf & -> & Hle) end.
      apply IH in H0 as (G1 & G2 & G3 & G4).
      + repeat split; try done; try lia. pose proof (length_dset k t d0). simpl. lia.
      + by apply NoDup_keys_dset.
      + by apply Forall_dset.
      + pose proof (total_bytes_dset k t d0). lia. }
  apply G in H0 as (G1 & G2 & G3 & G4); [|constructor|constructor|simpl; lia].
  repeat split; try done; simpl in *; lia.
Qed.

Lemma _scaling_policy_wf (v : pyval) (slug : string) (maximum : Z) (s : Scaling) :
  _scaling_policy v slug maximum = Ok s -> wf_scaling maximum s.
Proof.
  unfold _scaling_policy. intros H. crush;
    repeat match goal with H : _positive_int _ _ = Ok _ |- _ => apply _positive_int_Ok in H as [_ H] end;
    autorewrite with pyguard in *; destruct_ex_and; simpl; lia.
Qed.

(** A policy in the controller's limits is accepted and normalised to itself. *)
Lemma _scaling_policy_idem (s : Scaling) (slug : string) (maximum : Z) :
  wf_scaling maximum s -> _scaling_policy (py_scaling s) slug maximum = Ok s.
Proof.
  destruct s as [n|lo hi t]; unfold _scaling_policy; simpl; intros H.
  - destruct (Z.ltb_spec n 1); [lia|]. simpl. destruct (Z.ltb_spec maximum n); [lia|]. done.
  - destruct (Z.ltb_spec lo 1); [lia|]. destruct (Z.ltb_spec hi 1); [lia|].
    destruct (Z.ltb_spec t 1); [lia|]. simpl.
    destruct (Z.ltb_spec hi lo); [lia|]. destruct (Z.ltb_spec maximum hi); [lia|].
    destruct (Z.leb_spec 10 t); [|lia]. destruct (Z.leb_spec t 90); [|lia]. done.
Qed.

(** The same with the keys in sorted order. *)
Lemma _scaling_policy_sorted (s : Scaling) (slug : string) (maximum : Z) :
  wf_scaling maximum s -> _scaling_policy (sort_keys (py_scaling s)) slug maximum = Ok s.
Proof. intros H. rewrite <- (_scaling_policy_idem s slug maximum H). by destruct s. Qed.

Lemma foldM_validate_idem (allowed : list string) (slug : string) (secret : bool)
    (d acc : list (string * string)) (t : Z) :
  NoDup (keys (acc ++ d)) -> Forall (wf_entry allowed secret) d -> t + total_bytes d <= 16384 ->
  foldM_res (validate_value allowed slug secret) (acc, t) (map (fun '(k, v) => (k, PStr v)) d) =
  Ok (acc ++ d, t + total_bytes d).
Proof.
  revert acc t. induction d as [|[k v] d IH]; intros acc t Hn Hf Ht; simpl in *.
  - by rewrite app_nil_r, Z.add_0_r.
  - inversion Hf; subst. pose proof (total_bytes_nonneg d).
    rewrite validate_value_wf by (done || lia). simpl. rewrite dset_fresh.
    + rewrite IH; [by rewrite <- app_assoc, Z.add_assoc| by rewrite <- app_assoc |done|lia].
    + unfold keys in *. rewrite fmap_app in Hn. simpl in Hn.
      apply NoDup_app in Hn as (_ & Hn & _). intros Hk. apply (Hn k Hk). apply list_elem_of_here.
Qed.

(** Values within the policy are accepted unchanged, in order. *)
Lemma _validate_values_idem (d : list (string * string)) (allowed : list string)
    (slug : string) (secret : bool) :
  wf_values allowed secret d ->
  _validate_values (map (fun '(k, v) => (k, PStr v)) d) allowed slug secret = Ok d.
Proof.
  intros (Hn & Hf & Ht & Hl). unfold _validate_values. rewrite length_map.
  destruct (Z.ltb_spec 50 (Z.of_nat (length d))); [lia|]. simpl.
  rewrite foldM_validate_idem by (done || lia). done.
Qed.

Lemma build_component_Ok (settings : ControllerSettings) cfg sec scl (slug' : string)
    (mc : ManifestComponent) (c : Component) :
  build_component settings cfg sec scl (slug', mc) = Ok c ->
  slug c = slug' /\ manifest_part c = mc /\ wf_values (plain_keys c) false (configuration c) /\
  wf_values (secret_keys c) true (secret_refs c) /\ wf_scaling (max_replicas settings) (scaling c).
Proof.
  unfold build_component. intros H. crush. simpl.
  split_and!; [done|by destruct mc|by eapply _validate_values_wf|by eapply _validate_values_wf|
    by eapply _scaling_policy_wf].
Qed.

Lemma build_components_Ok (settings : ControllerSettings) cfg sec scl
    (mcs : list (string * ManifestComponent)) (cs : list Component) :
  mapM_res (build_component settings cfg sec scl) mcs = Ok cs ->
  mcs = (fun c => (slug c, manifest_part c)) <$> cs /\
  Forall (fun c => wf_values (plain_keys c) false (configuration c) /\
    wf_values (secret_keys c) true (secret_refs c) /\ wf_scaling (max_replicas settings) (scaling c)) cs.
Proof.
  intros H%mapM_res_Ok. induction H as [|[s mc] c mcs cs Hc H [IH1 IH2]]; [done|].
  apply build_component_Ok in Hc as (<- & <- & ?). split; [csimpl; by rewrite IH1 | by constructor].
Qed.

Lemma in_set_true (v : pyval) (l : list string) :
  in_set v l = Ok true <-> exists s, v = PStr s /\ s ∈ l.
Proof.
  setoid_rewrite <- mem_In. destruct v; simpl; try naive_solver.
  split; [intros [= E]; eauto | intros (t & [= ->] & ->); done].
Qed.

Lemma validate_deployment_id_idem (v : pyval) (i : string) :
  validate_deployment_id v = Ok i -> v = PStr i /\ validate_deployment_id (PStr i) = Ok i.
Proof.
  intros H. assert (v = PStr i) as ->; [|done]. revert H. unfold validate_deployment_id.
  destruct v as [| | | |s| |]; try done. destruct (uuid_of_string s) as [z|]; [|done].
  destruct (String.eqb_spec s (uuid_str z)); [|done]. congruence.
Qed.

(** Everything a successful run of the parser established, in one statement. *)
Lemma parse_desired_Ok (v : pyval) (settings : ControllerSettings) (allow_absent : bool)
    (d : DesiredDeployment) :
  parse_desired_deployment v settings allow_absent = Ok d ->
  validate_deployment_id (PStr (deployment_id d)) = Ok (deployment_id d) /\
  d_environment d = Config.environment settings /\ 1 <= generation d /\
  desired_state d ∈ allowed_desired_states allow_absent /\
  fullmatch _HEX_DIGEST (release_digest d) = true /\
  payload_digest (PDict (manifest d)) = Ok (release_digest d) /\
  _parse_manifest (manifest d) settings = Ok ((fun c => (slug c, manifest_part c)) <$> components d) /\
  Forall (fun c => wf_values (plain_keys c) false (configuration c) /\
    wf_values (secret_keys c) true (secret_refs c) /\
    wf_scaling (max_replicas settings) (scaling c)) (components d) /\
  normalized_payload d = normalize (deployment_id d) (d_environment d) (generation d)
    (desired_state d) (release_digest d) (manifest d) (components d).
Proof.
  unfold parse_desired_deployment. intros H. crush. simpl.
  repeat match goal with
  | H : _positive_int _ _ = Ok _ |- _ => apply _positive_int_Ok in H as [_ H]
  | H : validate_deployment_id (vget _ _) = Ok _ |- _ => apply validate_deployment_id_idem in H as [_ H]
  | H : negb _ = false |- _ => apply negb_false_iff in H; subst
  | H : String.eqb _ _ = true |- _ => apply String.eqb_eq in H; subst
  | H : mapM_res _ _ = Ok _ |- _ => apply build_components_Ok in H as [-> ?]
  | H : vget "desired_state" _ = _ |- _ => rewrite H in *; simpl in *
  end.
  res_inv. split_and!; try done.
  match goal with H : in_set _ _ = Ok true |- _ => apply in_set_true in H end. naive_solver.
Qed.

Lemma parse_desired_wf (v : pyval) (settings : ControllerSettings) (allow_absent : bool)
    (d : DesiredDeployment) :
  parse_desired_deployment v settings allow_absent = Ok d -> wf_desired settings d.
Proof.
  intros H. apply parse_desired_Ok in H as (H1 & H2 & H3 & H4 & H5 & H6 & H7 & H8 & H9).
  apply _parse_manifest_inv in H7 as (G1 & G2 & G3 & G4).
  rewrite length_fmap in G3. rewrite <- list_fmap_compose in G2.
  unfold keys in G1. rewrite <- list_fmap_compose in G1.
  constructor; try done.
  - destruct allow_absent; simpl in H4; set_solver.
  - apply Forall_forall. intros c Hc. rewrite Forall_forall in H8. specialize (H8 c Hc).
    destruct H8 as (W1 & W2 & W3). rewrite Forall_fmap, Forall_forall in G4.
    destruct (G4 c Hc). by constructor.
Qed.

(** ** Normalisation is idempotent *)
Lemma py_strings_values (d : list (string * string)) :
  py_strings d = PDict (map (fun '(k, v) => (k, PStr v)) d).
Proof. reflexivity. Qed.

Lemma _component_mapping_normal (cs : list Component) (f : Component -> list (string * string)) (label : string) :
  Forall (fun c => fullmatch _COMPONENT_SLUG (slug c) = true) cs ->
  _component_mapping (PDict (map (fun c => (slug c, py_strings (f c))) cs)) label =
  Ok (map (fun c => (slug c, map (fun '(k, v) => (k, PStr v)) (f c))) cs).
Proof.
  intros H. unfold _component_mapping. simpl. apply mapM_res_Ok.
  induction H as [|c cs Hc H IH]; [constructor|]. simpl. constructor; [|done].
  by rewrite Hc.
Qed.

Lemma keys_map {A B} (f : A -> string) (g : A -> B) (l : list A) :
  keys (map (fun x => (f x, g x)) l) = f <$> l.
Proof. unfold keys. induction l as [|x l IH]; [done|]. simpl. by f_equal. Qed.

Lemma dget_map {A B} (f : A -> string) (g : A -> B) (l : list A) (x : A) :
  NoDup (f <$> l) -> x ∈ l -> dget (f x) (map (fun x => (f x, g x)) l) = Some (g x).
Proof.
  intros Hn Hx. apply dget_In; [by rewrite keys_map|].
  apply list_elem_of_In, in_map_iff. exists x. split; [done|]. by apply list_elem_of_In.
Qed.

Lemma set_eqb_refl (l : list string) : set_eqb l l = true.
Proof. unfold set_eqb. by rewrite andb_diag, subsetb_spec. Qed.

Lemma check_known_refl {A} (label : string) (m : list (string * A)) (expected : list string) :
  keys m = expected -> check_known label m expected = Ok tt.
Proof. intros <-. unfold check_known. by rewrite (proj2 (set_diff_nil _ _)). Qed.

(** Rebuilding the components from their own normal forms. *)
Definition values_of (d : list (string * string)) : list (string * pyval) :=
  map (fun '(k, v) => (k, PStr v)) d.

Lemma build_components_from (settings : ControllerSettings) cfg sec scl (cs : list Component) :
  (forall c, c ∈ cs -> dget (slug c) cfg = Some (values_of (configuration c)) /\
    dget (slug c) sec = Some (values_of (secret_refs c)) /\
    exists p, dget (slug c) scl = Some p /\
      _scaling_policy p (slug c) (max_replicas settings) = Ok (scaling c)) ->
  Forall (wf_component settings) cs ->
  mapM_res (build_component settings cfg sec scl) ((fun c => (slug c, manifest_part c)) <$> cs) = Ok cs.
Proof.
  intros Hget Hwf. apply mapM_res_Ok.
  enough (forall cs', cs' ⊆ cs -> Forall2 (fun x y => build_component settings cfg sec scl x = Ok y)
    ((fun c => (slug c, manifest_part c)) <$> cs') cs') as G by (by apply G).
  induction cs' as [|c cs' IH]; intros Hsub; [constructor|]. constructor; [|apply IH; set_solver].
  assert (c ∈ cs) as Hc by set_solver. rewrite Forall_forall in Hwf.
  destruct (Hwf c Hc) as [_ _ Hcfg Hsec _]. destruct (Hget c Hc) as (E1 & E2 & pol & E3 & E4).
  unfold build_component, dget_or. rewrite E1, E2, E3.
  cbn [manifest_part mc_plain_keys mc_secret_keys]. unfold values_of.
  rewrite !_validate_values_idem by done. cbn [mbind res_bind].
  rewrite E4. by destruct c.
Qed.

(** The parser's success path, as an introduction rule. *)
Lemma parse_desired_intro (settings : ControllerSettings) (allow_absent : bool)
    (p rel m scl : list (string * pyval)) (id st digest : string) (gen : Z) mcs cfg sec cs :
  _exact_fields p payload_fields "Runtime payload" [] = Ok tt ->
  vget "deployment_id" p = PStr id -> validate_deployment_id (PStr id) = Ok id ->
  vget "environment" p = PStr (Config.environment settings) ->
  vget "generation" p = PInt gen -> 1 <= gen ->
  vget "desired_state" p = PStr st -> st ∈ allowed_desired_states allow_absent ->
  vget "release" p = PDict rel -> _exact_fields rel ["digest"; "manifest"]%string "Release" [] = Ok tt ->
  vget "manifest" rel = PDict m -> vget "digest" rel = PStr digest ->
  fullmatch _HEX_DIGEST digest = true -> payload_digest (PDict m) = Ok digest ->
  _parse_manifest m settings = Ok mcs ->
  _component_mapping (vget "configuration" p) "Configuration" = Ok cfg -> keys cfg ⊆ keys mcs ->
  _component_mapping (vget "secret_refs" p) "Secret references" = Ok sec -> keys sec ⊆ keys mcs ->
  vget "scaling" p = PDict scl -> keys scl ⊆ keys mcs -> keys mcs ⊆ keys scl ->
  mapM_res (build_component settings cfg sec scl) mcs = Ok cs ->
  parse_desired_deployment (PDict p) settings allow_absent =
  Ok {| deployment_id := id; d_environment := Config.environment settings; generation := gen;
        desired_state := st; release_digest := digest; manifest := m; components := cs;
        normalized_payload := normalize id (Config.environment settings) gen st digest m cs |}.
Proof.
  intros Hf Hid Hvid Henv Hgen Hpos Hst Hin Hrel Hfr Hm Hdg Hhex Hpd Hman Hcfg Hkc Hsec Hks Hscl Hk1 Hk2 Hcs.
  unfold parse_desired_deployment. cbn [_object mbind res_bind].
  rewrite Hf. cbn [mbind res_bind]. rewrite Hid, Hvid. cbn [mbind res_bind].
  rewrite Henv. cbn [eq_str]. rewrite String.eqb_refl. cbn [negb raise_if mbind res_bind].
  rewrite Hgen, (proj2 (_positive_int_Ok _ _ _)) by done. cbn [mbind res_bind].
  rewrite Hst. rewrite (proj2 (in_set_true _ _)) by (by exists st). cbn [negb raise_if mbind res_bind].
  rewrite Hrel. cbn [_object mbind res_bind]. rewrite Hfr. cbn [mbind res_bind].
  rewrite Hm. cbn [_object mbind res_bind]. rewrite Hdg, Hhex. cbn [negb raise_if mbind res_bind].
  rewrite Hpd. cbn [mbind res_bind]. rewrite String.eqb_refl. cbn [negb raise_if mbind res_bind].
  rewrite Hman. cbn [mbind res_bind]. rewrite Hcfg. cbn [mbind res_bind]. rewrite Hsec. cbn [mbind res_bind].
  rewrite Hscl. cbn [_object mbind res_bind]. unfold check_known.
  rewrite !(proj2 (set_diff_nil _ _)) by done. cbn [mbind res_bind]. unfold set_eqb.
  rewrite !(proj2 (subsetb_spec _ _)) by done. cbn [negb andb raise_if mbind res_bind]. by rewrite Hcs.
Qed.

Lemma wf_slugs (settings : ControllerSettings) (d : DesiredDeployment) :
  wf_desired settings d -> Forall (fun c => fullmatch _COMPONENT_SLUG (slug c) = true) (components d).
Proof. intros []. eapply Forall_impl; [eassumption|]. by intros c []. Qed.

Lemma keys_manifest (cs : list Component) :
  keys ((fun c => (slug c, manifest_part c)) <$> cs) = slug <$> cs.
Proof. apply (keys_map slug manifest_part). Qed.

Lemma parse_normalize (settings : ControllerSettings) (d : DesiredDeployment) (allow_absent : bool) :
  wf_desired settings d -> fullmatch _HEX_DIGEST (release_digest d) = true ->
  desired_state d ∈ allowed_desired_states allow_absent ->
  _parse_manifest (manifest d) settings = Ok ((fun c => (slug c, manifest_part c)) <$> components d) ->
  parse_desired_deployment (normalized_payload d) settings allow_absent = Ok d.
Proof.
  intros Hwf Hhex Hst Hman. pose proof (wf_slugs _ _ Hwf) as Hslug.
  destruct Hwf as [H1 H2 H3 H4 H5 H6 H7 H8 H9 H10].
  rewrite H10. unfold normalize. rewrite H2.
  erewrite parse_desired_intro with (id := deployment_id d) (rel := [_; _]) (mcs := _ <$> components d);
    try reflexivity; try eassumption.
  - rewrite <- H2, <- H10. by destruct d.
  - by apply _component_mapping_normal.
  - by rewrite keys_manifest, keys_map.
  - by apply _component_mapping_normal.
  - by rewrite keys_manifest, keys_map.
  - by rewrite keys_manifest, keys_map.
  - by rewrite keys_manifest, keys_map.
  - apply build_components_from; [|done]. intros c Hc. rewrite !(dget_map slug) by done.
    split_and!; [done..|]. eexists. split; [done|]. apply _scaling_policy_idem.
    rewrite Forall_forall in H9. by destruct (H9 c Hc).
Qed.

