(* ===== verification/ContractCanon.v ===== *)
(** The contract is insensitive to the order of dict items: what was accepted in
    one order is accepted in key order, with the same typed content.  This is what
    lets the controller read its own state back: the state object stores the
    canonical text of the normalised payload. *)

From S2P Require Import Prelude PyValue Regex Sha256 Json Config Contract.
#[local] Open Scope Z_scope.

(** The deployment the controller reads back: every dict in key order. *)
Definition sort_component (c : Component) : Component := {|
  module_id := module_id c; slug := slug c; image := image c; container_port := container_port c;
  healthcheck_path := healthcheck_path c; resources := resources c; plain_keys := plain_keys c;
  secret_keys := secret_keys c; configuration := sort_items (configuration c);
  secret_refs := sort_items (secret_refs c); scaling := scaling c |}.

Definition canonical_desired (d : DesiredDeployment) : DesiredDeployment :=
  let m := sorted_dict (manifest d) in
  let cs := sort_component <$> components d in
  {| deployment_id := deployment_id d; d_environment := d_environment d; generation := generation d;
     desired_state := desired_state d; release_digest := release_digest d; manifest := m;
     components := cs;
     normalized_payload := normalize (deployment_id d) (d_environment d) (generation d)
       (desired_state d) (release_digest d) m cs |}.

(** ** The typed readers on sorted values *)
Lemma payload_digest_sorted (v : pyval) : json_ok v -> payload_digest (sort_keys v) = payload_digest v.
Proof. intros H. unfold payload_digest, canonical_json, dumps_sorted. by rewrite sort_keys_idem. Qed.

Lemma sorted_PDict (d : list (string * pyval)) : sort_keys (PDict d) = PDict (sorted_dict d).
Proof. reflexivity. Qed.

Lemma _exact_fields_sorted (d : list (string * pyval)) (allowed : list string) (label : string)
    (optional : list string) (u : unit) :
  _exact_fields d allowed label optional = Ok u ->
  _exact_fields (sorted_dict d) allowed label optional = Ok u.
Proof.
  rewrite !_exact_fields_Ok. pose proof (keys_sorted_dict d) as Hp.
  assert (forall x, x ∈ keys (sorted_dict d) <-> x ∈ keys d) by (intros; by rewrite Hp).
  set_solver.
Qed.

Lemma eq_str_sorted (v : pyval) (s : string) : eq_str (sort_keys v) s = eq_str v s.
Proof. by destruct v. Qed.
Lemma eq_one_sorted (v : pyval) : eq_one (sort_keys v) = eq_one v.
Proof. by destruct v. Qed.
Lemma is_str_sorted (v : pyval) : is_str (sort_keys v) = is_str v.
Proof. by destruct v. Qed.
Lemma valid_health_sorted (v : pyval) : valid_health (sort_keys v) = valid_health v.
Proof. by destruct v. Qed.
Lemma _positive_int_sorted (v : pyval) (label : string) :
  _positive_int (sort_keys v) label = _positive_int v label.
Proof. by destruct v. Qed.
Lemma _key_set_sorted (v : pyval) (slug : string) (ks : list string) :
  _key_set v slug = Ok ks -> _key_set (sort_keys v) slug = Ok ks.
Proof.
  intros H. destruct (_key_set_Ok _ _ _ H) as (-> & _). rewrite <- H. f_equal. simpl. f_equal.
  clear. induction ks as [|k ks IH]; [done|]. simpl. by f_equal.
Qed.

(** [sorted_step]: move a [sort_keys] or [sorted_dict] of the goal inwards, using the
    well-formedness of the value read. *)
Ltac use_object :=
  match goal with
  | H : _object ?v _ = Ok _ |- _ => apply _object_Ok in H; try (rewrite H in *)
  end.
Ltac field_sorted k d Hok :=
  let E := fresh "E" in let Hv := fresh "Hv" in
  destruct (vget_sorted k d Hok) as [E Hv]; rewrite E; clear E.

Lemma resource_group_sorted (rs : list (string * pyval)) (group slug : string) (p : string * string) :
  json_ok (PDict rs) -> resource_group rs group slug = Ok p ->
  resource_group (sorted_dict rs) group slug = Ok p.
Proof.
  intros Hok H. unfold resource_group in *. field_sorted group rs Hok.
  apply bind_Ok in H as (e & He & H). apply _object_Ok in He. rewrite He in Hv |- *.
  rewrite sorted_PDict. cbn [_object mbind res_bind]. apply bind_Ok in H as ([] & Hf & H).
  rewrite (_exact_fields_sorted _ _ _ _ _ Hf). cbn [mbind res_bind].
  field_sorted "cpu"%string e Hv. field_sorted "memory"%string e Hv.
  destruct (vget "cpu" e); try discriminate H. cbn [sort_keys].
  apply bind_Ok in H as ([] & Hc & H). rewrite Hc. cbn [mbind res_bind].
  by destruct (vget "memory" e).
Qed.

Lemma _resources_sorted (v : pyval) (slug : string) (r : Resources) :
  json_ok v -> _resources v slug = Ok r -> _resources (sort_keys v) slug = Ok r.
Proof.
  intros Hok H. unfold _resources in *. apply bind_Ok in H as (rs & He & H). apply _object_Ok in He.
  subst v. rewrite sorted_PDict. cbn [_object mbind res_bind].
  apply bind_Ok in H as ([] & Hf & H). rewrite (_exact_fields_sorted _ _ _ _ _ Hf). cbn [mbind res_bind].
  apply bind_Ok in H as (p & Hp & H). rewrite (resource_group_sorted _ _ _ _ Hok Hp). cbn [mbind res_bind].
  destruct p. apply bind_Ok in H as (q & Hq & H). rewrite (resource_group_sorted _ _ _ _ Hok Hq).
  exact H.
Qed.

Lemma _parse_profile_sorted (id : Z) (slug img : string) (spec : list (string * pyval)) (mc : ManifestComponent) :
  json_ok (PDict spec) -> _parse_profile id slug img spec = Ok mc ->
  _parse_profile id slug img (sorted_dict spec) = Ok mc.
Proof.
  intros Hok H. unfold _parse_profile in *.
  apply bind_Ok in H as ([] & Hf & H). rewrite (_exact_fields_sorted _ _ _ _ _ Hf). cbn [mbind res_bind].
  field_sorted "kind"%string spec Hok. rewrite eq_str_sorted.
  apply bind_Ok in H as ([] & Hk & H). rewrite Hk. cbn [mbind res_bind].
  field_sorted "container_port"%string spec Hok. rewrite _positive_int_sorted.
  apply bind_Ok in H as (port & Hp & H). rewrite Hp. cbn [mbind res_bind].
  apply bind_Ok in H as ([] & Hp' & H). rewrite Hp'. cbn [mbind res_bind].
  field_sorted "healthcheck_path"%string spec Hok. rewrite valid_health_sorted.
  destruct (valid_health _); [|discriminate].
  field_sorted "resources"%string spec Hok.
  apply bind_Ok in H as (rs & Hr & H). rewrite (_resources_sorted _ _ _ Hv2 Hr). cbn [mbind res_bind].
  destruct (dget_or_sorted "configuration" (PDict []) spec Hok) as [-> Hc]; [repeat constructor|done|].
  apply bind_Ok in H as (cfg & Hcfg & H). apply _object_Ok in Hcfg. rewrite Hcfg in Hc |- *.
  rewrite sorted_PDict. cbn [_object mbind res_bind].
  apply bind_Ok in H as ([] & Hf2 & H). rewrite (_exact_fields_sorted _ _ _ _ _ Hf2). cbn [mbind res_bind].
  destruct (dget_or_sorted "plain" (PList []) cfg Hc) as [-> _]; [repeat constructor|done|].
  destruct (dget_or_sorted "secret" (PList []) cfg Hc) as [-> _]; [repeat constructor|done|].
  apply bind_Ok in H as (pl & Hpl & H). rewrite (_key_set_sorted _ _ _ Hpl). cbn [mbind res_bind].
  apply bind_Ok in H as (sc & Hsc & H). rewrite (_key_set_sorted _ _ _ Hsc). cbn [mbind res_bind].
  apply bind_Ok in H as ([] & Hd & H). rewrite Hd. cbn [mbind res_bind].
  destruct (dget_or_sorted "network_egress" (PList []) spec Hok) as [-> _]; [repeat constructor|done|].
  destruct (dget_or "network_egress" (PList []) spec) as [| | | | |[|]|]; try discriminate. exact H.
Qed.

Lemma parse_module_sorted (settings : ControllerSettings) acc (raw : pyval) acc' :
  json_ok raw -> parse_module settings acc raw = Ok acc' ->
  parse_module settings acc (sort_keys raw) = Ok acc'.
Proof.
  intros Hok H. destruct acc as [parsed ids]. unfold parse_module in *.
  apply bind_Ok in H as (c & Hc & H). apply _object_Ok in Hc. subst raw.
  rewrite sorted_PDict. cbn [_object mbind res_bind].
  apply bind_Ok in H as ([] & Hf & H). rewrite (_exact_fields_sorted _ _ _ _ _ Hf). cbn [mbind res_bind].
  field_sorted "module_id"%string c Hok. rewrite _positive_int_sorted.
  apply bind_Ok in H as (mid & Hid & H). rewrite Hid. cbn [mbind res_bind].
  field_sorted "slug"%string c Hok. destruct (vget "slug" c) as [| | | |s| |]; try discriminate H.
  cbn [sort_keys]. apply bind_Ok in H as ([] & Hs & H). rewrite Hs. cbn [mbind res_bind].
  field_sorted "image"%string c Hok. destruct (vget "image" c) as [| | | |i| |]; try discriminate H.
  cbn [sort_keys]. apply bind_Ok in H as ([] & Hi & H). rewrite Hi. cbn [mbind res_bind].
  field_sorted "profile_schema_version"%string c Hok. rewrite eq_one_sorted.
  apply bind_Ok in H as ([] & Hv4 & H). rewrite Hv4. cbn [mbind res_bind].
  field_sorted "spec"%string c Hok. apply bind_Ok in H as (spec & Hspec & H).
  apply _object_Ok in Hspec. rewrite Hspec in Hv3 |- *. rewrite sorted_PDict. cbn [_object mbind res_bind].
  field_sorted "profile_digest"%string c Hok.
  destruct (vget "profile_digest" c) as [| | | |pd| |]; try discriminate H. cbn [sort_keys].
  apply bind_Ok in H as ([] & Hpd & H). rewrite Hpd. cbn [mbind res_bind].
  rewrite <- sorted_PDict, payload_digest_sorted by done.
  apply bind_Ok in H as (dg & Hdg & H). rewrite Hdg. cbn [mbind res_bind].
  apply bind_Ok in H as ([] & He & H). rewrite He. cbn [mbind res_bind].
  apply bind_Ok in H as (mc & Hmc & H). rewrite (_parse_profile_sorted _ _ _ _ _ Hv3 Hmc). exact H.
Qed.

Lemma foldM_module_sorted (settings : ControllerSettings) (ms : list pyval) acc acc' :
  Forall json_ok ms -> foldM_res (parse_module settings) acc ms = Ok acc' ->
  foldM_res (parse_module settings) acc (map sort_keys ms) = Ok acc'.
Proof.
  intros Hok. revert acc. induction Hok as [|m ms Hm Hok IH]; intros acc H; [exact H|].
  cbn [map foldM_res] in *. apply bind_Ok in H as (a & Ha & H).
  rewrite (parse_module_sorted _ _ _ _ Hm Ha). cbn [mbind res_bind]. by apply IH.
Qed.

Lemma _parse_manifest_sorted (settings : ControllerSettings) (m : list (string * pyval)) mcs :
  json_ok (PDict m) -> _parse_manifest m settings = Ok mcs ->
  _parse_manifest (sorted_dict m) settings = Ok mcs.
Proof.
  intros Hok H. unfold _parse_manifest in *.
  apply bind_Ok in H as ([] & Hf & H). rewrite (_exact_fields_sorted _ _ _ _ _ Hf). cbn [mbind res_bind].
  field_sorted "schema_version"%string m Hok. rewrite eq_one_sorted.
  apply bind_Ok in H as ([] & H1 & H). rewrite H1. cbn [mbind res_bind].
  field_sorted "application"%string m Hok. apply bind_Ok in H as (app & Happ & H).
  apply _object_Ok in Happ. rewrite Happ in Hv0 |- *. rewrite sorted_PDict. cbn [_object mbind res_bind].
  apply bind_Ok in H as ([] & Hf2 & H). rewrite (_exact_fields_sorted _ _ _ _ _ Hf2). cbn [mbind res_bind].
  field_sorted "id"%string app Hv0. apply bind_Ok in H as ([] & H2 & H).
  destruct (vget "id" app); try discriminate H2. cbn [sort_keys raise_if mbind res_bind].
  field_sorted "slug"%string app Hv0. apply bind_Ok in H as ([] & H3 & H).
  destruct (vget "slug" app); try discriminate H3. cbn [sort_keys]. rewrite H3. cbn [mbind res_bind].
  field_sorted "version"%string m Hok. apply bind_Ok in H as ([] & H4 & H).
  destruct (vget "version" m); try discriminate H4. cbn [sort_keys]. rewrite H4. cbn [mbind res_bind].
  field_sorted "version_source"%string m Hok. rewrite is_str_sorted.
  apply bind_Ok in H as ([] & H5 & H). rewrite H5. cbn [mbind res_bind].
  field_sorted "modules"%string m Hok. destruct (vget "modules" m) as [| | | | |ms|]; try discriminate H.
  cbn [sort_keys]. rewrite length_map. apply bind_Ok in H as ([] & H6 & H). rewrite H6. cbn [mbind res_bind].
  apply bind_Ok in H as (a & Ha & H). inversion Hv5; subst.
  rewrite (foldM_module_sorted _ _ _ _ ltac:(eassumption) Ha). exact H.
Qed.

(** ** Reading the canonical payload back *)
Lemma foldr_total_perm (d e : list (string * string)) : d ≡ₚ e -> total_bytes d = total_bytes e.
Proof. induction 1; simpl; lia. Qed.

Lemma wf_values_sorted (allowed : list string) (secret : bool) (d : list (string * string)) :
  wf_values allowed secret d -> wf_values allowed secret (sort_items d).
Proof.
  intros (H1 & H2 & H3 & H4). pose proof (sort_items_perm d) as Hp. split_and!.
  - by eapply NoDup_keys_perm.
  - by rewrite Hp.
  - by rewrite (foldr_total_perm _ _ Hp).
  - by rewrite Hp.
Qed.

Lemma wf_sort_component (settings : ControllerSettings) (c : Component) :
  wf_component settings c -> wf_component settings (sort_component c).
Proof. intros [H1 H2 H3 H4 H5]. constructor; try done; by apply wf_values_sorted. Qed.

Lemma sort_keys_py_strings (d : list (string * string)) :
  sort_keys (py_strings d) = py_strings (sort_items d).
Proof.
  unfold py_strings. simpl. f_equal. rewrite map_map.
  transitivity (sort_items (map (fun '(k, v) => (k, PStr v)) d)); [|apply sort_items_map].
  f_equal. apply map_ext. by intros [].
Qed.

(** A per-component dict of the payload, once sorted. *)
Definition by_slug (f : Component -> pyval) (cs : list Component) : list (string * pyval) :=
  map (fun c => (slug c, f c)) cs.

Lemma sorted_by_slug (f g : Component -> pyval) (cs : list Component) :
  (forall c, sort_keys (f c) = g (sort_component c)) ->
  sorted_dict (by_slug f cs) = sort_items (by_slug g (sort_component <$> cs)).
Proof.
  intros H. unfold sorted_dict, by_slug. f_equal. rewrite map_map.
  induction cs as [|c cs IH]; [done|]. simpl. by rewrite H, IH.
Qed.

Lemma _component_mapping_sorted (cs : list Component) (f : Component -> list (string * string)) (label : string) :
  Forall (fun c => fullmatch _COMPONENT_SLUG (slug c) = true) cs ->
  _component_mapping (PDict (sort_items (by_slug (fun c => py_strings (f c)) cs))) label =
  Ok (sort_items (map (fun c => (slug c, map (fun '(k, v) => (k, PStr v)) (f c))) cs)).
Proof.
  intros H. unfold _component_mapping. cbn [_object mbind res_bind]. apply mapM_res_Ok.
  set (unwrap := fun v => match v with PDict d => d | _ => [] end).
  assert (sort_items (map (fun c => (slug c, map (fun '(k, v) => (k, PStr v)) (f c))) cs) =
          map (fun '(k, v) => (k, unwrap v)) (sort_items (by_slug (fun c => py_strings (f c)) cs))) as ->.
  { rewrite <- sort_items_map. f_equal. unfold by_slug. rewrite map_map. by apply map_ext. }
  apply Forall2_fmap_r, Forall_Forall2_diag, Forall_forall. intros [k v].
  rewrite sort_items_perm. intros (c & [= <- <-] & Hc)%list_elem_of_In%in_map_iff.
  rewrite Forall_forall in H. rewrite H by (by apply list_elem_of_In). done.
Qed.

Lemma keys_sort_items {A} (d : list (string * A)) (x : string) :
  x ∈ keys (sort_items d) <-> x ∈ keys d.
Proof. unfold keys. by rewrite sort_items_perm. Qed.

Lemma keys_sorted_slug (f : Component -> pyval) (cs : list Component) (x : string) :
  x ∈ keys (sort_items (by_slug f (sort_component <$> cs))) <-> x ∈ slug <$> cs.
Proof.
  rewrite keys_sort_items. unfold by_slug. rewrite keys_map, <- list_fmap_compose. done.
Qed.

Lemma dget_sorted_slug {B} (f : Component -> B) (cs : list Component) (c : Component) :
  NoDup (slug <$> cs) -> c ∈ sort_component <$> cs ->
  dget (slug c) (sort_items (map (fun c => (slug c, f c)) (sort_component <$> cs))) = Some (f c).
Proof.
  intros Hn Hc. assert (NoDup (slug <$> (sort_component <$> cs))) by (by rewrite <- list_fmap_compose).
  rewrite dget_sort_items by (by rewrite keys_map). by apply (dget_map slug).
Qed.

Lemma vget_sorted_field (k : string) (p : list (string * pyval)) (v : pyval) :
  json_ok (PDict p) -> vget k p = v -> vget k (sorted_dict p) = sort_keys v.
Proof. intros Hok <-. by apply vget_sorted. Qed.

(** The canonical text of a normalised payload parses to the same deployment with
    its dicts in key order. *)
Lemma parse_canonical (settings : ControllerSettings) (d : DesiredDeployment) (allow_absent : bool) :
  wf_desired settings d -> fullmatch _HEX_DIGEST (release_digest d) = true ->
  desired_state d ∈ allowed_desired_states allow_absent ->
  _parse_manifest (manifest d) settings = Ok ((fun c => (slug c, manifest_part c)) <$> components d) ->
  json_ok (normalized_payload d) ->
  parse_desired_deployment (sort_keys (normalized_payload d)) settings allow_absent =
  Ok (canonical_desired d).
Proof.
  intros Hwf Hhex Hst Hman Hok. pose proof (wf_slugs _ _ Hwf) as Hslug.
  destruct Hwf as [H1 H2 H3 H4 H5 H6 H7 H8 H9 H10]. rewrite H10 in Hok |- *.
  unfold normalize in Hok |- *. rewrite sorted_PDict.
  match type of Hok with json_ok (PDict ?q) => set (p := q) in * end.
  set (rel := [("digest"%string, PStr (release_digest d)); ("manifest"%string, PDict (manifest d))]).
  assert (json_ok (PDict rel)) as Hokr by (by eapply (json_ok_dget p "release")).
  assert (json_ok (PDict (manifest d))) as Hokm by (by eapply (json_ok_dget rel "manifest")).
  assert (Forall (fun c => fullmatch _COMPONENT_SLUG (slug c) = true) (sort_component <$> components d)).
  { by rewrite Forall_fmap. }
  assert (forall f x, x ∈ keys (sort_items (by_slug f (sort_component <$> components d))) <->
    x ∈ slug <$> components d) as Hks by (intros; apply keys_sorted_slug).
  erewrite parse_desired_intro with (id := deployment_id d) (gen := generation d) (st := desired_state d)
      (digest := release_digest d) (m := sorted_dict (manifest d)) (rel := sorted_dict rel)
      (mcs := (fun c => (slug c, manifest_part c)) <$> components d)
      (scl := sort_items (by_slug (fun c => sort_keys (py_scaling (scaling c))) (sort_component <$> components d)));
    try done.
  - unfold canonical_desired. by rewrite H2.
  - by rewrite <- H2.
  - rewrite <- sorted_PDict. by rewrite payload_digest_sorted.
  - by apply _parse_manifest_sorted.
  - rewrite (vget_sorted_field "configuration" p (PDict (by_slug (fun c => py_strings (configuration c)) (components d))) Hok eq_refl), sorted_PDict.
    rewrite (sorted_by_slug _ (fun c => py_strings (configuration c))) by (intros; apply sort_keys_py_strings).
    by apply _component_mapping_sorted.
  - rewrite keys_manifest. intros x. rewrite keys_sort_items, keys_map, <- list_fmap_compose. done.
  - rewrite (vget_sorted_field "secret_refs" p (PDict (by_slug (fun c => py_strings (secret_refs c)) (components d))) Hok eq_refl), sorted_PDict.
    rewrite (sorted_by_slug _ (fun c => py_strings (secret_refs c))) by (intros; apply sort_keys_py_strings).
    by apply _component_mapping_sorted.
  - rewrite keys_manifest. intros x. rewrite keys_sort_items, keys_map, <- list_fmap_compose. done.
  - rewrite (vget_sorted_field "scaling" p (PDict (by_slug (fun c => py_scaling (scaling c)) (components d))) Hok eq_refl), sorted_PDict.
    f_equal. by apply sorted_by_slug.
  - rewrite keys_manifest. intros x. by rewrite Hks.
  - rewrite keys_manifest. intros x. by rewrite Hks.
  - rewrite (list_fmap_ext _ (fun c => (slug (sort_component c), manifest_part (sort_component c)))) by done.
    rewrite (list_fmap_compose sort_component (fun c => (slug c, manifest_part c))).
    apply build_components_from.
    + intros c Hc. unfold by_slug. rewrite !dget_sorted_slug by done. split_and!; [done..|].
      eexists. split; [done|]. apply _scaling_policy_sorted.
      apply list_elem_of_fmap in Hc as (c0 & -> & Hc). rewrite Forall_forall in H9.
      by destruct (H9 c0 Hc).
    + rewrite Forall_fmap. eapply Forall_impl; [exact H9|]. apply wf_sort_component.
Qed.

(** ** The normalised payload is itself a well-formed JSON value *)
Lemma json_ok_vget (k : string) (d : list (string * pyval)) : json_ok (PDict d) -> json_ok (vget k d).
Proof. intros H. by apply vget_sorted. Qed.

Lemma _positive_int_json (k label : string) (p : list (string * pyval)) (n : Z) :
  json_ok (PDict p) -> _positive_int (vget k p) label = Ok n -> json_ok (PInt n).
Proof. intros Hok H. apply _positive_int_Ok in H as [E _]. rewrite <- E. by apply json_ok_vget. Qed.

Lemma _scaling_policy_json (v : pyval) (slug : string) (maximum : Z) (s : Scaling) :
  json_ok v -> _scaling_policy v slug maximum = Ok s -> json_ok (py_scaling s).
Proof.
  intros Hok H. unfold _scaling_policy in H. crush.
  all: match goal with H : _object _ _ = Ok _ |- _ => apply _object_Ok in H; subst end.
  all: repeat match goal with H : _positive_int (vget _ _) _ = Ok _ |- _ =>
         apply _positive_int_json in H; [|exact Hok] end.
  all: constructor; [apply nodupb_NoDup; reflexivity|].
  all: repeat constructor; try done.
  all: match goal with H : json_ok (PInt ?z) |- context [?z] => by inversion H end.
Qed.

Lemma build_components_json (settings : ControllerSettings) cfg sec scl mcs cs :
  json_ok (PDict scl) -> mapM_res (build_component settings cfg sec scl) mcs = Ok cs ->
  Forall (fun c => json_ok (py_scaling (scaling c))) cs.
Proof.
  intros Hok H%mapM_res_Ok. induction H as [|[s mc] c mcs cs Hc H IH]; constructor; [|done].
  unfold build_component in Hc. crush. simpl. eapply _scaling_policy_json; [|eassumption].
  by eapply json_ok_dget.
Qed.

Lemma json_ok_py_strings (d : list (string * string)) : NoDup (keys d) -> json_ok (py_strings d).
Proof.
  intros H. constructor; [by rewrite keys_map_snd|].
  rewrite Forall_forall. intros kv ([k v] & <- & _)%list_elem_of_In%in_map_iff. constructor.
Qed.

Lemma json_ok_by_slug (f : Component -> pyval) (cs : list Component) :
  NoDup (slug <$> cs) -> Forall (fun c => json_ok (f c)) cs -> json_ok (PDict (by_slug f cs)).
Proof.
  intros Hn Hf. constructor; [by unfold by_slug; rewrite keys_map|].
  unfold by_slug. by apply Forall_map.
Qed.

Lemma normalize_json_ok (v : pyval) (settings : ControllerSettings) (allow_absent : bool)
    (d : DesiredDeployment) :
  json_ok v -> parse_desired_deployment v settings allow_absent = Ok d ->
  json_ok (normalized_payload d) /\ json_ok (PDict (manifest d)).
Proof.
  intros Hok H. pose proof (parse_desired_wf _ _ _ _ H) as Hwf.
  assert (json_ok (PInt (generation d)) /\ json_ok (PDict (manifest d)) /\
    Forall (fun c => json_ok (py_scaling (scaling c))) (components d)) as (Hg & Hm & Hs).
  { unfold parse_desired_deployment in H. clear Hwf. crush. simpl.
    match goal with H : _object v _ = Ok _ |- _ => apply _object_Ok in H; subst v end.
    repeat match goal with H : _object (vget _ _) _ = Ok _ |- _ => apply _object_Ok in H end.
    split_and!.
    - by eapply _positive_int_json.
    - match goal with H : vget "manifest" ?r = PDict _, H' : vget "release" ?p = PDict ?r |- _ =>
        rewrite <- H; apply json_ok_vget; rewrite <- H'; by apply json_ok_vget end.
    - eapply build_components_json; [|eassumption].
      match goal with H : vget "scaling" ?p = PDict _ |- _ => rewrite <- H; by apply json_ok_vget end. }
  split; [|done]. destruct Hwf as [H1 H2 H3 H4 H5 H6 H7 H8 H9 H10]. rewrite H10. unfold normalize.
  constructor; [apply nodupb_NoDup; reflexivity|].
  assert (Forall (fun c => json_ok (py_strings (configuration c)) /\ json_ok (py_strings (secret_refs c)))
    (components d)) as Hc.
  { eapply Forall_impl; [exact H9|]. intros c [_ _ [? _] [? _] _]. split; by apply json_ok_py_strings. }
  repeat apply Forall_cons_2; try apply Forall_nil_2; cbn [snd]; try done; try apply ok_str.
  - constructor; [apply nodupb_NoDup; reflexivity|].
    repeat apply Forall_cons_2; [constructor|done|apply Forall_nil_2].
  - apply json_ok_by_slug; [done|]. eapply Forall_impl; [exact Hc|]. naive_solver.
  - apply json_ok_by_slug; [done|]. eapply Forall_impl; [exact Hc|]. naive_solver.
  - by apply json_ok_by_slug.
Qed.

(** ** Canonical order is reached in one step *)
Lemma sort_items_idem {A} (d : list (string * A)) : NoDup (keys d) -> sort_items (sort_items d) = sort_items d.
Proof. intros Hn. symmetry. apply sort_items_unique; [done|]. symmetry. apply sort_items_perm. Qed.

Lemma sort_component_idem (settings : ControllerSettings) (c : Component) :
  wf_component settings c -> sort_component (sort_component c) = sort_component c.
Proof.
  intros [_ _ [H1 _] [H2 _] _]. unfold sort_component. simpl. by rewrite !sort_items_idem.
Qed.

Lemma canonical_sorted (settings : ControllerSettings) (d : DesiredDeployment) :
  wf_desired settings d -> json_ok (normalized_payload d) ->
  sort_keys (normalized_payload (canonical_desired d)) = sort_keys (normalized_payload d).
Proof.
  intros Hwf Hok. destruct Hwf as [_ _ _ _ _ _ _ _ H9 H10]. rewrite H10 in Hok |- *.
  assert (sort_component <$> (sort_component <$> components d) = sort_component <$> components d) as Hcs.
  { rewrite <- list_fmap_compose. apply list_fmap_ext. intros i c Hc. apply sort_component_idem with settings.
    rewrite Forall_forall in H9. apply H9. by eapply list_elem_of_lookup_2. }
  assert (forall f g, (forall c, sort_keys (f c) = g (sort_component c)) ->
    sort_keys (PDict (by_slug f (sort_component <$> components d))) = sort_keys (PDict (by_slug f (components d)))) as Hs.
  { intros f g Hfg. by rewrite !sorted_PDict, !(sorted_by_slug f g), Hcs. }
  assert (json_ok (PDict (manifest d))) as Hm.
  { eapply (json_ok_dget [("digest"%string, PStr (release_digest d)); ("manifest"%string, PDict (manifest d))] "manifest");
      [|reflexivity]. by eapply (json_ok_dget _ "release"). }
  cbn [canonical_desired normalized_payload]. unfold normalize. rewrite !sorted_PDict. f_equal. unfold sorted_dict at 1 3.
  f_equal. cbn [map].
  pose proof (Hs (fun c => py_strings (configuration c)) (fun c => py_strings (configuration c)) (fun c => sort_keys_py_strings _)) as E1.
  pose proof (Hs (fun c => py_strings (secret_refs c)) (fun c => py_strings (secret_refs c)) (fun c => sort_keys_py_strings _)) as E2.
  pose proof (Hs (fun c => py_scaling (scaling c)) (fun c => sort_keys (py_scaling (scaling c))) (fun c => eq_refl)) as E3.
  unfold by_slug in E1, E2, E3. rewrite E1, E2, E3.
  assert (sort_keys (PDict (sorted_dict (manifest d))) = sort_keys (PDict (manifest d))) as E4
    by (rewrite <- sorted_PDict; by apply sort_keys_idem).
  assert (forall m, sort_keys (PDict [("digest"%string, PStr (release_digest d)); ("manifest"%string, PDict m)]) =
    PDict (sort_items [("digest"%string, PStr (release_digest d)); ("manifest"%string, sort_keys (PDict m))])) as E5
    by done.
  by rewrite !E5, E4.
Qed.

(** ** The contract of the parser *)

(** C38: an accepted request satisfies the controller's whole policy: a canonical
    deployment id of this environment, a positive generation, a digest that is the
    SHA-256 of the manifest, 1 to 20 components with distinct slugs and module ids,
    allowed digest-pinned images, ports, probes, resource requests within limits,
    plain and secret values restricted to the declared keys and size limits, and
    replicas within the configured maximum. *)
Theorem parse_enforces_policy (v : pyval) (settings : ControllerSettings) (allow_absent : bool)
    (d : DesiredDeployment) :
  parse_desired_deployment v settings allow_absent = Ok d -> wf_desired settings d.
Proof. apply parse_desired_wf. Qed.

Lemma parse_enforces_policy_witness : wf_desired Sample.settings Sample.desired.
Proof. exact (parse_enforces_policy Sample.payload Sample.settings false Sample.desired parse_sample). Defined.

(** Parsing is idempotent: the normalised payload of an accepted request is itself
    accepted and parses to the same deployment. *)
Theorem parse_idempotent (v : pyval) (settings : ControllerSettings) (allow_absent : bool)
    (d : DesiredDeployment) :
  parse_desired_deployment v settings allow_absent = Ok d ->
  parse_desired_deployment (normalized_payload d) settings allow_absent = Ok d.
Proof.
  intros Hp. pose proof (parse_desired_Ok _ _ _ _ Hp) as (_ & _ & _ & H4 & H5 & _ & H7 & _).
  apply parse_normalize; [by eapply parse_desired_wf|done..].
Qed.

Lemma parse_idempotent_witness :
  parse_desired_deployment (normalized_payload Sample.desired) Sample.settings false = Ok Sample.desired.
Proof. exact (parse_idempotent Sample.payload Sample.settings false Sample.desired parse_sample). Defined.

(** C40: the stored text determines the deployment: what is serialised for an accepted
    request can be read back, and parses to the same deployment with its mappings in
    key order; the payload digest does not change. *)
Theorem stored_text_roundtrip (v : pyval) (settings : ControllerSettings) (allow_absent : bool)
    (d : DesiredDeployment) (text : string) :
  json_ok v -> parse_desired_deployment v settings allow_absent = Ok d ->
  canonical_json (normalized_payload d) = Ok text ->
  (payload ← loads text; parse_desired_deployment payload settings allow_absent) = Ok (canonical_desired d) /\
  payload_digest (normalized_payload (canonical_desired d)) = Ok (sha256_hex text).
Proof.
  intros Hv Hp Ht. pose proof (parse_desired_Ok _ _ _ _ Hp) as (_ & _ & _ & H4 & H5 & _ & H7 & _).
  pose proof (parse_desired_wf _ _ _ _ Hp) as Hwf.
  destruct (normalize_json_ok _ _ _ _ Hv Hp) as [Hok _].
  unfold canonical_json, encode_utf8 in Ht. destruct (has_surrogate _) eqn:Hs; [done|]. injection Ht as <-.
  rewrite loads_dumps_sorted by done. cbn [mbind res_bind]. split; [by apply parse_canonical|].
  unfold payload_digest, canonical_json, encode_utf8, dumps_sorted. rewrite (canonical_sorted settings) by done.
  unfold dumps_sorted in Hs. by rewrite Hs.
Qed.

Lemma stored_text_roundtrip_witness :
  exists text, (payload ← loads text; parse_desired_deployment payload Sample.settings false) =
    Ok (canonical_desired Sample.desired).
Proof.
  exists (dumps_sorted (normalized_payload Sample.desired)).
  refine (proj1 (stored_text_roundtrip Sample.payload Sample.settings false Sample.desired _
                   sample_json_ok parse_sample _)).
  vm_compute. reflexivity.
Defined.

(** The digest identifies the value and not its spelling: two payloads that are
    equal in Python (mappings in any key order) have the same digest, and payloads with
    the same canonical text are equal up to that order. *)
Theorem digest_canonical (v w : pyval) :
  json_ok v -> json_ok w ->
  (val_equiv v w -> payload_digest v = payload_digest w) /\
  (forall text, canonical_json v = Ok text -> canonical_json w = Ok text -> sort_keys v = sort_keys w).
Proof.
  intros Hv Hw. split.
  - intros He. unfold payload_digest, canonical_json, dumps_sorted. by rewrite (sort_keys_equiv v w).
  - unfold canonical_json, encode_utf8. intros text Ev Ew.
    destruct (has_surrogate (dumps_sorted v)), (has_surrogate (dumps_sorted w)); try done.
    apply dumps_sorted_inj; [done|done|]. congruence.
Qed.

Definition pair_ab : pyval := PDict [("a"%string, PInt 1); ("b"%string, PBool true)].
Definition pair_ba : pyval := PDict [("b"%string, PBool true); ("a"%string, PInt 1)].
Lemma digest_canonical_witness : sort_keys pair_ab = sort_keys pair_ba.
Proof.
  refine (proj2 (digest_canonical pair_ab pair_ba _ _) _ eq_refl _).
  - apply json_okb_ok. reflexivity.
  - apply json_okb_ok. reflexivity.
  - vm_compute. reflexivity.
Defined.
