(* ===== verification/Resources.v ===== *)
(** The Kubernetes objects of a runtime deployment
    (dealhost/runtime_controller_service/resources.py): names, labels and the
    ConfigMap, Deployment, Service and autoscaler of each component.

    Names hash the UTF-8 bytes of an identifier; identifiers that reach this module
    are validated ASCII, so the encoding step cannot fail. *)

From S2P Require Import Prelude PyValue Regex Sha256 Json Config Contract ContractCanon.
#[local] Open Scope string_scope.
#[local] Open Scope list_scope.
#[local] Open Scope Z_scope.

Definition MANAGED_BY : string := "dealhost-runtime-controller".
Definition DEPLOYMENT_LABEL : string := "archideal.io/runtime-deployment".
Definition COMPONENT_LABEL : string := "archideal.io/runtime-component".
Definition ENVIRONMENT_LABEL : string := "archideal.io/runtime-environment".

(** ** Names *)
Definition state_name (deployment_id : string) : string :=
  ("dealrt-" ++ py_take 24 (sha256_hex deployment_id) ++ "-state")%string.

Definition lease_name (deployment_id : string) : string :=
  ("dealrt-" ++ py_take 24 (sha256_hex deployment_id) ++ "-lock")%string.

Definition component_name (deployment_id slug suffix : string) : string :=
  let identity := py_take 20 (sha256_hex deployment_id) in
  let slug_hash := py_take 8 (sha256_hex slug) in
  let reserved := py_len "dealrt---" + py_len identity + py_len slug_hash + py_len suffix in
  let available := 63 - reserved in
  let trimmed := rstrip_char "-" (py_take (Z.to_nat available) slug) in
  ("dealrt-" ++ identity ++ "-" ++ trimmed ++ "-" ++ slug_hash ++ suffix)%string.

Definition resolved_secret_name (settings : ControllerSettings) (logical_name : string) : string :=
  (secret_name_prefix settings ++ "-" ++ logical_name)%string.

(** ** Labels *)
Definition selector (deployment_id : string) (component : option string) : string :=
  let values := [("app.kubernetes.io/managed-by=" ++ MANAGED_BY)%string;
                 (DEPLOYMENT_LABEL ++ "=" ++ deployment_id)%string] in
  let values := match component with
    | Some c => if String.eqb c "" then values else values ++ [(COMPONENT_LABEL ++ "=" ++ c)%string]
    | None => values
    end in
  String.concat "," values.

Definition common_labels (desired : DesiredDeployment) (component : option Component)
    : list (string * string) :=
  let labels := [("app.kubernetes.io/managed-by"%string, MANAGED_BY);
                 ("app.kubernetes.io/part-of"%string, "archideal-runtime"%string);
                 (DEPLOYMENT_LABEL, deployment_id desired);
                 (ENVIRONMENT_LABEL, d_environment desired)] in
  match component with
  | Some c => dset COMPONENT_LABEL (slug c) (dset "app.kubernetes.io/name" (slug c) labels)
  | None => labels
  end.

(** ** Objects *)
Definition state_config_map (desired : DesiredDeployment) (settings : ControllerSettings)
    (phase request_id : string) : res pyval :=
  digest ← payload_digest (normalized_payload desired);
  text ← canonical_json (normalized_payload desired);
  Ok (PDict
    [("apiVersion", PStr "v1"); ("kind", PStr "ConfigMap");
     ("metadata", PDict
       [("name", PStr (state_name (deployment_id desired)));
        ("namespace", PStr (namespace settings));
        ("labels", py_strings (common_labels desired None));
        ("annotations", PDict
          [("archideal.io/desired-generation", PStr (py_str_int (generation desired)));
           ("archideal.io/release-digest", PStr (release_digest desired));
           ("archideal.io/last-request-id", PStr request_id);
           ("archideal.io/payload-digest", PStr digest)])]);
     ("data", PDict [("phase", PStr phase); ("desired.json", PStr text)])])%string.

Definition component_config_map (desired : DesiredDeployment) (component : Component)
    (settings : ControllerSettings) : pyval :=
  PDict
    [("apiVersion", PStr "v1"); ("kind", PStr "ConfigMap");
     ("metadata", PDict
       [("name", PStr (component_name (deployment_id desired) (slug component) "-cfg"));
        ("namespace", PStr (namespace settings));
        ("labels", py_strings (common_labels desired (Some component)))]);
     ("immutable", PBool false);
     ("data", py_strings (sort_items (configuration component)))]%string.

Definition replicas (desired : DesiredDeployment) (component : Component) : Z :=
  if String.eqb (desired_state desired) "running" then
    match scaling component with Fixed n => n | Autoscale lo _ _ => lo end
  else 0.

Definition env_entries (desired : DesiredDeployment) (component : Component)
    (settings : ControllerSettings) : list pyval :=
  let config_name := component_name (deployment_id desired) (slug component) "-cfg" in
  (map (fun key => PDict
     [("name", PStr key);
      ("valueFrom", PDict [("configMapKeyRef", PDict [("name", PStr config_name); ("key", PStr key)])])])
     (sort_strings (keys (configuration component))) ++
   map (fun '(key, secret_name) => PDict
     [("name", PStr key);
      ("valueFrom", PDict [("secretKeyRef", PDict
        [("name", PStr (resolved_secret_name settings secret_name)); ("key", PStr key)])])])
     (sort_items (secret_refs component))).

Definition probe (component : Component) (initial_delay : option Z) (period threshold : Z) : pyval :=
  PDict (([("httpGet", PDict [("path", PStr (healthcheck_path component)); ("port", PStr "http")])] ++
          match initial_delay with Some s => [("initialDelaySeconds", PInt s)] | None => [] end ++
          [("periodSeconds", PInt period); ("timeoutSeconds", PInt 2); ("failureThreshold", PInt threshold)])).

Definition pod_spec (desired : DesiredDeployment) (component : Component)
    (settings : ControllerSettings) : list (string * pyval) :=
  let spec :=
    [("serviceAccountName", PStr (workload_service_account settings));
     ("automountServiceAccountToken", PBool false);
     ("terminationGracePeriodSeconds", PInt 30);
     ("securityContext", PDict
       [("runAsNonRoot", PBool true); ("seccompProfile", PDict [("type", PStr "RuntimeDefault")])]);
     ("containers", PList [PDict
       [("name", PStr "main"); ("image", PStr (image component)); ("imagePullPolicy", PStr "IfNotPresent");
        ("ports", PList [PDict [("name", PStr "http"); ("containerPort", PInt (container_port component))]]);
        ("env", PList (env_entries desired component settings));
        ("resources", py_resources (resources component));
        ("startupProbe", probe component None 5 30);
        ("readinessProbe", probe component (Some 2) 5 6);
        ("livenessProbe", probe component (Some 10) 10 6);
        ("securityContext", PDict
          [("allowPrivilegeEscalation", PBool false); ("readOnlyRootFilesystem", PBool true);
           ("capabilities", PDict [("drop", PList [PStr "ALL"])])]);
        ("volumeMounts", PList [PDict [("name", PStr "tmp"); ("mountPath", PStr "/tmp")]])]]);
     ("volumes", PList [PDict [("name", PStr "tmp"); ("emptyDir", PDict [])]])]%string in
  if String.eqb (image_pull_secret settings) "" then spec
  else dset "imagePullSecrets" (PList [PDict [("name"%string, PStr (image_pull_secret settings))]]) spec.

Definition deployment_resource (desired : DesiredDeployment) (component : Component)
    (settings : ControllerSettings) (restart_request : string) : pyval :=
  let name := component_name (deployment_id desired) (slug component) "" in
  let labels := common_labels desired (Some component) in
  let pod_labels := dset "archideal.io/runtime-workload" name labels in
  let annotations := [("archideal.io/desired-generation"%string, py_str_int (generation desired));
                      ("archideal.io/release-digest"%string, release_digest desired)] in
  let annotations := if String.eqb restart_request "" then annotations
                     else dset "archideal.io/restart-request" restart_request annotations in
  PDict
    [("apiVersion", PStr "apps/v1"); ("kind", PStr "Deployment");
     ("metadata", PDict
       [("name", PStr name); ("namespace", PStr (namespace settings));
        ("labels", py_strings labels); ("annotations", py_strings annotations)]);
     ("spec", PDict
       [("replicas", PInt (replicas desired component));
        ("revisionHistoryLimit", PInt 3); ("progressDeadlineSeconds", PInt 600);
        ("strategy", PDict
          [("type", PStr "RollingUpdate");
           ("rollingUpdate", PDict [("maxUnavailable", PInt 0); ("maxSurge", PInt 1)])]);
        ("selector", PDict [("matchLabels", py_strings pod_labels)]);
        ("template", PDict
          [("metadata", PDict [("labels", py_strings pod_labels); ("annotations", py_strings annotations)]);
           ("spec", PDict (pod_spec desired component settings))])])]%string.

Definition service_resource (desired : DesiredDeployment) (component : Component)
    (settings : ControllerSettings) : pyval :=
  let name := component_name (deployment_id desired) (slug component) "" in
  let labels := common_labels desired (Some component) in
  let selector_labels := dset "archideal.io/runtime-workload" name labels in
  PDict
    [("apiVersion", PStr "v1"); ("kind", PStr "Service");
     ("metadata", PDict
       [("name", PStr name); ("namespace", PStr (namespace settings)); ("labels", py_strings labels)]);
     ("spec", PDict
       [("type", PStr "ClusterIP"); ("selector", py_strings selector_labels);
        ("ports", PList [PDict
          [("name", PStr "http"); ("port", PInt 80); ("protocol", PStr "TCP"); ("targetPort", PStr "http")]])])]%string.

Definition hpa_resource (desired : DesiredDeployment) (component : Component)
    (settings : ControllerSettings) : res pyval :=
  let name := component_name (deployment_id desired) (slug component) "" in
  match scaling component with
  | Fixed _ => Raise (ValueError "HPA requested for a fixed-scale component.")
  | Autoscale lo hi target =>
      Ok (PDict
        [("apiVersion", PStr "autoscaling/v2"); ("kind", PStr "HorizontalPodAutoscaler");
         ("metadata", PDict
           [("name", PStr name); ("namespace", PStr (namespace settings));
            ("labels", py_strings (common_labels desired (Some component)))]);
         ("spec", PDict
           [("scaleTargetRef", PDict
              [("apiVersion", PStr "apps/v1"); ("kind", PStr "Deployment"); ("name", PStr name)]);
            ("minReplicas", PInt lo); ("maxReplicas", PInt hi);
            ("metrics", PList [PDict
              [("type", PStr "Resource");
               ("resource", PDict
                 [("name", PStr "cpu");
                  ("target", PDict [("type", PStr "Utilization"); ("averageUtilization", PInt target)])])]]);
            ("behavior", PDict
              [("scaleDown", PDict [("stabilizationWindowSeconds", PInt 300)]);
               ("scaleUp", PDict [("stabilizationWindowSeconds", PInt 0)])])])])%string
  end.

(** ** Names are valid Kubernetes names *)
Lemma dns_byte_ascii (a : ascii) : dns_byte a = true -> is_ascii a = true.
Proof. destruct a as [[] [] [] [] [] [] [] []]; vm_compute; congruence. Qed.
Lemma lower_digit_dns (a : ascii) : lower_digit a = true -> dns_byte a = true.
Proof. unfold dns_byte, por. by intros ->. Qed.
Lemma hex_dns (a : ascii) : hex_lower a = true -> dns_byte a = true.
Proof. intros H. by apply lower_digit_dns, hex_lower_digit. Qed.
Lemma hex_ascii (a : ascii) : hex_lower a = true -> is_ascii a = true.
Proof. intros H. by apply lower_digit_ascii, hex_lower_digit. Qed.

Lemma digest_prefix (n : nat) (data : string) :
  (n <= 64)%nat -> all_bytes hex_lower (py_take n (sha256_hex data)) = true /\
  String.length (py_take n (sha256_hex data)) = n.
Proof.
  intros Hn. destruct (py_take_shape n (sha256_hex data) hex_lower hex_ascii (sha256_hex_bytes data)) as [H1 H2].
  rewrite H2, sha256_hex_length. split; [done|lia].
Qed.

Lemma slug_bytes (s : string) :
  fullmatch _COMPONENT_SLUG s = true ->
  all_bytes dns_byte s = true /\ (1 <= String.length s <= 63)%nat.
Proof.
  intros H%fullmatch_spec. apply matches_Cls_Rep in H as (a & r & -> & Ha & Hr & Hl).
  cbn [all_bytes]. rewrite (lower_digit_dns a Ha). split; [exact Hr | simpl; lia].
Qed.

Lemma string_snoc (s : string) : s <> "" -> exists r b, s = (r ++ String b "")%string.
Proof.
  induction s as [|a s IH]; [done|]. intros _. destruct s as [|b s].
  - by exists "", a.
  - destruct IH as (r & x & ->); [done|]. by exists (String a r), x.
Qed.

(** Text that starts with a letter or digit and ends with digest characters, within
    the length limit, is a DNS label. *)
Lemma dns_label_suffix (a : ascii) (mid tail : string) :
  lower_digit a = true -> all_bytes dns_byte mid = true -> all_bytes lower_digit tail = true ->
  tail <> "" -> (String.length mid + String.length tail <= 62)%nat ->
  fullmatch _DNS_LABEL (String a (mid ++ tail)) = true.
Proof.
  intros Ha Hm Ht Hne Hl. destruct (string_snoc tail Hne) as (r & b & ->).
  rewrite all_bytes_app, append_length in *. cbn [all_bytes String.length] in *.
  apply andb_true_iff in Ht as [Hr Hb]. rewrite andb_true_r in Hb.
  rewrite append_assoc. apply dns_label_intro; [done|done| |].
  - rewrite all_bytes_app, Hm. by apply (all_bytes_impl lower_digit); [apply lower_digit_dns|].
  - rewrite append_length. lia.
Qed.

Lemma py_len_hex (n : nat) (data : string) :
  (n <= 64)%nat -> py_len (py_take n (sha256_hex data)) = Z.of_nat n.
Proof.
  intros Hn. destruct (digest_prefix n data Hn) as [H1 H2].
  rewrite py_len_ascii by (eapply all_bytes_impl; [apply hex_ascii|done]).
  unfold byte_len. by rewrite H2.
Qed.

Definition object_suffix (suffix : string) : Prop := suffix = "" \/ suffix = "-cfg".

Lemma component_name_dns (deployment_id slug suffix : string) :
  fullmatch _COMPONENT_SLUG slug = true -> object_suffix suffix ->
  fullmatch _DNS_LABEL (component_name deployment_id slug suffix) = true.
Proof.
  intros Hs Hsuf. unfold component_name. rewrite !py_len_hex by lia.
  destruct (slug_bytes slug Hs) as [Hb _].
  set (av := Z.to_nat _). assert (av <= 26 /\ av + String.length suffix <= 26)%nat as [Hav Hav'].
  { subst av. destruct Hsuf as [->| ->]; vm_compute; lia. }
  clearbody av.
  destruct (digest_prefix 20 deployment_id ltac:(lia)) as [I1 I2].
  destruct (digest_prefix 8 slug ltac:(lia)) as [J1 J2].
  set (ident := py_take 20 (sha256_hex deployment_id)) in *.
  set (shash := py_take 8 (sha256_hex slug)) in *.
  destruct (py_take_shape av slug dns_byte dns_byte_ascii Hb) as [K1 K2].
  destruct (rstrip_prefix "-" (py_take av slug)) as [t Ht].
  set (trim := rstrip_char "-" (py_take av slug)) in *.
  assert (all_bytes dns_byte trim = true /\ String.length trim <= av)%nat as [T1 T2].
  { rewrite Ht in K1, K2. rewrite all_bytes_app in K1. rewrite append_length in K2.
    apply andb_true_iff in K1 as [? _]. split; [done|lia]. }
  assert (all_bytes dns_byte ident = true) as I1' by (eapply all_bytes_impl; [apply hex_dns|done]).
  assert (all_bytes lower_digit shash = true) as J1' by (eapply all_bytes_impl; [apply hex_lower_digit|done]).
  assert (all_bytes dns_byte shash = true) as J1'' by (eapply all_bytes_impl; [apply hex_dns|done]).
  assert (shash <> "") by (intros E; rewrite E in J2; discriminate).
  change ("dealrt-" ++ ident ++ "-" ++ trim ++ "-" ++ shash ++ suffix)%string
    with (String "d" ("ealrt-" ++ ident ++ "-" ++ trim ++ "-" ++ shash ++ suffix))%string.
  destruct Hsuf as [->| ->].
  - rewrite append_nil_r.
    replace ("ealrt-" ++ ident ++ "-" ++ trim ++ "-" ++ shash)%string
      with (("ealrt-" ++ ident ++ "-" ++ trim ++ "-") ++ shash)%string by (by rewrite <- !append_assoc).
    apply dns_label_suffix; [done| |done|done|].
    + rewrite !all_bytes_app, I1', T1. reflexivity.
    + rewrite !append_length, I2, J2. simpl String.length. simpl in Hav'. lia.
  - replace ("ealrt-" ++ ident ++ "-" ++ trim ++ "-" ++ shash ++ "-cfg")%string
      with (("ealrt-" ++ ident ++ "-" ++ trim ++ "-" ++ shash ++ "-") ++ "cfg")%string by (by rewrite <- !append_assoc).
    apply dns_label_suffix; [done| |done|done|].
    + rewrite !all_bytes_app, I1', T1, J1''. reflexivity.
    + rewrite !append_length, I2, J2. simpl String.length. simpl in Hav'. lia.
Qed.

Lemma hashed_name_dns (deployment_id tail : string) :
  all_bytes lower_digit tail = true -> tail <> "" -> (String.length tail <= 31)%nat ->
  fullmatch _DNS_LABEL ("dealrt-" ++ py_take 24 (sha256_hex deployment_id) ++ String "-" tail)%string = true.
Proof.
  intros Ht Hne Hl. destruct (digest_prefix 24 deployment_id ltac:(lia)) as [I1 I2].
  set (ident := py_take 24 (sha256_hex deployment_id)) in *.
  change ("dealrt-" ++ ident ++ String "-" tail)%string with (String "d" ("ealrt-" ++ ident ++ "-" ++ tail))%string.
  replace ("ealrt-" ++ ident ++ "-" ++ tail)%string with (("ealrt-" ++ ident ++ "-") ++ tail)%string
    by (by rewrite <- !append_assoc).
  apply dns_label_suffix; [done| |done|done|].
  - rewrite !all_bytes_app. rewrite (all_bytes_impl _ _ _ hex_dns I1). reflexivity.
  - rewrite !append_length, I2. simpl String.length. lia.
Qed.

Lemma last_byte_ne (a b : ascii) (s t : string) : a <> b -> (s ++ String a "")%string <> (t ++ String b "")%string.
Proof.
  intros Hab H. revert t H. induction s as [|x s IH]; intros [|y t] H; simpl in H.
  - congruence.
  - destruct t; discriminate.
  - destruct s; discriminate.
  - injection H as _ H. by apply IH in H.
Qed.

(** The state object never shares its name with a component's ConfigMap. *)
Lemma state_name_not_cfg (id id' slug : string) : state_name id <> component_name id' slug "-cfg".
Proof.
  unfold state_name, component_name.
  change "-state" with ("-stat" ++ String "e" "")%string. change "-cfg" with ("-cf" ++ String "g" "")%string.
  rewrite !append_assoc. by apply last_byte_ne.
Qed.

(** The labels every object of a deployment carries. *)
Lemma common_labels_identity (d : DesiredDeployment) (c : option Component) :
  dget "app.kubernetes.io/managed-by" (common_labels d c) = Some MANAGED_BY /\
  dget DEPLOYMENT_LABEL (common_labels d c) = Some (deployment_id d) /\
  dget ENVIRONMENT_LABEL (common_labels d c) = Some (d_environment d) /\
  dget COMPONENT_LABEL (common_labels d c) = slug <$> c.
Proof. by destruct c. Qed.
