(* ===== verification/Kube.v ===== *)
(** The Kubernetes REST client (dealhost/runtime_controller_service/kubernetes.py)
    and the interface the controller's other components use it through.

    [KubeClient] lists the methods of the class [KubernetesClient]; the lease
    manager and the reconciler are written against it.  [HttpClient] is the class's
    own code over an abstract transport (httpx and the API server are not part of
    the repository). *)

From S2P Require Import Prelude PyValue Regex Json Config Contract.
#[local] Open Scope string_scope.
#[local] Open Scope list_scope.
#[local] Open Scope Z_scope.

Definition obj : Type := list (string * pyval).

(** ** The interface *)
Class KubeClient (W : Type) := {
  k_apply : obj -> M W obj;
  k_get : string -> string -> option string -> M W (option obj);
  k_list : string -> string -> M W (list obj);
  k_delete : string -> string -> M W unit;
  k_create_lease : obj -> M W bool;
  k_replace_lease : obj -> M W bool;
  k_release_lease : string -> string -> M W bool;
  k_pod_logs : string -> string -> Z -> Z -> M W string
}.

Definition kube_error (detail : string) : pyexn := KubernetesApiError detail None.

(** ** Text helpers of the standard library *)
(** [urllib.parse.quote(s, safe="")]. *)
Definition unreserved (a : ascii) : bool :=
  (between "A" "Z" a || between "a" "z" a || between "0" "9" a || one_of "_.-~" a)%bool.
Definition hex_upper (n : Z) : ascii := byte_of (if n <? 10 then 48 + n else 55 + n).
Definition quote_byte (a : ascii) : string :=
  if unreserved a then String a ""
  else String "%" (String (hex_upper (code a / 16)) (String (hex_upper (code a mod 16)) "")).
Definition quote (s : string) : string :=
  String.concat "" (map quote_byte (list_ascii_of_string s)).

(** [s.split(c, 1)[0]]. *)
Fixpoint before (c : Z) (s : string) : string :=
  match s with
  | "" => ""
  | String a r => if code a =? c then "" else String a (before c r)
  end.

(** ** Requests and responses *)
Record http_request := {
  rq_method : string;
  rq_path : string;
  rq_authorization : string;
  rq_params : list (string * string);
  rq_content : option string;
  rq_content_type : option string
}.
Record http_response := {
  rs_status : Z;
  rs_headers : list (string * string);
  rs_content : string
}.
(** What the transport yields: a transport failure ([httpx.HTTPError]), or a status,
    the headers and the body in chunks. *)
Inductive transport_result :=
| HTTPError
| Streamed (status : Z) (headers : list (string * string)) (chunks : list string).

(** The world outside the client: the projected token file and the transport. *)
Class Transport (W : Type) := {
  read_token : M W string;
  send : http_request -> W -> transport_result * W
}.

Definition MAX_KUBERNETES_RESPONSE_BYTES : Z := 2 * 1024 * 1024.

Definition _RESOURCE_ENDPOINTS : list (string * (string * string)) :=
  [("ConfigMap", ("/api/v1", "configmaps")); ("Service", ("/api/v1", "services"));
   ("Pod", ("/api/v1", "pods")); ("Deployment", ("/apis/apps/v1", "deployments"));
   ("HorizontalPodAutoscaler", ("/apis/autoscaling/v2", "horizontalpodautoscalers"));
   ("Lease", ("/apis/coordination.k8s.io/v1", "leases"))].

Definition take_bytes (n : Z) (s : string) : string := String.substring 0 (Z.to_nat n) s.

(** The body loop: at most one byte above the limit is ever kept. *)
Fixpoint read_chunks (body : string) (chunks : list string) : res string :=
  match chunks with
  | [] => Ok body
  | chunk :: chunks =>
      let remaining := MAX_KUBERNETES_RESPONSE_BYTES + 1 - byte_len body in
      let body := (body ++ take_bytes remaining chunk)%string in
      if MAX_KUBERNETES_RESPONSE_BYTES <? byte_len body
      then Raise (kube_error "The Kubernetes API response is too large.")
      else read_chunks body chunks
  end.

Definition dropped_header (key : string) : bool :=
  mem key ["content-encoding"; "content-length"].

Definition receive_body (status : Z) (headers : list (string * string)) (chunks : list string)
    : res http_response :=
  let declared := dget_or "content-length" "" headers in
  let too_large :=
    if String.eqb declared "" then false
    else match int_opt declared with
         | Some n => MAX_KUBERNETES_RESPONSE_BYTES <? n
         | None => false
         end in
  _ ← raise_if too_large (kube_error "The Kubernetes API response is too large.");
  body ← read_chunks "" chunks;
  Ok {| rs_status := status;
        rs_headers := List.filter (fun kv => negb (dropped_header kv.1)) headers;
        rs_content := body |}.

Definition _endpoint (kind : string) : res (string * string) :=
  match dget kind _RESOURCE_ENDPOINTS with
  | Some e => Ok e
  | None => Raise (ValueError ("Unsupported Kubernetes kind: " ++ kind))
  end.

Definition _json (response : http_response) : res obj :=
  let content_type := before 59 (dget_or "content-type" "" (rs_headers response)) in
  _ ← raise_if (negb (String.eqb content_type "application/json"))
        (kube_error "Kubernetes returned a non-JSON response.");
  match decode_utf8 (rs_content response) ≫= loads with
  | Ok (PDict payload) => Ok payload
  | Ok _ => Raise (kube_error "Kubernetes returned an invalid response.")
  | Raise _ => Raise (kube_error "Kubernetes returned malformed JSON.")
  end.

Section HttpClient.
Context {W : Type} `{Transport W} (settings : ControllerSettings).

Definition _resource_path (prefix plural name : string) (ns : option string) : string :=
  let resource_namespace := match ns with
    | Some n => if String.eqb n "" then namespace settings else n
    | None => namespace settings
    end in
  let base := (prefix ++ "/namespaces/" ++ quote resource_namespace ++ "/" ++ quote plural)%string in
  if String.eqb name "" then base else (base ++ "/" ++ quote name)%string.

Definition _request (method path : string) (expected : list Z) (params : list (string * string))
    (content content_type : option string) : M W http_response :=
  fun w =>
    match read_token w with
    | (Raise OSError, w) => (Raise (kube_error "The projected Kubernetes credential is unavailable."), w)
    | (Raise e, w) => (Raise e, w)
    | (Ok text, w) =>
        let token := py_strip text in
        if String.eqb token "" then (Raise (kube_error "The projected Kubernetes credential is empty."), w)
        else
          match send {| rq_method := method; rq_path := path;
                        rq_authorization := ("Bearer " ++ token)%string; rq_params := params;
                        rq_content := content; rq_content_type := content_type |} w with
          | (HTTPError, w) => (Raise (kube_error "The Kubernetes API could not be reached."), w)
          | (Streamed status headers chunks, w) =>
              match receive_body status headers chunks with
              | Raise e => (Raise e, w)
              | Ok response =>
                  if existsb (Z.eqb (rs_status response)) expected then (Ok response, w)
                  else (Raise (KubernetesApiError ("The Kubernetes API rejected " ++ method ++ " " ++
                          path ++ " (HTTP " ++ py_str_int (rs_status response) ++ ").")
                          (Some (rs_status response))), w)
              end
          end
    end.

Definition _request_json (method path : string) (expected : list Z) (params : list (string * string))
    (content content_type : option string) : M W obj :=
  response ← _request method path expected params content content_type;
  lift (_json response).

Definition named (v : pyval) : option string :=
  match v with PStr s => if String.eqb s "" then None else Some s | _ => None end.

Definition apply (resource : obj) : M W obj :=
  match vget "kind" resource, vget "metadata" resource with
  | PStr kind, PDict metadata =>
      match dget kind _RESOURCE_ENDPOINTS with
      | None => raise (ValueError "Unsupported Kubernetes resource.")
      | Some (prefix, plural) =>
          match named (vget "name" metadata) with
          | None => raise (ValueError "Kubernetes resource name is required.")
          | Some name =>
              content ← lift (encode_utf8 (dumps (PDict resource)));
              _request_json "PATCH" (_resource_path prefix plural name None) [200; 201]
                [("fieldManager", "dealhost-runtime-controller"); ("force", "true")]
                (Some content) (Some "application/apply-patch+yaml")
          end
      end
  | PList _, _ | PDict _, _ => raise TypeError
  | _, _ => raise (ValueError "Unsupported Kubernetes resource.")
  end.

Definition get (kind name : string) (ns : option string) : M W (option obj) :=
  '(prefix, plural) ← lift (_endpoint kind);
  response ← _request "GET" (_resource_path prefix plural name ns) [200; 404] [] None None;
  if rs_status response =? 404 then mret None
  else payload ← lift (_json response); mret (Some payload).

Definition as_obj (v : pyval) : option obj := match v with PDict d => Some d | _ => None end.

Definition list_objects (kind label_selector : string) : M W (list obj) :=
  '(prefix, plural) ← lift (_endpoint kind);
  response ← _request "GET" (_resource_path prefix plural "" None) [200]
    [("labelSelector", label_selector); ("limit", "500")] None None;
  payload ← lift (_json response);
  match vget "items" payload with
  | PList items =>
      match mapM as_obj items with
      | None => raise (kube_error "Kubernetes returned an invalid resource list.")
      | Some objects =>
          continue ← lift (attr_get_or "continue" PNone (dget_or "metadata" (PDict []) payload));
          if truthy continue
          then raise (kube_error "Kubernetes returned more runtime resources than the safety limit.")
          else mret objects
      end
  | _ => raise (kube_error "Kubernetes returned an invalid resource list.")
  end.

Definition delete (kind name : string) : M W unit :=
  '(prefix, plural) ← lift (_endpoint kind);
  _ ← _request "DELETE" (_resource_path prefix plural name None) [200; 202; 404] []
        (Some (dumps (PDict [("apiVersion", PStr "v1"); ("kind", PStr "DeleteOptions");
                             ("propagationPolicy", PStr "Foreground")])))
        (Some "application/json");
  mret tt.

Definition create_lease (resource : obj) : M W bool :=
  match eq_str (vget "kind" resource) "Lease", vget "metadata" resource with
  | true, PDict metadata =>
      match named (vget "name" metadata) with
      | None => raise (ValueError "Kubernetes Lease name is required.")
      | Some _ =>
          '(prefix, plural) ← lift (_endpoint "Lease");
          content ← lift (encode_utf8 (dumps (PDict resource)));
          response ← _request "POST" (_resource_path prefix plural "" None) [201; 409] []
            (Some content) (Some "application/json");
          mret (rs_status response =? 201)
      end
  | _, _ => raise (ValueError "A Kubernetes Lease resource is required.")
  end.

Definition replace_lease (resource : obj) : M W bool :=
  match eq_str (vget "kind" resource) "Lease", vget "metadata" resource with
  | true, PDict metadata =>
      match named (vget "name" metadata), named (vget "resourceVersion" metadata) with
      | Some name, Some _ =>
          '(prefix, plural) ← lift (_endpoint "Lease");
          content ← lift (encode_utf8 (dumps (PDict resource)));
          response ← _request "PUT" (_resource_path prefix plural name None) [200; 404; 409] []
            (Some content) (Some "application/json");
          mret (rs_status response =? 200)
      | _, _ => raise (ValueError "Kubernetes Lease name and resourceVersion are required.")
      end
  | _, _ => raise (ValueError "A Kubernetes Lease resource is required.")
  end.

Definition release_lease (name holder_identity : string) : M W bool :=
  lease ← get "Lease" name None;
  match lease with
  | None => mret false
  | Some lease =>
      match vget "metadata" lease, vget "spec" lease with
      | PDict metadata, PDict spec =>
          if negb (eq_str (vget "holderIdentity" spec) holder_identity) then mret false
          else
            match named (vget "uid" metadata), named (vget "resourceVersion" metadata) with
            | Some uid, Some resource_version =>
                '(prefix, plural) ← lift (_endpoint "Lease");
                content ← lift (encode_utf8 (dumps (PDict
                  [("apiVersion", PStr "v1"); ("kind", PStr "DeleteOptions");
                   ("preconditions", PDict [("uid", PStr uid); ("resourceVersion", PStr resource_version)])])));
                response ← _request "DELETE" (_resource_path prefix plural name None)
                  [200; 202; 404; 409] [] (Some content) (Some "application/json");
                mret ((rs_status response =? 200) || (rs_status response =? 202))
            | _, _ => raise (kube_error "Kubernetes returned an invalid Lease identity.")
            end
      | _, _ => raise (kube_error "Kubernetes returned an invalid Lease.")
      end
  end.

Definition pod_logs (pod_name container : string) (tail_lines since_seconds : Z) : M W string :=
  '(prefix, plural) ← lift (_endpoint "Pod");
  response ← _request "GET" (_resource_path prefix plural pod_name None ++ "/log")%string [200]
    [("container", container); ("tailLines", py_str_int tail_lines);
     ("sinceSeconds", py_str_int since_seconds); ("timestamps", "true"); ("limitBytes", "1000000")]
    None None;
  let content_type := before 59 (dget_or "content-type" "" (rs_headers response)) in
  if mem content_type ["text/plain"; "application/octet-stream"; ""]
  then mret (rs_content response)
  else raise (kube_error "Kubernetes returned an invalid log response.").

Definition ready : M W unit :=
  '(prefix, plural) ← lift (_endpoint "ConfigMap");
  payload ← _request_json "GET" (_resource_path prefix plural "" None) [200] [("limit", "1")] None None;
  if is_list (vget "items" payload)
  then _ ← get "Lease" "dealhost-runtime-controller-readiness" None; mret tt
  else raise (kube_error "Kubernetes returned an invalid readiness response.").

(** The class [KubernetesClient] discharges the interface. *)
#[export] Instance http_client : KubeClient W := {|
  k_apply := apply; k_get := get; k_list := list_objects; k_delete := delete;
  k_create_lease := create_lease; k_replace_lease := replace_lease;
  k_release_lease := release_lease; k_pod_logs := pod_logs |}.
End HttpClient.

(** ** Bounded responses *)
Lemma take_bytes_length (n : Z) (s : string) : byte_len (take_bytes n s) <= Z.max 0 n.
Proof.
  unfold take_bytes, byte_len. assert (forall m t, String.length (String.substring 0 m t) <= m)%nat as L.
  { induction m as [|m IH]; intros [|a t]; simpl; try lia. specialize (IH t). lia. }
  specialize (L (Z.to_nat n) s). lia.
Qed.

Lemma read_chunks_bounded (chunks : list string) (body r : string) :
  byte_len body <= MAX_KUBERNETES_RESPONSE_BYTES -> read_chunks body chunks = Ok r ->
  byte_len r <= MAX_KUBERNETES_RESPONSE_BYTES.
Proof.
  revert body. induction chunks as [|c chunks IH]; intros body Hb; cbn [read_chunks]; [by intros [= <-]|].
  destruct (Z.ltb_spec MAX_KUBERNETES_RESPONSE_BYTES (byte_len (body ++ take_bytes (MAX_KUBERNETES_RESPONSE_BYTES + 1 - byte_len body) c)));
    [done|]. by apply IH.
Qed.

(** ** Paths *)
Definition hex_digit (x : ascii) : Z := if code x <? 58 then code x - 48 else code x - 55.
Fixpoint unquote (s : string) : string :=
  match s with
  | String a r =>
      if Ascii.eqb a "%" then
        match r with
        | String b (String c r) => String (byte_of (16 * hex_digit b + hex_digit c)) (unquote r)
        | _ => s
        end
      else String a (unquote r)
  | "" => ""
  end.

Definition safe_byte (a : ascii) : bool := unreserved a || Ascii.eqb a "%".

Lemma unreserved_percent (a : ascii) : unreserved a = true -> Ascii.eqb a "%" = false.
Proof. destruct a as [[] [] [] [] [] [] [] []]; vm_compute; congruence. Qed.
Lemma unquote_plain (a : ascii) (s : string) : Ascii.eqb a "%" = false -> unquote (String a s) = String a (unquote s).
Proof. intros Ha. cbn [unquote]. by rewrite Ha. Qed.
Lemma hex_roundtrip (a : ascii) :
  byte_of (16 * hex_digit (hex_upper (code a / 16)) + hex_digit (hex_upper (code a mod 16))) = a.
Proof. destruct a as [[] [] [] [] [] [] [] []]; vm_compute; reflexivity. Qed.

Lemma quote_cons (a : ascii) (s : string) : quote (String a s) = (quote_byte a ++ quote s)%string.
Proof.
  unfold quote. cbn [list_ascii_of_string map]. destruct (map quote_byte (list_ascii_of_string s)) eqn:E; [|done].
  simpl. by rewrite append_nil_r.
Qed.

Lemma unquote_quote (s : string) : unquote (quote s) = s.
Proof.
  induction s as [|a s IH]; [done|]. rewrite quote_cons. unfold quote_byte. destruct (unreserved a) eqn:U.
  - cbn [String.append]. rewrite unquote_plain by (by apply unreserved_percent). by rewrite IH.
  - cbn [String.append unquote]. rewrite Ascii.eqb_refl, IH. f_equal. apply hex_roundtrip.
Qed.

Lemma quote_safe (s : string) : all_bytes safe_byte (quote s) = true.
Proof.
  induction s as [|a s IH]; [done|]. rewrite quote_cons, all_bytes_app, IH, andb_true_r.
  destruct a as [[] [] [] [] [] [] [] []]; vm_compute; reflexivity.
Qed.

(** Texts without "/" around a "/" determine its place. *)
Lemma slash_split (a b x y : string) :
  all_bytes safe_byte a = true -> all_bytes safe_byte b = true ->
  (a ++ "/" ++ x)%string = (b ++ "/" ++ y)%string -> a = b /\ x = y.
Proof.
  revert b. induction a as [|c a IH]; intros [|e b] Ha Hb E; cbn [String.append] in E; cbn [all_bytes] in *.
  - by injection E as ->.
  - injection E as <- _. discriminate Hb.
  - injection E as -> _. discriminate Ha.
  - apply andb_true_iff in Ha as [_ Ha], Hb as [_ Hb]. injection E as <- E.
    destruct (IH b Ha Hb E) as [-> ->]. done.
Qed.

(** One path, one object: with the same API prefix and plural, two non-empty names
    (in the two namespaces the call resolves to) have the same request path only if
    both the names and the namespaces are equal, so no name, however it is spelled,
    can reach another object or leave its namespace. *)
Theorem resource_path_injective (settings : ControllerSettings) (prefix plural name name' : string)
    (ns ns' : option string) :
  name <> "" -> name' <> "" ->
  _resource_path settings prefix plural name ns = _resource_path settings prefix plural name' ns' ->
  name = name' /\
  match ns with Some n => if String.eqb n "" then namespace settings else n | None => namespace settings end =
  match ns' with Some n => if String.eqb n "" then namespace settings else n | None => namespace settings end.
Proof.
  intros Hn Hn' E. unfold _resource_path in E.
  set (n := match ns with Some _ => _ | None => _ end) in *. set (n' := match ns' with Some _ => _ | None => _ end) in *.
  rewrite (proj2 (String.eqb_neq _ _) Hn), (proj2 (String.eqb_neq _ _) Hn'), <- !append_assoc in E.
  apply append_inj_l in E. apply append_inj_l in E.
  apply slash_split in E as [E1 E]; [|apply quote_safe..].
  apply slash_split in E as [_ E2]; [|apply quote_safe..].
  apply (f_equal unquote) in E1, E2. rewrite !unquote_quote in E1, E2. done.
Qed.

Lemma resource_path_injective_witness : "a/b" = "a/b" /\ namespace Sample.settings = namespace Sample.settings.
Proof.
  exact (resource_path_injective Sample.settings "/api/v1" "configmaps" "a/b" "a/b" None None ltac:(done) ltac:(done) eq_refl).
Defined.

(** Every response the client accepts has one of the expected statuses and a body
    of at most 2 MiB, whatever the declared length and however the body is chunked. *)
Theorem response_bounded (W : Type) `{Transport W} (method path : string) (expected : list Z)
    (params : list (string * string)) (content content_type : option string) (w w' : W) (r : http_response) :
  _request method path expected params content content_type w = (Ok r, w') ->
  In (rs_status r) expected /\ byte_len (rs_content r) <= 2 * 1024 * 1024.
Proof.
  unfold _request. destruct (read_token w) as [[text|e] w1]; [|by destruct e].
  destruct (String.eqb (py_strip text) ""); [done|].
  destruct (send _ w1) as [[|status headers chunks] w2]; [done|].
  destruct (receive_body status headers chunks) as [resp|e] eqn:R; [|done].
  destruct (existsb (Z.eqb (rs_status resp)) expected) eqn:X; [|done]. intros [= <- <-]. split.
  - apply existsb_exists in X as (z & Hz & ->%Z.eqb_eq). done.
  - unfold receive_body in R. apply bind_Ok in R as (u & _ & (body & Hb & E)%bind_Ok). injection E as <-.
    cbn [rs_content]. apply read_chunks_bounded in Hb; [done|]. vm_compute. congruence.
Qed.

#[local] Instance echo_transport : Transport unit := {|
  read_token := fun w => (Ok "token", w);
  send := fun rq w => (Streamed 200 [("content-type", "application/json")] ["{}"], w) |}.
Lemma response_bounded_witness :
  exists r, _request "GET" "/api" [200] [] None None tt = (Ok r, tt) /\ byte_len (rs_content r) <= 2 * 1024 * 1024.
Proof.
  eexists. split; [reflexivity|].
  exact (proj2 (response_bounded unit "GET" "/api" [200] [] None None tt tt _ eq_refl)).
Defined.
