(* ===== verification/PyTime.v ===== *)
(** [datetime] as the lease manager uses it: aware UTC instants as microseconds since
    the epoch, [isoformat(timespec="microseconds")] and [fromisoformat].

    [fromisoformat] is modelled on the extended format (YYYY-MM-DDTHH:MM:SS with an
    optional fraction and offset), which is the only one the Kubernetes API emits;
    the compact and week-date spellings are rejected here. *)

From S2P Require Import Prelude PyValue.
#[local] Open Scope Z_scope.

(** ** The proleptic Gregorian calendar, days since 1970-01-01 *)
Definition civil_from_days (z : Z) : Z * Z * Z :=
  let z := z + 719468 in
  let era := z / 146097 in
  let doe := z mod 146097 in
  let yoe := (doe - doe / 1460 + doe / 36524 - doe / 146096) / 365 in
  let doy := doe - (365 * yoe + yoe / 4 - yoe / 100) in
  let mp := (5 * doy + 2) / 153 in
  let d := doy - (153 * mp + 2) / 5 + 1 in
  let m := if mp <? 10 then mp + 3 else mp - 9 in
  let y := yoe + era * 400 in
  (if m <=? 2 then y + 1 else y, m, d).

Definition days_from_civil (y m d : Z) : Z :=
  let y := if m <=? 2 then y - 1 else y in
  let era := y / 400 in
  let yoe := y mod 400 in
  let doy := (153 * (if 2 <? m then m - 3 else m + 9) + 2) / 5 + d - 1 in
  let doe := yoe * 365 + yoe / 4 - yoe / 100 + doy in
  era * 146097 + doe - 719468.

Definition is_leap (y : Z) : bool := (y mod 4 =? 0) && (negb (y mod 100 =? 0) || (y mod 400 =? 0)).
Definition days_in_month (y m : Z) : Z :=
  if m =? 2 then (if is_leap y then 29 else 28)
  else if (m =? 4) || (m =? 6) || (m =? 9) || (m =? 11) then 30 else 31.

(** ** isoformat *)
Fixpoint pad_digits (width : nat) (n : Z) (acc : string) : string :=
  match width with
  | O => acc
  | S w => pad_digits w (n / 10) (String (byte_of (48 + n mod 10)) acc)
  end.
Definition pad (width : nat) (n : Z) : string := pad_digits width n "".

Definition day_us : Z := 86400 * 1000000.
(** [value.astimezone(timezone.utc).isoformat(timespec="microseconds")] with the
    offset text replaced by "Z". *)
Definition utc_timestamp (t : Z) : string :=
  let '(y, m, d) := civil_from_days (t / day_us) in
  let us := t mod day_us in
  let s := us / 1000000 in
  (pad 4 y ++ "-" ++ pad 2 m ++ "-" ++ pad 2 d ++ "T" ++
   pad 2 (s / 3600) ++ ":" ++ pad 2 (s / 60 mod 60) ++ ":" ++ pad 2 (s mod 60) ++ "." ++
   pad 6 (us mod 1000000) ++ "Z")%string.

(** [now.isoformat()] of an aware UTC datetime. *)
Definition isoformat (t : Z) : string :=
  let '(y, m, d) := civil_from_days (t / day_us) in
  let us := t mod day_us in
  let s := us / 1000000 in
  let fraction := if Z.eqb (us mod 1000000) 0 then ""%string else String "." (pad 6 (us mod 1000000)) in
  (pad 4 y ++ "-" ++ pad 2 m ++ "-" ++ pad 2 d ++ "T" ++
   pad 2 (s / 3600) ++ ":" ++ pad 2 (s / 60 mod 60) ++ ":" ++ pad 2 (s mod 60) ++ fraction ++ "+00:00")%string.

(** ** fromisoformat *)
Fixpoint read_digits (n : nat) (acc : Z) (s : string) : option (Z * string) :=
  match n, s with
  | O, _ => Some (acc, s)
  | S n, String a r => if is_digit a then read_digits n (10 * acc + (code a - 48)) r else None
  | S _, ""%string => None
  end.
Definition read_char (c : ascii) (s : string) : option string :=
  match s with String a r => if Ascii.eqb a c then Some r else None | ""%string => None end.

(** Up to six fraction digits count; further digits are dropped. *)
Fixpoint read_fraction (n : nat) (acc : Z) (s : string) : Z * string :=
  match s with
  | String a r =>
      if is_digit a then
        match n with
        | O => read_fraction O acc r
        | S n => read_fraction n (10 * acc + (code a - 48)) r
        end
      else (acc * 10 ^ Z.of_nat n, s)
  | ""%string => (acc * 10 ^ Z.of_nat n, s)
  end.
Definition read_seconds (s : string) : option (Z * string) :=
  match read_char ":" s with
  | None => Some (0, s)
  | Some r =>
      '(sec, r) ← read_digits 2 0 r;
      if 60 <=? sec then None
      else match r with
           | String a (String b _ as q) =>
               if ((code a =? 46) || (code a =? 44)) && is_digit b
               then let '(f, q) := read_fraction 6 0 q in Some (sec * 1000000 + f, q)
               else Some (sec * 1000000, r)
           | _ => Some (sec * 1000000, r)
           end
  end.
Definition read_time (s : string) : option (Z * string) :=
  '(h, s) ← read_digits 2 0 s;
  if 24 <=? h then None
  else match read_char ":" s with
       | None => Some (h * 3600000000, s)
       | Some s =>
           '(mi, s) ← read_digits 2 0 s;
           if 60 <=? mi then None
           else '(x, s) ← read_seconds s; Some (h * 3600000000 + mi * 60000000 + x, s)
       end.

(** The offset: [None] for a naive value. *)
Definition read_offset (s : string) : option (option Z) :=
  match s with
  | ""%string => Some None
  | String a r =>
      let sign := if code a =? 43 then Some 1 else if code a =? 45 then Some (-1) else None in
      sg ← sign;
      '(x, rest) ← read_time r;
      match rest with ""%string => Some (Some (sg * x)) | _ => None end
  end.

(** [s.replace("Z", "+00:00")]. *)
Fixpoint replace_z (s : string) : string :=
  match s with
  | ""%string => ""%string
  | String a r => if Ascii.eqb a "Z" then ("+00:00" ++ replace_z r)%string else String a (replace_z r)
  end.

(** The local instant and the offset; [None] is a [ValueError]. *)
Definition fromisoformat (s : string) : option (Z * option Z) :=
  '(y, s) ← read_digits 4 0 s; s ← read_char "-" s;
  '(m, s) ← read_digits 2 0 s; s ← read_char "-" s;
  '(d, s) ← read_digits 2 0 s;
  if (y <? 1) || (m <? 1) || (12 <? m) || (d <? 1) || (days_in_month y m <? d) then None
  else
    let day := days_from_civil y m d * day_us in
    match s with
    | ""%string => Some (day, None)
    | String _ r =>
        '(t, s) ← read_time r; off ← read_offset s; Some (day + t, off)
    end.

Example timestamp_example : utc_timestamp 1767225599123456 = "2025-12-31T23:59:59.123456Z"%string.
Proof. vm_compute. reflexivity. Qed.
Example fromisoformat_example :
  fromisoformat (replace_z "2024-02-29T12:00:00Z") = Some (1709208000000000, Some 0).
Proof. vm_compute. reflexivity. Qed.

(** ** The calendar conversions are inverse *)
Lemma div_bounds (a n : Z) : 0 < n -> n * (a / n) <= a < n * (a / n) + n.
Proof. intros Hn. pose proof (Z.mul_div_le a n). pose proof (Z.mul_succ_div_gt a n). lia. Qed.

(** The year of a day of the 400-year era, and its day of the (March-based) year. *)
Lemma civil_era (doe : Z) :
  0 <= doe < 146097 ->
  let yoe := (doe - doe / 1460 + doe / 36524 - doe / 146096) / 365 in
  let doy := doe - (365 * yoe + yoe / 4 - yoe / 100) in
  0 <= yoe < 400 /\ 0 <= doy <= 365 /\
  (doy = 365 -> (yoe + 1) mod 4 = 0 /\ ((yoe + 1) mod 100 <> 0 \/ yoe + 1 = 400)).
Proof.
  intros H yoe doy.
  pose proof (div_bounds doe 1460 ltac:(lia)). pose proof (div_bounds doe 36524 ltac:(lia)).
  pose proof (div_bounds doe 146096 ltac:(lia)).
  set (a := doe / 1460) in *. set (b := doe / 36524) in *. set (e := doe / 146096) in *.
  pose proof (div_bounds (doe - a + b - e) 365 ltac:(lia)). fold yoe in H3.
  pose proof (div_bounds yoe 4 ltac:(lia)). pose proof (div_bounds yoe 100 ltac:(lia)).
  rewrite !Z.mod_eq by lia.
  pose proof (div_bounds (yoe + 1) 4 ltac:(lia)). pose proof (div_bounds (yoe + 1) 100 ltac:(lia)).
  subst doy. clearbody a b e yoe.
  set (q := yoe / 4) in *. set (c := yoe / 100) in *.
  set (q2 := (yoe + 1) / 4) in *. set (c2 := (yoe + 1) / 100) in *. clearbody q c q2 c2.
  assert (0 <= yoe < 400) by lia. split; [lia|].
  assert (b = 0 \/ b = 1 \/ b = 2 \/ b = 3 \/ b = 4) as Db by lia.
  assert (e = 0 \/ e = 1) as De by lia.
  assert (c = 0 \/ c = 1 \/ c = 2 \/ c = 3) as Dc by lia.
  destruct Db as [->|[->|[->|[->| ->]]]], De as [->| ->], Dc as [->|[->|[->| ->]]]; lia.
Qed.

(** The month and the day of a day of the March-based year. *)
Lemma civil_month (doy : Z) :
  0 <= doy <= 365 ->
  let mp := (5 * doy + 2) / 153 in
  let m := if mp <? 10 then mp + 3 else mp - 9 in
  let d := doy - (153 * mp + 2) / 5 + 1 in
  0 <= mp <= 11 /\ 1 <= m <= 12 /\ 1 <= d /\ (m <= 2 <-> 306 <= doy) /\
  (if 2 <? m then m - 3 else m + 9) = mp /\
  d <= (if m =? 2 then (if doy =? 365 then 29 else 28)
        else if (m =? 4) || (m =? 6) || (m =? 9) || (m =? 11) then 30 else 31).
Proof.
  intros H mp m d. pose proof (div_bounds (5 * doy + 2) 153 ltac:(lia)) as Hmp. fold mp in Hmp.
  pose proof (div_bounds (153 * mp + 2) 5 ltac:(lia)) as Hd.
  subst m d. clearbody mp. set (k := (153 * mp + 2) / 5) in *. clearbody k.
  assert (mp = 0 \/ mp = 1 \/ mp = 2 \/ mp = 3 \/ mp = 4 \/ mp = 5 \/ mp = 6 \/ mp = 7 \/
          mp = 8 \/ mp = 9 \/ mp = 10 \/ mp = 11) as D by lia.
  destruct (Z.eqb_spec doy 365);
    decompose [or] D; subst mp; simpl; lia.
Qed.

Definition datetime_min : Z := -719162 * day_us.
Definition datetime_max : Z := 2932897 * day_us.

Lemma leap_next (yoe era : Z) :
  (yoe + 1) mod 4 = 0 -> (yoe + 1) mod 100 <> 0 \/ yoe + 1 = 400 ->
  is_leap (yoe + era * 400 + 1) = true.
Proof.
  intros H4 H. unfold is_leap.
  replace (yoe + era * 400 + 1) with (yoe + 1 + (100 * era) * 4) by ring. rewrite Z.mod_add, H4 by lia.
  replace (yoe + 1 + 100 * era * 4) with (yoe + 1 + (4 * era) * 100) by ring. rewrite Z.mod_add by lia.
  replace (yoe + 1 + 4 * era * 100) with (yoe + 1 + era * 400) by ring. rewrite Z.mod_add by lia.
  destruct H as [H| ->]; [|reflexivity]. apply Z.eqb_neq in H. by rewrite H.
Qed.

Lemma civil_spec (z y m d : Z) :
  civil_from_days z = (y, m, d) ->
  1 <= m <= 12 /\ 1 <= d <= days_in_month y m /\ days_from_civil y m d = z /\
  (-719162 <= z < 2932897 -> 1 <= y <= 9999).
Proof.
  unfold civil_from_days, days_from_civil. intros E.
  assert (0 <= (z + 719468) mod 146097 < 146097) as Hdoe by (apply Z.mod_pos_bound; lia).
  pose proof (Z.div_mod (z + 719468) 146097 ltac:(lia)) as Hz.
  set (era := (z + 719468) / 146097) in *. set (doe := (z + 719468) mod 146097) in *.
  pose proof (civil_era doe Hdoe) as Hera. cbv zeta in Hera.
  set (yoe := (doe - doe / 1460 + doe / 36524 - doe / 146096) / 365) in *.
  destruct Hera as (Hyoe & Hdoy & Hleap).
  set (doy := doe - (365 * yoe + yoe / 4 - yoe / 100)) in *.
  pose proof (civil_month doy Hdoy) as Hm. cbv zeta in Hm.
  set (mp := (5 * doy + 2) / 153) in *.
  set (m' := if mp <? 10 then mp + 3 else mp - 9) in *.
  set (d' := doy - (153 * mp + 2) / 5 + 1) in *.
  destruct Hm as (Hmp & Hm & Hd & Hm2 & Hback & Hdim). injection E as <- <- <-.
  assert ((if m' <=? 2 then (if m' <=? 2 then yoe + era * 400 + 1 else yoe + era * 400) - 1
           else if m' <=? 2 then yoe + era * 400 + 1 else yoe + era * 400) = yoe + era * 400) as ->
    by (destruct (m' <=? 2); lia).
  rewrite Hback, Z.div_add, Z.mod_add, (Z.div_small yoe), (Z.mod_small yoe) by lia.
  split_and!; [lia|lia|lia| | |]; [|subst d' doy; lia|].
  - etransitivity; [exact Hdim|]. unfold days_in_month. destruct (Z.eqb_spec m' 2) as [Em|]; [|lia].
    destruct (Z.eqb_spec doy 365) as [Ed|]; [|destruct (is_leap _); lia].
    destruct (Hleap Ed) as [L1 L2]. assert (m' <=? 2 = true) as -> by (apply Z.leb_le; lia).
    by rewrite leap_next.
  - intros Hr. pose proof (div_bounds yoe 4 ltac:(lia)). pose proof (div_bounds yoe 100 ltac:(lia)).
    assert (0 <= era <= 24) by lia. destruct (Z.leb_spec m' 2); subst doy; lia.
Qed.

(** ** Printing and reading an instant *)
Lemma read_pad_digits (w : nat) (n acc : Z) (s t : string) :
  0 <= n < 10 ^ Z.of_nat w ->
  forall k, read_digits (w + k) acc (pad_digits w n s ++ t) =
            read_digits k (10 ^ Z.of_nat w * acc + n) (s ++ t).
Proof.
  revert n s. induction w as [|w IH]; intros n s Hn k.
  - simpl. f_equal. simpl in Hn. lia.
  - rewrite Nat2Z.inj_succ, Z.pow_succ_r in * by lia.
    assert (0 <= n mod 10 < 10) by (apply Z.mod_pos_bound; lia).
    cbn [pad_digits]. replace (S w + k)%nat with (w + S k)%nat by lia.
    rewrite IH by (split; [apply Z.div_pos; lia | apply Z.div_lt_upper_bound; lia]).
    cbn [String.append read_digits]. unfold is_digit. rewrite code_byte_of by lia.
    replace ((48 <=? 48 + n mod 10) && (48 + n mod 10 <=? 57)) with true
      by (symmetry; apply andb_true_iff; split; apply Z.leb_le; lia).
    f_equal. pose proof (Z.div_mod n 10). lia.
Qed.

Lemma read_pad (w : nat) (n : Z) (t : string) :
  0 <= n < 10 ^ Z.of_nat w -> read_digits w 0 (pad w n ++ t) = Some (n, t).
Proof.
  intros Hn. pose proof (read_pad_digits w n 0 "" t Hn 0) as E. rewrite Nat.add_0_r in E.
  unfold pad. rewrite E. cbn [read_digits]. do 2 f_equal. lia.
Qed.

Lemma digit_byte (n : Z) : 0 <= n < 10 -> is_digit (byte_of (48 + n)) = true.
Proof.
  intros Hn. unfold is_digit. rewrite code_byte_of by lia.
  apply andb_true_iff; split; apply Z.leb_le; lia.
Qed.

Lemma pad_digits_all (w : nat) (n : Z) (s : string) :
  0 <= n -> all_digits s = true -> all_digits (pad_digits w n s) = true.
Proof.
  revert n s. induction w as [|w IH]; intros n s Hn Hs; [done|]. cbn [pad_digits].
  apply IH; [apply Z.div_pos; lia|]. cbn [all_digits]. rewrite digit_byte, Hs; [done|].
  apply Z.mod_pos_bound. lia.
Qed.

Lemma pad_digits_length (w : nat) (n : Z) (s : string) :
  String.length (pad_digits w n s) = (w + String.length s)%nat.
Proof. revert n s. induction w as [|w IH]; intros n s; [done|]. cbn [pad_digits]. rewrite IH. simpl. lia. Qed.

Lemma replace_z_app (s t : string) : replace_z (s ++ t) = (replace_z s ++ replace_z t)%string.
Proof.
  induction s as [|a s IH]; [done|]. cbn [String.append replace_z]. rewrite IH.
  by destruct (Ascii.eqb a "Z").
Qed.

Lemma replace_z_digits (s : string) : all_digits s = true -> replace_z s = s.
Proof.
  induction s as [|a s IH]; [done|]. cbn [all_digits replace_z]. intros [Ha Hs]%andb_true_iff.
  rewrite IH by done. destruct (Ascii.eqb_spec a "Z") as [->|]; [discriminate|done].
Qed.

Lemma replace_z_pad (w : nat) (n : Z) : 0 <= n -> replace_z (pad w n) = pad w n.
Proof. intros Hn. by apply replace_z_digits, pad_digits_all. Qed.

(** The last digits of a fraction end the reading of the seconds. *)
Lemma read_fraction_pad (w : nat) (n acc : Z) (s t : string) :
  0 <= n < 10 ^ Z.of_nat w ->
  forall k, read_fraction (w + k) acc (pad_digits w n s ++ t) =
            read_fraction k (10 ^ Z.of_nat w * acc + n) (s ++ t).
Proof.
  revert n s. induction w as [|w IH]; intros n s Hn k.
  - simpl. f_equal. simpl in Hn. lia.
  - rewrite Nat2Z.inj_succ, Z.pow_succ_r in * by lia.
    assert (0 <= n mod 10 < 10) by (apply Z.mod_pos_bound; lia).
    cbn [pad_digits]. replace (S w + k)%nat with (w + S k)%nat by lia.
    rewrite IH by (split; [apply Z.div_pos; lia | apply Z.div_lt_upper_bound; lia]).
    cbn [String.append read_fraction]. rewrite digit_byte, code_byte_of by lia.
    f_equal. pose proof (Z.div_mod n 10). lia.
Qed.

Lemma pad_head (w : nat) (n : Z) :
  0 <= n -> exists a r, pad (S w) n = String a r /\ is_digit a = true.
Proof.
  intros Hn. pose proof (pad_digits_all (S w) n "" Hn eq_refl) as H.
  pose proof (pad_digits_length (S w) n "") as L. unfold pad.
  destruct (pad_digits (S w) n "") as [|a r]; [discriminate|]. exists a, r.
  by apply andb_true_iff in H as [??].
Qed.

Lemma read_time_pad (h mi sec us : Z) :
  0 <= h < 24 -> 0 <= mi < 60 -> 0 <= sec < 60 -> 0 <= us < 1000000 ->
  read_time (pad 2 h ++ String ":" (pad 2 mi ++ String ":" (pad 2 sec ++
             String "." (pad 6 us ++ "+00:00")))) =
  Some (h * 3600000000 + mi * 60000000 + (sec * 1000000 + us), "+00:00"%string).
Proof.
  intros Hh Hm Hs Hu. unfold read_time.
  rewrite read_pad by (simpl; lia). cbn -[read_digits pad].
  replace (24 <=? h) with false by (symmetry; apply Z.leb_gt; lia).
  rewrite read_pad by (simpl; lia). cbn -[read_digits pad].
  replace (60 <=? mi) with false by (symmetry; apply Z.leb_gt; lia).
  unfold read_seconds. cbn -[read_digits pad]. rewrite read_pad by (simpl; lia). cbn -[read_digits pad].
  replace (60 <=? sec) with false by (symmetry; apply Z.leb_gt; lia).
  pose proof (read_fraction_pad 6 us 0 "" "+00:00" ltac:(simpl; lia) 0) as E.
  destruct (pad_head 5 us) as (a & r & Ea & Ha); [lia|]. fold (pad 6 us) in E. rewrite Ea in *.
  cbn [String.append] in *. rewrite Ha. cbn -[read_fraction].
  change (6 + 0)%nat with 6%nat in E. rewrite E. simpl. do 3 f_equal. lia.
Qed.

(** What the controller writes, it reads back as the same instant with offset zero. *)
Lemma timestamp_roundtrip (t : Z) :
  datetime_min <= t < datetime_max ->
  fromisoformat (replace_z (utc_timestamp t)) = Some (t, Some 0).
Proof.
  unfold datetime_min, datetime_max. intros Ht.
  assert (0 < day_us) by reflexivity.
  pose proof (Z.div_mod t day_us ltac:(lia)) as Hdm.
  assert (0 <= t mod day_us < day_us) as Hus by (apply Z.mod_pos_bound; lia).
  unfold utc_timestamp. set (us := t mod day_us) in *. set (days := t / day_us) in *.
  destruct (civil_from_days days) as [[y m] d] eqn:E.
  apply civil_spec in E as (Hm & Hd & Hback & Hy). specialize (Hy ltac:(nia)).
  assert (days_in_month y m <= 31) by (unfold days_in_month; repeat case_match; lia).
  change day_us with 86400000000 in Hus.
  pose proof (div_bounds us 1000000 ltac:(lia)) as B1. set (s := us / 1000000) in *.
  pose proof (div_bounds s 3600 ltac:(lia)) as B2. pose proof (div_bounds s 60 ltac:(lia)) as B3.
  assert (0 <= s / 60 mod 60 < 60 /\ 0 <= s mod 60 < 60 /\ 0 <= us mod 1000000 < 1000000)
    as (C1 & C2 & C3) by (split_and!; apply Z.mod_pos_bound; lia).
  assert (s / 60 = 60 * (s / 3600) + s / 60 mod 60) as D1.
  { rewrite (Z.div_mod (s / 60) 60) at 1 by lia. by rewrite Z.div_div by lia. }
  assert (s = 60 * (s / 60) + s mod 60) as D2 by (apply Z.div_mod; lia).
  assert (us = 1000000 * s + us mod 1000000) as D3 by (apply Z.div_mod; lia).
  rewrite !replace_z_app, !replace_z_pad by lia.
  unfold fromisoformat. cbn [replace_z String.append Ascii.eqb Bool.eqb].
  rewrite read_pad by (simpl; lia). cbn -[read_digits pad days_in_month].
  rewrite read_pad by (simpl; lia). cbn -[read_digits pad days_in_month].
  rewrite read_pad by (simpl; lia). cbn -[read_digits pad days_in_month].
  replace ((y <? 1) || (m <? 1) || (12 <? m) || (d <? 1) || (days_in_month y m <? d)) with false
    by (symmetry; rewrite !orb_false_iff, !Z.ltb_ge; lia).
  rewrite read_time_pad by lia. cbn [mbind option_bind].
  change (read_offset "+00:00") with (Some (Some 0)). cbn [mbind option_bind].
  rewrite Hback. do 2 f_equal. change day_us with 86400000000 in *. lia.
Qed.
