(* ===== verification/PyText.v ===== *)
(** More of Python's [str], [float] and [datetime], used by the event pipeline: [split],
    [in], [lower], [isdigit], [str()] and [repr()] of JSON values, base64, the numeric
    order of [int] and [float], and [datetime.fromtimestamp]. *)

From S2P Require Import Prelude PyValue Regex PyFloat Json PyTime.
#[local] Open Scope list_scope.
#[local] Open Scope string_scope.
#[local] Open Scope Z_scope.

(** What Python takes from the Unicode character database.  ASCII text never needs it. *)
Class UnicodeData := {
  unicode_lower : string -> string;
  unicode_isdigit : string -> bool;
  unicode_isprintable : string -> bool;
  (** A decimal digit or a space of another script as the ASCII one [float()] reads. *)
  unicode_decimal : string -> string;
}.

(** ** Strings *)
(** [s.split(sep)] for a one-byte separator. *)
Fixpoint py_split (sep : ascii) (s : string) : list string :=
  match s with
  | "" => [""]
  | String a r =>
      if Ascii.eqb a sep then "" :: py_split sep r
      else match py_split sep r with
           | p :: ps => String a p :: ps
           | [] => [String a ""]
           end
  end.

(** [sub in s]. *)
Fixpoint contains (sub s : string) : bool :=
  startswith sub s || match s with "" => false | String _ r => contains sub r end.

(** [l.index(x)] as an option. *)
Fixpoint index_of (x : string) (l : list string) : option nat :=
  match l with
  | [] => None
  | y :: l => if String.eqb x y then Some 0%nat else option_map S (index_of x l)
  end.

Definition lower_ascii (a : ascii) : ascii :=
  if (65 <=? code a) && (code a <=? 90) then byte_of (code a + 32) else a.
Fixpoint map_bytes (f : ascii -> ascii) (s : string) : string :=
  match s with "" => "" | String a r => String (f a) (map_bytes f r) end.

(** [sorted] of distinct strings. *)
Fixpoint insert_str (x : string) (l : list string) : list string :=
  match l with
  | [] => [x]
  | y :: r => if String.leb x y then x :: l else y :: insert_str x r
  end.
Definition py_sorted (l : list string) : list string := foldr insert_str [] l.

Section Text.
Context `{UnicodeData}.

(** [s.lower()]. *)
Definition py_lower (s : string) : string :=
  if all_bytes is_ascii s then map_bytes lower_ascii s else unicode_lower s.

Definition char_isdigit (c : string) : bool :=
  match c with String a "" => is_digit a | _ => unicode_isdigit c end.
(** [s.isdigit()]. *)
Definition py_isdigit (s : string) : bool :=
  negb (String.eqb s "") && forallb char_isdigit (pychars s).

(** ** str() and repr() *)
Definition hex_pad (width : nat) (n : Z) : string :=
  string_of_list_ascii (map (fun i => hex_char (n / 16 ^ Z.of_nat i mod 16)) (rev (seq 0 width))).
(** The code point of a character, from its UTF-8 bytes. *)
Definition code_point (c : string) : Z :=
  match map code (list_ascii_of_string c) with
  | [a] => a
  | [a; b] => (a - 192) * 64 + (b - 128)
  | [a; b; d] => (a - 224) * 4096 + (b - 128) * 64 + (d - 128)
  | [a; b; d; e] => (a - 240) * 262144 + (b - 128) * 4096 + (d - 128) * 64 + (e - 128)
  | _ => 0
  end.
Definition repr_char (quote : Z) (c : string) : string :=
  let n := code_point c in
  if (n =? quote) || (n =? 92) then bytes [92] ++ c
  else if n =? 9 then bytes [92; 116]
  else if n =? 10 then bytes [92; 110]
  else if n =? 13 then bytes [92; 114]
  else if (n <? 32) || (n =? 127) then bytes [92; 120] ++ hex_pad 2 n
  else if (n <? 127) || unicode_isprintable c then c
  else if n <? 256 then bytes [92; 120] ++ hex_pad 2 n
  else if n <? 65536 then bytes [92; 117] ++ hex_pad 4 n
  else bytes [92; 85] ++ hex_pad 8 n.
Definition repr_str (s : string) : string :=
  let quote := if has_byte 39 s && negb (has_byte 34 s) then 34 else 39 in
  bytes [quote] ++ String.concat "" (map (repr_char quote) (pychars s)) ++ bytes [quote].

(** [str(n)]: CPython refuses more than 4300 digits. *)
Definition str_int (z : Z) : res string :=
  if int_max_str_digits <? byte_len (str_nat (Z.abs z))
  then Raise (ValueError "Exceeds the limit (4300 digits) for integer string conversion")
  else Ok (py_str_int z).
Definition repr_float (r : string) : string :=
  if String.eqb r "NaN" then "nan"
  else if String.eqb r "Infinity" then "inf"
  else if String.eqb r "-Infinity" then "-inf"
  else r.

Fixpoint py_repr (v : pyval) : res string :=
  match v with
  | PNone => Ok "None"
  | PBool true => Ok "True"
  | PBool false => Ok "False"
  | PInt z => str_int z
  | PFloat r => Ok (repr_float r)
  | PStr s => Ok (repr_str s)
  | PList l => items ← mapM_res py_repr l; Ok ("[" ++ String.concat ", " items ++ "]")
  | PDict d =>
      items ← mapM_res (fun kv => text ← py_repr kv.2; Ok (repr_str kv.1 ++ ": " ++ text)) d;
      Ok ("{" ++ String.concat ", " items ++ "}")
  end.
Definition py_str (v : pyval) : res string :=
  match v with PStr s => Ok s | _ => py_repr v end.
End Text.

(** [str.casefold] of text that is not ASCII. *)
Class CaseFold := unicode_casefold : string -> string.
Definition py_casefold `{CaseFold} (s : string) : string :=
  if all_bytes is_ascii s then map_bytes lower_ascii s else unicode_casefold s.
(** [hmac.compare_digest] of two [str]: only ASCII. *)
Definition compare_digest (a b : string) : res bool :=
  if all_bytes is_ascii a && all_bytes is_ascii b then Ok (String.eqb a b) else Raise TypeError.

(** [a or b]. *)
Definition py_or (a b : pyval) : pyval := if truthy a then a else b.
(** [v in (None, EMPTY)], EMPTY the empty string. *)
Definition blank (v : pyval) : bool :=
  match v with PNone => true | PStr s => String.eqb s "" | _ => false end.

(** ** base64.b64encode *)
Definition b64_char (n : Z) : ascii :=
  byte_of (if n <? 26 then 65 + n else if n <? 52 then 71 + n else if n <? 62 then n - 4
           else if n =? 62 then 43 else 47).
Fixpoint b64encode (s : string) : string :=
  match s with
  | "" => ""
  | String a "" =>
      let n := code a * 65536 in
      String (b64_char (n / 262144)) (String (b64_char (n / 4096 mod 64)) "==")
  | String a (String b "") =>
      let n := code a * 65536 + code b * 256 in
      String (b64_char (n / 262144)) (String (b64_char (n / 4096 mod 64))
        (String (b64_char (n / 64 mod 64)) "="))
  | String a (String b (String c r)) =>
      let n := code a * 65536 + code b * 256 + code c in
      String (b64_char (n / 262144)) (String (b64_char (n / 4096 mod 64))
        (String (b64_char (n / 64 mod 64)) (String (b64_char (n mod 64)) (b64encode r))))
  end.

(** ** Numbers *)
(** A binary64 value: [m * 2^e] with a sign, an infinity or NaN. *)
Inductive float64 := FNan | FInf (neg : bool) | FFin (neg : bool) (m e : Z).
(** The value a [repr] (or the text of a JSON number) denotes. *)
Definition float_value (r : string) : float64 :=
  if String.eqb r "NaN" then FNan
  else
    let '(neg, r) := match r with
      | String a t => if code a =? 45 then (true, t) else (false, r)
      | "" => (false, r)
      end in
    if String.eqb r "Infinity" then FInf neg
    else
      let '(int_part, r1) := take_digits r in
      let '(frac, r2) := take_fraction r1 in
      let '(exp, _) := take_exponent r2 in
      let fd := default "" frac in
      let m := digits_value (int_part ++ fd) in
      if m =? 0 then FFin neg 0 0
      else let '(num, den) := ratio10 m (default 0 exp - byte_len fd) in
           match round64 num den with Finite m e => FFin neg m e | Overflow => FInf neg end.

(** An [int] (or [bool]) or a [float], as [isinstance(v, int | float)] selects them. *)
Inductive number := NInt (z : Z) | NFloat (f : float64).
Definition as_number (v : pyval) : option number :=
  match v with
  | PBool b => Some (NInt (if b then 1 else 0))
  | PInt z => Some (NInt z)
  | PFloat r => Some (NFloat (float_value r))
  | _ => None
  end.

(** The exact value as a fraction with a positive denominator. *)
Definition signed (neg : bool) (n : Z) : Z := if neg then - n else n.
Definition ratio (neg : bool) (m e : Z) : Z * Z :=
  let '(n, d) := ratio2 m e in (signed neg n, d).
(** [x <= bound] and [bound <= x], and the strict orders, for an integer [bound]:
    comparisons of [int] and [float] are exact; NaN satisfies none. *)
Definition number_cmp (x : number) (bound : Z) : option comparison :=
  match x with
  | NInt z => Some (z ?= bound)
  | NFloat FNan => None
  | NFloat (FInf neg) => Some (if neg then Lt else Gt)
  | NFloat (FFin neg m e) => let '(n, d) := ratio neg m e in Some (n ?= bound * d)
  end.
Definition num_le (x : number) (bound : Z) : bool :=
  match number_cmp x bound with Some (Lt | Eq) => true | _ => false end.
Definition num_ge (x : number) (bound : Z) : bool :=
  match number_cmp x bound with Some (Gt | Eq) => true | _ => false end.
Definition num_lt (x : number) (bound : Z) : bool :=
  match number_cmp x bound with Some Lt => true | _ => false end.
Definition num_gt (x : number) (bound : Z) : bool :=
  match number_cmp x bound with Some Gt => true | _ => false end.

(** [x / 1000] for a positive [x]: correctly rounded for an [int] and a [float]. *)
Definition div_1000 (x : number) : res number :=
  match x with
  | NInt z => match round64 z 1000 with
              | Finite m e => Ok (NFloat (FFin false m e))
              | Overflow => Raise OverflowError
              end
  | NFloat (FFin neg m e) =>
      let '(n, d) := ratio2 m e in
      match round64 n (1000 * d) with
      | Finite m e => Ok (NFloat (FFin neg m e))
      | Overflow => Raise OverflowError
      end
  | NFloat f => Ok (NFloat f)
  end.

(** ** float() *)
Section Float.
Context `{UnicodeData}.

(** Digits in which single underscores may separate digits. *)
Fixpoint without_underscores (after_digit : bool) (s : string) : option string :=
  match s with
  | "" => Some ""
  | String a r =>
      if code a =? 95 then
        match r with
        | String b _ => if after_digit && is_digit b then without_underscores false r else None
        | "" => None
        end
      else String a <$> without_underscores (is_digit a) r
  end.
(** A decimal literal: digits on at least one side of the point, an optional exponent. *)
Definition decimal_literal (neg : bool) (s : string) : option float64 :=
  let '(int_part, r1) := take_digits s in
  let '(fd, r2) := match r1 with
    | String a t => if code a =? 46 then take_digits t else ("", r1)
    | "" => ("", r1)
    end in
  let '(exp, r3) := take_exponent r2 in
  if String.eqb int_part "" && String.eqb fd "" then None
  else if negb (String.eqb r3 "") then None
  else
    let m := digits_value (int_part ++ fd) in
    if m =? 0 then Some (FFin neg 0 0)
    else let '(num, den) := ratio10 m (default 0 exp - byte_len fd) in
         match round64 num den with Finite m e => Some (FFin neg m e) | Overflow => Some (FInf neg) end.
(** [float(s)]. *)
Definition float_of_str (s : string) : option float64 :=
  let s := if all_bytes is_ascii s then s
           else String.concat "" (map (fun c => if all_bytes is_ascii c then c else unicode_decimal c) (pychars s)) in
  s ← without_underscores false (py_strip s);
  let '(neg, r) := match s with
    | String a t => if code a =? 45 then (true, t) else if code a =? 43 then (false, t) else (false, s)
    | "" => (false, s)
    end in
  let word := map_bytes lower_ascii r in
  if String.eqb word "inf" || String.eqb word "infinity" then Some (FInf neg)
  else if String.eqb word "nan" then Some FNan
  else decimal_literal neg r.
(** [float(v)] of a JSON value. *)
Definition py_float (v : pyval) : res float64 :=
  match v with
  | PBool b => Ok (FFin false (if b then 1 else 0) 0)
  | PInt z =>
      if z =? 0 then Ok (FFin false 0 0)
      else match round64 (Z.abs z) 1 with
           | Finite m e => Ok (FFin (z <? 0) m e)
           | Overflow => Raise OverflowError
           end
  | PFloat r => Ok (float_value r)
  | PStr s => match float_of_str s with
              | Some f => Ok f
              | None => Raise (ValueError "could not convert string to float")
              end
  | _ => Raise TypeError
  end.
Definition isfinite (f : float64) : bool := match f with FFin _ _ _ => true | _ => false end.
(** [int(s)]: decimal digits of other scripts are read as well. *)
Definition py_int (s : string) : option Z :=
  int_opt (if all_bytes is_ascii s then s
           else String.concat "" (map (fun c => if all_bytes is_ascii c then c else unicode_decimal c) (pychars s))).
(** [int(v)] of a JSON value. *)
Definition int_of (v : pyval) : res Z :=
  match v with
  | PBool b => Ok (if b then 1 else 0)
  | PInt z => Ok z
  | PFloat r =>
      match float_value r with
      | FFin neg m e => let '(n, d) := ratio2 m e in Ok (signed neg (n / d))
      | FInf _ => Raise OverflowError
      | FNan => Raise (ValueError "cannot convert float NaN to integer")
      end
  | PStr s => match py_int s with
              | Some z => Ok z
              | None => Raise (ValueError "invalid literal for int() with base 10")
              end
  | _ => Raise TypeError
  end.
End Float.

(** ** datetime.fromtimestamp(x, UTC), in microseconds since the epoch *)
(** Seconds and microseconds: the fraction of a float is scaled in binary64 and rounded
    half to even. *)
Definition split_seconds (x : number) : res (Z * Z) :=
  match x with
  | NInt z => Ok (z, 0)
  | NFloat FNan => Raise (ValueError "Invalid value NaN (not a number)")
  | NFloat (FInf _) => Raise OverflowError
  | NFloat (FFin neg m e) =>
      let '(n, d) := ratio2 m e in
      let us := match round64 (n mod d * 1000000) d with
        | Finite m e => let '(a, b) := ratio2 m e in div_round_even a b
        | Overflow => 0
        end in
      Ok (signed neg (n / d), signed neg us)
  end.
(** The C library's [gmtime] has an [int] for the year. *)
Definition gmtime_days : Z := days_from_civil (2 ^ 31 + 1900) 1 1.
Definition gmtime_min_days : Z := days_from_civil (1900 - 2 ^ 31) 1 1.
Definition fromtimestamp (x : number) : res Z :=
  '(s, us) ← split_seconds x;
  let t := s * 1000000 + us in
  let days := t / day_us in
  if (s <? - 2 ^ 63) || (2 ^ 63 <=? s) then Raise OverflowError
  else if (days <? gmtime_min_days) || (gmtime_days <=? days) then Raise OSError
  else if (t <? datetime_min) || (datetime_max <=? t) then Raise (ValueError "year is out of range")
  else Ok t.

(** ** json.dumps with the default [ensure_ascii] *)
(** What a code point becomes: itself, or one or two UTF-16 escapes. *)
Definition ascii_char (c : string) : string :=
  let n := code_point c in
  let escape u := bytes [92; 117] ++ hex_pad 4 u in
  if n <? 127 then c
  else if n <? 65536 then escape n
  else escape (55296 + (n - 65536) / 1024) ++ escape (56320 + (n - 65536) mod 1024).
(** Outside its strings JSON text is ASCII, so escaping the text escapes its strings. *)
Definition dumps_ascii (v : pyval) : string := String.concat "" (map ascii_char (pychars (dumps v))).

Example dumps_ascii_example :
  dumps_ascii (PStr (bytes [195; 169; 240; 159; 152; 128; 127])) =
  dquote ++ bytes [92; 117] ++ "00e9" ++ bytes [92; 117] ++ "d83d" ++ bytes [92; 117] ++ "de00" ++
  bytes [92; 117] ++ "007f" ++ dquote.
Proof. vm_compute. reflexivity. Qed.

(** ** Lemmas *)
Lemma startswith_refl (s : string) : startswith s s = true.
Proof. unfold startswith. induction s as [|a s IH]; simpl; [done|]. by destruct (Ascii.ascii_dec a a). Qed.

Lemma startswith_iff (p s : string) : startswith p s = true <-> exists r, s = p ++ r.
Proof.
  unfold startswith. revert s. induction p as [|a p IH]; intros s; cbn.
  - split; [intros _; by exists s|intros _; by destruct s].
  - destruct s as [|b s]; [split; [done|by intros (r & Hr)]|]. cbn.
    destruct (ascii_dec a b) as [->|Hne].
    + rewrite IH. split; intros (r & Hr); exists r; cbn in *; congruence.
    + split; [done|]. intros (r & [= -> _]). done.
Qed.
(** Two prefixes of one text are comparable. *)
Lemma prefix_cases (p q t u : string) : p ++ t = q ++ u -> (exists v, q = p ++ v) \/ (exists v, p = q ++ v).
Proof.
  revert q. induction p as [|a p IH]; intros q; [left; by exists q|].
  destruct q as [|b q]; [intros _; right; by exists (String a p)|].
  cbn. intros [= -> Heq]. destruct (IH q Heq) as [(v & ->)|(v & ->)]; [left|right]; by exists v.
Qed.
Lemma map_bytes_app (f : ascii -> ascii) (s t : string) : map_bytes f (s ++ t) = map_bytes f s ++ map_bytes f t.
Proof. induction s as [|a s IH]; [done|]. cbn. by rewrite IH. Qed.

Lemma insert_str_perm (x : string) (l : list string) : insert_str x l ≡ₚ x :: l.
Proof.
  induction l as [|y l IH]; simpl; [done|]. destruct (String.leb x y); [done|].
  rewrite IH. constructor.
Qed.
Lemma py_sorted_perm (l : list string) : py_sorted l ≡ₚ l.
Proof. induction l as [|x l IH]; simpl; [done|]. by rewrite insert_str_perm, IH. Qed.
Lemma py_sorted_In (x : string) (l : list string) : x ∈ py_sorted l <-> x ∈ l.
Proof. by rewrite py_sorted_perm. Qed.

Lemma index_of_Some (x : string) (l : list string) (i : nat) :
  index_of x l = Some i -> l !! i = Some x.
Proof.
  revert i. induction l as [|y l IH]; intros i E; simpl in E; [done|].
  destruct (String.eqb_spec x y) as [->|Hn]; [by simplify_eq|].
  destruct (index_of x l) as [j|]; simplify_eq/=. by apply IH.
Qed.
Lemma index_of_mem (x : string) (l : list string) :
  mem x l = match index_of x l with Some _ => true | None => false end.
Proof.
  unfold mem. induction l as [|y l IH]; simpl; [done|].
  destruct (String.eqb x y); [done|]. simpl. rewrite IH. by destruct (index_of x l).
Qed.

(** ** The printed forms are never empty *)
Lemma isoformat_nonempty (t : Z) : isoformat t <> "".
Proof.
  unfold isoformat. destruct (civil_from_days (t / day_us)) as [[y m] d].
  destruct (pad 4 y); discriminate.
Qed.
Lemma py_str_nonempty `{UnicodeData} (v : pyval) (s : string) :
  py_str v = Ok s -> as_number v = None -> v <> PStr "" -> s <> "".
Proof.
  intros E Hn Hv Hs. subst s. destruct v as [|[]|z|r|s|l|d]; simpl in E; try discriminate.
  - injection E as ->. done.
  - by res_inv.
  - by res_inv.
Qed.

(** A character database without non-ASCII characters, for examples. *)
Definition ascii_unicode : UnicodeData :=
  {| unicode_lower := fun s => s; unicode_isdigit := fun _ => false; unicode_isprintable := fun _ => true;
     unicode_decimal := fun s => s |}.
Definition ascii_fold : CaseFold := fun s => s.

(** ** Visible ASCII *)
Definition visible (a : ascii) : bool := (33 <=? code a) && (code a <=? 126).
Lemma visible_not_space (a : ascii) : visible a = true -> is_space (String a "") = false.
Proof.
  destruct a as [[] [] [] [] [] [] [] []]; vm_compute; congruence.
Qed.
Lemma drop_while_none {A} (p : A -> bool) (l : list A) : Forall (fun x => p x = false) l -> drop_while p l = l.
Proof. intros [|x r Hx Hr]; cbn; [done|]. by rewrite Hx. Qed.
Lemma strip_visible (s : string) : all_bytes visible s = true -> py_strip s = s.
Proof.
  intros Hs. assert (Forall (fun c => is_space c = false) (pychars s)) as Hf.
  { rewrite pychars_ascii.
    - apply Forall_forall. intros c Hc. apply list_elem_of_In, in_map_iff in Hc as (a & <- & Ha).
      apply visible_not_space. rewrite all_bytes_string, forallb_forall in Hs. by apply Hs.
    - eapply all_bytes_impl; [|exact Hs]. unfold visible, is_ascii. lia. }
  unfold py_strip, strip_chars. rewrite (drop_while_none is_space (pychars s)) by done.
  rewrite drop_while_none by by apply Forall_rev. by rewrite rev_involutive, concat_pychars.
Qed.
