(* ===== verification/Wire.v ===== *)
(** JSON as it travels through Kafka: [json.dumps] with its default separators and
    [ensure_ascii], and its round trip with [json.loads]. *)

From S2P Require Import Prelude PyValue Regex Json PyTime PyText.
#[local] Open Scope list_scope.
#[local] Open Scope string_scope.
#[local] Open Scope Z_scope.

(** ** json.dumps(value) *)
Definition wire_char (c : string) : string :=
  if code_point c <? 127 then match c with String a _ => esc_byte a | "" => "" end else ascii_char c.
Definition wire_string (s : string) : string :=
  dquote ++ String.concat "" (map wire_char (pychars s)) ++ dquote.
Fixpoint wire (v : pyval) : string :=
  match v with
  | PStr s => wire_string s
  | PList l => "[" ++ String.concat ", " (map wire l) ++ "]"
  | PDict d => "{" ++ String.concat ", " (map (fun '(k, x) => wire_string k ++ ": " ++ wire x) d) ++ "}"
  | _ => dumps v
  end.

Example wire_example :
  wire (PDict [("a", PList [PInt 1; PStr (bytes [195; 169])])]) =
  "{" ++ dquote ++ "a" ++ dquote ++ ": [1, " ++ dquote ++ bytes [92; 117] ++ "00e9" ++ dquote ++ "]}".
Proof. vm_compute. reflexivity. Qed.

(** ** The characters of well-formed UTF-8 *)
Definition scalar (cp : Z) : Prop := 0 <= cp < 1114112 /\ ~ (55296 <= cp <= 57343).

Lemma code_point_utf8 (cp : Z) : 0 <= cp < 1114112 -> code_point (utf8_char cp) = cp.
Proof.
  intros H. unfold utf8_char.
  destruct (Z.ltb_spec cp 128); [|destruct (Z.ltb_spec cp 2048); [|destruct (Z.ltb_spec cp 65536)]];
    unfold code_point; rewrite list_ascii_bytes; cbn [map];
    rewrite !code_byte_of by (Z.to_euclidean_division_equations; lia);
    Z.to_euclidean_division_equations; lia.
Qed.

Lemma utf8_char_ok (cp : Z) : 0 <= cp < 1114112 -> char_ok (utf8_char cp).
Proof.
  intros H. unfold char_ok, utf8_char.
  assert (C : forall x, 128 <= x < 192 -> is_cont (byte_of x) = true).
  { intros x Hx. unfold is_cont. rewrite code_byte_of by lia. lia. }
  destruct (Z.ltb_spec cp 128); [|destruct (Z.ltb_spec cp 2048); [|destruct (Z.ltb_spec cp 65536)]];
    eexists _, _; (split; [reflexivity|]); cbn [map string_of_list_ascii list_ascii_of_string forallb];
    rewrite ?C by (Z.to_euclidean_division_equations; lia); reflexivity.
Qed.

Definition noncont_head (s : string) : Prop := match s with "" => True | String a _ => is_cont a = false end.
Lemma pychars_app_char (c r : string) : char_ok c -> noncont_head r -> pychars (c ++ r) = c :: pychars r.
Proof.
  intros (a & conts & -> & Hc) Hr. revert a. induction conts as [|b conts IH]; intros a.
  - cbn [String.append]. destruct r as [|b r]; [done|]. rewrite pychars_cons.
    destruct (pychars_head b r) as (c & cs & ->). simpl in Hr. by rewrite Hr.
  - cbn [String.append]. rewrite pychars_cons. simpl in Hc. apply andb_true_iff in Hc as [Hb Hc].
    specialize (IH Hc b). cbn [String.append] in IH. by rewrite IH, Hb.
Qed.

(** *** Slices of characters *)
(** Consecutive characters of a string. *)
Definition characters (l : list string) : Prop := Forall char_ok l /\ Forall noncont_head (tl l).
Lemma pychars_characters (s : string) : characters (pychars s).
Proof.
  split; [apply pychars_ok|]. induction s as [|a s IH]; [constructor|]. rewrite pychars_cons.
  destruct (pychars s) as [|[|b c] cs] eqn:E; [constructor| |].
  - destruct (pychars_nonempty s). rewrite E. apply list_elem_of_here.
  - destruct (is_cont b) eqn:Hb; cbn in *; [done|]. by constructor.
Qed.
Lemma characters_pychars (l : list string) : characters l -> pychars (String.concat "" l) = l.
Proof.
  induction l as [|c l IH]; [done|]. intros [[Hc Hl]%Forall_cons Ht]. cbn [tl] in Ht. rewrite concat_cons.
  assert (Forall noncont_head (tl l)) as Htl by (destruct l; [constructor|by apply Forall_cons in Ht as [_ Ht]]).
  rewrite pychars_app_char, IH by first [done | destruct l as [|d l]; [done|]; rewrite concat_cons;
    apply Forall_cons in Hl as [(x & r & -> & _) _]; apply Forall_cons in Ht as [Hd _]; exact Hd]. done.
Qed.
Lemma characters_app (l k : list string) : characters (l ++ k)%list -> characters l /\ characters k.
Proof.
  intros [Hc Ht]. apply Forall_app in Hc as [Hl Hk]. destruct l as [|x l]; [repeat split; [constructor|constructor|done|done]|].
  cbn [tl app] in Ht. apply Forall_app in Ht as [Htl Htk]. repeat split; try done. destruct k; [done|].
  by apply Forall_cons in Htk as [_ Htk].
Qed.
Lemma drop_while_idem {A} (p : A -> bool) (l : list A) : drop_while p (drop_while p l) = drop_while p l.
Proof. induction l as [|x l IH]; [done|]. cbn. destruct (p x) eqn:E; [done|]. cbn. by rewrite E. Qed.
(** Stripping twice is stripping once. *)
Lemma strip_chars_idem (p : string -> bool) (s : string) : strip_chars p (strip_chars p s) = strip_chars p s.
Proof.
  unfold strip_chars at 1. set (l := drop_while p (pychars s)). set (k := rev (drop_while p (rev l))).
  assert (strip_chars p s = String.concat "" k) as -> by reflexivity.
  destruct (drop_while_suffix p (pychars s)) as (u & Hu). destruct (drop_while_suffix p (rev l)) as (v & Hv).
  assert (l = (k ++ rev v)%list) as Hl by (unfold k; rewrite <- rev_app_distr, <- Hv; by rewrite rev_involutive).
  assert (characters k) as Hk.
  { pose proof (pychars_characters s) as Hs. rewrite Hu in Hs. apply characters_app in Hs as [_ Hs].
    fold l in Hs. rewrite Hl in Hs. by apply characters_app in Hs as [Hs _]. }
  rewrite (characters_pychars _ Hk).
  assert (drop_while p k = k) as ->.
  { destruct k as [|x k']; [done|]. cbn. assert (drop_while p l = l) as Hd by apply drop_while_idem.
    rewrite Hl in Hd. cbn in Hd. destruct (p x); [|done].
    exfalso. apply (f_equal length) in Hd. destruct (drop_while_suffix p (k' ++ rev v)%list) as (z & Hz).
    apply (f_equal length) in Hz. rewrite (length_app z) in Hz. cbn in Hd. lia. }
  f_equal. unfold k. by rewrite rev_involutive, drop_while_idem.
Qed.
Lemma py_strip_idem (s : string) : py_strip (py_strip s) = py_strip s.
Proof. apply strip_chars_idem. Qed.

Lemma utf8_valid_head (s : string) : utf8_valid s = true -> noncont_head s.
Proof.
  destruct s as [|a s]; [done|]. cbn [utf8_valid noncont_head]. intros K. unfold is_cont.
  repeat (case_match; try discriminate K); lia.
Qed.

Lemma cont_range (a : ascii) : is_cont a = true -> 128 <= code a < 192.
Proof. unfold is_cont. lia. Qed.
Lemma bytes_codes (l : list ascii) : bytes (map code l) = string_of_list_ascii l.
Proof.
  unfold bytes. rewrite map_map. f_equal. induction l as [|a l IH]; [done|]. simpl. by rewrite byte_of_code, IH.
Qed.

(** Well-formed UTF-8 starts with the encoding of a scalar value. *)
Lemma utf8_valid_uncons (s : string) :
  utf8_valid s = true -> s = "" \/
  exists cp r, s = (utf8_char cp ++ r)%string /\ scalar cp /\ utf8_valid r = true.
Proof.
  destruct s as [|a s]; [by left|]. intros K. right. cbn [utf8_valid] in K. pose proof (code_range a) as Ra.
  destruct (Z.ltb_spec (code a) 128) as [L|L].
  { exists (code a), s. unfold utf8_char, scalar. replace (code a <? 128) with true by lia.
    pose proof (bytes_codes [a]) as B. cbn [map] in B. rewrite B. split; [done|]. split; [lia|done]. }
  destruct ((194 <=? code a) && (code a <=? 223)) eqn:E2.
  { destruct s as [|b s]; [done|]. apply andb_true_iff in K as [Kb K]. apply cont_range in Kb.
    exists ((code a - 192) * 64 + (code b - 128)), s. set (cp := (code a - 192) * 64 + (code b - 128)).
    pose proof (bytes_codes [a; b]) as B. cbn [map] in B.
    assert (192 + cp / 64 = code a /\ 128 + cp mod 64 = code b) as [Ea Eb]
      by (subst cp; Z.to_euclidean_division_equations; lia).
    unfold utf8_char, scalar. replace (cp <? 128) with false by lia. replace (cp <? 2048) with true by lia.
    rewrite Ea, Eb, B. split; [done|]. split; [lia|done]. }
  destruct ((224 <=? code a) && (code a <=? 239)) eqn:E3.
  { destruct s as [|b [|d s]]; [done..|]. apply andb_true_iff in K as [K1 K]. apply andb_true_iff in K1 as [Kb Kd].
    apply cont_range in Kd. unfold cont_in in Kb.
    exists ((code a - 224) * 4096 + (code b - 128) * 64 + (code d - 128)), s.
    set (cp := (code a - 224) * 4096 + (code b - 128) * 64 + (code d - 128)).
    pose proof (bytes_codes [a; b; d]) as B. cbn [map] in B.
    assert (R : 128 <= code b <= 191 /\ 2048 <= cp < 65536 /\ ~ (55296 <= cp <= 57343)).
    { subst cp. destruct (code a =? 224) eqn:F1, (code a =? 237) eqn:F2; lia. }
    assert (224 + cp / 4096 = code a /\ 128 + cp / 64 mod 64 = code b /\ 128 + cp mod 64 = code d) as (Ea & Eb & Ed)
      by (subst cp; Z.to_euclidean_division_equations; lia).
    unfold utf8_char, scalar. replace (cp <? 128) with false by lia. replace (cp <? 2048) with false by lia.
    replace (cp <? 65536) with true by lia. rewrite Ea, Eb, Ed, B. split; [done|]. split; [lia|done]. }
  destruct ((240 <=? code a) && (code a <=? 244)) eqn:E4; [|done].
  destruct s as [|b [|d [|e s]]]; [done..|]. apply andb_true_iff in K as [K1 K].
  apply andb_true_iff in K1 as [K1 Ke]. apply andb_true_iff in K1 as [Kb Kd].
  apply cont_range in Kd, Ke. unfold cont_in in Kb.
  exists ((code a - 240) * 262144 + (code b - 128) * 4096 + (code d - 128) * 64 + (code e - 128)), s.
  set (cp := (code a - 240) * 262144 + (code b - 128) * 4096 + (code d - 128) * 64 + (code e - 128)).
  pose proof (bytes_codes [a; b; d; e]) as B. cbn [map] in B.
  assert (R : 128 <= code b <= 191 /\ 65536 <= cp < 1114112).
  { subst cp. destruct (code a =? 240) eqn:F1, (code a =? 244) eqn:F2; lia. }
  assert (240 + cp / 262144 = code a /\ 128 + cp / 4096 mod 64 = code b /\
          128 + cp / 64 mod 64 = code d /\ 128 + cp mod 64 = code e) as (Ea & Eb & Ed & Ee)
    by (subst cp; Z.to_euclidean_division_equations; lia).
  unfold utf8_char, scalar. replace (cp <? 128) with false by lia. replace (cp <? 2048) with false by lia.
  replace (cp <? 65536) with false by lia. rewrite Ea, Eb, Ed, Ee, B. split; [done|]. split; [lia|done].
Qed.

Lemma utf8_valid_chars (s : string) :
  utf8_valid s = true -> exists cps, Forall scalar cps /\ pychars s = map utf8_char cps.
Proof.
  remember (String.length s) as n eqn:En. revert s En. induction n as [n IH] using lt_wf_ind. intros s -> K.
  destruct (utf8_valid_uncons s K) as [->|(cp & r & -> & Hc & Kr)]; [by exists []|].
  pose proof (utf8_char_ok cp (proj1 Hc)) as Ok.
  destruct (IH (String.length r)) with (s := r) as (cps & F & E); [|done|done|].
  { rewrite append_length. destruct Ok as (a & conts & -> & _). simpl. lia. }
  exists (cp :: cps). split; [by constructor|]. cbn [map].
  rewrite pychars_app_char; [by rewrite E|done|by apply utf8_valid_head].
Qed.

(** ** Reading strings *)
Lemma hex4_pad (n : Z) (r : string) : 0 <= n < 65536 -> hex4 (hex_pad 4 n ++ r) = Some (n, r).
Proof.
  intros Hn. assert (V : forall x, 0 <= x < 16 -> hex_value (hex_char x) = Some x).
  { intros x Hx. unfold hex_char, hex_value. destruct (Z.ltb_spec x 10); rewrite code_byte_of by lia;
      [replace ((48 <=? 48 + x) && (48 + x <=? 57)) with true by lia; f_equal; lia|].
    replace ((48 <=? 87 + x) && (87 + x <=? 57)) with false by lia.
    replace ((97 <=? 87 + x) && (87 + x <=? 102)) with true by lia. f_equal. lia. }
  unfold hex_pad. cbn [seq rev app map string_of_list_ascii String.append hex4].
  rewrite !V by (apply Z.mod_pos_bound; lia). cbn [mbind option_bind]. do 2 f_equal.
  change (Z.of_nat 0) with 0. change (Z.of_nat 1) with 1. change (Z.of_nat 2) with 2. change (Z.of_nat 3) with 3.
  Z.to_euclidean_division_equations. lia.
Qed.

(** One escaped character is read back. *)
Lemma parse_wire_char (f : nat) (cp : Z) (r : string) :
  scalar cp ->
  parse_str (S f) (wire_char (utf8_char cp) ++ r) = ('(t, q) ← parse_str f r; Ok ((utf8_char cp ++ t)%string, q)).
Proof.
  intros [Hc Hs]. unfold wire_char. rewrite code_point_utf8 by done.
  destruct (Z.ltb_spec cp 127).
  { unfold utf8_char. replace (cp <? 128) with true by lia. unfold bytes. cbn [map string_of_list_ascii].
    rewrite parse_str_esc_byte. reflexivity. }
  unfold ascii_char. rewrite code_point_utf8 by done. cbv zeta. replace (cp <? 127) with false by lia.
  assert (Esc : forall u t, parse_str (S f) ((bytes [92; 117] ++ hex_pad 4 u) ++ t) =
    match unicode_escape (hex_pad 4 u ++ t) with
    | Some (ch, r2) => '(t, q) ← parse_str f r2; Ok ((ch ++ t)%string, q)
    | None => Raise JSONDecodeError
    end) by reflexivity.
  destruct (Z.ltb_spec cp 65536).
  - rewrite Esc. unfold unicode_escape. rewrite hex4_pad by lia. cbn [mbind option_bind].
    by replace ((55296 <=? cp) && (cp <=? 56319)) with false by lia.
  - rewrite <- append_assoc, Esc. unfold unicode_escape.
    set (hi := 55296 + (cp - 65536) / 1024). set (lo := 56320 + (cp - 65536) mod 1024).
    assert (B : 55296 <= hi <= 56319 /\ 56320 <= lo <= 57343 /\
                65536 + (hi - 55296) * 1024 + (lo - 56320) = cp)
      by (subst hi lo; Z.to_euclidean_division_equations; lia).
    rewrite hex4_pad by lia. cbn [mbind option_bind].
    replace ((55296 <=? hi) && (hi <=? 56319)) with true by lia.
    rewrite <- append_assoc. unfold bytes. cbn [map string_of_list_ascii String.append].
    change ((code (byte_of 92) =? 92) && (code (byte_of 117) =? 117)) with true. cbv iota.
    rewrite hex4_pad by lia. cbn [mbind option_bind].
    replace ((56320 <=? lo) && (lo <=? 57343)) with true by lia. by rewrite (proj2 (proj2 B)).
Qed.

Lemma parse_wire_chars (cps : list Z) (f : nat) (rest : string) :
  Forall scalar cps -> (length cps < f)%nat ->
  parse_str f (String.concat "" (map wire_char (map utf8_char cps)) ++ dquote ++ rest) =
  Ok (String.concat "" (map utf8_char cps), rest).
Proof.
  intros F. revert f. induction F as [|cp cps Hc F IH]; intros f Hf; (destruct f as [|f]; [simpl in Hf; lia|]).
  - reflexivity.
  - cbn [map]. rewrite !concat_cons, <- append_assoc, parse_wire_char by done.
    rewrite IH by (simpl in Hf; lia). reflexivity.
Qed.

Lemma wire_char_length (cp : Z) : scalar cp -> (1 <= String.length (wire_char (utf8_char cp)))%nat.
Proof.
  intros [Hc Hs]. unfold wire_char, ascii_char. rewrite code_point_utf8 by done. cbv zeta.
  destruct (Z.ltb_spec cp 127).
  { unfold utf8_char. replace (cp <? 128) with true by lia. unfold bytes. cbn [map string_of_list_ascii].
    unfold esc_byte. cbv zeta. repeat case_match; simpl; lia. }
  destruct (Z.ltb_spec cp 65536); simpl; lia.
Qed.

(** A string of well-formed UTF-8 is read back by the string scanner, whatever follows. *)
Lemma parse_wire_string (s rest : string) :
  utf8_valid s = true ->
  exists r, (wire_string s ++ rest)%string = String (byte_of 34) r /\
    parse_str (S (String.length r)) r = Ok (s, rest).
Proof.
  intros K. destruct (utf8_valid_chars s K) as (cps & F & E).
  exists (String.concat "" (map wire_char (pychars s)) ++ dquote ++ rest)%string. split.
  { unfold wire_string. rewrite <- !append_assoc. reflexivity. }
  rewrite E, parse_wire_chars; [by rewrite <- E, concat_pychars|done|].
  assert (L : (length cps <= String.length (String.concat "" (map wire_char (map utf8_char cps))))%nat).
  { clear E K. induction F as [|cp cps Hc F IH]; [simpl; lia|]. cbn [map]. rewrite concat_cons, append_length.
    pose proof (wire_char_length cp Hc). simpl length. lia. }
  rewrite append_length. lia.
Qed.

(** ** Reading values *)
(** What survives the wire: JSON values whose strings are well-formed UTF-8. *)
Inductive wire_ok : pyval -> Prop :=
| wire_none : wire_ok PNone
| wire_bool b : wire_ok (PBool b)
| wire_int z : byte_len (str_nat (Z.abs z)) <= int_max_str_digits -> wire_ok (PInt z)
| wire_float r : stable_float r -> all_bytes is_ascii r = true -> wire_ok (PFloat r)
| wire_str s : utf8_valid s = true -> wire_ok (PStr s)
| wire_list l : Forall wire_ok l -> wire_ok (PList l)
| wire_dict d : NoDup (keys d) -> Forall (fun kv => utf8_valid kv.1 = true /\ wire_ok kv.2) d -> wire_ok (PDict d).

Definition wire_roundtrip (v : pyval) : Prop :=
  forall fuel rest, (2 * String.length (wire v) <= fuel)%nat -> delim rest = true ->
    parse_value dict_hook fuel (wire v ++ rest) = Ok (v, rest).

Lemma parse_value_wire_string (fuel : nat) (s rest : string) :
  utf8_valid s = true -> parse_value dict_hook (S fuel) (wire_string s ++ rest) = Ok (PStr s, rest).
Proof.
  intros K. destruct (parse_wire_string s rest K) as (r & -> & Hr). cbn [parse_value].
  change (code (byte_of 34) =? 34) with true. cbv iota zeta. by rewrite Hr.
Qed.

Lemma wire_head (v : pyval) : wire_ok v -> head_ok (wire v).
Proof.
  intros K. destruct K; try (apply (dumps_head _); by constructor); eexists _, _; split; reflexivity || (split; [reflexivity|done]).
Qed.

Lemma concat_sep_cons (x : string) (l : list string) :
  String.concat ", " (x :: l) = match l with [] => x | _ => x ++ ", " ++ String.concat ", " l end.
Proof. by destruct l. Qed.
Lemma skip_space (s rest : string) : head_ok s -> skip_ws (" " ++ s ++ rest) = (s ++ rest)%string.
Proof. intros K. cbn [String.append skip_ws]. change (is_json_ws " ") with true. cbv iota. by apply head_ok_skip. Qed.

Lemma concat_head (l : list string) : Forall head_ok l -> l <> [] -> head_ok (String.concat ", " l).
Proof.
  intros F Hl. destruct F as [|x l (a & r & -> & Ha) F]; [done|]. rewrite concat_sep_cons.
  destruct l; [by exists a, r|]. eexists a, _. split; [reflexivity|done].
Qed.

Lemma parse_elems_wire (l : list pyval) (fuel : nat) (rest : string) :
  l <> [] -> Forall wire_ok l -> Forall wire_roundtrip l ->
  (2 * String.length (String.concat ", " (map wire l)) < fuel)%nat ->
  parse_elems dict_hook fuel (String.concat ", " (map wire l) ++ String "]" rest) = Ok (l, rest).
Proof.
  intros Hne Hok Hrt. revert fuel. induction l as [|v l IH]; [done|]; intros fuel Hf.
  inversion Hok as [|? ? Hv Hl]; subst. inversion Hrt as [|? ? Hrv Hrl]; subst.
  destruct fuel as [|f]; [lia|]. cbn [map] in Hf |- *. rewrite concat_sep_cons in Hf |- *.
  cbn [parse_elems]. destruct l as [|v' l].
  - cbn [map]. rewrite Hrv; [|cbn [map] in Hf; lia|done]. reflexivity.
  - remember (v' :: l) as l'. destruct (map wire l') as [|x xs] eqn:E; [by subst|].
    rewrite <- E in *. rewrite !append_length in Hf. change (String.length ", ") with 2%nat in Hf.
    rewrite <- !append_assoc. rewrite Hrv; [|lia|done]. cbn [mbind res_bind].
    change (", " ++ ?s)%string with (String "," (" " ++ s)). cbn [skip_ws].
    change (is_json_ws ",") with false. cbv iota.
    change (code "," =? 93) with false. change (code "," =? 44) with true. cbv iota.
    rewrite skip_space by (apply concat_head; [rewrite Forall_map; eapply Forall_impl; [exact Hl|apply wire_head]|by rewrite E]).
    rewrite IH; [done|by subst|done|done|lia].
Qed.

Definition wire_item (kv : string * pyval) : string := let '(k, x) := kv in wire_string k ++ ": " ++ wire x.
Lemma wire_item_head (kv : string * pyval) : head_ok (wire_item kv).
Proof. destruct kv. eexists _, _. split; [reflexivity|done]. Qed.

Lemma parse_members_wire (d : list (string * pyval)) (fuel : nat) (rest : string) :
  d <> [] -> Forall (fun kv => utf8_valid kv.1 = true /\ wire_ok kv.2) d ->
  Forall (fun kv => wire_roundtrip kv.2) d ->
  (2 * String.length (String.concat ", " (map wire_item d)) < fuel)%nat ->
  parse_members dict_hook fuel (String.concat ", " (map wire_item d) ++ String "}" rest) = Ok (d, rest).
Proof.
  intros Hne Hok Hrt. revert fuel. induction d as [|[k v] d IH]; [done|]; intros fuel Hf.
  inversion Hok as [|? ? [Hk Hv] Hl]; subst. inversion Hrt as [|? ? Hrv Hrl]; subst. cbn [fst snd] in Hk, Hv, Hrv.
  destruct fuel as [|f]; [lia|]. cbn [map wire_item] in Hf |- *. rewrite concat_sep_cons in Hf |- *.
  set (tail := match d with [] => String "}" rest
    | _ => (", " ++ String.concat ", " (map wire_item d) ++ String "}" rest)%string end).
  assert ((match map wire_item d with
    | [] => (wire_string k ++ ": " ++ wire v)%string
    | _ => ((wire_string k ++ ": " ++ wire v) ++ ", " ++ String.concat ", " (map wire_item d))%string
    end ++ String "}" rest = wire_string k ++ ": " ++ wire v ++ tail)%string) as ->.
  { subst tail. destruct d as [|kv d]; cbn [map]; by rewrite <- !append_assoc. }
  destruct (parse_wire_string k (": " ++ wire v ++ tail)%string Hk) as (r & -> & Hr).
  cbn [parse_members]. change (code (byte_of 34) =? 34) with true. cbv iota.
  rewrite Hr. cbn [mbind res_bind]. change (": " ++ ?s)%string with (String ":" (" " ++ s)). cbn [skip_ws].
  change (is_json_ws ":") with false. cbv iota. change (code ":" =? 58) with true. cbv iota.
  rewrite skip_space by (by apply wire_head).
  assert (2 * String.length (wire v) <= f)%nat as Hfv.
  { destruct (map wire_item d); rewrite !append_length in Hf; lia. }
  rewrite Hrv; [|done|subst tail; by destruct d]. cbn [mbind res_bind].
  subst tail. destruct d as [|kv d]; [done|]. remember (kv :: d) as d'.
  change (", " ++ ?s)%string with (String "," (" " ++ s)). cbn [skip_ws].
  change (is_json_ws ",") with false. cbv iota.
  change (code "," =? 125) with false. change (code "," =? 44) with true. cbv iota.
  destruct (map wire_item d') as [|x xs] eqn:E; [by subst|]. rewrite <- E in *.
  rewrite skip_space by (apply concat_head; [apply Forall_map, Forall_true, wire_item_head|by rewrite E]).
  rewrite IH; [done|by subst|done|done|].
  rewrite !append_length in Hf. change (String.length ", ") with 2%nat in Hf. lia.
Qed.

Lemma wire_roundtrip_all (v : pyval) : wire_ok v -> wire_roundtrip v.
Proof.
  induction v as [|b|z|r|s|l IH|d IH] using pyval_ind; intros Hok fuel rest Hf Hr.
  1-4: apply value_roundtrip_all; [inversion Hok; by constructor|done|done].
  - inversion Hok; subst. destruct fuel as [|f]; [simpl in Hf; lia|]. by apply parse_value_wire_string.
  - inversion Hok as [| | | | |? Hl|]; subst. cbn [wire] in Hf |- *. rewrite !append_length in Hf.
    simpl String.length in Hf. destruct fuel as [|f]; [lia|]. rewrite <- !append_assoc.
    cbn [String.append parse_value]. change (code "[" =? 34) with false. change (code "[" =? 91) with true.
    cbv iota zeta. destruct l as [|v l]; [reflexivity|].
    assert (Hh : head_ok (String.concat ", " (map wire (v :: l)))).
    { apply concat_head; [|done]. rewrite Forall_map. eapply Forall_impl; [exact Hl|apply wire_head]. }
    assert (He : parse_elems dict_hook f (String.concat ", " (map wire (v :: l)) ++ String "]" rest) = Ok (v :: l, rest)).
    { apply parse_elems_wire; [done|done| |lia].
      rewrite Forall_forall in IH, Hl |- *. intros x Hx. apply IH; [done|]. by apply Hl. }
    rewrite (head_ok_skip _ _ Hh). destruct Hh as (a & r & E & _ & Ha & _).
    rewrite E in He |- *. cbn [String.append] in He |- *.
    destruct (Z.eqb_spec (code a) 93); [done|]. by rewrite He.
  - inversion Hok as [| | | | | |? Hnd Hd]; subst. cbn [wire] in Hf |- *.
    change (fun '(k, x) => (wire_string k ++ ": " ++ wire x)%string) with wire_item in Hf |- *.
    rewrite !append_length in Hf. simpl String.length in Hf. destruct fuel as [|f]; [lia|].
    rewrite <- !append_assoc. cbn [String.append parse_value]. change (code "{" =? 34) with false.
    change (code "{" =? 91) with false. change (code "{" =? 123) with true. cbv iota zeta.
    destruct d as [|kv d]; [reflexivity|].
    assert (Hh : head_ok (String.concat ", " (map wire_item (kv :: d)))).
    { apply concat_head; [apply Forall_map, Forall_true, wire_item_head|done]. }
    assert (He : parse_members dict_hook f (String.concat ", " (map wire_item (kv :: d)) ++ String "}" rest)
                 = Ok (kv :: d, rest)).
    { apply parse_members_wire; [done|done| |lia].
      rewrite Forall_forall in IH, Hd |- *. intros x Hx. apply IH; [done|]. by apply Hd. }
    rewrite (head_ok_skip _ _ Hh). destruct Hh as (a & r & E & _ & _ & Ha).
    rewrite E in He |- *. cbn [String.append] in He |- *.
    destruct (Z.eqb_spec (code a) 125); [done|]. rewrite He. cbn [mbind res_bind].
    unfold dict_hook. by rewrite dict_of_pairs_NoDup.
Qed.

Lemma loads_wire (v : pyval) : wire_ok v -> loads (wire v) = Ok v.
Proof.
  intros K. unfold loads, loads_with. pose proof (wire_head v K) as Hh.
  pose proof (head_ok_skip (wire v) "" Hh) as S. rewrite append_nil_r in S. rewrite S.
  pose proof (wire_roundtrip_all v K (2 * String.length (wire v) + 2)%nat "" ltac:(lia) eq_refl) as R.
  rewrite append_nil_r in R. rewrite R. reflexivity.
Qed.

(** ** The text is ASCII *)
Lemma all_bytes_concat (p : ascii -> bool) (sep : string) (l : list string) :
  all_bytes p sep = true -> Forall (fun s => all_bytes p s = true) l -> all_bytes p (String.concat sep l) = true.
Proof.
  intros Hs F. induction F as [|x l Hx F IH]; [done|]. destruct l as [|y l]; [done|].
  change (String.concat sep (x :: y :: l)) with (x ++ sep ++ String.concat sep (y :: l))%string.
  by rewrite !all_bytes_app, Hx, Hs, IH.
Qed.
Lemma ascii_byte_of (x : Z) : 0 <= x < 128 -> is_ascii (byte_of x) = true.
Proof. intros H. unfold is_ascii. rewrite code_byte_of by lia. lia. Qed.
Lemma hex_pad_ascii (w : nat) (n : Z) : all_bytes is_ascii (hex_pad w n) = true.
Proof.
  unfold hex_pad. rewrite all_bytes_list. apply forallb_forall. intros a Ha. apply in_map_iff in Ha as (i & <- & _).
  unfold hex_char. pose proof (Z.mod_pos_bound (n / 16 ^ Z.of_nat i) 16 ltac:(lia)).
  destruct (Z.ltb_spec (n / 16 ^ Z.of_nat i mod 16) 10); apply ascii_byte_of; lia.
Qed.
Lemma esc_byte_ascii (a : ascii) : is_ascii a = true -> all_bytes is_ascii (esc_byte a) = true.
Proof. destruct a as [[] [] [] [] [] [] [] []]; intros K; first [discriminate K | reflexivity]. Qed.
Lemma wire_char_ascii (cp : Z) : scalar cp -> all_bytes is_ascii (wire_char (utf8_char cp)) = true.
Proof.
  intros [Hc _]. unfold wire_char, ascii_char. rewrite code_point_utf8 by done. cbv zeta.
  destruct (Z.ltb_spec cp 127).
  { unfold utf8_char. replace (cp <? 128) with true by lia. unfold bytes. cbn [map string_of_list_ascii].
    apply esc_byte_ascii, ascii_byte_of. lia. }
  destruct (Z.ltb_spec cp 65536); by rewrite ?all_bytes_app, !hex_pad_ascii.
Qed.
Lemma wire_string_ascii (s : string) : utf8_valid s = true -> all_bytes is_ascii (wire_string s) = true.
Proof.
  intros K. destruct (utf8_valid_chars s K) as (cps & F & E). unfold wire_string. rewrite E, !all_bytes_app.
  rewrite all_bytes_concat; [done|done|]. rewrite !Forall_map. eapply Forall_impl; [exact F|apply wire_char_ascii].
Qed.
Lemma all_digits_ascii (s : string) : all_digits s = true -> all_bytes is_ascii s = true.
Proof.
  induction s as [|a s IH]; [done|]. cbn [all_digits all_bytes]. rewrite !andb_true_iff. intros [Ha Hs].
  split; [|auto]. unfold is_digit in Ha. unfold is_ascii. lia.
Qed.
Lemma str_int_ascii (z : Z) : all_bytes is_ascii (py_str_int z) = true.
Proof.
  unfold py_str_int. destruct (Z.ltb_spec z 0); [rewrite all_bytes_app|];
    rewrite (all_digits_ascii (str_nat _)); try done; apply all_digits_str_nat; lia.
Qed.
Lemma wire_ascii (v : pyval) : wire_ok v -> all_bytes is_ascii (wire v) = true.
Proof.
  induction v as [|[]|z|r|s|l IH|d IH] using pyval_ind; intros K; try done.
  - apply str_int_ascii.
  - by inversion K.
  - inversion K. by apply wire_string_ascii.
  - inversion K as [| | | | |? Hl|]; subst. cbn [wire]. rewrite !all_bytes_app, all_bytes_concat; [done|done|].
    rewrite Forall_map. rewrite Forall_forall in IH, Hl |- *. auto.
  - inversion K as [| | | | | |? _ Hd]; subst. cbn [wire]. rewrite !all_bytes_app, all_bytes_concat; [done|done|].
    rewrite Forall_map. rewrite Forall_forall in IH, Hd |- *. intros [k x] Hx. destruct (Hd _ Hx) as [H1 H2].
    specialize (IH _ Hx H2). cbn [fst snd] in *. by rewrite !all_bytes_app, wire_string_ascii, IH.
Qed.
Lemma ascii_utf8_valid (s : string) : all_bytes is_ascii s = true -> utf8_valid s = true.
Proof.
  induction s as [|a s IH]; [done|]. cbn [all_bytes utf8_valid]. rewrite andb_true_iff. unfold is_ascii.
  intros [-> Hs]. auto.
Qed.

(** [json.loads(json.dumps(v).encode().decode())]. *)
Lemma decode_wire (v : pyval) : wire_ok v -> decode_utf8 (wire v) ≫= loads = Ok v.
Proof.
  intros K. unfold decode_utf8. rewrite ascii_utf8_valid by (by apply wire_ascii). by apply loads_wire.
Qed.

(** A decision procedure for values without floats. *)
Fixpoint wire_okb (v : pyval) : bool :=
  match v with
  | PNone | PBool _ => true
  | PInt z => byte_len (str_nat (Z.abs z)) <=? int_max_str_digits
  | PFloat _ => false
  | PStr s => utf8_valid s
  | PList l => forallb wire_okb l
  | PDict d => nodupb (keys d) && forallb (fun kv => utf8_valid kv.1 && wire_okb kv.2) d
  end.
Lemma wire_okb_ok (v : pyval) : wire_okb v = true -> wire_ok v.
Proof.
  induction v as [|b|z|r|s|l IH|d IH] using pyval_ind; simpl; intros K; try constructor; try done.
  - by apply Z.leb_le.
  - rewrite forallb_forall in K. rewrite Forall_forall in IH |- *. intros x Hx. apply IH; [done|].
    apply K. by apply list_elem_of_In.
  - apply andb_true_iff in K as [K _]. by apply nodupb_NoDup.
  - apply andb_true_iff in K as [_ K]. rewrite forallb_forall in K. rewrite Forall_forall in IH |- *.
    intros x Hx. specialize (K x (proj1 (list_elem_of_In _ _) Hx)). apply andb_true_iff in K as [K1 K2]. auto.
Qed.
