(* ===== verification/Events.v ===== *)
(** The contract of DEALIoT events (dealiot_contracts/events.py): the topics, the fields
    each topic requires and allows, [validate_event] and the dead-letter envelope. *)

From S2P Require Import Prelude PyValue Regex Json PyTime PyText.
#[local] Open Scope list_scope.
#[local] Open Scope string_scope.
#[local] Open Scope Z_scope.

Definition DLQ_TOPIC := "dlq.events".
Definition RAW_SENSOR_TOPIC := "raw.sensor".
Definition RAW_GPS_TOPIC := "raw.gps".
Definition RAW_IMAGE2D_META_TOPIC := "raw.image2d.meta".
Definition RAW_IMAGE3D_META_TOPIC := "raw.image3d.meta".
Definition RAW_VIDEO2D_META_TOPIC := "raw.video2d.meta".
Definition RAW_VIDEO3D_META_TOPIC := "raw.video3d.meta".

Definition LATITUDE_MIN := -90.
Definition LATITUDE_MAX := 90.
Definition LONGITUDE_MIN := -180.
Definition LONGITUDE_MAX := 180.
Definition HEADING_MIN := 0.
Definition HEADING_MAX := 360.
Definition EVENT_ID_LENGTH := 64.
Definition SEMANTIC_VERSION_PARTS := 3%nat.

Definition MEDIA_TOPICS : list string :=
  [RAW_IMAGE2D_META_TOPIC; RAW_IMAGE3D_META_TOPIC; RAW_VIDEO2D_META_TOPIC; RAW_VIDEO3D_META_TOPIC].

Definition media_required : list string :=
  ["device_id"; "timestamp"; "bucket"; "object_key"; "object_uri"; "format"].
Definition REQUIRED_FIELDS : list (string * list string) :=
  [(RAW_SENSOR_TOPIC, ["device_id"; "timestamp"; "payload"]);
   (RAW_GPS_TOPIC, ["device_id"; "timestamp"; "latitude"; "longitude"]);
   (RAW_IMAGE2D_META_TOPIC, media_required); (RAW_IMAGE3D_META_TOPIC, media_required);
   (RAW_VIDEO2D_META_TOPIC, media_required); (RAW_VIDEO3D_META_TOPIC, media_required)].

Definition MEDIA_ALLOWED_FIELDS : list (string * list string) :=
  [(RAW_IMAGE2D_META_TOPIC,
    ["bucket"; "camera_id"; "checksum"; "content_type"; "device_id"; "format"; "height";
     "ingested_at"; "event_id"; "occurred_at"; "schema_version"; "mqtt_topic"; "object_key";
     "object_uri"; "qos"; "retain"; "size_bytes"; "source"; "tags"; "timestamp"; "width"]);
   (RAW_IMAGE3D_META_TOPIC,
    ["bucket"; "capture_type"; "checksum"; "content_type"; "coordinate_frame"; "device_id";
     "format"; "ingested_at"; "event_id"; "occurred_at"; "schema_version"; "mqtt_topic";
     "object_key"; "object_uri"; "point_count"; "qos"; "retain"; "sensor_id"; "size_bytes";
     "source"; "tags"; "timestamp"]);
   (RAW_VIDEO2D_META_TOPIC,
    ["bucket"; "camera_id"; "checksum"; "codec"; "content_type"; "device_id"; "duration_ms";
     "format"; "frame_count"; "frame_rate"; "height"; "ingested_at"; "event_id";
     "occurred_at"; "schema_version"; "mqtt_topic"; "object_key"; "object_uri"; "qos";
     "retain"; "size_bytes"; "source"; "tags"; "timestamp"; "width"]);
   (RAW_VIDEO3D_META_TOPIC,
    ["bucket"; "checksum"; "codec"; "content_type"; "device_id"; "duration_ms"; "format";
     "frame_count"; "frame_rate"; "height"; "ingested_at"; "event_id"; "occurred_at";
     "schema_version"; "mqtt_topic"; "object_key"; "object_uri"; "qos"; "representation";
     "retain"; "rig_id"; "size_bytes"; "source"; "tags"; "timestamp"; "views"; "width"])].

Definition STRING_FIELDS : list string :=
  ["bucket"; "camera_id"; "capture_type"; "checksum"; "codec"; "content_type";
   "coordinate_frame"; "device_id"; "event_id"; "format"; "ingested_at"; "mqtt_topic";
   "object_key"; "object_uri"; "occurred_at"; "representation"; "rig_id"; "schema_version";
   "sensor_id"; "source"; "timestamp"].
Definition INTEGER_FIELDS : list string :=
  ["duration_ms"; "frame_count"; "height"; "point_count"; "qos"; "size_bytes"; "views"; "width"].
Definition NUMBER_FIELDS : list string :=
  ["altitude_m"; "frame_rate"; "heading_deg"; "latitude"; "longitude"; "speed_m_s"].

Definition event := list (string * pyval).

(** [isinstance(v, int)]: a [bool] is an [int]. *)
Definition is_int (v : pyval) : bool := match v with PInt _ | PBool _ => true | _ => false end.
Definition is_bool (v : pyval) : bool := match v with PBool _ => true | _ => false end.
Definition is_number (v : pyval) : bool := if as_number v then true else false.
Definition is_none (v : pyval) : bool := match v with PNone => true | _ => false end.

(** [[msg] if cond else []], the form of every check. *)
Definition complain (cond : bool) (msg : string) : list string := if cond then [msg] else [].

(** [now_iso()]: [now] is the clock in microseconds. *)
Definition now_iso (now : Z) : string := isoformat now.

Section Events.
Context `{UnicodeData}.

Definition event_time (record : event) : res string :=
  match py_or (vget "timestamp" record) (vget "ingested_at" record) with
  | PNone => Ok ""
  | value => py_str value
  end.

Definition build_dlq_event (now : Z) (source intended_topic : string) (errors : list string)
  (raw_event : event) : res event :=
  device_id ← py_str (dget_or "device_id" (PStr "unknown") raw_event);
  Ok [("timestamp", PStr (now_iso now));
      ("source", PStr source);
      ("intended_topic", PStr intended_topic);
      ("source_topic", py_or (py_or (vget "source_topic" raw_event) (vget "mqtt_topic" raw_event))
                             (dget_or "object_uri" (PStr "") raw_event));
      ("device_id", PStr device_id);
      ("errors", PList (map PStr errors));
      ("raw_event", PDict raw_event)].

(** Errors for the fields of a set that are in the event, not [None] and of another type. *)
Definition type_errors (fields : list string) (ok : pyval -> bool) (kind : string) (e : event) : list string :=
  map (fun field => "field must be " ++ kind ++ ": " ++ field)
    (List.filter (fun field => negb (is_none (vget field e)) && negb (ok (vget field e)))
       (py_sorted (List.filter (fun field => has_key field e) fields))).

Definition _validate_types (e : event) : list string :=
  (type_errors STRING_FIELDS is_str "a string" e ++
   type_errors INTEGER_FIELDS is_int "an integer" e ++
   type_errors NUMBER_FIELDS is_number "numeric" e ++
   complain (has_key "payload" e && negb (is_dict (vget "payload" e))) "field must be an object: payload" ++
   complain (has_key "tags" e && negb (is_dict (vget "tags" e))) "field must be an object: tags" ++
   complain (has_key "retain" e && negb (is_bool (vget "retain" e))) "field must be a boolean: retain")%list.

(** [isinstance(v, int | float) and bad(v)]. *)
Definition number_fails (bad : number -> bool) (v : pyval) : bool :=
  match as_number v with Some x => bad x | None => false end.
Definition outside (low high : Z) (x : number) : bool := negb (num_ge x low && num_le x high).

Definition non_negative : list string :=
  ["duration_ms"; "frame_count"; "point_count"; "size_bytes"; "speed_m_s"].
Definition positive : list string := ["frame_rate"; "height"; "views"; "width"].

Definition _validate_ranges (e : event) : list string :=
  (complain (number_fails (outside LATITUDE_MIN LATITUDE_MAX) (vget "latitude" e))
     "latitude out of range: -90..90" ++
   complain (number_fails (outside LONGITUDE_MIN LONGITUDE_MAX) (vget "longitude" e))
     "longitude out of range: -180..180" ++
   complain (number_fails (outside HEADING_MIN HEADING_MAX) (vget "heading_deg" e))
     "heading_deg out of range: 0..360" ++
   map (fun field => field ++ " must be non-negative")%string
     (List.filter (fun field => number_fails (fun x => num_lt x 0) (vget field e)) non_negative) ++
   map (fun field => field ++ " must be positive")%string
     (List.filter (fun field => number_fails (fun x => num_le x 0) (vget field e)) positive))%list.

(** A character that is not one of 0123456789abcdef. *)
Definition not_hex (c : string) : bool :=
  match c with String a "" => negb (hex_lower a) | _ => true end.
Definition bad_event_id (v : pyval) : bool :=
  match v with
  | PNone => false
  | PStr s => negb (py_len s =? EVENT_ID_LENGTH) || existsb not_hex (pychars s)
  | _ => true
  end.
Definition bad_schema_version (v : pyval) : bool :=
  match v with
  | PNone => false
  | PStr s => negb (length (py_split "." s) =? SEMANTIC_VERSION_PARTS)%nat ||
              negb (forallb py_isdigit (py_split "." s))
  | _ => true
  end.
Definition _validate_envelope (e : event) : list string :=
  (complain (bad_event_id (vget "event_id" e))
     "event_id must be a 64-character hexadecimal SHA-256 digest" ++
   complain (bad_schema_version (vget "schema_version" e))
     "schema_version must use semantic version format")%list.

Definition missing (e : event) (field : string) : bool := negb (has_key field e) || blank (vget field e).

Definition validate_event (topic : string) (e : event) : list string :=
  match dget topic REQUIRED_FIELDS with
  | None => []
  | Some required =>
      (map (fun field => "missing required field: " ++ field)%string
         (List.filter (missing e) (py_sorted required)) ++
       (if mem topic MEDIA_TOPICS
        then map (fun field => "field not allowed by " ++ topic ++ ": " ++ field)%string
               (py_sorted (set_diff (keys e) (dget_or topic [] MEDIA_ALLOWED_FIELDS)))
        else []) ++
       _validate_types e ++ _validate_ranges e ++ _validate_envelope e)%list
  end.
End Events.
