(* ===== verification/EventsSpec.v ===== *)
(** What [validate_event] decides: an event is accepted exactly when it satisfies the
    declarative contract of its topic. *)

From S2P Require Import Prelude PyValue Regex Json PyTime PyText Events.
#[local] Open Scope list_scope.
#[local] Open Scope string_scope.
#[local] Open Scope Z_scope.

(** ** The contract, as propositions *)
(** [low <= x <= high] for a value that is a number; nothing for other values. *)
Definition in_range (low high : Z) (v : pyval) : Prop :=
  forall x, as_number v = Some x -> num_ge x low = true /\ num_le x high = true.
Definition at_least_zero (v : pyval) : Prop := forall x, as_number v = Some x -> num_lt x 0 = false.
Definition above_zero (v : pyval) : Prop := forall x, as_number v = Some x -> num_le x 0 = false.

Section Contract.
Context `{UnicodeData}.

Definition digest_shape (v : pyval) : Prop :=
  v = PNone \/ exists s, v = PStr s /\ String.length s = 64%nat /\ all_bytes hex_lower s = true.
Definition version_shape (v : pyval) : Prop :=
  v = PNone \/ exists s a b c, v = PStr s /\ py_split "." s = [a; b; c] /\
    py_isdigit a = true /\ py_isdigit b = true /\ py_isdigit c = true.

(** Of a member that is present. *)
Record member_ok (field : string) (v : pyval) : Prop := {
  ok_string : field ∈ STRING_FIELDS -> v = PNone \/ is_str v = true;
  ok_integer : field ∈ INTEGER_FIELDS -> v = PNone \/ is_int v = true;
  ok_numeric : field ∈ NUMBER_FIELDS -> v = PNone \/ is_number v = true;
  ok_object : field ∈ ["payload"; "tags"] -> is_dict v = true;
  ok_boolean : field = "retain" -> is_bool v = true;
  ok_latitude : field = "latitude" -> in_range LATITUDE_MIN LATITUDE_MAX v;
  ok_longitude : field = "longitude" -> in_range LONGITUDE_MIN LONGITUDE_MAX v;
  ok_heading : field = "heading_deg" -> in_range HEADING_MIN HEADING_MAX v;
  ok_non_negative : field ∈ non_negative -> at_least_zero v;
  ok_positive : field ∈ positive -> above_zero v;
  ok_event_id : field = "event_id" -> digest_shape v;
  ok_version : field = "schema_version" -> version_shape v;
}.

Record event_conforms (required : list string) (topic : string) (e : event) : Prop := {
  has_required : forall field, field ∈ required -> exists v, dget field e = Some v /\ blank v = false;
  only_allowed : topic ∈ MEDIA_TOPICS -> keys e ⊆ dget_or topic [] MEDIA_ALLOWED_FIELDS;
  members : forall field v, dget field e = Some v -> member_ok field v;
}.
End Contract.

(** ** Each check raises no complaint exactly when its clause holds *)
Lemma filter_nil {A} (f : A -> bool) (l : list A) :
  List.filter f l = [] <-> forall x, x ∈ l -> f x = false.
Proof.
  induction l as [|x l IH]; simpl; [split; [|done]; intros _ x Hx; inversion Hx|].
  destruct (f x) eqn:E.
  - split; [done|]. intros K. specialize (K x (list_elem_of_here _ _)). congruence.
  - rewrite IH. split.
    + intros K y [->|Hy]%elem_of_cons; auto.
    + intros K y Hy. apply K. by apply list_elem_of_further.
Qed.
Lemma map_nil {A B} (f : A -> B) (l : list A) : map f l = [] <-> l = [].
Proof. by destruct l. Qed.
Lemma complain_nil (c : bool) (m : string) : complain c m = [] <-> c = false.
Proof. by destruct c. Qed.
Lemma app_nil_iff {A} (l k : list A) : (l ++ k)%list = [] <-> l = [] /\ k = [].
Proof. split; [apply app_eq_nil | by intros [-> ->]]. Qed.

Lemma vget_cases (field : string) (e : event) :
  dget field e = None /\ vget field e = PNone \/ exists v, dget field e = Some v /\ vget field e = v.
Proof. unfold vget, dget_or. destruct (dget field e); eauto. Qed.
Lemma has_key_dget (field : string) (e : event) :
  has_key field e = match dget field e with Some _ => true | None => false end.
Proof. reflexivity. Qed.

(** A check of [vget field] that accepts [None] is a check of the member. *)
Lemma vget_member (P : pyval -> Prop) (field : string) (e : event) :
  P PNone -> P (vget field e) <-> (forall v, dget field e = Some v -> P v).
Proof.
  intros HN. destruct (vget_cases field e) as [(E & K)|(v & E & K)]; rewrite E, K; naive_solver.
Qed.

Lemma type_errors_nil (fields : list string) (ok : pyval -> bool) (kind : string) (e : event) :
  type_errors fields ok kind e = [] <->
  forall field v, dget field e = Some v -> field ∈ fields -> v = PNone \/ ok v = true.
Proof.
  unfold type_errors. rewrite map_nil, filter_nil. split.
  - intros K field v E Hf. specialize (K field).
    rewrite py_sorted_In, list_elem_of_In, filter_In, has_key_dget, E, <- list_elem_of_In in K.
    specialize (K (conj Hf eq_refl)). unfold vget, dget_or in K. rewrite E in K.
    destruct (ok v); [by right|]. left. by destruct v.
  - intros K field Hf. rewrite py_sorted_In, list_elem_of_In, filter_In, has_key_dget, <- list_elem_of_In in Hf.
    destruct Hf as [Hf Hk]. unfold vget, dget_or. destruct (dget field e) as [v|] eqn:E; [|done].
    destruct (K field v E Hf) as [-> | ->]; [done|]. by destruct (is_none v).
Qed.

Lemma number_fails_false (bad : number -> bool) (v : pyval) :
  number_fails bad v = false <-> forall x, as_number v = Some x -> bad x = false.
Proof. unfold number_fails. destruct (as_number v); naive_solver. Qed.
Lemma in_range_iff (low high : Z) (v : pyval) : number_fails (outside low high) v = false <-> in_range low high v.
Proof.
  rewrite number_fails_false. unfold in_range, outside.
  split; intros K x E; specialize (K x E); [|by destruct K as [-> ->]].
  apply negb_false_iff, andb_true_iff in K. done.
Qed.

Lemma hex_char_single (c : string) : not_hex c = false <-> exists a, c = String a "" /\ hex_lower a = true.
Proof.
  destruct c as [|a [|b r]]; simpl; try (split; [done|]; intros (? & [=] & _)).
  rewrite negb_false_iff. naive_solver.
Qed.
Lemma hex_digit_ascii (a : ascii) : hex_lower a = true -> is_ascii a = true.
Proof. intros K. apply lower_digit_ascii. by apply hex_lower_digit. Qed.

Lemma hex_chars (s : string) : existsb not_hex (pychars s) = false <-> all_bytes hex_lower s = true.
Proof.
  split; intros K.
  - rewrite <- (concat_pychars s).
    assert (F : Forall (fun c => not_hex c = false) (pychars s)).
    { clear -K. induction (pychars s) as [|c l IH]; simpl in K; [constructor|].
      apply orb_false_iff in K as [K1 K2]. constructor; auto. }
    clear K. induction F as [|c l Hc F IH]; [done|].
    rewrite concat_cons, all_bytes_app, IH, andb_true_r. apply hex_char_single in Hc as (a & -> & Ha).
    simpl. by rewrite Ha.
  - rewrite pychars_ascii by (eapply all_bytes_impl; [|exact K]; apply hex_digit_ascii).
    rewrite all_bytes_string in K. induction (list_ascii_of_string s) as [|a l IH]; [done|].
    simpl in *. apply andb_true_iff in K as [K1 K2]. rewrite K1. simpl. auto.
Qed.

Section Checks.
Context `{UnicodeData}.

Lemma bad_event_id_iff (v : pyval) : bad_event_id v = false <-> digest_shape v.
Proof.
  unfold digest_shape. destruct v as [| | | |s| |]; simpl; try (split; [done|]; intros [|(? & ? & _)]; congruence).
  { split; auto. }
  rewrite orb_false_iff, negb_false_iff, Z.eqb_eq, hex_chars. split.
  - intros [L K]. right. exists s. split; [done|]. split; [|done].
    rewrite py_len_ascii in L by (eapply all_bytes_impl; [|exact K]; apply hex_digit_ascii).
    unfold byte_len, EVENT_ID_LENGTH in L. lia.
  - intros [|(? & [= <-] & L & K)]; [done|]. split; [|done].
    rewrite py_len_ascii by (eapply all_bytes_impl; [|exact K]; apply hex_digit_ascii).
    unfold byte_len, EVENT_ID_LENGTH. lia.
Qed.

Lemma bad_version_iff (v : pyval) : bad_schema_version v = false <-> version_shape v.
Proof.
  unfold version_shape. destruct v as [| | | |s| |]; simpl;
    try (split; [done|]; intros [|(? & ? & ? & ? & ? & _)]; congruence).
  { split; auto. }
  rewrite orb_false_iff, !negb_false_iff, Nat.eqb_eq. unfold SEMANTIC_VERSION_PARTS. split.
  - intros [L K]. right. destruct (py_split "." s) as [|a [|b [|c [|]]]] eqn:E; try discriminate L.
    simpl in K. rewrite !andb_true_iff in K. exists s, a, b, c. intuition.
  - intros [|(? & a & b & c & [= <-] & E & Ka & Kb & Kc)]; [done|]. rewrite E. simpl. by rewrite Ka, Kb, Kc.
Qed.

Lemma required_nil (required : list string) (e : event) :
  List.filter (missing e) (py_sorted required) = [] <->
  forall field, field ∈ required -> exists v, dget field e = Some v /\ blank v = false.
Proof.
  rewrite filter_nil. unfold missing. split; intros K field Hf.
  - specialize (K field). rewrite py_sorted_In in K. specialize (K Hf).
    apply orb_false_iff in K as [K1 K2]. rewrite has_key_dget in K1. unfold vget, dget_or in K2.
    destruct (dget field e); [eauto|done].
  - rewrite py_sorted_In in Hf. destruct (K field Hf) as (v & E & Hb).
    rewrite has_key_dget. unfold vget, dget_or. by rewrite E.
Qed.

Lemma allowed_nil (topic : string) (e : event) (f : string -> string) :
  (if mem topic MEDIA_TOPICS
   then map f (py_sorted (set_diff (keys e) (dget_or topic [] MEDIA_ALLOWED_FIELDS))) else []) = [] <->
  (topic ∈ MEDIA_TOPICS -> keys e ⊆ dget_or topic [] MEDIA_ALLOWED_FIELDS).
Proof.
  rewrite <- mem_In. destruct (mem topic MEDIA_TOPICS); [|naive_solver].
  rewrite map_nil, <- set_diff_nil. split.
  - intros K _. apply Permutation_nil. rewrite <- (py_sorted_perm (set_diff _ _)), K. done.
  - intros K. by rewrite K by done.
Qed.

(** The presence test of [payload], [tags] and [retain]. *)
Lemma member_nil (field : string) (ok : pyval -> bool) (e : event) :
  has_key field e && negb (ok (vget field e)) = false <-> (forall v, dget field e = Some v -> ok v = true).
Proof.
  rewrite has_key_dget. unfold vget, dget_or. destruct (dget field e) as [v|]; [|naive_solver].
  rewrite andb_true_l, negb_false_iff. naive_solver.
Qed.

Lemma each_member (P : pyval -> Prop) (fields : list string) (e : event) :
  P PNone -> (forall field, field ∈ fields -> P (vget field e)) <->
  (forall field v, dget field e = Some v -> field ∈ fields -> P v).
Proof.
  intros HN. split.
  - intros K field v E Hf. exact (proj1 (vget_member P field e HN) (K field Hf) v E).
  - intros K field Hf. apply vget_member; [done|]. eauto.
Qed.
Lemma none_in_range (low high : Z) : in_range low high PNone. Proof. done. Qed.
Lemma none_fails (bad : number -> bool) : number_fails bad PNone = false. Proof. done. Qed.

(** An event is accepted by the check of its topic exactly when every required member
    is present and not blank, a media event has only the members its topic allows, and every
    member has the type, the range and the shape its name prescribes. *)
Theorem validate_event_iff (required : list string) (topic : string) (e : event) :
  dget topic REQUIRED_FIELDS = Some required ->
  validate_event topic e = [] <-> event_conforms required topic e.
Proof.
  intros Hr. unfold validate_event. rewrite Hr.
  unfold _validate_types, _validate_ranges, _validate_envelope.
  rewrite !app_nil_iff, !map_nil, !complain_nil, !type_errors_nil, required_nil, allowed_nil.
  rewrite !member_nil, !in_range_iff, !filter_nil, bad_event_id_iff, bad_version_iff.
  rewrite !(each_member (fun v => number_fails _ v = false)) by apply none_fails.
  rewrite !(vget_member (in_range _ _)) by apply none_in_range.
  rewrite (vget_member digest_shape) by (by left).
  rewrite (vget_member version_shape) by (by left).
  setoid_rewrite number_fails_false.
  split.
  - intros (K1 & K2 & (T1 & T2 & T3 & T4 & T5 & T6) & (R1 & R2 & R3 & R4 & R5) & E1 & E2).
    split; [done|done|]. intros field v E. split; intros Hf; try subst field; [eauto..].
    + apply list_elem_of_In in Hf. destruct Hf as [<-|[<-|[]]]; eauto.
    + unfold at_least_zero. eauto.
    + unfold above_zero. eauto.
  - intros [K1 K2 K3].
    split; [exact K1|]. split; [exact K2|]. split; [|split; [|split]].
    + split; [|split; [|split; [|split; [|split]]]].
      * intros field v E. exact (ok_string field v (K3 field v E)).
      * intros field v E. exact (ok_integer field v (K3 field v E)).
      * intros field v E. exact (ok_numeric field v (K3 field v E)).
      * intros v E. apply (ok_object "payload" v (K3 _ v E)). set_solver.
      * intros v E. apply (ok_object "tags" v (K3 _ v E)). set_solver.
      * intros v E. exact (ok_boolean "retain" v (K3 _ v E) eq_refl).
    + split; [|split; [|split; [|split]]].
      * intros v E. exact (ok_latitude "latitude" v (K3 _ v E) eq_refl).
      * intros v E. exact (ok_longitude "longitude" v (K3 _ v E) eq_refl).
      * intros v E. exact (ok_heading "heading_deg" v (K3 _ v E) eq_refl).
      * intros field v E. exact (ok_non_negative field v (K3 field v E)).
      * intros field v E. exact (ok_positive field v (K3 field v E)).
    + intros v E. exact (ok_event_id "event_id" v (K3 _ v E) eq_refl).
    + intros v E. exact (ok_version "schema_version" v (K3 _ v E) eq_refl).
Qed.
End Checks.

Lemma validate_event_iff_witness :
  @event_conforms ascii_unicode ["device_id"; "timestamp"; "latitude"; "longitude"] RAW_GPS_TOPIC
    [("device_id", PStr "wf-1"); ("timestamp", PStr "2026-01-01T00:00:00+00:00");
     ("latitude", PFloat "50.58"); ("longitude", PInt (-5)); ("heading_deg", PNone); ("retain", PBool false)].
Proof. apply (@validate_event_iff ascii_unicode _ RAW_GPS_TOPIC _ eq_refl). vm_compute. reflexivity. Defined.
