(* ===== verification/Bridge.v ===== *)
(** The MQTT to Kafka bridge of DEALIoT (mqtt-kafka-bridge/bridge.py): from an MQTT message
    to the Kafka record, and the loop that handles messages one at a time. *)

From S2P Require Import Prelude PyValue Regex Json PyTime PyText Wire Events.
#[local] Open Scope list_scope.
#[local] Open Scope string_scope.
#[local] Open Scope Z_scope.

Definition UNIX_MILLISECONDS_THRESHOLD := 10000000000.
Definition WILDFI_TOPIC_MARKERS : list string := ["wildfi"; "wild-fi"].
Definition WILDFI_TAG_MARKERS : list string := ["tags"; "tag"; "devices"].
Definition WILDFI_SENSOR_MARKERS : list string :=
  ["acc"; "accelerometer"; "bme"; "decoded"; "environment"; "gateway"; "imu"; "mag"; "metadata";
   "move"; "movement"; "prox"; "proximity"; "sensor"; "telemetry"].
Definition TOPIC_PATTERNS : list (string * list string) :=
  [(RAW_GPS_TOPIC, ["gps"; "/gnss/"; "rawgps"]);
   (RAW_VIDEO3D_META_TOPIC, ["video3d"; "/stereo-video/"; "/volumetric-video/"]);
   (RAW_VIDEO2D_META_TOPIC, ["video2d"; "/video/"; "/camera-stream/"]);
   (RAW_IMAGE2D_META_TOPIC, ["image2d"; "/camera/"; "/image/"]);
   (RAW_IMAGE3D_META_TOPIC, ["image3d"; "/lidar/"; "/pointcloud/"])].
Definition TRUTHY_VALUES : list string := ["1"; "true"; "yes"; "on"].

(** The process: its environment ([WILDFI_TOPIC_PREFIXES], [DEFAULT_KAFKA_TOPIC]) and the
    order in which it iterates over its two sets of markers, which CPython derives from the
    hash seed of the process. *)
Record process := {
  WILDFI_TOPIC_PREFIXES : list string;
  DEFAULT_KAFKA_TOPIC : string;
  tag_order : list string;
  wildfi_order : list string;
}.

(** paho's [MQTTMessage]; the payload is a list of bytes. *)
Record message := { topic : string; payload : string; qos : Z; retain : bool }.
Record sent := { sent_topic : string; sent_key : string; sent_value : event }.

Section Env.
Context `{UnicodeData} (env : string -> option string).

Definition csv_items (value : string) : list string :=
  List.filter (fun item => negb (String.eqb item "")) (map py_strip (py_split "," value)).
Definition csv_env_or_default (name default_ : string) : list string :=
  match csv_items (default default_ (env name)) with
  | [] => csv_items default_
  | topics => topics
  end.
Definition bool_env (name : string) (default_ : bool) : bool :=
  match env name with
  | None => default_
  | Some value => mem (py_lower (py_strip value)) TRUTHY_VALUES
  end.
End Env.

Section Bridge.
Context `{UnicodeData} (p : process).

(** The set [WILDFI_TOPIC_MARKERS | {prefix.lower() for prefix in WILDFI_TOPIC_PREFIXES}]. *)
Definition wildfi_markers : list string := WILDFI_TOPIC_MARKERS ++ map py_lower (WILDFI_TOPIC_PREFIXES p).

(** An iteration order lists the elements of the set, once each. *)
Definition orders_ok : Prop :=
  tag_order p ≡ₚ WILDFI_TAG_MARKERS /\ NoDup (wildfi_order p) /\
  forall m, m ∈ wildfi_order p <-> m ∈ wildfi_markers.

Definition decode_payload (payload : string) : res pyval :=
  match decode_utf8 payload ≫= loads with
  | Raise (UnicodeDecodeError | JSONDecodeError) => Ok (PDict [("payload_b64", PStr (b64encode payload))])
  | r => r
  end.

Definition topic_parts (topic : string) : list string :=
  List.filter (fun part => negb (String.eqb part "")) (py_split "/" topic).

Definition is_wildfi_topic (topic : string) : bool :=
  existsb (fun part => mem part wildfi_markers) (map py_lower (topic_parts topic)).

Definition normalized_timestamp (value : pyval) (fallback : string) : res string :=
  if blank value then Ok fallback
  else match as_number value with
       | Some x =>
           seconds ← (if num_gt x UNIX_MILLISECONDS_THRESHOLD then div_1000 x else Ok x);
           t ← fromtimestamp seconds;
           Ok (isoformat t)
       | None => py_str value
       end.

Definition timestamp_fields : list string := ["timestamp"; "utcTimestamp"; "utc_timestamp"; "time"].
Definition pick_event_timestamp (decoded : pyval) (fallback : string) : res string :=
  match decoded with
  | PDict d =>
      match List.find (fun field => has_key field d) timestamp_fields with
      | Some field => normalized_timestamp (vget field d) fallback
      | None => Ok fallback
      end
  | _ => Ok fallback
  end.

Definition pick_kafka_topic (topic : string) : string :=
  let lowered := py_lower topic in
  match List.find (fun kp => existsb (fun pattern => contains pattern lowered) kp.2) TOPIC_PATTERNS with
  | Some kp => kp.1
  | None =>
      if contains "sensor" lowered ||
         (is_wildfi_topic topic && existsb (fun marker => contains marker lowered) WILDFI_SENSOR_MARKERS)
      then RAW_SENSOR_TOPIC
      else DEFAULT_KAFKA_TOPIC p
  end.

(** The body of each loop of [derive_device_id]: the value returned for one marker. *)
Definition after_tag (parts lowered_parts : list string) (marker : string) : option string :=
  idx ← index_of marker lowered_parts; parts !! S idx.
Definition after_wildfi (parts lowered_parts : list string) (marker : string) : option string :=
  idx ← index_of marker lowered_parts;
  match parts !! S idx, lowered_parts !! S idx with
  | Some part, Some lowered => if mem lowered WILDFI_SENSOR_MARKERS then parts !! S (S idx) else Some part
  | _, _ => parts !! S (S idx)
  end.
Fixpoint first_some {A B} (f : A -> option B) (l : list A) : option B :=
  match l with [] => None | x :: l => match f x with Some y => Some y | None => first_some f l end end.

Definition derive_device_id (topic : string) : string :=
  let parts := topic_parts topic in
  let lowered_parts := map py_lower parts in
  match first_some (after_tag parts lowered_parts) (tag_order p) with
  | Some id => id
  | None =>
      match first_some (after_wildfi parts lowered_parts) (wildfi_order p) with
      | Some id => id
      | None => default "unknown" (last parts)
      end
  end.

(** [s.encode("utf-8", errors="ignore")]: lone surrogates are dropped. *)
Definition encode_ignore (s : string) : string :=
  String.concat "" (List.filter (fun c => negb (has_surrogate c)) (pychars s)).
Definition pick_key (topic : string) : string := encode_ignore (derive_device_id topic).

Definition event_source_for_topic (topic : string) : string :=
  if is_wildfi_topic topic then "wildfi-mqtt" else "mqtt-bridge".

(** [d.get(k, default)] over a chain of names. *)
Fixpoint get_chain (names : list string) (default_ : pyval) (d : event) : pyval :=
  match names with
  | [] => default_
  | k :: names => match dget k d with Some v => v | None => get_chain names default_ d end
  end.

Definition sensor_event (msg : message) (timestamp ingested_at : string) (decoded : pyval) : event :=
  [("device_id", PStr (derive_device_id (topic msg)));
   ("timestamp", PStr timestamp);
   ("ingested_at", PStr ingested_at);
   ("payload", match decoded with PDict _ => decoded | _ => PDict [("value", decoded)] end);
   ("mqtt_topic", PStr (topic msg));
   ("qos", PInt (qos msg));
   ("retain", PBool (retain msg));
   ("source", PStr (event_source_for_topic (topic msg)))].

Definition gps_event (msg : message) (timestamp ingested_at : string) (d : event) : event :=
  [("device_id", PStr (derive_device_id (topic msg)));
   ("timestamp", PStr timestamp);
   ("ingested_at", PStr ingested_at);
   ("latitude", get_chain ["latitude"; "latitude_deg"; "lat"] (PFloat "0.0") d);
   ("longitude", get_chain ["longitude"; "longitude_deg"; "lon"] (PFloat "0.0") d);
   ("altitude_m", get_chain ["altitude_m"; "altitude"] PNone d);
   ("speed_m_s", get_chain ["speed_m_s"; "speed"] PNone d);
   ("heading_deg", get_chain ["heading_deg"; "heading"] PNone d);
   ("mqtt_topic", PStr (topic msg));
   ("qos", PInt (qos msg));
   ("retain", PBool (retain msg));
   ("payload", PDict d);
   ("source", PStr (event_source_for_topic (topic msg)))].

Definition media_event (msg : message) (timestamp ingested_at : string) (d : event) : event :=
  fold_left (fun e kv => dset kv.1 kv.2 e)
    [("device_id", dget_or "device_id" (PStr (derive_device_id (topic msg))) d);
     ("timestamp", dget_or "timestamp" (PStr timestamp) d);
     ("ingested_at", PStr ingested_at);
     ("mqtt_topic", PStr (topic msg));
     ("qos", PInt (qos msg));
     ("retain", PBool (retain msg));
     ("source", PStr (event_source_for_topic (topic msg)))] d.

Definition as_object (decoded : pyval) : event := match decoded with PDict d => d | _ => [] end.

(** [now]: what [now_iso] reads. *)
Definition build_event (now : Z) (msg : message) : res (string * string * event) :=
  let kafka_topic := pick_kafka_topic (topic msg) in
  decoded ← decode_payload (payload msg);
  let ingested_at := now_iso now in
  timestamp ← pick_event_timestamp decoded ingested_at;
  e ← (if String.eqb kafka_topic RAW_SENSOR_TOPIC then Ok (sensor_event msg timestamp ingested_at decoded)
       else if String.eqb kafka_topic RAW_GPS_TOPIC then
         timestamp ← pick_event_timestamp (PDict (as_object decoded)) timestamp;
         Ok (gps_event msg timestamp ingested_at (as_object decoded))
       else Ok (media_event msg timestamp ingested_at (as_object decoded)));
  Ok (kafka_topic, pick_key (topic msg), e).

Definition route_event (now : Z) (kafka_topic : string) (e : event) : res (string * event) :=
  match validate_event kafka_topic e with
  | [] => Ok (kafka_topic, e)
  | errors => dlq ← build_dlq_event now "mqtt-bridge" kafka_topic errors e; Ok (DLQ_TOPIC, dlq)
  end.

(** The producer's [value_serializer]: [json.dumps(value).encode(UTF-8)], ASCII text. *)
Definition value_serializer (e : event) : string := wire (PDict e).

(** [on_message]: the record handed to [producer.send], with the two readings of the clock. *)
Definition on_message (now1 now2 : Z) (msg : message) : res sent :=
  '(kafka_topic, key, e) ← build_event now1 msg;
  '(send_topic, send_event) ← route_event now2 kafka_topic e;
  Ok {| sent_topic := send_topic; sent_key := key; sent_value := send_event |}.

(** [run_bridge] over the messages the broker delivers, with the clock at each.  paho
    re-raises what [on_message] raises out of [loop_forever]; [run_bridge] reconnects after
    an [OSError], and any other exception ends the process: [Raise] with the records sent
    so far. *)
Fixpoint run_bridge (msgs : list (Z * Z * message)) (out : list sent) : res unit * list sent :=
  match msgs with
  | [] => (Ok tt, out)
  | (now1, now2, msg) :: msgs =>
      match on_message now1 now2 msg with
      | Ok r => run_bridge msgs (out ++ [r])
      | Raise OSError => run_bridge msgs out
      | Raise e => (Raise e, out)
      end
  end.
End Bridge.
