(* ===== verification/BridgeSpec.v ===== *)
(** What the bridge guarantees of the records it sends, and where it fails. *)

From S2P Require Import Prelude PyValue Regex Json PyTime PyText Events EventsSpec Bridge.
#[local] Open Scope list_scope.
#[local] Open Scope string_scope.
#[local] Open Scope Z_scope.

Section Spec.
Context `{UnicodeData} (p : process).

(** ** One message *)
Lemma route_event_Ok (now : Z) (topic : string) (e : event) (t : string) (v : event) :
  route_event now topic e = Ok (t, v) ->
  validate_event topic e = [] /\ t = topic /\ v = e \/
  validate_event topic e <> [] /\ t = DLQ_TOPIC /\
  build_dlq_event now "mqtt-bridge" topic (validate_event topic e) e = Ok v.
Proof.
  unfold route_event. destruct (validate_event topic e) eqn:E; intros K; [left; by simplify_eq|].
  right. res_inv. by simplify_eq.
Qed.

Lemma build_dlq_fields (now : Z) (source topic : string) (errors : list string) (e dlq : event) :
  build_dlq_event now source topic errors e = Ok dlq ->
  vget "intended_topic" dlq = PStr topic /\ vget "errors" dlq = PList (map PStr errors) /\
  vget "raw_event" dlq = PDict e.
Proof. unfold build_dlq_event. intros K. res_inv. done. Qed.

Lemma on_message_Ok (now1 now2 : Z) (msg : message) (r : sent) :
  on_message p now1 now2 msg = Ok r ->
  exists topic e, build_event p now1 msg = Ok (topic, sent_key r, e) /\
    route_event now2 topic e = Ok (sent_topic r, sent_value r).
Proof.
  unfold on_message. intros K. apply bind_Ok in K as ([[topic key] e] & E & K).
  apply bind_Ok in K as ([t v] & R & K). simplify_eq/=. eauto.
Qed.

Lemma build_event_Ok (now : Z) (msg : message) (t key : string) (e : event) :
  build_event p now msg = Ok (t, key, e) ->
  t = pick_kafka_topic p (topic msg) /\ key = pick_key p (topic msg).
Proof.
  unfold build_event. intros K. apply bind_Ok in K as (decoded & _ & K).
  apply bind_Ok in K as (timestamp & _ & K). apply bind_Ok in K as (e' & _ & K). by simplify_eq.
Qed.

(** What may be sent for a message: a record that conforms to the contract of the topic the
    message belongs to, or a dead letter that carries the event, the topic it was meant for
    and the complaints. *)
Inductive sent_for (msg : message) (r : sent) : Prop :=
| sent_valid :
    sent_topic r = pick_kafka_topic p (topic msg) ->
    (forall required, dget (sent_topic r) REQUIRED_FIELDS = Some required ->
       event_conforms required (sent_topic r) (sent_value r)) ->
    sent_for msg r
| sent_dead now e :
    sent_topic r = DLQ_TOPIC ->
    build_event p now msg = Ok (pick_kafka_topic p (topic msg), sent_key r, e) ->
    validate_event (pick_kafka_topic p (topic msg)) e <> [] ->
    vget "intended_topic" (sent_value r) = PStr (pick_kafka_topic p (topic msg)) ->
    vget "errors" (sent_value r) = PList (map PStr (validate_event (pick_kafka_topic p (topic msg)) e)) ->
    vget "raw_event" (sent_value r) = PDict e ->
    sent_for msg r.

Lemma on_message_sent_for (now1 now2 : Z) (msg : message) (r : sent) :
  on_message p now1 now2 msg = Ok r -> sent_key r = pick_key p (topic msg) /\ sent_for msg r.
Proof.
  intros K. apply on_message_Ok in K as (t & e & B & R).
  destruct (build_event_Ok _ _ _ _ _ B) as [-> Hk]. split; [done|].
  apply route_event_Ok in R as [(V & Ht & Hv)|(V & Ht & D)].
  - apply sent_valid; [done|]. intros required Hr. rewrite Ht in Hr |- *. rewrite Hv.
    by apply validate_event_iff.
  - apply build_dlq_fields in D as (D1 & D2 & D3). eapply sent_dead; eauto.
Qed.

(** ** A stream of messages *)
Lemma run_bridge_app (msgs : list (Z * Z * message)) (out out' : list sent) (r : res unit) :
  run_bridge p msgs out = (r, out') -> exists new, out' = (out ++ new)%list.
Proof.
  revert out. induction msgs as [|[[n1 n2] msg] msgs IH]; intros out K; simpl in K.
  { simplify_eq. exists []. by rewrite app_nil_r. }
  destruct (on_message p n1 n2 msg) as [s|e]; [|destruct e; try (simplify_eq; exists []; by rewrite app_nil_r)].
  - apply IH in K as [new ->]. exists (s :: new). by rewrite <- app_assoc.
  - by apply IH in K.
Qed.

(** The messages that reach Kafka: those whose handling does not end in an [OSError]. *)
Definition delivered (m : Z * Z * message) : bool :=
  match on_message p m.1.1 m.1.2 m.2 with Ok _ => true | Raise _ => false end.

(** What a record of a run is: sent for one of its messages, one record for each. *)
Definition recorded (m : Z * Z * message) (r : sent) : Prop :=
  sent_key r = pick_key p (topic m.2) /\ sent_for m.2 r.
Lemma run_bridge_recorded (msgs : list (Z * Z * message)) (out0 out : list sent) :
  run_bridge p msgs out0 = (Ok tt, out) ->
  exists new, out = (out0 ++ new)%list /\ Forall2 recorded (List.filter delivered msgs) new.
Proof.
  revert out0. induction msgs as [|[[n1 n2] msg] rest IH]; intros out0 K; simpl in K.
  { simplify_eq. exists []. rewrite app_nil_r. by split; [|constructor]. }
  simpl. unfold delivered at 1. simpl. destruct (on_message p n1 n2 msg) as [s|e] eqn:E.
  - apply IH in K as (new & -> & F). exists (s :: new). rewrite <- app_assoc. split; [done|].
    constructor; [|done]. eapply on_message_sent_for. exact E.
  - destruct e; try discriminate K. by apply IH in K.
Qed.

(** While the bridge runs, every delivered message gives exactly one record, in order:
    under the key of its MQTT topic, either conforming to the contract of its Kafka topic or
    in the dead-letter topic with the event, the intended topic and the complaints. *)
Theorem bridge_sends_each_once (msgs : list (Z * Z * message)) (out : list sent) :
  run_bridge p msgs [] = (Ok tt, out) -> Forall2 recorded (List.filter delivered msgs) out.
Proof. intros K. by apply run_bridge_recorded in K as (new & -> & F). Qed.

(** ** Device identifiers *)
Lemma first_some_Some {A B} (f : A -> option B) (l : list A) (y : B) :
  first_some f l = Some y -> exists x, x ∈ l /\ f x = Some y.
Proof.
  induction l as [|x l IH]; simpl; [done|]. destruct (f x) eqn:E.
  - intros [= ->]. exists x. split; [apply list_elem_of_here|done].
  - intros K. destruct (IH K) as (z & Hz & Ez). exists z. split; [by apply list_elem_of_further|done].
Qed.
Lemma first_some_None {A B} (f : A -> option B) (l : list A) :
  first_some f l = None -> forall x, x ∈ l -> f x = None.
Proof.
  induction l as [|x l IH]; simpl; intros K y Hy; [inversion Hy|]. destruct (f x) eqn:E; [done|].
  apply elem_of_cons in Hy as [->|Hy]; auto.
Qed.

(** When all elements that give something give the same, the order does not matter. *)
Lemma first_some_order {A B} (f : A -> option B) (l k : list A) :
  (forall x, x ∈ l <-> x ∈ k) ->
  (forall x y a b, x ∈ l -> y ∈ l -> f x = Some a -> f y = Some b -> a = b) ->
  first_some f l = first_some f k.
Proof.
  intros S U. destruct (first_some f l) as [a|] eqn:L, (first_some f k) as [b|] eqn:K; [..|done].
  - apply first_some_Some in L as (x & Hx & Ex). apply first_some_Some in K as (y & Hy & Ey).
    f_equal. apply S in Hy. eauto.
  - apply first_some_Some in L as (x & Hx & Ex). apply S in Hx.
    pose proof (first_some_None _ _ K _ Hx). congruence.
  - apply first_some_Some in K as (y & Hy & Ey). apply S in Hy.
    pose proof (first_some_None _ _ L _ Hy). congruence.
Qed.

Lemma topic_part_nonempty (t part : string) : part ∈ topic_parts t -> part <> "".
Proof.
  unfold topic_parts. rewrite list_elem_of_In, filter_In. intros [_ K] ->. done.
Qed.
Lemma after_wildfi_part (parts lowered : list string) (m part : string) :
  after_wildfi parts lowered m = Some part -> part ∈ parts.
Proof.
  unfold after_wildfi. intros K. destruct (index_of m lowered) as [i|]; [|done].
  cbn [mbind option_bind] in K.
  destruct (parts !! S i) as [s1|] eqn:E1; [|by apply list_elem_of_lookup_2 in K].
  destruct (lowered !! S i) as [s0|] eqn:E2; [|by apply list_elem_of_lookup_2 in K].
  destruct (mem s0 _); [by apply list_elem_of_lookup_2 in K|]. simplify_eq.
  by apply list_elem_of_lookup_2 in E1.
Qed.
Lemma after_tag_part (parts lowered : list string) (m part : string) :
  after_tag parts lowered m = Some part -> part ∈ parts.
Proof.
  unfold after_tag. intros K. destruct (index_of m lowered) as [i|]; [|done]. simpl in K.
  by apply list_elem_of_lookup_2 in K.
Qed.
Lemma device_id_part (t : string) :
  derive_device_id p t ∈ topic_parts t \/ topic_parts t = [] /\ derive_device_id p t = "unknown".
Proof.
  unfold derive_device_id. destruct (first_some (after_tag _ _) _) as [x|] eqn:E1.
  { left. apply first_some_Some in E1 as (m & _ & E1). by eapply after_tag_part. }
  destruct (first_some (after_wildfi _ _) _) as [x|] eqn:E2.
  { left. apply first_some_Some in E2 as (m & _ & E2). by eapply after_wildfi_part. }
  destruct (topic_parts t) as [|x l] eqn:E; [by right|]. left.
  destruct (last (x :: l)) as [y|] eqn:L; [|by apply last_None in L].
  simpl. by apply last_Some_elem_of in L.
Qed.
Lemma device_id_nonempty (t : string) : derive_device_id p t <> "".
Proof. destruct (device_id_part t) as [K|[_ ->]]; [by eapply topic_part_nonempty|done]. Qed.

(** ** Timestamps *)
Lemma normalized_nonempty (v : pyval) (fallback s : string) :
  fallback <> "" -> normalized_timestamp v fallback = Ok s -> s <> "".
Proof.
  intros Hf K. unfold normalized_timestamp in K. destruct (blank v) eqn:B; [by simplify_eq|].
  destruct (as_number v) eqn:N.
  - res_inv. apply isoformat_nonempty.
  - eapply py_str_nonempty; [exact K|done|]. by intros ->.
Qed.
Lemma timestamp_nonempty (v : pyval) (fallback s : string) :
  fallback <> "" -> pick_event_timestamp v fallback = Ok s -> s <> "".
Proof.
  intros Hf K. destruct v as [| | | | | |d]; try (simpl in K; by simplify_eq).
  unfold pick_event_timestamp in K. destruct (List.find _ timestamp_fields).
  - by eapply normalized_nonempty.
  - by simplify_eq.
Qed.

(** ** Sensor messages *)
Lemma sensor_event_valid (msg : message) (ts ingested : string) (decoded : pyval) :
  ts <> "" -> validate_event RAW_SENSOR_TOPIC (sensor_event p msg ts ingested decoded) = [].
Proof.
  intros Hts. unfold sensor_event. pose proof (device_id_nonempty (topic msg)) as Hd.
  destruct (derive_device_id p (topic msg)) as [|a id]; [done|]. destruct ts as [|b ts]; [done|].
  destruct decoded; reflexivity.
Qed.

Definition sensor_payload (decoded : pyval) : pyval :=
  match decoded with PDict _ => decoded | _ => PDict [("value", decoded)] end.

(** A message on a sensor topic is never a dead letter: when it is handled at all, the
    record goes to raw.sensor, conforms to its contract and carries the decoded payload. *)
Theorem sensor_message_accepted (now1 now2 : Z) (msg : message) (r : sent) :
  pick_kafka_topic p (topic msg) = RAW_SENSOR_TOPIC ->
  on_message p now1 now2 msg = Ok r ->
  sent_topic r = RAW_SENSOR_TOPIC /\ validate_event RAW_SENSOR_TOPIC (sent_value r) = [] /\
  vget "device_id" (sent_value r) = PStr (derive_device_id p (topic msg)) /\
  exists decoded, decode_payload (payload msg) = Ok decoded /\
    vget "payload" (sent_value r) = sensor_payload decoded.
Proof.
  intros Ht K. apply on_message_Ok in K as (t & e & B & R).
  unfold build_event in B. rewrite Ht in B. change (String.eqb RAW_SENSOR_TOPIC RAW_SENSOR_TOPIC) with true in B.
  apply bind_Ok in B as (decoded & D & B). apply bind_Ok in B as (ts & T & B).
  apply bind_Ok in B as (e' & [= <-] & [= <- _ <-]).
  assert (V : validate_event RAW_SENSOR_TOPIC (sensor_event p msg ts (now_iso now1) decoded) = []).
  { apply sensor_event_valid. eapply timestamp_nonempty; [|exact T]. apply isoformat_nonempty. }
  unfold route_event in R. rewrite V in R. injection R as <- <-. split_and!; try done. eauto.
Qed.

(** ** GPS messages *)
Definition gps_names : list string :=
  ["latitude"; "latitude_deg"; "lat"; "longitude"; "longitude_deg"; "lon"; "altitude_m"; "altitude";
   "speed_m_s"; "speed"; "heading_deg"; "heading"].
Lemma get_chain_absent (names : list string) (v : pyval) (d : event) :
  (forall k, k ∈ names -> dget k d = None) -> get_chain names v d = v.
Proof.
  induction names as [|k names IH]; simpl; [done|]. intros K.
  rewrite (K k (list_elem_of_here _ _)). apply IH. intros k' Hk'. apply K. by apply list_elem_of_further.
Qed.
Lemma find_none_names (names : list string) (d : event) :
  (forall k, k ∈ names -> dget k d = None) -> List.find (fun field => has_key field d) names = None.
Proof.
  induction names as [|k names IH]; simpl; [done|]. intros K. unfold has_key at 1.
  rewrite (K k (list_elem_of_here _ _)). apply IH. intros k' Hk'. apply K. by apply list_elem_of_further.
Qed.
Lemma timestamp_absent (v : pyval) (fallback : string) :
  (forall k, k ∈ timestamp_fields -> dget k (as_object v) = None) ->
  pick_event_timestamp v fallback = Ok fallback.
Proof.
  intros K. destruct v; try done. simpl in K. unfold pick_event_timestamp.
  rewrite find_none_names; done.
Qed.

(** A message on a GPS topic whose payload has no coordinates (or is not a JSON object
    at all) is not refused: it is sent to raw.gps as a valid fix at latitude 0, longitude 0. *)
Theorem gps_without_coordinates (now1 now2 : Z) (msg : message) (decoded : pyval) :
  pick_kafka_topic p (topic msg) = RAW_GPS_TOPIC ->
  decode_payload (payload msg) = Ok decoded ->
  (forall k, k ∈ (timestamp_fields ++ gps_names)%list -> dget k (as_object decoded) = None) ->
  exists r, on_message p now1 now2 msg = Ok r /\ sent_topic r = RAW_GPS_TOPIC /\
    vget "latitude" (sent_value r) = PFloat "0.0" /\ vget "longitude" (sent_value r) = PFloat "0.0".
Proof.
  intros Ht D K.
  assert (T : forall v fallback, as_object v = as_object decoded -> pick_event_timestamp v fallback = Ok fallback).
  { intros v fallback Hv. apply timestamp_absent. rewrite Hv. intros k Hk. apply K. apply elem_of_app. by left. }
  assert (G : forall names v, names ⊆ gps_names -> get_chain names v (as_object decoded) = v).
  { intros names v Hn. apply get_chain_absent. intros k Hk. apply K. apply elem_of_app. right. by apply Hn. }
  assert (E : exists e, gps_event p msg (now_iso now1) (now_iso now1) (as_object decoded) = e /\
    validate_event RAW_GPS_TOPIC e = [] /\ vget "latitude" e = PFloat "0.0" /\ vget "longitude" e = PFloat "0.0").
  { eexists. split; [reflexivity|]. unfold gps_event. rewrite !G by (apply subsetb_spec; reflexivity).
    pose proof (device_id_nonempty (topic msg)) as Hd. destruct (derive_device_id p (topic msg)) as [|a id]; [done|].
    pose proof (isoformat_nonempty now1) as Hn. unfold now_iso. destruct (isoformat now1) as [|b ts]; [done|].
    split; [reflexivity|done]. }
  destruct E as (e & Ee & V & L1 & L2).
  exists {| sent_topic := RAW_GPS_TOPIC; sent_key := pick_key p (topic msg); sent_value := e |}.
  split; [|done]. unfold on_message, build_event. rewrite Ht, D.
  change (String.eqb RAW_GPS_TOPIC RAW_SENSOR_TOPIC) with false.
  change (String.eqb RAW_GPS_TOPIC RAW_GPS_TOPIC) with true.
  cbn [mbind res_bind]. rewrite T by done. cbn [mbind res_bind]. rewrite T by (by destruct decoded).
  cbn [mbind res_bind]. rewrite Ee. unfold route_event. rewrite V. reflexivity.
Qed.
End Spec.

(** ** The order of the sets *)
(** The markers of a set that occur in a topic. *)
Definition occurs `{UnicodeData} (t m : string) : Prop := m ∈ map py_lower (topic_parts t).

Section Order.
Context `{UnicodeData}.

Lemma index_of_occurs (t m : string) (i : nat) :
  index_of m (map py_lower (topic_parts t)) = Some i -> occurs t m.
Proof. intros E. apply index_of_Some in E. by eapply list_elem_of_lookup_2. Qed.
Lemma after_tag_occurs (t m part : string) :
  after_tag (topic_parts t) (map py_lower (topic_parts t)) m = Some part -> occurs t m.
Proof.
  unfold after_tag. destruct (index_of m _) eqn:E; [|done]. intros _. by eapply index_of_occurs.
Qed.
Lemma after_wildfi_occurs (t m part : string) :
  after_wildfi (topic_parts t) (map py_lower (topic_parts t)) m = Some part -> occurs t m.
Proof.
  unfold after_wildfi. destruct (index_of m _) eqn:E; [|done]. intros _. by eapply index_of_occurs.
Qed.

(** Two bridge processes with the same settings give a topic the same device id and the
    same partition key, whatever the hash seeds of their sets, when at most one of the tag
    markers and at most one of the WildFi markers occurs in the topic. *)
Theorem device_id_seed_independent (p q : process) (t : string) :
  WILDFI_TOPIC_PREFIXES p = WILDFI_TOPIC_PREFIXES q -> orders_ok p -> orders_ok q ->
  (forall m m', m ∈ WILDFI_TAG_MARKERS -> m' ∈ WILDFI_TAG_MARKERS -> occurs t m -> occurs t m' -> m = m') ->
  (forall m m', m ∈ wildfi_markers p -> m' ∈ wildfi_markers p -> occurs t m -> occurs t m' -> m = m') ->
  derive_device_id p t = derive_device_id q t /\ pick_key p t = pick_key q t.
Proof.
  intros Hs (P1 & _ & P2) (Q1 & _ & Q2) U1 U2.
  assert (E : derive_device_id p t = derive_device_id q t); [|unfold pick_key; by rewrite E].
  unfold derive_device_id.
  rewrite (first_some_order (after_tag _ _) (tag_order p) (tag_order q)).
  - destruct (first_some (after_tag _ _) (tag_order q)); [done|].
    rewrite (first_some_order (after_wildfi _ _) (wildfi_order p) (wildfi_order q)); [done|..].
    + intros m. rewrite P2, Q2. unfold wildfi_markers. by rewrite Hs.
    + intros m m' a b Hm Hm' Ea Eb. rewrite P2 in Hm, Hm'.
      assert (m = m') as <- by eauto using after_wildfi_occurs. congruence.
  - intros m. by rewrite P1, Q1.
  - intros m m' a b Hm Hm' Ea Eb. rewrite P1 in Hm, Hm'.
    assert (m = m') as <- by eauto using after_tag_occurs. congruence.
Qed.

(** With two markers the id, and so the Kafka partition of a device, depends on the seed. *)
Lemma device_id_seed_dependent :
  exists p q t, WILDFI_TOPIC_PREFIXES p = WILDFI_TOPIC_PREFIXES q /\ orders_ok p /\ orders_ok q /\
    derive_device_id p t <> derive_device_id q t.
Proof.
  exists {| WILDFI_TOPIC_PREFIXES := []; DEFAULT_KAFKA_TOPIC := RAW_SENSOR_TOPIC;
            tag_order := ["tags"; "tag"; "devices"]; wildfi_order := ["wildfi"; "wild-fi"] |},
         {| WILDFI_TOPIC_PREFIXES := []; DEFAULT_KAFKA_TOPIC := RAW_SENSOR_TOPIC;
            tag_order := ["devices"; "tags"; "tag"]; wildfi_order := ["wildfi"; "wild-fi"] |},
         "devices/gateway-1/tags/WF-001/acc".
  assert (ND : NoDup ["wildfi"; "wild-fi"]) by (apply nodupb_NoDup; reflexivity).
  split_and!; [done|..]; try (split; [|split; [exact ND|done]]); try done.
  - apply (Permutation_cons_append ["tags"; "tag"] "devices").
Qed.

(** ** Messages that stop the bridge *)
Lemma on_message_timestamp (p : process) (now1 now2 : Z) (msg : message) (decoded : pyval) (e : pyexn) :
  decode_payload (payload msg) = Ok decoded ->
  pick_event_timestamp decoded (now_iso now1) = Raise e ->
  on_message p now1 now2 msg = Raise e.
Proof. intros D T. unfold on_message, build_event. rewrite D. cbn [mbind res_bind]. by rewrite T. Qed.

(** The JSON text of [{"timestamp": n}]. *)
Definition timestamp_json (digits : string) : string :=
  "{" ++ dquote ++ "timestamp" ++ dquote ++ ":" ++ digits ++ "}".

(** One message whose timestamp counts microseconds, on any topic, ends the bridge
    process: the ValueError of [datetime.fromtimestamp] is not among the exceptions
    [run_bridge] recovers from, and no later message is handled. *)
Theorem microsecond_timestamp_stops_bridge (p : process) (now1 now2 : Z) (msg : message)
  (later : list (Z * Z * message)) (out : list sent) :
  payload msg = timestamp_json "1767225600000000" ->
  run_bridge p ((now1, now2, msg) :: later) out = (Raise (ValueError "year is out of range"), out).
Proof.
  intros Hp. cbn [run_bridge].
  rewrite (on_message_timestamp p now1 now2 msg (PDict [("timestamp", PInt 1767225600000000)])
             (ValueError "year is out of range")); [done|..].
  - rewrite Hp. vm_compute. reflexivity.
  - vm_compute. reflexivity.
Qed.
End Order.

(** ** Messages that are always handled *)
Lemma mapM_res_total {A B} (f : A -> res B) (l : list A) :
  Forall (fun x => exists y, f x = Ok y) l -> exists k, mapM_res f l = Ok k.
Proof.
  induction 1 as [|x l (y & E) _ (k & IH)]; simpl; [by eexists|]. rewrite E. simpl. rewrite IH. by eexists.
Qed.

(** The seconds of a timestamp that [datetime] can represent. *)
Definition plain_timestamp (v : pyval) : Prop :=
  as_number v = None \/ exists z, v = PInt z /\ -62135596800 <= z <= UNIX_MILLISECONDS_THRESHOLD.

Lemma fromtimestamp_seconds (z : Z) :
  -62135596800 <= z <= UNIX_MILLISECONDS_THRESHOLD -> fromtimestamp (NInt z) = Ok (z * 1000000).
Proof.
  unfold UNIX_MILLISECONDS_THRESHOLD. intros Hz. unfold fromtimestamp, split_seconds. cbn [mbind res_bind].
  assert (D : -719162 <= (z * 1000000 + 0) / day_us < 115742).
  { unfold day_us. split; [apply Z.div_le_lower_bound | apply Z.div_lt_upper_bound]; lia. }
  assert (G : gmtime_min_days < -719162 /\ 115742 < gmtime_days) by (vm_compute; done).
  replace ((z <? - 2 ^ 63) || (2 ^ 63 <=? z)) with false by lia.
  replace (((z * 1000000 + 0) / day_us <? gmtime_min_days) || (gmtime_days <=? (z * 1000000 + 0) / day_us))
    with false by lia.
  unfold datetime_min, datetime_max, day_us.
  replace ((z * 1000000 + 0 <? -719162 * (86400 * 1000000)) || (2932897 * (86400 * 1000000) <=? z * 1000000 + 0))
    with false by lia.
  f_equal. lia.
Qed.

Section Total.
Context `{UnicodeData}.

Lemma py_repr_total (v : pyval) : json_ok v -> exists s, py_repr v = Ok s.
Proof.
  induction v as [|[]|z|r|s|l IH|d IH] using pyval_ind; intros K; try (by eexists).
  - inversion K as [| |z' Hz| | | |]; subst. unfold py_repr, str_int.
    replace (int_max_str_digits <? byte_len (str_nat (Z.abs z))) with false by lia. by eexists.
  - inversion K as [| | | | |l' Hl|]; subst. destruct (mapM_res_total py_repr l) as (k & E).
    { clear K. induction Hl; inversion IH; subst; constructor; auto. }
    simpl. rewrite E. by eexists.
  - inversion K as [| | | | | |d' _ Hd]; subst.
    destruct (mapM_res_total (fun kv : string * pyval => text ← py_repr kv.2; Ok (repr_str kv.1 ++ ": " ++ text)%string) d)
      as (k & E).
    { clear K. induction Hd as [|kv d Hkv Hd IHd]; inversion IH as [|? ? Hx]; subst; constructor; auto.
      destruct (Hx Hkv) as (s & ->). by eexists. }
    simpl in E |- *. rewrite E. by eexists.
Qed.
Lemma py_str_total (v : pyval) : json_ok v -> exists s, py_str v = Ok s.
Proof. intros K. destruct v; try (by apply py_repr_total). by eexists. Qed.

Lemma normalized_total (v : pyval) (fallback : string) :
  json_ok v -> plain_timestamp v -> exists s, normalized_timestamp v fallback = Ok s.
Proof.
  intros J P. unfold normalized_timestamp. destruct (blank v); [by eexists|].
  destruct P as [->|(z & -> & Hz)]; [by apply py_str_total|].
  cbn [as_number]. replace (num_gt (NInt z) UNIX_MILLISECONDS_THRESHOLD) with false.
  - cbn [mbind res_bind]. rewrite fromtimestamp_seconds by done. by eexists.
  - unfold num_gt, number_cmp. by destruct (Z.compare_spec z UNIX_MILLISECONDS_THRESHOLD); try lia.
Qed.
Lemma timestamp_total (v : pyval) (fallback : string) :
  json_ok v -> (forall k, k ∈ timestamp_fields -> plain_timestamp (vget k (as_object v))) ->
  exists s, pick_event_timestamp v fallback = Ok s.
Proof.
  intros J P. destruct v as [| | | | | |d]; try (by eexists). unfold pick_event_timestamp.
  destruct (List.find _ timestamp_fields) as [k|] eqn:F; [|by eexists].
  apply find_some in F as [Hk F]. apply list_elem_of_In in Hk. apply normalized_total; [|by apply P].
  unfold vget, dget_or. destruct (dget k d) as [v|] eqn:E; [|constructor].
  by eapply json_ok_dget.
Qed.

Lemma media_device_id (p : process) (msg : message) (ts ingested : string) (d : event) :
  dget "device_id" (media_event p msg ts ingested d) =
  Some (dget_or "device_id" (PStr (derive_device_id p (topic msg))) d).
Proof. unfold media_event. cbn [fold_left fst snd]. by rewrite !dget_dset. Qed.

Lemma route_event_total (now : Z) (t : string) (e : event) :
  json_ok (dget_or "device_id" (PStr "unknown") e) -> exists r, route_event now t e = Ok r.
Proof.
  intros J. unfold route_event. destruct (validate_event t e); [by eexists|].
  unfold build_dlq_event. destruct (py_str_total _ J) as (text & ->). by eexists.
Qed.

(** The bridge handles every message whose payload is not JSON, or is JSON in which no
    timestamp member is a number outside the seconds of the years 1 to 2286: a record is
    sent, whatever the topic. *)
Theorem plain_message_handled (p : process) (now1 now2 : Z) (msg : message) (decoded : pyval) :
  decode_payload (payload msg) = Ok decoded -> json_ok decoded ->
  (forall k, k ∈ timestamp_fields -> plain_timestamp (vget k (as_object decoded))) ->
  exists r, on_message p now1 now2 msg = Ok r.
Proof.
  intros D J P.
  assert (O : json_ok (PDict (as_object decoded))).
  { destruct decoded; try done; simpl; apply ok_dict; constructor. }
  destruct (timestamp_total decoded (now_iso now1) J P) as (ts & T).
  destruct (timestamp_total (PDict (as_object decoded)) ts O P) as (ts' & T').
  assert (B : exists t key e, build_event p now1 msg = Ok (t, key, e) /\
    json_ok (dget_or "device_id" (PStr "unknown") e)).
  { unfold build_event. rewrite D. cbn [mbind res_bind]. rewrite T. cbn [mbind res_bind].
    destruct (String.eqb (pick_kafka_topic p (topic msg)) RAW_SENSOR_TOPIC).
    { do 3 eexists. split; [reflexivity|constructor]. }
    destruct (String.eqb (pick_kafka_topic p (topic msg)) RAW_GPS_TOPIC).
    { rewrite T'. do 3 eexists. split; [reflexivity|constructor]. }
    do 3 eexists. split; [reflexivity|]. unfold dget_or at 1. rewrite media_device_id.
    unfold dget_or. destruct (dget "device_id" (as_object decoded)) eqn:E; [|constructor].
    by eapply json_ok_dget. }
  destruct B as (t & key & e & B & Je). destruct (route_event_total now2 t e Je) as ([t' v] & R).
  unfold on_message. rewrite B. cbn [mbind res_bind]. rewrite R. by eexists.
Qed.
End Total.

(** ** Examples *)
Module Portal.
Definition bridge : process :=
  {| WILDFI_TOPIC_PREFIXES := ["wildfi"; "wild-fi"]; DEFAULT_KAFKA_TOPIC := RAW_SENSOR_TOPIC;
     tag_order := WILDFI_TAG_MARKERS; wildfi_order := WILDFI_TOPIC_MARKERS |}.
Definition imu : message :=
  {| topic := "wildfi/tags/WF-001/imu"; payload := timestamp_json "1767225600"; qos := 1; retain := false |}.
Definition fix_ : message :=
  {| topic := "wildfi/WF-002/gps"; payload := bytes [255; 1]; qos := 1; retain := true |}.
Definition broken : message :=
  {| topic := "wildfi/tags/WF-003/imu"; payload := timestamp_json "1767225600000000"; qos := 1; retain := false |}.
#[local] Existing Instance ascii_unicode.

Lemma imu_handled : decode_payload (payload imu) = Ok (PDict [("timestamp", PInt 1767225600)]).
Proof. vm_compute. reflexivity. Qed.

Lemma bridge_sends_each_once_witness :
  exists out, run_bridge bridge [(0, 0, imu); (1, 1, fix_)] [] = (Ok tt, out) /\
  Forall2 (recorded bridge) (List.filter (delivered bridge) [(0, 0, imu); (1, 1, fix_)]) out.
Proof.
  eexists. split; [vm_compute; reflexivity|].
  apply bridge_sends_each_once. vm_compute. reflexivity.
Defined.

Lemma sensor_message_accepted_witness :
  exists r, on_message bridge 0 0 imu = Ok r /\
  sent_topic r = RAW_SENSOR_TOPIC /\ validate_event RAW_SENSOR_TOPIC (sent_value r) = [] /\
  vget "device_id" (sent_value r) = PStr (derive_device_id bridge (topic imu)) /\
  exists decoded, decode_payload (payload imu) = Ok decoded /\
    vget "payload" (sent_value r) = sensor_payload decoded.
Proof.
  eexists. split; [vm_compute; reflexivity|].
  apply (sensor_message_accepted bridge 0 0 imu); vm_compute; reflexivity.
Defined.

Lemma gps_without_coordinates_witness :
  exists r, on_message bridge 0 0 fix_ = Ok r /\ sent_topic r = RAW_GPS_TOPIC /\
    vget "latitude" (sent_value r) = PFloat "0.0" /\ vget "longitude" (sent_value r) = PFloat "0.0".
Proof.
  apply (gps_without_coordinates bridge 0 0 fix_ (PDict [("payload_b64", PStr "/wE=")])).
  - vm_compute. reflexivity.
  - vm_compute. reflexivity.
  - intros k Hk. cbn [as_object dget]. destruct (String.eqb_spec k "payload_b64") as [->|]; [|done].
    apply mem_In in Hk. vm_compute in Hk. discriminate Hk.
Defined.

Definition seeded : process :=
  {| WILDFI_TOPIC_PREFIXES := ["wildfi"; "wild-fi"]; DEFAULT_KAFKA_TOPIC := RAW_SENSOR_TOPIC;
     tag_order := ["devices"; "tags"; "tag"]; wildfi_order := ["wild-fi"; "wildfi"] |}.
Lemma bridge_ok : orders_ok bridge.
Proof.
  split; [done|]. split; [apply nodupb_NoDup; reflexivity|]. intros m. split; apply subsetb_spec; reflexivity.
Qed.
Lemma seeded_ok : orders_ok seeded.
Proof.
  split; [apply (Permutation_cons_append ["tags"; "tag"] "devices")|].
  split; [apply nodupb_NoDup; reflexivity|]. intros m. split; apply subsetb_spec; reflexivity.
Qed.
(** Two markers of a list that occur are equal, when filtering leaves at most one. *)
Lemma at_most_one (l : list string) (t x : string) :
  subsetb (List.filter (fun m => mem m (map py_lower (topic_parts t))) l) [x] = true ->
  forall m m', m ∈ l -> m' ∈ l -> occurs t m -> occurs t m' -> m = m'.
Proof.
  intros S%subsetb_spec m m' Hm Hm' O O'.
  assert (G : forall y, y ∈ l -> occurs t y -> y = x).
  { intros y Hy Oy. apply list_elem_of_singleton, S, list_elem_of_In, filter_In.
    split; [by apply list_elem_of_In | by apply mem_In]. }
  rewrite (G m), (G m'); done.
Qed.
Lemma device_id_seed_independent_witness :
  derive_device_id bridge "wildfi/tags/WF-001/imu" = derive_device_id seeded "wildfi/tags/WF-001/imu" /\
  pick_key bridge "wildfi/tags/WF-001/imu" = pick_key seeded "wildfi/tags/WF-001/imu".
Proof.
  apply device_id_seed_independent.
  - reflexivity.
  - exact bridge_ok.
  - exact seeded_ok.
  - apply (at_most_one _ _ "tags"). vm_compute. reflexivity.
  - apply (at_most_one _ _ "wildfi"). vm_compute. reflexivity.
Defined.

Lemma microsecond_timestamp_stops_bridge_witness :
  run_bridge bridge [(0, 0, broken); (1, 1, imu)] [] = (Raise (ValueError "year is out of range"), []).
Proof. apply microsecond_timestamp_stops_bridge. reflexivity. Defined.

Lemma plain_message_handled_witness : exists r, on_message bridge 0 0 imu = Ok r.
Proof.
  apply (plain_message_handled bridge 0 0 imu _ imu_handled).
  - apply json_okb_ok. vm_compute. reflexivity.
  - intros k Hk. cbn [as_object]. unfold vget, dget_or. cbn [dget].
    destruct (String.eqb k "timestamp"); [|by left]. right. exists 1767225600.
    unfold UNIX_MILLISECONDS_THRESHOLD. split; [reflexivity|lia].
Defined.
End Portal.
