(* ===== verification/Ingest.v ===== *)
(** The ingestion of DEALIoT events by DEALData: the construction of rows from events
    (dealdata_common/models.py, GPSFix and DecodedSensorEvent), their idempotent persistence
    (dealdata_common/ingestion.py and the ingestion.py of the layers) and the Kafka consumer
    (dealdata_common/kafka.py). *)

From S2P Require Import Prelude PyValue Regex Sha256 Json PyTime PyText Events.
#[local] Open Scope list_scope.
#[local] Open Scope string_scope.
#[local] Open Scope Z_scope.

(** ** Validated data *)
(** What the fields of the serializers give: JSON values, aware datetimes (in UTC, the
    TIME_ZONE of the services; microseconds since the epoch) and UUIDs. *)
Inductive vval := VJson (v : pyval) | VTime (t : Z) | VUuid (text : string).
Definition attrs := list (string * vval).

Definition vnone : vval := VJson PNone.
Definition aget (k : string) (d : attrs) : vval := dget_or k vnone d.
Definition vtruthy (v : vval) : bool := match v with VJson v => truthy v | _ => true end.
Definition v_or (a b : vval) : vval := if vtruthy a then a else b.
(** [str] of an aware datetime: [isoformat] with a space. *)
Definition datetime_str (t : Z) : string :=
  let s := isoformat t in
  String.substring 0 10 s ++ " " ++ String.substring 11 (String.length s - 11) s.
Definition vstr `{UnicodeData} (v : vval) : res string :=
  match v with VJson v => py_str v | VTime t => Ok (datetime_str t) | VUuid u => Ok u end.

(** What the layers take from Django and the REST framework: the conversion by the declared
    fields of a serializer ([None]: errors), the field validators of a model, and
    [parse_datetime], naive values taken as UTC. *)
Class Framework := {
  gps_fields : event -> option attrs;
  sensor_fields : event -> option attrs;
  parse_datetime : string -> option Z;
}.

(** ** dealdata_common/models.py *)
Section Models.
Context `{UnicodeData} `{Framework}.

Definition must_be_datetime (field_name : string) : pyexn :=
  ValueError ("DEALIoT event field '" ++ field_name ++ "' must be an ISO datetime.").
Definition parse_event_datetime (value : vval) (field_name : string) : res Z :=
  match value with
  | VTime t => Ok t
  | VJson (PStr s) =>
      match parse_datetime s with Some t => Ok t | None => Raise (must_be_datetime field_name) end
  | _ => Raise (must_be_datetime field_name)
  end.
Definition parse_optional_event_datetime (value : vval) (field_name : string) : res (option Z) :=
  match value with
  | VJson PNone | VJson (PStr "") => Ok None
  | _ => Some <$> parse_event_datetime value field_name
  end.

(** [payload] is a JSON field: the value is a JSON value. *)
Definition payload_dict (value : vval) : event :=
  match value with
  | VJson (PDict d) => d
  | VJson v => if blank v then [] else [("value", v)]
  | _ => []
  end.

Definition present (v : vval) : bool := match v with VJson v => negb (blank v) | _ => true end.
Definition to_float (field_name : string) (value : vval) : res float64 :=
  let bad := ValueError ("DEALIoT event field '" ++ field_name ++ "' must be a number.") in
  parsed ← (match value with
            | VJson v => match py_float v with Raise (TypeError | ValueError _) => Raise bad | r => r end
            | _ => Raise bad
            end);
  _ ← raise_if (negb (isfinite parsed)) (ValueError ("DEALIoT event field '" ++ field_name ++ "' must be finite."));
  Ok parsed.
Fixpoint event_float (e : attrs) (payload : event) (field_names : list string) : res (option float64) :=
  match field_names with
  | [] => Ok None
  | field_name :: field_names =>
      let value := if present (aget field_name e) then aget field_name e else VJson (vget field_name payload) in
      if present value then Some <$> to_float field_name value
      else event_float e payload field_names
  end.
Definition required_float (e : attrs) (payload : event) (field_names : list string) : res float64 :=
  x ← event_float e payload field_names;
  match x with
  | Some x => Ok x
  | None => Raise (ValueError ("DEALIoT event must contain one of: " ++ String.concat ", " field_names ++ "."))
  end.

Definition metadata_fields : list string := ["qos"; "retain"; "partition"; "offset"; "key"].
Definition event_metadata (e : attrs) : attrs :=
  omap (fun field => pair field <$> dget field e) metadata_fields.

(** [json.dumps(event, sort_keys=True, separators, default=str)] and its digest. *)
Definition jsonable (v : vval) : pyval :=
  match v with VJson v => v | VTime t => PStr (datetime_str t) | VUuid u => PStr u end.
Definition stable_event_hash (e : attrs) : string :=
  sha256_hex (dumps_ascii (sort_keys (PDict (map (fun kv => (kv.1, jsonable kv.2)) e)))).
End Models.

(** ** The tables *)
Inductive details :=
| GpsDetails (latitude longitude : float64) (altitude speed heading : option float64)
| SensorDetails (sensor_type : string).

(** A row of gps_fix or sensor_event, without its primary key. *)
Record row := {
  wildfi_device_id : string;
  event_id : string;
  message_key : string;
  payload_hash : string;
  observed_object_id : vval;
  dealiot_topic : string;
  source : string;
  mqtt_topic : string;
  acquisition_time : Z;
  ingested_at : option Z;
  row_payload : event;
  message_metadata : attrs;
  row_details : details;
}.
(** A table: the rows with their primary keys, oldest first. *)
Definition table := list (string * row).

(** ** Construction of rows *)
Section Build.
Context `{UnicodeData} `{Framework}.

Definition vtext (v : vval) : res string := vstr (v_or v (VJson (PStr ""))).

(** The part [GPSFix.from_dealiot_event] and [DecodedSensorEvent.from_dealiot_event] share;
    [label] is GPS or sensor. *)
Definition from_dealiot_event (label topic : string) (mk : attrs -> event -> res details) (e : attrs) : res row :=
  let payload := payload_dict (aget "payload" e) in
  let device_id := v_or (aget "device_id" e) (VJson (vget "device_id" payload)) in
  _ ← raise_if (negb (vtruthy device_id)) (ValueError ("DEALIoT " ++ label ++ " event must contain 'device_id'."));
  device ← vstr device_id;
  id ← vtext (v_or (aget "event_id" e) (aget "id" e));
  key ← vtext (aget "key" e);
  topic ← vstr (v_or (aget "topic" e) (VJson (PStr topic)));
  source ← vstr (v_or (aget "source" e) (VJson (PStr "wildfi-mqtt")));
  mqtt ← vtext (aget "mqtt_topic" e);
  time ← parse_event_datetime (aget "timestamp" e) "timestamp";
  ingested ← parse_optional_event_datetime (aget "ingested_at" e) "ingested_at";
  d ← mk e payload;
  Ok {| wildfi_device_id := device; event_id := id; message_key := key;
        payload_hash := stable_event_hash e; observed_object_id := aget "observed_object_id" e;
        dealiot_topic := topic; source := source; mqtt_topic := mqtt; acquisition_time := time;
        ingested_at := ingested; row_payload := payload; message_metadata := event_metadata e;
        row_details := d |}.

Definition gps_details (e : attrs) (payload : event) : res details :=
  latitude ← required_float e payload ["latitude"; "lat"];
  longitude ← required_float e payload ["longitude"; "lon"; "lng"];
  altitude ← event_float e payload ["altitude"; "alt"; "altitude_m"];
  speed ← event_float e payload ["speed"; "speed_m_s"];
  heading ← event_float e payload ["heading"; "course"; "heading_deg"];
  Ok (GpsDetails latitude longitude altitude speed heading).
Definition gps_from_dealiot_event : attrs -> res row := from_dealiot_event "GPS" "raw.gps" gps_details.

Definition aliases : list (string * string) :=
  [("acc", "imu"); ("accelerometer", "imu"); ("bme", "environment"); ("decoded", "decoded");
   ("environment", "environment"); ("gateway", "metadata"); ("imu", "imu"); ("mag", "imu");
   ("metadata", "metadata"); ("move", "movement"); ("movement", "movement"); ("prox", "proximity");
   ("proximity", "proximity"); ("sensor", "sensor"); ("telemetry", "telemetry")].
Definition _sensor_type_from_mqtt_topic (mqtt_topic : vval) : res string :=
  topic ← vtext mqtt_topic;
  let parts := List.filter (fun item => negb (String.eqb item "")) (py_split "/" (py_lower topic)) in
  Ok (match omap (fun part => dget part aliases) (rev parts) with t :: _ => t | [] => "" end).

Definition IMU_PAYLOAD_KEYS : list string :=
  ["accx"; "accy"; "accz"; "gyrox"; "gyroy"; "gyroz"; "magx"; "magy"; "magz"].
Definition ENVIRONMENT_PAYLOAD_KEYS : list string :=
  ["batteryvoltage"; "humidity"; "pressure"; "temperature"; "temperatureindegcel"].
Definition _sensor_type_from_payload (payload : event) : string :=
  let lowered := map py_lower (keys payload) in
  let meets l := existsb (fun k => mem k l) lowered in
  if meets IMU_PAYLOAD_KEYS then "imu"
  else if meets ENVIRONMENT_PAYLOAD_KEYS then "environment"
  else if meets ["proximity"; "prox"; "distance"; "distance_mm"] then "proximity"
  else if meets ["movement"; "activity"; "odba"] then "movement"
  else "".
Definition _infer_sensor_type (e : attrs) (payload : event) : res string :=
  let explicit := v_or (v_or (aget "sensor_type" e) (VJson (vget "sensor_type" payload)))
                       (VJson (vget "type" payload)) in
  if vtruthy explicit then vstr explicit
  else
    from_topic ← _sensor_type_from_mqtt_topic (aget "mqtt_topic" e);
    Ok (if String.eqb from_topic "" then _sensor_type_from_payload payload else from_topic).
Definition sensor_from_dealiot_event : attrs -> res row :=
  from_dealiot_event "sensor" "raw.sensor"
    (fun e payload => SensorDetails <$> _infer_sensor_type e payload).

(** ** The hooks of the serializers; [None]: a validation error *)
Definition validate_payload_object (allow_empty : bool) (value : vval) : option vval :=
  match value with
  | VJson (PDict d) => Some value
  | VJson v => if allow_empty && blank v then Some (VJson (PDict [])) else None
  | _ => None
  end.
Definition run_payload (allow_empty : bool) (e : attrs) : option attrs :=
  match dget "payload" e with
  | None => Some e
  | Some v => v' ← validate_payload_object allow_empty v; Some (dset "payload" v' e)
  end.
Definition gps_validate (e : attrs) : option attrs :=
  let payload := match aget "payload" e with VJson (PDict d) => d | _ => [] end in
  let has names := existsb (fun k => has_key k e || has_key k payload) names in
  if has ["latitude"; "lat"] && has ["longitude"; "lon"; "lng"] then Some e else None.
Definition gps_is_valid (data : event) : option attrs :=
  e ← gps_fields data; e ← run_payload true e; gps_validate e.
Definition sensor_is_valid (data : event) : option attrs :=
  e ← sensor_fields data; run_payload false e.
End Build.

(** ** Idempotent persistence *)
Section Persist.
Context `{UnicodeData}.
(** The field validators of the model, by their message. *)
Variable clean_fields : row -> option string.

(** The unique constraints: (source, event_id) and (source, payload_hash), each for
    non-empty keys. *)
Definition same_event_id (e r : row) : bool :=
  negb (String.eqb (event_id e) "") && String.eqb (source r) (source e) && String.eqb (event_id r) (event_id e).
Definition same_hash (e r : row) : bool :=
  negb (String.eqb (payload_hash e) "") && String.eqb (source r) (source e) &&
  String.eqb (payload_hash r) (payload_hash e).
(** The check constraints of gps_fix. *)
Definition in_bounds (f : float64) (low high : Z) : bool := num_ge (NFloat f) low && num_le (NFloat f) high.
Definition checks_ok (e : row) : bool :=
  match row_details e with
  | GpsDetails latitude longitude _ _ _ => in_bounds latitude (-90) 90 && in_bounds longitude (-180) 180
  | SensorDetails _ => true
  end.
Definition conflicts (t : table) (e : row) : bool :=
  existsb (fun kr => same_event_id e kr.2 || same_hash e kr.2) t.

(** [find_existing_gps_event] and [find_existing_sensor_event]. *)
Definition find_existing (t : table) (e : row) : option (string * row) :=
  match List.find (fun kr => same_event_id e kr.2) t with
  | Some kr => Some kr
  | None => List.find (fun kr => same_hash e kr.2) t
  end.

(** [full_clean]: field validators, then the constraints, against the table. *)
Definition full_clean (t : table) (e : row) : res unit :=
  match clean_fields e with
  | Some d => Raise (ValidationError d)
  | None =>
      _ ← raise_if (conflicts t e) (ValidationError "Constraint is violated.");
      raise_if (negb (checks_ok e)) (ValidationError "Constraint is violated.")
  end.
(** [save]: an INSERT, against the constraints of the table. *)
Definition save (t : table) (id : string) (e : row) : res table :=
  if conflicts t e || negb (checks_ok e) then Raise IntegrityError else Ok (t ++ [(id, e)])%list.

Definition serialize_gps_ingest_event (kr : string * row) (duplicate : bool) : event :=
  [("id", PStr kr.1); ("duplicate", PBool duplicate); ("device_id", PStr (wildfi_device_id kr.2));
   ("event_id", PStr (event_id kr.2)); ("payload_hash", PStr (payload_hash kr.2));
   ("topic", PStr (dealiot_topic kr.2)); ("timestamp", PStr (isoformat (acquisition_time kr.2)))].
Definition sensor_type (r : row) : string := match row_details r with SensorDetails s => s | _ => "" end.
Definition serialize_sensor_ingest_event (kr : string * row) (duplicate : bool) : event :=
  (serialize_gps_ingest_event kr duplicate ++ [("sensor_type", PStr (sensor_type kr.2))])%list.

Variable serialize : string * row -> bool -> event.
Definition bad_request (detail : string) : event * Z := ([("detail", PStr detail)], 400).

(** The workflow as atomic accesses to the table, for several workers: the lookup, the
    validation, the insert with its commit, and the lookup after an [IntegrityError]. *)
Inductive phase := Look (e : row) | Clean (e : row) | Save (e : row) | Recheck (e : row).
Definition answer := (event * Z)%type.

Definition persist_step (id : string) (ph : phase) (t : table) : res (phase + answer) * table :=
  match ph with
  | Look e =>
      match find_existing t e with
      | Some existing => (Ok (inr (serialize existing true, 200)), t)
      | None => (Ok (inl (Clean e)), t)
      end
  | Clean e =>
      match full_clean t e with
      | Ok _ => (Ok (inl (Save e)), t)
      | Raise (ValidationError d) => (Ok (inr (bad_request d)), t)
      | Raise x => (Raise x, t)
      end
  | Save e =>
      match save t id e with
      | Ok t' => (Ok (inr (serialize (id, e) false, 201)), t')
      | Raise IntegrityError => (Ok (inl (Recheck e)), t)
      | Raise x => (Raise x, t)
      end
  | Recheck e =>
      match find_existing t e with
      | Some existing => (Ok (inr (serialize existing true, 200)), t)
      | None => (Raise IntegrityError, t)
      end
  end.

(** [persist_idempotent_event] when nobody else uses the table. *)
Definition persist_idempotent_event (id : string) (e : row) : M table answer :=
  fun t =>
  match find_existing t e with
  | Some existing => (Ok (serialize existing true, 200), t)
  | None =>
      match full_clean t e ≫= fun _ => save t id e with
      | Ok t' => (Ok (serialize (id, e) false, 201), t')
      | Raise (ValidationError d) => (Ok (bad_request d), t)
      | Raise IntegrityError =>
          match find_existing t e with
          | Some existing => (Ok (serialize existing true, 200), t)
          | None => (Raise IntegrityError, t)
          end
      | Raise x => (Raise x, t)
      end
  end.
End Persist.

(** ** One event: ingest_dealiot_gps_event and ingest_dealiot_sensor_event *)
Section Ingest.
Context `{UnicodeData}.
(** The layer: the validation of its serializer, its row and its response. *)
Record layer := {
  is_valid : event -> option attrs;
  build_row : attrs -> res row;
  clean_fields_of : row -> option string;
  serialize_of : string * row -> bool -> event;
}.
Definition gps_layer `{Framework} (clean_fields : row -> option string) : layer :=
  {| is_valid := gps_is_valid; build_row := gps_from_dealiot_event;
     clean_fields_of := clean_fields; serialize_of := serialize_gps_ingest_event |}.
Definition sensor_layer `{Framework} (clean_fields : row -> option string) : layer :=
  {| is_valid := sensor_is_valid; build_row := sensor_from_dealiot_event;
     clean_fields_of := clean_fields; serialize_of := serialize_sensor_ingest_event |}.

Variable l : layer.

(** Up to the first access to the table: an answer, or the row to persist. *)
Definition prepare (payload : event) : res (row + answer) :=
  match is_valid l payload with
  | None => Ok (inr (bad_request "invalid"))
  | Some validated =>
      match build_row l validated with
      | Ok e => Ok (inl e)
      | Raise (ValueError d) => Ok (inr (bad_request d))
      | Raise x => Raise x
      end
  end.
Definition ingest_event (id : string) (payload : event) : M table answer :=
  r ← lift (prepare payload);
  match r with
  | inr a => mret a
  | inl e => persist_idempotent_event (clean_fields_of l) (serialize_of l) id e
  end.

(** ** The Kafka consumer *)
Definition decode_json (value : string) : res (option event) :=
  match decode_utf8 value ≫= loads with
  | Ok (PDict d) => Ok (Some d)
  | Ok _ => Ok None
  | Raise (UnicodeDecodeError | JSONDecodeError) => Ok None
  | Raise x => Raise x
  end.

Inductive outcome := inserted | duplicates | rejected.
Definition unexpected (status : Z) : pyexn := CommandError "Unexpected ingestion response".
(** The classification of an answer in [_process_message]. *)
Definition classify (a : answer) : res outcome :=
  let '(body, status) := a in
  if status =? 201 then Ok inserted
  else if (status =? 200) && truthy (vget "duplicate" body) then Ok duplicates
  else if status =? 400 then Ok rejected
  else Raise (unexpected status).

Definition _process_message (id value : string) : M table outcome :=
  payload ← lift (decode_json value);
  match payload with
  | None => mret rejected
  | Some payload => a ← ingest_event id payload; lift (classify a)
  end.

Definition counts := (nat * nat * nat)%type.
Definition count (c : counts) (o : outcome) : counts :=
  let '(i, d, r) := c in
  match o with inserted => (S i, d, r) | duplicates => (i, S d, r) | rejected => (i, d, S r) end.
(** [_process_records]: the messages in order, each with the primary key a new row gets. *)
Fixpoint _process_records (messages : list (string * string)) (c : counts) : M table counts :=
  match messages with
  | [] => mret c
  | (id, value) :: messages => o ← _process_message id value; _process_records messages (count c o)
  end.
End Ingest.

(** ** _consume_batches, with crashes and other writers

    One consumer of a group: a topic's partitions, the offsets committed to Kafka and the
    consumer's positions, the rest of the batch returned by [poll], the message being
    persisted and the table, to which other consumers and the HTTP API also write.  An
    exception leaves [_consume_batches] without a commit: the process ends, and its
    successor starts at the committed offsets ([step_crash], which also covers the
    revocation of partitions and a lost database connection). *)
Section Consumer.
Context `{UnicodeData}.
Variable l : layer.

Record system := {
  log : nat -> list string;
  committed : nat -> nat;
  position : nat -> nat;
  pending : list string;
  current : option (string * phase);
  rows : table;
}.

(** [_process_message] up to its first access to the table. *)
Definition begin (value : string) : res (row + answer) :=
  payload ← decode_json value;
  match payload with
  | None => Ok (inr (bad_request "Rejected non-object or invalid JSON Kafka message"))
  | Some payload => prepare l payload
  end.

Definition append (log : nat -> list string) (p : nat) (value : string) : nat -> list string :=
  fun q => if Nat.eqb q p then (log q ++ [value])%list else log q.
(** What [poll] may return: from each assigned partition the next [n] records, if any. *)
Definition advanced (s : system) (assigned : list nat) (n : nat -> nat) : nat -> nat :=
  fun p => if decide (p ∈ assigned) then Nat.min (position s p + n p) (length (log s p)) else position s p.
Definition batch (s : system) (assigned : list nat) (n : nat -> nat) : list string :=
  flat_map (fun p => take (advanced s assigned n p - position s p) (drop (position s p) (log s p))) assigned.

Inductive step (s : system) : system -> Prop :=
| step_produce p value :
    step s {| log := append (log s) p value; committed := committed s; position := position s;
              pending := pending s; current := current s; rows := rows s |}
| step_poll assigned n :
    pending s = [] -> current s = None ->
    step s {| log := log s; committed := committed s; position := advanced s assigned n;
              pending := batch s assigned n; current := None; rows := rows s |}
| step_begin value rest e :
    pending s = value :: rest -> current s = None -> begin value = Ok (inl e) ->
    step s {| log := log s; committed := committed s; position := position s;
              pending := rest; current := Some (value, Look e); rows := rows s |}
| step_reject value rest a o :
    pending s = value :: rest -> current s = None -> begin value = Ok (inr a) -> classify a = Ok o ->
    step s {| log := log s; committed := committed s; position := position s;
              pending := rest; current := None; rows := rows s |}
| step_persist id value ph ph' t :
    current s = Some (value, ph) ->
    persist_step (clean_fields_of l) (serialize_of l) id ph (rows s) = (Ok (inl ph'), t) ->
    step s {| log := log s; committed := committed s; position := position s;
              pending := pending s; current := Some (value, ph'); rows := t |}
| step_answer id value ph a o t :
    current s = Some (value, ph) ->
    persist_step (clean_fields_of l) (serialize_of l) id ph (rows s) = (Ok (inr a), t) ->
    classify a = Ok o ->
    step s {| log := log s; committed := committed s; position := position s;
              pending := pending s; current := None; rows := t |}
| step_commit :
    pending s = [] -> current s = None ->
    step s {| log := log s; committed := position s; position := position s;
              pending := []; current := None; rows := rows s |}
| step_crash :
    step s {| log := log s; committed := committed s; position := committed s;
              pending := []; current := None; rows := rows s |}
| step_other id e t :
    save (rows s) id e = Ok t ->
    step s {| log := log s; committed := committed s; position := position s;
              pending := pending s; current := current s; rows := t |}.

Definition start (t : table) : system :=
  {| log := fun _ => []; committed := fun _ => 0%nat; position := fun _ => 0%nat;
     pending := []; current := None; rows := t |}.
Definition reachable (t : table) (s : system) : Prop := rtc step (start t) s.
End Consumer.
