(* ===== verification/IngestSpec.v ===== *)
(** What the ingestion guarantees: events are stored once, however often they are delivered
    and whoever writes to the table, and no offset is committed before its message is
    settled. *)

From S2P Require Import Prelude PyValue Regex Sha256 PyFloat Json PyTime PyText Events EventsSpec Ingest.
From stdpp Require Import relations.
#[local] Open Scope string_scope.
#[local] Open Scope list_scope.
#[local] Open Scope Z_scope.

(** ** The keys of rows *)
Definition same_key (e r : row) : bool := same_event_id e r || same_hash e r.
Lemma same_key_sym (e r : row) : same_key e r = same_key r e.
Proof.
  unfold same_key, same_event_id, same_hash.
  rewrite (String.eqb_sym (source r)), (String.eqb_sym (event_id r)), (String.eqb_sym (payload_hash r)).
  destruct (String.eqb_spec (event_id e) (event_id r)) as [->|];
    destruct (String.eqb_spec (payload_hash e) (payload_hash r)) as [->|];
    rewrite ?andb_false_r, ?andb_true_r; reflexivity.
Qed.

Lemma conflicts_iff (t : table) (e : row) :
  conflicts t e = true <-> exists kr, kr ∈ t /\ same_key e kr.2 = true.
Proof.
  unfold conflicts. rewrite existsb_exists. setoid_rewrite list_elem_of_In. done.
Qed.
Lemma conflicts_mono (t t' : table) (e : row) : t `prefix_of` t' -> conflicts t e = true -> conflicts t' e = true.
Proof.
  intros [k ->]. rewrite !conflicts_iff. intros (kr & Hk & E). exists kr. rewrite elem_of_app. auto.
Qed.
Lemma find_existing_conflicts (t : table) (e : row) :
  conflicts t e = match find_existing t e with Some _ => true | None => false end.
Proof.
  unfold find_existing, conflicts. induction t as [|kr t IH]; [done|]. cbn [existsb List.find].
  destruct (same_event_id e kr.2); [done|]. rewrite orb_false_l, IH.
  destruct (List.find (fun kr => same_event_id e kr.2) t); [by rewrite orb_true_r|].
  by destruct (same_hash e kr.2).
Qed.

(** No two rows share a key. *)
Definition unique_rows (t : table) : Prop :=
  forall i j a b, t !! i = Some a -> t !! j = Some b -> same_key a.2 b.2 = true -> i = j.

Lemma save_Ok (t t' : table) (id : string) (e : row) :
  save t id e = Ok t' -> t' = t ++ [(id, e)] /\ conflicts t e = false /\ checks_ok e = true.
Proof.
  unfold save. destruct (conflicts t e), (checks_ok e); try done. by intros [= <-].
Qed.
Lemma save_unique (t t' : table) (id : string) (e : row) :
  unique_rows t -> save t id e = Ok t' -> unique_rows t'.
Proof.
  intros U K. apply save_Ok in K as (-> & C & _).
  assert (N : forall kr, kr ∈ t -> same_key e kr.2 = false).
  { intros kr Hk. apply not_true_iff_false. intros E. rewrite (proj2 (conflicts_iff t e)) in C; [done|]. eauto. }
  intros i j a b Hi Hj E.
  apply lookup_app_Some in Hi as [Hi|[Li Hi]]; apply lookup_app_Some in Hj as [Hj|[Lj Hj]].
  - eauto.
  - apply list_lookup_singleton_Some in Hj as [Hj <-]. rewrite same_key_sym, N in E; [done|].
    by eapply list_elem_of_lookup_2.
  - apply list_lookup_singleton_Some in Hi as [Hi <-]. rewrite N in E; [done|].
    by eapply list_elem_of_lookup_2.
  - apply list_lookup_singleton_Some in Hi as [Hi _], Hj as [Hj _]. lia.
Qed.
Lemma save_prefix (t t' : table) (id : string) (e : row) : save t id e = Ok t' -> t `prefix_of` t'.
Proof. intros K. apply save_Ok in K as (-> & _). by exists [(id, e)]. Qed.
Lemma save_stored (t t' : table) (id : string) (e : row) :
  event_id e <> "" \/ payload_hash e <> "" -> save t id e = Ok t' -> conflicts t' e = true.
Proof.
  intros He K. apply save_Ok in K as (-> & _). apply conflicts_iff. exists (id, e).
  rewrite elem_of_app, list_elem_of_singleton. split; [by right|].
  unfold same_key, same_event_id, same_hash. cbn [snd]. rewrite !String.eqb_refl, !andb_true_r.
  apply orb_true_iff. destruct He as [He|He]; [left|right]; by apply negb_true_iff, String.eqb_neq.
Qed.

(** ** The steps of one persistence *)
Section Persist.
Variable clean_fields : row -> option string.
Variable serialize : string * row -> bool -> event.
#[local] Notation persist_step := (persist_step clean_fields serialize).

Definition phase_row (ph : phase) : row := match ph with Look e | Clean e | Save e | Recheck e => e end.

(** What is known of a phase while others write to the table. *)
Definition phase_ok (t : table) (ph : phase) : Prop :=
  match ph with
  | Look _ | Clean _ => True
  | Save e => clean_fields e = None /\ checks_ok e = true
  | Recheck e => conflicts t e = true
  end.
Lemma phase_ok_mono (t t' : table) (ph : phase) : t `prefix_of` t' -> phase_ok t ph -> phase_ok t' ph.
Proof. intros P. destruct ph; simpl; auto. by apply conflicts_mono. Qed.

(** The row is in the table, or no table will ever take it. *)
Definition row_settled (t : table) (e : row) : Prop :=
  conflicts t e = true \/ clean_fields e <> None \/ checks_ok e = false.
Lemma row_settled_mono (t t' : table) (e : row) : t `prefix_of` t' -> row_settled t e -> row_settled t' e.
Proof. intros P [K|K]; [left; by eapply conflicts_mono | by right]. Qed.

Lemma full_clean_Ok (t : table) (e : row) (u : unit) :
  full_clean clean_fields t e = Ok u -> clean_fields e = None /\ conflicts t e = false /\ checks_ok e = true.
Proof.
  unfold full_clean. destruct (clean_fields e); [done|]. intros K. res_inv. split_and!; [done..|].
  by apply negb_false_iff.
Qed.
Lemma full_clean_Raise (t : table) (e : row) (x : pyexn) :
  full_clean clean_fields t e = Raise x -> (exists d, x = ValidationError d) /\ row_settled t e.
Proof.
  unfold full_clean, row_settled. destruct (clean_fields e) as [d|].
  { intros [= <-]. split; [eauto|]. by right; left. }
  destruct (conflicts t e); simpl; [intros [= <-]; eauto|].
  destruct (checks_ok e); simpl; [done|]. intros [= <-]. eauto.
Qed.

(** One step keeps the invariants of the table and of the phase, and an answer settles the
    row. *)
Lemma persist_step_ok (id : string) (ph : phase) (t t' : table) (r : res (phase + answer)) :
  (event_id (phase_row ph) <> "" \/ payload_hash (phase_row ph) <> "") ->
  unique_rows t -> phase_ok t ph -> persist_step id ph t = (r, t') ->
  unique_rows t' /\ t `prefix_of` t' /\
  match r with
  | Ok (inl ph') => phase_row ph' = phase_row ph /\ phase_ok t' ph'
  | Ok (inr _) => row_settled t' (phase_row ph)
  | Raise _ => False
  end.
Proof.
  intros He U P K. destruct ph as [e|e|e|e]; cbn [persist_step phase_row Ingest.persist_step] in *.
  - pose proof (find_existing_conflicts t e) as F. destruct (find_existing t e); simplify_eq; split_and!; try done.
    by left.
  - destruct (full_clean clean_fields t e) as [u|x] eqn:F.
    + apply full_clean_Ok in F as (F1 & F2 & F3). by simplify_eq.
    + apply full_clean_Raise in F as [[d ->] F]. by simplify_eq.
  - destruct (save t id e) as [t1|x] eqn:S.
    + simplify_eq. split_and!; [by eapply save_unique | by eapply save_prefix |]. left. by eapply save_stored.
    + unfold save in S. destruct P as [_ C]. rewrite C, orb_false_r in S.
      destruct (conflicts t e) eqn:F; simplify_eq. by split_and!.
  - pose proof (find_existing_conflicts t e) as F. simpl in P. rewrite P in F.
    destruct (find_existing t e); simplify_eq. split_and!; try done. by left.
Qed.

(** The handler of [IntegrityError] always finds the row that won the race: the lookup
    that follows succeeds whatever was written in between, so the error is never raised
    again. *)
Theorem integrity_error_recovers (id id' : string) (e : row) (t t1 t2 : table) :
  phase_ok t (Save e) -> persist_step id (Save e) t = (Ok (inl (Recheck e)), t1) -> t1 `prefix_of` t2 ->
  exists existing, persist_step id' (Recheck e) t2 = (Ok (inr (serialize existing true, 200)), t2) /\
    existing ∈ t2 /\ same_key e existing.2 = true.
Proof.
  intros [_ C] K P. cbn [Ingest.persist_step] in *. unfold save in K. rewrite C, orb_false_r in K.
  destruct (conflicts t e) eqn:F; simplify_eq. apply (conflicts_mono _ t2) in F; [|done].
  rewrite find_existing_conflicts in F. destruct (find_existing t2 e) as [kr|] eqn:E; [|done].
  exists kr. split; [done|]. unfold find_existing in E. unfold same_key.
  destruct (List.find (fun kr => same_event_id e kr.2) t2) eqn:E1; simplify_eq.
  - apply find_some in E1 as [E1 ->]. by rewrite list_elem_of_In.
  - apply find_some in E as [E ->]. by rewrite list_elem_of_In, orb_true_r.
Qed.

(** ** Refinement: the steps without interference are [persist_idempotent_event] *)
Fixpoint run_steps (fuel : nat) (id : string) (ph : phase) (t : table) : res answer * table :=
  match fuel with
  | O => (Raise OutOfFuel, t)
  | S fuel =>
      match persist_step id ph t with
      | (Ok (inl ph'), t') => run_steps fuel id ph' t'
      | (Ok (inr a), t') => (Ok a, t')
      | (Raise x, t') => (Raise x, t')
      end
  end.

(** A worker alone on the table takes at most four steps, and they do what
    [persist_idempotent_event] does as one function. *)
Theorem persist_steps_refine (id : string) (e : row) (t : table) :
  run_steps 4 id (Look e) t = persist_idempotent_event clean_fields serialize id e t.
Proof.
  unfold persist_idempotent_event. cbn [run_steps Ingest.persist_step].
  destruct (find_existing t e) eqn:F; [done|]. cbn [Ingest.persist_step].
  destruct (full_clean clean_fields t e) as [[]|x] eqn:C; cbn [mbind res_bind Ingest.persist_step].
  - destruct (save t id e) as [t'|x] eqn:V; [done|].
    unfold save in V. destruct (conflicts t e || negb (checks_ok e)); simplify_eq.
    cbn [Ingest.persist_step]. by rewrite F.
  - apply full_clean_Raise in C as [[d ->] _]. done.
Qed.
End Persist.

(** ** What a layer promises the consumer *)
Class LayerLaws `{UnicodeData} (l : layer) := {
  row_keyed (a : attrs) (e : row) : build_row l a = Ok e -> payload_hash e <> "";
  duplicate_flag (kr : string * row) (b : bool) : vget "duplicate" (serialize_of l kr b) = PBool b;
}.

Lemma from_dealiot_keyed `{UnicodeData} `{Framework} label topic mk (a : attrs) (e : row) :
  from_dealiot_event label topic mk a = Ok e -> payload_hash e <> "".
Proof.
  unfold from_dealiot_event. cbv zeta. intros K. res_inv. cbn [payload_hash].
  intros E. pose proof (sha256_hex_length
    (dumps_ascii (sort_keys (PDict (map (fun kv => (kv.1, jsonable kv.2)) a))))) as L.
  unfold stable_event_hash in E. rewrite E in L. discriminate L.
Qed.
#[export] Instance gps_layer_laws `{UnicodeData} `{Framework} (clean : row -> option string) :
  LayerLaws (gps_layer clean).
Proof.
  split; [|intros kr b; reflexivity]. intros a e K. cbn [build_row gps_layer] in K.
  unfold gps_from_dealiot_event in K. eapply from_dealiot_keyed. exact K.
Qed.
#[export] Instance sensor_layer_laws `{UnicodeData} `{Framework} (clean : row -> option string) :
  LayerLaws (sensor_layer clean).
Proof.
  split; [|intros kr b; reflexivity]. intros a e K. cbn [build_row sensor_layer] in K.
  unfold sensor_from_dealiot_event in K. eapply from_dealiot_keyed. exact K.
Qed.

Section Consumer.
Context `{UnicodeData} (l : layer) `{!LayerLaws l}.
#[local] Notation settled_row := (row_settled (clean_fields_of l)).
#[local] Notation phase_ok := (phase_ok (clean_fields_of l)).

(** A message needs nothing more: it is refused by itself, or its row is in the table or
    is one no table takes. *)
Definition settled (t : table) (value : string) : Prop :=
  match begin l value with
  | Ok (inr _) => True
  | Ok (inl e) => settled_row t e
  | Raise _ => False
  end.
Lemma settled_mono (t t' : table) (value : string) : t `prefix_of` t' -> settled t value -> settled t' value.
Proof. unfold settled. destruct (begin l value) as [[e|]|]; auto. by apply row_settled_mono. Qed.

Lemma begin_keyed (value : string) (e : row) : begin l value = Ok (inl e) -> payload_hash e <> "".
Proof.
  unfold begin, prepare. intros K. apply bind_Ok in K as ([payload|] & _ & K); [|done].
  destruct (is_valid l payload) as [a|]; [|done]. destruct (build_row l a) as [e'|x] eqn:B; [|by destruct x].
  simplify_eq. eapply row_keyed. exact B.
Qed.

Record inv (s : system) : Prop := {
  inv_unique : unique_rows (rows s);
  inv_offsets p : (committed s p <= position s p <= length (log s p))%nat;
  inv_seen p i value : (i < position s p)%nat -> log s p !! i = Some value ->
    settled (rows s) value \/
    (committed s p <= i)%nat /\ (value ∈ pending s \/ exists ph, current s = Some (value, ph));
  inv_phase value ph : current s = Some (value, ph) ->
    begin l value = Ok (inl (phase_row ph)) /\ phase_ok (rows s) ph;
}.

Lemma inv_start (t : table) : unique_rows t -> inv (start t).
Proof. intros U. split; simpl; [done|lia|lia|done]. Qed.

Lemma batch_covers (s : system) (assigned : list nat) (n : nat -> nat) (p i : nat) (value : string) :
  (position s p <= i < advanced s assigned n p)%nat -> log s p !! i = Some value ->
  value ∈ batch s assigned n.
Proof.
  intros Hi E. unfold batch. apply list_elem_of_In, in_flat_map. exists p. split.
  - apply list_elem_of_In. unfold advanced in Hi. destruct (decide (p ∈ assigned)); [done|lia].
  - apply list_elem_of_In, list_elem_of_lookup. exists (i - position s p)%nat.
    rewrite lookup_take_lt, lookup_drop by lia. rewrite <- E. f_equal. lia.
Qed.
Lemma advanced_bounds (s : system) (assigned : list nat) (n : nat -> nat) (p : nat) :
  (position s p <= length (log s p))%nat ->
  (position s p <= advanced s assigned n p <= length (log s p))%nat.
Proof. unfold advanced. destruct (decide _); lia. Qed.

(** What [persist_step] does to the current message. *)
Lemma current_step (s : system) (id value : string) (ph : phase) (r : res (phase + answer)) (t : table) :
  inv s -> current s = Some (value, ph) ->
  persist_step (clean_fields_of l) (serialize_of l) id ph (rows s) = (r, t) ->
  unique_rows t /\ rows s `prefix_of` t /\
  match r with
  | Ok (inl ph') => begin l value = Ok (inl (phase_row ph')) /\ phase_ok t ph'
  | Ok (inr _) => settled t value
  | Raise _ => False
  end.
Proof.
  intros I E K. destruct (inv_phase s I value ph E) as [B P].
  apply persist_step_ok in K as (U & Pre & K); [|right; by eapply begin_keyed|apply I|done].
  split; [done|]. split; [done|]. destruct r as [[ph'|a]|x]; [|by unfold settled; rewrite B|done].
  destruct K as [-> K]. done.
Qed.

(** Steps that only let the table grow keep what was seen. *)
Lemma seen_grows (s : system) (t : table) (keep : string -> Prop) :
  inv s -> rows s `prefix_of` t ->
  (forall value, value ∈ pending s \/ (exists ph, current s = Some (value, ph)) -> keep value \/ settled t value) ->
  forall p i value, (i < position s p)%nat -> log s p !! i = Some value ->
  settled t value \/ (committed s p <= i)%nat /\ keep value.
Proof.
  intros I P K p i value Hi E. destruct (inv_seen s I p i value Hi E) as [S|[C V]].
  - left. by eapply settled_mono.
  - destruct (K value V); auto.
Qed.

Lemma inv_step (s s' : system) : inv s -> step l s s' -> inv s'.
Proof.
  intros I St. pose proof (inv_offsets s I) as O.
  destruct St as [p value|assigned n E1 E2|value rest e E1 E2 B|value rest a o E1 E2 B C
    |id value ph ph' t E K|id value ph a o t E K C|E1 E2| |id e t K].
  - split; simpl; try apply I.
    + intros q. specialize (O q). unfold append. destruct (Nat.eqb q p); [rewrite length_app|]; simpl; lia.
    + intros q i v Hi Hv. apply (inv_seen s I q i v Hi). unfold append in Hv.
      destruct (Nat.eqb q p); [|done]. rewrite lookup_app_l in Hv; [done|]. specialize (O q). lia.
  - split; simpl; [apply I|..|done].
    + intros q. specialize (O q). pose proof (advanced_bounds s assigned n q). lia.
    + intros q i v Hi Hv. destruct (decide (i < position s q)%nat) as [Lt|Ge].
      * destruct (inv_seen s I q i v Lt Hv) as [S|[_ [V|[ph V]]]]; [by left| |].
        { rewrite E1 in V. inversion V. }
        { congruence. }
      * right. specialize (O q). split; [lia|]. left. eapply batch_covers; [|exact Hv]. lia.
  - split; simpl; [apply I|done| |].
    + apply (seen_grows s); [done..|]. intros v [V|[ph V]]; [|congruence].
      rewrite E1 in V. apply elem_of_cons in V as [->|V]; left; eauto.
    + intros v ph [= <- <-]. done.
  - split; simpl; [apply I|done| |done].
    apply (seen_grows s); [done..|]. intros v [V|[ph V]]; [|congruence].
    rewrite E1 in V. apply elem_of_cons in V as [->|V]; [right|left; by left]. unfold settled. by rewrite B.
  - destruct (current_step s id value ph _ t I E K) as (U & P & B).
    split; simpl; [done|done| |].
    + apply (seen_grows s); [done..|]. intros v [V|[ph0 V]]; [eauto|]. left. right. rewrite E in V. simplify_eq. eauto.
    + intros v ph0 [= <- <-]. done.
  - destruct (current_step s id value ph _ t I E K) as (U & P & S).
    split; simpl; [done|done| |done].
    apply (seen_grows s); [done..|]. intros v [V|[ph0 V]]; [eauto|]. right. congruence.
  - split; simpl; [apply I| |..|done].
    + intros q. specialize (O q). lia.
    + intros q i v Hi Hv. destruct (inv_seen s I q i v Hi Hv) as [S|[_ [V|[ph V]]]]; [by left| |congruence].
      rewrite E1 in V. inversion V.
  - split; simpl; [apply I| |..|done].
    + intros q. specialize (O q). lia.
    + intros q i v Hi Hv. specialize (O q). destruct (inv_seen s I q i v ltac:(lia) Hv) as [S|[C _]]; [by left|lia].
  - pose proof (save_prefix _ _ _ _ K) as P.
    split; simpl; [eapply save_unique; [apply I|done] |done|..].
    + apply (seen_grows s); [done..|]. eauto.
    + intros v ph Ev. destruct (inv_phase s I v ph Ev) as [B Ph]. split; [done|]. by eapply phase_ok_mono.
Qed.
Lemma inv_reachable (t : table) (s : system) : unique_rows t -> reachable l t s -> inv s.
Proof.
  intros U R. unfold reachable in R. assert (I : inv (start t)) by by apply inv_start.
  remember (start t) as s0. clear Heqs0. induction R; eauto using inv_step.
Qed.

Lemma settled_below (t : table) (s : system) (p i : nat) (value : string) :
  unique_rows t -> reachable l t s -> (i < committed s p)%nat -> log s p !! i = Some value ->
  settled (rows s) value.
Proof.
  intros U R Hi E. pose proof (inv_reachable t s U R) as I. pose proof (inv_offsets s I p) as O.
  destruct (inv_seen s I p i value ltac:(lia) E) as [S|[C _]]; [done|lia].
Qed.


(** No event is stored twice: at every moment the rows of the table have different
    event ids and different payload hashes within a source. *)
Theorem rows_stay_unique (t : table) (s : system) :
  unique_rows t -> reachable l t s -> unique_rows (rows s).
Proof. intros U R. apply (inv_reachable t s U R). Qed.

(** A message on which the ingestion raises blocks its partition: its offset is never
    committed, so every restart of the consumer begins before it. *)
Theorem raising_message_blocks (t : table) (s : system) (p i : nat) (value : string) (x : pyexn) :
  unique_rows t -> reachable l t s -> log s p !! i = Some value -> begin l value = Raise x ->
  (committed s p <= i)%nat.
Proof.
  intros U R E B. destruct (decide (committed s p <= i)%nat) as [|N]; [done|exfalso].
  pose proof (settled_below t s p i value U R ltac:(lia) E) as S. unfold settled in S. by rewrite B in S.
Qed.
End Consumer.

(** ** One message, without interference *)
Section Sequential.
Context `{UnicodeData} (l : layer) `{!LayerLaws l}.

Lemma classify_serialized (kr : string * row) (b : bool) (status : Z) :
  classify (serialize_of l kr b, status) =
  if status =? 201 then Ok inserted
  else if (status =? 200) && b then Ok duplicates
  else if status =? 400 then Ok rejected else Raise (unexpected status).
Proof. unfold classify. by rewrite duplicate_flag. Qed.

Lemma process_message_begin (id value : string) (t : table) :
  _process_message l id value t =
  match begin l value with
  | Ok (inr a) => (classify a, t)
  | Ok (inl e) => (a ← persist_idempotent_event (clean_fields_of l) (serialize_of l) id e; lift (classify a)) t
  | Raise x => (Raise x, t)
  end.
Proof.
  unfold _process_message, begin, ingest_event. destruct (decode_json value) as [[payload|]|x]; [|done|done].
  unfold mbind, M_bind, res_bind, lift. cbn. destruct (prepare l payload) as [[e|a]|x]; done.
Qed.
Lemma begin_refused (value : string) (a : answer) : begin l value = Ok (inr a) -> classify a = Ok rejected.
Proof.
  unfold begin, prepare. intros K. apply bind_Ok in K as ([payload|] & _ & K); [|by simplify_eq].
  destruct (is_valid l payload) as [v|]; [|by simplify_eq].
  destruct (build_row l v) as [e|x]; [done|]. destruct x; by simplify_eq.
Qed.

(** The four outcomes of a persistence alone on the table. *)
Lemma persist_cases (id : string) (e : row) (t : table) :
  let persist := persist_idempotent_event (clean_fields_of l) (serialize_of l) id e t in
  (exists existing, find_existing t e = Some existing /\ persist = (Ok (serialize_of l existing true, 200), t)) \/
  (exists t', find_existing t e = None /\ save t id e = Ok t' /\ persist = (Ok (serialize_of l (id, e) false, 201), t')) \/
  (exists d, find_existing t e = None /\ persist = (Ok (bad_request d), t)).
Proof.
  cbv zeta. unfold persist_idempotent_event. destruct (find_existing t e) as [kr|] eqn:F; [left; eauto|right].
  destruct (full_clean _ t e) as [u|x] eqn:C.
  - apply full_clean_Ok in C as (_ & C & G). left. unfold save. rewrite C, G. simpl. eauto.
  - apply full_clean_Raise in C as [[d ->] _]. right. simpl. eauto.
Qed.

(** A message is inserted, counted as a duplicate or rejected; the consumer raises on it
    only when decoding it or building its row raises, and then nothing is written. *)
Theorem process_message_total (id value : string) (t : table) :
  (exists o t', _process_message l id value t = (Ok o, t')) \/
  (exists x, begin l value = Raise x /\ _process_message l id value t = (Raise x, t)).
Proof.
  rewrite process_message_begin. destruct (begin l value) as [[e|a]|x] eqn:B; [|left|right; eauto].
  - left. unfold mbind, M_bind, lift.
    destruct (persist_cases id e t) as [(kr & _ & ->)|[(t' & _ & _ & ->)|(d & _ & ->)]];
      rewrite ?classify_serialized; eauto.
  - rewrite (begin_refused value a B). eauto.
Qed.

(** Whatever was written to the table since, the redelivery of a message that was
    inserted is reported as a duplicate and changes nothing. *)
Theorem redelivery_is_duplicate (id id' value : string) (t t1 t2 : table) :
  _process_message l id value t = (Ok inserted, t1) -> t1 `prefix_of` t2 ->
  _process_message l id' value t2 = (Ok duplicates, t2).
Proof.
  rewrite !process_message_begin. destruct (begin l value) as [[e|a]|x] eqn:B; intros K P; [| |done].
  - unfold mbind, M_bind, lift in *.
    destruct (persist_cases id e t) as [(kr & _ & E)|[(t' & _ & S & E)|(d & _ & E)]]; rewrite E in K;
      rewrite ?classify_serialized in K; simplify_eq/=.
    assert (C : conflicts t2 e = true).
    { eapply conflicts_mono; [exact P|]. eapply save_stored; [|exact S]. right. by eapply begin_keyed. }
    rewrite find_existing_conflicts in C. unfold persist_idempotent_event.
    destruct (find_existing t2 e); [|done]. by rewrite classify_serialized.
  - rewrite (begin_refused value a B) in K. done.
Qed.

(** An event stored by another worker between the lookup and the validation is reported
    as rejected (status 400), not as a duplicate: [full_clean] checks the same unique
    constraints and its error is answered before the [IntegrityError] handler can act. *)
Theorem race_reported_as_rejected (id id' : string) (e : row) (t t' : table) :
  payload_hash e <> "" -> clean_fields_of l e = None ->
  persist_step (clean_fields_of l) (serialize_of l) id (Look e) t = (Ok (inl (Clean e)), t) ->
  save t id' e = Ok t' ->
  exists a, persist_step (clean_fields_of l) (serialize_of l) id (Clean e) t' = (Ok (inr a), t') /\
    classify a = Ok rejected /\ conflicts t' e = true.
Proof.
  intros He C _ K. assert (F : conflicts t' e = true) by (eapply save_stored; eauto).
  cbn [persist_step]. unfold full_clean. rewrite C, F. simpl. eauto.
Qed.
End Sequential.

(** ** A run in which a message reaches the table *)
(** The message is produced, polled, persisted in three steps and committed. *)
Lemma one_message_committed `{UnicodeData} (l : layer) `{!LayerLaws l} (value : string) (e : row) :
  begin l value = Ok (inl e) -> clean_fields_of l e = None -> checks_ok e = true ->
  exists s, reachable l [] s /\ committed s 0 = 1%nat /\ log s 0%nat !! 0%nat = Some value.
Proof.
  intros B F C. eexists. split.
  { unfold reachable. eapply rtc_l; [apply (step_produce l _ 0 value)|].
    eapply rtc_l; [apply (step_poll l _ [0%nat] (fun _ => 1%nat)); reflexivity|].
    eapply rtc_l; [apply (step_begin l _ value [] e); [reflexivity|reflexivity|exact B]|].
    eapply rtc_l; [apply (step_persist l _ "a" value (Look e) (Clean e) []); reflexivity|].
    eapply rtc_l; [apply (step_persist l _ "a" value (Clean e) (Save e) []); [reflexivity|]|].
    { cbn [persist_step]. unfold full_clean. rewrite F. cbn. by rewrite C. }
    eapply rtc_l; [eapply (step_answer l _ "a" value (Save e)); [reflexivity| |]|].
    { cbn [persist_step]. unfold save. cbn [rows conflicts existsb orb]. rewrite C. reflexivity. }
    { by rewrite classify_serialized. }
    eapply rtc_l; [apply step_commit; reflexivity|]. apply rtc_refl. }
  split; reflexivity.
Qed.

(** ** Numbers that are too large *)
Lemma round64_overflow (n : Z) : 2 ^ 1024 <= n -> round64 n 1 = Overflow.
Proof.
  intros Hn. assert (L : 1024 <= Z.log2 n) by (apply Z.log2_le_pow2; lia).
  unfold round64. change (Z.log2 1) with 0.
  replace (Z.max (-1074) (Z.log2 n - 0 - 53)) with (Z.log2 n - 53) by lia.
  set (e := Z.log2 n - 53). assert (He : 971 <= e) by lia.
  unfold scaled. replace (e <? 0) with false by lia. rewrite Z.shiftl_1_l.
  replace (2 ^ 53 <=? n / 2 ^ e) with true.
  - replace (e + 1 <? 0) with false by lia.
    destruct (div_round_even n (Z.shiftl 1 (e + 1)) =? 2 ^ 53); [replace (971 <? e + 1 + 1) with true by lia | replace (971 <? e + 1) with true by lia]; done.
  - symmetry. apply Z.leb_le. apply Z.div_le_lower_bound; [lia|]. rewrite <- Z.pow_add_r by lia.
    replace (e + 53) with (Z.log2 n) by lia. apply Z.log2_spec. lia.
Qed.
Lemma huge_int_overflows `{UnicodeData} (field_name : string) (z : Z) :
  2 ^ 1024 <= z -> to_float field_name (VJson (PInt z)) = Raise OverflowError.
Proof.
  intros Hz. unfold to_float, py_float. replace (z =? 0) with false by lia.
  rewrite Z.abs_eq by lia. by rewrite round64_overflow.
Qed.

(** ** Examples *)
Module Herd.
#[local] Existing Instance ascii_unicode.
(** A conversion of fields that reads the timestamp and keeps the JSON of the others. *)
Definition convert (d : event) : option attrs :=
  mapM (fun kv => match kv with
                  | ("timestamp", PStr s) => pair "timestamp" ∘ VTime ∘ fst <$> fromisoformat s
                  | (k, v) => Some (k, VJson v)
                  end) d.
#[local] Instance framework : Framework :=
  {| gps_fields := convert; sensor_fields := convert; parse_datetime := fun s => fst <$> fromisoformat s |}.
Definition gps : layer := gps_layer (fun _ => None).

Definition member (k v : string) : string := (dquote ++ k ++ dquote ++ ":" ++ v)%string.
Definition text (s : string) : string := (dquote ++ s ++ dquote)%string.
Definition fix_json (altitude : string) : string :=
  ("{" ++ member "device_id" (text "WF-002") ++ "," ++ member "timestamp" (text "2026-01-01T00:00:00+00:00") ++ "," ++
   member "latitude" "1.5" ++ "," ++ member "longitude" "2" ++ "," ++
   member "payload" ("{" ++ member "alt" altitude ++ "}") ++ "}")%string.
Definition good : string := fix_json "12.5".
(** An altitude of 310 digits, which [float()] refuses. *)
Definition bad : string := fix_json ("1" ++ zeros 309).

Lemma begin_bad : begin gps bad = Raise OverflowError.
Proof. vm_compute. reflexivity. Qed.
Lemma good_inserted : exists t1, _process_message gps "a" good [] = (Ok inserted, t1) /\ length t1 = 1%nat.
Proof. eexists. split; [vm_compute; reflexivity | reflexivity]. Qed.

Definition after_bad : system :=
  {| log := append (fun _ => []) 0 bad; committed := fun _ => 0%nat;
     position := fun _ => 0%nat; pending := []; current := None; rows := [] |}.
Lemma no_rows_unique : unique_rows [].
Proof. intros i j a b E. destruct i; discriminate E. Qed.
Lemma after_bad_reachable : reachable gps [] after_bad.
Proof. apply rtc_once. apply (step_produce gps (start []) 0 bad). Qed.
Lemma raising_message_blocks_witness : (committed after_bad 0 <= 0)%nat.
Proof.
  apply (raising_message_blocks gps [] after_bad 0 0 bad OverflowError).
  - exact no_rows_unique.
  - exact after_bad_reachable.
  - reflexivity.
  - exact begin_bad.
Defined.

Lemma redelivery_is_duplicate_witness :
  exists t1, _process_message gps "a" good [] = (Ok inserted, t1) /\
    _process_message gps "b" good t1 = (Ok duplicates, t1).
Proof.
  destruct good_inserted as (t1 & E & _). exists t1. split; [exact E|].
  apply (redelivery_is_duplicate gps "a" "b" good [] t1 t1 E). reflexivity.
Defined.

Lemma begin_good : exists e, begin gps good = Ok (inl e) /\ checks_ok e = true.
Proof. eexists. split; [vm_compute; reflexivity | vm_compute; reflexivity]. Qed.

Lemma good_committed :
  exists s, reachable gps [] s /\ committed s 0 = 1%nat /\ log s 0%nat !! 0%nat = Some good.
Proof. destruct begin_good as (e & B & C). exact (one_message_committed gps good e B eq_refl C). Qed.
Lemma rows_stay_unique_witness : exists s, committed s 0 = 1%nat /\ unique_rows (rows s).
Proof.
  destruct good_committed as (s & R & C & _). exists s. split; [exact C|].
  exact (rows_stay_unique gps [] s no_rows_unique R).
Defined.

Lemma race_reported_as_rejected_witness :
  exists e a, conflicts [("b", e)] e = true /\
    persist_step (clean_fields_of gps) (serialize_of gps) "a" (Clean e) [("b", e)] = (Ok (inr a), [("b", e)]) /\
    classify a = Ok rejected.
Proof.
  destruct begin_good as (e & B & C). exists e.
  destruct (race_reported_as_rejected gps "a" "b" e [] [("b", e)]) as (a & K1 & K2 & K3).
  - exact (begin_keyed gps good e B).
  - reflexivity.
  - reflexivity.
  - unfold save. rewrite C. reflexivity.
  - exists a. split; [exact K3|]. split; [exact K1 | exact K2].
Defined.
Lemma integrity_error_recovers_witness :
  exists e existing, same_key e existing.2 = true /\
    persist_step (clean_fields_of gps) (serialize_of gps) "a" (Recheck e) [("b", e)] =
    (Ok (inr (serialize_of gps existing true, 200)), [("b", e)]).
Proof.
  destruct begin_good as (e & B & C). exists e.
  destruct (integrity_error_recovers (clean_fields_of gps) (serialize_of gps) "a" "a" e
              [("b", e)] [("b", e)] [("b", e)]) as (existing & K1 & K2 & K3).
  - split; [reflexivity | exact C].
  - assert (F : conflicts [("b", e)] e = true).
    { eapply (save_stored [] _ "b"); [right; exact (begin_keyed gps good e B)|].
      unfold save. rewrite C. reflexivity. }
    cbn [persist_step]. unfold save. rewrite F. reflexivity.
  - reflexivity.
  - exists existing. split; [exact K3 | exact K1].
Defined.
End Herd.
