(* ===== verification/PipelineSpec.v ===== *)
(** From a device to the table: the bridge and the consumer together. *)

From S2P Require Import Prelude PyValue Regex PyFloat Json PyTime PyText Wire Events EventsSpec Bridge BridgeSpec Ingest IngestSpec.
#[local] Open Scope string_scope.
#[local] Open Scope list_scope.
#[local] Open Scope Z_scope.

Section Pipeline.
Context `{UnicodeData}.

Lemma decode_sent (e : event) : wire_ok (PDict e) -> decode_json (value_serializer e) = Ok (Some e).
Proof. intros K. unfold decode_json, value_serializer. by rewrite decode_wire. Qed.

(** The consumer decodes from Kafka exactly the event the bridge serialised: every JSON
    object whose strings are well-formed survives the round trip, non-ASCII text and
    escapes included. *)
Theorem kafka_roundtrip (e : event) :
  wire_ok (PDict e) -> decode_json (value_serializer e) = Ok (Some e).
Proof. apply decode_sent. Qed.

(** The event needs nothing more from the layer [l]: it is refused by itself, or its row is
    in the table or is one no table takes. *)
Definition event_settled (l : layer) (t : table) (e : event) : Prop :=
  (exists a, prepare l e = Ok (inr a)) \/
  (exists r, prepare l e = Ok (inl r) /\ row_settled (clean_fields_of l) t r).

End Pipeline.

(** ** Examples *)
Module Route.
#[local] Existing Instance ascii_unicode.
#[local] Existing Instance Herd.framework.
Definition sensor : layer := sensor_layer (fun _ => None).
Definition note : message :=
  {| topic := "wildfi/tags/WF-001/imu"; payload := Herd.text (bytes [195; 169]); qos := 1; retain := false |}.
Definition record : sent :=
  match on_message Portal.bridge 0 0 note with
  | Ok r => r
  | Raise _ => {| sent_topic := ""; sent_key := ""; sent_value := [] |}
  end.
Lemma record_sent : run_bridge Portal.bridge [(0, 0, note)] [] = (Ok tt, [record]).
Proof. vm_compute. reflexivity. Qed.
Lemma record_wire : wire_ok (PDict (sent_value record)).
Proof. apply wire_okb_ok. vm_compute. reflexivity. Qed.

Lemma kafka_roundtrip_witness :
  decode_json (value_serializer (sent_value record)) = Ok (Some (sent_value record)).
Proof. exact (kafka_roundtrip (sent_value record) record_wire). Defined.

Lemma record_row : exists e, prepare sensor (sent_value record) = Ok (inl e) /\ checks_ok e = true.
Proof. eexists. split; vm_compute; reflexivity. Qed.

(** One message of a device blocks the GPS topic: an altitude of 310 digits under a name
    the contract does not check is forwarded as a valid fix and then raises in the consumer
    ([raising_message_blocks]). *)
Definition high : message :=
  {| topic := "wildfi/WF-002/gps"; qos := 1; retain := false;
     payload := ("{" ++ Herd.member "lat" "1" ++ "," ++ Herd.member "lon" "2" ++ "," ++
                 Herd.member "alt" ("1" ++ zeros 309) ++ "}")%string |}.
Lemma altitude_forwarded_then_raises :
  exists r, on_message Portal.bridge 0 0 high = Ok r /\ sent_topic r = RAW_GPS_TOPIC /\
    begin Herd.gps (value_serializer (sent_value r)) = Raise OverflowError.
Proof. eexists. split; [vm_compute; reflexivity|]. split; vm_compute; reflexivity. Qed.
End Route.
