(* ===== verification/Stream.v ===== *)
(** Two producers of derived streams in DEALIoT: the streaming job
    (flink/jobs/streaming_minimal.py), which normalises raw events and keeps the latest one
    of each entity, and the backfill of media metadata (pipelines/media_backfill.py). *)

From S2P Require Import Prelude PyValue Regex Json PyTime PyText Wire Events Bridge.
#[local] Open Scope list_scope.
#[local] Open Scope string_scope.
#[local] Open Scope Z_scope.

(** ** The streaming job *)
Definition SOURCE_TOPIC_EVENT_KINDS : list (string * string) :=
  [("raw.sensor", "sensor"); ("raw.gps", "gps"); ("raw.image2d.meta", "image2d");
   ("raw.image3d.meta", "image3d"); ("raw.video2d.meta", "video2d"); ("raw.video3d.meta", "video3d")].
Definition MQTT_EVENT_KIND_PATTERNS : list (string * list string) :=
  [("gps", ["gps"; "/gnss/"]);
   ("video3d", ["video3d"; "/stereo-video/"; "/volumetric-video/"]);
   ("video2d", ["video2d"; "/video/"; "/camera-stream/"]);
   ("image3d", ["image3d"; "/lidar/"; "/pointcloud/"]);
   ("image2d", ["image2d"; "/camera/"; "/image/"])].

(** A row of type [EVENT_TYPE]. *)
Record Row := {
  entity_id : string;
  source_event_id : string;
  event_ts : string;
  row_source_topic : string;
  row_mqtt_topic : string;
  event_kind : string;
  payload_b64 : string;
  row_qos : Z;
  row_retain : bool;
  raw_json : string;
}.

Section Job.
Context `{UnicodeData}.
(** The order in which the process iterates over its two sets of markers. *)
Variables (tag_markers topic_markers : list string).

Definition infer_entity_id (mqtt_topic : string) : string :=
  let parts := topic_parts mqtt_topic in
  let lowered_parts := map py_lower parts in
  match first_some (after_tag parts lowered_parts) tag_markers with
  | Some marked_id => marked_id
  | None =>
      match first_some (after_wildfi parts lowered_parts) topic_markers with
      | Some wildfi_id => wildfi_id
      | None => default "unknown" (last parts)
      end
  end.

Definition infer_event_kind (source_topic mqtt_topic : string) : string :=
  match dget (py_lower source_topic) SOURCE_TOPIC_EVENT_KINDS with
  | Some kind => kind
  | None =>
      let lowered_mqtt := py_lower mqtt_topic in
      match List.find (fun kp => existsb (fun pattern => contains pattern lowered_mqtt) kp.2)
              MQTT_EVENT_KIND_PATTERNS with
      | Some kp => kp.1
      | None => "unknown"
      end
  end.

Definition parse_json_record (raw_value : string) : res (option event) :=
  match loads raw_value with
  | Ok (PDict record) => Ok (Some record)
  | Ok _ => Ok None
  | Raise JSONDecodeError => Ok None
  | Raise x => Raise x
  end.

(** [NormalizeEvent.flat_map]. *)
Definition flat_map_event (value : string * string) : res (list Row) :=
  let '(source_topic, raw_value) := value in
  record ← parse_json_record raw_value;
  match record with
  | None => Ok []
  | Some record =>
      mqtt_topic ← py_str (dget_or "mqtt_topic" (PStr "") record);
      entity ← py_str (py_or (vget "device_id" record) (PStr (infer_entity_id mqtt_topic)));
      ts ← py_str (py_or (py_or (vget "timestamp" record) (vget "ingested_at" record)) (PStr ""));
      b64 ← py_str (dget_or "payload_b64" (PStr "") record);
      q ← int_of (py_or (dget_or "qos" (PInt 0) record) (PInt 0));
      id ← py_str (dget_or "event_id" (PStr "") record);
      Ok [{| entity_id := entity; source_event_id := id; event_ts := ts; row_source_topic := source_topic;
             row_mqtt_topic := mqtt_topic; event_kind := infer_event_kind source_topic mqtt_topic;
             payload_b64 := b64; row_qos := q; row_retain := truthy (dget_or "retain" (PBool false) record);
             raw_json := raw_value |}]
  end.

(** The filter and the map of the dead-letter branch of [main]. *)
Definition invalid_event (now : Z) (value : string * string) : event :=
  [("timestamp", PStr (isoformat now)); ("source", PStr "flink-streaming-minimal");
   ("intended_topic", PStr value.1); ("source_topic", PStr value.1); ("device_id", PStr "unknown");
   ("errors", PList [PStr "record must be a JSON object"]);
   ("raw_event", PDict [("raw_payload", PStr value.2)])].
Definition invalid_event_to_dlq_json (now : Z) (value : string * string) : string :=
  dumps_ascii (PDict (invalid_event now value)).
Definition is_invalid (value : string * string) : res bool :=
  record ← parse_json_record value.2; Ok (match record with None => true | Some _ => false end).

(** [LatestByEntity]: the state of each key and what [process_element] yields. *)
Definition process_element (st : gmap string string) (value : Row) : gmap string string * list Row :=
  let incoming_ts := event_ts value in
  match st !! entity_id value with
  | Some current =>
      if String.leb current incoming_ts then (<[entity_id value := incoming_ts]> st, [value]) else (st, [])
  | None => (<[entity_id value := incoming_ts]> st, [value])
  end.
Fixpoint latest_stream (st : gmap string string) (values : list Row) : gmap string string * list Row :=
  match values with
  | [] => (st, [])
  | value :: values =>
      let '(st, out) := process_element st value in
      let '(st, rest) := latest_stream st values in (st, (out ++ rest)%list)
  end.

(** [main]: the rows of features.events, the rows of state.latest and the values that go to
    the dead-letter topic, for a stream in the order the job reads it. *)
Record outputs := { features : list Row; state_latest : list Row; dead : list (string * string) }.
Fixpoint normalize (stream : list (string * string)) : res (list Row * list (string * string)) :=
  match stream with
  | [] => Ok ([], [])
  | value :: stream =>
      rows ← flat_map_event value;
      invalid ← is_invalid value;
      '(fs, ds) ← normalize stream;
      Ok ((rows ++ fs)%list, if (invalid : bool) then value :: ds else ds)
  end.
Definition run_job (stream : list (string * string)) : res outputs :=
  '(fs, ds) ← normalize stream;
  Ok {| features := fs; state_latest := (latest_stream ∅ fs).2; dead := ds |}.

Definition event_to_json (r : Row) : string :=
  dumps_ascii (PDict [("entity_id", PStr (entity_id r)); ("source_event_id", PStr (source_event_id r));
    ("event_ts", PStr (event_ts r)); ("source_topic", PStr (row_source_topic r));
    ("mqtt_topic", PStr (row_mqtt_topic r)); ("event_kind", PStr (event_kind r));
    ("payload_b64", PStr (payload_b64 r)); ("qos", PInt (row_qos r)); ("retain", PBool (row_retain r));
    ("raw_json", PStr (raw_json r))]).
End Job.

(** ** The backfill *)
Definition TOPIC_BY_MEDIA_KIND : list (string * string) :=
  [("image2d", RAW_IMAGE2D_META_TOPIC); ("image3d", RAW_IMAGE3D_META_TOPIC);
   ("video2d", RAW_VIDEO2D_META_TOPIC); ("video3d", RAW_VIDEO3D_META_TOPIC)].

(** An entry of an S3 listing. *)
Record s3_object := { obj_key : string; obj_size : Z; last_modified : Z }.
(** The dict [iter_objects_between] yields. *)
Record found := { f_bucket : string; f_key : string; f_size : Z; f_timestamp : string; f_uri : string }.

Definition in_window (window_start window_end : Z) (item : s3_object) : bool :=
  (window_start <=? last_modified item) && (last_modified item <? window_end).
Definition iter_objects_between (bucket : string) (window_start window_end : Z) (contents : list s3_object)
    : list found :=
  map (fun item => {| f_bucket := bucket; f_key := obj_key item; f_size := obj_size item;
                      f_timestamp := isoformat (last_modified item);
                      f_uri := "s3://" ++ bucket ++ "/" ++ obj_key item |})
    (List.filter (in_window window_start window_end) contents).

Section Backfill.
Context `{UnicodeData}.
(** [mimetypes.guess_type]: the first component of its answer, from the system's tables. *)
Variable guess_type : string -> option string.

(** [Path(key).suffix] with its dots stripped: what follows the last dot of the name,
    leading dots of the name ignored. *)
Definition path_name (key : string) : string :=
  default "" (last (List.filter (fun part => negb (String.eqb part "" || String.eqb part ".")) (py_split "/" key))).
Definition after_last_dot (name : string) : string :=
  match rev (py_split "." (String.concat "" (drop_while (String.eqb ".") (pychars name)))) with
  | ext :: _ :: _ => ext
  | _ => ""
  end.
Definition guess_format (object_key : string) : string :=
  let suffix := py_lower (after_last_dot (path_name object_key)) in
  if String.eqb suffix "" then "bin" else suffix.

Definition media_defaults : list (string * event) :=
  [("image2d", [("camera_id", PStr "unknown")]);
   ("image3d", [("sensor_id", PStr "unknown"); ("capture_type", PStr "unknown")]);
   ("video2d", [("camera_id", PStr "unknown")]);
   ("video3d", [("rig_id", PStr "unknown"); ("representation", PStr "unknown")])].
Definition content_type (key : string) : string :=
  match guess_type key with
  | Some t => if String.eqb t "" then "application/octet-stream" else t
  | None => "application/octet-stream"
  end.
Definition build_record (now : Z) (obj : found) (media_kind : string) : event :=
  ([("device_id", PStr "backfill"); ("timestamp", PStr (f_timestamp obj)); ("ingested_at", PStr (now_iso now));
    ("bucket", PStr (f_bucket obj)); ("object_key", PStr (f_key obj)); ("object_uri", PStr (f_uri obj));
    ("format", PStr (guess_format (f_key obj))); ("content_type", PStr (content_type (f_key obj)));
    ("size_bytes", PInt (f_size obj));
    ("tags", PDict [("source", PStr "airflow-backfill"); ("media_kind", PStr media_kind)])] ++
   dget_or media_kind [] media_defaults)%list.

(** [resolve_window]: the options are parsed datetimes (microseconds). *)
Definition resolve_window (now : Z) (window_start window_end since_minutes : option Z) : res (Z * Z) :=
  match window_start, window_end, since_minutes with
  | Some a, Some b, _ =>
      if b <=? a then Raise (ValueError "--window-start must be earlier than --window-end.") else Ok (a, b)
  | Some _, None, _ | None, Some _, _ =>
      Raise (ValueError "Both --window-start and --window-end must be set together.")
  | None, None, None => Raise (ValueError "Use either --window-start/--window-end or --since-minutes.")
  | None, None, Some m =>
      if m <=? 0 then Raise (ValueError "--since-minutes must be a positive integer.")
      else Ok (now - m * 60000000, now)
  end.

(** The loop of [main]: the record sent for one object. *)
Definition backfill_one (now : Z) (media_kind kafka_topic : string) (obj : found) : res sent :=
  let record := build_record now obj media_kind in
  match validate_event kafka_topic record with
  | [] => Ok {| sent_topic := kafka_topic; sent_key := f_key obj; sent_value := record |}
  | errors =>
      let raw_event := dset "source_topic" (PStr ("s3://" ++ f_bucket obj ++ "/" ++ f_key obj)) record in
      dlq ← build_dlq_event now "airflow-backfill" kafka_topic errors raw_event;
      Ok {| sent_topic := DLQ_TOPIC; sent_key := f_key obj; sent_value := dlq |}
  end.
Definition backfill (now : Z) (media_kind bucket : string) (window : Z * Z) (contents : list s3_object)
    : res (list sent) :=
  mapM_res (backfill_one now media_kind (dget_or media_kind "" TOPIC_BY_MEDIA_KIND))
    (iter_objects_between bucket window.1 window.2 contents).
End Backfill.
