(* ===== verification/StreamSpec.v ===== *)
(** What the streaming job keeps and drops, and what the backfill publishes. *)

From S2P Require Import Prelude PyValue Regex Json PyTime PyText Wire Events EventsSpec Bridge Stream.
#[local] Open Scope string_scope.
#[local] Open Scope list_scope.
#[local] Open Scope Z_scope.

(** ** The latest event of each entity *)
Definition same_entity (x r : Row) : bool := String.eqb (entity_id x) (entity_id r).
(** The reference: a row is emitted when no earlier row of its entity has a later timestamp. *)
Fixpoint newest (seen rows : list Row) : list Row :=
  match rows with
  | [] => []
  | r :: rows =>
      (if forallb (fun x => negb (same_entity x r) || String.leb (event_ts x) (event_ts r)) seen
       then [r] else []) ++ newest (seen ++ [r]) rows
  end.

(** The state holds the greatest timestamp seen of each entity. *)
Definition greatest (seen : list Row) (st : gmap string string) : Prop :=
  forall k, match st !! k with
  | Some m => (exists x, x ∈ seen /\ entity_id x = k /\ event_ts x = m) /\
              forall x, x ∈ seen -> entity_id x = k -> String.leb (event_ts x) m = true
  | None => forall x, x ∈ seen -> entity_id x <> k
  end.

Lemma leb_refl (s : string) : String.leb s s = true.
Proof. by destruct (String.leb_total s s). Qed.

Lemma forallb_entity (seen : list Row) (r : Row) :
  forallb (fun x => negb (same_entity x r) || String.leb (event_ts x) (event_ts r)) seen = true <->
  forall x, x ∈ seen -> entity_id x = entity_id r -> String.leb (event_ts x) (event_ts r) = true.
Proof.
  rewrite forallb_forall. setoid_rewrite list_elem_of_In. unfold same_entity.
  split; intros K x Hx; specialize (K x Hx).
  - intros E. rewrite E, String.eqb_refl in K. done.
  - destruct (String.eqb_spec (entity_id x) (entity_id r)) as [E|]; [|done]. by apply K.
Qed.

Lemma process_element_greatest (seen : list Row) (st : gmap string string) (r : Row) :
  greatest seen st ->
  greatest (seen ++ [r]) (process_element st r).1 /\
  (process_element st r).2 =
    (if forallb (fun x => negb (same_entity x r) || String.leb (event_ts x) (event_ts r)) seen then [r] else []).
Proof.
  intros G. pose proof (G (entity_id r)) as Gr. unfold process_element.
  assert (Add : forall k, entity_id r <> k -> forall x, x ∈ seen ++ [r] -> entity_id x = k -> x ∈ seen).
  { intros k Hk x Hx E. apply elem_of_app in Hx as [Hx|Hx%list_elem_of_singleton]; [done|by subst]. }
  assert (Other : forall st' : gmap string string, (forall k, entity_id r <> k -> st' !! k = st !! k) ->
    forall k, entity_id r <> k -> match st' !! k with
      | Some m => (exists x, x ∈ seen ++ [r] /\ entity_id x = k /\ event_ts x = m) /\
                  forall x, x ∈ seen ++ [r] -> entity_id x = k -> String.leb (event_ts x) m = true
      | None => forall x, x ∈ seen ++ [r] -> entity_id x <> k end).
  { intros st' E k Hk. rewrite E by done. specialize (G k). destruct (st !! k) as [m|].
    - destruct G as [(x & Hx & Ex) Gm]. split; [exists x; split; [apply elem_of_app; by left|done]|].
      intros y Hy Ey. apply Gm; eauto.
    - intros x Hx Ex. apply (G x); eauto. }
  assert (New : (forall x, x ∈ seen -> entity_id x = entity_id r -> String.leb (event_ts x) (event_ts r) = true) ->
    greatest (seen ++ [r]) (<[entity_id r := event_ts r]> st)).
  { intros K k. destruct (decide (entity_id r = k)) as [<-|Hk].
    - rewrite lookup_insert_eq. split; [exists r; split; [apply elem_of_app; right; by apply list_elem_of_singleton|done]|].
      intros x [Hx|Hx%list_elem_of_singleton]%elem_of_app E; [by apply K|subst; apply leb_refl].
    - apply Other; [|done]. intros k' Hk'. by apply lookup_insert_ne. }
  destruct (st !! entity_id r) as [current|] eqn:E.
  - destruct Gr as [(x0 & Hx0 & E0 & T0) Gm]. destruct (String.leb current (event_ts r)) eqn:L.
    + assert (K : forall x, x ∈ seen -> entity_id x = entity_id r -> String.leb (event_ts x) (event_ts r) = true).
      { intros x Hx Ex. eapply string_leb_trans; [by apply Gm|done]. }
      rewrite (proj2 (forallb_entity seen r) K). split; [by apply New|done].
    + split.
      * intros k. destruct (decide (entity_id r = k)) as [<-|Hk]; [|by apply Other]. cbn [fst]. rewrite E.
        split; [exists x0; split; [apply elem_of_app; by left|done]|].
        intros x [Hx|Hx%list_elem_of_singleton]%elem_of_app Ex; [by apply Gm|]. subst x.
        destruct (String.leb_total current (event_ts r)); congruence.
      * destruct (forallb _ seen) eqn:F; [|done]. rewrite forallb_entity in F.
        specialize (F x0 Hx0 E0). congruence.
  - assert (K : forall x, x ∈ seen -> entity_id x = entity_id r -> String.leb (event_ts x) (event_ts r) = true).
    { intros x Hx Ex. by destruct (Gr x Hx). }
    rewrite (proj2 (forallb_entity seen r) K). split; [by apply New|done].
Qed.

Lemma latest_stream_newest (rows seen : list Row) (st : gmap string string) :
  greatest seen st ->
  greatest (seen ++ rows) (latest_stream st rows).1 /\ (latest_stream st rows).2 = newest seen rows.
Proof.
  revert seen st. induction rows as [|r rows IH]; intros seen st G; [by rewrite app_nil_r|].
  cbn [latest_stream newest]. destruct (process_element_greatest seen st r G) as [G' E].
  destruct (process_element st r) as [st' out]. cbn [fst snd] in G', E. subst out.
  destruct (IH (seen ++ [r]) st' G') as [G'' E']. rewrite <- app_assoc in G''.
  destruct (latest_stream st' rows) as [st'' rest]. cbn [fst snd] in G'', E' |- *. by rewrite E'.
Qed.

Lemma greatest_empty : greatest [] ∅.
Proof. intros k. rewrite lookup_empty. intros x Hx. inversion Hx. Qed.

(** The state the job keeps for each entity is the greatest timestamp of its rows, and
    state.latest receives exactly the rows that no earlier row of their entity exceeds. *)
Theorem latest_is_newest (rows : list Row) :
  greatest rows (latest_stream ∅ rows).1 /\ (latest_stream ∅ rows).2 = newest [] rows.
Proof. apply (latest_stream_newest rows [] ∅), greatest_empty. Qed.

(** The order is that of the texts: with another offset a later instant can be smaller. *)
Definition instant (s : string) : option Z :=
  '(local, offset) ← fromisoformat s; o ← offset; Some (local - o).
Definition row_at (ts : string) : Row :=
  {| entity_id := "WF-001"; source_event_id := ""; event_ts := ts; row_source_topic := "raw.sensor";
     row_mqtt_topic := ""; event_kind := "sensor"; payload_b64 := ""; row_qos := 0; row_retain := false;
     raw_json := "{}" |}.
Lemma latest_misses_later_instant :
  exists early late a b, instant early = Some a /\ instant late = Some b /\ a < b /\
    (latest_stream ∅ [row_at early; row_at late]).2 = [row_at early].
Proof.
  exists "2026-01-01T12:00:00+00:00", "2026-01-01T11:30:00-02:00", 1767268800000000, 1767274200000000.
  split_and!; [vm_compute; reflexivity.. | lia | vm_compute; reflexivity].
Qed.

(** ** Every value goes one way *)
Section Job.
Context `{UnicodeData} (tags topics : list string).
#[local] Notation normalize := (normalize tags topics).
#[local] Notation flat_map_event := (flat_map_event tags topics).

Definition is_record (value : string * string) : bool :=
  match parse_json_record value.2 with Ok (Some _) => true | _ => false end.

Lemma flat_map_cases (value : string * string) (rows : list Row) (invalid : bool) :
  flat_map_event value = Ok rows -> is_invalid value = Ok invalid ->
  if is_record value
  then invalid = false /\ exists r, rows = [r] /\ (row_source_topic r, raw_json r) = value
  else invalid = true /\ rows = [].
Proof.
  destruct value as [t v]. unfold Stream.flat_map_event, is_invalid, is_record. cbn [snd].
  destruct (parse_json_record v) as [[record|]|x]; intros K I.
  - cbn [mbind res_bind] in K, I. res_inv. eauto.
  - cbn [mbind res_bind] in K, I. by simplify_eq.
  - done.
Qed.

(** When the job gets through its stream, every value that is a JSON object gives one
    row of features.events, in order and carrying its text, and every other value goes to
    the dead-letter topic: nothing is dropped or sent twice. *)
Theorem job_conserves (stream : list (string * string)) (o : outputs) :
  run_job tags topics stream = Ok o ->
  map (fun r => (row_source_topic r, raw_json r)) (features o) = List.filter is_record stream /\
  dead o = List.filter (fun v => negb (is_record v)) stream /\
  state_latest o = newest [] (features o).
Proof.
  unfold run_job. intros K. apply bind_Ok in K as ([fs ds] & N & [= <-]). cbn [features dead state_latest].
  enough (map (fun r => (row_source_topic r, raw_json r)) fs = List.filter is_record stream /\
          ds = List.filter (fun v => negb (is_record v)) stream) as [E1 E2].
  { split; [exact E1|]. split; [exact E2|]. apply (latest_stream_newest fs [] ∅), greatest_empty. }
  revert fs ds N. induction stream as [|v stream IH]; intros fs ds N; cbn [Stream.normalize] in N; [by simplify_eq|].
  apply bind_Ok in N as (rows & R & N). apply bind_Ok in N as (invalid & I & N).
  apply bind_Ok in N as ([fs' ds'] & N & [= <- <-]). destruct (IH fs' ds' N) as [E1 E2].
  pose proof (flat_map_cases v rows invalid R I) as C. cbn [List.filter]. rewrite map_app, E1, E2.
  destruct (is_record v); destruct C as [-> C]; [destruct C as (r & -> & <-)|rewrite C]; done.
Qed.
End Job.

(** ** The backfill *)
Section Backfill.
Context `{UnicodeData} (guess_type : string -> option string).

Lemma guess_format_nonempty (key : string) : guess_format key <> "".
Proof. unfold guess_format. destruct (String.eqb_spec (py_lower (after_last_dot (path_name key))) ""); done. Qed.

Lemma build_record_valid (now : Z) (obj : found) (kind topic : string) :
  dget kind TOPIC_BY_MEDIA_KIND = Some topic ->
  f_bucket obj <> "" -> f_key obj <> "" -> f_uri obj <> "" -> f_timestamp obj <> "" -> 0 <= f_size obj ->
  validate_event topic (build_record guess_type now obj kind) = [].
Proof.
  intros K B O U T S. unfold build_record. pose proof (guess_format_nonempty (f_key obj)) as F.
  destruct (guess_format (f_key obj)) as [|c1 s1]; [done|].
  destruct (f_bucket obj) as [|c2 s2]; [done|]. destruct (f_key obj) as [|c3 s3] eqn:E3; [done|].
  destruct (f_uri obj) as [|c4 s4]; [done|]. destruct (f_timestamp obj) as [|c5 s5]; [done|].
  apply dget_Some_In in K. unfold TOPIC_BY_MEDIA_KIND in K.
  destruct (f_size obj) as [|z|z]; [| |lia]; repeat (apply elem_of_cons in K as [[= -> ->]|K]; [reflexivity|]); inversion K.
Qed.

Lemma backfill_one_valid (now : Z) (kind topic : string) (obj : found) :
  validate_event topic (build_record guess_type now obj kind) = [] ->
  backfill_one guess_type now kind topic obj =
  Ok {| sent_topic := topic; sent_key := f_key obj; sent_value := build_record guess_type now obj kind |}.
Proof. intros V. unfold backfill_one. by rewrite V. Qed.

(** A backfill of a media kind publishes one record for each object of the window, in
    the topic of the kind and valid for its contract: no record of it is ever a dead
    letter. *)
Theorem backfill_publishes (now : Z) (kind topic bucket : string) (window : Z * Z) (contents : list s3_object) :
  dget kind TOPIC_BY_MEDIA_KIND = Some topic -> bucket <> "" ->
  (forall item, item ∈ contents -> obj_key item <> "" /\ 0 <= obj_size item) ->
  exists out, backfill guess_type now kind bucket window contents = Ok out /\
    Forall (fun r => sent_topic r = topic /\ validate_event topic (sent_value r) = []) out /\
    map sent_key out = map obj_key (List.filter (in_window window.1 window.2) contents).
Proof.
  intros K B C. unfold backfill, iter_objects_between, dget_or. rewrite K.
  assert (G : forall items, items ⊆ contents -> exists out,
    mapM_res (backfill_one guess_type now kind topic)
      (map (fun item => {| f_bucket := bucket; f_key := obj_key item; f_size := obj_size item;
                           f_timestamp := isoformat (last_modified item);
                           f_uri := ("s3://" ++ bucket ++ "/" ++ obj_key item)%string |}) items) = Ok out /\
    Forall (fun r => sent_topic r = topic /\ validate_event topic (sent_value r) = []) out /\
    map sent_key out = map obj_key items).
  { induction items as [|item items IH]; intros Sub; [by exists []|].
    destruct IH as (out & E & F & M); [set_solver|]. destruct (C item) as [Hk Hs]; [set_solver|].
    assert (V := build_record_valid now {| f_bucket := bucket; f_key := obj_key item; f_size := obj_size item;
        f_timestamp := isoformat (last_modified item);
        f_uri := ("s3://" ++ bucket ++ "/" ++ obj_key item)%string |} kind topic K B Hk ltac:(done)
        (isoformat_nonempty _) Hs).
    cbn [map mapM_res]. rewrite (backfill_one_valid _ _ _ _ V). cbn [mbind res_bind]. rewrite E.
    eexists. split; [reflexivity|]. split; [constructor; [done|exact F]|]. cbn [map sent_key f_key]. by rewrite M. }
  apply G. intros item Hi. apply list_elem_of_In in Hi. apply filter_In in Hi as [Hi _]. by apply list_elem_of_In.
Qed.

(** Consecutive windows neither miss nor repeat an object. *)
Lemma windows_tile (bucket : string) (a b c : Z) (contents : list s3_object) :
  a <= b <= c ->
  iter_objects_between bucket a c contents ≡ₚ
  iter_objects_between bucket a b contents ++ iter_objects_between bucket b c contents.
Proof.
  intros Hb. unfold iter_objects_between. rewrite <- map_app. apply Permutation_map.
  induction contents as [|item contents IH]; [done|]. cbn [List.filter]. unfold in_window in *.
  destruct (Z.leb_spec a (last_modified item)), (Z.ltb_spec (last_modified item) c),
    (Z.ltb_spec (last_modified item) b), (Z.leb_spec b (last_modified item)); try lia; cbn [andb].
  all: try exact IH; try (rewrite IH; cbn [app]; first [reflexivity | apply Permutation_middle]).
Qed.
Lemma resolve_window_ordered (now : Z) (s e m : option Z) (a b : Z) :
  resolve_window now s e m = Ok (a, b) -> a < b.
Proof. unfold resolve_window. intros K. repeat (case_match; simplify_eq); lia. Qed.
End Backfill.

(** ** Examples *)
Module Feed.
#[local] Existing Instance ascii_unicode.
Definition stream : list (string * string) := [("raw.sensor", "{}"); ("raw.gps", "oops")].
Lemma job_conserves_witness :
  exists o, run_job WILDFI_TAG_MARKERS WILDFI_TOPIC_MARKERS stream = Ok o /\
  map (fun r => (row_source_topic r, raw_json r)) (features o) = List.filter is_record stream /\
  dead o = List.filter (fun v => negb (is_record v)) stream /\ state_latest o = newest [] (features o).
Proof.
  eexists. split; [vm_compute; reflexivity|].
  apply (job_conserves WILDFI_TAG_MARKERS WILDFI_TOPIC_MARKERS). vm_compute. reflexivity.
Defined.

Definition frame : s3_object := {| obj_key := "cam-1/frame.JPG"; obj_size := 10; last_modified := 5 |}.
Lemma backfill_publishes_witness :
  exists out, backfill (fun _ => None) 0 "image2d" "media" (0, 10) [frame] = Ok out /\
    Forall (fun r => sent_topic r = RAW_IMAGE2D_META_TOPIC /\
                     validate_event RAW_IMAGE2D_META_TOPIC (sent_value r) = []) out /\
    map sent_key out = map obj_key (List.filter (in_window 0 10) [frame]).
Proof.
  apply (backfill_publishes (fun _ => None) 0 "image2d" RAW_IMAGE2D_META_TOPIC "media" (0, 10) [frame]).
  - reflexivity.
  - discriminate.
  - intros item Hi. apply list_elem_of_singleton in Hi. subst item. split; [discriminate | simpl; lia].
Defined.
Example frame_format : guess_format "cam-1/frame.JPG" = "jpg".
Proof. vm_compute. reflexivity. Qed.
End Feed.
