(* ===== verification/Url.v ===== *)
(** The parts of [urllib.parse] the management console uses: [urlparse] with the
    properties of its result, [unquote] and [parse_qs].

    What a host in brackets may be, and what Unicode normalisation does to a host that is
    not ASCII, is the class [NetlocRules]; it plays no part for other hosts. *)

From S2P Require Import Prelude PyValue Regex PyText.
#[local] Open Scope list_scope.
#[local] Open Scope string_scope.
#[local] Open Scope Z_scope.

Class NetlocRules := {
  (** [_check_bracketed_host] accepts the text between the brackets. *)
  bracketed_host_ok : string -> bool;
  (** [_checknetloc] accepts a network location that is not ASCII. *)
  unicode_netloc_ok : string -> bool;
}.

(** ** Splitting *)
(** [s.partition(c)], if [c] occurs. *)
Fixpoint partition (c : ascii) (s : string) : option (string * string) :=
  match s with
  | "" => None
  | String a r =>
      if Ascii.eqb a c then Some ("", r)
      else match partition c r with Some (x, y) => Some (String a x, y) | None => None end
  end.
(** [s.rpartition(c)], if [c] occurs. *)
Fixpoint rpartition (c : ascii) (s : string) : option (string * string) :=
  match s with
  | "" => None
  | String a r =>
      match rpartition c r with
      | Some (x, y) => Some (String a x, y)
      | None => if Ascii.eqb a c then Some ("", r) else None
      end
  end.
(** The longest prefix without the bytes [stop] selects, and the rest. *)
Fixpoint span (stop : ascii -> bool) (s : string) : string * string :=
  match s with
  | "" => ("", "")
  | String a r => if stop a then ("", s) else let '(x, y) := span stop r in (String a x, y)
  end.
Fixpoint drop_bytes (p : ascii -> bool) (s : string) : string :=
  match s with "" => "" | String a r => if p a then drop_bytes p r else s end.
Fixpoint remove_bytes (p : ascii -> bool) (s : string) : string :=
  match s with "" => "" | String a r => if p a then remove_bytes p r else String a (remove_bytes p r) end.
Definition is_byte (z : Z) (a : ascii) : bool := code a =? z.
Definition alpha : ascii -> bool := por (between "a" "z") (between "A" "Z").
(** [s.removeprefix(p)] for a prefix [s] has. *)
Fixpoint after_prefix (p s : string) : option string :=
  match p, s with
  | "", _ => Some s
  | String a p, String b s => if Ascii.eqb a b then after_prefix p s else None
  | _, _ => None
  end.
Definition removeprefix (p s : string) : string := default s (after_prefix p s).

(** ** urlparse *)
Record url := {
  scheme : string;
  netloc : string;
  path : string;
  params : string;
  query : string;
  fragment : string
}.

Definition c0_or_space (a : ascii) : bool := code a <=? 32.
Definition unsafe_byte (a : ascii) : bool := is_byte 9 a || is_byte 10 a || is_byte 13 a.
Definition scheme_byte : ascii -> bool := por alpha (por (between "0" "9") (one_of "+-.")).
Definition uses_params : list string :=
  [""; "ftp"; "hdl"; "prospero"; "http"; "https"; "shttp"; "rtsp"; "rtsps"; "sip"; "sips"; "mms"; "sftp"; "tel"].

(** The scheme and what follows it. *)
Definition split_scheme (s : string) : string * string :=
  match partition ":" s with
  | Some (String a x, rest) =>
      if alpha a && all_bytes scheme_byte (String a x)
      then (map_bytes lower_ascii (String a x), rest) else ("", s)
  | _ => ("", s)
  end.
Definition split_netloc (s : string) : string * string :=
  match after_prefix "//" s with
  | Some r => span (fun a => one_of "/?#" a) r
  | None => ("", s)
  end.
Definition after_at (s : string) : string := match rpartition "@" s with Some (_, h) => h | None => s end.

Section Parse.
Context `{UnicodeData} `{NetlocRules}.

Definition bracketed_netloc_ok (n : string) : bool :=
  let hp := after_at n in
  match partition "[" hp with
  | Some (before_bracket, bracketed) =>
      let '(hostname, port) := default (bracketed, "") (partition "]" bracketed) in
      String.eqb before_bracket "" && (String.eqb port "" || startswith ":" port) && bracketed_host_ok hostname
  | None => bracketed_host_ok (fst (default (hp, "") (partition ":" hp)))
  end.
(** [urlsplit]'s checks of the network location. *)
Definition netloc_ok (n : string) : bool :=
  (if has_byte 91 n || has_byte 93 n
   then has_byte 91 n && has_byte 93 n && bracketed_netloc_ok n else true) &&
  (all_bytes is_ascii n || unicode_netloc_ok n).

Definition split_on (c : ascii) (s : string) : string * string := default (s, "") (partition c s).
(** [_splitparams]: in the last segment of the path. *)
Definition split_params (s : string) : string * string :=
  match rpartition "/" s with
  | Some (dir, file) =>
      match partition ";" file with Some (f, p) => (dir ++ "/" ++ f, p) | None => (s, "") end
  | None => split_on ";" s
  end.

Definition urlsplit (text : string) : res url :=
  let s := remove_bytes unsafe_byte (drop_bytes c0_or_space text) in
  let '(sch, s) := split_scheme s in
  let '(net, s) := split_netloc s in
  if negb (netloc_ok net) then Raise (ValueError "Invalid URL")
  else
    let '(s, frag) := split_on "#" s in
    let '(s, q) := split_on "?" s in
    Ok {| scheme := sch; netloc := net; path := s; params := ""; query := q; fragment := frag |}.
Definition urlparse (text : string) : res url :=
  u ← urlsplit text;
  let '(p, par) := if mem (scheme u) uses_params then split_params (path u) else (path u, "") in
  Ok {| scheme := scheme u; netloc := netloc u; path := p; params := par; query := query u; fragment := fragment u |}.

(** ** The properties of the result *)
Definition has_userinfo (u : url) : bool := has_byte 64 (netloc u).
(** [_hostinfo]: the host and the text of the port. *)
Definition hostinfo (u : url) : string * option string :=
  let hp := after_at (netloc u) in
  let '(host, port) :=
    match partition "[" hp with
    | Some (_, bracketed) =>
        let '(host, rest) := split_on "]" bracketed in (host, snd (split_on ":" rest))
    | None => split_on ":" hp
    end in
  (host, if String.eqb port "" then None else Some port).
Definition hostname (u : url) : option string :=
  let '(host, _) := hostinfo u in
  if String.eqb host "" then None
  else match partition "%" host with
       | Some (h, zone) => Some (py_lower h ++ "%" ++ zone)
       | None => Some (py_lower host)
       end.
Definition port (u : url) : res (option Z) :=
  match snd (hostinfo u) with
  | None => Ok None
  | Some p =>
      if all_bytes is_digit p && negb (String.eqb p "") then
        if int_max_str_digits <? byte_len p then Raise (ValueError "Exceeds the limit (4300 digits) for integer string conversion")
        else if digits_value p <=? 65535 then Ok (Some (digits_value p))
        else Raise (ValueError "Port out of range 0-65535")
      else Raise (ValueError "Port could not be cast to integer value")
  end.
End Parse.

(** ** unquote *)
Definition hex_value (a : ascii) : option Z :=
  let c := code a in
  if (48 <=? c) && (c <=? 57) then Some (c - 48)
  else if (65 <=? c) && (c <=? 70) then Some (c - 55)
  else if (97 <=? c) && (c <=? 102) then Some (c - 87)
  else None.
(** [unquote_to_bytes]. *)
Fixpoint unquote_bytes (s : string) : string :=
  match s with
  | String a r =>
      if code a =? 37 then
        match r with
        | String h (String l r') =>
            match hex_value h, hex_value l with
            | Some x, Some y => String (byte_of (16 * x + y)) (unquote_bytes r')
            | _, _ => String a (unquote_bytes r)
            end
        | _ => String a (unquote_bytes r)
        end
      else String a (unquote_bytes r)
  | "" => ""
  end.

(** [bytes.decode("utf-8", "replace")]: each maximal prefix of a sequence that cannot be
    completed becomes U+FFFD. *)
Definition replacement : string := bytes [239; 191; 189].
Definition expects (c : Z) : option (list (Z * Z)) :=
  if (194 <=? c) && (c <=? 223) then Some [(128, 191)]
  else if (224 <=? c) && (c <=? 239) then
    Some [(if c =? 224 then 160 else 128, if c =? 237 then 159 else 191); (128, 191)]
  else if (240 <=? c) && (c <=? 244) then
    Some [(if c =? 240 then 144 else 128, if c =? 244 then 143 else 191); (128, 191); (128, 191)]
  else None.
(** [pending] are the bytes of an open sequence, [ranges] what it still expects. *)
Fixpoint decode_replace (pending : string) (ranges : list (Z * Z)) (s : string) : string :=
  match s with
  | "" => if String.eqb pending "" then "" else replacement
  | String a r =>
      let start (z : unit) :=
        if code a <? 128 then String a (decode_replace "" [] r)
        else match expects (code a) with
             | Some ranges => decode_replace (String a "") ranges r
             | None => replacement ++ decode_replace "" [] r
             end in
      match ranges with
      | [] => start tt
      | (lo, hi) :: ranges =>
          if cont_in lo hi a then
            match ranges with
            | [] => (pending ++ String a "") ++ decode_replace "" [] r
            | _ => decode_replace (pending ++ String a "") ranges r
            end
          else replacement ++ start tt
      end
  end.
(** [unquote(s)]: runs of ASCII text are decoded, the rest is kept. *)
Fixpoint unquote_runs (run : string) (s : string) : string :=
  let flush (z : unit) := decode_replace "" [] (unquote_bytes run) in
  match s with
  | "" => flush tt
  | String a r =>
      if is_ascii a then unquote_runs (run ++ String a "") r
      else flush tt ++ String a (unquote_runs "" r)
  end.
Definition unquote (s : string) : string := if has_byte 37 s then unquote_runs "" s else s.

(** ** parse_qs *)
(** [parse_qsl]: blank values are dropped; more than a million fields are not looked for. *)
Definition query_field (field : string) : list (string * string) :=
  match partition "=" field with
  | Some (name, value) =>
      if String.eqb value "" then []
      else [(unquote (map_bytes (fun a => if code a =? 43 then byte_of 32 else a) name),
             unquote (map_bytes (fun a => if code a =? 43 then byte_of 32 else a) value))]
  | None => []
  end.
Definition parse_qsl (qs : string) : list (string * string) :=
  if String.eqb qs "" then [] else flat_map query_field (py_split "&" qs).
(** [parse_qs(qs).get(k, [default])[0]]: the first value of a name. *)
Definition query_first (k : string) (qs : string) : option string := dget k (parse_qsl qs).

(** [quote(s, safe=EMPTY)]. *)
Definition unreserved : ascii -> bool := por alpha (por (between "0" "9") (one_of "_.-~")).
Definition hex_upper (n : Z) : ascii := byte_of (if n <? 10 then 48 + n else 55 + n).
Fixpoint quote (s : string) : string :=
  match s with
  | "" => ""
  | String a r =>
      if unreserved a then String a (quote r)
      else String "%" (String (hex_upper (code a / 16)) (String (hex_upper (code a mod 16)) (quote r)))
  end.

(** ** Lemmas *)
Definition without (c : ascii) (s : string) : Prop := all_bytes (fun a => negb (Ascii.eqb a c)) s = true.
Lemma partition_none (c : ascii) (s : string) : without c s -> partition c s = None.
Proof.
  unfold without. induction s as [|a s IH]; cbn; [done|]. intros [Ha%negb_true_iff Hs]%andb_true_iff.
  by rewrite Ha, IH.
Qed.
Lemma rpartition_none (c : ascii) (s : string) : without c s -> rpartition c s = None.
Proof.
  unfold without. induction s as [|a s IH]; cbn; [done|]. intros [Ha%negb_true_iff Hs]%andb_true_iff.
  by rewrite IH, Ha.
Qed.
Lemma partition_at (c : ascii) (s r : string) : without c s -> partition c (s ++ String c r) = Some (s, r).
Proof.
  unfold without. induction s as [|a s IH]; cbn; [by rewrite Ascii.eqb_refl|].
  intros [Ha%negb_true_iff Hs]%andb_true_iff. by rewrite Ha, IH.
Qed.
Lemma span_app (stop : ascii -> bool) (s r : string) :
  all_bytes (fun a => negb (stop a)) s = true -> span stop (s ++ r) = let '(x, y) := span stop r in ((s ++ x)%string, y).
Proof.
  induction s as [|a s IH]; cbn; [by destruct (span stop r)|]. intros [Ha%negb_true_iff Hs]%andb_true_iff.
  rewrite Ha, IH by done. by destruct (span stop r).
Qed.
Lemma remove_bytes_none (p : ascii -> bool) (s : string) : all_bytes (fun a => negb (p a)) s = true -> remove_bytes p s = s.
Proof.
  induction s as [|a s IH]; cbn; [done|]. intros [Ha%negb_true_iff Hs]%andb_true_iff. by rewrite Ha, IH.
Qed.
Lemma has_byte_without (z : Z) (s : string) : all_bytes (fun a => negb (code a =? z)) s = true -> has_byte z s = false.
Proof.
  unfold has_byte. induction s as [|a s IH]; cbn; [done|]. intros [Ha%negb_true_iff Hs]%andb_true_iff. by rewrite Ha, IH.
Qed.
