(* ===== verification/Ip.v ===== *)
(** The parts of Python's [ipaddress] the deployment scripts and the identity checks use:
    [ip_address], [ip_network] with [strict=True], [overlaps], [subnet_of] and [str].

    An address is its integer.  Only the text of an IPv4-mapped IPv6 address differs between
    the versions of Python the project supports: it is the class [MappedText]. *)

From S2P Require Import Prelude PyValue Regex PyText Url.
#[local] Open Scope list_scope.
#[local] Open Scope string_scope.
#[local] Open Scope Z_scope.

(** ** IPv4 *)
Definition parse_octet (s : string) : option Z :=
  if negb (String.eqb s "") && all_bytes is_digit s && (byte_len s <=? 3)
     && (String.eqb s "0" || negb (startswith "0" s)) && (digits_value s <=? 255)
  then Some (digits_value s) else None.
Definition ipv4_of_string (s : string) : option Z :=
  match map parse_octet (py_split "." s) with
  | [Some a; Some b; Some c; Some d] => Some (16777216 * a + 65536 * b + 256 * c + d)
  | _ => None
  end.
Definition ipv4_text (n : Z) : string :=
  String.concat "." (map py_str_int [n / 16777216; n / 65536 mod 256; n / 256 mod 256; n mod 256]).

(** ** IPv6 *)
Definition is_hex (a : ascii) : bool := bool_decide (is_Some (hex_value a)).
Fixpoint hex_number (n : Z) (s : string) : Z :=
  match s with "" => n | String a r => hex_number (16 * n + default 0 (hex_value a)) r end.
Definition parse_hextet (s : string) : option Z :=
  if all_bytes is_hex s && negb (String.eqb s "") && (byte_len s <=? 4) then Some (hex_number 0 s) else None.
(** [%x] of a hextet. *)
Definition hex_char_lower (n : Z) : ascii := byte_of (if n <? 10 then 48 + n else 87 + n).
Fixpoint hex_text_from (fuel : nat) (n : Z) (acc : string) : string :=
  match fuel with
  | O => acc
  | S fuel => if n <? 16 then String (hex_char_lower n) acc
              else hex_text_from fuel (n / 16) (String (hex_char_lower (n mod 16)) acc)
  end.
Definition hextet_text (n : Z) : string := hex_text_from 4 n "".

(** The parts with an IPv4 suffix made two hextets. *)
Definition expand_suffix (parts : list string) : option (list string) :=
  let last_part := List.last parts "" in
  if has_byte 46 last_part then
    v4 ← ipv4_of_string last_part;
    Some (removelast parts ++ [hextet_text (v4 / 65536); hextet_text (v4 mod 65536)])%list
  else Some parts.
(** The positions of the empty parts between the first and the last. *)
Definition skip_indices (parts : list string) : list nat :=
  List.filter (fun i => String.eqb (nth i parts "") "") (seq 1 (length parts - 2)).
Definition hextets_value (l : list string) : option Z :=
  foldl (fun acc s => a ← acc; h ← parse_hextet s; Some (65536 * a + h)) (Some 0) l.
Definition ipv6_of_string (s : string) : option Z :=
  let parts := py_split ":" s in
  if Nat.ltb (length parts) 3 then None
  else
    parts ← expand_suffix parts;
    if Nat.ltb 9 (length parts) then None
    else
      match skip_indices parts with
      | [] => if Nat.eqb (length parts) 8 then hextets_value parts else None
      | [i] =>
          let hi := take i parts in
          let lo := drop (S i) parts in
          (* an empty first or last part is allowed next to the skipped ones only *)
          hi ← (match hi with "" :: r => if bool_decide (r = []) then Some [] else None | _ => Some hi end);
          lo ← (if String.eqb (List.last lo "x") "" then (if Nat.eqb (length lo) 1 then Some [] else None) else Some lo);
          if Nat.ltb (length hi + length lo) 8 then
            h ← hextets_value hi;
            l ← hextets_value lo;
            Some (h * 2 ^ (16 * (8 - Z.of_nat (length hi))) + l)
          else None
      | _ => None
      end.

(** [_split_scope_id]. *)
Definition split_scope_id (s : string) : option (string * string) :=
  match partition "%" s with
  | None => Some (s, "")
  | Some (addr, scope_id) => if String.eqb scope_id "" || has_byte 37 scope_id then None else Some (addr, scope_id)
  end.

(** The first longest run of zeros: start and length. *)
Fixpoint zero_runs (i : nat) (start len : nat) (best : nat * nat) (l : list string) : nat * nat :=
  match l with
  | [] => best
  | h :: l =>
      if String.eqb h "0" then
        let start := if Nat.eqb len 0 then i else start in
        zero_runs (S i) start (S len) (if Nat.ltb best.2 (S len) then (start, S len) else best) l
      else zero_runs (S i) 0 0 best l
  end.
Definition _compress_hextets (l : list string) : list string :=
  let '(start, len) := zero_runs 0 0 0 (0%nat, 0%nat) l in
  if Nat.ltb 1 len then
    let tail := drop (start + len) l in
    ((if Nat.eqb start 0 then [""] else take start l) ++ [""] ++ (if bool_decide (tail = []) then [""] else tail))%list
  else l.
Definition hextets (n : Z) : list string :=
  map (fun i => hextet_text (n / 2 ^ (16 * Z.of_nat i) mod 65536)) (rev (seq 0 8)).
Class MappedText := mapped_text : Z -> string.
Definition ipv6_text `{MappedText} (n : Z) : string :=
  if n / 4294967296 =? 65535 then mapped_text n else String.concat ":" (_compress_hextets (hextets n)).

(** ** Addresses *)
Record address := { addr_version : Z; addr_value : Z; addr_scope : string }.
Definition ip_address (s : string) : option address :=
  match (if has_byte 47 s then None else ipv4_of_string s) with
  | Some n => Some {| addr_version := 4; addr_value := n; addr_scope := "" |}
  | None =>
      if has_byte 47 s then None
      else
        '(addr, scope) ← split_scope_id s;
        n ← ipv6_of_string addr;
        Some {| addr_version := 6; addr_value := n; addr_scope := scope |}
  end.
Definition address_text `{MappedText} (a : address) : string :=
  if addr_version a =? 4 then ipv4_text (addr_value a)
  else ipv6_text (addr_value a) ++ (if String.eqb (addr_scope a) "" then "" else "%" ++ addr_scope a).

Definition is_ip_address (s : string) : bool := bool_decide (is_Some (ip_address s)).

(** ** Networks *)
Definition max_prefixlen (v : Z) : Z := if v =? 4 then 32 else 128.
Record network := { net_version : Z; net_address : Z; net_prefixlen : Z }.
Definition net_block (n : network) : Z := 2 ^ (max_prefixlen (net_version n) - net_prefixlen n).
Definition broadcast_address (n : network) : Z := net_address n + net_block n - 1.

Definition prefix_from_prefix_string (v : Z) (s : string) : option Z :=
  if negb (String.eqb s "") && all_bytes is_digit s && (byte_len s <=? int_max_str_digits) && (digits_value s <=? max_prefixlen v)
  then Some (digits_value s) else None.
(** [_prefix_from_ip_int]: the prefix whose mask is [n]. *)
Definition prefix_of_mask (n : Z) : option Z :=
  List.find (fun p => n =? 2 ^ 32 - 2 ^ (32 - p)) (map Z.of_nat (seq 0 33)).
Definition prefix_from_ip_string (s : string) : option Z :=
  n ← ipv4_of_string s;
  match prefix_of_mask n with Some p => Some p | None => prefix_of_mask (4294967295 - n) end.
Definition make_netmask (v : Z) (s : string) : option Z :=
  match prefix_from_prefix_string v s with
  | Some p => Some p
  | None => if v =? 4 then prefix_from_ip_string s else None
  end.
(** A network of strict form: no host bits. *)
Definition strict_network (v address : Z) (mask : option string) : option network :=
  p ← (match mask with None => Some (max_prefixlen v) | Some m => make_netmask v m end);
  if address mod 2 ^ (max_prefixlen v - p) =? 0
  then Some {| net_version := v; net_address := address; net_prefixlen := p |} else None.
(** [ip_network(s, strict=True)]: IPv4 first. *)
Definition ip_network (s : string) : res network :=
  let parts :=
    match partition "/" s with
    | None => Some (s, None)
    | Some (addr, mask) => if has_byte 47 mask then None else Some (addr, Some mask)
    end in
  let network :=
    '(addr, mask) ← parts;
    match (n ← ipv4_of_string addr; strict_network 4 n mask) with
    | Some n => Some n
    | None => '(addr, _) ← split_scope_id addr; n ← ipv6_of_string addr; strict_network 6 n mask
    end in
  match network with
  | Some n => Ok n
  | None => Raise (ValueError (s ++ " does not appear to be an IPv4 or IPv6 network"))
  end.

(** [address in network]. *)
Definition address_in (v address : Z) (n : network) : bool :=
  (v =? net_version n) && (address - address mod net_block n =? net_address n).
Definition overlaps (a b : network) : bool :=
  address_in (net_version a) (net_address a) b || address_in (net_version a) (broadcast_address a) b ||
  address_in (net_version b) (net_address b) a || address_in (net_version b) (broadcast_address b) a.
(** [a.subnet_of(b)] for networks of one version. *)
Definition subnet_of (a b : network) : bool :=
  (net_address b <=? net_address a) && (broadcast_address a <=? broadcast_address b).
