(* ===== verification/Registry.v ===== *)
(** The device registry of the IoT management console (management_console/device_registry.py,
    management_console/migrate.py): validation of device payloads, the operations on the
    [devices] table with their SQL statements, and the readiness check.

    The table is a finite map from device ids to rows; a statement is one atomic step on it,
    as PostgreSQL runs it, the CHECK constraints and column widths of
    migrations/0001_device_registry.sql included.  What the database and its driver decide
    (collation, case folding, what a [jsonb] column gives back, which text can be sent) is
    the class [Postgres]. *)

From stdpp Require Import gmap strings sorting.
From S2P Require Import Prelude PyValue Regex Sha256 PyFloat Json PyTime PyText.
#[local] Open Scope list_scope.
#[local] Open Scope string_scope.
#[local] Open Scope Z_scope.

Notation attrs := (list (string * pyval)).

(** ** Validation of payloads *)
Definition upper : ascii -> bool := between "A" "Z".
Definition alnum : ascii -> bool := por (between "A" "Z") (por (between "a" "z") (between "0" "9")).
Definition id_byte : ascii -> bool := por alnum (one_of "._:-").
Definition DEVICE_ID_PATTERN : regex := Seq (Cls alnum) (Rep 0 (Some 127%nat) (Cls id_byte)).
Definition KIND_PATTERN : regex :=
  Seq (Cls (between "a" "z")) (Rep 0 (Some 63%nat) (Cls (por lower_digit (one_of "_-")))).
Definition CAPABILITY_PATTERN : regex := Seq (Cls alnum) (Rep 0 (Some 63%nat) (Cls id_byte)).
Definition ACTIVE_STATUSES : list string := ["provisioning"; "active"; "suspended"].
Definition WRITABLE_FIELDS : list string :=
  ["display_name"; "kind"; "status"; "mqtt_topic"; "capabilities"; "settings"; "labels"].
Definition SENSITIVE_KEY_COMPONENTS : list string :=
  ["auth"; "authorization"; "bearer"; "credential"; "credentials"; "passwd"; "password"; "pwd";
   "secret"; "secrets"; "token"; "tokens"].
Definition SENSITIVE_COMPACT_KEYS : list string :=
  ["accesskey"; "apikey"; "bearertoken"; "clientkey"; "clientsecret"; "privatekey";
   "refreshtoken"; "signingkey"].
Definition SENSITIVE_KEY_SEQUENCES : list (string * string) :=
  [("access", "key"); ("api", "key"); ("client", "key"); ("private", "key"); ("signing", "key")].
Definition MAX_PORT : Z := 65535.
Definition MAX_CONNECT_TIMEOUT_SECONDS : Z := 30.
Definition MAX_MQTT_TOPIC_LENGTH : Z := 512.
Definition MAX_CAPABILITIES : Z := 64.
Definition MAX_LABELS : Z := 64.
Definition MAX_LABEL_KEY_LENGTH : Z := 64.
Definition MAX_LABEL_VALUE_LENGTH : Z := 256.
Definition MAX_PAGE_SIZE : Z := 200.
Definition MAX_SEARCH_LENGTH : Z := 160.

Definition invalid {A} (detail : string) : res A := Raise (DeviceValidationError detail).

Definition _required_string (payload : attrs) (name : string) (maximum : Z) : res string :=
  match vget name payload with
  | PStr value =>
      if String.eqb (py_strip value) "" then invalid (name ++ " must be a non-empty string")
      else
        let normalized := py_strip value in
        if maximum <? py_len normalized
        then invalid (name ++ " exceeds " ++ py_str_int maximum ++ " characters")
        else Ok normalized
  | _ => invalid (name ++ " must be a non-empty string")
  end.

Definition validate_device_id (value : pyval) : res string :=
  match value with
  | PStr s => if fullmatch DEVICE_ID_PATTERN s then Ok s
              else invalid "device_id must match [A-Za-z0-9][A-Za-z0-9._:-]{0,127}"
  | _ => invalid "device_id must match [A-Za-z0-9][A-Za-z0-9._:-]{0,127}"
  end.

Definition _validate_kind (value : pyval) : res string :=
  match value with
  | PStr s => if fullmatch KIND_PATTERN s then Ok s
              else invalid "kind must be a lowercase device type identifier"
  | _ => invalid "kind must be a lowercase device type identifier"
  end.

(** [value not in ACTIVE_STATUSES] hashes the value: a list or a dict raises [TypeError]. *)
Definition _validate_status (value : pyval) : res string :=
  let refuse := invalid "status must be one of provisioning, active or suspended; use DELETE to retire" in
  match value with
  | PStr s => if mem s ACTIVE_STATUSES then Ok s else refuse
  | PList _ | PDict _ => Raise TypeError
  | _ => refuse
  end.

Definition _validate_mqtt_topic (value : pyval) : res (option string) :=
  match value with
  | PNone => Ok None
  | PStr s =>
      let normalized := py_strip s in
      if String.eqb normalized "" || (MAX_MQTT_TOPIC_LENGTH <? py_len normalized) || has_byte 0 normalized
      then invalid "mqtt_topic must contain between 1 and 512 safe characters"
      else Ok (Some normalized)
  | _ => invalid "mqtt_topic must be a string or null"
  end.

Definition add_capability (capabilities : list string) (capability : pyval) : res (list string) :=
  match capability with
  | PStr s =>
      if fullmatch CAPABILITY_PATTERN s
      then Ok (if mem s capabilities then capabilities else (capabilities ++ [s])%list)
      else invalid "capabilities contain an invalid identifier"
  | _ => invalid "capabilities contain an invalid identifier"
  end.
Definition _validate_capabilities (value : pyval) : res (list string) :=
  match value with
  | PList l =>
      if MAX_CAPABILITIES <? Z.of_nat (length l)
      then invalid "capabilities must be an array containing at most 64 values"
      else foldM_res add_capability [] l
  | _ => invalid "capabilities must be an array containing at most 64 values"
  end.

(** [re.sub(r"(?<=[a-z0-9])(?=[A-Z])", "_", s)]. *)
Fixpoint snake (s : string) : string :=
  match s with
  | String a ((String b _) as r) =>
      if lower_digit a && upper b then String a (String "_" (snake r)) else String a (snake r)
  | _ => s
  end.
(** [re.sub(r"[^a-z0-9]+", "_", s)]; [inside] is true within a run. *)
Fixpoint squash (inside : bool) (s : string) : string :=
  match s with
  | "" => ""
  | String a r =>
      if lower_digit a then String a (squash false r)
      else if inside then squash true r else String "_" (squash true r)
  end.
(** [s.replace("_", EMPTY)]. *)
Fixpoint remove_underscores (s : string) : string :=
  match s with
  | "" => ""
  | String a r => if Ascii.eqb a "_" then remove_underscores r else String a (remove_underscores r)
  end.
Fixpoint pairwise (l : list string) : list (string * string) :=
  match l with
  | a :: ((b :: _) as r) => (a, b) :: pairwise r
  | _ => []
  end.

Section Keys.
Context `{CaseFold}.

Definition normalized_key (raw_key : string) : string :=
  strip_chars (String.eqb "_") (squash false (py_casefold (snake raw_key))).
Definition key_components (raw_key : string) : list string :=
  List.filter (fun part => negb (String.eqb part "")) (py_split "_" (normalized_key raw_key)).
Definition sensitive (raw_key : string) : bool :=
  existsb (fun part => mem part SENSITIVE_KEY_COMPONENTS) (key_components raw_key)
  || mem (remove_underscores (normalized_key raw_key)) SENSITIVE_COMPACT_KEYS
  || existsb (fun p => bool_decide (p ∈ SENSITIVE_KEY_SEQUENCES)) (pairwise (key_components raw_key)).

Fixpoint _reject_sensitive_keys (value : pyval) (path : string) : res unit :=
  match value with
  | PDict d =>
      (fix go (d : attrs) : res unit :=
         match d with
         | [] => Ok tt
         | (raw_key, nested) :: d =>
             let here := path ++ "." ++ raw_key in
             if sensitive raw_key then invalid (here ++ " must be stored in a secret manager")
             else _ ← _reject_sensitive_keys nested here; go d
         end) d
  | PList l =>
      (fix go (index : Z) (l : list pyval) : res unit :=
         match l with
         | [] => Ok tt
         | nested :: l =>
             _ ← _reject_sensitive_keys nested (path ++ "[" ++ py_str_int index ++ "]");
             go (index + 1) l
         end) 0 l
  | _ => Ok tt
  end.

Definition _validate_object (value : pyval) (name : string) : res attrs :=
  match value with
  | PDict d => _ ← _reject_sensitive_keys value name; Ok d
  | _ => invalid (name ++ " must be a JSON object")
  end.

Definition label_invalid (kv : string * pyval) : bool :=
  (MAX_LABEL_KEY_LENGTH <? py_len kv.1) ||
  match kv.2 with PStr s => MAX_LABEL_VALUE_LENGTH <? py_len s | _ => true end.
Definition _validate_labels (value : pyval) : res attrs :=
  labels ← _validate_object value "labels";
  if MAX_LABELS <? Z.of_nat (length labels) then invalid "labels must contain at most 64 entries"
  else if existsb label_invalid labels then invalid "label keys and values exceed their allowed format"
  else Ok labels.

(** The entries of [validators], in order, with their results as the values they put in
    [validated]. *)
Definition validators : list (string * (pyval -> res pyval)) :=
  [("display_name", fun v => PStr <$> _required_string [("value", v)] "value" 160);
   ("kind", fun v => PStr <$> _validate_kind v);
   ("status", fun v => PStr <$> _validate_status v);
   ("mqtt_topic", fun v => from_option PStr PNone <$> _validate_mqtt_topic v);
   ("capabilities", fun v => (fun l => PList (map PStr l)) <$> _validate_capabilities v);
   ("settings", fun v => PDict <$> _validate_object v "settings");
   ("labels", fun v => PDict <$> _validate_labels v)].

Definition run_validator (payload validated : attrs) (nv : string * (pyval -> res pyval)) : res attrs :=
  match dget nv.1 payload with
  | Some v => w ← nv.2 v; Ok (dset nv.1 w validated)
  | None => Ok validated
  end.
Definition setdefault (k : string) (v : pyval) (d : attrs) : attrs :=
  if has_key k d then d else dset k v d.

Definition _validate_fields (payload : attrs) (partial : bool) : res attrs :=
  let unknown := py_sorted (set_diff (set_diff (keys payload) WRITABLE_FIELDS)
                                     (if partial then [] else ["device_id"])) in
  if negb (bool_decide (unknown = [])) then invalid ("unknown fields: " ++ String.concat ", " unknown)
  else
    validated ← foldM_res (run_validator payload) [] validators;
    if partial then
      match validated with
      | [] => invalid "PATCH must contain at least one writable field"
      | _ => Ok validated
      end
    else
      device_id ← validate_device_id (vget "device_id" payload);
      let validated := dset "device_id" (PStr device_id) validated in
      if negb (has_key "display_name" validated) then invalid "display_name is required"
      else if negb (has_key "kind" validated) then invalid "kind is required"
      else Ok (setdefault "labels" (PDict []) (setdefault "settings" (PDict [])
             (setdefault "capabilities" (PList []) (setdefault "mqtt_topic" PNone
             (setdefault "status" (PStr "provisioning") validated))))).

Definition validate_create_payload (payload : attrs) : res attrs := _validate_fields payload false.
Definition validate_patch_payload (payload : attrs) : res attrs := _validate_fields payload true.
End Keys.

(** ** The database *)
(** A row of [public.devices] without its key. *)
Record device := {
  display_name : string;
  kind : string;
  status : string;
  mqtt_topic : option string;
  capabilities : pyval;
  settings : pyval;
  labels : pyval;
  revision : Z;
  created_at : Z;
  updated_at : Z;
  retired_at : option Z;
  created_by : string;
  updated_by : string
}.
Notation table := (gmap string device).

Class Postgres := {
  (** [a <= b] in the collation of [device_id]. *)
  collate : string -> string -> bool;
  (** Lower case of a character, as ILIKE compares them. *)
  fold_char : string -> string;
  (** The value a [jsonb] column gives back for [Jsonb(value)]. *)
  jsonb : pyval -> res pyval;
  (** A [str] as a query parameter. *)
  text_param : string -> res string;
  (** [isoformat()] of the [datetime] the driver makes of an instant. *)
  show_time : Z -> string;
}.

(** The collation is a total order, the driver sends text as it is or raises, and the
    database has no JSON keys of its own. *)
Fixpoint all_keys (v : pyval) : list string :=
  match v with
  | PDict d => flat_map (fun kv => kv.1 :: all_keys kv.2) d
  | PList l => flat_map all_keys l
  | _ => []
  end.
Class PostgresLaws `{Postgres} := {
  collate_total a b : collate a b = true \/ collate b a = true;
  collate_trans a b c : collate a b = true -> collate b c = true -> collate a c = true;
  collate_antisym a b : collate a b = true -> collate b a = true -> a = b;
  text_param_id s t : text_param s = Ok t -> t = s;
  jsonb_keys v w : jsonb v = Ok w -> all_keys w ⊆ all_keys v;
}.

Definition bigint_max : Z := 2 ^ 63 - 1.
(** [varchar(n)] columns and CHECK constraints of the migration. *)
Definition checks (device_id : string) (d : device) : bool :=
  (py_len device_id <=? 128) && (py_len (display_name d) <=? 160) && (py_len (kind d) <=? 64) &&
  (py_len (status d) <=? 24) && (from_option py_len 0 (mqtt_topic d) <=? 512) &&
  (py_len (created_by d) <=? 255) && (py_len (updated_by d) <=? 255) &&
  fullmatch DEVICE_ID_PATTERN device_id && fullmatch KIND_PATTERN (kind d) &&
  mem (status d) ["provisioning"; "active"; "suspended"; "retired"] &&
  (0 <? revision d) && (revision d <=? bigint_max) &&
  Bool.eqb (String.eqb (status d) "retired") (bool_decide (is_Some (retired_at d))).

Definition live (d : device) : bool := match retired_at d with None => true | Some _ => false end.

(** [INSERT ... ON CONFLICT (device_id) DO NOTHING RETURNING ...]. *)
Definition insert_device (device_id : string) (d : device) : M table (option device) :=
  fun t =>
    if negb (checks device_id d) then (Raise PsycopgError, t)
    else match t !! device_id with
         | Some _ => (Ok None, t)
         | None => (Ok (Some d), <[device_id := d]> t)
         end.
(** [UPDATE ... SET ... WHERE device_id = %s AND revision = %s AND retired_at IS NULL
    RETURNING ...]; the condition is evaluated on the row the update locks. *)
Definition update_where (device_id : string) (expected : Z) (set : device -> device) : M table (option device) :=
  fun t =>
    match t !! device_id with
    | Some d =>
        if (revision d =? expected) && live d then
          if negb (checks device_id (set d)) then (Raise PsycopgError, t)
          else (Ok (Some (set d)), <[device_id := set d]> t)
        else (Ok None, t)
    | None => (Ok None, t)
    end.
(** [SELECT ... WHERE device_id = %s AND retired_at IS NULL]. *)
Definition select_live (device_id : string) : M table (option device) :=
  fun t => (Ok (d ← t !! device_id; if live d then Some d else None), t).

(** [database_connection]: the connection may fail, and so may the commit, whose effect is
    then unknown; an exception of the body rolls it back. *)
Inductive link := Down | Up | Lost (applied : bool).
Definition database_connection {A} (l : link) (body : M table A) : M table A :=
  fun t =>
    match l with
    | Down => (Raise (RegistryUnavailableError "the PostgreSQL registry is unavailable"), t)
    | _ =>
        match body t with
        | (Ok a, t') =>
            match l with
            | Lost applied => (Raise (RegistryUnavailableError "the PostgreSQL registry operation failed"),
                               if applied then t' else t)
            | _ => (Ok a, t')
            end
        | (Raise UniqueViolation, _) => (Raise (DeviceConflictError "device_id already exists"), t)
        | (Raise PsycopgError, _) =>
            (Raise (RegistryUnavailableError "the PostgreSQL registry operation failed"), t)
        | (Raise e, _) => (Raise e, t)
        end
    end.

(** ** Operations *)
Definition _actor (value : string) : res string :=
  let normalized := py_strip value in
  if String.eqb normalized "" then invalid "the authenticated principal has no stable subject"
  else Ok (py_take 255 normalized).

Section Operations.
Context `{CaseFold} `{Postgres}.

Definition _serialize_timestamp (value : option Z) : pyval :=
  match value with None => PNone | Some t => PStr (show_time t) end.
Definition serialize_device (device_id : string) (d : device) : attrs :=
  [("device_id", PStr device_id); ("display_name", PStr (display_name d)); ("kind", PStr (kind d));
   ("status", PStr (status d)); ("mqtt_topic", from_option PStr PNone (mqtt_topic d));
   ("capabilities", capabilities d); ("settings", settings d); ("labels", labels d);
   ("revision", PInt (revision d)); ("created_at", _serialize_timestamp (Some (created_at d)));
   ("updated_at", _serialize_timestamp (Some (updated_at d)));
   ("retired_at", _serialize_timestamp (retired_at d));
   ("created_by", PStr (created_by d)); ("updated_by", PStr (updated_by d))].

(** Parameters of a statement, from the validated dict. *)
Definition bind_text (k : string) (values : attrs) : res string :=
  match dget k values with
  | Some (PStr s) => text_param s
  | Some _ => Raise TypeError
  | None => Raise (KeyError k)
  end.
Definition bind_opt_text (k : string) (values : attrs) : res (option string) :=
  match dget k values with
  | Some PNone => Ok None
  | _ => Some <$> bind_text k values
  end.
Definition bind_jsonb (k : string) (values : attrs) : res pyval :=
  match dget k values with Some v => jsonb v | None => Raise (KeyError k) end.

(** The parameters of the INSERT: the row it proposes. *)
Definition insert_values (values : attrs) (now : Z) (principal : string) : res (string * device) :=
  device_id ← bind_text "device_id" values;
  name ← bind_text "display_name" values;
  k ← bind_text "kind" values;
  s ← bind_text "status" values;
  topic ← bind_opt_text "mqtt_topic" values;
  caps ← bind_jsonb "capabilities" values;
  sets ← bind_jsonb "settings" values;
  labs ← bind_jsonb "labels" values;
  by_ ← text_param principal;
  Ok (device_id,
      {| display_name := name; kind := k; status := s; mqtt_topic := topic; capabilities := caps;
         settings := sets; labels := labs; revision := 1; created_at := now; updated_at := now;
         retired_at := None; created_by := by_; updated_by := by_ |}).

Definition create_device (l : link) (now : Z) (payload : attrs) (actor : string) : M table attrs :=
  values ← lift (validate_create_payload payload);
  principal ← lift (_actor actor);
  identifier ← lift (match dget "device_id" values with Some (PStr s) => Ok s | _ => Raise (KeyError "device_id") end);
  row ← database_connection l (
    proposed ← lift (insert_values values now principal);
    insert_device proposed.1 proposed.2);
  match row with
  | None => raise (DeviceConflictError identifier)
  | Some d => mret (serialize_device identifier d)
  end.

Definition get_device (l : link) (device_id : string) : M table attrs :=
  identifier ← lift (validate_device_id (PStr device_id));
  row ← database_connection l (select_live identifier);
  match row with
  | None => raise (DeviceNotFoundError identifier)
  | Some d => mret (serialize_device identifier d)
  end.

(** Always raises. *)
Definition _assert_existing_revision (device_id : string) (revision_ : Z) : M table device :=
  row ← select_live device_id;
  match row with
  | None => raise (DeviceNotFoundError device_id)
  | Some d => raise (RevisionConflictError
      ("expected revision " ++ py_str_int (revision d) ++ ", received " ++ py_str_int revision_))
  end.

(** [name = %s] for one writable column, with its parameter bound. *)
Definition assignment (values : attrs) (name : string) : res (device -> device) :=
  if negb (has_key name values) then Ok (fun d => d)
  else if String.eqb name "display_name" then
    v ← bind_text name values; Ok (fun d =>
      {| display_name := v; kind := kind d; status := status d; mqtt_topic := mqtt_topic d;
         capabilities := capabilities d; settings := settings d; labels := labels d; revision := revision d;
         created_at := created_at d; updated_at := updated_at d; retired_at := retired_at d;
         created_by := created_by d; updated_by := updated_by d |})
  else if String.eqb name "kind" then
    v ← bind_text name values; Ok (fun d =>
      {| display_name := display_name d; kind := v; status := status d; mqtt_topic := mqtt_topic d;
         capabilities := capabilities d; settings := settings d; labels := labels d; revision := revision d;
         created_at := created_at d; updated_at := updated_at d; retired_at := retired_at d;
         created_by := created_by d; updated_by := updated_by d |})
  else if String.eqb name "status" then
    v ← bind_text name values; Ok (fun d =>
      {| display_name := display_name d; kind := kind d; status := v; mqtt_topic := mqtt_topic d;
         capabilities := capabilities d; settings := settings d; labels := labels d; revision := revision d;
         created_at := created_at d; updated_at := updated_at d; retired_at := retired_at d;
         created_by := created_by d; updated_by := updated_by d |})
  else if String.eqb name "mqtt_topic" then
    v ← bind_opt_text name values; Ok (fun d =>
      {| display_name := display_name d; kind := kind d; status := status d; mqtt_topic := v;
         capabilities := capabilities d; settings := settings d; labels := labels d; revision := revision d;
         created_at := created_at d; updated_at := updated_at d; retired_at := retired_at d;
         created_by := created_by d; updated_by := updated_by d |})
  else
    v ← bind_jsonb name values; Ok (fun d =>
      {| display_name := display_name d; kind := kind d; status := status d; mqtt_topic := mqtt_topic d;
         capabilities := if String.eqb name "capabilities" then v else capabilities d;
         settings := if String.eqb name "settings" then v else settings d;
         labels := if String.eqb name "labels" then v else labels d;
         revision := revision d;
         created_at := created_at d; updated_at := updated_at d; retired_at := retired_at d;
         created_by := created_by d; updated_by := updated_by d |}).

Definition touched (now : Z) (by_ : string) (d : device) : device :=
  {| display_name := display_name d; kind := kind d; status := status d; mqtt_topic := mqtt_topic d;
     capabilities := capabilities d; settings := settings d; labels := labels d;
     revision := revision d + 1; created_at := created_at d; updated_at := now;
     retired_at := retired_at d; created_by := created_by d; updated_by := by_ |}.

(** The SET clause: the assignments of the writable columns given, then the three the
    code appends. *)
Definition set_clause (values : attrs) (now : Z) (principal : string) : res (device -> device) :=
  fs ← mapM_res (assignment values) WRITABLE_FIELDS;
  by_ ← text_param principal;
  Ok (fun d => touched now by_ (fold_left (fun d f => f d) fs d)).

Definition update_device (l : link) (now : Z) (device_id : string) (payload : attrs) (actor : string)
    (revision_ : Z) : M table attrs :=
  identifier ← lift (validate_device_id (PStr device_id));
  values ← lift (validate_patch_payload payload);
  principal ← lift (_actor actor);
  row ← database_connection l (
    set ← lift (set_clause values now principal);
    row ← update_where identifier revision_ set;
    match row with
    | None => _assert_existing_revision identifier revision_
    | Some d => mret d
    end);
  mret (serialize_device identifier row).

Definition retired (now : Z) (by_ : string) (d : device) : device :=
  {| display_name := display_name d; kind := kind d; status := "retired"; mqtt_topic := mqtt_topic d;
     capabilities := capabilities d; settings := settings d; labels := labels d;
     revision := revision d + 1; created_at := created_at d; updated_at := now;
     retired_at := Some now; created_by := created_by d; updated_by := by_ |}.
Definition retire_device (l : link) (now : Z) (device_id : string) (actor : string) (revision_ : Z) : M table Z :=
  identifier ← lift (validate_device_id (PStr device_id));
  principal ← lift (_actor actor);
  row ← database_connection l (
    by_ ← lift (text_param principal);
    row ← update_where identifier revision_ (retired now by_);
    match row with
    | None => _assert_existing_revision identifier revision_
    | Some d => mret d
    end);
  mret (revision row).
End Operations.

(** ** Listing *)
(** [s.replace(c, r)] for a one-byte [c]. *)
Fixpoint replace_byte (c : ascii) (r : string) (s : string) : string :=
  match s with
  | "" => ""
  | String a t => if Ascii.eqb a c then r ++ replace_byte c r t else String a (replace_byte c r t)
  end.
Definition backslash : ascii := byte_of 92.
Definition escaped_by_backslash (c : ascii) : string := String backslash (String c "").
Definition escape_like (q : string) : string :=
  replace_byte "_" (escaped_by_backslash "_")
    (replace_byte "%" (escaped_by_backslash "%")
       (replace_byte backslash (escaped_by_backslash backslash) q)).

(** LIKE with [ESCAPE '\']: [%] is any text, [_] any character; a pattern must not end
    with the escape character. *)
Inductive like_item := AnyText | AnyChar | Char (c : string).
Fixpoint parse_like (p : list string) : option (list like_item) :=
  match p with
  | [] => Some []
  | c :: p =>
      if String.eqb c (String backslash "") then
        match p with
        | [] => None
        | c :: p => cons (Char c) <$> parse_like p
        end
      else if String.eqb c "%" then cons AnyText <$> parse_like p
      else if String.eqb c "_" then cons AnyChar <$> parse_like p
      else cons (Char c) <$> parse_like p
  end.
Fixpoint like (p : list like_item) : list string -> bool :=
  match p with
  | [] => fun s => match s with [] => true | _ => false end
  | AnyText :: p =>
      fix any (s : list string) : bool :=
        like p s || match s with [] => false | _ :: s => any s end
  | AnyChar :: p => fun s => match s with [] => false | _ :: s => like p s end
  | Char c :: p => fun s => match s with [] => false | d :: s => String.eqb c d && like p s end
  end.

Record query_filter := {
  by_status : option string;
  by_kind : option string;
  by_text : option (list like_item);
  after : option string
}.

Section Listing.
Context `{Postgres}.

Definition folded (s : string) : list string := map fold_char (pychars s).
Definition ilike (p : list like_item) (s : string) : bool := like p (folded s).

(** The WHERE clause. *)
Definition selects (f : query_filter) (row : string * device) : bool :=
  live row.2 &&
  from_option (String.eqb (status row.2)) true (by_status f) &&
  from_option (String.eqb (kind row.2)) true (by_kind f) &&
  from_option (fun p => ilike p row.1 || ilike p (display_name row.2)) true (by_text f) &&
  from_option (fun c => negb (collate row.1 c)) true (after f).

Definition row_le (a b : string * device) : Prop := collate a.1 b.1 = true.
#[export] Instance row_le_dec a b : Decision (row_le a b).
Proof. unfold row_le. apply _. Defined.
(** [SELECT ... WHERE ... ORDER BY device_id ASC LIMIT n]. *)
Definition select_page (f : query_filter) (n : nat) : M table (list (string * device)) :=
  fun t => (Ok (take n (merge_sort row_le (List.filter (selects f) (map_to_list t)))), t).

Definition opt_map_res {A B} (f : A -> res B) (o : option A) : res (option B) :=
  match o with None => Ok None | Some a => Some <$> f a end.
Definition search_pattern (query : string) : res string :=
  let normalized_query := py_strip query in
  if String.eqb normalized_query "" || (MAX_SEARCH_LENGTH <? py_len normalized_query)
  then invalid "q must contain between 1 and 160 characters"
  else Ok ("%" ++ escape_like normalized_query ++ "%").
(** Sends the pattern and has the database parse it. *)
Definition bind_pattern (search : string) : res (list like_item) :=
  s ← text_param search;
  match parse_like (folded s) with Some p => Ok p | None => Raise PsycopgError end.

Definition page_payload (rows : list (string * device)) (limit : Z) : list attrs * option string :=
  let has_more := limit <? Z.of_nat (length rows) in
  let selected := take (Z.to_nat limit) rows in
  (map (fun r => serialize_device r.1 r.2) selected,
   if has_more then fst <$> last selected else None).

(** The devices of a page and its [next_cursor]. *)
Definition list_devices (l : link) (status_ kind_ query : option string) (limit : Z)
    (cursor : option string) : M table (list attrs * option string) :=
  if negb ((1 <=? limit) && (limit <=? MAX_PAGE_SIZE))
  then raise (DeviceValidationError "limit must be between 1 and 200")
  else
    s ← lift (opt_map_res (fun s => _validate_status (PStr s)) status_);
    k ← lift (opt_map_res (fun k => _validate_kind (PStr k)) kind_);
    search ← lift (opt_map_res search_pattern query);
    c ← lift (opt_map_res (fun c => validate_device_id (PStr c)) cursor);
    rows ← database_connection l (
      p ← lift (opt_map_res bind_pattern search);
      select_page {| by_status := s; by_kind := k; by_text := p; after := c |} (Z.to_nat (limit + 1)));
    mret (page_payload rows limit).
End Listing.

(** ** Configuration, migrations and readiness *)
Section Environment.
Context `{UnicodeData} (env : string -> option string).

Definition getenv_strip (name default_ : string) : string := py_strip (default default_ (env name)).
Definition database_is_configured : bool :=
  negb (String.eqb (getenv_strip "DEALIOT_REGISTRY_DATABASE_HOST" "") "").

Definition names : list (string * string) :=
  [("host", "DEALIOT_REGISTRY_DATABASE_HOST"); ("dbname", "DEALIOT_REGISTRY_DATABASE_NAME");
   ("user", "DEALIOT_REGISTRY_DATABASE_USER"); ("password", "DEALIOT_REGISTRY_DATABASE_PASSWORD")].
Definition database_parameters : res attrs :=
  let values := map (fun kn => (kn.1, getenv_strip kn.2 "")) names in
  let missing := py_sorted (map snd (List.filter (fun kn => String.eqb (getenv_strip kn.2 "") "") names)) in
  if negb (bool_decide (missing = []))
  then Raise (RegistryUnavailableError ("incomplete database configuration: " ++ String.concat ", " missing))
  else
    match py_int (default "5432" (env "DEALIOT_REGISTRY_DATABASE_PORT")),
          py_int (default "3" (env "DEALIOT_REGISTRY_DATABASE_CONNECT_TIMEOUT")) with
    | Some port, Some connect_timeout =>
        if negb ((1 <=? port) && (port <=? MAX_PORT)) ||
           negb ((1 <=? connect_timeout) && (connect_timeout <=? MAX_CONNECT_TIMEOUT_SECONDS))
        then Raise (RegistryUnavailableError "database port or timeout is outside its allowed range")
        else
          let sslmode := getenv_strip "DEALIOT_REGISTRY_DATABASE_SSLMODE" "prefer" in
          let sslrootcert := getenv_strip "DEALIOT_REGISTRY_DATABASE_SSLROOTCERT" "" in
          Ok (map (fun kv => (kv.1, PStr kv.2)) values ++
              [("port", PInt port); ("connect_timeout", PInt connect_timeout);
               ("sslmode", PStr (if String.eqb sslmode "" then "prefer" else sslmode));
               ("application_name", PStr "dealiot-management-console");
               ("options", PStr "-c search_path=pg_catalog,public")] ++
              (if String.eqb sslrootcert "" then [] else [("sslrootcert", PStr sslrootcert)]))%list
    | _, _ => Raise (RegistryUnavailableError "database port and timeout must be integers")
    end.
End Environment.

(** The files of [MIGRATIONS_DIR], by name, with their text. *)
Definition digit_cls : regex := Cls is_digit.
Definition MIGRATION_GLOB : regex :=
  Seq (Rep 4 (Some 4%nat) digit_cls) (Seq (lit "_") (Seq (star (Cls (fun _ => true))) (lit ".sql"))).
Definition MIGRATION_VERSION_PATTERN : regex :=
  Seq (Rep 4 (Some 4%nat) digit_cls) (Seq (lit "_") (Seq (Cls alnum)
    (Seq (star (Cls (por alnum (one_of "_-")))) (lit ".sql")))).
Definition MIGRATION_CHECKSUM_PATTERN : regex := Rep 64 (Some 64%nat) (Cls hex_lower).

Definition file_le (a b : string * string) : Prop := String.leb a.1 b.1 = true.
#[export] Instance file_le_dec a b : Decision (file_le a b).
Proof. unfold file_le. apply _. Defined.
Definition sorted_files (files : list (string * string)) : list (string * string) :=
  merge_sort file_le
    (List.filter (fun f => fullmatch MIGRATION_GLOB f.1) files).
Definition required_migrations (files : list (string * string)) : res (list (string * string)) :=
  match map (fun f => (f.1, sha256_hex f.2)) (sorted_files files) with
  | [] => Raise (RegistryUnavailableError "no DEALIoT registry migrations were packaged")
  | m => Ok m
  end.
Definition required_migration_versions (files : list (string * string)) : res (list string) :=
  keys <$> required_migrations files.

(** What the queries of [check_readiness] return. *)
Record schema_state := {
  devices_table : option string;
  migrations_table : option string;
  (** name, type, maximum length, nullable *)
  column_rows : list (string * (string * option Z * bool));
  constraint_rows : list (string * string);
  index_rows : list string;
  (** In the order of application. *)
  applied_rows : list (string * string);
  privileges : option (list (string * bool))
}.
Definition REQUIRED_DEVICE_COLUMN_FINGERPRINT : list (string * (string * option Z * bool)) :=
  [("device_id", ("varchar", Some 128, false)); ("display_name", ("varchar", Some 160, false));
   ("kind", ("varchar", Some 64, false)); ("status", ("varchar", Some 24, false));
   ("mqtt_topic", ("varchar", Some 512, true)); ("capabilities", ("jsonb", None, false));
   ("settings", ("jsonb", None, false)); ("labels", ("jsonb", None, false));
   ("revision", ("int8", None, false)); ("created_at", ("timestamptz", None, false));
   ("updated_at", ("timestamptz", None, false)); ("retired_at", ("timestamptz", None, true));
   ("created_by", ("varchar", Some 255, false)); ("updated_by", ("varchar", Some 255, false))].
Definition REQUIRED_DEVICE_CONSTRAINTS : list (string * string) :=
  [("devices_pkey", "p"); ("devices_device_id_format", "c"); ("devices_kind_format", "c");
   ("devices_status_valid", "c"); ("devices_revision_positive", "c");
   ("devices_retirement_consistent", "c")].
Definition REQUIRED_DEVICE_INDEXES : list string :=
  ["devices_pkey"; "devices_status_device_id_idx"; "devices_kind_device_id_idx"; "devices_updated_at_idx"].
Definition expected_privileges : list (string * bool) :=
  [("has_schema_usage", true); ("has_schema_create", false); ("has_device_select", true);
   ("has_device_insert", true); ("has_device_update", true); ("has_device_delete", false);
   ("has_device_truncate", false); ("has_device_references", false); ("has_device_trigger", false);
   ("has_migration_select", true); ("has_migration_insert", false); ("has_migration_update", false);
   ("has_migration_delete", false); ("has_migration_truncate", false); ("owns_schema", false);
   ("owns_devices", false); ("owns_migrations", false)].

Definition unavailable {A} (detail : string) : res A := Raise (RegistryUnavailableError detail).
(** The names required with a value the observed dict does not give them. *)
Definition mismatched {A} `{EqDecision A} (observed required : list (string * A)) : list string :=
  keys (List.filter (fun kv => negb (bool_decide (dget kv.1 observed = Some kv.2))) required).
Definition least_privilege (row : option (list (string * bool))) : bool :=
  match row with
  | None => false
  | Some row => forallb (fun kv => bool_decide (dget kv.1 row = Some kv.2)) expected_privileges
  end.

(** The part of [check_readiness] on the ledger of migrations. *)
Definition check_ledger (expected applied : list (string * string)) : res unit :=
  let missing := py_sorted (set_diff (keys expected) (keys applied)) in
  if negb (bool_decide (missing = []))
  then unavailable ("the DEALIoT registry schema is behind: " ++ String.concat ", " missing)
  else
    let changed := py_sorted (mismatched (dict_of_pairs applied) expected) in
    if negb (bool_decide (changed = []))
    then unavailable ("the DEALIoT registry migration checksum changed: " ++ String.concat ", " changed)
    else
      let expected_versions := keys expected in
      let applied_versions := keys applied in
      if negb (bool_decide (take (length expected_versions) applied_versions = expected_versions))
      then unavailable "the DEALIoT registry migration order does not match the packaged migration prefix"
      else
        let forward_rows := drop (length expected_versions) applied in
        let forward_versions := keys forward_rows in
        let malformed := keys (List.filter (fun r =>
            negb (fullmatch MIGRATION_VERSION_PATTERN r.1) || negb (fullmatch MIGRATION_CHECKSUM_PATTERN r.2))
            forward_rows) in
        if negb (bool_decide (malformed = []))
        then unavailable ("the DEALIoT registry has invalid forward migration metadata: " ++ String.concat ", " malformed)
        else if negb (bool_decide (forward_versions = py_sorted forward_versions)) ||
                existsb (fun v => from_option (String.leb v) true (last expected_versions)) forward_versions
        then unavailable "the DEALIoT registry forward migrations are not a strictly ordered suffix"
        else Ok tt.

Definition production_words : list string := ["1"; "true"; "yes"; "on"].
Definition check_readiness `{UnicodeData} (env : string -> option string) (files : list (string * string))
    (l : link) (s : schema_state) : res unit :=
  expected ← required_migrations files;
  match l with
  | Down => unavailable "the PostgreSQL registry is unavailable"
  | _ =>
      if negb (bool_decide (is_Some (devices_table s))) || negb (bool_decide (is_Some (migrations_table s)))
      then unavailable "the DEALIoT registry schema is missing"
      else if mem (py_lower (getenv_strip env "MANAGEMENT_CONSOLE_PRODUCTION_MODE" "")) production_words &&
              negb (least_privilege (privileges s))
      then unavailable "the DEALIoT registry runtime database privileges are not least-privilege"
      else if (match l with Lost _ => true | _ => false end)
      then unavailable "the PostgreSQL registry operation failed"
      else
        let invalid_structure :=
          (mismatched (dict_of_pairs (column_rows s)) REQUIRED_DEVICE_COLUMN_FINGERPRINT ++
           mismatched (dict_of_pairs (constraint_rows s)) REQUIRED_DEVICE_CONSTRAINTS ++
           py_sorted (set_diff REQUIRED_DEVICE_INDEXES (index_rows s)))%list in
        if negb (bool_decide (invalid_structure = []))
        then unavailable ("the DEALIoT registry schema fingerprint is invalid: " ++ String.concat ", " invalid_structure)
        else check_ledger expected (applied_rows s)
  end.

(** ** Applying migrations (migrate.py) *)
(** A row of [dealiot_schema_migrations]: version, checksum, time of application. *)
Definition ledger := list (string * string * Z).
Definition versions_of (l : ledger) : list (string * string) := l.*1.

(** What the database answers to the privilege queries, and what running a file does. *)
Record migrator := {
  preflight : option (bool * bool * bool);
  ownership : option (bool * bool);
  granted : option (list (string * bool));
  exec_sql : string -> res unit
}.
Definition DATABASE_ROLE_PATTERN : regex :=
  Seq (Cls (por (between "a" "z") (one_of "_"))) (Rep 0 (Some 62%nat) (Cls (por lower_digit (one_of "_")))).

Definition _preflight_migration_privileges (m : migrator) : res unit :=
  match preflight m with
  | None => Raise (RuntimeError "DEALIoT registry schema public is missing")
  | Some (has_usage, has_create, has_owner_rights) =>
      raise_if (negb has_usage || negb has_create || negb has_owner_rights)
        (RuntimeError "DEALIoT registry migrator must own (or inherit ownership of) schema public and have USAGE, CREATE privileges")
  end.
Definition _verify_runtime_privileges (m : migrator) (runtime_role : string) : res unit :=
  raise_if (negb (least_privilege (granted m)))
    (RuntimeError ("DEALIoT registry runtime role " ++ runtime_role ++ " is not least-privilege")).
(** The REVOKE and GRANT statements are in [granted], the privileges seen after them. *)
Definition _grant_runtime_privileges (m : migrator) (runtime_role : string) : res unit :=
  if negb (fullmatch DATABASE_ROLE_PATTERN runtime_role)
  then Raise (RuntimeError "DEALIoT registry runtime role has an invalid identifier")
  else match ownership m with
       | Some (true, true) => _verify_runtime_privileges m runtime_role
       | _ => Raise (RuntimeError "DEALIoT registry migrator must own (or inherit ownership of) registry tables")
       end.

(** The loop over the files; the rows it inserts. *)
Fixpoint apply_files (m : migrator) (known files : list (string * string)) : res (list (string * string)) :=
  match files with
  | [] => Ok []
  | (name, sql) :: files =>
      match dget name known with
      | Some checksum =>
          if String.eqb checksum (sha256_hex sql) then apply_files m known files
          else Raise (RuntimeError ("migration checksum changed: " ++ name))
      | None =>
          _ ← exec_sql m sql;
          rest ← apply_files m known files;
          Ok ((name, sha256_hex sql) :: rest)
      end
  end.
Definition apply_migrations (m : migrator) (files : list (string * string)) (runtime_role : option string)
    (now : Z) (l : ledger) : res (list string * ledger) :=
  match sorted_files files with
  | [] => Raise (RuntimeError "no DEALIoT registry migrations were packaged")
  | files =>
      _ ← _preflight_migration_privileges m;
      rows ← apply_files m (dict_of_pairs (versions_of l)) files;
      _ ← match runtime_role with
          | None => Ok tt
          | Some role => if String.eqb role "" then Ok tt else _grant_runtime_privileges m role
          end;
      Ok (keys rows, (l ++ map (fun r => (r, now)) rows)%list)
  end.

(** [SELECT version, checksum ... ORDER BY applied_at ASC, version ASC]. *)
Definition ledger_le `{Postgres} (a b : string * string * Z) : Prop :=
  a.2 < b.2 \/ (a.2 = b.2 /\ collate a.1.1 b.1.1 = true).
#[export] Instance ledger_le_dec `{Postgres} a b : Decision (ledger_le a b).
Proof. unfold ledger_le. apply _. Defined.
Definition read_ledger `{Postgres} (l : ledger) : list (string * string) :=
  versions_of (merge_sort ledger_le l).
