(* ===== verification/RegistrySpec.v ===== *)
(** Properties of the device registry: what validation guarantees, the invariant of the
    table, revisions under concurrent clients, retirement, keyset pagination, literal
    search, and the ledger of migrations. *)

From stdpp Require Import gmap strings sorting relations.
From S2P Require Import Prelude PyValue Regex Sha256 PyFloat Json PyTime PyText Registry.
#[local] Open Scope string_scope.
#[local] Open Scope list_scope.
#[local] Open Scope Z_scope.

(** ** Validation *)
Section Validation.
Context `{CaseFold}.

Definition no_secrets (v : pyval) : Prop := Forall (fun k => sensitive k = false) (all_keys v).

Lemma reject_spec (v : pyval) (path : string) :
  _reject_sensitive_keys v path = Ok tt <-> no_secrets v.
Proof.
  unfold no_secrets. revert path.
  induction v as [| | | | |l Hl|d Hd] using pyval_ind; intros path; try by split; [constructor|].
  - cbn [_reject_sensitive_keys all_keys]. generalize 0.
    induction Hl as [|x l Hx Hl IH]; intros i; [by split; [constructor|]|].
    cbn [flat_map]. rewrite Forall_app, <- (IH (i + 1)), <- (Hx (path ++ "[" ++ py_str_int i ++ "]")%string).
    destruct (_reject_sensitive_keys x _) as [[]|e]; cbn; naive_solver.
  - cbn [_reject_sensitive_keys all_keys].
    induction Hd as [|[k x] d Hx Hd IH]; [by split; [constructor|]|].
    cbn [flat_map]. rewrite Forall_app, Forall_cons, <- IH, <- (Hx (path ++ "." ++ k)%string). cbn [fst snd].
    destruct (sensitive k); [naive_solver|].
    destruct (_reject_sensitive_keys x _) as [[]|e]; cbn; naive_solver.
Qed.

(** What each validated field holds. *)
Definition field_ok (k : string) (v : pyval) : Prop :=
  match k with
  | "device_id" => exists s, v = PStr s /\ fullmatch DEVICE_ID_PATTERN s = true
  | "display_name" => exists s, v = PStr s /\ s <> "" /\ py_len s <= 160
  | "kind" => exists s, v = PStr s /\ fullmatch KIND_PATTERN s = true
  | "status" => exists s, v = PStr s /\ s ∈ ACTIVE_STATUSES
  | "mqtt_topic" => v = PNone \/ exists s, v = PStr s /\ s <> "" /\ py_len s <= 512 /\ has_byte 0 s = false
  | "capabilities" => exists l, v = PList (map PStr l) /\ NoDup l /\ (length l <= 64)%nat /\
      Forall (fun c => fullmatch CAPABILITY_PATTERN c = true) l
  | "settings" => exists d, v = PDict d /\ no_secrets v
  | "labels" => exists d, v = PDict d /\ no_secrets v /\ (length d <= 64)%nat /\
      Forall (fun kv => py_len kv.1 <= 64 /\ exists s, kv.2 = PStr s /\ py_len s <= 256) d
  | _ => False
  end%string.

Lemma capabilities_ok (v : pyval) (l : list string) :
  _validate_capabilities v = Ok l ->
  NoDup l /\ (length l <= 64)%nat /\ Forall (fun c => fullmatch CAPABILITY_PATTERN c = true) l.
Proof.
  destruct v as [| | | | |items|]; try done. cbn [_validate_capabilities].
  destruct (Z.ltb_spec MAX_CAPABILITIES (Z.of_nat (length items))) as [|Hlen]; [done|].
  unfold MAX_CAPABILITIES in Hlen. intros Hf.
  assert (forall acc : list string, foldM_res add_capability acc items = Ok l ->
    NoDup acc -> Forall (fun c => fullmatch CAPABILITY_PATTERN c = true) acc ->
    NoDup l /\ (length l <= length acc + length items)%nat /\
    Forall (fun c => fullmatch CAPABILITY_PATTERN c = true) l) as K.
  { clear Hf Hlen. induction items as [|x items IH]; intros acc Hf Hnd Hall; simpl in Hf.
    - res_inv. simpl. split; [done|]. split; [lia|done].
    - res_inv. destruct x as [| | | |s| |]; simpl in *; try done.
      destruct (fullmatch CAPABILITY_PATTERN s) eqn:Hs; [|done]. res_inv.
      destruct (mem s acc) eqn:Hm.
      + destruct (IH _ ltac:(eassumption) Hnd Hall) as (? & ? & ?). split; [done|]. split; [lia|done].
      + apply mem_not_In in Hm. destruct (IH _ ltac:(eassumption)) as (? & Hl & ?).
        * apply NoDup_app. split; [done|]. split; [|apply NoDup_singleton]. set_solver.
        * apply Forall_app. by split; [|constructor].
        * rewrite length_app in Hl. simpl in Hl. split; [done|]. split; [lia|done]. }
  destruct (K [] Hf) as (? & ? & ?); [constructor..|]. simpl in *. split; [done|]. split; [lia|done].
Qed.

Lemma object_ok (v : pyval) (name : string) (d : attrs) :
  _validate_object v name = Ok d -> v = PDict d /\ no_secrets v.
Proof.
  destruct v as [| | | | | |d']; try done. unfold _validate_object. intros Hv. res_inv.
  match goal with H : _reject_sensitive_keys _ _ = Ok ?u |- _ => destruct u; apply reject_spec in H end. done.
Qed.

Lemma labels_ok (v : pyval) (d : attrs) :
  _validate_labels v = Ok d ->
  v = PDict d /\ no_secrets v /\ (length d <= 64)%nat /\
  Forall (fun kv => py_len kv.1 <= 64 /\ exists s, kv.2 = PStr s /\ py_len s <= 256) d.
Proof.
  unfold _validate_labels. intros Hv. res_inv.
  match goal with H : _validate_object _ _ = Ok _ |- _ => apply object_ok in H as [-> Hs] end.
  destruct (Z.ltb_spec MAX_LABELS (Z.of_nat (length x))) as [|Hl]; [done|].
  destruct (existsb label_invalid x) eqn:E; [done|]. res_inv. unfold MAX_LABELS in Hl.
  split; [done|]. split; [done|]. split; [lia|]. apply Forall_forall. intros [k w] Hin%list_elem_of_In.
  assert (label_invalid (k, w) = false) as Hli.
  { destruct (label_invalid (k, w)) eqn:E'; [|done].
    assert (existsb label_invalid d = true) by (apply existsb_exists; eauto). congruence. }
  unfold label_invalid, MAX_LABEL_KEY_LENGTH, MAX_LABEL_VALUE_LENGTH in Hli. cbn [fst snd] in *.
  apply orb_false_iff in Hli as [Hk%Z.ltb_ge Hw]. split; [done|].
  destruct w; try done. eexists. split; [done|]. by apply Z.ltb_ge.
Qed.

Lemma validators_ok (name : string) (f : pyval -> res pyval) (v w : pyval) :
  (name, f) ∈ validators -> f v = Ok w -> field_ok name w.
Proof.
  unfold validators. rewrite !elem_of_cons, elem_of_nil. intros Hin Hf.
  repeat destruct Hin as [[= -> ->]|Hin]; [..|done]; cbn in Hf |- *;
    match type of Hf with fmap _ ?m = _ => destruct m eqn:E; cbn in Hf; [injection Hf as <-|done] end.
  - unfold _required_string in E. cbn in E. destruct v as [| | | |t| |]; try done.
    destruct (String.eqb_spec (py_strip t) ""); [done|].
    destruct (Z.ltb_spec 160 (py_len (py_strip t))); [done|]. injection E as <-. eauto.
  - destruct v as [| | | |t| |]; try done. unfold _validate_kind in E. destruct (fullmatch _ t) eqn:Em; [|done].
    injection E as <-. eauto.
  - destruct v as [| | | |t| |]; try done. unfold _validate_status in E. destruct (mem t _) eqn:Em; [|done].
    injection E as <-. apply mem_In in Em. eauto.
  - destruct v as [| | | |t| |]; try done; [by injection E as <-; left|]. unfold _validate_mqtt_topic in E.
    destruct (String.eqb_spec (py_strip t) "") as [|Hn]; [done|].
    destruct (Z.ltb_spec MAX_MQTT_TOPIC_LENGTH (py_len (py_strip t))) as [|Hl]; [done|].
    destruct (has_byte 0 (py_strip t)) eqn:Hb; [done|]. injection E as <-. right. eauto 6.
  - apply capabilities_ok in E. naive_solver.
  - apply object_ok in E as [-> ?]. eauto.
  - apply labels_ok in E as (-> & ? & ? & ?). eauto 6.
Qed.

(** Where a value the loop over [validators] leaves comes from. *)
Lemma run_validators (payload : attrs) (vs : list (string * (pyval -> res pyval))) (acc out : attrs) :
  foldM_res (run_validator payload) acc vs = Ok out ->
  forall k, match dget k out with
            | Some v => dget k acc = Some v \/
                exists f x, (k, f) ∈ vs /\ dget k payload = Some x /\ f x = Ok v
            | None => dget k acc = None /\ (k ∈ vs.*1 -> dget k payload = None)
            end.
Proof.
  revert acc. induction vs as [|[name f] vs IH]; intros acc Hf k; simpl in Hf.
  - res_inv. destruct (dget k out); [by left|]. split; [done|]. by intros ?%not_elem_of_nil.
  - res_inv. match goal with H : foldM_res _ ?a _ = _ |- _ => specialize (IH _ H k); rename H into Hr; rename a into acc1 end.
    unfold run_validator in *. cbn [fst snd] in *. destruct (dget name payload) as [x|] eqn:Hx.
    + res_inv. match goal with H : f x = Ok ?y |- _ => rename H into Hfx; rename y into w end.
      destruct (dget k out) as [v|].
      * destruct IH as [IH|(g & z & Hin & Hz & Hg)]; [|right; exists g, z; split; [by right|done]].
        rewrite dget_dset in IH. destruct (String.eqb_spec k name) as [->|Hne]; [|by left].
        simplify_eq. right. exists f, x. split; [by left|done].
      * destruct IH as [IH1 IH2]. rewrite dget_dset in IH1.
        destruct (String.eqb_spec k name) as [->|Hne]; [done|]. split; [done|].
           simpl. intros [->|Hin]%elem_of_cons; [done|auto].
    + res_inv. destruct (dget k out) as [v|].
      * destruct IH as [IH|(g & z & Hin & Hz & Hg)]; [by left|]. right; exists g, z; split; [by right|done].
      * destruct IH as [IH1 IH2]. split; [done|]. simpl. intros [->|Hin]%elem_of_cons; [done|auto].
Qed.

Lemma validators_names : validators.*1 = WRITABLE_FIELDS.
Proof. reflexivity. Qed.

Lemma run_validators_nil (payload out : attrs) :
  foldM_res (run_validator payload) [] validators = Ok out ->
  forall k, match dget k out with
            | Some v => field_ok k v /\ k ∈ WRITABLE_FIELDS /\ k ∈ keys payload
            | None => k ∈ WRITABLE_FIELDS -> dget k payload = None
            end.
Proof.
  intros Hr k. pose proof (run_validators _ _ _ _ Hr k) as K. rewrite validators_names in K.
  destruct (dget k out) as [v|]; [|by destruct K].
  destruct K as [K|(f & x & Hin & Hx & Hf)]; [done|]. split; [by eapply validators_ok|]. split.
  - rewrite <- validators_names. by apply (list_elem_of_fmap_2' fst validators (k, f)).
  - apply dget_Some_In in Hx. by apply (list_elem_of_fmap_2' fst payload (k, x)).
Qed.

Lemma py_sorted_nil (l : list string) : py_sorted l = [] <-> l = [].
Proof.
  split; [|by intros ->]. destruct l as [|x l]; [done|]. unfold py_sorted. simpl.
  destruct (foldr insert_str [] l) as [|y r]; simpl; [done|]. by destruct (String.leb x y).
Qed.

Lemma dget_setdefault (k k' : string) (v : pyval) (d : attrs) :
  dget k (setdefault k' v d) =
  match dget k d with Some w => Some w | None => if String.eqb k k' then Some v else None end.
Proof.
  unfold setdefault, has_key. destruct (dget k' d) as [w|] eqn:E.
  - destruct (String.eqb_spec k k') as [->|]; [by rewrite E|]. by destruct (dget k d).
  - rewrite dget_dset. destruct (String.eqb_spec k k') as [->|]; [by rewrite E|]. by destruct (dget k d).
Qed.

(** The three outcomes of validation, as the rest uses them. *)
Lemma validate_patch_ok (payload values : attrs) :
  validate_patch_payload payload = Ok values ->
  values <> [] /\
  forall k, match dget k values with
            | Some v => field_ok k v /\ k ∈ WRITABLE_FIELDS /\ k ∈ keys payload
            | None => dget k payload = None
            end.
Proof.
  unfold validate_patch_payload, _validate_fields.
  case_bool_decide as Hu; [|done]. cbn [negb]. intros Hv. res_inv.
  apply py_sorted_nil, set_diff_nil in Hu.
  match goal with H : foldM_res _ _ _ = Ok ?x |- _ => destruct x as [|y l] eqn:E; [done|]; rename H into Hr end.
  res_inv. split; [done|]. intros k. pose proof (run_validators_nil _ _ Hr k) as K.
  destruct (dget k (y :: l)) as [v|]; [done|]. destruct (dget k payload) as [w|] eqn:Hw; [|done].
  rewrite K; [done|]. apply dget_Some_In in Hw.
  assert (k ∈ keys payload) as Hk by by apply (list_elem_of_fmap_2' fst payload (k, w)).
  destruct (mem k WRITABLE_FIELDS) eqn:Hm; [by apply mem_In|].
  assert (k ∈ set_diff (keys payload) WRITABLE_FIELDS) as Hin%Hu; [|by apply not_elem_of_nil in Hin].
  unfold set_diff. apply list_elem_of_In, filter_In. rewrite Hm. split; [by apply list_elem_of_In|done].
Qed.

Lemma validate_create_ok (payload values : attrs) :
  validate_create_payload payload = Ok values ->
  (forall k v, dget k values = Some v -> field_ok k v) /\
  (forall k, k ∈ "device_id"%string :: WRITABLE_FIELDS -> dget k values <> None) /\
  dget "device_id" values = Some (vget "device_id" payload).
Proof.
  unfold validate_create_payload, _validate_fields.
  case_bool_decide as Hu; [|done]. cbn [negb]. intros Hv. res_inv.
  match goal with H : foldM_res _ _ _ = Ok ?x |- _ => rename H into Hr; rename x into out end.
  match goal with H : validate_device_id _ = Ok ?x |- _ => rename H into Hid; rename x into id end.
  match goal with H : (if ?b then _ else _) = Ok values |- _ => destruct b eqn:Hname; [done|]; rename H into Hv end.
  match type of Hv with (if ?b then _ else _) = Ok values => destruct b eqn:Hkind; [done|] end.
  injection Hv as <-. apply negb_false_iff in Hname, Hkind. unfold has_key in Hname, Hkind.
  rewrite dget_dset in Hname, Hkind. cbn [String.eqb] in Hname, Hkind.
  assert (exists s, vget "device_id" payload = PStr s /\ fullmatch DEVICE_ID_PATTERN s = true /\ id = s) as (s & Hp & Hs & ->).
  { destruct (vget "device_id" payload) as [| | | |s| |]; try done. unfold validate_device_id in Hid.
    destruct (fullmatch DEVICE_ID_PATTERN s) eqn:E; [|done]. injection Hid as <-. eauto. }
  split; [|split].
  - intros k v. rewrite !dget_setdefault, dget_dset. destruct (String.eqb_spec k "device_id") as [->|Hne].
    { intros [= <-]. cbn. eauto. }
    pose proof (run_validators_nil _ _ Hr k) as K. destruct (dget k out) as [w|].
    { intros [= <-]. by destruct K. }
    destruct (String.eqb_spec k "status") as [->|_]; [intros [= <-]; cbn; eexists; split; [done|]; set_solver|].
    destruct (String.eqb_spec k "mqtt_topic") as [->|_]; [intros [= <-]; by left|].
    destruct (String.eqb_spec k "capabilities") as [->|_].
    { intros [= <-]. exists []. split; [done|]. split; [constructor|]. split; [simpl; lia|constructor]. }
    destruct (String.eqb_spec k "settings") as [->|_]; [intros [= <-]; exists []; split; [done|constructor]|].
    destruct (String.eqb_spec k "labels") as [->|_]; [|done].
    intros [= <-]. exists []. split; [done|]. split; [constructor|]. split; [simpl; lia|constructor].
  - intros k Hk. rewrite !dget_setdefault, dget_dset.
    unfold WRITABLE_FIELDS in Hk. rewrite !elem_of_cons, elem_of_nil in Hk.
    cbn in Hname, Hkind.
    repeat destruct Hk as [->|Hk]; [..|done]; cbn; repeat case_match; congruence.
  - by rewrite !dget_setdefault, dget_dset, Hp.
Qed.

(** A payload that passes validation yields fields within their format whatever was
    sent: identifiers and kinds of the allowed alphabet and length, an active status (a
    client cannot retire a device by writing its status), no secret-like key at any depth
    of settings or labels.  A creation yields all eight fields; a partial update yields
    the fields that were sent, never the identifier, and at least one. *)
Theorem validated_fields (payload values : attrs) (partial : bool) :
  _validate_fields payload partial = Ok values ->
  (forall k v, dget k values = Some v -> field_ok k v) /\
  if partial then values <> [] /\ dget "device_id" values = None /\
                  (forall k, dget k values = None <-> dget k payload = None)
  else forall k, k ∈ "device_id"%string :: WRITABLE_FIELDS -> dget k values <> None.
Proof.
  destruct partial; intros Hv; [|by destruct (validate_create_ok _ _ Hv) as (? & ? & _)].
  apply validate_patch_ok in Hv as [Hne Hv]. repeat split; [|done|..].
  - intros k v Hk. specialize (Hv k). rewrite Hk in Hv. by destruct Hv.
  - specialize (Hv "device_id"%string). destruct (dget "device_id" values); [|done].
    destruct Hv as (_ & Hw & _). by apply mem_In in Hw.
  - intros Hk. specialize (Hv k). by rewrite Hk in Hv.
  - intros Hk%dget_None. specialize (Hv k). destruct (dget k values); [|done]. by destruct Hv as (_ & _ & ?).
Qed.
End Validation.

(** ** The table *)
Lemma cls_rep_len (p q : ascii -> bool) (n : nat) (s : string) :
  fullmatch (Seq (Cls p) (Rep 0 (Some n) (Cls q))) s = true -> py_len s <= Z.of_nat (S n).
Proof.
  intros (a & r & -> & _ & _ & Hl)%fullmatch_spec%matches_Cls_Rep.
  pose proof (py_len_byte_len (String a r)). unfold byte_len in *. simpl String.length in *. lia.
Qed.

Section Table.
Context `{CaseFold} `{PG : Postgres} `{!PostgresLaws}.

(** The CHECK constraints and widths of the columns, and no secrets in what is stored. *)
Record well_formed (id : string) (d : device) : Prop := {
  wf_id : fullmatch DEVICE_ID_PATTERN id = true;
  wf_name : py_len (display_name d) <= 160;
  wf_kind : fullmatch KIND_PATTERN (kind d) = true;
  wf_status : if live d then status d ∈ ACTIVE_STATUSES else status d = "retired"%string;
  wf_topic : from_option py_len 0 (mqtt_topic d) <= 512;
  wf_created_by : py_len (created_by d) <= 255;
  wf_updated_by : py_len (updated_by d) <= 255;
  wf_revision : 0 < revision d;
  wf_settings : no_secrets (settings d);
  wf_labels : no_secrets (labels d)
}.
Definition in_range (d : device) : Prop := revision d <= bigint_max.
Definition invariant (t : table) : Prop :=
  map_Forall (fun id d => well_formed id d /\ in_range d) t.

(** Of a well-formed row the database can only refuse the revision. *)
Lemma checks_well_formed (id : string) (d : device) :
  well_formed id d -> checks id d = (revision d <=? bigint_max).
Proof.
  intros [Hid Hname Hkind Hstatus Htopic Hc Hu Hrev _ _]. unfold checks.
  pose proof (cls_rep_len _ _ _ _ Hid). pose proof (cls_rep_len _ _ _ _ Hkind).
  rewrite Hid, Hkind.
  assert (py_len (status d) <= 24 /\ mem (status d) ["provisioning"; "active"; "suspended"; "retired"]%string = true /\
          Bool.eqb (String.eqb (status d) "retired") (bool_decide (is_Some (retired_at d))) = true) as (Hs & -> & ->).
  { unfold live in Hstatus. destruct (retired_at d) as [r|].
    - rewrite Hstatus. split; [vm_compute; discriminate|done].
    - unfold ACTIVE_STATUSES in Hstatus. rewrite !elem_of_cons, elem_of_nil in Hstatus.
      destruct Hstatus as [->|[->|[->|[]]]]; (split; [vm_compute; discriminate|done]). }
  rewrite !(proj2 (Z.leb_le _ _)) by lia. rewrite (proj2 (Z.ltb_lt 0 _)) by lia.
  cbn [andb]. by rewrite andb_true_r.
Qed.

Lemma actor_len (actor principal : string) : _actor actor = Ok principal -> py_len principal <= 255.
Proof.
  unfold _actor. destruct (String.eqb _ _); [done|]. intros [= <-]. apply (py_len_take 255).
Qed.
Lemma bind_text_Ok (k : string) (values : attrs) (s : string) :
  bind_text k values = Ok s -> dget k values = Some (PStr s).
Proof.
  unfold bind_text. destruct (dget k values) as [[| | | |t| |]|]; try done.
  intros ->%text_param_id. done.
Qed.
Lemma bind_opt_text_Ok (k : string) (values : attrs) (o : option string) :
  bind_opt_text k values = Ok o -> dget k values = Some (from_option PStr PNone o).
Proof.
  unfold bind_opt_text. intros Hb.
  destruct (dget k values) as [[| | | |t| |]|] eqn:E; try (by injection Hb as <-);
    (destruct (bind_text k values) as [s|] eqn:Ek; [|done]; injection Hb as <-;
     apply bind_text_Ok in Ek; by rewrite <- E, Ek).
Qed.
Lemma bind_jsonb_Ok (k : string) (values : attrs) (w : pyval) :
  bind_jsonb k values = Ok w -> exists v, dget k values = Some v /\ jsonb v = Ok w.
Proof. unfold bind_jsonb. destruct (dget k values); [eauto|done]. Qed.
Lemma no_secrets_jsonb (v w : pyval) : jsonb v = Ok w -> no_secrets v -> no_secrets w.
Proof. intros Hk%jsonb_keys Hv. unfold no_secrets in *. rewrite Forall_forall in *. auto. Qed.

(** One assignment keeps the row well-formed and touches neither key data nor revision. *)
Definition same_history (d d' : device) : Prop :=
  revision d' = revision d /\ created_at d' = created_at d /\ created_by d' = created_by d /\
  retired_at d' = retired_at d.
Lemma assignment_ok (values : attrs) (name : string) (f : device -> device) (id : string) (d : device) :
  (forall k v, dget k values = Some v -> field_ok k v) -> name ∈ WRITABLE_FIELDS ->
  assignment values name = Ok f -> live d = true -> well_formed id d ->
  well_formed id (f d) /\ same_history d (f d).
Proof.
  intros Hv Hname Hf Hlive Hd. unfold assignment in Hf.
  destruct (has_key name values) eqn:Hk; cbn [negb] in Hf; [|by injection Hf as <-].
  unfold WRITABLE_FIELDS in Hname. rewrite !elem_of_cons, elem_of_nil in Hname.
  repeat destruct Hname as [->|Hname]; [..|done]; cbn in Hf; res_inv;
    repeat match goal with
    | H : bind_text _ _ = Ok _ |- _ => apply bind_text_Ok in H as ?%Hv
    | H : bind_opt_text _ _ = Ok _ |- _ => apply bind_opt_text_Ok in H as ?%Hv
    | H : bind_jsonb _ _ = Ok _ |- _ => apply bind_jsonb_Ok in H as (? & ?%Hv & ?)
    end; cbn in *; destruct_ex_and; simplify_eq.
  all: split; [destruct Hd; unfold live in *; cbn; try (by constructor)|done].
  - constructor; try done. unfold live. cbn. by rewrite Hlive.
  - constructor; try done. destruct x as [s|]; cbn in *; [naive_solver|lia].
  - constructor; try done. by eapply no_secrets_jsonb.
  - constructor; try done. by eapply no_secrets_jsonb.
Qed.

Lemma set_clause_ok (values : attrs) (now : Z) (principal : string) (set : device -> device) (id : string) (d : device) :
  (forall k v, dget k values = Some v -> field_ok k v) -> py_len principal <= 255 ->
  set_clause values now principal = Ok set -> live d = true -> well_formed id d ->
  well_formed id (set d) /\ revision (set d) = revision d + 1 /\ live (set d) = true /\
  created_at (set d) = created_at d /\ created_by (set d) = created_by d.
Proof.
  intros Hv Hp Hs Hlive Hd. unfold set_clause in Hs. res_inv.
  match goal with H : mapM_res _ _ = Ok ?l |- _ => apply mapM_res_Ok in H; rename H into Hfs; rename l into fs end.
  match goal with H : text_param _ = Ok _ |- _ => apply text_param_id in H as -> end.
  set (d1 := fold_left (fun d f => f d) fs d).
  assert (well_formed id d1 /\ same_history d d1) as [Hd1 (Hr & Hc & Hb & Ht)].
  { assert (Forall (fun k => k ∈ WRITABLE_FIELDS) WRITABLE_FIELDS) as Hw by by apply Forall_forall.
    revert Hw Hfs. generalize WRITABLE_FIELDS at 2 3. intros names Hw Hfs. subst d1. revert d Hlive Hd.
    induction Hfs as [|name f names fs Hf Hfs IH]; intros d Hlive Hd; [done|].
    apply Forall_cons in Hw as [Hn Hw]. destruct (assignment_ok _ _ _ id d Hv Hn Hf Hlive Hd) as [Hd1 (Hr & Hc & Hb & Ht)].
    cbn [fold_left]. destruct (IH Hw (f d)) as [Hd2 (Hr2 & Hc2 & Hb2 & Ht2)]; [|done|].
    - unfold live in *. by rewrite Ht.
    - split; [done|]. unfold same_history. repeat split; congruence. }
  unfold touched. cbn. unfold live in *. cbn. rewrite Hr, Hc, Hb, Ht.
  split; [|by repeat split]. destruct Hd1, Hd. constructor; cbn; try done; [|lia].
  unfold live in *. cbn. by rewrite Ht in wf_status0.
Qed.

Lemma retired_ok (now : Z) (by_ id : string) (d : device) :
  py_len by_ <= 255 -> well_formed id d -> well_formed id (retired now by_ d).
Proof. intros Hp []. constructor; cbn; try done. lia. Qed.

(** ** Statements and transactions *)
Lemma connection_cases {A} (l : link) (body : M table A) (t t' : table) (r : res A) :
  database_connection l body t = (r, t') ->
  (t' = t /\ exists e, r = Raise e) \/
  exists a, body t = (Ok a, t') /\
    (l = Up /\ r = Ok a \/
     l = Lost true /\ r = Raise (RegistryUnavailableError "the PostgreSQL registry operation failed")).
Proof.
  unfold database_connection. intros E.
  destruct l as [| |[]]; [simplify_eq; eauto|..]; destruct (body t) as [[a|e] t1]; try (destruct e); simplify_eq; eauto 8.
Qed.

Lemma update_where_cases (id : string) (rev : Z) (set : device -> device) (t t' : table) (o : option device) :
  update_where id rev set t = (Ok o, t') ->
  match o with
  | None => t' = t /\ match t !! id with Some d => (revision d =? rev) && live d = false | None => True end
  | Some d' => exists d, t !! id = Some d /\ revision d = rev /\ live d = true /\ d' = set d /\
      checks id d' = true /\ t' = <[id := d']> t
  end.
Proof.
  unfold update_where. destruct (t !! id) as [d|] eqn:E; [|by intros [= <- <-]].
  destruct ((revision d =? rev) && live d) eqn:Hc; [|by intros [= <- <-]].
  destruct (checks id (set d)) eqn:Hk; cbn [negb]; [|done]. intros [= <- <-].
  apply andb_true_iff in Hc as [Hr%Z.eqb_eq Hl]. exists d. done.
Qed.

Lemma assert_existing_eq (id : string) (rev : Z) (t : table) :
  _assert_existing_revision id rev t =
  (Raise (match t !! id with
          | Some d => if live d then RevisionConflictError ("expected revision " ++ py_str_int (revision d) ++
                                       ", received " ++ py_str_int rev)
                      else DeviceNotFoundError id
          | None => DeviceNotFoundError id
          end), t).
Proof.
  unfold _assert_existing_revision, select_live, mbind, M_bind.
  destruct (t !! id) as [d|]; cbn; [by destruct (live d)|done].
Qed.

Lemma assert_existing_raises (id : string) (rev : Z) (t t' : table) (r : res device) :
  _assert_existing_revision id rev t = (r, t') -> t' = t /\ exists e, r = Raise e.
Proof. rewrite assert_existing_eq. intros [= <- <-]. eauto. Qed.

(** ** Mutations, and any number of clients *)
Inductive request :=
| Create (payload : attrs) (actor : string)
| Update (device_id : string) (payload : attrs) (actor : string) (expected : Z)
| Retire (device_id : string) (actor : string) (expected : Z).

(** The document of the device, or the revision a retirement gives it. *)
Definition perform (l : link) (now : Z) (rq : request) : M table (attrs + Z) :=
  match rq with
  | Create payload actor => a ← create_device l now payload actor; mret (inl a)
  | Update id payload actor expected => a ← update_device l now id payload actor expected; mret (inl a)
  | Retire id actor expected => n ← retire_device l now id actor expected; mret (inr n)
  end.

(** What an effective request does to the row of its device. *)
Definition effect (rq : request) (before : option device) (after : device) : Prop :=
  match rq with
  | Create _ _ => before = None /\ revision after = 1 /\ live after = true
  | Update _ _ _ expected =>
      exists d, before = Some d /\ live d = true /\ revision d = expected /\
        revision after = expected + 1 /\ live after = true /\
        created_at after = created_at d /\ created_by after = created_by d
  | Retire _ _ expected =>
      exists d, before = Some d /\ live d = true /\ revision d = expected /\
        revision after = expected + 1 /\ live after = false /\
        created_at after = created_at d /\ created_by after = created_by d
  end.
Definition device_of (rq : request) (id : string) : Prop :=
  match rq with
  | Create payload _ => vget "device_id" payload = PStr id
  | Update id' _ _ _ | Retire id' _ _ => id' = id
  end.


(** The transaction both conditional mutations run. *)
Lemma connected_update {A} (l : link) (id : string) (expected : Z) (m : res A) (set : A -> device -> device)
    (t t' : table) (r : res device) :
  database_connection l (
    x ← lift m; row ← update_where id expected (set x);
    match row with None => _assert_existing_revision id expected | Some d => mret d end) t = (r, t') ->
  t' = t /\ (forall a, r <> Ok a) \/
  exists x d, m = Ok x /\ t !! id = Some d /\ revision d = expected /\ live d = true /\
    checks id (set x d) = true /\ t' = <[id := set x d]> t /\ (forall a, r = Ok a -> a = set x d).
Proof.
  intros Hc. apply connection_cases in Hc as [(-> & e & ->)|(a & Hb & Hl)]; [by left|].
  apply M_bind_Ok in Hb as (x & t1 & [-> ->]%lift_Ok & Hb).
  apply M_bind_Ok in Hb as (row & t2 & Hu & Hb). apply update_where_cases in Hu. destruct row as [d'|].
  - destruct Hu as (d & Hd & Hr & Hlive & -> & Hch & ->). apply mret_M_Ok in Hb as [-> ->].
    right. exists x, d. destruct Hl as [[-> ->]|[-> ->]]; by repeat split; try congruence.
  - apply assert_existing_raises in Hb as (_ & e & [=]).
Qed.

Lemma bind_lift {W A B} (m : res A) (f : A -> M W B) (w : W) :
  (lift m ≫= f) w = match m with Ok a => f a w | Raise e => (Raise e, w) end.
Proof. by destruct m. Qed.
Ltac step_lift E :=
  rewrite bind_lift in E;
  match type of E with
  | (match ?m with Ok _ => _ | Raise _ => _ end) = _ =>
      let K := fresh "K" in destruct m eqn:K; [|injection E as <- <-; left; by split]
  end.
Lemma bind_cases {W A B} (m : M W A) (f : A -> M W B) (w w' : W) (r : res B) :
  (m ≫= f) w = (r, w') ->
  (exists e, m w = (Raise e, w') /\ r = Raise e) \/ exists a w1, m w = (Ok a, w1) /\ f a w1 = (r, w').
Proof. unfold mbind, M_bind. destruct (m w) as [[a|e] w1]; [eauto|intros [= <- <-]; eauto]. Qed.

Lemma insert_values_ok (values : attrs) (now : Z) (principal id id' : string) (d : device) :
  (forall k v, dget k values = Some v -> field_ok k v) -> dget "device_id" values = Some (PStr id) ->
  py_len principal <= 255 -> insert_values values now principal = Ok (id', d) ->
  id' = id /\ well_formed id d /\ revision d = 1 /\ live d = true.
Proof.
  intros Hv Hid Hp E. unfold insert_values in E. res_inv. subst.
  repeat match goal with
  | H : text_param _ = Ok _ |- _ => apply text_param_id in H as ->
  | H : bind_text _ _ = Ok _ |- _ => apply bind_text_Ok in H
  | H : bind_opt_text _ _ = Ok _ |- _ => apply bind_opt_text_Ok in H as ?%Hv
  | H : bind_jsonb _ _ = Ok _ |- _ => apply bind_jsonb_Ok in H as (? & ?%Hv & ?)
  end.
  pose proof (Hv _ _ Hid). rewrite Hid in *. simplify_eq.
  repeat match goal with H : dget _ values = Some _ |- _ => apply Hv in H end.
  cbn in *. destruct_ex_and. simplify_eq. split; [done|]. split; [|done].
  constructor; cbn; try done; try lia.
  - by match goal with o : option string |- _ => destruct o; cbn in *; [naive_solver|lia] end.
  - by eapply no_secrets_jsonb.
  - by eapply no_secrets_jsonb.
Qed.

Lemma insert_device_cases (id : string) (d : device) (t t' : table) (o : option device) :
  insert_device id d t = (Ok o, t') ->
  match o with
  | Some d' => d' = d /\ t !! id = None /\ t' = <[id := d]> t
  | None => t' = t /\ is_Some (t !! id)
  end.
Proof.
  unfold insert_device. destruct (checks id d); cbn [negb]; [|done].
  destruct (t !! id) eqn:E; intros [= <- <-]; [|done]. by split.
Qed.

Lemma create_cases (l : link) (now : Z) (payload : attrs) (actor : string) (t t' : table) (r : res attrs) :
  create_device l now payload actor t = (r, t') ->
  t' = t /\ (forall a, r <> Ok a) \/
  exists id d', vget "device_id" payload = PStr id /\ t !! id = None /\ revision d' = 1 /\ live d' = true /\
    t' = <[id := d']> t /\ well_formed id d' /\ (forall a, r = Ok a -> a = serialize_device id d').
Proof.
  intros E. unfold create_device in E. step_lift E. rename a into values.
  destruct (validate_create_ok _ _ K) as (Hv & _ & Hid). step_lift E. rename a into principal.
  apply actor_len in K0. rewrite Hid in E.
  destruct (vget "device_id" payload) as [| | | |id| |] eqn:Hvid; try (injection E as <- <-; left; by split).
  rewrite bind_lift in E.
  apply bind_cases in E as [(e & E & ->)|(row & t1 & E & E')];
    apply connection_cases in E as [(-> & e' & Hr)|(row' & Hb & Hr)]; try done; [left; by split|..];
    apply M_bind_Ok in Hb as ([id' d'] & t2 & [Hd ->]%lift_Ok & Hb%insert_device_cases);
    destruct (insert_values_ok _ _ _ _ _ _ Hv Hid K0 Hd) as (-> & Hwf & Hrev & Hlive); cbn [fst snd] in Hb.
  - destruct row' as [d1|]; [|left; by destruct Hb as [-> _]].
    destruct Hb as (-> & Hn & ->). right. by exists id, d'.
  - destruct Hr as [[_ [= ->]]|[_ ?]]; [|done]. destruct row' as [d1|].
    + destruct Hb as (-> & Hn & ->). injection E' as <- <-.
      right. exists id, d'. repeat split; try done; try apply Hwf. by intros a [= <-].
    + destruct Hb as [-> _]. injection E' as <- <-. left. by split.
Qed.

Lemma validate_device_id_Ok (id a : string) :
  validate_device_id (PStr id) = Ok a -> a = id /\ fullmatch DEVICE_ID_PATTERN id = true.
Proof. cbn. destruct (fullmatch _ _); [|done]. by intros [= ->]. Qed.
Lemma checked_range (id : string) (d : device) : well_formed id d -> checks id d = true -> in_range d.
Proof. intros Hw. rewrite (checks_well_formed id d Hw). apply Z.leb_le. Qed.

Lemma update_cases (l : link) (now : Z) (id : string) (payload : attrs) (actor : string) (expected : Z)
    (t t' : table) (r : res attrs) :
  invariant t -> update_device l now id payload actor expected t = (r, t') ->
  t' = t /\ (forall a, r <> Ok a) \/
  exists d', effect (Update id payload actor expected) (t !! id) d' /\ t' = <[id := d']> t /\
    well_formed id d' /\ in_range d' /\ (forall a, r = Ok a -> a = serialize_device id d').
Proof.
  intros Hinv E. unfold update_device in E. step_lift E.
  apply validate_device_id_Ok in K as [-> _].
  step_lift E. rename a into values. step_lift E. rename a into principal.
  apply actor_len in K0. destruct (validate_patch_ok _ _ K) as [_ Hv].
  assert (forall k v, dget k values = Some v -> field_ok k v) as Hf.
  { intros k v Hk. specialize (Hv k). rewrite Hk in Hv. by destruct Hv. }
  assert (forall r0 t0, database_connection l _ t = (r0, t0) -> _) as Hdc
    by exact (fun r0 t0 => connected_update l id expected (set_clause values now principal) (fun f => f) t t0 r0).
  apply bind_cases in E as [(e & E & ->)|(row & t1 & E & E')].
  - apply Hdc in E as [[-> _]|(f & d & Hset & Hd & Hr & Hlive & Hch & -> & Hrow)]; [left; by split|].
    destruct (Hinv id d Hd) as [Hwf _].
    destruct (set_clause_ok _ _ _ _ id d Hf K0 Hset Hlive Hwf) as (Hwf' & Hrev & Hl' & Hc & Hb).
    right. exists (f d). rewrite Hd. split; [exists d; subst; done|]. split; [done|]. split; [done|].
    split; [by eapply checked_range|done].
  - apply Hdc in E as [[-> Hno]|(f & d & Hset & Hd & Hr & Hlive & Hch & -> & Hrow)]; [by destruct (Hno row)|].
    injection E' as <- <-. rewrite (Hrow row) by done.
    destruct (Hinv id d Hd) as [Hwf _].
    destruct (set_clause_ok _ _ _ _ id d Hf K0 Hset Hlive Hwf) as (Hwf' & Hrev & Hl' & Hc & Hb).
    right. exists (f d). rewrite Hd. split; [exists d; subst; done|]. split; [done|]. split; [done|].
    split; [by eapply checked_range|]. by intros a [= <-].
Qed.

Lemma retire_cases (l : link) (now : Z) (id actor : string) (expected : Z) (t t' : table) (r : res Z) :
  invariant t -> retire_device l now id actor expected t = (r, t') ->
  t' = t /\ (forall a, r <> Ok a) \/
  exists d', effect (Retire id actor expected) (t !! id) d' /\ t' = <[id := d']> t /\
    well_formed id d' /\ in_range d' /\ (forall n, r = Ok n -> n = revision d').
Proof.
  intros Hinv E. unfold retire_device in E. step_lift E.
  apply validate_device_id_Ok in K as [-> _].
  step_lift E. rename a into principal. apply actor_len in K.
  assert (forall r0 t0, database_connection l _ t = (r0, t0) -> _) as Hdc
    by exact (fun r0 t0 => connected_update l id expected (text_param principal) (retired now) t t0 r0).
  apply bind_cases in E as [(e & E & ->)|(row & t1 & E & E')];
    (apply Hdc in E as [[-> Hno]|(by_ & d & Hb & Hd & Hr & Hlive & Hch & -> & Hrow)];
      [first [left; by split | by destruct (Hno row)]|]);
    apply text_param_id in Hb as ->; destruct (Hinv id d Hd) as [Hwf _];
    pose proof (retired_ok now principal id d K Hwf) as Hwf'; right; exists (retired now principal d);
    rewrite Hd; (split; [exists d; by subst|]); (split; [try done|]).
  - split; [done|]. split; [by eapply checked_range|done].
  - by injection E' as <- <-.
  - split; [done|]. split; [by eapply checked_range|].
    injection E' as <- <-. intros n [= <-]. by rewrite (Hrow row).
Qed.

(** A request either leaves the table alone and raises, or rewrites the row of its device. *)
Lemma perform_cases (l : link) (now : Z) (rq : request) (t t' : table) (r : res (attrs + Z)) :
  invariant t -> perform l now rq t = (r, t') ->
  t' = t /\ (forall a, r <> Ok a) \/
  exists id d', device_of rq id /\ effect rq (t !! id) d' /\ t' = <[id := d']> t /\
    well_formed id d' /\ in_range d' /\
    (forall a, r = Ok a -> a = match rq with Retire _ _ _ => inr (revision d') | _ => inl (serialize_device id d') end).
Proof.
  intros Hinv. destruct rq as [payload actor|id payload actor expected|id actor expected]; cbn [perform]; intros E;
    apply bind_cases in E as [(e & E & ->)|(a & t1 & E & E')]; try (injection E' as <- <-).
  1,2: apply create_cases in E as [[-> Hno]|(id & d' & Hid & Hn & Hr & Hl & -> & Hwf & Ha)];
    [left; split; [done|]; try done; by destruct (Hno a)|].
  1,2: right; exists id, d'; rewrite Hn; repeat (split; [done|]); (split; [unfold in_range; rewrite Hr; by vm_compute|]).
  3,4: apply update_cases in E as [[-> Hno]|(d' & He & -> & Hwf & Hran & Ha)]; [|  |done];
    [left; split; [done|]; try done; by destruct (Hno a)|].
  5,6: apply retire_cases in E as [[-> Hno]|(d' & He & -> & Hwf & Hran & Ha)]; [| |done];
    [left; split; [done|]; try done; by destruct (Hno a)|].
  all: try (right; exists id, d'; repeat (split; [done|])).
  all: try done; intros ? [= <-]; by rewrite (Ha a).
Qed.

Definition history := list (request * res (attrs + Z)).
Inductive step : table * history -> table * history -> Prop :=
| step_perform t h l now rq r t' :
    perform l now rq t = (r, t') -> step (t, h) (t', h ++ [(rq, r)]).
Definition reachable (t : table) (h : history) : Prop := rtc step (∅, []) (t, h).

(** The device and revision a conditional request names. *)
Definition names_revision (rq : request) : option (string * Z) :=
  match rq with
  | Create _ _ => None
  | Update id _ _ expected | Retire id _ expected => Some (id, expected)
  end.
Definition successes (h : history) : list (string * Z) :=
  omap (fun e => match e.2 with Ok _ => names_revision e.1 | Raise _ => None end) h.

Lemma invariant_step (t t' : table) (h h' : history) : invariant t -> step (t, h) (t', h') -> invariant t'.
Proof.
  intros Hinv Hs. inversion Hs as [? ? ? ? ? ? ? Hp]; subst.
  destruct (perform_cases _ _ _ _ _ _ Hinv Hp) as [[-> _]|(id & d' & _ & _ & -> & Hwf & Hran & _)]; [done|].
  by apply map_Forall_insert_2.
Qed.

Lemma invariant_steps (t t' : table) (h h' : history) : rtc step (t, h) (t', h') -> invariant t -> invariant t'.
Proof.
  intros Hr. remember (t, h) as x eqn:Ex. remember (t', h') as y eqn:Ey. revert t h t' h' Ex Ey.
  induction Hr as [x|x [t1 h1] y Hs Hr IH]; intros; subst; [by simplify_eq|].
  eapply IH; [done..|]. by eapply invariant_step.
Qed.

Lemma invariant_empty : invariant ∅.
Proof. apply map_Forall_empty. Qed.


(** The revisions that successes named are behind the rows, and pairwise distinct. *)
Definition accounted (t : table) (h : history) : Prop :=
  NoDup (successes h) /\
  forall id rev, (id, rev) ∈ successes h -> exists d, t !! id = Some d /\ rev < revision d.

Lemma accounted_step (t t' : table) (h h' : history) :
  invariant t -> accounted t h -> step (t, h) (t', h') -> accounted t' h'.
Proof.
  intros Hinv [Hnd Hacc] Hs. inversion Hs as [? ? ? ? ? ? ? Hp]; subst. unfold accounted, successes.
  rewrite omap_app. fold (successes h).
  destruct (perform_cases _ _ _ _ _ _ Hinv Hp) as [[-> Hno]|(id & d' & Hdev & Heff & -> & _ & _ & _)].
  { destruct r as [a|e]; [by destruct (Hno a)|]. cbn. by rewrite app_nil_r. }
  assert (forall d, t !! id = Some d -> revision d < revision d') as Hup.
  { intros d Hd. rewrite Hd in Heff. destruct rq; cbn in Heff; [by destruct Heff|..];
      destruct_ex_and; simplify_eq; lia. }
  assert (forall i rev, (i, rev) ∈ successes h -> exists d, <[id := d']> t !! i = Some d /\ rev < revision d) as Hold.
  { intros i rev Hi. destruct (Hacc i rev Hi) as (d & Hd & Hlt). destruct (decide (i = id)) as [->|Hne].
    - exists d'. rewrite lookup_insert_eq. split; [done|]. specialize (Hup d Hd). lia.
    - exists d. by rewrite lookup_insert_ne. }
  assert (forall i rev, names_revision rq = Some (i, rev) -> i = id /\
            (i, rev) ∉ successes h /\ exists d, <[id := d']> t !! i = Some d /\ rev < revision d) as Hnew.
  { intros i rev Hi. destruct rq as [|i' ? ? rev'|i' ? rev']; cbn in Hi, Hdev, Heff; [done|..];
      (simplify_eq; destruct Heff as (d & Hd & _ & Hr & Hr' & _)); split; [done| |done|];
      (split; [intros Hin; destruct (Hacc _ _ Hin) as (d2 & Hd2 & Hlt); rewrite Hd in Hd2; simplify_eq; lia|]);
      exists d'; rewrite lookup_insert_eq; (split; [done|lia]). }
  cbn [omap list_omap]. destruct r as [a|e]; cbn [fst snd]; [|by rewrite app_nil_r].
  destruct (names_revision rq) as [[i rev]|] eqn:En; [|by rewrite app_nil_r].
  destruct (Hnew i rev eq_refl) as (-> & Hfresh & Hlt). split.
  - apply NoDup_app. split; [done|]. split; [|apply NoDup_singleton]. by intros ? ? ->%list_elem_of_singleton.
  - intros j rj [Hj|[= -> ->]%list_elem_of_singleton]%elem_of_app; auto.
Qed.


(** A retired row is not rewritten by any request. *)
Lemma retired_step (t t' : table) (h h' : history) (id : string) (d : device) :
  invariant t -> t !! id = Some d -> live d = false -> step (t, h) (t', h') -> t' !! id = Some d.
Proof.
  intros Hinv Hd Hl Hs. inversion Hs as [? ? ? ? ? ? ? Hp]; subst.
  destruct (perform_cases _ _ _ _ _ _ Hinv Hp) as [[-> _]|(i & d' & _ & Heff & -> & _)]; [done|].
  destruct (decide (i = id)) as [->|Hne]; [|by rewrite lookup_insert_ne].
  rewrite Hd in Heff. destruct rq; cbn in Heff; destruct_ex_and; simplify_eq; congruence.
Qed.

(** Retirement is final.  Once a device is retired its row never changes again,
    whatever follows, its identifier cannot be registered again, no mutation of it
    succeeds and it can no longer be read. *)
Theorem retirement_is_final (t t' : table) (h h' : history) (id : string) (d : device) :
  reachable t h -> t !! id = Some d -> live d = false -> rtc step (t, h) (t', h') ->
  t' !! id = Some d /\
  (forall l now rq r t2, device_of rq id -> perform l now rq t' = (r, t2) -> t2 = t' /\ forall a, r <> Ok a) /\
  (forall l a t2, get_device l id t' <> (Ok a, t2)).
Proof.
  intros Hreach Hd Hl Hr. pose proof (invariant_steps _ _ _ _ Hreach invariant_empty) as Hinv.
  assert (t' !! id = Some d /\ invariant t') as [Hd' Hinv'].
  { clear Hreach. remember (t, h) as x eqn:Ex. remember (t', h') as y eqn:Ey. revert t h Ex Ey Hd Hinv.
    induction Hr as [x|x [t1 h1] y Hs Hr IH]; intros; subst; [by simplify_eq|].
    eapply IH; [done..| |]; [by eapply retired_step|by eapply invariant_step]. }
  split; [done|]. split.
  - intros l now rq r t2 Hdev Hp.
    destruct (perform_cases _ _ _ _ _ _ Hinv' Hp) as [?|(i & d' & Hi & Heff & _)]; [done|].
    assert (i = id) as -> by (destruct rq; cbn in Hdev, Hi; congruence).
    rewrite Hd' in Heff. destruct rq; cbn in Heff; destruct_ex_and; simplify_eq; congruence.
  - intros l a t2 Hg. unfold get_device in Hg.
    apply M_bind_Ok in Hg as (i & t1 & [[-> _]%validate_device_id_Ok ->]%lift_Ok & Hg).
    apply M_bind_Ok in Hg as (row & t1 & Hc & Hg).
    apply connection_cases in Hc as [(_ & e & [=])|(row' & Hsel & [[_ [= ->]]|[_ [=]]])].
    unfold select_live in Hsel. rewrite Hd' in Hsel. cbn in Hsel. rewrite Hl in Hsel. injection Hsel as <- <-.
    discriminate Hg.
Qed.

(** ** The exact outcome of an update *)
Definition text_or (values : attrs) (k old : string) : string :=
  match dget k values with Some (PStr s) => s | _ => old end.
Definition json_or (values : attrs) (k : string) (old : pyval) : pyval :=
  match dget k values with Some v => match jsonb v with Ok w => w | _ => old end | None => old end.
Definition patched (values : attrs) (now : Z) (principal : string) (d : device) : device :=
  {| display_name := text_or values "display_name" (display_name d);
     kind := text_or values "kind" (kind d);
     status := text_or values "status" (status d);
     mqtt_topic := match dget "mqtt_topic" values with
                   | Some (PStr s) => Some s | Some _ => None | None => mqtt_topic d end;
     capabilities := json_or values "capabilities" (capabilities d);
     settings := json_or values "settings" (settings d);
     labels := json_or values "labels" (labels d);
     revision := revision d + 1; created_at := created_at d; updated_at := now;
     retired_at := retired_at d; created_by := created_by d; updated_by := principal |}.

Ltac patch_step :=
  match goal with
  | H : assignment ?values ?k = Ok ?f |- _ =>
      unfold assignment, has_key in H; destruct (dget k values) eqn:?; cbn in H; res_inv; subst; try done
  | H : bind_text _ _ = Ok _ |- _ => apply bind_text_Ok in H
  | H : bind_opt_text _ _ = Ok _ |- _ => apply bind_opt_text_Ok in H
  | H : bind_jsonb _ _ = Ok _ |- _ => apply bind_jsonb_Ok in H as (? & ? & ?)
  end.
Lemma text_assignment (values : attrs) (k : string) (f : device -> device) :
  k ∈ ["display_name"; "kind"; "status"]%string -> assignment values k = Ok f -> forall d, f d =
  {| display_name := if String.eqb k "display_name" then text_or values k (display_name d) else display_name d;
     kind := if String.eqb k "kind" then text_or values k (kind d) else kind d;
     status := if String.eqb k "status" then text_or values k (status d) else status d;
     mqtt_topic := mqtt_topic d; capabilities := capabilities d; settings := settings d; labels := labels d;
     revision := revision d; created_at := created_at d; updated_at := updated_at d;
     retired_at := retired_at d; created_by := created_by d; updated_by := updated_by d |}.
Proof.
  rewrite !elem_of_cons, elem_of_nil. intros Hk Ha d. unfold text_or.
  repeat destruct Hk as [->|Hk]; [..|done]; patch_step; try (by destruct d);
    patch_step; simplify_eq; done.
Qed.
Lemma topic_assignment (values : attrs) (f : device -> device) :
  assignment values "mqtt_topic" = Ok f -> forall d, f d =
  {| display_name := display_name d; kind := kind d; status := status d;
     mqtt_topic := match dget "mqtt_topic" values with
                   | Some (PStr s) => Some s | Some _ => None | None => mqtt_topic d end;
     capabilities := capabilities d; settings := settings d; labels := labels d;
     revision := revision d; created_at := created_at d; updated_at := updated_at d;
     retired_at := retired_at d; created_by := created_by d; updated_by := updated_by d |}.
Proof.
  intros Ha d. patch_step; [|by destruct d]. patch_step.
  match goal with o : option string |- _ => destruct o end; cbn in *; by simplify_eq.
Qed.
Lemma json_assignment (values : attrs) (k : string) (f : device -> device) :
  k ∈ ["capabilities"; "settings"; "labels"]%string -> assignment values k = Ok f -> forall d, f d =
  {| display_name := display_name d; kind := kind d; status := status d; mqtt_topic := mqtt_topic d;
     capabilities := if String.eqb k "capabilities" then json_or values k (capabilities d) else capabilities d;
     settings := if String.eqb k "settings" then json_or values k (settings d) else settings d;
     labels := if String.eqb k "labels" then json_or values k (labels d) else labels d;
     revision := revision d; created_at := created_at d; updated_at := updated_at d;
     retired_at := retired_at d; created_by := created_by d; updated_by := updated_by d |}.
Proof.
  rewrite !elem_of_cons, elem_of_nil. intros Hk Ha d. unfold json_or.
  repeat destruct Hk as [->|Hk]; [..|done]; patch_step; try (by destruct d);
    patch_step; simplify_eq; match goal with H : jsonb _ = Ok _ |- _ => by rewrite H end.
Qed.

Lemma set_clause_patched (values : attrs) (now : Z) (principal : string) (set : device -> device) :
  set_clause values now principal = Ok set -> forall d, set d = patched values now principal d.
Proof.
  intros Hs d. unfold set_clause in Hs. apply bind_Ok in Hs as (fs & Hfs & Hs). res_inv.
  match goal with H : text_param _ = Ok _ |- _ => apply text_param_id in H as -> end.
  apply mapM_res_Ok in Hfs. unfold WRITABLE_FIELDS in Hfs.
  repeat match goal with
  | H : Forall2 _ (_ :: _) ?l |- _ => inversion H; clear H; subst
  | H : Forall2 _ [] ?l |- _ => inversion H; clear H; subst
  end. cbn [fold_left].
  destruct d. repeat match goal with
  | H : assignment _ ?k = Ok ?f |- context [?f (Build_device _ _ _ _ _ _ _ _ _ _ _ _ _)] =>
      first [rewrite (text_assignment _ k _ ltac:(by apply mem_In) H) | rewrite (topic_assignment _ _ H)
            | rewrite (json_assignment _ k _ ltac:(by apply mem_In) H)]; clear H;
      cbn -[text_or json_or dget]
  end. reflexivity.
Qed.

(** A partial update that validates and whose parameters the driver accepts has
    exactly these outcomes: no live device of that identifier is 404; a revision that is
    not the current one is 412 and changes nothing; otherwise the columns sent get the
    validated values, the others keep theirs, the revision is one higher, and the reply
    is the new row; only at 2^63 - 1 does the database refuse, and nothing changes. *)
Theorem update_device_outcome (t : table) (now : Z) (id actor principal : string) (payload values : attrs)
    (expected : Z) (set : device -> device) :
  invariant t -> fullmatch DEVICE_ID_PATTERN id = true -> validate_patch_payload payload = Ok values ->
  _actor actor = Ok principal -> set_clause values now principal = Ok set ->
  update_device Up now id payload actor expected t =
  match t !! id with
  | None => (Raise (DeviceNotFoundError id), t)
  | Some d =>
      let d' := patched values now principal d in
      if negb (live d) then (Raise (DeviceNotFoundError id), t)
      else if negb (revision d =? expected) then
        (Raise (RevisionConflictError ("expected revision " ++ py_str_int (revision d) ++
                                       ", received " ++ py_str_int expected)), t)
      else if bigint_max <? revision d + 1 then
        (Raise (RegistryUnavailableError "the PostgreSQL registry operation failed"), t)
      else (Ok (serialize_device id d'), <[id := d']> t)
  end.
Proof.
  intros Hinv Hid Hval Hact Hset. unfold update_device. rewrite !bind_lift. cbn [validate_device_id].
  rewrite Hid, bind_lift, Hval, bind_lift, Hact. unfold database_connection, mbind at 1, M_bind at 1.
  rewrite bind_lift, Hset. unfold mbind, M_bind, update_where.
  destruct (t !! id) as [d|] eqn:Hd; [|by rewrite assert_existing_eq, Hd].
  destruct (Hinv id d Hd) as [Hwf Hran]. destruct (live d) eqn:Hlive; cbn [negb].
  2: by rewrite andb_false_r, assert_existing_eq, Hd, Hlive.
  destruct (revision d =? expected); cbn [negb andb]; [|by rewrite assert_existing_eq, Hd, Hlive].
  destruct (set_clause_ok values now principal set id d) as (Hwf' & Hrev & _); [|by eapply actor_len|done..|].
  { intros k v Hk. destruct (validate_patch_ok _ _ Hval) as [_ Hv]. specialize (Hv k). rewrite Hk in Hv. by destruct Hv. }
  rewrite (checks_well_formed id _ Hwf'), Hrev, Z.ltb_antisym, (set_clause_patched _ _ _ _ Hset).
  by destruct (revision d + 1 <=? bigint_max).
Qed.
End Table.

(** ** A database and a history *)
#[export] Existing Instance ascii_fold.
(** The C collation, ASCII case folding, a [jsonb] that keeps values. *)
Definition c_locale : Postgres := {|
  collate := String.leb;
  fold_char := map_bytes lower_ascii;
  jsonb := Ok;
  text_param := fun s => if has_surrogate s then Raise UnicodeEncodeError
                         else if has_byte 0 s then Raise PsycopgError else Ok s;
  show_time := isoformat
|}.
#[export] Instance c_locale_laws : @PostgresLaws c_locale.
Proof.
  split; cbn.
  - apply String.leb_total.
  - apply string_leb_trans.
  - apply String.leb_antisym.
  - intros s t. destruct (has_surrogate s), (has_byte 0 s); try done. by intros [= ->].
  - by intros v w [= ->].
Qed.

Definition tracker : attrs :=
  [("device_id", PStr "gps-1"); ("display_name", PStr " Tracker "); ("kind", PStr "gps");
   ("settings", PDict [("rate", PInt 5)])]%string.
Definition rename : attrs := [("display_name", PStr "Collar")]%string.

Lemma validated_fields_witness :
  exists values, validate_create_payload tracker = Ok values /\ dget "display_name" values = Some (PStr "Tracker") /\
    forall k v, dget k values = Some v -> field_ok k v.
Proof.
  eexists. split; [reflexivity|]. split; [reflexivity|].
  exact (proj1 (validated_fields tracker _ false eq_refl)).
Defined.

(** Two clients rename the device of revision 1; then it is retired. *)
#[local] Existing Instance c_locale.
Definition run (t : table) (rqs : list request) : table * history :=
  fold_left (fun th rq => let '(r, t') := perform Up 0 rq th.1 in (t', th.2 ++ [(rq, r)])) rqs (t, []).
Definition race : table * history :=
  run ∅ [Create tracker "alice"; Update "gps-1" rename "bob" 1; Update "gps-1" rename "carol" 1]%string.
Lemma fold_reachable (rqs : list request) (t : table) (h : history) :
  rtc step (t, h) (fold_left (fun th rq => let '(r, t') := perform Up 0 rq th.1 in (t', th.2 ++ [(rq, r)])) rqs (t, h)).
Proof.
  revert t h. induction rqs as [|rq rqs IH]; intros t h; [reflexivity|]. cbn [fold_left fst snd].
  destruct (perform Up 0 rq t) as [r t'] eqn:E. eapply rtc_l; [by eapply (step_perform t h Up 0)|]. apply IH.
Qed.
Lemma run_reachable (rqs : list request) : reachable (run ∅ rqs).1 (run ∅ rqs).2.
Proof. unfold reachable. rewrite <- surjective_pairing. apply fold_reachable. Qed.



Definition ended : table * history :=
  run ∅ [Create tracker "alice"; Retire "gps-1" "bob" 1]%string.
Lemma retirement_is_final_witness :
  exists d, ended.1 !! "gps-1"%string = Some d /\ live d = false /\
    forall l a t2, get_device l "gps-1" ended.1 <> (Ok a, t2).
Proof.
  assert (reachable ended.1 ended.2) as Hr by exact (run_reachable _).
  assert (exists d, ended.1 !! "gps-1"%string = Some d /\ live d = false) as (d & Hd & Hl)
    by (eexists; split; [vm_compute; reflexivity|reflexivity]).
  exists d. split; [exact Hd|]. split; [exact Hl|].
  exact (proj2 (proj2 (retirement_is_final ended.1 ended.1 ended.2 ended.2 "gps-1" d Hr Hd Hl (rtc_refl _ _)))).
Defined.

Lemma update_device_outcome_witness :
  exists set, set_clause rename 7 "bob" = Ok set /\
    update_device Up 7 "gps-1" rename "bob" 1 race.1 =
    (Raise (RevisionConflictError "expected revision 2, received 1"), race.1).
Proof.
  assert (invariant race.1) as Hinv
    by exact (invariant_steps ∅ race.1 [] race.2 (run_reachable _) invariant_empty).
  destruct (set_clause rename 7 "bob") as [set|e] eqn:Hs; [|discriminate Hs].
  exists set. split; [reflexivity|].
  rewrite (update_device_outcome race.1 7 "gps-1" "bob" "bob" rename rename 1 set Hinv eq_refl eq_refl eq_refl Hs).
  vm_compute. reflexivity.
Defined.
