(* ===== verification/RegistryList.v ===== *)
(** Properties of the listings and of the schema of the device registry: keyset pagination
    under concurrent changes, literal search, the readiness check, migrations. *)

From stdpp Require Import gmap strings sorting relations.
From S2P Require Import Prelude PyValue Regex Sha256 PyFloat Json PyTime PyText Wire Registry RegistrySpec.
#[local] Open Scope string_scope.
#[local] Open Scope list_scope.
#[local] Open Scope Z_scope.

(** ** One page *)
Section Pages.
Context `{PG : Postgres} `{!PostgresLaws}.

#[local] Instance row_le_total : Total row_le.
Proof. intros a b. unfold row_le. apply collate_total. Qed.
#[local] Instance row_le_trans : Transitive row_le.
Proof. intros a b c. unfold row_le. apply collate_trans. Qed.

Definition with_cursor (f : query_filter) (c : option string) : query_filter :=
  {| by_status := by_status f; by_kind := by_kind f; by_text := by_text f; after := c |}.
(** All the rows of a query, in the order of the listing. *)
Definition sorted_rows (f : query_filter) (t : table) : list (string * device) :=
  merge_sort row_le (List.filter (selects f) (map_to_list t)).

Lemma elem_sorted_rows (f : query_filter) (t : table) (r : string * device) :
  r ∈ sorted_rows f t <-> t !! r.1 = Some r.2 /\ selects f r = true.
Proof.
  unfold sorted_rows. rewrite merge_sort_Permutation, list_elem_of_In, filter_In, <- list_elem_of_In.
  destruct r as [i d]. by rewrite elem_of_map_to_list.
Qed.
Lemma sorted_rows_sorted (f : query_filter) (t : table) : StronglySorted row_le (sorted_rows f t).
Proof. apply StronglySorted_merge_sort; apply _. Qed.
Lemma sorted_rows_NoDup (f : query_filter) (t : table) : NoDup (sorted_rows f t).*1.
Proof.
  unfold sorted_rows. rewrite merge_sort_Permutation. pose proof (NoDup_fst_map_to_list t) as Hnd.
  induction (map_to_list t) as [|r l IH]; simpl; [constructor|]. simpl in Hnd. apply NoDup_cons in Hnd as [Hr Hnd].
  destruct (selects f r); simpl; [|auto]. apply NoDup_cons. split; [|auto].
  intros Hin. apply Hr. apply list_elem_of_fmap in Hin as (x & -> & Hx).
  apply list_elem_of_In, filter_In in Hx as [Hx _]. apply list_elem_of_fmap. exists x. by rewrite list_elem_of_In.
Qed.

(** Strict order between the two halves of a listing. *)
Lemma split_strict (l1 l2 : list (string * device)) (x y : string * device) :
  StronglySorted row_le (l1 ++ l2) -> NoDup (l1 ++ l2).*1 -> x ∈ l1 -> y ∈ l2 -> collate y.1 x.1 = false.
Proof.
  intros Hs Hnd Hx Hy. destruct (collate y.1 x.1) eqn:E; [|done].
  pose proof (StronglySorted_app_1_elem_of _ _ _ _ _ Hs Hx Hy) as Hxy. unfold row_le in Hxy.
  pose proof (collate_antisym _ _ Hxy E) as Heq. rewrite fmap_app in Hnd. apply NoDup_app in Hnd as (_ & Hd & _).
  exfalso. apply (Hd x.1); [by apply list_elem_of_fmap_2|]. rewrite Heq. by apply list_elem_of_fmap_2.
Qed.

Lemma selects_cursor (f : query_filter) (c : option string) (r : string * device) :
  selects (with_cursor f c) r = selects (with_cursor f None) r && from_option (fun c => negb (collate r.1 c)) true c.
Proof. unfold selects, with_cursor. cbn. by rewrite andb_true_r. Qed.

Lemma last_elem {A} (l : list A) (x : A) : last l = Some x -> x ∈ l.
Proof. rewrite last_lookup. apply list_elem_of_lookup_2. Qed.
Lemma last_sorted (l : list (string * device)) (m x : string * device) :
  StronglySorted row_le l -> last l = Some m -> x ∈ l -> row_le x m.
Proof.
  intros Hs [l' ->]%last_Some Hx. apply elem_of_app in Hx as [Hx| ->%list_elem_of_singleton].
  - eapply StronglySorted_app_1_elem_of; [done..|]. by apply list_elem_of_singleton.
  - unfold row_le. destruct (collate_total m.1 m.1); done.
Qed.

(** After the last row of a page, the rest of the listing is what the next query selects. *)
Lemma after_page (f : query_filter) (c : option string) (t : table) (n : nat) (m : string * device) :
  last (take n (sorted_rows (with_cursor f c) t)) = Some m ->
  sorted_rows (with_cursor f (Some m.1)) t = drop n (sorted_rows (with_cursor f c) t).
Proof.
  intros Hm. set (L := sorted_rows (with_cursor f c) t) in *.
  pose proof (sorted_rows_sorted (with_cursor f c) t) as HsL. pose proof (sorted_rows_NoDup (with_cursor f c) t) as HnL.
  fold L in HsL, HnL. rewrite <- (take_drop n L) in HsL, HnL.
  assert (forall r, r ∈ sorted_rows (with_cursor f (Some m.1)) t <-> r ∈ drop n L) as Hmem.
  { intros r. rewrite elem_sorted_rows, selects_cursor, andb_true_iff. cbn [from_option]. split.
    - intros (Ht & Hf & Hr%negb_true_iff). assert (r ∈ L) as Hin.
      { apply elem_sorted_rows. split; [done|]. rewrite selects_cursor, Hf. destruct c as [c|]; [|done]. cbn.
        apply negb_true_iff. destruct (collate r.1 c) eqn:E; [|done].
        assert (m ∈ L) as HmL by (rewrite <- (take_drop n L); apply elem_of_app; left; by apply last_elem).
        apply elem_sorted_rows in HmL as [_ HmL]. rewrite selects_cursor in HmL.
        apply andb_true_iff in HmL as [_ HmL%negb_true_iff]. cbn in HmL.
        destruct (collate_total m.1 c) as [E1|E1]; [congruence|].
        by rewrite (collate_trans _ _ _ E E1) in Hr. }
      rewrite <- (take_drop n L) in Hin. apply elem_of_app in Hin as [Hin|]; [|done].
      pose proof (last_sorted _ _ _ (StronglySorted_app_1_l _ _ _ HsL) Hm Hin). unfold row_le in *. congruence.
    - intros Hr. assert (r ∈ L) as Hin by (rewrite <- (take_drop n L); apply elem_of_app; by right).
      apply elem_sorted_rows in Hin as [Ht Hf]. rewrite selects_cursor in Hf. apply andb_true_iff in Hf as [Hf _].
      split; [done|]. split; [done|]. apply negb_true_iff. eapply split_strict; [exact HsL|exact HnL| |done].
      by apply last_elem. }
  eapply (StronglySorted_unique_strong row_le).
  - intros x y Hx Hy Hxy Hyx. apply elem_sorted_rows in Hx as [Hx _].
    assert (y ∈ L) as Hy' by (rewrite <- (take_drop n L); apply elem_of_app; by right).
    apply elem_sorted_rows in Hy' as [Hy' _]. destruct x as [i d], y as [j e]. cbn in *.
    pose proof (collate_antisym _ _ Hxy Hyx). cbn in *. by simplify_eq.
  - apply sorted_rows_sorted.
  - by eapply StronglySorted_app_1_r.
  - apply NoDup_Permutation; [by eapply NoDup_fmap_1, sorted_rows_NoDup| |done].
    rewrite fmap_app in HnL. apply NoDup_app in HnL as (_ & _ & HnL). by eapply NoDup_fmap_1.
Qed.

(** ** Following the cursor *)
(** The filter of the parameters, once validated and sent. *)
Definition filter_of (status_ kind_ query : option string) : res query_filter :=
  s ← opt_map_res (fun s => _validate_status (PStr s)) status_;
  k ← opt_map_res (fun k => _validate_kind (PStr k)) kind_;
  search ← opt_map_res search_pattern query;
  p ← opt_map_res bind_pattern search;
  Ok {| by_status := s; by_kind := k; by_text := p; after := None |}.

Definition show (r : string * device) : attrs := serialize_device r.1 r.2.
Lemma page_payload_eq (L : list (string * device)) (limit : Z) :
  1 <= limit ->
  page_payload (take (Z.to_nat (limit + 1)) L) limit =
  (map show (take (Z.to_nat limit) L),
   if (Z.to_nat limit <? length L)%nat then fst <$> last (take (Z.to_nat limit) L) else None).
Proof.
  intros Hl. unfold page_payload. rewrite length_take, take_take.
  replace (Z.to_nat limit `min` Z.to_nat (limit + 1))%nat with (Z.to_nat limit) by lia.
  replace (limit <? Z.of_nat (Z.to_nat (limit + 1) `min` length L)) with (Z.to_nat limit <? length L)%nat; [done|].
  destruct (Nat.ltb_spec (Z.to_nat limit) (length L)), (Z.ltb_spec limit (Z.of_nat (Z.to_nat (limit + 1) `min` length L))); lia.
Qed.

Lemma list_devices_Ok (l : link) (status_ kind_ query cursor : option string) (limit : Z) (t t' : table)
    (devices : list attrs) (next : option string) :
  list_devices l status_ kind_ query limit cursor t = (Ok (devices, next), t') ->
  exists f, filter_of status_ kind_ query = Ok f /\ 1 <= limit <= 200 /\
    let L := sorted_rows (with_cursor f cursor) t in
    devices = map show (take (Z.to_nat limit) L) /\
    next = if (Z.to_nat limit <? length L)%nat then fst <$> last (take (Z.to_nat limit) L) else None.
Proof.
  unfold list_devices. destruct (negb _) eqn:Hlim; [done|].
  apply negb_false_iff, andb_true_iff in Hlim as [H1%Z.leb_le H2%Z.leb_le].
  intros E. apply M_bind_Ok in E as (s & t1 & [Hs ->]%lift_Ok & E).
  apply M_bind_Ok in E as (k & t1 & [Hk ->]%lift_Ok & E).
  apply M_bind_Ok in E as (search & t1 & [Hq ->]%lift_Ok & E).
  apply M_bind_Ok in E as (c & t1 & [Hc ->]%lift_Ok & E).
  apply M_bind_Ok in E as (rows & t1 & E & [Hp _]%mret_M_Ok).
  apply connection_cases in E as [(_ & e & [=])|(rows' & E & [[_ [= <-]]|[_ [=]]])].
  apply M_bind_Ok in E as (p & t2 & [Hb ->]%lift_Ok & E). injection E as <- _.
  exists {| by_status := s; by_kind := k; by_text := p; after := None |}.
  unfold filter_of. rewrite Hs, Hk, Hq. cbn. rewrite Hb. cbn. split; [done|]. split; [done|].
  assert (c = cursor) as ->.
  { destruct cursor as [c0|]; cbn in Hc; [|by injection Hc].
    destruct (fullmatch _ c0); cbn in Hc; congruence. }
  change (merge_sort row_le _) with (sorted_rows (with_cursor
    {| by_status := s; by_kind := k; by_text := p; after := None |} cursor) t) in Hp.
  rewrite page_payload_eq in Hp by done. by injection Hp.
Qed.

(** The cursors a client follows, the table changing between its requests. *)
Fixpoint walk (ts : nat -> table) (status_ kind_ query : option string) (limit : Z) (fuel i : nat)
    (cursor : option string) : option (list (list attrs)) :=
  match fuel with
  | O => None
  | S fuel =>
      match (list_devices Up status_ kind_ query limit cursor (ts i)).1 with
      | Ok (devices, None) => Some [devices]
      | Ok (devices, Some next) =>
          cons devices <$> walk ts status_ kind_ query limit fuel (S i) (Some next)
      | Raise _ => None
      end
  end.

Lemma take_before (f : query_filter) (c : option string) (t : table) (n : nat) (m r : string * device) :
  last (take n (sorted_rows (with_cursor f c) t)) = Some m ->
  r ∈ take n (sorted_rows (with_cursor f c) t) -> collate r.1 m.1 = true.
Proof.
  intros Hm Hr. eapply last_sorted; [|done..].
  pose proof (sorted_rows_sorted (with_cursor f c) t) as Hs.
  rewrite <- (take_drop n (sorted_rows _ _)) in Hs. by eapply StronglySorted_app_1_l.
Qed.

Definition past (c : option string) (id : string) : bool := from_option (fun c => negb (collate id c)) true c.
(** What a completed walk from a cursor has seen. *)
Lemma walk_rows (ts : nat -> table) (f : query_filter) (status_ kind_ query : option string) (limit : Z)
    (fuel i : nat) (c : option string) (pages : list (list attrs)) :
  filter_of status_ kind_ query = Ok f ->
  walk ts status_ kind_ query limit fuel i c = Some pages ->
  exists rows, concat pages = map show rows /\ NoDup rows.*1 /\
    Forall (fun r => past c r.1 = true /\ exists j, ts j !! r.1 = Some r.2 /\ selects f r = true) rows /\
    (forall id, past c id = true -> (forall j, exists d, ts j !! id = Some d /\ selects f (id, d) = true) ->
                id ∈ rows.*1).
Proof.
  intros Hf. assert (f = with_cursor f None) as Hnone.
  { unfold filter_of in Hf. res_inv. by subst. }
  revert i c pages. induction fuel as [|fuel IH]; intros i c pages Hw; [done|]. cbn [walk] in Hw.
  destruct (list_devices Up status_ kind_ query limit c (ts i)) as [[[devices next]|e] t'] eqn:E; [|done].
  apply list_devices_Ok in E as (f' & Hf' & Hlim & -> & ->). rewrite Hf in Hf'. injection Hf' as <-. cbn [fst] in Hw.
  set (L := sorted_rows (with_cursor f c) (ts i)) in *. set (n := Z.to_nat limit) in *.
  assert (forall r, r ∈ L -> past c r.1 = true /\ exists j, ts j !! r.1 = Some r.2 /\ selects f r = true) as HL.
  { intros r [Ht Hs]%elem_sorted_rows. rewrite selects_cursor, <- Hnone in Hs.
    apply andb_true_iff in Hs as [Hs Hp]. split; [exact Hp|]. by exists i. }
  assert (forall id, past c id = true -> (forall j, exists d, ts j !! id = Some d /\ selects f (id, d) = true) ->
            id ∈ L.*1) as Hpers.
  { intros id Hp Hj. destruct (Hj i) as (d & Hd & Hs). apply list_elem_of_fmap. exists (id, d). split; [done|].
    apply elem_sorted_rows. split; [done|]. rewrite selects_cursor, <- Hnone, Hs. exact Hp. }
  pose proof (sorted_rows_NoDup (with_cursor f c) (ts i)) as HnL. fold L in HnL.
  destruct (Nat.ltb_spec n (length L)) as [Hlt|Hge].
  2: { injection Hw as <-. exists L. rewrite take_ge by lia. simpl. rewrite app_nil_r.
       split; [done|]. split; [done|]. split; [by apply Forall_forall|done]. }
  destruct (last (take n L)) as [m|] eqn:Hm.
  2: { apply last_None in Hm. assert (length (take n L) = 0)%nat as Hz by by rewrite Hm.
       rewrite length_take in Hz. lia. }
  cbn in Hw. destruct (walk ts status_ kind_ query limit fuel (S i) (Some m.1)) as [ps|] eqn:Er; [|done].
  injection Hw as <-. destruct (IH _ _ _ Er) as (rows & Hc & Hnd & Hall & Hp). rewrite Forall_forall in Hall.
  assert (m ∈ L) as HmL by (rewrite <- (take_drop n L); apply elem_of_app; left; by apply last_elem).
  exists (take n L ++ rows). cbn [concat]. rewrite Hc, map_app. split; [done|].
  rewrite <- (take_drop n L), fmap_app in HnL. rewrite fmap_app. apply NoDup_app in HnL as (Hn1 & _ & _). split; [|split].
  - apply NoDup_app. split; [done|]. split; [|done]. intros id (r & -> & Hr)%list_elem_of_fmap (r' & Heq & Hr')%list_elem_of_fmap.
    destruct (Hall r' Hr') as [Hpast _]. cbn in Hpast. rewrite <- Heq in Hpast.
    apply (take_before f c (ts i) n m) in Hr; [|done]. by rewrite Hr in Hpast.
  - apply Forall_app. split; apply Forall_forall.
    + intros r Hr. apply HL. rewrite <- (take_drop n L). apply elem_of_app. by left.
    + intros r Hr. destruct (Hall r Hr) as [Hpast Hj]. split; [|done].
      destruct c as [c|]; [|done]. cbn in Hpast |- *. apply negb_true_iff in Hpast. apply negb_true_iff.
      destruct (HL m HmL) as [Hmc _]. cbn in Hmc. apply negb_true_iff in Hmc.
      destruct (collate r.1 c) eqn:E1; [|done]. destruct (collate_total m.1 c) as [E2|E2]; [congruence|].
      by rewrite (collate_trans _ _ _ E1 E2) in Hpast.
  - intros id Hpast Hj. specialize (Hpers id Hpast Hj). apply list_elem_of_fmap in Hpers as (r & -> & Hr).
    rewrite elem_of_app. destruct (collate r.1 m.1) eqn:E1.
    + left. rewrite <- (take_drop n L) in Hr. apply elem_of_app in Hr as [Hr|Hr]; [by apply list_elem_of_fmap_2|].
      pose proof (split_strict (take n L) (drop n L) m r) as Hst. rewrite (take_drop n L) in Hst.
      rewrite Hst in E1; [done|apply sorted_rows_sorted|apply sorted_rows_NoDup|by apply last_elem|done].
    + right. apply Hp; [|done]. cbn. by rewrite E1.
Qed.

(** C27: keyset pagination while the registry changes.  Whatever other clients do between
    the requests of a client that follows [next_cursor] to the end, no device is listed
    twice, every row listed matched the filters when it was read, and a device that
    matches throughout is listed. *)
Theorem pagination_exactly_once (ts : nat -> table) (f : query_filter) (status_ kind_ query : option string)
    (limit : Z) (fuel : nat) (pages : list (list attrs)) :
  filter_of status_ kind_ query = Ok f ->
  walk ts status_ kind_ query limit fuel 0 None = Some pages ->
  exists rows, concat pages = map show rows /\ NoDup rows.*1 /\
    Forall (fun r => exists i, ts i !! r.1 = Some r.2 /\ selects f r = true) rows /\
    (forall id, (forall i, exists d, ts i !! id = Some d /\ selects f (id, d) = true) -> id ∈ rows.*1).
Proof.
  intros Hf Hw. destruct (walk_rows _ _ _ _ _ _ _ _ _ _ Hf Hw) as (rows & Hc & Hnd & Hall & Hp).
  exists rows. split; [done|]. split; [done|]. split; [|auto].
  eapply Forall_impl; [exact Hall|]. by intros r [_ ?].
Qed.

Lemma list_devices_eq (f : query_filter) (status_ kind_ query cursor : option string) (limit : Z) (t : table) :
  filter_of status_ kind_ query = Ok f -> 1 <= limit <= 200 ->
  from_option (fun c => fullmatch DEVICE_ID_PATTERN c = true) True cursor ->
  (list_devices Up status_ kind_ query limit cursor t).1 =
  Ok (page_payload (take (Z.to_nat (limit + 1)) (sorted_rows (with_cursor f cursor) t)) limit).
Proof.
  intros Hf [H1 H2] Hc. unfold list_devices, MAX_PAGE_SIZE.
  rewrite (proj2 (Z.leb_le _ _) H1), (proj2 (Z.leb_le _ _) H2). cbn [andb negb].
  unfold filter_of in Hf. res_inv.
  rewrite !bind_lift.
  repeat match goal with H : opt_map_res _ _ = Ok _ |- context [opt_map_res _ _] => rewrite H; rewrite ?bind_lift end.
  assert (opt_map_res (fun c => validate_device_id (PStr c)) cursor = Ok cursor) as ->.
  { destruct cursor as [c|]; [|done]. cbn in *. by rewrite Hc. }
  subst. unfold database_connection, mbind, M_bind, lift, select_page.
  reflexivity.
Qed.

Lemma walk_static (t : table) (f : query_filter) (status_ kind_ query : option string) (limit : Z) :
  map_Forall (fun id _ => fullmatch DEVICE_ID_PATTERN id = true) t ->
  filter_of status_ kind_ query = Ok f -> 1 <= limit <= 200 ->
  forall fuel i c, from_option (fun c => fullmatch DEVICE_ID_PATTERN c = true) True c ->
  (length (sorted_rows (with_cursor f c) t) < fuel)%nat ->
  exists pages, walk (fun _ => t) status_ kind_ query limit fuel i c = Some pages /\
    concat pages = map show (sorted_rows (with_cursor f c) t) /\
    Forall (fun page => (length page <= Z.to_nat limit)%nat) pages.
Proof.
  intros Hids Hf Hlim. induction fuel as [|fuel IH]; intros i c Hc Hlen; [lia|]. cbn [walk].
  rewrite (list_devices_eq f) by done. rewrite page_payload_eq by lia.
  set (L := sorted_rows (with_cursor f c) t) in *. set (n := Z.to_nat limit) in *.
  destruct (Nat.ltb_spec n (length L)) as [Hlt|Hge].
  2: { exists [map show L]. rewrite take_ge by lia. split; [done|]. split; [apply app_nil_r|].
       constructor; [|constructor]. rewrite length_map. lia. }
  destruct (last (take n L)) as [m|] eqn:Hm.
  2: { apply last_None in Hm. assert (length (take n L) = 0)%nat as Hz by by rewrite Hm.
       rewrite length_take in Hz. lia. }
  assert (m ∈ L) as HmL by (rewrite <- (take_drop n L); apply elem_of_app; left; by apply last_elem).
  apply elem_sorted_rows in HmL as [HmL _]. pose proof (after_page f c t n m Hm) as Hafter. fold L in Hafter.
  destruct (IH (S i) (Some m.1)) as (pages & Hw & Hcat & Hall).
  - exact (Hids _ _ HmL).
  - rewrite Hafter, length_drop. lia.
  - cbn. rewrite Hw. eexists. split; [done|]. split.
    + cbn. rewrite Hcat, Hafter, <- map_app. f_equal. apply take_drop.
    + constructor; [|done]. rewrite length_map, length_take. lia.
Qed.

(** On a registry that does not change, following [next_cursor] ends after at most
    one request per matching device, every page holds at most [limit] devices, and the
    pages together are the matching live devices, each once, in order. *)
Theorem pagination_terminates (t : table) (f : query_filter) (status_ kind_ query : option string) (limit : Z) :
  map_Forall (fun id _ => fullmatch DEVICE_ID_PATTERN id = true) t ->
  filter_of status_ kind_ query = Ok f -> 1 <= limit <= 200 ->
  exists pages rows, walk (fun _ => t) status_ kind_ query limit (S (size t)) 0 None = Some pages /\
    concat pages = map show rows /\ Forall (fun page => (length page <= Z.to_nat limit)%nat) pages /\
    StronglySorted row_le rows /\ NoDup rows.*1 /\
    forall id d, (id, d) ∈ rows <-> t !! id = Some d /\ selects f (id, d) = true.
Proof.
  intros Hids Hf Hlim. assert (f = with_cursor f None) as Hnone by (unfold filter_of in Hf; res_inv; by subst).
  destruct (walk_static t f status_ kind_ query limit Hids Hf Hlim (S (size t)) 0 None) as (pages & Hw & Hc & Hall); [done| |].
  - unfold sorted_rows. rewrite merge_sort_Permutation. rewrite <- length_map_to_list.
    pose proof (filter_length_le (selects (with_cursor f None)) (map_to_list t)). lia.
  - exists pages, (sorted_rows (with_cursor f None) t). split; [done|]. split; [done|]. split; [done|].
    split; [apply sorted_rows_sorted|]. split; [apply sorted_rows_NoDup|].
    intros id d. by rewrite elem_sorted_rows, <- Hnone.
Qed.
End Pages.

(** ** Literal search *)
(** A character of valid text: one ASCII byte, or a lead byte with its continuation. *)
Definition uchar (c : string) : Prop :=
  exists a r, c = String a r /\ is_cont a = false /\ all_bytes is_cont r = true /\ (r <> "" -> is_ascii a = false).

Lemma cont_not_ascii (a : ascii) : is_cont a = true -> is_ascii a = false.
Proof.
  unfold is_cont, is_ascii. intros [H1%Z.leb_le _]%andb_true_iff. apply Z.ltb_ge. lia.
Qed.
Lemma uchar_ok (c : string) : uchar c -> char_ok c.
Proof. intros (a & r & -> & _ & Hr & _). exists a, r. by rewrite <- all_bytes_string. Qed.
Lemma utf8_char_uchar (cp : Z) : 0 <= cp < 1114112 -> uchar (utf8_char cp).
Proof.
  intros H. unfold uchar, utf8_char.
  assert (C : forall x, 128 <= x < 192 -> is_cont (byte_of x) = true).
  { intros x Hx. unfold is_cont. rewrite code_byte_of by lia. lia. }
  destruct (Z.ltb_spec cp 128); [|destruct (Z.ltb_spec cp 2048); [|destruct (Z.ltb_spec cp 65536)]];
    eexists _, _; (split; [reflexivity|]); cbn [map string_of_list_ascii all_bytes];
    unfold is_cont at 1, is_ascii; rewrite code_byte_of by (Z.to_euclidean_division_equations; lia);
    (split; [Z.to_euclidean_division_equations; lia|]); rewrite ?C by (Z.to_euclidean_division_equations; lia);
    (split; [done|]); intros Hne; try done; Z.to_euclidean_division_equations; lia.
Qed.
Lemma utf8_uchars (s : string) : utf8_valid s = true -> exists cs, s = String.concat "" cs /\ Forall uchar cs.
Proof.
  intros (cps & Hc & E)%utf8_valid_chars. exists (pychars s). rewrite concat_pychars. split; [done|].
  rewrite E. clear E. induction Hc as [|cp cps [Hcp _] _ IH]; cbn; constructor; [by apply utf8_char_uchar|done].
Qed.
Lemma uchars_start (cs : list string) : Forall uchar cs -> noncont_head (String.concat "" cs).
Proof. intros [|c l (a & r & -> & Ha & _) _]; [done|]. by rewrite concat_cons. Qed.
Lemma pychars_uchars (cs : list string) : Forall uchar cs -> pychars (String.concat "" cs) = cs.
Proof.
  induction 1 as [|c cs Hc Hcs IH]; [done|].
  rewrite concat_cons, pychars_app_char, IH; [done|by apply uchar_ok|by apply uchars_start].
Qed.

Lemma replace_byte_app (x : ascii) (r s t : string) :
  replace_byte x r (s ++ t)%string = (replace_byte x r s ++ replace_byte x r t)%string.
Proof.
  induction s as [|a s IH]; [done|]. cbn. destruct (Ascii.eqb a x); rewrite IH; [apply append_assoc|done].
Qed.
Lemma replace_byte_id (x : ascii) (r s : string) :
  all_bytes (fun a => negb (Ascii.eqb a x)) s = true -> replace_byte x r s = s.
Proof.
  induction s as [|a s IH]; [done|]. cbn. intros [Ha%negb_true_iff Hs]%andb_true_iff.
  rewrite Ha. f_equal. auto.
Qed.
Lemma escape_like_app (s t : string) : escape_like (s ++ t)%string = (escape_like s ++ escape_like t)%string.
Proof. unfold escape_like. by rewrite !replace_byte_app. Qed.

Definition special (c : string) : bool := mem c ["%"; "_"; String backslash ""]%string.
Definition escaped (c : string) : list string := if special c then [String backslash ""; c] else [c].

Lemma special_ascii (a : ascii) (x : string) :
  is_ascii a = false -> special (String a x) = false /\
  Ascii.eqb a "_" = false /\ Ascii.eqb a "%" = false /\ Ascii.eqb a backslash = false.
Proof.
  intros Ha.
  assert (Ascii.eqb a "_" = false /\ Ascii.eqb a "%" = false /\ Ascii.eqb a backslash = false) as (H1 & H2 & H3).
  { repeat split; apply Ascii.eqb_neq; intros ->; done. }
  split; [|done]. unfold special, mem. cbn [existsb String.eqb]. by rewrite H1, H2, H3.
Qed.
Lemma escape_uchar (c : string) : uchar c -> escape_like c = String.concat "" (escaped c).
Proof.
  intros (a & r & -> & _ & Hr & Hlead). unfold escape_like.
  assert (forall x : ascii, is_ascii x = true -> all_bytes (fun a => negb (Ascii.eqb a x)) r = true) as Hid.
  { intros x Hx. eapply all_bytes_impl; [|exact Hr]. intros b Hb%cont_not_ascii.
    apply negb_true_iff, Ascii.eqb_neq. intros ->. congruence. }
  destruct r as [|b r].
  - unfold escaped, special, mem. cbn [existsb String.eqb].
    destruct (Ascii.eqb_spec a "%") as [->|Hp]; [reflexivity|].
    destruct (Ascii.eqb_spec a "_") as [->|Hu]; [reflexivity|].
    destruct (Ascii.eqb_spec a backslash) as [->|Hb]; [reflexivity|].
    cbn [replace_byte]. rewrite (proj2 (Ascii.eqb_neq _ _) Hb). cbn [replace_byte].
    rewrite (proj2 (Ascii.eqb_neq _ _) Hp). cbn [replace_byte]. by rewrite (proj2 (Ascii.eqb_neq _ _) Hu).
  - destruct (special_ascii a (String b r) (Hlead ltac:(done))) as (Hs & H1 & H2 & H3).
    unfold escaped. rewrite Hs. cbn [String.concat]. rewrite (replace_byte_id backslash); [rewrite (replace_byte_id "%"); [apply replace_byte_id|]|];
      cbn [all_bytes negb andb]; rewrite ?H1, ?H2, ?H3; by apply Hid.
Qed.

Lemma escaped_uchars (cs : list string) : Forall uchar cs -> Forall uchar (flat_map escaped cs).
Proof.
  induction 1 as [|c cs Hc Hcs IH]; [constructor|]. cbn. apply Forall_app. split; [|done].
  unfold escaped. destruct (special c); [|by constructor]. constructor; [|by constructor].
  exists backslash, "". done.
Qed.
Lemma escape_uchars (cs : list string) :
  Forall uchar cs -> escape_like (String.concat "" cs) = String.concat "" (flat_map escaped cs).
Proof.
  induction 1 as [|c cs Hc Hcs IH]; [done|].
  by rewrite concat_cons, escape_like_app, IH, escape_uchar by done; cbn; rewrite concat_app.
Qed.

Lemma drop_while_Forall {A} (P : A -> Prop) (p : A -> bool) (l : list A) : Forall P l -> Forall P (drop_while p l).
Proof. induction 1 as [|x l Hx Hl IH]; cbn; [constructor|]. destruct (p x); [done|by constructor]. Qed.
Lemma py_strip_uchars (s : string) :
  utf8_valid s = true -> exists cs, py_strip s = String.concat "" cs /\ Forall uchar cs.
Proof.
  intros (cs & -> & Hcs)%utf8_uchars. unfold py_strip, strip_chars. eexists. split; [reflexivity|].
  rewrite pychars_uchars by done. by apply Forall_rev, drop_while_Forall, Forall_rev, drop_while_Forall.
Qed.

(** Case folding works on characters and leaves the three special ones alone. *)
Class FoldLaws `{Postgres} :=
  fold_special c : special c = true \/ special (fold_char c) = true -> fold_char c = c.

Section Search.
Context `{PG : Postgres} `{!FoldLaws}.

Lemma fold_special_iff (c : string) : special (fold_char c) = special c.
Proof.
  destruct (special c) eqn:E; [by rewrite fold_special; [|left]|].
  destruct (special (fold_char c)) eqn:E'; [|done]. rewrite fold_special in E' by (by right). congruence.
Qed.

Lemma parse_escaped (cs rest : list string) :
  parse_like (map fold_char (flat_map escaped cs) ++ rest) =
  app (map (fun c => Char (fold_char c)) cs) <$> parse_like rest.
Proof.
  induction cs as [|c cs IH]; cbn [flat_map map app]; [by destruct (parse_like rest)|].
  rewrite map_app, <- app_assoc. unfold escaped at 1. destruct (special c) eqn:E.
  - cbn [map app]. rewrite (fold_special (String backslash "")) by by left. cbn [parse_like].
    rewrite String.eqb_refl, IH. by destruct (parse_like rest).
  - cbn [map app parse_like]. rewrite <- fold_special_iff in E. unfold special, mem in E. cbn [existsb] in E.
    apply orb_false_iff in E as [E1 [E2 [E3 _]%orb_false_iff]%orb_false_iff].
    rewrite E1, E2, E3, IH. by destruct (parse_like rest).
Qed.

Lemma like_chars (ks s : list string) (p : list like_item) :
  like (map Char ks ++ p) s = true <-> exists s', s = ks ++ s' /\ like p s' = true.
Proof.
  revert s. induction ks as [|k ks IH]; intros s; cbn [map app].
  - split; [by exists s|by intros (s' & -> & ?)].
  - cbn [like]. destruct s as [|d s]; [split; [done|by intros (s' & [=] & _)]|].
    rewrite andb_true_iff, String.eqb_eq, IH. naive_solver.
Qed.
Lemma like_any (p : list like_item) (s : list string) :
  like (AnyText :: p) s = true <-> exists a b, s = a ++ b /\ like p b = true.
Proof.
  induction s as [|d s IH]; cbn [like] in *; rewrite orb_true_iff.
  - split; [intros [K|]; [by exists [], []|done]|]. intros (a & b & E & Hb). destruct a, b; [by left|done..].
  - rewrite IH. split.
    + intros [K|(a & b & -> & Hb)]; [by exists [], (d :: s)|by exists (d :: a), b].
    + intros ([|x a] & b & E & Hb); [left; by rewrite E|]. injection E as -> ->. right. eauto.
Qed.

(** A search is literal: whatever text a client sends, [%], [_] and the backslash
    included, the pattern the code builds matches exactly the values that contain that
    text (stripped), character by character, up to case. *)
Theorem search_is_literal (query pattern : string) :
  utf8_valid query = true -> search_pattern query = Ok pattern ->
  exists p, parse_like (folded pattern) = Some p /\
    forall s, ilike p s = true <-> exists before after, folded s = before ++ folded (py_strip query) ++ after.
Proof.
  intros Hq Hp. unfold search_pattern in Hp. destruct (_ || _); [done|]. injection Hp as <-.
  destruct (py_strip_uchars query Hq) as (cs & -> & Hcs).
  assert (uchar "%") as Hpct by by exists "%"%char, "".
  exists (AnyText :: map Char (map fold_char cs) ++ [AnyText]). split.
  - unfold folded. rewrite escape_uchars by done.
    assert (pychars (String "%" (String.concat "" (flat_map escaped cs) ++ "%"))%string = "%"%string :: flat_map escaped cs ++ ["%"%string]) as ->.
    { rewrite <- (pychars_uchars ("%"%string :: flat_map escaped cs ++ ["%"%string])).
      - by rewrite concat_cons, concat_app.
      - constructor; [done|]. apply Forall_app. split; [by apply escaped_uchars|by constructor]. }
    rewrite map_cons, map_app. cbn [map]. rewrite (fold_special "%") by by left. cbn [parse_like String.eqb].
    rewrite parse_escaped. cbn. by rewrite map_map.
  - intros s. unfold ilike. rewrite like_any. unfold folded at 3. rewrite pychars_uchars by done. split.
    + intros (a & b & -> & (b' & -> & _)%like_chars). by exists a, b'.
    + intros (a & b & ->). exists a, (map fold_char cs ++ b). split; [done|]. apply like_chars. exists b. split; [done|].
      apply like_any. exists b, []. by rewrite app_nil_r.
Qed.
End Search.

(** ** The ledger of migrations *)
#[local] Instance leb_total : Total (fun a b : string => String.leb a b = true).
Proof. intros a b. apply String.leb_total. Qed.
Definition name_le (a b : string) : Prop := String.leb a b = true.
Definition name_lt (a b : string) : Prop := String.leb b a = false.

Lemma insert_str_Permutation (x : string) (l : list string) : insert_str x l ≡ₚ x :: l.
Proof.
  induction l as [|y l IH]; [done|]. cbn. destruct (String.leb x y); [done|]. rewrite IH. apply Permutation_swap.
Qed.
Lemma py_sorted_Permutation (l : list string) : py_sorted l ≡ₚ l.
Proof.
  unfold py_sorted. induction l as [|x l IH]; [done|]. cbn. by rewrite insert_str_Permutation, IH.
Qed.
Lemma insert_str_sorted (x : string) (l : list string) :
  StronglySorted name_le l -> StronglySorted name_le (insert_str x l).
Proof.
  induction 1 as [|y l Hl IH Hy]; cbn; [by repeat constructor|].
  destruct (String.leb x y) eqn:E.
  - constructor; [by constructor|]. constructor; [done|]. eapply Forall_impl; [exact Hy|].
    intros z. by apply string_leb_trans.
  - constructor; [done|]. rewrite insert_str_Permutation. constructor; [|done].
    destruct (String.leb_total x y); [congruence|done].
Qed.
Lemma py_sorted_sorted (l : list string) : StronglySorted name_le (py_sorted l).
Proof. unfold py_sorted. induction l as [|x l IH]; cbn; [constructor|by apply insert_str_sorted]. Qed.
Lemma py_sorted_fixed (l : list string) : l = py_sorted l <-> StronglySorted name_le l.
Proof.
  split; [intros ->; apply py_sorted_sorted|]. intros Hs.
  eapply (StronglySorted_unique_strong name_le); [|done|apply py_sorted_sorted|by rewrite py_sorted_Permutation].
  intros x y _ _. apply String.leb_antisym.
Qed.

Lemma mismatched_nil {A} `{EqDecision A} (observed required : list (string * A)) :
  mismatched observed required = [] <-> forall k v, (k, v) ∈ required -> dget k observed = Some v.
Proof.
  unfold mismatched, keys. induction required as [|[k v] l IH]; cbn.
  - split; [by intros _ k v ?%not_elem_of_nil|done].
  - case_bool_decide as E; cbn.
    + rewrite IH. split; [|intros H' k' v' Hin; apply H'; by right].
      intros H' k' v' [[= -> ->]|Hin]%elem_of_cons; [done|auto].
    + split; [done|]. intros H'. destruct E. apply H'. by left.
Qed.
Lemma keys_take {A} (n : nat) (l : list (string * A)) : keys (take n l) = take n (keys l).
Proof. unfold keys. apply fmap_take. Qed.

(** Two parts of a list without repeated keys that have the same keys are equal. *)
Lemma same_keys {A} (l1 l2 whole : list (string * A)) :
  NoDup (keys whole) -> keys l1 = keys l2 -> (forall r, r ∈ l1 -> r ∈ whole) -> (forall r, r ∈ l2 -> r ∈ whole) ->
  l1 = l2.
Proof.
  intros Hnd. revert l2. induction l1 as [|[k v] l1 IH]; intros [|[k' v'] l2]; try done. cbn.
  intros [= -> Hk] H1 H2. f_equal.
  - f_equal. assert (dget k' whole = Some v) as E1 by (apply dget_In; [done|apply H1; by left]).
    rewrite (dget_In k' v' whole) in E1; [congruence|done|apply H2; by left].
  - apply IH; [done|intros r Hr; apply H1; by right|intros r Hr; apply H2; by right].
Qed.

Lemma filter_nil_all {A} (p : A -> bool) (l : list A) :
  List.filter p l = [] -> forall x, x ∈ l -> p x = false.
Proof.
  intros Hf x Hx. destruct (p x) eqn:E; [|done]. assert (List.In x []) as []. rewrite <- Hf.
  apply filter_In. split; [by apply list_elem_of_In|done].
Qed.
Lemma all_filter_nil {A} (p : A -> bool) (l : list A) :
  (forall x, x ∈ l -> p x = false) -> List.filter p l = [].
Proof.
  intros Hp. induction l as [|x l IH]; [done|]. cbn. rewrite (Hp x) by by left. apply IH. intros y Hy. apply Hp. by right.
Qed.

Lemma check_ledger_sound (expected applied : list (string * string)) :
  expected <> [] -> NoDup (keys applied) -> check_ledger expected applied = Ok tt ->
  exists forward, applied = expected ++ forward /\
    Forall (fun r => fullmatch MIGRATION_VERSION_PATTERN r.1 = true /\ fullmatch MIGRATION_CHECKSUM_PATTERN r.2 = true) forward /\
    StronglySorted name_le (keys forward) /\
    Forall (fun v => from_option (fun l => name_lt l v) False (last (keys expected))) (keys forward).
Proof.
  intros Hne Hnda. unfold check_ledger. rewrite (dict_of_pairs_NoDup applied) by done.
  - case_bool_decide as Hmiss; cbn [negb]; [|done]. case_bool_decide as Hch; cbn [negb]; [|done].
    case_bool_decide as Hpre; cbn [negb]; [|done]. case_bool_decide as Hmal; cbn [negb]; [|done].
    case_bool_decide as Hsorted; cbn [negb orb]; [|done]. destruct (existsb _ _) eqn:Hlast; [done|]. intros _.
    pose proof (proj1 (mismatched_nil _ _) (proj1 (py_sorted_nil _) Hch)) as Hsame. unfold keys in *. rewrite length_fmap in *. fold (keys expected) (keys applied) in *.
    exists (drop (length expected) applied). split; [|split; [|split]].
    + rewrite <- (take_drop (length expected) applied) at 1. f_equal.
      apply (same_keys _ _ applied Hnda); [by rewrite keys_take|intros r Hr; rewrite <- (take_drop (length expected) applied); apply elem_of_app; by left|].
      intros [k v] Hr. apply dget_Some_In. by apply Hsame.
    + apply fmap_nil_inv in Hmal. apply Forall_forall. intros r Hr.
      pose proof (filter_nil_all _ _ Hmal r Hr) as E. cbn in E. apply orb_false_iff in E.
      by rewrite !negb_false_iff in E.
    + by apply py_sorted_fixed.
    + apply Forall_forall. intros v Hv.
      assert (from_option (String.leb v) true (last (keys expected)) = false) as Hv'.
      { destruct (from_option _ _ _) eqn:E; [|done]. rewrite <- Hlast. symmetry. apply existsb_exists.
        exists v. split; [by apply list_elem_of_In|exact E]. }
      by destruct (last (keys expected)).
Qed.

Lemma check_ledger_complete (expected forward : list (string * string)) :
  NoDup (keys (expected ++ forward)) ->
  Forall (fun r => fullmatch MIGRATION_VERSION_PATTERN r.1 = true /\ fullmatch MIGRATION_CHECKSUM_PATTERN r.2 = true) forward ->
  StronglySorted name_le (keys forward) ->
  Forall (fun v => from_option (fun l => name_lt l v) False (last (keys expected))) (keys forward) ->
  check_ledger expected (expected ++ forward) = Ok tt.
Proof.
  intros Hnda Hwf Hs Hl. unfold check_ledger. rewrite (dict_of_pairs_NoDup (expected ++ forward)) by done.
  rewrite Forall_forall in Hwf.
  assert (keys (expected ++ forward) = keys expected ++ keys forward) as Happ by (unfold keys; apply fmap_app).
  assert (length (keys expected) = length expected) as Hlen by (unfold keys; apply length_fmap).
  rewrite (proj2 (set_diff_nil _ _)) by (rewrite Happ; set_solver). cbn [py_sorted foldr negb].
  rewrite bool_decide_true by done. cbn [negb].
  rewrite (proj2 (mismatched_nil _ _)); [|intros k v Hin; apply dget_In; [done|apply elem_of_app; by left]].
  cbn [py_sorted foldr]. rewrite bool_decide_true by done. cbn [negb].
  rewrite Happ, take_app_length, bool_decide_true by done. cbn [negb]. rewrite Hlen, drop_app_length.
  rewrite (all_filter_nil _ forward); [|intros r Hr; destruct (Hwf r Hr) as [-> ->]; done].
  rewrite bool_decide_true by done. cbn [negb].
  rewrite bool_decide_true by by apply py_sorted_fixed. cbn [negb orb].
  destruct (existsb _ _) eqn:E; [|done]. apply existsb_exists in E as (v & Hv & Hle).
  apply list_elem_of_In in Hv. pose proof (proj1 (Forall_forall _ _) Hl v Hv) as Hlt. destruct (last (keys expected)); cbn in *; [|done].
  unfold name_lt in Hlt. congruence.
Qed.

(** The readiness check accepts a ledger exactly when the packaged migrations, each
    with its checksum, are its first entries in their order, and what follows is
    well-formed, sorted and later than all of them: an older image stays ready on the
    database of a newer one, and any gap, edit or reordering is refused. *)
Theorem ledger_accepted_iff (expected applied : list (string * string)) :
  expected <> [] -> NoDup (keys applied) ->
  check_ledger expected applied = Ok tt <->
  exists forward, applied = expected ++ forward /\
    Forall (fun r => fullmatch MIGRATION_VERSION_PATTERN r.1 = true /\ fullmatch MIGRATION_CHECKSUM_PATTERN r.2 = true) forward /\
    StronglySorted name_le (keys forward) /\
    Forall (fun v => from_option (fun l => name_lt l v) False (last (keys expected))) (keys forward).
Proof.
  intros Hne Hnda. split; [by apply check_ledger_sound|].
  intros (forward & -> & Hwf & Hs & Hl). by apply check_ledger_complete.
Qed.

(** ** Migrations *)
Section Migrations.
Context `{PG : Postgres} `{!PostgresLaws}.

Lemma ledger_le_total : Total ledger_le.
Proof.
  intros a b. unfold ledger_le. destruct (Z.lt_total a.2 b.2) as [|[|]]; [by left; left| |by right; left].
  destruct (collate_total a.1.1 b.1.1); [left|right]; right; done.
Qed.
Lemma ledger_le_trans : Transitive ledger_le.
Proof.
  intros a b c. unfold ledger_le. intros [H1|[H1 C1]] [H2|[H2 C2]]; [left; lia..|].
  right. split; [congruence|]. by eapply collate_trans.
Qed.
#[local] Existing Instances ledger_le_total ledger_le_trans.

Definition checksums (files : list (string * string)) : list (string * string) :=
  map (fun f => (f.1, sha256_hex f.2)) files.

Lemma keys_checksums (files : list (string * string)) : keys (checksums files) = keys files.
Proof. unfold keys, checksums. by rewrite <- list_fmap_compose. Qed.
(** What the loop inserts: the files that are not in the ledger yet. *)
Lemma apply_files_rest (m : migrator) (known before rest rows : list (string * string)) :
  (forall f, f ∈ before -> dget f.1 known = Some (sha256_hex f.2)) ->
  (forall f, f ∈ rest -> dget f.1 known = None) ->
  apply_files m known (before ++ rest) = Ok rows -> rows = checksums rest.
Proof.
  intros Hbefore Hrest. induction before as [|[name sql] before IH]; cbn [app apply_files].
  - clear Hbefore. revert rows. induction rest as [|[name sql] rest IH]; intros rows; [by intros [= <-]|]. cbn [apply_files].
    pose proof (Hrest (name, sql) ltac:(by left)) as E. cbn in E. rewrite E. intros Hr. res_inv. subst.
    cbn. f_equal. apply IH; [|done]. intros f Hf. apply Hrest. by right.
  - pose proof (Hbefore (name, sql) ltac:(by left)) as E. cbn [fst snd] in E. rewrite E, String.eqb_refl. apply IH.
    intros f Hf. apply Hbefore. by right.
Qed.
Lemma apply_files_none (m : migrator) (known files : list (string * string)) :
  (forall f, f ∈ files -> dget f.1 known = Some (sha256_hex f.2)) -> apply_files m known files = Ok [].
Proof.
  induction files as [|[name sql] files IH]; intros Hk; [done|]. cbn [apply_files].
  pose proof (Hk (name, sql) ltac:(by left)) as E. cbn [fst snd] in E. rewrite E, String.eqb_refl. apply IH.
  intros f Hf. apply Hk. by right.
Qed.

(** Rows of one run, later than the ledger, come after it in their own order. *)
Lemma read_ledger_app (l : ledger) (rows : list (string * string)) (now : Z) :
  Forall (fun r => r.2 < now) l ->
  NoDup (keys (versions_of l ++ rows)) ->
  StronglySorted (fun a b => collate a.1 b.1 = true) rows ->
  read_ledger (l ++ map (fun r => (r, now)) rows) = read_ledger l ++ rows.
Proof.
  intros Hold Hnd Hsorted. unfold read_ledger, versions_of in *.
  assert (merge_sort ledger_le (l ++ map (fun r => (r, now)) rows) =
          merge_sort ledger_le l ++ map (fun r => (r, now)) rows) as ->.
  2: { rewrite fmap_app. f_equal. clear. induction rows as [|r rows IH]; [done|]. cbn. f_equal. exact IH. }
  eapply (StronglySorted_unique_strong ledger_le).
  - intros x y Hx Hy Hxy Hyx. unfold ledger_le in Hxy, Hyx.
    assert (x.1.1 = y.1.1 /\ x.2 = y.2) as [Hk Ht].
    { destruct Hxy as [?|[? C1]], Hyx as [?|[? C2]]; try lia. split; [by apply collate_antisym|done]. }
    assert (forall z, z ∈ l ++ map (fun r => (r, now)) rows -> z.1 ∈ l.*1 ++ rows) as Hin.
    { intros z [Hz|Hz]%elem_of_app; apply elem_of_app; [left; by apply list_elem_of_fmap_2|right].
      apply list_elem_of_In, in_map_iff in Hz as (r & <- & Hr). by apply list_elem_of_In. }
    rewrite merge_sort_Permutation in Hx, Hy.
    pose proof (dget_In x.1.1 x.1.2 _ Hnd ltac:(rewrite <- surjective_pairing; by apply Hin)) as E1.
    pose proof (dget_In y.1.1 y.1.2 _ Hnd ltac:(rewrite <- surjective_pairing; by apply Hin)) as E2.
    destruct x as [[k v] t1], y as [[k' v'] t2]. cbn in *. congruence.
  - apply StronglySorted_merge_sort; apply _.
  - apply StronglySorted_app_2; [|apply StronglySorted_merge_sort; apply _|].
    + intros x y Hx Hy. rewrite merge_sort_Permutation in Hx. rewrite Forall_forall in Hold. left.
      apply list_elem_of_In, in_map_iff in Hy as (r & <- & _). by apply Hold.
    + clear -Hsorted. induction Hsorted as [|r rows Hs IH Hr]; cbn; constructor; [done|].
      apply Forall_forall. intros y Hy. apply list_elem_of_In, in_map_iff in Hy as (r' & <- & Hr').
      right. split; [done|]. apply (proj1 (Forall_forall _ _) Hr). by apply list_elem_of_In.
  - rewrite !merge_sort_Permutation. done.
Qed.

(** Names whose order in the collation is the code-point order. *)
Definition same_order (files : list (string * string)) : Prop :=
  forall a b, a ∈ files -> b ∈ files -> String.leb a.1 b.1 = true -> collate a.1 b.1 = true.

Lemma file_le_total : Total file_le.
Proof. intros a b. apply String.leb_total. Qed.
Lemma file_le_trans : Transitive file_le.
Proof. intros a b c. apply string_leb_trans. Qed.
#[local] Existing Instances file_le_total file_le_trans.

Lemma sorted_files_facts (files : list (string * string)) :
  NoDup (keys files) -> same_order files ->
  NoDup (keys (checksums (sorted_files files))) /\
  StronglySorted (fun a b => collate a.1 b.1 = true) (checksums (sorted_files files)).
Proof.
  intros Hnd Hsame. split.
  - rewrite keys_checksums. unfold keys, sorted_files. rewrite merge_sort_Permutation. unfold keys in Hnd.
    clear Hsame. induction files as [|f files IH]; cbn; [constructor|]. apply NoDup_cons in Hnd as [Hf Hnd].
    destruct (fullmatch MIGRATION_GLOB f.1); [|auto]. cbn. apply NoDup_cons. split; [|auto].
    intros Hin. apply Hf. apply list_elem_of_fmap in Hin as (x & -> & Hx). apply list_elem_of_fmap_2.
    apply list_elem_of_In in Hx. apply filter_In in Hx as [Hx _]. by apply list_elem_of_In.
  - assert (forall f, f ∈ sorted_files files -> f ∈ files) as Hsub.
    { intros f. unfold sorted_files. rewrite merge_sort_Permutation, !list_elem_of_In, filter_In. by intros []. }
    assert (StronglySorted file_le (sorted_files files)) as Hs by (apply StronglySorted_merge_sort; apply _).
    induction Hs as [|f l Hs IH Hf]; cbn; constructor.
    + apply IH. intros g Hg. apply Hsub. by right.
    + apply Forall_forall. intros g Hg. apply list_elem_of_In, in_map_iff in Hg as (g' & <- & Hg'%list_elem_of_In).
      cbn. apply Hsame; [apply Hsub; by left|apply Hsub; by right|]. by apply (proj1 (Forall_forall _ _) Hf).
Qed.

Lemma apply_migrations_Ok (m : migrator) (files : list (string * string)) (role : option string) (now : Z)
    (l l' : ledger) (applied : list string) :
  apply_migrations m files role now l = Ok (applied, l') ->
  sorted_files files <> [] /\ exists rows,
    apply_files m (dict_of_pairs (versions_of l)) (sorted_files files) = Ok rows /\
    applied = keys rows /\ l' = l ++ map (fun r => (r, now)) rows /\
    forall later l2 rows2, apply_files m (dict_of_pairs (versions_of l2)) (sorted_files files) = Ok rows2 ->
      apply_migrations m files role later l2 = Ok (keys rows2, l2 ++ map (fun r => (r, later)) rows2).
Proof.
  unfold apply_migrations. destruct (sorted_files files) as [|f S0]; [done|].
  generalize (f :: S0) at 1 3 4 5. intros S Ha. apply bind_Ok in Ha as ([] & Hp & Ha).
  apply bind_Ok in Ha as (rows & Hr & Ha). apply bind_Ok in Ha as ([] & Hg & [= <- <-]).
  split; [done|]. exists rows. split; [done|]. split; [done|]. split; [done|].
  intros later l2 rows2 Hr2. rewrite Hp. cbn. rewrite Hr2. cbn. by rewrite Hg.
Qed.

(** Migrating makes the registry ready.  From a ledger an older image left (the first
    [k] packaged migrations, applied earlier), a successful run applies exactly the
    missing files in order, after which the readiness check accepts the ledger and
    another run applies nothing and leaves it alone. *)
Theorem migrate_then_ready (m : migrator) (files : list (string * string)) (role : option string)
    (now later : Z) (l l' : ledger) (applied : list string) (k : nat) :
  NoDup (keys files) -> same_order files -> Forall (fun r => r.2 < now) l ->
  read_ledger l = take k (checksums (sorted_files files)) ->
  apply_migrations m files role now l = Ok (applied, l') ->
  applied = drop k (keys (sorted_files files)) /\
  required_migrations files = Ok (read_ledger l') /\
  check_ledger (read_ledger l') (read_ledger l') = Ok tt /\
  apply_migrations m files role later l' = Ok ([], l').
Proof.
  intros Hnd Hsame Hold Hprefix Happly.
  destruct (sorted_files_facts files Hnd Hsame) as [Hne Hsorted].
  set (E := checksums (sorted_files files)) in *.
  assert (versions_of l ≡ₚ take k E) as Hperm.
  { rewrite <- Hprefix. unfold read_ledger, versions_of. by rewrite merge_sort_Permutation. }
  assert (NoDup (keys (versions_of l)) /\ (forall r, r ∈ versions_of l <-> r ∈ take k E)) as [Hndl Hmem].
  { split; [|intros r; by rewrite Hperm]. unfold keys. rewrite Hperm. fold (keys (take k E)).
    rewrite keys_take. rewrite <- (take_drop k (keys E)) in Hne.
    by destruct (proj1 (NoDup_app _ _) Hne) as [? _]. }
  set (S := sorted_files files) in *.
  assert (forall n, take n E = checksums (take n S) /\ drop n E = checksums (drop n S)) as HE.
  { intros n. split; [apply firstn_map | apply skipn_map]. }
  assert (NoDup (keys (take k E ++ drop k E))) as HndE by by rewrite take_drop.
  destruct (apply_migrations_Ok _ _ _ _ _ _ _ Happly) as (HS & rows & Hrows & -> & -> & Hagain).
  fold S in HS, Hrows, Hagain. rewrite (dict_of_pairs_NoDup (versions_of l)) in Hrows by done.
  assert (rows = drop k E) as ->.
  { rewrite <- (take_drop k S) in Hrows. apply apply_files_rest in Hrows as ->.
    - symmetry. apply HE.
    - intros f Hf. apply dget_In; [done|]. apply Hmem. rewrite (proj1 (HE k)). unfold checksums.
      apply list_elem_of_In, in_map_iff. exists f. by rewrite <- list_elem_of_In.
    - intros f Hf. apply dget_None. intros Hin. unfold keys in Hin. apply list_elem_of_fmap in Hin as (r & Hr & Hin%Hmem).
      unfold keys in HndE. rewrite fmap_app in HndE. apply NoDup_app in HndE as (_ & Hd & _).
      apply (Hd f.1); [rewrite Hr; by apply list_elem_of_fmap_2|]. rewrite (proj2 (HE k)).
      change (f.1 ∈ keys (checksums (drop k S))). rewrite keys_checksums. by apply list_elem_of_fmap_2. }
  assert (versions_of l ++ drop k E ≡ₚ E) as Hperm' by by rewrite Hperm, take_drop.
  assert (NoDup (keys (versions_of l ++ drop k E))) as Hndl' by (unfold keys; by rewrite Hperm').
  assert (read_ledger (l ++ map (fun r => (r, now)) (drop k E)) = E) as HE'.
  { rewrite read_ledger_app, Hprefix; [apply take_drop|done|done|].
    rewrite <- (take_drop k E) in Hsorted. by eapply StronglySorted_app_1_r. }
  split; [by rewrite (proj2 (HE k)), keys_checksums; unfold keys; rewrite fmap_drop|].
  rewrite HE'. split; [|split].
  - unfold required_migrations. fold S. fold (checksums S). change (checksums S) with E.
    destruct E as [|r E0] eqn:EE; [|done]. destruct S; [done|]. discriminate EE.
  - rewrite <- (app_nil_r E) at 2. apply check_ledger_complete; [by rewrite app_nil_r|constructor..].
  - pose proof (Hagain later (l ++ map (fun r => (r, now)) (drop k E)) []) as Hid. rewrite app_nil_r in Hid. apply Hid.
    assert (versions_of (l ++ map (fun r => (r, now)) (drop k E)) = versions_of l ++ drop k E) as ->.
    { unfold versions_of. rewrite fmap_app. f_equal. generalize (drop k E). clear. intros rows.
      induction rows as [|r rows IH]; [done|]. cbn. f_equal. exact IH. }
    rewrite dict_of_pairs_NoDup by done. apply apply_files_none. intros f Hf. apply dget_In; [done|].
    rewrite Hperm'. apply list_elem_of_In, in_map_iff. exists f. by rewrite <- list_elem_of_In.
Qed.
End Migrations.

(** ** Concrete listings, searches and migrations *)
#[local] Existing Instance c_locale.
#[export] Instance c_locale_fold : @FoldLaws c_locale.
Proof.
  assert (forall c, special c = true -> c = "%"%string \/ c = "_"%string \/ c = String backslash ""%string) as Hs.
  { intros c Hc. unfold special in Hc. apply mem_In in Hc. set_solver. }
  intros c [Hc%Hs|Hc%Hs]; cbn in *.
  - destruct Hc as [->|[->| ->]]; reflexivity.
  - destruct c as [|a [|b r]]; cbn in Hc; [naive_solver| |naive_solver].
    assert (forall a, lower_ascii a = "%"%char \/ lower_ascii a = "_"%char \/ lower_ascii a = backslash -> lower_ascii a = a) as Hl.
    { clear. intros a Ha. destruct (lower_ascii a =? a)%char eqn:E; [by apply Ascii.eqb_eq|exfalso].
      revert Ha E. destruct a as [[] [] [] [] [] [] [] []]; vm_compute; intuition congruence. }
    cbn. rewrite Hl; [done|]. naive_solver.
Qed.

Definition beacon (id : string) : attrs :=
  [("device_id", PStr id); ("display_name", PStr "100% beacon"); ("kind", PStr "gps")]%string.
Definition herd : table := (run ∅ (map (fun id => Create (beacon id) "alice") ["b"; "a"; "c"]%string)).1.
Definition thinned : table := (perform Up 0 (Retire "b" "alice" 1) herd).2.
(** "b" is retired after the first page, of one device each. *)
Lemma pagination_exactly_once_witness :
  exists pages rows, walk (fun i => if (i =? 0)%nat then herd else thinned) None None (Some "0% b"%string) 1 9 0 None = Some pages /\
    concat pages = map show rows /\ NoDup rows.*1 /\ length pages = 2%nat.
Proof.
  destruct (filter_of None None (Some "0% b"%string)) as [f|e] eqn:Hf; [|vm_compute in Hf; discriminate Hf].
  destruct (walk (fun i => if (i =? 0)%nat then herd else thinned) None None (Some "0% b"%string) 1 9 0 None) as [pages|] eqn:Hw;
    [|vm_compute in Hw; discriminate Hw].
  destruct (pagination_exactly_once _ f _ _ _ _ _ pages Hf Hw) as (rows & Hc & Hnd & _).
  exists pages, rows. split; [reflexivity|]. split; [exact Hc|]. split; [exact Hnd|].
  vm_compute in Hw. injection Hw as <-. reflexivity.
Defined.

Lemma pagination_terminates_witness :
  exists pages rows, walk (fun _ => herd) None None None 2 (S (size herd)) 0 None = Some pages /\
    concat pages = map show rows /\ StronglySorted row_le rows.
Proof.
  destruct (filter_of None None None) as [f|e] eqn:Hf; [|vm_compute in Hf; discriminate Hf].
  assert (map_Forall (fun id _ => fullmatch DEVICE_ID_PATTERN id = true) herd) as Hids.
  { intros id d Hd. exact (wf_id _ _ (proj1 (invariant_steps ∅ herd [] _ (run_reachable _) invariant_empty id d Hd))). }
  destruct (pagination_terminates herd f None None None 2 Hids Hf ltac:(lia)) as (pages & rows & Hw & Hc & _ & Hs & _).
  exists pages, rows. split; [exact Hw|]. split; [exact Hc|exact Hs].
Defined.

Lemma search_is_literal_witness :
  exists p, parse_like (folded "%100\%%"%string) = Some p /\
    (ilike p "Battery 100% full"%string = true <->
     exists before after, folded "Battery 100% full" = before ++ folded (py_strip " 100%") ++ after).
Proof.
  destruct (search_is_literal " 100%" "%100\%%" eq_refl eq_refl) as (p & Hp & Hs).
  exists p. split; [exact Hp|exact (Hs "Battery 100% full"%string)].
Defined.

Definition packaged : list (string * string) :=
  [("0002_labels.sql", "ALTER"); ("README.md", "text"); ("0001_device_registry.sql", "CREATE")]%string.
Lemma ledger_accepted_iff_witness :
  exists expected, required_migrations packaged = Ok expected /\
    (check_ledger expected expected = Ok tt <-> exists forward, expected = expected ++ forward /\ Forall (fun r => fullmatch MIGRATION_VERSION_PATTERN r.1 = true /\ fullmatch MIGRATION_CHECKSUM_PATTERN r.2 = true) forward /\
    StronglySorted name_le (keys forward) /\
    Forall (fun v => from_option (fun l => name_lt l v) False (last (keys expected))) (keys forward)).
Proof.
  destruct (required_migrations packaged) as [expected|e] eqn:E; [|vm_compute in E; discriminate E].
  exists expected. split; [reflexivity|]. apply ledger_accepted_iff.
  - vm_compute in E. injection E as <-. discriminate.
  - vm_compute in E. injection E as <-. apply nodupb_NoDup. reflexivity.
Defined.

Definition open_database : migrator :=
  {| preflight := Some (true, true, true); ownership := Some (true, true);
     granted := Some expected_privileges; exec_sql := fun _ => Ok tt |}.
Definition first_ledger : ledger := [(("0001_device_registry.sql", sha256_hex "CREATE"), 5)]%string.
Lemma migrate_then_ready_witness :
  exists l', apply_migrations open_database packaged (Some "console") 7 first_ledger = Ok (["0002_labels.sql"%string], l') /\
    check_ledger (read_ledger l') (read_ledger l') = Ok tt.
Proof.
  destruct (apply_migrations open_database packaged (Some "console"%string) 7 first_ledger) as [[applied l']|e] eqn:E;
    [|vm_compute in E; discriminate E].
  destruct (migrate_then_ready open_database packaged (Some "console"%string) 7 8 first_ledger l' applied 1) as (Ha & _ & Hc & _).
  - apply nodupb_NoDup. reflexivity.
  - intros a b _ _ Hle. exact Hle.
  - repeat constructor.
  - vm_compute. reflexivity.
  - exact E.
  - exists l'. split; [|exact Hc]. rewrite Ha. vm_compute. reflexivity.
Defined.
