(* ===== verification/Console.v ===== *)
(** The HTTP front end of the IoT management console (management_console/app.py): the
    identity boundary, the canonical form of an origin, the checks on mutations, request
    bodies, and the handlers of the device registry API.

    A request handler is a function from the table to a reply and a table; an exception it
    does not catch ends the connection without a reply.  The reply of the OIDC
    introspection endpoint is a parameter of the request.  The catalogue routes, the
    probes, the exports and the static files are not modelled: their bodies are. *)

From stdpp Require Import gmap strings.
From S2P Require Import Prelude PyValue Regex PyFloat Json PyTime PyText Url Registry.
#[local] Open Scope list_scope.
#[local] Open Scope string_scope.
#[local] Open Scope Z_scope.

Definition MAX_REQUEST_BYTES : Z := 65536.
Definition TRUTHY_ENV_VALUES : list string := ["1"; "true"; "yes"; "on"].
Definition PUBLIC_BASE_PATH : string := "/dealiot".
Definition OIDC_CONFIGURATION_NAMES : list string :=
  ["MANAGEMENT_CONSOLE_OIDC_INTROSPECTION_URL"; "MANAGEMENT_CONSOLE_OIDC_ISSUER";
   "MANAGEMENT_CONSOLE_OIDC_AUDIENCE"; "MANAGEMENT_CONSOLE_OIDC_CLIENT_ID";
   "MANAGEMENT_CONSOLE_OIDC_CLIENT_SECRET"; "MANAGEMENT_CONSOLE_OIDC_READ_ROLES";
   "MANAGEMENT_CONSOLE_OIDC_WRITE_ROLES"].
Definition MAX_OIDC_CLAIM_LENGTH : Z := 255.
Definition FORBIDDEN_OIDC_GROUPS_CLAIMS : list string :=
  ["scope"; "scp"; "roles"; "realm_access"; "realm_access.roles"].

Record Principal := { subject : string; roles : list string; level : option string }.

(** What [open_http_request] returns for the introspection request: a status and a body,
    or the exception it raises. *)
Definition introspection := res (Z * string).

(** ** Settings *)
Section Settings.
Context `{UnicodeData} `{CaseFold} `{NetlocRules} (env : string -> option string).

Definition management_console_token : option string :=
  let value := getenv_strip env "MANAGEMENT_CONSOLE_TOKEN" "" in
  if String.eqb value "" then None else Some value.

Definition csv_env (name default_ : string) : list string :=
  List.filter (fun item => negb (String.eqb item "")) (map py_strip (py_split "," (default default_ (env name)))).

Definition configured_oidc_groups_claim_name : option string :=
  let configured := default "groups" (env "MANAGEMENT_CONSOLE_OIDC_GROUPS_CLAIM") in
  let claim_name := py_strip configured in
  if String.eqb claim_name "" || negb (String.eqb configured claim_name)
     || (MAX_OIDC_CLAIM_LENGTH <? py_len claim_name) || has_byte 0 claim_name
     || mem (py_casefold claim_name) FORBIDDEN_OIDC_GROUPS_CLAIMS
  then None else Some claim_name.

(** A group the code refuses, with all the others. *)
Definition bad_group (group : pyval) : bool :=
  match group with
  | PStr s => String.eqb (py_strip s) "" || negb (String.eqb s (py_strip s))
  | _ => true
  end.
Definition text_of (v : pyval) : string := match v with PStr s => s | _ => "" end.
Definition token_authorization_groups (claims : attrs) : list string :=
  match configured_oidc_groups_claim_name with
  | None => []
  | Some claim_name =>
      match vget claim_name claims with
      | PList groups => if existsb bad_group groups then [] else map text_of groups
      | _ => []
      end
  end.

Definition bool_env (name : string) : bool :=
  mem (py_lower (py_strip (default "" (env name)))) TRUTHY_ENV_VALUES.
Definition management_console_production_mode : bool := bool_env "MANAGEMENT_CONSOLE_PRODUCTION_MODE".
Definition introspection_configured : bool :=
  negb (String.eqb (getenv_strip env "MANAGEMENT_CONSOLE_OIDC_INTROSPECTION_URL" "") "").
Definition management_console_auth_configured : bool :=
  bool_decide (is_Some management_console_token) || introspection_configured.

(** ** Identity *)
(** The claims, given what the endpoint answers; [Ok None] when it is not configured. *)
Definition introspect_oidc_token (answer : introspection) : res (option attrs) :=
  if negb introspection_configured then Ok None
  else
    let client_id := getenv_strip env "MANAGEMENT_CONSOLE_OIDC_CLIENT_ID" "" in
    let client_secret := getenv_strip env "MANAGEMENT_CONSOLE_OIDC_CLIENT_SECRET" "" in
    if String.eqb client_id "" || String.eqb client_secret "" then Ok (Some [])
    else
      match answer with
      | Raise e => if match e with OSError => true | _ => is_value_error e end then Ok (Some []) else Raise e
      | Ok (status, body) =>
          if 400 <=? status then Ok (Some [])
          else
            match decode_utf8 body ≫= loads with
            | Raise (UnicodeDecodeError | JSONDecodeError) => Ok (Some [])
            | Raise e => Raise e
            | Ok (PDict claims) =>
                if negb (bool_decide (vget "active" claims = PBool true)) then Ok (Some [])
                else
                  let expected_issuer := getenv_strip env "MANAGEMENT_CONSOLE_OIDC_ISSUER" "" in
                  if negb (String.eqb expected_issuer "") && negb (eq_str (vget "iss" claims) expected_issuer)
                  then Ok (Some [])
                  else
                    let expected_audience := getenv_strip env "MANAGEMENT_CONSOLE_OIDC_AUDIENCE" "" in
                    audiences ← match vget "aud" claims with
                                | PStr s => Ok [s]
                                | PList l => mapM_res py_str l
                                | _ => Ok []
                                end;
                    if negb (String.eqb expected_audience "") && negb (mem expected_audience audiences)
                    then Ok (Some [])
                    else Ok (Some claims)
            | Ok _ => Ok (Some [])
            end
      end.

Definition bearer_token (authorization : option string) : option string :=
  match authorization with
  | Some a =>
      match after_prefix "Bearer " a with
      | Some rest => let token := py_strip rest in if String.eqb token "" then None else Some token
      | None => None
      end
  | None => None
  end.

Definition intersects (a b : list string) : bool := existsb (fun x => mem x b) a.
Definition stable_subject (v : pyval) : option string :=
  match v with
  | PStr s => if String.eqb s "" || negb (String.eqb s (py_strip s)) || (MAX_OIDC_CLAIM_LENGTH <? py_len s) || has_byte 0 s
              then None else Some s
  | _ => None
  end.

Definition authenticated_principal (authorization : option string) (answer : introspection) : res (option Principal) :=
  match bearer_token authorization with
  | None => Ok None
  | Some token =>
      if introspection_configured then
        claims ← introspect_oidc_token answer;
        match claims with
        | None | Some [] => Ok None
        | Some claims =>
            let authorization_groups := token_authorization_groups claims in
            let write_groups := csv_env "MANAGEMENT_CONSOLE_OIDC_WRITE_ROLES" "dealiot-write,dealiot-admin" in
            let read_groups := csv_env "MANAGEMENT_CONSOLE_OIDC_READ_ROLES" "dealiot-read,dealiot-write,dealiot-admin" in
            let level := if intersects authorization_groups write_groups then Some "write"
                         else if intersects authorization_groups read_groups then Some "read" else None in
            match stable_subject (vget "sub" claims) with
            | None => Ok None
            | Some subject => Ok (Some {| subject := subject; roles := authorization_groups; level := level |})
            end
        end
      else
        match if management_console_production_mode then None else management_console_token with
        | None => Ok None
        | Some legacy_token =>
            same ← compare_digest token legacy_token;
            Ok (if same : bool
                then Some {| subject := "static-management-token"; roles := ["dealiot-admin"]; level := Some "write" |}
                else None)
        end
  end.

Definition level_rank (l : string) : option Z :=
  if String.eqb l "read" then Some 1 else if String.eqb l "write" then Some 2 else None.
Definition level_allows (actual : option string) (required : string) : bool :=
  default 99 (level_rank required) <=? default 0 (level_rank (default "" actual)).

Definition resolve_principal (authorization : option string) (answer : introspection) : res (option Principal) :=
  if negb management_console_auth_configured then
    Ok (if management_console_production_mode then None
        else Some {| subject := "development-user"; roles := ["dealiot-admin"]; level := Some "write" |})
  else authenticated_principal authorization answer.

(** ** Origins *)
Definition canonical_origin (value : string) : res string :=
  if String.eqb value "" || negb (String.eqb value (py_strip value)) || String.eqb value "null"
  then Raise (ValueError "origin must be an absolute HTTP origin")
  else
    parsed ← urlparse value;
    match hostname parsed with
    | Some host =>
        if negb (mem (scheme parsed) ["http"; "https"]) || has_userinfo parsed
           || negb (mem (path parsed) [""; "/"]) || negb (String.eqb (params parsed) "")
           || negb (String.eqb (query parsed) "") || negb (String.eqb (fragment parsed) "")
        then Raise (ValueError "origin must contain only scheme, host and optional port")
        else
          p ← match port parsed with
              | Raise (ValueError _) => Raise (ValueError "origin has an invalid port")
              | r => r
              end;
          let host := py_lower host in
          let rendered_host := if has_byte 58 host then "[" ++ host ++ "]" else host in
          let default_port := if String.eqb (scheme parsed) "https" then 443 else 80 in
          let port_suffix := match p with
            | Some p => if p =? default_port then "" else ":" ++ py_str_int p
            | None => ""
            end in
          Ok (scheme parsed ++ "://" ++ rendered_host ++ port_suffix)
    | None => Raise (ValueError "origin must contain only scheme, host and optional port")
    end.

Definition configured_public_origin : res (option string) :=
  let value := getenv_strip env "MANAGEMENT_CONSOLE_PUBLIC_ORIGIN" "" in
  if String.eqb value "" then Ok None else Some <$> canonical_origin value.

(** ** Startup *)
Definition starts_https (s : string) : bool := startswith "https://" s.
Definition validate_production_auth_config : res unit :=
  if negb management_console_production_mode then Ok tt
  else if bool_decide (is_Some management_console_token)
  then Raise (RuntimeError "MANAGEMENT_CONSOLE_TOKEN is not accepted in production; configure the OIDC introspection boundary instead")
  else
    let missing := py_sorted (List.filter (fun name => String.eqb (getenv_strip env name "") "") OIDC_CONFIGURATION_NAMES) in
    if negb (bool_decide (missing = []))
    then Raise (RuntimeError ("Incomplete production authentication configuration: " ++ String.concat ", " missing))
    else if bool_decide (configured_oidc_groups_claim_name = None)
    then Raise (RuntimeError "MANAGEMENT_CONSOLE_OIDC_GROUPS_CLAIM must name a dedicated top-level group claim and must not be scope, scp, roles, realm_access, or realm_access.roles")
    else if negb (starts_https (getenv_strip env "MANAGEMENT_CONSOLE_OIDC_INTROSPECTION_URL" ""))
    then Raise (RuntimeError "MANAGEMENT_CONSOLE_OIDC_INTROSPECTION_URL must use HTTPS in production")
    else if negb (starts_https (getenv_strip env "MANAGEMENT_CONSOLE_OIDC_ISSUER" ""))
    then Raise (RuntimeError "MANAGEMENT_CONSOLE_OIDC_ISSUER must use HTTPS in production")
    else
      match configured_public_origin with
      | Raise (ValueError e) => Raise (RuntimeError ("Invalid MANAGEMENT_CONSOLE_PUBLIC_ORIGIN: " ++ e))
      | Raise e => Raise e
      | Ok None => Raise (RuntimeError "Incomplete production request boundary: MANAGEMENT_CONSOLE_PUBLIC_ORIGIN")
      | Ok (Some public_origin) =>
          if starts_https public_origin then Ok tt
          else Raise (RuntimeError "MANAGEMENT_CONSOLE_PUBLIC_ORIGIN must use HTTPS in production")
      end.
End Settings.

(** ** Requests and replies *)
Record Request := {
  target : string;
  request_headers : list (string * string);
  body : string
}.
Record Reply := {
  status_code : Z;
  reply_headers : list (string * string);
  content : string;
  close_connection : bool
}.

Definition header_name_eqb (a b : string) : bool :=
  String.eqb (map_bytes lower_ascii a) (map_bytes lower_ascii b).
(** [headers.get_all(name) or []] and [headers.get(name)]. *)
Definition header_values (rq : Request) (name : string) : list string :=
  map snd (List.filter (fun kv => header_name_eqb kv.1 name) (request_headers rq)).
Definition header (rq : Request) (name : string) : option string := head (header_values rq name).

Section Handlers.
Context `{UnicodeData} `{CaseFold} `{NetlocRules} `{Postgres} (env : string -> option string).
(** [str(exc)] of the exceptions Python raises itself. *)
Variable exception_text : pyexn -> string.

Definition security_headers : list (string * string) :=
  [("Content-Security-Policy",
    "default-src 'self'; base-uri 'self'; connect-src 'self'; form-action 'self'; frame-ancestors 'none'; img-src 'self' data:; object-src 'none'; script-src 'self'; style-src 'self' 'unsafe-inline'");
   ("Permissions-Policy", "camera=(), geolocation=(), microphone=(), payment=(), usb=()");
   ("Referrer-Policy", "no-referrer"); ("X-Content-Type-Options", "nosniff"); ("X-Frame-Options", "DENY")] ++
  (if management_console_production_mode env
   then [("Strict-Transport-Security", "max-age=31536000; includeSubDomains")] else []).

Definition respond_json (payload : attrs) (status : Z) (extra : list (string * string)) (close : bool) : Reply :=
  let content := dumps_ascii (sort_keys (PDict payload)) in
  {| status_code := status;
     reply_headers := [("Content-Type", "application/json; charset=utf-8"); ("Content-Length", py_str_int (byte_len content));
                       ("Cache-Control", "no-store")] ++ extra ++ security_headers;
     content := content; close_connection := close |}.
Definition respond_empty (status : Z) (extra : list (string * string)) : Reply :=
  {| status_code := status;
     reply_headers := [("Content-Length", "0"); ("Cache-Control", "no-store")] ++ extra ++ security_headers;
     content := ""; close_connection := false |}.
Definition error_reply (code_ : string) (status : Z) (close : bool) : Reply :=
  respond_json [("error", PStr code_)] status [] close.

(** [discard_request_body]: whether the connection is closed. *)
Definition or_zero (o : option string) : string :=
  match o with Some s => if String.eqb s "" then "0" else s | None => "0" end.
Definition discard_request_body (rq : Request) : bool :=
  if bool_decide (is_Some (header rq "Transfer-Encoding")) then true
  else match py_int (or_zero (header rq "Content-Length")) with
       | None => true
       | Some length => (length <? 0) || (MAX_REQUEST_BYTES <? length)
       end.

(** ** The checks on mutations *)
Definition inferred_development_origin (rq : Request) : option string :=
  match header_values rq "Host", header_values rq "X-Forwarded-Proto" with
  | [host], ([] | [_]) as protos =>
      let sch := match protos with p :: _ => py_lower (py_strip p) | [] => "http" end in
      if has_byte 44 sch then None
      else match canonical_origin (sch ++ "://" ++ host) with Ok o => Some o | Raise _ => None end
  | _, _ => None
  end.

Definition mutation_origin_allowed (rq : Request) : res bool :=
  match header_values rq "Origin" with
  | [] => Ok true
  | [origin] =>
      match canonical_origin origin with
      | Raise _ => Ok false
      | Ok actual =>
          match configured_public_origin env with
          | Raise _ => Ok false
          | Ok (Some expected) => compare_digest actual expected
          | Ok None =>
              if management_console_production_mode env then Ok false
              else match inferred_development_origin rq with
                   | Some expected => compare_digest actual expected
                   | None => Ok false
                   end
          end
      end
  | _ => Ok false
  end.

Definition json_content_type_valid (rq : Request) : bool :=
  match header_values rq "Content-Type" with
  | [value] => String.eqb (py_casefold (py_strip (fst (split_on ";" value)))) "application/json"
  | _ => false
  end.

Definition request_body_is_empty (rq : Request) : bool :=
  match header_values rq "Transfer-Encoding", header_values rq "Content-Length" with
  | [], [] => true
  | [], [length] => match py_int length with Some n => n =? 0 | None => false end
  | _, _ => false
  end.

(** [None] lets the request through. *)
Definition require_mutation_boundary (rq : Request) (json_body : bool) : res (option Reply) :=
  allowed ← mutation_origin_allowed rq;
  if negb allowed then Ok (Some (error_reply "cross_origin_mutation_forbidden" 403 (discard_request_body rq)))
  else if negb (bool_decide (header_values rq "Transfer-Encoding" = []))
  then Ok (Some (error_reply "transfer_encoding_not_supported" 400 (discard_request_body rq)))
  else if json_body && negb (json_content_type_valid rq)
  then Ok (Some (error_reply "application_json_required" 415 (discard_request_body rq)))
  else Ok None.

Definition require_authorization (rq : Request) (answer : introspection) (required_level : string)
    (discard_body : bool) : res (Principal + Reply) :=
  principal ← resolve_principal env (header rq "Authorization") answer;
  let close := discard_body && discard_request_body rq in
  match principal with
  | Some p => Ok (if level_allows (level p) required_level then inl p else inr (error_reply "forbidden" 403 close))
  | None => Ok (inr (error_reply "unauthorized" 401 close))
  end.

(** ** Bodies, identifiers, revisions *)
Definition read_json_body (rq : Request) : res attrs :=
  match py_int (or_zero (header rq "Content-Length")) with
  | None => Raise (ValueError "Content-Length must be a non-negative integer")
  | Some length =>
      if length <? 0 then Raise (ValueError "Content-Length must be a non-negative integer")
      else if MAX_REQUEST_BYTES <? length then Raise (ValueError "request body too large")
      else if length =? 0 then Ok []
      else
        parsed ← decode_utf8 (String.substring 0 (Z.to_nat length) (body rq)) ≫= loads;
        match parsed with PDict d => Ok d | _ => Raise TypeError end
  end.

Definition internal_request_path (t : string) : res string :=
  u ← urlparse t;
  Ok (if String.eqb (path u) PUBLIC_BASE_PATH then "/"
      else if startswith (PUBLIC_BASE_PATH ++ "/") (path u) then removeprefix PUBLIC_BASE_PATH (path u)
      else path u).

Definition device_identifier_from_path (p : string) : res (option string) :=
  match after_prefix "/api/devices/" p with
  | None => Ok None
  | Some rest => Some <$> validate_device_id (PStr (unquote rest))
  end.

Definition etag_for_revision (r : Z) : string := bytes [34] ++ py_str_int r ++ bytes [34].
Definition IF_MATCH : regex :=
  Seq (Cls (is_byte 34)) (Seq (Cls (between "1" "9")) (Seq (star (Cls is_digit)) (Cls (is_byte 34)))).
Definition revision_from_if_match (value : option string) : res Z :=
  match value with
  | None => Raise DevicePreconditionRequiredError
  | Some v =>
      if fullmatch IF_MATCH (py_strip v)
      then int_of_digits (String.substring 1 (String.length (py_strip v) - 2) (py_strip v))
      else Raise (DeviceValidationError ("If-Match must contain a device ETag such as " ++ bytes [34] ++ "3" ++ bytes [34]))
  end.

(** ** Errors of the registry *)
Definition registry_status (e : pyexn) : Z * string :=
  match e with
  | DeviceValidationError _ => (400, "invalid_device_request")
  | DeviceNotFoundError _ => (404, "device_not_found")
  | DeviceConflictError _ => (409, "device_conflict")
  | RevisionConflictError _ => (412, "device_revision_conflict")
  | DevicePreconditionRequiredError => (428, "if_match_required")
  | _ => (503, "device_registry_unavailable")
  end.
Definition error_detail (e : pyexn) : string :=
  match e with
  | DeviceValidationError d | DeviceNotFoundError d | DeviceConflictError d | RevisionConflictError d => d
  | DevicePreconditionRequiredError => ""
  | _ => exception_text e
  end.
Definition respond_registry_error (e : pyexn) : Reply :=
  let '(status, code_) := registry_status e in
  respond_json (("error", PStr code_) ::
    match e with RegistryUnavailableError _ => [] | _ => [("detail", PStr (error_detail e))] end) status [] false.
Definition is_registry_error (e : pyexn) : bool :=
  match e with
  | DeviceValidationError _ | DeviceNotFoundError _ | DeviceConflictError _ | RevisionConflictError _
  | RegistryUnavailableError _ => true
  | _ => false
  end.

(** [except] clauses: what the handler catches, and the exception it reports instead. *)
Definition handle {A} (caught : pyexn -> option pyexn) (m : M table A) (k : A -> M table Reply) : M table Reply :=
  fun t =>
    match m t with
    | (Ok a, t) => k a t
    | (Raise e, t) => match caught e with
                      | Some e => (Ok (respond_registry_error e), t)
                      | None => (Raise e, t)
                      end
    end.
Definition or_reply {A} (r : res (A + Reply)) (k : A -> M table Reply) : M table Reply :=
  fun t => match r with Ok (inl a) => k a t | Ok (inr reply) => (Ok reply, t) | Raise e => (Raise e, t) end.
Definition boundary (r : res (option Reply)) (k : M table Reply) : M table Reply :=
  fun t => match r with Ok None => k t | Ok (Some reply) => (Ok reply, t) | Raise e => (Raise e, t) end.

(** The clauses of do_POST and do_PATCH, of do_DELETE, and of the reads. *)
Definition caught_write (e : pyexn) : option pyexn :=
  if is_value_error e || is_type_error e then Some (DeviceValidationError (exception_text e))
  else match e with
       | DevicePreconditionRequiredError => Some e
       | _ => if is_registry_error e then Some e else None
       end.
Definition caught_delete (e : pyexn) : option pyexn :=
  match e with DevicePreconditionRequiredError => Some e | _ => if is_registry_error e then Some e else None end.
Definition caught_read (e : pyexn) : option pyexn := if is_registry_error e then Some e else None.
Definition caught_list (e : pyexn) : option pyexn :=
  if is_value_error e then Some (DeviceValidationError "limit must be an integer") else caught_read e.

Definition revision_of (device : attrs) : Z := match vget "revision" device with PInt r => r | _ => 0 end.
Definition etag (device : attrs) : list (string * string) := [("ETag", etag_for_revision (revision_of device))].

(** ** Handlers *)
Definition respond_device_list (l : link) (rq : Request) : M table Reply :=
  u ← lift (urlparse (target rq));
  let q := query u in
  handle caught_list
    (limit ← lift (match py_int (default "50" (query_first "limit" q)) with
                   | Some n => Ok n
                   | None => Raise (ValueError "invalid literal for int() with base 10")
                   end);
     list_devices l (query_first "status" q) (query_first "kind" q) (query_first "q" q) limit (query_first "cursor" q))
    (fun page => mret (respond_json [("devices", PList (map PDict page.1)); ("next_cursor", from_option PStr PNone page.2)] 200 [] false)).

Definition respond_device_detail (l : link) (device_id : string) : M table Reply :=
  handle caught_read (get_device l device_id)
    (fun device => mret (respond_json [("device", PDict device)] 200 (etag device) false)).

(** The other routes: what they answer, given the internal path. *)
Variable elsewhere : string -> res Reply.

Definition do_GET (l : link) (rq : Request) (answer : introspection) : M table Reply :=
  p ← lift (internal_request_path (target rq));
  let requires_authorization :=
    startswith "/api/" p || (management_console_production_mode env && negb (mem p ["/healthz"; "/readyz"])) in
  or_reply (if requires_authorization then require_authorization rq answer "read" false
            else Ok (inl {| subject := ""; roles := []; level := None |}))
    (fun _ =>
       if String.eqb p "/api/devices" then respond_device_list l rq
       else match device_identifier_from_path p with
            | Ok None => lift (elsewhere p)
            | Ok (Some device_id) => respond_device_detail l device_id
            | Raise e => mret (respond_registry_error e)
            end).

Definition do_POST (l : link) (now : Z) (rq : Request) (answer : introspection) : M table Reply :=
  or_reply (require_authorization rq answer "write" true) (fun principal =>
  boundary (require_mutation_boundary rq true) (
    p ← lift (internal_request_path (target rq));
    if String.eqb p "/api/devices" then
      handle caught_write
        (payload ← lift (read_json_body rq); create_device l now payload (subject principal))
        (fun device =>
           mret (respond_json [("device", PDict device)] 201
             (etag device ++ [("Location", PUBLIC_BASE_PATH ++ "/api/devices/" ++ quote (text_of (vget "device_id" device)))]) false))
    else lift (elsewhere p))).

Definition do_PATCH (l : link) (now : Z) (rq : Request) (answer : introspection) : M table Reply :=
  or_reply (require_authorization rq answer "write" true) (fun principal =>
  boundary (require_mutation_boundary rq true) (
    p ← lift (internal_request_path (target rq));
    match device_identifier_from_path p with
    | Raise e => mret (respond_registry_error e)
    | Ok None => mret (error_reply "not_found" 404 false)
    | Ok (Some device_id) =>
        handle caught_write
          (revision ← lift (revision_from_if_match (header rq "If-Match"));
           payload ← lift (read_json_body rq);
           update_device l now device_id payload (subject principal) revision)
          (fun device => mret (respond_json [("device", PDict device)] 200 (etag device) false))
    end)).

Definition do_DELETE (l : link) (now : Z) (rq : Request) (answer : introspection) : M table Reply :=
  or_reply (require_authorization rq answer "write" true) (fun principal =>
  boundary (require_mutation_boundary rq false) (
    if negb (request_body_is_empty rq)
    then mret (error_reply "request_body_not_allowed" 400 (discard_request_body rq))
    else
      p ← lift (internal_request_path (target rq));
      match device_identifier_from_path p with
      | Raise e => mret (respond_registry_error e)
      | Ok None => mret (error_reply "not_found" 404 false)
      | Ok (Some device_id) =>
          handle caught_delete
            (revision ← lift (revision_from_if_match (header rq "If-Match"));
             retire_device l now device_id (subject principal) revision)
            (fun next_revision => mret (respond_empty 204 [("ETag", etag_for_revision next_revision)]))
      end)).
End Handlers.

(** ** Readiness *)
Section Readiness.
Context `{UnicodeData} (env : string -> option string).

(** [dict.fromkeys(items)]. *)
Fixpoint dedup (l : list string) : list string :=
  match l with
  | [] => []
  | x :: l => x :: List.filter (fun y => negb (String.eqb y x)) (dedup l)
  end.
Definition configured_component_ids (name : string) (default_ : list string) : list string :=
  match env name with None => default_ | Some _ => dedup (csv_env env name "") end.

(** [probe id]: the status the probe of a component reports. *)
Definition required_component_checks (probe : string -> string) (component_ids : list string) : list (string * string) :=
  match component_ids with
  | [] => [("management-console-health-scope", "unknown")]
  | _ => map (fun id => (id, probe id)) component_ids
  end.
(** The status, the checks and the required ids; [registry] is the outcome of
    [check_readiness]. *)
Definition readiness_payload (probe : string -> string) (registry : res unit) : res (Z * list (string * string) * list string) :=
  let component_ids := configured_component_ids "MANAGEMENT_CONSOLE_REQUIRED_COMPONENT_IDS" ["vernemq"; "kafka"] in
  let checks := required_component_checks probe component_ids in
  if database_is_configured env || management_console_production_mode env then
    registry_status ← match registry with
                      | Ok _ => Ok "healthy"
                      | Raise (RegistryUnavailableError _) => Ok "unreachable"
                      | Raise e => Raise e
                      end;
    let checks := (checks ++ [("dealiot-registry", registry_status)])%list in
    let required_ids := (component_ids ++ ["dealiot-registry"])%list in
    let ready := (length checks =? length required_ids)%nat && forallb (fun c => String.eqb c.2 "healthy") checks in
    Ok (if ready then 200 else 503, checks, required_ids)
  else
    let ready := negb (bool_decide (component_ids = [])) && (length checks =? length component_ids)%nat &&
                 forallb (fun c => String.eqb c.2 "healthy") checks in
    Ok (if ready then 200 else 503, checks, component_ids).
End Readiness.
