(* ===== verification/ConsoleSpec.v ===== *)
(** Properties of the console's front end: who may change the registry, what production
    mode trusts, conditional requests end to end, the canonical form of origins, and the
    exceptions no handler catches. *)

From stdpp Require Import gmap strings sorting.
From S2P Require Import Prelude PyValue Regex Sha256 PyFloat Json PyTime PyText Url Registry RegistrySpec Console.
#[local] Open Scope string_scope.
#[local] Open Scope list_scope.
#[local] Open Scope Z_scope.

Section Boundary.
Context `{UnicodeData} `{CaseFold} `{NetlocRules} `{PG : Postgres} `{!PostgresLaws} (env : string -> option string).
Variable exception_text : pyexn -> string.
Variable elsewhere : string -> res Reply.

(** ** Handlers, one step at a time *)
Lemma handle_cases {A} (caught : pyexn -> option pyexn) (m : M table A) (k : A -> M table Reply) (t t' : table) (r : res Reply) :
  handle env exception_text caught m k t = (r, t') ->
  (exists a t1, m t = (Ok a, t1) /\ k a t1 = (r, t')) \/
  (exists e, m t = (Raise e, t') /\
     match caught e with Some e' => r = Ok (respond_registry_error env exception_text e') | None => r = Raise e end).
Proof.
  unfold handle. destruct (m t) as [[a|e] t1]; [eauto|]. right. exists e.
  destruct (caught e); simplify_eq; eauto.
Qed.
Lemma or_reply_cases {A} (x : res (A + Reply)) (k : A -> M table Reply) (t t' : table) (r : res Reply) :
  or_reply x k t = (r, t') -> (exists a, x = Ok (inl a) /\ k a t = (r, t')) \/ t' = t.
Proof. unfold or_reply. destruct x as [[a|reply]|e]; [eauto|..]; intros [= _ <-]; by right. Qed.
Lemma boundary_cases (x : res (option Reply)) (k : M table Reply) (t t' : table) (r : res Reply) :
  boundary x k t = (r, t') -> (x = Ok None /\ k t = (r, t')) \/ t' = t.
Proof. unfold boundary. destruct x as [[reply|]|e]; [|eauto|]; intros [= _ <-]; by right. Qed.
Lemma lift_cases {A} (x : res A) (k : A -> M table Reply) (t t' : table) (r : res Reply) :
  (lift x ≫= k) t = (r, t') -> (exists a, x = Ok a /\ k a t = (r, t')) \/ t' = t.
Proof. rewrite bind_lift. destruct x; [eauto|]. intros [= _ <-]. by right. Qed.

(** A computation that leaves the table alone. *)
Definition pure {A} (m : M table A) : Prop := forall t r t', m t = (r, t') -> t' = t.
Lemma pure_lift {A} (x : res A) : pure (lift x).
Proof. by intros t r t' [= _ <-]. Qed.
Lemma pure_bind {A B} (m : M table A) (k : A -> M table B) : pure m -> (forall a, pure (k a)) -> pure (m ≫= k).
Proof.
  intros Hm Hk t r t' E. apply bind_cases in E as [(e & E & _)|(a & t1 & E & E')]; [by apply Hm in E|].
  apply Hm in E as ->. by apply Hk in E'.
Qed.
Lemma pure_connection {A} (l : link) (m : M table A) : pure m -> pure (database_connection l m).
Proof.
  intros Hm t r t' E. apply connection_cases in E as [[-> _]|(a & E & _)]; [done|]. by apply Hm in E.
Qed.
Lemma pure_handle {A} (caught : pyexn -> option pyexn) (m : M table A) (k : A -> M table Reply) :
  pure m -> (forall a, pure (k a)) -> pure (handle env exception_text caught m k).
Proof.
  intros Hm Hk t r t' E. apply handle_cases in E as [(a & t1 & E & E')|(e & E & _)]; [|by apply Hm in E].
  apply Hm in E as ->. by apply Hk in E'.
Qed.
Lemma pure_get_device (l : link) (id : string) : pure (get_device l id).
Proof.
  apply pure_bind; [apply pure_lift|]. intros i. apply pure_bind.
  - apply pure_connection. by intros t r t' [= _ <-].
  - intros [d|]; by intros t r t' [= _ <-].
Qed.
Lemma pure_list_devices (l : link) (s k q c : option string) (n : Z) : pure (list_devices l s k q n c).
Proof.
  unfold list_devices. destruct (negb _); [by intros t r t' [= _ <-]|].
  repeat (apply pure_bind; [apply pure_lift|intros ?]).
  apply pure_bind; [|intros ?; by intros t r t' [= _ <-]]. apply pure_connection.
  apply pure_bind; [apply pure_lift|intros ?]. by intros t r t' [= _ <-].
Qed.

(** A read never changes the registry. *)
Lemma pure_do_GET (l : link) (rq : Request) (answer : introspection) :
  pure (do_GET env exception_text elsewhere l rq answer).
Proof.
  unfold do_GET. apply pure_bind; [apply pure_lift|]. intros p t r t' E.
  apply or_reply_cases in E as [(a & _ & E)| ->]; [|done]. revert E.
  destruct (String.eqb p "/api/devices").
  { unfold respond_device_list. intros E. eapply pure_bind; [apply pure_lift| |exact E]. intros u. cbn.
    apply pure_handle; [|intros ?; by intros ? ? ? [= _ <-]]. apply pure_bind; [apply pure_lift|intros n].
    apply pure_list_devices. }
  destruct (device_identifier_from_path p) as [[id|]|e]; [| |by intros [= _ <-]].
  - unfold respond_device_detail. intros E. eapply pure_handle; [| |exact E]; [apply pure_get_device|].
    intros ?. by intros ? ? ? [= _ <-].
  - by intros [= _ <-].
Qed.

(** What the checks before a mutation establish. *)
Definition admitted (rq : Request) (answer : introspection) (json_body : bool) (p : Principal) : Prop :=
  resolve_principal env (header rq "Authorization") answer = Ok (Some p) /\
  level p = Some "write"%string /\
  mutation_origin_allowed env rq = Ok true /\
  header_values rq "Transfer-Encoding" = [] /\
  (json_body = true -> json_content_type_valid rq = true).

Lemma level_write (actual : option string) : level_allows actual "write" = true -> actual = Some "write"%string.
Proof.
  unfold level_allows, level_rank. cbn [default String.eqb]. destruct actual as [a|]; cbn [default from_option id].
  - destruct (String.eqb_spec a "read") as [->|]; [done|]. destruct (String.eqb_spec a "write") as [->|]; done.
  - done.
Qed.
Lemma authorized (rq : Request) (answer : introspection) (b : bool) (p : Principal) :
  require_authorization env rq answer "write" b = Ok (inl p) ->
  resolve_principal env (header rq "Authorization") answer = Ok (Some p) /\ level p = Some "write"%string.
Proof.
  unfold require_authorization. intros E. apply bind_Ok in E as ([q|] & E & E'); [|done].
  destruct (level_allows (level q) "write") eqn:Hl; [|done]. injection E' as ->. by apply level_write in Hl.
Qed.
Lemma bounded (rq : Request) (b : bool) :
  require_mutation_boundary env rq b = Ok None ->
  mutation_origin_allowed env rq = Ok true /\ header_values rq "Transfer-Encoding" = [] /\
  (b = true -> json_content_type_valid rq = true).
Proof.
  unfold require_mutation_boundary. intros E. apply bind_Ok in E as (ok & E & E').
  destruct ok; [|done]. cbn [negb] in E'. case_bool_decide as Ht; [|done]. cbn [negb] in E'.
  split; [done|]. split; [done|]. intros ->. destruct (json_content_type_valid rq); done.
Qed.

(** The part of a mutation handler after the checks. *)
Lemma guarded_cases (rq : Request) (answer : introspection) (b : bool) (k : Principal -> M table Reply) (t t' : table) (r : res Reply) :
  or_reply (require_authorization env rq answer "write" true) (fun p => boundary (require_mutation_boundary env rq b) (k p)) t = (r, t') ->
  (exists p, admitted rq answer b p /\ k p t = (r, t')) \/ t' = t.
Proof.
  intros E. apply or_reply_cases in E as [(p & Ha & E)| ->]; [|by right].
  apply boundary_cases in E as [[Hb E]| ->]; [|by right]. left. exists p. split; [|done].
  apply authorized in Ha as []. by apply bounded in Hb as (? & ? & ?).
Qed.

Inductive method := GET | POST | PATCH | DELETE.
#[local] Instance method_eq_dec : EqDecision method.
Proof. solve_decision. Defined.
Definition serve (m : method) (l : link) (now : Z) (rq : Request) (answer : introspection) : M table Reply :=
  match m with
  | GET => do_GET env exception_text elsewhere l rq answer
  | POST => do_POST env exception_text elsewhere l now rq answer
  | PATCH => do_PATCH env exception_text l now rq answer
  | DELETE => do_DELETE env exception_text l now rq answer
  end.
Definition json_method (m : method) : bool := match m with POST | PATCH => true | _ => false end.

(** C24: no request changes the registry unless its principal resolves to the write level,
    its Origin header is absent or equal to the configured (or, in development, inferred)
    public origin, it has no Transfer-Encoding, and a POST or PATCH has exactly one
    Content-Type, application/json; a read changes nothing at all. *)
Theorem registry_changes_admitted (m : method) (l : link) (now : Z) (rq : Request) (answer : introspection)
    (t t' : table) (r : res Reply) :
  serve m l now rq answer t = (r, t') -> t' <> t ->
  m <> GET /\ exists p, admitted rq answer (json_method m) p.
Proof.
  intros E Hne. destruct m; cbn [serve json_method] in *.
  - by apply pure_do_GET in E.
  - split; [done|]. apply guarded_cases in E as [(p & Hp & _)|]; [by exists p|done].
  - split; [done|]. apply guarded_cases in E as [(p & Hp & _)|]; [by exists p|done].
  - split; [done|]. apply guarded_cases in E as [(p & Hp & _)|]; [by exists p|done].
Qed.

(** ** Conditional requests *)
Definition reply_etag (reply : Reply) : option string := dget "ETag" (reply_headers reply).

Lemma respond_json_etag (payload : attrs) (status : Z) (v : string) (b : bool) :
  reply_etag (respond_json env payload status [("ETag", v)] b) = Some v.
Proof. reflexivity. Qed.
Lemma error_status (e : pyexn) : 400 <= status_code (respond_registry_error env exception_text e).
Proof. unfold respond_registry_error. destruct e; cbn; lia. Qed.

(** A success comes from the part after the checks. *)
Lemma guarded_success (rq : Request) (answer : introspection) (b : bool) (k : Principal -> M table Reply) (t t' : table) (reply : Reply) :
  or_reply (require_authorization env rq answer "write" true) (fun p => boundary (require_mutation_boundary env rq b) (k p)) t = (Ok reply, t') ->
  status_code reply < 400 -> exists p, k p t = (Ok reply, t').
Proof.
  unfold or_reply. intros E Hs.
  destruct (require_authorization env rq answer "write" true) as [[p|e]|] eqn:Ha; [|exfalso|done].
  - unfold boundary in E. destruct (require_mutation_boundary env rq b) as [[e|]|] eqn:Hb; [exfalso|by exists p|done].
    injection E as <- _. unfold require_mutation_boundary in Hb. apply bind_Ok in Hb as (ok & _ & Hb).
    destruct ok; cbn [negb] in Hb; [|injection Hb as <-; cbn in Hs; lia].
    case_bool_decide; cbn [negb] in Hb; [|injection Hb as <-; cbn in Hs; lia].
    destruct (b && _); [injection Hb as <-; cbn in Hs; lia|done].
  - injection E as -> _. unfold require_authorization in Ha. apply bind_Ok in Ha as ([q|] & _ & Ha).
    + destruct (level_allows _ _); [done|]. injection Ha as <-. cbn in Hs. lia.
    + injection Ha as <-. cbn in Hs. lia.
Qed.
Lemma handle_success {A} (caught : pyexn -> option pyexn) (m : M table A) (k : A -> M table Reply) (t t' : table) (reply : Reply) :
  handle env exception_text caught m k t = (Ok reply, t') -> status_code reply < 400 ->
  exists a t1, m t = (Ok a, t1) /\ k a t1 = (Ok reply, t').
Proof.
  intros E Hs. apply handle_cases in E as [?|(e & _ & E)]; [done|].
  destruct (caught e) as [e'|]; [|done]. injection E as ->. pose proof (error_status e'). lia.
Qed.

(** A conditional mutation that is answered with success replaced exactly the revision
    its If-Match named: the row of the device had that revision, it now has the next one,
    no other row changed, and the ETag of the reply is the new revision, ready to be sent
    as the next If-Match. *)
Theorem conditional_success (m : method) (l : link) (now : Z) (rq : Request) (answer : introspection)
    (t t' : table) (reply : Reply) :
  invariant t -> m = PATCH \/ m = DELETE ->
  serve m l now rq answer t = (Ok reply, t') -> status_code reply < 400 ->
  exists id rev d d', revision_from_if_match (header rq "If-Match") = Ok rev /\
    t !! id = Some d /\ revision d = rev /\ live d = true /\
    t' = <[id := d']> t /\ revision d' = rev + 1 /\ live d' = bool_decide (m = PATCH) /\
    reply_etag reply = Some (etag_for_revision (rev + 1)).
Proof.
  intros Hinv [-> | ->] E Hs; cbn [serve] in E; apply guarded_success in E as (p & E); try done.
  - apply M_bind_Ok in E as (path & t1 & [_ ->]%lift_Ok & E).
    destruct (device_identifier_from_path path) as [[id|]|e]; [| |].
    + apply handle_success in E as (device & t1 & E & E'); [|done]. injection E' as <- <-.
      apply M_bind_Ok in E as (rev & t2 & [Hrev ->]%lift_Ok & E).
      apply M_bind_Ok in E as (payload & t2 & [_ ->]%lift_Ok & E).
      apply update_cases in E as [[_ Hno]|(d' & Heff & -> & _ & _ & Ha)]; [by destruct (Hno device)| |done].
      rewrite (Ha device) by done. destruct Heff as (d & Hd & Hl & Hr & Hr' & Hl' & _).
      exists id, rev, d, d'. rewrite bool_decide_true by done. repeat (split; [done|]).
      unfold etag. rewrite respond_json_etag. unfold revision_of. cbn. by rewrite Hr'.
    + injection E as <- _. cbn in Hs. lia.
    + injection E as <- _. pose proof (error_status e). lia.
  - destruct (negb (request_body_is_empty rq)); [injection E as <- _; cbn in Hs; lia|].
    apply M_bind_Ok in E as (path & t1 & [_ ->]%lift_Ok & E).
    destruct (device_identifier_from_path path) as [[id|]|e]; [| |].
    + apply handle_success in E as (next & t1 & E & E'); [|done]. injection E' as <- <-.
      apply M_bind_Ok in E as (rev & t2 & [Hrev ->]%lift_Ok & E).
      apply retire_cases in E as [[_ Hno]|(d' & Heff & -> & _ & _ & Ha)]; [by destruct (Hno next)| |done].
      rewrite (Ha next) by done. destruct Heff as (d & Hd & Hl & Hr & Hr' & Hl' & _).
      exists id, rev, d, d'. rewrite bool_decide_false by done. repeat (split; [done|]).
      rewrite Hr'. reflexivity.
    + injection E as <- _. cbn in Hs. lia.
    + injection E as <- _. pose proof (error_status e). lia.
Qed.
End Boundary.

(** ** Revisions as entity tags *)
Lemma digit_visible (a : ascii) : is_digit a = true -> visible a = true.
Proof. unfold is_digit, visible. lia. Qed.
Lemma all_digits_bytes (s : string) : all_digits s = true -> all_bytes is_digit s = true.
Proof. induction s as [|a s IH]; cbn; [done|]. rewrite !andb_true_iff. naive_solver. Qed.
Lemma substring_middle (q s : string) (b : ascii) :
  String.substring 1 (String.length s) (String b (s ++ q)) = s.
Proof. cbn. induction s as [|a s IH]; cbn; [by destruct q|]. by rewrite IH. Qed.

(** A natural number has at most as many digits as the fuel of its printing. *)
Lemma digits_rev_length_le (fuel : nat) (n : Z) : (length (digits_rev fuel n) <= fuel)%nat.
Proof. revert n. induction fuel as [|f IH]; intros n; cbn; [lia|]. destruct (n <? 10); cbn; [lia|]. specialize (IH (n / 10)). lia. Qed.
Lemma str_nat_length (n : Z) : byte_len (str_nat n) <= Z.log2 n + 1.
Proof.
  unfold byte_len, str_nat, bytes. rewrite length_string_of_list, !length_map, length_rev.
  pose proof (digits_rev_length_le (Z.to_nat (Z.log2 n) + 1) n). pose proof (Z.log2_nonneg n). lia.
Qed.

(** The ETag of a row is accepted as If-Match and denotes its revision, for every
    revision a row can have. *)
Theorem etag_roundtrip (n : Z) :
  1 <= n <= bigint_max -> revision_from_if_match (Some (etag_for_revision n)) = Ok n.
Proof.
  intros Hn. unfold revision_from_if_match, etag_for_revision, py_str_int.
  replace (n <? 0) with false by lia. set (q := bytes [34]).
  pose proof (all_digits_str_nat n ltac:(lia)) as Hd. apply all_digits_bytes in Hd.
  assert (py_strip (q ++ str_nat n ++ q) = (q ++ str_nat n ++ q)%string) as ->.
  { apply strip_visible. rewrite !all_bytes_app. rewrite (all_bytes_impl _ _ _ digit_visible Hd). reflexivity. }
  assert (fullmatch IF_MATCH (q ++ str_nat n ++ q) = true) as ->.
  { destruct (str_nat_head n ltac:(lia)) as (d & r & Er & Hd'). rewrite Er in *. apply fullmatch_spec.
    exists q, (String (byte_of (48 + d)) r ++ q)%string. split; [done|]. split; [by eexists|].
    exists (String (byte_of (48 + d)) ""), (r ++ q)%string. split; [done|]. split.
    { eexists. split; [reflexivity|]. unfold between. rewrite code_byte_of by lia.
      change (code "1") with 49. change (code "9") with 57. lia. }
    exists r, q. split; [done|]. split; [|by eexists]. apply matches_Rep_Cls.
    cbn in Hd. apply andb_true_iff in Hd as [_ Hd]. split; [done|]. split; [lia|done]. }
  assert (String.length (q ++ str_nat n ++ q) - 2 = String.length (str_nat n))%nat as ->.
  { rewrite !append_length. change (String.length q) with 1%nat. lia. }
  change (q ++ str_nat n ++ q)%string with (String (byte_of 34) (str_nat n ++ q)). rewrite substring_middle.
  unfold int_of_digits, int_max_str_digits. pose proof (str_nat_length n) as Hlen.
  assert (Z.log2 n <= 63). { pose proof (Z.log2_le_mono n (2 ^ 63)) as Hm. rewrite Z.log2_pow2 in Hm by lia. unfold bigint_max in Hn. lia. }
  replace (4300 <? byte_len (str_nat n)) with false by lia. f_equal. apply digits_value_str_nat. lia.
Qed.

(** ** Production identity *)
Section Identity.
Context `{UnicodeData} `{CaseFold} `{NetlocRules} (env : string -> option string).

Definition setting (name : string) : string := getenv_strip env name "".

Lemma validated_settings :
  management_console_production_mode env = true -> validate_production_auth_config env = Ok tt ->
  management_console_token env = None /\
  (forall name, name ∈ OIDC_CONFIGURATION_NAMES -> setting name <> ""%string) /\
  starts_https (setting "MANAGEMENT_CONSOLE_OIDC_ISSUER") = true.
Proof.
  intros Hp. unfold validate_production_auth_config. rewrite Hp. cbn [negb].
  case_bool_decide as Ht; [done|]. case_bool_decide as Hm; cbn [negb]; [|done].
  case_bool_decide; [done|]. destruct (starts_https _) eqn:E1; cbn [negb]; [|done].
  destruct (starts_https (getenv_strip env "MANAGEMENT_CONSOLE_OIDC_ISSUER" "")) eqn:E2; cbn [negb]; [|done].
  intros _. split; [|split; [|done]].
  - destruct (management_console_token env); [|done]. destruct Ht. eauto.
  - intros name Hn Heq. pose proof (proj1 (py_sorted_nil _) Hm) as Hnil.
    assert (List.In name []) as []. rewrite <- Hnil. apply filter_In.
    split; [by apply list_elem_of_In|]. unfold setting in Heq. by rewrite Heq.
Qed.

Lemma introspect_claims (answer : introspection) (claims : attrs) :
  introspect_oidc_token env answer = Ok (Some claims) -> claims <> [] ->
  exists status body, answer = Ok (status, body) /\ status < 400 /\ (decode_utf8 body ≫= loads) = Ok (PDict claims) /\
    vget "active" claims = PBool true /\
    (setting "MANAGEMENT_CONSOLE_OIDC_ISSUER" <> ""%string ->
       vget "iss" claims = PStr (setting "MANAGEMENT_CONSOLE_OIDC_ISSUER")) /\
    (setting "MANAGEMENT_CONSOLE_OIDC_AUDIENCE" <> ""%string ->
       exists audiences, setting "MANAGEMENT_CONSOLE_OIDC_AUDIENCE" ∈ audiences /\
         match vget "aud" claims with
         | PStr s => audiences = [s]
         | PList l => mapM_res py_str l = Ok audiences
         | _ => False
         end).
Proof.
  unfold introspect_oidc_token, setting. intros E Hne. destruct (negb _); [done|]. destruct (_ || _); [by simplify_eq|].
  destruct answer as [[status body]|e]; [|destruct (match e with OSError => _ | _ => _ end); by simplify_eq].
  exists status, body. split; [done|]. destruct (Z.leb_spec 400 status); [by simplify_eq|]. split; [lia|].
  destruct (decode_utf8 body ≫= loads) as [v|e]; [|destruct e; by simplify_eq].
  destruct v as [| | | | | |d]; try by simplify_eq.
  case_bool_decide as Ha; cbn [negb] in E; [|by simplify_eq].
  set (iss := getenv_strip env "MANAGEMENT_CONSOLE_OIDC_ISSUER" "") in *.
  set (aud := getenv_strip env "MANAGEMENT_CONSOLE_OIDC_AUDIENCE" "") in *.
  destruct (negb (String.eqb iss "") && negb (eq_str (vget "iss" d) iss)) eqn:Ei; [by simplify_eq|].
  apply bind_Ok in E as (audiences & Haud & E).
  destruct (negb (String.eqb aud "") && negb (mem aud audiences)) eqn:Em; [by simplify_eq|].
  injection E as ->. split; [done|]. split; [done|]. split.
  - intros Hi. apply andb_false_iff in Ei as [Ei|Ei]; [apply negb_false_iff, String.eqb_eq in Ei; done|].
    apply negb_false_iff in Ei. destruct (vget "iss" claims) as [| | | |s| |]; try done.
    by apply String.eqb_eq in Ei as ->.
  - intros Hi. apply andb_false_iff in Em as [Em|Em]; [apply negb_false_iff, String.eqb_eq in Em; done|].
    apply negb_false_iff, mem_In in Em. exists audiences. split; [done|].
    destruct (vget "aud" claims); cbn in Haud; simplify_eq; try done; by apply not_elem_of_nil in Em.
Qed.

(** In production, on a configuration the startup check accepts, a principal exists
    only for a bearer token whose introspection answered below 400 with active claims of
    the configured issuer and audience; its subject is their sub, and it may write only if
    the configured top-level group claim, which is never scope, scp, roles or
    realm_access, lists a write group.  The static token and the development user never
    authenticate. *)
Theorem production_identity (authorization : option string) (answer : introspection) (p : Principal) :
  management_console_production_mode env = true -> validate_production_auth_config env = Ok tt ->
  resolve_principal env authorization answer = Ok (Some p) ->
  is_Some (bearer_token authorization) /\
  exists status body claims audiences,
    answer = Ok (status, body) /\ status < 400 /\ (decode_utf8 body ≫= loads) = Ok (PDict claims) /\
    vget "active" claims = PBool true /\
    vget "iss" claims = PStr (setting "MANAGEMENT_CONSOLE_OIDC_ISSUER") /\
    setting "MANAGEMENT_CONSOLE_OIDC_AUDIENCE" ∈ audiences /\
    match vget "aud" claims with
    | PStr s => audiences = [s]
    | PList l => mapM_res py_str l = Ok audiences
    | _ => False
    end /\
    vget "sub" claims = PStr (subject p) /\
    (level p = Some "write"%string ->
     exists claim groups g, py_casefold claim ∉ FORBIDDEN_OIDC_GROUPS_CLAIMS /\
       vget claim claims = PList groups /\ PStr g ∈ groups /\
       g ∈ csv_env env "MANAGEMENT_CONSOLE_OIDC_WRITE_ROLES" "dealiot-write,dealiot-admin").
Proof.
  intros Hprod Hval. destruct (validated_settings Hprod Hval) as (_ & Hset & _).
  assert (introspection_configured env = true) as Hint.
  { unfold introspection_configured. apply negb_true_iff, String.eqb_neq. apply Hset. set_solver. }
  unfold resolve_principal, management_console_auth_configured. rewrite Hint, orb_true_r. cbn [negb].
  unfold authenticated_principal. rewrite Hint.
  destruct (bearer_token authorization) as [token|]; [|done]. intros E. split; [done|].
  apply bind_Ok in E as (o & Hi & E). destruct o as [[|kv claims]|]; [done| |done].
  apply introspect_claims in Hi as (status & body & -> & Hst & Hb & Hact & Hiss & Haud); [|done].
  destruct Haud as (audiences & Hin & Haud); [apply Hset; set_solver|].
  destruct (stable_subject _) as [sub|] eqn:Hsub; [|done]. injection E as <-.
  exists status, body, (kv :: claims), audiences. split; [done|]. split; [done|]. split; [done|]. split; [done|].
  split; [apply Hiss, Hset; set_solver|]. split; [done|]. split; [done|]. split.
  { unfold stable_subject in Hsub. destruct (vget "sub" (kv :: claims)); try done.
    destruct (_ || _ || _ || _); [done|]. by injection Hsub as <-. }
  cbn [level]. intros Hl. destruct (intersects (token_authorization_groups env (kv :: claims)) _) eqn:Hg;
    [|by repeat case_match].
  apply existsb_exists in Hg as (g & Hg & Hw%mem_In).
  unfold token_authorization_groups in Hg.
  destruct (configured_oidc_groups_claim_name env) as [claim|] eqn:Hc; [|done].
  destruct (vget claim (kv :: claims)) as [| | | | |groups|] eqn:Hgr; try done.
  destruct (existsb bad_group groups) eqn:Hbad; [done|].
  apply in_map_iff in Hg as (v & Hv & Hvin). exists claim, groups, g.
  split; [|split; [done|split; [|done]]].
  - unfold configured_oidc_groups_claim_name in Hc.
    destruct (_ || _ || _ || _ || _) eqn:Hforb; [done|]. injection Hc as <-.
    rewrite !orb_false_iff in Hforb. destruct Hforb as [_ Hforb]. by apply mem_not_In.
  - assert (bad_group v = false) as Hgood.
    { destruct (bad_group v) eqn:Eb; [|done]. assert (existsb bad_group groups = true) by (apply existsb_exists; eauto). congruence. }
    destruct v; try done. cbn in Hv. subst. by apply list_elem_of_In.
Qed.
End Identity.

(** ** Origins *)
Definition host_byte : ascii -> bool := por alnum (one_of "-.").
(** What the host and the port text lack. *)
Lemma host_lacks (a : ascii) : host_byte a = true ->
  visible a = true /\ negb (one_of "/?#" a) = true /\ negb (Ascii.eqb a "@") = true /\ negb (Ascii.eqb a "[") = true /\
  negb (Ascii.eqb a ":") = true /\ negb (Ascii.eqb a "%") = true /\ negb (code a =? 91) = true /\ negb (code a =? 93) = true /\
  negb (code a =? 64) = true /\ host_byte (lower_ascii a) = true /\ lower_ascii (lower_ascii a) = lower_ascii a.
Proof. destruct a as [[] [] [] [] [] [] [] []]; vm_compute; try done; intros [=]. Qed.
Lemma map_bytes_all (f : ascii -> ascii) (p q : ascii -> bool) (s : string) :
  (forall a, p a = true -> q (f a) = true) -> all_bytes p s = true -> all_bytes q (map_bytes f s) = true.
Proof. intros Hf. induction s as [|a s IH]; cbn; [done|]. rewrite !andb_true_iff. naive_solver. Qed.
Lemma lower_idem (s : string) : all_bytes host_byte s = true -> map_bytes lower_ascii (map_bytes lower_ascii s) = map_bytes lower_ascii s.
Proof.
  induction s as [|a s IH]; cbn; [done|]. intros [Ha Hs]%andb_true_iff. rewrite IH by done.
  by destruct (host_lacks a Ha) as (_ & _ & _ & _ & _ & _ & _ & _ & _ & _ & ->).
Qed.

Section Origin.
Context `{UnicodeData} `{NetlocRules}.

Definition location (host : string) (port_text : option string) : string :=
  (host ++ match port_text with None => "" | Some d => ":" ++ d end)%string.
Definition port_text_ok (port_text : option string) : Prop :=
  match port_text with
  | None => True
  | Some d => d <> ""%string /\ all_bytes is_digit d = true /\ byte_len d <= int_max_str_digits /\ digits_value d <= 65535
  end.

Lemma location_all (p : ascii -> bool) (host : string) (port_text : option string) :
  (forall a, host_byte a = true -> p a = true) -> p ":"%char = true -> all_bytes host_byte host = true ->
  port_text_ok port_text -> all_bytes p (location host port_text) = true.
Proof.
  intros Hp Hc Hh Hd. unfold location. rewrite all_bytes_app, (all_bytes_impl _ _ _ Hp Hh).
  destruct port_text as [d|]; [|done]. cbn. rewrite Hc. destruct Hd as (_ & Hd & _).
  eapply all_bytes_impl; [|exact Hd]. intros a Ha. apply Hp. unfold host_byte, por. apply orb_true_iff. left.
  unfold alnum, por. rewrite !orb_true_iff. right. right. exact Ha.
Qed.

Lemma urlparse_origin (sch host : string) (port_text : option string) (slash : string) :
  sch ∈ ["http"; "https"]%string -> slash ∈ [""; "/"]%string -> all_bytes host_byte host = true -> port_text_ok port_text ->
  urlparse (sch ++ "://" ++ location host port_text ++ slash) =
  Ok {| scheme := sch; netloc := location host port_text; path := slash; params := ""; query := ""; fragment := "" |}.
Proof.
  intros Hsch Hslash Hh Hp. set (loc := location host port_text).
  assert (all_bytes (fun a => negb (unsafe_byte a)) (loc ++ slash) = true) as Hsafe.
  { rewrite all_bytes_app. apply andb_true_iff. split.
    - apply location_all; [|done..]. intros a (Ha & _)%host_lacks. unfold visible in Ha. unfold unsafe_byte, is_byte. lia.
    - rewrite !elem_of_cons, elem_of_nil in Hslash. by destruct Hslash as [->|[->|[]]]. }
  assert (span (fun a => one_of "/?#" a) (loc ++ slash) = (loc, slash)) as Hspan.
  { rewrite span_app.
    - rewrite !elem_of_cons, elem_of_nil in Hslash. destruct Hslash as [->|[->|[]]]; cbn; by rewrite append_nil_r.
    - apply location_all; [|done..]. by intros a (_ & Ha & _)%host_lacks. }
  assert (netloc_ok loc = true) as Hnet.
  { unfold netloc_ok. rewrite !has_byte_without.
    - cbn. apply orb_true_iff. left. apply location_all; [|done..]. intros a (Ha & _)%host_lacks. unfold visible in Ha. unfold is_ascii. lia.
    - apply location_all; [|done..]. by intros a (_ & _ & _ & _ & _ & _ & _ & Ha & _)%host_lacks.
    - apply location_all; [|done..]. by intros a (_ & _ & _ & _ & _ & _ & Ha & _)%host_lacks. }
  assert (remove_bytes unsafe_byte (drop_bytes c0_or_space (sch ++ "://" ++ loc ++ slash)) = (sch ++ "://" ++ loc ++ slash)%string /\
          split_scheme (sch ++ "://" ++ loc ++ slash) = (sch, "//" ++ loc ++ slash)%string /\ mem sch uses_params = true) as (E1 & E2 & E3).
  { rewrite !elem_of_cons, elem_of_nil in Hsch.
    destruct Hsch as [->|[->|[]]]; (split; [|by split]); apply (remove_bytes_none unsafe_byte ); exact Hsafe. }
  unfold urlparse, urlsplit. rewrite E1, E2. unfold split_netloc.
  change (after_prefix "//" ("//" ++ loc ++ slash)) with (Some (loc ++ slash)%string). cbv iota beta. rewrite Hspan, Hnet.
  rewrite !elem_of_cons, elem_of_nil in Hslash.
  destruct Hslash as [->|[->|[]]]; cbn -[mem]; by rewrite E3.
Qed.

Definition origin_of (sch host : string) (port_text : option string) (slash : string) : url :=
  {| scheme := sch; netloc := location host port_text; path := slash; params := ""; query := ""; fragment := "" |}.
Lemma hostinfo_origin (sch host : string) (port_text : option string) (slash : string) :
  all_bytes host_byte host = true -> port_text_ok port_text ->
  hostinfo (origin_of sch host port_text slash) = (host, port_text).
Proof.
  intros Hh Hp. unfold hostinfo, origin_of, netloc, after_at.
  rewrite rpartition_none by (apply location_all; [|done..]; by intros a (_ & _ & Ha & _)%host_lacks).
  rewrite partition_none by (apply location_all; [|done..]; by intros a (_ & _ & _ & Ha & _)%host_lacks).
  assert (without ":" host) as Hc by (eapply all_bytes_impl; [|exact Hh]; by intros a (_ & _ & _ & _ & Ha & _)%host_lacks).
  unfold split_on, location. destruct port_text as [d|].
  - change (host ++ ":" ++ d)%string with (host ++ String ":" d)%string. rewrite partition_at by done. cbn.
    destruct Hp as (Hne & _). by destruct (String.eqb_spec d "").
  - rewrite append_nil_r, partition_none by done. reflexivity.
Qed.

Definition port_suffix (sch : string) (port_text : option string) : option string :=
  match port_text with
  | None => None
  | Some d => if digits_value d =? (if String.eqb sch "https" then 443 else 80) then None
              else Some (py_str_int (digits_value d))
  end.
Lemma canonical_origin_eq (sch host slash : string) (port_text : option string) :
  sch ∈ ["http"; "https"]%string -> slash ∈ [""; "/"]%string -> host <> ""%string ->
  all_bytes host_byte host = true -> port_text_ok port_text ->
  canonical_origin (sch ++ "://" ++ location host port_text ++ slash) =
  Ok (sch ++ "://" ++ location (map_bytes lower_ascii host) (port_suffix sch port_text))%string.
Proof.
  intros Hsch Hslash Hne Hh Hp. unfold canonical_origin.
  assert (all_bytes visible (sch ++ "://" ++ location host port_text ++ slash) = true) as Hvis.
  { rewrite !all_bytes_app, !andb_true_iff. rewrite !elem_of_cons, elem_of_nil in Hsch, Hslash.
    split; [by destruct Hsch as [->|[->|[]]]|]. split; [done|]. split; [|by destruct Hslash as [->|[->|[]]]].
    apply location_all; [|done..]. by intros a (Ha & _)%host_lacks. }
  rewrite strip_visible, String.eqb_refl by done.
  assert (String.eqb (sch ++ "://" ++ location host port_text ++ slash) "" = false /\
          String.eqb (sch ++ "://" ++ location host port_text ++ slash) "null" = false) as [-> ->].
  { rewrite !elem_of_cons, elem_of_nil in Hsch. by destruct Hsch as [->|[->|[]]]. }
  rewrite urlparse_origin by done. cbn [orb negb]. change (mbind ?f (Ok ?u)) with (f u). cbv beta.
  fold (origin_of sch host port_text slash). unfold hostname, port. rewrite hostinfo_origin by done.
  destruct (String.eqb_spec host ""); [done|].
  rewrite partition_none by (eapply all_bytes_impl; [|exact Hh]; by intros a (_ & _ & _ & _ & _ & Ha & _)%host_lacks).
  cbn [origin_of scheme netloc path params query fragment].
  assert (mem sch ["http"; "https"]%string = true) as -> by by apply mem_In.
  assert (mem slash [""; "/"]%string = true) as -> by by apply mem_In.
  assert (has_userinfo (origin_of sch host port_text slash) = false) as ->.
  { unfold has_userinfo, origin_of, netloc. apply has_byte_without. apply location_all; [|done..].
    by intros a (_ & _ & _ & _ & _ & _ & _ & _ & Ha & _)%host_lacks. }
  cbn [orb negb String.eqb snd].
  assert (forall s, all_bytes host_byte s = true -> py_lower s = map_bytes lower_ascii s) as Hlow.
  { intros s Hs. unfold py_lower. assert (all_bytes is_ascii s = true) as ->; [|done].
    eapply all_bytes_impl; [|exact Hs]. intros a (Ha & _)%host_lacks. unfold visible in Ha. unfold is_ascii. lia. }
  assert (all_bytes host_byte (map_bytes lower_ascii host) = true) as Hh'.
  { eapply map_bytes_all; [|exact Hh]. by intros a (_ & _ & _ & _ & _ & _ & _ & _ & _ & Ha & _)%host_lacks. }
  rewrite !Hlow, lower_idem by (done || (rewrite Hlow; done)).
  assert (has_byte 58 (map_bytes lower_ascii host) = false) as ->.
  { apply has_byte_without. eapply all_bytes_impl; [|exact Hh']. intros a (_ & _ & _ & _ & Ha & _)%host_lacks.
    apply negb_true_iff in Ha. apply negb_true_iff, Z.eqb_neq. intros E. apply Ascii.eqb_neq in Ha. apply Ha.
    rewrite <- (byte_of_code a), E. reflexivity. }
  unfold location, port_suffix. destruct port_text as [d|].
  - destruct Hp as (Hdne & Hd & Hlen & Hval). rewrite Hd. destruct (String.eqb_spec d ""); [done|]. cbn [andb negb].
    replace (int_max_str_digits <? byte_len d) with false by lia. replace (digits_value d <=? 65535) with true by lia.
    unfold mbind, res_bind. cbv iota beta. by destruct (digits_value d =? (if (sch =? "https")%string then 443 else 80)).
  - change (mbind ?f (Ok ?u)) with (f u). cbv beta. reflexivity.
Qed.

(** The canonical form of an origin depends on its scheme, its host up to case and its
    effective port only: a default port and a final slash are dropped, other ports are
    printed without leading zeros; and the canonical form is its own canonical form, so
    that comparing canonical forms compares origins. *)
Theorem origin_normal_form (sch host slash : string) (port_text : option string) :
  sch ∈ ["http"; "https"]%string -> slash ∈ [""; "/"]%string -> host <> ""%string ->
  all_bytes host_byte host = true -> port_text_ok port_text ->
  let canonical := (sch ++ "://" ++ location (map_bytes lower_ascii host) (port_suffix sch port_text))%string in
  canonical_origin (sch ++ "://" ++ location host port_text ++ slash) = Ok canonical /\
  canonical_origin canonical = Ok canonical.
Proof.
  intros Hsch Hslash Hne Hh Hp. split; [by apply canonical_origin_eq|].
  assert (all_bytes host_byte (map_bytes lower_ascii host) = true) as Hh'.
  { eapply map_bytes_all; [|exact Hh]. by intros a (_ & _ & _ & _ & _ & _ & _ & _ & _ & Ha & _)%host_lacks. }
  assert (port_text_ok (port_suffix sch port_text) /\ port_suffix sch (port_suffix sch port_text) = port_suffix sch port_text) as [Hp' Hs].
  { destruct port_text as [d|]; [|done]. destruct Hp as (Hdne & Hd & Hlen & Hval).
    pose proof (digits_value_nonneg d Hd) as Hn. unfold port_suffix.
    assert (py_str_int (digits_value d) = str_nat (digits_value d)) as Hstr.
    { unfold py_str_int. by replace (digits_value d <? 0) with false by lia. }
    destruct (digits_value d =? (if (sch =? "https")%string then 443 else 80)) eqn:E; [done|].
    rewrite Hstr, digits_value_str_nat, E, Hstr by done. split; [|done].
    pose proof (all_digits_str_nat (digits_value d) Hn) as Ha. apply all_digits_bytes in Ha.
    unfold port_text_ok. rewrite digits_value_str_nat by done. split; [|split; [done|split; [|done]]].
    - intros E0. pose proof (digits_value_str_nat (digits_value d) Hn) as Hv. rewrite E0 in Hv. cbn in Hv.
      rewrite <- Hv in E0. discriminate E0.
    - pose proof (str_nat_length (digits_value d)). unfold int_max_str_digits.
      assert (Z.log2 (digits_value d) <= Z.log2 65535) by by apply Z.log2_le_mono. change (Z.log2 65535) with 15 in *. lia. }
  pose proof (canonical_origin_eq sch (map_bytes lower_ascii host) "" (port_suffix sch port_text)) as Hc.
  rewrite append_nil_r, lower_idem, Hs in Hc by done. apply Hc; try done; [by left|]. by destruct host.
Qed.
End Origin.

(** ** Exceptions no handler catches *)
Section Uncaught.
Context `{UnicodeData} `{CaseFold} `{NetlocRules} `{PG : Postgres} (env : string -> option string).
Variable exception_text : pyexn -> string.

Lemma admitted_guard (rq : Request) (answer : introspection) (b : bool) (p : Principal) (k : Principal -> M table Reply) (t : table) :
  admitted env rq answer b p ->
  or_reply (require_authorization env rq answer "write" true) (fun p => boundary (require_mutation_boundary env rq b) (k p)) t = k p t.
Proof.
  intros (Hp & Hl & Ho & Ht & Hc). unfold or_reply, require_authorization. rewrite Hp. cbn. rewrite Hl. cbn.
  unfold boundary, require_mutation_boundary. rewrite Ho. cbn. rewrite Ht, bool_decide_true by done. cbn.
  destruct b; cbn; [by rewrite (Hc eq_refl)|done].
Qed.

(** An If-Match of more than 4300 digits ends a DELETE without any reply, since the
    handler does not catch the [ValueError] of [int()]; the same header on a PATCH is
    answered with 400.  Neither touches the registry. *)
Theorem delete_drops_connection (l : link) (now : Z) (rq : Request) (answer : introspection) (p : Principal)
    (path id detail : string) (t : table) :
  admitted env rq answer false p -> request_body_is_empty rq = true ->
  internal_request_path (target rq) = Ok path -> device_identifier_from_path path = Ok (Some id) ->
  revision_from_if_match (header rq "If-Match") = Raise (ValueError detail) ->
  do_DELETE env exception_text l now rq answer t = (Raise (ValueError detail), t) /\
  (json_content_type_valid rq = true ->
   exists reply, do_PATCH env exception_text l now rq answer t = (Ok reply, t) /\ status_code reply = 400).
Proof.
  intros Ha Hb Hp Hi Hr. split.
  - unfold do_DELETE. rewrite (admitted_guard _ _ _ p) by done. rewrite Hb. cbn [negb]. rewrite bind_lift, Hp, Hi.
    unfold handle. by rewrite bind_lift, Hr.
  - intros Hj. unfold do_PATCH. rewrite (admitted_guard _ _ _ p) by (destruct Ha as (? & ? & ? & ? & _); by repeat split).
    rewrite bind_lift, Hp, Hi. unfold handle. rewrite bind_lift, Hr. eexists. split; reflexivity.
Qed.

(** With the static token of a development setup, a bearer token that is not ASCII raises
    before any reply. *)
Lemma non_ascii_token_uncaught (token legacy : string) (answer : introspection) :
  introspection_configured env = false -> management_console_production_mode env = false ->
  management_console_token env = Some legacy -> all_bytes is_ascii token = false -> py_strip token = token ->
  authenticated_principal env (Some ("Bearer " ++ token)%string) answer = Raise TypeError.
Proof.
  intros Hi Hm Hl Ht Hs. unfold authenticated_principal, bearer_token.
  change (after_prefix "Bearer " ("Bearer " ++ token)) with (Some token). cbv iota beta. rewrite Hs.
  destruct (String.eqb_spec token ""); [by subst|]. rewrite Hi, Hm, Hl. unfold compare_digest. by rewrite Ht.
Qed.
(** So does an Origin whose host is not ASCII. *)
Lemma non_ascii_origin_uncaught (rq : Request) (origin actual expected : string) :
  header_values rq "Origin" = [origin] -> canonical_origin origin = Ok actual ->
  configured_public_origin env = Ok (Some expected) -> all_bytes is_ascii actual = false ->
  mutation_origin_allowed env rq = Raise TypeError.
Proof.
  intros Ho Hc He Ha. unfold mutation_origin_allowed. rewrite Ho, Hc, He. unfold compare_digest. by rewrite Ha.
Qed.
End Uncaught.

(** An acronym hides the word boundary: this key is accepted in settings, while
    [my_api_key] is not. *)
Lemma acronym_key_accepted :
  _reject_sensitive_keys (PDict [("myAPIKey", PStr "s3cr3t")])%string "settings" = Ok tt /\
  _reject_sensitive_keys (PDict [("my_api_key", PStr "s3cr3t")])%string "settings" <> Ok tt.
Proof. split; [vm_compute; reflexivity|vm_compute; discriminate]. Qed.

(** ** A development console *)
#[local] Existing Instance c_locale.
#[local] Existing Instance ascii_unicode.
Definition ascii_hosts : NetlocRules := {| bracketed_host_ok := fun _ => false; unicode_netloc_ok := fun _ => false |}.
#[local] Existing Instance ascii_hosts.
Definition no_env : string -> option string := fun _ => None.
Definition quoted_text (s : string) : string := (bytes [34] ++ s ++ bytes [34])%string.
Definition patch_request (revision_text : string) : Request :=
  {| target := "/dealiot/api/devices/gps-1";
     request_headers := [("Content-Type", "application/json"); ("If-Match", quoted_text revision_text);
                         ("Content-Length", "25")]%string;
     body := ("{" ++ quoted_text "display_name" ++ ":" ++ quoted_text "Collar" ++ "}")%string |}.
Definition delete_request (revision_text : string) : Request :=
  {| target := "/api/devices/gps-1";
     request_headers := [("Content-Type", "application/json"); ("If-Match", quoted_text revision_text)]%string; body := "" |}.
Definition one_device : table := (run ∅ [Create tracker "alice"])%string.1.
Lemma one_device_invariant : invariant one_device.
Proof. exact (invariant_steps ∅ one_device [] _ (run_reachable _) invariant_empty). Qed.
Definition no_answer : introspection := Raise OSError.
Definition no_text : pyexn -> string := fun _ => ""%string.
Definition no_route : string -> res Reply := fun _ => Raise (KeyError "route").

Lemma registry_changes_admitted_witness :
  exists r t', serve no_env no_text no_route PATCH Up 5 (patch_request "1") no_answer one_device = (r, t') /\
    t' <> one_device /\ exists p, admitted no_env (patch_request "1") no_answer true p.
Proof.
  destruct (serve no_env no_text no_route PATCH Up 5 (patch_request "1") no_answer one_device) as [r t'] eqn:E.
  assert (t' <> one_device) as Hne.
  { intros ->. assert (E2 := f_equal (fun x => revision <$> (x.2 !! "gps-1"%string)) E). vm_compute in E2. discriminate E2. }
  exists r, t'. split; [reflexivity|]. split; [exact Hne|].
  exact (proj2 (registry_changes_admitted no_env no_text no_route PATCH Up 5 (patch_request "1") no_answer one_device t' r E Hne)).
Defined.

Lemma conditional_success_witness :
  exists reply t', serve no_env no_text no_route DELETE Up 5 (delete_request "1") no_answer one_device = (Ok reply, t') /\
    status_code reply = 204 /\ reply_etag reply = Some (etag_for_revision 2) /\
    exists id d', t' = <[id := d']> one_device /\ live d' = false.
Proof.
  destruct (serve no_env no_text no_route DELETE Up 5 (delete_request "1") no_answer one_device) as [[reply|e] t'] eqn:E;
    [|exfalso; assert (E2 := f_equal fst E); vm_compute in E2; discriminate E2].
  assert (status_code reply = 204) as Hs.
  { assert (E2 := f_equal (fun x => match x.1 with Ok r => status_code r | Raise _ => 0 end) E). vm_compute in E2. symmetry. exact E2. }
  destruct (conditional_success no_env no_text no_route DELETE Up 5 (delete_request "1") no_answer one_device t' reply
    one_device_invariant (or_intror eq_refl) E ltac:(rewrite Hs; lia)) as (id & rev & d & d' & Hrev & _ & _ & _ & Ht & _ & Hl & He).
  exists reply, t'. split; [reflexivity|]. split; [exact Hs|]. split.
  - rewrite He. vm_compute in Hrev. injection Hrev as <-. reflexivity.
  - exists id, d'. split; [exact Ht|]. exact Hl.
Defined.

Lemma etag_roundtrip_witness : revision_from_if_match (Some (etag_for_revision bigint_max)) = Ok bigint_max.
Proof. apply (etag_roundtrip bigint_max). vm_compute. split; discriminate. Defined.

Lemma origin_normal_form_witness :
  canonical_origin "https://Console.Example:0443/" = Ok "https://console.example"%string.
Proof.
  apply (origin_normal_form "https" "Console.Example" "/" (Some "0443"%string)).
  - by right; left.
  - by right; left.
  - discriminate.
  - reflexivity.
  - split; [discriminate|]. split; [reflexivity|]. split; vm_compute; discriminate.
Defined.

Definition developer : Principal :=
  {| subject := "development-user"; roles := ["dealiot-admin"]; level := Some "write" |}%string.
Lemma delete_admitted (text : string) : admitted no_env (delete_request text) no_answer false developer.
Proof. by repeat split. Qed.
Lemma long_revision :
  exists detail, revision_from_if_match (Some (quoted_text (String.concat "" (replicate 4301 "1"%string)))) = Raise (ValueError detail).
Proof. eexists. vm_compute. reflexivity. Qed.
Lemma delete_drops_connection_witness :
  exists text detail reply,
    do_DELETE no_env no_text Up 5 (delete_request text) no_answer one_device = (Raise (ValueError detail), one_device) /\
    do_PATCH no_env no_text Up 5 (delete_request text) no_answer one_device = (Ok reply, one_device) /\ status_code reply = 400.
Proof.
  destruct long_revision as [detail Hr]. revert Hr. generalize (String.concat "" (replicate 4301 "1"%string)). intros text Hr.
  destruct (delete_drops_connection no_env no_text Up 5 (delete_request text) no_answer developer
    "/api/devices/gps-1" "gps-1" detail one_device (delete_admitted text) eq_refl eq_refl eq_refl Hr) as [Hd Hp].
  destruct (Hp eq_refl) as (reply & Hp' & Hs). exists text, detail, reply. split; [exact Hd|]. split; [exact Hp'|exact Hs].
Defined.

(** A production environment. *)
Definition production_env (name : string) : option string :=
  dget name
    [("MANAGEMENT_CONSOLE_PRODUCTION_MODE", "true"); ("MANAGEMENT_CONSOLE_PUBLIC_ORIGIN", "https://console.example");
     ("MANAGEMENT_CONSOLE_OIDC_INTROSPECTION_URL", "https://id.example/introspect");
     ("MANAGEMENT_CONSOLE_OIDC_ISSUER", "https://id.example"); ("MANAGEMENT_CONSOLE_OIDC_AUDIENCE", "console");
     ("MANAGEMENT_CONSOLE_OIDC_CLIENT_ID", "c"); ("MANAGEMENT_CONSOLE_OIDC_CLIENT_SECRET", "s");
     ("MANAGEMENT_CONSOLE_OIDC_READ_ROLES", "readers"); ("MANAGEMENT_CONSOLE_OIDC_WRITE_ROLES", "writers")]%string.
Definition active_claims : attrs :=
  [("active", PBool true); ("iss", PStr "https://id.example"); ("aud", PStr "console"); ("sub", PStr "alice");
   ("groups", PList [PStr "writers"])]%string.
Lemma production_identity_witness :
  exists p, resolve_principal production_env (Some "Bearer t"%string) (Ok (200, dumps (PDict active_claims))) = Ok (Some p) /\
    level p = Some "write"%string /\
    exists claim groups g, py_casefold claim ∉ FORBIDDEN_OIDC_GROUPS_CLAIMS /\ vget claim active_claims = PList groups /\ PStr g ∈ groups.
Proof.
  destruct (resolve_principal production_env (Some "Bearer t"%string) (Ok (200, dumps (PDict active_claims)))) as [[p|]|e] eqn:E;
    [|exfalso; vm_compute in E; discriminate E..].
  assert (level p = Some "write"%string) as Hl.
  { assert (E2 := f_equal (fun x => match x with Ok (Some p) => level p | _ => None end) E). vm_compute in E2. symmetry. exact E2. }
  destruct (production_identity production_env (Some "Bearer t"%string) _ p ltac:(vm_compute; reflexivity) ltac:(vm_compute; reflexivity) E)
    as (_ & status & body & claims & audiences & Ha & _ & Hb & _ & _ & _ & _ & _ & Hw).
  exists p. split; [reflexivity|]. split; [exact Hl|].
  destruct (Hw Hl) as (claim & groups & g & Hf & Hg & Hin & _).
  assert (claims = active_claims) as ->.
  { injection Ha as <- <-. vm_compute in Hb. injection Hb as <-. reflexivity. }
  exists claim, groups, g. split; [exact Hf|]. split; [exact Hg|exact Hin].
Defined.
