(* ===== verification/Gateway.v ===== *)
(** The gateway of the host (src/components/DEALHost/apps/gateway/services.py): the
    manifests of repositories and modules, the GitHub service and the publication of
    routes to APISIX.

    The rows of [Module] are a list in the order of their keys, which
    [select_for_update().order_by("pk")] locks as a whole; a publication is therefore one
    step on the list.  [validate_slug] of Django is the class [SlugRules]; what APISIX
    answers is the parameter [admin]. *)

From stdpp Require Import gmap strings sorting.
From S2P Require Import Prelude PyValue Regex Sha256 PyFloat Json PyTime PyText Wire Url Ip.
#[local] Open Scope list_scope.
#[local] Open Scope string_scope.
#[local] Open Scope Z_scope.

Notation attrs := (list (string * pyval)).

Class SlugRules := validate_slug : string -> bool.

(** ** Configuration and rows *)
Record GitHubConfig := {
  owner : string;
  repository : string;
  token : string;
  webhook_secret : string;
  allowed_repositories : list string
}.
Record ApisixConfig := {
  admin_url : string;
  admin_key : string;
  upstream_host : string;
  upstream_port : Z;
  route_allowed_upstream_hosts : list string;
  route_allowed_upstream_suffixes : list string;
  route_allowed_upstream_ports : list Z;
  route_allowed_upstreams : list string;
  route_reserved_path_prefixes : list string
}.
(** The settings the gateway reads, and the files under [BASE_DIR/manifests]: [None] when a
    directory does not exist. *)
Record site := {
  DEBUG : bool;
  FORCE_SCRIPT_NAME : option string;
  GITHUB : GitHubConfig;
  APISIX : ApisixConfig;
  repository_files : option (list (string * string));
  module_files : option (list (string * string))
}.
(** A row of [Module] (apps/hosting/models.py). *)
Record module_row := {
  row_pk : Z;
  row_name : string;
  row_slug : string;
  row_image : string;
  row_branch : string;
  row_repository_owner : string;
  row_repository_name : string;
  row_source_path : string;
  row_deployment_target : string;
  row_public_path : string;
  row_upstream_host : string;
  row_upstream_port : option Z;
  row_healthcheck_path : string;
  row_contract_topics : pyval;
  row_enabled : bool
}.

(** ** Manifests *)
Definition _deduplicate (values : list string) : list string :=
  fold_left (fun seen v => if mem v seen then seen else (seen ++ [v])%list) values [].

(** [for x in v] over a JSON value. *)
Definition iterate (v : pyval) : res (list pyval) :=
  match v with
  | PList l => Ok l
  | PDict d => Ok (map PStr (keys d))
  | PStr s => Ok (map PStr (pychars s))
  | _ => Raise TypeError
  end.

Definition by_name (a b : string * string) : Prop := String.leb a.1 b.1 = true.
#[export] Instance by_name_dec a b : Decision (by_name a b).
Proof. unfold by_name. apply _. Defined.
(** [sorted(directory.glob("*.json"))] with the text of each file. *)
Definition json_files (files : list (string * string)) : list (string * string) :=
  merge_sort by_name (List.filter (fun f => endswith ".json" f.1) files).
Definition json_load (text : string) : res pyval := decode_utf8 text ≫= loads.

Section Manifests.
Context `{UnicodeData} `{CaseFold}.

Definition load_module_manifest (manifests : list (string * attrs)) (file : string * string)
    : res (list (string * attrs)) :=
  payload ← json_load file.2;
  match payload with
  | PDict payload =>
      s ← py_str (dget_or "slug" (PStr "") payload);
      let slug := py_strip s in
      Ok (if String.eqb slug "" then manifests else dset slug payload manifests)
  | _ => Ok manifests
  end.
Definition _load_module_manifests (files : option (list (string * string))) : res (list (string * attrs)) :=
  match files with
  | None => Ok []
  | Some files => foldM_res load_module_manifest [] (json_files files)
  end.

Definition _load_repository_manifests (files : option (list (string * string))) : res (list attrs) :=
  match files with
  | None => Ok []
  | Some files =>
      foldM_res (fun manifests file =>
        payload ← json_load file.2;
        Ok (match payload with PDict payload => (manifests ++ [payload])%list | _ => manifests end)) [] (json_files files)
  end.

Definition _manifest_by_repository (manifests : list attrs) : res (list (string * attrs)) :=
  foldM_res (fun d manifest =>
    if truthy (vget "repository_full_name" manifest) then
      name ← py_str (vget "repository_full_name" manifest);
      Ok (dset (py_casefold name) manifest d)
    else Ok d) [] manifests.

Definition add_route_default (d : list (string * attrs)) (route : pyval) : res (list (string * attrs)) :=
  match route with
  | PDict route =>
      s ← py_str (dget_or "module_slug" (PStr "") route);
      let module_slug := py_strip s in
      Ok (if String.eqb module_slug "" then d else dset module_slug route d)
  | _ => Ok d
  end.
Definition _route_defaults_from_manifests (manifests : list attrs) : res (list (string * attrs)) :=
  foldM_res (fun d manifest =>
    routes ← iterate (dget_or "route_defaults" (PList []) manifest);
    foldM_res add_route_default d routes) [] manifests.

(** The slugs, in the order they are found; the code keeps a set. *)
Definition add_slug (slugs : list string) (item : pyval) : res (list string) :=
  match item with
  | PDict item =>
      if truthy (vget "module_slug" item) then s ← py_str (vget "module_slug" item); Ok (slugs ++ [s])%list
      else Ok slugs
  | _ => Ok slugs
  end.
Definition _known_module_slugs_from_manifests (manifests : list attrs) : res (list string) :=
  foldM_res (fun slugs manifest =>
    mappings ← iterate (dget_or "path_mappings" (PList []) manifest);
    slugs ← foldM_res add_slug slugs mappings;
    routes ← iterate (dget_or "route_defaults" (PList []) manifest);
    foldM_res add_slug slugs routes) [] manifests.
End Manifests.

Definition _route_id_for_module (module_slug : string) : string :=
  if startswith "module-" module_slug then module_slug else "module-" ++ module_slug.

(** ** Validation *)
Definition unsafe_path {A} (detail : string) : res A := Raise (RoutePublicationError detail "route_path_unsafe").
Definition unsafe_upstream {A} (detail : string) : res A := Raise (RoutePublicationError detail "route_upstream_unsafe").

Definition _STRONG_ROUTE_ETAG_PATTERN : regex :=
  Seq (Cls (is_byte 34)) (Seq (lit "sha256-") (Seq (Rep 64 (Some 64%nat) (Cls hex_lower)) (Cls (is_byte 34)))).
Definition alphanumeric : ascii -> bool := por alpha (between "0" "9").
Definition _DNS_LABEL_PATTERN : regex :=
  Seq (Cls alphanumeric) (opt (Seq (Rep 0 (Some 61%nat) (Cls (por alphanumeric (one_of "-")))) (Cls alphanumeric))).
Definition segment_byte : ascii -> bool := por alphanumeric (one_of "._~-").
Definition _PUBLIC_PATH_SEGMENT_PATTERN : regex := Seq (Cls alphanumeric) (star (Cls segment_byte)).
Definition _SYSTEM_RESERVED_PATH_PREFIXES : list string :=
  ["/oauth2"; "/healthz"; "/readyz"; "/apisix"; "/dealhost"; "/dealiot"; "/dealdata"].
Definition _OIDC_INTROSPECTING_UPSTREAM_HOSTS : list string :=
  ["dealhost"; "dealiot"; "dealdata-core"; "dealdata-gps"; "dealdata-sensor"].

(** [s[1:]] of a text whose first character is one byte. *)
Definition tail (s : string) : string := match s with "" => "" | String _ r => r end.

Section Rules.
Context `{UnicodeData} `{CaseFold} `{SlugRules}.

Definition normalize_module_slug (value : pyval) : res string :=
  s ← py_str value;
  let module_slug := py_strip s in
  if validate_slug module_slug then Ok module_slug
  else Raise (ValueError "module_slug must contain only letters, numbers, hyphens or underscores").

Definition _validated_public_path (value : pyval) : res string :=
  public_path ← py_str value;
  if negb (String.eqb public_path (py_strip public_path)) || negb (startswith "/" public_path)
  then unsafe_path "public_path must be an absolute path without surrounding whitespace"
  else
    let public_path := if String.eqb public_path "/" then public_path else rstrip_char "/" public_path in
    if String.eqb public_path "/" then unsafe_path "public_path cannot replace the root interface route"
    else if contains "//" public_path || has_byte 92 public_path || has_byte 37 public_path
    then unsafe_path "public_path contains an ambiguous path encoding"
    else if existsb (fun segment => mem segment ["."; ".."] || negb (fullmatch _PUBLIC_PATH_SEGMENT_PATTERN segment))
                    (py_split "/" (tail public_path))
    then unsafe_path "public_path contains an unsafe path segment"
    else Ok public_path.

Definition _paths_overlap (first second : string) : bool :=
  let left := py_casefold first in
  let right := py_casefold second in
  String.eqb left right || startswith (right ++ "/") left || startswith (left ++ "/") right.

Definition _path_is_within (path prefix : string) : bool :=
  let normalized_path := py_casefold path in
  let normalized_prefix := py_casefold prefix in
  String.eqb normalized_path normalized_prefix || startswith (normalized_prefix ++ "/") normalized_path.

Definition _validated_dns_hostname (value : pyval) (label : string) : res string :=
  raw_host ← py_str value;
  let host := py_casefold raw_host in
  if negb (String.eqb raw_host (py_strip raw_host)) || String.eqb host "" || (253 <? py_len host)
  then unsafe_upstream (label ++ " must be a strict DNS hostname")
  else if endswith "." host || String.eqb host "localhost" || endswith ".localhost" host
  then unsafe_upstream (label ++ " cannot target localhost")
  else if is_ip_address host then unsafe_upstream (label ++ " cannot be an IP address")
  else if py_isdigit (remove_bytes (is_byte 46) host)
  then unsafe_upstream (label ++ " cannot be a numeric IP representation")
  else if existsb (fun part => negb (fullmatch _DNS_LABEL_PATTERN part)) (py_split "." host)
  then unsafe_upstream (label ++ " must be a strict DNS hostname")
  else Ok host.

Definition _validated_upstream_port (value : pyval) : res Z :=
  match value with
  | PBool _ => unsafe_upstream "upstream_port must be an integer"
  | _ =>
      match int_of value with
      | Raise (TypeError | ValueError _) => unsafe_upstream "upstream_port must be an integer"
      | Raise e => Raise e
      | Ok port => if (port <? 1) || (65535 <? port) then unsafe_upstream "upstream_port must be between 1 and 65535"
                   else Ok port
      end
  end.

Definition _validated_route_preview_etag (value : option string) : res string :=
  match value with
  | None => Raise (RoutePublicationError "A route preview ETag is required" "route_preview_required")
  | Some value =>
      let etag := py_strip value in
      if String.eqb etag "" then Raise (RoutePublicationError "A route preview ETag is required" "route_preview_required")
      else if negb (fullmatch _STRONG_ROUTE_ETAG_PATTERN etag)
      then Raise (RoutePublicationError "If-Match must contain exactly one strong route preview ETag" "route_preview_etag_invalid")
      else Ok etag
  end.
End Rules.

(** ** The GitHub service *)
(** [hmac.new(key, msg, sha256).hexdigest()]. *)
Definition hash_bytes (h : hash) : list Z :=
  flat_map (be_bytes 4) [h0 h; h1 h; h2 h; h3 h; h4 h; h5 h; h6 h; h7 h].
Definition byte_codes (s : string) : list Z := map code (list_ascii_of_string s).
Definition hmac_sha256 (key msg : string) : string :=
  let key := byte_codes key in
  let key := if 64 <? Z.of_nat (length key) then hash_bytes (sha256_words key) else key in
  let block := (key ++ replicate (64 - length key) 0)%list in
  let inner := sha256_words (map (Z.lxor 54) block ++ byte_codes msg)%list in
  hexdigest (sha256_words (map (Z.lxor 92) block ++ hash_bytes inner)%list).

Record GitHubService := {
  github_config : GitHubConfig;
  repository_manifests : list attrs;
  repository_manifest_map : list (string * attrs)
}.

Section GitHub.
Context `{UnicodeData} `{CaseFold}.

Definition new_github (s : site) : res GitHubService :=
  manifests ← _load_repository_manifests (repository_files s);
  by_repository ← _manifest_by_repository manifests;
  Ok {| github_config := GITHUB s; repository_manifests := manifests; repository_manifest_map := by_repository |}.

Definition github_headers (g : GitHubService) : list (string * string) :=
  [("Accept", "application/vnd.github+json"); ("Authorization", "Bearer " ++ token (github_config g));
   ("X-GitHub-Api-Version", "2022-11-28")].

Definition verify_signature (g : GitHubService) (payload : string) (signature : option string) : res bool :=
  match signature with
  | None | Some "" => Ok false
  | Some signature =>
      key ← encode_utf8 (webhook_secret (github_config g));
      compare_digest ("sha256=" ++ hmac_sha256 key payload) signature
  end.

Definition expected_repository_full_name (g : GitHubService) : string :=
  owner (github_config g) ++ "/" ++ repository (github_config g).
Definition allowed_repository_full_names (g : GitHubService) : list string :=
  match allowed_repositories (github_config g) with [] => [expected_repository_full_name g] | l => l end.
Definition is_allowed_repository_full_name (g : GitHubService) (repository : string) : bool :=
  let repository := py_strip repository in
  negb (String.eqb repository "") &&
  existsb (fun candidate => String.eqb (py_casefold repository) (py_casefold candidate)) (allowed_repository_full_names g).

Definition repository_manifest (g : GitHubService) (repository : string) : option attrs :=
  dget (py_casefold (py_strip repository)) (repository_manifest_map g).

Definition allowed_events_for_repository (g : GitHubService) (repository : string) : res (list string) :=
  match repository_manifest g repository with
  | None | Some [] => Ok ["push"]
  | Some manifest =>
      match dget_or "allowed_events" (PList [PStr "push"]) manifest with
      | PList l => mapM_res py_str (List.filter truthy l)
      | _ => Ok ["push"]
      end
  end.
Definition is_allowed_event (g : GitHubService) (repository event : string) : res bool :=
  allowed_events ← allowed_events_for_repository g repository;
  Ok (existsb (fun candidate => String.eqb (py_casefold event) (py_casefold candidate)) allowed_events).

Definition dicts_of (l : list pyval) : list attrs := omap (fun v => match v with PDict d => Some d | _ => None end) l.
Definition module_slugs_of (items : list attrs) : res (list string) :=
  slugs ← mapM_res (fun item => py_str (vget "module_slug" item))
            (List.filter (fun item => truthy (vget "module_slug" item)) items);
  Ok (_deduplicate (map py_strip slugs)).
Definition integration (g : GitHubService) (manifest : attrs) : res pyval :=
  s ← py_str (dget_or "repository_full_name" (PStr "") manifest);
  let repository := py_strip s in
  mappings ← iterate (dget_or "path_mappings" (PList []) manifest);
  let path_mappings := dicts_of mappings in
  routes ← iterate (dget_or "route_defaults" (PList []) manifest);
  let route_defaults := dicts_of routes in
  let source_dependency := match dget_or "source_dependency" (PDict []) manifest with PDict d => PDict d | _ => PDict [] end in
  module_slugs ← module_slugs_of path_mappings;
  allowed_events ← allowed_events_for_repository g repository;
  public_module_slugs ← module_slugs_of route_defaults;
  Ok (PDict [("name", dget_or "name" (PStr "") manifest); ("slug", dget_or "slug" (PStr "") manifest);
             ("repository_full_name", PStr repository); ("allowed", PBool (is_allowed_repository_full_name g repository));
             ("allowed_events", PList (map PStr allowed_events)); ("source_dependency", source_dependency);
             ("module_slugs", PList (map PStr module_slugs));
             ("path_mapping_count", PInt (Z.of_nat (length path_mappings)));
             ("public_module_slugs", PList (map PStr public_module_slugs))]).
Definition repository_integrations (g : GitHubService) : res (list pyval) :=
  mapM_res (integration g) (repository_manifests g).

Definition repository_full_name (payload : attrs) : res string :=
  match vget "repository" payload with
  | PDict repository =>
      if truthy (vget "full_name" repository) then py_str (vget "full_name" repository) else Ok ""
  | _ => Ok ""
  end.
Definition is_expected_repository (g : GitHubService) (payload : attrs) : res bool :=
  repository ← repository_full_name payload;
  Ok (is_allowed_repository_full_name g repository).

(** The paths a commit lists. *)
Definition commit_paths (commit : attrs) : res (list string) :=
  l ← mapM_res (fun key =>
        match dget_or key (PList []) commit with
        | PList values => mapM_res py_str (List.filter truthy values)
        | _ => Ok []
        end) ["added"; "modified"; "removed"];
  Ok (concat l).
Definition changed_paths (payload : attrs) : res (list string) :=
  commits ← iterate (dget_or "commits" (PList []) payload);
  paths ← mapM_res commit_paths (dicts_of commits);
  head ← match vget "head_commit" payload with PDict head_commit => commit_paths head_commit | _ => Ok [] end;
  Ok (py_sorted (_deduplicate (concat paths ++ head)%list)).

(** One mapping of a manifest: the slug, when the path lies under its prefix. *)
Definition mapping_slug (normalized : string) (mapping : pyval) : res (option string) :=
  match mapping with
  | PDict mapping =>
      prefix ← py_str (dget_or "prefix" (PStr "") mapping);
      slug ← py_str (dget_or "module_slug" (PStr "") mapping);
      let normalized_prefix := strip_chars (String.eqb "/") prefix in
      Ok (if String.eqb prefix "" || String.eqb slug "" then None
          else if String.eqb normalized normalized_prefix || startswith (normalized_prefix ++ "/") normalized
          then Some slug else None)
  | _ => Ok None
  end.
Fixpoint first_slug (normalized : string) (mappings : list pyval) : res (option string) :=
  match mappings with
  | [] => Ok None
  | mapping :: mappings =>
      slug ← mapping_slug normalized mapping;
      match slug with Some slug => Ok (Some slug) | None => first_slug normalized mappings end
  end.
Fixpoint slug_in_manifests (normalized : string) (manifests : list attrs) : res (option string) :=
  match manifests with
  | [] => Ok None
  | manifest :: manifests =>
      mappings ← iterate (dget_or "path_mappings" (PList []) manifest);
      slug ← first_slug normalized mappings;
      match slug with Some slug => Ok (Some slug) | None => slug_in_manifests normalized manifests end
  end.
Definition lstrip_slash (s : string) : string := drop_bytes (is_byte 47) s.
Definition normalized_path (path : string) : string :=
  lstrip_slash (map_bytes (fun a => if code a =? 92 then "/"%char else a) path).
Definition module_slug_for_path (g : GitHubService) (path repository : string) : res (option string) :=
  match repository_manifest g repository with
  | Some ((_ :: _) as manifest) => slug_in_manifests (normalized_path path) [manifest]
  | _ =>
      if negb (String.eqb repository "") then Ok None
      else slug_in_manifests (normalized_path path) (repository_manifests g)
  end.
Definition module_slugs_for_paths (g : GitHubService) (paths : list string) (repository : string) : res (list string) :=
  slugs ← mapM_res (fun path => module_slug_for_path g path repository) paths;
  Ok (_deduplicate (List.filter (fun s => negb (String.eqb s "")) (omap id slugs))).
Definition module_slugs_for_webhook (g : GitHubService) (payload : attrs) : res (list string) :=
  let explicit_slug := match vget "module_slug" payload with PStr s => py_strip s | _ => "" end in
  if negb (String.eqb explicit_slug "") then Ok [explicit_slug]
  else
    match vget "module_slugs" payload with
    | PList explicit_slugs =>
        slugs ← mapM_res py_str explicit_slugs;
        Ok (_deduplicate (List.filter (fun s => negb (String.eqb s "")) (map py_strip slugs)))
    | _ =>
        repository ← repository_full_name payload;
        paths ← changed_paths payload;
        module_slugs_for_paths g paths repository
    end.
Definition latest_commit_url (g : GitHubService) (branch : string) (repository_full_name : option string) : res string :=
  let chosen := match repository_full_name with
    | Some r => if String.eqb r "" then expected_repository_full_name g else r
    | None => expected_repository_full_name g
    end in
  let repository := py_strip chosen in
  if negb (is_allowed_repository_full_name g repository)
  then Raise (ValueError ("Repository is not allowed: " ++ repository))
  else match Url.partition "/" repository with
       | None => Raise (ValueError ("Repository must use owner/name format: " ++ repository))
       | Some (owner, repository_name) =>
           Ok ("https://api.github.com/repos/" ++ owner ++ "/" ++ repository_name ++ "/commits/" ++ quote branch)
       end.
End GitHub.

(** ** The APISIX service *)
Record ApisixService := {
  config : ApisixConfig;
  route_defaults : list (string * attrs);
  known_module_slugs : list string;
  module_manifests : list (string * attrs)
}.

(** A request handed to [httpx.put]. *)
Record put := { put_url : string; put_headers : list (string * string); put_json : pyval }.
(** The rows of [Module], in the order of their keys, and the requests sent to APISIX. *)
Record gateway := { modules : list module_row; puts : list put }.

(** [re.escape]. *)
Definition special_byte : ascii -> bool := fun a =>
  one_of "()[]{}?*+-|^$.&~# " a || is_byte 92 a || ((9 <=? code a) && (code a <=? 13)).
Fixpoint re_escape (s : string) : string :=
  match s with
  | "" => ""
  | String a r => if special_byte a then String (byte_of 92) (String a (re_escape r)) else String a (re_escape r)
  end.

Section Apisix.
Context `{UnicodeData} `{CaseFold} `{SlugRules} (s : site).
(** The status and the body APISIX answers with, or the exception of [httpx.put]. *)
Variable admin : put -> res (Z * string).

Definition new_apisix : res ApisixService :=
  manifests ← _load_repository_manifests (repository_files s);
  route_defaults ← _route_defaults_from_manifests manifests;
  known_module_slugs ← _known_module_slugs_from_manifests manifests;
  module_manifests ← _load_module_manifests (module_files s);
  Ok {| config := APISIX s; route_defaults := route_defaults; known_module_slugs := known_module_slugs;
        module_manifests := module_manifests |}.

Section Service.
Context (a : ApisixService).

Definition _trusted_development_upstreams : res (list string * list Z) :=
  host ← _validated_dns_hostname (PStr (upstream_host (config a))) "APISIX_UPSTREAM_HOST";
  port ← _validated_upstream_port (PInt (upstream_port (config a)));
  foldM_res (fun hp sr =>
    host ← _validated_dns_hostname (dget_or "upstream_host" (PStr "") sr.2) "manifest upstream_host";
    port ← _validated_upstream_port (vget "upstream_port" sr.2);
    Ok (hp.1 ++ [host], hp.2 ++ [port])%list) ([host], [port]) (route_defaults a).

(** One entry of the exact allowlist: a canonical host:port pair. *)
Definition allowed_upstream (allowed_upstreams : list (string * Z)) (raw_upstream : string) : res (list (string * Z)) :=
  let malformed := unsafe_upstream "allowed upstream must use canonical host:port syntax" in
  match Url.rpartition ":" raw_upstream with
  | None => malformed
  | Some (host_value, port_value) =>
      if String.eqb host_value "" || String.eqb port_value "" || negb (String.eqb raw_upstream (py_strip raw_upstream))
      then malformed
      else
        host ← _validated_dns_hostname (PStr host_value) "allowed upstream host";
        port ← _validated_upstream_port (PStr port_value);
        if negb (String.eqb (host ++ ":" ++ py_str_int port) raw_upstream) then malformed
        else if bool_decide ((host, port) ∈ allowed_upstreams)
        then unsafe_upstream "allowed upstreams must not contain duplicates"
        else Ok (allowed_upstreams ++ [(host, port)])%list
  end.

(** Hosts, suffixes, ports and exact pairs. *)
Definition _upstream_policy : res (list string * list string * list Z * list (string * Z)) :=
  let configured_hosts := route_allowed_upstream_hosts (config a) in
  let configured_suffixes := route_allowed_upstream_suffixes (config a) in
  let configured_ports := route_allowed_upstream_ports (config a) in
  let configured_upstreams := route_allowed_upstreams (config a) in
  let no_hosts := bool_decide (configured_hosts = []) && bool_decide (configured_suffixes = []) in
  _ ← raise_if (negb (DEBUG s) && (no_hosts || bool_decide (configured_ports = []) || bool_decide (configured_upstreams = [])))
        (RoutePublicationError "Production route publication requires explicit host/suffix, port and exact host:port allowlists"
           "route_policy_missing");
  '(allowed_hosts, development_ports) ←
    (if DEBUG s && no_hosts then _trusted_development_upstreams
     else hosts ← mapM_res (fun host => _validated_dns_hostname (PStr host) "allowed upstream host") configured_hosts;
          Ok (hosts, []));
  allowed_suffixes ← mapM_res (fun suffix => _validated_dns_hostname (PStr (removeprefix "." suffix)) "allowed upstream suffix")
                       configured_suffixes;
  allowed_ports ← (if DEBUG s && bool_decide (configured_ports = []) then
                     if bool_decide (development_ports = []) then snd <$> _trusted_development_upstreams
                     else Ok development_ports
                   else mapM_res (fun port => _validated_upstream_port (PInt port)) configured_ports);
  allowed_upstreams ← foldM_res allowed_upstream [] configured_upstreams;
  Ok (allowed_hosts, allowed_suffixes, allowed_ports, allowed_upstreams).

Definition _validate_upstream (upstream_host upstream_port : pyval) : res (string * Z) :=
  host ← _validated_dns_hostname upstream_host "upstream_host";
  port ← _validated_upstream_port upstream_port;
  '(allowed_hosts, allowed_suffixes, allowed_ports, allowed_upstreams) ← _upstream_policy;
  let host_is_allowed := mem host allowed_hosts ||
    existsb (fun suffix => String.eqb host suffix || endswith ("." ++ suffix) host) allowed_suffixes in
  if negb host_is_allowed then unsafe_upstream "upstream_host is not in the route allowlist"
  else if negb (existsb (Z.eqb port) allowed_ports) then unsafe_upstream "upstream_port is not in the route allowlist"
  else if negb (bool_decide (allowed_upstreams = [])) && negb (bool_decide ((host, port) ∈ allowed_upstreams))
  then unsafe_upstream "upstream host:port pair is not in the exact route allowlist"
  else Ok (host, port).

Definition _reserved_path_prefixes : res (list string) :=
  let configured_script_name := default "" (FORCE_SCRIPT_NAME s) in
  let prefixes := (_SYSTEM_RESERVED_PATH_PREFIXES ++ route_reserved_path_prefixes (config a) ++
                   (if String.eqb configured_script_name "" then [] else [configured_script_name]))%list in
  _deduplicate <$> mapM_res (fun prefix => _validated_public_path (PStr prefix)) prefixes.

(** [d[k]] *)
Definition item (k : string) (d : attrs) : res pyval :=
  match dget k d with Some v => Ok v | None => Raise (KeyError k) end.

(** The paths the route of [module_slug] must keep clear of, with their owners. *)
Definition protected_paths (module_slug : string) (modules : list module_row) : res (list (string * string)) :=
  defaults ← mapM_res (fun sr =>
      p ← item "public_path" sr.2;
      path ← _validated_public_path p;
      Ok (path, if String.eqb sr.1 module_slug then "the module's bootstrap route"
                else "bootstrap route for " ++ sr.1)) (route_defaults a);
  others ← mapM_res (fun other =>
      path ← _validated_public_path (PStr (row_public_path other));
      Ok (path, "enabled module " ++ row_slug other))
    (List.filter (fun other => row_enabled other && negb (String.eqb (row_slug other) module_slug) &&
                               negb (String.eqb (row_public_path other) "")) modules);
  Ok (defaults ++ others)%list.
Fixpoint check_overlaps (path : string) (seen_paths : list string) (protected_ : list (string * string)) : res unit :=
  match protected_ with
  | [] => Ok tt
  | (protected_path, source) :: protected_ =>
      let key := py_casefold protected_path in
      if mem key seen_paths then check_overlaps path seen_paths protected_
      else if _paths_overlap path protected_path
      then Raise (RoutePublicationError ("public_path overlaps " ++ source ++ ": " ++ protected_path) "route_path_conflict")
      else check_overlaps path (key :: seen_paths) protected_
  end.
Fixpoint check_reserved (path : string) (prefixes : list string) : res unit :=
  match prefixes with
  | [] => Ok tt
  | prefix :: prefixes =>
      if _path_is_within path prefix then unsafe_path ("public_path is under reserved prefix: " ++ prefix)
      else check_reserved path prefixes
  end.
Definition _validate_route_path (module_slug : string) (public_path : string) (modules : list module_row) : res string :=
  path ← _validated_public_path (PStr public_path);
  protected_ ← protected_paths module_slug modules;
  _ ← check_overlaps path [] protected_;
  prefixes ← _reserved_path_prefixes;
  _ ← check_reserved path prefixes;
  Ok path.

Definition is_true (v : pyval) : bool := match v with PBool true => true | _ => false end.
Definition _validate_production_readiness (module_slug : string) : res unit :=
  if DEBUG s then Ok tt
  else raise_if (match dget module_slug (module_manifests a) with
                 | None => true
                 | Some manifest => negb (is_true (vget "production_ready" manifest))
                 end)
         (RoutePublicationError
            ("Dynamic route publication requires a reviewed module manifest with production_ready=true: " ++ module_slug)
            "module_not_production_ready").

Definition _skip_without_public_upstream (route_id : string) : attrs :=
  [("route_id", PStr route_id); ("skipped", PBool true); ("reason", PStr "module has no public upstream");
   ("payload", PNone)].

Definition _route_plan_etag (plan : attrs) : res string :=
  route_id ← item "route_id" plan;
  let canonical_plan := PDict [("payload", vget "payload" plan); ("route_id", route_id);
                               ("skipped", PBool (truthy (dget_or "skipped" (PBool false) plan)))] in
  canonical_bytes ← encode_utf8 (dumps_sorted canonical_plan);
  Ok (bytes [34] ++ "sha256-" ++ sha256_hex canonical_bytes ++ bytes [34]).

(** The plugins of a route. *)
Definition route_plugins (public_path upstream_host : string) : attrs :=
  let rewrite := [("regex_uri", PList [PStr ("^" ++ re_escape public_path ++ "(?:/(.*))?$"); PStr "/$1"]);
                  ("host", PStr upstream_host)] in
  if DEBUG s then [("proxy-rewrite", PDict rewrite)]
  else
    let forwarded := ("X-Forwarded-Proto", PStr "$http_x_forwarded_proto") in
    let header_policy :=
      if mem upstream_host _OIDC_INTROSPECTING_UPSTREAM_HOSTS
      then [("set", PDict [forwarded; ("Authorization", PStr "Bearer $http_x_forwarded_access_token")]);
            ("remove", PList [PStr "X-Forwarded-Access-Token"])]
      else [("set", PDict [forwarded]); ("remove", PList [PStr "Authorization"; PStr "X-Forwarded-Access-Token"])] in
    [("prometheus", PDict []); ("opentelemetry", PDict [("sampler", PDict [("name", PStr "always_on")])]);
     ("proxy-rewrite", PDict (rewrite ++ [("headers", PDict header_policy)])%list)].
Definition route_payload (route_id public_path upstream_host : string) (upstream_port : Z) : attrs :=
  [("uris", PList [PStr public_path; PStr (public_path ++ "/*")]); ("name", PStr route_id); ("priority", PInt 100);
   ("plugins", PDict (route_plugins public_path upstream_host));
   ("upstream", PDict [("type", PStr "roundrobin"); ("pass_host", PStr "node");
                       ("nodes", PDict [(upstream_host ++ ":" ++ py_str_int upstream_port, PInt 1)])])].

(** Where a module is to be routed: path, host and port; [None] when it has no upstream. *)
Definition or_text (a b : string) : string := if String.eqb a "" then b else a.
Definition effective_route (module_slug : string) (modules : list module_row) : res (option (string * string * Z)) :=
  let default_route := dget module_slug (route_defaults a) in
  '(public_path, host, port) ←
    match default_route with
    | Some ((_ :: _) as r) =>
        p ← item "public_path" r; p ← py_str p;
        h ← item "upstream_host" r; h ← py_str h;
        n ← item "upstream_port" r; n ← int_of n;
        Ok (p, h, n)
    | _ => Ok ("/" ++ module_slug, upstream_host (config a), upstream_port (config a))
    end;
  match List.find (fun candidate => String.eqb (row_slug candidate) module_slug) modules with
  | Some module =>
      if negb (row_enabled module)
      then Raise (RoutePublicationError ("Cannot publish a route for disabled module: " ++ module_slug) "module_disabled")
      else match row_upstream_port module with
           | Some n =>
               if String.eqb (row_public_path module) "" || String.eqb (row_upstream_host module) "" then Ok None
               else Ok (Some (or_text (row_public_path module) public_path,
                              or_text (row_upstream_host module) host, if n =? 0 then port else n))
           | None => Ok None
           end
  | None =>
      match default_route with
      | Some _ => Ok (Some (public_path, host, port))
      | None =>
          if mem module_slug (known_module_slugs a) then Ok None
          else Raise (RoutePublicationError ("Unknown module: " ++ module_slug) "module_unknown")
      end
  end.
Definition _build_route_plan (module_slug : string) (modules : list module_row) : res attrs :=
  module_slug ← normalize_module_slug (PStr module_slug);
  let route_id := _route_id_for_module module_slug in
  route ← effective_route module_slug modules;
  match route with
  | None => Ok (_skip_without_public_upstream route_id)
  | Some (public_path, host, port) =>
      public_path ← _validate_route_path module_slug public_path modules;
      _ ← _validate_production_readiness module_slug;
      '(host, port) ← _validate_upstream (PStr host) (PInt port);
      Ok [("route_id", PStr route_id); ("skipped", PBool false);
          ("payload", PDict (route_payload route_id public_path host port))]
  end.

Definition http_put (p : put) : M gateway (Z * string) :=
  fun g => (admin p, {| modules := modules g; puts := (puts g ++ [p])%list |}).

(** [{**plan, "dry_run": ..., "etag": ..., "response": None}]. *)
Definition publication (plan : attrs) (dry_run : bool) (etag : string) (response : pyval) : attrs :=
  dset "response" response (dset "etag" (PStr etag) (dset "dry_run" (PBool dry_run) plan)).

Definition _publish_route_locked (module_slug : string) (dry_run : bool) (preview_etag : option string) : M gateway attrs :=
  fun g => (
  plan ← lift (_build_route_plan module_slug (modules g));
  effective_etag ← lift (_route_plan_etag plan);
  match preview_etag with
  | Some e => lift (raise_if (negb (String.eqb e effective_etag))
      (RoutePublicationError "The effective APISIX route no longer matches the preview" "route_preview_stale"))
  | None => mret tt
  end ≫= fun _ =>
  if dry_run || truthy (dget_or "skipped" (PBool false) plan)
  then mret (publication plan dry_run effective_etag PNone)
  else
    r ← lift (item "route_id" plan);
    route_id ← lift (py_str r);
    payload ← lift (item "payload" plan);
    answer ← http_put {| put_url := admin_url (config a) ++ "/apisix/admin/routes/" ++ quote route_id;
                         put_headers := [("X-API-KEY", admin_key (config a))]; put_json := payload |};
    _ ← lift (raise_if (negb ((200 <=? answer.1) && (answer.1 <? 300))) HTTPError);
    response ← lift (json_load answer.2);
    mret (publication plan dry_run effective_etag response)) g.

Definition publish_route (module_slug : string) (dry_run : bool) (expected_etag : option string) (require_preview : bool)
    : M gateway attrs :=
  if require_preview && negb dry_run then
    preview_etag ← lift (_validated_route_preview_etag expected_etag);
    _publish_route_locked module_slug dry_run (Some preview_etag)
  else _publish_route_locked module_slug dry_run None.
Definition publish_route_unconditionally (module_slug : string) : M gateway attrs :=
  publish_route module_slug false None false.
End Service.
End Apisix.
