(* ===== verification/GatewayViews.v ===== *)
(** The views of the gateway (src/components/DEALHost/apps/gateway/views.py): publication of
    a route by an operator, GitHub webhooks, synchronisation and health.

    The cache is the set of its keys; [cache.add] is one atomic step.  What the event bus
    does with an event, how the framework parses a body and how text is translated are
    parameters. *)

From stdpp Require Import gmap strings sorting.
From S2P Require Import Prelude PyValue Regex Sha256 PyFloat Json PyTime PyText Wire Url Gateway.
#[local] Open Scope list_scope.
#[local] Open Scope string_scope.
#[local] Open Scope Z_scope.

Record world := {
  gw : gateway;
  cache : gset string;
  events : list (string * attrs)
}.
Record response := { status : Z; data : pyval; extra_headers : list (string * string) }.
Definition reply (status : Z) (data : attrs) : response :=
  {| status := status; data := PDict data; extra_headers := [] |}.

Definition GATEWAY_ROUTE_PUBLISH_REQUESTED : string := "gateway.route.publish.requested".
Definition GATEWAY_ROUTE_PUBLISH_COMPLETED : string := "gateway.route.publish.completed".
Definition GATEWAY_ROUTE_PUBLISH_FAILED : string := "gateway.route.publish.failed".
Definition GATEWAY_GITHUB_WEBHOOK_RECEIVED : string := "gateway.github.webhook.received".

(** A computation on the gateway within the world. *)
Definition on_gateway {A} (m : M gateway A) : M world A :=
  fun w => let '(r, g) := m (gw w) in (r, {| gw := g; cache := cache w; events := events w |}).
(** [try: m  except Exception as exc: h(exc); raise]. *)
Definition on_error {A} (m : M world A) (h : pyexn -> M world unit) : M world A :=
  fun w => match m w with
           | (Raise e, w') => (h e ≫= fun _ => raise e) w'
           | r => r
           end.

(** [try: m] with the exception as a value. *)
Definition attempt {A} (m : M world A) : M world (res A) := fun w => let '(r, w) := m w in (Ok r, w).

Section Views.
Context `{UnicodeData} `{CaseFold} `{SlugRules} (s : site).
Variable admin : put -> res (Z * string).
(** Publishing an event on NATS. *)
Variable bus : string -> attrs -> res unit.
Variable gettext : string -> string.
Variable exception_text : pyexn -> string.

Definition live_get : response := reply 200 [("status", PStr "ok"); ("service", PStr "gateway")].
Definition _is_truthy (value : pyval) : res bool :=
  match value with
  | PBool b => Ok b
  | PNone => Ok false
  | _ => text ← py_str value; Ok (mem (py_casefold (py_strip text)) ["1"; "true"; "yes"; "on"])
  end.

Definition publish_event (event_type : string) (d : attrs) : M world unit :=
  fun w => (bus event_type d, {| gw := gw w; cache := cache w; events := (events w ++ [(event_type, d)])%list |}).

Definition detail (text : string) : string * pyval := ("detail", PStr (gettext text)).

(** ** Health *)
Definition ready_get (database cache_ : res bool) : response :=
  let available (check : res bool) := match check with Ok b => b | Raise _ => false end in
  let word b := PStr (if b : bool then "available" else "unavailable") in
  let ready := available database && available cache_ in
  reply (if ready then 200 else 503)
    [("status", PStr (if ready then "ok" else "unavailable")); ("service", PStr "gateway");
     ("database", word (available database)); ("cache", word (available cache_))].

(** ** Synchronisation *)
(** [fetch] is the answer of the GitHub API for a URL, decoded. *)
Definition field (k : string) (v : pyval) : res pyval := match v with PDict d => item k d | _ => Raise TypeError end.
Definition sync_post (fetch : string -> res pyval) (request_data : pyval) : res response :=
  match request_data with
  | PDict request =>
      match dget_or "branch" (PStr "main") request with
      | PStr branch =>
          if String.eqb (py_strip branch) ""
          then Ok (reply 400 [detail "branch must be a non-empty string."])
          else
            let branch := py_strip branch in
            let repository_payload := vget "repository" request in
            let repository :=
              if truthy (vget "repository_full_name" request) then vget "repository_full_name" request
              else match repository_payload with PDict r => vget "full_name" r | v => v end in
            github ← new_github s;
            name ← (if truthy repository then Some <$> py_str repository else Ok None);
            if match name with Some n => negb (is_allowed_repository_full_name github n) | None => false end
            then Ok (reply 400 [detail "Repository is not allowed."; ("repository", repository);
                                ("allowed_repositories", PList (map PStr (allowed_repository_full_names github)))])
            else
              url ← latest_commit_url github branch name;
              commit ← fetch url;
              r ← field "repository" commit; full_name ← field "full_name" r; full_name ← py_str full_name;
              sha ← field "sha" commit;
              c ← field "commit" commit; message ← field "message" c;
              Ok (reply 200 [("repository", PStr full_name); ("branch", PStr branch); ("sha", sha); ("message", message)])
      | _ => Ok (reply 400 [detail "branch must be a non-empty string."])
      end
  | _ => Raise (AttributeError "get")
  end.
Definition repositories_get : res response :=
  github ← new_github s;
  l ← repository_integrations github;
  Ok (reply 200 [("repositories", PList l)]).

(** ** Publication by an operator *)
Definition failed_event (module_slug code_ : string) : M world unit :=
  publish_event GATEWAY_ROUTE_PUBLISH_FAILED [("module_slug", PStr module_slug); ("error_code", PStr code_)].
(** Status and text for each class of [RoutePublicationError]. *)
Definition publication_failure (code_ : string) : Z * string :=
  if String.eqb code_ "route_preview_required" then (428, "Preview the effective route and send its ETag in If-Match.")
  else if String.eqb code_ "route_preview_etag_invalid" then (400, "If-Match must contain exactly one strong route preview ETag.")
  else if String.eqb code_ "route_preview_stale" then (412, "The effective route changed after preview; preview it again.")
  else if String.eqb code_ "module_disabled" then (409, "The module is disabled and cannot publish a route.")
  else if String.eqb code_ "module_not_production_ready" then (409, "The module is not approved for dynamic production routes.")
  else (400, "The module is unknown or its route is invalid.").

Definition publish_post (request_data : pyval) (if_match : option string) : M world response :=
  match request_data with
  | PDict request =>
      let raw_slug := vget "module_slug" request in
      dry_run ← lift (_is_truthy (dget_or "dry_run" (PBool false) request));
      text ← lift (if truthy raw_slug then py_str raw_slug else Ok "");
      if String.eqb (py_strip text) "" then mret (reply 400 [detail "module_slug is required."])
      else
        match normalize_module_slug raw_slug with
        | Raise (ValueError _) =>
            mret (reply 400 [detail "module_slug must contain only letters, numbers, hyphens or underscores."])
        | Raise e => raise e
        | Ok module_slug =>
            _ ← publish_event GATEWAY_ROUTE_PUBLISH_REQUESTED [("module_slug", PStr module_slug); ("dry_run", PBool dry_run)];
            outcome ← attempt (on_gateway (
              apisix ← lift (new_apisix s);
              if dry_run : bool then publish_route s admin apisix module_slug true None false
              else publish_route s admin apisix module_slug false if_match true));
            match outcome with
            | Ok result =>
                _ ← publish_event GATEWAY_ROUTE_PUBLISH_COMPLETED
                      [("module_slug", PStr module_slug); ("route_id", vget "route_id" result);
                       ("dry_run", dget_or "dry_run" (PBool dry_run) result)];
                e ← lift (item "etag" result);
                etag ← lift (py_str e);
                mret {| status := 201; data := PDict result; extra_headers := [("ETag", etag)] |}
            | Raise (RoutePublicationError _ code_) =>
                _ ← failed_event module_slug code_;
                let '(status, text) := publication_failure code_ in
                mret (reply status [detail text; ("code", PStr code_); ("module_slug", PStr module_slug)])
            | Raise e =>
                _ ← publish_event GATEWAY_ROUTE_PUBLISH_FAILED
                      [("module_slug", PStr module_slug); ("error", PStr (exception_text e))];
                raise e
            end
        end
  | _ => raise (AttributeError "get")
  end.

(** ** Webhooks *)
Definition _github_delivery_cache_key (delivery_id : string) : res string :=
  b ← encode_utf8 delivery_id; Ok ("gateway:github-webhook:" ++ sha256_hex b).

(** [cache.add]: whether the key was absent. *)
Definition cache_add (key : string) : M world bool :=
  fun w => if bool_decide (key ∈ cache w) then (Ok false, w)
           else (Ok true, {| gw := gw w; cache := {[ key ]} ∪ cache w; events := events w |}).
Definition cache_delete (key : string) : M world unit :=
  fun w => (Ok tt, {| gw := gw w; cache := cache w ∖ {[ key ]}; events := events w |}).

Definition webhook_route (module_slug : string) : M world pyval :=
  _ ← publish_event GATEWAY_ROUTE_PUBLISH_REQUESTED [("module_slug", PStr module_slug); ("source", PStr "github_webhook")];
  route_status ← on_error
    (on_gateway (apisix ← lift (new_apisix s); publish_route_unconditionally s admin apisix module_slug))
    (fun e => publish_event GATEWAY_ROUTE_PUBLISH_FAILED
                [("module_slug", PStr module_slug); ("error", PStr (exception_text e))]);
  let skipped := dget_or "skipped" (PBool false) route_status in
  _ ← publish_event GATEWAY_ROUTE_PUBLISH_COMPLETED
        [("module_slug", PStr module_slug); ("route_id", vget "route_id" route_status); ("skipped", skipped)];
  route_id ← lift (item "route_id" route_status);
  mret (PDict [("module_slug", PStr module_slug); ("route", route_id); ("skipped", skipped)]).
Definition _process_webhook (github : GitHubService) (payload : attrs) (event repository : string) : M world response :=
  module_slugs ← lift (module_slugs_for_webhook github payload);
  let slugs := PList (map PStr module_slugs) in
  _ ← publish_event GATEWAY_GITHUB_WEBHOOK_RECEIVED
        [("event", PStr event); ("repository", PStr repository); ("module_slugs", slugs)];
  routes ← mapM_M webhook_route module_slugs;
  mret (reply 202 [("event", PStr event); ("repository", PStr repository); ("module_slugs", slugs); ("routes", PList routes)]).

(** A request: the raw body, what the framework parses from it, and the headers. *)
Record webhook := {
  raw_payload : string;
  signature : option string;
  delivery : string;
  event_name : string
}.
Variable parse : string -> res pyval.

Definition webhook_post (rq : webhook) : M world response :=
  github ← lift (new_github s);
  valid ← lift (verify_signature github (raw_payload rq) (signature rq));
  if negb valid then mret (reply 401 [detail "Invalid GitHub signature."])
  else
    d ← lift (parse (raw_payload rq));
    let payload := match d with PDict payload => payload | _ => [] end in
    let delivery_id := py_strip (delivery rq) in
    if String.eqb delivery_id "" then mret (reply 400 [detail "Missing GitHub delivery id."])
    else
      repository ← lift (repository_full_name payload);
      let event := py_strip (event_name rq) in
      if String.eqb event "" then mret (reply 400 [detail "Missing GitHub event."])
      else
        let allowed_repositories := PList (map PStr (allowed_repository_full_names github)) in
        expected ← lift (is_expected_repository github payload);
        if negb expected then
          mret (reply 202 [("ignored", PBool true); detail "Webhook repository does not match configured repository.";
                           ("repository", PStr repository);
                           ("expected_repository", PStr (expected_repository_full_name github));
                           ("allowed_repositories", allowed_repositories)])
        else
          allowed ← lift (is_allowed_event github repository event);
          if negb allowed then
            allowed_events ← lift (allowed_events_for_repository github repository);
            mret (reply 202 [("ignored", PBool true); detail "Webhook event is not allowed for repository.";
                             ("event", PStr event); ("repository", PStr repository);
                             ("allowed_events", PList (map PStr allowed_events))])
          else
            cache_key ← lift (_github_delivery_cache_key delivery_id);
            fresh ← cache_add cache_key;
            if negb fresh then
              mret (reply 202 [("ignored", PBool true); detail "GitHub webhook delivery was already processed."])
            else on_error (_process_webhook github payload event repository) (fun _ => cache_delete cache_key).
End Views.
