(* ===== verification/GatewaySpec.v ===== *)
(** Properties of the gateway: what a published route may claim and where it may lead, that
    a publication is the one its operator previewed, and who may trigger one. *)

From stdpp Require Import gmap strings sorting.
From S2P Require Import Prelude PyValue Regex Sha256 PyFloat Json PyTime PyText Wire Url Ip Gateway GatewayViews.
#[local] Open Scope list_scope.
#[local] Open Scope string_scope.
#[local] Open Scope Z_scope.

(** ** Paths *)
Definition canonical_path (p : string) : Prop :=
  p = "/" ++ tail p /\ Forall (matches _PUBLIC_PATH_SEGMENT_PATTERN) (py_split "/" (tail p)).
(** The requests a route at [path] receives: the path itself and everything below it. *)
Definition serves (path request : string) : Prop := request = path \/ exists t, request = path ++ "/" ++ t.

Lemma py_split_bytes (sep : ascii) (q : ascii -> bool) (s : string) :
  Forall (fun x => all_bytes q x = true) (py_split sep s) -> all_bytes (fun a => q a || Ascii.eqb a sep) s = true.
Proof.
  induction s as [|a s IH]; [done|]. cbn. destruct (Ascii.eqb a sep) eqn:E.
  - intros [_ H]%Forall_cons. by rewrite orb_true_r, IH.
  - destruct (py_split sep s) as [|p ps]; intros [Ha H]%Forall_cons; cbn in Ha.
    + rewrite andb_true_r in Ha. rewrite Ha. cbn. apply IH. by constructor.
    + apply andb_true_iff in Ha as [Ha Hp]. rewrite Ha. cbn. apply IH. by constructor.
Qed.

Lemma alphanumeric_ascii (a : ascii) : alphanumeric a = true -> is_ascii a = true.
Proof. destruct a as [[] [] [] [] [] [] [] []]; done. Qed.
Lemma segment_ascii (a : ascii) : segment_byte a = true -> is_ascii a = true.
Proof. destruct a as [[] [] [] [] [] [] [] []]; done. Qed.
Lemma segment_bytes (x : string) : matches _PUBLIC_PATH_SEGMENT_PATTERN x -> all_bytes segment_byte x = true.
Proof.
  intros (u & v & -> & Hu & Hv). apply matches_Rep_Cls in Hv as (Hv & _). cbn in Hu. destruct Hu as (a & -> & Ha).
  cbn. rewrite Hv, andb_true_r. revert Ha. by destruct a as [[] [] [] [] [] [] [] []].
Qed.

Definition path_byte (a : ascii) : bool := segment_byte a || Ascii.eqb a "/".
Lemma canonical_bytes (p : string) : canonical_path p -> all_bytes path_byte p = true.
Proof.
  intros [Hp Hs]. rewrite Hp. cbn. apply (py_split_bytes "/" segment_byte).
  eapply Forall_impl; [exact Hs|]. exact segment_bytes.
Qed.
Lemma canonical_ascii (p : string) : canonical_path p -> all_bytes is_ascii p = true.
Proof.
  intros H%canonical_bytes. eapply all_bytes_impl; [|exact H]. intros a. by destruct a as [[] [] [] [] [] [] [] []].
Qed.

Section Paths.
Context `{UnicodeData} `{CaseFold}.

Lemma canonical_fold (p : string) : canonical_path p -> py_casefold p = map_bytes lower_ascii p.
Proof. intros Hp. unfold py_casefold. by rewrite canonical_ascii. Qed.

Lemma validated_public_path_Ok (value : pyval) (p : string) : _validated_public_path value = Ok p -> canonical_path p.
Proof.
  unfold _validated_public_path. intros E. apply bind_Ok in E as (t & Ht & E).
  destruct (negb _ || negb (startswith "/" t)) eqn:E1; [done|]. apply orb_false_iff in E1 as [_ E1].
  apply negb_false_iff, startswith_iff in E1 as (r & ->).
  set (q := if String.eqb ("/" ++ r) "/" then "/" ++ r else rstrip_char "/" ("/" ++ r)) in E. destruct (String.eqb_spec q "/") as [|Hne]; [done|].
  destruct (contains _ q || _ || _); [done|].
  destruct (existsb _ _) eqn:E2; [done|]. injection E as <-.
  assert (Forall (matches _PUBLIC_PATH_SEGMENT_PATTERN) (py_split "/" (tail q))) as Hs.
  { apply Forall_forall. intros x Hx. apply fullmatch_spec. destruct (fullmatch _ x) eqn:Em; [done|].
    rewrite <- not_true_iff_false in E2. destruct E2. apply existsb_exists. exists x.
    split; [by apply list_elem_of_In|]. by rewrite Em, orb_true_r. }
  split; [|done]. subst q. destruct (String.eqb_spec ("/" ++ r) "/") as [|Hr]; [done|].
  destruct (rstrip_prefix "/" ("/" ++ r)) as (u & Hu).
  destruct (rstrip_char "/" ("/" ++ r)) as [|a q]; [|by injection Hu as <- _]. change (py_split "/" (tail "")) with [""] in Hs.
  apply Forall_cons in Hs as [Hm _]. by apply fullmatch_spec in Hm.
Qed.

(** [_paths_overlap] decides whether some request, read without regard to case, belongs to
    both paths. *)
Lemma paths_overlap_iff (p q : string) :
  _paths_overlap p q = true <-> exists r, serves (py_casefold p) r /\ serves (py_casefold q) r.
Proof.
  unfold _paths_overlap. set (l := py_casefold p). set (m := py_casefold q).
  rewrite !orb_true_iff, String.eqb_eq, !startswith_iff. split.
  - intros [[->|(r & Hr)]|(r & Hr)].
    + exists m. split; by left.
    + exists l. split; [by left|]. right. exists r. by rewrite Hr, append_assoc.
    + exists m. split; [|by left]. right. exists r. by rewrite Hr, append_assoc.
  - intros (r & Hl & Hm).
    assert (exists t u, r = l ++ t /\ r = m ++ u /\ (t = "" \/ exists t', t = "/" ++ t') /\ (u = "" \/ exists u', u = "/" ++ u'))
      as (t & u & Hrt & Hru & Ht & Hu).
    { destruct Hl as [->|(t & ->)], Hm as [Hm|(u & Hm)].
      - exists "", "". rewrite !append_nil_r. auto.
      - exists "", ("/" ++ u). rewrite append_nil_r. eauto 10.
      - exists ("/" ++ t), "". rewrite append_nil_r. eauto 10.
      - exists ("/" ++ t), ("/" ++ u). eauto 10. }
    rewrite Hrt in Hru. destruct (prefix_cases l m t u Hru) as [(v & Hv)|(v & Hv)].
    + rewrite Hv, <- append_assoc in Hru. apply append_inj_l in Hru. destruct Ht as [->|(t' & ->)].
      * destruct v; [|done]. left. left. by rewrite Hv, append_nil_r.
      * destruct v as [|a v]; [left; left; by rewrite Hv, append_nil_r|]. injection Hru as <- Hru.
        right. exists v. rewrite Hv. by rewrite <- append_assoc.
    + rewrite Hv, <- append_assoc in Hru. apply append_inj_l in Hru. destruct Hu as [->|(u' & ->)].
      * destruct v; [|done]. left. left. by rewrite Hv, append_nil_r.
      * destruct v as [|a v]; [left; left; by rewrite Hv, append_nil_r|]. injection Hru as -> Hru.
        left. right. exists v. rewrite Hv. by rewrite <- append_assoc.
Qed.

Lemma serves_fold (p r : string) : serves p r -> serves (map_bytes lower_ascii p) (map_bytes lower_ascii r).
Proof.
  intros [->|(t & ->)]; [by left|]. right. exists (map_bytes lower_ascii t). by rewrite !map_bytes_app.
Qed.
(** Paths that do not overlap share no request. *)
Lemma disjoint_requests (p q r : string) :
  canonical_path p -> canonical_path q -> _paths_overlap p q = false -> serves p r -> serves q r -> False.
Proof.
  intros Hp Hq Ho Hpr Hqr. assert (_paths_overlap p q = true) as He; [|congruence].
  apply paths_overlap_iff. exists (map_bytes lower_ascii r). rewrite !canonical_fold by done.
  split; by apply serves_fold.
Qed.
Lemma path_is_within_overlap (p q : string) : _path_is_within p q = true -> _paths_overlap p q = true.
Proof. unfold _path_is_within, _paths_overlap. intros ->. done. Qed.
End Paths.

(** ** What a published route may claim, and where it may lead *)
Definition strict_hostname (host : string) : Prop :=
  Forall (matches _DNS_LABEL_PATTERN) (py_split "." host) /\ is_ip_address host = false /\
  host <> "localhost" /\ endswith ".localhost" host = false /\ py_len host <= 253.

Section Publication.
Context `{UnicodeData} `{CaseFold} `{SlugRules} (s : site).

(** The row a route comes from: enabled, and it names the path and the host. *)
Definition owner_of (mods : list module_row) (slug path host : string) (m : module_row) : Prop :=
  List.find (fun c => String.eqb (row_slug c) slug) mods = Some m /\ row_enabled m = true /\
  _validated_public_path (PStr (row_public_path m)) = Ok path /\
  _validated_dns_hostname (PStr (row_upstream_host m)) "upstream_host" = Ok host /\ is_Some (row_upstream_port m).

Record safe_route (a : ApisixService) (mods : list module_row) (slug path host : string) (port : Z) : Prop := {
  route_slug : validate_slug slug = true /\ py_strip slug = slug;
  route_owner : exists m, owner_of mods slug path host m;
  route_path : canonical_path path;
  route_own_defaults : forall o r, (o, r) ∈ route_defaults a ->
    exists q, item "public_path" r ≫= _validated_public_path = Ok q /\ _paths_overlap path q = false;
  route_other_modules : forall m, m ∈ mods -> row_enabled m = true -> row_slug m <> slug -> row_public_path m <> "" ->
    exists q, _validated_public_path (PStr (row_public_path m)) = Ok q /\ _paths_overlap path q = false;
  route_reserved : forall prefix, prefix ∈ (_SYSTEM_RESERVED_PATH_PREFIXES ++ route_reserved_path_prefixes (config a))%list ->
    exists q, _validated_public_path (PStr prefix) = Ok q /\ _path_is_within path q = false;
  route_host : strict_hostname host;
  route_port : 1 <= port <= 65535;
  route_allowed : DEBUG s = false -> (host ++ ":" ++ py_str_int port) ∈ route_allowed_upstreams (config a);
  route_reviewed : DEBUG s = false ->
    exists manifest, dget slug (module_manifests a) = Some manifest /\ vget "production_ready" manifest = PBool true
}.

Lemma overlap_fold (p q q' : string) : py_casefold q = py_casefold q' -> _paths_overlap p q = _paths_overlap p q'.
Proof. unfold _paths_overlap. by intros ->. Qed.

Lemma check_overlaps_Ok (path : string) (l : list (string * string)) (seen : list string) (u : unit) :
  (forall key, key ∈ seen -> exists q, key = py_casefold q /\ _paths_overlap path q = false) ->
  check_overlaps path seen l = Ok u -> forall q src, (q, src) ∈ l -> _paths_overlap path q = false.
Proof.
  revert seen. induction l as [|[p src] l IH]; intros seen Hseen E q src' Hq; [by apply not_elem_of_nil in Hq|].
  cbn [check_overlaps] in E. destruct (mem (py_casefold p) seen) eqn:Em.
  - apply elem_of_cons in Hq as [[= -> ->]|Hq]; [|by eapply IH].
    apply mem_In, Hseen in Em as (q' & Hk & Ho). by rewrite (overlap_fold path p q').
  - destruct (_paths_overlap path p) eqn:Eo; [done|].
    apply elem_of_cons in Hq as [[= -> ->]|Hq]; [done|]. eapply IH; [|done|done].
    intros key [->|Hk]%elem_of_cons; eauto.
Qed.
Lemma check_reserved_Ok (path : string) (prefixes : list string) (u : unit) :
  check_reserved path prefixes = Ok u -> forall q, q ∈ prefixes -> _path_is_within path q = false.
Proof.
  induction prefixes as [|p l IH]; cbn; [intros _ q []%not_elem_of_nil|].
  destruct (_path_is_within path p) eqn:E; [done|]. intros Hl q [->|Hq]%elem_of_cons; auto.
Qed.

Lemma In_deduplicate (x : string) (l : list string) : x ∈ _deduplicate l <-> x ∈ l.
Proof.
  unfold _deduplicate. assert (forall seen, x ∈ fold_left (fun seen v => if mem v seen then seen else (seen ++ [v])%list) l seen <->
    x ∈ seen \/ x ∈ l) as K.
  { induction l as [|y l IH]; intros seen; cbn; [by rewrite elem_of_nil; intuition|].
    rewrite IH. destruct (mem y seen) eqn:E; [apply mem_In in E|]; set_solver. }
  rewrite K, elem_of_nil. intuition.
Qed.

Lemma Forall2_In_l {A B} (R : A -> B -> Prop) (l : list A) (k : list B) (x : A) :
  Forall2 R l k -> x ∈ l -> exists y, y ∈ k /\ R x y.
Proof.
  intros HR Hx. apply list_elem_of_lookup in Hx as (i & Hi). destruct (Forall2_lookup_l _ _ _ _ _ HR Hi) as (y & Hy & Hxy).
  exists y. split; [by eapply list_elem_of_lookup_2|done].
Qed.

Lemma validate_route_path_Ok (a : ApisixService) (slug path0 path : string) (mods : list module_row) :
  _validate_route_path s a slug path0 mods = Ok path ->
  _validated_public_path (PStr path0) = Ok path /\
  (forall o r, (o, r) ∈ route_defaults a ->
     exists q, item "public_path" r ≫= _validated_public_path = Ok q /\ _paths_overlap path q = false) /\
  (forall m, m ∈ mods -> row_enabled m = true -> row_slug m <> slug -> row_public_path m <> "" ->
     exists q, _validated_public_path (PStr (row_public_path m)) = Ok q /\ _paths_overlap path q = false) /\
  (forall prefix, prefix ∈ (_SYSTEM_RESERVED_PATH_PREFIXES ++ route_reserved_path_prefixes (config a))%list ->
     exists q, _validated_public_path (PStr prefix) = Ok q /\ _path_is_within path q = false).
Proof.
  unfold _validate_route_path, protected_paths, _reserved_path_prefixes. intros E.
  apply bind_Ok in E as (p & Hp & E). apply bind_Ok in E as (l & Hl & E). apply bind_Ok in E as (u & Hu & E).
  apply bind_Ok in E as (pre & Hpre & E). apply bind_Ok in E as (u' & Hu' & E). injection E as <-.
  apply bind_Ok in Hl as (defs & Hdefs & Hl). apply bind_Ok in Hl as (others & Hothers & Hl). injection Hl as <-.
  apply mapM_res_Ok in Hdefs, Hothers.
  assert (forall q src, (q, src) ∈ (defs ++ others)%list -> _paths_overlap p q = false) as Hclear.
  { eapply check_overlaps_Ok; [|exact Hu]. intros key []%not_elem_of_nil. }
  split; [done|]. split; [|split].
  - intros o r Hor. destruct (Forall2_In_l _ _ _ _ Hdefs Hor) as ([q src] & Hq & Hval). cbn in Hval.
    apply bind_Ok in Hval as (v & Hv & Hval). apply bind_Ok in Hval as (q' & Hq' & Hval). injection Hval as -> _.
    exists q. rewrite Hv. cbn. split; [done|]. apply (Hclear q src), elem_of_app. by left.
  - intros m Hm Hen Hne Hpath.
    assert (m ∈ List.filter (fun other => row_enabled other && negb (String.eqb (row_slug other) slug) &&
                               negb (String.eqb (row_public_path other) "")) mods) as Hf.
    { apply list_elem_of_In, filter_In. split; [by apply list_elem_of_In|].
      apply String.eqb_neq in Hne, Hpath. by rewrite Hen, Hne, Hpath. }
    destruct (Forall2_In_l _ _ _ _ Hothers Hf) as ([q src] & Hq & Hval). cbn beta in Hval.
    apply bind_Ok in Hval as (q' & Hq' & Hval). injection Hval as -> _.
    exists q. split; [done|]. apply (Hclear q src), elem_of_app. by right.
  - intros prefix Hin. destruct (mapM_res _ _) as [vs|] eqn:Evs in Hpre; [|done]. injection Hpre as <-.
    apply mapM_res_Ok in Evs. rewrite app_assoc in Evs.
    destruct (Forall2_In_l _ _ _ prefix Evs) as (q & Hq & Hval); [by apply elem_of_app; left|].
    exists q. split; [done|]. eapply check_reserved_Ok; [done|]. by apply In_deduplicate.
Qed.

Lemma validated_hostname_Ok (value : pyval) (label host : string) :
  _validated_dns_hostname value label = Ok host -> strict_hostname host.
Proof.
  unfold _validated_dns_hostname. intros E. apply bind_Ok in E as (raw & Hraw & E).
  destruct (negb _ || _ || _) eqn:E1; [done|]. destruct (endswith "." _ || _ || _) eqn:E2; [done|].
  destruct (is_ip_address _) eqn:E3; [done|]. destruct (py_isdigit _); [done|].
  destruct (existsb _ _) eqn:E4; [done|]. injection E as <-.
  apply orb_false_iff in E1 as [_ E1%Z.ltb_ge]. apply orb_false_iff in E2 as [[_ E2%String.eqb_neq]%orb_false_iff E2'].
  split; [|done]. apply Forall_forall. intros x Hx. apply fullmatch_spec. destruct (fullmatch _ x) eqn:Em; [done|].
  rewrite <- not_true_iff_false in E4. destruct E4. apply existsb_exists. exists x.
  split; [by apply list_elem_of_In|]. by rewrite Em.
Qed.
Lemma validated_port_Ok (value : pyval) (port : Z) : _validated_upstream_port value = Ok port -> 1 <= port <= 65535.
Proof.
  unfold _validated_upstream_port. destruct value; try done;
    (destruct (int_of _) as [n|[]]; try done; destruct ((_ <? 1) || _) eqn:E; try done; intros [= <-]; lia).
Qed.

Lemma allowed_upstream_Ok (l l' : list (string * Z)) (t : string) :
  allowed_upstream l t = Ok l' -> exists host port, host ++ ":" ++ py_str_int port = t /\ l' = (l ++ [(host, port)])%list.
Proof.
  unfold allowed_upstream. destruct (Url.rpartition _ t) as [[h0 p0]|]; [|done]. destruct (_ || _ || _); [done|]. intros E.
  apply bind_Ok in E as (host & _ & E). apply bind_Ok in E as (port & _ & E).
  destruct (negb _) eqn:Et; [done|]. apply negb_false_iff, String.eqb_eq in Et.
  case_bool_decide; [done|]. injection E as <-. eauto.
Qed.
(** The exact allowlist holds the pairs of the configured texts, one for each. *)
Lemma allowed_upstream_texts (texts : list string) (l l' : list (string * Z)) :
  foldM_res allowed_upstream l texts = Ok l' ->
  exists new, l' = (l ++ new)%list /\ map (fun hp => hp.1 ++ ":" ++ py_str_int hp.2) new = texts.
Proof.
  revert l. induction texts as [|t texts IH]; intros l E; cbn [foldM_res] in E.
  - injection E as <-. exists []. by rewrite app_nil_r.
  - apply bind_Ok in E as (l1 & E1 & E). apply allowed_upstream_Ok in E1 as (h & p & <- & ->).
    destruct (IH _ E) as (new & -> & <-). exists ((h, p) :: new). by rewrite <- app_assoc.
Qed.

Lemma validate_upstream_Ok (a : ApisixService) (h p : pyval) (host : string) (port : Z) :
  _validate_upstream s a h p = Ok (host, port) ->
  _validated_dns_hostname h "upstream_host" = Ok host /\ 1 <= port <= 65535 /\
  (DEBUG s = false -> (host ++ ":" ++ py_str_int port) ∈ route_allowed_upstreams (config a)).
Proof.
  unfold _validate_upstream. intros E. apply bind_Ok in E as (host' & Hh & E). apply bind_Ok in E as (port' & Hp & E).
  apply bind_Ok in E as ([[[hosts suffixes] ports] pairs] & Hpol & E).
  destruct (negb (_ || _)); [done|]. destruct (negb _); [done|].
  destruct (negb (bool_decide (pairs = [])) && _) eqn:Epair; [done|]. injection E as -> ->.
  split; [done|]. split; [by eapply validated_port_Ok|]. intros Hd.
  unfold _upstream_policy in Hpol. rewrite Hd in Hpol. cbn [negb andb] in Hpol.
  apply bind_Ok in Hpol as (u & Hr & Hpol). apply raise_if_Ok in Hr.
  apply orb_false_iff in Hr as [_ Hr]. apply bool_decide_eq_false in Hr.
  apply bind_Ok in Hpol as ([hs dp] & _ & Hpol). apply bind_Ok in Hpol as (sx & _ & Hpol).
  apply bind_Ok in Hpol as (ps & _ & Hpol). apply bind_Ok in Hpol as (prs & Hprs & Hpol).
  injection Hpol as <- <- <- <-.
  apply allowed_upstream_texts in Hprs as (new & -> & Htexts). cbn [app] in Epair. rewrite <- Htexts in Hr |- *.
  apply andb_false_iff in Epair as [He|He]; apply negb_false_iff, bool_decide_eq_true in He; [by subst new|].
  apply (list_elem_of_fmap_2 (fun hp : string * Z => hp.1 ++ ":" ++ py_str_int hp.2)) in He. exact He.
Qed.

Definition planned (slug path host : string) (port : Z) : attrs :=
  let route_id := _route_id_for_module slug in
  [("route_id", PStr route_id); ("skipped", PBool false); ("payload", PDict (route_payload s route_id path host port))].

Lemma normalize_slug_Ok (value : pyval) (slug : string) :
  normalize_module_slug value = Ok slug -> validate_slug slug = true /\ py_strip slug = slug.
Proof.
  unfold normalize_module_slug. intros E. apply bind_Ok in E as (t & _ & E).
  destruct (validate_slug _) eqn:Ev; [injection E as <-|done]. by rewrite py_strip_idem.
Qed.
(** A route comes from an enabled row, or from a bootstrap route of a module without a row. *)
Lemma effective_route_cases (a : ApisixService) (slug path host : string) (port : Z) (mods : list module_row) :
  effective_route a slug mods = Ok (Some (path, host, port)) ->
  (exists m, List.find (fun c => String.eqb (row_slug c) slug) mods = Some m /\ row_enabled m = true /\
     path = row_public_path m /\ host = row_upstream_host m /\ is_Some (row_upstream_port m)) \/
  (exists r, dget slug (route_defaults a) = Some r /\ (r = [] \/ item "public_path" r ≫= py_str = Ok path)).
Proof.
  unfold effective_route. intros E. apply bind_Ok in E as ([[p h] n] & Hd & E).
  destruct (List.find _ mods) as [m|].
  - left. exists m. split; [done|]. destruct (row_enabled m); [|done]. split; [done|].
    destruct (row_upstream_port m) as [k|]; [|done]. cbn in E.
    destruct (String.eqb (row_public_path m) "" || String.eqb (row_upstream_host m) "") eqn:Em; [done|].
    apply orb_false_iff in Em as [Ep Eh]. unfold or_text in E. rewrite Ep, Eh in E. injection E as <- <- _. eauto.
  - right. destruct (dget slug (route_defaults a)) as [r|]; [|by destruct (mem _ _)].
    exists r. split; [done|]. injection E as -> -> ->. destruct r as [|x r]; [by left|right].
    apply bind_Ok in Hd as (v & Hv & Hd). apply bind_Ok in Hd as (t & Ht & Hd).
    apply bind_Ok in Hd as (v2 & _ & Hd). apply bind_Ok in Hd as (t2 & _ & Hd). apply bind_Ok in Hd as (v3 & _ & Hd).
    apply bind_Ok in Hd as (k & _ & Hd). injection Hd as <- _ _. rewrite Hv. exact Ht.
Qed.
Lemma paths_overlap_refl (p : string) : _paths_overlap p p = true.
Proof. unfold _paths_overlap. by rewrite String.eqb_refl. Qed.
Lemma public_path_text (v : pyval) (t p : string) :
  py_str v = Ok t -> _validated_public_path (PStr t) = Ok p -> _validated_public_path v = Ok p.
Proof. unfold _validated_public_path. by intros ->. Qed.
Lemma build_route_plan_Ok (a : ApisixService) (slug0 : string) (mods : list module_row) (plan : attrs) :
  _build_route_plan s a slug0 mods = Ok plan ->
  exists slug, normalize_module_slug (PStr slug0) = Ok slug /\
  (plan = _skip_without_public_upstream (_route_id_for_module slug) \/
   exists path host port, plan = planned slug path host port /\ safe_route a mods slug path host port).
Proof.
  unfold _build_route_plan. intros E. apply bind_Ok in E as (slug & Hs & E). exists slug. split; [done|].
  apply bind_Ok in E as (r & Hr & E). destruct r as [[[p0 h0] n0]|]; [|left; congruence]. right.
  apply bind_Ok in E as (path & Hpath & E). apply bind_Ok in E as (u & Hu & E).
  apply bind_Ok in E as ([host port] & Hup & E). injection E as <-. exists path, host, port. split; [done|].
  apply validate_route_path_Ok in Hpath as (Hval & Hdefs & ? & ?). apply validate_upstream_Ok in Hup as (? & ? & ?).
  split; try done.
  - by eapply normalize_slug_Ok.
  - apply effective_route_cases in Hr as [(m & Hm & Hen & -> & -> & Hport)|(r & Hr & Hp0)].
    + exists m. do 4 (split; [done|]). done.
    + destruct (Hdefs slug r (dget_Some_In _ _ _ Hr)) as (q & Hq & Ho). destruct Hp0 as [->|Hp0]; [done|].
      apply bind_Ok in Hp0 as (v & Hv & Ht). rewrite Hv in Hq.
      assert (q = path) as -> by (apply (public_path_text v p0) in Hval; [cbn in Hq; congruence|done]).
      by rewrite paths_overlap_refl in Ho.
  - by eapply validated_public_path_Ok.
  - by eapply validated_hostname_Ok.
  - intros Hd. unfold _validate_production_readiness in Hu. rewrite Hd in Hu. apply raise_if_Ok in Hu.
    destruct (dget slug (module_manifests a)) as [manifest|]; [|done]. exists manifest. split; [done|].
    apply negb_false_iff in Hu. unfold is_true in Hu. by destruct (vget "production_ready" manifest) as [|[]| | | | |].
Qed.

(** The request that publishes a plan. *)
Definition put_of (a : ApisixService) (slug path host : string) (port : Z) : put :=
  {| put_url := admin_url (config a) ++ "/apisix/admin/routes/" ++ quote (_route_id_for_module slug);
     put_headers := [("X-API-KEY", admin_key (config a))];
     put_json := PDict (route_payload s (_route_id_for_module slug) path host port) |}.
Definition safe_put (a : ApisixService) (mods : list module_row) (p : put) : Prop :=
  exists slug path host port, p = put_of a slug path host port /\ safe_route a mods slug path host port.

Variable admin : put -> res (Z * string).
Definition etag_of (plan : attrs) (e : string) : Prop := _route_plan_etag plan = Ok e.

(** A publication sends nothing, or the plan it computed once, under its etag. *)
Lemma publish_route_locked_puts (a : ApisixService) (slug0 : string) (dry_run : bool) (preview : option string)
    (g g' : gateway) (r : res attrs) :
  _publish_route_locked s admin a slug0 dry_run preview g = (r, g') ->
  modules g' = modules g /\
  (puts g' = puts g \/
   dry_run = false /\
   exists slug path host port e,
     normalize_module_slug (PStr slug0) = Ok slug /\ safe_route a (modules g) slug path host port /\
     puts g' = (puts g ++ [put_of a slug path host port])%list /\
     _build_route_plan s a slug0 (modules g) = Ok (planned slug path host port) /\
     etag_of (planned slug path host port) e /\ (preview = None \/ preview = Some e)).
Proof.
  unfold _publish_route_locked. intros E.
  destruct (_build_route_plan s a slug0 (modules g)) as [plan|x] eqn:Eplan; [|by injection E as <- <-; auto].
  rewrite (M_bind_run _ _ g plan g) in E by done. unfold etag_of in *.
  destruct (_route_plan_etag plan) as [e|x] eqn:Ee; [|by injection E as <- <-; auto].
  rewrite (M_bind_run _ _ g e g) in E by done.
  destruct (match preview with Some p => String.eqb p e | None => true end) eqn:Epre.
  2: { destruct preview as [p|]; [|done]. unfold mbind, M_bind, lift in E. cbn in E. rewrite Epre in E.
       injection E as <- <-. auto. }
  rewrite (M_bind_run _ _ g tt g) in E.
  2: { destruct preview as [p|]; [|done]. unfold lift. by rewrite Epre. }
  destruct (dry_run || truthy (dget_or "skipped" (PBool false) plan)) eqn:Eskip.
  { injection E as <- <-. auto. }
  apply orb_false_iff in Eskip as [-> Eskip].
  destruct (build_route_plan_Ok _ _ _ _ Eplan) as (slug & Hslug & [->|(path & host & port & -> & Hsafe)]); [done|].
  rewrite (M_bind_run _ _ g (PStr (_route_id_for_module slug)) g) in E by done.
  rewrite (M_bind_run _ _ g (_route_id_for_module slug) g) in E by done.
  rewrite (M_bind_run _ _ g (PDict (route_payload s (_route_id_for_module slug) path host port)) g) in E by done.
  assert (g' = {| modules := modules g; puts := (puts g ++ [put_of a slug path host port])%list |}) as ->.
  { revert E. unfold mbind, M_bind, http_put, lift. fold (put_of a slug path host port).
    destruct (admin _) as [[st b]|x]; [|by intros [= _ <-]].
    destruct (raise_if _ _); [|by intros [= _ <-]]. destruct (json_load _); by intros [= _ <-]. }
  cbn. split; [done|]. right. split; [done|]. exists slug, path, host, port, e. split_and!; try done.
  destruct preview as [p|]; [right|by left]. by apply String.eqb_eq in Epre as ->.
Qed.

Lemma publish_route_puts (a : ApisixService) (slug0 : string) (dry_run : bool) (im : option string) (rp : bool)
    (g g' : gateway) (r : res attrs) :
  publish_route s admin a slug0 dry_run im rp g = (r, g') ->
  modules g' = modules g /\
  exists l, puts g' = (puts g ++ l)%list /\ Forall (safe_put a (modules g)) l.
Proof.
  intros E. assert (exists preview, _publish_route_locked s admin a slug0 dry_run preview g = (r, g') \/ g' = g) as (preview & K).
  { unfold publish_route in E. destruct (rp && negb dry_run); [|by exists None; left].
    destruct (_validated_route_preview_etag im) as [e|x].
    - exists (Some e). by rewrite (M_bind_run _ _ g e g) in E by done; left.
    - exists None. injection E as _ <-. by right. }
  destruct K as [K| ->]; [|split; [done|]; exists []; by rewrite app_nil_r].
  apply publish_route_locked_puts in K as (Hm & [Hp|(_ & slug & path & host & port & e & _ & Hs & Hp & _)]).
  - split; [done|]. exists []. by rewrite app_nil_r.
  - split; [done|]. exists [put_of a slug path host port]. split; [done|]. apply Forall_singleton. by exists slug, path, host, port.
Qed.

(** *** Effects of the handlers *)
Definition sent_safely (mods : list module_row) (p : put) : Prop := exists a, new_apisix s = Ok a /\ safe_put a mods p.
Definition extends (w w' : world) : Prop :=
  modules (gw w') = modules (gw w) /\ cache w' = cache w /\
  exists l, puts (gw w') = (puts (gw w) ++ l)%list /\ Forall (sent_safely (modules (gw w))) l.
Definition careful {A} (m : M world A) : Prop := forall w r w', m w = (r, w') -> extends w w'.

Lemma extends_refl (w : world) : extends w w.
Proof. do 2 split; [done|]. exists []. by rewrite app_nil_r. Qed.
Lemma extends_trans (w w1 w2 : world) : extends w w1 -> extends w1 w2 -> extends w w2.
Proof.
  intros (Hm & Hc & l & Hl & Hs) (Hm1 & Hc1 & l1 & Hl1 & Hs1). do 2 (split; [congruence|]).
  exists (l ++ l1)%list. rewrite Hl1, Hl, app_assoc. split; [done|]. apply Forall_app. rewrite Hm in Hs1. done.
Qed.
Lemma careful_bind {A B} (m : M world A) (f : A -> M world B) : careful m -> (forall a, careful (f a)) -> careful (m ≫= f).
Proof.
  intros Hm Hf w r w' E. unfold mbind, M_bind in E. destruct (m w) as [[a|e] w1] eqn:Em.
  - eapply extends_trans; [by eapply Hm|by eapply Hf].
  - injection E as <- <-. by eapply Hm.
Qed.
Lemma careful_lift {A} (r : res A) : careful (lift r).
Proof. unfold lift. intros w r' w' [= _ <-]. apply extends_refl. Qed.
Lemma careful_ret {A} (a : A) : careful (mret a).
Proof. unfold mret, M_ret. intros w r' w' [= _ <-]. apply extends_refl. Qed.
Lemma careful_raise {A} (e : pyexn) : careful (A:=A) (raise e).
Proof. unfold raise. intros w r' w' [= _ <-]. apply extends_refl. Qed.
Lemma careful_attempt {A} (m : M world A) : careful m -> careful (attempt m).
Proof. intros Hm w r w' E. unfold attempt in E. destruct (m w) as [q w1] eqn:Em. injection E as _ <-. by eapply Hm. Qed.
Lemma careful_on_error {A} (m : M world A) (h : pyexn -> M world unit) :
  careful m -> (forall e, careful (h e)) -> careful (on_error m h).
Proof.
  intros Hm Hh w r w' E. unfold on_error in E. destruct (m w) as [[a|e] w1] eqn:Em; [injection E as <- <-; by eapply Hm|].
  eapply extends_trans; [by eapply Hm|]. eapply careful_bind; [apply Hh|intros; apply careful_raise|exact E].
Qed.
Lemma careful_mapM {A B} (f : A -> M world B) (l : list A) : (forall x, careful (f x)) -> careful (mapM_M f l).
Proof.
  intros Hf. induction l as [|x l IH]; [apply careful_ret|].
  apply careful_bind; [apply Hf|]. intros y. apply careful_bind; [apply IH|]. intros ys. apply careful_ret.
Qed.
Lemma careful_event (bus : string -> attrs -> res unit) (k : string) (d : attrs) : careful (publish_event bus k d).
Proof. unfold publish_event. intros w r w' [= _ <-]. do 2 split; [done|]. exists []. by rewrite app_nil_r. Qed.
Lemma careful_publish (slug0 : string) (dry_run : bool) (im : option string) (rp : bool) :
  careful (on_gateway (apisix ← lift (new_apisix s); publish_route s admin apisix slug0 dry_run im rp)).
Proof.
  intros w r w' E. unfold on_gateway, mbind, M_bind, lift in E. destruct (new_apisix s) as [a|e] eqn:Ea.
  - destruct (publish_route s admin a slug0 dry_run im rp (gw w)) as [q g] eqn:Ep. injection E as _ <-.
    apply publish_route_puts in Ep as (Hm & l & Hl & Hs). do 2 (split; [done|]). exists l. split; [done|].
    eapply Forall_impl; [exact Hs|]. intros p Hp. by exists a.
  - injection E as _ <-. destruct w. apply extends_refl.
Qed.

Variable bus : string -> attrs -> res unit.
Variable gettext : string -> string.
Variable exception_text : pyexn -> string.
Variable parse : string -> res pyval.

Lemma careful_webhook_route (slug0 : string) : careful (webhook_route s admin bus exception_text slug0).
Proof.
  unfold webhook_route, publish_route_unconditionally.
  apply careful_bind; [apply careful_event|intros _].
  apply careful_bind; [apply careful_on_error; [apply careful_publish|intros; apply careful_event]|intros status].
  apply careful_bind; [apply careful_event|intros _].
  apply careful_bind; [apply careful_lift|intros; apply careful_ret].
Qed.
Lemma careful_process (g : GitHubService) (payload : attrs) (event repository : string) :
  careful (_process_webhook s admin bus exception_text g payload event repository).
Proof.
  unfold _process_webhook. apply careful_bind; [apply careful_lift|intros slugs].
  apply careful_bind; [apply careful_event|intros _].
  apply careful_bind; [apply careful_mapM, careful_webhook_route|intros; apply careful_ret].
Qed.
Lemma careful_publish_post (data : pyval) (im : option string) :
  careful (publish_post s admin bus gettext exception_text data im).
Proof.
  unfold publish_post. destruct data as [| | | | | |d]; try apply careful_raise.
  apply careful_bind; [apply careful_lift|intros dry_run]. apply careful_bind; [apply careful_lift|intros text].
  destruct (String.eqb _ ""); [apply careful_ret|].
  destruct (normalize_module_slug _) as [slug|[]]; try apply careful_ret; try apply careful_raise.
  apply careful_bind; [apply careful_event|intros _]. apply careful_bind.
  - apply careful_attempt. destruct dry_run; apply careful_publish.
  - intros [result|e].
    + apply careful_bind; [apply careful_event|intros _]. apply careful_bind; [apply careful_lift|intros e].
      apply careful_bind; [apply careful_lift|intros etag]. apply careful_ret.
    + destruct e; (apply careful_bind; [apply careful_event|intros _]); try apply careful_raise.
      destruct (publication_failure _); apply careful_ret.
Qed.

(** A webhook that gets as far as being processed. *)
Definition accepted (rq : webhook) (key : string) (w : world) : Prop :=
  exists (secret : string),
    encode_utf8 (webhook_secret (GITHUB s)) = Ok secret /\
    signature rq = Some ("sha256=" ++ hmac_sha256 secret (raw_payload rq)) /\
    _github_delivery_cache_key (py_strip (delivery rq)) = Ok key /\ key ∉ cache w.

Lemma new_github_config (g : GitHubService) : new_github s = Ok g -> github_config g = GITHUB s.
Proof.
  unfold new_github. intros E. apply bind_Ok in E as (m & _ & E). apply bind_Ok in E as (b & _ & E). by injection E as <-.
Qed.
Lemma compare_digest_true (a b : string) : compare_digest a b = Ok true -> b = a.
Proof. unfold compare_digest. destruct (_ && _); [|done]. intros [= E]. by apply String.eqb_eq in E. Qed.
Lemma verify_signature_true (g : GitHubService) (raw : string) (sg : option string) :
  verify_signature g raw sg = Ok true ->
  exists secret, encode_utf8 (webhook_secret (github_config g)) = Ok secret /\ sg = Some ("sha256=" ++ hmac_sha256 secret raw).
Proof.
  unfold verify_signature. destruct sg as [[|c sg]|]; [done| |done]. intros E. apply bind_Ok in E as (secret & Hk & E).
  exists secret. split; [done|]. by apply compare_digest_true in E as ->.
Qed.

(** What a webhook does to the world: nothing, unless it is signed, fresh, and for an allowed
    repository and event; then it reserves its delivery id and is processed, and gives the id
    back when processing raises. *)
Lemma webhook_post_cases (rq : webhook) (w w' : world) (r : res response) :
  webhook_post s admin bus gettext exception_text parse rq w = (r, w') ->
  w' = w \/
  exists key w1, accepted rq key w /\ extends {| gw := gw w; cache := {[ key ]} ∪ cache w; events := events w |} w1 /\
    match r with
    | Ok _ => w' = w1
    | Raise _ => w' = {| gw := gw w1; cache := cache w1 ∖ {[ key ]}; events := events w1 |}
    end.
Proof.
  unfold webhook_post. intros E.
  destruct (new_github s) as [g|x] eqn:Eg; [|by left; injection E as _ <-].
  rewrite (M_bind_run _ _ w g w) in E by done.
  destruct (verify_signature g (raw_payload rq) (signature rq)) as [v|x] eqn:Ev; [|by left; injection E as _ <-].
  rewrite (M_bind_run _ _ w v w) in E by done.
  destruct v; [|by left; injection E as _ <-]. cbn [negb] in E.
  destruct (parse (raw_payload rq)) as [d|x]; [|by left; injection E as _ <-].
  rewrite (M_bind_run _ _ w d w) in E by done.
  set (payload := match d with PDict payload => payload | _ => [] end) in E. clearbody payload.
  destruct (String.eqb (py_strip (delivery rq)) ""); [by left; injection E as _ <-|].
  destruct (repository_full_name payload) as [repo|x]; [|by left; injection E as _ <-].
  rewrite (M_bind_run _ _ w repo w) in E by done.
  destruct (String.eqb (py_strip (event_name rq)) ""); [by left; injection E as _ <-|].
  destruct (is_expected_repository g payload) as [ex|x]; [|by left; injection E as _ <-].
  rewrite (M_bind_run _ _ w ex w) in E by done.
  destruct ex; [|by left; injection E as _ <-]. cbn [negb] in E.
  destruct (is_allowed_event g repo (py_strip (event_name rq))) as [al|x]; [|by left; injection E as _ <-].
  rewrite (M_bind_run _ _ w al w) in E by done. destruct al; cbn [negb] in E.
  2: { destruct (allowed_events_for_repository g repo) as [l|x]; left; by injection E as _ <-. }
  destruct (_github_delivery_cache_key (py_strip (delivery rq))) as [key|x] eqn:Ekey; [|by left; injection E as _ <-].
  rewrite (M_bind_run _ _ w key w) in E by done.
  destruct (decide (key ∈ cache w)) as [Hin|Hin].
  { rewrite (M_bind_run _ _ w false w) in E by (unfold cache_add; by rewrite bool_decide_true by done). left. by injection E as _ <-. }
  set (w0 := {| gw := gw w; cache := {[ key ]} ∪ cache w; events := events w |}) in *.
  rewrite (M_bind_run _ _ w true w0) in E by (unfold cache_add; by rewrite bool_decide_false by done).
  cbn [negb] in E. unfold on_error in E.
  destruct (_process_webhook _ _ _ _ _ _ _ _ w0) as [q w1] eqn:Ep. pose proof (careful_process _ _ _ _ _ _ _ Ep) as Hext.
  right. exists key, w1. split.
  { apply verify_signature_true in Ev as (secret & Hs & Hsig). rewrite (new_github_config g) in Hs by done. by exists secret. }
  split; [done|]. destruct q as [resp|e].
  - by injection E as <- <-.
  - unfold mbind, M_bind, cache_delete, raise in E. by injection E as <- <-.
Qed.
(** Whatever is asked for, only safe requests are sent. *)
Lemma requests_sent_safely (w w' : world) (r : res response) :
  (exists data if_match, publish_post s admin bus gettext exception_text data if_match w = (r, w')) \/
  (exists rq, webhook_post s admin bus gettext exception_text parse rq w = (r, w')) ->
  exists l, puts (gw w') = (puts (gw w) ++ l)%list /\ Forall (sent_safely (modules (gw w))) l.
Proof.
  intros [(data & im & E)|(rq & E)].
  - by apply careful_publish_post in E as (_ & _ & Hl).
  - apply webhook_post_cases in E as [->|(key & w1 & _ & (_ & _ & Hl) & E)].
    + exists []. by rewrite app_nil_r.
    + destruct Hl as (l & Hl). exists l. by destruct r; subst w'.
Qed.
End Publication.

Section Claims.
Context `{UnicodeData} `{CaseFold} `{SlugRules} (s : site).
Variable admin : put -> res (Z * string).
Variable bus : string -> attrs -> res unit.
Variable gettext : string -> string.
Variable exception_text : pyexn -> string.
Variable parse : string -> res pyval.



Lemma canonical_etag (plan : attrs) (e : string) :
  _route_plan_etag plan = Ok e -> exists route_id text,
    dget "route_id" plan = Some route_id /\
    text = dumps_sorted (PDict [("payload", vget "payload" plan); ("route_id", route_id);
             ("skipped", PBool (truthy (dget_or "skipped" (PBool false) plan)))]) /\
    e = (bytes [34] ++ "sha256-" ++ sha256_hex text ++ bytes [34])%string.
Proof.
  unfold _route_plan_etag, item. destruct (dget "route_id" plan) as [route_id|]; [|done]. intros E.
  apply bind_Ok in E as (i & [= <-] & E). apply bind_Ok in E as (b & Hb & E). injection E as <-.
  unfold encode_utf8 in Hb. destruct (has_surrogate _); [done|]. injection Hb as <-. eauto.
Qed.
Lemma quoted_inj (a b : string) : String.length a = String.length b ->
  (bytes [34] ++ "sha256-" ++ a ++ bytes [34])%string = (bytes [34] ++ "sha256-" ++ b ++ bytes [34])%string -> a = b.
Proof.
  intros Hl E. apply append_inj_l, append_inj_l in E. revert b Hl E. induction a as [|x a IH]; intros [|y b]; try done.
  cbn. intros [= Hl] [= -> E]. f_equal. auto.
Qed.
(** Plans under one etag have the same payload and route id, unless SHA-256 collides. *)
Lemma same_etag (plan plan' : attrs) (e : string) :
  json_ok (vget "payload" plan) -> json_ok (vget "payload" plan') ->
  (forall i, dget "route_id" plan = Some i -> exists t, i = PStr t) ->
  (forall i, dget "route_id" plan' = Some i -> exists t, i = PStr t) ->
  _route_plan_etag plan = Ok e -> _route_plan_etag plan' = Ok e ->
  (sort_keys (vget "payload" plan) = sort_keys (vget "payload" plan') /\ vget "route_id" plan = vget "route_id" plan') \/
  (exists x y, x <> y /\ sha256_hex x = sha256_hex y).
Proof.
  intros Hok Hok' Hid Hid' E E'. apply canonical_etag in E as (i & x & Hi & Hx & ->).
  apply canonical_etag in E' as (i' & y & Hi' & Hy & E'). apply quoted_inj in E'; [|by rewrite !sha256_hex_length].
  destruct (decide (x = y)) as [Heq|Hne]; [left|right; by exists x, y].
  destruct (Hid _ Hi) as (t & ->), (Hid' _ Hi') as (t' & ->).
  assert (forall p b u, json_ok p -> json_ok (PDict [("payload", p); ("route_id", PStr u); ("skipped", PBool b)])) as Kok.
  { intros p b u Hp. constructor; [by apply nodupb_NoDup|]. repeat constructor; done. }
  rewrite Hx, Hy in Heq. apply dumps_sorted_inj in Heq; [|by apply Kok|by apply Kok]. cbn in Heq.
  injection Heq as Hp Hr _. split; [done|]. unfold vget, dget_or. by rewrite Hi, Hi', Hr.
Qed.

Lemma planned_json_ok (slug path host : string) (port : Z) : json_ok (PDict (route_payload s (_route_id_for_module slug) path host port)).
Proof.
  apply json_okb_ok. unfold route_payload, route_plugins. destruct (DEBUG s); [done|].
  by destruct (mem host _OIDC_INTROSPECTING_UPSTREAM_HOSTS).
Qed.
Lemma plan_json_ok (a : ApisixService) (slug : string) (mods : list module_row) (plan : attrs) :
  _build_route_plan s a slug mods = Ok plan ->
  json_ok (vget "payload" plan) /\ (forall i, dget "route_id" plan = Some i -> exists t, i = PStr t).
Proof.
  intros E. apply build_route_plan_Ok in E as (sl & _ & [->|(path & host & port & -> & _)]).
  - split; [constructor|]. intros i [= <-]. eauto.
  - split; [apply planned_json_ok|]. intros i [= <-]. eauto.
Qed.

(** C14: an operator publishes what the preview showed.  When a publication is given the etag
    of a preview in If-Match, the only route it may send is the one previewed: the same JSON
    payload, up to the order of keys, under the same route id.  Otherwise nothing is sent,
    unless the two plans are a collision of SHA-256.  The catalogue may have changed in
    between in any way. *)
Theorem previewed_is_published (a a' : ApisixService) (slug slug' : string) (im if_match e : string)
    (g0 g0' g g' : gateway) (preview : attrs) (r : res attrs) :
  publish_route s admin a slug true (Some im) false g0 = (Ok preview, g0') -> vget "etag" preview = PStr e ->
  py_strip if_match = e ->
  publish_route s admin a' slug' false (Some if_match) true g = (r, g') ->
  puts g' = puts g \/
  (exists x y, x <> y /\ sha256_hex x = sha256_hex y) \/
  exists p id, puts g' = (puts g ++ [p])%list /\ vget "route_id" preview = PStr id /\
    put_url p = admin_url (config a') ++ "/apisix/admin/routes/" ++ quote id /\
    sort_keys (put_json p) = sort_keys (vget "payload" preview).
Proof.
  intros E0 He Him E. cbn [publish_route andb negb] in E0, E. unfold publish_route in E0, E. cbn [andb negb] in E0, E.
  unfold _publish_route_locked in E0.
  destruct (_build_route_plan s a slug (modules g0)) as [plan|x] eqn:Eplan; [|done].
  rewrite (M_bind_run _ _ g0 plan g0) in E0 by done. destruct (_route_plan_etag plan) as [e0|x] eqn:Ee; [|done].
  rewrite (M_bind_run _ _ g0 e0 g0) in E0 by done. rewrite (M_bind_run _ _ g0 tt g0) in E0 by done.
  cbn [orb] in E0. injection E0 as <- <-.
  assert (e0 = e) as -> by (unfold publication, vget, dget_or in He; rewrite !dget_dset in He; cbn in He; congruence).
  destruct (_validated_route_preview_etag (Some if_match)) as [e1|x] eqn:Ev; [|left; by injection E as _ <-].
  assert (e1 = e) as ->.
  { unfold _validated_route_preview_etag in Ev. rewrite Him in Ev. destruct (String.eqb e ""); [done|].
    destruct (negb _); [done|]. by injection Ev. }
  rewrite (M_bind_run _ _ g e g) in E by done.
  apply publish_route_locked_puts in E as (_ & [->|(_ & sl & path & host & port & e2 & _ & _ & Hput & Hplan & Hetag & Hpre)]); [by left|].
  right. destruct Hpre as [|[= <-]]; [done|].
  destruct (plan_json_ok _ _ _ _ Eplan) as (Hj & Hi). destruct (plan_json_ok _ _ _ _ Hplan) as (Hj' & Hi').
  destruct (same_etag plan (planned s sl path host port) e Hj Hj' Hi Hi' Ee Hetag) as [(Hp & Hr)|Hc]; [right|by left].
  exists (put_of s a' sl path host port), (_route_id_for_module sl). split; [done|].
  unfold publication. unfold vget, dget_or in *. rewrite !dget_dset. cbn [String.eqb Ascii.eqb Bool.eqb].
  split; [by rewrite Hr|]. split; [done|]. by rewrite Hp.
Qed.
End Claims.

(** ** Examples: one module behind a production gateway *)
Module Sample.
#[export] Existing Instance ascii_unicode.
#[export] Existing Instance ascii_fold.
#[export] Instance slug_rules : SlugRules :=
  fun t => negb (String.eqb t "") && all_bytes (por alphanumeric (one_of "_-")) t.

Definition sensors_mapping : pyval :=
  PDict [("prefix", PStr "apps/sensors/"); ("module_slug", PStr "sensors")].
Definition interface_route : pyval :=
  PDict [("module_slug", PStr "interface"); ("public_path", PStr "/app"); ("upstream_host", PStr "dealinterface");
         ("upstream_port", PInt 80)].
Definition repository_manifest_text : string :=
  dumps (PDict [("repository_full_name", PStr "Smartappli/ArchiDEAL"); ("allowed_events", PList [PStr "push"]);
                ("path_mappings", PList [sensors_mapping]); ("route_defaults", PList [interface_route])]).
Definition ready_manifest (slug : string) : string * string :=
  (slug ++ ".json", dumps (PDict [("slug", PStr slug); ("production_ready", PBool true)])).
Definition production : site := {|
  DEBUG := false; FORCE_SCRIPT_NAME := Some "/dealhost";
  GITHUB := {| owner := "Smartappli"; repository := "ArchiDEAL"; token := "t"; webhook_secret := "shared secret";
               allowed_repositories := ["Smartappli/ArchiDEAL"] |};
  APISIX := {| admin_url := "http://apisix:9180"; admin_key := "k"; upstream_host := "django-app"; upstream_port := 8000;
               route_allowed_upstream_hosts := ["sensors"; "weather"]; route_allowed_upstream_suffixes := [];
               route_allowed_upstream_ports := [8080];
               route_allowed_upstreams := ["sensors:8080"; "weather:8080"]; route_reserved_path_prefixes := [] |};
  repository_files := Some [("archideal.json", repository_manifest_text)];
  module_files := Some [ready_manifest "sensors"; ready_manifest "weather"] |}.
Definition row (pk : Z) (slug path host : string) (port : option Z) : module_row := {|
  row_pk := pk; row_name := slug; row_slug := slug; row_image := "image"; row_branch := "main";
  row_repository_owner := ""; row_repository_name := ""; row_source_path := ""; row_deployment_target := "compose";
  row_public_path := path; row_upstream_host := host; row_upstream_port := port; row_healthcheck_path := "";
  row_contract_topics := PList []; row_enabled := true |}.
Definition sensors : module_row := row 1 "sensors" "/sensors" "sensors" (Some 8080).
Definition start : world := {| gw := {| modules := [sensors]; puts := [] |}; cache := ∅; events := [] |}.
Definition answer (p : put) : res (Z * string) := Ok (201, "{}").
Definition bus (event : string) (d : attrs) : res unit := Ok tt.
Definition body : string :=
  dumps (PDict [("repository", PDict [("full_name", PStr "smartappli/archideal")]);
                ("commits", PList [PDict [("modified", PList [PStr "apps/sensors/main.py"; PStr "README.md"])]])]).
Definition push (delivery_id : string) : webhook := {|
  raw_payload := body; signature := Some ("sha256=" ++ hmac_sha256 "shared secret" body);
  delivery := delivery_id; event_name := "push" |}.
Notation receive := (webhook_post production answer bus (fun t => t) (fun _ => "") loads).
Definition delivered : res response * world := Eval vm_compute in receive (push "d-1") start.
Definition published : world := delivered.2.
Definition service : ApisixService := {|
  config := APISIX production;
  route_defaults := [("interface", [("module_slug", PStr "interface"); ("public_path", PStr "/app");
                                    ("upstream_host", PStr "dealinterface"); ("upstream_port", PInt 80)])];
  known_module_slugs := ["sensors"; "interface"];
  module_manifests := [("sensors", [("slug", PStr "sensors"); ("production_ready", PBool true)]);
                       ("weather", [("slug", PStr "weather"); ("production_ready", PBool true)])] |}.
Notation publish if_match dry_run := (publish_route production answer service "sensors" dry_run (Some if_match) (negb dry_run) (gw start)).
Definition preview : attrs :=
  Eval vm_compute in match (publish "" true).1 with Ok p => p | Raise _ => [] end.
Definition preview_etag : string := match vget "etag" preview with PStr e => e | _ => "" end.
Definition if_match : string := " " ++ preview_etag ++ " ".
Definition by_operator : res attrs * gateway := Eval vm_compute in publish if_match false.

Lemma delivered_spec : receive (push "d-1") start = delivered.
Proof. vm_compute. reflexivity. Qed.
Lemma preview_spec : publish "" true = (Ok preview, gw start).
Proof. vm_compute. reflexivity. Qed.
Lemma by_operator_spec : publish if_match false = by_operator.
Proof. vm_compute. reflexivity. Qed.
End Sample.

Example hmac_rfc4231 :
  hmac_sha256 "Jefe" "what do ya want for nothing?" = "5bdcc146bf60754e6a042426089575c75a003f089d2739839dec58b964ec3843".
Proof. vm_compute. reflexivity. Qed.

Import Sample.


Lemma previewed_is_published_witness :
  length (puts by_operator.2) = 1%nat /\
  (puts by_operator.2 = puts (gw start) \/ (exists x y, x <> y /\ sha256_hex x = sha256_hex y) \/
   exists p id, puts by_operator.2 = (puts (gw start) ++ [p])%list /\ vget "route_id" preview = PStr id /\
     put_url p = admin_url (config service) ++ "/apisix/admin/routes/" ++ quote id /\
     sort_keys (put_json p) = sort_keys (vget "payload" preview)).
Proof.
  split; [reflexivity|].
  apply (previewed_is_published production answer service service "sensors" "sensors" "" if_match preview_etag (gw start)
           (gw start) (gw start) _ preview by_operator.1 preview_spec eq_refl).
  - vm_compute. reflexivity.
  - exact by_operator_spec.
Defined.
