(* ===== verification/Lease.v ===== *)
(** The per-deployment mutation lease
    (dealhost/runtime_controller_service/lease.py).

    [DeploymentLeaseManager] is written against [KubeClient] and against [Runtime],
    the clock, timer and identifier source of the Python runtime.  The renewal task
    of [hold] runs concurrently with the body: asyncio switches tasks only at an
    await, so the body runs over [held] worlds, whose client lets the renewal run
    before and after every API call and delivers the cancellation there.
    [Election] is the protocol between several controllers and the API server. *)

From Stdlib Require Import QArith Qminmax Qround Lqa.
From S2P Require Import Prelude PyValue Json Config Contract Resources Kube PyTime.
#[local] Open Scope string_scope.
#[local] Open Scope list_scope.
#[local] Open Scope Z_scope.

Definition RuntimeBusy : pyexn :=
  ContractError "Another runtime mutation is still in progress." "runtime_busy" 429.

(** [datetime.now(timezone.utc)] in microseconds, [time.monotonic], [asyncio.sleep],
    [uuid.uuid4().hex], and how often a timer of the given period elapses while the
    current task waits. *)
Class Runtime (W : Type) := {
  now_utc : W -> Z * W;
  monotonic : W -> Q * W;
  sleep : Q -> M W unit;
  uuid4_hex : W -> string * W;
  timer_elapses : Q -> W -> nat * W
}.

Definition pure {W A} (f : W -> A * W) : M W A := fun w => let '(a, w') := f w in (Ok a, w').

Section Manager.
Context (settings : ControllerSettings).

Definition _timestamp (value : Z) : string := utc_timestamp value.

Definition in_datetime (t : Z) : bool := (datetime_min <=? t) && (t <? datetime_max).

(** ** Reading a lease *)
Definition _expired (spec : obj) (now : Z) : res bool :=
  let renewed_at := if truthy (vget "renewTime" spec) then vget "renewTime" spec
                    else vget "acquireTime" spec in
  match vget "leaseDurationSeconds" spec, renewed_at with
  | PInt duration, PStr text =>
      if duration <=? 0 then Raise (kube_error "Kubernetes returned an invalid Lease lifetime.")
      else
        match fromisoformat (replace_z text) with
        | None | Some (_, None) => Raise (kube_error "Kubernetes returned an invalid Lease timestamp.")
        | Some (local, Some offset) =>
            let parsed := local - offset in
            let limit := parsed + duration * 1000000 in
            if in_datetime parsed && in_datetime limit then Ok (limit <=? now)
            else Raise OverflowError
        end
  | _, _ => Raise (kube_error "Kubernetes returned an invalid Lease lifetime.")
  end.

Definition _validated_lease (lease : obj) (name deployment_id : string) : res (obj * obj) :=
  let invalid := Raise (kube_error "Kubernetes returned an invalid runtime Lease.") in
  match vget "metadata" lease with
  | PDict metadata =>
      match vget "labels" metadata, vget "spec" lease with
      | PDict labels, PDict spec =>
          if negb (eq_str (vget "apiVersion" lease) "coordination.k8s.io/v1")
             || negb (eq_str (vget "kind" lease) "Lease")
             || negb (eq_str (vget "name" metadata) name)
             || negb (eq_str (vget "namespace" metadata) (namespace settings))
             || bool_decide (named (vget "resourceVersion" metadata) = None)
             || negb (eq_str (vget "app.kubernetes.io/managed-by" labels) MANAGED_BY)
             || negb (eq_str (vget DEPLOYMENT_LABEL labels) deployment_id)
          then invalid
          else
            match vget "holderIdentity" spec with
            | PNone | PStr _ => Ok (metadata, spec)
            | _ => Raise (kube_error "Kubernetes returned an invalid Lease holder.")
            end
      | _, _ => invalid
      end
  | _ => invalid
  end.

(** ** Writing a lease *)
Definition lease_labels (deployment_id : string) : pyval :=
  PDict [("app.kubernetes.io/managed-by", PStr MANAGED_BY); (DEPLOYMENT_LABEL, PStr deployment_id)].

Definition _new_lease (name deployment_id holder_identity : string) (now : Z) : obj :=
  let timestamp := _timestamp now in
  [("apiVersion", PStr "coordination.k8s.io/v1"); ("kind", PStr "Lease");
   ("metadata", PDict
     [("name", PStr name); ("namespace", PStr (namespace settings));
      ("labels", lease_labels deployment_id)]);
   ("spec", PDict
     [("holderIdentity", PStr holder_identity);
      ("leaseDurationSeconds", PInt (lease_duration_seconds settings));
      ("acquireTime", PStr timestamp); ("renewTime", PStr timestamp);
      ("leaseTransitions", PInt 0)])].

Definition _replacement_lease (metadata spec : obj) (deployment_id holder_identity : string)
    (now : Z) (takeover : bool) : res obj :=
  match dget_or "leaseTransitions" (PInt 0) spec with
  | PInt transitions =>
      if transitions <? 0 then Raise (kube_error "Kubernetes returned an invalid Lease transition.")
      else
        let timestamp := _timestamp now in
        let acquire_time := if takeover then PStr timestamp
                            else dget_or "acquireTime" (PStr timestamp) spec in
        Ok [("apiVersion", PStr "coordination.k8s.io/v1"); ("kind", PStr "Lease");
            ("metadata", PDict
              [("name", vget "name" metadata); ("namespace", PStr (namespace settings));
               ("resourceVersion", vget "resourceVersion" metadata);
               ("labels", lease_labels deployment_id)]);
            ("spec", PDict
              [("holderIdentity", PStr holder_identity);
               ("leaseDurationSeconds", PInt (lease_duration_seconds settings));
               ("acquireTime", acquire_time); ("renewTime", PStr timestamp);
               ("leaseTransitions", PInt (transitions + if takeover then 1 else 0))])]
  | _ => Raise (kube_error "Kubernetes returned an invalid Lease transition.")
  end.

(** ** The decisions between the read and the write *)
Inductive lease_write :=
| NoWrite
| CreateLease (resource : obj)
| ReplaceLease (resource : obj).

Definition acquire_decision (name deployment_id holder_identity : string) (now : Z)
    (current : option obj) : res lease_write :=
  match current with
  | None => Ok (CreateLease (_new_lease name deployment_id holder_identity now))
  | Some lease =>
      '(metadata, spec) ← _validated_lease lease name deployment_id;
      let current_holder := truthy (vget "holderIdentity" spec) in
      busy ← (if current_holder then negb <$> _expired spec now else Ok false);
      if (busy : bool) then Ok NoWrite
      else ReplaceLease <$>
             _replacement_lease metadata spec deployment_id holder_identity now current_holder
  end.

Definition renew_decision (name deployment_id holder_identity : string) (now : Z)
    (current : option obj) : res lease_write :=
  match current with
  | None => Ok NoWrite
  | Some lease =>
      '(metadata, spec) ← _validated_lease lease name deployment_id;
      if negb (eq_str (vget "holderIdentity" spec) holder_identity) then Ok NoWrite
      else ReplaceLease <$>
             _replacement_lease metadata spec deployment_id holder_identity now false
  end.

Section Client.
Context {W : Type} `{KubeClient W} `{Runtime W}.

Definition write_lease (d : lease_write) : M W bool :=
  match d with
  | NoWrite => mret false
  | CreateLease resource => k_create_lease resource
  | ReplaceLease resource => k_replace_lease resource
  end.

Definition _try_acquire (name deployment_id holder_identity : string) : M W bool :=
  now ← pure now_utc;
  current ← k_get "Lease" name None;
  decision ← lift (acquire_decision name deployment_id holder_identity now current);
  write_lease decision.

Definition _renew (name deployment_id holder_identity : string) : M W bool :=
  current ← k_get "Lease" name None;
  now ← pure now_utc;
  decision ← lift (renew_decision name deployment_id holder_identity now current);
  write_lease decision.

Fixpoint acquire_loop (fuel : nat) (name deployment_id holder_identity : string) (deadline : Q)
    : M W unit :=
  match fuel with
  | O => raise OutOfFuel
  | S fuel =>
      acquired ← _try_acquire name deployment_id holder_identity;
      if (acquired : bool) then mret tt
      else
        now ← pure monotonic;
        let remaining := (deadline - now)%Q in
        if Qle_bool remaining 0 then raise RuntimeBusy
        else
          _ ← sleep (Qmin (1 # 10) remaining);
          acquire_loop fuel name deployment_id holder_identity deadline
  end.

(** One round per tenth of a second of the timeout, plus the last short sleep and the
    round that finds the deadline passed. *)
Definition acquire_fuel : nat :=
  S (S (S (Z.to_nat (Qfloor (10 * lease_acquire_timeout_seconds settings))))).

Definition _acquire (name deployment_id holder_identity : string) : M W unit :=
  start ← pure monotonic;
  acquire_loop acquire_fuel name deployment_id holder_identity
    (start + lease_acquire_timeout_seconds settings)%Q.

(** ** The body and its renewal task *)
Inductive renewal_task :=
| Renewing
| Finished
| Failed (e : pyexn).

Record held := {
  base : W;
  renewal : renewal_task;
  lease_lost : bool
}.

Definition renew_interval : Q := Qmax 1 (inject_Z (lease_duration_seconds settings) / 3).

(** One iteration of [_renew_until_cancelled] after its sleep; [true] when it cancels
    the owner task. *)
Definition renewal_tick (name deployment_id holder_identity : string) (h : held) : bool * held :=
  match renewal h with
  | Renewing =>
      match _renew name deployment_id holder_identity (base h) with
      | (Ok true, w) => (false, {| base := w; renewal := Renewing; lease_lost := lease_lost h |})
      | (Ok false, w) | (Raise (KubernetesApiError _ _), w) =>
          (true, {| base := w; renewal := Finished; lease_lost := true |})
      | (Raise e, w) => (false, {| base := w; renewal := Failed e; lease_lost := lease_lost h |})
      end
  | _ => (false, h)
  end.

Fixpoint renewal_ticks (n : nat) (name deployment_id holder_identity : string) (h : held)
    : bool * held :=
  match n with
  | O => (false, h)
  | S n =>
      match renewal_tick name deployment_id holder_identity h with
      | (true, h) => (true, h)
      | (false, h) => renewal_ticks n name deployment_id holder_identity h
      end
  end.

(** A point where the event loop may run the renewal task. *)
Definition checkpoint (name deployment_id holder_identity : string) (h : held) : bool * held :=
  let '(n, w) := timer_elapses renew_interval (base h) in
  renewal_ticks n name deployment_id holder_identity
    {| base := w; renewal := renewal h; lease_lost := lease_lost h |}.

(** [await op] of the body: a cancellation that arrives before the call is sent, or
    while its answer is pending, replaces the call's outcome. *)
Definition awaiting (name deployment_id holder_identity : string) {A} (op : M W A) : M held A :=
  fun h =>
    match checkpoint name deployment_id holder_identity h with
    | (true, h) => (Raise CancelledError, h)
    | (false, h) =>
        let '(r, w) := op (base h) in
        match checkpoint name deployment_id holder_identity
                {| base := w; renewal := renewal h; lease_lost := lease_lost h |} with
        | (true, h) => (Raise CancelledError, h)
        | (false, h) => (r, h)
        end
    end.

Definition held_client (name deployment_id holder_identity : string) : KubeClient held :=
  let await := fun A => @awaiting name deployment_id holder_identity A in
  {| k_apply := fun o => await _ (k_apply o);
     k_get := fun kind n ns => await _ (k_get kind n ns);
     k_list := fun kind sel => await _ (k_list kind sel);
     k_delete := fun kind n => await _ (k_delete kind n);
     k_create_lease := fun o => await _ (k_create_lease o);
     k_replace_lease := fun o => await _ (k_replace_lease o);
     k_release_lease := fun n h => await _ (k_release_lease n h);
     k_pod_logs := fun p c t s => await _ (k_pod_logs p c t s) |}.

Definition lost_error : pyexn := kube_error "The Kubernetes runtime mutation Lease was lost.".
Definition unreleased_error : pyexn :=
  kube_error "The Kubernetes runtime mutation Lease could not be released.".

(** The [except] clauses around the yield. *)
Definition body_outcome {A} (lost : bool) (r : res A) : bool * res A :=
  match r with
  | Ok a => (false, Ok a)
  | Raise CancelledError => (true, Raise (if lost then lost_error else CancelledError))
  | Raise e => (true, Raise e)
  end.

(** The [finally] clause: the renewal task's own failure comes out of [await renewal];
    otherwise the lease is released. *)
Definition finish {A} (name holder_identity : string) (h : held) (r : res A) : res A * W :=
  let '(body_failed, r) := body_outcome (lease_lost h) r in
  match renewal h with
  | Failed e => (Raise e, base h)
  | _ =>
      match k_release_lease name holder_identity (base h) with
      | (Ok released, w) =>
          if negb released && negb (lease_lost h) && negb body_failed
          then (Raise unreleased_error, w) else (r, w)
      | (Raise (KubernetesApiError d s), w) =>
          if body_failed then (r, w) else (Raise (KubernetesApiError d s), w)
      | (Raise e, w) => (Raise e, w)
      end
  end.

Definition hold {A} (deployment_id : string) (body : KubeClient held -> M held A) : M W A :=
  let name := lease_name deployment_id in
  holder_identity ← pure uuid4_hex;
  _ ← _acquire name deployment_id holder_identity;
  let run : M W A := fun w =>
    let '(r, h) := body (held_client name deployment_id holder_identity)
                     {| base := w; renewal := Renewing; lease_lost := false |} in
    finish name holder_identity h r in
  run.
End Client.
End Manager.
Arguments held : clear implicits.

(** ** The acquisition loop terminates *)

(** What the loop relies on: the monotonic clock does not go backwards, a sleep
    lasts at least its argument, and nothing reports the model's own fuel marker. *)
Class RuntimeLaws (W : Type) `{KubeClient W, Runtime W} := {
  mono : W -> Q;
  now_mono : forall w, (mono w <= mono (now_utc w).2)%Q;
  monotonic_mono : forall w, ((monotonic w).1 == mono w)%Q /\ (mono w <= mono (monotonic w).2)%Q;
  sleep_mono : forall d w r w', sleep d w = (r, w') ->
    r <> Raise OutOfFuel /\ (mono w <= mono w')%Q /\ (r = Ok tt -> mono w + d <= mono w')%Q;
  get_mono : forall kind n ns w r w', k_get kind n ns w = (r, w') ->
    r <> Raise OutOfFuel /\ (mono w <= mono w')%Q;
  create_mono : forall o w r w', k_create_lease o w = (r, w') ->
    r <> Raise OutOfFuel /\ (mono w <= mono w')%Q;
  replace_mono : forall o w r w', k_replace_lease o w = (r, w') ->
    r <> Raise OutOfFuel /\ (mono w <= mono w')%Q
}.

Lemma validated_fuel (settings : ControllerSettings) (lease : obj) (name id : string) :
  _validated_lease settings lease name id <> Raise OutOfFuel.
Proof.
  unfold _validated_lease. destruct (vget "metadata" lease); try done.
  destruct (vget "labels" d); try done. destruct (vget "spec" lease); try done.
  destruct (_ || _); [done|]. by destruct (vget "holderIdentity" _).
Qed.
Lemma expired_fuel (spec : obj) (now : Z) : _expired spec now <> Raise OutOfFuel.
Proof. unfold _expired. repeat case_match; done. Qed.
Lemma replacement_fuel (settings : ControllerSettings) (metadata spec : obj) (id h : string) (now : Z) (b : bool) :
  _replacement_lease settings metadata spec id h now b <> Raise OutOfFuel.
Proof. unfold _replacement_lease. repeat case_match; done. Qed.

Lemma acquire_decision_fuel (settings : ControllerSettings) (name id h : string) (now : Z) (c : option obj) :
  acquire_decision settings name id h now c <> Raise OutOfFuel.
Proof.
  destruct c as [lease|]; [|done]. cbn [acquire_decision].
  pose proof (validated_fuel settings lease name id) as V.
  destruct (_validated_lease settings lease name id) as [[metadata spec]|e]; [|simpl; congruence].
  cbn [mbind res_bind]. pose proof (expired_fuel spec now) as X.
  pose proof (replacement_fuel settings metadata spec id h now (truthy (vget "holderIdentity" spec))) as R.
  destruct (truthy (vget "holderIdentity" spec)).
  - destruct (_expired spec now) as [b|e]; simpl in *; [|congruence]. destruct (negb b); [done|].
    destruct (_replacement_lease _ _ _ _ _ _ _); simpl; congruence.
  - simpl. destruct (_replacement_lease _ _ _ _ _ _ _); simpl; congruence.
Qed.

Section Termination.
Context (settings : ControllerSettings) {W : Type} `{KubeClient W} `{Runtime W} `{!RuntimeLaws W}.

Lemma write_mono (d : lease_write) (w w' : W) (r : res bool) :
  write_lease d w = (r, w') -> r <> Raise OutOfFuel /\ (mono w <= mono w')%Q.
Proof.
  destruct d; simpl.
  - intros [= <- <-]. split; [done|lra].
  - apply create_mono.
  - apply replace_mono.
Qed.

Lemma try_acquire_mono (name id h : string) (w w' : W) (r : res bool) :
  _try_acquire settings name id h w = (r, w') -> r <> Raise OutOfFuel /\ (mono w <= mono w')%Q.
Proof.
  unfold _try_acquire, pure, mbind, M_bind, lift. pose proof (now_mono w) as Hn.
  destruct (now_utc w) as [now w1]. simpl in Hn.
  destruct (k_get "Lease" name None w1) as [[c|e] w2] eqn:E; apply get_mono in E as [E1 E2].
  - destruct (acquire_decision settings name id h now c) as [d|e] eqn:D.
    + intros Hw. apply write_mono in Hw as [? ?]. split; [done|lra].
    + intros [= <- <-]. split; [|lra]. intros [= ->]. by apply acquire_decision_fuel in D.
  - intros [= <- <-]. split; [congruence|lra].
Qed.

Lemma acquire_loop_terminates (fuel : nat) (name id h : string) (deadline : Q) (w : W) :
  (deadline - mono w <= inject_Z (Z.of_nat fuel) * (1 # 10))%Q ->
  (acquire_loop settings (S fuel) name id h deadline w).1 <> Raise OutOfFuel.
Proof.
  revert w. induction fuel as [|fuel IH]; intros w Hf;
    cbn [acquire_loop]; unfold mbind, M_bind at 1;
    destruct (_try_acquire settings name id h w) as [[[]|e] w1] eqn:E; try done;
    apply try_acquire_mono in E as [E1 E2]; try (simpl; congruence);
    unfold M_bind, pure; pose proof (monotonic_mono w1) as [M1 M2];
    destruct (monotonic w1) as [now w2]; simpl in M1, M2;
    destruct (Qle_bool (deadline - now) 0) eqn:L; try done.
  - exfalso. apply Bool.not_true_iff_false in L. apply L, Qle_bool_iff. change (inject_Z (Z.of_nat 0)) with 0%Q in Hf. lra.
  - assert (~ (deadline - now <= 0)%Q) as L' by (rewrite <- Qle_bool_iff; congruence).
    destruct (sleep _ w2) as [[[]|e] w3] eqn:S; apply sleep_mono in S as (S1 & S2 & S3); [|simpl; congruence].
    apply IH. specialize (S3 eq_refl). rewrite Nat2Z.inj_succ, <- Z.add_1_r, inject_Z_plus in Hf.
    assert (0 <= inject_Z (Z.of_nat fuel))%Q by (change 0%Q with (inject_Z 0); rewrite <- Zle_Qle; lia).
    change (inject_Z 1) with 1%Q in Hf.
    destruct (Q.min_spec (1 # 10) (deadline - now)) as [[? Hm]|[? Hm]]; lra.
Qed.

Lemma acquire_terminates (name id h : string) (w : W) :
  (_acquire settings name id h w).1 <> Raise OutOfFuel.
Proof.
  unfold _acquire, mbind, M_bind, pure. pose proof (monotonic_mono w) as [M1 M2].
  destruct (monotonic w) as [start w1]. simpl in M1, M2.
  apply acquire_loop_terminates.
  set (x := (10 * lease_acquire_timeout_seconds settings)%Q).
  pose proof (Qlt_floor x) as Hx. rewrite inject_Z_plus in Hx. change (inject_Z 1) with 1%Q in Hx.
  assert (inject_Z (Qfloor x) + 2 <= inject_Z (Z.of_nat (S (S (Z.to_nat (Qfloor x))))))%Q.
  { change 2%Q with (inject_Z 2). rewrite <- inject_Z_plus, <- Zle_Qle. lia. }
  subst x. lra.
Qed.
End Termination.

(** ** Election: controllers that contend for one lease

    The API server keeps the lease under optimistic concurrency: a create fails when
    the object exists, a replace or a preconditioned delete fails when the object's
    version moved.  Each holder reads, decides with the code's decision function and
    writes in separate steps; any number of steps of others may happen between. *)
Section Election.
Context (settings : ControllerSettings) (name deployment_id : string).

Inductive snapshot :=
| Acquires (now : Z) (seen : option obj)
| Renews (read_at : Z) (seen : option obj)
| Releases (seen : option obj).

Record sys := {
  clock : Z;
  lease : option obj;
  version : nat;
  pending : gmap string snapshot
}.

Definition version_text (v : nat) : string := py_str_int (Z.of_nat v).

(** What the server stores for a written object: the object under a new version and
    the uid. *)
Definition stamp (v : nat) (uid : pyval) (o : obj) : obj :=
  match vget "metadata" o with
  | PDict md => dset "metadata" (PDict (dset "uid" uid (dset "resourceVersion" (PStr (version_text v)) md))) o
  | _ => o
  end.

Definition meta_field (key : string) (o : obj) : pyval :=
  match vget "metadata" o with PDict md => vget key md | _ => PNone end.
Definition spec_field (key : string) (o : obj) : pyval :=
  match vget "spec" o with PDict spec => vget key spec | _ => PNone end.
Definition same_version (o o' : obj) : bool :=
  bool_decide (meta_field "resourceVersion" o = meta_field "resourceVersion" o').
Definition held_by (h : string) (o : obj) : Prop := spec_field "holderIdentity" o = PStr h.

Definition commit (v : nat) (d : lease_write) (stored : option obj) : option obj :=
  match d, stored with
  | CreateLease o, None => Some (stamp v (PStr ("uid-" ++ version_text v)) o)
  | ReplaceLease o, Some c =>
      if same_version o c then Some (stamp v (meta_field "uid" c) o) else Some c
  | _, _ => stored
  end.

(** The preconditioned delete of [release_lease]. *)
Definition commit_release (h : string) (seen stored : option obj) : option obj :=
  match seen, stored with
  | Some c, Some c' =>
      if eq_str (spec_field "holderIdentity" c) h && same_version c c' then None else stored
  | _, _ => stored
  end.

Definition lifetime : Z := lease_duration_seconds settings * 1000000.

Inductive event :=
| Tick
| Read (h : string)
| Write (h : string)
| Release (h : string).

Definition with_pending (s : sys) (p : gmap string snapshot) : sys :=
  {| clock := clock s; lease := lease s; version := version s; pending := p |}.
Definition written (s : sys) (h : string) (l : option obj) : sys :=
  {| clock := clock s; lease := l; version := S (version s); pending := stdpp.base.delete h (pending s) |}.

Inductive step : event -> sys -> sys -> Prop :=
| step_tick s t :
    clock s <= t -> t + lifetime < datetime_max ->
    step Tick s {| clock := t; lease := lease s; version := version s; pending := pending s |}
| step_read_acquire s h now :
    h <> "" -> datetime_min <= now <= clock s ->
    step (Read h) s (with_pending s (<[h := Acquires now (lease s)]> (pending s)))
| step_read_renew s h :
    h <> "" ->
    step (Read h) s (with_pending s (<[h := Renews (clock s) (lease s)]> (pending s)))
| step_read_release s h :
    step (Read h) s (with_pending s (<[h := Releases (lease s)]> (pending s)))
| step_acquire s h now seen d :
    pending s !! h = Some (Acquires now seen) ->
    acquire_decision settings name deployment_id h now seen = Ok d ->
    step (Write h) s (written s h (commit (version s) d (lease s)))
| step_renew s h read_at seen now d :
    pending s !! h = Some (Renews read_at seen) -> read_at <= now <= clock s ->
    renew_decision settings name deployment_id h now seen = Ok d ->
    step (Write h) s (written s h (commit (version s) d (lease s)))
| step_release s h seen :
    pending s !! h = Some (Releases seen) ->
    step (Release h) s (written s h (commit_release h seen (lease s))).

Inductive run : list event -> sys -> sys -> Prop :=
| run_nil s : run [] s s
| run_cons e tr s s1 s2 : step e s s1 -> run tr s1 s2 -> run (e :: tr) s s2.

Definition initial (t : Z) : sys := {| clock := t; lease := None; version := 0; pending := ∅ |}.
Definition in_range (t : Z) : Prop := datetime_min <= t /\ t + lifetime < datetime_max.
Definition reachable (s : sys) : Prop := exists t tr, in_range t /\ run tr (initial t) s.

(** *** What a stored lease tells its readers *)
Context (Hdur : 0 < lease_duration_seconds settings).

(** Held by [h], renewed at [t], after [k] takeovers, under version [v]. *)
Record lease_ok (c : obj) (h : string) (t k : Z) (v : nat) : Prop := {
  lo_valid : exists md spec,
    vget "metadata" c = PDict md /\ vget "spec" c = PDict spec /\
    _validated_lease settings c name deployment_id = Ok (md, spec) /\
    vget "name" md = PStr name /\ vget "resourceVersion" md = PStr (version_text v) /\
    vget "holderIdentity" spec = PStr h /\ dget "leaseTransitions" spec = Some (PInt k) /\
    forall now, _expired spec now = Ok (t + lifetime <=? now);
  lo_holder : h <> "";
  lo_transitions : 0 <= k
}.

Lemma version_text_named (v : nat) : named (PStr (version_text v)) = Some (version_text v).
Proof.
  unfold named, version_text, py_str_int. rewrite (proj2 (Z.ltb_ge _ _)) by lia.
  destruct (String.eqb_spec (str_nat (Z.of_nat v)) ""); [|done].
  destruct v; [discriminate|]. destruct (str_nat_head (Z.of_nat (S v))) as (d & r & E & _); [lia|].
  rewrite E in e. discriminate.
Qed.

Lemma version_text_inj (v v' : nat) : version_text v = version_text v' -> v = v'.
Proof.
  unfold version_text, py_str_int. rewrite !(proj2 (Z.ltb_ge _ _)) by lia.
  intros E%(f_equal digits_value). rewrite !digits_value_str_nat in E by lia. lia.
Qed.

Lemma expired_written (spec : obj) (now t : Z) :
  in_range t -> vget "leaseDurationSeconds" spec = PInt (lease_duration_seconds settings) ->
  vget "renewTime" spec = PStr (utc_timestamp t) ->
  _expired spec now = Ok (t + lifetime <=? now).
Proof.
  intros [H1 H2] Hd Hr. unfold _expired. rewrite Hd, Hr.
  assert (0 < lifetime) by (unfold lifetime; lia).
  assert (truthy (PStr (utc_timestamp t)) = true) as ->.
  { unfold utc_timestamp. destruct (civil_from_days _) as [[y m] d]. simpl.
    unfold pad. destruct (pad_digits 4 y "") eqn:E; [|done].
    apply (f_equal String.length) in E. by rewrite pad_digits_length in E. }
  rewrite (proj2 (Z.leb_gt _ _)) by lia.
  rewrite timestamp_roundtrip by (unfold datetime_max in *; lia).
  rewrite Z.sub_0_r. fold lifetime. unfold in_datetime.
  rewrite !(proj2 (Z.leb_le _ _)), !(proj2 (Z.ltb_lt _ _)) by lia. done.
Qed.

Lemma validated_intro (c md spec : obj) (h : string) (v : nat) :
  vget "metadata" c = PDict md -> vget "spec" c = PDict spec ->
  vget "apiVersion" c = PStr "coordination.k8s.io/v1" -> vget "kind" c = PStr "Lease" ->
  vget "name" md = PStr name -> vget "namespace" md = PStr (namespace settings) ->
  vget "labels" md = lease_labels deployment_id ->
  vget "resourceVersion" md = PStr (version_text v) -> vget "holderIdentity" spec = PStr h ->
  _validated_lease settings c name deployment_id = Ok (md, spec).
Proof.
  intros Hm Hs Ha Hk Hn Hns Hl Hv Hh. unfold _validated_lease.
  rewrite Hm, Hs, Ha, Hk, Hl. unfold lease_labels. rewrite Hn, Hns, Hv, Hh, version_text_named.
  change (vget DEPLOYMENT_LABEL _) with (PStr deployment_id).
  change (vget "app.kubernetes.io/managed-by" _) with (PStr MANAGED_BY).
  unfold eq_str. by rewrite !String.eqb_refl.
Qed.

(** A lease written with the given holder and instant. *)
Lemma lease_ok_new (h : string) (t : Z) (v : nat) (uid : pyval) :
  h <> "" -> in_range t ->
  lease_ok (stamp v uid (_new_lease settings name deployment_id h t)) h t 0 v.
Proof.
  intros Hh Ht. split; [|done|lia]. eexists _, _. split; [reflexivity|]. split; [reflexivity|].
  split; [by eapply validated_intro|].
  split_and!; try reflexivity. intros now. by apply expired_written.
Qed.

Lemma lease_ok_replacement (c : obj) (md spec : obj) (h h' : string) (t t' k : Z) (v v' : nat)
    (uid : pyval) (takeover : bool) (o : obj) :
  lease_ok c h t k v -> _validated_lease settings c name deployment_id = Ok (md, spec) ->
  h' <> "" -> in_range t' ->
  _replacement_lease settings md spec deployment_id h' t' takeover = Ok o ->
  lease_ok (stamp v' uid o) h' t' (k + if takeover then 1 else 0) v' /\
  meta_field "resourceVersion" o = PStr (version_text v).
Proof.
  intros [(md' & spec' & Hm & Hs & V & Hn & Hv & Hh & Hk & _) _ Hk0] V' Hh' Ht' E.
  rewrite V in V'. injection V' as -> ->. unfold _replacement_lease, dget_or in E. rewrite Hk in E.
  rewrite (proj2 (Z.ltb_ge _ _)) in E by lia. injection E as <-. split.
  - split; [|done|destruct takeover; lia]. eexists _, _. split; [reflexivity|]. split; [reflexivity|].
    split; [by eapply validated_intro|].
    split_and!; try done. intros now. by apply expired_written.
  - unfold meta_field. simpl. by rewrite <- Hv.
Qed.

Lemma decision_ok (c : obj) (h h' : string) (t k now : Z) (v : nat) :
  lease_ok c h t k v -> h' <> "" -> in_range now ->
  acquire_decision settings name deployment_id h' now (Some c) =
    (if now <? t + lifetime then Ok NoWrite else
     '(md, spec) ← _validated_lease settings c name deployment_id;
     ReplaceLease <$> _replacement_lease settings md spec deployment_id h' now true).
Proof.
  intros [(md & spec & Hm & Hs & V & Hn & Hv & Hh & Hk & X) Hne Hk0] Hh' Hr.
  cbn [acquire_decision]. rewrite V. cbn [mbind res_bind]. rewrite Hh.
  assert (truthy (PStr h) = true) as -> by (simpl; by destruct h).
  rewrite X. simpl. rewrite Z.leb_antisym. by destruct (now <? t + lifetime).
Qed.
Lemma lease_ok_inj (c : obj) (h h' : string) (t t' k k' : Z) (v v' : nat) :
  lease_ok c h t k v -> lease_ok c h' t' k' v' -> h = h' /\ t = t' /\ k = k' /\ v = v'.
Proof.
  intros [(md & spec & Hm & Hs & V & Hn & Hv & Hh & Hk & X) _ _]
         [(md' & spec' & Hm' & Hs' & V' & Hn' & Hv' & Hh' & Hk' & X') _ _].
  rewrite Hm in Hm'. rewrite Hs in Hs'. injection Hm' as <-. injection Hs' as <-.
  pose proof (X (t + lifetime)) as X1. rewrite X' in X1. injection X1 as X1.
  pose proof (X (t' + lifetime)) as X2. rewrite X' in X2. injection X2 as X2.
  rewrite Z.leb_refl in X1, X2. symmetry in X2. apply Z.leb_le in X1, X2.
  rewrite Hv in Hv'. injection Hv' as Hv'%version_text_inj. split_and!; [congruence|lia|congruence|done].
Qed.

Lemma lease_ok_holder (c : obj) (h h' : string) (t k : Z) (v : nat) :
  lease_ok c h t k v -> held_by h' c <-> h' = h.
Proof.
  intros [(md & spec & Hm & Hs & V & Hn & Hv & Hh & Hk & X) _ _].
  unfold held_by, spec_field. rewrite Hs, Hh. split; [by intros [= ->]|by intros ->].
Qed.

Lemma lease_ok_version (c : obj) (h : string) (t k : Z) (v : nat) :
  lease_ok c h t k v -> meta_field "resourceVersion" c = PStr (version_text v).
Proof.
  intros [(md & spec & Hm & Hs & V & Hn & Hv & Hh & Hk & X) _ _].
  unfold meta_field. by rewrite Hm.
Qed.

(** *** The invariant of every reachable state *)
Definition seen_ok (s : sys) (c : obj) : Prop :=
  exists h t k v, lease_ok c h t k v /\ in_range t /\ t <= clock s /\ (v < version s)%nat.

Definition seen_of (sn : snapshot) : option obj :=
  match sn with Acquires _ seen | Renews _ seen | Releases seen => seen end.

(** A snapshot whose version is still current is the current object. *)
Definition current_if_same (s : sys) (c : obj) : Prop :=
  forall c', lease s = Some c' ->
    meta_field "resourceVersion" c = meta_field "resourceVersion" c' -> c = c'.

Definition times_ok (s : sys) (h : string) (sn : snapshot) : Prop :=
  match sn with
  | Acquires now _ => h <> "" /\ in_range now /\ now <= clock s
  | Renews read_at seen =>
      h <> "" /\ in_range read_at /\ read_at <= clock s /\
      forall c h' t k v, seen = Some c -> lease_ok c h' t k v -> t <= read_at
  | Releases _ => True
  end.

Record inv (s : sys) : Prop := {
  inv_clock : in_range (clock s);
  inv_lease : forall c, lease s = Some c -> seen_ok s c;
  inv_seen : forall h sn c, pending s !! h = Some sn -> seen_of sn = Some c ->
    seen_ok s c /\ current_if_same s c;
  inv_times : forall h sn, pending s !! h = Some sn -> times_ok s h sn
}.

(** What a write of [h] does to the stored lease. *)
Inductive effect (s : sys) (h : string) : option obj -> Prop :=
| eff_none : effect s h (lease s)
| eff_create c' now :
    lease s = None -> lease_ok c' h now 0 (version s) -> in_range now -> now <= clock s ->
    effect s h (Some c')
| eff_takeover c c' h0 t k v now :
    lease s = Some c -> lease_ok c h0 t k v -> t + lifetime <= now ->
    lease_ok c' h now (k + 1) (version s) -> in_range now -> now <= clock s ->
    effect s h (Some c')
| eff_renew c c' t k v now :
    lease s = Some c -> lease_ok c h t k v -> t <= now ->
    lease_ok c' h now k (version s) -> in_range now -> now <= clock s ->
    effect s h (Some c').

Lemma commit_replace (s : sys) (seen c o : obj) (v : nat) :
  lease s = Some c -> current_if_same s seen ->
  meta_field "resourceVersion" seen = PStr (version_text v) ->
  meta_field "resourceVersion" o = PStr (version_text v) ->
  commit (version s) (ReplaceLease o) (lease s) = lease s \/
  seen = c /\ commit (version s) (ReplaceLease o) (lease s) =
               Some (stamp (version s) (meta_field "uid" c) o).
Proof.
  intros Hl Hc Hs Ho. rewrite Hl. cbn [commit]. unfold same_version.
  case_bool_decide as E; [right|by left]. split; [|done]. apply Hc; [done|]. congruence.
Qed.

Lemma acquire_effect (s : sys) (h : string) (now : Z) (seen : option obj) (d : lease_write) :
  inv s -> pending s !! h = Some (Acquires now seen) ->
  acquire_decision settings name deployment_id h now seen = Ok d ->
  effect s h (commit (version s) d (lease s)).
Proof.
  intros I Hp Hd. destruct (inv_times s I h _ Hp) as (Hh & Hr & Hn).
  destruct seen as [seen|].
  - destruct (inv_seen s I h _ seen Hp eq_refl) as [(h0 & t & k & v & Hok & Ht & Htc & Hv) Hcur].
    rewrite (decision_ok seen h0 h t k now v) in Hd by done.
    destruct (Z.ltb_spec now (t + lifetime)) as [|Hexp]; [injection Hd as <-; constructor|].
    destruct (_validated_lease settings seen name deployment_id) as [[md spec]|] eqn:V; [|done].
    cbn [mbind res_bind] in Hd.
    destruct (_replacement_lease settings md spec deployment_id h now true) as [o|] eqn:R; [|done].
    injection Hd as <-.
    destruct (lease s) as [c|] eqn:Hl; [|cbn [commit]; rewrite <- Hl; constructor].
    destruct (lease_ok_replacement seen md spec h0 h t now k v (version s) (meta_field "uid" c) true o)
      as [Hok' Hrv]; try done.
    rewrite <- Hl.
    destruct (commit_replace s seen c o v) as [->|[-> ->]]; try done;
      [by eapply lease_ok_version|constructor|].
    by eapply eff_takeover.
  - injection Hd as <-. destruct (lease s) as [c|] eqn:Hl; cbn [commit].
    + rewrite <- Hl. constructor.
    + eapply eff_create; [done| |done|done]. by apply lease_ok_new.
Qed.

Lemma renew_effect (s : sys) (h : string) (read_at now : Z) (seen : option obj) (d : lease_write) :
  inv s -> pending s !! h = Some (Renews read_at seen) -> read_at <= now <= clock s ->
  renew_decision settings name deployment_id h now seen = Ok d ->
  effect s h (commit (version s) d (lease s)).
Proof.
  intros I Hp Hnow Hd. destruct (inv_times s I h _ Hp) as (Hh & Hr & Hn & Hread).
  assert (in_range now) as Hr' by (pose proof (inv_clock s I); unfold in_range in *; lia).
  destruct seen as [seen|]; [|injection Hd as <-; constructor].
  destruct (inv_seen s I h _ seen Hp eq_refl) as [(h0 & t & k & v & Hok & Ht & Htc & Hv) Hcur].
  specialize (Hread seen h0 t k v eq_refl Hok).
  destruct Hok as [(md & spec & Hm & Hs & V & Hn' & Hv' & Hh' & Hk & X) L1 L2].
  cbn [renew_decision] in Hd. rewrite V in Hd. cbn [mbind res_bind] in Hd. rewrite Hh' in Hd.
  cbn [eq_str] in Hd. destruct (String.eqb_spec h0 h) as [E|]; [subst h0|injection Hd as <-; constructor].
  cbn [negb] in Hd.
  assert (lease_ok seen h t k v) as Hok by (split; [by exists md, spec|done|done]).
  destruct (_replacement_lease settings md spec deployment_id h now false) as [o|] eqn:R; [|done].
  injection Hd as <-.
  destruct (lease s) as [c|] eqn:Hl; [|cbn [commit]; rewrite <- Hl; constructor].
  destruct (lease_ok_replacement seen md spec h h t now k v (version s) (meta_field "uid" c) false o)
    as [Hok' Hrv]; try done.
  rewrite Z.add_0_r in Hok'. rewrite <- Hl.
  destruct (commit_replace s seen c o v) as [->|[-> ->]]; try done;
    [by eapply lease_ok_version|constructor|].
  apply (eff_renew s h c _ t k v now); [done|done|lia|done|done|lia].
Qed.

Lemma effect_lease_ok (s : sys) (h : string) (l : option obj) (c : obj) :
  inv s -> effect s h l -> l = Some c ->
  exists h' t k v, lease_ok c h' t k v /\ in_range t /\ t <= clock s /\
    ((v < version s)%nat /\ lease s = Some c \/ v = version s).
Proof.
  intros I E -> . inversion E; subst.
  - destruct (inv_lease s I c) as (h' & t & k & v & ? & ? & ? & ?); [congruence|].
    exists h', t, k, v. naive_solver.
  - naive_solver.
  - naive_solver.
  - naive_solver.
Qed.

Lemma seen_later (s s' : sys) (c : obj) :
  clock s <= clock s' -> (version s <= version s')%nat -> seen_ok s c -> seen_ok s' c.
Proof. intros ? ? (h & t & k & v & ? & ? & ? & ?). exists h, t, k, v. split_and!; (done || lia). Qed.

Lemma times_later (s s' : sys) (h : string) (sn : snapshot) :
  clock s <= clock s' -> times_ok s h sn -> times_ok s' h sn.
Proof. intros Hc. destruct sn; simpl; [intros (?&?&?)|intros (?&?&?&?)|done]; split_and!; (done || lia). Qed.

(** Forgetting the pending read of [h] and installing the result of its write. *)
Lemma written_inv (s : sys) (h : string) (l : option obj) :
  inv s -> (forall c, l = Some c -> exists h' t k v, lease_ok c h' t k v /\ in_range t /\ t <= clock s /\
    ((v < version s)%nat /\ lease s = Some c \/ v = version s)) ->
  inv (written s h l).
Proof.
  intros I Hl. split.
  - apply (inv_clock s I).
  - intros c Hc. destruct (Hl c Hc) as (h' & t & k & v & ? & ? & ? & Hv).
    exists h', t, k, v. split_and!; try done. simpl. destruct Hv as [[? _]| ->]; lia.
  - intros h1 sn c Hp Hs. simpl in Hp. apply lookup_delete_Some in Hp as [_ Hp].
    destruct (inv_seen s I h1 sn c Hp Hs) as [Hok Hcur]. split; [apply (seen_later s); simpl; (done || lia)|].
    intros c' Hc' Hv. simpl in Hc'. destruct (Hl c' Hc') as (h' & t & k & v & Hok' & _ & _ & [[_ Hsame]| ->]).
    + by apply Hcur.
    + destruct Hok as (h2 & t2 & k2 & v2 & Hok2 & _ & _ & Hlt).
      rewrite (lease_ok_version _ _ _ _ _ Hok'), (lease_ok_version _ _ _ _ _ Hok2) in Hv.
      injection Hv as Hv%version_text_inj. lia.
  - intros h1 sn Hp. simpl in Hp. apply lookup_delete_Some in Hp as [_ Hp].
    apply (times_later s); [done|]. by apply (inv_times s I).
Qed.

(** A read of the stored lease. *)
Lemma read_inv (s : sys) (h : string) (sn : snapshot) :
  inv s -> seen_of sn = lease s -> times_ok s h sn ->
  inv (with_pending s (<[h := sn]> (pending s))).
Proof.
  intros I Hsn Ht. split; simpl.
  - apply (inv_clock s I).
  - intros c Hc. by apply (inv_lease s I).
  - intros h1 sn1 c Hp Hs. apply lookup_insert_Some in Hp as [[<- <-]|[_ Hp]].
    + rewrite Hsn in Hs. split; [by apply (inv_lease s I)|]. intros c' Hc' _. simpl in Hc'. congruence.
    + apply (inv_seen s I h1 sn1 c Hp Hs).
  - intros h1 sn1 Hp. apply lookup_insert_Some in Hp as [[<- <-]|[_ Hp]]; [done|]. by apply (inv_times s I).
Qed.

Lemma release_shrinks (h : string) (seen stored : option obj) :
  commit_release h seen stored = None \/ commit_release h seen stored = stored.
Proof. unfold commit_release. destruct seen, stored; try by right. case_match; [by left|by right]. Qed.

Lemma step_inv (e : event) (s s' : sys) :
  inv s -> step e s s' -> inv s'.
Proof.
  intros I S. destruct S.
  - split; simpl.
    + pose proof (inv_clock s I). unfold in_range in *. lia.
    + intros c Hc. apply (seen_later s); [done|done|]. by apply (inv_lease s I).
    + intros h sn c Hp Hs. destruct (inv_seen s I h sn c Hp Hs) as [? ?].
      split; [by apply (seen_later s)|done].
    + intros h sn Hp. apply (times_later s); [done|]. by apply (inv_times s I).
  - apply read_inv; [done|done|]. simpl. pose proof (inv_clock s I). unfold in_range in *. split_and!; (done || lia).
  - apply read_inv; [done|done|]. simpl. pose proof (inv_clock s I). split_and!; try done.
    intros c h' t k v Hc Hok. destruct (inv_lease s I c Hc) as (h2 & t2 & k2 & v2 & Hok2 & _ & ? & _).
    destruct (lease_ok_inj _ _ _ _ _ _ _ _ _ Hok Hok2) as (_ & -> & _). done.
  - by apply read_inv.
  - apply written_inv; [done|]. intros c Hc. eapply effect_lease_ok; [done|by eapply acquire_effect|done].
  - apply written_inv; [done|]. intros c Hc. eapply effect_lease_ok; [done|by eapply renew_effect|done].
  - apply written_inv; [done|]. intros c Hc. destruct (release_shrinks h seen (lease s)) as [E|E]; [congruence|].
    rewrite E in Hc. destruct (inv_lease s I c Hc) as (h' & t & k & v & ? & ? & ? & ?).
    exists h', t, k, v. naive_solver.
Qed.

Lemma run_inv (tr : list event) (s s' : sys) :
  inv s -> run tr s s' -> inv s'.
Proof. intros I R. induction R; [done|]. eauto using step_inv. Qed.

Lemma initial_inv (t : Z) : in_range t -> inv (initial t).
Proof. intros Ht. split; simpl; [done|done| |]; intros *; by rewrite lookup_empty. Qed.

Lemma reachable_inv (s : sys) : reachable s -> inv s.
Proof. intros (t & tr & Ht & R). eapply run_inv; [by apply initial_inv|done]. Qed.

Definition spec_expired (c : obj) (now : Z) : res bool :=
  match vget "spec" c with PDict spec => _expired spec now | _ => Raise TypeError end.

Lemma lease_ok_expired (c : obj) (h : string) (t k : Z) (v : nat) (now : Z) :
  lease_ok c h t k v -> spec_expired c now = Ok (t + lifetime <=? now).
Proof. intros [(md & spec & Hm & Hs & V & Hn & Hv & Hh & Hk & X) _ _]. unfold spec_expired. by rewrite Hs. Qed.

Lemma lease_ok_transitions (c : obj) (h : string) (t k : Z) (v : nat) :
  lease_ok c h t k v -> spec_field "leaseTransitions" c = PInt k.
Proof.
  intros [(md & spec & Hm & Hs & V & Hn & Hv & Hh & Hk & X) _ _]. unfold spec_field. rewrite Hs.
  unfold vget, dget_or. by rewrite Hk.
Qed.

(** Only its holder's release removes a lease. *)
Lemma release_keeps (s : sys) (h h' : string) (seen : option obj) (c : obj) (t k : Z) (v : nat) :
  inv s -> pending s !! h' = Some (Releases seen) -> lease s = Some c -> lease_ok c h t k v ->
  h' <> h -> commit_release h' seen (lease s) = Some c.
Proof.
  intros I Hp Hl Hok Hne. rewrite Hl. unfold commit_release. destruct seen as [seen|]; [|done].
  destruct (eq_str (spec_field "holderIdentity" seen) h' && same_version seen c) eqn:E; [|done].
  apply andb_true_iff in E as [E1 E2]. apply bool_decide_eq_true_1 in E2.
  destruct (inv_seen s I h' _ seen Hp eq_refl) as [_ Hcur]. pose proof (Hcur c Hl E2) as ->.
  exfalso. apply Hne. apply (lease_ok_holder _ _ h' _ _ _ Hok). unfold held_by.
  destruct (spec_field "holderIdentity" c); try done. simpl in E1. f_equal. by apply String.eqb_eq.
Qed.

Lemma effect_keeps (s : sys) (h h' : string) (l : option obj) (c : obj) (t k : Z) (v : nat) :
  lease s = Some c -> lease_ok c h t k v -> clock s < t + lifetime -> effect s h' l ->
  exists c' t' k' v', l = Some c' /\ lease_ok c' h t' k' v' /\ t <= t'.
Proof.
  intros Hl Hok Hc E. inversion E as [|c' now|c0 c' h0 t0 k0 v0 now Hl0 Hok0|c0 c' t0 k0 v0 now Hl0 Hok0]; subst.
  - exists c, t, k, v. split_and!; (done || lia).
  - congruence.
  - assert (c0 = c) as -> by congruence.
    destruct (lease_ok_inj _ _ _ _ _ _ _ _ _ Hok Hok0) as (? & ? & ?). lia.
  - assert (c0 = c) as -> by congruence.
    destruct (lease_ok_inj _ _ _ _ _ _ _ _ _ Hok Hok0) as (-> & -> & -> & _).
    exists c', now, k0, (version s). split_and!; (done || lia).
Qed.

Lemma run_clock (tr : list event) (s s' : sys) : run tr s s' -> clock s <= clock s'.
Proof.
  intros R. induction R as [|e tr s s1 s2 S R IH]; [lia|]. etransitivity; [|exact IH].
  destruct S; simpl; lia.
Qed.

Lemma run_exclusive (tr : list event) (s s' : sys) (h : string) (c : obj) (t k : Z) (v : nat) :
  inv s -> run tr s s' -> lease s = Some c -> lease_ok c h t k v ->
  ~ In (Release h) tr -> clock s' < t + lifetime ->
  exists c', lease s' = Some c' /\ held_by h c'.
Proof.
  intros I R. revert c t k v I. induction R as [s|e tr s s1 s2 S R IH]; intros c t k v I Hl Hok Hr Hc.
  - exists c. split; [done|]. by apply (lease_ok_holder _ _ _ _ _ _ Hok).
  - pose proof (run_clock _ _ _ R) as Hmono. pose proof (step_inv _ _ _ I S) as I'.
    assert (clock s <= clock s1) by (destruct S; simpl; lia).
    assert (exists c' t' k' v', lease s1 = Some c' /\ lease_ok c' h t' k' v' /\ t <= t')
      as (c' & t' & k' & v' & Hl' & Hok' & Ht').
    { destruct S; try (exists c, t, k, v; split_and!; (done || lia)).
      - eapply effect_keeps; [done|done|simpl in *; lia|by eapply acquire_effect].
      - eapply effect_keeps; [done|done|simpl in *; lia|by eapply renew_effect].
      - exists c, t, k, v. split_and!; [|done|lia]. eapply release_keeps; try done.
        intros ->. apply Hr. by left. }
    eapply IH; [exact I'|exact Hl'|exact Hok'| |lia]. intros Hin. apply Hr. by right.
Qed.
End Election.

Lemma run_app (settings : ControllerSettings) (name id : string) (tr tr' : list event) (s s1 s2 : sys) :
  run settings name id tr s s1 -> run settings name id tr' s1 s2 -> run settings name id (tr ++ tr') s s2.
Proof. intros R R'. induction R; [done|]. simpl. eauto using run_cons. Qed.

Lemma reachable_run (settings : ControllerSettings) (name id : string) (tr : list event) (s s' : sys) :
  reachable settings name id s -> run settings name id tr s s' -> reachable settings name id s'.
Proof. intros (t & tr0 & Ht & R) R'. exists t, (tr0 ++ tr). split; [done|]. by eapply run_app. Qed.

(** A controller "a" that acquired the lease of a deployment. *)
Module LeaseDemo.
Definition name : string := "dealrt-lock".
Definition t0 : Z := 1767225599000000.
Definition held_state : sys :=
  written (with_pending (initial t0) {["a" := Acquires t0 None]}) "a"
    (Some (stamp 0 (PStr "uid-0") (_new_lease Sample.settings name Sample.id "a" t0))).
Definition held_lease : obj := stamp 0 (PStr "uid-0") (_new_lease Sample.settings name Sample.id "a" t0).

Lemma t0_in_range : in_range Sample.settings t0.
Proof. split; vm_compute; congruence. Qed.

Lemma held_run : run Sample.settings name Sample.id [Read "a"; Write "a"] (initial t0) held_state.
Proof.
  eapply run_cons; [apply (step_read_acquire _ _ _ (initial t0) "a" t0); [done|exact (conj (proj1 t0_in_range) (Z.le_refl _))]|].
  eapply run_cons; [|apply run_nil].
  exact (step_acquire Sample.settings name Sample.id _ "a" t0 None _ (lookup_insert_eq _ _ _) eq_refl).
Qed.

Lemma held_reachable : reachable Sample.settings name Sample.id held_state.
Proof. exists t0, [Read "a"; Write "a"]. split; [apply t0_in_range|apply held_run]. Qed.

(** The same state, ten seconds and forty seconds later. *)
Definition later (seconds : Z) : sys :=
  {| clock := t0 + seconds * 1000000; lease := lease held_state; version := version held_state;
     pending := pending held_state |}.
Lemma later_step (seconds : Z) : 0 <= seconds <= 3600 ->
  step Sample.settings name Sample.id Tick held_state (later seconds).
Proof.
  intros Hs. apply step_tick; [simpl; lia|].
  change (lifetime Sample.settings) with 30000000. unfold t0, datetime_max. change day_us with 86400000000. lia.
Qed.
Lemma later_reachable (seconds : Z) : 0 <= seconds <= 3600 ->
  reachable Sample.settings name Sample.id (later seconds).
Proof.
  intros Hs. eapply reachable_run; [apply held_reachable|].
  eapply run_cons; [by apply (later_step seconds)|apply run_nil].
Qed.
(** Controller "b" has read the expired lease. *)
Definition contended : sys :=
  with_pending (later 40) (<["b" := Acquires (clock (later 40)) (lease (later 40))]> (pending (later 40))).
Lemma contended_reachable : reachable Sample.settings name Sample.id contended.
Proof.
  eapply reachable_run; [apply (later_reachable 40); lia|].
  eapply run_cons; [|apply run_nil]. apply step_read_acquire; [done|]. split; [|lia]. vm_compute. congruence.
Qed.
Lemma takeover :
  exists s' c', step Sample.settings name Sample.id (Write "b") contended s' /\ lease s' = Some c' /\ held_by "b" c'.
Proof.
  destruct (acquire_decision Sample.settings name Sample.id "b" (clock (later 40)) (lease (later 40))) as [d|e] eqn:D;
    [|vm_compute in D; discriminate D].
  exists (written contended "b" (commit (version contended) d (lease contended))).
  vm_compute in D. injection D as <-. eexists. split.
  - refine (step_acquire Sample.settings name Sample.id contended "b" _ _ _ (lookup_insert_eq _ _ _) _).
    vm_compute. reflexivity.
  - split; [reflexivity|]. reflexivity.
Qed.
Lemma duration_pos : 0 < lease_duration_seconds Sample.settings.
Proof. reflexivity. Qed.
End LeaseDemo.

(** C3: a lease excludes other controllers: as long as the code's own expiry test is
    false at the current clock and its holder has not released it, every interleaving
    of reads, writes, releases and ticks of any number of controllers leaves the
    lease with that holder. *)
Theorem lease_exclusive (settings : ControllerSettings) (name id h : string) (c : obj)
    (tr : list event) (s s' : sys) :
  0 < lease_duration_seconds settings ->
  reachable settings name id s -> lease s = Some c -> held_by h c ->
  run settings name id tr s s' -> ~ In (Release h) tr -> spec_expired c (clock s') = Ok false ->
  exists c', lease s' = Some c' /\ held_by h c'.
Proof.
  intros Hd Hs Hl Hh R Hr Hx. pose proof (reachable_inv _ _ _ Hd s Hs) as I.
  destruct (inv_lease _ _ _ s I c Hl) as (h' & t & k & v & Hok & _).
  apply (lease_ok_holder _ _ _ _ _ h _ _ _ Hok) in Hh as ->.
  rewrite (lease_ok_expired _ _ _ _ _ _ _ _ _ Hok) in Hx. injection Hx as Hx%Z.leb_gt.
  by eapply run_exclusive.
Qed.

Lemma lease_exclusive_witness : exists c', lease (LeaseDemo.later 10) = Some c' /\ held_by "a" c'.
Proof.
  refine (lease_exclusive Sample.settings LeaseDemo.name Sample.id "a" LeaseDemo.held_lease [Tick]
    LeaseDemo.held_state (LeaseDemo.later 10) LeaseDemo.duration_pos LeaseDemo.held_reachable eq_refl eq_refl _ _ _).
  - eapply run_cons; [apply (LeaseDemo.later_step 10); lia|apply run_nil].
  - intros [E|[]]. discriminate E.
  - vm_compute. reflexivity.
Defined.

(** The holder of a lease changes from one controller to another only in a write
    of the new holder, only after the old holder's lifetime elapsed, and the
    transition counter then grows by exactly one. *)
Theorem lease_takeover (settings : ControllerSettings) (name id h0 h1 : string) (c c' : obj)
    (e : event) (s s' : sys) :
  0 < lease_duration_seconds settings ->
  reachable settings name id s -> step settings name id e s s' ->
  lease s = Some c -> lease s' = Some c' -> held_by h0 c -> held_by h1 c' -> h0 <> h1 ->
  e = Write h1 /\ spec_expired c (clock s) = Ok true /\
  exists k, spec_field "leaseTransitions" c = PInt k /\
            spec_field "leaseTransitions" c' = PInt (k + 1).
Proof.
  intros Hd Hs S Hl Hl' H0 H1 Hne. pose proof (reachable_inv _ _ _ Hd s Hs) as I.
  assert (forall h, effect settings name id s h (Some c') -> h1 = h /\ spec_expired c (clock s) = Ok true /\
            exists k, spec_field "leaseTransitions" c = PInt k /\
                      spec_field "leaseTransitions" c' = PInt (k + 1)) as Heff.
  { intros h E. inversion E as [|? now|c0 ? h2 t k v now Hl0 Hok0 Ht Hok'|c0 ? t k v now Hl0 Hok0 Ht Hok']; subst.
    - assert (c = c') as -> by congruence. unfold held_by in *. congruence.
    - congruence.
    - assert (c0 = c) as -> by congruence. apply (lease_ok_holder _ _ _ _ _ h1 _ _ _ Hok') in H1 as ->.
      split; [done|]. rewrite (lease_ok_expired _ _ _ _ _ _ _ _ _ Hok0).
      rewrite (proj2 (Z.leb_le _ _)) by lia. split; [done|]. exists k.
      by rewrite (lease_ok_transitions _ _ _ _ _ _ _ _ Hok0), (lease_ok_transitions _ _ _ _ _ _ _ _ Hok').
    - assert (c0 = c) as -> by congruence. apply (lease_ok_holder _ _ _ _ _ h1 _ _ _ Hok') in H1 as ->.
      apply (lease_ok_holder _ _ _ _ _ h0 _ _ _ Hok0) in H0 as ->. done. }
  destruct S as [s t|s h now|s h|s h|s h now seen d Hp Hdec|s h ra seen now d Hp Hn Hdec|s h seen Hp]; simpl in Hl';
    try (unfold held_by in *; congruence).
  - destruct (Heff h) as (-> & ? & ?); [|done]. rewrite <- Hl'. by eapply acquire_effect.
  - destruct (Heff h) as (-> & ? & ?); [|done]. rewrite <- Hl'. by eapply renew_effect.
  - destruct (release_shrinks h seen (lease s)) as [E|E]; unfold held_by in *; congruence.
Qed.

Lemma lease_takeover_witness :
  spec_expired LeaseDemo.held_lease (clock LeaseDemo.contended) = Ok true.
Proof.
  destruct LeaseDemo.takeover as (s' & c' & S & L & Hb).
  exact (proj1 (proj2 (lease_takeover Sample.settings LeaseDemo.name Sample.id "a" "b" LeaseDemo.held_lease c' (Write "b")
    LeaseDemo.contended s' LeaseDemo.duration_pos LeaseDemo.contended_reachable S eq_refl L eq_refl Hb ltac:(done)))).
Defined.

(** A decision on the current lease, once expired or absent, wins the lease. *)
Lemma acquire_wins (settings : ControllerSettings) (name id h : string) (s : sys) :
  0 < lease_duration_seconds settings -> inv settings name id s -> h <> "" ->
  (forall c, lease s = Some c -> spec_expired c (clock s) = Ok true) ->
  exists d c', acquire_decision settings name id h (clock s) (lease s) = Ok d /\
    commit (version s) d (lease s) = Some c' /\ held_by h c'.
Proof.
  intros Hd I Hh Hx. pose proof (inv_clock _ _ _ s I) as Hc.
  destruct (lease s) as [c|] eqn:Hl.
  - destruct (inv_lease _ _ _ s I c Hl) as (h0 & t & k & v & Hok & _).
    specialize (Hx c eq_refl). rewrite (lease_ok_expired _ _ _ _ _ _ _ _ _ Hok) in Hx. injection Hx as Hx%Z.leb_le.
    rewrite (decision_ok _ _ _ _ _ _ _ _ _ _ Hok) by done. rewrite (proj2 (Z.ltb_ge _ _)) by lia.
    pose proof Hok as [(md & spec & Hm & Hsp & V & Hn & Hv & Hho & Hk & X) L1 L2]. rewrite V. cbn [mbind res_bind].
    destruct (_replacement_lease settings md spec id h (clock s) true) as [o|e] eqn:R.
    + destruct (lease_ok_replacement settings name id Hd c md spec h0 h t (clock s) k v (version s)
                  (meta_field "uid" c) true o) as [Hok' Hrv]; try done.
      eexists _, _. split; [reflexivity|]. cbn [commit]. unfold same_version.
      rewrite Hrv, (lease_ok_version _ _ _ _ _ _ _ _ Hok), bool_decide_eq_true_2 by done.
      split; [reflexivity|]. by apply (lease_ok_holder _ _ _ _ _ h _ _ _ Hok').
    + unfold _replacement_lease, dget_or in R. rewrite Hk, (proj2 (Z.ltb_ge _ _)) in R by lia. done.
  - eexists _, _. split; [reflexivity|]. split; [reflexivity|].
    by apply (lease_ok_holder _ _ _ _ _ h _ _ _ (lease_ok_new settings name id Hd h (clock s) (version s) _ Hh Hc)).
Qed.

(** A lease whose holder vanished does not block the deployment: in every
    reachable state whose clock passed the lifetime of the stored lease (or with no
    lease), any controller that reads and then writes becomes the holder. *)
Theorem lease_recoverable (settings : ControllerSettings) (name id h : string) (s : sys) :
  0 < lease_duration_seconds settings -> reachable settings name id s -> h <> "" ->
  (forall c, lease s = Some c -> spec_expired c (clock s) = Ok true) ->
  exists s' c', run settings name id [Read h; Write h] s s' /\ lease s' = Some c' /\ held_by h c'.
Proof.
  intros Hd Hs Hh Hx. pose proof (reachable_inv _ _ _ Hd s Hs) as I.
  pose proof (inv_clock _ _ _ s I) as Hc.
  set (s1 := with_pending s (<[h := Acquires (clock s) (lease s)]> (pending s))).
  assert (step settings name id (Read h) s s1) as S1 by (apply step_read_acquire; [done|unfold in_range in Hc; lia]).
  assert (pending s1 !! h = Some (Acquires (clock s) (lease s))) as Hp by (apply lookup_insert_eq).
  destruct (acquire_wins settings name id h s Hd I Hh Hx) as (d & c' & Hdec & Hcm & Hh').
  exists (written s1 h (commit (version s1) d (lease s1))), c'. split; [|done].
  eapply run_cons; [exact S1|]. eapply run_cons; [|constructor]. by eapply step_acquire.
Qed.

Lemma lease_recoverable_witness :
  exists s' c', run Sample.settings LeaseDemo.name Sample.id [Read "b"; Write "b"] (LeaseDemo.later 40) s' /\
    lease s' = Some c' /\ held_by "b" c'.
Proof.
  apply (lease_recoverable Sample.settings LeaseDemo.name Sample.id "b" (LeaseDemo.later 40) LeaseDemo.duration_pos).
  - by apply LeaseDemo.later_reachable.
  - done.
  - intros c E. injection E as <-. vm_compute. reflexivity.
Defined.
