(* ===== verification/Status.v ===== *)
(** Observed status of a runtime component and the reconciler's result types: the pure
    part of dealhost/runtime_controller_service/service.py. *)

From S2P Require Import Prelude PyValue Json Config Contract Resources Kube.
#[local] Open Scope string_scope.
#[local] Open Scope list_scope.
#[local] Open Scope Z_scope.

Definition RuntimeNotFound : pyexn :=
  ContractError "The runtime deployment does not exist." "runtime_not_found" 404.
Definition RuntimeConflict (detail : string) : pyexn := ContractError detail "runtime_conflict" 409.

(** ** Results *)
Record RuntimeResult := {
  rr_deployment_id : string;
  rr_state : string;
  rr_message : string;
  rr_observed_generation : Z;
  rr_components : list obj
}.
Definition RuntimeResult_as_dict (r : RuntimeResult) : pyval :=
  PDict [("id", PStr (rr_deployment_id r)); ("state", PStr (rr_state r)); ("message", PStr (rr_message r));
         ("observed_generation", PInt (rr_observed_generation r));
         ("components", PList (map PDict (rr_components r)))].

Record LogResult := {
  lr_lines : list string;
  lr_cursor : string;
  lr_truncated : bool
}.
Definition LogResult_as_dict (r : LogResult) : pyval :=
  PDict [("lines", PList (map PStr (lr_lines r))); ("cursor", PStr (lr_cursor r));
         ("truncated", PBool (lr_truncated r))].

(** ** Component status *)
Definition _count (value : pyval) : Z :=
  match value with PInt n => if 0 <=? n then n else 0 | _ => 0 end.

Definition _component_result (component : Component) (desired_replicas ready available : Z)
    (state health : string) (restart_count : Z) (error : string) : obj :=
  [("slug", PStr (slug component)); ("image_digest", PStr (image component));
   ("desired_replicas", PInt (Z.min desired_replicas 65535));
   ("ready_replicas", PInt (Z.min ready 65535));
   ("available_replicas", PInt (Z.min available 65535));
   ("state", PStr state); ("health", PStr health);
   ("restart_count", PInt (Z.min restart_count 100000)); ("last_error", PStr error)].

Definition _deleting_component (component : Component) : obj :=
  _component_result component 0 0 0 "deleting" "unknown" 0 "".

Definition _deleted_result (desired : DesiredDeployment) : RuntimeResult := {|
  rr_deployment_id := deployment_id desired; rr_state := "deleted"; rr_message := "";
  rr_observed_generation := generation desired;
  rr_components := map (fun c => _component_result c 0 0 0 "deleted" "unknown" 0 "") (components desired)
|}.

(** [v] when it is a dict, [{}] otherwise. *)
Definition dict_or_empty (v : pyval) : obj := match v with PDict d => d | _ => [] end.
Definition list_or_empty (v : pyval) : list pyval := match v with PList l => l | _ => [] end.

Definition _pod_phase (pod : obj) : string :=
  match vget "status" pod with
  | PDict status => match vget "phase" status with PStr p => p | _ => "" end
  | _ => ""
  end.

Definition condition_failed (condition : obj) : bool :=
  (eq_str (vget "type" condition) "ReplicaFailure" && eq_str (vget "status" condition) "True")
  || (eq_str (vget "type" condition) "Progressing" && eq_str (vget "status" condition) "False").

Fixpoint first_failure (conditions : list pyval) : string :=
  match conditions with
  | [] => ""
  | PDict condition :: rest =>
      if condition_failed condition then
        if eq_str (vget "type" condition) "ReplicaFailure"
        then "Kubernetes could not create a runtime replica."
        else "The runtime rollout did not progress."
      else first_failure rest
  | _ :: rest => first_failure rest
  end.

Definition _deployment_failure (status : obj) : string :=
  first_failure (list_or_empty (dget_or "conditions" (PList []) status)).

(** The restarts of the containers named "main" of one pod. *)
Definition container_restarts (container_status : pyval) : Z :=
  match container_status with
  | PDict cs =>
      if eq_str (vget "name" cs) "main" then _count (dget_or "restartCount" (PInt 0) cs) else 0
  | _ => 0
  end.
Definition zsum (l : list Z) : Z := fold_right Z.add 0 l.
Definition pod_restarts (pod : obj) : Z :=
  match vget "status" pod with
  | PDict status =>
      zsum (map container_restarts (list_or_empty (dget_or "containerStatuses" (PList []) status)))
  | _ => 0
  end.
Definition restart_total (pods : list obj) : Z := zsum (map pod_restarts pods).

(** [next((item for item in containers if ... "main"), None)]. *)
Fixpoint main_container (containers : list pyval) : option obj :=
  match containers with
  | [] => None
  | PDict item :: rest => if eq_str (vget "name" item) "main" then Some item else main_container rest
  | _ :: rest => main_container rest
  end.

(** The image of the live Deployment's main container, the component's own when the
    object does not tell; a template whose spec is not a dict is an AttributeError. *)
Definition live_image (component : Component) (spec : obj) : res string :=
  containers ← match vget "template" spec with
    | PDict template =>
        pod ← attr_get_or "spec" (PDict []) (PDict template);
        attr_get_or "containers" (PList []) pod
    | _ => Ok (PList [])
    end;
  Ok (match containers with
      | PList items =>
          match main_container items with
          | Some main => match vget "image" main with PStr i => i | _ => image component end
          | None => image component
          end
      | _ => image component
      end).

Definition _component_status (desired : DesiredDeployment) (component : Component)
    (deployment : option obj) (pods : list obj) : res obj :=
  let restart_count := restart_total pods in
  match deployment with
  | None => Ok (_component_result component 0 0 0 "reconciling" "pending" restart_count "")
  | Some deployment =>
      let spec := dict_or_empty (vget "spec" deployment) in
      let status := dict_or_empty (vget "status" deployment) in
      let metadata := dict_or_empty (vget "metadata" deployment) in
      let desired_replicas := _count (dget_or "replicas" (PInt 0) spec) in
      let ready := _count (dget_or "readyReplicas" (PInt 0) status) in
      let available := _count (dget_or "availableReplicas" (PInt 0) status) in
      let generation := _count (dget_or "generation" (PInt 0) metadata) in
      let observed_generation := _count (dget_or "observedGeneration" (PInt 0) status) in
      actual_image ← live_image component spec;
      let failure := if String.eqb actual_image (image component) then _deployment_failure status
                     else "Runtime image drift was detected." in
      let '(state, health) :=
        if String.eqb (desired_state desired) "stopped" then
          if (desired_replicas =? 0) && (available =? 0) then ("stopped", "stopped")
          else ("reconciling", "stopping")
        else if negb (String.eqb failure "") then ("degraded", "unhealthy")
        else if (0 <? desired_replicas) && (desired_replicas <=? ready)
                && (desired_replicas <=? available) && (generation <=? observed_generation)
        then ("running", "healthy")
        else ("reconciling", "progressing") in
      Ok (dset "image_digest" (PStr actual_image)
            (_component_result component desired_replicas ready available state health
               restart_count failure))
  end.

(** ** The state of the whole deployment *)
Definition component_state (c : obj) : string := match vget "state" c with PStr s => s | _ => "" end.
Definition last_error (c : obj) : string := match vget "last_error" c with PStr s => s | _ => "" end.

Definition overall_state (desired_state : string) (observed : list obj) : string :=
  let states := map component_state observed in
  if String.eqb desired_state "stopped" then
    if set_eqb states ["stopped"] then "stopped" else "reconciling"
  else if mem "degraded" states then "degraded"
  else if set_eqb states ["running"] then "running"
  else "reconciling".

Fixpoint first_error (observed : list obj) : string :=
  match observed with
  | [] => ""
  | c :: rest => if String.eqb (last_error c) "" then first_error rest else last_error c
  end.

(** ** What a status tells *)
Lemma count_nonneg (v : pyval) : 0 <= _count v.
Proof. destruct v as [| |n| | | |]; simpl; try lia. destruct (Z.leb_spec 0 n); lia. Qed.

Lemma zsum_nonneg (l : list Z) : Forall (fun n => 0 <= n) l -> 0 <= zsum l.
Proof. intros Hl. induction Hl; simpl; lia. Qed.

Lemma restart_total_nonneg (pods : list obj) : 0 <= restart_total pods.
Proof.
  apply zsum_nonneg, Forall_forall. intros n Hn. apply list_elem_of_In, in_map_iff in Hn as (pod & <- & _).
  unfold pod_restarts. destruct (vget "status" pod); try lia.
  apply zsum_nonneg, Forall_forall. intros m Hm. apply list_elem_of_In, in_map_iff in Hm as (cs & <- & _).
  destruct cs as [| | | | | |cs]; simpl; try lia. destruct (eq_str _ _); [apply count_nonneg|lia].
Qed.

(** The shape every reported component has. *)
Definition bounded (key : string) (hi : Z) (c : obj) : Prop :=
  exists n, dget key c = Some (PInt n) /\ 0 <= n <= hi.
Definition component_bounds (c : obj) : Prop :=
  bounded "desired_replicas" 65535 c /\ bounded "ready_replicas" 65535 c /\
  bounded "available_replicas" 65535 c /\ bounded "restart_count" 100000 c.

Lemma component_result_bounds (component : Component) (d r a k : Z) (state health error : string) :
  0 <= d -> 0 <= r -> 0 <= a -> 0 <= k ->
  component_bounds (_component_result component d r a state health k error).
Proof. intros. split_and!; eexists; (split; [reflexivity|lia]). Qed.

Lemma component_bounds_image (i : pyval) (c : obj) :
  component_bounds c -> component_bounds (dset "image_digest" i c).
Proof.
  assert (forall key hi, key <> "image_digest" -> bounded key hi c -> bounded key hi (dset "image_digest" i c)) as H.
  { intros key hi Hk (n & Hn & Hb). exists n. split; [|done]. rewrite dget_dset. by rewrite (proj2 (String.eqb_neq _ _)). }
  intros (?&?&?&?). split_and!; apply H; done.
Qed.

Lemma component_status_bounds (desired : DesiredDeployment) (component : Component)
    (deployment : option obj) (pods : list obj) (r : obj) :
  _component_status desired component deployment pods = Ok r ->
  component_bounds r /\ vget "slug" r = PStr (slug component).
Proof.
  unfold _component_status. pose proof (restart_total_nonneg pods).
  destruct deployment as [deployment|]; [|intros [= <-]; split; [by apply component_result_bounds|done]].
  intros (actual & _ & E)%bind_Ok.
  destruct (if String.eqb (desired_state desired) "stopped" then _ else _) as [state health].
  apply Ok_inj in E as <-. split; [|done].
  apply component_bounds_image, component_result_bounds; (apply count_nonneg || done).
Qed.

(** A live Deployment that serves the component's image with every wanted replica
    ready and available, its latest generation observed and no failure reported. *)
Record serving (component : Component) (deployment : obj) : Prop := {
  sv_image : live_image component (dict_or_empty (vget "spec" deployment)) = Ok (image component);
  sv_replicas : 0 < _count (dget_or "replicas" (PInt 0) (dict_or_empty (vget "spec" deployment)));
  sv_ready : _count (dget_or "replicas" (PInt 0) (dict_or_empty (vget "spec" deployment))) <=
             _count (dget_or "readyReplicas" (PInt 0) (dict_or_empty (vget "status" deployment)));
  sv_available : _count (dget_or "replicas" (PInt 0) (dict_or_empty (vget "spec" deployment))) <=
                 _count (dget_or "availableReplicas" (PInt 0) (dict_or_empty (vget "status" deployment)));
  sv_generation : _count (dget_or "generation" (PInt 0) (dict_or_empty (vget "metadata" deployment))) <=
                  _count (dget_or "observedGeneration" (PInt 0) (dict_or_empty (vget "status" deployment)));
  sv_failure : _deployment_failure (dict_or_empty (vget "status" deployment)) = ""
}.

Lemma running_component (desired : DesiredDeployment) (component : Component)
    (deployment : option obj) (pods : list obj) (r : obj) :
  _component_status desired component deployment pods = Ok r -> component_state r = "running" ->
  exists o, deployment = Some o /\ serving component o.
Proof.
  unfold _component_status. destruct deployment as [o|]; [|by intros [= <-]].
  intros (actual & Hi & E)%bind_Ok Hs. exists o. split; [done|].
  destruct (String.eqb (desired_state desired) "stopped").
  { destruct (_ && _); injection E as <-; discriminate Hs. }
  destruct (negb (String.eqb (if String.eqb actual (image component) then _ else _) "")) eqn:F;
    [injection E as <-; discriminate Hs|].
  destruct (_ && _) eqn:R; [|injection E as <-; discriminate Hs].
  destruct (String.eqb_spec actual (image component)) as [->|]; [|discriminate F].
  apply negb_false_iff, String.eqb_eq in F. autorewrite with pyguard in R. destruct_and!.
  by split.
Qed.

Lemma set_eqb_singleton (l : list string) (x : string) :
  set_eqb l [x] = true <-> l <> [] /\ Forall (eq x) l.
Proof.
  unfold set_eqb. rewrite andb_true_iff, !subsetb_spec, Forall_forall. split.
  - intros [H1 H2]. split; [intros ->; set_solver|]. intros y Hy. apply H1 in Hy. set_solver.
  - intros [Hne Hall]. split; [intros y Hy%Hall; set_solver|].
    destruct l as [|y l]; [done|]. rewrite <- (Hall y) by set_solver. set_solver.
Qed.

Lemma overall_running (desired_state : string) (observed : list obj) :
  overall_state desired_state observed = "running" <->
  desired_state <> "stopped" /\ observed <> [] /\ Forall (fun c => component_state c = "running") observed.
Proof.
  unfold overall_state. destruct (String.eqb_spec desired_state "stopped") as [->|Hne].
  { split; [|by intros [? _]]. by destruct (set_eqb _ _). }
  split.
  - destruct (mem "degraded" _); [done|]. destruct (set_eqb _ _) eqn:E; [|done].
    intros _. apply set_eqb_singleton in E as [H1 H2]. split; [done|].
    split; [by intros ->|]. apply (proj1 (Forall_map _ _ _)) in H2. eapply Forall_impl; [exact H2|]. by intros c <-.
  - intros (_ & Hne' & Hall).
    assert (Forall (eq "running") (map component_state observed)) as H2.
    { apply Forall_map. eapply Forall_impl; [exact Hall|]. by intros c ->. }
    destruct (mem "degraded" _) eqn:D.
    { apply mem_In in D. rewrite Forall_forall in H2. by apply H2 in D. }
    rewrite (proj2 (set_eqb_singleton _ _)); [done|]. split; [by destruct observed|done].
Qed.
