(* ===== verification/Service.v ===== *)
(** The reconciler (dealhost/runtime_controller_service/service.py): deploy, action,
    undeploy, observe and logs of one runtime deployment, over the Kubernetes client
    interface and under the deployment's lease.

    [Reconciler] holds the code; it runs over any client, in particular over the
    client of a held lease ([deploy], [action] and [undeploy] below). *)

From Stdlib Require Import QArith.
From S2P Require Import Prelude PyValue Regex Json Config Contract Resources Kube Lease Status.
#[local] Open Scope string_scope.
#[local] Open Scope list_scope.
#[local] Open Scope Z_scope.

Definition _CATALOG_MANAGED_BY : string := "archideal-operator".
Definition _CATALOG_LABEL : string := "archideal.io/runtime-secret-catalog".

(** ** str() and splitlines() *)
Fixpoint py_repr (v : pyval) : string :=
  match v with
  | PNone => "None"
  | PBool b => if b then "True" else "False"
  | PInt n => py_str_int n
  | PFloat r => r
  | PStr s => repr_str s
  | PList l => ("[" ++ String.concat ", " (map py_repr l) ++ "]")%string
  | PDict d => ("{" ++ String.concat ", " (map (fun kv => (repr_str kv.1 ++ ": " ++ py_repr kv.2)%string) d) ++ "}")%string
  end.
Definition py_str (v : pyval) : string := match v with PStr s => s | _ => py_repr v end.

(** The line boundaries of [str.splitlines]; CR LF is one boundary. *)
Definition line_breaks : list string :=
  [bytes [10]; bytes [13]; bytes [11]; bytes [12]; bytes [28]; bytes [29]; bytes [30];
   bytes [194; 133]; bytes [226; 128; 168]; bytes [226; 128; 169]].
Fixpoint split_lines (line : string) (pending : bool) (l : list string) : list string :=
  match l with
  | [] => if pending then [line] else []
  | c :: r =>
      if mem c line_breaks then
        match r with
        | c2 :: r2 =>
            if String.eqb c (bytes [13]) && String.eqb c2 (bytes [10])
            then line :: split_lines "" false r2
            else line :: split_lines "" false r
        | [] => [line]
        end
      else split_lines (line ++ c)%string true r
  end.
Definition splitlines (s : string) : list string := split_lines "" false (pychars s).

(** [lines[-n:]]. *)
Definition last_lines {A} (n : Z) (lines : list A) : list A :=
  if n <=? 0 then skipn (Z.to_nat (- n)) lines
  else skipn (length lines - Z.to_nat n) lines.

(** [list.sort(key=..., reverse=True)]: descending and stable. *)
Fixpoint insert_desc {A} (key : A -> string) (x : A) (l : list A) : list A :=
  match l with
  | [] => [x]
  | y :: r => if String.ltb (key x) (key y) then y :: insert_desc key x r else x :: l
  end.
Definition sort_desc {A} (key : A -> string) (l : list A) : list A := fold_right (insert_desc key) [] l.

Section Pure.
Context (settings : ControllerSettings).

(** ** The stored state *)
Definition _phase (state : obj) : res string :=
  let phase := match vget "data" state with PDict data => vget "phase" data | _ => PNone end in
  known ← in_set phase ["reconciling"; "active"; "stopped"; "deleting"; "deleted"];
  match phase with
  | PStr p => if (known : bool) then Ok p else Raise (RuntimeConflict "The runtime state phase is invalid.")
  | _ => Raise (RuntimeConflict "The runtime state phase is invalid.")
  end.

Definition corrupted : pyexn := RuntimeConflict "The runtime state object is corrupted.".
Definition _desired_from_state (state : obj) : res DesiredDeployment :=
  match vget "data" state with
  | PDict data =>
      match vget "desired.json" data with
      | PStr text =>
          match loads text with
          | Ok payload => parse_desired_deployment payload settings true
          | Raise _ => Raise corrupted
          end
      | _ => Raise corrupted
      end
  | _ => Raise corrupted
  end.

Definition _deletion_desired (desired : DesiredDeployment) (generation : Z) : DesiredDeployment := {|
  deployment_id := deployment_id desired; d_environment := d_environment desired;
  Contract.generation := generation; desired_state := "absent";
  release_digest := release_digest desired; manifest := manifest desired;
  components := components desired;
  normalized_payload := PDict (dset "desired_state" (PStr "absent")
    (dset "generation" (PInt generation) (dict_or_empty (normalized_payload desired)))) |}.

(** ** Ownership *)
Definition foreign : pyexn :=
  RuntimeConflict "A target Kubernetes resource is not owned by this runtime deployment.".

(** The identity test of [_assert_owned] on a fetched object. *)
Definition owned_by (name : string) (desired : DesiredDeployment) (component_slug : string)
    (resource : obj) : bool :=
  match vget "metadata" resource with
  | PDict metadata =>
      match vget "labels" metadata with
      | PDict labels =>
          eq_str (vget "name" metadata) name
          && eq_str (vget "namespace" metadata) (namespace settings)
          && eq_str (vget "app.kubernetes.io/managed-by" labels) MANAGED_BY
          && eq_str (vget DEPLOYMENT_LABEL labels) (deployment_id desired)
          && eq_str (vget ENVIRONMENT_LABEL labels) (d_environment desired)
          && (String.eqb component_slug "" || eq_str (vget COMPONENT_LABEL labels) component_slug)
      | _ => false
      end
  | _ => false
  end.

(** ** The secret catalog *)
(** [required]: the environment keys asked of each logical secret, in first-use order. *)
Definition add_required (required : list (string * list string)) (ref : string * string)
    : list (string * list string) :=
  let '(environment_key, logical_name) := ref in
  let known := dget_or logical_name [] required in
  dset logical_name (if mem environment_key known then known else known ++ [environment_key]) required.
Definition required_secrets (desired : DesiredDeployment) : list (string * list string) :=
  fold_left add_required (flat_map secret_refs (components desired)) [].

Definition _unique_object (pairs : list (string * pyval)) : res pyval :=
  PDict <$> foldM_res (fun result kv =>
    if has_key kv.1 result then Raise (ValueError "Duplicate runtime secret catalog key.")
    else Ok (dset kv.1 kv.2 result)) [] pairs.

Definition unavailable : pyexn :=
  ContractError "Runtime secret references are not provisioned." "secret_reference_unavailable" 422.
Definition catalog_invalid : pyexn := RuntimeConflict "The runtime secret catalog is invalid.".

Definition as_str (v : pyval) : option string := match v with PStr s => Some s | _ => None end.

Definition check_catalog_entry (data : obj) (request : string * list string) : res unit :=
  let '(logical_name, requested_keys) := request in
  match vget logical_name data with
  | PStr raw_entry =>
      if 4096 <? py_len raw_entry then Raise unavailable
      else
        match loads_with _unique_object raw_entry with
        | Raise _ => Raise catalog_invalid
        | Ok (PDict entry) =>
            if negb (set_eqb (keys entry) ["secret_name"; "keys"]) then Raise catalog_invalid
            else
              match vget "keys" entry with
              | PList items =>
                  match mapM as_str items with
                  | Some ks =>
                      if negb (eq_str (vget "secret_name" entry) (resolved_secret_name settings logical_name))
                         || (50 <? Z.of_nat (length ks))
                         || negb (forallb (fullmatch _ENV_KEY) ks)
                         || negb (nodupb ks)
                         || negb (bool_decide (ks = sort_strings ks))
                         || negb (subsetb requested_keys ks)
                      then Raise unavailable else Ok tt
                  | None => Raise unavailable
                  end
              | _ => Raise unavailable
              end
        | Ok _ => Raise catalog_invalid
        end
  | _ => Raise unavailable
  end.

Definition check_catalog (catalog : option obj) (required : list (string * list string)) : res unit :=
  match catalog with
  | None => Raise unavailable
  | Some catalog =>
      let identity := RuntimeConflict "The runtime secret catalog identity is invalid." in
      _ ← match vget "metadata" catalog with
          | PDict metadata =>
              match vget "labels" metadata with
              | PDict labels =>
                  raise_if (negb (eq_str (vget "name" metadata) (secret_catalog_name settings))
                            || negb (eq_str (vget "namespace" metadata) (secret_catalog_namespace settings))
                            || negb (eq_str (vget "app.kubernetes.io/managed-by" labels) _CATALOG_MANAGED_BY)
                            || negb (eq_str (vget _CATALOG_LABEL labels) "true")) identity
              | _ => Raise identity
              end
          | _ => Raise identity
          end;
      match vget "data" catalog with
      | PDict data => foldM_res (fun _ request => check_catalog_entry data request) tt required
      | _ => Raise catalog_invalid
      end
  end.

(** ** Tombstones *)
(** The deployment a listed ConfigMap is the terminal state of. *)
Definition tombstone (resource : obj) : res (option string) :=
  match vget "metadata" resource with
  | PDict metadata =>
      match vget "labels" metadata, vget "name" metadata, vget "data" resource with
      | PDict labels, PStr name, data =>
          match vget DEPLOYMENT_LABEL labels with
          | PStr deployment_id =>
              _ ← encode_utf8 deployment_id;
              Ok (if String.eqb name (state_name deployment_id)
                     && match data with PDict data => eq_str (vget "phase" data) "deleted" | _ => false end
                     && negb (has_key COMPONENT_LABEL labels)
                  then Some name else None)
          | _ => Ok None
          end
      | _, _, _ => Ok None
      end
  | _ => Ok None
  end.

(** ** Pods by component label, in list order *)
Definition pod_component (pod : obj) : res (option string) :=
  labels ← attr_get_or "labels" (PDict []) (dget_or "metadata" (PDict []) pod);
  Ok (match labels with
      | PDict labels => match vget COMPONENT_LABEL labels with PStr c => Some c | _ => None end
      | _ => None
      end).
Definition group_pods (pods : list obj) : res (list (string * list obj)) :=
  foldM_res (fun groups pod =>
    component ← pod_component pod;
    Ok (match component with
        | Some c => dset c (dget_or c [] groups ++ [pod]) groups
        | None => groups
        end)) [] pods.
End Pure.

Section Reconciler.
Context (settings : ControllerSettings) {W : Type} `{KubeClient W}.

(** ** Reading the state *)
Definition _state (deployment_id : string) : M W (option obj) :=
  state ← k_get "ConfigMap" (state_name deployment_id) None;
  match state with
  | None => mret None
  | Some state =>
      labels ← lift (attr_get_or "labels" (PDict []) (dget_or "metadata" (PDict []) state));
      match labels with
      | PDict labels =>
          if eq_str (vget "app.kubernetes.io/managed-by" labels) MANAGED_BY
             && eq_str (vget DEPLOYMENT_LABEL labels) deployment_id
          then mret (Some state)
          else raise (RuntimeConflict "The runtime state object identity is invalid.")
      | _ => raise (RuntimeConflict "The runtime state object identity is invalid.")
      end
  end.

(** ** Preflight *)
Definition _cleanup_legacy_tombstones : M W unit :=
  resources ← k_list "ConfigMap" ("app.kubernetes.io/managed-by=" ++ MANAGED_BY);
  forM_ resources (fun resource =>
    t ← lift (tombstone resource);
    match t with Some name => k_delete "ConfigMap" name | None => mret tt end).

Definition _assert_owned (kind name : string) (desired : DesiredDeployment) (component_slug : string)
    : M W bool :=
  resource ← k_get kind name None;
  match resource with
  | None => mret false
  | Some resource =>
      if owned_by settings name desired component_slug resource then mret true else raise foreign
  end.

(** The objects of one component, in the order the ownership check visits them. *)
Definition component_objects (deployment_id slug : string) : list (string * string) :=
  let name := component_name deployment_id slug "" in
  [("Deployment", name); ("Service", name); ("HorizontalPodAutoscaler", name);
   ("ConfigMap", component_name deployment_id slug "-cfg")].

Definition owned_targets (desired : DesiredDeployment) : list (string * string * string) :=
  flat_map (fun c => map (fun '(kind, name) => (kind, name, slug c))
                       (component_objects (deployment_id desired) (slug c))) (components desired).

Fixpoint assert_all (desired : DesiredDeployment) (targets : list (string * string * string))
    (present : bool) : M W bool :=
  match targets with
  | [] => mret present
  | (kind, name, slug) :: rest =>
      owned ← _assert_owned kind name desired slug;
      assert_all desired rest (owned || present)
  end.

Definition _assert_owned_resources (desired : DesiredDeployment) : M W bool :=
  present ← _assert_owned "ConfigMap" (state_name (deployment_id desired)) desired "";
  assert_all desired (owned_targets desired) present.

Definition _validate_secret_catalog (desired : DesiredDeployment) : M W unit :=
  let required := required_secrets desired in
  match required with
  | [] => mret tt
  | _ =>
      catalog ← k_get "ConfigMap" (secret_catalog_name settings) (Some (secret_catalog_namespace settings));
      lift (check_catalog settings catalog required)
  end.

Definition _preflight_deploy (desired : DesiredDeployment) : M W unit :=
  _ ← _validate_secret_catalog desired;
  _ ← _assert_owned_resources desired;
  mret tt.

(** [self.kubernetes.apply(resource)] on a rendered object. *)
Definition apply_resource (resource : pyval) : M W unit :=
  _ ← k_apply (dict_or_empty resource); mret tt.

Definition apply_state (desired : DesiredDeployment) (phase request_id : string) : M W unit :=
  resource ← lift (state_config_map desired settings phase request_id);
  apply_resource resource.

(** ** observe *)
Fixpoint any_present (targets : list (string * string)) (remaining : bool) : M W bool :=
  match targets with
  | [] => mret remaining
  | (kind, name) :: rest =>
      resource ← k_get kind name None;
      any_present rest (remaining || bool_decide (is_Some resource))
  end.

Definition deleting_targets (deployment_id slug : string) : list (string * string) :=
  let name := component_name deployment_id slug "" in
  [("Deployment", name); ("Service", name);
   ("ConfigMap", component_name deployment_id slug "-cfg"); ("HorizontalPodAutoscaler", name)].

Definition observe_component (deployment_id : string) (desired : DesiredDeployment)
    (pods_by_component : list (string * list obj)) (component : Component) : M W obj :=
  deployment ← k_get "Deployment" (component_name deployment_id (slug component) "") None;
  lift (_component_status desired component deployment
          (dget_or (slug component) [] pods_by_component)).

Definition observe (deployment_id : string) : M W RuntimeResult :=
  state ← _state deployment_id;
  match state with
  | None => raise RuntimeNotFound
  | Some state =>
      desired ← lift (_desired_from_state settings state);
      phase ← lift (_phase state);
      if String.eqb phase "deleted" then
        _ ← k_delete "ConfigMap" (state_name deployment_id);
        mret (_deleted_result desired)
      else if String.eqb phase "deleting" then
        remaining ← any_present
          (flat_map (fun c => deleting_targets deployment_id (slug c)) (components desired)) false;
        if (remaining : bool) then
          mret {| rr_deployment_id := deployment_id; rr_state := "deleting";
                  rr_message := "Runtime resources are terminating.";
                  rr_observed_generation := generation desired;
                  rr_components := map _deleting_component (components desired) |}
        else
          _ ← k_delete "ConfigMap" (state_name deployment_id);
          mret (_deleted_result desired)
      else
        pods ← k_list "Pod" (selector deployment_id None);
        pods_by_component ← lift (group_pods pods);
        observed ← mapM_M (observe_component deployment_id desired pods_by_component) (components desired);
        mret {| rr_deployment_id := deployment_id;
                rr_state := overall_state (desired_state desired) observed;
                rr_message := first_error observed;
                rr_observed_generation := generation desired;
                rr_components := observed |}
  end.

(** ** deploy *)
Definition deploy_component (desired : DesiredDeployment) (restart_request : string)
    (component : Component) : M W unit :=
  let name := component_name (deployment_id desired) (slug component) "" in
  let autoscale := match scaling component with Autoscale _ _ _ => true | Fixed _ => false end in
  _ ← (if String.eqb (desired_state desired) "stopped" || negb autoscale
       then k_delete "HorizontalPodAutoscaler" name else mret tt);
  _ ← apply_resource (component_config_map desired component settings);
  _ ← apply_resource (deployment_resource desired component settings restart_request);
  _ ← apply_resource (service_resource desired component settings);
  if String.eqb (desired_state desired) "running" && autoscale then
    resource ← lift (hpa_resource desired component settings);
    apply_resource resource
  else mret tt.

(** The admission checks against the stored state. *)
Definition admit_deploy (desired : DesiredDeployment) (current : option obj) (require_existing : bool)
    : res unit :=
  match current with
  | None => raise_if require_existing RuntimeNotFound
  | Some current =>
      current_desired ← _desired_from_state settings current;
      phase ← _phase current;
      _ ← raise_if (mem phase ["deleting"; "deleted"])
            (RuntimeConflict "A deleted runtime identifier cannot be reused.");
      _ ← raise_if (generation desired <? generation current_desired)
            (RuntimeConflict "The requested runtime generation is stale.");
      if generation desired =? generation current_desired then
        new ← payload_digest (normalized_payload desired);
        old ← payload_digest (normalized_payload current_desired);
        raise_if (negb (String.eqb new old))
          (RuntimeConflict "The runtime generation was already used for another desired state.")
      else Ok tt
  end.

Definition final_phase (desired : DesiredDeployment) : string :=
  if String.eqb (desired_state desired) "running" then "active" else "stopped".

Definition _deploy_unlocked (desired : DesiredDeployment) (request_id : string)
    (require_existing : bool) (restart_request : string) : M W RuntimeResult :=
  current ← _state (deployment_id desired);
  _ ← lift (admit_deploy desired current require_existing);
  _ ← _cleanup_legacy_tombstones;
  _ ← _preflight_deploy desired;
  _ ← apply_state desired "reconciling" request_id;
  _ ← forM_ (components desired) (deploy_component desired restart_request);
  _ ← apply_state desired (final_phase desired) request_id;
  observe (deployment_id desired).

(** ** undeploy *)
Definition deletion_targets (deployment_id slug : string) : list (string * string) :=
  let name := component_name deployment_id slug "" in
  [("HorizontalPodAutoscaler", name); ("Deployment", name); ("Service", name);
   ("ConfigMap", component_name deployment_id slug "-cfg")].

(** The checks of a DELETE payload against its path. *)
Definition admit_delete (deployment_id : string) (desired : option DesiredDeployment) : res unit :=
  match desired with
  | None => Ok tt
  | Some d =>
      _ ← raise_if (negb (String.eqb (desired_state d) "absent"))
            (invalid "DELETE requires absent desired state.");
      raise_if (negb (String.eqb (Contract.deployment_id d) deployment_id))
        (invalid "DELETE payload identifier does not match its path.")
  end.

(** The desired state that a deletion of [current] records. *)
Definition deletion_of (current : obj) (desired : option DesiredDeployment) : res DesiredDeployment :=
  current_desired ← _desired_from_state settings current;
  match desired with
  | Some d =>
      _ ← raise_if (generation d <? generation current_desired)
            (RuntimeConflict "The requested runtime generation is stale.");
      _ ← raise_if (negb (String.eqb (release_digest d) (release_digest current_desired)))
            (RuntimeConflict "DELETE cannot replace the immutable runtime release.");
      Ok (_deletion_desired current_desired (generation d))
  | None => Ok (_deletion_desired current_desired (generation current_desired))
  end.

(** [except RuntimeNotFound]: the class is the only one with this code. *)
Definition is_not_found (e : pyexn) : bool :=
  match e with ContractError _ code _ => String.eqb code "runtime_not_found" | _ => false end.
Definition observe_deleted (deployment_id : string) (current_desired : DesiredDeployment)
    : M W RuntimeResult :=
  fun w =>
    match observe deployment_id w with
    | (Raise e, w) => if is_not_found e then (Ok (_deleted_result current_desired), w) else (Raise e, w)
    | r => r
    end.

(** From the recorded deletion to the observed outcome. *)
Definition delete_resources (deployment_id request_id : string) (current_desired : DesiredDeployment)
    : M W RuntimeResult :=
  _ ← apply_state current_desired "deleting" request_id;
  _ ← forM_ (flat_map (fun c => deletion_targets deployment_id (slug c)) (components current_desired))
        (fun '(kind, name) => k_delete kind name);
  observe_deleted deployment_id current_desired.

Definition _undeploy_unlocked (deployment_id request_id : string) (desired : option DesiredDeployment)
    : M W RuntimeResult :=
  current ← _state deployment_id;
  _ ← lift (admit_delete deployment_id desired);
  match current with
  | None =>
      match desired with
      | None => mret {| rr_deployment_id := deployment_id; rr_state := "deleted"; rr_message := "";
                        rr_observed_generation := 0; rr_components := [] |}
      | Some d =>
          present ← _assert_owned_resources d;
          if (present : bool) then delete_resources deployment_id request_id d
          else mret (_deleted_result d)
      end
  | Some state =>
      current_desired ← lift (deletion_of state desired);
      phase ← lift (_phase state);
      if String.eqb phase "deleted" then
        _ ← k_delete "ConfigMap" (state_name deployment_id);
        mret (_deleted_result current_desired)
      else
        _ ← _assert_owned_resources current_desired;
        delete_resources deployment_id request_id current_desired
  end.

(** ** logs *)
Definition creation_key (pod : obj) : res string :=
  v ← attr_get_or "creationTimestamp" (PStr "") (dget_or "metadata" (PDict []) pod);
  Ok (py_str v).

Definition logs (deployment_id component_slug : string) (tail_lines since_seconds : Z) : M W LogResult :=
  state ← _state deployment_id;
  match state with
  | None => raise RuntimeNotFound
  | Some state =>
      phase ← lift (_phase state);
      if mem phase ["deleting"; "deleted"] then raise RuntimeNotFound
      else
        desired ← lift (_desired_from_state settings state);
        if negb (mem component_slug (slug <$> components desired)) then
          raise (ContractError "The requested component is outside the runtime release."
                   "component_not_found" 404)
        else
          pods ← k_list "Pod" (selector deployment_id (Some component_slug));
          let candidates := List.filter (fun pod => mem (_pod_phase pod) ["Running"; "Succeeded"]) pods in
          keyed ← lift (mapM_res (fun pod => k ← creation_key pod; Ok (k, pod)) candidates);
          match sort_desc fst keyed with
          | [] => raise (ContractError "No runtime pod is available for logs." "logs_unavailable" 409)
          | (_, pod) :: _ =>
              name ← lift (attr_get_or "name" PNone (dget_or "metadata" (PDict []) pod));
              match named name with
              | None => raise (RuntimeConflict "Kubernetes returned an invalid runtime pod.")
              | Some pod_name =>
                  content ← k_pod_logs pod_name "main" tail_lines since_seconds;
                  let lines := splitlines content in
                  let truncated := tail_lines <? Z.of_nat (length lines) in
                  let lines := if truncated then last_lines tail_lines lines else lines in
                  version ← lift (attr_get_or "resourceVersion" (PStr "") (dget_or "metadata" (PDict []) pod));
                  mret {| lr_lines := lines; lr_cursor := py_take 500 (pod_name ++ ":" ++ py_str version);
                          lr_truncated := truncated |}
              end
          end
  end.
End Reconciler.

(** ** The operations under the lease *)
Section Locked.
Context (settings : ControllerSettings) {W : Type} `{KubeClient W} `{Runtime W}.

Definition deploy (desired : DesiredDeployment) (request_id : string) (require_existing : bool)
    (restart_request : string) : M W RuntimeResult :=
  hold settings (deployment_id desired) (fun client =>
    _deploy_unlocked settings (H := client) desired request_id require_existing restart_request).

(** [action.title()]. *)
Definition title (action : string) : string :=
  if String.eqb action "restart" then "Restart" else "Redeploy".

Definition admit_action (desired : DesiredDeployment) (action : string) : res unit :=
  let running := String.eqb (desired_state desired) "running" in
  _ ← raise_if (String.eqb action "start" && negb running) (invalid "Start requires running desired state.");
  _ ← raise_if (String.eqb action "stop" && negb (String.eqb (desired_state desired) "stopped"))
        (invalid "Stop requires stopped desired state.");
  _ ← raise_if (mem action ["restart"; "redeploy"] && negb running)
        (invalid (title action ++ " requires running desired state."));
  raise_if (negb (mem action ["start"; "stop"; "restart"; "redeploy"]))
    (ContractError "The runtime action is unsupported." "invalid_runtime_contract" 404).

Definition action (desired : DesiredDeployment) (action request_id : string) : M W RuntimeResult :=
  _ ← lift (admit_action desired action);
  hold settings (deployment_id desired) (fun client =>
    _deploy_unlocked settings (H := client) desired request_id true
      (if mem action ["restart"; "redeploy"] then request_id else "")).

Definition undeploy (deployment_id request_id : string) (desired : option DesiredDeployment)
    : M W RuntimeResult :=
  hold settings deployment_id (fun client =>
    _undeploy_unlocked settings (H := client) deployment_id request_id desired).
End Locked.
