(* ===== verification/KubeLaws.v ===== *)
(** What the controller relies on of the Kubernetes API, as laws of [KubeClient], and
    what of it survives under a held lease.

    The laws speak of the namespace's objects other than leases.  Reads do not change
    them; an apply changes at most its own object and, when it succeeds, leaves there
    an object that has at least the applied fields (server-side apply with force); a
    delete changes at most its own object.  A failed call may or may not have had its
    effect.  The client has no contract errors of its own. *)

From Stdlib Require Import QArith.
From S2P Require Import Prelude PyValue Config Resources Kube Lease.
#[local] Open Scope string_scope.
#[local] Open Scope list_scope.
#[local] Open Scope Z_scope.

Definition key : Type := string * string.
Definition store : Type := gmap key obj.

(** Kind and name of an object. *)
Definition obj_key (o : obj) : option key :=
  match vget "kind" o, vget "metadata" o with
  | PStr kind, PDict metadata => pair kind <$> named (vget "name" metadata)
  | _, _ => None
  end.

(** [covers v u]: every field of the applied [v] is in [u]; the server may add fields
    to mappings and rewrite sequences. *)
Fixpoint covers (v u : pyval) : bool :=
  match v, u with
  | PDict d, PDict e =>
      (fix go (d : list (string * pyval)) : bool :=
         match d with
         | [] => true
         | (k, x) :: d => match dget k e with Some y => covers x y && go d | None => false end
         end) d
  | PList _, PList _ => true
  | PDict _, _ | PList _, _ => false
  | _, _ => bool_decide (v = u)
  end.

Class KubeLaws (W : Type) `{KubeClient W} := {
  objects : W -> store;
  get_law : forall kind name ns w r w', k_get kind name ns w = (r, w') ->
    objects w' = objects w /\
    (kind <> "Lease" -> ns = None -> forall o, r = Ok o -> o = objects w !! ((kind, name) : key));
  list_law : forall kind sel w r w', k_list kind sel w = (r, w') ->
    objects w' = objects w /\
    forall l o name, r = Ok l -> o ∈ l -> vget "name" (match vget "metadata" o with PDict m => m | _ => [] end) = PStr name ->
      objects w !! ((kind, name) : key) = Some o;
  apply_law : forall o k w r w', k_apply o w = (r, w') -> obj_key o = Some k ->
    (forall k', k' <> k -> objects w' !! k' = objects w !! k') /\
    (forall a, r = Ok a -> exists o', objects w' !! k = Some o' /\ covers (PDict o) (PDict o') = true);
  delete_law : forall kind name w r w', k_delete kind name w = (r, w') ->
    forall k', k' <> (kind, name) -> objects w' !! k' = objects w !! k';
  get_errors : forall kind name ns w d c s w', k_get kind name ns w <> (Raise (ContractError d c s), w');
  delete_errors : forall kind name w d c s w', k_delete kind name w <> (Raise (ContractError d c s), w');
  create_law : forall o w r w', k_create_lease o w = (r, w') -> objects w' = objects w;
  replace_law : forall o w r w', k_replace_lease o w = (r, w') -> objects w' = objects w;
  release_law : forall n h w r w', k_release_lease n h w = (r, w') -> objects w' = objects w;
  logs_law : forall p c t s w r w', k_pod_logs p c t s w = (r, w') -> objects w' = objects w
}.

(** The runtime's clock, timer and identifiers do not touch the cluster. *)
Class RuntimeFrame (W : Type) `{KubeLaws W, Runtime W} := {
  now_frame : forall w, objects (now_utc w).2 = objects w;
  monotonic_frame : forall w, objects (monotonic w).2 = objects w;
  sleep_frame : forall d w, objects (sleep d w).2 = objects w;
  uuid_frame : forall w, objects (uuid4_hex w).2 = objects w;
  timer_frame : forall d w, objects (timer_elapses d w).2 = objects w
}.

(** ** Computations that leave the objects alone *)
Section Quiet.
Context {W : Type} `{KubeLaws W}.

Definition quiet {A} (m : M W A) : Prop := forall w, objects (m w).2 = objects w.

Lemma quiet_ret {A} (a : A) : quiet (mret a).
Proof. by intros w. Qed.
Lemma quiet_raise {A} (e : pyexn) : quiet (raise e : M W A).
Proof. by intros w. Qed.
Lemma quiet_lift {A} (r : res A) : quiet (lift r).
Proof. by intros w. Qed.
Lemma quiet_bind {A B} (m : M W A) (f : A -> M W B) :
  quiet m -> (forall a, quiet (f a)) -> quiet (m ≫= f).
Proof.
  intros Hm Hf w. unfold mbind, M_bind. specialize (Hm w). destruct (m w) as [[a|e] w1]; [|done].
  by rewrite (Hf a w1).
Qed.
Lemma quiet_get (kind name : string) (ns : option string) : quiet (k_get kind name ns).
Proof. intros w. destruct (k_get kind name ns w) eqn:E. by apply get_law in E as [E _]. Qed.
Lemma quiet_list (kind sel : string) : quiet (k_list kind sel).
Proof. intros w. destruct (k_list kind sel w) eqn:E. by apply list_law in E as [E _]. Qed.
Lemma quiet_create (o : obj) : quiet (k_create_lease o).
Proof. intros w. destruct (k_create_lease o w) eqn:E. by apply create_law in E. Qed.
Lemma quiet_replace (o : obj) : quiet (k_replace_lease o).
Proof. intros w. destruct (k_replace_lease o w) eqn:E. by apply replace_law in E. Qed.
Lemma quiet_logs (p c : string) (t s : Z) : quiet (k_pod_logs p c t s).
Proof. intros w. destruct (k_pod_logs p c t s w) eqn:E. by apply logs_law in E. Qed.
Lemma quiet_mapM {A B} (f : A -> M W B) (l : list A) : (forall x, quiet (f x)) -> quiet (mapM_M f l).
Proof.
  intros Hf. induction l as [|x l IH]; [apply quiet_ret|]. cbn [mapM_M].
  apply quiet_bind; [done|]. intros y. apply quiet_bind; [done|]. intros ys. apply quiet_ret.
Qed.
Lemma quiet_run {A} (m : M W A) (w w' : W) (r : res A) : quiet m -> m w = (r, w') -> objects w' = objects w.
Proof. intros Hm E. specialize (Hm w). by rewrite E in Hm. Qed.
End Quiet.

Create HintDb frame.
#[export] Hint Resolve quiet_ret quiet_raise quiet_lift quiet_bind quiet_get quiet_list
  quiet_create quiet_replace quiet_logs quiet_mapM : frame.

(** ** Computations that change only the objects under some keys *)
Section Touches.
Context {W : Type} `{KubeLaws W}.

Definition touches (P : key -> Prop) {A} (m : M W A) : Prop :=
  forall w k, ~ P k -> objects (m w).2 !! k = objects w !! k.

Lemma touches_quiet (P : key -> Prop) {A} (m : M W A) : quiet m -> touches P m.
Proof. intros Hm w k _. by rewrite Hm. Qed.
Lemma touches_bind (P : key -> Prop) {A B} (m : M W A) (f : A -> M W B) :
  touches P m -> (forall a, touches P (f a)) -> touches P (m ≫= f).
Proof.
  intros Hm Hf w k Hk. unfold mbind, M_bind. specialize (Hm w k Hk).
  destruct (m w) as [[a|e] w1]; [|done]. by rewrite (Hf a w1 k Hk).
Qed.
Lemma touches_apply (P : key -> Prop) (o : obj) (k : key) :
  obj_key o = Some k -> P k -> touches P (k_apply o).
Proof.
  intros Hk HP w k' Hk'. destruct (k_apply o w) as [r w'] eqn:E.
  destruct (apply_law o k w r w' E Hk) as [F _]. apply F. by intros ->.
Qed.
Lemma touches_delete (P : key -> Prop) (kind name : string) :
  P (kind, name) -> touches P (k_delete kind name).
Proof.
  intros HP w k' Hk'. destruct (k_delete kind name w) as [r w'] eqn:E.
  apply (delete_law _ _ _ _ _ E). by intros ->.
Qed.
Lemma touches_forM (P : key -> Prop) {A} (l : list A) (f : A -> M W unit) :
  (forall x, x ∈ l -> touches P (f x)) -> touches P (forM_ l f).
Proof.
  induction l as [|x l IH]; intros Hf; [apply touches_quiet, quiet_ret|]. cbn [forM_].
  apply touches_bind; [apply Hf; set_solver|]. intros _. apply IH. set_solver.
Qed.
Lemma touches_weaken (P Q : key -> Prop) {A} (m : M W A) :
  (forall k, P k -> Q k) -> touches P m -> touches Q m.
Proof. intros HPQ Hm w k Hk. apply Hm. eauto. Qed.
Lemma touches_run (P : key -> Prop) {A} (m : M W A) (w w' : W) (r : res A) (k : key) :
  touches P m -> m w = (r, w') -> ~ P k -> objects w' !! k = objects w !! k.
Proof. intros Hm E Hk. specialize (Hm w k Hk). by rewrite E in Hm. Qed.
End Touches.

#[export] Hint Resolve touches_quiet touches_bind touches_apply touches_delete touches_forM : frame.

(** ** The laws under a held lease *)
Section Held.
Context (settings : ControllerSettings) {W : Type} `{KubeLaws W} `{Runtime W} `{!RuntimeFrame W}.
Context (name id holder : string).

Lemma renew_quiet : quiet (_renew settings name id holder).
Proof.
  unfold _renew. apply quiet_bind; [apply quiet_get|]. intros c.
  apply quiet_bind.
  { intros w. unfold pure. pose proof (now_frame w) as F. by destruct (now_utc w). }
  intros now. apply quiet_bind; [apply quiet_lift|].
  intros [|o|o]; [apply quiet_ret|apply quiet_create|apply quiet_replace].
Qed.

Lemma tick_quiet (h : held W) : objects (base (renewal_tick settings name id holder h).2) = objects (base h).
Proof.
  unfold renewal_tick. destruct (renewal h); try done. pose proof (renew_quiet (base h)) as Q.
  destruct (_renew settings name id holder (base h)) as [[[]|e] w]; simpl in *; try done.
  by destruct e.
Qed.

Lemma ticks_quiet (n : nat) (h : held W) :
  objects (base (renewal_ticks settings n name id holder h).2) = objects (base h).
Proof.
  revert h. induction n as [|n IH]; intros h; [done|]. cbn [renewal_ticks].
  pose proof (tick_quiet h) as T. destruct (renewal_tick settings name id holder h) as [[] h1]; [done|].
  simpl in T. by rewrite IH.
Qed.

Lemma checkpoint_quiet (h : held W) :
  objects (base (checkpoint settings name id holder h).2) = objects (base h).
Proof.
  unfold checkpoint. pose proof (timer_frame (renew_interval settings) (base h)) as T.
  destruct (timer_elapses _ _) as [n w]. rewrite ticks_quiet. done.
Qed.

(** An awaited call either was cancelled before it was sent, or ran once from a world
    with the same objects; its result is kept or replaced by the cancellation. *)
Lemma awaiting_spec {A} (op : M W A) (h h' : held W) (r : res A) :
  awaiting settings name id holder op h = (r, h') ->
  (r = Raise CancelledError /\ objects (base h') = objects (base h)) \/
  (exists w w1 r1, objects w = objects (base h) /\ op w = (r1, w1) /\
     objects (base h') = objects w1 /\ (r = Raise CancelledError \/ r = r1)).
Proof.
  unfold awaiting. pose proof (checkpoint_quiet h) as C1.
  destruct (checkpoint settings name id holder h) as [[] h1]; simpl in C1.
  - intros [= <- <-]. by left.
  - destruct (op (base h1)) as [r1 w1] eqn:E.
    set (h2 := {| base := w1; renewal := renewal h1; lease_lost := lease_lost h1 |}).
    pose proof (checkpoint_quiet h2) as C2.
    destruct (checkpoint settings name id holder h2) as [[] h3]; simpl in C2;
      intros [= <- <-]; right; exists (base h1), w1, r1; naive_solver.
Qed.

Lemma awaiting_frame {A} (op : M W A) (P : store -> store -> Prop) (h h' : held W) (r : res A) :
  (forall w w' r, op w = (r, w') -> P (objects w) (objects w')) -> (forall m, P m m) ->
  awaiting settings name id holder op h = (r, h') -> P (objects (base h)) (objects (base h')).
Proof.
  intros Hop Hrefl [[_ ->]|(w & w1 & r1 & Hw & E & -> & _)]%awaiting_spec; [done|].
  rewrite <- Hw. by eapply Hop.
Qed.

#[export] Instance held_laws : @KubeLaws (held W) (held_client settings name id holder).
Proof.
  refine (@Build_KubeLaws (held W) (held_client settings name id holder) (fun h => objects (base h))
            _ _ _ _ _ _ _ _ _ _); cbn [k_get k_list k_apply k_delete k_create_lease k_replace_lease
              k_release_lease k_pod_logs held_client].
  - intros kind n ns h r h' [[-> ->]|(w & w1 & r1 & Hw & E & -> & Hr)]%awaiting_spec; [naive_solver|].
    destruct (get_law _ _ _ _ _ _ E) as [-> G]. rewrite <- Hw. split; [done|].
    intros Hk Hns o ->. destruct Hr as [|<-]; [done|]. by apply G.
  - intros kind sel h r h' [[-> ->]|(w & w1 & r1 & Hw & E & -> & Hr)]%awaiting_spec; [naive_solver|].
    destruct (list_law _ _ _ _ _ E) as [-> G]. rewrite <- Hw. split; [done|].
    intros l o nm ->. destruct Hr as [|<-]; [done|]. by apply G.
  - intros o k h r h' [[-> ->]|(w & w1 & r1 & Hw & E & -> & Hr)]%awaiting_spec Hk; [naive_solver|].
    destruct (apply_law _ _ _ _ _ E Hk) as [F G]. rewrite <- Hw. split; [done|].
    intros a ->. destruct Hr as [|<-]; [done|]. by eapply G.
  - intros kind n h r h' E k' Hk'.
    apply (awaiting_frame _ (fun m m' => m' !! k' = m !! k') _ _ _ ltac:(intros; by eapply delete_law) ltac:(done) E).
  - intros kind n ns h d c s h' [[? _]|(w & w1 & r1 & _ & E & _ & [?|<-])]%awaiting_spec; [done|done|].
    by apply get_errors in E.
  - intros kind n h d c s h' [[? _]|(w & w1 & r1 & _ & E & _ & [?|<-])]%awaiting_spec; [done|done|].
    by apply delete_errors in E.
  - intros o h r h' E. symmetry.
    apply (awaiting_frame _ eq _ _ _ ltac:(intros; symmetry; by eapply create_law) ltac:(done) E).
  - intros o h r h' E. symmetry.
    apply (awaiting_frame _ eq _ _ _ ltac:(intros; symmetry; by eapply replace_law) ltac:(done) E).
  - intros n hd h r h' E. symmetry.
    apply (awaiting_frame _ eq _ _ _ ltac:(intros; symmetry; by eapply release_law) ltac:(done) E).
  - intros p c t s h r h' E. symmetry.
    apply (awaiting_frame _ eq _ _ _ ltac:(intros; symmetry; by eapply logs_law) ltac:(done) E).
Defined.
End Held.

(** ** hold, seen from its caller *)
Section Hold.
Context (settings : ControllerSettings) {W : Type} `{KubeLaws W} `{Runtime W} `{!RuntimeFrame W}.

Lemma pure_quiet {A} (f : W -> A * W) : (forall w, objects (f w).2 = objects w) -> quiet (pure f).
Proof. intros Hf w. unfold pure. specialize (Hf w). by destruct (f w). Qed.

Lemma try_acquire_quiet (name id h : string) : quiet (_try_acquire settings name id h).
Proof.
  unfold _try_acquire. apply quiet_bind; [apply pure_quiet, now_frame|]. intros now.
  apply quiet_bind; [apply quiet_get|]. intros c. apply quiet_bind; [apply quiet_lift|].
  intros [|o|o]; [apply quiet_ret|apply quiet_create|apply quiet_replace].
Qed.

Lemma acquire_loop_quiet (fuel : nat) (name id h : string) (deadline : Q) :
  quiet (acquire_loop settings fuel name id h deadline).
Proof.
  induction fuel as [|fuel IH]; [apply quiet_raise|]. cbn [acquire_loop].
  apply quiet_bind; [apply try_acquire_quiet|]. intros [|]; [apply quiet_ret|].
  apply quiet_bind; [apply pure_quiet, monotonic_frame|]. intros now.
  destruct (Qle_bool _ _); [apply quiet_raise|]. apply quiet_bind; [|done].
  intros w. apply sleep_frame.
Qed.

Lemma acquire_quiet (name id h : string) : quiet (_acquire settings name id h).
Proof.
  unfold _acquire. apply quiet_bind; [apply pure_quiet, monotonic_frame|]. intros start.
  apply acquire_loop_quiet.
Qed.

Lemma finish_spec {A} (name holder : string) (h : held W) (r r' : res A) (w' : W) :
  finish name holder h r = (r', w') ->
  objects w' = objects (base h) /\ (forall a, r' = Ok a -> r = Ok a).
Proof.
  unfold finish. destruct (body_outcome (lease_lost h) r) as [failed r1] eqn:B.
  assert (forall a, r1 = Ok a -> r = Ok a) as Hr.
  { intros a ->. unfold body_outcome in B. destruct r as [b|[]]; try done. congruence. }
  destruct (renewal h).
  3: by intros [= <- <-].
  all: destruct (k_release_lease name holder (base h)) as [[released|e] w] eqn:E; apply release_law in E;
    [destruct (_ && _); intros [= <- <-]; naive_solver|];
    destruct e; try (intros [= <- <-]; naive_solver); destruct failed; intros [= <- <-]; naive_solver.
Qed.

(** The body runs at most once, from a world with the same objects, over the client of
    the lease; a result of [hold] is the body's result. *)
Lemma hold_spec {A} (id : string) (body : KubeClient (held W) -> M (held W) A) (w w' : W) (r : res A) :
  hold settings id body w = (r, w') ->
  (exists e, r = Raise e /\ objects w' = objects w) \/
  (exists holder w1 h' r', objects w1 = objects w /\
     body (held_client settings (lease_name id) id holder)
       {| base := w1; renewal := Renewing; lease_lost := false |} = (r', h') /\
     objects w' = objects (base h') /\ (forall a, r = Ok a -> r' = Ok a)).
Proof.
  unfold hold, mbind, M_bind, pure. pose proof (uuid_frame w) as U.
  destruct (uuid4_hex w) as [holder w1]. simpl in U.
  pose proof (acquire_quiet (Resources.lease_name id) id holder w1) as Q.
  destruct (_acquire settings (Resources.lease_name id) id holder w1) as [[[]|e] w2]; simpl in Q;
    [|intros [= <- <-]; left; exists e; split; [done|congruence]].
  destruct (body _ _) as [r' h'] eqn:B. intros [F1 F2]%finish_spec. right.
  exists holder, w2, h', r'. split_and!; [congruence|done|done|done].
Qed.
End Hold.
