(* ===== verification/Cluster.v ===== *)
(** A concrete API server that satisfies the laws, for the witnesses: objects by kind
    and name, leases under optimistic concurrency, a clock that sleeping advances. *)

From Stdlib Require Import QArith Qminmax Lqa.
From S2P Require Import Prelude PyValue Config Kube Lease KubeLaws.
#[local] Open Scope string_scope.
#[local] Open Scope list_scope.
#[local] Open Scope Z_scope.

Record cluster := {
  c_objects : store;
  c_leases : gmap string obj;
  c_catalog : option obj;
  c_version : nat;
  c_clock : Q
}.

Definition set_objects (m : store) (w : cluster) : cluster :=
  {| c_objects := m; c_leases := c_leases w; c_catalog := c_catalog w; c_version := c_version w; c_clock := c_clock w |}.
Definition set_leases (m : gmap string obj) (w : cluster) : cluster :=
  {| c_objects := c_objects w; c_leases := m; c_catalog := c_catalog w; c_version := S (c_version w); c_clock := c_clock w |}.

Definition lease_key (o : obj) : option string :=
  match vget "metadata" o with PDict md => named (vget "name" md) | _ => None end.

(** Strict decoding refuses an object with duplicate keys. *)
Definition cluster_apply (o : obj) : M cluster obj := fun w =>
  match obj_key o with
  | Some k =>
      if covers (PDict o) (PDict o) then (Ok o, set_objects (<[k := o]> (c_objects w)) w)
      else (Raise (kube_error "The Kubernetes API rejected the object."), w)
  | None => (Raise (ValueError "Unsupported Kubernetes resource."), w)
  end.
Definition cluster_get (kind name : string) (ns : option string) : M cluster (option obj) := fun w =>
  (Ok (match ns with
       | Some _ => c_catalog w
       | None => if String.eqb kind "Lease" then c_leases w !! name else c_objects w !! (kind, name)
       end), w).
Definition object_name (o : obj) : pyval :=
  vget "name" (match vget "metadata" o with PDict m => m | _ => [] end).
Definition cluster_list (kind sel : string) : M cluster (list obj) := fun w =>
  (Ok (map snd (List.filter (fun kv => String.eqb kv.1.1 kind && eq_str (object_name kv.2) kv.1.2)
                  (map_to_list (c_objects w)))), w).
Definition cluster_delete (kind name : string) : M cluster unit := fun w =>
  (Ok tt, set_objects (stdpp.base.delete (kind, name) (c_objects w)) w).
Definition cluster_create (o : obj) : M cluster bool := fun w =>
  match lease_key o with
  | Some name =>
      match c_leases w !! name with
      | Some _ => (Ok false, w)
      | None => (Ok true, set_leases (<[name := stamp (c_version w) (PStr "uid") o]> (c_leases w)) w)
      end
  | None => (Raise (ValueError "Kubernetes Lease name is required."), w)
  end.
Definition cluster_replace (o : obj) : M cluster bool := fun w =>
  match lease_key o with
  | Some name =>
      match c_leases w !! name with
      | Some c =>
          if same_version o c
          then (Ok true, set_leases (<[name := stamp (c_version w) (PStr "uid") o]> (c_leases w)) w)
          else (Ok false, w)
      | None => (Ok false, w)
      end
  | None => (Raise (ValueError "Kubernetes Lease name is required."), w)
  end.
Definition cluster_release (name holder : string) : M cluster bool := fun w =>
  match c_leases w !! name with
  | Some c =>
      if eq_str (spec_field "holderIdentity" c) holder
      then (Ok true, set_leases (stdpp.base.delete name (c_leases w)) w) else (Ok false, w)
  | None => (Ok false, w)
  end.
Definition cluster_logs (pod container : string) (tail since : Z) : M cluster string := fun w =>
  (Ok (String.concat (bytes [10]) ["line 1"; "line 2"; "line 3"]), w).

#[export] Instance cluster_client : KubeClient cluster := {|
  k_apply := cluster_apply; k_get := cluster_get; k_list := cluster_list; k_delete := cluster_delete;
  k_create_lease := cluster_create; k_replace_lease := cluster_replace;
  k_release_lease := cluster_release; k_pod_logs := cluster_logs |}.

#[export] Instance cluster_laws : KubeLaws cluster.
Proof.
  refine {| objects := c_objects |}; cbn [k_get k_list k_apply k_delete k_create_lease k_replace_lease
    k_release_lease k_pod_logs cluster_client].
  - intros kind name ns w r w' [= <- <-]. split; [done|]. intros Hk -> o [= <-].
    by rewrite (proj2 (String.eqb_neq _ _) Hk).
  - intros kind sel w r w' [= <- <-]. split; [done|]. intros l o name [= <-] Ho Hn.
    apply list_elem_of_In, in_map_iff in Ho as ([[kd nm] o'] & E & Ho). simpl in E. subst o'.
    apply filter_In in Ho as [Hin Hf]. apply andb_true_iff in Hf as [Hkd Hnm]. simpl in Hkd, Hnm.
    apply String.eqb_eq in Hkd as ->. unfold object_name in Hnm. rewrite Hn in Hnm. simpl in Hnm.
    apply String.eqb_eq in Hnm as ->. by apply elem_of_map_to_list, list_elem_of_In.
  - intros o k w r w'. unfold cluster_apply. intros E Hk. rewrite Hk in E.
    destruct (covers (PDict o) (PDict o)) eqn:C; injection E as <- <-; [|done]. split.
    + intros k' Hk'. refine (lookup_insert_ne _ _ _ _ _); congruence.
    + intros a [= <-]. exists o. split; [refine (lookup_insert_eq _ _ _)|done].
  - intros kind name w r w' [= <- <-] k' Hk'. refine (lookup_delete_ne _ _ _ _); congruence.
  - done.
  - done.
  - intros o w r w'. unfold cluster_create. destruct (lease_key o); [destruct (_ !! _)|]; by intros [= <- <-].
  - intros o w r w'. unfold cluster_replace.
    destruct (lease_key o); [destruct (_ !! _); [destruct (same_version _ _)|]|]; by intros [= <- <-].
  - intros n h w r w'. unfold cluster_release. destruct (_ !! _); [destruct (eq_str _ _)|]; by intros [= <- <-].
  - by intros p c t s w r w' [= <- <-].
Defined.

#[export] Instance cluster_runtime : Runtime cluster := {|
  now_utc := fun w => (1767225599123456, w);
  monotonic := fun w => (c_clock w, w);
  sleep := fun d w => (Ok tt, {| c_objects := c_objects w; c_leases := c_leases w; c_catalog := c_catalog w;
                                 c_version := c_version w; c_clock := (c_clock w + Qmax 0 d)%Q |});
  uuid4_hex := fun w => ("5f2c8d3e9a7b41c0b6d4e8f1a2c3d4e5", w);
  timer_elapses := fun _ w => (0%nat, w) |}.

#[export] Instance cluster_frame : RuntimeFrame cluster.
Proof. by split. Qed.

#[export] Instance cluster_runtime_laws : RuntimeLaws cluster.
Proof.
  refine {| mono := c_clock |}; cbn [k_get k_create_lease k_replace_lease cluster_client now_utc monotonic sleep cluster_runtime].
  - intros w. simpl. lra.
  - intros w. simpl. split; [reflexivity|lra].
  - intros d w r w' [= <- <-]. simpl. pose proof (Q.le_max_l 0 d). pose proof (Q.le_max_r 0 d).
    split; [done|]. split; [lra|]. intros _. lra.
  - intros kind n ns w r w' [= <- <-]. split; [done|lra].
  - intros o w r w'. unfold cluster_create.
    destruct (lease_key o); [destruct (_ !! _)|]; intros [= <- <-]; (split; [done|simpl; lra]).
  - intros o w r w'. unfold cluster_replace.
    destruct (lease_key o); [destruct (_ !! _); [destruct (same_version _ _)|]|]; intros [= <- <-]; (split; [done|simpl; lra]).
Qed.

Definition empty_cluster : cluster :=
  {| c_objects := ∅; c_leases := ∅; c_catalog := None; c_version := 1; c_clock := 0 |}.
