(* ===== verification/ServiceSpec.v ===== *)
(** Properties of the reconciler: which objects an operation may change, which
    requests change nothing, what the stored state decodes to and what a reported
    status means.  The client is any one that satisfies [KubeLaws]; the theorems about
    [deploy] and [undeploy] hold with renewals and cancellations interleaved. *)

From Stdlib Require Import QArith.
From S2P Require Import Prelude PyValue Regex Sha256 Json Config Contract ContractCanon Resources Kube Lease Status Service KubeLaws Cluster.
#[local] Open Scope string_scope.
#[local] Open Scope list_scope.
#[local] Open Scope Z_scope.

(** ** The objects of a deployment *)
Definition state_key (id : string) : key := ("ConfigMap", state_name id).
Definition footprint (desired : DesiredDeployment) : list key :=
  state_key (deployment_id desired) ::
  flat_map (fun c => component_objects (deployment_id desired) (slug c)) (components desired).

(** A key that holds the terminal state object of some deployment. *)
Definition tombstone_at (m : store) (k : key) : Prop :=
  exists (o : obj) name, k = ("ConfigMap", name) /\ m !! k = Some o /\ tombstone o = Ok (Some name).

Lemma state_map_key (d : DesiredDeployment) (s : ControllerSettings) (phase rid : string) (o : pyval) :
  state_config_map d s phase rid = Ok o -> obj_key (dict_or_empty o) = Some (state_key (deployment_id d)).
Proof. unfold state_config_map. intros (digest & _ & (text & _ & E)%bind_Ok)%bind_Ok. injection E as <-. done. Qed.

Lemma hpa_key (d : DesiredDeployment) (c : Component) (s : ControllerSettings) (o : pyval) :
  hpa_resource d c s = Ok o ->
  obj_key (dict_or_empty o) = Some ("HorizontalPodAutoscaler", component_name (deployment_id d) (slug c) "").
Proof. unfold hpa_resource. destruct (scaling c); [done|]. intros [= <-]. done. Qed.

Lemma component_in_footprint (d : DesiredDeployment) (c : Component) (k : key) :
  c ∈ components d -> k ∈ component_objects (deployment_id d) (slug c) -> k ∈ footprint d.
Proof.
  intros Hc Hk. right. apply list_elem_of_In, in_flat_map. exists c. by rewrite <- !list_elem_of_In.
Qed.

Section Frame.
Context (settings : ControllerSettings) {W : Type} `{KubeLaws W}.

Lemma state_quiet (id : string) : quiet (_state id).
Proof.
  unfold _state. apply quiet_bind; [auto with frame|]. intros [o|]; [|auto with frame].
  apply quiet_bind; [auto with frame|]. intros labels. destruct labels; auto with frame.
  destruct (_ && _); auto with frame.
Qed.

Lemma assert_owned_quiet (kind name : string) (d : DesiredDeployment) (c : string) :
  quiet (_assert_owned settings kind name d c).
Proof.
  unfold _assert_owned. apply quiet_bind; [auto with frame|]. intros [o|]; [|auto with frame].
  destruct (owned_by _ _ _ _ _); auto with frame.
Qed.

Lemma assert_all_quiet (d : DesiredDeployment) (l : list (string * string * string)) (b : bool) :
  quiet (assert_all settings d l b).
Proof.
  revert b. induction l as [|[[kind name] c] l IH]; intros b; [apply quiet_ret|]. cbn [assert_all].
  apply quiet_bind; [apply assert_owned_quiet|]. intros o. apply IH.
Qed.

Lemma assert_resources_quiet (d : DesiredDeployment) : quiet (_assert_owned_resources settings d).
Proof.
  unfold _assert_owned_resources. apply quiet_bind; [apply assert_owned_quiet|]. intros b. apply assert_all_quiet.
Qed.

Lemma validate_quiet (d : DesiredDeployment) : quiet (_validate_secret_catalog settings d).
Proof.
  unfold _validate_secret_catalog. destruct (required_secrets d); [auto with frame|]. apply quiet_bind; auto with frame.
Qed.

Lemma preflight_quiet (d : DesiredDeployment) : quiet (_preflight_deploy settings d).
Proof.
  unfold _preflight_deploy. apply quiet_bind.
  - apply validate_quiet.
  - intros _. apply quiet_bind; [apply assert_resources_quiet|]. auto with frame.
Qed.

Lemma apply_resource_touches (P : key -> Prop) (o : pyval) (k : key) :
  obj_key (dict_or_empty o) = Some k -> P k -> touches P (apply_resource o).
Proof. intros Hk HP. unfold apply_resource. eauto with frame. Qed.

Lemma apply_state_touches (P : key -> Prop) (d : DesiredDeployment) (phase rid : string) :
  P (state_key (deployment_id d)) -> touches P (apply_state settings d phase rid).
Proof.
  intros HP w k Hk. unfold apply_state, mbind, M_bind, lift.
  destruct (state_config_map d settings phase rid) as [o|e] eqn:E; [|done].
  by apply (apply_resource_touches P o _ (state_map_key _ _ _ _ _ E) HP).
Qed.

Lemma any_present_quiet (l : list (string * string)) (b : bool) : quiet (any_present l b).
Proof.
  revert b. induction l as [|[kind name] l IH]; intros b; [apply quiet_ret|]. cbn [any_present].
  apply quiet_bind; [auto with frame|]. intros o. apply IH.
Qed.

Lemma observe_touches (P : key -> Prop) (id : string) : P (state_key id) -> touches P (observe settings id).
Proof.
  intros HP. unfold observe. apply touches_bind; [apply touches_quiet, state_quiet|].
  intros [o|]; [|auto with frame].
  apply touches_bind; [auto with frame|]. intros d. apply touches_bind; [auto with frame|]. intros phase.
  destruct (String.eqb phase "deleted"); [eauto with frame|].
  destruct (String.eqb phase "deleting").
  - apply touches_bind; [apply touches_quiet, any_present_quiet|]. intros []; eauto with frame.
  - apply touches_quiet. apply quiet_bind; [auto with frame|]. intros pods.
    apply quiet_bind; [auto with frame|]. intros groups. apply quiet_bind; [|auto with frame].
    apply quiet_mapM. intros c. unfold observe_component. apply quiet_bind; auto with frame.
Qed.

Lemma deploy_component_touches (P : key -> Prop) (d : DesiredDeployment) (restart : string) (c : Component) :
  (forall k, k ∈ component_objects (deployment_id d) (slug c) -> P k) ->
  touches P (deploy_component settings d restart c).
Proof.
  intros HP. unfold deploy_component.
  assert (forall o k, k ∈ component_objects (deployment_id d) (slug c) ->
            obj_key (dict_or_empty o) = Some k -> touches P (apply_resource o)) as Ha.
  { intros o k Hk Ho. eapply apply_resource_touches; [done|]. by apply HP. }
  apply touches_bind.
  { destruct (_ || _); [|auto with frame]. apply touches_delete, HP. set_solver. }
  intros _. apply touches_bind; [eapply Ha; [|reflexivity]; set_solver|].
  intros _. apply touches_bind; [eapply Ha; [|reflexivity]; set_solver|].
  intros _. apply touches_bind; [eapply Ha; [|reflexivity]; set_solver|].
  intros _. destruct (_ && _); [|auto with frame].
  intros w k Hk. unfold mbind, M_bind, lift. destruct (hpa_resource d c settings) as [o|e] eqn:E; [|done].
  refine (Ha o _ _ (hpa_key _ _ _ _ E) w k Hk). set_solver.
Qed.
End Frame.

(** ** Deployments change their own objects and tombstones only *)
Lemma tombstone_name (o : obj) (name : string) :
  tombstone o = Ok (Some name) ->
  vget "name" (match vget "metadata" o with PDict m => m | _ => [] end) = PStr name.
Proof.
  unfold tombstone. destruct (vget "metadata" o) as [| | | | | |md]; try done.
  destruct (vget "labels" md) as [| | | | | |labels]; try done.
  destruct (vget "name" md) as [| | | |n| |]; try done.
  destruct (vget DEPLOYMENT_LABEL labels) as [| | | |dep| |]; try done.
  intros (? & _ & E)%bind_Ok. destruct (_ && _); [|done]. by injection E as ->.
Qed.

Section Deploy.
Context (settings : ControllerSettings) {W : Type} `{KubeLaws W}.

Lemma cleanup_frame (w w' : W) (r : res unit) (k : key) :
  _cleanup_legacy_tombstones w = (r, w') -> ~ tombstone_at (objects w) k ->
  objects w' !! k = objects w !! k.
Proof.
  unfold _cleanup_legacy_tombstones, mbind, M_bind at 1.
  destruct (k_list "ConfigMap" _ w) as [[l|e] w1] eqn:E; apply list_law in E as [E1 E2];
    [|intros [= <- <-]; by rewrite E1].
  intros Hf Hk. rewrite <- E1. refine (touches_run (tombstone_at (objects w)) _ w1 w' r k _ Hf Hk).
  apply touches_forM. intros o Ho w2 k2 Hk2. unfold mbind, M_bind, lift.
  destruct (tombstone o) as [[name|]|e] eqn:T; try done.
  apply (touches_delete (tombstone_at (objects w))); [|done].
  exists o, name. split_and!; [done| |done]. eapply E2; [done|done|]. by apply tombstone_name.
Qed.

(** What [_state] returns is what the store has. *)
Lemma state_Ok (id : string) (w w' : W) (s : option obj) :
  _state id w = (Ok s, w') -> s = objects w !! state_key id.
Proof.
  unfold _state. intros (o & w1 & G & E)%M_bind_Ok. apply get_law in G as [_ G].
  transitivity o; [|by apply G].
  destruct o as [o|]; [|by apply mret_M_Ok in E as [-> _]].
  apply M_bind_Ok in E as (labels & w2 & _ & E). destruct labels; try discriminate E.
  destruct (_ && _); [|discriminate E]. by apply mret_M_Ok in E as [-> _].
Qed.

(** The three stages of a deployment: admission, preflight, writes. *)
Inductive deploy_stage (d : DesiredDeployment) (rid restart : string) (require : bool) (w : W) (r : res RuntimeResult) (w' : W) : Prop :=
| ds_refused : (exists e, r = Raise e) -> objects w' = objects w ->
    deploy_stage d rid restart require w r w'
| ds_preflight : (exists e, r = Raise e) ->
    admit_deploy settings d (objects w !! state_key (deployment_id d)) require = Ok tt ->
    (forall k, ~ tombstone_at (objects w) k -> objects w' !! k = objects w !! k) ->
    deploy_stage d rid restart require w r w'
| ds_write w1 w2 :
    admit_deploy settings d (objects w !! state_key (deployment_id d)) require = Ok tt ->
    (forall k, ~ tombstone_at (objects w) k -> objects w1 !! k = objects w !! k) ->
    _preflight_deploy settings d w1 = (Ok tt, w2) -> objects w2 = objects w1 ->
    (_ ← apply_state settings d "reconciling" rid;
     _ ← forM_ (components d) (deploy_component settings d restart);
     _ ← apply_state settings d (final_phase d) rid;
     observe settings (deployment_id d)) w2 = (r, w') ->
    deploy_stage d rid restart require w r w'.

Lemma deploy_stages (d : DesiredDeployment) (rid restart : string) (require : bool)
    (w w' : W) (r : res RuntimeResult) :
  _deploy_unlocked settings d rid require restart w = (r, w') -> deploy_stage d rid restart require w r w'.
Proof.
  unfold _deploy_unlocked. unfold mbind at 1, M_bind at 1.
  destruct (_state (deployment_id d) w) as [[s|e] w1] eqn:S; pose proof (quiet_run _ _ _ _ (state_quiet _) S) as Q1;
    [|intros [= <- <-]; apply ds_refused; eauto].
  apply state_Ok in S as ->. unfold mbind at 1, M_bind at 1, lift.
  destruct (admit_deploy settings d _ require) as [[]|e] eqn:A;
    [|intros [= <- <-]; apply ds_refused; eauto].
  unfold mbind at 1, M_bind at 1.
  destruct (_cleanup_legacy_tombstones w1) as [[[]|e] w2] eqn:C;
    (assert (forall k, ~ tombstone_at (objects w) k -> objects w2 !! k = objects w !! k) as Q2
      by (intros k Hk; rewrite <- Q1 in *; by eapply cleanup_frame));
    [|intros [= <- <-]; apply ds_preflight; eauto].
  unfold mbind at 1, M_bind at 1.
  destruct (_preflight_deploy settings d w2) as [[[]|e] w3] eqn:P;
    pose proof (quiet_run _ _ _ _ (preflight_quiet _ _) P) as Q3.
  - intros E. by eapply ds_write.
  - intros [= <- <-]. apply ds_preflight; [eauto|done|]. intros k Hk. rewrite Q3. by apply Q2.
Qed.

Lemma writes_touch (d : DesiredDeployment) (rid restart : string) :
  touches (fun k => k ∈ footprint d)
    (_ ← apply_state settings d "reconciling" rid;
     _ ← forM_ (components d) (deploy_component settings d restart);
     _ ← apply_state settings d (final_phase d) rid;
     observe settings (deployment_id d)).
Proof.
  assert (state_key (deployment_id d) ∈ footprint d) by (by left).
  apply touches_bind; [by apply apply_state_touches|]. intros _.
  apply touches_bind.
  { apply touches_forM. intros c Hc. apply deploy_component_touches. intros k Hk. by eapply component_in_footprint. }
  intros _. apply touches_bind; [by apply apply_state_touches|]. intros _. by apply observe_touches.
Qed.

Lemma deploy_frame (d : DesiredDeployment) (rid restart : string) (require : bool)
    (w w' : W) (r : res RuntimeResult) (k : key) :
  _deploy_unlocked settings d rid require restart w = (r, w') ->
  k ∉ footprint d -> ~ tombstone_at (objects w) k -> objects w' !! k = objects w !! k.
Proof.
  intros E%deploy_stages Hk Ht. destruct E as [_ E|_ _ F|w1 w2 _ F _ Q E].
  - by rewrite E.
  - by apply F.
  - rewrite (touches_run _ _ _ _ _ _ (writes_touch _ _ _) E Hk), Q. by apply F.
Qed.

(** ** Ownership *)
Lemma assert_owned_Ok (kind name : string) (d : DesiredDeployment) (c : string) (w w' : W) (b : bool) :
  kind <> "Lease" -> _assert_owned settings kind name d c w = (Ok b, w') ->
  match objects w !! ((kind, name) : key) with
  | None => b = false
  | Some o => b = true /\ owned_by settings name d c o = true
  end.
Proof.
  intros Hk (o & w1 & G & E)%M_bind_Ok. apply get_law in G as [_ G].
  pose proof (G Hk eq_refl o eq_refl) as <-. destruct o as [o|]; [|by apply mret_M_Ok in E as [-> _]].
  destruct (owned_by settings name d c o); [|discriminate E]. by apply mret_M_Ok in E as [-> _].
Qed.

Definition owned_or_absent (d : DesiredDeployment) (m : store) (t : key * string) : Prop :=
  match m !! t.1 with None => True | Some o => owned_by settings t.1.2 d t.2 o = true end.

Lemma assert_all_Ok (d : DesiredDeployment) (l : list (key * string)) (w w' : W) (b b' : bool) :
  Forall (fun t => t.1.1 <> "Lease") l -> assert_all settings d l b w = (Ok b', w') ->
  Forall (owned_or_absent d (objects w)) l /\
  (b' = true <-> b = true \/ exists t, t ∈ l /\ is_Some (objects w !! t.1)).
Proof.
  intros Hl. revert b w. induction Hl as [|[[kind name] c] l Hk Hl IH]; intros b w.
  - intros [-> _]%mret_M_Ok. split; [constructor|]. split; [by left|]. intros [?|(t & Ht & _)]; [done|]. set_solver.
  - intros (o & w1 & A & E)%M_bind_Ok. pose proof (quiet_run _ _ _ _ (assert_owned_quiet _ _ _ _ _) A) as Q.
    apply assert_owned_Ok in A; [|done]. apply IH in E as [F1 F2]. rewrite Q in *. simpl in Hk.
    split.
    + constructor; [|done]. unfold owned_or_absent. simpl. destruct (objects w !! ((kind, name) : key)); [by destruct A|done].
    + rewrite F2, orb_true_iff. destruct (objects w !! ((kind, name) : key)) as [x|] eqn:L.
      * destruct A as [-> _]. split; [|tauto]. intros _. right. exists (kind, name, c). split; [left|eauto].
      * subst o. split; [intros [[?|?]|(t & Ht & ?)]; [done|by left|right; exists t; split; [by right|done]]|].
        intros [?|(t & [->|Ht]%elem_of_cons & [y Hy])]; [tauto| |right; exists t; eauto].
        simpl in Hy. congruence.
Qed.

(** Every object the deployment would write, with the component label it must have. *)
Definition targets (d : DesiredDeployment) : list (key * string) :=
  (state_key (deployment_id d), "") :: owned_targets d.

Lemma owned_targets_kinds (d : DesiredDeployment) : Forall (fun t => t.1.1 <> "Lease") (owned_targets d).
Proof.
  apply Forall_forall. intros t Ht%list_elem_of_In. unfold owned_targets in Ht.
  apply in_flat_map in Ht as (c & _ & Ht). simpl in Ht. naive_solver.
Qed.

Lemma assert_resources_Ok (d : DesiredDeployment) (w w' : W) (b : bool) :
  _assert_owned_resources settings d w = (Ok b, w') ->
  Forall (owned_or_absent d (objects w)) (targets d) /\
  (b = true <-> exists t, t ∈ targets d /\ is_Some (objects w !! t.1)).
Proof.
  intros (o & w1 & A & E)%M_bind_Ok. pose proof (quiet_run _ _ _ _ (assert_owned_quiet _ _ _ _ _) A) as Q.
  apply assert_owned_Ok in A; [|done]. apply assert_all_Ok in E as [F1 F2]; [|apply owned_targets_kinds].
  rewrite Q in *. split.
  - constructor; [|done]. unfold owned_or_absent. cbn [fst snd].
    change (state_key (deployment_id d)) with (("ConfigMap", state_name (deployment_id d)) : key).
    by destruct (objects w !! (("ConfigMap", state_name (deployment_id d)) : key)); [destruct A|].
  - rewrite F2. unfold targets, state_key.
    destruct (objects w !! (("ConfigMap", state_name (deployment_id d)) : key)) as [x|] eqn:L.
    + destruct A as [-> _]. split; [|by left]. intros _. eexists. split; [by left|]. cbn [fst]. rewrite L. eauto.
    + subst o. split.
      * intros [|(t & Ht & ?)]; [done|]. exists t. split; [by right|done].
      * intros (t & [->|Ht]%elem_of_cons & [y Hy]); [|right; eauto]. cbn [fst] in Hy. congruence.
Qed.
End Deploy.

(** ** The stored state *)
Lemma covers_dict (d e : obj) (k : string) (v : pyval) :
  covers (PDict d) (PDict e) = true -> dget k d = Some v ->
  exists u, dget k e = Some u /\ covers v u = true.
Proof.
  intros Hc. simpl in Hc. induction d as [|[k1 x] d IH]; [done|]. simpl.
  destruct (dget k1 e) as [y|] eqn:E; [|done]. apply andb_true_iff in Hc as [Hx Hd].
  destruct (String.eqb_spec k k1) as [->|]; [|by apply IH]. intros [= ->]. by exists y.
Qed.
Lemma covers_str (s : string) (u : pyval) : covers (PStr s) u = true -> u = PStr s.
Proof. destruct u; try done; intros H%bool_decide_eq_true_1; congruence. Qed.
Lemma covers_sub (d : obj) (u : pyval) : covers (PDict d) u = true -> exists e, u = PDict e.
Proof. destruct u; try done. eauto. Qed.
Lemma dget_vget (k : string) (d : obj) (v : pyval) : dget k d = Some v -> vget k d = v.
Proof. unfold vget, dget_or. by intros ->. Qed.

(** A request the parser accepted: what [parse_desired_deployment] establishes of a
    payload that was decoded from JSON. *)
Record accepted (settings : ControllerSettings) (d : DesiredDeployment) : Prop := {
  ac_wf : wf_desired settings d;
  ac_hex : fullmatch _HEX_DIGEST (release_digest d) = true;
  ac_state : desired_state d ∈ allowed_desired_states true;
  ac_manifest : _parse_manifest (manifest d) settings = Ok ((fun c => (slug c, manifest_part c)) <$> components d);
  ac_json : json_ok (normalized_payload d)
}.

Lemma parse_accepted (v : pyval) (settings : ControllerSettings) (allow_absent : bool) (d : DesiredDeployment) :
  json_ok v -> parse_desired_deployment v settings allow_absent = Ok d -> accepted settings d.
Proof.
  intros Hv Hp. pose proof (parse_desired_Ok _ _ _ _ Hp) as (H1 & H2 & H3 & H4 & H5 & H6 & H7 & H8 & H9).
  split; [by eapply parse_desired_wf|done| |done|by eapply normalize_json_ok].
  destruct allow_absent; [done|]. unfold allowed_desired_states in *. set_solver.
Qed.

Lemma state_config_map_fields (d : DesiredDeployment) (s : ControllerSettings) (phase rid : string) (o : pyval) :
  state_config_map d s phase rid = Ok o ->
  exists fields data md, o = PDict fields /\ dget "data" fields = Some (PDict data) /\
    dget "phase" data = Some (PStr phase) /\
    dget "desired.json" data = Some (PStr (dumps_sorted (normalized_payload d))) /\
    dget "metadata" fields = Some (PDict md) /\
    dget "labels" md = Some (py_strings (common_labels d None)).
Proof.
  unfold state_config_map. intros (digest & _ & (text & T & E)%bind_Ok)%bind_Ok.
  unfold canonical_json, encode_utf8 in T. destruct (has_surrogate _); [done|]. injection T as <-.
  injection E as <-. do 3 eexists. split; [reflexivity|]. split_and!; reflexivity.
Qed.

(** An object that has the fields of the rendered state decodes to the request, its
    mappings in canonical order, and to the phase. *)
Lemma stored_state (d : DesiredDeployment) (s : ControllerSettings) (phase rid : string) (o : pyval) (o' : obj) :
  accepted s d -> mem phase ["reconciling"; "active"; "stopped"; "deleting"; "deleted"] = true ->
  state_config_map d s phase rid = Ok o -> covers o (PDict o') = true ->
  _desired_from_state s o' = Ok (canonical_desired d) /\ _phase o' = Ok phase.
Proof.
  intros [A1 A2 A3 A4 A5] Hph (fields & data & md & -> & Hd & Hp & Hj & _)%state_config_map_fields Hc.
  destruct (covers_dict _ _ _ _ Hc Hd) as (u & Hu & Hcu). destruct (covers_sub _ _ Hcu) as [data' ->].
  destruct (covers_dict _ _ _ _ Hcu Hp) as (u1 & Hu1 & ->%covers_str).
  destruct (covers_dict _ _ _ _ Hcu Hj) as (u2 & Hu2 & ->%covers_str).
  unfold _desired_from_state, _phase. rewrite (dget_vget _ _ _ Hu), (dget_vget _ _ _ Hu1), (dget_vget _ _ _ Hu2).
  split.
  - rewrite loads_dumps_sorted by done. by apply parse_canonical.
  - cbn [in_set mbind res_bind]. by rewrite Hph.
Qed.

Lemma canonical_payload (s : ControllerSettings) (d : DesiredDeployment) :
  accepted s d -> payload_digest (normalized_payload (canonical_desired d)) = payload_digest (normalized_payload d).
Proof.
  intros [A1 _ _ _ A5]. unfold payload_digest, canonical_json, dumps_sorted. by rewrite (canonical_sorted s).
Qed.

(** The request itself, stored and not being deleted, is admitted again. *)
Lemma admit_again (s : ControllerSettings) (d : DesiredDeployment) (phase rid : string) (o : pyval) (o' : obj)
    (require : bool) :
  accepted s d -> mem phase ["reconciling"; "active"; "stopped"] = true ->
  state_config_map d s phase rid = Ok o -> covers o (PDict o') = true ->
  admit_deploy s d (Some o') require = Ok tt.
Proof.
  intros A Hph Hm Hc.
  assert (phase ∈ ["reconciling"; "active"; "stopped"]) as Hin by (by apply mem_In).
  assert (mem phase ["deleting"; "deleted"] = false /\
          mem phase ["reconciling"; "active"; "stopped"; "deleting"; "deleted"] = true) as [Hd Hk].
  { rewrite !elem_of_cons in Hin. destruct Hin as [->|[->|[->|?%elem_of_nil]]]; done. }
  destruct (stored_state d s phase rid o o' A Hk Hm Hc) as [E1 E2].
  assert (exists digest, payload_digest (normalized_payload d) = Ok digest) as [digest Hdig].
  { unfold state_config_map in Hm. apply bind_Ok in Hm as (digest & ? & _). eauto. }
  unfold admit_deploy. rewrite E1, E2. cbn [mbind res_bind]. rewrite Hd. cbn [raise_if].
  rewrite (proj2 (Z.ltb_ge _ _)) by (simpl; lia). cbn [raise_if].
  rewrite (proj2 (Z.eqb_eq _ _)) by done. rewrite (canonical_payload s d A), Hdig. cbn [mbind res_bind].
  by rewrite String.eqb_refl.
Qed.

Section Outcome.
Context (settings : ControllerSettings) {W : Type} `{KubeLaws W}.

Lemma mapM_quiet_Ok {A B} (f : A -> M W B) (l : list A) (ys : list B) (w w' : W) :
  (forall x, quiet (f x)) -> mapM_M f l w = (Ok ys, w') ->
  Forall2 (fun x y => exists w1 w2, objects w1 = objects w /\ f x w1 = (Ok y, w2)) l ys.
Proof.
  intros Hf. revert ys w w'. induction l as [|x l IH]; intros ys w w'.
  - intros [-> _]%mret_M_Ok. constructor.
  - cbn [mapM_M]. intros (y & w1 & E1 & (zs & w2 & E2 & [-> _]%mret_M_Ok)%M_bind_Ok)%M_bind_Ok.
    pose proof (quiet_run _ _ _ _ (Hf x) E1) as Q. apply IH in E2. constructor; [by exists w, w1|].
    eapply Forall2_impl; [exact E2|]. intros ? ? (u & v & ? & ?). exists u, v. split; [congruence|done].
Qed.

(** What an observation reports of a stored state that is not being deleted. *)
Lemma observe_active (id : string) (w w' : W) (r : RuntimeResult) (o : obj) (d : DesiredDeployment) (phase : string) :
  observe settings id w = (Ok r, w') -> objects w !! state_key id = Some o ->
  _desired_from_state settings o = Ok d -> _phase o = Ok phase -> mem phase ["deleting"; "deleted"] = false ->
  objects w' = objects w /\ rr_observed_generation r = generation d /\
  rr_state r = overall_state (desired_state d) (rr_components r) /\
  Forall2 (fun c y => exists dep pods, dep = objects w !! (("Deployment", component_name id (slug c) "") : key) /\
             _component_status d c dep pods = Ok y) (components d) (rr_components r).
Proof.
  intros (s & w1 & S & E)%M_bind_Ok Ho Hd Hph Hm.
  pose proof (quiet_run _ _ _ _ (state_quiet _) S) as Q1. apply state_Ok in S. rewrite Ho in S. subst s.
  apply M_bind_Ok in E as (d' & w2 & [Ed ->]%lift_Ok & E). assert (d' = d) as -> by congruence.
  apply M_bind_Ok in E as (ph & w3 & [Ep ->]%lift_Ok & E). assert (ph = phase) as -> by congruence.
  unfold mem in Hm. cbn [existsb] in Hm. rewrite orb_false_r in Hm. apply orb_false_iff in Hm as [Hm1 Hm2].
  rewrite Hm2, Hm1 in E. cbv iota in E.
  apply M_bind_Ok in E as (pods & w4 & P & E). pose proof (quiet_run _ _ _ _ (quiet_list _ _) P) as Q2.
  apply M_bind_Ok in E as (groups & w5 & [Eg ->]%lift_Ok & E).
  apply M_bind_Ok in E as (observed & w6 & E & R). apply mret_M_Ok in R as [-> ->].
  assert (forall c, quiet (observe_component id d groups c)) as Qc.
  { intros c. unfold observe_component. auto with frame. }
  pose proof (quiet_run _ _ _ _ (quiet_mapM _ _ Qc) E) as Q3.
  apply mapM_quiet_Ok in E; [|done]. split; [congruence|]. split; [done|]. split; [done|].
  eapply Forall2_impl; [exact E|]. intros c y (u & v & Hu & (dep & u1 & G & [Es _]%lift_Ok)%M_bind_Ok).
  apply get_law in G as [_ G]. exists dep, (dget_or (slug c) [] groups). split; [|done].
  rewrite (G ltac:(done) eq_refl dep eq_refl), Hu. congruence.
Qed.

Lemma apply_state_Ok (d : DesiredDeployment) (phase rid : string) (w w' : W) :
  apply_state settings d phase rid w = (Ok tt, w') ->
  exists (o : pyval) (o' : obj), state_config_map d settings phase rid = Ok o /\
    objects w' !! state_key (deployment_id d) = Some o' /\ covers o (PDict o') = true.
Proof.
  intros (o & w1 & [E ->]%lift_Ok & (a & w2 & A & [_ ->]%mret_M_Ok)%M_bind_Ok)%M_bind_Ok.
  destruct (apply_law _ _ _ _ _ A (state_map_key _ _ _ _ _ E)) as [_ F].
  destruct (F a eq_refl) as (o' & Ho' & Hc). exists o, o'. split_and!; [done|done|].
  apply state_config_map_fields in E as (fields & data & md & -> & _). exact Hc.
Qed.

(** A successful deployment leaves the request as the stored state. *)
Lemma deploy_stores (d : DesiredDeployment) (rid restart : string) (require : bool) (w w' : W) (r : RuntimeResult) :
  accepted settings d -> _deploy_unlocked settings d rid require restart w = (Ok r, w') ->
  exists (o : pyval) (o' : obj), state_config_map d settings (final_phase d) rid = Ok o /\
    objects w' !! state_key (deployment_id d) = Some o' /\ covers o (PDict o') = true /\
    rr_observed_generation r = generation d /\
    admit_deploy settings d (objects w !! state_key (deployment_id d)) require = Ok tt.
Proof.
  intros A E%(deploy_stages (W := W) settings). destruct E as [[e ?] _|[e ?] _ _|w1 w2 Hadm _ _ _ E]; [done|done|].
  apply M_bind_Ok in E as ([] & w3 & _ & E). apply M_bind_Ok in E as ([] & w4 & _ & E).
  apply M_bind_Ok in E as ([] & w5 & S & E). apply apply_state_Ok in S as (o & o' & S & Ho & Hc).
  assert (mem (final_phase d) ["reconciling"; "active"; "stopped"; "deleting"; "deleted"] = true /\
          mem (final_phase d) ["deleting"; "deleted"] = false) as [P1 P2].
  { unfold final_phase. by destruct (String.eqb _ _). }
  destruct (stored_state d settings (final_phase d) rid o o' A P1 S Hc) as [D1 D2].
  destruct (observe_active _ _ _ _ _ _ _ E Ho D1 D2 P2) as (Q & G & _).
  exists o, o'. split_and!; [done|congruence|done|done|done].
Qed.

(** ** Deletion is reported only when nothing is left *)
Lemma any_present_Ok (l : list key) (b b' : bool) (w w' : W) :
  Forall (fun k => k.1 <> "Lease") l -> any_present l b w = (Ok b', w') -> b' = false ->
  b = false /\ Forall (fun k => objects w !! k = None) l.
Proof.
  intros Hl. revert b w. induction Hl as [|[kind name] l Hk Hl IH]; intros b w; cbn [any_present].
  - intros [-> _]%mret_M_Ok ->. split; [done|constructor].
  - intros (o & w1 & G & E)%M_bind_Ok Hb. pose proof (quiet_run _ _ _ _ (quiet_get _ _ _) G) as Q.
    apply get_law in G as [_ G]. pose proof (G Hk eq_refl o eq_refl) as Ho.
    apply IH in E as [E1 E2]; [|done]. rewrite Q in E2. apply orb_false_iff in E1 as [-> E1].
    split; [done|]. constructor; [|done]. apply bool_decide_eq_false_1 in E1.
    rewrite <- Ho. destruct o; [|done]. exfalso. eauto.
Qed.

Lemma observe_deleting (id : string) (w w' : W) (r : RuntimeResult) (o : obj) (d : DesiredDeployment) :
  observe settings id w = (Ok r, w') -> objects w !! state_key id = Some o ->
  _desired_from_state settings o = Ok d -> _phase o = Ok "deleting" ->
  rr_observed_generation r = generation d /\
  (rr_state r = "deleting" \/
   rr_state r = "deleted" /\
   forall c k, c ∈ components d -> k ∈ component_objects id (slug c) -> objects w !! k = None).
Proof.
  intros (s & w1 & S & E)%M_bind_Ok Ho Hd Hph.
  pose proof (quiet_run _ _ _ _ (state_quiet _) S) as Q1. apply state_Ok in S. rewrite Ho in S. subst s.
  apply M_bind_Ok in E as (d' & w2 & [Ed ->]%lift_Ok & E). assert (d' = d) as -> by congruence.
  apply M_bind_Ok in E as (ph & w3 & [Ep ->]%lift_Ok & E). assert (ph = "deleting") as -> by congruence.
  change (String.eqb "deleting" "deleted") with false in E. change (String.eqb "deleting" "deleting") with true in E.
  cbv iota in E. apply M_bind_Ok in E as (b & w4 & P & E). destruct b.
  - apply mret_M_Ok in E as [-> _]. split; [done|by left].
  - apply M_bind_Ok in E as (? & w5 & _ & E). apply mret_M_Ok in E as [-> _]. split; [done|]. right.
    split; [done|]. intros c k Hc Hk. apply any_present_Ok in P as [_ P]; [| |done].
    + rewrite Q1, Forall_forall in P. apply P, list_elem_of_In, in_flat_map. exists c.
      split; [by apply list_elem_of_In|]. apply list_elem_of_In. unfold component_objects, deleting_targets in *. set_solver.
    + apply Forall_forall. intros t Ht. apply list_elem_of_In, in_flat_map in Ht as (c0 & _ & Ht). simpl in Ht. naive_solver.
Qed.
End Outcome.

(** ** Deletion *)
Lemma deletion_accepted (s : ControllerSettings) (d : DesiredDeployment) (g : Z) :
  accepted s d -> 1 <= g -> json_ok (PInt g) -> accepted s (_deletion_desired d g).
Proof.
  intros [[W1 W2 W3 W4 W5 W6 W7 W8 W9 W10] A2 A3 A4 A5] Hg Hj.
  assert (normalized_payload (_deletion_desired d g) =
    normalize (deployment_id d) (d_environment d) g "absent" (release_digest d) (manifest d) (components d)) as Hp.
  { unfold _deletion_desired. cbn [normalized_payload]. rewrite W10. reflexivity. }
  split; [split; try done; set_solver|done| |done|].
  - unfold allowed_desired_states. simpl. set_solver.
  - rewrite Hp. rewrite W10 in A5. unfold normalize in *. inversion A5 as [| | | | | |? Hn Hall]; subst.
    constructor; [exact Hn|]. repeat apply Forall_cons in Hall as [? Hall].
    repeat (apply Forall_cons; split); done || constructor.
Qed.

Lemma canonical_accepted (s : ControllerSettings) (d : DesiredDeployment) :
  accepted s d -> accepted s (canonical_desired d).
Proof.
  intros A. pose proof A as [A1 A2 A3 A4 A5]. eapply parse_accepted; [|by apply parse_canonical].
  by apply sort_keys_ok.
Qed.

Lemma generation_json (s : ControllerSettings) (d : DesiredDeployment) :
  accepted s d -> 1 <= generation d /\ json_ok (PInt (generation d)).
Proof.
  intros [[W1 W2 W3 W4 W5 W6 W7 W8 W9 W10] _ _ _ A5]. split; [done|].
  rewrite W10 in A5. by eapply (json_ok_dget _ "generation").
Qed.

Section Undeploy.
Context (settings : ControllerSettings) {W : Type} `{KubeLaws W}.

Definition component_keys (id : string) (d : DesiredDeployment) (k : key) : Prop :=
  exists c, c ∈ components d /\ k ∈ component_objects id (slug c).

Inductive undeploy_stage (id rid : string) (desired : option DesiredDeployment) (w : W)
    (r : res RuntimeResult) (w' : W) : Prop :=
| us_none : objects w' = objects w -> (exists e, r = Raise e) \/ objects w !! state_key id = None ->
    undeploy_stage id rid desired w r w'
| us_tombstone o : objects w !! state_key id = Some o -> _phase o = Ok "deleted" ->
    (forall k, k <> state_key id -> objects w' !! k = objects w !! k) ->
    undeploy_stage id rid desired w r w'
| us_delete d w1 :
    match objects w !! state_key id with
    | Some o => deletion_of settings o desired = Ok d
    | None => desired = Some d
    end ->
    admit_delete id desired = Ok tt -> Forall (owned_or_absent settings d (objects w)) (targets d) ->
    objects w1 = objects w -> delete_resources settings id rid d w1 = (r, w') ->
    undeploy_stage id rid desired w r w'.

Lemma undeploy_stages (id rid : string) (desired : option DesiredDeployment) (w w' : W) (r : res RuntimeResult) :
  _undeploy_unlocked settings id rid desired w = (r, w') -> undeploy_stage id rid desired w r w'.
Proof.
  unfold _undeploy_unlocked. unfold mbind at 1, M_bind at 1.
  destruct (_state id w) as [[s|e] w1] eqn:S; pose proof (quiet_run _ _ _ _ (state_quiet _) S) as Q1;
    [|intros [= <- <-]; apply us_none; eauto].
  apply state_Ok in S. unfold mbind at 1, M_bind at 1, lift.
  destruct (admit_delete id desired) as [[]|e] eqn:A; [|intros [= <- <-]; apply us_none; eauto].
  destruct s as [o|].
  - unfold mbind at 1, M_bind at 1. destruct (deletion_of settings o desired) as [d|e] eqn:D; [|intros [= <- <-]; apply us_none; eauto].
    unfold mbind at 1, M_bind at 1. destruct (_phase o) as [phase|e] eqn:P; [|intros [= <- <-]; apply us_none; eauto].
    destruct (String.eqb_spec phase "deleted") as [->|].
    + intros E. eapply us_tombstone; [by symmetry|done|]. intros k Hk. rewrite <- Q1.
      refine (touches_run (fun k => k = state_key id) _ _ _ _ k _ E Hk).
      apply touches_bind; [by apply touches_delete|]. auto with frame.
    + unfold mbind at 1, M_bind at 1.
      destruct (_assert_owned_resources settings d w1) as [[b|e] w2] eqn:R;
        pose proof (quiet_run _ _ _ _ (assert_resources_quiet _ _) R) as Q2;
        [|intros [= <- <-]; apply us_none; [congruence|by eauto]].
      intros E. apply (assert_resources_Ok settings (W := W)) in R as [R _]. rewrite Q1 in R.
      eapply (us_delete _ _ _ _ _ _ d w2); [by rewrite <- S|done|done|congruence|done].
  - destruct desired as [d|]; [|intros [= <- <-]; apply us_none; eauto].
    unfold mbind at 1, M_bind at 1.
    destruct (_assert_owned_resources settings d w1) as [[b|e] w2] eqn:R;
      pose proof (quiet_run _ _ _ _ (assert_resources_quiet _ _) R) as Q2;
      [|intros [= <- <-]; apply us_none; [congruence|by eauto]].
    destruct b; [|intros [= <- <-]; apply us_none; [congruence|by eauto]].
    intros E. apply (assert_resources_Ok settings (W := W)) in R as [R _]. rewrite Q1 in R.
    eapply (us_delete _ _ _ _ _ _ d w2); [by rewrite <- S|done|done|congruence|done].
Qed.

Lemma observe_deleted_touches (P : key -> Prop) (id : string) (d : DesiredDeployment) :
  P (state_key id) -> touches P (observe_deleted settings id d).
Proof.
  intros HP w k Hk. unfold observe_deleted. pose proof (observe_touches settings P id HP w k Hk) as T.
  destruct (observe settings id w) as [[r|e] w1]; [done|]. by destruct (is_not_found e).
Qed.

Lemma deletions_touch (id : string) (d : DesiredDeployment) :
  touches (component_keys id d)
    (forM_ (flat_map (fun c => deletion_targets id (slug c)) (components d)) (fun '(kind, name) => k_delete kind name)).
Proof.
  apply touches_forM. intros [kind name] Ht. apply touches_delete.
  apply list_elem_of_In, in_flat_map in Ht as (c & Hc & Ht). exists c.
  rewrite list_elem_of_In. split; [done|]. apply list_elem_of_In in Ht. unfold deletion_targets, component_objects in *. set_solver.
Qed.

Lemma delete_touches (id rid : string) (d : DesiredDeployment) :
  deployment_id d = id ->
  touches (fun k => k = state_key id \/ component_keys id d k) (delete_resources settings id rid d).
Proof.
  intros Hid. unfold delete_resources.
  apply touches_bind; [apply apply_state_touches; left; by rewrite Hid|]. intros _.
  apply touches_bind; [|intros _; apply observe_deleted_touches; by left].
  eapply touches_weaken; [|apply deletions_touch]. by right.
Qed.

(** The state object is not one of the objects a deletion removes. *)
Lemma state_not_component (id : string) (d : DesiredDeployment) : ~ component_keys id d (state_key id).
Proof.
  intros (c & _ & Hk). unfold component_objects, state_key in Hk.
  rewrite !elem_of_cons, elem_of_nil in Hk.
  assert (forall a b x y : string, (a, x) = (b, y) -> a = b /\ x = y) as inj by (clear; by intros * [= -> ->]).
  destruct Hk as [[E _]%inj|[[E _]%inj|[[E _]%inj|[[_ E]%inj|[]]]]]; try discriminate E.
  by apply state_name_not_cfg in E.
Qed.

Lemma any_present_errors (l : list (string * string)) (b : bool) (w w' : W) (d c : string) (s : Z) :
  any_present l b w <> (Raise (ContractError d c s), w').
Proof.
  revert b w. induction l as [|[kind name] l IH]; intros b w; [done|]. cbn [any_present].
  intros [E|(o & w1 & _ & E)]%M_bind_Raise; [by apply get_errors in E|by apply IH in E].
Qed.

(** While the deleting state is stored, an observation does not miss it. *)
Lemma observe_finds (id : string) (w w' : W) (o : obj) (d : DesiredDeployment) (e : pyexn) :
  observe settings id w = (Raise e, w') -> objects w !! state_key id = Some o ->
  _desired_from_state settings o = Ok d -> _phase o = Ok "deleting" -> is_not_found e = false.
Proof.
  intros E Ho Hd Hph.
  assert (forall d c s, e = ContractError d c s -> c <> "runtime_not_found") as Hne.
  2: { destruct e; try done. simpl. apply String.eqb_neq. by eapply Hne. }
  intros dt c st ->. apply M_bind_Raise in E as [E|(s & w1 & S & E)].
  { unfold _state in E. apply M_bind_Raise in E as [E|([s|] & w1 & _ & E)]; [by apply get_errors in E| |done].
    apply M_bind_Raise in E as [E|(labels & w2 & _ & E)].
    - unfold lift in E. destruct (dget_or "metadata" (PDict []) s); discriminate E.
    - assert (forall (x : pyexn) (u v : W), (raise x : M W (option obj)) u = (Raise (ContractError dt c st), v) ->
        x = RuntimeConflict "The runtime state object identity is invalid." -> c <> "runtime_not_found") as K.
      { intros x u v [= -> _] [= _ -> _]. done. }
      destruct labels; try (eapply K; [exact E|done]).
      destruct (_ && _); [discriminate E|]. by eapply K. }
  apply state_Ok in S. rewrite Ho in S. subst s.
  apply M_bind_Raise in E as [E|(d' & w2 & [Ed ->]%lift_Ok & E)].
  { unfold lift in E. rewrite Hd in E. discriminate E. }
  apply M_bind_Raise in E as [E|(ph & w3 & [Ep ->]%lift_Ok & E)].
  { unfold lift in E. rewrite Hph in E. discriminate E. }
  assert (ph = "deleting") as -> by congruence.
  change (String.eqb "deleting" "deleted") with false in E. change (String.eqb "deleting" "deleting") with true in E.
  cbv iota in E. apply M_bind_Raise in E as [E|(b & w4 & _ & E)]; [by apply any_present_errors in E|].
  destruct b; [discriminate E|]. apply M_bind_Raise in E as [E|(u & w5 & _ & E)]; [by apply delete_errors in E|discriminate E].
Qed.

(** A deletion that reports "deleted" left none of the component objects. *)
Lemma delete_complete (id rid : string) (d : DesiredDeployment) (w w' : W) (r : RuntimeResult) :
  accepted settings d -> deployment_id d = id ->
  delete_resources settings id rid d w = (Ok r, w') -> rr_state r = "deleted" ->
  forall k, component_keys id d k -> objects w' !! k = None.
Proof.
  intros A Hid E Hr k Hk. apply M_bind_Ok in E as ([] & w1 & S & E).
  apply (apply_state_Ok settings (W := W)) in S as (o & o' & S & Ho & Hc). rewrite Hid in Ho.
  destruct (stored_state d settings "deleting" rid o o' A eq_refl S Hc) as [D1 D2].
  apply M_bind_Ok in E as ([] & w2 & F & E).
  rewrite <- (touches_run _ _ _ _ _ _ (deletions_touch id d) F (state_not_component id d)) in Ho.
  unfold observe_deleted in E. destruct (observe settings id w2) as [[r1|e] w3] eqn:O.
  - injection E as -> <-. pose proof (observe_deleting _ _ _ _ _ _ _ O Ho D1 D2) as [_ [?|[_ G]]]; [congruence|].
    rewrite (touches_run (fun k => k = state_key id) _ _ _ _ k (observe_touches _ _ _ eq_refl) O).
    + destruct Hk as (c & Hcin & Hk). apply (G (sort_component c)); [|done].
      apply list_elem_of_fmap. by exists c.
    + intros ->. by apply state_not_component in Hk.
  - by rewrite (observe_finds _ _ _ _ _ _ O Ho D1 D2) in E.
Qed.
End Undeploy.

(** ** A concrete deployment

    The sample request against the in-memory cluster. *)
Module Demo.
Definition settings : ControllerSettings := Sample.settings.
Definition desired : DesiredDeployment := Sample.desired.
Definition catalog : obj :=
  [("metadata", PDict
     [("name", PStr "dealhost-runtime-secret-catalog"); ("namespace", PStr "archideal");
      ("labels", PDict [("app.kubernetes.io/managed-by", PStr "archideal-operator");
                        ("archideal.io/runtime-secret-catalog", PStr "true")])]);
   ("data", PDict [("shop-db", PStr (dumps (PDict
     [("secret_name", PStr "dealapp-shop-db"); ("keys", PList [PStr "DB_PASSWORD"])])))])].
Definition start : cluster :=
  {| c_objects := ∅; c_leases := ∅; c_catalog := Some catalog; c_version := 1; c_clock := 0 |}.

Lemma sample_accepted : accepted settings desired.
Proof. eapply parse_accepted; [apply sample_json_ok|apply parse_sample]. Qed.

(** The state object of the sample in a phase, and the cluster that has only it. *)
Definition state_object (phase : string) : obj :=
  match state_config_map desired settings phase "request-1" with Ok o => dict_or_empty o | Raise _ => [] end.
Definition stored (phase : string) : cluster :=
  set_objects {[state_key (deployment_id desired) := state_object phase]} start.

Lemma payload_encodes : has_surrogate (dumps_sorted (normalized_payload desired)) = false.
Proof. vm_compute. reflexivity. Qed.

Lemma state_object_ok (phase : string) :
  state_config_map desired settings phase "request-1" = Ok (PDict (state_object phase)) /\
  covers (PDict (state_object phase)) (PDict (state_object phase)) = true.
Proof.
  unfold state_object, state_config_map, payload_digest, canonical_json, encode_utf8.
  rewrite payload_encodes. cbn [mbind res_bind dict_or_empty]. split; [done|].
  assert (forall s, bool_decide (PStr s = PStr s) = true) as E by (intros s; by apply bool_decide_eq_true_2).
  cbn [covers dget fst snd]. cbn -[bool_decide state_name sha256_hex dumps_sorted py_str_int].
  by rewrite !E.
Qed.

Lemma stored_lookup (phase : string) :
  objects (stored phase) !! state_key (deployment_id desired) = Some (state_object phase).
Proof. refine (lookup_singleton_eq _ _). Qed.

(** Nothing else is stored there. *)
Lemma stored_other (phase : string) (k : key) :
  k <> state_key (deployment_id desired) -> objects (stored phase) !! k = None.
Proof. intros Hk. refine (lookup_singleton_ne _ _ _ _). congruence. Qed.

Lemma stored_decodes (phase : string) :
  mem phase ["reconciling"; "active"; "stopped"; "deleting"; "deleted"] = true ->
  _desired_from_state settings (state_object phase) = Ok (canonical_desired desired) /\
  _phase (state_object phase) = Ok phase.
Proof.
  intros Hp. destruct (state_object_ok phase) as [E C].
  by apply (stored_state desired settings phase "request-1" _ _ sample_accepted Hp E).
Qed.

Lemma pod_not_component (name : string) : ~ component_keys (deployment_id desired) desired ("Pod", name).
Proof.
  intros (c & _ & Hk). unfold component_objects in Hk. rewrite !elem_of_cons, elem_of_nil in Hk.
  destruct Hk as [E|[E|[E|[E|[]]]]]; by apply (f_equal fst) in E.
Qed.
Lemma pod_not_owned (name : string) : (("Pod", name) : key) ∉ footprint desired.
Proof.
  unfold footprint. rewrite not_elem_of_cons. split.
  - intros E. by apply (f_equal fst) in E.
  - intros Hk. apply list_elem_of_In, in_flat_map in Hk as (c & Hc & Hk).
    apply (pod_not_component name). exists c. by rewrite !list_elem_of_In.
Qed.

(** A cluster in which another owner has the name of the component's Deployment. *)
Definition web_deployment : key := ("Deployment", component_name (deployment_id desired) "web" "").
Definition foreign_cluster : cluster :=
  set_objects {[web_deployment := [("kind", PStr "Deployment"); ("metadata", PDict [("labels", PDict [])])]]} start.

(** A cluster in which the sample runs. *)
Definition live_deployment : obj :=
  [("kind", PStr "Deployment"); ("metadata", PDict [("generation", PInt 3)]);
   ("spec", PDict [("replicas", PInt 2); ("template", PDict [("spec", PDict [("containers", PList
      [PDict [("name", PStr "main"); ("image", PStr Sample.image)]])])])]);
   ("status", PDict [("readyReplicas", PInt 2); ("availableReplicas", PInt 2); ("observedGeneration", PInt 3)])].
Definition live_pod : obj :=
  [("kind", PStr "Pod"); ("metadata", PDict [("name", PStr "web-1"); ("labels", PDict [(COMPONENT_LABEL, PStr "web")])]);
   ("status", PDict [("phase", PStr "Running"); ("containerStatuses", PList
      [PDict [("name", PStr "main"); ("restartCount", PInt 250000)]])])].
Definition running : cluster :=
  set_objects (<[web_deployment := live_deployment]> (<[(("Pod", "web-1") : key) := live_pod]>
    (objects (stored "active")))) start.

Definition succeeds {A} (r : res A * cluster) (p : A -> bool) : bool :=
  match r with (Ok a, _) => p a | (Raise _, _) => false end.
Lemma succeeds_Ok {A} (r : res A * cluster) (p : A -> bool) :
  succeeds r p = true -> exists a w', r = (Ok a, w') /\ p a = true.
Proof. destruct r as [[a|e] w']; [|done]. by exists a, w'. Qed.

Lemma deployed : exists r w', deploy settings desired "request-1" false "" start = (Ok r, w').
Proof.
  destruct (succeeds_Ok (deploy settings desired "request-1" false "" start) (fun _ => true)) as (r & w' & E & T).
  - vm_compute. reflexivity.
  - exists r, w'. exact E.
Qed.

Lemma undeployed :
  exists r w', undeploy settings (deployment_id desired) "request-3" None (stored "active") = (Ok r, w') /\
    rr_state r = "deleted".
Proof.
  destruct (succeeds_Ok (undeploy settings (deployment_id desired) "request-3" None (stored "active"))
              (fun r => String.eqb (rr_state r) "deleted")) as (r & w' & E & S).
  - vm_compute. reflexivity.
  - exists r, w'. split; [exact E|exact (proj1 (String.eqb_eq _ _) S)].
Qed.

Lemma observed :
  exists r w', observe settings (deployment_id desired) running = (Ok r, w') /\ rr_state r = "running".
Proof.
  destruct (succeeds_Ok (observe settings (deployment_id desired) running)
              (fun r => String.eqb (rr_state r) "running")) as (r & w' & E & S).
  - vm_compute. reflexivity.
  - exists r, w'. split; [exact E|exact (proj1 (String.eqb_eq _ _) S)].
Qed.

Lemma logged :
  exists r w', logs settings (deployment_id desired) "web" 2 60 running = (Ok r, w') /\ lr_truncated r = true.
Proof.
  destruct (succeeds_Ok (logs settings (deployment_id desired) "web" 2 60 running) lr_truncated) as (r & w' & E & S).
  - vm_compute. reflexivity.
  - exists r, w'. exact (conj E S).
Qed.
End Demo.

(** ** The operations under the lease *)
Section Locked.
Context (settings : ControllerSettings) {W : Type} `{KubeLaws W} `{Runtime W} `{!RuntimeFrame W}.

(** Under the lease a deployment is [_deploy_unlocked] from a world with the same
    objects, over a client that satisfies the same laws. *)
Lemma deploy_locked (d : DesiredDeployment) (rid restart : string) (require : bool) (w w' : W)
    (r : res RuntimeResult) :
  deploy settings d rid require restart w = (r, w') ->
  (exists e, r = Raise e /\ objects w' = objects w) \/
  (exists holder h h' r', objects (base h) = objects w /\ objects (base h') = objects w' /\
     _deploy_unlocked settings (H := held_client settings (lease_name (deployment_id d)) (deployment_id d) holder)
       d rid require restart h = (r', h') /\ (forall a, r = Ok a -> r' = Ok a)).
Proof.
  intros [?|(holder & w1 & h' & r' & P1 & P2 & P3 & P4)]%(hold_spec settings (W := W)); [by left|].
  right. eexists holder, _, h', r'. split; [|split; [|split; [exact P2|exact P4]]]; simpl; congruence.
Qed.

Lemma undeploy_locked (id rid : string) (desired : option DesiredDeployment) (w w' : W) (r : res RuntimeResult) :
  undeploy settings id rid desired w = (r, w') ->
  (exists e, r = Raise e /\ objects w' = objects w) \/
  (exists holder h h' r', objects (base h) = objects w /\ objects (base h') = objects w' /\
     _undeploy_unlocked settings (H := held_client settings (lease_name id) id holder)
       id rid desired h = (r', h') /\ (forall a, r = Ok a -> r' = Ok a)).
Proof.
  intros [?|(holder & w1 & h' & r' & P1 & P2 & P3 & P4)]%(hold_spec settings (W := W)); [by left|].
  right. eexists holder, _, h', r'. split; [|split; [|split; [exact P2|exact P4]]]; simpl; congruence.
Qed.
End Locked.

Lemma deploy_locked_frame (settings : ControllerSettings) {W : Type} `{KubeLaws W} `{Runtime W}
    `{!RuntimeFrame W} (d : DesiredDeployment) (rid restart : string) (require : bool)
    (w w' : W) (r : res RuntimeResult) (k : key) :
  deploy settings d rid require restart w = (r, w') ->
  k ∉ footprint d -> ~ tombstone_at (objects w) k -> objects w' !! k = objects w !! k.
Proof.
  intros [(e & _ & ->)|(holder & h & h' & r' & E1 & E2 & E & _)]%(deploy_locked settings (W := W)) Hk Ht; [done|].
  rewrite <- E1 in Ht |- *. rewrite <- E2.
  by apply (@deploy_frame settings _ _ (held_laws settings (lease_name (deployment_id d)) (deployment_id d) holder) d rid restart require h h' r').
Qed.


(** A lifecycle action is a deployment behind its admission test. *)
Lemma action_locked_frame (settings : ControllerSettings) {W : Type} `{KubeLaws W} `{Runtime W}
    `{!RuntimeFrame W} (d : DesiredDeployment) (act rid : string) (w w' : W) (r : res RuntimeResult) (k : key) :
  action settings d act rid w = (r, w') ->
  k ∉ footprint d -> ~ tombstone_at (objects w) k -> objects w' !! k = objects w !! k.
Proof.
  unfold action. unfold mbind, M_bind, lift. destruct (admit_action d act); [|by intros [= <- <-]].
  exact (deploy_locked_frame settings d rid _ true w w' r k).
Qed.

(** Isolation of deployments.  Whatever happens during a deployment (success, a
    refusal, an API error at any call, loss of the lease, cancellation), the only
    objects of the namespace it may change are the deployment's own footprint and
    terminal state objects left by older controllers. *)
Theorem deploy_isolated (settings : ControllerSettings) {W : Type} `{KubeLaws W} `{Runtime W}
    `{!RuntimeFrame W} (d : DesiredDeployment) (rid restart : string) (require : bool)
    (w w' : W) (r : res RuntimeResult) (k : key) :
  deploy settings d rid require restart w = (r, w') ->
  k ∉ footprint d -> ~ tombstone_at (objects w) k -> objects w' !! k = objects w !! k.
Proof. exact (deploy_locked_frame settings d rid restart require w w' r k). Qed.

Lemma deploy_isolated_witness :
  objects (deploy Demo.settings Demo.desired "request-1" false "" Demo.start).2 !! (("Pod", "web-1") : key) = None.
Proof.
  rewrite (deploy_isolated Demo.settings Demo.desired "request-1" "" false Demo.start _ _ ("Pod", "web-1")
             (surjective_pairing _)).
  - reflexivity.
  - apply Demo.pod_not_owned.
  - intros (o & name & E & _). discriminate E.
Defined.

(** C1: a request is refused, and changes no object at all, when the identifier is
    being deleted or was deleted, when its generation is older than the stored one,
    or when it reuses the stored generation for another payload. *)
Theorem deploy_refuses (settings : ControllerSettings) {W : Type} `{KubeLaws W} `{Runtime W}
    `{!RuntimeFrame W} (d cur : DesiredDeployment) (rid restart phase : string) (require : bool)
    (w w' : W) (r : res RuntimeResult) (o : obj) :
  deploy settings d rid require restart w = (r, w') ->
  objects w !! state_key (deployment_id d) = Some o ->
  _desired_from_state settings o = Ok cur -> _phase o = Ok phase ->
  mem phase ["deleting"; "deleted"] = true \/ generation d < generation cur \/
  (generation d = generation cur /\
   payload_digest (normalized_payload d) <> payload_digest (normalized_payload cur)) ->
  (exists e, r = Raise e) /\ objects w' = objects w.
Proof.
  intros [(e & -> & ->)|(holder & h & h' & r' & E1 & E2 & E & Hr)]%(deploy_locked settings (W := W)) Ho Hd Hp Hbad; [by eauto|].
  assert (admit_deploy settings d (objects w !! state_key (deployment_id d)) require <> Ok tt) as Hadm.
  { rewrite Ho. unfold admit_deploy. rewrite Hd, Hp. cbn [mbind res_bind]. intros Hok.
    destruct (mem phase _) eqn:M; [done|]. cbn [raise_if mbind res_bind] in Hok.
    destruct (Z.ltb_spec (generation d) (generation cur)); [done|]. cbn [raise_if mbind res_bind] in Hok.
    destruct Hbad as [?|[?|[Hg Hdig]]]; [done|lia|]. rewrite (proj2 (Z.eqb_eq _ _) Hg) in Hok.
    apply bind_Ok in Hok as (new & Hn & (old & Hol & Hcmp%raise_if_Ok%negb_false_iff%String.eqb_eq)%bind_Ok).
    congruence. }
  apply (@deploy_stages settings _ _ (held_laws settings (lease_name (deployment_id d)) (deployment_id d) holder)) in E. rewrite <- E1 in Hadm.
  destruct E as [[e ->] E|[e ->] A _|w1 w2 A _ _ _ _]; [|by destruct Hadm|by destruct Hadm].
  split; [|rewrite <- E1, <- E2; exact E]. destruct r as [a|e']; [|by eauto]. by specialize (Hr a eq_refl).
Qed.

Lemma deploy_refuses_witness :
  (exists e, (deploy Demo.settings Demo.desired "request-2" false "" (Demo.stored "deleting")).1 = Raise e) /\
  objects (deploy Demo.settings Demo.desired "request-2" false "" (Demo.stored "deleting")).2 =
  objects (Demo.stored "deleting").
Proof.
  destruct (Demo.stored_decodes "deleting" eq_refl) as [D P].
  exact (deploy_refuses Demo.settings Demo.desired _ "request-2" "" "deleting" false (Demo.stored "deleting") _ _ _
           (surjective_pairing _) (Demo.stored_lookup "deleting") D P (or_introl eq_refl)).
Defined.

(** C2: no object of someone else is overwritten.  When any object a deployment would
    write already exists without this deployment's identity (name, namespace, owner,
    deployment, environment and component labels), the request fails and every
    object other than an old terminal state stays as it was. *)
Theorem deploy_keeps_foreign (settings : ControllerSettings) {W : Type} `{KubeLaws W} `{Runtime W}
    `{!RuntimeFrame W} (d : DesiredDeployment) (rid restart : string) (require : bool)
    (w w' : W) (r : res RuntimeResult) (t : key * string) (o : obj) :
  deploy settings d rid require restart w = (r, w') ->
  t ∈ targets d -> objects w !! t.1 = Some o -> owned_by settings t.1.2 d t.2 o = false ->
  ~ tombstone_at (objects w) t.1 ->
  (exists e, r = Raise e) /\
  forall k, ~ tombstone_at (objects w) k -> objects w' !! k = objects w !! k.
Proof.
  intros [(e & -> & ->)|(holder & h & h' & r' & E1 & E2 & E & Hr)]%(deploy_locked settings (W := W)) Ht Ho Hf Hnt; [by eauto|].
  apply (@deploy_stages settings _ _ (held_laws settings (lease_name (deployment_id d)) (deployment_id d) holder)) in E. rewrite <- E1 in *. rewrite <- E2.
  destruct E as [[e ->] E|[e ->] _ F|w1 w2 _ F P _ _].
  - split; [destruct r as [a|e']; [by specialize (Hr a eq_refl)|eauto]|]. intros k _. cbn [objects held_laws] in E. by rewrite E.
  - split; [destruct r as [a|e']; [by specialize (Hr a eq_refl)|eauto]|]. exact F.
  - exfalso. apply M_bind_Ok in P as ([] & u & V & (b & u1 & R & _)%M_bind_Ok).
    pose proof (@quiet_run _ _ (held_laws settings (lease_name (deployment_id d)) (deployment_id d) holder) _ _ _ _ _
      (@validate_quiet settings _ _ (held_laws settings (lease_name (deployment_id d)) (deployment_id d) holder) d) V) as Qv.
    apply (@assert_resources_Ok settings _ _ (held_laws settings (lease_name (deployment_id d)) (deployment_id d) holder)) in R as [R _].
    rewrite Forall_forall in R. specialize (R t Ht). unfold owned_or_absent in R.
    rewrite Qv in R. cbn [objects held_laws] in R, F. rewrite (F t.1 Hnt), Ho in R. congruence.
Qed.

Lemma deploy_keeps_foreign_witness :
  exists e, (deploy Demo.settings Demo.desired "request-1" false "" Demo.foreign_cluster).1 = Raise e.
Proof.
  refine (proj1 (deploy_keeps_foreign Demo.settings Demo.desired "request-1" "" false Demo.foreign_cluster _ _
    (Demo.web_deployment, "web") _ (surjective_pairing _) _ (lookup_singleton_eq _ _) eq_refl _)).
  - right. left.
  - intros (o & name & E & _). by apply (f_equal fst) in E.
Defined.

(** What a successful deployment records.  The stored state decodes to the request
    (mappings in canonical order) in its final phase, the reported generation is the
    requested one, a previously stored generation was not newer, and sending the very
    same request again is admitted. *)
Theorem deploy_records (settings : ControllerSettings) {W : Type} `{KubeLaws W} `{Runtime W}
    `{!RuntimeFrame W} (d : DesiredDeployment) (rid restart : string) (require : bool)
    (w w' : W) (r : RuntimeResult) :
  accepted settings d -> deploy settings d rid require restart w = (Ok r, w') ->
  rr_observed_generation r = generation d /\
  (exists o, objects w' !! state_key (deployment_id d) = Some o /\
     _desired_from_state settings o = Ok (canonical_desired d) /\ _phase o = Ok (final_phase d)) /\
  (forall o cur, objects w !! state_key (deployment_id d) = Some o ->
     _desired_from_state settings o = Ok cur -> generation cur <= generation d) /\
  admit_deploy settings d (objects w' !! state_key (deployment_id d)) true = Ok tt.
Proof.
  intros A [(e & ? & _)|(holder & h & h' & r' & E1 & E2 & E & Hr)]%(deploy_locked settings (W := W)); [done|].
  rewrite (Hr r eq_refl) in E.
  apply (@deploy_stores settings _ _ (held_laws settings (lease_name (deployment_id d)) (deployment_id d) holder)) in E
    as (o & o' & S & Ho & Hc & Hg & Hadm); [|done].
  cbn [objects held_laws] in Ho, Hadm. rewrite E2 in Ho. rewrite E1 in Hadm.
  assert (mem (final_phase d) ["reconciling"; "active"; "stopped"; "deleting"; "deleted"] = true /\
          mem (final_phase d) ["reconciling"; "active"; "stopped"] = true) as [P1 P2].
  { unfold final_phase. by destruct (String.eqb _ _). }
  split; [done|]. split; [|split].
  - exists o'. split; [done|]. by eapply stored_state.
  - intros o1 cur Ho1 Hcur. rewrite Ho1 in Hadm. unfold admit_deploy in Hadm. rewrite Hcur in Hadm.
    cbn [mbind res_bind] in Hadm. apply bind_Ok in Hadm as (ph & _ & Hadm).
    apply bind_Ok in Hadm as ([] & _ & ([] & Hlt%raise_if_Ok%Z.ltb_ge & _)%bind_Ok). done.
  - rewrite Ho. by eapply admit_again.
Qed.

Lemma deploy_records_witness :
  exists r w', deploy Demo.settings Demo.desired "request-1" false "" Demo.start = (Ok r, w') /\
    rr_observed_generation r = 1.
Proof.
  destruct Demo.deployed as (r & w' & E). exists r, w'. split; [exact E|].
  exact (proj1 (deploy_records Demo.settings Demo.desired "request-1" "" false Demo.start w' r Demo.sample_accepted E)).
Defined.

(** "running" is never reported in vain: the stored state is neither stopped nor
    being deleted, and the live Deployment of every component of the release serves
    the release's image with all wanted replicas ready and available, its last
    generation observed and no failed condition. *)
Theorem observe_running (settings : ControllerSettings) {W : Type} `{KubeLaws W}
    (id : string) (w w' : W) (r : RuntimeResult) :
  observe settings id w = (Ok r, w') -> rr_state r = "running" ->
  exists o d, objects w !! state_key id = Some o /\ _desired_from_state settings o = Ok d /\
    desired_state d <> "stopped" /\
    forall c, c ∈ components d -> exists dep,
      objects w !! (("Deployment", component_name id (slug c) "") : key) = Some dep /\ serving c dep.
Proof.
  intros E Hr. pose proof E as E'. apply M_bind_Ok in E' as (s & w1 & S & E').
  apply (state_Ok (W := W)) in S. destruct s as [o|]; [|discriminate E'].
  apply M_bind_Ok in E' as (d & w2 & [Hd ->]%lift_Ok & E').
  apply M_bind_Ok in E' as (phase & w3 & [Hp ->]%lift_Ok & E').
  exists o, d. split; [done|]. split; [done|].
  destruct (mem phase ["deleting"; "deleted"]) eqn:M.
  - exfalso. apply mem_In in M. rewrite !elem_of_cons, elem_of_nil in M. destruct M as [->|[->|[]]].
    + pose proof (observe_deleting settings id w w' r o d E (eq_sym S) Hd Hp) as [_ [?|[? _]]]; congruence.
    + change (String.eqb "deleted" "deleted") with true in E'. cbv iota in E'.
      apply M_bind_Ok in E' as (? & w4 & _ & [-> _]%mret_M_Ok). discriminate Hr.
  - pose proof (observe_active settings id w w' r o d phase E (eq_sym S) Hd Hp M) as (_ & _ & Hst & Hall).
    rewrite Hst in Hr. apply overall_running in Hr as (Hs & _ & Hrun). split; [done|].
    intros c Hc. apply list_elem_of_lookup_1 in Hc as [i Hi].
    destruct (Forall2_lookup_l _ _ _ _ _ Hall Hi) as (y & Hy & dep & pods & -> & Hy').
    rewrite Forall_forall in Hrun. apply list_elem_of_lookup_2 in Hy. specialize (Hrun y Hy).
    by eapply running_component.
Qed.

Lemma observe_running_witness :
  exists o d, objects Demo.running !! state_key (deployment_id Demo.desired) = Some o /\
    _desired_from_state Demo.settings o = Ok d /\ desired_state d <> "stopped".
Proof.
  destruct Demo.observed as (r & w' & E & S).
  destruct (observe_running Demo.settings (deployment_id Demo.desired) Demo.running w' r E S)
    as (o & d & H1 & H2 & H3 & _). exists o, d. exact (conj H1 (conj H2 H3)).
Defined.

(** Every component a result reports has its counters within the bounds the API
    consumer stores (16-bit replica counts, restarts up to 100000), whatever numbers
    the cluster returned. *)
Theorem observe_bounds (settings : ControllerSettings) {W : Type} `{KubeLaws W}
    (id : string) (w w' : W) (r : RuntimeResult) :
  observe settings id w = (Ok r, w') -> Forall component_bounds (rr_components r).
Proof.
  intros E. assert (forall (f : Component -> obj) cs, (forall c, component_bounds (f c)) -> Forall component_bounds (map f cs)) as Hmap.
  { intros f cs Hf. apply Forall_map, Forall_forall. intros c _. apply Hf. }
  pose proof E as E'. apply M_bind_Ok in E' as (s & w1 & S & E').
  apply (state_Ok (W := W)) in S. destruct s as [o|]; [|discriminate E'].
  apply M_bind_Ok in E' as (d & w2 & [Hd ->]%lift_Ok & E').
  apply M_bind_Ok in E' as (phase & w3 & [Hp ->]%lift_Ok & E').
  destruct (mem phase ["deleting"; "deleted"]) eqn:M.
  - apply mem_In in M. rewrite !elem_of_cons, elem_of_nil in M. destruct M as [->|[->|[]]].
    + change (String.eqb "deleting" "deleted") with false in E'. change (String.eqb "deleting" "deleting") with true in E'.
      cbv iota in E'. apply M_bind_Ok in E' as ([] & w4 & _ & E'); [apply mret_M_Ok in E' as [-> _]|
        apply M_bind_Ok in E' as (? & w5 & _ & [-> _]%mret_M_Ok)];
        apply Hmap; intros c; by apply component_result_bounds.
    + change (String.eqb "deleted" "deleted") with true in E'. cbv iota in E'.
      apply M_bind_Ok in E' as (? & w4 & _ & [-> _]%mret_M_Ok). apply Hmap. intros c. by apply component_result_bounds.
  - pose proof (observe_active settings id w w' r o d phase E (eq_sym S) Hd Hp M) as (_ & _ & _ & Hall).
    apply Forall_forall. intros y Hy. apply list_elem_of_lookup_1 in Hy as [i Hi].
    destruct (Forall2_lookup_r _ _ _ _ _ Hall Hi) as (c & _ & dep & pods & _ & Hy).
    by apply component_status_bounds in Hy as [? _].
Qed.

Lemma observe_bounds_witness :
  exists r w', observe Demo.settings (deployment_id Demo.desired) Demo.running = (Ok r, w') /\
    Forall component_bounds (rr_components r).
Proof.
  destruct Demo.observed as (r & w' & E & _). exists r, w'. split; [exact E|].
  exact (observe_bounds Demo.settings (deployment_id Demo.desired) Demo.running w' r E).
Defined.

(** The deployment whose objects an undeploy removes: the stored one, else the one of
    the request. *)
Definition deletion_source (settings : ControllerSettings) (id : string) (m : store)
    (desired : option DesiredDeployment) : option DesiredDeployment :=
  match m !! state_key id with
  | Some o => match _desired_from_state settings o with Ok d => Some d | Raise _ => None end
  | None => desired
  end.

Lemma deletion_source_components (settings : ControllerSettings) (id : string) (m : store)
    (desired : option DesiredDeployment) (d : DesiredDeployment) :
  match m !! state_key id with
  | Some o => deletion_of settings o desired = Ok d
  | None => desired = Some d
  end ->
  exists d0, deletion_source settings id m desired = Some d0 /\ components d = components d0 /\
    deployment_id d = deployment_id d0.
Proof.
  unfold deletion_source. destruct (m !! state_key id) as [o|]; [|intros ->; eauto].
  unfold deletion_of. intros (cur & -> & E)%bind_Ok. exists cur. split; [done|].
  destruct desired as [x|]; [|by injection E as <-].
  apply bind_Ok in E as ([] & _ & ([] & _ & E)%bind_Ok). by injection E as <-.
Qed.

Lemma undeploy_locked_frame (settings : ControllerSettings) {W : Type} `{KubeLaws W} `{Runtime W}
    `{!RuntimeFrame W} (id rid : string) (desired : option DesiredDeployment)
    (w w' : W) (r : res RuntimeResult) (k : key) :
  undeploy settings id rid desired w = (r, w') -> k <> state_key id ->
  (forall d, deletion_source settings id (objects w) desired = Some d ->
     deployment_id d = id /\ ~ component_keys id d k) ->
  objects w' !! k = objects w !! k.
Proof.
  intros [(e & _ & ->)|(holder & h & h' & r' & E1 & E2 & E & _)]%(undeploy_locked settings (W := W)) Hk Hd; [done|].
  apply (@undeploy_stages settings _ _ (held_laws settings (lease_name id) id holder)) in E.
  rewrite <- E1 in *. rewrite <- E2.
  destruct E as [E _|o _ _ F|d w1 Hsrc _ _ Q E]; cbn [objects held_laws] in *.
  - by rewrite E.
  - by apply F.
  - apply deletion_source_components in Hsrc as (d0 & Hs & Hcs & Hi).
    destruct (Hd d0 Hs) as [Hid Hnk]. rewrite <- Q.
    refine (@touches_run _ _ (held_laws settings (lease_name id) id holder) _ _ _ _ _ _ k
      (@delete_touches settings _ _ (held_laws settings (lease_name id) id holder) id rid d _) E _);
      [congruence|]. unfold component_keys in *. rewrite Hcs. naive_solver.
Qed.


(** An undeploy changes nothing but the deployment's state object and the objects
    of the components that its stored state (or, when none is stored, the request)
    names; in every outcome, errors and lease loss included. *)
Theorem undeploy_isolated (settings : ControllerSettings) {W : Type} `{KubeLaws W} `{Runtime W}
    `{!RuntimeFrame W} (id rid : string) (desired : option DesiredDeployment)
    (w w' : W) (r : res RuntimeResult) (k : key) :
  undeploy settings id rid desired w = (r, w') -> k <> state_key id ->
  (forall d, deletion_source settings id (objects w) desired = Some d ->
     deployment_id d = id /\ ~ component_keys id d k) ->
  objects w' !! k = objects w !! k.
Proof. exact (undeploy_locked_frame settings id rid desired w w' r k). Qed.

Lemma undeploy_isolated_witness :
  objects (undeploy Demo.settings (deployment_id Demo.desired) "request-3" None (Demo.stored "active")).2
    !! (("Pod", "web-1") : key) = None.
Proof.
  rewrite (undeploy_isolated Demo.settings (deployment_id Demo.desired) "request-3" None (Demo.stored "active") _ _
             ("Pod", "web-1") (surjective_pairing _)).
  - by apply Demo.stored_other.
  - done.
  - unfold deletion_source. rewrite Demo.stored_lookup, (proj1 (Demo.stored_decodes "active" eq_refl)).
    intros d E. injection E as <-. split; [done|]. apply Demo.pod_not_component.
Defined.

(** "deleted" means gone.  When an undeploy of a deployment this controller stored
    (and is not already a terminal record) reports "deleted", none of its Deployments,
    Services, autoscalers and ConfigMaps is left in the namespace. *)
Theorem undeploy_complete (settings : ControllerSettings) {W : Type} `{KubeLaws W} `{Runtime W}
    `{!RuntimeFrame W} (d : DesiredDeployment) (rid rid0 phase : string) (desired : option DesiredDeployment)
    (w w' : W) (r : RuntimeResult) (o : pyval) (o' : obj) :
  accepted settings d -> (forall x, desired = Some x -> accepted settings x) ->
  mem phase ["reconciling"; "active"; "stopped"; "deleting"] = true ->
  state_config_map d settings phase rid0 = Ok o -> covers o (PDict o') = true ->
  objects w !! state_key (deployment_id d) = Some o' ->
  undeploy settings (deployment_id d) rid desired w = (Ok r, w') -> rr_state r = "deleted" ->
  forall k, component_keys (deployment_id d) d k -> objects w' !! k = None.
Proof.
  intros A Hx Hph S Hc Ho [(e & ? & _)|(holder & h & h' & r' & E1 & E2 & E & Hr)]%(undeploy_locked settings (W := W))
    Hdel k Hk; [done|].
  rewrite (Hr r eq_refl) in E.
  assert (mem phase ["reconciling"; "active"; "stopped"; "deleting"; "deleted"] = true /\ phase <> "deleted") as [P1 P2].
  { apply mem_In in Hph. rewrite !elem_of_cons, elem_of_nil in Hph. destruct Hph as [->|[->|[->|[->|[]]]]]; done. }
  destruct (stored_state d settings phase rid0 o o' A P1 S Hc) as [D1 D2].
  apply (@undeploy_stages settings _ _ (held_laws settings (lease_name (deployment_id d)) (deployment_id d) holder)) in E.
  rewrite <- E1 in Ho. rewrite <- E2.
  destruct E as [_ [[e ?]|E]|o2 Ho2 Hp2 _|d2 w1 Hsrc _ _ Q E]; cbn [objects held_laws] in *; [done|congruence|congruence|].
  rewrite Ho in Hsrc. unfold deletion_of in Hsrc. rewrite D1 in Hsrc. cbn [mbind res_bind] in Hsrc.
  assert (exists g, d2 = _deletion_desired (canonical_desired d) g /\ 1 <= g /\ json_ok (PInt g)) as (g & -> & Hg & Hj).
  { destruct desired as [x|].
    - apply bind_Ok in Hsrc as ([] & _ & ([] & _ & Hsrc)%bind_Ok). apply Ok_inj in Hsrc as <-.
      exists (generation x). split; [done|]. by apply (generation_json settings), Hx.
    - apply Ok_inj in Hsrc as <-. exists (generation d). split; [done|]. by apply (generation_json settings). }
  refine (@delete_complete settings _ _ (held_laws settings (lease_name (deployment_id d)) (deployment_id d) holder)
    (deployment_id d) rid (_deletion_desired (canonical_desired d) g) w1 h' r _ eq_refl E Hdel k _).
  - apply deletion_accepted; [by apply canonical_accepted|done|done].
  - destruct Hk as (c & Hcin & Hk). exists (sort_component c). split; [|done].
    apply list_elem_of_fmap. by exists c.
Qed.

Lemma undeploy_complete_witness :
  exists r w', undeploy Demo.settings (deployment_id Demo.desired) "request-3" None (Demo.stored "active") = (Ok r, w') /\
    forall k, component_keys (deployment_id Demo.desired) Demo.desired k -> objects w' !! k = None.
Proof.
  destruct Demo.undeployed as (r & w' & E & S). exists r, w'. split; [exact E|].
  destruct (Demo.state_object_ok "active") as [O C].
  exact (undeploy_complete Demo.settings Demo.desired "request-3" "request-1" "active" None (Demo.stored "active") w' r _ _
    Demo.sample_accepted ltac:(done) eq_refl O C (Demo.stored_lookup "active") E S).
Defined.

(** ** The secret catalog *)
Lemma add_required_known (required : list (string * list string)) (ref : string * string) :
  exists ks, dget ref.2 (add_required required ref) = Some ks /\ ref.1 ∈ ks.
Proof.
  destruct ref as [k l]. unfold add_required. cbn [fst snd]. eexists.
  rewrite dget_dset, String.eqb_refl. split; [done|].
  destruct (mem k (dget_or l [] required)) eqn:M; [by apply mem_In|set_solver].
Qed.

Lemma add_required_keeps (required : list (string * list string)) (ref : string * string) (l k : string) (ks : list string) :
  dget l required = Some ks -> k ∈ ks ->
  exists ks', dget l (add_required required ref) = Some ks' /\ k ∈ ks'.
Proof.
  intros Hd Hk. destruct ref as [k1 l1]. unfold add_required. rewrite dget_dset.
  destruct (String.eqb_spec l l1) as [->|]; [|eauto]. eexists. split; [done|].
  unfold dget_or. rewrite Hd. destruct (mem k1 ks); [done|set_solver].
Qed.

Lemma fold_required (refs : list (string * string)) (required : list (string * list string)) (k l : string) :
  ((k, l) ∈ refs \/ exists ks, dget l required = Some ks /\ k ∈ ks) ->
  exists ks, dget l (fold_left add_required refs required) = Some ks /\ k ∈ ks.
Proof.
  revert required. induction refs as [|ref refs IH]; intros required Hin; simpl.
  - destruct Hin as [?%elem_of_nil|]; done.
  - apply IH. destruct Hin as [[<-|Hin]%elem_of_cons|(ks & Hd & Hk)].
    + right. apply (add_required_known required (k, l)).
    + by left.
    + right. by eapply add_required_keeps.
Qed.

Lemma required_complete (d : DesiredDeployment) (c : Component) (k l : string) :
  c ∈ components d -> (k, l) ∈ secret_refs c ->
  exists ks, (l, ks) ∈ required_secrets d /\ k ∈ ks.
Proof.
  intros Hc Hr. destruct (fold_required (flat_map secret_refs (components d)) [] k l) as (ks & Hd & Hk).
  - left. apply list_elem_of_In, in_flat_map. exists c. by rewrite <- !list_elem_of_In.
  - exists ks. split; [|done]. by apply dget_Some_In.
Qed.

Lemma foldM_unit_all {A} (f : A -> res unit) (l : list A) (x : A) :
  foldM_res (fun _ y => f y) tt l = Ok tt -> x ∈ l -> f x = Ok tt.
Proof.
  induction l as [|y l IH]; [intros _ ?%elem_of_nil; done|]. simpl. intros ([] & Hy & Hl)%bind_Ok [->|Hx]%elem_of_cons; eauto.
Qed.

(** No workload refers to a secret that was not provisioned for it: when the
    catalog check passes, every environment key that a component takes from a logical
    secret is listed, for the Kubernetes secret that the pod will reference, in an
    entry of at most 50 distinct sorted keys. *)
Theorem catalog_sound (settings : ControllerSettings) (d : DesiredDeployment) (catalog : option obj)
    (c : Component) (k l : string) :
  check_catalog settings catalog (required_secrets d) = Ok tt ->
  c ∈ components d -> (k, l) ∈ secret_refs c ->
  exists cat data raw entry ks, catalog = Some cat /\ vget "data" cat = PDict data /\
    vget l data = PStr raw /\ loads_with _unique_object raw = Ok (PDict entry) /\
    vget "secret_name" entry = PStr (resolved_secret_name settings l) /\
    vget "keys" entry = PList (map PStr ks) /\ k ∈ ks /\ NoDup ks /\ (length ks <= 50)%nat /\
    Forall (fun x => fullmatch _ENV_KEY x = true) ks.
Proof.
  intros Hcat Hc Hr. destruct (required_complete d c k l Hc Hr) as (req & Hreq & Hk).
  destruct catalog as [cat|]; [|discriminate Hcat]. cbn [check_catalog] in Hcat.
  apply bind_Ok in Hcat as ([] & _ & Hcat). destruct (vget "data" cat) as [| | | | | |data] eqn:Hdata; try discriminate Hcat.
  pose proof (foldM_unit_all _ _ _ Hcat Hreq) as He. unfold check_catalog_entry in He.
  destruct (vget l data) as [| | | |raw| |] eqn:Hraw; try discriminate He.
  destruct (4096 <? py_len raw); [discriminate He|].
  destruct (loads_with _unique_object raw) as [[| | | | | |entry]|] eqn:Hl; try discriminate He.
  destruct (negb (set_eqb (keys entry) _)); [discriminate He|].
  destruct (vget "keys" entry) as [| | | | |items|] eqn:Hkeys; try discriminate He.
  destruct (mapM as_str items) as [ks|] eqn:Hks; [|discriminate He].
  destruct (_ || _) eqn:G; [discriminate He|]. autorewrite with pyguard in G.
  destruct G as [[[[[G1 G2] G3] G4] G5] G6].
  exists cat, data, raw, entry, ks. split_and!; try done.
  - destruct (vget "secret_name" entry); try discriminate G1. simpl in G1. f_equal. by apply String.eqb_eq.
  - rewrite Hkeys. f_equal. clear -Hks. revert ks Hks. induction items as [|x items IH]; intros ks Hks.
    + by injection Hks as <-.
    + apply bind_Some in Hks as (y & Hy & (ys & Hys & [= <-])%bind_Some). destruct x; try discriminate Hy.
      injection Hy as ->. simpl. f_equal. by apply IH.
  - apply subsetb_spec in G6. by apply G6.
  - by apply nodupb_NoDup.
  - lia.
  - by apply Forall_forall; intros x Hx; rewrite forallb_forall in G3; apply G3, list_elem_of_In.
Qed.

Lemma catalog_sound_witness :
  exists ks, "DB_PASSWORD" ∈ ks /\ NoDup ks.
Proof.
  destruct (catalog_sound Demo.settings Demo.desired (Some Demo.catalog) Sample.component "DB_PASSWORD" "shop-db"
              ltac:(vm_compute; reflexivity) ltac:(left) ltac:(left))
    as (cat & data & raw & entry & ks & _ & _ & _ & _ & _ & _ & H1 & H2 & _).
  by exists ks.
Defined.

(** A log request returns at most the requested number of lines, a cursor of at
    most 500 characters, marks truncation exactly when lines were dropped, and
    changes no object. *)
Theorem logs_bounded (settings : ControllerSettings) {W : Type} `{KubeLaws W}
    (id component : string) (tail since : Z) (w w' : W) (r : LogResult) :
  logs settings id component tail since w = (Ok r, w') -> 1 <= tail ->
  Z.of_nat (length (lr_lines r)) <= tail /\ py_len (lr_cursor r) <= 500 /\
  (lr_truncated r = true -> Z.of_nat (length (lr_lines r)) = tail) /\ objects w' = objects w.
Proof.
  intros E Ht. unfold logs in E.
  apply M_bind_Ok in E as (s & w1 & S & E). pose proof (quiet_run _ _ _ _ (state_quiet _) S) as Q1.
  destruct s as [s|]; [|discriminate E].
  apply M_bind_Ok in E as (phase & ? & [_ ->]%lift_Ok & E). destruct (mem phase _); [discriminate E|].
  apply M_bind_Ok in E as (d & ? & [_ ->]%lift_Ok & E). destruct (negb _); [discriminate E|].
  apply M_bind_Ok in E as (pods & w2 & P & E). pose proof (quiet_run _ _ _ _ (quiet_list _ _) P) as Q2.
  apply M_bind_Ok in E as (keyed & ? & [_ ->]%lift_Ok & E).
  destruct (sort_desc fst keyed) as [|[? pod] ?]; [discriminate E|].
  apply M_bind_Ok in E as (name & ? & [_ ->]%lift_Ok & E). destruct (named name) as [pod_name|]; [|discriminate E].
  apply M_bind_Ok in E as (content & w3 & L & E). pose proof (quiet_run _ _ _ _ (quiet_logs _ _ _ _) L) as Q3.
  apply M_bind_Ok in E as (version & ? & [_ ->]%lift_Ok & E). apply mret_M_Ok in E as [-> ->].
  cbn [lr_lines lr_cursor lr_truncated]. pose proof (py_len_take 500 (pod_name ++ ":" ++ py_str version)).
  assert (objects w3 = objects w) by congruence.
  destruct (Z.ltb_spec tail (Z.of_nat (length (splitlines content)))); split_and!; try done; try lia.
  all: unfold last_lines; rewrite (proj2 (Z.leb_gt _ _)) by lia; rewrite length_skipn; lia.
Qed.

Lemma logs_bounded_witness :
  exists r w', logs Demo.settings (deployment_id Demo.desired) "web" 2 60 Demo.running = (Ok r, w') /\
    Z.of_nat (length (lr_lines r)) = 2.
Proof.
  destruct Demo.logged as (r & w' & E & T). exists r, w'. split; [exact E|].
  destruct (logs_bounded Demo.settings (deployment_id Demo.desired) "web" 2 60 Demo.running w' r E ltac:(lia))
    as (_ & _ & H & _). exact (H T).
Defined.

(** ** Rendered objects carry the identity that the ownership check asks for *)
Lemma covers_label (labels : list (string * string)) (e : obj) (k v : string) :
  covers (py_strings labels) (PDict e) = true -> dget k labels = Some v -> vget k e = PStr v.
Proof.
  intros Hc Hk. destruct (covers_dict (map (fun '(k, v) => (k, PStr v)) labels) e k (PStr v) Hc) as (u & Hu & ->%covers_str).
  - rewrite dget_map_snd. by rewrite Hk.
  - by apply dget_vget.
Qed.

Lemma owned_of_metadata (settings : ControllerSettings) (d : DesiredDeployment) (c : option Component)
    (o md o' : obj) (n component_slug : string) :
  dget "metadata" o = Some (PDict md) -> dget "name" md = Some (PStr n) ->
  dget "namespace" md = Some (PStr (namespace settings)) ->
  dget "labels" md = Some (py_strings (common_labels d c)) ->
  component_slug = "" \/ (slug <$> c) = Some component_slug ->
  covers (PDict o) (PDict o') = true -> owned_by settings n d component_slug o' = true.
Proof.
  intros Hm Hn Hns Hl Hs Hc. destruct (covers_dict _ _ _ _ Hc Hm) as (u & Hu & Hcu).
  destruct (covers_sub _ _ Hcu) as [md' ->].
  destruct (covers_dict _ _ _ _ Hcu Hn) as (u1 & Hu1 & ->%covers_str).
  destruct (covers_dict _ _ _ _ Hcu Hns) as (u2 & Hu2 & ->%covers_str).
  destruct (covers_dict _ _ _ _ Hcu Hl) as (u3 & Hu3 & Hc3). destruct (covers_sub _ _ Hc3) as [labels ->].
  destruct (common_labels_identity d c) as (L1 & L2 & L3 & L4).
  unfold owned_by. rewrite (dget_vget _ _ _ Hu), (dget_vget _ _ _ Hu3), (dget_vget _ _ _ Hu1), (dget_vget _ _ _ Hu2).
  rewrite (covers_label _ _ _ _ Hc3 L1), (covers_label _ _ _ _ Hc3 L2), (covers_label _ _ _ _ Hc3 L3).
  cbn [eq_str]. rewrite !String.eqb_refl. simpl. destruct Hs as [->|Hs]; [done|].
  rewrite Hs in L4. rewrite (covers_label _ _ _ _ Hc3 L4). cbn [eq_str]. rewrite String.eqb_refl. by rewrite orb_true_r.
Qed.

(** The controller recognises its own objects: every object it renders for a
    component (ConfigMap, Deployment, Service, autoscaler), once applied and whatever
    fields the API server added, is at one of the component's keys and passes the
    ownership test there, so an interrupted deployment can always be retried. *)
Theorem rendered_owned (settings : ControllerSettings) (d : DesiredDeployment) (c : Component)
    (restart : string) (o : pyval) (o' : obj) :
  o = component_config_map d c settings \/ o = deployment_resource d c settings restart \/
  o = service_resource d c settings \/ hpa_resource d c settings = Ok o ->
  covers o (PDict o') = true ->
  exists k : key, obj_key (dict_or_empty o) = Some k /\
    k ∈ component_objects (deployment_id d) (slug c) /\ owned_by settings k.2 d (slug c) o' = true.
Proof.
  intros Ho Hc.
  assert (forall fields md (k : key), o = PDict fields -> obj_key fields = Some k ->
    k ∈ component_objects (deployment_id d) (slug c) -> dget "metadata" fields = Some (PDict md) ->
    dget "name" md = Some (PStr k.2) -> dget "namespace" md = Some (PStr (namespace settings)) ->
    dget "labels" md = Some (py_strings (common_labels d (Some c))) ->
    exists k : key, obj_key (dict_or_empty o) = Some k /\
      k ∈ component_objects (deployment_id d) (slug c) /\ owned_by settings k.2 d (slug c) o' = true) as K.
  { intros fields md k -> Hk Hin Hm Hn Hns Hl. exists k. split_and!; [done|done|].
    eapply (owned_of_metadata settings d (Some c)); try done. by right. }
  destruct Ho as [->|[->|[->|Ho]]].
  - eapply K; [reflexivity|reflexivity|set_solver|reflexivity..].
  - eapply K; [reflexivity|reflexivity|set_solver|reflexivity..].
  - eapply K; [reflexivity|reflexivity|set_solver|reflexivity..].
  - unfold hpa_resource in Ho. destruct (scaling c); [done|]. apply Ok_inj in Ho as <-.
    eapply K; [reflexivity|reflexivity|set_solver|reflexivity..].
Qed.

Lemma rendered_owned_witness :
  exists k : key, k ∈ component_objects (deployment_id Demo.desired) "web" /\
    owned_by Demo.settings k.2 Demo.desired "web"
      (dict_or_empty (component_config_map Demo.desired Sample.component Demo.settings)) = true.
Proof.
  destruct (rendered_owned Demo.settings Demo.desired Sample.component ""
    (component_config_map Demo.desired Sample.component Demo.settings)
    (dict_or_empty (component_config_map Demo.desired Sample.component Demo.settings)) (or_introl eq_refl)) as (k & _ & H).
  - assert (forall s, bool_decide (PStr s = PStr s) = true) as E by (intros s; by apply bool_decide_eq_true_2).
    cbn -[bool_decide component_name]. by rewrite !E.
  - by exists k.
Defined.

(** The names of a deployment's objects are valid DNS labels for every accepted
    slug, and the state object never shares its name with a component's ConfigMap. *)
Theorem names_valid (settings : ControllerSettings) (d : DesiredDeployment) (c : Component) :
  wf_component settings c ->
  fullmatch _DNS_LABEL (component_name (deployment_id d) (slug c) "") = true /\
  fullmatch _DNS_LABEL (component_name (deployment_id d) (slug c) "-cfg") = true /\
  fullmatch _DNS_LABEL (state_name (deployment_id d)) = true /\
  fullmatch _DNS_LABEL (lease_name (deployment_id d)) = true /\
  forall d', state_name (deployment_id d') <> component_name (deployment_id d) (slug c) "-cfg".
Proof.
  intros Hc. pose proof (wf_c_slug _ _ Hc) as Hs. split_and!.
  - apply component_name_dns; [done|by left].
  - apply component_name_dns; [done|by right].
  - by apply (hashed_name_dns (deployment_id d) "state"); [| |simpl; lia].
  - by apply (hashed_name_dns (deployment_id d) "lock"); [| |simpl; lia].
  - intros d'. apply state_name_not_cfg.
Qed.

Lemma names_valid_witness :
  fullmatch _DNS_LABEL (component_name (deployment_id Demo.desired) "web" "") = true.
Proof.
  refine (proj1 (names_valid Demo.settings Demo.desired Sample.component _)).
  pose proof (wf_d_components _ _ (ac_wf _ _ Demo.sample_accepted)) as F. by apply Forall_cons in F as [? _].
Defined.
