(* ===== verification/LeaseSpec.v ===== *)
(** The lease seen from the operations it protects: acquisition ends, [hold] reports
    the right outcome, and an operation that reports success held its lease to the
    end. *)

From Stdlib Require Import QArith.
From S2P Require Import Prelude PyValue Config Contract Resources Kube Lease Status Service KubeLaws Cluster ServiceSpec.
#[local] Open Scope string_scope.
#[local] Open Scope list_scope.
#[local] Open Scope Z_scope.

(** ** Losing the lease ends the body *)
Section Kept.
Context (settings : ControllerSettings) {W : Type} `{KubeClient W} `{Runtime W}.
Context (name id holder : string).

(** From a held lease, a value is returned only with the lease still held, and when
    the lease was lost the exception is the cancellation. *)
Definition kept {A} (m : M (held W) A) : Prop :=
  forall h, lease_lost h = false ->
    match m h with
    | (Ok _, h') => lease_lost h' = false
    | (Raise e, h') => lease_lost h' = true -> e = CancelledError
    end.

Lemma kept_ret {A} (a : A) : kept (mret a).
Proof. by intros h Hh. Qed.
Lemma kept_raise {A} (e : pyexn) : kept (raise e : M (held W) A).
Proof. intros h Hh. simpl. congruence. Qed.
Lemma kept_lift {A} (r : res A) : kept (lift r).
Proof. intros h Hh. unfold lift. destruct r; [done|]. congruence. Qed.
Lemma kept_bind {A B} (m : M (held W) A) (f : A -> M (held W) B) :
  kept m -> (forall a, kept (f a)) -> kept (m ≫= f).
Proof.
  intros Hm Hf h Hh. unfold mbind, M_bind. specialize (Hm h Hh). destruct (m h) as [[a|e] h1]; [|done].
  by apply Hf.
Qed.
Lemma kept_forM {A} (l : list A) (f : A -> M (held W) unit) : (forall x, kept (f x)) -> kept (forM_ l f).
Proof. intros Hf. induction l; [apply kept_ret|]. cbn [forM_]. by apply kept_bind. Qed.
Lemma kept_mapM {A B} (f : A -> M (held W) B) (l : list A) : (forall x, kept (f x)) -> kept (mapM_M f l).
Proof.
  intros Hf. induction l; [apply kept_ret|]. cbn [mapM_M]. apply kept_bind; [done|]. intros y.
  apply kept_bind; [done|]. intros ys. apply kept_ret.
Qed.

Lemma tick_lost (h : held W) :
  lease_lost h = false ->
  lease_lost (renewal_tick settings name id holder h).2 = (renewal_tick settings name id holder h).1.
Proof.
  intros Hh. unfold renewal_tick. destruct (renewal h); try done.
  destruct (_renew settings name id holder (base h)) as [[[]|e] w]; try done. by destruct e.
Qed.
Lemma ticks_lost (n : nat) (h : held W) :
  lease_lost h = false ->
  lease_lost (renewal_ticks settings n name id holder h).2 = (renewal_ticks settings n name id holder h).1.
Proof.
  revert h. induction n as [|n IH]; intros h Hh; [done|]. cbn [renewal_ticks].
  pose proof (tick_lost h Hh) as T. destruct (renewal_tick settings name id holder h) as [[] h1]; simpl in T; [done|].
  by apply IH.
Qed.
Lemma checkpoint_lost (h : held W) :
  lease_lost h = false ->
  lease_lost (checkpoint settings name id holder h).2 = (checkpoint settings name id holder h).1.
Proof. intros Hh. unfold checkpoint. destruct (timer_elapses _ _). by apply ticks_lost. Qed.

Lemma kept_awaiting {A} (op : M W A) : kept (awaiting settings name id holder op).
Proof.
  intros h Hh. unfold awaiting. pose proof (checkpoint_lost h Hh) as C1.
  destruct (checkpoint settings name id holder h) as [[] h1]; simpl in C1; [done|].
  destruct (op (base h1)) as [r w1].
  set (h2 := {| base := w1; renewal := renewal h1; lease_lost := lease_lost h1 |}).
  pose proof (checkpoint_lost h2 C1) as C2.
  destruct (checkpoint settings name id holder h2) as [[] h3]; simpl in C2; [done|].
  destruct r; [done|]. congruence.
Qed.
End Kept.

Create HintDb kept.
#[export] Hint Resolve kept_ret kept_raise kept_lift kept_bind kept_forM kept_mapM kept_awaiting : kept.

(** [kept_step]: follow the structure of a computation of the reconciler. *)
Ltac kept_step :=
  match goal with
  | |- kept (mbind _ _) => apply kept_bind; [|intros ?]
  | |- kept (forM_ _ _) => apply kept_forM; intros ?
  | |- kept (mapM_M _ _) => apply kept_mapM; intros ?
  | |- kept (match ?x with _ => _ end) => destruct x
  | |- kept (if ?x then _ else _) => destruct x
  | |- kept (_ _) => first [apply kept_ret | apply kept_raise | apply kept_lift | apply kept_awaiting]
  end.
Ltac kept_tac := repeat kept_step.

Section Operations.
Context (settings : ControllerSettings) {W : Type} `{KubeClient W} `{Runtime W}.
Context (name id holder : string).
#[local] Notation C := (held_client settings name id holder).

Lemma assert_all_kept (d : DesiredDeployment) (l : list (string * string * string)) (b : bool) :
  kept (assert_all settings (H := C) d l b).
Proof.
  revert b. induction l as [|[[kind nm] c] l IH]; intros b; cbn [assert_all]; [apply kept_ret|].
  apply kept_bind; [unfold _assert_owned; cbn [k_get held_client]; kept_tac|]. intros o. apply IH.
Qed.

Lemma any_present_kept (l : list (string * string)) (b : bool) : kept (any_present (H := C) l b).
Proof.
  revert b. induction l as [|[kind nm] l IH]; intros b; cbn [any_present]; [apply kept_ret|].
  apply kept_bind; [cbn [k_get held_client]; kept_tac|]. intros o. apply IH.
Qed.

Lemma state_kept (i : string) : kept (_state (H := C) i).
Proof. unfold _state. cbn [k_get held_client]. kept_tac. Qed.

Lemma apply_state_kept (d : DesiredDeployment) (phase rid : string) :
  kept (apply_state settings (H := C) d phase rid).
Proof. unfold apply_state, apply_resource. cbn [k_apply held_client]. kept_tac. Qed.

Lemma observe_kept (i : string) : kept (observe settings (H := C) i).
Proof.
  unfold observe, observe_component. cbn [k_get k_list k_delete held_client].
  apply kept_bind; [apply state_kept|]. intros s. kept_tac. apply any_present_kept.
Qed.

Lemma deploy_kept (d : DesiredDeployment) (rid restart : string) (require : bool) :
  kept (_deploy_unlocked settings (H := C) d rid require restart).
Proof.
  unfold _deploy_unlocked, _cleanup_legacy_tombstones, _preflight_deploy, _validate_secret_catalog,
    _assert_owned_resources, _assert_owned, deploy_component, apply_resource.
  cbn [k_get k_list k_apply k_delete held_client].
  apply kept_bind; [apply state_kept|]. intros s. kept_tac;
    first [apply assert_all_kept | apply apply_state_kept | apply observe_kept].
Qed.
End Operations.


(** The outcome of [hold].  With a client whose release fails only with API
    errors and a renewal task that did not crash: a value comes out only if the body
    produced it and the lease was released or known lost; the body's own exception is
    never masked by a failing release; a cancellation caused by the loss of the lease
    becomes the lease-lost API error. *)
Theorem hold_outcome {W A : Type} `{KubeClient W} (name holder : string) (h : held W) (r r' : res A) (w' : W) :
  finish name holder h r = (r', w') -> (forall e, renewal h <> Failed e) ->
  (forall e w1, k_release_lease name holder (base h) = (Raise e, w1) -> exists d s, e = KubernetesApiError d s) ->
  (forall a, r' = Ok a -> r = Ok a /\
     (lease_lost h = true \/ k_release_lease name holder (base h) = (Ok true, w'))) /\
  (forall e, r = Raise e -> e <> CancelledError -> r' = Raise e) /\
  (r = Raise CancelledError -> r' = Raise (if lease_lost h then lost_error else CancelledError)).
Proof.
  intros E Hren Hrel. unfold finish in E.
  destruct (body_outcome (lease_lost h) r) as [failed r1] eqn:B.
  assert (E' : match k_release_lease name holder (base h) with
      | (Ok released, w) =>
          if negb released && negb (lease_lost h) && negb failed then (Raise unreleased_error, w) else (r1, w)
      | (Raise (KubernetesApiError d s), w) =>
          if failed then (r1, w) else (Raise (KubernetesApiError d s), w)
      | (Raise e, w) => (Raise e, w)
      end = (r', w')) by (destruct (renewal h); [done|done|by destruct (Hren e)]).
  clear E. unfold body_outcome in B.
  destruct (k_release_lease name holder (base h)) as [[released|e] w1] eqn:R.
  - destruct r as [a|e]; [injection B as <- <-|].
    + destruct released, (lease_lost h); simpl in E'; injection E' as <- <-; naive_solver.
    + assert (failed = true /\ r1 = Raise (match e with CancelledError => if lease_lost h then lost_error else CancelledError
                                           | _ => e end)) as [-> ->] by (destruct e; injection B as <- <-; done).
      rewrite andb_false_r in E'. injection E' as <- <-. split_and!; [done| |by intros [= ->]].
      intros e' [= <-] Hne. by destruct e.
  - destruct (Hrel e w1 eq_refl) as (d & s & ->). destruct r as [a|e]; [injection B as <- <-; injection E' as <- <-; naive_solver|].
    assert (failed = true /\ r1 = Raise (match e with CancelledError => if lease_lost h then lost_error else CancelledError
                                         | _ => e end)) as [-> ->] by (destruct e; injection B as <- <-; done).
    injection E' as <- <-. split_and!; [done| |by intros [= ->]]. intros e' [= <-] Hne. by destruct e.
Qed.

Definition demo_held : held cluster := {| base := empty_cluster; renewal := Finished; lease_lost := true |}.
Lemma hold_outcome_witness :
  finish "dealrt-lock" "a" demo_held (Raise CancelledError : res unit) = (Raise lost_error, empty_cluster).
Proof.
  destruct (finish "dealrt-lock" "a" demo_held (Raise CancelledError : res unit)) as [r' w'] eqn:E.
  destruct (hold_outcome "dealrt-lock" "a" demo_held _ r' w' E ltac:(done) ltac:(done)) as (_ & _ & H).
  rewrite (H eq_refl). injection E as _ <-. reflexivity.
Defined.

(** A deployment that reports success held its lease to the end: no renewal
    failed while it ran, and its final release still found the lease under its own
    identity. *)
Theorem deploy_held_lease (settings : ControllerSettings) {W : Type} `{KubeClient W} `{Runtime W}
    (d : DesiredDeployment) (rid restart : string) (require : bool) (w w' : W) (r : RuntimeResult) :
  deploy settings d rid require restart w = (Ok r, w') ->
  exists holder h h0, lease_lost h0 = false /\ lease_lost h = false /\
    _deploy_unlocked settings (H := held_client settings (lease_name (deployment_id d)) (deployment_id d) holder)
      d rid require restart h0 = (Ok r, h) /\
    k_release_lease (lease_name (deployment_id d)) holder (base h) = (Ok true, w').
Proof.
  unfold deploy, hold. intros (holder & w1 & _ & ([] & w2 & _ & E)%M_bind_Ok)%M_bind_Ok.
  set (h0 := {| base := w2; renewal := Renewing; lease_lost := false |}) in E.
  pose proof (deploy_kept settings (lease_name (deployment_id d)) (deployment_id d) holder d rid restart require h0 eq_refl) as K.
  destruct (_deploy_unlocked settings d rid require restart h0) as [r1 h] eqn:B.
  exists holder, h, h0. unfold finish in E.
  destruct r1 as [a|e]; [cbn [body_outcome] in E; rewrite K in E|].
  - destruct (renewal h); try discriminate E;
      destruct (k_release_lease (lease_name (deployment_id d)) holder (base h)) as [[[]|e] w3] eqn:R;
      simpl in E; try discriminate E; try (by destruct e); injection E as -> ->; done.
  - exfalso. destruct (body_outcome (A := RuntimeResult) (lease_lost h) (Raise e)) as [failed x] eqn:O.
    assert (exists e', x = Raise e') as [e' ->] by (destruct e; simpl in O; injection O as <- <-; eauto).
    destruct (renewal h); try discriminate E;
      destruct (k_release_lease (lease_name (deployment_id d)) holder (base h)) as [[[]|e1] w3];
      try (destruct (_ && _)); try (destruct e1, failed); discriminate E.
Qed.

Lemma deploy_held_lease_witness :
  exists r w' holder h, deploy Demo.settings Demo.desired "request-1" false "" Demo.start = (Ok r, w') /\
    k_release_lease (lease_name (deployment_id Demo.desired)) holder (base h) = (Ok true, w').
Proof.
  destruct Demo.deployed as (r & w' & E).
  destruct (deploy_held_lease Demo.settings Demo.desired "request-1" "" false Demo.start w' r E)
    as (holder & h & _ & _ & _ & _ & R).
  exists r, w', holder, h. exact (conj E R).
Defined.
