(* ===== verification/Asgi.v ===== *)
(** The controller's HTTP front end (dealhost/runtime_controller_service/asgi.py):
    headers, authentication, body limits, routing, query parameters and the mapping
    of errors to replies.

    The server's [receive] is the list of messages it will yield; when a client goes
    away the server yields "http.disconnect", which is also what an exhausted list
    stands for.  Request metrics are not modelled. *)

From S2P Require Import Prelude PyValue Regex Json Config Contract Resources Kube Lease Status Service.
#[local] Open Scope string_scope.
#[local] Open Scope list_scope.
#[local] Open Scope Z_scope.

Definition MAX_REQUEST_BYTES : Z := 256 * 1024.

(** ** Requests *)
Inductive message :=
| HttpRequest (body : option string) (more_body : bool)
| HttpDisconnect
| OtherMessage.

Record request := {
  rq_method : string;
  rq_target : string;
  rq_query : string;
  rq_raw_headers : list (string * string);
  rq_messages : list message
}.

Definition bad_request (detail : string) : pyexn := ContractError detail "invalid_runtime_contract" 400.

(** [bytes.decode("ascii")] and [bytes.decode("latin-1")]. *)
Definition decode_ascii (s : string) : res string :=
  if all_bytes is_ascii s then Ok s else Raise UnicodeDecodeError.
Fixpoint decode_latin1 (s : string) : string :=
  match s with
  | "" => ""
  | String a r =>
      if code a <? 128 then String a (decode_latin1 r)
      else String (byte_of (192 + code a / 64)) (String (byte_of (128 + code a mod 64)) (decode_latin1 r))
  end.
Fixpoint ascii_lower (s : string) : string :=
  match s with
  | "" => ""
  | String a r => String (if between "A" "Z" a then byte_of (code a + 32) else a) (ascii_lower r)
  end.

Definition add_header (headers : list (string * string)) (raw : string * string)
    : res (list (string * string)) :=
  let '(raw_name, raw_value) := raw in
  match decode_ascii raw_name with
  | Raise _ => Raise (bad_request "Request headers are invalid.")
  | Ok name =>
      let name := ascii_lower name in
      if has_key name headers then Raise (bad_request "Duplicate request headers are not accepted.")
      else Ok (dset name (py_strip (decode_latin1 raw_value)) headers)
  end.
Definition _headers (raw : list (string * string)) : res (list (string * string)) :=
  foldM_res add_header [] raw.

Definition _required_header (headers : list (string * string)) (name : string) : res string :=
  let value := dget_or name "" headers in
  if String.eqb value "" then
    Raise (ContractError (name ++ " is required.") "missing_request_header" 400)
  else Ok value.

(** ** Bodies *)
Fixpoint body_loop (chunks : string) (size : Z) (messages : list message) : res string :=
  match messages with
  | [] | HttpDisconnect :: _ => Raise (bad_request "The request was disconnected.")
  | OtherMessage :: _ | HttpRequest None _ :: _ => Raise (bad_request "The HTTP request body is invalid.")
  | HttpRequest (Some chunk) more_body :: rest =>
      let size := size + byte_len chunk in
      if MAX_REQUEST_BYTES <? size then
        Raise (ContractError "The runtime request body is too large." "request_too_large" 413)
      else
        let chunks := (chunks ++ chunk)%string in
        if (more_body : bool) then body_loop chunks size rest else Ok chunks
  end.
Definition _body (messages : list message) : res string := body_loop "" 0 messages.

Definition _unique_object (pairs : list (string * pyval)) : res pyval :=
  PDict <$> foldM_res (fun result kv =>
    if has_key kv.1 result then Raise (DuplicateJsonKey kv.1) else Ok (dset kv.1 kv.2 result)) [] pairs.

Definition malformed : pyexn := bad_request "The JSON request body is malformed.".
Definition _json_body (headers : list (string * string)) (messages : list message) (required : bool)
    : res (option pyval) :=
  content ← _body messages;
  if String.eqb content "" then
    if required then Raise (bad_request "A JSON request body is required.") else Ok None
  else
    let content_type := ascii_lower (py_strip (before 59 (dget_or "content-type" "" headers))) in
    if negb (String.eqb content_type "application/json") then
      Raise (ContractError "Content-Type must be application/json." "invalid_runtime_contract" 415)
    else
      match decode_utf8 content ≫= loads_with _unique_object with
      | Ok v => Ok (Some v)
      | Raise (UnicodeDecodeError | JSONDecodeError | DuplicateJsonKey _) => Raise malformed
      | Raise e => Raise e
      end.

Definition _reject_body (messages : list message) : res unit :=
  content ← _body messages;
  raise_if (negb (String.eqb content "")) (bad_request "This endpoint does not accept a request body.").

(** ** Query strings *)
(** [unquote_plus]; bytes that are not UTF-8 stay as they are. *)
Fixpoint unquote_plus (s : string) : string :=
  match s with
  | "" => ""
  | String a r =>
      if code a =? 43 then String " " (unquote_plus r)
      else if code a =? 37 then
        match r with
        | String b (String c q) =>
            match hex_value b, hex_value c with
            | Some x, Some y => String (byte_of (16 * x + y)) (unquote_plus q)
            | _, _ => String a (unquote_plus r)
            end
        | _ => String a (unquote_plus r)
        end
      else String a (unquote_plus r)
  end.

Fixpoint split_on (c : Z) (s : string) : list string :=
  match s with
  | "" => [""]
  | String a r =>
      if code a =? c then "" :: split_on c r
      else match split_on c r with x :: l => String a x :: l | [] => [String a ""] end
  end.
(** [s.partition("=")] when the separator occurs. *)
Fixpoint partition_eq (s : string) : option (string * string) :=
  match s with
  | "" => None
  | String a r =>
      if code a =? 61 then Some ("", r)
      else match partition_eq r with Some (n, v) => Some (String a n, v) | None => None end
  end.

Definition query_error : pyexn := bad_request "The request query string is invalid.".
Definition add_field (query : list (string * list string)) (name_value : string)
    : res (list (string * list string)) :=
  match partition_eq name_value with
  | None => Raise query_error
  | Some (name, value) =>
      let name := unquote_plus name in
      Ok (dset name (dget_or name [] query ++ [unquote_plus value]) query)
  end.
Definition _query (value : string) : res (list (string * list string)) :=
  match decode_ascii value with
  | Raise _ => Raise query_error
  | Ok raw =>
      if String.eqb raw "" then Ok []
      else
        let fields := split_on 38 raw in
        if (10 <? length fields)%nat then Raise query_error
        else foldM_res add_field [] fields
  end.

Definition parameter_error (name what : string) : pyexn :=
  bad_request ("Query parameter " ++ name ++ what).
Definition _one_query (query : list (string * list string)) (name : string) : res string :=
  match dget name query with
  | Some [value] => if String.eqb value "" then Raise (parameter_error name " is invalid.") else Ok value
  | _ => Raise (parameter_error name " is invalid.")
  end.
Definition _INTEGER : regex := Seq (Cls (between "1" "9")) (star (Cls (between "0" "9"))).
Definition _query_integer (query : list (string * list string)) (name : string) (minimum maximum : Z) : res Z :=
  value ← _one_query query name;
  if negb (fullmatch _INTEGER value) then Raise (parameter_error name " is invalid.")
  else
    parsed ← int_of_digits value;
    if (minimum <=? parsed) && (parsed <=? maximum) then Ok parsed
    else Raise (parameter_error name " is out of range.").

(** ** Routes *)
Fixpoint strip_prefix (p s : string) : option string :=
  match p, s with
  | "", _ => Some s
  | String a p, String b s => if Ascii.eqb a b then strip_prefix p s else None
  | String _ _, "" => None
  end.
(** The text up to the first "/", and what follows it. *)
Fixpoint segment (s : string) : string * option string :=
  match s with
  | "" => ("", None)
  | String a r => if code a =? 47 then ("", Some r) else let '(x, rest) := segment r in (String a x, rest)
  end.
Definition under_deployments (path : string) : option (string * option string) :=
  rest ← strip_prefix "/v1/deployments/" path;
  let '(id, tail) := segment rest in
  if String.eqb id "" then None else Some (id, tail).

Definition _DEPLOYMENT_ROUTE (path : string) : option string :=
  match under_deployments path with Some (id, None) => Some id | _ => None end.
Definition _LOG_ROUTE (path : string) : option string :=
  match under_deployments path with Some (id, Some tail) => if String.eqb tail "logs" then Some id else None | _ => None end.
Definition _ACTION_ROUTE (path : string) : option (string * string) :=
  match under_deployments path with
  | Some (id, Some tail) =>
      match strip_prefix "actions/" tail with
      | Some action => if mem action ["start"; "stop"; "restart"; "redeploy"] then Some (id, action) else None
      | None => None
      end
  | _ => None
  end.

(** ** Replies *)
Record reply := {
  rp_status : Z;
  rp_headers : list (string * string);
  rp_body : string
}.
Definition _response (status : Z) (payload : pyval) (request_id : string) : res reply :=
  content ← encode_utf8 (dumps payload);
  Ok {| rp_status := status;
        rp_headers :=
          [("content-type", "application/json"); ("cache-control", "no-store");
           ("content-length", py_str_int (byte_len content)); ("x-content-type-options", "nosniff")] ++
          (if String.eqb request_id "" then [] else [("x-request-id", request_id)]) ++
          (if status =? 401
           then [("www-authenticate", "Bearer realm=" ++ bytes [34] ++ "runtime-controller" ++ bytes [34])%string]
           else []);
        rp_body := content |}.

Section Application.
Context (settings : ControllerSettings) {W : Type} `{KubeClient W} `{Runtime W}.

Definition _authenticate (headers : list (string * string)) : res unit :=
  let authorization := dget_or "authorization" "" headers in
  raise_if (negb (String.eqb authorization ("Bearer " ++ auth_token settings)))
    (ContractError "Runtime-controller authentication failed." "authentication_failed" 401).

Definition mismatch (who : string) : pyexn :=
  invalid ("The " ++ who ++ "payload deployment identifier does not match its path.").
Definition not_found : pyexn :=
  ContractError "The runtime-controller endpoint does not exist." "not_found" 404.

Definition _LOG_COMPONENT : regex := _COMPONENT_SLUG.

Definition dispatch_logs (id : string) (rq : request) : M W (pyval * Z) :=
  _ ← lift (_reject_body (rq_messages rq));
  deployment_id ← lift (validate_deployment_id (PStr id));
  query ← lift (_query (rq_query rq));
  _ ← lift (raise_if (negb (set_eqb (keys query) ["component"; "tail"; "since_seconds"]))
              (bad_request "Log query parameters must be component, tail and since_seconds."));
  component ← lift (_one_query query "component");
  _ ← lift (raise_if (negb (fullmatch _LOG_COMPONENT component)) (bad_request "The log component is invalid."));
  tail ← lift (_query_integer query "tail" 1 1000);
  since_seconds ← lift (_query_integer query "since_seconds" 1 604800);
  result ← logs settings deployment_id component tail since_seconds;
  mret (LogResult_as_dict result, 200).

(** The payload of a mutation, parsed and checked against the path. *)
Definition mutation_payload (headers : list (string * string)) (rq : request) (deployment_id : option string)
    : res DesiredDeployment :=
  payload ← _json_body headers (rq_messages rq) true;
  desired ← parse_desired_deployment (default PNone payload) settings false;
  match deployment_id with
  | Some id => _ ← raise_if (negb (String.eqb (Contract.deployment_id desired) id)) (mismatch ""); Ok desired
  | None => Ok desired
  end.

Definition deletion_payload (headers : list (string * string)) (rq : request) (deployment_id : string)
    : res (option DesiredDeployment) :=
  payload ← _json_body headers (rq_messages rq) false;
  match payload with
  | None => Ok None
  | Some v =>
      desired ← parse_desired_deployment v settings true;
      _ ← raise_if (negb (String.eqb (Contract.deployment_id desired) deployment_id)) (mismatch "DELETE ");
      Ok (Some desired)
  end.

Definition _dispatch (headers : list (string * string)) (rq : request) (request_id : string)
    : M W (pyval * Z) :=
  let method := rq_method rq in
  let path := rq_target rq in
  let missing := (_ ← lift (_reject_body (rq_messages rq)); raise not_found) : M W (pyval * Z) in
  if String.eqb path "/v1/deployments" && String.eqb method "POST" then
    desired ← lift (mutation_payload headers rq None);
    result ← deploy settings desired request_id false "";
    mret (RuntimeResult_as_dict result, 201)
  else
    match _LOG_ROUTE path, _ACTION_ROUTE path, _DEPLOYMENT_ROUTE path with
    | Some id, _, _ => if String.eqb method "GET" then dispatch_logs id rq else missing
    | None, Some (id, action), _ =>
        if String.eqb method "POST" then
          deployment_id ← lift (validate_deployment_id (PStr id));
          desired ← lift (mutation_payload headers rq (Some deployment_id));
          result ← Service.action settings desired action request_id;
          mret (RuntimeResult_as_dict result, 200)
        else missing
    | None, None, Some id =>
        deployment_id ← lift (validate_deployment_id (PStr id));
        if String.eqb method "GET" then
          _ ← lift (_reject_body (rq_messages rq));
          result ← observe settings deployment_id;
          mret (RuntimeResult_as_dict result, 200)
        else if String.eqb method "PUT" then
          desired ← lift (mutation_payload headers rq (Some deployment_id));
          result ← deploy settings desired request_id true "";
          mret (RuntimeResult_as_dict result, 200)
        else if String.eqb method "DELETE" then
          desired ← lift (deletion_payload headers rq deployment_id);
          result ← undeploy settings deployment_id request_id desired;
          mret (RuntimeResult_as_dict result, 200)
        else missing
    | None, None, None => missing
    end.

Definition authorized (rq : request) : res (list (string * string) * string) :=
  headers ← _headers (rq_raw_headers rq);
  _ ← _authenticate headers;
  raw ← _required_header headers "idempotency-key";
  request_id ← validate_request_id raw;
  Ok (headers, request_id).

Definition unavailable_payload : pyval :=
  PDict [("detail", PStr "The Kubernetes runtime backend is unavailable.");
         ("code", PStr "kubernetes_backend_unavailable")].
Definition unexpected_payload : pyval :=
  PDict [("detail", PStr "The runtime controller failed unexpectedly.");
         ("code", PStr "runtime_controller_error")].

(** The [except] clauses; [CancelledError] is not an [Exception]. *)
Definition error_reply (e : pyexn) : res reply :=
  match e with
  | ContractError detail code status =>
      _response status (PDict [("detail", PStr detail); ("code", PStr code)]) ""
  | KubernetesApiError _ _ => _response 503 unavailable_payload ""
  | CancelledError => Raise CancelledError
  | _ => _response 500 unexpected_payload ""
  end.

(** A request outside the health and metrics endpoints. *)
Definition serve (rq : request) : M W reply :=
  let run : M W reply :=
    '(headers, request_id) ← lift (authorized rq);
    '(result, status) ← _dispatch headers rq request_id;
    lift (_response status result request_id) in
  fun w =>
    match run w with
    | (Ok r, w') => (Ok r, w')
    | (Raise e, w') => (error_reply e, w')
    end.

Definition is_probe (rq : request) : bool :=
  String.eqb (rq_method rq) "GET" && mem (rq_target rq) ["/health/live"; "/health/ready"; "/metrics"].
End Application.
