(* ===== verification/AsgiSpec.v ===== *)
(** Properties of the controller's HTTP front end: authentication comes before any
    effect, bodies are bounded, and a request addressed to one deployment cannot touch
    another. *)

From S2P Require Import Prelude PyValue Regex Json Config Contract Resources Kube Lease Status Service KubeLaws Cluster ServiceSpec Asgi.
#[local] Open Scope string_scope.
#[local] Open Scope list_scope.
#[local] Open Scope Z_scope.

Lemma headers_errors (raw : list (string * string)) (e : pyexn) :
  _headers raw = Raise e ->
  e = bad_request "Request headers are invalid." \/ e = bad_request "Duplicate request headers are not accepted.".
Proof.
  assert (forall acc h e, add_header acc h = Raise e ->
    e = bad_request "Request headers are invalid." \/ e = bad_request "Duplicate request headers are not accepted.") as Hadd.
  { intros acc [n v] e1. unfold add_header. destruct (decode_ascii n); [destruct (has_key _ _)|]; naive_solver. }
  unfold _headers. generalize (@nil (string * string)). induction raw as [|h raw IH]; intros acc; cbn [foldM_res]; [done|].
  destruct (add_header acc h) as [acc'|e1] eqn:E; cbn [mbind res_bind]; [apply IH|].
  intros [= <-]. by eapply Hadd.
Qed.

(** Nothing happens before authentication: a request whose Authorization header is
    not the configured bearer token is answered 401 (400 when its headers are
    malformed or repeated) and leaves the whole world as it was, whatever its method,
    path and body. *)
Theorem unauthenticated_refused (settings : ControllerSettings) {W : Type} `{KubeClient W} `{Runtime W}
    (rq : request) (w : W) :
  (forall headers, _headers (rq_raw_headers rq) = Ok headers ->
     dget_or "authorization" "" headers <> ("Bearer " ++ auth_token settings)%string) ->
  exists r, serve settings rq w = (Ok r, w) /\ (rp_status r = 401 \/ rp_status r = 400).
Proof.
  intros Hauth. unfold serve, mbind, M_bind, lift, authorized.
  assert (forall e, _headers (rq_raw_headers rq) = Raise e ->
            e = bad_request "Request headers are invalid." \/
            e = bad_request "Duplicate request headers are not accepted.") as Herr.
  { intros e. apply headers_errors. }
  destruct (_headers (rq_raw_headers rq)) as [headers|e] eqn:E.
  - cbn [mbind res_bind]. unfold _authenticate. rewrite (proj2 (String.eqb_neq _ _) (Hauth headers eq_refl)).
    eexists. split; [reflexivity|]. by left.
  - destruct (Herr e eq_refl) as [->| ->]; eexists; (split; [reflexivity|by right]).
Qed.

Definition anonymous : request := {|
  rq_method := "DELETE"; rq_target := "/v1/deployments/0b9f1c6e-3c4d-4f7e-8a55-00c0ffee1234"; rq_query := "";
  rq_raw_headers := [("Idempotency-Key", "request-0001")]; rq_messages := [HttpRequest (Some "") false] |}.
Lemma unauthenticated_refused_witness :
  exists r, serve Demo.settings anonymous Demo.start = (Ok r, Demo.start) /\ (rp_status r = 401 \/ rp_status r = 400).
Proof.
  apply (unauthenticated_refused Demo.settings anonymous Demo.start).
  intros headers E. vm_compute in E. injection E as <-. vm_compute. congruence.
Defined.

(** ** Bodies *)
Lemma body_loop_bounded (messages : list message) (chunks : string) (size : Z) (content : string) :
  byte_len chunks = size -> size <= MAX_REQUEST_BYTES ->
  body_loop chunks size messages = Ok content -> byte_len content <= MAX_REQUEST_BYTES.
Proof.
  revert chunks size. induction messages as [|[[chunk|] more| |] messages IH]; intros chunks size Hs Hb;
    cbn [body_loop]; try done.
  destruct (Z.ltb_spec MAX_REQUEST_BYTES (size + byte_len chunk)); [done|].
  assert (byte_len (chunks ++ chunk) = size + byte_len chunk) as Hl.
  { unfold byte_len in *. rewrite append_length. lia. }
  destruct more; [by apply IH|]. intros [= <-]. lia.
Qed.

(** A body is read only up to 256 KiB, in any chunking: more is refused with 413,
    and what a handler sees is the concatenation of the chunks received so far. *)
Theorem body_bounded (messages : list message) :
  match _body messages with
  | Ok content => byte_len content <= 262144
  | Raise e => exists detail code status, e = ContractError detail code status /\ (status = 400 \/ status = 413)
  end.
Proof.
  unfold _body. destruct (body_loop "" 0 messages) as [content|e] eqn:E.
  - by apply (body_loop_bounded messages "" 0); [|vm_compute; congruence|].
  - revert e E. generalize "" 0. induction messages as [|[[chunk|] more| |] messages IH]; intros chunks size e;
      cbn [body_loop]; try (intros [= <-]; eexists _, _, _; split; [reflexivity|by left]).
    destruct (MAX_REQUEST_BYTES <? size + byte_len chunk); [intros [= <-]; eexists _, _, _; split; [reflexivity|by right]|].
    destruct more; [apply IH|done].
Qed.

(** ** Isolation of requests *)
(** The deployment a path addresses. *)
Definition addressed (path : string) : option string := fst <$> under_deployments path.

Lemma routes_addressed (path : string) :
  (forall id, _LOG_ROUTE path = Some id -> addressed path = Some id) /\
  (forall id act, _ACTION_ROUTE path = Some (id, act) -> addressed path = Some id) /\
  (forall id, _DEPLOYMENT_ROUTE path = Some id -> addressed path = Some id).
Proof.
  unfold addressed, _LOG_ROUTE, _ACTION_ROUTE, _DEPLOYMENT_ROUTE.
  destruct (under_deployments path) as [[id [tail|]]|]; split_and!; intros; try done;
    repeat case_match; naive_solver.
Qed.

Lemma validated_same (id id' : string) : validate_deployment_id (PStr id) = Ok id' -> id' = id.
Proof.
  unfold validate_deployment_id. destruct (uuid_of_string id) as [n|]; [|done].
  destruct (String.eqb_spec id (uuid_str n)); [|done]. congruence.
Qed.

(** The objects of a deployment identifier, under any component slug. *)
Definition object_of (id : string) (k : key) : Prop :=
  k = state_key id \/ exists slug, k ∈ component_objects id slug.

Lemma footprint_object (d : DesiredDeployment) (k : key) : k ∈ footprint d -> object_of (deployment_id d) k.
Proof.
  intros [->|Hk]%elem_of_cons; [by left|]. right.
  apply list_elem_of_In, in_flat_map in Hk as (c & _ & Hk). exists (slug c). by apply list_elem_of_In.
Qed.

Section Isolation.
Context (settings : ControllerSettings) {W : Type} `{KubeLaws W} `{Runtime W} `{!RuntimeFrame W}.

(** The stored state of [id] is a state of [id]. *)
Definition state_consistent (id : string) (m : store) : Prop :=
  forall o d, m !! state_key id = Some o -> _desired_from_state settings o = Ok d -> deployment_id d = id.

Lemma mutation_payload_id (headers : list (string * string)) (rq : request) (id : string) (d : DesiredDeployment) :
  mutation_payload settings headers rq (Some id) = Ok d -> deployment_id d = id.
Proof.
  intros (p & _ & (d' & _ & ([] & E & [= ->])%bind_Ok)%bind_Ok)%bind_Ok.
  apply raise_if_Ok, negb_false_iff in E. by apply String.eqb_eq.
Qed.

Lemma deletion_payload_id (headers : list (string * string)) (rq : request) (id : string) (d : DesiredDeployment) :
  deletion_payload settings headers rq id = Ok (Some d) -> deployment_id d = id.
Proof.
  intros ([v|] & _ & E)%bind_Ok; [|done].
  apply bind_Ok in E as (d' & _ & ([] & E & [= ->])%bind_Ok).
  apply raise_if_Ok, negb_false_iff in E. by apply String.eqb_eq.
Qed.

(** One step of a handler: a pure check either fails and nothing happens, or goes on. *)
Lemma lift_then {A B} (c : res A) (f : A -> M W B) (w w' : W) (r : res B) (Q : Prop) :
  (lift c ≫= f) w = (r, w') -> (w' = w -> Q) -> (forall a, c = Ok a -> f a w = (r, w') -> Q) -> Q.
Proof. unfold mbind, M_bind, lift. destruct c as [a|e]; [eauto|]. intros [= _ <-] H3 _. by apply H3. Qed.

(** The result of the last call is only rendered. *)
Lemma then_ret {A B} (m : M W A) (g : A -> B) (w w' : W) (r : res B) :
  (m ≫= fun a => mret (g a)) w = (r, w') -> exists r', m w = (r', w').
Proof. unfold mbind, M_bind. destruct (m w) as [[a|e] w1]; intros E; injection E as _ <-; eauto. Qed.

Lemma logs_quiet (id component : string) (tail since : Z) : quiet (logs settings id component tail since).
Proof.
  unfold logs. apply quiet_bind; [apply state_quiet|]. intros [s|]; [|apply quiet_raise].
  apply quiet_bind; [apply quiet_lift|]. intros phase. destruct (mem phase _); [apply quiet_raise|].
  apply quiet_bind; [apply quiet_lift|]. intros d. destruct (negb _); [apply quiet_raise|].
  apply quiet_bind; [apply quiet_list|]. intros pods. apply quiet_bind; [apply quiet_lift|]. intros keyed.
  destruct (sort_desc fst keyed) as [|[? pod] ?]; [apply quiet_raise|].
  apply quiet_bind; [apply quiet_lift|]. intros nm. destruct (named nm); [|apply quiet_raise].
  apply quiet_bind; [apply quiet_logs|]. intros content. apply quiet_bind; [apply quiet_lift|]. intros v. apply quiet_ret.
Qed.

Lemma dispatch_isolated (headers : list (string * string)) (rq : request) (rid id : string) (w w' : W)
    (r : res (pyval * Z)) (k : key) :
  _dispatch settings headers rq rid w = (r, w') -> addressed (rq_target rq) = Some id ->
  state_consistent id (objects w) -> ~ object_of id k -> ~ tombstone_at (objects w) k ->
  objects w' !! k = objects w !! k.
Proof.
  intros E Hid Hst Hk Ht. destruct (routes_addressed (rq_target rq)) as (R1 & R2 & R3).
  assert (forall d, deployment_id d = id -> k ∉ footprint d) as Hfoot.
  { intros d <- Hin. by apply Hk, footprint_object. }
  unfold _dispatch in E.
  assert (forall w1 (r1 : res (pyval * Z)), (lift (_reject_body (rq_messages rq)) ≫= fun _ => raise not_found) w = (r1, w1) -> w1 = w) as Hmiss.
  { intros w1 r1 E1. apply (lift_then _ _ _ _ _ _ E1); [done|]. intros [] _ E2. by injection E2 as _ <-. }
  destruct (String.eqb_spec (rq_target rq) "/v1/deployments") as [Hp|_].
  { rewrite Hp in Hid. discriminate Hid. }
  cbn [andb] in E.
  destruct (_LOG_ROUTE (rq_target rq)) as [lid|].
  { destruct (String.eqb (rq_method rq) "GET"); [|apply Hmiss in E as ->; done].
    assert (quiet (dispatch_logs settings lid rq)) as Q.
    { unfold dispatch_logs. repeat (apply quiet_bind; [apply quiet_lift|intros ?]).
      apply quiet_bind; [apply logs_quiet|]. intros ?. apply quiet_ret. }
    by rewrite (quiet_run _ _ _ _ Q E). }
  destruct (_ACTION_ROUTE (rq_target rq)) as [[aid act]|].
  { specialize (R2 aid act eq_refl). assert (aid = id) as -> by congruence.
    destruct (String.eqb (rq_method rq) "POST"); [|apply Hmiss in E as ->; done].
    apply (lift_then _ _ _ _ _ _ E); [by intros ->|]. intros id' Hv%validated_same E1. subst id'.
    apply (lift_then _ _ _ _ _ _ E1); [by intros ->|]. intros d Hd%mutation_payload_id E2.
    apply then_ret in E2 as [r' E2]. exact (action_locked_frame settings d act rid w w' r' k E2 (Hfoot d Hd) Ht). }
  destruct (_DEPLOYMENT_ROUTE (rq_target rq)) as [did|]; [|apply Hmiss in E as ->; done].
  specialize (R3 did eq_refl). assert (did = id) as -> by congruence.
  apply (lift_then _ _ _ _ _ _ E); [by intros ->|]. intros id' Hv%validated_same E1. subst id'.
  destruct (String.eqb (rq_method rq) "GET").
  { apply (lift_then _ _ _ _ _ _ E1); [by intros ->|]. intros [] _ E2. apply then_ret in E2 as [r' E2].
    refine (touches_run (fun k => k = state_key id) _ _ _ _ k (observe_touches settings _ id eq_refl) E2 _).
    intros ->. apply Hk. by left. }
  destruct (String.eqb (rq_method rq) "PUT").
  { apply (lift_then _ _ _ _ _ _ E1); [by intros ->|]. intros d Hd%mutation_payload_id E2.
    apply then_ret in E2 as [r' E2]. exact (deploy_locked_frame settings d rid "" true w w' r' k E2 (Hfoot d Hd) Ht). }
  destruct (String.eqb (rq_method rq) "DELETE"); [|apply Hmiss in E1 as ->; done].
  apply (lift_then _ _ _ _ _ _ E1); [by intros ->|]. intros od Hd E2. apply then_ret in E2 as [r' E2].
  refine (undeploy_locked_frame settings id rid od w w' r' k E2 _ _); [intros ->; apply Hk; by left|].
  intros d Hsrc. assert (deployment_id d = id) as Hdid.
  { unfold deletion_source in Hsrc. destruct (objects w !! state_key id) as [o|] eqn:Ho.
    - destruct (_desired_from_state settings o) as [d'|] eqn:D; [|done]. injection Hsrc as ->. by eapply Hst.
    - subst od. by apply deletion_payload_id in Hd. }
  split; [done|]. intros (c & _ & Hin). apply Hk. right. by exists (slug c).
Qed.
End Isolation.

(** Tenant isolation at the API: a request whose path addresses one deployment,
    whatever its method, payload, query and outcome, leaves every object of every
    other deployment as it was (only terminal state records of older controllers may
    also be reclaimed). *)
Theorem request_isolated (settings : ControllerSettings) {W : Type} `{KubeLaws W} `{Runtime W}
    `{!RuntimeFrame W} (rq : request) (id : string) (w w' : W) (r : res reply) (k : key) :
  serve settings rq w = (r, w') -> addressed (rq_target rq) = Some id ->
  state_consistent settings id (objects w) -> ~ object_of id k -> ~ tombstone_at (objects w) k ->
  objects w' !! k = objects w !! k.
Proof.
  intros E. unfold serve, mbind, M_bind, lift in E.
  destruct (authorized settings rq) as [[headers rid]|e]; [|by injection E as _ <-].
  destruct (_dispatch settings headers rq rid w) as [[[result status]|e] w1] eqn:D.
  - destruct (_response status result rid); injection E as _ <-; exact (dispatch_isolated settings headers rq rid id w _ _ k D).
  - injection E as _ <-. exact (dispatch_isolated settings headers rq rid id w _ _ k D).
Qed.

Lemma request_isolated_witness :
  objects (serve Demo.settings anonymous Demo.start).2 !! (("Deployment", "other") : key) = None.
Proof.
  rewrite (request_isolated Demo.settings anonymous Sample.id Demo.start _ _ ("Deployment", "other") (surjective_pairing _)).
  - reflexivity.
  - reflexivity.
  - intros o d Ho. discriminate Ho.
  - intros [E|(slug & Hk)]; [discriminate E|].
    unfold component_objects in Hk. rewrite !elem_of_cons, elem_of_nil in Hk.
    destruct Hk as [E|[E|[E|[E|[]]]]]; apply (f_equal snd) in E; discriminate E.
  - intros (o & name & E & _). discriminate E.
Defined.
