(* ===== verification/Release.v ===== *)
(** The immutable releases DEALHost publishes (apps/hosting/runtime_release.py): the
    snapshot of a version's modules, the validation of reviewed runtime profiles, the
    manifest with its digest, and the policy of an environment.

    [modules] is the result of the locked query over an application's modules, in the
    order the database returns it.  A version is identified by its application and its
    number (the unique constraint of ApplicationVersion). *)

From S2P Require Import Prelude PyValue Regex Sha256 Json PyTime Service Contract.
#[local] Open Scope string_scope.
#[local] Open Scope list_scope.
#[local] Open Scope Z_scope.

Definition IMAGE_DIGEST_PATTERN : regex :=
  Seq (Cls lower_digit)
      (Seq (star (Cls (por lower_digit (one_of "._/-"))))
           (Seq (Cls lower_digit) (Seq (lit "@sha256:") (Rep 64 (Some 64%nat) (Cls hex_lower))))).
Definition RUNTIME_COMPONENT_PATTERN : regex :=
  Seq (Cls lower_digit) (Rep 0 (Some 62%nat) (Cls (por lower_digit (one_of "-")))).
Definition CPU_VALUE_PATTERN : regex :=
  Alt (Seq (Cls (between "1" "9")) (star (Cls (between "0" "9"))))
      (Seq (Cls (between "1" "9")) (Seq (star (Cls (between "0" "9"))) (lit "m"))).
Definition MEMORY_VALUE_PATTERN : regex :=
  Seq (Cls (between "1" "9"))
      (Seq (star (Cls (between "0" "9"))) (Alt (lit "Ki") (Alt (lit "Mi") (lit "Gi")))).
Definition REGISTRY_PREFIX_PATTERN : regex :=
  let inner p := opt (Seq (star (Cls p)) (Cls lower_digit)) in
  Seq (Cls lower_digit)
  (Seq (inner (por lower_digit (one_of ".-")))
  (Seq (opt (Seq (lit ":") (Rep 1 (Some 5%nat) (Cls (between "0" "9")))))
  (Seq (star (Seq (lit "/") (Seq (Cls lower_digit) (inner (por lower_digit (one_of "._-"))))))
       (lit "/")))).
Definition CONFIGURATION_KEY : regex :=
  Seq (Cls (between "A" "Z"))
      (Rep 0 (Some 63%nat) (Cls (por (between "A" "Z") (por (between "0" "9") (one_of "_"))))).
Definition SECRET_REF : regex :=
  Seq (Cls lower_digit)
      (opt (Seq (Rep 0 (Some 61%nat) (Cls (por lower_digit (one_of "-")))) (Cls lower_digit))).

Definition not_deployable (detail : string) : pyexn := RuntimeReleaseNotDeployable detail "release_not_deployable".

Definition canonical_json (value : pyval) : res string := encode_utf8 (dumps_sorted value).
Definition sha256_json (value : pyval) : res string :=
  text ← canonical_json value; Ok (sha256_hex text).
(** [json.loads(canonical_json(value))]. *)
Definition json_copy (value : pyval) : res pyval := canonical_json value ≫= loads.

(** [v is True], [v == n] for an integer [n] below 10^16. *)
Definition is_true (v : pyval) : bool := match v with PBool b => b | _ => false end.
Definition eq_int (v : pyval) (n : Z) : bool :=
  match v with
  | PInt z => z =? n
  | PBool b => (if b then 1 else 0) =? n
  | PFloat r => String.eqb r (py_str_int n ++ ".0") || (String.eqb r "-0.0" && (n =? 0))
  | _ => false
  end.
(** [a == b] of JSON values: dicts by content, numbers by value. *)
Fixpoint py_eqb (a b : pyval) : bool :=
  match a, b with
  | PNone, PNone => true
  | PStr s, PStr t => String.eqb s t
  | PInt z, _ => eq_int b z
  | PBool x, _ => eq_int b (if x then 1 else 0)
  | PFloat r, PFloat r' => String.eqb r r' && negb (String.eqb r "nan")
  | PFloat _, PInt z => eq_int a z
  | PFloat _, PBool x => eq_int a (if x then 1 else 0)
  | PList l, PList k =>
      (fix go (l k : list pyval) : bool :=
         match l, k with
         | [], [] => true
         | x :: l, y :: k => py_eqb x y && go l k
         | _, _ => false
         end) l k
  | PDict d, PDict e =>
      Nat.eqb (length d) (length e) &&
      (fix go (d : list (string * pyval)) : bool :=
         match d with
         | [] => true
         | (k, v) :: d => match dget k e with Some w => py_eqb v w | None => false end && go d
         end) d
  | _, _ => false
  end.

(** ** Rows *)
Record ModuleRuntimeProfile := {
  pr_schema_version : Z;
  pr_spec : pyval;
  pr_spec_digest : string;
  pr_enabled : bool;
  pr_verified_at : option Z
}.
Record Module_ := {
  mod_id : Z;
  mod_slug : string;
  mod_image : string;
  mod_enabled : bool;
  mod_deployment_target : string;
  runtime_profile : option ModuleRuntimeProfile
}.
Record HostedApplication := { app_id : Z; app_slug : string }.
Record ApplicationVersion := {
  ver_application : Z;
  ver_version : string;
  ver_source : string;
  runtime_snapshot : pyval;
  runtime_snapshot_digest : string
}.
Record RuntimeRelease := { rel_manifest : pyval; manifest_digest : string }.
Record RuntimeEnvironment := {
  env_enabled : bool;
  orchestrator : string;
  env_policy : pyval;
  env_capabilities : pyval
}.
Record catalog := {
  versions : gmap (Z * string) ApplicationVersion;
  releases : gmap (Z * string) RuntimeRelease
}.

(** ** Snapshots *)
Definition verified_text (p : ModuleRuntimeProfile) : pyval :=
  match pr_verified_at p with Some t => PStr (isoformat t) | None => PNone end.
Definition profile_fields (p : ModuleRuntimeProfile) (spec : pyval) : list (string * pyval) :=
  [("schema_version", PInt (pr_schema_version p)); ("spec", spec); ("spec_digest", PStr (pr_spec_digest p));
   ("enabled", PBool (pr_enabled p)); ("verified_at", verified_text p)].

Definition snapshot_module (m : Module_) : res pyval :=
  profile ← match runtime_profile m with
            | None => Ok PNone
            | Some p => spec ← json_copy (pr_spec p); Ok (PDict (profile_fields p spec))
            end;
  Ok (PDict [("module_id", PInt (mod_id m)); ("slug", PStr (mod_slug m)); ("image", PStr (mod_image m));
             ("enabled", PBool (mod_enabled m)); ("deployment_target", PStr (mod_deployment_target m));
             ("profile", profile)]).

Definition snapshot_application_runtime (application : HostedApplication) (modules : list Module_) : res pyval :=
  ms ← mapM_res snapshot_module modules;
  Ok (PDict [("schema_version", PInt 1);
             ("application", PDict [("id", PInt (app_id application)); ("slug", PStr (app_slug application))]);
             ("modules", PList ms)]).

(** ** Profiles *)
Definition _cpu_millis (value : string) : res Z :=
  if endswith "m" value then int_of_digits (chop 1 value)
  else n ← int_of_digits value; Ok (n * 1000).
Definition _memory_kib (value : string) : res Z :=
  number ← int_of_digits (chop 2 value);
  match dget (last_bytes 2 value) [("Ki", 1); ("Mi", 1024); ("Gi", 1024 * 1024)] with
  | Some factor => Ok (number * factor)
  | None => Raise (KeyError (last_bytes 2 value))
  end.

Definition healthcheck_ok (v : pyval) : bool :=
  match v with
  | PStr h => startswith "/" h && negb (startswith "//" h) && (py_len h <=? 255) && negb (any_space h)
  | _ => false
  end.
Definition port_ok (v : pyval) : bool :=
  match v with PInt p => (1 <=? p) && (p <=? 65535) | _ => false end.

(** One iteration of the loop over "requests" and "limits": the cpu and memory texts. *)
Definition profile_group (slug group : string) (resources : list (string * pyval)) : res (string * string) :=
  match vget group resources with
  | PDict values =>
      _ ← raise_if (negb (set_eqb (keys values) ["cpu"; "memory"]))
            (not_deployable ("Runtime profile for " ++ slug ++ " has incomplete resources."));
      match vget "cpu" values, vget "memory" values with
      | PStr cpu, PStr memory =>
          _ ← raise_if (negb (fullmatch CPU_VALUE_PATTERN cpu) || negb (fullmatch MEMORY_VALUE_PATTERN memory))
                (not_deployable ("Runtime profile for " ++ slug ++ " has invalid resource values."));
          Ok (cpu, memory)
      | _, _ => Raise (not_deployable ("Runtime profile for " ++ slug ++ " has invalid resource values."))
      end
  | _ => Raise (not_deployable ("Runtime profile for " ++ slug ++ " has incomplete resources."))
  end.
Definition profile_resources (slug : string) (v : pyval) : res unit :=
  let missing := not_deployable ("Runtime profile for " ++ slug ++ " must declare requests and limits.") in
  match v with
  | PDict resources =>
      _ ← raise_if (negb (set_eqb (keys resources) ["requests"; "limits"])) missing;
      '(rc, rm) ← profile_group slug "requests" resources;
      '(lc, lm) ← profile_group slug "limits" resources;
      let above := not_deployable ("Runtime profile for " ++ slug ++ " has requests above its limits.") in
      rcpu ← _cpu_millis rc; lcpu ← _cpu_millis lc;
      _ ← raise_if (lcpu <? rcpu) above;
      rmem ← _memory_kib rm; lmem ← _memory_kib lm;
      raise_if (lmem <? rmem) above
  | _ => Raise missing
  end.

(** One iteration of the loop over "plain" and "secret": the declared keys. *)
Definition configuration_key (v : pyval) : option string :=
  match v with PStr k => if fullmatch CONFIGURATION_KEY k then Some k else None | _ => None end.
Definition profile_keys (slug group : string) (configuration : list (string * pyval)) : res (list string) :=
  let bad := not_deployable ("Runtime profile for " ++ slug ++ " has invalid configuration keys.") in
  match dget_or group (PList []) configuration with
  | PList items =>
      _ ← raise_if (50 <? Z.of_nat (length items)) bad;
      match mapM configuration_key items with
      | Some ks => _ ← raise_if (negb (nodupb ks)) bad; Ok ks
      | None => Raise bad
      end
  | _ => Raise bad
  end.

Definition egress_ok (item : pyval) : bool :=
  match item with
  | PDict d =>
      set_eqb (keys d) ["host"; "port"] &&
      match vget "host" d with
      | PStr h => negb (String.eqb h "") && (py_len h <=? 253) && negb (any_space h)
      | _ => false
      end && port_ok (vget "port" d)
  | _ => false
  end.

Definition allowed_fields : list string :=
  ["kind"; "container_port"; "healthcheck_path"; "resources"; "configuration"; "network_egress"].

Definition validate_spec (slug : string) (spec : list (string * pyval)) : res unit :=
  let bad text := not_deployable ("Runtime profile for " ++ slug ++ text) in
  _ ← raise_if (match set_diff (keys spec) allowed_fields with [] => false | _ => true end)
        (bad " contains unsupported fields.");
  _ ← raise_if (negb (eq_str (vget "kind" spec) "deployment")) (bad " is not a stateless deployment.");
  _ ← raise_if (negb (port_ok (vget "container_port" spec))) (bad " has an invalid container port.");
  _ ← raise_if (negb (healthcheck_ok (vget "healthcheck_path" spec))) (bad " has an invalid healthcheck path.");
  _ ← profile_resources slug (vget "resources" spec);
  match dget_or "configuration" (PDict []) spec with
  | PDict configuration =>
      _ ← raise_if (match set_diff (keys configuration) ["plain"; "secret"] with [] => false | _ => true end)
            (bad " has an invalid configuration schema.");
      plain ← profile_keys slug "plain" configuration;
      secret ← profile_keys slug "secret" configuration;
      _ ← raise_if (negb (disjointb plain secret)) (bad " reuses plain keys as secrets.");
      match dget_or "network_egress" (PList []) spec with
      | PList rules => raise_if (negb (forallb egress_ok rules)) (bad " has invalid egress rules.")
      | _ => Raise (bad " has invalid egress rules.")
      end
  | _ => Raise (bad " has an invalid configuration schema.")
  end.

Definition _validate_profile_snapshot (slug : string) (profile : list (string * pyval)) : res pyval :=
  _ ← raise_if (negb (is_true (vget "enabled" profile)) ||
                match vget "verified_at" profile with PStr s => String.eqb s "" | _ => true end)
        (not_deployable ("Runtime profile for " ++ slug ++ " is not enabled and verified."));
  match vget "spec" profile with
  | PDict spec =>
      _ ← raise_if (negb (eq_one (vget "schema_version" profile)))
            (not_deployable ("Runtime profile for " ++ slug ++ " uses an unsupported schema."));
      expected_digest ← sha256_json (PDict spec);
      _ ← raise_if (negb (eq_str (vget "spec_digest" profile) expected_digest))
            (not_deployable ("Runtime profile digest for " ++ slug ++ " does not match its spec."));
      _ ← validate_spec slug spec;
      json_copy (PDict spec)
  | _ => Raise (not_deployable ("Runtime profile for " ++ slug ++ " uses an unsupported schema."))
  end.

Definition validate_runtime_profile (module_slug : string) (p : ModuleRuntimeProfile) : res pyval :=
  _validate_profile_snapshot module_slug (profile_fields p (pr_spec p)).

(** ** The manifest of a version *)
Definition catalog_error : pyexn := not_deployable "The published runtime snapshot has an invalid module catalog.".

(** One iteration over the snapshot's modules: the manifest so far, the identifiers and
    the slugs already used. *)
Definition manifest_module (acc : list pyval * list Z * list string) (raw_module : pyval)
    : res (list pyval * list Z * list string) :=
  let '(manifest_modules, module_ids, module_slugs) := acc in
  match raw_module with
  | PDict raw =>
      let identifiers := not_deployable "The published runtime snapshot has invalid component identifiers." in
      match vget "module_id" raw, vget "slug" raw with
      | PInt module_id, PStr module_slug =>
          _ ← raise_if ((module_id <? 1) || existsb (Z.eqb module_id) module_ids ||
                        negb (fullmatch RUNTIME_COMPONENT_PATTERN module_slug) || mem module_slug module_slugs)
                identifiers;
          let bad text := not_deployable ("Module " ++ module_slug ++ text) in
          _ ← raise_if (negb (is_true (vget "enabled" raw))) (bad " is disabled.");
          _ ← raise_if (negb (eq_str (vget "deployment_target" raw) "kubernetes"))
                (bad " is not declared for Kubernetes.");
          match vget "image" raw with
          | PStr image =>
              _ ← raise_if (negb (fullmatch IMAGE_DIGEST_PATTERN image))
                    (bad " must use an immutable sha256 image digest.");
              match vget "profile" raw with
              | PDict profile =>
                  spec ← _validate_profile_snapshot module_slug profile;
                  Ok (manifest_modules ++
                        [PDict [("module_id", PInt module_id); ("slug", PStr module_slug); ("image", PStr image);
                                ("profile_schema_version", vget "schema_version" profile);
                                ("profile_digest", vget "spec_digest" profile); ("spec", spec)]],
                      module_ids ++ [module_id], module_slugs ++ [module_slug])
              | _ => Raise (bad " has no reviewed runtime profile.")
              end
          | _ => Raise (bad " must use an immutable sha256 image digest.")
          end
      | _, _ => Raise identifiers
      end
  | _ => Raise catalog_error
  end.

Definition _manifest_from_snapshot (version : ApplicationVersion) (application : HostedApplication)
    (snapshot : list (string * pyval)) : res pyval :=
  match vget "application" snapshot, vget "modules" snapshot with
  | PDict application_snapshot, PList raw_modules =>
      _ ← raise_if (negb (eq_one (vget "schema_version" snapshot)) ||
                    negb (eq_int (vget "id" application_snapshot) (app_id application)) ||
                    negb (is_str (vget "slug" application_snapshot)) ||
                    Nat.eqb (length raw_modules) 0 || Nat.ltb 20 (length raw_modules)) catalog_error;
      '(manifest_modules, _, _) ← foldM_res manifest_module ([], [], []) raw_modules;
      Ok (PDict [("schema_version", PInt 1); ("application", PDict application_snapshot);
                 ("version", PStr (ver_version version)); ("version_source", PStr (ver_source version));
                 ("modules", PList manifest_modules)])
  | _, _ => Raise catalog_error
  end.

(** ** Integrity and policy *)
Definition _validate_release_integrity (r : RuntimeRelease) (version : ApplicationVersion)
    (application : HostedApplication) : res unit :=
  let corrupted := not_deployable "The immutable runtime release failed its integrity check." in
  match rel_manifest r with
  | PDict manifest =>
      digest ← sha256_json (rel_manifest r);
      _ ← raise_if (negb (String.eqb digest (manifest_digest r)) || negb (eq_one (vget "schema_version" manifest)) ||
                    negb (eq_str (vget "version" manifest) (ver_version version))) corrupted;
      let invalid_catalog := not_deployable "The immutable runtime release has an invalid application catalog." in
      match vget "application" manifest, vget "modules" manifest with
      | PDict application_snapshot, PList raw_modules =>
          raise_if (negb (ver_application version =? app_id application) ||
                    negb (eq_int (vget "id" application_snapshot) (app_id application)) ||
                    negb (is_str (vget "slug" application_snapshot)) || Nat.eqb (length raw_modules) 0)
            invalid_catalog
      | _, _ => Raise invalid_catalog
      end
  | _ => Raise corrupted
  end.

Definition pattern_item (r : regex) (v : pyval) : option string :=
  match v with PStr s => if fullmatch r s then Some s else None | _ => None end.

(** One iteration over the manifest's modules. *)
Definition module_allowed (registries : list string) (capabilities : list (string * pyval)) (module : pyval)
    : res unit :=
  match module with
  | PDict m =>
      let slug := py_str (dget_or "slug" (PStr "module") m) in
      _ ← raise_if (match vget "image" m with
                    | PStr image => negb (existsb (fun prefix => startswith prefix image) registries)
                    | _ => true
                    end) (not_deployable ("Image registry for " ++ slug ++ " is not allowed."));
      raise_if (match vget "spec" m with
                | PDict spec => truthy (vget "network_egress" spec) &&
                                negb (is_true (vget "network_egress" capabilities))
                | _ => false
                end)
        (not_deployable ("Network egress requested by " ++ slug ++ " is not supported in this environment."))
  | _ => Raise (not_deployable "The immutable runtime release has an invalid module catalog.")
  end.

Definition registries_of (policy : list (string * pyval)) : res (list string) :=
  let bad := not_deployable "The runtime registry policy is invalid." in
  match dget_or "allowed_registries" (PList []) policy with
  | PList items =>
      match mapM (pattern_item REGISTRY_PREFIX_PATTERN) items with Some l => Ok l | None => Raise bad end
  | _ => Raise bad
  end.
Definition check_secret_refs (policy : list (string * pyval)) : res unit :=
  let bad := not_deployable "The runtime environment secret-reference policy is invalid." in
  match vget "allowed_secret_refs" policy with
  | PList items =>
      _ ← raise_if (Nat.ltb 100 (length items)) bad;
      match mapM (pattern_item SECRET_REF) items with
      | Some l => raise_if (negb (nodupb l)) bad
      | None => Raise bad
      end
  | _ => Raise bad
  end.

Definition _validate_environment_policy (manifest : pyval) (environment : RuntimeEnvironment) : res unit :=
  _ ← raise_if (negb (env_enabled environment) || negb (String.eqb (orchestrator environment) "kubernetes"))
        (not_deployable "The runtime environment is not enabled.");
  match env_policy environment, env_capabilities environment with
  | PDict policy, PDict capabilities =>
      registries ← registries_of policy;
      _ ← raise_if (negb (is_true (vget "requires_image_digest" policy)))
            (not_deployable "The runtime environment must require immutable image digests.");
      _ ← raise_if (negb (is_true (vget "stateless_only" policy)))
            (not_deployable "The runtime environment must enforce stateless workloads.");
      _ ← check_secret_refs policy;
      modules ← attr_get_or "modules" PNone manifest;
      match modules with
      | PList modules => foldM_res (fun _ => module_allowed registries capabilities) tt modules
      | _ => Raise (not_deployable "The immutable runtime release has an invalid module catalog.")
      end
  | _, _ => Raise (not_deployable "The runtime environment policy is invalid.")
  end.

(** ** runtime_release_for *)
Definition set_version (k : Z * string) (v : ApplicationVersion) (c : catalog) : catalog :=
  {| versions := <[k := v]> (versions c); releases := releases c |}.
Definition set_release (k : Z * string) (r : RuntimeRelease) (c : catalog) : catalog :=
  {| versions := versions c; releases := <[k := r]> (releases c) |}.
Definition with_snapshot (v : ApplicationVersion) (snapshot : pyval) (digest : string) : ApplicationVersion :=
  {| ver_application := ver_application v; ver_version := ver_version v; ver_source := ver_source v;
     runtime_snapshot := snapshot; runtime_snapshot_digest := digest |}.
Definition unset (v : ApplicationVersion) : bool :=
  negb (truthy (runtime_snapshot v)) && String.eqb (runtime_snapshot_digest v) "".

(** The transaction that materialises the snapshot of an old version. *)
Definition materialize (application : HostedApplication) (modules : list Module_) (k : Z * string)
    : M catalog ApplicationVersion :=
  fun c =>
    match versions c !! k with
    | None => (Raise (KeyError k.2), c)
    | Some locked =>
        if unset locked then
          match (snapshot ← snapshot_application_runtime application modules;
                 digest ← sha256_json snapshot; Ok (with_snapshot locked snapshot digest)) with
          | Ok v => (Ok v, set_version k v c)
          | Raise e => (Raise e, c)
          end
        else (Ok locked, c)
    end.

Definition _version_runtime_snapshot (version : ApplicationVersion) (application : HostedApplication)
    (modules : list Module_) (k : Z * string) : M catalog (list (string * pyval)) :=
  v ← (if unset version then materialize application modules k else mret version);
  let corrupted := not_deployable "The published runtime snapshot failed its integrity check." in
  lift (match runtime_snapshot v with
        | PDict snapshot =>
            _ ← raise_if (negb (fullmatch _HEX_DIGEST (runtime_snapshot_digest v))) corrupted;
            digest ← sha256_json (PDict snapshot);
            _ ← raise_if (negb (String.eqb digest (runtime_snapshot_digest v))) corrupted;
            Ok snapshot
        | _ => Raise corrupted
        end).

(** The final transaction: [get_or_create] and the checks on its row; an exception rolls
    it back. *)
Definition publish_release (k : Z * string) (version : ApplicationVersion) (application : HostedApplication)
    (manifest : pyval) (digest : string) : M catalog RuntimeRelease :=
  fun c =>
    match releases c !! k with
    | Some r =>
        (_ ← raise_if (negb (String.eqb (manifest_digest r) digest) || negb (py_eqb (rel_manifest r) manifest))
               (not_deployable "The immutable runtime release conflicts with its published snapshot.");
         _ ← _validate_release_integrity r version application;
         Ok r, c)
    | None =>
        let r := {| rel_manifest := manifest; manifest_digest := digest |} in
        match _validate_release_integrity r version application with
        | Ok _ => (Ok r, set_release k r c)
        | Raise e => (Raise e, c)
        end
    end.

Definition runtime_release_for (application : HostedApplication) (modules : list Module_) (version : string)
    (environment : RuntimeEnvironment) : M catalog RuntimeRelease :=
  fun c =>
    let k := (app_id application, version) in
    match versions c !! k with
    | None => (Raise (not_deployable "Only published application versions can be deployed."), c)
    | Some application_version =>
        match releases c !! k with
        | Some existing =>
            (_ ← _validate_release_integrity existing application_version application;
             _ ← _validate_environment_policy (rel_manifest existing) environment;
             Ok existing, c)
        | None =>
            (snapshot ← _version_runtime_snapshot application_version application modules k;
             manifest ← lift (_manifest_from_snapshot application_version application snapshot);
             _ ← lift (_validate_environment_policy manifest environment);
             digest ← lift (sha256_json manifest);
             publish_release k application_version application manifest digest) c
        end
    end.
