(* ===== verification/ReleaseSpec.v ===== *)
(** Releases: what a published release guarantees, that it never changes, and that the
    runtime controller accepts the manifest the host builds. *)

From S2P Require Import Prelude PyValue Regex Sha256 Json Config Contract ContractCanon PyTime Release.
#[local] Open Scope string_scope.
#[local] Open Scope list_scope.
#[local] Open Scope Z_scope.

(** ** The host's profile checks imply the controller's *)
Lemma exact_fields_intro {A} (d : list (string * A)) allowed label optional :
  keys d ⊆ allowed -> (forall k, k ∈ allowed -> k ∉ optional -> k ∈ keys d) ->
  _exact_fields d allowed label optional = Ok tt.
Proof.
  intros H1 H2. unfold _exact_fields.
  assert (set_diff (keys d) allowed = []) as -> by (by apply set_diff_nil).
  assert (set_diff (set_diff allowed optional) (keys d) = []) as ->; [|done].
  apply set_diff_nil. intros k Hk. unfold set_diff in Hk.
  apply list_elem_of_In, filter_In in Hk as [Hk Hn]. apply H2; [by apply list_elem_of_In|].
  apply negb_true_iff, mem_not_In in Hn. done.
Qed.
Lemma vget_key k d : vget k d <> PNone -> k ∈ keys d.
Proof.
  unfold vget, dget_or. destruct (dget k d) as [v|] eqn:E; [|done]. intros _.
  apply dget_Some_In in E. unfold keys. apply list_elem_of_fmap. by exists (k, v).
Qed.

Lemma group_accepted slug group rs p :
  profile_group slug group rs = Ok p -> resource_group rs group slug = Ok p /\ vget group rs <> PNone.
Proof.
  unfold profile_group, resource_group. destruct (vget group rs) as [| | | | | |values] eqn:E; try done.
  intros H. split; [|done]. apply bind_Ok in H as ([] & Hk%raise_if_Ok & H). apply negb_false_iff in Hk.
  assert (Hk' : keys values ⊆ ["cpu"; "memory"] /\ ["cpu"; "memory"] ⊆ keys values).
  { unfold set_eqb in Hk. apply andb_true_iff in Hk as [?%subsetb_spec ?%subsetb_spec]. done. }
  cbn [_object mbind res_bind].
  rewrite (exact_fields_intro values ["cpu"; "memory"] _ []); [|apply Hk'|intros k Hk1 _; by apply Hk'].
  cbn [mbind res_bind]. destruct (vget "cpu" values); try done. destruct (vget "memory" values); try done.
  apply bind_Ok in H as ([] & Hp%raise_if_Ok & H). apply orb_false_iff in Hp as [Hc Hm].
  change CPU_VALUE_PATTERN with _CPU in Hc. change MEMORY_VALUE_PATTERN with _MEMORY in Hm.
  rewrite Hc, Hm. done.
Qed.

Lemma resources_accepted slug v :
  profile_resources slug v = Ok tt -> exists r, _resources v slug = Ok r.
Proof.
  unfold profile_resources, _resources. destruct v as [| | | | | |rs]; try done. intros H.
  apply bind_Ok in H as ([] & Hk%raise_if_Ok & H). apply negb_false_iff in Hk.
  unfold set_eqb in Hk. apply andb_true_iff in Hk as [Hk1%subsetb_spec Hk2%subsetb_spec].
  cbn [_object mbind res_bind]. rewrite (exact_fields_intro rs _ _ []); [|done|intros k Hk _; by apply Hk2].
  apply bind_Ok in H as ([rc rm] & Hr & H). apply bind_Ok in H as ([lc lm] & Hl & H).
  apply group_accepted in Hr as [-> _]. apply group_accepted in Hl as [-> _]. cbn [mbind res_bind].
  change Release._cpu_millis with Contract._cpu_millis in H.
  apply bind_Ok in H as (x1 & -> & H). apply bind_Ok in H as (x2 & -> & H). cbn [mbind res_bind].
  apply bind_Ok in H as ([] & ->%raise_if_Ok & H). change Release._memory_kib with Contract._memory_kib in H.
  apply bind_Ok in H as (x3 & -> & H). apply bind_Ok in H as (x4 & -> & H). cbn [mbind res_bind].
  apply raise_if_Ok in H as ->. eexists. reflexivity.
Qed.

Lemma keys_accepted slug group configuration ks :
  profile_keys slug group configuration = Ok ks ->
  _key_set (dget_or group (PList []) configuration) slug = Ok ks.
Proof.
  unfold profile_keys, _key_set. destruct (dget_or _ _ _); try done. intros H.
  apply bind_Ok in H as ([] & ->%raise_if_Ok & H). change configuration_key with env_key_item in H.
  destruct (mapM env_key_item l) as [k|]; [|done]. apply bind_Ok in H as ([] & Hn%raise_if_Ok & H).
  apply negb_false_iff in Hn. by rewrite Hn.
Qed.

Lemma set_diff_match (l : list string) : match l with [] => false | _ => true end = false -> l = [].
Proof. by destruct l. Qed.

Definition no_egress (spec : list (string * pyval)) : Prop := dget_or "network_egress" (PList []) spec = PList [].

Lemma profile_accepted id slug img spec :
  validate_spec slug spec = Ok tt -> no_egress spec -> exists mc, _parse_profile id slug img spec = Ok mc.
Proof.
  intros H He. unfold validate_spec in H. unfold _parse_profile.
  apply bind_Ok in H as ([] & Hf%raise_if_Ok%set_diff_match%set_diff_nil & H).
  apply bind_Ok in H as ([] & Hk%raise_if_Ok & H). apply bind_Ok in H as ([] & Hp%raise_if_Ok & H).
  apply bind_Ok in H as ([] & Hh%raise_if_Ok & H). apply bind_Ok in H as ([] & Hr & H).
  rewrite negb_false_iff in Hk, Hp, Hh. unfold allowed_fields in Hf.
  assert (Hnone : forall v, port_ok v = true \/ healthcheck_ok v = true \/ eq_str v "deployment" = true -> v <> PNone)
    by (intros v Hv ->; simpl in Hv; naive_solver).
  rewrite (exact_fields_intro spec _ _ _ Hf).
  2:{ intros k Hin Hopt. apply vget_key. rewrite !elem_of_cons, elem_of_nil in Hin.
      destruct Hin as [->|[->|[->|[->|[->|[->|[]]]]]]]; auto; [|set_solver|set_solver].
      intros E. rewrite E in Hr. discriminate Hr. }
  cbn [mbind res_bind]. rewrite Hk. cbn [negb raise_if mbind res_bind].
  destruct (vget "container_port" spec) as [| |p| | | |]; try done. simpl in Hp.
  apply andb_true_iff in Hp as [Hp1%Z.leb_le Hp2%Z.leb_le]. unfold _positive_int.
  destruct (Z.ltb_spec p 1); [lia|]. cbn [mbind res_bind]. destruct (Z.ltb_spec 65535 p); [lia|].
  cbn [raise_if mbind res_bind]. destruct (vget "healthcheck_path" spec) as [| | | |h| |]; try done. simpl in Hh.
  rewrite !andb_true_iff, !negb_true_iff, Z.leb_le in Hh. destruct Hh as [[[Hh1 Hh2] Hh3] Hh4].
  unfold valid_health. rewrite Hh1, Hh2, Hh4. destruct (Z.ltb_spec 255 (py_len h)); [lia|]. cbn [negb orb].
  apply resources_accepted in Hr as [r ->]. cbn [mbind res_bind].
  destruct (dget_or "configuration" (PDict []) spec) as [| | | | | |cfg]; try done. cbn [_object mbind res_bind].
  apply bind_Ok in H as ([] & Hc%raise_if_Ok%set_diff_match%set_diff_nil & H).
  rewrite (exact_fields_intro cfg _ _ ["plain"; "secret"] Hc) by (intros k Hk1 Hk2; done). cbn [mbind res_bind].
  apply bind_Ok in H as (plain & Hpl%keys_accepted & H). apply bind_Ok in H as (secret & Hse%keys_accepted & H).
  rewrite Hpl, Hse. cbn [mbind res_bind]. apply bind_Ok in H as ([] & ->%raise_if_Ok & _).
  cbn [raise_if mbind res_bind]. rewrite He. eexists. reflexivity.
Qed.

(** ** The host's modules are the controller's *)
Lemma image_accepted s : fullmatch IMAGE_DIGEST_PATTERN s = true -> fullmatch _IMAGE s = true.
Proof.
  rewrite !fullmatch_spec. intros (s1 & s2 & -> & H1 & s3 & s4 & -> & H3 & s5 & s6 & -> & H5 & H6).
  exists s1, ((s3 ++ s5) ++ s6)%string. split; [by rewrite <- !append_assoc|]. split; [done|].
  exists (s3 ++ s5)%string, s6. split; [done|]. split; [|done].
  exists [(s3 ++ s5)%string]. split; [done|]. split; [|simpl; lia].
  constructor; [|done]. by exists s3, s5.
Qed.

Lemma profile_snapshot_Ok slug profile v :
  _validate_profile_snapshot slug profile = Ok v ->
  exists spec digest, vget "spec" profile = PDict spec /\ eq_one (vget "schema_version" profile) = true /\
    sha256_json (PDict spec) = Ok digest /\ vget "spec_digest" profile = PStr digest /\
    validate_spec slug spec = Ok tt /\ json_copy (PDict spec) = Ok v.
Proof.
  unfold _validate_profile_snapshot. intros H. apply bind_Ok in H as ([] & _ & H).
  destruct (vget "spec" profile) as [| | | | | |spec]; try done.
  apply bind_Ok in H as ([] & Hs%raise_if_Ok%negb_false_iff & H). apply bind_Ok in H as (digest & Hd & H).
  apply bind_Ok in H as ([] & He%raise_if_Ok%negb_false_iff & H). apply bind_Ok in H as ([] & Hv & H).
  exists spec, digest. split_and!; try done.
  destruct (vget "spec_digest" profile) as [| | | |t| |]; try done. apply String.eqb_eq in He. by subst.
Qed.

Lemma json_copy_sorted spec v digest :
  json_ok (PDict spec) -> sha256_json (PDict spec) = Ok digest -> json_copy (PDict spec) = Ok v ->
  v = PDict (sorted_dict spec).
Proof.
  intros Hok Hd Hc. unfold json_copy in Hc. apply bind_Ok in Hc as (text & Ht & Hl).
  apply encode_utf8_Ok in Ht as [-> _]. rewrite loads_dumps_sorted in Hl by done. by apply Ok_inj in Hl.
Qed.

Lemma digest_hex v digest : sha256_json v = Ok digest -> fullmatch _HEX_DIGEST digest = true.
Proof.
  unfold sha256_json. intros H. apply bind_Ok in H as (text & _ & <-%Ok_inj). apply fullmatch_spec, matches_Rep_Cls.
  rewrite sha256_hex_length. split; [apply sha256_hex_bytes|lia].
Qed.

(** What the controller asks beyond the host's own checks: a registry of its own
    allow-list and no egress rule. *)
Definition module_ready (settings : ControllerSettings) (raw : pyval) : Prop :=
  forall d profile spec image, raw = PDict d -> vget "profile" d = PDict profile -> vget "spec" profile = PDict spec ->
    vget "image" d = PStr image ->
    json_ok (PDict spec) /\ no_egress spec /\
    existsb (fun prefix => startswith prefix image) (allowed_image_prefixes settings) = true.

Lemma keys_dset_new {A} k (v : A) d : has_key k d = false -> keys (dset k v d) = keys d ++ [k].
Proof.
  unfold has_key. destruct (dget k d) eqn:E; [done|]. intros _. rewrite dset_fresh; [|by apply dget_None].
  unfold keys. by rewrite fmap_app.
Qed.
Lemma has_key_mem {A} k (d : list (string * A)) : has_key k d = mem k (keys d).
Proof.
  unfold has_key. destruct (dget k d) eqn:E; symmetry.
  - apply mem_In. apply dget_Some_In in E. unfold keys. apply list_elem_of_fmap. by exists (k, a).
  - apply mem_not_In. by apply dget_None.
Qed.

Lemma module_accepted settings mm ids slugs raw mm' ids' slugs' parsed :
  module_ready settings raw -> manifest_module (mm, ids, slugs) raw = Ok (mm', ids', slugs') ->
  keys parsed = slugs ->
  exists m parsed', mm' = mm ++ [m] /\ parse_module settings (parsed, ids) m = Ok (parsed', ids') /\
    keys parsed' = slugs'.
Proof.
  intros Hready H Hkeys. unfold manifest_module in H. destruct raw as [| | | | | |d]; try done.
  destruct (vget "module_id" d) as [| |id| | | |]; try done. destruct (vget "slug" d) as [| | | |slug| |]; try done.
  apply bind_Ok in H as ([] & Hid%raise_if_Ok & H). rewrite !orb_false_iff, negb_false_iff in Hid.
  destruct Hid as [[[Hpos%Z.ltb_ge Hids] Hslug] Hmem].
  apply bind_Ok in H as ([] & _ & H). apply bind_Ok in H as ([] & _ & H).
  destruct (vget "image" d) as [| | | |image| |] eqn:Eimage; try done.
  apply bind_Ok in H as ([] & Himg%raise_if_Ok%negb_false_iff%image_accepted & H).
  destruct (vget "profile" d) as [| | | | | |profile] eqn:Eprofile; try done.
  apply bind_Ok in H as (v & Hv & H). apply Ok_inj in H. injection H as <- <- <-.
  apply profile_snapshot_Ok in Hv as (spec & digest & Espec & Hone & Hdig & Edig & Hval & Hcopy).
  destruct (Hready d profile spec image eq_refl Eprofile Espec Eimage) as (Hok & Heg & Hprefix).
  pose proof (json_copy_sorted _ _ _ Hok Hdig Hcopy) as ->.
  destruct (profile_accepted id slug image spec Hval Heg) as [mc Hmc].
  apply _parse_profile_sorted in Hmc; [|done].
  eexists _, _. split; [reflexivity|]. split; [|rewrite <-Hkeys; apply keys_dset_new; by rewrite has_key_mem, Hkeys].
  unfold parse_module. cbn [_object mbind res_bind]. rewrite exact_fields_intro by (unfold keys; set_solver).
  cbn [mbind res_bind]. unfold _positive_int at 1. cbn [vget dget_or dget String.eqb Ascii.eqb Bool.eqb].
  destruct (Z.ltb_spec id 1); [lia|]. cbn [mbind res_bind].
  change RUNTIME_COMPONENT_PATTERN with _COMPONENT_SLUG in Hslug. rewrite Hslug, has_key_mem, Hkeys, Hmem, Hids.
  cbn [negb orb raise_if mbind res_bind]. unfold allowed_image. rewrite Himg, Hprefix.
  cbn [negb andb raise_if mbind res_bind]. rewrite Hone. cbn [negb raise_if mbind res_bind _object]. rewrite Edig.
  rewrite (digest_hex _ _ Hdig). cbn [negb raise_if mbind res_bind].
  change (PDict (sorted_dict spec)) with (sort_keys (PDict spec)). rewrite payload_digest_sorted by done.
  change (payload_digest (PDict spec)) with (sha256_json (PDict spec)). rewrite Hdig. cbn [mbind res_bind].
  rewrite String.eqb_refl. cbn [negb raise_if mbind res_bind]. rewrite Hmc. reflexivity.
Qed.

Lemma modules_accepted settings raws : forall mm ids slugs mm' ids' slugs' parsed,
  Forall (module_ready settings) raws ->
  foldM_res manifest_module (mm, ids, slugs) raws = Ok (mm', ids', slugs') -> keys parsed = slugs ->
  exists ms parsed', mm' = mm ++ ms /\ length ms = length raws /\
    foldM_res (parse_module settings) (parsed, ids) ms = Ok (parsed', ids') /\ keys parsed' = slugs'.
Proof.
  induction raws as [|raw raws IH]; intros mm ids slugs mm' ids' slugs' parsed Hr H Hk.
  - apply Ok_inj in H. injection H as <- <- <-. exists [], parsed. by rewrite app_nil_r.
  - apply Forall_cons_1 in Hr as [Hr Hrs]. cbn [foldM_res] in H. apply bind_Ok in H as ([[mm1 ids1] slugs1] & H1 & H2).
    destruct (module_accepted _ _ _ _ _ _ _ _ _ Hr H1 Hk) as (m & parsed1 & -> & Hm & Hk1).
    destruct (IH _ _ _ _ _ _ _ Hrs H2 Hk1) as (ms & parsed2 & -> & Hl & Hms & Hk2).
    exists (m :: ms), parsed2. split_and!; [by rewrite <-app_assoc|simpl; lia| |done].
    cbn [foldM_res]. rewrite Hm. exact Hms.
Qed.

Lemma manifest_accepted settings version application snapshot manifest slug raws :
  _manifest_from_snapshot version application snapshot = Ok manifest ->
  vget "application" snapshot = PDict [("id", PInt (app_id application)); ("slug", PStr slug)] -> slug <> "" ->
  ver_version version <> "" -> vget "modules" snapshot = PList raws -> Forall (module_ready settings) raws ->
  exists m parsed, manifest = PDict m /\ _parse_manifest m settings = Ok parsed.
Proof.
  intros H Happ Hslug Hver Hraws Hready. unfold _manifest_from_snapshot in H. rewrite Happ, Hraws in H.
  apply bind_Ok in H as ([] & Hc%raise_if_Ok & H). rewrite !orb_false_iff in Hc.
  destruct Hc as [[_ H0%Nat.eqb_neq] H20%Nat.ltb_ge].
  apply bind_Ok in H as ([[ms ids] slugs] & Hf & <-%Ok_inj).
  destruct (modules_accepted settings raws [] [] [] ms ids slugs [] Hready Hf eq_refl) as (ms' & parsed & -> & Hl & Hp & _).
  eexists _, parsed. split; [reflexivity|]. unfold _parse_manifest.
  rewrite exact_fields_intro by (unfold keys; set_solver). cbn [mbind res_bind].
  cbn [vget dget_or dget String.eqb Ascii.eqb Bool.eqb eq_one Z.eqb negb raise_if mbind res_bind _object Pos.eqb].
  rewrite exact_fields_intro by (unfold keys; set_solver). cbn [mbind res_bind raise_if].
  apply String.eqb_neq in Hslug, Hver. rewrite Hslug, Hver. cbn [mbind res_bind raise_if is_str negb].
  cbn [app]. rewrite Hl.
  replace ((1 <=? Z.of_nat (length raws)) && (Z.of_nat (length raws) <=? 20)) with true
    by (symmetry; apply andb_true_iff; rewrite !Z.leb_le; lia).
  cbn [mbind res_bind raise_if negb]. rewrite Hp. reflexivity.
Qed.

(** ** Integrity and immutability of releases *)
Lemma integrity_Ok r version application :
  _validate_release_integrity r version application = Ok tt ->
  exists m ms, rel_manifest r = PDict m /\ sha256_json (PDict m) = Ok (manifest_digest r) /\
    vget "version" m = PStr (ver_version version) /\ vget "modules" m = PList ms /\ ms <> [].
Proof.
  unfold _validate_release_integrity. destruct (rel_manifest r) as [| | | | | |m] eqn:E; try done. intros H.
  apply bind_Ok in H as (digest & Hd & H). apply bind_Ok in H as ([] & Hc%raise_if_Ok & H).
  rewrite !orb_false_iff, !negb_false_iff in Hc. destruct Hc as [[Hdig%String.eqb_eq _] Hv].
  destruct (vget "application" m) as [| | | | | |a]; try done.
  destruct (vget "modules" m) as [| | | | |ms|] eqn:Ems; try done.
  apply raise_if_Ok in H. rewrite !orb_false_iff in H. destruct H as [_ Hlen%Nat.eqb_neq].
  exists m, ms. subst digest. split_and!; try done; [|by intros ->].
  destruct (vget "version" m) as [| | | |t| |]; try done. by apply String.eqb_eq in Hv as ->.
Qed.

(** The registries of an environment, and a module whose image comes from one of them. *)
Definition from_registry (registries : list string) (module : pyval) : Prop :=
  exists m image prefix, module = PDict m /\ vget "image" m = PStr image /\ prefix ∈ registries /\
    startswith prefix image = true.

Lemma policy_modules registries capabilities ms :
  foldM_res (fun _ => module_allowed registries capabilities) tt ms = Ok tt -> Forall (from_registry registries) ms.
Proof.
  induction ms as [|module ms IH]; intros H; constructor; cbn [foldM_res] in H; apply bind_Ok in H as ([] & Hm & H).
  - unfold module_allowed in Hm. destruct module as [| | | | | |m]; try done.
    apply bind_Ok in Hm as ([] & Hi%raise_if_Ok & _). destruct (vget "image" m) as [| | | |image| |] eqn:Ei; try done.
    apply negb_false_iff, existsb_exists in Hi as (prefix & Hp & Hs). exists m, image, prefix.
    by rewrite list_elem_of_In.
  - by apply IH.
Qed.
Lemma policy_Ok m environment ms :
  _validate_environment_policy (PDict m) environment = Ok tt -> vget "modules" m = PList ms ->
  exists policy registries, env_policy environment = PDict policy /\ registries_of policy = Ok registries /\
    env_enabled environment = true /\ Forall (from_registry registries) ms.
Proof.
  unfold _validate_environment_policy. intros H Hms. apply bind_Ok in H as ([] & He%raise_if_Ok & H).
  rewrite orb_false_iff, negb_false_iff in He. destruct He as [He _].
  destruct (env_policy environment) as [| | | | | |policy]; try done.
  destruct (env_capabilities environment) as [| | | | | |caps]; try done.
  apply bind_Ok in H as (registries & Hr & H). apply bind_Ok in H as ([] & _ & H).
  apply bind_Ok in H as ([] & _ & H). apply bind_Ok in H as ([] & _ & H). cbn [attr_get_or mbind res_bind] in H.
  unfold vget in Hms. rewrite Hms in H. exists policy, registries. split_and!; try done. by eapply policy_modules.
Qed.

Lemma bind_frame {A B} (R : catalog -> catalog -> Prop) (m : M catalog A) (f : A -> M catalog B) :
  (forall c1 c2 c3, R c1 c2 -> R c2 c3 -> R c1 c3) ->
  (forall c o c', m c = (o, c') -> R c c') -> (forall a c o c', f a c = (o, c') -> R c c') ->
  forall c o c', (m ≫= f) c = (o, c') -> R c c'.
Proof.
  intros Ht Hm Hf c o c'. unfold mbind, M_bind. destruct (m c) as [[a|e] c1] eqn:E; intros H.
  - eapply Ht; [by eapply Hm|by eapply Hf].
  - injection H as <- <-. by eapply Hm.
Qed.

(** Published rows are kept: releases and materialised snapshots never change, and the
    identity of a version never does. *)
Record grows (c c' : catalog) : Prop := {
  grows_release k r : releases c !! k = Some r -> releases c' !! k = Some r;
  grows_snapshot k v : versions c !! k = Some v -> unset v = false -> versions c' !! k = Some v;
  grows_version k v : versions c !! k = Some v ->
    exists v', versions c' !! k = Some v' /\ ver_version v' = ver_version v /\ ver_application v' = ver_application v
}.
#[export] Instance grows_po : PreOrder grows.
Proof.
  split.
  - intros c. split; eauto.
  - intros c1 c2 c3 [R1 S1 V1] [R2 S2 V2]. split; [eauto|eauto|]. intros k v (v' & Hv' & E1 & E2)%V1.
    apply V2 in Hv' as (v2 & ? & ? & ?). exists v2. split_and!; congruence.
Qed.

Lemma lift_grows {A} (r : res A) c o c' : lift r c = (o, c') -> grows c c'.
Proof. intros [= _ <-]. reflexivity. Qed.
Lemma materialize_grows application modules k c o c' : materialize application modules k c = (o, c') -> grows c c'.
Proof.
  unfold materialize. destruct (versions c !! k) as [locked|] eqn:E; [|by intros [= _ <-]].
  destruct (unset locked) eqn:Eu; [|by intros [= _ <-]].
  match goal with |- context [match ?m with Ok _ => _ | Raise _ => _ end] => destruct m as [v|] eqn:Em end; intros [= _ <-]; [|done].
  apply bind_Ok in Em as (snapshot & _ & Em). apply bind_Ok in Em as (digest & _ & <-%Ok_inj).
  split; simpl; [done| |].
  - intros k' v Hv Hu. rewrite lookup_insert_ne; [done|]. intros ->. congruence.
  - intros k' v Hv. destruct (decide (k = k')) as [->|].
    + rewrite lookup_insert, decide_True by done. eexists. split; [done|]. rewrite E in Hv. by injection Hv as <-.
    + rewrite lookup_insert_ne by done. eauto.
Qed.
Lemma publish_grows k version application manifest digest c o c' :
  publish_release k version application manifest digest c = (o, c') -> grows c c'.
Proof.
  unfold publish_release. destruct (releases c !! k) as [r|] eqn:E; [by intros [= _ <-]|].
  destruct (_validate_release_integrity _ _ _); intros [= _ <-]; [|done].
  split; simpl; eauto. intros k' r Hr. rewrite lookup_insert_ne; [done|]. intros ->. congruence.
Qed.
Lemma release_grows application modules version environment c o c' :
  runtime_release_for application modules version environment c = (o, c') -> grows c c'.
Proof.
  unfold runtime_release_for. destruct (versions c !! _) as [v|]; [|by intros [= _ <-]].
  destruct (releases c !! _) as [existing|]; [by intros [= _ <-]|].
  assert (Ht : forall c1 c2 c3, grows c1 c2 -> grows c2 c3 -> grows c1 c3) by (intros; by etrans).
  revert c o c'. eapply bind_frame; [done| |intros snapshot].
  - unfold _version_runtime_snapshot. eapply bind_frame; [done| |intros; by eapply lift_grows].
    case_match; [by apply materialize_grows|intros ??? [= _ <-]; reflexivity].
  - repeat (eapply bind_frame; [done|intros; by eapply lift_grows|intros ?]). apply publish_grows.
Qed.

Lemma snapshot_releases version application modules k c o c' :
  _version_runtime_snapshot version application modules k c = (o, c') -> releases c' = releases c.
Proof.
  apply (bind_frame (fun c c' => releases c' = releases c)); [congruence| |intros ???? [= _ <-]; done].
  case_match; [|by intros ??? [= _ <-]]. intros c1 o1 c1'. unfold materialize.
  destruct (versions c1 !! k) as [locked|]; [|by intros [= _ <-]].
  destruct (unset locked); [|by intros [= _ <-]]. by case_match; intros [= _ <-].
Qed.

(** What every successful call has checked and stored. *)
Lemma release_published application modules version environment c r c' :
  runtime_release_for application modules version environment c = (Ok r, c') ->
  releases c' !! (app_id application, version) = Some r /\
  exists v, versions c !! (app_id application, version) = Some v /\
    _validate_release_integrity r v application = Ok tt /\
    _validate_environment_policy (rel_manifest r) environment = Ok tt.
Proof.
  unfold runtime_release_for. set (k := (app_id application, version)).
  destruct (versions c !! k) as [v|] eqn:Ev; [|done]. destruct (releases c !! k) as [existing|] eqn:Er; intros H.
  - injection H as H <-. apply bind_Ok in H as ([] & Hi & H). apply bind_Ok in H as ([] & Hp & <-%Ok_inj). eauto.
  - apply M_bind_Ok in H as (snapshot & c1 & Hs & H). apply snapshot_releases in Hs as Hrel.
    apply M_bind_Ok in H as (manifest & c2 & Hm & H). apply lift_Ok in Hm as [Hm ->].
    apply M_bind_Ok in H as ([] & c2 & Hp & H). apply lift_Ok in Hp as [Hp ->].
    apply M_bind_Ok in H as (digest & c2 & Hd & H). apply lift_Ok in Hd as [Hd ->].
    unfold publish_release in H. rewrite Hrel, Er in H.
    destruct (_validate_release_integrity _ v application) as [[]|] eqn:Ei; [|done]. injection H as <- <-.
    simpl. rewrite lookup_insert, decide_True by done. eauto 6.
Qed.

Lemma integrity_version r v v' application :
  ver_version v' = ver_version v -> ver_application v' = ver_application v ->
  _validate_release_integrity r v' application = _validate_release_integrity r v application.
Proof. intros E1 E2. unfold _validate_release_integrity. by rewrite E1, E2. Qed.

Lemma release_repeats application modules modules' version environment c r c' :
  runtime_release_for application modules version environment c = (Ok r, c') ->
  runtime_release_for application modules' version environment c' = (Ok r, c').
Proof.
  intros H. pose proof (release_grows _ _ _ _ _ _ _ H) as Hg.
  destruct (release_published _ _ _ _ _ _ _ H) as (Hr & v & Hv & Hi & Hp).
  destruct (grows_version _ _ Hg _ _ Hv) as (v' & Hv' & E1 & E2).
  unfold runtime_release_for. rewrite Hv', Hr. rewrite (integrity_version r v v' application E1 E2), Hi.
  cbn [mbind res_bind]. rewrite Hp. reflexivity.
Qed.

(** ** A published application *)
Module Shop.
Definition application : HostedApplication := {| app_id := 7; app_slug := "shop" |}.
Definition profile : list (string * pyval) :=
  profile_fields {| pr_schema_version := 1; pr_spec := PDict Sample.spec; pr_spec_digest := Sample.spec_digest;
                    pr_enabled := true; pr_verified_at := Some 0 |} (PDict Sample.spec).
Definition raw_module : pyval :=
  PDict [("module_id", PInt 3); ("slug", PStr "web"); ("image", PStr Sample.image); ("enabled", PBool true);
         ("deployment_target", PStr "kubernetes"); ("profile", PDict profile)].
Definition snapshot : list (string * pyval) :=
  [("schema_version", PInt 1); ("application", PDict [("id", PInt 7); ("slug", PStr "shop")]);
   ("modules", PList [raw_module])].
Definition version : ApplicationVersion := {|
  ver_application := 7; ver_version := "1.4.0"; ver_source := "manual"; runtime_snapshot := PDict [];
  runtime_snapshot_digest := "" |}.
Definition release : RuntimeRelease := {| rel_manifest := PDict Sample.manifest; manifest_digest := Sample.manifest_digest |}.
Definition environment : RuntimeEnvironment := {|
  env_enabled := true; orchestrator := "kubernetes";
  env_policy := PDict [("requires_image_digest", PBool true); ("stateless_only", PBool true);
                       ("allowed_registries", PList [PStr "ghcr.io/smartappli/"]);
                       ("allowed_secret_refs", PList [PStr "shop-db"])];
  env_capabilities := PDict
    [("start_stop", PBool true);
     ("scaling", PDict [("fixed", PDict [("min_replicas", PInt 1); ("max_replicas", PInt 4)])])] |}.
Definition published : catalog := {|
  versions := {[(7, "1.4.0") := version]}; releases := {[(7, "1.4.0") := release]} |}.

Lemma manifest_hash : sha256_json (PDict Sample.manifest) = Ok Sample.manifest_digest.
Proof. exact (wf_d_digest _ _ (parse_desired_wf _ _ _ _ parse_sample)). Qed.
Lemma release_found modules : runtime_release_for application modules "1.4.0" environment published = (Ok release, published).
Proof.
  unfold runtime_release_for. change (versions published !! (app_id application, "1.4.0")) with (Some version).
  change (releases published !! (app_id application, "1.4.0")) with (Some release).
  cbv beta iota. unfold _validate_release_integrity. cbn [rel_manifest release Release.manifest_digest].
  rewrite manifest_hash. reflexivity.
Qed.
End Shop.
Import Shop.

(** ** Theorems *)

(** The host and the controller agree on releases: a manifest the host builds from a
    published snapshot passes the controller's whole manifest validation (identities,
    image digests, profile digests, ports, probes, resources and configuration keys),
    provided the application and the version are named, the images are in the
    controller's registries and no profile asks for egress, the points on which the
    controller is stricter. *)
Theorem release_accepted settings version application snapshot manifest slug raws :
  _manifest_from_snapshot version application snapshot = Ok manifest ->
  vget "application" snapshot = PDict [("id", PInt (app_id application)); ("slug", PStr slug)] -> slug <> "" ->
  ver_version version <> "" -> vget "modules" snapshot = PList raws -> Forall (module_ready settings) raws ->
  exists m parsed, manifest = PDict m /\ _parse_manifest m settings = Ok parsed.
Proof. apply manifest_accepted. Qed.
Lemma release_accepted_witness :
  exists m parsed, _manifest_from_snapshot version application snapshot = Ok (PDict m) /\
    _parse_manifest m Sample.settings = Ok parsed.
Proof.
  destruct (_manifest_from_snapshot version application snapshot) as [manifest|e] eqn:E; [|vm_compute in E; discriminate E].
  destruct (release_accepted Sample.settings version application snapshot manifest "shop" [raw_module] E eq_refl
              ltac:(discriminate) ltac:(discriminate) eq_refl) as (m & parsed & -> & Hp).
  - constructor; [|constructor]. intros d p spec image [= <-] [= <-] [= <-] [= <-].
    split; [apply json_okb_ok; reflexivity|]. split; reflexivity.
  - exists m, parsed. split; [reflexivity|exact Hp].
Defined.

(** A release handed out for deployment is intact and allowed: it is the one stored
    for the version, its manifest hashes to its digest, names that version and has at
    least one module, and every module's image comes from a registry of the
    environment's policy, the environment being enabled. *)
Theorem release_integrity application modules version environment c r c' :
  runtime_release_for application modules version environment c = (Ok r, c') ->
  releases c' !! (app_id application, version) = Some r /\
  exists v m ms policy registries,
    versions c !! (app_id application, version) = Some v /\
    rel_manifest r = PDict m /\ sha256_json (PDict m) = Ok (manifest_digest r) /\
    vget "version" m = PStr (ver_version v) /\ vget "modules" m = PList ms /\ ms <> [] /\
    env_policy environment = PDict policy /\ registries_of policy = Ok registries /\
    env_enabled environment = true /\ Forall (from_registry registries) ms.
Proof.
  intros H. destruct (release_published _ _ _ _ _ _ _ H) as (Hr & v & Hv & Hi & Hp). split; [done|].
  destruct (integrity_Ok _ _ _ Hi) as (m & ms & Em & Hd & Hver & Hms & Hne). rewrite Em in Hp.
  destruct (policy_Ok _ _ _ Hp Hms) as (policy & registries & ? & ? & ? & ?).
  exists v, m, ms, policy, registries. split_and!; done.
Qed.
Lemma release_integrity_witness :
  releases published !! (7, "1.4.0") = Some release.
Proof. exact (proj1 (release_integrity application [] "1.4.0" environment published release published (release_found []))). Defined.

(** Releases are immutable: whatever the outcome of a call, no stored release and no
    published snapshot changes; and once a version has been released, asking again, with
    whatever modules the catalog has by then, gives the same release and writes
    nothing. *)
Theorem release_immutable application modules version environment c o c' :
  runtime_release_for application modules version environment c = (o, c') ->
  grows c c' /\
  forall r modules', o = Ok r ->
    runtime_release_for application modules' version environment c' = (Ok r, c').
Proof.
  intros H. split; [by eapply release_grows|]. intros r modules' ->. by eapply release_repeats.
Qed.
Lemma release_immutable_witness :
  runtime_release_for application [] "1.4.0" environment published = (Ok release, published).
Proof. exact (proj2 (release_immutable application [] "1.4.0" environment published _ published (release_found [])) release [] eq_refl). Defined.
