(* ===== verification/Catalog.v ===== *)
(** The catalogue of the host (src/components/DEALHost/apps/hosting): the tables of modules,
    tools, applications and datasets, their unique columns, and the publication of versions
    (versioning.py).

    The tables are lists of rows.  A transaction restores them when an exception leaves it;
    events that were published stay published. *)

From stdpp Require Import gmap strings sorting.
From S2P Require Import Prelude PyValue Regex Sha256 PyFloat Json PyTime PyText Wire Url Release Gateway.
#[local] Open Scope list_scope.
#[local] Open Scope string_scope.
#[local] Open Scope Z_scope.

Notation attrs := (list (string * pyval)).

(** ** Tables *)
(** A row of [Tool] or of [HostedApplication]; a tool has no revision. *)
Record resource := {
  res_pk : Z;
  res_name : string;
  res_slug : string;
  res_description : string;
  res_modules : list Z;
  res_current_version : string;
  res_released_at : option Z;
  res_enabled : bool;
  res_revision : option Z;
  res_updated_at : Z
}.
(** A row of [ToolVersion] or [ApplicationVersion]; the snapshot of a tool's is empty. *)
Record version_row := {
  v_resource : Z;
  v_version : string;
  v_notes : string;
  v_source : string;
  v_snapshot : pyval;
  v_digest : string
}.
Record dataset := {
  ds_pk : Z;
  ds_name : string;
  ds_slug : string;
  ds_modules : list Z;
  ds_users : list Z;
  (** The groups: key and name. *)
  ds_groups : list (Z * string);
  ds_enabled : bool;
  ds_revision : Z
}.
Inductive kind := KTool | KApplication.
#[export] Instance kind_eq_dec : EqDecision kind.
Proof. solve_decision. Defined.
Record catalogue := {
  module_rows : list module_row;
  profiles : list (Z * ModuleRuntimeProfile);
  tools : list resource;
  applications : list resource;
  tool_versions : list version_row;
  application_versions : list version_row;
  datasets : list dataset;
  (** The applications that a deployment or a runtime release refers to. *)
  referenced : list Z;
  log : list (string * attrs)
}.

Definition with_modules (l : list module_row) (c : catalogue) : catalogue :=
  {| module_rows := l; profiles := profiles c; tools := tools c; applications := applications c;
     tool_versions := tool_versions c; application_versions := application_versions c; datasets := datasets c; referenced := referenced c; log := log c |}.
Definition with_datasets (l : list dataset) (c : catalogue) : catalogue :=
  {| module_rows := module_rows c; profiles := profiles c; tools := tools c; applications := applications c;
     tool_versions := tool_versions c; application_versions := application_versions c; datasets := l; referenced := referenced c; log := log c |}.
Definition with_log (l : list (string * attrs)) (c : catalogue) : catalogue :=
  {| module_rows := module_rows c; profiles := profiles c; tools := tools c; applications := applications c;
     tool_versions := tool_versions c; application_versions := application_versions c; datasets := datasets c; referenced := referenced c; log := l |}.
Definition resources (k : kind) (c : catalogue) : list resource :=
  match k with KTool => tools c | KApplication => applications c end.
Definition with_resources (k : kind) (l : list resource) (c : catalogue) : catalogue :=
  {| module_rows := module_rows c; profiles := profiles c;
     tools := match k with KTool => l | KApplication => tools c end;
     applications := match k with KTool => applications c | KApplication => l end;
     tool_versions := tool_versions c; application_versions := application_versions c; datasets := datasets c; referenced := referenced c; log := log c |}.
Definition versions_of (k : kind) (c : catalogue) : list version_row :=
  match k with KTool => tool_versions c | KApplication => application_versions c end.
Definition with_versions (k : kind) (l : list version_row) (c : catalogue) : catalogue :=
  {| module_rows := module_rows c; profiles := profiles c; tools := tools c; applications := applications c;
     tool_versions := match k with KTool => l | KApplication => tool_versions c end;
     application_versions := match k with KTool => application_versions c | KApplication => l end;
     datasets := datasets c; referenced := referenced c; log := log c |}.

(** [transaction.atomic()]. *)
Definition atomic {A} (m : M catalogue A) : M catalogue A :=
  fun c => match m c with
           | (Raise e, c') => (Raise e, with_log (log c') c)
           | r => r
           end.
Definition get {A} (f : catalogue -> A) : M catalogue A := fun c => (Ok (f c), c).
Definition modify (f : catalogue -> catalogue) : M catalogue unit := fun c => (Ok tt, f c).

Definition find_resource (pk : Z) (l : list resource) : option resource := List.find (fun r => res_pk r =? pk) l.
Definition put_resource (r : resource) (l : list resource) : list resource :=
  map (fun x => if res_pk x =? res_pk r then r else x) l.
Definition find_module (pk : Z) (l : list module_row) : option module_row := List.find (fun m => row_pk m =? pk) l.
Definition put_module (m : module_row) (l : list module_row) : list module_row :=
  map (fun x => if row_pk x =? row_pk m then m else x) l.
Definition find_version (pk : Z) (version : string) (l : list version_row) : option version_row :=
  List.find (fun v => (v_resource v =? pk) && String.eqb (v_version v) version) l.


(** *** Changes of a row *)
Definition with_revision (n : Z) (now : Z) (r : resource) : resource :=
  {| res_pk := res_pk r; res_name := res_name r; res_slug := res_slug r; res_description := res_description r;
     res_modules := res_modules r; res_current_version := res_current_version r; res_released_at := res_released_at r;
     res_enabled := res_enabled r; res_revision := Some n; res_updated_at := now |}.
Definition with_members (l : list Z) (r : resource) : resource :=
  {| res_pk := res_pk r; res_name := res_name r; res_slug := res_slug r; res_description := res_description r;
     res_modules := l; res_current_version := res_current_version r; res_released_at := res_released_at r;
     res_enabled := res_enabled r; res_revision := res_revision r; res_updated_at := res_updated_at r |}.
Definition touch (now : Z) (r : resource) : resource :=
  {| res_pk := res_pk r; res_name := res_name r; res_slug := res_slug r; res_description := res_description r;
     res_modules := res_modules r; res_current_version := res_current_version r; res_released_at := res_released_at r;
     res_enabled := res_enabled r; res_revision := res_revision r; res_updated_at := now |}.

Definition with_ds_modules (l : list Z) (d : dataset) : dataset :=
  {| ds_pk := ds_pk d; ds_name := ds_name d; ds_slug := ds_slug d; ds_modules := l; ds_users := ds_users d;
     ds_groups := ds_groups d; ds_enabled := ds_enabled d; ds_revision := ds_revision d |}.

(** *** Unique columns *)
Definition module_conflict (m : module_row) (l : list module_row) : bool :=
  existsb (fun x => negb (row_pk x =? row_pk m) && (String.eqb (row_slug x) (row_slug m) || String.eqb (row_name x) (row_name m))) l.
Definition save_module (m : module_row) : M catalogue unit :=
  fun c => if module_conflict m (module_rows c) then (Raise IntegrityError, c)
           else (Ok tt, with_modules (put_module m (module_rows c)) c).
Definition insert_module (m : module_row) : M catalogue unit :=
  fun c => if module_conflict m (module_rows c) then (Raise IntegrityError, c)
           else (Ok tt, with_modules (module_rows c ++ [m])%list c).
Definition resource_conflict (r : resource) (l : list resource) : bool :=
  existsb (fun x => negb (res_pk x =? res_pk r) && (String.eqb (res_slug x) (res_slug r) || String.eqb (res_name x) (res_name r))) l.
Definition save_resource (k : kind) (r : resource) : M catalogue unit :=
  fun c => if resource_conflict r (resources k c) then (Raise IntegrityError, c)
           else (Ok tt, with_resources k (put_resource r (resources k c)) c).
Definition insert_resource (k : kind) (r : resource) : M catalogue unit :=
  fun c => if resource_conflict r (resources k c) then (Raise IntegrityError, c)
           else (Ok tt, with_resources k (resources k c ++ [r])%list c).
(** [current_version] of a new row is the default of the column. *)
Definition new_resource (k : kind) (pk : Z) (name slug description : string) (enabled : bool) (now : Z) : resource :=
  {| res_pk := pk; res_name := name; res_slug := slug; res_description := description; res_modules := [];
     res_current_version := "0.1.0"; res_released_at := None; res_enabled := enabled;
     res_revision := match k with KTool => None | KApplication => Some 1 end; res_updated_at := now |}.

(** ** Publication of a version *)
(** The order of slugs in the database. *)
Class SlugOrder := slug_leb : string -> string -> bool.
Definition by_slug `{SlugOrder} (a b : module_row) : Prop := slug_leb (row_slug a) (row_slug b) = true.
#[export] Instance by_slug_dec `{SlugOrder} a b : Decision (by_slug a b).
Proof. unfold by_slug. apply _. Defined.

Section Versions.
Context `{SlugOrder}.

Definition snapshot_row (c : catalogue) (m : module_row) : Module_ :=
  {| mod_id := row_pk m; mod_slug := row_slug m; mod_image := row_image m; mod_enabled := row_enabled m;
     mod_deployment_target := row_deployment_target m;
     runtime_profile := snd <$> List.find (fun p => p.1 =? row_pk m) (profiles c) |}.
Definition modules_of (c : catalogue) (r : resource) : list module_row :=
  merge_sort by_slug (List.filter (fun m => existsb (Z.eqb (row_pk m)) (res_modules r)) (module_rows c)).

(** The locked row after a version was created. *)
Definition released (version : string) (now : Z) (r : resource) : resource :=
  {| res_pk := res_pk r; res_name := res_name r; res_slug := res_slug r; res_description := res_description r;
     res_modules := res_modules r; res_current_version := version; res_released_at := Some now;
     res_enabled := res_enabled r; res_revision := (fun n => n + 1) <$> res_revision r; res_updated_at := now |}.

Record VersionPublication := { publication_resource : resource; publication_version : version_row; publication_created : bool }.

Definition publish_immutable_version (k : kind) (pk : Z) (version notes source : string) (expected_revision : option Z)
    (now : Z) : M catalogue VersionPublication :=
  atomic (
    found ← get (fun c => find_resource pk (resources k c));
    match found with
    | None => raise DoesNotExist
    | Some locked_resource =>
        if match expected_revision with
           | Some n => negb (bool_decide (res_revision locked_resource = Some n))
           | None => false
           end
        then raise (VersionRevisionConflict (default 0 (res_revision locked_resource)))
        else
          c ← get (fun c => c);
          defaults ← lift (match k with
            | KTool => Ok (PDict [], "")
            | KApplication =>
                runtime_snapshot ← snapshot_application_runtime
                  {| app_id := res_pk locked_resource; app_slug := res_slug locked_resource |}
                  (map (snapshot_row c) (modules_of c locked_resource));
                digest ← sha256_json runtime_snapshot;
                Ok (runtime_snapshot, digest)
            end);
          match find_version pk version (versions_of k c) with
          | Some version_obj =>
              if negb (String.eqb (v_notes version_obj) notes) || negb (String.eqb (v_source version_obj) source)
              then raise (VersionMetadataConflict version)
              else mret {| publication_resource := locked_resource; publication_version := version_obj; publication_created := false |}
          | None =>
              let version_obj := {| v_resource := pk; v_version := version; v_notes := notes; v_source := source;
                                    v_snapshot := defaults.1; v_digest := defaults.2 |} in
              let saved := released version now locked_resource in
              _ ← modify (fun c => with_resources k (put_resource saved (resources k c))
                                     (with_versions k (versions_of k c ++ [version_obj])%list c));
              mret {| publication_resource := saved; publication_version := version_obj; publication_created := true |}
          end
    end).
End Versions.

(** ** Version numbers *)
(** [re.fullmatch(SEMVER_PATTERN, s)]; [\d] matches the decimal digits of every script. *)
Section Semver.
Context `{UnicodeData}.
Definition is_decimal (c : string) : bool :=
  match c with
  | String a "" => is_digit a
  | _ => match unicode_decimal c with String a "" => is_digit a | _ => false end
  end.
Fixpoint span_decimals (cs : list string) : nat * list string :=
  match cs with
  | c :: r => if is_decimal c then let '(n, r) := span_decimals r in (S n, r) else (0%nat, cs)
  | [] => (0%nat, [])
  end.
(** A number and a dot. *)
Definition number_dot (cs : list string) : option (list string) :=
  match span_decimals cs with (S _, "." :: r) => Some r | _ => None end.
Definition suffix_char (c : string) : bool :=
  match c with String a "" => por alphanumeric (one_of ".-") a | _ => false end.
Definition is_semver (s : string) : bool :=
  let cs := match pychars s with "v" :: r => r | cs => cs end in
  match number_dot cs ≫= number_dot with
  | Some r =>
      match span_decimals r with
      | (S _, []) => true
      | (S _, c :: r) => (String.eqb c "-" || String.eqb c "+") && negb (bool_decide (r = [])) && forallb suffix_char r
      | _ => false
      end
  | None => false
  end.
Definition lstrip_v (s : string) : string := drop_bytes (is_byte 118) s.
Definition validate_version (value : string) : res string :=
  let normalized := py_strip value in
  if is_semver normalized then Ok (lstrip_v normalized)
  else Raise (ValidationError "Version must follow semantic versioning (example: 1.2.3 or v1.2.3).").
End Semver.
