(* ===== verification/HostingViews.v ===== *)
(** The catalogue views (src/components/DEALHost/apps/hosting/views.py) and the permissions
    they require (apps/common/permissions.py).

    The serializers of the REST framework are the class [Serializers]: given the request they
    raise, or return what [save] does to a row.  Each handler is given the rows its queryset
    keeps for the query parameters. *)

From stdpp Require Import gmap strings sorting.
From S2P Require Import Prelude PyValue Regex Sha256 PyFloat Json PyTime PyText Wire Url Release Gateway GatewayViews Catalog.
#[local] Open Scope list_scope.
#[local] Open Scope string_scope.
#[local] Open Scope Z_scope.

(** ** Requests *)
(** A typed [If-Match]: [None] when the header is absent. *)
Definition IF_MATCH_REVISION : regex :=
  Seq (Cls (is_byte 34)) (Seq (Cls (between "1" "9")) (Seq (star (Cls is_digit)) (Cls (is_byte 34)))).
Definition _if_match_revision (value : option string) : res (option Z) :=
  match value with
  | None => Ok None
  | Some v =>
      if fullmatch IF_MATCH_REVISION (py_strip v)
      then Some <$> int_of_digits (String.substring 1 (String.length (py_strip v) - 2) (py_strip v))
      else Raise (ValueError ("If-Match must contain a strong revision ETag such as " ++ bytes [34] ++ "3" ++ bytes [34] ++ "."))
  end.
Definition _revision_etag (revision : Z) : string := bytes [34] ++ py_str_int revision ++ bytes [34].

Definition _query_bool `{UnicodeData, CaseFold} (value : string) : bool :=
  mem (py_casefold (py_strip value)) ["1"; "true"; "yes"; "on"].
(** A query parameter that is absent or empty does not filter. *)
Definition given (v : option string) : option string := match v with Some "" | None => None | v => v end.

(** What the serializers decide: the row to create, and what [save] does to a row. *)
Class Serializers := {
  module_create : list module_row -> pyval -> res (Z -> module_row);
  module_update : list module_row -> module_row -> bool -> pyval -> res (module_row -> module_row);
  resource_create : kind -> catalogue -> pyval -> res (Z -> resource);
  resource_update : kind -> catalogue -> resource -> bool -> pyval -> res (resource -> resource);
  dataset_create : catalogue -> pyval -> res (Z -> dataset);
  dataset_update : catalogue -> dataset -> bool -> pyval -> res (dataset -> dataset);
  attached_module : catalogue -> pyval -> res module_row;
  (** The text of the fields version, notes and source of a version to create. *)
  version_fields : pyval -> res (string * string * string);
  module_json : module_row -> pyval;
  resource_json : kind -> catalogue -> resource -> attrs;
  dataset_json : dataset -> attrs;
  version_json : version_row -> attrs
}.
Definition version_data `{UnicodeData, Serializers} (request_data : pyval) : res (string * string * string) :=
  '(version, notes, source) ← version_fields request_data;
  version ← validate_version version;
  Ok (version, notes, source).

Section Views.
Context `{UnicodeData} `{CaseFold} `{SlugOrder} `{Serializers}.
Variable bus : string -> attrs -> res unit.
Variable exception_text : pyexn -> string.

Definition publish_event (event_type : string) (d : attrs) : M catalogue unit :=
  fun c => (bus event_type d, with_log (log c ++ [(event_type, d)])%list c).
Definition with_etag (revision : Z) (r : response) : response :=
  {| status := status r; data := data r; extra_headers := [("ETag", _revision_etag revision)] |}.
Definition not_found : response := reply 404 [("detail", PStr "Not found.")].
Definition no_content : response := {| status := 204; data := PNone; extra_headers := [] |}.

(** *** Modules *)
Definition _has_revocation_sensitive_route (module : module_row) : bool :=
  negb (String.eqb (py_strip (row_public_path module)) "") && negb (String.eqb (py_strip (row_upstream_host module)) "") &&
  bool_decide (is_Some (row_upstream_port module)).
Definition _route_revocation_unavailable : response :=
  reply 409 [("code", PStr "route_revocation_unavailable");
             ("detail", PStr "This module has routable metadata and may already own a dynamic APISIX route. Disabling, deleting, renaming or retargeting it is blocked until audited route revocation is implemented.")].

(** [field in data and str(data.get(field)) != str(current)]. *)
Definition changes_text (field current : string) (data : attrs) : res bool :=
  match dget field data with
  | None => Ok false
  | Some v => text ← py_str v; Ok (negb (String.eqb text current))
  end.
Definition requests_disabling (data : attrs) : bool :=
  match dget "enabled" data with
  | Some (PBool false) => true
  | Some (PStr s) => mem (py_casefold (py_strip s)) ["0"; "false"; "no"; "off"]
  | _ => false
  end.
Definition _requests_route_revocation (module : module_row) (data : pyval) : res bool :=
  match data with
  | PDict data =>
      if requests_disabling data then Ok true
      else
        slug ← changes_text "slug" (row_slug module) data;
        if slug : bool then Ok true
        else
          path ← changes_text "public_path" (row_public_path module) data;
          if path : bool then Ok true
          else
            host ← changes_text "upstream_host" (row_upstream_host module) data;
            if host : bool then Ok true
            else
              match dget "upstream_port" data with
              | None => Ok false
              | Some v =>
                  match int_of v with
                  | Raise (TypeError | ValueError _) => Ok false
                  | Raise e => Raise e
                  | Ok requested_port => Ok (negb (bool_decide (row_upstream_port module = Some requested_port)))
                  end
              end
  | _ => Ok false
  end.

(** The query parameters of a list of modules; [mq_search] is the framework's search. *)
Record module_query := {
  mq_enabled : option string; mq_repository : option string; mq_repository_owner : option string;
  mq_repository_name : option string; mq_deployment_target : option string; mq_has_public_route : option string;
  mq_search : module_row -> bool
}.
Definition has_route_columns (m : module_row) : bool :=
  negb (String.eqb (row_public_path m) "") && negb (String.eqb (row_upstream_host m) "") &&
  bool_decide (is_Some (row_upstream_port m)).
Definition module_queryset (q : module_query) (l : list module_row) : list module_row :=
  List.filter (fun m =>
    from_option (fun v => Bool.eqb (row_enabled m) (_query_bool v)) true (mq_enabled q) &&
    from_option (fun v => match Url.partition "/" v with
                          | Some (owner, name) => String.eqb (row_repository_owner m) owner && String.eqb (row_repository_name m) name
                          | None => String.eqb (row_repository_name m) v
                          end) true (given (mq_repository q)) &&
    from_option (String.eqb (row_repository_owner m)) true (given (mq_repository_owner q)) &&
    from_option (String.eqb (row_repository_name m)) true (given (mq_repository_name q)) &&
    from_option (String.eqb (row_deployment_target m)) true (given (mq_deployment_target q)) &&
    from_option (fun v => Bool.eqb (has_route_columns m) (_query_bool v)) true (mq_has_public_route q) &&
    mq_search q m) l.

Definition module_event (m : module_row) : attrs :=
  [("id", PInt (row_pk m)); ("slug", PStr (row_slug m)); ("enabled", PBool (row_enabled m))].
(** [pk] is the key the database gives the new row. *)
Definition create_module (pk : Z) (request_data : pyval) : M catalogue response :=
  make ← (fun c => (module_create (module_rows c) request_data, c));
  let instance := make pk in
  _ ← insert_module instance;
  _ ← publish_event "hosting.module.created" (module_event instance);
  mret {| status := 201; data := module_json instance; extra_headers := [] |}.
Definition update_module (q : module_query) (pk : Z) (partial : bool) (request_data : pyval) : M catalogue response :=
  atomic (
    found ← get (fun c => find_module pk (module_queryset q (module_rows c)));
    match found with
    | None => mret not_found
    | Some module =>
        refused ← lift (if _has_revocation_sensitive_route module then _requests_route_revocation module request_data else Ok false);
        if refused : bool then mret _route_revocation_unavailable
        else
          f ← (fun c => (module_update (module_rows c) module partial request_data, c));
          let instance := f module in
          _ ← save_module instance;
          _ ← publish_event "hosting.module.updated" (module_event instance);
          mret {| status := 200; data := module_json instance; extra_headers := [] |}
    end).
(** A runtime profile protects its module; memberships go with the module. *)
Definition remove_module (pk : Z) (c : catalogue) : catalogue :=
  let leave l := List.filter (fun n => negb (n =? pk)) l in
  let members r := with_members (leave (res_modules r)) r in
  with_datasets (map (fun d => with_ds_modules (leave (ds_modules d)) d) (datasets c))
    (with_resources KTool (map members (tools c))
      (with_resources KApplication (map members (applications c))
        (with_modules (List.filter (fun m => negb (row_pk m =? pk)) (module_rows c)) c))).
Definition destroy_module (q : module_query) (pk : Z) : M catalogue response :=
  atomic (
    found ← get (fun c => find_module pk (module_queryset q (module_rows c)));
    match found with
    | None => mret not_found
    | Some module =>
        if _has_revocation_sensitive_route module then mret _route_revocation_unavailable
        else
          _ ← (fun c => if existsb (fun p => p.1 =? pk) (profiles c) then (Raise ProtectedError, c)
                        else (Ok tt, remove_module pk c));
          _ ← publish_event "hosting.module.deleted" [("id", PInt pk); ("slug", PStr (row_slug module))];
          mret no_content
    end).

(** *** Tools and applications: the rows a request sees *)
Record resource_query := {
  rq_enabled : option string; rq_module_slug : option string; rq_current_version : option string;
  rq_search : resource -> bool
}.
(** Whether a list of module keys holds the module of a slug. *)
Definition has_module_slug (c : catalogue) (members : list Z) (slug : string) : bool :=
  existsb (fun m => String.eqb (row_slug m) slug && existsb (Z.eqb (row_pk m)) members) (module_rows c).
Definition resource_queryset (k : kind) (q : resource_query) (c : catalogue) : list resource :=
  List.filter (fun r =>
    from_option (fun v => Bool.eqb (res_enabled r) (String.eqb (py_lower v) "true")) true (rq_enabled q) &&
    from_option (has_module_slug c (res_modules r)) true (given (rq_module_slug q)) &&
    from_option (String.eqb (res_current_version r)) true (given (rq_current_version q)) &&
    rq_search q r) (resources k c).
Definition resource_event (r : resource) : attrs :=
  [("id", PInt (res_pk r)); ("slug", PStr (res_slug r)); ("enabled", PBool (res_enabled r))].
Definition application_event (r : resource) : attrs :=
  (resource_event r ++ [("revision", PInt (default 0 (res_revision r)))])%list.

(** *** Tools *)
Definition create_tool (pk : Z) (request_data : pyval) : M catalogue response :=
  make ← (fun c => (resource_create KTool c request_data, c));
  let instance := make pk in
  _ ← insert_resource KTool instance;
  _ ← publish_event "hosting.tool.created" (resource_event instance);
  c ← get (fun c => c);
  mret (reply 201 (resource_json KTool c instance)).
Definition update_tool (q : resource_query) (now pk : Z) (partial : bool) (request_data : pyval) : M catalogue response :=
  found ← get (fun c => find_resource pk (resource_queryset KTool q c));
  match found with
  | None => mret not_found
  | Some instance =>
      f ← (fun c => (resource_update KTool c instance partial request_data, c));
      let saved := touch now (f instance) in
      _ ← save_resource KTool saved;
      _ ← publish_event "hosting.tool.updated" (resource_event saved);
      c ← get (fun c => c);
      mret (reply 200 (resource_json KTool c saved))
  end.
Definition delete_resource (k : kind) (pk : Z) (c : catalogue) : catalogue :=
  with_resources k (List.filter (fun r => negb (res_pk r =? pk)) (resources k c))
    (with_versions k (List.filter (fun v => negb (v_resource v =? pk)) (versions_of k c)) c).
Definition destroy_tool (q : resource_query) (pk : Z) : M catalogue response :=
  found ← get (fun c => find_resource pk (resource_queryset KTool q c));
  match found with
  | None => mret not_found
  | Some instance =>
      _ ← modify (delete_resource KTool pk);
      _ ← publish_event "hosting.tool.deleted" [("id", PInt pk); ("slug", PStr (res_slug instance))];
      mret no_content
  end.
(** The members after attaching or detaching a module. *)
Definition members_after (attach : bool) (pk : Z) (l : list Z) : list Z :=
  if attach then (if existsb (Z.eqb pk) l then l else l ++ [pk])%list else List.filter (fun n => negb (n =? pk)) l.
Definition tool_membership (q : resource_query) (pk : Z) (attach : bool) (request_data : pyval) : M catalogue response :=
  module ← (fun c => (attached_module c request_data, c));
  found ← get (fun c => find_resource pk (resource_queryset KTool q c));
  match found with
  | None => mret not_found
  | Some tool =>
      let saved := with_members (members_after attach (row_pk module) (res_modules tool)) tool in
      _ ← modify (fun c => with_resources KTool (put_resource saved (tools c)) c);
      c ← get (fun c => c);
      mret (reply 200 (resource_json KTool c saved))
  end.

(** *** Applications *)
Definition _stale_revision_response (r : resource) : response :=
  with_etag (default 0 (res_revision r))
    (reply 412 [("detail", PStr "The application changed after it was loaded."); ("revision", PInt (default 0 (res_revision r)))]).
Definition create_application (pk : Z) (request_data : pyval) : M catalogue response :=
  make ← (fun c => (resource_create KApplication c request_data, c));
  let instance := make pk in
  _ ← insert_resource KApplication instance;
  _ ← publish_event "hosting.application.created" (application_event instance);
  c ← get (fun c => c);
  mret (reply 201 (resource_json KApplication c instance)).

(** The precondition shared by the handlers: the expected revision, or the reply. *)
Definition precondition (if_match : option string) (what : string) : Z + response :=
  match _if_match_revision if_match with
  | Raise e => inr (reply 400 [("detail", PStr (exception_text e))])
  | Ok None => inr (reply 428 [("detail", PStr ("If-Match is required for " ++ what ++ "."))])
  | Ok (Some n) => inl n
  end.
(** The locked row of the expected revision, inside the transaction. *)
Definition locked_application (q : resource_query) (pk expected_revision : Z) (f : resource -> M catalogue response) : M catalogue response :=
  atomic (
    found ← get (fun c => find_resource pk (resource_queryset KApplication q c));
    match found with
    | None => mret not_found
    | Some instance =>
        if negb (bool_decide (res_revision instance = Some expected_revision)) then mret (_stale_revision_response instance)
        else f instance
    end).

Definition update_application (q : resource_query) (now pk : Z) (partial : bool) (if_match : option string) (request_data : pyval) : M catalogue response :=
  match precondition if_match "application updates" with
  | inr r => mret r
  | inl expected_revision =>
      locked_application q pk expected_revision (fun instance =>
        f ← (fun c => (resource_update KApplication c instance partial request_data, c));
        let saved := with_revision (default 0 (res_revision instance) + 1) now (f instance) in
        _ ← save_resource KApplication saved;
        _ ← publish_event "hosting.application.updated" (application_event saved);
        c ← get (fun c => c);
        mret (with_etag (default 0 (res_revision saved)) (reply 200 (resource_json KApplication c saved))))
  end.
(** Deleting an application deletes its versions, unless a deployment or a runtime release
    refers to one. *)
Definition destroy_application (q : resource_query) (pk : Z) (if_match : option string) : M catalogue response :=
  match precondition if_match "application deletion" with
  | inr r => mret r
  | inl expected_revision =>
      locked_application q pk expected_revision (fun instance =>
        _ ← (fun c => if existsb (Z.eqb pk) (referenced c) then (Raise ProtectedError, c)
                      else (Ok tt, delete_resource KApplication pk c));
        _ ← publish_event "hosting.application.deleted"
              [("id", PInt pk); ("slug", PStr (res_slug instance)); ("revision", PInt (default 0 (res_revision instance)))];
        mret no_content)
  end.

Definition _update_module_membership (q : resource_query) (now pk : Z) (attach : bool) (if_match : option string) (request_data : pyval)
    : M catalogue response :=
  module ← (fun c => (attached_module c request_data, c));
  match precondition if_match "application module changes" with
  | inr r => mret r
  | inl expected_revision =>
      locked_application q pk expected_revision (fun application =>
        let is_attached := existsb (Z.eqb (row_pk module)) (res_modules application) in
        if (attach && negb is_attached) || (negb attach && is_attached) then
          let members := members_after attach (row_pk module) (res_modules application) in
          let saved := with_revision (default 0 (res_revision application) + 1) now (with_members members application) in
          _ ← modify (fun c => with_resources KApplication (put_resource saved (applications c)) c);
          _ ← publish_event "hosting.application.updated" (application_event saved ++ [("module_slug", PStr (row_slug module))])%list;
          c ← get (fun c => c);
          mret (with_etag (default 0 (res_revision saved)) (reply 200 (resource_json KApplication c saved)))
        else
          c ← get (fun c => c);
          mret (with_etag (default 0 (res_revision application)) (reply 200 (resource_json KApplication c application))))
  end.

Definition _immutable_version_conflict (version : string) : response :=
  reply 409 [("code", PStr "version_conflict");
             ("detail", PStr ("Version " ++ version ++ " already exists with different immutable release metadata."))].
(** A publication whose conflicts become replies. *)
Definition publish_version (k : kind) (now pk : Z) (version notes source : string) (expected_revision : option Z)
    : M catalogue (VersionPublication + response) :=
  fun c => match publish_immutable_version k pk version notes source expected_revision now c with
           | (Ok p, c') => (Ok (inl p), c')
           | (Raise (VersionMetadataConflict v), c') => (Ok (inr (_immutable_version_conflict v)), c')
           | (Raise (VersionRevisionConflict n), c') =>
               match find_resource pk (resources k c') with
               | Some r => (Ok (inr (_stale_revision_response r)), c')
               | None => (Raise (VersionRevisionConflict n), c')
               end
           | (Raise e, c') => (Raise e, c')
           end.
Definition version_reply (p : VersionPublication) : response :=
  reply (if publication_created p then 201 else 200) (version_json (publication_version p)).
Definition post_application_version (q : resource_query) (now pk : Z) (if_match : option string) (request_data : pyval) : M catalogue response :=
  found ← get (fun c => find_resource pk (resource_queryset KApplication q c));
  match found with
  | None => mret not_found
  | Some _ =>
      match precondition if_match "application version publication" with
      | inr r => mret r
      | inl expected_revision =>
          d ← lift (version_data request_data);
          let '(version, notes, source) := d in
          p ← publish_version KApplication now pk version notes source (Some expected_revision);
          match p with
          | inr r => mret r
          | inl p =>
              let r := publication_resource p in
              _ ← (if publication_created p then
                     publish_event "hosting.application.version_released"
                       [("id", PInt (res_pk r)); ("slug", PStr (res_slug r)); ("version", PStr (v_version (publication_version p)));
                        ("revision", PInt (default 0 (res_revision r)))]
                   else mret tt);
              mret (with_etag (default 0 (res_revision r)) (version_reply p))
          end
      end
  end.
Definition post_tool_version (q : resource_query) (now pk : Z) (request_data : pyval) : M catalogue response :=
  found ← get (fun c => find_resource pk (resource_queryset KTool q c));
  match found with
  | None => mret not_found
  | Some _ =>
      d ← lift (version_data request_data);
      let '(version, notes, source) := d in
      p ← publish_version KTool now pk version notes source None;
      match p with
      | inr r => mret r
      | inl p =>
          let r := publication_resource p in
          _ ← (if publication_created p then
                 publish_event "hosting.tool.version_released"
                   [("id", PInt (res_pk r)); ("slug", PStr (res_slug r)); ("version", PStr (v_version (publication_version p)))]
               else mret tt);
          mret (version_reply p)
      end
  end.

(** *** Datasets *)
(** A row of the user table. *)
Record user_row := { u_pk : Z; u_username : string; u_active : bool; u_superuser : bool; u_groups : list Z }.
(** The user of a request: [viewer_pk] is [None] for the principals of tokens. *)
Record viewer := { is_staff : bool; viewer_pk : option Z; acl_username : string; oidc_groups : list string }.
Definition acl_user (users : list user_row) (u : viewer) : option user_row :=
  match viewer_pk u with
  | Some pk => List.find (fun x => u_pk x =? pk) users
  | None =>
      let username := py_strip (acl_username u) in
      if String.eqb username "" then None else List.find (fun x => String.eqb (u_username x) username && u_active x) users
  end.
Definition granted_to_user (x : user_row) (d : dataset) : bool :=
  existsb (Z.eqb (u_pk x)) (ds_users d) || existsb (fun g => existsb (Z.eqb g.1) (u_groups x)) (ds_groups d).
(** The rows [get_queryset] keeps before the optional filters. *)
Definition dataset_visible (users : list user_row) (u : viewer) (d : dataset) : bool :=
  if is_staff u then true
  else
    let external_groups := List.filter (fun g => negb (String.eqb (py_strip g) "")) (oidc_groups u) in
    ds_enabled d &&
    (from_option (fun x => granted_to_user x d) false (acl_user users u) ||
     existsb (fun g => mem g.2 external_groups) (ds_groups d)).
Record dataset_query := {
  dq_enabled : option string; dq_module_slug : option string; dq_user_id : option Z; dq_group_id : option Z;
  dq_search : dataset -> bool
}.
(** [get_queryset]: the filters on users and groups are for staff. *)
Definition dataset_queryset (users : list user_row) (u : viewer) (q : dataset_query) (c : catalogue) : list dataset :=
  List.filter (fun d =>
    dataset_visible users u d &&
    from_option (fun v => Bool.eqb (ds_enabled d) (_query_bool v)) true (dq_enabled q) &&
    from_option (has_module_slug c (ds_modules d)) true (given (dq_module_slug q)) &&
    (negb (is_staff u) ||
     (from_option (fun pk => existsb (Z.eqb pk) (ds_users d)) true (dq_user_id q) &&
      from_option (fun pk => existsb (fun g => g.1 =? pk) (ds_groups d)) true (dq_group_id q))) &&
    dq_search q d) (datasets c).
(** The datasets of the management page. *)
Definition managed_datasets (x : user_row) (c : catalogue) : list dataset :=
  List.filter (fun d => ds_enabled d && (u_superuser x || granted_to_user x d)) (datasets c).

Definition put_dataset (d : dataset) (l : list dataset) : list dataset :=
  map (fun x => if ds_pk x =? ds_pk d then d else x) l.
Definition dataset_conflict (d : dataset) (l : list dataset) : bool :=
  existsb (fun x => negb (ds_pk x =? ds_pk d) && (String.eqb (ds_slug x) (ds_slug d) || String.eqb (ds_name x) (ds_name d))) l.
Definition set_ds_revision (n : Z) (d : dataset) : dataset :=
  {| ds_pk := ds_pk d; ds_name := ds_name d; ds_slug := ds_slug d; ds_modules := ds_modules d; ds_users := ds_users d;
     ds_groups := ds_groups d; ds_enabled := ds_enabled d; ds_revision := n |}.
Section DatasetViews.
Context (users : list user_row) (u : viewer) (actor : string).
Definition dataset_event (d : dataset) : attrs :=
  [("id", PInt (ds_pk d)); ("slug", PStr (ds_slug d)); ("enabled", PBool (ds_enabled d));
   ("revision", PInt (ds_revision d)); ("actor", PStr actor)].
Definition create_dataset (pk : Z) (request_data : pyval) : M catalogue response :=
  make ← (fun c => (dataset_create c request_data, c));
  let instance := make pk in
  _ ← (fun c => if dataset_conflict instance (datasets c) then (Raise IntegrityError, c)
                else (Ok tt, with_datasets (datasets c ++ [instance])%list c));
  _ ← publish_event "hosting.dataset.created" (dataset_event instance);
  mret (reply 201 (dataset_json instance)).
Definition locked_dataset (q : dataset_query) (pk expected_revision : Z) (f : dataset -> M catalogue response)
    : M catalogue response :=
  atomic (
    found ← get (fun c => List.find (fun d => ds_pk d =? pk) (dataset_queryset users u q c));
    match found with
    | None => mret not_found
    | Some instance =>
        if negb (ds_revision instance =? expected_revision)
        then mret (with_etag (ds_revision instance)
               (reply 412 [("detail", PStr "The dataset changed after it was loaded."); ("revision", PInt (ds_revision instance))]))
        else f instance
    end).
Definition update_dataset (q : dataset_query) (pk : Z) (partial : bool) (if_match : option string) (request_data : pyval)
    : M catalogue response :=
  match precondition if_match "dataset updates" with
  | inr r => mret r
  | inl expected_revision =>
      locked_dataset q pk expected_revision (fun instance =>
        f ← (fun c => (dataset_update c instance partial request_data, c));
        let saved := set_ds_revision (ds_revision instance + 1) (f instance) in
        _ ← (fun c => if dataset_conflict saved (datasets c) then (Raise IntegrityError, c)
                      else (Ok tt, with_datasets (put_dataset saved (datasets c)) c));
        _ ← publish_event "hosting.dataset.updated" (dataset_event saved);
        mret (with_etag (ds_revision saved) (reply 200 (dataset_json saved))))
  end.
Definition destroy_dataset (q : dataset_query) (pk : Z) (if_match : option string) : M catalogue response :=
  match precondition if_match "dataset deletion" with
  | inr r => mret r
  | inl expected_revision =>
      locked_dataset q pk expected_revision (fun instance =>
        _ ← modify (fun c => with_datasets (List.filter (fun d => negb (ds_pk d =? pk)) (datasets c)) c);
        _ ← publish_event "hosting.dataset.deleted"
              [("id", PInt pk); ("slug", PStr (ds_slug instance)); ("revision", PInt (ds_revision instance)); ("actor", PStr actor)];
        mret no_content)
  end.
End DatasetViews.
End Views.

(** ** Permissions (apps/common/permissions.py) *)
Record account := { is_authenticated : bool; account_staff : bool; is_superuser : bool }.
Definition SAFE_METHODS : list string := ["GET"; "HEAD"; "OPTIONS"].
Definition staff_or_read_only (user : option account) (method : string) : bool :=
  match user with
  | None => false
  | Some u => if negb (is_authenticated u) then false else if mem method SAFE_METHODS then true else account_staff u
  end.
Definition is_super_user (user : option account) : bool :=
  match user with None => false | Some u => is_authenticated u && is_superuser u end.
