(* ===== verification/Discovery.v ===== *)
(** Autodiscovery (src/components/DEALHost/apps/hosting/discovery.py): the manifests under
    modules, tools and applications are reconciled with the tables in one transaction, which
    any rejected manifest rolls back. *)

From stdpp Require Import gmap strings sorting.
From S2P Require Import Prelude PyValue Regex Sha256 PyFloat Json PyTime PyText Wire Url Release Gateway Catalog.
#[local] Open Scope list_scope.
#[local] Open Scope string_scope.
#[local] Open Scope Z_scope.

(** ** Reports *)
Record DiscoveryReport := {
  modules_created : Z; modules_updated : Z; tools_created : Z; tools_updated : Z;
  applications_created : Z; applications_updated : Z;
  tool_versions_created : Z; application_versions_created : Z;
  rolled_back : bool; error_count : Z; errors : list string
}.
Definition empty_report : DiscoveryReport := {|
  modules_created := 0; modules_updated := 0; tools_created := 0; tools_updated := 0; applications_created := 0;
  applications_updated := 0; tool_versions_created := 0; application_versions_created := 0;
  rolled_back := false; error_count := 0; errors := [] |}.

(** The counter of a kind, for a row that was created or updated. *)
Inductive counter := CModule | CTool | CApplication | CVersion (k : kind).
#[export] Instance counter_eq_dec : EqDecision counter.
Proof. solve_decision. Defined.
Definition count (x : counter) (created : bool) (r : DiscoveryReport) : DiscoveryReport :=
  let n b := if b : bool then 1 else 0 in
  let m := match x with CModule => true | _ => false end in
  let t := match x with CTool => true | _ => false end in
  let a := match x with CApplication => true | _ => false end in
  let tv := match x with CVersion KTool => true | _ => false end in
  let av := match x with CVersion KApplication => true | _ => false end in
  {| modules_created := modules_created r + n (m && created); modules_updated := modules_updated r + n (m && negb created);
     tools_created := tools_created r + n (t && created); tools_updated := tools_updated r + n (t && negb created);
     applications_created := applications_created r + n (a && created);
     applications_updated := applications_updated r + n (a && negb created);
     tool_versions_created := tool_versions_created r + n (tv && created);
     application_versions_created := application_versions_created r + n (av && created);
     rolled_back := rolled_back r; error_count := error_count r; errors := errors r |}.

(** The files of one directory, by name, with their text. *)
Record manifest_tree := {
  module_manifest_files : list (string * string);
  tool_manifest_files : list (string * string);
  application_manifest_files : list (string * string)
}.

Section Discovery.
Context `{UnicodeData} `{SlugOrder}.
Variable gettext : string -> string.
(** The key of a new row, given the keys in use. *)
Variable next_pk : list Z -> Z.

Definition public_autodiscovery_error : string := gettext "Autodiscovery failed; details are available in server logs.".
Definition add_error (r : DiscoveryReport) : DiscoveryReport :=
  {| modules_created := modules_created r; modules_updated := modules_updated r; tools_created := tools_created r;
     tools_updated := tools_updated r; applications_created := applications_created r;
     applications_updated := applications_updated r; tool_versions_created := tool_versions_created r;
     application_versions_created := application_versions_created r; rolled_back := rolled_back r;
     error_count := error_count r + 1;
     errors := match errors r with [] => [public_autodiscovery_error] | l => l end |}.

Definition _read_manifest (text : string) (required_fields : list string) : res attrs :=
  data ← json_load text;
  match data with
  | PDict data =>
      _ ← raise_if (existsb (fun field => negb (truthy (vget field data))) required_fields) (ValueError "missing required field");
      let raw_version := vget "version" data in
      if truthy raw_version then
        t ← py_str raw_version;
        let normalized := py_strip t in
        if is_semver normalized then Ok (dset "version" (PStr (lstrip_v normalized)) data)
        else Raise (ValueError "invalid version, expected semantic version")
      else Ok data
  | _ => Raise (ValueError "manifest root must be a JSON object")
  end.
Definition _as_bool (value : pyval) (default_ : bool) : bool :=
  match value with
  | PNone => default_
  | PBool b => b
  | PStr s => mem (py_lower (py_strip s)) ["1"; "true"; "yes"; "on"]
  | _ => truthy value
  end.
Definition _as_int_or_none (value : pyval) : res (option Z) :=
  if blank value then Ok None
  else t ← py_str value; match py_int t with Some n => Ok (Some n) | None => Raise (ValueError "invalid literal for int() with base 10") end.
Definition _as_string_list (value : pyval) : res (list string) :=
  match value with
  | PList l => texts ← mapM_res py_str l; Ok (List.filter (fun t => negb (String.eqb (py_strip t) "")) texts)
  | _ => Ok []
  end.

(** The modules of a payload that exist, and the slugs that do not. *)
Definition _extract_modules (l : list module_row) (payload : attrs) : res (list module_row * list string) :=
  slugs ← iterate (dget_or "module_slugs" (PList []) payload);
  Ok (fold_left (fun found slug =>
        match slug with
        | PStr slug => match List.find (fun m => String.eqb (row_slug m) slug) l with
                       | Some m => (found.1 ++ [m], found.2)%list
                       | None => (found.1, found.2 ++ [slug])%list
                       end
        | _ => found
        end) slugs ([], [])).

Definition text (k default_ : string) (payload : attrs) : res string := py_str (dget_or k (PStr default_) payload).
(** The row [update_or_create] writes for a manifest. *)
Definition module_of (payload : attrs) : res (Z -> module_row) :=
  slug ← py_str (vget "slug" payload);
  name ← py_str (vget "name" payload);
  image ← py_str (vget "image" payload);
  branch ← text "branch" "main" payload;
  repository_owner ← text "repository_owner" "" payload;
  repository_name ← text "repository_name" "" payload;
  source_path ← text "source_path" "" payload;
  deployment_target ← text "deployment_target" "compose" payload;
  public_path ← text "public_path" "" payload;
  upstream_host ← text "upstream_host" "" payload;
  upstream_port ← _as_int_or_none (vget "upstream_port" payload);
  healthcheck_path ← text "healthcheck_path" "" payload;
  contract_topics ← _as_string_list (dget_or "contract_topics" (PList []) payload);
  Ok (fun pk => {| row_pk := pk; row_name := name; row_slug := slug; row_image := image; row_branch := branch;
                   row_repository_owner := repository_owner; row_repository_name := repository_name;
                   row_source_path := source_path; row_deployment_target := deployment_target;
                   row_public_path := public_path; row_upstream_host := upstream_host; row_upstream_port := upstream_port;
                   row_healthcheck_path := healthcheck_path; row_contract_topics := PList (map PStr contract_topics);
                   row_enabled := _as_bool (vget "enabled" payload) true |}).
(** [Module.objects.update_or_create(slug=..., defaults=...)]: whether the row was created. *)
Definition update_or_create_module (make : Z -> module_row) : M catalogue bool :=
  fun c =>
    let l := module_rows c in
    match List.find (fun m => String.eqb (row_slug m) (row_slug (make 0))) l with
    | Some m => let instance := make (row_pk m) in
                (_ ← save_module instance; mret false) c
    | None => let instance := make (next_pk (map row_pk l)) in
              (_ ← insert_module instance; mret true) c
    end.

(** [try: m  except <classes>: report.add_error()]. *)
Definition rejecting (caught : pyexn -> bool) (report : DiscoveryReport) (m : M catalogue DiscoveryReport) : M catalogue DiscoveryReport :=
  fun c => match m c with
           | (Raise e, c') => if caught e then (Ok (add_error report), c') else (Raise e, c')
           | r => r
           end.

Definition discover_module (report : DiscoveryReport) (file : string * string) : M catalogue DiscoveryReport :=
  rejecting (fun e => is_type_error e || is_value_error e) report (
    payload ← lift (_read_manifest file.2 ["name"; "slug"; "image"]);
    make ← lift (module_of payload);
    created ← update_or_create_module make;
    mret (count CModule created report)).

Definition set_fields (name description : string) (enabled : bool) (r : resource) : resource :=
  {| res_pk := res_pk r; res_name := name; res_slug := res_slug r; res_description := description;
     res_modules := res_modules r; res_current_version := res_current_version r; res_released_at := res_released_at r;
     res_enabled := enabled; res_revision := res_revision r; res_updated_at := res_updated_at r |}.
Definition find_slug (slug : string) (l : list resource) : option resource :=
  List.find (fun r => String.eqb (res_slug r) slug) l.

(** The fields both kinds take from a manifest: slug, name, description, enabled. *)
Definition resource_fields (payload : attrs) : res (string * string * string * bool) :=
  slug ← py_str (vget "slug" payload);
  name ← py_str (vget "name" payload);
  description ← text "description" "" payload;
  Ok (slug, name, description, _as_bool (vget "enabled" payload) true).

(** [Tool.objects.update_or_create] and [tool.modules.set(modules)]. *)
Definition reconcile_tool (now : Z) (fields : string * string * string * bool) (members : list Z) : M catalogue (Z * bool) :=
  let '(slug, name, description, enabled) := fields in
  found ← get (fun c => find_slug slug (tools c));
  match found with
  | Some r =>
      let saved := touch now (set_fields name description enabled r) in
      _ ← save_resource KTool saved;
      _ ← modify (fun c => with_resources KTool (put_resource (with_members members saved) (tools c)) c);
      mret (res_pk r, false)
  | None =>
      pk ← get (fun c => next_pk (map res_pk (tools c)));
      _ ← insert_resource KTool (with_members members (new_resource KTool pk name slug description enabled now));
      mret (pk, true)
  end.

Definition same_members (a b : list Z) : bool :=
  forallb (fun x => existsb (Z.eqb x) b) a && forallb (fun x => existsb (Z.eqb x) a) b.
(** [HostedApplication.objects.get_or_create], then an update only when something changes. *)
Definition reconcile_application (now : Z) (fields : string * string * string * bool) (members : list Z) : M catalogue (Z * bool) :=
  let '(slug, name, description, enabled) := fields in
  found ← get (fun c => find_slug slug (applications c));
  match found with
  | Some r =>
      let fields_changed := negb (String.eqb (res_name r) name) || negb (String.eqb (res_description r) description) ||
                            negb (Bool.eqb (res_enabled r) enabled) in
      let modules_changed := negb (same_members (res_modules r) members) in
      let r1 := set_fields name description enabled r in
      let r2 := if modules_changed then with_members members r1 else r1 in
      _ ← (if fields_changed || modules_changed
           then save_resource KApplication (with_revision (default 0 (res_revision r) + 1) now r2)
           else mret tt);
      mret (res_pk r, false)
  | None =>
      pk ← get (fun c => next_pk (map res_pk (applications c)));
      _ ← insert_resource KApplication (with_members members (new_resource KApplication pk name slug description enabled now));
      mret (pk, true)
  end.

Definition reconcile_resource (k : kind) (now : Z) (fields : string * string * string * bool) (members : list Z)
    : M catalogue (Z * bool) :=
  match k with KTool => reconcile_tool now fields members | KApplication => reconcile_application now fields members end.
(** The version a manifest names is published for its row. *)
Definition manifest_version (k : kind) (now pk : Z) (payload : attrs) (report : DiscoveryReport) : M catalogue DiscoveryReport :=
  if truthy (vget "version" payload) then
    version ← lift (py_str (vget "version" payload));
    notes ← lift (text "version_notes" "" payload);
    publication ← publish_immutable_version k pk version notes "autodiscovery" None now;
    mret (if publication_created publication then count (CVersion k) true report else report)
  else mret report.

(** A tool or application manifest: row, version, counters, unknown modules.  Only
    [ValueError] is caught. *)
Definition discover_resource (k : kind) (now : Z) (report : DiscoveryReport) (file : string * string) : M catalogue DiscoveryReport :=
  rejecting is_value_error report (
    payload ← lift (_read_manifest file.2 ["name"; "slug"]);
    l ← get module_rows;
    found ← lift (_extract_modules l payload);
    fields ← lift (resource_fields payload);
    let members := nodup Z.eq_dec (map row_pk found.1) in
    row ← reconcile_resource k now fields members;
    report ← manifest_version k now row.1 payload report;
    let report := count (match k with KTool => CTool | KApplication => CApplication end) row.2 report in
    mret (if bool_decide (found.2 = []) then report else add_error report)).

Fixpoint discover_all (step : DiscoveryReport -> string * string -> M catalogue DiscoveryReport)
    (report : DiscoveryReport) (files : list (string * string)) : M catalogue DiscoveryReport :=
  match files with
  | [] => mret report
  | file :: files => report ← step report file; discover_all step report files
  end.
Definition discover (tree : manifest_tree) (now : Z) : M catalogue DiscoveryReport :=
  report ← discover_all discover_module empty_report (json_files (module_manifest_files tree));
  report ← discover_all (discover_resource KTool now) report (json_files (tool_manifest_files tree));
  discover_all (discover_resource KApplication now) report (json_files (application_manifest_files tree)).

(** The report of a run that was rolled back. *)
Definition rolled_back_report (r : DiscoveryReport) : DiscoveryReport :=
  {| modules_created := 0; modules_updated := 0; tools_created := 0; tools_updated := 0; applications_created := 0;
     applications_updated := 0; tool_versions_created := 0; application_versions_created := 0;
     rolled_back := true; error_count := error_count r; errors := errors r |}.
Definition auto_discover_tools_and_applications (tree : manifest_tree) (now : Z) : M catalogue DiscoveryReport :=
  atomic (
    fun c => match discover tree now c with
             | (Ok report, c') =>
                 if bool_decide (errors report = []) then (Ok report, c')
                 else (Ok (rolled_back_report report), with_log (log c') c)
             | r => r
             end).

(** [report.to_dict(include_errors=False)], the answer of the autodiscovery view. *)
Definition to_dict (r : DiscoveryReport) : attrs :=
  [("modules_created", PInt (modules_created r)); ("modules_updated", PInt (modules_updated r));
   ("tools_created", PInt (tools_created r)); ("tools_updated", PInt (tools_updated r));
   ("applications_created", PInt (applications_created r)); ("applications_updated", PInt (applications_updated r));
   ("tool_versions_created", PInt (tool_versions_created r));
   ("application_versions_created", PInt (application_versions_created r));
   ("rolled_back", PBool (rolled_back r));
   ("errors", PList (if bool_decide (errors r = []) then [] else [PStr public_autodiscovery_error]))].
End Discovery.
