(* ===== verification/CatalogFrame.v ===== *)
(** What the calls on the catalogue may change: a relation that every single write respects
    is respected by every handler, by autodiscovery, and by any sequence of them. *)

From stdpp Require Import gmap strings sorting.
From S2P Require Import Prelude PyValue Regex Sha256 PyFloat Json PyTime PyText Wire Url Release Gateway GatewayViews Catalog HostingViews Discovery.
#[local] Open Scope list_scope.
#[local] Open Scope string_scope.
#[local] Open Scope Z_scope.

(** ** Rows by key *)
Lemma find_put (pk : Z) (r : resource) (l : list resource) :
  find_resource pk (put_resource r l) =
  if decide (res_pk r = pk) then (fun _ => r) <$> find_resource pk l else find_resource pk l.
Proof.
  unfold find_resource, put_resource. induction l as [|x l IH]; [by destruct (decide _)|]. cbn.
  destruct (Z.eqb_spec (res_pk x) (res_pk r)) as [Hx|Hx], (decide (res_pk r = pk)) as [Hr|Hr].
  - assert (res_pk r =? pk = true) as -> by lia. assert (res_pk x =? pk = true) as -> by lia. done.
  - assert (res_pk r =? pk = false) as -> by lia. assert (res_pk x =? pk = false) as -> by lia. exact IH.
  - assert (res_pk x =? pk = false) as -> by lia. exact IH.
  - destruct (res_pk x =? pk); [done|exact IH].
Qed.
Lemma find_key (pk : Z) (l : list resource) (r : resource) : find_resource pk l = Some r -> res_pk r = pk.
Proof. intros E. apply find_some in E as [_ E]. by apply Z.eqb_eq. Qed.
Lemma find_app {A} (f : A -> bool) (l k : list A) :
  List.find f (l ++ k)%list = match List.find f l with Some x => Some x | None => List.find f k end.
Proof. induction l as [|x l IH]; [done|]. cbn. by destruct (f x). Qed.
Lemma find_filter {A} (f g : A -> bool) (l : list A) :
  (forall x, f x = true -> g x = true) -> List.find f (List.filter g l) = List.find f l.
Proof.
  intros Hfg. induction l as [|x l IH]; [done|]. cbn. destruct (g x) eqn:Eg; cbn; [by destruct (f x)|].
  destruct (f x) eqn:Ef; [|done]. by rewrite Hfg in Eg.
Qed.
Lemma find_map_key (pk : Z) (f : resource -> resource) (l : list resource) :
  (forall r, res_pk (f r) = res_pk r) -> find_resource pk (map f l) = f <$> find_resource pk l.
Proof.
  intros Hf. unfold find_resource. induction l as [|x l IH]; [done|]. cbn. rewrite Hf. by destruct (res_pk x =? pk).
Qed.

(** ** Frames *)
(** What a computation does to the catalogue, whether it returns or raises. *)
Section Frame.
Context (R : relation catalogue) `{!PreOrder R} (Rlog : forall l c, R c (with_log l c)).
Definition steady_at {A} (c : catalogue) (m : M catalogue A) : Prop := forall r c', m c = (r, c') -> R c c'.
Definition steady {A} (m : M catalogue A) : Prop := forall c, steady_at c m.
Lemma steady_read {A} (f : catalogue -> res A) : steady (fun c => (f c, c)).
Proof. by intros c r c' [= _ <-]. Qed.
Lemma steady_get {A} (f : catalogue -> A) : steady (get f).
Proof. apply steady_read. Qed.
Lemma steady_lift {A} (x : res A) : steady (lift x).
Proof. apply (steady_read (fun _ => x)). Qed.
Lemma steady_ret {A} (x : A) : steady (mret x).
Proof. apply (steady_read (fun _ => Ok x)). Qed.
Lemma steady_raise {A} (e : pyexn) : steady (A:=A) (raise e).
Proof. apply (steady_read (fun _ => Raise e)). Qed.
Lemma steady_bind {A B} (m : M catalogue A) (f : A -> M catalogue B) :
  steady m -> (forall x, steady (f x)) -> steady (m ≫= f).
Proof.
  intros Hm Hf c r c' E. unfold mbind, M_bind in E. destruct (m c) as [[x|e] c1] eqn:Em.
  - etransitivity; [by eapply Hm|by eapply Hf].
  - injection E as _ <-. by eapply Hm.
Qed.
Lemma steady_at_bind {A B} (c : catalogue) (m : M catalogue A) (f : A -> M catalogue B) :
  steady_at c m -> (forall x c1, m c = (Ok x, c1) -> steady_at c1 (f x)) -> steady_at c (m ≫= f).
Proof.
  intros Hm Hf r c' E. unfold mbind, M_bind in E. destruct (m c) as [[x|e] c1] eqn:Em.
  - etransitivity; [by eapply Hm|by eapply Hf].
  - injection E as _ <-. by eapply Hm.
Qed.
Lemma steady_atomic {A} (m : M catalogue A) : steady m -> steady (atomic m).
Proof.
  intros Hm c r c' E. unfold atomic in E. destruct (m c) as [[x|e] c1] eqn:Em; injection E as <- <-; [by eapply Hm|apply Rlog].
Qed.
Lemma steady_modify (f : catalogue -> catalogue) : (forall c, R c (f c)) -> steady (modify f).
Proof. intros Hf c r c' [= _ <-]. apply Hf. Qed.
Lemma steady_event (bus : string -> attrs -> res unit) (k : string) (d : attrs) : steady (HostingViews.publish_event bus k d).
Proof. intros c r c' [= _ <-]. apply Rlog. Qed.
(** A write that may be refused. *)
Lemma steady_guarded (b : catalogue -> bool) (e : pyexn) (f : catalogue -> catalogue) :
  (forall c, R c (f c)) -> steady (fun c => if b c then (Raise e, c) else (Ok tt, f c)).
Proof. intros Hf c r c' E. destruct (b c); injection E as _ <-; [done|apply Hf]. Qed.
End Frame.
#[export] Hint Resolve steady_read steady_get steady_lift steady_ret steady_raise steady_event : steady.

(** ** Sequences of calls *)
Section Calls.
Context `{UnicodeData} `{CaseFold} `{SlugOrder} `{Serializers}.
Variable bus : string -> attrs -> res unit.
Variable exception_text : pyexn -> string.
Variable gettext : string -> string.
Variable next_pk : list Z -> Z.

(** A request on the catalogue, or a run of autodiscovery. *)
Inductive call :=
| CreateModule (pk : Z) (body : pyval)
| UpdateModule (q : module_query) (pk : Z) (partial : bool) (body : pyval)
| DestroyModule (q : module_query) (pk : Z)
| CreateResource (k : kind) (pk : Z) (body : pyval)
| UpdateTool (q : resource_query) (now pk : Z) (partial : bool) (body : pyval)
| DestroyTool (q : resource_query) (pk : Z)
| ToolMembership (q : resource_query) (pk : Z) (attach : bool) (body : pyval)
| ToolVersion (q : resource_query) (now pk : Z) (body : pyval)
| UpdateApplication (q : resource_query) (now pk : Z) (partial : bool) (if_match : option string) (body : pyval)
| DestroyApplication (q : resource_query) (pk : Z) (if_match : option string)
| ApplicationMembership (q : resource_query) (now pk : Z) (attach : bool) (if_match : option string) (body : pyval)
| ApplicationVersion (q : resource_query) (now pk : Z) (if_match : option string) (body : pyval)
| CreateDataset (actor : string) (pk : Z) (body : pyval)
| UpdateDataset (users : list user_row) (u : viewer) (actor : string) (q : dataset_query) (pk : Z) (partial : bool)
    (if_match : option string) (body : pyval)
| DestroyDataset (users : list user_row) (u : viewer) (actor : string) (q : dataset_query) (pk : Z) (if_match : option string)
| Autodiscover (tree : manifest_tree) (now : Z).

Definition answer_to (x : call) : M catalogue response :=
  match x with
  | CreateModule pk body => create_module bus pk body
  | UpdateModule q pk partial body => update_module bus q pk partial body
  | DestroyModule q pk => destroy_module bus q pk
  | CreateResource KTool pk body => create_tool bus pk body
  | CreateResource KApplication pk body => create_application bus pk body
  | UpdateTool q now pk partial body => update_tool bus q now pk partial body
  | DestroyTool q pk => destroy_tool bus q pk
  | ToolMembership q pk attach body => tool_membership q pk attach body
  | ToolVersion q now pk body => post_tool_version bus q now pk body
  | UpdateApplication q now pk partial im body => update_application bus exception_text q now pk partial im body
  | DestroyApplication q pk im => destroy_application bus exception_text q pk im
  | ApplicationMembership q now pk attach im body => _update_module_membership bus exception_text q now pk attach im body
  | ApplicationVersion q now pk im body => post_application_version bus exception_text q now pk im body
  | CreateDataset actor pk body => create_dataset bus actor pk body
  | UpdateDataset users u actor q pk partial im body => update_dataset bus exception_text users u actor q pk partial im body
  | DestroyDataset users u actor q pk im => destroy_dataset bus exception_text users u actor q pk im
  | Autodiscover tree now =>
      report ← auto_discover_tools_and_applications gettext next_pk tree now;
      mret (reply 200 (to_dict gettext report))
  end.
(** The revision of [saved] is later. *)
Definition grows (r saved : resource) : Prop :=
  res_pk saved = res_pk r /\ forall n, res_revision r = Some n -> exists m, res_revision saved = Some m /\ n < m.
Section Steady.
(** A relation that the writes of the handlers respect: any change of modules, datasets, tools
    and the log; a new version; an application whose revision grows; new applications under
    fresh keys; and the deletions that are [deletable]. *)
Context (R : relation catalogue) `{!PreOrder R}.
Context (fresh : Z -> Prop) (deletable : kind -> Z -> Prop).
Record respected : Prop := {
  R_log l c : R c (with_log l c);
  R_modules l c : R c (with_modules l c);
  R_datasets l c : R c (with_datasets l c);
  R_tools l c : R c (with_resources KTool l c);
  R_version k v c : R c (with_versions k (versions_of k c ++ [v])%list c);
  R_put r saved c : r ∈ applications c -> grows r saved ->
    R c (with_resources KApplication (put_resource saved (applications c)) c);
  R_insert r c : res_pk r ∉ map res_pk (applications c) -> fresh (res_pk r) ->
    R c (with_resources KApplication (applications c ++ [r])%list c);
  R_map f c : (forall r, res_pk (f r) = res_pk r /\ res_revision (f r) = res_revision r) ->
    R c (with_resources KApplication (map f (applications c)) c);
  R_delete k pk c : deletable k pk -> R c (delete_resource k pk c)
}.
Context (HR : respected).
Class ResourceLaws := {
  resource_create_key k c body make pk : resource_create k c body = Ok make -> res_pk (make pk) = pk;
  resource_update_key k c r partial body f : resource_update k c r partial body = Ok f -> res_pk (f r) = res_pk r
}.
Context `{!ResourceLaws} (next_fresh : forall l, next_pk l ∉ l /\ fresh (next_pk l)).

Local Ltac go := repeat first
  [ apply steady_atomic; [exact (R_log HR)|]
  | apply steady_bind; [exact _| |intro]
  | apply steady_guarded; [exact _|intro]
  | apply steady_modify; intro
  | reflexivity
  | progress auto using R_log, R_modules, R_datasets, R_tools with steady
  | match goal with |- steady _ (match ?x with _ => _ end) => destruct x end ].

Lemma steady_create_module (pk : Z) (body : pyval) : steady R (create_module bus pk body).
Proof. unfold create_module, insert_module. go. Qed.
Lemma steady_update_module (q : module_query) (pk : Z) (partial : bool) (body : pyval) : steady R (update_module bus q pk partial body).
Proof. unfold update_module, save_module. go. Qed.
Lemma R_remove_module (pk : Z) (c : catalogue) : R c (remove_module pk c).
Proof.
  unfold remove_module. etransitivity; [apply (R_modules HR)|]. etransitivity; [by apply (R_map HR (fun r => with_members (List.filter (fun n => negb (n =? pk)) (res_modules r)) r))|].
  etransitivity; [apply (R_tools HR)|]. apply (R_datasets HR).
Qed.
Lemma steady_destroy_module (q : module_query) (pk : Z) : steady R (destroy_module bus q pk).
Proof. unfold destroy_module. go. all: auto using R_remove_module. Qed.

(** *** Tools *)
Lemma steady_create_tool (pk : Z) (body : pyval) : steady R (create_tool bus pk body).
Proof. unfold create_tool, insert_resource. go. Qed.
Lemma steady_update_tool (q : resource_query) (now pk : Z) (partial : bool) (body : pyval) :
  steady R (update_tool bus q now pk partial body).
Proof. unfold update_tool, save_resource. go. Qed.
Lemma steady_destroy_tool (q : resource_query) (pk : Z) : deletable KTool pk -> steady R (destroy_tool bus q pk).
Proof. intros Hd. unfold destroy_tool. go. by apply (R_delete HR). Qed.
Lemma steady_tool_membership (q : resource_query) (pk : Z) (attach : bool) (body : pyval) :
  steady R (tool_membership q pk attach body).
Proof. unfold tool_membership. go. Qed.

(** *** Versions *)
Lemma released_grows (version : string) (now : Z) (r : resource) : grows r (released version now r).
Proof. split; [done|]. intros n Hn. exists (n + 1). cbn. rewrite Hn. split; [done|lia]. Qed.
Lemma with_revision_grows (now : Z) (r x : resource) :
  res_pk x = res_pk r -> grows r (with_revision (default 0 (res_revision r) + 1) now x).
Proof. intros Hx. split; [done|]. intros n Hn. exists (n + 1). cbn. rewrite Hn. cbn. split; [done|lia]. Qed.
Lemma found_In (pk : Z) (l : list resource) (r : resource) : find_resource pk l = Some r -> r ∈ l.
Proof. intros E. apply find_some in E as [E _]. by apply list_elem_of_In. Qed.
Lemma R_put_resource (k : kind) (r saved : resource) (c : catalogue) :
  r ∈ resources k c -> grows r saved -> R c (with_resources k (put_resource saved (resources k c)) c).
Proof. intros Hr Hg. destruct k; [apply (R_tools HR)|by eapply (R_put HR)]. Qed.
Lemma steady_publish_version (k : kind) (pk : Z) (version notes source : string) (exp : option Z) (now : Z) :
  steady R (publish_immutable_version k pk version notes source exp now).
Proof.
  unfold publish_immutable_version. apply steady_atomic; [exact (R_log HR)|]. intros c r c' E.
  rewrite (M_bind_run _ _ c (find_resource pk (resources k c)) c) in E by done.
  destruct (find_resource pk (resources k c)) as [locked|] eqn:Ef; [|by injection E as _ <-].
  destruct (match exp with Some _ => _ | None => _ end); [by injection E as _ <-|].
  rewrite (M_bind_run _ _ c c c) in E by done.
  destruct (match k with KTool => _ | KApplication => _ end) as [defaults|e]; [|by injection E as _ <-].
  rewrite (M_bind_run _ _ c defaults c) in E by done.
  destruct (find_version _ _ _) as [v|]; [by destruct (_ || _); injection E as _ <-|].
  injection E as _ <-. apply found_In in Ef.
  match goal with |- context [with_versions k ?l c] => set (c1 := with_versions k l c) end.
  transitivity c1; [apply (R_version HR k)|]. assert (resources k c = resources k c1) as Hres by by destruct k.
  rewrite Hres in Ef |- *. eapply R_put_resource; [exact Ef|apply released_grows].
Qed.
Lemma steady_version_reply (k : kind) (now pk : Z) (version notes source : string) (exp : option Z) :
  steady R (publish_version k now pk version notes source exp).
Proof.
  intros c r c' E. unfold publish_version in E. destruct (publish_immutable_version _ _ _ _ _ _ _ _) as [x c1] eqn:Ep.
  apply steady_publish_version in Ep. destruct x as [p|e]; [by injection E as _ <-|].
  destruct e; try (by injection E as _ <-). destruct (find_resource _ _); by injection E as _ <-.
Qed.
Lemma steady_tool_version (q : resource_query) (now pk : Z) (body : pyval) : steady R (post_tool_version bus q now pk body).
Proof. unfold post_tool_version. go. all: auto using steady_version_reply. Qed.
Lemma steady_application_version (q : resource_query) (now pk : Z) (im : option string) (body : pyval) :
  steady R (post_application_version bus exception_text q now pk im body).
Proof. unfold post_application_version. go. all: auto using steady_version_reply. Qed.

(** *** Applications *)
Lemma steady_locked (q : resource_query) (pk n : Z) (f : resource -> M catalogue response) :
  (forall r c, r ∈ applications c -> steady_at R c (f r)) -> steady R (locked_application q pk n f).
Proof.
  intros Hf. unfold locked_application. apply steady_atomic; [exact (R_log HR)|]. intros c.
  apply steady_at_bind; [exact _|apply steady_get, _|]. intros found c1 [= <- <-].
  destruct (find_resource _ _) as [r|] eqn:Er; [|apply steady_ret, _].
  destruct (negb _); [apply steady_ret, _|]. apply Hf.
  apply found_In in Er. unfold resource_queryset in Er. apply list_elem_of_In, filter_In in Er as [Er _]. by apply list_elem_of_In.
Qed.
Lemma steady_save_resource (k : kind) (c : catalogue) (r saved : resource) :
  r ∈ resources k c -> grows r saved -> steady_at R c (save_resource k saved).
Proof.
  intros Hr Hg x c' E. unfold save_resource in E. destruct (resource_conflict _ _); injection E as _ <-; [done|].
  by eapply R_put_resource.
Qed.
Lemma steady_update_application (q : resource_query) (now pk : Z) (partial : bool) (im : option string) (body : pyval) :
  steady R (update_application bus exception_text q now pk partial im body).
Proof.
  unfold update_application. destruct (precondition _ _ _) as [n|]; [|auto with steady].
  apply steady_locked. intros r c Hr.
  apply steady_at_bind; [exact _|apply steady_read, _|]. intros f c1 [= Hf <-].
  apply steady_at_bind; [exact _| |intros _ c1 _; revert c1; go].
  eapply steady_save_resource; [exact Hr|]. apply with_revision_grows. by eapply resource_update_key.
Qed.
Lemma steady_destroy_application (q : resource_query) (pk : Z) (im : option string) :
  deletable KApplication pk -> steady R (destroy_application bus exception_text q pk im).
Proof.
  intros Hd. unfold destroy_application. destruct (precondition _ _ _) as [n|]; [|auto with steady].
  apply steady_locked. intros r c _. revert c. go. by apply (R_delete HR).
Qed.
Lemma steady_membership (q : resource_query) (now pk : Z) (attach : bool) (im : option string) (body : pyval) :
  steady R (_update_module_membership bus exception_text q now pk attach im body).
Proof.
  unfold _update_module_membership. apply steady_bind; [exact _|apply steady_read, _|intros module].
  destruct (precondition _ _ _) as [n|]; [|auto with steady]. apply steady_locked. intros r c Hr.
  destruct (_ || _); [|revert c Hr; intros c _; revert c; go].
  apply steady_at_bind; [exact _| |intros _ c1 _; revert c1; go].
  intros x c' [= _ <-]. eapply (R_put HR); [exact Hr|]. by apply with_revision_grows.
Qed.
Lemma steady_create_application (pk : Z) (body : pyval) (c : catalogue) :
  pk ∉ map res_pk (applications c) -> fresh pk -> steady_at R c (create_application bus pk body).
Proof.
  intros Hpk Hfresh. unfold create_application. apply steady_at_bind; [exact _|apply steady_read, _|].
  intros make c1 [= Hmake <-]. pose proof (resource_create_key _ _ _ _ pk Hmake) as Hkey.
  apply steady_at_bind; [exact _| |intros _ c1 _; revert c1; go].
  intros x c' E. unfold insert_resource in E. destruct (resource_conflict _ _); injection E as _ <-; [done|].
  apply (R_insert HR); by rewrite Hkey.
Qed.

(** *** Datasets *)
Lemma steady_create_dataset (actor : string) (pk : Z) (body : pyval) : steady R (create_dataset bus actor pk body).
Proof. unfold create_dataset. go. Qed.
Lemma steady_locked_dataset (users : list user_row) (u : viewer) (q : dataset_query) (pk n : Z) (f : dataset -> M catalogue response) :
  (forall d, steady R (f d)) -> steady R (locked_dataset users u q pk n f).
Proof. intros Hf. unfold locked_dataset. go. Qed.
Lemma steady_update_dataset (users : list user_row) (u : viewer) (actor : string) (q : dataset_query) (pk : Z) (partial : bool)
    (im : option string) (body : pyval) : steady R (update_dataset bus exception_text users u actor q pk partial im body).
Proof.
  unfold update_dataset. destruct (precondition _ _ _); [|auto with steady]. apply steady_locked_dataset. intros d. go.
Qed.
Lemma steady_destroy_dataset (users : list user_row) (u : viewer) (actor : string) (q : dataset_query) (pk : Z)
    (im : option string) : steady R (destroy_dataset bus exception_text users u actor q pk im).
Proof.
  unfold destroy_dataset. destruct (precondition _ _ _); [|auto with steady]. apply steady_locked_dataset. intros d. go.
Qed.

(** *** Autodiscovery *)
Lemma steady_rejecting (caught : pyexn -> bool) (report : DiscoveryReport) (m : M catalogue DiscoveryReport) :
  steady R m -> steady R (rejecting gettext caught report m).
Proof.
  intros Hm c x c' E. unfold rejecting in E. destruct (m c) as [[y|e] c1] eqn:Em.
  - injection E as _ <-. by eapply Hm.
  - destruct (caught e); injection E as _ <-; by eapply Hm.
Qed.
Lemma steady_update_or_create (make : Z -> module_row) : steady R (update_or_create_module next_pk make).
Proof.
  assert (forall i b, steady R (_ ← save_module i; mret (b : bool)) /\ steady R (_ ← insert_module i; mret (b : bool))) as K.
  { intros i b. unfold save_module, insert_module. split; go. }
  intros c x c' E. unfold update_or_create_module in E. destruct (List.find _ _) as [m|].
  - exact (proj1 (K _ _) _ _ _ E).
  - exact (proj2 (K _ _) _ _ _ E).
Qed.
Lemma steady_discover_module (report : DiscoveryReport) (file : string * string) :
  steady R (discover_module gettext next_pk report file).
Proof. unfold discover_module. apply steady_rejecting. go. apply steady_update_or_create. Qed.
Lemma steady_reconcile_tool (now : Z) (fields : string * string * string * bool) (members : list Z) :
  steady R (reconcile_tool next_pk now fields members).
Proof. destruct fields as [[[slug name] description] enabled]. unfold reconcile_tool, save_resource, insert_resource. go. Qed.
Lemma steady_reconcile_application (now : Z) (fields : string * string * string * bool) (members : list Z) :
  steady R (reconcile_application next_pk now fields members).
Proof.
  destruct fields as [[[slug name] description] enabled]. unfold reconcile_application. intros c.
  apply steady_at_bind; [exact _|apply steady_get, _|]. intros found c1 [= <- <-].
  destruct (find_slug slug (applications c)) as [r|] eqn:Er.
  - apply find_some in Er as [Er _]. apply list_elem_of_In in Er.
    apply steady_at_bind; [exact _| |intros _ c1 _; apply steady_ret, _].
    destruct (_ || _); [|apply steady_ret, _]. eapply steady_save_resource; [exact Er|]. apply with_revision_grows.
    by destruct (negb (same_members _ _)).
  - apply steady_at_bind; [exact _|apply steady_get, _|]. intros pk c1 [= <- <-].
    apply steady_at_bind; [exact _| |intros _ c1 _; apply steady_ret, _].
    intros x c' E. unfold insert_resource in E. destruct (resource_conflict _ _); injection E as _ <-; [done|].
    apply (R_insert HR); apply next_fresh.
Qed.
#[local] Opaque publish_immutable_version reconcile_tool reconcile_application.
Lemma steady_discover_resource (k : kind) (now : Z) (report : DiscoveryReport) (file : string * string) :
  steady R (discover_resource gettext next_pk k now report file).
Proof.
  unfold discover_resource, reconcile_resource, manifest_version. apply steady_rejecting. go.
  all: auto using steady_reconcile_tool, steady_reconcile_application, steady_publish_version.
Qed.
#[local] Transparent publish_immutable_version reconcile_tool reconcile_application.
Lemma steady_discover_all (step : DiscoveryReport -> string * string -> M catalogue DiscoveryReport)
    (files : list (string * string)) (report : DiscoveryReport) :
  (forall report file, steady R (step report file)) -> steady R (discover_all step report files).
Proof. intros Hs. revert report. induction files as [|f files IH]; intros report; cbn; go; auto. Qed.
Lemma steady_discover (tree : manifest_tree) (now : Z) : steady R (discover gettext next_pk tree now).
Proof.
  unfold discover. go; apply steady_discover_all; auto using steady_discover_module, steady_discover_resource.
Qed.
Lemma steady_autodiscover (tree : manifest_tree) (now : Z) :
  steady R (auto_discover_tools_and_applications gettext next_pk tree now).
Proof.
  unfold auto_discover_tools_and_applications. apply steady_atomic; [exact (R_log HR)|]. intros c x c' E.
  destruct (discover gettext next_pk tree now c) as [[report|e] c1] eqn:Ed; apply steady_discover in Ed; [|by injection E as _ <-].
  case_bool_decide; injection E as _ <-; [done|apply (R_log HR)].
Qed.

(** Every call respects the relation when new keys are fresh and deletions are allowed. *)
Definition admissible (x : call) (c : catalogue) : Prop :=
  match x with
  | CreateResource KApplication pk _ => pk ∉ map res_pk (applications c) /\ fresh pk
  | DestroyTool _ pk => deletable KTool pk
  | DestroyApplication _ pk _ => deletable KApplication pk
  | _ => True
  end.
Lemma steady_call (x : call) (c : catalogue) : admissible x c -> steady_at R c (answer_to x).
Proof.
  destruct x; cbn [admissible answer_to]; intros Hx.
  - apply steady_create_module.
  - apply steady_update_module.
  - apply steady_destroy_module.
  - destruct k; [apply steady_create_tool|destruct Hx; by apply steady_create_application].
  - apply steady_update_tool.
  - by apply steady_destroy_tool.
  - apply steady_tool_membership.
  - apply steady_tool_version.
  - apply steady_update_application.
  - by apply steady_destroy_application.
  - apply steady_membership.
  - apply steady_application_version.
  - apply steady_create_dataset.
  - apply steady_update_dataset.
  - apply steady_destroy_dataset.
  - revert c Hx. intros c _. revert c. apply steady_bind; [exact _|apply steady_autodiscover|intros; apply steady_ret, _].
Qed.
End Steady.

Fixpoint after (l : list call) (c : catalogue) : catalogue :=
  match l with [] => c | x :: l => after l (answer_to x c).2 end.
Fixpoint admissible_all (fresh : Z -> Prop) (deletable : kind -> Z -> Prop) (l : list call) (c : catalogue) : Prop :=
  match l with [] => True | x :: l => admissible fresh deletable x c /\ admissible_all fresh deletable l (answer_to x c).2 end.
Lemma steady_calls (R : relation catalogue) `{!PreOrder R} (fresh : Z -> Prop) (deletable : kind -> Z -> Prop)
    `{!ResourceLaws} (l : list call) (c : catalogue) :
  respected R fresh deletable -> (forall l, next_pk l ∉ l /\ fresh (next_pk l)) ->
  admissible_all fresh deletable l c -> R c (after l c).
Proof.
  intros HR Hnext. revert c. induction l as [|x l IH]; intros c; cbn; [done|]. intros [Hx Hl].
  transitivity (answer_to x c).2; [|by apply IH].
  destruct (answer_to x c) as [r c'] eqn:E. by eapply (steady_call R fresh deletable HR Hnext x c Hx).
Qed.
End Calls.
