(* ===== verification/CatalogSpec.v ===== *)
(** Properties of the catalogue: a published version never changes, an If-Match takes effect
    once, and what an ordinary reader sees of the datasets. *)

From stdpp Require Import gmap strings sorting.
From S2P Require Import Prelude PyValue Regex Sha256 PyFloat Json PyTime PyText Wire Url Release Gateway GatewayViews Catalog HostingViews Discovery CatalogFrame.
#[local] Open Scope list_scope.
#[local] Open Scope string_scope.
#[local] Open Scope Z_scope.

Section Claims.
Context `{UnicodeData} `{CaseFold} `{SlugOrder} `{Serializers}.
Variable bus : string -> attrs -> res unit.
Variable exception_text : pyexn -> string.
Variable gettext : string -> string.
Variable next_pk : list Z -> Z.
Notation answer_to := (answer_to bus exception_text gettext next_pk).
Notation after := (after bus exception_text gettext next_pk).
Notation admissible_all := (admissible_all bus exception_text gettext next_pk).

(** ** Versions *)
Lemma same_log (c : catalogue) : with_log (log c) c = c.
Proof. by destruct c. Qed.
Lemma publish_version_cases (k : kind) (pk : Z) (version notes source : string) (exp : option Z) (now : Z)
    (c c' : catalogue) (r : res VersionPublication) :
  publish_immutable_version k pk version notes source exp now c = (r, c') ->
  match r with
  | Raise _ => c' = c
  | Ok p =>
      v_notes (publication_version p) = notes /\ v_source (publication_version p) = source /\
      find_version pk version (versions_of k c') = Some (publication_version p) /\
      if publication_created p then
        exists locked, find_resource pk (resources k c) = Some locked /\
          (forall n, exp = Some n -> res_revision locked = Some n) /\
          find_version pk version (versions_of k c) = None /\ publication_resource p = released version now locked /\
          c' = with_resources k (put_resource (released version now locked) (resources k c))
                 (with_versions k (versions_of k c ++ [publication_version p])%list c)
      else c' = c /\ find_resource pk (resources k c) = Some (publication_resource p)
  end.
Proof.
  unfold publish_immutable_version, atomic. intros E.
  rewrite (M_bind_run _ _ c (find_resource pk (resources k c)) c) in E by done.
  destruct (find_resource pk (resources k c)) as [locked|] eqn:Ef; [|by injection E as <- <-; rewrite same_log].
  destruct (match exp with Some _ => _ | None => _ end) eqn:Eexp; [by injection E as <- <-; rewrite same_log|].
  rewrite (M_bind_run _ _ c c c) in E by done.
  destruct (match k with KTool => _ | KApplication => _ end) as [defaults|e]; [|by injection E as <- <-; rewrite same_log].
  rewrite (M_bind_run _ _ c defaults c) in E by done.
  destruct (find_version _ _ _) as [v|] eqn:Ev.
  - destruct (_ || _) eqn:Em; injection E as <- <-; [by rewrite same_log|].
    apply orb_false_iff in Em as [En Es]. apply negb_false_iff, String.eqb_eq in En, Es. done.
  - injection E as <- <-. do 2 (split; [done|]). split.
    + assert (forall v, v_resource v = pk -> v_version v = version ->
        find_version pk version (versions_of k c ++ [v])%list = Some v) as K.
      { intros v Hr Hv. unfold find_version in *. rewrite find_app, Ev. cbn. by rewrite Hr, Hv, Z.eqb_refl, String.eqb_refl. }
      destruct k; by apply K.
    + exists locked. split; [done|]. split; [|done]. intros n ->. by apply negb_false_iff, bool_decide_eq_true in Eexp.
Qed.

(** A version stays what it is unless its tool or application is deleted. *)
Definition keeps_version (k : kind) (pk : Z) (version : string) (row : version_row) (c c' : catalogue) : Prop :=
  find_version pk version (versions_of k c) = Some row -> find_version pk version (versions_of k c') = Some row.
#[export] Instance keeps_version_preorder k pk version row : PreOrder (keeps_version k pk version row).
Proof. split; unfold keeps_version; repeat intro; auto. Qed.
Lemma keeps_version_same (k : kind) (pk : Z) (version : string) (row : version_row) (c c' : catalogue) :
  versions_of k c' = versions_of k c -> keeps_version k pk version row c c'.
Proof. unfold keeps_version. by intros ->. Qed.
Lemma keeps_version_respected (k : kind) (pk : Z) (version : string) (row : version_row) :
  respected (keeps_version k pk version row) (fun _ => True) (fun k' pk' => k' = k -> pk' <> pk).
Proof.
  split; try (intros; apply keeps_version_same; by destruct k).
  - intros k' v c. destruct (decide (k' = k)) as [->|Hne]; [|apply keeps_version_same; by destruct k, k'].
    unfold keeps_version. intros Hf. destruct k; cbn; unfold find_version in *; cbn in Hf; by rewrite find_app, Hf.
  - intros k' pk' c Hd. destruct (decide (k' = k)) as [->|Hne]; [|apply keeps_version_same; by destruct k, k'].
    unfold keeps_version. intros Hf. rewrite <- Hf. destruct k; cbn; unfold find_version; apply find_filter;
      intros v [Hv _]%andb_true_iff; apply negb_true_iff, Z.eqb_neq; intros Hp; apply Hd; try done; lia.
Qed.

(** ** Revisions of an application *)
(** Keys of applications are unique. *)
Definition keyed (c : catalogue) : Prop := NoDup (map res_pk (applications c)).
(** The application is gone, or at a later revision. *)
Definition beyond (pk n : Z) (c : catalogue) : Prop :=
  forall r, find_resource pk (applications c) = Some r -> exists m, res_revision r = Some m /\ n < m.
Definition keeps_beyond (pk n : Z) (c c' : catalogue) : Prop := keyed c /\ beyond pk n c -> keyed c' /\ beyond pk n c'.
#[export] Instance keeps_beyond_preorder pk n : PreOrder (keeps_beyond pk n).
Proof. split; unfold keeps_beyond; repeat intro; auto. Qed.
Lemma keeps_beyond_same (pk n : Z) (c c' : catalogue) : applications c' = applications c -> keeps_beyond pk n c c'.
Proof. unfold keeps_beyond, keyed, beyond. by intros ->. Qed.

Lemma put_keys (r : resource) (l : list resource) : map res_pk (put_resource r l) = map res_pk l.
Proof.
  unfold put_resource. rewrite map_map. apply map_ext. intros x. by destruct (res_pk x =? res_pk r) eqn:E; [apply Z.eqb_eq in E|].
Qed.
Lemma find_unique (l : list resource) (r : resource) : NoDup (map res_pk l) -> r ∈ l -> find_resource (res_pk r) l = Some r.
Proof.
  unfold find_resource. induction l as [|x l IH]; [by intros _ []%not_elem_of_nil|]. cbn. intros [Hx Hl]%NoDup_cons Hr.
  apply elem_of_cons in Hr as [<-|Hr]; [by rewrite Z.eqb_refl|]. destruct (Z.eqb_spec (res_pk x) (res_pk r)) as [Heq|_]; [|auto].
  destruct Hx. rewrite Heq. by apply (list_elem_of_fmap_2 res_pk).
Qed.
Lemma filtered_keys (f : resource -> bool) (l : list resource) :
  NoDup (map res_pk l) -> NoDup (map res_pk (List.filter f l)).
Proof.
  induction l as [|x l IH]; [done|]. cbn. intros [Hx Hl]%NoDup_cons. specialize (IH Hl).
  destruct (f x); [|done]. cbn. apply NoDup_cons. split; [|done]. intros Hin. apply Hx.
  apply list_elem_of_In, in_map_iff in Hin as (y & Hy & Hin). apply list_elem_of_In, in_map_iff. exists y.
  split; [done|]. by apply filter_In in Hin as [Hin _].
Qed.

(** Keys stay unique. *)
Definition keeps_keyed (c c' : catalogue) : Prop := keyed c -> keyed c'.
#[export] Instance keeps_keyed_preorder : PreOrder keeps_keyed.
Proof. split; unfold keeps_keyed; repeat intro; auto. Qed.
Lemma keeps_keyed_respected : respected keeps_keyed (fun _ => True) (fun _ _ => True).
Proof.
  split; try (intros; intros Hk; exact Hk); unfold keeps_keyed, keyed; cbn.
  - intros r saved c _ _. by rewrite put_keys.
  - intros r c Hfresh _ Hk. rewrite map_app. apply NoDup_app. split; [done|]. split; [|apply NoDup_singleton].
    by intros x Hx ->%list_elem_of_singleton.
  - intros f c Hf Hk. rewrite map_map. erewrite map_ext; [exact Hk|]. intros r. apply Hf.
  - intros k pk' c _ Hk. destruct k; [done|]. by apply filtered_keys.
Qed.

Lemma keeps_beyond_put (pk n : Z) (r saved : resource) (c : catalogue) :
  r ∈ applications c -> grows r saved ->
  keeps_beyond pk n c (with_resources KApplication (put_resource saved (applications c)) c).
Proof.
  intros Hr Hgrows [Hk Hb]. split; [by apply (R_put _ _ _ keeps_keyed_respected r)|]. destruct Hgrows as [Hkey Hgrows]. intros x Hx.
  change (find_resource pk (put_resource saved (applications c)) = Some x) in Hx. rewrite find_put in Hx.
  destruct (decide (res_pk saved = pk)) as [Hpk|]; [|by apply Hb].
  rewrite <- Hpk, Hkey, find_unique in Hx by done. injection Hx as <-.
  destruct (Hb r) as (m & Hm & Hn); [rewrite <- Hpk, Hkey; by apply find_unique|].
  destruct (Hgrows m Hm) as (m' & Hm' & Hlt). exists m'. split; [done|lia].
Qed.
Lemma keeps_beyond_respected (pk n : Z) : respected (keeps_beyond pk n) (fun x => x <> pk) (fun _ _ => True).
Proof.
  split; try (intros; apply keeps_beyond_same; reflexivity).
  - intros r saved c. apply keeps_beyond_put.
  - intros r c Hfresh Hne [Hk Hb]. split; [by apply (R_insert _ _ _ keeps_keyed_respected)|].
    intros x Hx. cbn in Hx. unfold find_resource in Hx. rewrite find_app in Hx.
    destruct (List.find _ (applications c)) as [y|] eqn:Ey; [injection Hx as <-; by apply Hb|].
    cbn in Hx. apply Z.eqb_neq in Hne. by rewrite Hne in Hx.
  - intros f c Hf [Hk Hb]. split; [by apply (R_map _ _ _ keeps_keyed_respected)|].
    intros x Hx. change (find_resource pk (map f (applications c)) = Some x) in Hx.
    rewrite find_map_key in Hx by (intros; apply Hf).
    destruct (find_resource pk (applications c)) as [y|] eqn:Ey; [|done]. injection Hx as <-.
    destruct (Hb y Ey) as (m & Hm & Hn). exists m. by rewrite (proj2 (Hf y)).
  - intros k pk' c _ [Hk Hb]. split; [by apply (R_delete _ _ _ keeps_keyed_respected)|]. destruct k; [done|].
    intros x Hx. cbn in Hx. destruct (decide (pk' = pk)) as [->|Hne].
    + apply find_some in Hx as [Hx Hpk]. apply filter_In in Hx as [_ Hx]. apply Z.eqb_eq in Hpk. by rewrite Hpk, Z.eqb_refl in Hx.
    + apply Hb. rewrite <- Hx. symmetry. apply find_filter. intros y Hy. apply Z.eqb_eq in Hy. apply negb_true_iff, Z.eqb_neq. congruence.
Qed.

(** ** Conditional requests *)
(** A request on the application [pk] under an If-Match. *)
Definition conditional (pk : Z) (if_match : option string) (x : call) : Prop :=
  match x with
  | UpdateApplication _ _ pk' _ im _ | DestroyApplication _ pk' im | ApplicationMembership _ _ pk' _ im _
  | ApplicationVersion _ _ pk' im _ => pk' = pk /\ im = if_match
  | _ => False
  end.
(** The row was at the revision of the header, and is gone or later now; or it did not change. *)
Definition effect (pk : Z) (if_match : option string) (c c' : catalogue) : Prop :=
  find_resource pk (applications c') = find_resource pk (applications c) \/
  exists n r, _if_match_revision if_match = Ok (Some n) /\ find_resource pk (applications c) = Some r /\
    res_revision r = Some n /\ beyond pk n c'.
Lemma effect_same (pk : Z) (im : option string) (c c' : catalogue) : applications c' = applications c -> effect pk im c c'.
Proof. left. by f_equal. Qed.

Lemma precondition_inl (im : option string) (what : string) (n : Z) :
  precondition exception_text im what = inl n -> _if_match_revision im = Ok (Some n).
Proof. unfold precondition. destruct (_if_match_revision im) as [[m|]|e]; by intros [= ->]. Qed.
Lemma beyond_put (pk n : Z) (now : Z) (r x : resource) (l : list resource) (c' : catalogue) :
  applications c' = put_resource (with_revision (default 0 (res_revision r) + 1) now x) l ->
  res_pk x = pk -> res_revision r = Some n -> beyond pk n c'.
Proof.
  intros Ha Hx Hn y Hy. rewrite Ha, find_put in Hy. cbn [with_revision res_pk] in Hy. rewrite decide_True in Hy by done.
  destruct (find_resource pk l); [|done]. injection Hy as <-. exists (n + 1). cbn. rewrite Hn. cbn. split; [done|lia].
Qed.
Lemma queryset_find (q : resource_query) (c : catalogue) (pk : Z) (r : resource) :
  keyed c -> find_resource pk (resource_queryset KApplication q c) = Some r ->
  find_resource pk (applications c) = Some r /\ r ∈ applications c.
Proof.
  intros Hk Hr. pose proof (find_key _ _ _ Hr) as <-. apply found_In in Hr.
  unfold resource_queryset in Hr. apply list_elem_of_In, filter_In in Hr as [Hr _]. apply list_elem_of_In in Hr.
  split; [by apply find_unique|done].
Qed.
(** Under the lock the row has the revision of the header. *)
Lemma locked_effect (q : resource_query) (pk n : Z) (im : option string) (f : resource -> M catalogue response)
    (c c' : catalogue) (x : res response) :
  keyed c -> _if_match_revision im = Ok (Some n) ->
  (forall r y c', r ∈ applications c -> res_pk r = pk -> res_revision r = Some n -> f r c = (Ok y, c') ->
     applications c' = applications c \/ beyond pk n c') ->
  locked_application q pk n f c = (x, c') -> effect pk im c c'.
Proof.
  intros Hk Him Hf E. unfold locked_application, atomic in E.
  rewrite (M_bind_run _ _ c (find_resource pk (resource_queryset KApplication q c)) c) in E by done.
  destruct (find_resource _ _) as [r|] eqn:Er; [|injection E as _ <-; by apply effect_same].
  apply queryset_find in Er as [Er Hr]; [|done].
  destruct (negb _) eqn:En; [injection E as _ <-; by apply effect_same|]. apply negb_false_iff, bool_decide_eq_true in En.
  destruct (f r c) as [[y|e] c1] eqn:Ef; injection E as _ <-; [|by apply effect_same].
  destruct (Hf r y c1 Hr (find_key _ _ _ Er) En Ef) as [Ha|Hb]; [by apply effect_same|right]. by exists n, r.
Qed.
Lemma event_applications (k : string) (d : attrs) (c c' : catalogue) (r : res unit) :
  HostingViews.publish_event bus k d c = (r, c') -> applications c' = applications c.
Proof. by intros [= _ <-]. Qed.

Context `{!ResourceLaws}.
Lemma update_effect q now pk partial im body c x c' :
  keyed c -> update_application bus exception_text q now pk partial im body c = (x, c') -> effect pk im c c'.
Proof.
  intros Hk. unfold update_application. destruct (precondition _ _ _) as [n|] eqn:En; [|intros [= _ <-]; by apply effect_same].
  apply precondition_inl in En. apply locked_effect; [done..|]. intros r y c1 Hr Hpk Hn E. right.
  unfold mbind, M_bind in E. destruct (resource_update _ _ _ _ _) as [f|] eqn:Ef; [|done].
  unfold save_resource in E. destruct (resource_conflict _ _); [done|]. unfold HostingViews.publish_event in E.
  destruct (bus _ _); [|done]. injection E as _ <-. eapply beyond_put; [reflexivity| |exact Hn].
  rewrite <- Hpk. by eapply resource_update_key.
Qed.
Lemma destroy_effect q pk im c x c' :
  keyed c -> destroy_application bus exception_text q pk im c = (x, c') -> effect pk im c c'.
Proof.
  intros Hk. unfold destroy_application. destruct (precondition _ _ _) as [n|] eqn:En; [|intros [= _ <-]; by apply effect_same].
  apply precondition_inl in En. apply locked_effect; [done..|]. intros r y c1 Hr Hpk Hn E. right.
  unfold mbind, M_bind in E. destruct (existsb _ _); [done|]. unfold HostingViews.publish_event in E.
  destruct (bus _ _); [|done]. injection E as _ <-. intros z Hz. exfalso.
  apply find_some in Hz as [Hz Hzpk]. apply filter_In in Hz as [_ Hz]. by rewrite Hzpk in Hz.
Qed.
Lemma membership_effect q now pk attach im body c x c' :
  keyed c -> _update_module_membership bus exception_text q now pk attach im body c = (x, c') -> effect pk im c c'.
Proof.
  intros Hk. unfold _update_module_membership, mbind at 1, M_bind at 1.
  destruct (attached_module _ _) as [module|]; [|intros [= _ <-]; by apply effect_same].
  destruct (precondition _ _ _) as [n|] eqn:En; [|intros [= _ <-]; by apply effect_same].
  apply precondition_inl in En. apply locked_effect; [done..|]. intros r y c1 Hr Hpk Hn E.
  destruct (_ || _) in E; [right|left; by injection E as _ <-].
  unfold mbind, M_bind, modify in E. unfold HostingViews.publish_event in E.
  destruct (bus _ _); [|done]. injection E as _ <-. eapply beyond_put; [reflexivity| |exact Hn]. done.
Qed.
Lemma version_effect q now pk im body c x c' :
  keyed c -> post_application_version bus exception_text q now pk im body c = (x, c') -> effect pk im c c'.
Proof.
  intros Hk E. unfold post_application_version in E.
  rewrite (M_bind_run _ _ c (find_resource pk (resource_queryset KApplication q c)) c) in E by done.
  destruct (find_resource _ _) as [r|] eqn:Er; [|injection E as _ <-; by apply effect_same].
  destruct (precondition _ _ _) as [n|] eqn:En; [|injection E as _ <-; by apply effect_same].
  apply precondition_inl in En.
  destruct (version_data body) as [[[version notes] source]|e]; [|injection E as _ <-; by apply effect_same].
  rewrite (M_bind_run _ _ c (version, notes, source) c) in E by done. cbn beta match in E.
  unfold mbind, M_bind, publish_version in E.
  destruct (publish_immutable_version _ _ _ _ _ _ _ _) as [[p|e] c1] eqn:Ep; apply publish_version_cases in Ep.
  - destruct Ep as (_ & _ & _ & Ep). destruct (publication_created p).
    + destruct Ep as (locked & Hl & Hrev & _ & _ & ->). change (find_resource pk (applications c) = Some locked) in Hl. right. exists n, locked. do 2 (split; [done|]). specialize (Hrev n eq_refl).
      split; [done|]. assert (applications c' = put_resource (released version now locked) (applications c)) as Ha.
      { destruct (HostingViews.publish_event _ _ _ _) as [[[]|e] c2] eqn:Eb; apply event_applications in Eb; injection E as _ <-; by rewrite Eb. }
      intros y Hy. rewrite Ha, find_put in Hy. rewrite decide_True in Hy by by apply find_key in Hl.
      rewrite Hl in Hy. injection Hy as <-. exists (n + 1). cbn. rewrite Hrev. split; [done|lia].
    + destruct Ep as [-> _]. injection E as _ <-. by apply effect_same.
  - subst c1. apply effect_same. destruct e; try (by injection E as _ <-). destruct (find_resource _ _) in E; by injection E as _ <-.
Qed.
Lemma conditional_effect (pk : Z) (im : option string) (y : call) (c : catalogue) :
  keyed c -> conditional pk im y -> effect pk im c (answer_to y c).2.
Proof.
  intros Hk. destruct (answer_to y c) as [x c'] eqn:E. destruct y; cbn [conditional answer_to snd] in *; try done; intros [-> ->].
  - by eapply update_effect.
  - by eapply destroy_effect.
  - by eapply membership_effect.
  - by eapply version_effect.
Qed.

(** C22: a published version is immutable.  Once a version of a tool or application is
    published, or replayed, then whatever calls follow (short of deleting that tool or
    application; autodiscovery included) the row is found unchanged; and any later publication
    under the same number changes nothing at all: it returns the same row, as not created, and
    only for the same notes and source. *)
Theorem published_version_immutable (k : kind) (pk : Z) (version notes source : string) (exp : option Z) (now : Z)
    (c c1 : catalogue) (p : VersionPublication) (l : list call) :
  publish_immutable_version k pk version notes source exp now c = (Ok p, c1) ->
  (forall l, next_pk l ∉ l) -> admissible_all (fun _ => True) (fun k' pk' => k' = k -> pk' <> pk) l c1 ->
  find_version pk version (versions_of k (after l c1)) = Some (publication_version p) /\
  v_notes (publication_version p) = notes /\ v_source (publication_version p) = source /\
  forall notes' source' exp' now' r c3,
    publish_immutable_version k pk version notes' source' exp' now' (after l c1) = (r, c3) ->
    c3 = after l c1 /\
    forall p', r = Ok p' -> publication_created p' = false /\ publication_version p' = publication_version p /\
      notes' = notes /\ source' = source.
Proof.
  intros E Hnext Hl. apply publish_version_cases in E as (Hn & Hs & Hf & _).
  assert (keeps_version k pk version (publication_version p) c1 (after l c1)) as Hkeep.
  { eapply steady_calls; [exact _|exact _|apply keeps_version_respected| |exact Hl]. intros l'. split; [apply Hnext|done]. }
  specialize (Hkeep Hf). split; [done|]. do 2 (split; [done|]). intros notes' source' exp' now' r c3 E'.
  apply publish_version_cases in E'. destruct r as [p'|e]; [|split; [done|by intros]].
  destruct E' as (Hn' & Hs' & Hf' & E'). destruct (publication_created p') eqn:Ec.
  - destruct E' as (_ & _ & _ & Hnone & _). by rewrite Hkeep in Hnone.
  - destruct E' as [-> _]. split; [done|]. intros x [= <-]. rewrite Hkeep in Hf'. injection Hf' as Hv.
    split; [done|]. split; [done|]. split; congruence.
Qed.

(** An If-Match takes effect once.  When a request on an application (an update, a
    deletion, a change of membership, a release) has changed its row, then whatever happens in
    between, another request with the same If-Match leaves the row as it finds it: a client
    that did not see a change cannot overwrite it. *)
Theorem if_match_takes_effect_once (pk : Z) (if_match : option string) (x y : call) (c : catalogue) (l : list call) :
  conditional pk if_match x -> conditional pk if_match y -> keyed c ->
  (forall l, next_pk l ∉ l /\ next_pk l <> pk) ->
  admissible_all (fun n => n <> pk) (fun _ _ => True) (x :: l) c ->
  find_resource pk (applications (answer_to x c).2) <> find_resource pk (applications c) ->
  find_resource pk (applications (answer_to y (after (x :: l) c)).2) = find_resource pk (applications (after (x :: l) c)).
Proof.
  intros Hx Hy Hk Hnext Hl Hne. cbn [CatalogFrame.after] in *. set (c1 := (answer_to x c).2) in *.
  destruct Hl as [Hax Hl].
  destruct (conditional_effect pk if_match x c Hk Hx) as [|(n & r & Him & _ & _ & Hb)]; [done|]. fold c1 in Hb.
  assert (keyed c1) as Hk1.
  { assert (keeps_keyed c (after [x] c)) as K; [|exact (K Hk)].
    eapply steady_calls; [exact _|exact _|apply keeps_keyed_respected| |].
    - intros l'. split; [apply Hnext|done].
    - split; [|done]. by destruct x. }
  assert (keeps_beyond pk n c1 (after l c1)) as Hkeep.
  { eapply steady_calls; [exact _|exact _|apply keeps_beyond_respected|exact Hnext|exact Hl]. }
  destruct (Hkeep (conj Hk1 Hb)) as [Hk2 Hb2].
  destruct (conditional_effect pk if_match y (after l c1) Hk2 Hy) as [|(n' & r' & Him' & Hr' & Hn' & _)]; [done|].
  rewrite Him in Him'. injection Him' as <-. destruct (Hb2 _ Hr') as (m & Hm & Hlt). rewrite Hn' in Hm. injection Hm as <-. lia.
Qed.
End Claims.

(** ** Datasets *)
Section Acl.
Context `{UnicodeData} `{CaseFold} (users : list user_row) (u : viewer).
(** What an access list says about the viewer: its own key and its own groups. *)
Definition own_user (pk : Z) : bool := from_option (fun x => pk =? u_pk x) false (acl_user users u).
Definition own_group (g : Z * string) : bool :=
  from_option (fun x => existsb (Z.eqb g.1) (u_groups x)) false (acl_user users u) ||
  mem g.2 (List.filter (fun g => negb (String.eqb (py_strip g) "")) (oidc_groups u)).
Definition redact (d : dataset) : dataset :=
  {| ds_pk := ds_pk d; ds_name := ds_name d; ds_slug := ds_slug d; ds_modules := ds_modules d;
     ds_users := List.filter own_user (ds_users d); ds_groups := List.filter own_group (ds_groups d);
     ds_enabled := ds_enabled d; ds_revision := ds_revision d |}.

Lemma existsb_filter {A} (f g : A -> bool) (l : list A) :
  (forall x, f x = true -> g x = true) -> existsb f (List.filter g l) = existsb f l.
Proof.
  intros Hfg. induction l as [|x l IH]; [done|]. cbn. destruct (g x) eqn:Eg; cbn; [by rewrite IH|].
  destruct (f x) eqn:Ef; [|done]. by rewrite Hfg in Eg.
Qed.
Lemma visible_redact (d : dataset) : is_staff u = false -> dataset_visible users u (redact d) = dataset_visible users u d.
Proof.
  intros Hs. unfold dataset_visible. rewrite Hs. cbn [redact ds_enabled ds_users ds_groups]. f_equal. f_equal.
  - destruct (acl_user users u) as [x|] eqn:Ex; [|done]. cbn. unfold granted_to_user. cbn [redact ds_users ds_groups]. f_equal.
    + apply existsb_filter. intros pk Hpk. unfold own_user. rewrite Ex. cbn. by rewrite Z.eqb_sym.
    + apply existsb_filter. intros g Hg. unfold own_group. rewrite Ex. cbn. by rewrite Hg.
  - apply existsb_filter. intros g Hg. unfold own_group. by rewrite Hg, orb_true_r.
Qed.

(** An ordinary reader learns nothing about the access of others.  For a viewer who is not
    staff, what a request for datasets returns depends on the access lists only through the
    viewer's own entries, and on the query only through its other filters: two catalogues that
    differ in nothing but the grants of others give the same rows, whatever users and groups
    the requests filter on.  (The search does not look at access lists.) *)
Theorem acl_hidden_from_readers (q q' : dataset_query) (c c' : catalogue) :
  is_staff u = false -> module_rows c' = module_rows c -> map redact (datasets c') = map redact (datasets c) ->
  dq_enabled q' = dq_enabled q -> dq_module_slug q' = dq_module_slug q ->
  (forall d, dq_search q' d = dq_search q d /\ dq_search q (redact d) = dq_search q d) ->
  map redact (dataset_queryset users u q' c') = map redact (dataset_queryset users u q c).
Proof.
  intros Hs Hm Hd He Hslug Hsearch. unfold dataset_queryset. rewrite He, Hslug, Hs.
  set (keep := fun (c : catalogue) d => dataset_visible users u d && from_option (fun v => Bool.eqb (ds_enabled d) (_query_bool v)) true (dq_enabled q) &&
    from_option (has_module_slug c (ds_modules d)) true (given (dq_module_slug q)) && true && dq_search q d).
  assert (forall c l, map redact (List.filter (keep c) l) = List.filter (keep c) (map redact l)) as K.
  { intros c0 l. induction l as [|d l IH]; [done|]. cbn.
    assert (keep c0 (redact d) = keep c0 d) as -> by (unfold keep; by rewrite visible_redact, (proj2 (Hsearch d))).
    destruct (keep c0 d); cbn; by rewrite IH. }
  assert (forall l, List.filter (keep c') l = List.filter (keep c) l) as Kc.
  { intros l. apply filter_ext. intros d. unfold keep, has_module_slug. by rewrite Hm. }
  transitivity (map redact (List.filter (keep c') (datasets c'))).
  - f_equal. apply filter_ext. intros d. unfold keep. by rewrite (proj1 (Hsearch d)).
  - rewrite K, Kc, Hd, <- K. done.
Qed.
End Acl.

(** ** Examples *)
Module SampleCatalog.
#[export] Existing Instance ascii_unicode.
#[export] Existing Instance ascii_fold.
#[export] Instance slug_order : SlugOrder := String.leb.
Definition unsupported {A} : res A := Raise (ValidationError "unsupported").
(** Serializers that take the description, the attached module and the fields of a version. *)
Definition set_description (text : string) (r : resource) : resource :=
  {| res_pk := res_pk r; res_name := res_name r; res_slug := res_slug r; res_description := text; res_modules := res_modules r;
     res_current_version := res_current_version r; res_released_at := res_released_at r; res_enabled := res_enabled r;
     res_revision := res_revision r; res_updated_at := res_updated_at r |}.
Definition text_of (k : string) (body : pyval) : res string :=
  match body with PDict d => match vget k d with PStr t => Ok t | _ => unsupported end | _ => unsupported end.
#[export] Instance serializers : Serializers := {
  module_create rows body := unsupported;
  module_update rows m partial body := unsupported;
  resource_create k c body := text ← text_of "slug" body; Ok (fun pk => new_resource k pk text text "" true 0);
  resource_update k c r partial body := text ← text_of "description" body; Ok (set_description text);
  dataset_create c body := unsupported;
  dataset_update c d partial body := unsupported;
  attached_module c body := match module_rows c with m :: _ => Ok m | [] => unsupported end;
  version_fields body := version ← text_of "version" body; Ok (version, "", "manual");
  module_json m := PNone;
  resource_json k c r := [];
  dataset_json d := [];
  version_json v := []
}.
#[export] Instance resource_laws : ResourceLaws.
Proof.
  split; cbn [resource_create resource_update serializers].
  - intros k c body make pk E. apply bind_Ok in E as (text & _ & E). by injection E as <-.
  - intros k c r partial body f E. apply bind_Ok in E as (text & _ & E). by injection E as <-.
Qed.
Definition bus (event : string) (d : attrs) : res unit := Ok tt.
(** Keys from 2 on, each larger than all in use. *)
Definition next_pk (l : list Z) : Z := fold_right Z.max 1 l + 1.
Lemma next_pk_above (l : list Z) (x : Z) : x ∈ l -> x < next_pk l.
Proof.
  unfold next_pk. induction l as [|y l IH]; [by intros []%not_elem_of_nil|]. cbn. intros [->|Hx]%elem_of_cons; [lia|].
  specialize (IH Hx). lia.
Qed.
Lemma next_pk_fresh (l : list Z) : next_pk l ∉ l /\ next_pk l <> 1.
Proof.
  split; [intros Hin%next_pk_above; lia|]. unfold next_pk. assert (1 <= fold_right Z.max 1 l); [|lia].
  induction l as [|y l IH]; cbn; lia.
Qed.

Definition probe : resource := new_resource KTool 1 "Probe" "probe" "" true 0.
Definition shop : resource := new_resource KApplication 1 "Shop" "shop" "" true 0.
Definition catalogue0 : catalogue := {|
  module_rows := []; profiles := []; tools := [probe]; applications := [shop]; tool_versions := [];
  application_versions := []; datasets := []; referenced := []; log := [] |}.
Definition everything : resource_query := {|
  rq_enabled := None; rq_module_slug := None; rq_current_version := None; rq_search := fun _ => true |}.
Notation after := (CatalogFrame.after bus (fun _ => "") (fun t => t) next_pk).
Notation run x c := (CatalogFrame.answer_to bus (fun _ => "") (fun t => t) next_pk x c).
Notation publish notes c := (publish_immutable_version KTool 1 "1.0.0" notes "manual" None 5 c).
Definition publication : VersionPublication := Eval vm_compute in
  match (publish "first" catalogue0).1 with
  | Ok p => p
  | Raise _ => {| publication_resource := probe; publication_created := false;
                  publication_version := {| v_resource := 0; v_version := ""; v_notes := ""; v_source := ""; v_snapshot := PNone; v_digest := "" |} |}
  end.
Definition catalogue1 : catalogue := Eval vm_compute in (publish "first" catalogue0).2.
Definition probe_manifest : string :=
  dumps (PDict [("slug", PStr "probe"); ("name", PStr "Probe"); ("version", PStr "v2.0.0")]).
Definition tree : manifest_tree := {|
  module_manifest_files := []; tool_manifest_files := [("probe.json", probe_manifest)]; application_manifest_files := [] |}.
Definition body (k v : string) : pyval := PDict [(k, PStr v)].
Definition calls : list call :=
  [UpdateTool everything 6 1 true (body "description" "a probe"); Autodiscover tree 7;
   ToolVersion everything 8 1 (body "version" "3.0.0"); CreateResource KApplication 2 (body "slug" "mill")].
Definition revision1 : option string := Some (_revision_etag 1).
Definition describe : call := UpdateApplication everything 6 1 true revision1 (body "description" "a shop").
Definition overwrite : call := UpdateApplication everything 9 1 true revision1 (body "description" "a stall").

(** A reader of the group staff of key 7. *)
Definition reader : viewer := {| is_staff := false; viewer_pk := Some 3; acl_username := "ada"; oidc_groups := ["ops"] |}.
Definition ada : user_row := {| u_pk := 3; u_username := "ada"; u_active := true; u_superuser := false; u_groups := [7] |}.
Definition readings (users : list Z) (groups : list (Z * string)) : dataset := {|
  ds_pk := 1; ds_name := "Readings"; ds_slug := "readings"; ds_modules := []; ds_users := users; ds_groups := groups;
  ds_enabled := true; ds_revision := 1 |}.
Definition with_readings (users : list Z) (groups : list (Z * string)) : catalogue :=
  with_datasets [readings users groups] catalogue0.
Definition by_user (pk : option Z) : dataset_query := {|
  dq_enabled := None; dq_module_slug := None; dq_user_id := pk; dq_group_id := None; dq_search := fun _ => true |}.
End SampleCatalog.

Import SampleCatalog.
Lemma published_version_immutable_witness :
  publication_created publication = true /\
  find_version 1 "1.0.0" (tool_versions (after calls catalogue1)) = Some (publication_version publication) /\
  length (tool_versions (after calls catalogue1)) = 3%nat /\
  forall notes' source' exp' now' r c3,
    publish_immutable_version KTool 1 "1.0.0" notes' source' exp' now' (after calls catalogue1) = (r, c3) ->
    c3 = after calls catalogue1.
Proof.
  destruct (published_version_immutable SampleCatalog.bus (fun _ => "") (fun t => t) next_pk KTool 1 "1.0.0" "first" "manual" None 5
    catalogue0 catalogue1 publication calls) as (Hf & _ & _ & Hagain).
  - vm_compute. reflexivity.
  - intros l. apply next_pk_fresh.
  - cbn [CatalogFrame.admissible_all calls admissible]. repeat (split; [exact I|]). split; [|exact I]. split; [|exact I].
    vm_compute. intros E. inversion E as [|? ? ? E']. inversion E'.
  - split; [reflexivity|]. split; [exact Hf|]. split; [reflexivity|]. intros notes' source' exp' now' r c3 E.
    exact (proj1 (Hagain notes' source' exp' now' r c3 E)).
Defined.

Lemma if_match_takes_effect_once_witness :
  find_resource 1 (applications (run describe catalogue0).2) <> find_resource 1 (applications catalogue0) /\
  find_resource 1 (applications (run overwrite (after (describe :: calls) catalogue0)).2) =
    find_resource 1 (applications (after (describe :: calls) catalogue0)).
Proof.
  assert (find_resource 1 (applications (run describe catalogue0).2) <> find_resource 1 (applications catalogue0)) as Hne
    by (intros E; discriminate (f_equal (fun r => from_option res_description "" r) E)).
  split; [exact Hne|].
  apply (if_match_takes_effect_once SampleCatalog.bus (fun _ => "") (fun t => t) next_pk 1 revision1 describe overwrite catalogue0 calls).
  - split; reflexivity.
  - split; reflexivity.
  - apply NoDup_singleton.
  - exact next_pk_fresh.
  - cbn [CatalogFrame.admissible_all calls admissible describe]. repeat (split; [exact I|]). split; [|exact I]. split; [|lia].
    vm_compute. intros E. inversion E as [|? ? ? E']. inversion E'.
  - exact Hne.
Defined.

Lemma acl_hidden_from_readers_witness :
  length (dataset_queryset [ada] reader (by_user (Some 4)) (with_readings [4; 3] [(7, "staff"); (8, "board")])) = 1%nat /\
  map (redact [ada] reader) (dataset_queryset [ada] reader (by_user (Some 4)) (with_readings [4; 3] [(7, "staff"); (8, "board")])) =
  map (redact [ada] reader) (dataset_queryset [ada] reader (by_user None) (with_readings [3] [(7, "staff"); (9, "guests")])).
Proof.
  split; [reflexivity|].
  apply (acl_hidden_from_readers [ada] reader (by_user None) (by_user (Some 4)) (with_readings [3] [(7, "staff"); (9, "guests")])
           (with_readings [4; 3] [(7, "staff"); (8, "board")])); try reflexivity.
  intros d. split; reflexivity.
Defined.
