(* ===== verification/DiscoverySpec.v ===== *)
(** Properties of autodiscovery: it is all or nothing, and its report counts what it did. *)

From stdpp Require Import gmap strings sorting.
From S2P Require Import Prelude PyValue Regex Sha256 PyFloat Json PyTime PyText Wire Url Release Gateway GatewayViews Catalog HostingViews Discovery CatalogFrame CatalogSpec.
#[local] Open Scope list_scope.
#[local] Open Scope string_scope.
#[local] Open Scope Z_scope.

Section Claims.
Context `{UnicodeData} `{SlugOrder}.
Variable gettext : string -> string.
Variable next_pk : list Z -> Z.

(** ** Autodiscovery *)
(** The table a counter counts: its rows, and what a report says was created and handled. *)
Definition rows_of (x : counter) (c : catalogue) : Z :=
  Z.of_nat match x with
           | CModule => length (module_rows c)
           | CTool => length (tools c)
           | CApplication => length (applications c)
           | CVersion k => length (versions_of k c)
           end.
Definition created_of (x : counter) (r : DiscoveryReport) : Z :=
  match x with
  | CModule => modules_created r
  | CTool => tools_created r
  | CApplication => applications_created r
  | CVersion KTool => tool_versions_created r
  | CVersion KApplication => application_versions_created r
  end.
Definition handled_of (x : counter) (r : DiscoveryReport) : Z :=
  match x with
  | CModule => modules_created r + modules_updated r
  | CTool => tools_created r + tools_updated r
  | CApplication => applications_created r + applications_updated r
  | CVersion _ => 0
  end.
Definition one (b : bool) : Z := if b then 1 else 0.
Definition resource_counter (k : kind) : counter := match k with KTool => CTool | KApplication => CApplication end.
Definition is_version (x : counter) : bool := match x with CVersion _ => true | _ => false end.
(** One table grew by one row, or none did. *)
Definition grew (x : counter) (b : bool) (c c' : catalogue) : Prop :=
  forall y, rows_of y c' = rows_of y c + one (b && bool_decide (y = x)).
Lemma grew_same (x : counter) (c c' : catalogue) : (forall y, rows_of y c' = rows_of y c) -> grew x false c c'.
Proof. intros E y. rewrite E. cbn. lia. Qed.
Lemma created_count (x y : counter) (b : bool) (r : DiscoveryReport) :
  created_of y (count x b r) = created_of y r + one (b && bool_decide (y = x)).
Proof. destruct b, x as [| | |[]], y as [| | |[]]; reflexivity. Qed.
Lemma handled_count (x y : counter) (b : bool) (r : DiscoveryReport) :
  is_version x = false -> handled_of y (count x b r) = handled_of y r + one (bool_decide (y = x)).
Proof. intros Hx. by destruct b, x as [| | |[]], y as [| | |[]]; try done; cbn; case_bool_decide; cbn; try congruence; lia. Qed.
Lemma handled_version (k : kind) (y : counter) (b : bool) (r : DiscoveryReport) :
  handled_of y (count (CVersion k) b r) = handled_of y r.
Proof. destruct b, k, y as [| | |[]]; cbn; lia. Qed.

Ltac sizes :=
  unfold rows_of, one, put_module, put_resource; cbn; rewrite ?length_map, ?length_app; try case_bool_decide; cbn in *; try congruence; lia.
Lemma update_or_create_grew (make : Z -> module_row) (c c' : catalogue) (b : bool) :
  update_or_create_module next_pk make c = (Ok b, c') -> grew CModule b c c'.
Proof.
  unfold update_or_create_module, save_module, insert_module, mbind, M_bind.
  destruct (List.find _ _) as [m|]; destruct (module_conflict _ _); intros [= <- <-]; intros y.
  - destruct y as [| | |[]]; sizes.
  - destruct y as [| | |[]]; sizes.
Qed.
Lemma with_resources_grew (k : kind) (b : bool) (l : list resource) (c : catalogue) :
  Z.of_nat (length l) = Z.of_nat (length (resources k c)) + one b -> grew (resource_counter k) b c (with_resources k l c).
Proof. intros Hl y. destruct k, y as [| | |[]], b; sizes. Qed.
Lemma grew_trans_same (x : counter) (b : bool) (c c1 c2 : catalogue) : grew x false c c1 -> grew x b c1 c2 -> grew x b c c2.
Proof. intros Ha Hb y. rewrite Hb, Ha. cbn. lia. Qed.
Lemma length_put (r : resource) (l : list resource) : length (put_resource r l) = length l.
Proof. apply length_map. Qed.
Lemma save_grew (k : kind) (r : resource) (c c' : catalogue) (u : unit) :
  save_resource k r c = (Ok u, c') -> grew (resource_counter k) false c c'.
Proof.
  unfold save_resource. destruct (resource_conflict _ _); intros [= _ <-]. apply with_resources_grew. rewrite length_put. cbn. lia.
Qed.
Lemma insert_grew (k : kind) (r : resource) (c c' : catalogue) (u : unit) :
  insert_resource k r c = (Ok u, c') -> grew (resource_counter k) true c c'.
Proof.
  unfold insert_resource. destruct (resource_conflict _ _); intros [= _ <-]. apply with_resources_grew. rewrite length_app. cbn. lia.
Qed.
Lemma reconcile_tool_grew (now : Z) fields (members : list Z) (c c' : catalogue) (pk : Z) (b : bool) :
  reconcile_tool next_pk now fields members c = (Ok (pk, b), c') -> grew CTool b c c'.
Proof.
  destruct fields as [[[slug name] description] enabled]. unfold reconcile_tool, get, modify, mbind, M_bind.
  destruct (find_slug slug (tools c)) as [r|].
  - destruct (save_resource _ _ _) as [[u|] c1] eqn:Es; [|done]. intros [= <- <- <-]. apply save_grew in Es.
    eapply grew_trans_same; [exact Es|]. apply (with_resources_grew KTool). rewrite length_put. cbn. lia.
  - destruct (insert_resource _ _ _) as [[u|] c1] eqn:Es; [|done]. intros [= <- <- <-]. by apply insert_grew in Es.
Qed.
Lemma reconcile_application_grew (now : Z) fields (members : list Z) (c c' : catalogue) (pk : Z) (b : bool) :
  reconcile_application next_pk now fields members c = (Ok (pk, b), c') -> grew CApplication b c c'.
Proof.
  destruct fields as [[[slug name] description] enabled]. unfold reconcile_application, get, mbind, M_bind.
  destruct (find_slug slug (applications c)) as [r|].
  - destruct (_ || _) in |- *; [|intros [= <- <- <-]; by apply grew_same].
    destruct (save_resource _ _ _) as [[u|] c1] eqn:Es; [|done]. intros [= <- <- <-]. by apply save_grew in Es.
  - destruct (insert_resource _ _ _) as [[u|] c1] eqn:Es; [|done]. intros [= <- <- <-]. by apply insert_grew in Es.
Qed.
Lemma publish_grew (k : kind) (pk : Z) (version notes source : string) (exp : option Z) (now : Z) (c c' : catalogue) p :
  publish_immutable_version k pk version notes source exp now c = (Ok p, c') -> grew (CVersion k) (publication_created p) c c'.
Proof.
  intros E. apply publish_version_cases in E as (_ & _ & _ & E). destruct (publication_created p).
  - destruct E as (locked & _ & _ & _ & _ & ->). intros y.
    destruct k, y as [| | |[]]; sizes.
  - destruct E as [-> _]. by apply grew_same.
Qed.

(** A run of steps without an error: each table grew by what the report says was created, and
    [n] manifests of the kind were handled. *)
Definition accounted (x : counter) (n : Z) (c c' : catalogue) (r r' : DiscoveryReport) : Prop :=
  errors r' = [] -> errors r = [] /\ rolled_back r' = rolled_back r /\ forall y,
    rows_of y c' - rows_of y c = created_of y r' - created_of y r /\
    handled_of y r' = handled_of y r + (if bool_decide (y = x) then n else 0).
Lemma add_error_errors (r : DiscoveryReport) : errors (add_error gettext r) <> [].
Proof. cbn. by destruct (errors r). Qed.
Lemma accounted_rejecting (x : counter) (n : Z) (caught : pyexn -> bool) (m : M catalogue DiscoveryReport)
    (c c' : catalogue) (r r' : DiscoveryReport) :
  rejecting gettext caught r m c = (Ok r', c') ->
  (forall c1 r1, m c = (Ok r1, c1) -> accounted x n c c1 r r1) -> accounted x n c c' r r'.
Proof.
  unfold rejecting. destruct (m c) as [[r1|e] c1] eqn:Em.
  - intros [= <- <-] Hm. by apply Hm.
  - destruct (caught e); [|done]. intros [= <- <-] _ Hr. by destruct (add_error_errors r).
Qed.
Lemma errors_count (x : counter) (b : bool) (r : DiscoveryReport) : errors (count x b r) = errors r.
Proof. done. Qed.
Lemma discover_module_accounted (r r' : DiscoveryReport) (file : string * string) (c c' : catalogue) :
  discover_module gettext next_pk r file c = (Ok r', c') -> accounted CModule 1 c c' r r'.
Proof.
  intros E. eapply accounted_rejecting; [exact E|]. clear E. intros c1 r1 E.
  unfold mbind, M_bind, lift in E. destruct (_read_manifest _ _) as [payload|]; [|done].
  destruct (module_of payload) as [make|]; [|done].
  destruct (update_or_create_module _ _ _) as [[b|] c2] eqn:Eu; [|done]. injection E as <- <-.
  apply update_or_create_grew in Eu. intros Hr. do 2 (split; [done|]). intros y. rewrite Eu, created_count, handled_count by done.
  split; [lia|]. unfold one. lia.
Qed.
Lemma reconcile_grew (k : kind) (now : Z) fields (members : list Z) (c c' : catalogue) (row : Z * bool) :
  reconcile_resource next_pk k now fields members c = (Ok row, c') -> grew (resource_counter k) row.2 c c'.
Proof. destruct row as [pk b], k; [apply reconcile_tool_grew|apply reconcile_application_grew]. Qed.
Lemma manifest_version_grew (k : kind) (now pk : Z) (payload : attrs) (r r' : DiscoveryReport) (c c' : catalogue) :
  manifest_version k now pk payload r c = (Ok r', c') ->
  exists b, grew (CVersion k) b c c' /\ errors r' = errors r /\ rolled_back r' = rolled_back r /\
    forall y, created_of y r' = created_of y r + one (b && bool_decide (y = CVersion k)) /\ handled_of y r' = handled_of y r.
Proof.
  assert (forall k b (r0 : DiscoveryReport) y, created_of y (count (CVersion k) b r0) = created_of y r0 + one (b && bool_decide (y = CVersion k)) /\
    handled_of y (count (CVersion k) b r0) = handled_of y r0) as K by (intros; split; [apply created_count|apply handled_version]).
  unfold manifest_version. destruct (truthy _).
  - unfold mbind, M_bind, lift. destruct (py_str _) as [version|]; [|done]. destruct (text _ _ _) as [notes|]; [|done].
    destruct (publish_immutable_version _ _ _ _ _ _ _ _) as [[p|] c1] eqn:Ep; [|done]. intros [= <- <-].
    apply publish_grew in Ep. exists (publication_created p). split; [done|].
    destruct (publication_created p); [do 2 (split; [done|]); apply K|]. do 2 (split; [done|]). intros y. cbn. lia.
  - intros [= <- <-]. exists false. split; [by apply grew_same|]. do 2 (split; [done|]). intros y. cbn. lia.
Qed.
Lemma discover_resource_accounted (k : kind) (now : Z) (r r' : DiscoveryReport) (file : string * string) (c c' : catalogue) :
  discover_resource gettext next_pk k now r file c = (Ok r', c') -> accounted (resource_counter k) 1 c c' r r'.
Proof.
  intros E. eapply accounted_rejecting; [exact E|]. clear E. intros c1 r1 E.
  unfold mbind, M_bind, lift, get, mret, M_ret in E. destruct (_read_manifest _ _) as [payload|]; [|done].
  destruct (_extract_modules _ _) as [found|]; [|done]. destruct (resource_fields payload) as [fields|]; [|done].
  destruct (reconcile_resource _ _ _ _ _ _) as [[row|] c2] eqn:Erow; [|done]. apply reconcile_grew in Erow.
  destruct (manifest_version _ _ _ _ _ _) as [[r2|] c3] eqn:Ever; [|done].
  apply manifest_version_grew in Ever as (b & Hv & Herr & Hflag & Hr2). injection E as <- <-. intros Hr.
  case_bool_decide; [|by destruct (add_error_errors _ Hr)].
  fold (resource_counter k) in *. rewrite errors_count, Herr in Hr. do 2 (split; [done|]). intros y. destruct (Hr2 y) as [Hc Hh].
  rewrite created_count, handled_count, Hc, Hh, Hv, Erow by by destruct k. split; [lia|]. unfold one. lia.
Qed.
Lemma accounted_refl (x : counter) (c : catalogue) (r : DiscoveryReport) : accounted x 0 c c r r.
Proof. intros Hr. do 2 (split; [done|]). intros y. case_bool_decide; lia. Qed.
Lemma accounted_trans (x : counter) (n m : Z) (c c1 c2 : catalogue) (r r1 r2 : DiscoveryReport) :
  accounted x n c c1 r r1 -> accounted x m c1 c2 r1 r2 -> accounted x (n + m) c c2 r r2.
Proof.
  intros Ha Hb Hr. destruct (Hb Hr) as (Hr1 & Fb & Kb). destruct (Ha Hr1) as (Hr0 & Fa & Ka). split; [done|]. split; [congruence|]. intros y.
  destruct (Ka y), (Kb y). case_bool_decide; lia.
Qed.
Lemma discover_all_accounted (x : counter) (step : DiscoveryReport -> string * string -> M catalogue DiscoveryReport)
    (files : list (string * string)) (r r' : DiscoveryReport) (c c' : catalogue) :
  (forall r r' file c c', step r file c = (Ok r', c') -> accounted x 1 c c' r r') ->
  discover_all step r files c = (Ok r', c') -> accounted x (Z.of_nat (length files)) c c' r r'.
Proof.
  intros Hstep. revert r c. induction files as [|file files IH]; intros r c E; cbn [discover_all] in E.
  - injection E as <- <-. apply accounted_refl.
  - unfold mbind, M_bind in E. destruct (step r file c) as [[r1|] c1] eqn:Es; [|done].
    replace (Z.of_nat (length (file :: files))) with (1 + Z.of_nat (length files)) by (cbn; lia).
    eapply accounted_trans; [by eapply Hstep|by apply IH].
Qed.

Definition discovery_files (x : counter) (tree : manifest_tree) : Z :=
  Z.of_nat match x with
           | CModule => length (json_files (module_manifest_files tree))
           | CTool => length (json_files (tool_manifest_files tree))
           | CApplication => length (json_files (application_manifest_files tree))
           | CVersion _ => 0%nat
           end.
Lemma discover_accounted (tree : manifest_tree) (now : Z) (c c' : catalogue) (r : DiscoveryReport) :
  discover gettext next_pk tree now c = (Ok r, c') -> errors r = [] ->
  rolled_back r = false /\ forall y, rows_of y c' = rows_of y c + created_of y r /\ handled_of y r = discovery_files y tree.
Proof.
  unfold discover, mbind, M_bind.
  destruct (discover_all _ empty_report _ c) as [[r1|] c1] eqn:E1; [|done].
  destruct (discover_all _ r1 _ c1) as [[r2|] c2] eqn:E2; [|done]. intros E3 Hr.
  apply (discover_all_accounted CModule) in E1; [|intros; by eapply discover_module_accounted].
  apply (discover_all_accounted CTool) in E2; [|intros; by eapply (discover_resource_accounted KTool)].
  apply (discover_all_accounted CApplication) in E3; [|intros; by eapply (discover_resource_accounted KApplication)].
  destruct (E3 Hr) as (Hr2 & F3 & K3). destruct (E2 Hr2) as (Hr1 & F2 & K2). destruct (E1 Hr1) as (_ & F1 & K1).
  split; [by rewrite F3, F2, F1|]. intros y.
  destruct (K1 y) as [A1 B1], (K2 y) as [A2 B2], (K3 y) as [A3 B3].
  assert (created_of y empty_report = 0 /\ handled_of y empty_report = 0) as [A0 B0] by by destruct y as [| | |[]].
  split; [lia|]. rewrite B3, B2, B1, B0. unfold discovery_files. destruct y as [| | |[]]; repeat case_bool_decide; try congruence; lia.
Qed.

(** Autodiscovery is all or nothing, and its report is exact.  A run that raises, or that
    rejects any manifest, leaves every table as it was, and then its report says so: rolled
    back, with an error, and all counters zero.  A run without an error grew each table (modules, tools,
    applications and the versions of both) by precisely the rows it reports as created, and
    reports each manifest file once, as created or as updated. *)
Theorem discovery_all_or_nothing (tree : manifest_tree) (now : Z) (c c' : catalogue) (x : res DiscoveryReport) :
  auto_discover_tools_and_applications gettext next_pk tree now c = (x, c') ->
  match x with
  | Raise _ => c' = with_log (log c') c
  | Ok r =>
      (errors r <> [] /\ rolled_back r = true /\ c' = with_log (log c') c /\
       forall y, created_of y r = 0 /\ handled_of y r = 0) \/
      (errors r = [] /\ rolled_back r = false /\
       forall y, rows_of y c' = rows_of y c + created_of y r /\ handled_of y r = discovery_files y tree)
  end.
Proof.
  unfold auto_discover_tools_and_applications, atomic. destruct (discover gettext next_pk tree now c) as [[r|e] c1] eqn:E.
  - case_bool_decide as He; intros [= <- <-].
    + right. split; [done|]. by eapply discover_accounted.
    + left. split; [done|]. split; [done|]. split; [done|]. intros y. by destruct y as [| | |[]].
  - by intros [= <- <-].
Qed.
End Claims.

(** ** Examples *)
Module SampleDiscovery.
Import SampleCatalog.
Definition manifest (fields : attrs) : string := dumps (PDict fields).
Definition sensors_manifest : string :=
  manifest [("slug", PStr "sensors"); ("name", PStr "Sensors"); ("image", PStr "ghcr.io/smartappli/sensors")].
Definition shop_manifest (module_slug : string) : string :=
  manifest [("slug", PStr "shop"); ("name", PStr "Shop"); ("module_slugs", PList [PStr module_slug])].
Definition probe_manifest (version : string) : string :=
  manifest [("slug", PStr "probe"); ("name", PStr "Probe"); ("version", PStr version)].
Definition tree (module_slug : string) : manifest_tree := {|
  module_manifest_files := [("sensors.json", sensors_manifest); ("README.md", "")];
  tool_manifest_files := [("probe.json", probe_manifest "v1.2.0")];
  application_manifest_files := [("shop.json", shop_manifest module_slug)] |}.
Notation discovered slug := (auto_discover_tools_and_applications (fun t => t) next_pk (tree slug) 5 catalogue0).
End SampleDiscovery.

Import SampleCatalog SampleDiscovery.
Lemma discovery_all_or_nothing_witness :
  (exists r c', discovered "sensors" = (Ok r, c') /\ errors r = [] /\ length (module_rows c') = 1%nat /\
     rows_of CModule c' = rows_of CModule catalogue0 + modules_created r) /\
  (exists r c', discovered "unknown" = (Ok r, c') /\ rolled_back r = true /\ c' = with_log (log c') catalogue0).
Proof.
  split.
  - destruct (discovered "sensors") as [x c'] eqn:E. pose proof (discovery_all_or_nothing _ _ _ _ _ _ _ E) as K.
    vm_compute in E. injection E as <- <-. eexists _, _. split; [reflexivity|]. split; [reflexivity|]. split; [reflexivity|].
    destruct K as [(Hne & _)|(_ & _ & K)]; [by destruct Hne|]. exact (proj1 (K CModule)).
  - destruct (discovered "unknown") as [x c'] eqn:E. pose proof (discovery_all_or_nothing _ _ _ _ _ _ _ E) as K.
    vm_compute in E. injection E as <- <-. eexists _, _. split; [reflexivity|]. split; [reflexivity|].
    destruct K as [(_ & _ & K & _)|(Hne & _)]; [exact K|discriminate Hne].
Defined.
