(* ===== verification/RoutesSpec.v ===== *)
(** The gateway and the catalogue together: publication of routes, webhooks and the views on
    modules in any order.  A route outlives the publication, so the views refuse to disable,
    delete, rename or retarget a module that may own one. *)

From stdpp Require Import gmap strings sorting.
From S2P Require Import Prelude PyValue Regex Sha256 PyFloat Json PyTime PyText Wire Url Release Gateway GatewayViews GatewaySpec Catalog HostingViews.
#[local] Open Scope list_scope.
#[local] Open Scope string_scope.
#[local] Open Scope Z_scope.

(** ** What the serializers of modules do with a JSON body *)
(** A text field takes the text of the value, stripped; [enabled] a boolean and [upstream_port]
    an integer as they are; a field that is absent, and the key, stay. *)
Definition sets_text `{UnicodeData} (field : string) (data : attrs) (old new : string) : Prop :=
  match dget field data with None => new = old | Some v => exists t, py_str v = Ok t /\ new = py_strip t end.
Class ModuleLaws `{UnicodeData, Serializers} := {
  create_keeps_key rows data make pk : module_create rows data = Ok make -> row_pk (make pk) = pk;
  update_keeps_key rows m partial data f : module_update rows m partial data = Ok f -> row_pk (f m) = row_pk m;
  update_enabled rows m partial data f : module_update rows m partial (PDict data) = Ok f ->
    match dget "enabled" data with
    | None => row_enabled (f m) = row_enabled m
    | Some (PBool b) => row_enabled (f m) = b
    | _ => True
    end;
  update_port rows m partial data f : module_update rows m partial (PDict data) = Ok f ->
    match dget "upstream_port" data with
    | None => row_upstream_port (f m) = row_upstream_port m
    | Some (PInt n) => row_upstream_port (f m) = Some n
    | _ => True
    end;
  update_slug rows m partial data f : module_update rows m partial (PDict data) = Ok f ->
    sets_text "slug" data (row_slug m) (row_slug (f m));
  update_path rows m partial data f : module_update rows m partial (PDict data) = Ok f ->
    sets_text "public_path" data (row_public_path m) (row_public_path (f m));
  update_host rows m partial data f : module_update rows m partial (PDict data) = Ok f ->
    sets_text "upstream_host" data (row_upstream_host m) (row_upstream_host (f m))
}.

(** A JSON object that gives [enabled] as a boolean and [upstream_port] as an integer. *)
Definition plain_request (data : pyval) : Prop :=
  match data with
  | PDict data =>
      match dget "enabled" data with None | Some (PBool _) => True | _ => False end /\
      match dget "upstream_port" data with None | Some (PInt _) => True | _ => False end
  | _ => False
  end.

(** ** The views on modules *)
Lemma find_In {A} (f : A -> bool) (l : list A) (x : A) : List.find f l = Some x -> x ∈ l /\ f x = true.
Proof. intros E. apply find_some in E as (Hin & Hf). by rewrite list_elem_of_In. Qed.
Lemma same_key (l : list module_row) (m m' : module_row) :
  NoDup (map row_pk l) -> m ∈ l -> m' ∈ l -> row_pk m = row_pk m' -> m = m'.
Proof.
  induction l as [|x l IH]; [by intros _ []%not_elem_of_nil|]. cbn. intros [Hx Hl]%NoDup_cons Hm Hm' E.
  apply elem_of_cons in Hm as [->|Hm], Hm' as [->|Hm']; [done| | |by apply IH].
  - destruct Hx. rewrite E. by apply (list_elem_of_fmap_2 row_pk).
  - destruct Hx. rewrite <- E. by apply (list_elem_of_fmap_2 row_pk).
Qed.
Lemma put_module_keys (m : module_row) (l : list module_row) : map row_pk (put_module m l) = map row_pk l.
Proof.
  unfold put_module. rewrite map_map. apply map_ext. intros x. by destruct (row_pk x =? row_pk m) eqn:E; [apply Z.eqb_eq in E|].
Qed.
Lemma put_module_In (m x : module_row) (l : list module_row) :
  x ∈ l -> (if decide (row_pk x = row_pk m) then m else x) ∈ put_module m l.
Proof.
  intros Hx. unfold put_module. apply list_elem_of_In, in_map_iff. exists x. rewrite <- list_elem_of_In. split; [|done].
  destruct (decide _) as [->|Hne]; [by rewrite Z.eqb_refl|]. apply Z.eqb_neq in Hne. by rewrite Hne.
Qed.
Lemma filter_keys (f : module_row -> bool) (l : list module_row) :
  NoDup (map row_pk l) -> NoDup (map row_pk (List.filter f l)).
Proof.
  induction l as [|x l IH]; [done|]. cbn. intros [Hx Hl]%NoDup_cons. specialize (IH Hl).
  destruct (f x); [|done]. cbn. apply NoDup_cons. split; [|done]. intros Hin. apply Hx.
  apply list_elem_of_In, in_map_iff in Hin as (y & Hy & Hin). apply list_elem_of_In, in_map_iff. exists y.
  split; [done|]. by apply filter_In in Hin as [Hin _].
Qed.

Section Handlers.
Context `{UnicodeData} `{CaseFold} `{SlugOrder} `{Serializers}.
Variable bus : string -> attrs -> res unit.

Lemma atomic_run {A} (m : M catalogue A) (c c' : catalogue) (r : res A) :
  atomic m c = (r, c') -> match r with Ok _ => m c = (r, c') | Raise _ => module_rows c' = module_rows c end.
Proof. unfold atomic. destruct (m c) as [[x|e] c1]; intros [= <- <-]; done. Qed.
Lemma publish_event_rows (k : string) (d : attrs) (c c' : catalogue) (r : res unit) :
  HostingViews.publish_event bus k d c = (r, c') -> module_rows c' = module_rows c.
Proof. unfold HostingViews.publish_event. by intros [= _ <-]. Qed.

Lemma create_module_rows (pk : Z) (data : pyval) (c c' : catalogue) (r : res response) :
  create_module bus pk data c = (r, c') ->
  module_rows c' = module_rows c \/
  exists make, module_create (module_rows c) data = Ok make /\ module_rows c' = (module_rows c ++ [make pk])%list.
Proof.
  unfold create_module, mbind, M_bind. destruct (module_create _ _) as [make|e]; [|intros [= _ <-]; by left].
  unfold insert_module. destruct (module_conflict _ _); [intros [= _ <-]; by left|]. unfold HostingViews.publish_event.
  intros E. right. exists make. split; [done|]. destruct (bus _ _); by injection E as _ <-.
Qed.

Lemma update_module_rows (q : module_query) (pk : Z) (partial : bool) (data : pyval) (c c' : catalogue) (r : res response) :
  update_module bus q pk partial data c = (r, c') ->
  module_rows c' = module_rows c \/
  exists m f, m ∈ module_rows c /\ row_pk m = pk /\ module_update (module_rows c) m partial data = Ok f /\
    (_has_revocation_sensitive_route m = true -> _requests_route_revocation m data = Ok false) /\
    module_rows c' = put_module (f m) (module_rows c).
Proof.
  unfold update_module. intros E. apply atomic_run in E. destruct r as [x|e]; [|by left].
  unfold get, mbind, M_bind, mret, M_ret, lift in E.
  destruct (find_module pk (module_queryset q (module_rows c))) as [m|] eqn:Em; [|injection E as _ <-; by left].
  apply find_In in Em as (Hin & Hpk). apply list_elem_of_In, filter_In in Hin as [Hin _]. apply list_elem_of_In in Hin. apply Z.eqb_eq in Hpk.
  destruct (if _has_revocation_sensitive_route m then _ else _) as [[]|e] eqn:Eref; [injection E as _ <-; by left| |done].
  destruct (module_update _ _ _ _) as [f|e] eqn:Ef; [|done]. unfold save_module in E.
  destruct (module_conflict _ _); [done|]. unfold HostingViews.publish_event in E. destruct (bus _ _); [|done]. injection E as _ <-.
  right. exists m, f. repeat split; try done. intros Hs. by rewrite Hs in Eref.
Qed.

Lemma destroy_module_rows (q : module_query) (pk : Z) (c c' : catalogue) (r : res response) :
  destroy_module bus q pk c = (r, c') ->
  module_rows c' = module_rows c \/
  exists m, m ∈ module_rows c /\ row_pk m = pk /\ _has_revocation_sensitive_route m = false /\
    module_rows c' = List.filter (fun x => negb (row_pk x =? pk)) (module_rows c).
Proof.
  unfold destroy_module. intros E. apply atomic_run in E. destruct r as [x|e]; [|by left].
  unfold get, mbind, M_bind, mret, M_ret in E.
  destruct (find_module pk (module_queryset q (module_rows c))) as [m|] eqn:Em; [|injection E as _ <-; by left].
  apply find_In in Em as (Hin & Hpk). apply list_elem_of_In, filter_In in Hin as [Hin _]. apply list_elem_of_In in Hin. apply Z.eqb_eq in Hpk.
  destruct (_has_revocation_sensitive_route m) eqn:Es; [injection E as _ <-; by left|].
  destruct (existsb _ (profiles c)); [done|]. unfold HostingViews.publish_event in E. destruct (bus _ _); [|done].
  injection E as _ <-. right. by exists m.
Qed.
End Handlers.

(** ** Routed modules *)
Section Guard.
Context `{UnicodeData} `{CaseFold} `{SlugRules} `{SlugOrder} `{Serializers}.

(** A row that a route at [path] on [host] may come from. *)
Definition routes (m : module_row) (slug path host : string) : Prop :=
  row_slug m = slug /\ py_strip slug = slug /\ row_enabled m = true /\
  _validated_public_path (PStr (row_public_path m)) = Ok path /\
  _validated_dns_hostname (PStr (row_upstream_host m)) "upstream_host" = Ok host /\ is_Some (row_upstream_port m).

Lemma public_path_stripped (p path : string) :
  _validated_public_path (PStr p) = Ok path -> py_strip p = p /\ p <> "".
Proof.
  unfold _validated_public_path. cbn [py_str mbind res_bind].
  destruct (negb (String.eqb p (py_strip p)) || negb (startswith "/" p)) eqn:E; [done|].
  apply orb_false_iff in E as [E E2]. apply negb_false_iff, String.eqb_eq in E. intros _. split; [done|]. by intros ->.
Qed.
Lemma hostname_stripped (h label host : string) :
  _validated_dns_hostname (PStr h) label = Ok host -> py_strip h = h /\ h <> "".
Proof.
  unfold _validated_dns_hostname. cbn [py_str mbind res_bind].
  destruct (negb (String.eqb h (py_strip h)) || String.eqb (py_casefold h) "" || (253 <? py_len (py_casefold h))) eqn:E; [done|].
  apply orb_false_iff in E as [E _]. apply orb_false_iff in E as [E E2]. apply negb_false_iff, String.eqb_eq in E.
  intros _. split; [done|]. by intros ->.
Qed.
Lemma changes_text_same (field current : string) (data : attrs) (new : string) :
  changes_text field current data = Ok false -> sets_text field data current new -> py_strip current = current -> new = current.
Proof.
  unfold changes_text, sets_text. destruct (dget field data) as [v|]; [|done]. intros E (t & Ht & ->) Hc.
  apply bind_Ok in E as (t' & Ht' & E). rewrite Ht in Ht'. injection Ht' as <-. injection E as E.
  apply negb_false_iff, String.eqb_eq in E. by subst.
Qed.

(** The guard lets a plain request through only when the route stays as it is. *)
Lemma guard_keeps_route `{!ModuleLaws} (rows : list module_row) (m : module_row) (partial : bool) (data : pyval)
    (f : module_row -> module_row) (slug path host : string) :
  routes m slug path host -> plain_request data ->
  module_update rows m partial data = Ok f ->
  (_has_revocation_sensitive_route m = true -> _requests_route_revocation m data = Ok false) ->
  routes (f m) slug path host.
Proof.
  intros (Hslug & Hstrip & Hen & Hp & Hh & Hport) Hplain Hf Hguard. destruct data as [| | | | | |data]; try done.
  destruct Hplain as [Hpe Hpp]. pose proof (public_path_stripped _ _ Hp) as [Hps Hpne].
  pose proof (hostname_stripped _ _ _ Hh) as [Hhs Hne].
  assert (_has_revocation_sensitive_route m = true) as Hs.
  { unfold _has_revocation_sensitive_route. rewrite Hps, Hhs. apply String.eqb_neq in Hpne, Hne. rewrite Hpne, Hne.
    cbn. by apply bool_decide_eq_true. }
  specialize (Hguard Hs). unfold _requests_route_revocation in Hguard.
  destruct (requests_disabling data) eqn:Ed; [done|].
  destruct (changes_text "slug" _ _) as [[]|] eqn:E1; cbn in Hguard; try done.
  destruct (changes_text "public_path" _ _) as [[]|] eqn:E2; cbn in Hguard; try done.
  destruct (changes_text "upstream_host" _ _) as [[]|] eqn:E3; cbn in Hguard; try done.
  pose proof (changes_text_same _ _ _ _ E1 (update_slug _ _ _ _ _ Hf)) as Ks.
  pose proof (changes_text_same _ _ _ _ E2 (update_path _ _ _ _ _ Hf) Hps) as Kp.
  pose proof (changes_text_same _ _ _ _ E3 (update_host _ _ _ _ _ Hf) Hhs) as Kh.
  pose proof (update_enabled _ _ _ _ _ Hf) as Ke. pose proof (update_port _ _ _ _ _ Hf) as Kport.
  unfold routes. rewrite Kp, Kh, Ks by (by rewrite Hslug). do 2 (split; [done|]).
  split; [|do 2 (split; [done|])].
  - unfold requests_disabling in Ed. destruct (dget "enabled" data) as [[|[]| | | | |]|]; try done; congruence.
  - destruct (dget "upstream_port" data) as [[| |n| | | |]|]; try done; rewrite Kport; first [done | by eexists].
Qed.
End Guard.

(** ** Histories of the host *)
Record hosting := { table : catalogue; edge : world }.
(** What the views of the gateway see: the rows are those of the catalogue. *)
Definition view (st : hosting) : world :=
  {| gw := {| modules := module_rows (table st); puts := puts (gw (edge st)) |};
     cache := cache (edge st); events := events (edge st) |}.

Section Histories.
Context `{UnicodeData} `{CaseFold} `{SlugRules} `{SlugOrder} `{Serializers} (s : site).
Variable admin : put -> res (Z * string).
Variable bus : string -> attrs -> res unit.
Variable gettext : string -> string.
Variable exception_text : pyexn -> string.
Variable parse : string -> res pyval.

(** One request: a publication or a webhook, or a plain request on the modules; the database
    gives a new row a fresh key. *)
Inductive host_step (st : hosting) : hosting -> Prop :=
| step_publish data if_match r w' :
    publish_post s admin bus gettext exception_text data if_match (view st) = (r, w') ->
    host_step st {| table := table st; edge := w' |}
| step_webhook rq r w' :
    webhook_post s admin bus gettext exception_text parse rq (view st) = (r, w') ->
    host_step st {| table := table st; edge := w' |}
| step_create pk data r c' :
    pk ∉ map row_pk (module_rows (table st)) -> create_module bus pk data (table st) = (r, c') ->
    host_step st {| table := c'; edge := edge st |}
| step_update q pk partial data r c' :
    plain_request data -> update_module bus q pk partial data (table st) = (r, c') ->
    host_step st {| table := c'; edge := edge st |}
| step_destroy q pk r c' :
    destroy_module bus q pk (table st) = (r, c') -> host_step st {| table := c'; edge := edge st |}.

Lemma run_webhook (st st' : hosting) (rq : webhook) :
  st' = {| table := table st; edge := (webhook_post s admin bus gettext exception_text parse rq (view st)).2 |} -> host_step st st'.
Proof. intros ->. destruct (webhook_post _ _ _ _ _ _ _ _) eqn:E. by eapply step_webhook. Qed.
Lemma run_publish (st st' : hosting) (data : pyval) (if_match : option string) :
  st' = {| table := table st; edge := (publish_post s admin bus gettext exception_text data if_match (view st)).2 |} -> host_step st st'.
Proof. intros ->. destruct (publish_post _ _ _ _ _ _ _ _) eqn:E. by eapply step_publish. Qed.

Record route := { r_slug : string; r_path : string; r_host : string; r_port : Z }.
Definition sent (a : ApisixService) (x : route) : put := put_of s a (r_slug x) (r_path x) (r_host x) (r_port x).
(** Every route sent belongs to a row that still names its path and host, and the routes of
    two modules do not overlap. *)
Definition routed (rows : list module_row) (l : list route) : Prop :=
  (forall x, x ∈ l -> exists m, m ∈ rows /\ routes m (r_slug x) (r_path x) (r_host x)) /\
  (forall x y, x ∈ l -> y ∈ l -> r_slug x <> r_slug y -> _paths_overlap (r_path x) (r_path y) = false).
Definition consistent (a : ApisixService) (st : hosting) : Prop :=
  NoDup (map row_pk (module_rows (table st))) /\
  exists l, puts (gw (edge st)) = map (sent a) l /\ routed (module_rows (table st)) l.

Lemma paths_overlap_sym (p q : string) : _paths_overlap p q = _paths_overlap q p.
Proof.
  unfold _paths_overlap. rewrite (String.eqb_sym (py_casefold p)), <- !orb_assoc. f_equal. apply orb_comm.
Qed.

Lemma routed_add (a : ApisixService) (rows : list module_row) (l : list route) (slug path host : string) (port : Z) :
  routed rows l -> safe_route s a rows slug path host port ->
  routed rows (l ++ [{| r_slug := slug; r_path := path; r_host := host; r_port := port |}])%list.
Proof.
  intros [Hown Hdis] Hs. set (new := {| r_slug := slug; r_path := path; r_host := host; r_port := port |}).
  destruct (route_owner _ _ _ _ _ _ _ Hs) as (m & Hm & Hen & Hp & Hh & Hport). apply find_In in Hm as (Hin & Hslug).
  apply String.eqb_eq in Hslug.
  assert (forall x, x ∈ l -> r_slug x <> slug -> _paths_overlap path (r_path x) = false) as Knew.
  { intros x Hx Hne. destruct (Hown x Hx) as (mx & Hmx & Hsx & _ & Henx & Hpx & _). subst.
    destruct (route_other_modules _ _ _ _ _ _ _ Hs mx Hmx Henx) as (q & Hq & Ho); [congruence|by destruct (public_path_stripped _ _ Hpx)|].
    rewrite Hpx in Hq. by injection Hq as <-. }
  split.
  - intros x [Hx|Hx%list_elem_of_singleton]%elem_of_app; [by apply Hown|]. subst x. exists m. split; [done|].
    split; [done|]. split; [by apply (route_slug _ _ _ _ _ _ _ Hs)|done].
  - intros x y [Hx|Hx%list_elem_of_singleton]%elem_of_app [Hy|Hy%list_elem_of_singleton]%elem_of_app Hne; subst; [by apply Hdis| | |done].
    + rewrite paths_overlap_sym. by apply Knew.
    + apply Knew; [done|]. by intros Heq.
Qed.

Lemma routed_puts (a : ApisixService) (rows : list module_row) (l : list route) (ps : list put) :
  new_apisix s = Ok a -> routed rows l -> Forall (sent_safely s rows) ps ->
  exists k, map (sent a) k = ps /\ routed rows (l ++ k)%list.
Proof.
  intros Ha Hl Hps. revert l Hl. induction Hps as [|p ps Hp _ IH]; intros l Hl.
  - exists []. by rewrite app_nil_r.
  - destruct Hp as (a' & Ha' & slug & path & host & port & -> & Hs). rewrite Ha in Ha'. injection Ha' as <-.
    destruct (IH _ (routed_add _ _ _ _ _ _ _ Hl Hs)) as (k & <- & Hk). rewrite <- app_assoc in Hk.
    eexists (_ :: k). split; [|exact Hk]. done.
Qed.

Lemma routed_rows (rows rows' : list module_row) (l : list route) :
  (forall m slug path host, m ∈ rows -> routes m slug path host -> exists m', m' ∈ rows' /\ routes m' slug path host) ->
  routed rows l -> routed rows' l.
Proof. intros K [Hown Hdis]. split; [|done]. intros x Hx. destruct (Hown x Hx) as (m & Hm & Hr). by eapply K. Qed.

Lemma routes_sensitive (m : module_row) (slug path host : string) :
  routes m slug path host -> _has_revocation_sensitive_route m = true.
Proof.
  intros (_ & _ & _ & Hp & Hh & Hport). apply public_path_stripped in Hp as [Hp Hpne].
  apply hostname_stripped in Hh as [Hh Hhne]. unfold _has_revocation_sensitive_route. rewrite Hp, Hh.
  apply String.eqb_neq in Hpne, Hhne. rewrite Hpne, Hhne. cbn. by apply bool_decide_eq_true.
Qed.

Context `{!ModuleLaws}.

Lemma host_step_consistent (a : ApisixService) (st st' : hosting) :
  new_apisix s = Ok a -> host_step st st' -> consistent a st -> consistent a st'.
Proof.
  intros Ha Hstep (Hnd & l & Hl & Hr).
  assert (forall w', (exists ps, puts (gw w') = (puts (gw (edge st)) ++ ps)%list /\ Forall (sent_safely s (module_rows (table st))) ps) ->
    consistent a {| table := table st; edge := w' |}) as Kw.
  { intros w' (ps & Hps & Hsafe). split; [done|]. destruct (routed_puts a _ l ps Ha Hr Hsafe) as (k & <- & Hk).
    exists (l ++ k)%list. split; [|done]. cbn. by rewrite Hps, Hl, map_app. }
  assert (forall c', NoDup (map row_pk (module_rows c')) ->
    (forall m slug path host, m ∈ module_rows (table st) -> routes m slug path host ->
       exists m', m' ∈ module_rows c' /\ routes m' slug path host) ->
    consistent a {| table := c'; edge := edge st |}) as Kc.
  { intros c' Hnd' K. split; [done|]. exists l. split; [done|]. by eapply routed_rows. }
  assert (forall c', module_rows c' = module_rows (table st) -> consistent a {| table := c'; edge := edge st |}) as Ksame.
  { intros c' E. apply Kc; rewrite E; [done|]. eauto. }
  destruct Hstep as [data im r w' E|rq r w' E|pk data r c' Hpk E|q pk partial data r c' Hplain E|q pk r c' E].
  - apply Kw. by apply careful_publish_post in E as (_ & _ & Hps).
  - apply Kw. apply webhook_post_cases in E as [->|(key & w1 & _ & (_ & _ & Hps) & E)].
    + exists []. by rewrite app_nil_r.
    + by destruct r; subst w'.
  - apply create_module_rows in E as [E|(make & Hmake & E)]; [by apply Ksame|]. apply Kc; rewrite E.
    + rewrite map_app. cbn. rewrite (create_keeps_key _ _ _ pk Hmake). apply NoDup_app. split; [done|]. split; [|apply NoDup_singleton].
      intros x Hx ->%list_elem_of_singleton. done.
    + intros m slug path host Hm Hroute. exists m. split; [|done]. apply elem_of_app. by left.
  - apply update_module_rows in E as [E|(m0 & f & Hm0 & Hpk & Hf & Hguard & E)]; [by apply Ksame|]. apply Kc; rewrite E.
    + by rewrite put_module_keys.
    + intros m slug path host Hm Hroute. pose proof (update_keeps_key _ _ _ _ _ Hf) as Hkey.
      eexists. split; [by apply put_module_In|]. rewrite Hkey. destruct (decide _) as [Heq|Hne]; [|done].
      assert (m = m0) as -> by (by eapply same_key). by eapply guard_keeps_route.
  - apply destroy_module_rows in E as [E|(m0 & Hm0 & Hpk & Hs & E)]; [by apply Ksame|]. apply Kc; rewrite E.
    + by apply filter_keys.
    + intros m slug path host Hm Hroute. exists m. split; [|done]. apply list_elem_of_In, filter_In.
      split; [by apply list_elem_of_In|]. apply negb_true_iff, Z.eqb_neq. intros Heq.
      assert (m = m0) as -> by (eapply same_key; [done|done|done|congruence]).
      apply routes_sensitive in Hroute. congruence.
Qed.

Lemma host_steps_consistent (a : ApisixService) (st st' : hosting) :
  new_apisix s = Ok a -> rtc host_step st st' -> consistent a st -> consistent a st'.
Proof. intros Ha. induction 1 as [|x y z Hxy _ IH]; [done|]. intros Hx. apply IH. by eapply host_step_consistent. Qed.

End Histories.

(** ** Examples *)
Module SampleHost.
Import Sample.
#[export] Instance slug_order : SlugOrder := String.leb.

(** A serializer of modules for JSON bodies. *)
Definition invalid {A} : res A := Raise (ValidationError "invalid").
Definition text_field (field : string) (data : attrs) (old : string) : res string :=
  match dget field data with None => Ok old | Some (PStr t) => Ok (py_strip t) | Some _ => invalid end.
Definition bool_field (data : attrs) (old : bool) : res bool :=
  match dget "enabled" data with
  | None => Ok old
  | Some (PBool b) => Ok b
  | Some (PStr t) => if mem t ["f"; "n"] then Ok false else invalid
  | _ => invalid
  end.
Definition port_field (data : attrs) (old : option Z) : res (option Z) :=
  match dget "upstream_port" data with None => Ok old | Some PNone => Ok None | Some (PInt n) => Ok (Some n) | _ => invalid end.
Definition saved_row (m : module_row) (slug path host : string) (port : option Z) (enabled : bool) : module_row := {|
  row_pk := row_pk m; row_name := row_name m; row_slug := slug; row_image := row_image m; row_branch := row_branch m;
  row_repository_owner := row_repository_owner m; row_repository_name := row_repository_name m;
  row_source_path := row_source_path m; row_deployment_target := row_deployment_target m; row_public_path := path;
  row_upstream_host := host; row_upstream_port := port; row_healthcheck_path := row_healthcheck_path m;
  row_contract_topics := row_contract_topics m; row_enabled := enabled |}.
Definition saved (m : module_row) (data : pyval) : res (module_row -> module_row) :=
  match data with
  | PDict data =>
      slug ← text_field "slug" data (row_slug m);
      path ← text_field "public_path" data (row_public_path m);
      host ← text_field "upstream_host" data (row_upstream_host m);
      port ← port_field data (row_upstream_port m);
      enabled ← bool_field data (row_enabled m);
      Ok (fun x => saved_row x slug path host port enabled)
  | _ => invalid
  end.
#[export] Instance serializers : Serializers := {
  module_create rows data :=
    f ← saved (row 0 "" "" "" None) data;
    Ok (fun pk => saved_row (row pk (row_slug (f (row pk "" "" "" None))) "" "" None) (row_slug (f sensors))
                    (row_public_path (f sensors)) (row_upstream_host (f sensors)) (row_upstream_port (f sensors)) true);
  module_update rows m partial data := saved m data;
  resource_create k c data := invalid;
  resource_update k c r partial data := invalid;
  dataset_create c data := invalid;
  dataset_update c d partial data := invalid;
  attached_module c data := invalid;
  version_fields data := invalid;
  module_json m := PNone;
  resource_json k c r := [];
  dataset_json d := [];
  version_json v := []
}.
Lemma saved_Ok (m : module_row) (data : attrs) (f : module_row -> module_row) :
  saved m (PDict data) = Ok f -> exists slug path host port enabled,
    text_field "slug" data (row_slug m) = Ok slug /\ text_field "public_path" data (row_public_path m) = Ok path /\
    text_field "upstream_host" data (row_upstream_host m) = Ok host /\ port_field data (row_upstream_port m) = Ok port /\
    bool_field data (row_enabled m) = Ok enabled /\ f m = saved_row m slug path host port enabled.
Proof.
  unfold saved. intros E. apply bind_Ok in E as (slug & ? & E). apply bind_Ok in E as (path & ? & E).
  apply bind_Ok in E as (host & ? & E). apply bind_Ok in E as (port & ? & E). apply bind_Ok in E as (enabled & ? & E).
  injection E as <-. by exists slug, path, host, port, enabled.
Qed.
Lemma text_field_sets (field : string) (data : attrs) (old new : string) :
  text_field field data old = Ok new -> sets_text field data old new.
Proof. unfold text_field, sets_text. destruct (dget field data) as [[]|]; intros [= <-]; [by eexists|done]. Qed.
#[export] Instance laws : ModuleLaws.
Proof.
  split; cbn [module_create module_update serializers].
  - intros rows data make pk E. apply bind_Ok in E as (f & _ & E). by injection E as <-.
  - intros rows m partial data f. destruct data as [| | | | | |data]; try done. intros E.
    by apply saved_Ok in E as (? & ? & ? & ? & ? & _ & _ & _ & _ & _ & ->).
  - intros rows m partial data f E. apply saved_Ok in E as (? & ? & ? & ? & ? & _ & _ & _ & _ & E & ->).
    unfold bool_field in E. destruct (dget "enabled" data) as [[]|]; first [done | discriminate E | by injection E as <-].
  - intros rows m partial data f E. apply saved_Ok in E as (? & ? & ? & ? & ? & _ & _ & _ & E & _ & ->).
    unfold port_field in E. destruct (dget "upstream_port" data) as [[]|]; first [done | discriminate E | by injection E as <-].
  - intros rows m partial data f E. apply saved_Ok in E as (? & ? & ? & ? & ? & E & _ & _ & _ & _ & ->). by apply text_field_sets.
  - intros rows m partial data f E. apply saved_Ok in E as (? & ? & ? & ? & ? & _ & E & _ & _ & _ & ->). by apply text_field_sets.
  - intros rows m partial data f E. apply saved_Ok in E as (? & ? & ? & ? & ? & _ & _ & E & _ & _ & ->). by apply text_field_sets.
Qed.

Definition catalogue_of (l : list module_row) : catalogue := {|
  module_rows := l; profiles := []; tools := []; applications := []; tool_versions := []; application_versions := [];
  datasets := []; referenced := []; log := [] |}.
Definition all_modules : module_query := {|
  mq_enabled := None; mq_repository := None; mq_repository_owner := None; mq_repository_name := None;
  mq_deployment_target := None; mq_has_public_route := None; mq_search := fun _ => true |}.
Definition host0 : hosting := {| table := catalogue_of [sensors]; edge := start |}.
Definition weather : pyval :=
  PDict [("slug", PStr "weather"); ("public_path", PStr "/weather"); ("upstream_host", PStr "weather"); ("upstream_port", PInt 8080)].
Definition enable : pyval := PDict [("enabled", PBool true); ("upstream_port", PInt 8080)].
Notation hook st := (receive (push "d-1") (view st)).
Notation publish_weather if_match st :=
  (publish_post production answer bus (fun t => t) (fun _ => "") (PDict [("module_slug", PStr "weather")]) (Some if_match) (view st)).
Notation at_edge st w := {| table := table st; edge := w |}.
Notation at_table st c := {| table := c; edge := edge st |}.
Definition host1 : hosting := Eval vm_compute in at_edge host0 (hook host0).2.
Definition host2 : hosting := Eval vm_compute in at_table host1 (create_module bus 2 weather (table host1)).2.
Definition weather_etag (st : hosting) : string :=
  match (_build_route_plan production service "weather" (module_rows (table st)) ≫= _route_plan_etag) with Ok e => e | Raise _ => "" end.
Definition etag2 : string := Eval vm_compute in weather_etag host2.
Definition host3 : hosting := Eval vm_compute in at_edge host2 (publish_weather etag2 host2).2.
Definition host4 : hosting := Eval vm_compute in at_table host3 (update_module bus all_modules 1 true enable (table host3)).2.

Notation step := (host_step production answer bus (fun t => t) (fun _ => "") loads).
Lemma hooked : step host0 host1.
Proof. apply run_webhook with (rq := push "d-1"). vm_compute. reflexivity. Qed.
Lemma weather_created : step host1 host2.
Proof.
  eapply (step_create _ _ _ _ _ _ host1 2 weather).
  - vm_compute. intros E. inversion E as [|? ? ? E']. inversion E'.
  - vm_compute. reflexivity.
Qed.
Lemma published_weather : step host2 host3.
Proof.
  apply run_publish with (data := PDict [("module_slug", PStr "weather")]) (if_match := Some etag2). vm_compute. reflexivity.
Qed.
Lemma updated : step host3 host4.
Proof. eapply (step_update _ _ _ _ _ _ host3 all_modules 1 true enable); [done|]. vm_compute. reflexivity. Qed.

(** A null port passes the guard and takes the module out of it. *)
Definition null_port : pyval := PDict [("upstream_port", PNone)].
Definition elsewhere : pyval := PDict [("public_path", PStr "/elsewhere")].
Definition on_sensors : pyval :=
  PDict [("slug", PStr "weather"); ("public_path", PStr "/sensors"); ("upstream_host", PStr "weather"); ("upstream_port", PInt 8080)].
Definition gap1 : hosting := Eval vm_compute in at_table host1 (update_module bus all_modules 1 true null_port (table host1)).2.
Definition gap2 : hosting := Eval vm_compute in at_table gap1 (update_module bus all_modules 1 true elsewhere (table gap1)).2.
Definition gap3 : hosting := Eval vm_compute in at_table gap2 (create_module bus 2 on_sensors (table gap2)).2.
Definition gap4 : hosting := Eval vm_compute in at_edge gap3 (publish_weather (weather_etag gap3) gap3).2.
Definition uris (p : put) : pyval := match put_json p with PDict d => vget "uris" d | _ => PNone end.
End SampleHost.

Import Sample SampleHost.

(** The bound on the requests is needed: with a null port the guard lets a published module
    move, and another module is published on the path its route still serves; and the text
    "f", false for the serializer but not for the guard, disables a published module. *)
Example null_port_frees_a_path :
  map uris (puts (gw (edge gap4))) = [PList [PStr "/sensors"; PStr "/sensors/*"]; PList [PStr "/sensors"; PStr "/sensors/*"]] /\
  NoDup (map put_url (puts (gw (edge gap4)))).
Proof. split; [reflexivity|]. by apply nodupb_NoDup. Qed.
Example letter_f_disables_a_published_module :
  map row_enabled (module_rows (update_module Sample.bus all_modules 1 true (PDict [("enabled", PStr "f")]) (table host1)).2) = [false] /\
  length (puts (gw (edge host1))) = 1%nat.
Proof. vm_compute. done. Qed.
