(* ===== verification/Identity.v ===== *)
(** Who makes a request to the host: bearer tokens and OIDC identities
    (src/components/DEALHost/apps/common/authentication.py and oidc.py).

    The introspection endpoint is a function of the token: the decoded reply, or the
    exception of the request.  How a host name beyond ASCII is encoded is the class
    [Idna]. *)

From S2P Require Import Prelude PyValue Regex Sha256 PyText Wire Url Ip HostingViews.
#[local] Open Scope list_scope.
#[local] Open Scope string_scope.
#[local] Open Scope Z_scope.

Notation attrs := (list (string * pyval)).

(** [s.encode("idna")] of text that is not ASCII; [None] is [UnicodeError]. *)
Class Idna := unicode_idna : string -> option string.

(** ** oidc.py *)
Definition derive_oidc_acl_username (issuer subject : string) : res string :=
  value ← encode_utf8 (issuer ++ bytes [0] ++ subject);
  Ok ("oidc:" ++ sha256_hex value).

(** [s.encode("idna").decode("ascii").lower()]. *)
Definition idna_lower `{Idna} (s : string) : option string :=
  if all_bytes is_ascii s then
    let labels := py_split "." s in
    if existsb (fun l => String.eqb l "") (removelast labels) || existsb (fun l => 64 <=? byte_len l) labels then None
    else Some (map_bytes lower_ascii s)
  else map_bytes lower_ascii <$> unicode_idna s.
Definition DNS_LABEL : regex :=
  Seq (Cls lower_digit) (Rep 0 (Some 1%nat) (Seq (Rep 0 (Some 61%nat) (Cls (por lower_digit (one_of "-")))) (Cls lower_digit))).

Section Issuer.
Context `{UnicodeData} `{CaseFold} `{NetlocRules} `{Idna} `{MappedText}.
(** The text of the [ValueError] of [urlsplit] that the message wraps is not needed. *)
Definition refuse {A} (detail : string) : res A := Raise (ValueError detail).

Definition canonical_host (hostname : string) : res string :=
  match ip_address hostname with
  | Some a => Ok (address_text a)
  | None =>
      match idna_lower hostname with
      | None => refuse "The OIDC issuer host is not valid."
      | Some canonical_host =>
          if endswith "." canonical_host then refuse "The OIDC issuer host must not end with a dot."
          else if (253 <? byte_len canonical_host)
               || existsb (fun label => negb (fullmatch DNS_LABEL label)) (py_split "." canonical_host)
          then refuse "The OIDC issuer host is not a valid DNS name."
          else Ok canonical_host
      end
  end.
Definition canonical_netloc (host : string) (port : option Z) : string :=
  let host := if has_byte 58 host then "[" ++ host ++ "]" else host in
  match port with None => host | Some p => host ++ ":" ++ py_str_int p end.
Definition is_dot_segment (segment : string) : bool := mem (py_casefold (unquote segment)) ["."; ".."].
(** [urlunsplit(("https", netloc, path, EMPTY, EMPTY))]. *)
Definition https_url (netloc path : string) : string :=
  "https://" ++ netloc ++ (if String.eqb path "" || startswith "/" path then path else "/" ++ path).

Definition validate_canonical_oidc_issuer (value : string) : res string :=
  if String.eqb value "" || negb (String.eqb value (py_strip value))
  then refuse "The OIDC issuer must not be empty or padded with whitespace."
  else
    match (parsed ← urlsplit value; p ← port parsed; Ok (parsed, p)) with
    | Raise e => if is_value_error e then refuse "The OIDC issuer is not a valid URL." else Raise e
    | Ok (parsed, port) =>
        if negb (String.eqb (scheme parsed) "https") then refuse "The OIDC issuer must use canonical lowercase HTTPS."
        else
          match hostname parsed with
          | None => refuse "The OIDC issuer must include a host."
          | Some hostname =>
              if has_userinfo parsed then refuse "The OIDC issuer must not contain user information."
              else if has_byte 37 (netloc parsed) then refuse "The OIDC issuer host must not use percent encoding."
              else if negb (String.eqb (query parsed) "") || negb (String.eqb (fragment parsed) "")
              then refuse "The OIDC issuer must not contain a query or fragment."
              else if bool_decide (port = Some 443) then refuse "The OIDC issuer must omit the default HTTPS port."
              else if has_byte 92 (path parsed) || contains "//" (path parsed)
              then refuse "The OIDC issuer path is not canonical."
              else if existsb is_dot_segment (py_split "/" (path parsed))
              then refuse "The OIDC issuer path must not contain dot segments."
              else
                host ← canonical_host hostname;
                if negb (String.eqb (https_url (canonical_netloc host port) (path parsed)) value)
                then refuse "The OIDC issuer must use its canonical form (lowercase host, IDNA host and no default port)."
                else Ok value
          end
    end.

Definition validate_approved_oidc_issuer (value approved_value : string) : res string :=
  requested ← validate_canonical_oidc_issuer value;
  if String.eqb approved_value ""
  then refuse "OIDC identity provisioning is unavailable because no approved runtime issuer is configured."
  else
    match validate_canonical_oidc_issuer approved_value with
    | Raise e =>
        if is_value_error e
        then refuse "OIDC identity provisioning is unavailable because the approved runtime issuer configuration is invalid."
        else Raise e
    | Ok approved =>
        if negb (String.eqb requested approved) then refuse "The OIDC issuer is not approved for this deployment."
        else Ok requested
    end.

Definition validate_oidc_subject (value : string) : res string :=
  if String.eqb value "" || negb (String.eqb value (py_strip value))
  then refuse "The OIDC subject must not be empty or padded with whitespace."
  else if has_byte 0 value then refuse "The OIDC subject contains an invalid null character."
  else Ok value.
End Issuer.

(** ** authentication.py *)
Definition FORBIDDEN_OIDC_GROUPS_CLAIMS : list string := ["scope"; "scp"; "roles"; "realm_access"; "realm_access.roles"].

Record SettingsTokenUser := {
  username : string;
  token_is_staff : bool;
  token_is_superuser : bool;
  oidc_issuer : option string;
  oidc_subject : option string;
  (** A set: order and repetitions do not matter. *)
  token_groups : list string
}.
Definition acl_name (u : SettingsTokenUser) : res string :=
  match oidc_issuer u, oidc_subject u with
  | Some issuer, Some subject =>
      if String.eqb issuer "" || String.eqb subject "" then Ok (username u) else derive_oidc_acl_username issuer subject
  | _, _ => Ok (username u)
  end.

(** The settings; [groups_claim] is [PNone] when the setting is absent. *)
Record host_settings := {
  DEALHOST_ADMIN_API_TOKENS : list string;
  DEALHOST_API_TOKENS : list string;
  DEALHOST_OIDC_INTROSPECTION_URL : string;
  DEALHOST_OIDC_ISSUER : string;
  DEALHOST_OIDC_AUDIENCE : string;
  DEALHOST_OIDC_ADMIN_GROUPS : list string;
  DEALHOST_OIDC_READ_GROUPS : list string;
  groups_claim : pyval;
  groups_claim_env : option string
}.

(** [bytes.split()]. *)
Definition byte_space (a : ascii) : bool := one_of " " a || ((9 <=? code a) && (code a <=? 13)).
Fixpoint byte_words (word : string) (s : string) : list string :=
  let flush := if String.eqb word "" then [] else [word] in
  match s with
  | "" => flush
  | String a r => if byte_space a then (flush ++ byte_words "" r)%list else byte_words (word ++ String a "") r
  end.

Section Authentication.
Context `{UnicodeData} `{CaseFold} (st : host_settings).
(** [httpx.post(endpoint, ...)], [raise_for_status()] and [json()]. *)
Variable introspect : string -> res pyval.
Definition reject {A} (detail : string) : res A := Raise (AuthenticationFailed detail).

Fixpoint _matches (token : string) (candidates : list string) : res bool :=
  match candidates with
  | [] => Ok false
  | candidate :: candidates =>
      if String.eqb candidate "" then _matches token candidates
      else same ← compare_digest token candidate; if same : bool then Ok true else _matches token candidates
  end.

Definition _configured_groups_claim_name : option string :=
  let configured := match groups_claim st with PNone => PStr (default "groups" (groups_claim_env st)) | v => v end in
  match configured with
  | PStr configured =>
      let claim_name := py_strip configured in
      if String.eqb claim_name "" || negb (String.eqb configured claim_name) || (255 <? py_len claim_name)
         || has_byte 0 claim_name || mem (py_casefold claim_name) FORBIDDEN_OIDC_GROUPS_CLAIMS
      then None else Some claim_name
  | _ => None
  end.

Definition bad_group (v : pyval) : bool :=
  match v with
  | PStr s => String.eqb (py_strip s) "" || negb (String.eqb s (py_strip s))
  | _ => true
  end.
Definition group_names (l : list pyval) : list string := omap (fun v => match v with PStr s => Some s | _ => None end) l.
Definition _claim_values (claims : attrs) : res (list string) :=
  match _configured_groups_claim_name with
  | None => reject "Invalid OIDC groups claim configuration."
  | Some claim_name =>
      Ok (match vget claim_name claims with
          | PList claim => if existsb bad_group claim then [] else group_names claim
          | _ => []
          end)
  end.
Definition meets (a b : list string) : bool := existsb (fun x => mem x b) a.

(** The claims of an active token, or the refusal. *)
Definition introspected (token : string) : res attrs :=
  match introspect token with
  | Raise e =>
      match e with
      | HTTPError | TypeError => reject "OIDC token validation failed."
      | e => if is_value_error e then reject "OIDC token validation failed." else Raise e
      end
  | Ok (PDict claims) =>
      match vget "active" claims with PBool true => Ok claims | _ => reject "Invalid bearer token." end
  | Ok _ => reject "Invalid bearer token."
  end.
Definition audiences (claims : attrs) : res (list string) :=
  match vget "aud" claims with
  | PStr audience => Ok [audience]
  | PList audience => mapM_res py_str audience
  | _ => Ok []
  end.
Definition stable_subject (claims : attrs) : option string :=
  match vget "sub" claims with
  | PStr subject =>
      if String.eqb subject "" || negb (String.eqb subject (py_strip subject)) || (255 <? py_len subject) || has_byte 0 subject
      then None else Some subject
  | _ => None
  end.
(** The first of the names that has a value, as text. *)
Fixpoint display_name (names : list string) (subject : string) (claims : attrs) : res string :=
  match names with
  | [] => Ok subject
  | name :: names => if truthy (vget name claims) then py_str (vget name claims) else display_name names subject claims
  end.

Definition _authenticate_oidc (token : string) : res (option SettingsTokenUser) :=
  if String.eqb (py_strip (DEALHOST_OIDC_INTROSPECTION_URL st)) "" then Ok None
  else
    claims ← introspected token;
    if negb (eq_str (vget "iss" claims) (DEALHOST_OIDC_ISSUER st)) then reject "Invalid bearer token issuer."
    else
      audiences ← audiences claims;
      if negb (mem (DEALHOST_OIDC_AUDIENCE st) audiences) then reject "Invalid bearer token audience."
      else
        authorization_groups ← _claim_values claims;
        let is_admin := meets authorization_groups (DEALHOST_OIDC_ADMIN_GROUPS st) in
        if negb is_admin && negb (meets authorization_groups (DEALHOST_OIDC_READ_GROUPS st))
        then reject "Bearer token has no authorized group."
        else
          match stable_subject claims with
          | None => reject "Bearer token has no stable subject."
          | Some subject =>
              username ← display_name ["preferred_username"; "email"] subject claims;
              Ok (Some {| username := username; token_is_staff := is_admin; token_is_superuser := is_admin;
                          oidc_issuer := Some (DEALHOST_OIDC_ISSUER st); oidc_subject := Some subject;
                          token_groups := authorization_groups |})
          end.

Definition static_user (name : string) (admin : bool) : SettingsTokenUser :=
  {| username := name; token_is_staff := admin; token_is_superuser := admin; oidc_issuer := None; oidc_subject := None;
     token_groups := [] |}.
(** [header] are the bytes of the Authorization header; [Ok None] leaves the request to
    the next authenticator. *)
Definition authenticate (header : string) : res (option (SettingsTokenUser * string)) :=
  match byte_words "" header with
  | [] => Ok None
  | keyword :: rest =>
      if negb (String.eqb (map_bytes lower_ascii keyword) "bearer") then Ok None
      else
        match rest with
        | [raw] =>
            match decode_utf8 raw with
            | Raise UnicodeDecodeError => reject "Invalid bearer token encoding."
            | Raise e => Raise e
            | Ok token =>
                admin ← _matches token (DEALHOST_ADMIN_API_TOKENS st);
                if admin : bool then Ok (Some (static_user "dealhost-admin-token" true, token))
                else
                  api ← _matches token (DEALHOST_API_TOKENS st);
                  if api : bool then Ok (Some (static_user "dealhost-api-token" false, token))
                  else
                    oidc_user ← _authenticate_oidc token;
                    match oidc_user with
                    | Some u => Ok (Some (u, token))
                    | None => reject "Invalid bearer token."
                    end
            end
        | _ => reject "Invalid bearer token header."
        end
  end.

(** What the dataset views and the permissions read of the user. *)
Definition viewer_of (u : SettingsTokenUser) : res viewer :=
  name ← acl_name u;
  Ok {| is_staff := token_is_staff u; viewer_pk := None; acl_username := name; oidc_groups := token_groups u |}.
Definition account_of (u : SettingsTokenUser) : account :=
  {| is_authenticated := true; account_staff := token_is_staff u; is_superuser := token_is_superuser u |}.
End Authentication.
