(* ===== verification/IdentitySpec.v ===== *)
(** Properties of bearer authentication and of OIDC issuers: what grants a caller its
    privileges, that a local name belongs to one identity, and the one form an accepted
    issuer has. *)

From S2P Require Import Prelude PyValue Regex Sha256 PyText Wire Url Ip HostingViews Identity.
#[local] Open Scope list_scope.
#[local] Open Scope string_scope.
#[local] Open Scope Z_scope.

(** ** Local names *)
Definition identity_text (issuer subject : string) : string := issuer ++ bytes [0] ++ subject.
(** Two texts that show SHA-256 is not injective. *)
Definition collision (x y : string) : Prop := x <> y /\ sha256_hex x = sha256_hex y.

Lemma derive_Ok (issuer subject name : string) :
  derive_oidc_acl_username issuer subject = Ok name <->
  has_surrogate (identity_text issuer subject) = false /\ name = "oidc:" ++ sha256_hex (identity_text issuer subject).
Proof.
  unfold derive_oidc_acl_username, encode_utf8, identity_text. destruct (has_surrogate _); naive_solver.
Qed.
Lemma derived_name_visible (issuer subject name : string) :
  derive_oidc_acl_username issuer subject = Ok name -> all_bytes visible name = true /\ name <> "".
Proof.
  intros (_ & ->)%derive_Ok. split; [|done]. cbn [String.append]. change (all_bytes visible (sha256_hex (identity_text issuer subject)) = true).
  eapply all_bytes_impl; [|apply sha256_hex_bytes]. intros a. destruct a as [[] [] [] [] [] [] [] []]; vm_compute; congruence.
Qed.
Lemma last_nul (i i' s s' : string) :
  has_byte 0 s = false -> has_byte 0 s' = false -> identity_text i s = identity_text i' s' -> i = i' /\ s = s'.
Proof.
  assert (forall r t, has_byte 0 (r ++ String "000" t) = true) as K.
  { intros r t. unfold has_byte. induction r as [|a r IH]; [done|]. cbn. cbn in IH. rewrite IH. apply orb_true_r. }
  intros Hs Hs'. unfold identity_text. change (bytes [0] ++ s) with (String "000" s). change (bytes [0] ++ s') with (String "000" s').
  revert i'. induction i as [|a i IH]; intros [|a' i'].
  - by intros [= ->].
  - cbn. intros [= <- E]. by rewrite E, K in Hs.
  - cbn. intros [= -> E]. by rewrite <- E, K in Hs'.
  - cbn. intros [= <- E]. destruct (IH i' E) as (-> & ->). done.
Qed.

(** A name belongs to one identity, up to a collision of SHA-256. *)
Lemma derived_personal (issuer subject issuer' subject' name : string) :
  derive_oidc_acl_username issuer subject = Ok name -> derive_oidc_acl_username issuer' subject' = Ok name ->
  has_byte 0 subject = false -> has_byte 0 subject' = false ->
  (issuer = issuer' /\ subject = subject') \/ collision (identity_text issuer subject) (identity_text issuer' subject').
Proof.
  intros (_ & E)%derive_Ok (_ & E')%derive_Ok Hs Hs'. subst name. apply append_inj_l in E'.
  destruct (decide (identity_text issuer subject = identity_text issuer' subject')) as [Et|Hne].
  - left. by apply last_nul.
  - right. by split.
Qed.
(** ** Authentication *)
Section Authentication.
Context `{UnicodeData} `{CaseFold} (st : host_settings).
Variable introspect : string -> res pyval.

Lemma matches_true (token : string) (l : list string) :
  _matches token l = Ok true -> token ∈ l /\ token <> "".
Proof.
  induction l as [|c l IH]; [done|]. cbn. destruct (String.eqb_spec c "") as [|Hc].
  - intros K. destruct (IH K). split; [by right|done].
  - unfold compare_digest. destruct (all_bytes is_ascii token && all_bytes is_ascii c); [|done]. cbn.
    destruct (String.eqb_spec token c) as [->|].
    + intros _. split; [by left|done].
    + intros K. destruct (IH K). split; [by right|done].
Qed.
Lemma matches_false (token : string) (l : list string) : _matches token l = Ok false -> token = "" \/ token ∉ l.
Proof.
  induction l as [|c l IH]; [right; apply not_elem_of_nil|]. cbn. destruct (String.eqb_spec c "") as [->|Hc].
  - intros K. destruct (IH K) as [->|Hn]; [by left|]. destruct (decide (token = "")) as [|Ht]; [by left|].
    right. rewrite not_elem_of_cons. done.
  - unfold compare_digest. destruct (all_bytes is_ascii token && all_bytes is_ascii c); [|done]. cbn.
    destruct (String.eqb_spec token c) as [->|Ht]; [done|]. intros K.
    destruct (IH K) as [->|Hn]; [by left|]. right. rewrite not_elem_of_cons. done.
Qed.
Lemma byte_words_nonempty (w s : string) : Forall (fun x => x <> "") (byte_words w s).
Proof.
  revert w. induction s as [|a s IH]; intros w; cbn.
  - destruct (String.eqb_spec w ""); repeat constructor; done.
  - destruct (byte_space a); [|apply IH]. apply Forall_app. split; [|apply IH].
    destruct (String.eqb_spec w ""); repeat constructor; done.
Qed.
Lemma meets_spec (a b : list string) : meets a b = true <-> exists x, x ∈ a /\ x ∈ b.
Proof.
  unfold meets, mem. rewrite existsb_exists. split; intros (x & Hx & Hb); exists x.
  - apply existsb_exists in Hb as (y & Hy & <-%String.eqb_eq). by rewrite !list_elem_of_In.
  - rewrite list_elem_of_In in Hx, Hb. split; [done|]. apply existsb_exists. exists x. by rewrite String.eqb_refl.
Qed.

(** What an introspected token of this user says. *)
Record vouched (token : string) (u : SettingsTokenUser) (subject : string) (groups : list string) : Prop := {
  vouched_claims : exists claims, introspect token = Ok (PDict claims) /\
    vget "active" claims = PBool true /\
    vget "iss" claims = PStr (DEALHOST_OIDC_ISSUER st) /\
    (exists l, audiences claims = Ok l /\ DEALHOST_OIDC_AUDIENCE st ∈ l) /\
    _claim_values st claims = Ok groups /\
    vget "sub" claims = PStr subject;
  vouched_subject : subject <> "" /\ py_strip subject = subject /\ has_byte 0 subject = false;
  vouched_staff : token_is_staff u = true <-> exists g, g ∈ groups /\ g ∈ DEALHOST_OIDC_ADMIN_GROUPS st;
  vouched_reader : exists g, g ∈ groups /\ g ∈ (DEALHOST_OIDC_ADMIN_GROUPS st ++ DEALHOST_OIDC_READ_GROUPS st)%list;
  vouched_user : token_is_superuser u = token_is_staff u /\ oidc_issuer u = Some (DEALHOST_OIDC_ISSUER st) /\
    oidc_subject u = Some subject /\ token_groups u = groups
}.

Lemma introspected_Ok (token : string) (claims : attrs) :
  introspected introspect token = Ok claims -> introspect token = Ok (PDict claims) /\ vget "active" claims = PBool true.
Proof.
  unfold introspected. destruct (introspect token) as [v|e].
  - destruct v; try done. destruct (vget "active" d) as [|[]| | | | |] eqn:E; try done. intros [= <-]. done.
  - destruct e; cbn; try done; repeat case_match; done.
Qed.
Lemma stable_subject_Some (claims : attrs) (s : string) :
  stable_subject claims = Some s ->
  vget "sub" claims = PStr s /\ s <> "" /\ py_strip s = s /\ has_byte 0 s = false.
Proof.
  unfold stable_subject. destruct (vget "sub" claims); try done.
  destruct (String.eqb_spec s0 ""); [done|]. destruct (String.eqb_spec s0 (py_strip s0)) as [E|]; [|done].
  destruct (255 <? py_len s0); [done|]. destruct (has_byte 0 s0) eqn:E0; [done|]. cbn. intros [= <-]. done.
Qed.
Lemma authenticate_oidc_Some (token : string) (u : SettingsTokenUser) :
  _authenticate_oidc st introspect token = Ok (Some u) -> exists subject groups, vouched token u subject groups.
Proof.
  unfold _authenticate_oidc. destruct (String.eqb _ ""); [done|].
  intros (claims & (Hi & Ha)%introspected_Ok & K)%bind_Ok.
  destruct (eq_str (vget "iss" claims) _) eqn:Eiss; [|done]. cbn [negb] in K.
  apply bind_Ok in K as (aud & Eaud & K). destruct (mem _ aud) eqn:Em; [|done]. cbn [negb] in K.
  apply bind_Ok in K as (groups & Eg & K).
  destruct (negb (meets groups (DEALHOST_OIDC_ADMIN_GROUPS st)) && negb (meets groups (DEALHOST_OIDC_READ_GROUPS st))) eqn:Er; [done|].
  destruct (stable_subject claims) as [subject|] eqn:Es; [|done].
  apply stable_subject_Some in Es as (Es & Hs). apply bind_Ok in K as (name & _ & [= <-]).
  exists subject, groups. constructor; cbn.
  - exists claims. split_and!; try done.
    + destruct (vget "iss" claims); try done. cbn in Eiss. apply String.eqb_eq in Eiss. by subst.
    + exists aud. split; [done|]. unfold mem in Em. apply existsb_exists in Em as (y & Hy & <-%String.eqb_eq).
      by rewrite list_elem_of_In.
  - done.
  - apply meets_spec.
  - apply andb_false_iff in Er as [Er|Er]; apply negb_false_iff, meets_spec in Er as (g & Hg & Hb);
      exists g; rewrite elem_of_app; auto.
  - done.
Qed.

(** C19: an authenticated bearer is an administrator token of the settings, or a service
    token of the settings, which has no privilege, or the token of an active OIDC session for
    this issuer and audience, in an authorized group, with a stable subject; and of the
    latter exactly the members of an administrator group are staff. *)
Theorem privilege_has_authority (header token : string) (u : SettingsTokenUser) :
  authenticate st introspect header = Ok (Some (u, token)) ->
  token <> "" /\
  ((token ∈ DEALHOST_ADMIN_API_TOKENS st /\ u = static_user "dealhost-admin-token" true) \/
   (token ∉ DEALHOST_ADMIN_API_TOKENS st /\ token ∈ DEALHOST_API_TOKENS st /\ u = static_user "dealhost-api-token" false) \/
   (token ∉ DEALHOST_ADMIN_API_TOKENS st /\ token ∉ DEALHOST_API_TOKENS st /\ exists subject groups, vouched token u subject groups)).
Proof.
  unfold authenticate. pose proof (byte_words_nonempty "" header) as Hw.
  destruct (byte_words "" header) as [|keyword [|raw [|? ?]]]; try done; destruct (negb _); try done.
  apply Forall_cons in Hw as [_ Hw]. apply Forall_cons in Hw as [Hraw _].
  unfold decode_utf8. destruct (utf8_valid raw); [|done].
  intros (admin & Ea & K)%bind_Ok. destruct admin.
  { injection K as <- <-. apply matches_true in Ea as [Ea Hn]. split; [done|]. by left. }
  apply bind_Ok in K as (api & Ep & K). destruct api.
  { injection K as <- <-. apply matches_true in Ep as [Ep Hn]. apply matches_false in Ea as [|Ea]; [done|].
    split; [done|]. right. by left. }
  apply bind_Ok in K as (o & Eo & K). destruct o as [v|]; [|done]. injection K as <- <-.
  apply matches_false in Ea as [|Ea]; [done|]. apply matches_false in Ep as [|Ep]; [done|].
  split; [done|]. right. right. split_and!; [done..|]. by apply authenticate_oidc_Some.
Qed.

(** The local name of a vouched user. *)
Lemma vouched_acl_name (token : string) (u : SettingsTokenUser) (subject : string) (groups : list string) :
  vouched token u subject groups -> DEALHOST_OIDC_ISSUER st <> "" ->
  acl_name u = derive_oidc_acl_username (DEALHOST_OIDC_ISSUER st) subject.
Proof.
  intros [_ (Hs & _) _ _ (_ & Ei & Es & _)] Hi. unfold acl_name. rewrite Ei, Es.
  destruct (String.eqb_spec (DEALHOST_OIDC_ISSUER st) ""); [done|]. by destruct (String.eqb_spec subject "").
Qed.
End Authentication.

(** ** Issuers *)
Section Issuer.
Context `{UnicodeData} `{CaseFold} `{NetlocRules} `{Idna} `{MappedText}.

Lemma split_on_spec (c d : ascii) (s : string) :
  without c (split_on c s).1 /\ (without d s -> without d (split_on c s).1).
Proof.
  unfold split_on. destruct (partition c s) as [[x y]|] eqn:E; cbn.
  - revert x y E. induction s as [|a s IH]; intros x y; [done|]. cbn. destruct (Ascii.eqb_spec a c) as [->|Ha].
    + intros [= <- <-]. done.
    + destruct (partition c s) as [[x' y']|]; [|done]. intros [= <- <-]. destruct (IH x' y' eq_refl) as (I1 & I2).
      unfold without in *. cbn. rewrite I1. destruct (Ascii.eqb_spec a c); [done|]. split; [done|].
      intros [Hd Hs]%andb_true_iff. by rewrite Hd, I2.
  - split; [|done]. revert E. unfold without. induction s as [|a s IH]; [done|]. cbn.
    destruct (Ascii.eqb a c); [done|]. destruct (partition c s) as [[? ?]|]; [done|]. intros _. by rewrite IH.
Qed.
Lemma urlsplit_path (text : string) (u : url) : urlsplit text = Ok u -> without "#" (path u) /\ without "?" (path u).
Proof.
  unfold urlsplit. destruct (split_scheme _) as [sch s1]. destruct (split_netloc s1) as [net s2].
  destruct (negb (netloc_ok net)); [done|]. destruct (split_on_spec "#" "#" s2) as (K & _).
  destruct (split_on "#" s2) as [s3 frag]. destruct (split_on_spec "?" "#" s3) as (K1 & K2).
  destruct (split_on "?" s3) as [s4 q]. intros [= <-]. cbn in *. auto.
Qed.
Lemma port_bound (n : Z) (u : url) : port u = Ok (Some n) -> 0 <= n <= 65535.
Proof.
  unfold port. destruct (hostinfo u) as [h [d|]]; [|done]. cbn [snd].
  destruct (all_bytes is_digit d && negb (String.eqb d "")) eqn:E; [|done].
  destruct (int_max_str_digits <? byte_len d); [done|]. destruct (Z.leb_spec (digits_value d) 65535); [|done].
  intros [= <-]. split; [|done]. apply andb_true_iff in E as [E _]. unfold digits_value.
  rewrite all_bytes_string in E. revert E. generalize (list_ascii_of_string d). intros l.
  assert (forall m, 0 <= m -> forallb is_digit l = true -> 0 <= fold_left (fun m a => 10 * m + (code a - 48)) l m) as K; [|by apply K].
  induction l as [|a l IH]; intros m Hm; cbn; [done|]. intros [Ha Hl]%andb_true_iff. apply IH; [|done]. unfold is_digit in Ha. lia.
Qed.

(** The host names an issuer may have. *)
Definition issuer_host (host : string) : Prop :=
  (exists a, host = address_text a) \/
  (byte_len host <= 253 /\ endswith "." host = false /\ Forall (matches DNS_LABEL) (py_split "." host)).
Lemma canonical_host_Ok (hostname host : string) : canonical_host hostname = Ok host -> issuer_host host.
Proof.
  unfold canonical_host. destruct (ip_address hostname) as [a|]; [intros [= <-]; left; by exists a|].
  destruct (idna_lower hostname) as [h|]; [|done]. destruct (endswith "." h) eqn:Ee; [done|].
  destruct (Z.ltb_spec 253 (byte_len h)); [done|]. cbn [orb]. destruct (existsb _ _) eqn:El; [done|]. intros [= <-].
  right. split_and!; [lia|done|]. apply Forall_forall. intros l Hl. apply fullmatch_spec.
  destruct (fullmatch DNS_LABEL l) eqn:E; [done|]. exfalso. apply not_true_iff_false in El. apply El, existsb_exists.
  exists l. rewrite E. split; [by apply list_elem_of_In|done].
Qed.

Lemma issuer_has_one_form' (value issuer : string) : validate_canonical_oidc_issuer value = Ok issuer -> issuer = value.
Proof.
  unfold validate_canonical_oidc_issuer. intros E.
  assert (forall b (m : res string), (if b : bool then m else Ok value) = Ok issuer -> issuer = value \/ m = Ok issuer) as K.
  { intros [] m Em; [by right|]. injection Em as <-. by left. }
  repeat (case_match; try discriminate E).
  apply bind_Ok in E as (host & _ & E). by apply K in E as [->|].
Qed.

(** An accepted issuer is returned as it is, and is the one HTTPS text of its host, port
    and path: the host is a canonical address or a lower-case DNS name, the default port and
    user information do not occur, and the path holds no query, fragment, backslash, empty or
    dot segment. *)
Theorem issuer_has_one_form (value issuer : string) :
  validate_canonical_oidc_issuer value = Ok issuer ->
  issuer = value /\
  exists host port path,
    value = https_url (canonical_netloc host port) path /\ issuer_host host /\
    (forall n, port = Some n -> 0 <= n <= 65535 /\ n <> 443) /\
    without "?" path /\ without "#" path /\ contains "//" path = false /\ has_byte 92 path = false /\
    Forall (fun segment => is_dot_segment segment = false) (py_split "/" path).
Proof.
  unfold validate_canonical_oidc_issuer. destruct (String.eqb value "" || _); [done|].
  destruct (urlsplit value) as [u|e] eqn:Eu; cbn [mbind res_bind]; [|by destruct (is_value_error e)].
  destruct (port u) as [p|e] eqn:Ep; cbn [mbind res_bind]; [|by destruct (is_value_error e)].
  destruct (negb (String.eqb (scheme u) "https")); [done|]. destruct (hostname u) as [hostname|]; [|done].
  destruct (has_userinfo u); [done|]. destruct (has_byte 37 (netloc u)); [done|]. destruct (_ || _); [done|].
  destruct (bool_decide_reflect (p = Some 443)) as [|Hp]; [done|].
  destruct (has_byte 92 (path u)) eqn:Eb; [done|]. destruct (contains "//" (path u)) eqn:Es; [done|]. cbn [orb].
  destruct (existsb is_dot_segment _) eqn:Ed; [done|]. intros (host & Eh & K)%bind_Ok.
  destruct (String.eqb_spec (https_url (canonical_netloc host p) (path u)) value) as [Ev|]; [|done]. injection K as <-.
  apply urlsplit_path in Eu as (Ef & Eq). split; [done|]. exists host, p, (path u).
  split_and!; try done.
  - by eapply canonical_host_Ok.
  - intros n ->. split; [by eapply port_bound; exact Ep|]. naive_solver.
  - apply Forall_forall. intros s Hs. destruct (is_dot_segment s) eqn:E; [|done]. exfalso. apply not_true_iff_false in Ed.
    apply Ed, existsb_exists. exists s. by rewrite <- list_elem_of_In.
Qed.

(** Two settings that pass agree on the issuer. *)
Lemma approved_issuer (value approved issuer : string) :
  validate_approved_oidc_issuer value approved = Ok issuer -> issuer = value /\ approved = value /\ approved <> "".
Proof.
  unfold validate_approved_oidc_issuer. intros (v & Ev & K)%bind_Ok. apply issuer_has_one_form' in Ev as ->.
  destruct (String.eqb_spec approved "") as [|Ha]; [done|].
  destruct (validate_canonical_oidc_issuer approved) as [a|e] eqn:Ea; [|by destruct (is_value_error e)].
  apply issuer_has_one_form' in Ea as ->. destruct (String.eqb_spec value approved) as [<-|]; [|done]. cbn in K.
  by injection K as <-.
Qed.
Lemma subject_Ok (value subject : string) :
  validate_oidc_subject value = Ok subject -> subject = value /\ value <> "" /\ py_strip value = value /\ has_byte 0 value = false.
Proof.
  unfold validate_oidc_subject. destruct (String.eqb_spec value ""); [done|].
  destruct (String.eqb_spec value (py_strip value)); [|done]. cbn. destruct (has_byte 0 value) eqn:E; [done|]. by intros [= <-].
Qed.
End Issuer.
