(* ===== verification/Iam.v ===== *)
(** Local accounts and the OIDC identities bound to them
    (src/components/DEALHost/apps/iam/services.py, views.py, models.py and serializers.py).

    The database is the table of users, the table of identities and the catalogue, whose
    datasets refer to users.  A transaction restores the tables when an exception leaves it.
    Looking up an identity that does not exist locks no row, so other transactions may commit
    between that lookup and the insertion: they are the parameter [gap]. *)

From stdpp Require Import gmap strings sorting.
From S2P Require Import Prelude PyValue Regex Sha256 PyText Wire Url Ip Release Gateway GatewayViews Catalog HostingViews Identity.
#[local] Open Scope list_scope.
#[local] Open Scope string_scope.
#[local] Open Scope Z_scope.

(** ** Tables *)
(** A row of [User]; [None] is an unusable password. *)
Record user_account := {
  ua_pk : Z;
  ua_username : string;
  ua_email : string;
  ua_first_name : string;
  ua_last_name : string;
  ua_active : bool;
  ua_staff : bool;
  ua_superuser : bool;
  ua_password : option string;
  ua_groups : list Z;
  ua_permissions : list Z
}.
Record OIDCAclIdentity := {
  id_pk : Z;
  id_user : Z;
  id_issuer : string;
  id_subject : string;
  id_display_name : string;
  id_email : string;
  id_created_at : Z;
  id_updated_at : Z
}.
Record iam := { accounts : list user_account; identities : list OIDCAclIdentity; host : catalogue }.
Definition with_accounts (l : list user_account) (d : iam) : iam :=
  {| accounts := l; identities := identities d; host := host d |}.
Definition with_identities (l : list OIDCAclIdentity) (d : iam) : iam :=
  {| accounts := accounts d; identities := l; host := host d |}.
Definition with_host (c : catalogue) (d : iam) : iam :=
  {| accounts := accounts d; identities := identities d; host := c |}.
(** The columns the dataset views read. *)
Definition row_of (x : user_account) : user_row :=
  {| u_pk := ua_pk x; u_username := ua_username x; u_active := ua_active x; u_superuser := ua_superuser x;
     u_groups := ua_groups x |}.

Definition transaction {A} (m : M iam A) : M iam A :=
  fun d => match m d with
           | (Raise e, d') => (Raise e, with_host (with_log (log (host d')) (host d)) d)
           | r => r
           end.
Definition query {A} (f : iam -> A) : M iam A := fun d => (Ok (f d), d).
Definition update_tables (f : iam -> iam) : M iam unit := fun d => (Ok tt, f d).

Definition find_account (pk : Z) (l : list user_account) : option user_account := List.find (fun x => ua_pk x =? pk) l.
Definition put_account (x : user_account) (l : list user_account) : list user_account :=
  map (fun y => if ua_pk y =? ua_pk x then x else y) l.
Definition username_taken (name : string) (d : iam) : bool := existsb (fun x => String.eqb (ua_username x) name) (accounts d).
Definition find_identity (issuer subject : string) (l : list OIDCAclIdentity) : option OIDCAclIdentity :=
  List.find (fun i => String.eqb (id_issuer i) issuer && String.eqb (id_subject i) subject) l.
Definition put_identity (i : OIDCAclIdentity) (l : list OIDCAclIdentity) : list OIDCAclIdentity :=
  map (fun j => if id_pk j =? id_pk i then i else j) l.

(** *** Unique columns *)
Definition account_conflict (x : user_account) (l : list user_account) : bool :=
  existsb (fun y => negb (ua_pk y =? ua_pk x) && String.eqb (ua_username y) (ua_username x)) l.
Definition insert_account (x : user_account) : M iam unit :=
  fun d => if account_conflict x (accounts d) then (Raise IntegrityError, d)
           else (Ok tt, with_accounts (accounts d ++ [x])%list d).
Definition save_account (x : user_account) : M iam unit :=
  fun d => if account_conflict x (accounts d) then (Raise IntegrityError, d)
           else (Ok tt, with_accounts (put_account x (accounts d)) d).
Definition insert_identity (i : OIDCAclIdentity) : M iam unit :=
  fun d => if existsb (fun j => (id_user j =? id_user i) ||
                                (String.eqb (id_issuer j) (id_issuer i) && String.eqb (id_subject j) (id_subject i))) (identities d)
           then (Raise IntegrityError, d)
           else (Ok tt, with_identities (identities d ++ [i])%list d).

(** [try: m; except: handler]. *)
Definition try_except {A} (m : M iam A) (handler : pyexn -> M iam A) : M iam A :=
  fun d => match m d with (Raise e, d) => handler e d | r => r end.

(** ** services.py *)
Record OIDCAclProvisioningResult := { identity : OIDCAclIdentity; created : bool; metadata_updated : bool }.
Record OIDCAclDeprovisioningResult := { result_identity_id : Z; result_user_id : Z; result_acl_username : string }.
Definition conflict {A} (detail : string) : M iam A := raise (OIDCAclIdentityConflict detail).

(** [identity.user] is the account of the row. *)
Definition _assert_consistent_binding (user : user_account) (expected_username : string) : M iam unit :=
  if negb (String.eqb (ua_username user) expected_username)
  then conflict "The existing OIDC identity is linked to an unexpected ACL username."
  else if bool_decide (is_Some (ua_password user)) || ua_staff user || ua_superuser user
  then conflict "The existing OIDC identity is not bound to an unprivileged passwordless user."
  else mret tt.
Definition bound_user (i : OIDCAclIdentity) : M iam user_account :=
  user ← query (fun d => find_account (id_user i) (accounts d));
  match user with Some user => mret user | None => raise DoesNotExist end.

Definition set_display_name (v : string) (i : OIDCAclIdentity) : OIDCAclIdentity :=
  {| id_pk := id_pk i; id_user := id_user i; id_issuer := id_issuer i; id_subject := id_subject i;
     id_display_name := v; id_email := id_email i; id_created_at := id_created_at i; id_updated_at := id_updated_at i |}.
Definition set_email (v : string) (i : OIDCAclIdentity) : OIDCAclIdentity :=
  {| id_pk := id_pk i; id_user := id_user i; id_issuer := id_issuer i; id_subject := id_subject i;
     id_display_name := id_display_name i; id_email := v; id_created_at := id_created_at i; id_updated_at := id_updated_at i |}.
Definition set_updated_at (v : Z) (i : OIDCAclIdentity) : OIDCAclIdentity :=
  {| id_pk := id_pk i; id_user := id_user i; id_issuer := id_issuer i; id_subject := id_subject i;
     id_display_name := id_display_name i; id_email := id_email i; id_created_at := id_created_at i; id_updated_at := v |}.
(** [value is not None and getattr(identity, field) != value]. *)
Definition differs (value : option string) (current : string) : bool :=
  match value with Some v => negb (String.eqb current v) | None => false end.
Definition _refresh_metadata (now : Z) (display_name email : option string) (i : OIDCAclIdentity) : M iam (OIDCAclIdentity * bool) :=
  let name_changed := differs display_name (id_display_name i) in
  let email_changed := differs email (id_email i) in
  let i := if name_changed then set_display_name (default "" display_name) i else i in
  let i := if email_changed then set_email (default "" email) i else i in
  if name_changed || email_changed then
    let saved := set_updated_at now i in
    _ ← update_tables (fun d => with_identities (put_identity saved (identities d)) d);
    mret (saved, true)
  else mret (i, false).

(** An identity that exists: checked, and its metadata refreshed. *)
Definition existing_identity (now : Z) (expected_username : string) (display_name email : option string) (i : OIDCAclIdentity)
    : M iam OIDCAclProvisioningResult :=
  user ← bound_user i;
  _ ← _assert_consistent_binding user expected_username;
  refreshed ← _refresh_metadata now display_name email i;
  mret {| identity := refreshed.1; created := false; metadata_updated := refreshed.2 |}.
Definition acl_account (pk : Z) (name : string) : user_account :=
  {| ua_pk := pk; ua_username := name; ua_email := ""; ua_first_name := ""; ua_last_name := ""; ua_active := true;
     ua_staff := false; ua_superuser := false; ua_password := None; ua_groups := []; ua_permissions := [] |}.
Definition new_identity (now pk user_pk : Z) (issuer subject : string) (display_name email : option string) : OIDCAclIdentity :=
  {| id_pk := pk; id_user := user_pk; id_issuer := issuer; id_subject := subject; id_display_name := default "" display_name;
     id_email := default "" email; id_created_at := now; id_updated_at := now |}.

(** The keys the database gives to new rows, and the clock. *)
Record new_keys := { user_key : Z; identity_key : Z; clock : Z }.
Definition _provision_once (gap : iam -> iam) (k : new_keys) (issuer subject : string) (display_name email : option string)
    : M iam OIDCAclProvisioningResult :=
  expected_username ← lift (derive_oidc_acl_username issuer subject);
  found ← query (fun d => find_identity issuer subject (identities d));
  match found with
  | Some i => transaction (existing_identity (clock k) expected_username display_name email i)
  | None =>
      taken ← query (username_taken expected_username);
      if taken : bool then conflict "The derived ACL username is already owned by another Django user."
      else
        _ ← update_tables gap;
        let i := new_identity (clock k) (identity_key k) (user_key k) issuer subject display_name email in
        transaction (
          _ ← insert_account (acl_account (user_key k) expected_username);
          _ ← insert_identity i;
          mret {| identity := i; created := true; metadata_updated := false |})
  end.

Section Services.
Context `{UnicodeData} `{CaseFold} `{NetlocRules} `{Idna} `{MappedText} (st : host_settings).

(** The second attempt, after the insertion lost a race; [gap] commits before it. *)
Definition _provision_again (gap : iam -> iam) (now : Z) (issuer subject : string) (display_name email : option string)
    : M iam OIDCAclProvisioningResult :=
  expected_username ← lift (derive_oidc_acl_username issuer subject);
  _ ← update_tables gap;
  transaction (
    found ← query (fun d => find_identity issuer subject (identities d));
    match found with
    | None =>
        taken ← query (username_taken expected_username);
        if taken : bool then conflict "The derived ACL username is already owned by another Django user."
        else raise IntegrityError
    | Some i => existing_identity now expected_username display_name email i
    end).
Definition provision_oidc_acl_identity (gap gap2 : iam -> iam) (k : new_keys) (issuer subject : string) (display_name email : option string)
    : M iam OIDCAclProvisioningResult :=
  issuer ← lift (validate_approved_oidc_issuer issuer (DEALHOST_OIDC_ISSUER st));
  subject ← lift (validate_oidc_subject subject);
  try_except (_provision_once gap k issuer subject display_name email) (fun e =>
    match e with
    | IntegrityError => _provision_again gap2 (clock k) issuer subject display_name email
    | e => raise e
    end).

Definition has_acl (pk : Z) (d : iam) : bool := existsb (fun ds => existsb (Z.eqb pk) (ds_users ds)) (datasets (host d)).
Definition blockers (user : user_account) (d : iam) : list string :=
  ((if has_acl (ua_pk user) d then ["dataset_acl"] else []) ++
   (if bool_decide (ua_groups user = []) then [] else ["groups"]) ++
   (if bool_decide (ua_permissions user = []) then [] else ["user_permissions"]))%list.
Definition deprovision_oidc_acl_identity (identity_id : Z) : M iam OIDCAclDeprovisioningResult :=
  transaction (
    found ← query (fun d => List.find (fun i => id_pk i =? identity_id) (identities d));
    match found with
    | None => raise DoesNotExist
    | Some i =>
        user ← bound_user i;
        expected_username ← lift (derive_oidc_acl_username (id_issuer i) (id_subject i));
        _ ← _assert_consistent_binding user expected_username;
        blocked ← query (blockers user);
        if negb (bool_decide (blocked = []))
        then conflict ("The OIDC ACL identity is still referenced by access-control assignments: "
                       ++ String.concat ", " blocked ++ ".")
        else
          _ ← update_tables (fun d => with_identities (List.filter (fun j => negb (id_pk j =? id_pk i)) (identities d)) d);
          _ ← update_tables (fun d => with_accounts (List.filter (fun x => negb (ua_pk x =? ua_pk user)) (accounts d)) d);
          mret {| result_identity_id := id_pk i; result_user_id := ua_pk user; result_acl_username := ua_username user |}
    end).
End Services.

(** ** serializers.py *)
(** The values the framework's fields accept, and what its serializers write. *)
Record provision_data := { pd_issuer : string; pd_subject : string; pd_display_name : option string; pd_email : option string }.
Record user_changes := {
  uc_username : option string; uc_email : option string; uc_first_name : option string; uc_last_name : option string;
  uc_active : option bool; uc_staff : option bool; uc_superuser : option bool;
  uc_groups : option (list Z); uc_permissions : option (list Z)
}.
Class UserSerializers := {
  provision_fields : pyval -> res provision_data;
  (** [UserSerializer] on a user: whether partial, and with the validators of the username. *)
  user_fields : iam -> user_account -> bool -> bool -> pyval -> res user_changes;
  (** [UserCreateSerializer]: the values and the password. *)
  user_create_fields : iam -> pyval -> res (user_changes * string);
  (** [PasswordChangeSerializer]. *)
  password_field : user_account -> pyval -> res string;
  make_password : string -> string;
  normalize_username : string -> string;
  normalize_email : string -> string;
  user_json : iam -> user_account -> pyval;
  identity_json : iam -> OIDCAclIdentity -> attrs
}.
Definition PROVISION_FIELDS : list string := ["issuer"; "subject"; "display_name"; "email"].

Section Views.
Context `{UnicodeData} `{CaseFold} `{NetlocRules} `{Idna} `{MappedText} `{UserSerializers} (st : host_settings).
Variable bus : string -> attrs -> res unit.
Variable exception_text : pyexn -> string.

(** The framework reports the errors of all fields together; the first stands for them. *)
Definition invalid {A} (r : res A) : res A :=
  match r with Raise e => if is_value_error e then Raise (ValidationError (exception_text e)) else Raise e | r => r end.
Definition provision_serializer (request_data : pyval) : res provision_data :=
  _ ← match request_data with
      | PDict d => raise_if (negb (bool_decide (set_diff (keys d) PROVISION_FIELDS = []))) (ValidationError "Unsupported field")
      | _ => Ok tt
      end;
  p ← provision_fields request_data;
  issuer ← invalid (validate_approved_oidc_issuer (pd_issuer p) (DEALHOST_OIDC_ISSUER st));
  subject ← invalid (validate_oidc_subject (pd_subject p));
  Ok {| pd_issuer := issuer; pd_subject := subject; pd_display_name := pd_display_name p; pd_email := pd_email p |}.

(** [setattr] of every validated field. *)
Definition changed (c : user_changes) (x : user_account) : user_account :=
  {| ua_pk := ua_pk x; ua_username := default (ua_username x) (uc_username c); ua_email := default (ua_email x) (uc_email c);
     ua_first_name := default (ua_first_name x) (uc_first_name c); ua_last_name := default (ua_last_name x) (uc_last_name c);
     ua_active := default (ua_active x) (uc_active c); ua_staff := default (ua_staff x) (uc_staff c);
     ua_superuser := default (ua_superuser x) (uc_superuser c); ua_password := ua_password x;
     ua_groups := default (ua_groups x) (uc_groups c); ua_permissions := default (ua_permissions x) (uc_permissions c) |}.
(** [User.objects.create_user]. *)
Definition created_account (pk : Z) (c : user_changes) (password : string) : user_account :=
  let x := changed c {| ua_pk := pk; ua_username := ""; ua_email := ""; ua_first_name := ""; ua_last_name := ""; ua_active := true;
                        ua_staff := false; ua_superuser := false; ua_password := Some (make_password password);
                        ua_groups := []; ua_permissions := [] |} in
  {| ua_pk := pk; ua_username := normalize_username (ua_username x); ua_email := normalize_email (ua_email x);
     ua_first_name := ua_first_name x; ua_last_name := ua_last_name x; ua_active := ua_active x; ua_staff := ua_staff x;
     ua_superuser := ua_superuser x; ua_password := ua_password x; ua_groups := ua_groups x; ua_permissions := ua_permissions x |}.
Definition set_password_of (password : string) (x : user_account) : user_account :=
  {| ua_pk := ua_pk x; ua_username := ua_username x; ua_email := ua_email x; ua_first_name := ua_first_name x;
     ua_last_name := ua_last_name x; ua_active := ua_active x; ua_staff := ua_staff x; ua_superuser := ua_superuser x;
     ua_password := Some (make_password password); ua_groups := ua_groups x; ua_permissions := ua_permissions x |}.

(** ** views.py *)
(** [q] keeps the rows of the search parameter of the request. *)
Definition user_object (q : user_account -> bool) (pk : Z) (f : user_account -> M iam response) : M iam response :=
  user ← query (fun d => find_account pk (List.filter q (accounts d)));
  match user with Some user => f user | None => mret not_found end.
Definition _is_oidc_acl_user (user : user_account) (d : iam) : bool := existsb (fun i => id_user i =? ua_pk user) (identities d).
Definition protected_fields (c : user_changes) (x : user_account) : list string :=
  ((if differs (uc_username c) (ua_username x) then ["username"] else []) ++
   (if from_option (fun b => negb (Bool.eqb b (ua_staff x))) false (uc_staff c) then ["is_staff"] else []) ++
   (if from_option (fun b => negb (Bool.eqb b (ua_superuser x))) false (uc_superuser c) then ["is_superuser"] else []))%list.

Definition create_user (pk : Z) (request_data : pyval) : M iam response :=
  fields ← (fun d => (user_create_fields d request_data, d));
  let user := created_account pk fields.1 fields.2 in
  _ ← insert_account user;
  d ← query (fun d => d);
  mret {| status := 201; data := user_json d user; extra_headers := [] |}.
Definition update_user (q : user_account -> bool) (pk : Z) (partial : bool) (request_data : pyval) : M iam response :=
  user_object q pk (fun user =>
    is_oidc_acl_user ← query (_is_oidc_acl_user user);
    validated_data ← (fun d => (user_fields d user partial (negb is_oidc_acl_user) request_data, d));
    let protected := protected_fields validated_data user in
    if is_oidc_acl_user && negb (bool_decide (protected = [])) then
      mret (reply 409 [("detail", PStr "Stable OIDC ACL users cannot change their username or privilege flags through the User API.");
                       ("protected_fields", PList (map PStr protected))])
    else
      let saved := changed validated_data user in
      _ ← save_account saved;
      d ← query (fun d => d);
      mret {| status := 200; data := user_json d saved; extra_headers := [] |}).
(** The rows of datasets that name the user go with it. *)
Definition revoke_user (pk : Z) (c : catalogue) : catalogue :=
  with_datasets (map (fun ds => {| ds_pk := ds_pk ds; ds_name := ds_name ds; ds_slug := ds_slug ds; ds_modules := ds_modules ds;
                                   ds_users := List.filter (fun n => negb (n =? pk)) (ds_users ds); ds_groups := ds_groups ds;
                                   ds_enabled := ds_enabled ds; ds_revision := ds_revision ds |}) (datasets c)) c.
Definition destroy_user (q : user_account -> bool) (pk : Z) : M iam response :=
  user_object q pk (fun user =>
    is_oidc_acl_user ← query (_is_oidc_acl_user user);
    if is_oidc_acl_user : bool then
      mret (reply 409 [("detail", PStr "This technical user is protected by an OIDC ACL identity and cannot be deleted through the User API.")])
    else
      _ ← update_tables (fun d => with_host (revoke_user pk (host d))
                                    (with_accounts (List.filter (fun x => negb (ua_pk x =? pk)) (accounts d)) d));
      mret no_content).
Definition set_password (q : user_account -> bool) (pk : Z) (request_data : pyval) : M iam response :=
  user_object q pk (fun user =>
    is_oidc_acl_user ← query (_is_oidc_acl_user user);
    if is_oidc_acl_user : bool then
      mret (reply 409 [("detail", PStr "Stable OIDC ACL users must remain without a usable password.")])
    else
      password ← lift (password_field user request_data);
      _ ← update_tables (fun d => with_accounts (put_account (set_password_of password user) (accounts d)) d);
      mret no_content).

Definition identity_conflict (detail : string) : response :=
  reply 409 [("detail", PStr detail); ("code", PStr "oidc_identity_conflict")].
Definition create_identity (gap gap2 : iam -> iam) (k : new_keys) (request_data : pyval) : M iam response :=
  p ← lift (provision_serializer request_data);
  result ← try_except
    (r ← provision_oidc_acl_identity st gap gap2 k (pd_issuer p) (pd_subject p) (pd_display_name p) (pd_email p); mret (inl r))
    (fun e => match e with OIDCAclIdentityConflict detail => mret (inr (identity_conflict detail)) | e => raise e end);
  match result with
  | inr r => mret r
  | inl result =>
      d ← query (fun d => d);
      mret (reply (if created result then 201 else 200)
        (identity_json d (identity result) ++
         [("created", PBool (created result)); ("metadata_updated", PBool (metadata_updated result))])%list)
  end.
Definition publish_deprovisioned (actor : string) (r : OIDCAclDeprovisioningResult) : M iam unit :=
  fun d =>
    let event := [("identity_id", PInt (result_identity_id r)); ("user_id", PInt (result_user_id r));
                  ("acl_username", PStr (result_acl_username r)); ("actor", PStr actor)] in
    (bus "iam.oidc_acl_identity.deprovisioned" event,
     with_host (with_log (log (host d) ++ [("iam.oidc_acl_identity.deprovisioned", event)])%list (host d)) d).
(** [actor] is the name of the caller. *)
Definition destroy_identity (q : OIDCAclIdentity -> bool) (actor : string) (pk : Z) (request_data : pyval) : M iam response :=
  if truthy request_data then
    mret (reply 400 [("detail", PStr "DELETE does not accept a request body."); ("code", PStr "delete_body_not_allowed")])
  else
    found ← query (fun d => List.find (fun i => id_pk i =? pk) (List.filter q (identities d)));
    match found with
    | None => mret not_found
    | Some i =>
        result ← try_except (r ← deprovision_oidc_acl_identity (id_pk i); mret (inl r))
          (fun e => match e with
                    | DoesNotExist => mret (inr not_found)
                    | OIDCAclIdentityConflict detail => mret (inr (identity_conflict detail))
                    | e => raise e
                    end);
        match result with
        | inr r => mret r
        | inl r =>
            _ ← publish_deprovisioned actor r;
            mret no_content
        end
    end.

(** [IsSuperUser]; a caller who is not authenticated is asked to. *)
Definition permission_denied (user : option account) : response :=
  if from_option is_authenticated false user
  then reply 403 [("detail", PStr "You do not have permission to perform this action.")]
  else reply 401 [("detail", PStr "Authentication credentials were not provided.")].
Definition for_super_users (user : option account) (m : M iam response) : M iam response :=
  if is_super_user user then m else mret (permission_denied user).
(** [OIDCAclIdentityViewSet.finalize_response]. *)
Definition no_store (r : response) : response :=
  {| status := status r; data := data r; extra_headers := (extra_headers r ++ [("Cache-Control", "no-store")])%list |}.
Definition identity_request (user : option account) (m : M iam response) : M iam response :=
  r ← for_super_users user m; mret (no_store r).
End Views.
