(* ===== verification/IamSpec.v ===== *)
(** Properties of the identities of the host: over any history of requests every identity
    stays bound to its own unprivileged account, concurrent provisioning agrees on one row, a
    token reaches the account provisioned for it and no other, and only identities without
    access are removed. *)

From stdpp Require Import gmap strings sorting.
From S2P Require Import Prelude PyValue Regex Sha256 PyText Wire Url Ip Release Gateway GatewayViews Catalog HostingViews Identity IdentitySpec Iam.
#[local] Open Scope list_scope.
#[local] Open Scope string_scope.
#[local] Open Scope Z_scope.

(** ** The invariant *)
(** The account [x] is what provisioning makes for the identity [i]. *)
Record bound (x : user_account) (i : OIDCAclIdentity) : Prop := {
  bound_key : ua_pk x = id_user i;
  bound_name : derive_oidc_acl_username (id_issuer i) (id_subject i) = Ok (ua_username x);
  bound_password : ua_password x = None;
  bound_privilege : ua_staff x = false /\ ua_superuser x = false;
  bound_subject : has_byte 0 (id_subject i) = false
}.
Record sound (d : iam) : Prop := {
  sound_account_keys : NoDup (map ua_pk (accounts d));
  sound_usernames : forall x y, x ∈ accounts d -> y ∈ accounts d -> ua_username x = ua_username y -> ua_pk x = ua_pk y;
  sound_identity_keys : NoDup (map id_pk (identities d));
  sound_users : forall i j, i ∈ identities d -> j ∈ identities d -> id_user i = id_user j -> id_pk i = id_pk j;
  sound_pairs : forall i j, i ∈ identities d -> j ∈ identities d -> id_issuer i = id_issuer j -> id_subject i = id_subject j ->
    id_pk i = id_pk j;
  sound_bound : forall i, i ∈ identities d -> exists x, x ∈ accounts d /\ bound x i
}.

(** *** Lists of rows *)
Lemma find_Some_elem {A} (f : A -> bool) (l : list A) (x : A) : List.find f l = Some x -> x ∈ l /\ f x = true.
Proof. intros K. apply List.find_some in K as [K1 K2]. by rewrite list_elem_of_In. Qed.
Lemma find_None_elem {A} (f : A -> bool) (l : list A) (x : A) : List.find f l = None -> x ∈ l -> f x = false.
Proof. intros K Hx. apply list_elem_of_In in Hx. exact (List.find_none _ _ K x Hx). Qed.
Lemma elem_filter {A} (f : A -> bool) (l : list A) (x : A) : x ∈ List.filter f l <-> x ∈ l /\ f x = true.
Proof. rewrite !list_elem_of_In. apply filter_In. Qed.
(** Rows are their keys. *)
Lemma same_row_key {A} (key : A -> Z) (l : list A) (x y : A) : NoDup (map key l) -> x ∈ l -> y ∈ l -> key x = key y -> x = y.
Proof.
  induction l as [|z l IH]; [by intros _ ?%not_elem_of_nil|]. cbn. rewrite NoDup_cons. intros [Hz Hn] Hx Hy E.
  apply elem_of_cons in Hx as [->|Hx], Hy as [->|Hy]; try done; [| |by apply IH];
    exfalso; apply Hz; [rewrite E|rewrite <- E]; by apply (list_elem_of_fmap_2 key).
Qed.
Lemma find_key_elem {A} (key : A -> Z) (l : list A) (x : A) :
  NoDup (map key l) -> x ∈ l -> List.find (fun y => key y =? key x) l = Some x.
Proof.
  intros Hn Hx. destruct (List.find _ l) as [y|] eqn:E.
  - apply find_Some_elem in E as (E1 & E2). f_equal. apply (same_row_key key l); [done..|]. by apply Z.eqb_eq.
  - exfalso. apply find_None_elem with (x := x) in E; [|done]. by rewrite Z.eqb_refl in E.
Qed.
Lemma NoDup_key_filter {A} (key : A -> Z) (f : A -> bool) (l : list A) : NoDup (map key l) -> NoDup (map key (List.filter f l)).
Proof.
  induction l as [|x l IH]; [done|]. cbn. rewrite NoDup_cons. intros [Hx Hl]. destruct (f x); [|by apply IH].
  cbn. rewrite NoDup_cons. split; [|by apply IH]. intros (y & Hy & Hin)%list_elem_of_fmap.
  apply Hx. rewrite Hy. apply (list_elem_of_fmap_2 key). by apply elem_filter in Hin as [? _].
Qed.
Lemma NoDup_key_app {A} (key : A -> Z) (l : list A) (x : A) :
  NoDup (map key l) -> key x ∉ map key l -> NoDup (map key (l ++ [x])%list).
Proof.
  intros Hn Hx. rewrite map_app. apply NoDup_app. split_and!; [done| |apply NoDup_singleton].
  intros k Hk. cbn. rewrite list_elem_of_singleton. intros ->. done.
Qed.
(** Replacing a row by one of the same key. *)
Section Put.
Context {A : Type} (key : A -> Z).
Definition put_row (x : A) (l : list A) : list A := map (fun y => if key y =? key x then x else y) l.
Lemma put_row_keys (x : A) (l : list A) : map key (put_row x l) = map key l.
Proof.
  unfold put_row. rewrite map_map. apply map_ext. intros y. destruct (Z.eqb_spec (key y) (key x)); congruence.
Qed.
Lemma elem_put_row (x y : A) (l : list A) :
  y ∈ put_row x l -> (y = x /\ exists z, z ∈ l /\ key z = key x) \/ (y ∈ l /\ key y <> key x).
Proof.
  intros (z & -> & Hz)%list_elem_of_fmap. destruct (Z.eqb_spec (key z) (key x)); [left; eauto|by right].
Qed.
Lemma put_row_elem (x z : A) (l : list A) : z ∈ l -> key z = key x -> x ∈ put_row x l.
Proof.
  intros Hz E. apply list_elem_of_fmap. exists z. split; [|done]. by rewrite E, Z.eqb_refl.
Qed.
Lemma put_row_other (x y : A) (l : list A) : y ∈ l -> key y <> key x -> y ∈ put_row x l.
Proof.
  intros Hy Hk. apply list_elem_of_fmap. exists y. split; [|done]. by destruct (Z.eqb_spec (key y) (key x)).
Qed.
End Put.

(** *** Writes that keep the invariant *)
Lemma free_name (x : user_account) (l : list user_account) (y : user_account) :
  account_conflict x l = false -> y ∈ l -> ua_username y = ua_username x -> ua_pk y = ua_pk x.
Proof.
  unfold account_conflict. intros Hc Hy E. destruct (Z.eqb_spec (ua_pk y) (ua_pk x)) as [|Hn]; [done|]. exfalso.
  apply not_true_iff_false in Hc. apply Hc, existsb_exists. exists y. rewrite <- list_elem_of_In, E, String.eqb_refl.
  split; [done|]. by destruct (Z.eqb_spec (ua_pk y) (ua_pk x)).
Qed.
Lemma sound_host (c : catalogue) (d : iam) : sound d -> sound (with_host c d).
Proof. by intros []. Qed.
Lemma sound_add_account (x : user_account) (d : iam) :
  sound d -> ua_pk x ∉ map ua_pk (accounts d) -> account_conflict x (accounts d) = false ->
  sound (with_accounts (accounts d ++ [x])%list d).
Proof.
  intros [S1 S2 S3 S4 S5 S6] Hk Hc. constructor; cbn; try done.
  - by apply NoDup_key_app.
  - intros y z [Hy| ->%list_elem_of_singleton]%elem_of_app [Hz| ->%list_elem_of_singleton]%elem_of_app E; eauto using free_name.
    symmetry. eauto using free_name.
  - intros i Hi. destruct (S6 i Hi) as (y & Hy & Hb). exists y. rewrite elem_of_app. auto.
Qed.
Lemma sound_put_account (x : user_account) (d : iam) :
  sound d -> account_conflict x (accounts d) = false ->
  (forall i, i ∈ identities d -> id_user i = ua_pk x -> bound x i) ->
  sound (with_accounts (put_account x (accounts d)) d).
Proof.
  intros [S1 S2 S3 S4 S5 S6] Hc Hb. change (put_account x (accounts d)) with (put_row ua_pk x (accounts d)).
  constructor; cbn; try done.
  - by rewrite put_row_keys.
  - intros y z [[-> _]|[Hy Hny]]%elem_put_row [[-> _]|[Hz Hnz]]%elem_put_row E; eauto using free_name.
    symmetry. eauto using free_name.
  - intros i Hi. destruct (S6 i Hi) as (y & Hy & By). destruct (decide (ua_pk y = ua_pk x)) as [E|E].
    + exists x. split; [by eapply put_row_elem|]. apply Hb; [done|]. rewrite <- E. symmetry. apply By.
    + exists y. split; [by apply put_row_other|done].
Qed.
Lemma sound_drop_account (pk : Z) (d : iam) :
  sound d -> (forall i, i ∈ identities d -> id_user i <> pk) ->
  sound (with_accounts (List.filter (fun x => negb (ua_pk x =? pk)) (accounts d)) d).
Proof.
  intros [S1 S2 S3 S4 S5 S6] Hi. constructor; cbn; try done.
  - by apply NoDup_key_filter.
  - intros x y [Hx _]%elem_filter [Hy _]%elem_filter. auto.
  - intros i Ei. destruct (S6 i Ei) as (x & Hx & Bx). exists x. split; [|done]. apply elem_filter. split; [done|].
    rewrite (bound_key _ _ Bx). specialize (Hi i Ei). lia.
Qed.
Lemma sound_add_identity (i : OIDCAclIdentity) (x : user_account) (d : iam) :
  sound d -> id_pk i ∉ map id_pk (identities d) -> x ∈ accounts d -> bound x i ->
  (forall j, j ∈ identities d -> id_user j <> id_user i /\ (id_issuer j <> id_issuer i \/ id_subject j <> id_subject i)) ->
  sound (with_identities (identities d ++ [i])%list d).
Proof.
  intros [S1 S2 S3 S4 S5 S6] Hk Hx Hb Hn. constructor; cbn; try done.
  - by apply NoDup_key_app.
  - intros j k [Hj| ->%list_elem_of_singleton]%elem_of_app [Ek| ->%list_elem_of_singleton]%elem_of_app E; auto;
      [destruct (Hn j Hj)|destruct (Hn k Ek)]; congruence.
  - intros j k [Hj| ->%list_elem_of_singleton]%elem_of_app [Ek| ->%list_elem_of_singleton]%elem_of_app E E'; auto;
      [destruct (Hn j Hj) as (_ & [])|destruct (Hn k Ek) as (_ & [])]; congruence.
  - intros j [Hj| ->%list_elem_of_singleton]%elem_of_app; eauto.
Qed.
(** A row that keeps its key, user, issuer and subject. *)
Definition same_identity (i j : OIDCAclIdentity) : Prop :=
  id_pk i = id_pk j /\ id_user i = id_user j /\ id_issuer i = id_issuer j /\ id_subject i = id_subject j.
Lemma bound_same (x : user_account) (i j : OIDCAclIdentity) : same_identity i j -> bound x i -> bound x j.
Proof.
  intros (_ & Eu & Ei & Es) [B1 B2 B3 B4 B5]. constructor; [|rewrite <- Ei, <- Es| | |rewrite <- Es]; congruence.
Qed.
Lemma put_identity_same (i j : OIDCAclIdentity) (d : iam) :
  sound d -> i ∈ identities d -> same_identity i j ->
  forall k, k ∈ put_identity j (identities d) -> exists k', k' ∈ identities d /\ same_identity k' k.
Proof.
  intros S Hi Hs k. change (put_identity j (identities d)) with (put_row id_pk j (identities d)).
  intros [[-> (z & Hz & Ez)]|[Hk _]]%elem_put_row; [by exists i|by exists k].
Qed.
Lemma sound_put_identity (i j : OIDCAclIdentity) (d : iam) :
  sound d -> i ∈ identities d -> same_identity i j -> sound (with_identities (put_identity j (identities d)) d).
Proof.
  intros S Hi Hs. pose proof (put_identity_same i j d S Hi Hs) as K. destruct S as [S1 S2 S3 S4 S5 S6].
  constructor; cbn; try done.
  - change (put_identity j (identities d)) with (put_row id_pk j (identities d)). by rewrite put_row_keys.
  - intros a b (a' & Ha & A1 & A2 & _)%K (b' & Hb & B1 & B2 & _)%K E. rewrite <- A1, <- B1. apply S4; [done..|congruence].
  - intros a b (a' & Ha & A1 & A2 & A3 & A4)%K (b' & Hb & B1 & B2 & B3 & B4)%K E E'. rewrite <- A1, <- B1.
    apply S5; [done..|congruence|congruence].
  - intros a (a' & Ha & Hs')%K. destruct (S6 a' Ha) as (x & Hx & Bx). exists x. split; [done|]. by eapply bound_same.
Qed.
Lemma sound_drop_identity (f : OIDCAclIdentity -> bool) (d : iam) :
  sound d -> sound (with_identities (List.filter f (identities d)) d).
Proof.
  intros [S1 S2 S3 S4 S5 S6]. constructor; cbn; try done.
  - by apply NoDup_key_filter.
  - intros i j [Hi _]%elem_filter [Hj _]%elem_filter. auto.
  - intros i j [Hi _]%elem_filter [Hj _]%elem_filter. auto.
  - intros i [Hi _]%elem_filter. auto.
Qed.

(** ** Requests keep the invariant *)
Definition keeps_at (d : iam) {A} (m : M iam A) : Prop := sound d -> sound (m d).2.
Definition keeps {A} (m : M iam A) : Prop := forall d, keeps_at d m.
Lemma keeps_read {A} (f : iam -> res A) : keeps (fun d => (f d, d)).
Proof. by intros d Hd. Qed.
Lemma keeps_query {A} (f : iam -> A) : keeps (query f).
Proof. apply keeps_read. Qed.
Lemma keeps_lift {A} (x : res A) : keeps (lift x).
Proof. apply (keeps_read (fun _ => x)). Qed.
Lemma keeps_ret {A} (x : A) : keeps (mret x).
Proof. apply (keeps_read (fun _ => Ok x)). Qed.
Lemma keeps_raise {A} (e : pyexn) : keeps (A:=A) (raise e).
Proof. apply (keeps_read (fun _ => Raise e)). Qed.
Lemma keeps_bind_at {A B} (d : iam) (m : M iam A) (f : A -> M iam B) :
  keeps_at d m -> (forall x d1, m d = (Ok x, d1) -> keeps_at d1 (f x)) -> keeps_at d (m ≫= f).
Proof.
  intros Hm Hf Hd. specialize (Hm Hd). unfold mbind, M_bind. destruct (m d) as [[x|e] d1]; [|done]. by apply (Hf x d1).
Qed.
Lemma keeps_bind {A B} (m : M iam A) (f : A -> M iam B) : keeps m -> (forall x, keeps (f x)) -> keeps (m ≫= f).
Proof. intros Hm Hf d. apply keeps_bind_at; [apply Hm|]. intros x d1 _. apply Hf. Qed.
Lemma keeps_transaction_at {A} (d : iam) (m : M iam A) : keeps_at d m -> keeps_at d (transaction m).
Proof.
  intros Hm Hd. specialize (Hm Hd). unfold transaction. destruct (m d) as [[x|e] d1]; [done|]. by apply sound_host.
Qed.
Lemma keeps_try_at {A} (d : iam) (m : M iam A) (h : pyexn -> M iam A) :
  keeps_at d m -> (forall e, keeps (h e)) -> keeps_at d (try_except m h).
Proof. intros Hm Hh Hd. specialize (Hm Hd). unfold try_except. destruct (m d) as [[x|e] d1]; [done|]. by apply Hh. Qed.
Create HintDb keeps.
#[export] Hint Resolve keeps_read keeps_query keeps_lift keeps_ret keeps_raise : keeps.

Lemma keeps_assert (x : user_account) (name : string) : keeps (_assert_consistent_binding x name).
Proof. unfold _assert_consistent_binding, conflict. repeat case_match; apply keeps_raise || apply keeps_ret. Qed.
Lemma keeps_bound_user (i : OIDCAclIdentity) : keeps (bound_user i).
Proof. apply keeps_bind; [apply keeps_query|]. intros [x|]; [apply keeps_ret|apply keeps_raise]. Qed.
#[export] Hint Resolve keeps_assert keeps_bound_user : keeps.

(** The row as the metadata leave it. *)
Definition refreshed (now : Z) (display_name email : option string) (i : OIDCAclIdentity) : OIDCAclIdentity :=
  let j := if differs display_name (id_display_name i) then set_display_name (default "" display_name) i else i in
  let j := if differs email (id_email i) then set_email (default "" email) j else j in
  if differs display_name (id_display_name i) || differs email (id_email i) then set_updated_at now j else j.
Lemma refreshed_same (now : Z) (dn em : option string) (i : OIDCAclIdentity) : same_identity i (refreshed now dn em i).
Proof. unfold refreshed. by destruct (differs dn _), (differs em _). Qed.
Lemma refresh_run (now : Z) (dn em : option string) (i : OIDCAclIdentity) (d : iam) :
  let changes := differs dn (id_display_name i) || differs em (id_email i) in
  _refresh_metadata now dn em i d =
  (Ok (refreshed now dn em i, changes),
   if changes then with_identities (put_identity (refreshed now dn em i) (identities d)) d else d).
Proof. unfold _refresh_metadata, refreshed. by destruct (differs dn _), (differs em _). Qed.

(** On a sound database the checks of an identity that exists pass. *)
Lemma bound_user_run (i : OIDCAclIdentity) (d : iam) :
  sound d -> i ∈ identities d -> exists x, x ∈ accounts d /\ bound x i /\ bound_user i d = (Ok x, d).
Proof.
  intros S Hi. destruct (sound_bound d S i Hi) as (x & Hx & Bx). exists x. split_and!; [done..|].
  unfold bound_user, query, find_account. unfold mbind, M_bind. rewrite <- (bound_key _ _ Bx).
  by rewrite (find_key_elem ua_pk) by first [done|apply S].
Qed.
Lemma assert_run (x : user_account) (i : OIDCAclIdentity) (name : string) (d : iam) :
  bound x i -> derive_oidc_acl_username (id_issuer i) (id_subject i) = Ok name ->
  _assert_consistent_binding x name d = (Ok tt, d).
Proof.
  intros [B1 B2 B3 (B4 & B5) B6] E. rewrite E in B2. injection B2 as ->. unfold _assert_consistent_binding.
  by rewrite String.eqb_refl, B3, B4, B5.
Qed.
Lemma existing_run (now : Z) (name : string) (dn em : option string) (i : OIDCAclIdentity) (d : iam) :
  sound d -> i ∈ identities d -> derive_oidc_acl_username (id_issuer i) (id_subject i) = Ok name ->
  let changes := differs dn (id_display_name i) || differs em (id_email i) in
  existing_identity now name dn em i d =
  (Ok {| identity := refreshed now dn em i; created := false; metadata_updated := changes |},
   if changes then with_identities (put_identity (refreshed now dn em i) (identities d)) d else d).
Proof.
  intros S Hi En. destruct (bound_user_run i d S Hi) as (x & Hx & Bx & Er). unfold existing_identity.
  rewrite (M_bind_run _ _ _ _ _ Er), (M_bind_run _ _ _ _ _ (assert_run x i name d Bx En)).
  by rewrite (M_bind_run _ _ _ _ _ (refresh_run now dn em i d)).
Qed.
Lemma sound_refresh (now : Z) (dn em : option string) (i : OIDCAclIdentity) (d : iam) (b : bool) :
  sound d -> i ∈ identities d ->
  sound (if b then with_identities (put_identity (refreshed now dn em i) (identities d)) d else d).
Proof. intros S Hi. destruct b; [|done]. eapply sound_put_identity; [done..|]. apply refreshed_same. Qed.
Lemma find_identity_Some (issuer subject : string) (l : list OIDCAclIdentity) (i : OIDCAclIdentity) :
  find_identity issuer subject l = Some i -> i ∈ l /\ id_issuer i = issuer /\ id_subject i = subject.
Proof. intros (Hi & (->%String.eqb_eq & ->%String.eqb_eq)%andb_true_iff)%find_Some_elem. done. Qed.

(** The insertion of an account and its identity. *)
Definition fresh (k : new_keys) (d : iam) : Prop :=
  user_key k ∉ map ua_pk (accounts d) /\ identity_key k ∉ map id_pk (identities d).
Definition insert_pair (k : new_keys) (name issuer subject : string) (dn em : option string) : M iam OIDCAclProvisioningResult :=
  transaction (
    _ ← insert_account (acl_account (user_key k) name);
    _ ← insert_identity (new_identity (clock k) (identity_key k) (user_key k) issuer subject dn em);
    mret {| identity := new_identity (clock k) (identity_key k) (user_key k) issuer subject dn em;
            created := true; metadata_updated := false |}).
Definition with_pair (k : new_keys) (name issuer subject : string) (dn em : option string) (d : iam) : iam :=
  with_identities (identities d ++ [new_identity (clock k) (identity_key k) (user_key k) issuer subject dn em])%list
    (with_accounts (accounts d ++ [acl_account (user_key k) name])%list d).
Lemma restored (d : iam) : with_host (with_log (log (host d)) (host d)) d = d.
Proof. by destruct d as [? ? []]. Qed.
(** It fails without effect, or adds both rows. *)
Lemma insert_pair_run (k : new_keys) (name issuer subject : string) (dn em : option string) (d : iam) :
  sound d -> fresh k d ->
  (insert_pair k name issuer subject dn em d = (Raise IntegrityError, d) /\
   (username_taken name d = true \/ is_Some (find_identity issuer subject (identities d)))) \/
  (insert_pair k name issuer subject dn em d =
     (Ok {| identity := new_identity (clock k) (identity_key k) (user_key k) issuer subject dn em;
            created := true; metadata_updated := false |}, with_pair k name issuer subject dn em d) /\
   account_conflict (acl_account (user_key k) name) (accounts d) = false /\
   forall j, j ∈ identities d -> id_user j <> user_key k /\ (id_issuer j <> issuer \/ id_subject j <> subject)).
Proof.
  intros S (Hk & _). unfold insert_pair, transaction, insert_account, mbind, M_bind.
  destruct (account_conflict _ (accounts d)) eqn:Ec.
  - left. rewrite restored. split; [done|]. left. unfold account_conflict in Ec.
    apply existsb_exists in Ec as (y & Hy & (_ & En)%andb_true_iff). apply existsb_exists. by exists y.
  - unfold insert_identity. cbn [identities with_accounts]. destruct (existsb _ (identities d)) eqn:Ee.
    + left. change (host (with_accounts _ d)) with (host d). rewrite restored. split; [done|]. right.
      apply existsb_exists in Ee as (j & Hj & [Eu|Ep]%orb_true_iff).
      * exfalso. apply Hk. cbn in Eu. apply Z.eqb_eq in Eu. rewrite <- Eu.
        destruct (sound_bound d S j) as (x & Hx & Bx); [by apply list_elem_of_In|].
        rewrite <- (bound_key _ _ Bx). by apply (list_elem_of_fmap_2 ua_pk).
      * destruct (find_identity issuer subject (identities d)) as [i|] eqn:Ef; [by exists i|].
        apply list_elem_of_In in Hj. eapply find_None_elem in Ef; [|exact Hj]. cbn in Ep. congruence.
    + right. split; [done|]. split; [done|]. intros j Hj. apply not_true_iff_false in Ee.
      destruct (decide (id_user j <> user_key k /\ (id_issuer j <> issuer \/ id_subject j <> subject))) as [|Hn]; [done|].
      exfalso. apply Ee, existsb_exists. exists j. rewrite <- list_elem_of_In. split; [done|]. cbn.
      apply orb_true_iff. destruct (Z.eqb_spec (id_user j) (user_key k)); [by left|right].
      destruct (String.eqb_spec (id_issuer j) issuer), (String.eqb_spec (id_subject j) subject); try done; exfalso; tauto.
Qed.
Lemma sound_pair (k : new_keys) (name issuer subject : string) (dn em : option string) (d : iam) :
  sound d -> fresh k d -> derive_oidc_acl_username issuer subject = Ok name -> has_byte 0 subject = false ->
  account_conflict (acl_account (user_key k) name) (accounts d) = false ->
  (forall j, j ∈ identities d -> id_user j <> user_key k /\ (id_issuer j <> issuer \/ id_subject j <> subject)) ->
  sound (with_pair k name issuer subject dn em d).
Proof.
  intros S (Hk & Hi) En Hs Hc Hj. unfold with_pair.
  eapply (sound_add_identity (new_identity (clock k) (identity_key k) (user_key k) issuer subject dn em)
            (acl_account (user_key k) name) (with_accounts (accounts d ++ [acl_account (user_key k) name])%list d)).
  - by apply sound_add_account.
  - done.
  - cbn. rewrite elem_of_app, list_elem_of_singleton. by right.
  - by constructor.
  - done.
Qed.

(** *** Provisioning *)
Section Services.
Context `{UnicodeData} `{CaseFold} `{NetlocRules} `{Idna} `{MappedText} (st : host_settings).

(** The row [i] of [d] is the one identity of the issuer and subject. *)
Definition the_identity (issuer subject : string) (i : OIDCAclIdentity) (d : iam) : Prop :=
  i ∈ identities d /\ id_issuer i = issuer /\ id_subject i = subject /\
  forall j, j ∈ identities d -> id_issuer j = issuer -> id_subject j = subject -> j = i.
Lemma the_identity_intro (issuer subject : string) (i : OIDCAclIdentity) (d : iam) :
  sound d -> i ∈ identities d -> id_issuer i = issuer -> id_subject i = subject -> the_identity issuer subject i d.
Proof.
  intros S Hi Ei Es. split_and!; try done. intros j Hj Ej Es'. apply (same_row_key id_pk (identities d)); [apply S|done|done|].
  apply (sound_pairs d S); congruence.
Qed.

(** What provisioning does when it finds the identity. *)
Definition returned (issuer subject : string) (d : iam) (x : res OIDCAclProvisioningResult * iam) : Prop :=
  exists i, i ∈ identities d /\ id_issuer i = issuer /\ id_subject i = subject /\
  exists r, x.1 = Ok r /\ created r = false /\ same_identity i (identity r) /\ sound x.2 /\ identity r ∈ identities x.2 /\
    accounts x.2 = accounts d /\ host x.2 = host d.
Lemma existing_returned (now : Z) (name issuer subject : string) (dn em : option string) (i : OIDCAclIdentity) (d : iam) :
  sound d -> find_identity issuer subject (identities d) = Some i -> derive_oidc_acl_username issuer subject = Ok name ->
  returned issuer subject d (transaction (existing_identity now name dn em i) d).
Proof.
  intros S (Hi & Ei & Es)%find_identity_Some En. unfold transaction.
  rewrite existing_run by first [done|by rewrite Ei, Es]. exists i. split_and!; [done..|].
  eexists. split_and!; cbn; try done.
  - apply refreshed_same.
  - by apply sound_refresh.
  - destruct (differs dn _ || differs em _) eqn:Ed.
    + cbn. change (put_identity ?j ?l) with (put_row id_pk j l). eapply put_row_elem; [exact Hi|]. by destruct (refreshed_same now dn em i).
    + unfold refreshed. rewrite Ed. apply orb_false_iff in Ed as [-> ->]. done.
  - by destruct (_ || _).
  - by destruct (_ || _).
Qed.

Lemma taken_or_free (name : string) (d : iam) {A} (k : M iam A) :
  (taken ← query (username_taken name);
   if taken : bool then conflict "The derived ACL username is already owned by another Django user." else k) d =
  if username_taken name d then (Raise (OIDCAclIdentityConflict "The derived ACL username is already owned by another Django user."), d) else k d.
Proof. unfold mbind, M_bind, query. by destruct (username_taken name d). Qed.

Section Provision.
Context (gap gap2 : iam -> iam) (k : new_keys) (issuer subject name : string) (dn em : option string) (d : iam).
Hypotheses (S : sound d) (S1 : sound (gap d)) (Fk : fresh k (gap d)) (S2 : sound (gap2 (gap d))).
Hypotheses (En : derive_oidc_acl_username issuer subject = Ok name) (Hs : has_byte 0 subject = false).

(** The outcomes: the identity was there; or it was made; or another account has its name; or
    the insertion lost to rows that are gone again. *)
Inductive provisioned : res OIDCAclProvisioningResult * iam -> Prop :=
| provisioned_found x e : e ∈ [d; gap2 (gap d)] -> returned issuer subject e x -> provisioned x
| provisioned_created r :
    find_identity issuer subject (identities d) = None -> created r = true -> id_issuer (identity r) = issuer ->
    id_subject (identity r) = subject -> sound (with_pair k name issuer subject dn em (gap d)) ->
    identity r ∈ identities (with_pair k name issuer subject dn em (gap d)) ->
    provisioned (Ok r, with_pair k name issuer subject dn em (gap d))
| provisioned_name_owned e detail :
    e ∈ [d; gap2 (gap d)] -> find_identity issuer subject (identities e) = None -> username_taken name e = true ->
    provisioned (Raise (OIDCAclIdentityConflict detail), e)
| provisioned_vanished :
    find_identity issuer subject (identities d) = None ->
    (username_taken name (gap d) = true \/ is_Some (find_identity issuer subject (identities (gap d)))) ->
    find_identity issuer subject (identities (gap2 (gap d))) = None -> username_taken name (gap2 (gap d)) = false ->
    provisioned (Raise IntegrityError, gap2 (gap d)).

Lemma transaction_raise {A} (e : pyexn) (d' : iam) : transaction (A:=A) (raise e) d' = (Raise e, d').
Proof. unfold transaction, raise. by rewrite restored. Qed.
Lemma provision_again_cases :
  (find_identity issuer subject (identities d) = None) ->
  (username_taken name (gap d) = true \/ is_Some (find_identity issuer subject (identities (gap d)))) ->
  provisioned (_provision_again gap2 (clock k) issuer subject dn em (gap d)).
Proof.
  intros Hf Hl. unfold _provision_again. rewrite En. cbn [lift mbind M_bind update_tables query].
  unfold lift, mbind, M_bind, update_tables. set (e := gap2 (gap d)) in *.
  destruct (find_identity issuer subject (identities e)) as [i|] eqn:Ef.
  - eapply provisioned_found; [by right; left|]. unfold transaction, query. cbv beta iota. rewrite Ef.
    by apply (existing_returned (clock k) name issuer subject dn em i e).
  - unfold transaction, query. cbv beta iota. rewrite Ef. destruct (username_taken name e) eqn:Et; cbn; rewrite restored.
    + by apply provisioned_name_owned; [right; left| |].
    + by apply provisioned_vanished.
Qed.
Lemma provision_once_eq :
  _provision_once gap k issuer subject dn em d =
  match find_identity issuer subject (identities d) with
  | Some i => transaction (existing_identity (clock k) name dn em i) d
  | None =>
      if username_taken name d
      then (Raise (OIDCAclIdentityConflict "The derived ACL username is already owned by another Django user."), d)
      else insert_pair k name issuer subject dn em (gap d)
  end.
Proof.
  unfold _provision_once. rewrite (M_bind_run _ _ d name d) by (unfold lift; by rewrite En).
  erewrite M_bind_run by reflexivity. cbv beta.
  destruct (find_identity issuer subject (identities d)); [done|]. rewrite taken_or_free. done.
Qed.
Lemma provision_cases :
  validate_approved_oidc_issuer issuer (DEALHOST_OIDC_ISSUER st) = Ok issuer -> validate_oidc_subject subject = Ok subject ->
  provisioned (provision_oidc_acl_identity st gap gap2 k issuer subject dn em d).
Proof.
  intros Ei Es. unfold provision_oidc_acl_identity. rewrite Ei, Es. unfold lift at 1 2. unfold mbind at 1 2. unfold M_bind at 1 2.
  cbv beta iota. unfold try_except. rewrite provision_once_eq.
  destruct (find_identity issuer subject (identities d)) as [i|] eqn:Ef.
  - destruct (existing_returned (clock k) name issuer subject dn em i d S Ef En) as (i' & Hi' & Ei' & Es' & r & Er & K).
    revert Er K. destruct (transaction _ d) as [x d'] eqn:Ex. cbn. intros -> K.
    eapply provisioned_found; [by left|]. exists i'. split_and!; [done..|]. by exists r.
  - destruct (username_taken name d) eqn:Et.
    + by apply provisioned_name_owned; [left| |].
    + destruct (insert_pair_run k name issuer subject dn em (gap d) S1 Fk) as [(-> & Hl)|(-> & Hc & Hj)].
      * by apply provision_again_cases.
      * apply provisioned_created; try done; [by apply sound_pair|]. cbn. rewrite elem_of_app, list_elem_of_singleton. by right.
Qed.
Lemma provisioned_sound (x : res OIDCAclProvisioningResult * iam) : provisioned x -> sound x.2.
Proof.
  intros [y e _ (i & _ & _ & _ & r & _ & _ & _ & K & _)| |e detail He _ _|_ _ _]; try done.
  rewrite !elem_of_cons, elem_of_nil in He. by destruct He as [->|[->|[]]].
Qed.
End Provision.

Lemma keeps_provision (gap gap2 : iam -> iam) (k : new_keys) (issuer subject : string) (dn em : option string) (d : iam) :
  sound (gap d) -> fresh k (gap d) -> sound (gap2 (gap d)) ->
  keeps_at d (provision_oidc_acl_identity st gap gap2 k issuer subject dn em).
Proof.
  intros S1 Fk S2 S.
  destruct (validate_approved_oidc_issuer issuer (DEALHOST_OIDC_ISSUER st)) as [issuer'|e] eqn:Ei;
    [|by unfold provision_oidc_acl_identity; rewrite Ei].
  destruct (validate_oidc_subject subject) as [subject'|e] eqn:Es;
    [|by unfold provision_oidc_acl_identity; rewrite Ei, Es].
  destruct (approved_issuer _ _ _ Ei) as (-> & _). destruct (subject_Ok _ _ Es) as (-> & _ & _ & H0s).
  destruct (derive_oidc_acl_username issuer subject) as [name|e] eqn:En.
  - apply (provisioned_sound gap gap2 k issuer subject name dn em d S S2). by apply provision_cases.
  - unfold provision_oidc_acl_identity. rewrite Ei, Es. unfold derive_oidc_acl_username, encode_utf8 in En.
    destruct (has_surrogate (issuer ++ bytes [0] ++ subject)) eqn:Eh; [|done]. injection En as <-.
    unfold lift at 1 2. unfold mbind at 1 2. unfold M_bind at 1 2. unfold try_except, _provision_once, derive_oidc_acl_username, encode_utf8.
    by rewrite Eh.
Qed.

(** *** Deprovisioning *)
(** The database without an identity and its account. *)
Definition without_identity (i : OIDCAclIdentity) (x : user_account) (d : iam) : iam :=
  with_accounts (List.filter (fun y => negb (ua_pk y =? ua_pk x)) (accounts d))
    (with_identities (List.filter (fun j => negb (id_pk j =? id_pk i)) (identities d)) d).
Lemma deprovision_run (identity_id : Z) (d : iam) :
  sound d ->
  deprovision_oidc_acl_identity identity_id d =
  match List.find (fun i => id_pk i =? identity_id) (identities d) with
  | None => (Raise DoesNotExist, d)
  | Some i =>
      match find_account (id_user i) (accounts d) with
      | None => (Raise DoesNotExist, d)
      | Some x =>
          if bool_decide (blockers x d = [])
          then (Ok {| result_identity_id := id_pk i; result_user_id := ua_pk x; result_acl_username := ua_username x |},
                without_identity i x d)
          else (Raise (OIDCAclIdentityConflict ("The OIDC ACL identity is still referenced by access-control assignments: "
                         ++ String.concat ", " (blockers x d) ++ ".")), d)
      end
  end.
Proof.
  intros S. unfold deprovision_oidc_acl_identity, transaction. erewrite M_bind_run by reflexivity. cbv beta.
  destruct (List.find _ (identities d)) as [i|] eqn:Ef; [|cbn; by rewrite restored].
  apply find_Some_elem in Ef as (Hi & _). destruct (sound_bound d S i Hi) as (x & Hx & Bx).
  assert (find_account (id_user i) (accounts d) = Some x) as Efx.
  { rewrite <- (bound_key _ _ Bx). apply (find_key_elem ua_pk); [apply S|done]. }
  rewrite Efx. assert (bound_user i d = (Ok x, d)) as Er.
  { unfold bound_user, query. erewrite M_bind_run by reflexivity. by rewrite Efx. }
  rewrite (M_bind_run _ _ _ _ _ Er), (M_bind_run _ _ d (ua_username x) d) by (unfold lift; by rewrite (bound_name _ _ Bx)).
  rewrite (M_bind_run _ _ _ _ _ (assert_run x i (ua_username x) d Bx (bound_name _ _ Bx))).
  erewrite M_bind_run by reflexivity. cbv beta. destruct (bool_decide_reflect (blockers x d = [])) as [Eb|Eb]; cbn [negb]; [done|].
  unfold conflict, raise. by rewrite restored.
Qed.
Lemma sound_without (i : OIDCAclIdentity) (x : user_account) (d : iam) :
  sound d -> i ∈ identities d -> bound x i -> sound (without_identity i x d).
Proof.
  intros S Hi Bx. unfold without_identity.
  apply (sound_drop_account (ua_pk x) (with_identities (List.filter (fun j => negb (id_pk j =? id_pk i)) (identities d)) d)).
  - by apply sound_drop_identity.
  - cbn. intros j (Hj & Hn)%elem_filter E. rewrite (bound_key _ _ Bx) in E. pose proof (sound_users d S j i Hj Hi E). lia.
Qed.
Lemma keeps_deprovision (identity_id : Z) : keeps (deprovision_oidc_acl_identity identity_id).
Proof.
  intros d S. rewrite deprovision_run by done. destruct (List.find _ (identities d)) as [i|] eqn:Ef; [|done].
  apply find_Some_elem in Ef as (Hi & _). destruct (find_account _ _) as [x|] eqn:Ex; [|done].
  case_bool_decide; [|done]. apply sound_without; [done..|]. destruct (sound_bound d S i Hi) as (y & Hy & By).
  enough (x = y) as -> by done. apply find_Some_elem in Ex as (Hx & Ex). apply (same_row_key ua_pk (accounts d)); [apply S|done..|].
  rewrite (bound_key _ _ By). lia.
Qed.

(** *** The user views *)
Context `{UserSerializers}.
Variable bus : string -> attrs -> res unit.
Variable exception_text : pyexn -> string.

Lemma keeps_user_object (q : user_account -> bool) (pk : Z) (f : user_account -> M iam response) (d : iam) :
  (forall x, x ∈ accounts d -> ua_pk x = pk -> keeps_at d (f x)) -> keeps_at d (user_object q pk f).
Proof.
  intros Hf. apply keeps_bind_at; [apply keeps_query|]. intros o d1 [= <- <-].
  destruct (find_account pk _) as [x|] eqn:E; [|apply keeps_ret].
  apply find_Some_elem in E as ((Hx & _)%elem_filter & E). apply Hf; [done|lia].
Qed.
Lemma not_oidc (x : user_account) (d : iam) :
  _is_oidc_acl_user x d = false -> forall i, i ∈ identities d -> id_user i <> ua_pk x.
Proof.
  intros Hn i Hi E. apply not_true_iff_false in Hn. apply Hn, existsb_exists. exists i. rewrite <- list_elem_of_In. split; [done|lia].
Qed.
Lemma unprotected (c : user_changes) (x : user_account) :
  protected_fields c x = [] ->
  ua_username (changed c x) = ua_username x /\ ua_staff (changed c x) = ua_staff x /\ ua_superuser (changed c x) = ua_superuser x.
Proof.
  unfold protected_fields, changed, differs. cbn. intros E.
  destruct (uc_username c) as [n|], (uc_staff c) as [b|], (uc_superuser c) as [b'|]; cbn in *;
    try (destruct (String.eqb_spec (ua_username x) n); [|discriminate E]);
    try (destruct b, (ua_staff x); try discriminate E); try (destruct b', (ua_superuser x); try discriminate E); done.
Qed.
Lemma keeps_create_user (pk : Z) (data : pyval) (d : iam) : pk ∉ map ua_pk (accounts d) -> keeps_at d (create_user pk data).
Proof.
  intros Hk. apply keeps_bind_at; [apply keeps_read|]. intros fields d1 [= _ <-].
  apply keeps_bind_at; [|intros ? ? _; apply keeps_bind; [apply keeps_query|intros; apply keeps_ret]].
  intros S. unfold insert_account. destruct (account_conflict _ _) eqn:E; [done|]. by apply sound_add_account.
Qed.
Lemma keeps_update_user (q : user_account -> bool) (pk : Z) (partial : bool) (data : pyval) : keeps (update_user q pk partial data).
Proof.
  intros d. apply keeps_user_object. intros x Hx Ek.
  apply keeps_bind_at; [apply keeps_query|]. intros oidc d1 [= <- <-].
  apply keeps_bind_at; [apply keeps_read|]. intros c d1 [= _ <-].
  cbv beta zeta. destruct (_is_oidc_acl_user x d && negb (bool_decide (protected_fields c x = []))) eqn:Ep; [apply keeps_ret|].
  apply keeps_bind_at; [|intros ? ? _; apply keeps_bind; [apply keeps_query|intros; apply keeps_ret]].
  intros S. unfold save_account. destruct (account_conflict _ _) eqn:E; [done|]. apply sound_put_account; [done..|].
  intros i Hi Eu. destruct (_is_oidc_acl_user x d) eqn:Eo; [|by destruct (not_oidc x d Eo i Hi)].
  apply negb_false_iff, bool_decide_eq_true, unprotected in Ep as (E1 & E2 & E3).
  destruct (sound_bound d S i Hi) as (y & Hy & By). assert (y = x) as ->.
  { apply (same_row_key ua_pk (accounts d)); [apply S|done..|]. by rewrite (bound_key _ _ By). }
  destruct By as [B1 B2 B3 (B4 & B5) B6]. constructor; [done|by rewrite E1|done|by rewrite E2, E3|done].
Qed.
Lemma keeps_destroy_user (q : user_account -> bool) (pk : Z) : keeps (destroy_user q pk).
Proof.
  intros d. apply keeps_user_object. intros x Hx <-. apply keeps_bind_at; [apply keeps_query|]. intros oidc d1 [= <- <-].
  destruct (_is_oidc_acl_user x d) eqn:Eo; [apply keeps_ret|]. apply keeps_bind_at; [|intros ? ? _; apply keeps_ret].
  intros S. cbn. apply sound_host, sound_drop_account; [done|]. by apply not_oidc.
Qed.
Lemma keeps_set_password (q : user_account -> bool) (pk : Z) (data : pyval) : keeps (set_password q pk data).
Proof.
  intros d. apply keeps_user_object. intros x Hx <-. apply keeps_bind_at; [apply keeps_query|]. intros oidc d1 [= <- <-].
  destruct (_is_oidc_acl_user x d) eqn:Eo; [apply keeps_ret|]. apply keeps_bind_at; [apply keeps_lift|].
  intros password d1 (_ & ->)%lift_Ok. apply keeps_bind_at; [|intros ? ? _; apply keeps_ret].
  intros S. apply (sound_put_account (set_password_of password x)); [done| |].
  - unfold account_conflict. apply not_true_iff_false. intros (y & Hy & [Hk%negb_true_iff En%String.eqb_eq]%andb_true_iff)%existsb_exists.
    apply list_elem_of_In in Hy. pose proof (sound_usernames d S y x Hy Hx En). cbn in Hk. lia.
  - intros i Hi Eu. by destruct (not_oidc x d Eo i Hi).
Qed.

(** *** The identity views *)
Lemma keeps_create_identity (gap gap2 : iam -> iam) (k : new_keys) (data : pyval) (d : iam) :
  sound (gap d) -> fresh k (gap d) -> sound (gap2 (gap d)) -> keeps_at d (create_identity st exception_text gap gap2 k data).
Proof.
  intros S1 Fk S2. apply keeps_bind_at; [apply keeps_lift|]. intros p d1 (_ & ->)%lift_Ok.
  apply keeps_bind_at.
  - apply keeps_try_at.
    + apply keeps_bind_at; [by apply keeps_provision|]. intros; apply keeps_ret.
    + intros e. case_match; apply keeps_ret || apply keeps_raise.
  - intros [r|r] d1 _; [|apply keeps_ret]. apply keeps_bind; [apply keeps_query|]. intros; apply keeps_ret.
Qed.
Lemma keeps_destroy_identity (q : OIDCAclIdentity -> bool) (actor : string) (pk : Z) (data : pyval) :
  keeps (destroy_identity bus q actor pk data).
Proof.
  intros d. unfold destroy_identity. destruct (truthy data); [apply keeps_ret|].
  apply keeps_bind; [apply keeps_query|]. intros [i|]; [|apply keeps_ret]. apply keeps_bind.
  - intros e. apply keeps_try_at; [|intros x; case_match; apply keeps_ret || apply keeps_raise].
    apply keeps_bind; [apply keeps_deprovision|]. intros; apply keeps_ret.
  - intros [r|r]; [|apply keeps_ret]. apply keeps_bind; [|intros; apply keeps_ret]. intros e S. by apply sound_host.
Qed.
End Services.

(** ** Histories *)
Section Histories.
Context `{UnicodeData} `{CaseFold} `{NetlocRules} `{Idna} `{MappedText} `{UserSerializers} (st : host_settings).
Variable bus : string -> attrs -> res unit.
Variable exception_text : pyexn -> string.

Inductive iam_request :=
| CreateUser (pk : Z) (data : pyval)
| UpdateUser (q : user_account -> bool) (pk : Z) (partial : bool) (data : pyval)
| DestroyUser (q : user_account -> bool) (pk : Z)
| SetPassword (q : user_account -> bool) (pk : Z) (data : pyval)
| DestroyIdentity (q : OIDCAclIdentity -> bool) (actor : string) (pk : Z) (data : pyval).
Definition serve (caller : option account) (r : iam_request) : M iam response :=
  match r with
  | CreateUser pk data => for_super_users caller (create_user pk data)
  | UpdateUser q pk partial data => for_super_users caller (update_user q pk partial data)
  | DestroyUser q pk => for_super_users caller (destroy_user q pk)
  | SetPassword q pk data => for_super_users caller (set_password q pk data)
  | DestroyIdentity q actor pk data => identity_request caller (destroy_identity bus q actor pk data)
  end.
(** The key a request adds is new. *)
Definition new_key (r : iam_request) (d : iam) : Prop :=
  match r with CreateUser pk _ => pk ∉ map ua_pk (accounts d) | _ => True end.

(** [history d d']: requests of any callers, and changes of the catalogue, lead from [d] to
    [d'].  While one request provisions an identity others may run at its two gaps. *)
Inductive history (d : iam) : iam -> Prop :=
| history_start : history d d
| history_request d1 caller r : history d d1 -> new_key r d1 -> history d (serve caller r d1).2
| history_catalogue d1 c : history d d1 -> history d (with_host c d1)
| history_provision d1 d2 d3 caller k data :
    history d d1 -> history d1 d2 -> fresh k d2 -> history d2 d3 ->
    history d (identity_request caller (create_identity st exception_text (fun _ => d2) (fun _ => d3) k data) d1).2.

Lemma keeps_for_super_users (caller : option account) (m : M iam response) (d : iam) :
  keeps_at d m -> keeps_at d (for_super_users caller m).
Proof. unfold for_super_users. intros Hm. destruct (is_super_user caller); [done|apply keeps_ret]. Qed.
Lemma keeps_identity_request (caller : option account) (m : M iam response) (d : iam) :
  keeps_at d m -> keeps_at d (identity_request caller m).
Proof.
  intros Hm. apply keeps_bind_at; [by apply keeps_for_super_users|]. intros; apply keeps_ret.
Qed.
Lemma keeps_serve (caller : option account) (r : iam_request) (d : iam) : new_key r d -> keeps_at d (serve caller r).
Proof.
  intros Hn. destruct r; cbn; first [apply keeps_identity_request|apply keeps_for_super_users].
  - by apply keeps_create_user.
  - apply keeps_update_user.
  - apply keeps_destroy_user.
  - apply keeps_set_password.
  - apply keeps_destroy_identity.
Qed.
Lemma history_sound (d d' : iam) : history d d' -> sound d -> sound d'.
Proof.
  induction 1 as [d|d d1 caller r Hh IH Hn|d d1 c Hh IH|d d1 d2 d3 caller k data Ha IHa Hb IHb Fk Hc IHc]; intros S.
  - done.
  - by apply keeps_serve; [|apply IH].
  - by apply sound_host, IH.
  - specialize (IHa S). specialize (IHb IHa). specialize (IHc IHb). apply keeps_identity_request; [|done]. by apply keeps_create_identity.
Qed.

(** C15: whatever requests administrators make, in any order and with other requests between
    the steps of a provisioning, every OIDC identity stays bound to an account of its own whose
    name is derived from the identity, without password and without privileges; and at most
    one identity has an issuer and a subject. *)
Theorem bindings_stay_sound (d d' : iam) (i : OIDCAclIdentity) :
  sound d -> history d d' -> i ∈ identities d' ->
  exists x, x ∈ accounts d' /\ bound x i /\
    (forall j, j ∈ identities d' -> id_user j = ua_pk x -> j = i) /\ the_identity (id_issuer i) (id_subject i) i d'.
Proof.
  intros S Hh Hi. pose proof (history_sound d d' Hh S) as S'. destruct (sound_bound d' S' i Hi) as (x & Hx & Bx).
  exists x. split_and!; [done..| |by apply the_identity_intro].
  intros j Hj E. apply (same_row_key id_pk (identities d')); [apply S'|done..|]. apply (sound_users d' S'); [done..|].
  by rewrite E, (bound_key _ _ Bx).
Qed.


(** An identity is deprovisioned only while no dataset, group or permission names its
    account; exactly the row and the account disappear, and otherwise nothing does. *)
Theorem deprovision_only_unused (identity_id : Z) (d : iam) :
  sound d ->
  match deprovision_oidc_acl_identity identity_id d with
  | (Ok r, d') => exists i x, i ∈ identities d /\ id_pk i = identity_id /\ x ∈ accounts d /\ bound x i /\
      (forall ds, ds ∈ datasets (host d) -> ua_pk x ∉ ds_users ds) /\ ua_groups x = [] /\ ua_permissions x = [] /\
      result_user_id r = ua_pk x /\ host d' = host d /\
      (forall j, j ∈ identities d' <-> j ∈ identities d /\ j <> i) /\ (forall y, y ∈ accounts d' <-> y ∈ accounts d /\ y <> x)
  | (Raise e, d') => d' = d /\
      ((e = DoesNotExist /\ forall i, i ∈ identities d -> id_pk i <> identity_id) \/
       exists i x detail, e = OIDCAclIdentityConflict detail /\ i ∈ identities d /\ id_pk i = identity_id /\ bound x i /\
         (ua_groups x <> [] \/ ua_permissions x <> [] \/ exists ds, ds ∈ datasets (host d) /\ ua_pk x ∈ ds_users ds))
  end.
Proof.
  intros S. rewrite deprovision_run by done. destruct (List.find _ (identities d)) as [i|] eqn:Ef.
  2:{ split; [done|]. left. split; [done|]. intros i Hi E. eapply find_None_elem in Ef; [|exact Hi]. cbn in Ef. lia. }
  apply find_Some_elem in Ef as (Hi & Ek%Z.eqb_eq). destruct (sound_bound d S i Hi) as (x & Hx & Bx).
  assert (find_account (id_user i) (accounts d) = Some x) as ->.
  { rewrite <- (bound_key _ _ Bx). apply (find_key_elem ua_pk); [apply S|done]. }
  assert (has_acl (ua_pk x) d = true <-> exists ds, ds ∈ datasets (host d) /\ ua_pk x ∈ ds_users ds) as Hacl.
  { unfold has_acl. rewrite existsb_exists. split; intros (ds & Hds & Hu); exists ds.
    - rewrite existsb_exists in Hu. destruct Hu as (n & Hn & E%Z.eqb_eq). subst n. by rewrite !list_elem_of_In.
    - rewrite list_elem_of_In in Hds. split; [done|]. apply existsb_exists. exists (ua_pk x). rewrite <- list_elem_of_In. split; [done|lia]. }
  unfold blockers. destruct (has_acl (ua_pk x) d) eqn:Ea, (bool_decide_reflect (ua_groups x = [])) as [Eg|Eg],
    (bool_decide_reflect (ua_permissions x = [])) as [Ep|Ep]; cbn [app bool_decide decide].
  all: try (split; [done|]; right; exists i, x; eexists; split_and!; [done..|]; tauto).
  exists i, x. split_and!; try done.
  - intros ds Hds Hu. enough (false = true) by done. apply Hacl. eauto.
  - intros j. cbn. rewrite elem_filter. split; intros (Hj & Hn); (split; [done|]).
    + intros ->. by rewrite Z.eqb_refl in Hn.
    + destruct (Z.eqb_spec (id_pk j) (id_pk i)) as [E|]; [|done]. exfalso. apply Hn. by apply (same_row_key id_pk (identities d)); [apply S| | |].
  - intros y. cbn. rewrite elem_filter. split; intros (Hy & Hn); (split; [done|]).
    + intros ->. by rewrite Z.eqb_refl in Hn.
    + destruct (Z.eqb_spec (ua_pk y) (ua_pk x)) as [E|]; [|done]. exfalso. apply Hn. by apply (same_row_key ua_pk (accounts d)); [apply S| | |].
Qed.

(** ** Tokens and datasets *)
Variable introspect : string -> res pyval.

(** The row the dataset views resolve a bearer to. *)
Lemma acl_user_vouched (token : string) (u : SettingsTokenUser) (subject name : string) (groups : list string) (v : viewer)
    (rows : list user_row) :
  vouched st introspect token u subject groups -> DEALHOST_OIDC_ISSUER st <> "" ->
  derive_oidc_acl_username (DEALHOST_OIDC_ISSUER st) subject = Ok name -> viewer_of u = Ok v ->
  acl_user rows v = List.find (fun x => String.eqb (u_username x) name && u_active x) rows.
Proof.
  intros Hv Hi En Ev. unfold viewer_of in Ev. rewrite (vouched_acl_name st introspect token u subject groups Hv Hi), En in Ev.
  injection Ev as <-. unfold acl_user. cbn [viewer_pk acl_username]. destruct (derived_name_visible _ _ _ En) as (Hvis & Hne).
  rewrite strip_visible by done. by destruct (String.eqb_spec name "").
Qed.
Lemma find_row_of (name : string) (l : list user_account) (row : user_row) :
  List.find (fun x => String.eqb (u_username x) name && u_active x) (map row_of l) = Some row ->
  exists x, x ∈ l /\ row = row_of x /\ ua_username x = name /\ ua_active x = true.
Proof.
  intros (Hr & (En%String.eqb_eq & Ea)%andb_true_iff)%find_Some_elem. apply list_elem_of_fmap in Hr as (x & -> & Hx). by exists x.
Qed.

(** C17: the token of a provisioned subject reaches the account bound to it, once that is
    active: the dataset views take the bearer for exactly that row. *)
Theorem token_reaches_its_account (d0 d : iam) (token : string) (u : SettingsTokenUser) (v : viewer) (subject : string)
    (groups : list string) (i : OIDCAclIdentity) (x : user_account) :
  sound d0 -> history d0 d -> DEALHOST_OIDC_ISSUER st <> "" -> vouched st introspect token u subject groups -> viewer_of u = Ok v ->
  i ∈ identities d -> id_issuer i = DEALHOST_OIDC_ISSUER st -> id_subject i = subject ->
  x ∈ accounts d -> ua_pk x = id_user i -> ua_active x = true ->
  acl_user (map row_of (accounts d)) v = Some (row_of x).
Proof.
  intros S0 Hh Hne Hv Ev Hi Ei Es Hx Ek Ha. pose proof (history_sound d0 d Hh S0) as S.
  destruct (sound_bound d S i Hi) as (y & Hy & By). assert (y = x) as ->.
  { apply (same_row_key ua_pk (accounts d)); [apply S|done..|]. by rewrite Ek, (bound_key _ _ By). }
  pose proof (bound_name _ _ By) as En. rewrite Ei, Es in En.
  rewrite (acl_user_vouched token u subject (ua_username x) groups) by done.
  destruct (List.find _ (map row_of (accounts d))) as [row|] eqn:Ef.
  - apply find_row_of in Ef as (z & Hz & -> & Ez & _). do 2 f_equal. apply (same_row_key ua_pk (accounts d)); [apply S|done..|].
    by apply (sound_usernames d S).
  - exfalso. eapply find_None_elem in Ef; [|by apply (list_elem_of_fmap_2 row_of)]. cbn in Ef. by rewrite String.eqb_refl, Ha in Ef.
Qed.

(** C18: grants are personal: when the dataset views let a bearer use the account of an
    identity, the token is of that identity's issuer and subject, unless the texts of the two
    are a collision of SHA-256. *)
Theorem grants_are_personal (d0 d : iam) (token : string) (u : SettingsTokenUser) (v : viewer) (subject : string)
    (groups : list string) (i : OIDCAclIdentity) (row : user_row) :
  sound d0 -> history d0 d -> DEALHOST_OIDC_ISSUER st <> "" -> vouched st introspect token u subject groups -> viewer_of u = Ok v ->
  acl_user (map row_of (accounts d)) v = Some row -> i ∈ identities d -> id_user i = u_pk row ->
  (id_issuer i = DEALHOST_OIDC_ISSUER st /\ id_subject i = subject) \/
  collision (identity_text (id_issuer i) (id_subject i)) (identity_text (DEALHOST_OIDC_ISSUER st) subject).
Proof.
  intros S0 Hh Hne Hv Ev Er Hi Ek. pose proof (history_sound d0 d Hh S0) as S.
  destruct (derive_oidc_acl_username (DEALHOST_OIDC_ISSUER st) subject) as [name|e] eqn:En.
  2:{ unfold viewer_of in Ev. by rewrite (vouched_acl_name st introspect token u subject groups Hv Hne), En in Ev. }
  rewrite (acl_user_vouched token u subject name groups) in Er by done. apply find_row_of in Er as (x & Hx & -> & Ex & _).
  destruct (sound_bound d S i Hi) as (y & Hy & By). assert (y = x) as ->.
  { apply (same_row_key ua_pk (accounts d)); [apply S|done..|]. by rewrite (bound_key _ _ By), Ek. }
  pose proof (bound_name _ _ By) as En'. rewrite Ex in En'. eapply derived_personal; [exact En'|exact En|apply By|].
  by destruct Hv as [_ (_ & _ & K) _ _ _].
Qed.
End Histories.

(** ** Examples *)
Module SampleIam.
#[export] Existing Instance ascii_unicode.
#[export] Existing Instance ascii_fold.
#[export] Instance netloc_rules : NetlocRules := {| bracketed_host_ok := fun _ => false; unicode_netloc_ok := fun _ => false |}.
#[export] Instance idna : Idna := fun _ => None.
#[export] Instance mapped : MappedText := fun _ => "".
Definition refused {A} : res A := Raise (ValidationError "unsupported").
Definition text (k : string) (d : attrs) : res string := match vget k d with PStr t => Ok t | _ => refused end.
#[export] Instance serializers : UserSerializers := {
  provision_fields body :=
    match body with
    | PDict d => issuer ← text "issuer" d; subject ← text "subject" d;
                 Ok {| pd_issuer := issuer; pd_subject := subject; pd_display_name := None; pd_email := None |}
    | _ => refused
    end;
  user_fields d x partial validated body := refused;
  user_create_fields d body := refused;
  password_field x body := refused;
  make_password := fun s => s;
  normalize_username := fun s => s;
  normalize_email := fun s => s;
  user_json d x := PNone;
  identity_json d i := []
}.
Definition issuer : string := "https://id.example.org/realms/deal".
Definition settings : host_settings := {|
  DEALHOST_ADMIN_API_TOKENS := ["root-secret"]; DEALHOST_API_TOKENS := ["reader-secret"];
  DEALHOST_OIDC_INTROSPECTION_URL := "https://id.example.org/introspect"; DEALHOST_OIDC_ISSUER := issuer;
  DEALHOST_OIDC_AUDIENCE := "dealhost"; DEALHOST_OIDC_ADMIN_GROUPS := ["operators"]; DEALHOST_OIDC_READ_GROUPS := ["readers"];
  groups_claim := PNone; groups_claim_env := None |}.
Definition claims : attrs := [("active", PBool true); ("iss", PStr issuer); ("aud", PList [PStr "dealhost"]);
  ("groups", PList [PStr "readers"]); ("sub", PStr "ada"); ("preferred_username", PStr "root")].
Definition introspect (token : string) : res pyval := if String.eqb token "token-of-ada" then Ok (PDict claims) else Raise HTTPError.
Definition bearer : SettingsTokenUser := {|
  username := "root"; token_is_staff := false; token_is_superuser := false; oidc_issuer := Some issuer;
  oidc_subject := Some "ada"; token_groups := ["readers"] |}.
Lemma bearer_vouched : vouched settings introspect "token-of-ada" bearer "ada" ["readers"].
Proof.
  constructor; [exists claims; split_and!; try done; exists ["dealhost"]; split; [done|by left]| | | |]; try done.
  - split; [done|]. intros (g & ->%list_elem_of_singleton & Hg). apply list_elem_of_singleton in Hg. discriminate Hg.
  - exists "readers". split; [by left|]. right. by left.
Qed.

Definition catalogue0 : catalogue := {|
  module_rows := []; profiles := []; tools := []; applications := []; tool_versions := []; application_versions := [];
  datasets := []; referenced := []; log := [] |}.
Definition operator : user_account := {|
  ua_pk := 1; ua_username := "operator"; ua_email := ""; ua_first_name := ""; ua_last_name := ""; ua_active := true;
  ua_staff := true; ua_superuser := true; ua_password := Some "hash"; ua_groups := []; ua_permissions := [] |}.
Definition iam0 : iam := {| accounts := [operator]; identities := []; host := catalogue0 |}.
Lemma iam0_sound : sound iam0.
Proof.
  constructor; cbn; try apply NoDup_nil_2; try apply NoDup_singleton; try (intros ? ?%not_elem_of_nil; done);
    try (intros ? ? ?%not_elem_of_nil; done).
  intros x y ->%list_elem_of_singleton ->%list_elem_of_singleton. done.
Qed.
Definition root : option account := Some {| is_authenticated := true; account_staff := true; is_superuser := true |}.
Definition bus (event : string) (d : attrs) : res unit := Ok tt.
Definition no_text (e : pyexn) : string := "".
Definition body : pyval := PDict [("issuer", PStr issuer); ("subject", PStr "ada")].
Definition keys_of (n : Z) : new_keys := {| user_key := 10 + n; identity_key := 20 + n; clock := 30 + n |}.
(** One request provisions Ada. *)
Definition provision (gap gap2 : iam) (n : Z) (d : iam) : iam :=
  (identity_request root (create_identity settings no_text (fun _ => gap) (fun _ => gap2) (keys_of n) body) d).2.
Definition iam1 : iam := Eval vm_compute in provision iam0 iam0 1 iam0.
Definition ada : user_account := Eval vm_compute in List.nth 1 (accounts iam1) operator.
Definition ada_identity : OIDCAclIdentity := new_identity 31 21 11 issuer "ada" None None.
Notation run := (history settings bus no_text).
Lemma iam1_run : provision iam0 iam0 1 iam0 = iam1.
Proof. by vm_compute. Qed.
Lemma to_iam1 : run iam0 iam1.
Proof.
  rewrite <- iam1_run. apply (history_provision settings bus no_text iam0 iam0 iam0 iam0 root (keys_of 1) body).
  1,2,4: constructor. split; cbn; [intros E%list_elem_of_singleton; discriminate E|apply not_elem_of_nil].
Qed.
Lemma iam1_shape : identities iam1 = [ada_identity] /\ accounts iam1 = [operator; ada] /\ ua_pk ada = 11 /\ ua_active ada = true /\
  derive_oidc_acl_username issuer "ada" = Ok (ua_username ada).
Proof. split_and!; by vm_compute. Qed.

Lemma issuer_has_one_form_witness :
  validate_canonical_oidc_issuer issuer = Ok issuer /\
  exists host port path, issuer = https_url (canonical_netloc host port) path /\ issuer_host host.
Proof.
  assert (validate_canonical_oidc_issuer issuer = Ok issuer) as K by (by vm_compute). split; [exact K|].
  destruct (issuer_has_one_form issuer issuer K) as (_ & host & port & path & E & Hh & _). by exists host, port, path.
Defined.
Lemma privilege_has_authority_witness :
  authenticate settings introspect "Bearer token-of-ada" = Ok (Some (bearer, "token-of-ada")) /\
  exists subject groups, vouched settings introspect "token-of-ada" bearer subject groups.
Proof.
  assert (authenticate settings introspect "Bearer token-of-ada" = Ok (Some (bearer, "token-of-ada"))) as K by (by vm_compute).
  split; [exact K|].
  destruct (privilege_has_authority settings introspect "Bearer token-of-ada" "token-of-ada" bearer K) as (_ & [(_ & E)|[(_ & _ & E)|(_ & _ & E)]]);
    [discriminate E|discriminate E|exact E].
Defined.
Lemma bindings_stay_sound_witness : run iam0 iam1 /\ exists x, x ∈ accounts iam1 /\ bound x ada_identity.
Proof.
  split; [exact to_iam1|].
  destruct (bindings_stay_sound settings bus no_text iam0 iam1 ada_identity iam0_sound to_iam1) as (x & Hx & Bx & _);
    [destruct iam1_shape as (-> & _); by left|]. by exists x.
Defined.
Lemma iam1_fresh : fresh (keys_of 2) iam1.
Proof.
  destruct iam1_shape as (E1 & E2 & E3 & _). unfold fresh. rewrite E1, E2. cbn.
  rewrite !not_elem_of_cons. split_and!; try apply not_elem_of_nil; done.
Qed.
Lemma checks_pass :
  validate_approved_oidc_issuer issuer (DEALHOST_OIDC_ISSUER settings) = Ok issuer /\ validate_oidc_subject "ada" = Ok "ada".
Proof. split; by vm_compute. Qed.
Definition shared : OIDCAclProvisioningResult := {| identity := ada_identity; created := false; metadata_updated := false |}.
Lemma shared_run :
  provision_oidc_acl_identity settings (fun _ => iam1) (fun _ => iam1) (keys_of 2) issuer "ada" None None iam0 = (Ok shared, iam1).
Proof. by vm_compute. Qed.
Lemma iam1_sound : sound iam1.
Proof. eapply history_sound; [exact to_iam1|exact iam0_sound]. Qed.
Lemma deprovision_only_unused_witness :
  sound iam1 /\ exists r d', deprovision_oidc_acl_identity 21 iam1 = (Ok r, d') /\ forall j, j ∈ identities d' <-> j ∈ identities iam1 /\ j <> ada_identity.
Proof.
  split; [exact iam1_sound|]. pose proof (deprovision_only_unused 21 iam1 iam1_sound) as K.
  destruct (deprovision_oidc_acl_identity 21 iam1) as [[r|e] d'] eqn:E.
  - exists r, d'. split; [done|]. destruct K as (i & x & Hi & _ & _ & _ & _ & _ & _ & _ & _ & Hj & _).
    destruct iam1_shape as (E' & _). rewrite E' in Hi. by apply list_elem_of_singleton in Hi as ->.
  - exfalso. apply (f_equal (fun x => match x.1 with Ok _ => true | Raise _ => false end)) in E. vm_compute in E. discriminate E.
Defined.
Definition ada_viewer : viewer := {| is_staff := false; viewer_pk := None; acl_username := ua_username ada; oidc_groups := ["readers"] |}.
Lemma ada_viewer_of : viewer_of bearer = Ok ada_viewer.
Proof. by vm_compute. Qed.
Lemma token_reaches_its_account_witness :
  viewer_of bearer = Ok ada_viewer /\ acl_user (map row_of (accounts iam1)) ada_viewer = Some (row_of ada).
Proof.
  split; [exact ada_viewer_of|]. destruct iam1_shape as (E1 & E2 & E3 & E4 & _).
  refine (token_reaches_its_account settings bus no_text introspect iam0 iam1 "token-of-ada" bearer ada_viewer "ada" ["readers"] ada_identity ada
    iam0_sound to_iam1 _ bearer_vouched ada_viewer_of _ eq_refl eq_refl _ E3 E4); [discriminate|rewrite E1; by left|rewrite E2; by right; left].
Defined.
Lemma grants_are_personal_witness :
  acl_user (map row_of (accounts iam1)) ada_viewer = Some (row_of ada) /\
  ((id_issuer ada_identity = issuer /\ id_subject ada_identity = "ada") \/
   collision (identity_text issuer "ada") (identity_text issuer "ada")).
Proof.
  assert (acl_user (map row_of (accounts iam1)) ada_viewer = Some (row_of ada)) as K by (by vm_compute). split; [exact K|].
  destruct iam1_shape as (E1 & _ & E3 & _).
  refine (grants_are_personal settings bus no_text introspect iam0 iam1 "token-of-ada" bearer ada_viewer "ada" ["readers"] ada_identity (row_of ada)
    iam0_sound to_iam1 _ bearer_vouched ada_viewer_of K _ _); [discriminate|rewrite E1; by left|exact (eq_sym E3)].
Defined.
End SampleIam.
