(* ===== verification/Render.v ===== *)
(** Rendering of the Kubernetes manifests (src/deploy/kubernetes/render.py): the checks on the
    values of a deployment and the substitution of placeholders.

    YAML is read by a library: the values and the supply-chain policy arrive as the mappings it
    returns, whose keys are texts. *)

From S2P Require Import Prelude PyValue Regex PyText Url Ip.
#[local] Open Scope list_scope.
#[local] Open Scope string_scope.
#[local] Open Scope Z_scope.

Notation attrs := (list (string * pyval)).

Definition fail {A} (message : string) : res A := Raise (ValueError message).
(** [for x in l: f(x)]. *)
Fixpoint each {A} (l : list A) (f : A -> res unit) : res unit :=
  match l with [] => Ok tt | x :: l => _ ← f x; each l f end.
(** [len(set(l))]. *)
Definition distinct (l : list string) : nat := length (remove_dups l).

(** ** Patterns *)
Definition opt (r : regex) : regex := Rep 0 (Some 1%nat) r.
Definition DNS_LABEL : regex :=
  Seq (Cls lower_digit) (opt (Seq (Rep 0 (Some 61%nat) (Cls (por (one_of "-") lower_digit))) (Cls lower_digit))).
Definition RELEASE : regex := DNS_LABEL.
(** [HOST] without its lookahead, the bound of 253 characters. *)
Definition HOST_LABEL : regex :=
  Seq (Cls lower_digit) (opt (Seq (Rep 0 (Some 61%nat) (Cls (por lower_digit (one_of "-")))) (Cls lower_digit))).
Definition HOST : regex := Seq (Rep 1 None (Seq HOST_LABEL (lit "."))) HOST_LABEL.
Definition alnum : ascii -> bool := por (between "A" "Z") lower_digit.
Definition SAFE_IDENTIFIER : regex := Seq (Cls alnum) (Rep 0 (Some 127%nat) (Cls (por alnum (one_of "._:/-")))).
Definition SAFE_SECRET_PREFIX : regex := Seq (Cls alnum) (Rep 2 (Some 254%nat) (Cls (por alnum (one_of "._/-")))).
Definition SAFE_URL_PATH : regex := opt (Seq (lit "/") (star (Cls (por alnum (one_of "._~!$&()*+,;=:@%/-"))))).
(** [[^\s@]]: the values it meets are visible ASCII. *)
Definition image_byte (a : ascii) : bool := negb (one_of "@ " a) && negb ((9 <=? code a) && (code a <=? 13)).
Definition IMAGE : regex := Seq (Rep 1 None (Cls image_byte)) (Seq (lit "@sha256:") (Rep 64 (Some 64%nat) (Cls hex_lower))).
(** The repository and the digest of a pinned image. *)
Definition image_parts (s : string) : option (string * string) :=
  if fullmatch IMAGE s then '(repository, rest) ← partition "@" s; Some (repository, removeprefix "sha256:" rest) else None.

Definition is_dns_hostname (value : string) : bool :=
  fullmatch HOST value && (byte_len value <=? 253) && negb (is_ip_address value).

Definition scalar_byte (a : ascii) : bool :=
  (33 <=? code a) && (code a <=? 126) && negb ((code a =? 34) || (code a =? 39) || (code a =? 92)).
Definition validate_render_scalar (key value : string) : res unit :=
  if all_bytes scalar_byte value then Ok tt
  else fail (key ++ " must use visible ASCII without whitespace, control characters, quotes or backslashes.").

(** [re.search] for a percent sign that two hexadecimal digits do not follow. *)
Fixpoint bad_percent (s : string) : bool :=
  match s with
  | "" => false
  | String a r =>
      ((code a =? 37) && negb (match r with String x (String y _) => is_hex x && is_hex y | _ => false end)) || bad_percent r
  end.

Section Values.
Context `{UnicodeData} `{NetlocRules}.

Definition parse_https_endpoint (key value : string) : res (url * Z) :=
  match (parsed ← urlsplit value; p ← port parsed; Ok (parsed, p)) with
  | Raise e => if is_value_error e then fail (key ++ " is not a valid HTTPS URL") else Raise e
  | Ok (parsed, port) =>
      let refused := fail (key ++ " must be an HTTPS URL with a DNS hostname and without credentials, query or fragment.") in
      match hostname parsed with
      | None => refused
      | Some hostname =>
          if negb (String.eqb (scheme parsed) "https") || negb (is_dns_hostname hostname) || has_userinfo parsed
             || negb (String.eqb (fragment parsed) "") || negb (String.eqb (query parsed) "")
          then refused
          else
            let expected_authority := match port with None => hostname | Some p => hostname ++ ":" ++ py_str_int p end in
            if negb (String.eqb (netloc parsed) expected_authority)
            then fail (key ++ " must use a canonical DNS hostname and numeric port.")
            else if negb (fullmatch SAFE_URL_PATH (path parsed)) || bad_percent (path parsed)
            then fail (key ++ " contains an invalid URL path.")
            else Ok (parsed, default 443 port)
      end
  end.

Definition REQUIRED : list string :=
  ["RELEASE_ID"; "PUBLIC_HOST"; "INGRESS_CLASS"; "INGRESS_NAMESPACE"; "INGRESS_PROXY_CIDR"; "TLS_SECRET_NAME";
   "CLUSTER_ISSUER"; "SECRET_STORE_NAME"; "SECRET_PREFIX"; "OIDC_ISSUER_URL"; "OIDC_INTROSPECTION_URL"; "OIDC_ALLOWED_GROUP";
   "OIDC_ADMIN_GROUP"; "OIDC_AUDIENCE"; "OIDC_EGRESS_CIDR"; "GITHUB_EGRESS_CIDR"; "KAFKA_BOOTSTRAP_SERVERS"; "MQTT_HOST";
   "POSTGRES_METADATA_HOST"; "POSTGRES_DATA_HOST"; "POSTGRES_DEALIOT_REGISTRY_HOST"; "VALKEY_HOST"; "ETCD_ENDPOINT_1";
   "ETCD_ENDPOINT_2"; "ETCD_ENDPOINT_3"; "ETCD_TLS_SERVER_NAME"; "KAFKA_EGRESS_CIDR"; "MQTT_EGRESS_CIDR";
   "POSTGRES_METADATA_EGRESS_CIDR"; "POSTGRES_DATA_EGRESS_CIDR"; "POSTGRES_DEALIOT_REGISTRY_EGRESS_CIDR";
   "KUBERNETES_API_EGRESS_CIDR"; "VALKEY_EGRESS_CIDR"; "ETCD_EGRESS_CIDR"; "POD_CIDR"; "OTEL_COLLECTOR_HTTP_ENDPOINT";
   "OTEL_EGRESS_CIDR"; "MONITORING_NAMESPACE"; "IMAGE_APISIX"; "IMAGE_OAUTH2_PROXY"; "IMAGE_APISIX_BOOTSTRAP";
   "IMAGE_MQTT_KAFKA_BRIDGE"; "IMAGE_DEALIOT_CONSOLE"; "IMAGE_DEALHOST"; "IMAGE_DEALDATA_CORE"; "IMAGE_DEALDATA_GPS";
   "IMAGE_DEALDATA_SENSOR"; "IMAGE_DEALINTERFACE"].
Definition image_keys : list string := List.filter (startswith "IMAGE_") REQUIRED.

(** [raw] is the policy file as YAML reads it. *)
Definition load_image_repository_policy (raw : pyval) : res (list (string * string)) :=
  let refused := fail "The supply-chain policy must define exactly all production images." in
  match raw with
  | PDict d =>
      match vget "images" d with
      | PDict images =>
          if negb (eq_str (vget "schemaVersion" d) "archideal.supply-chain-policy/v1") || negb (set_eqb (keys images) image_keys)
          then refused
          else mapM_res (fun ki =>
            match attr_get_or "repository" PNone ki.2 with
            | Ok (PStr repository) =>
                if String.eqb repository "" || has_byte 64 repository
                then fail ("The supply-chain repository policy is invalid for " ++ ki.1 ++ ".") else Ok (ki.1, repository)
            | _ => fail ("The supply-chain repository policy is invalid for " ++ ki.1 ++ ".")
            end) images
      | _ => refused
      end
  | _ => refused
  end.

Definition DNS_HOST_KEYS : list string :=
  ["PUBLIC_HOST"; "MQTT_HOST"; "POSTGRES_METADATA_HOST"; "POSTGRES_DATA_HOST"; "POSTGRES_DEALIOT_REGISTRY_HOST"; "VALKEY_HOST";
   "ETCD_TLS_SERVER_NAME"].
Definition SUBDOMAIN_KEYS : list string :=
  ["INGRESS_CLASS"; "INGRESS_NAMESPACE"; "TLS_SECRET_NAME"; "CLUSTER_ISSUER"; "SECRET_STORE_NAME"; "MONITORING_NAMESPACE"].
Definition private_dependency_keys : list string :=
  ["KAFKA_EGRESS_CIDR"; "MQTT_EGRESS_CIDR"; "POSTGRES_METADATA_EGRESS_CIDR"; "POSTGRES_DATA_EGRESS_CIDR";
   "POSTGRES_DEALIOT_REGISTRY_EGRESS_CIDR"; "KUBERNETES_API_EGRESS_CIDR"; "VALKEY_EGRESS_CIDR"; "ETCD_EGRESS_CIDR"].
Definition provider_keys : list string := ["OIDC_EGRESS_CIDR"; "GITHUB_EGRESS_CIDR"; "OTEL_EGRESS_CIDR"].
Definition NETWORK_KEYS : list string := (private_dependency_keys ++ ["POD_CIDR"; "INGRESS_PROXY_CIDR"] ++ provider_keys)%list.
Definition RFC1918_NETWORKS : list network :=
  [{| net_version := 4; net_address := 167772160; net_prefixlen := 8 |};
   {| net_version := 4; net_address := 2886729728; net_prefixlen := 12 |};
   {| net_version := 4; net_address := 3232235520; net_prefixlen := 16 |}].

(** The values as a function: the keys are exactly [REQUIRED], so no lookup fails. *)
Definition value_of (values : list (string * string)) (k : string) : string := default "" (dget k values).

Section Checks.
Context (v : string -> string).
Definition check_names : res unit :=
  _ ← (if negb (fullmatch RELEASE (v "RELEASE_ID")) then fail "RELEASE_ID must be a lowercase DNS label."
       else if mem (v "RELEASE_ID") ["none"; "pending"] then fail "RELEASE_ID uses a reserved promotion-state sentinel."
       else if 39 <? byte_len (v "RELEASE_ID")
       then fail "RELEASE_ID must be at most 39 characters so every rendered Kubernetes Job name remains a valid DNS label."
       else Ok tt);
  _ ← each SUBDOMAIN_KEYS (fun key =>
        if (253 <? byte_len (v key)) || negb (forallb (fullmatch DNS_LABEL) (py_split "." (v key)))
        then fail (key ++ " must be a DNS-1123 subdomain.") else Ok tt);
  _ ← (if String.eqb (v "INGRESS_NAMESPACE") "archideal" || String.eqb (v "MONITORING_NAMESPACE") "archideal"
          || String.eqb (v "INGRESS_NAMESPACE") (v "MONITORING_NAMESPACE")
       then fail "INGRESS_NAMESPACE, MONITORING_NAMESPACE and the archideal application namespace must be distinct trust boundaries."
       else Ok tt);
  each DNS_HOST_KEYS (fun key =>
    if is_dns_hostname (v key) then Ok tt else fail (key ++ " must be a DNS hostname, without scheme or wildcard.")).

Definition network_of (key : string) : res network :=
  network ← ip_network (v key);
  if net_prefixlen network =? 0 then fail (key ++ " must not permit the whole Internet.") else Ok network.
Definition is_private (n : network) : bool := (net_version n =? 4) && existsb (subnet_of n) RFC1918_NETWORKS.
(** Each key against the ones after it. *)
Fixpoint check_pairs (net : string -> network) (l : list string) : res unit :=
  match l with
  | [] => Ok tt
  | key :: rest =>
      _ ← (if overlaps (net key) (net "POD_CIDR") then fail (key ++ " must not overlap POD_CIDR.") else Ok tt);
      _ ← each rest (fun other_key =>
            if overlaps (net key) (net other_key) then fail (key ++ " must not overlap " ++ other_key ++ ".") else Ok tt);
      check_pairs net rest
  end.
Definition everywhere : network := {| net_version := 4; net_address := 0; net_prefixlen := 0 |}.
Definition check_networks : res (string -> network) :=
  networks ← mapM_res (fun key => n ← network_of key; Ok (key, n)) NETWORK_KEYS;
  let net key := default everywhere (dget key networks) in
  _ ← each (private_dependency_keys ++ ["POD_CIDR"; "INGRESS_PROXY_CIDR"])%list (fun key =>
        if is_private (net key) then Ok tt else fail (key ++ " must be an IPv4 RFC1918 network."));
  _ ← check_pairs net private_dependency_keys;
  _ ← (if net_prefixlen (net "KUBERNETES_API_EGRESS_CIDR") =? 32 then Ok tt
       else fail "KUBERNETES_API_EGRESS_CIDR must identify exactly one IPv4 API endpoint.");
  _ ← each provider_keys (fun key =>
        let minimum_prefix := if net_version (net key) =? 4 then 20 else 48 in
        if net_prefixlen (net key) <? minimum_prefix
        then fail (key ++ " must be a change-reviewed provider range no broader than /" ++ py_str_int minimum_prefix ++ " for IPv"
                   ++ py_str_int (net_version (net key)) ++ ".")
        else if overlaps (net key) (net "POD_CIDR") then fail (key ++ " must not overlap POD_CIDR.") else Ok tt);
  Ok net.

Definition ETCD_KEYS : list string := ["ETCD_ENDPOINT_1"; "ETCD_ENDPOINT_2"; "ETCD_ENDPOINT_3"].
Definition URL_KEYS : list string :=
  (["OIDC_ISSUER_URL"; "OIDC_INTROSPECTION_URL"; "OTEL_COLLECTOR_HTTP_ENDPOINT"] ++ ETCD_KEYS)%list.
Definition no_url : url := {| scheme := ""; netloc := ""; path := ""; params := ""; query := ""; fragment := "" |}.
Definition check_urls : res (string -> url * Z) :=
  parsed ← mapM_res (fun key => u ← parse_https_endpoint key (v key); Ok (key, u)) URL_KEYS;
  let url key := default (no_url, 0) (dget key parsed) in
  _ ← each ETCD_KEYS (fun key => if mem (path (url key).1) [""; "/"] then Ok tt else fail (key ++ " must not contain a path."));
  _ ← each ["OIDC_ISSUER_URL"; "OIDC_INTROSPECTION_URL"] (fun key =>
        if (url key).2 =? 443 then Ok tt else fail (key ++ " must use TCP port 443 allowed by the OIDC NetworkPolicies."));
  _ ← (if (url "OTEL_COLLECTOR_HTTP_ENDPOINT").2 =? 443 then Ok tt
       else fail "OTEL_COLLECTOR_HTTP_ENDPOINT must use TCP port 443 allowed by the APISIX NetworkPolicy.");
  _ ← each ETCD_KEYS (fun key =>
        if (url key).2 =? 2379 then Ok tt else fail (key ++ " must use TCP port 2379 allowed by the APISIX NetworkPolicy."));
  Ok url.

(** The host of a broker, whose port must be 9093. *)
Definition broker_host (broker : string) : res string :=
  match rpartition ":" broker with
  | Some (host, port) =>
      if negb (is_dns_hostname host) || negb (py_isdigit port)
      then fail "Each Kafka bootstrap server must be a DNS hostname and numeric port."
      else
        port ← int_of_digits port;
        if negb (port =? 9093) then fail "Each Kafka bootstrap server must use TCP port 9093 allowed by the runtime NetworkPolicy."
        else Ok host
  | None => fail "Each Kafka bootstrap server must be a DNS hostname and numeric port."
  end.
Definition check_endpoints (url : string -> url * Z) : res unit :=
  let brokers := py_split "," (v "KAFKA_BOOTSTRAP_SERVERS") in
  _ ← (if Nat.ltb (distinct brokers) 3 then fail "KAFKA_BOOTSTRAP_SERVERS must list at least three brokers." else Ok tt);
  broker_hosts ← mapM_res broker_host brokers;
  _ ← (if Nat.ltb (distinct broker_hosts) 3
       then fail "KAFKA_BOOTSTRAP_SERVERS must use at least three distinct hostnames." else Ok tt);
  let etcd_hosts := map (fun key => default "" (hostname (url key).1)) ETCD_KEYS in
  if negb (Nat.eqb (distinct (map v ETCD_KEYS)) 3) || negb (Nat.eqb (distinct etcd_hosts) 3)
  then fail "The three etcd endpoints must use three distinct URLs and hostnames." else Ok tt.

Definition check_identifiers : res unit :=
  _ ← each ["OIDC_ALLOWED_GROUP"; "OIDC_ADMIN_GROUP"; "OIDC_AUDIENCE"] (fun key =>
        if negb (fullmatch SAFE_IDENTIFIER (v key)) || contains ".." (v key) then fail (key ++ " contains unsafe characters.") else Ok tt);
  _ ← (if String.eqb (v "OIDC_ADMIN_GROUP") (v "OIDC_ALLOWED_GROUP")
       then fail "OIDC_ADMIN_GROUP must be distinct from OIDC_ALLOWED_GROUP." else Ok tt);
  if negb (fullmatch SAFE_SECRET_PREFIX (v "SECRET_PREFIX")) || contains ".." (v "SECRET_PREFIX")
  then fail "SECRET_PREFIX contains unsafe characters." else Ok tt.

Definition zero_digest : string := string_of_list_ascii (repeat "0"%char 64).
Definition check_images (policy : pyval) (allow_example : bool) : res unit :=
  image_repositories ← load_image_repository_policy policy;
  each (py_sorted image_keys) (fun key =>
    match image_parts (v key) with
    | None => fail (key ++ " must be an image reference pinned by sha256 digest.")
    | Some (repository, digest) =>
        if negb (bool_decide (dget key image_repositories = Some repository))
        then fail (key ++ " must use the repository approved by supply-chain policy.")
        else if negb allow_example && String.eqb digest zero_digest then fail (key ++ " still has the example all-zero digest.")
        else Ok tt
    end).
End Checks.

Definition example_markers : list string := [".invalid"; "replace/"; "example"; "replace"].
Definition text_value (kv : string * pyval) : res (string * string) :=
  match kv.2 with
  | PStr s => if String.eqb s "" then fail (kv.1 ++ " must be a non-empty string.")
              else _ ← validate_render_scalar kv.1 s; Ok (kv.1, s)
  | _ => fail (kv.1 ++ " must be a non-empty string.")
  end.
Definition load_values (raw policy : pyval) (allow_example : bool) : res (list (string * string)) :=
  match raw with
  | PDict d =>
      if negb (set_eqb (keys d) REQUIRED) then fail "Values keys mismatch"
      else
        values ← mapM_res text_value d;
        let v := value_of values in
        _ ← check_names v;
        _ ← check_networks v;
        url ← check_urls v;
        _ ← check_endpoints v url;
        _ ← check_identifiers v;
        _ ← check_images v policy allow_example;
        _ ← (if allow_example then Ok tt
             else each values (fun kv =>
               if existsb (fun marker => contains marker (py_lower kv.2)) example_markers
               then fail (kv.1 ++ " still contains an example marker.") else Ok tt));
        Ok values
  | _ => fail "Values must be a flat YAML mapping."
  end.
End Values.

(** ** Placeholders *)
(** The name of a placeholder that starts after a dollar sign. *)
Definition name_byte : ascii -> bool := por (between "A" "Z") (por (between "0" "9") (one_of "_")).
Definition hole (s : string) : option string :=
  match after_prefix "{" s with
  | Some r =>
      match span (fun a => negb (name_byte a)) r with
      | (String a n, String b _) => if between "A" "Z" a && Ascii.eqb b "}" then Some (String a n) else None
      | _ => None
      end
  | None => None
  end.
(** A text as placeholders and other bytes; [skip] counts the bytes left of a placeholder. *)
Inductive piece := Byte (a : ascii) | Hole (name : string).
Fixpoint pieces (skip : nat) (s : string) : list piece :=
  match s with
  | "" => []
  | String a r =>
      match skip with
      | S n => pieces n r
      | O =>
          match (if Ascii.eqb a "$" then hole r else None) with
          | Some name => Hole name :: pieces (String.length name + 2) r
          | None => Byte a :: pieces 0 r
          end
      end
  end.
(** [PLACEHOLDER.findall] and [PLACEHOLDER.sub]. *)
Definition findall (s : string) : list string := omap (fun p => match p with Hole n => Some n | Byte _ => None end) (pieces 0 s).
Definition substitute (values : list (string * string)) (s : string) : string :=
  String.concat "" (map (fun p => match p with Byte a => String a "" | Hole n => value_of values n end) (pieces 0 s)).
Definition render_text (text : string) (values : list (string * string)) (path : string) : res string :=
  let unknown := set_diff (findall text) (keys values) in
  if negb (bool_decide (unknown = [])) then fail (path ++ ": unknown placeholders")
  else
    let rendered := substitute values text in
    if negb (bool_decide (findall rendered = [])) then fail (path ++ ": unresolved placeholders") else Ok rendered.
