(* ===== verification/RenderSpec.v ===== *)
(** Properties of the values of a deployment and of rendering: the networks it opens are
    apart, and what is substituted stays inside the quotes of the templates. *)

From S2P Require Import Prelude PyValue Regex PyText Url Ip Render.
#[local] Open Scope list_scope.
#[local] Open Scope string_scope.
#[local] Open Scope Z_scope.

(** ** Loops *)
Lemma each_Ok {A} (l : list A) (f : A -> res unit) : each l f = Ok tt <-> forall x, x ∈ l -> f x = Ok tt.
Proof.
  induction l as [|x l IH]; cbn.
  - split; [by intros _ y ?%not_elem_of_nil|done].
  - rewrite bind_Ok. split.
    + intros ([] & Ex & El) y [->|Hy]%elem_of_cons; [done|]. by apply IH.
    + intros K. exists tt. split; [apply K; by left|]. apply IH. intros y Hy. apply K. by right.
Qed.
Lemma mapM_table {A} (f : string -> res A) (l : list string) (t : list (string * A)) :
  mapM_res (fun key => x ← f key; Ok (key, x)) l = Ok t -> forall key, key ∈ l -> exists x, f key = Ok x /\ dget key t = Some x.
Proof.
  revert t. induction l as [|k l IH]; intros t; [by intros _ key ?%not_elem_of_nil|]. cbn.
  intros ((k' & x) & (x' & Ex & [= <- <-])%bind_Ok & (t' & Et & [= <-])%bind_Ok)%bind_Ok key Hk. cbn.
  destruct (String.eqb_spec key k) as [->|Hne]; [by exists x'|].
  apply elem_of_cons in Hk as [->|Hk]; [done|]. by apply IH.
Qed.

(** ** Networks *)
Record regular (n : network) : Prop := {
  regular_version : net_version n = 4 \/ net_version n = 6;
  regular_prefix : 0 <= net_prefixlen n <= max_prefixlen (net_version n);
  regular_aligned : net_address n mod net_block n = 0
}.
(** The address [a] of version [v] lies in the network. *)
Definition covers (n : network) (v a : Z) : Prop := v = net_version n /\ net_address n <= a <= broadcast_address n.

Lemma prefix_of_mask_bound (n p : Z) : prefix_of_mask n = Some p -> 0 <= p <= 32.
Proof.
  unfold prefix_of_mask. intros K. apply List.find_some in K as (Hp & _). apply in_map_iff in Hp as (i & <- & Hi%in_seq). lia.
Qed.
Lemma make_netmask_bound (v : Z) (s : string) (p : Z) :
  v = 4 \/ v = 6 -> make_netmask v s = Some p -> 0 <= p <= max_prefixlen v.
Proof.
  intros Hv. unfold make_netmask, prefix_from_prefix_string.
  destruct (_ && _) eqn:E.
  - intros [= <-]. rewrite !andb_true_iff in E. destruct E as (((_ & Hd) & _) & Hm). pose proof (digits_value_nonneg s Hd). lia.
  - destruct (Z.eqb_spec v 4) as [->|]; [|done]. unfold prefix_from_ip_string. destruct (ipv4_of_string s) as [n|]; [|done].
    change (max_prefixlen 4) with 32. cbn [mbind option_bind].
    destruct (prefix_of_mask n) as [q|] eqn:E1; [intros [= <-]; by eapply (prefix_of_mask_bound n)|]. apply prefix_of_mask_bound.
Qed.
Lemma strict_network_regular (v a : Z) (mask : option string) (n : network) :
  v = 4 \/ v = 6 -> strict_network v a mask = Some n -> regular n.
Proof.
  intros Hv. unfold strict_network.
  assert (forall p, (match mask with None => Some (max_prefixlen v) | Some m => make_netmask v m end) = Some p -> 0 <= p <= max_prefixlen v) as Hp.
  { destruct mask as [m|]; intros p; [by apply make_netmask_bound|]. intros [= <-]. destruct Hv as [-> | ->]; cbn; lia. }
  destruct (match mask with None => _ | Some m => _ end) as [p|]; [|done]. cbn. specialize (Hp p eq_refl).
  destruct (Z.eqb_spec (a mod 2 ^ (max_prefixlen v - p)) 0) as [E|]; [|done]. intros [= <-]. by constructor.
Qed.
Lemma ip_network_regular (s : string) (n : network) : ip_network s = Ok n -> regular n.
Proof.
  unfold ip_network. set (parts := match partition "/" s with None => _ | Some _ => _ end). clearbody parts.
  destruct parts as [[addr mask]|]; [|done]. cbn.
  destruct (n4 ← ipv4_of_string addr; strict_network 4 n4 mask) as [m|] eqn:E4.
  - intros [= <-]. destruct (ipv4_of_string addr) as [a|]; [|done]. by eapply strict_network_regular; [left|exact E4].
  - destruct (split_scope_id addr) as [[addr' scope]|]; [|done]. cbn. destruct (ipv6_of_string addr') as [a|]; [|done]. cbn.
    destruct (strict_network 6 a mask) as [m|] eqn:E6; [|done]. intros [= <-]. by eapply strict_network_regular; [right|exact E6].
Qed.

Lemma block_pos (n : network) : regular n -> 0 < net_block n.
Proof. intros [_ H _]. apply Z.pow_pos_nonneg; lia. Qed.
(** Of two blocks of one version the larger is a multiple of the smaller. *)
Lemma blocks_nested (a b : network) :
  regular a -> regular b -> net_version a = net_version b -> net_block a <= net_block b -> exists c, net_block b = net_block a * c.
Proof.
  intros [_ Pa _] [_ Pb _] Ev Hle. unfold net_block in *. rewrite <- Ev in *. set (m := max_prefixlen (net_version a)) in *.
  assert (m - net_prefixlen a <= m - net_prefixlen b) as Hp.
  { destruct (Z.le_gt_cases (m - net_prefixlen a) (m - net_prefixlen b)) as [|Hgt]; [done|].
    pose proof (Z.pow_lt_mono_r 2 (m - net_prefixlen b) (m - net_prefixlen a)). lia. }
  exists (2 ^ (net_prefixlen a - net_prefixlen b)). rewrite <- Z.pow_add_r by lia. f_equal. lia.
Qed.
Lemma address_in_covers (v x : Z) (n : network) : regular n -> address_in v x n = true <-> covers n v x.
Proof.
  intros R. pose proof (block_pos n R) as Hb. destruct R as [_ _ Ha]. unfold address_in, covers, broadcast_address.
  rewrite andb_true_iff, !Z.eqb_eq. apply Z.mod_divide in Ha as (c & Hc); [|lia]. rewrite Hc.
  pose proof (Z.div_mod x (net_block n)). pose proof (Z.mod_pos_bound x (net_block n) Hb).
  split; intros (-> & K); (split; [done|]).
  - lia.
  - assert (x / net_block n = c) as <-; [|lia]. symmetry. apply (Z.div_unique_pos x (net_block n) c (x - c * net_block n)); lia.
Qed.
Lemma smaller_block_inside (a b : network) (v x : Z) :
  regular a -> regular b -> net_block a <= net_block b -> covers a v x -> covers b v x -> covers b v (net_address a).
Proof.
  intros Ra Rb Hle (-> & Ha) (Ev & Hb). destruct (blocks_nested a b Ra Rb Ev Hle) as (c & Hc).
  pose proof (block_pos a Ra) as Pa. pose proof (regular_aligned a Ra) as Aa. pose proof (regular_aligned b Rb) as Ab.
  apply Z.mod_divide in Aa as (i & Hi); [|lia]. apply Z.mod_divide in Ab as (j & Hj); [|pose proof (block_pos b Rb); lia].
  split; [done|]. unfold broadcast_address in Ha, Hb. rewrite Hi in Ha |- *. rewrite Hj, Hc in Hb |- *.
  set (A := net_block a) in *. assert (A * (j * c) < A * (i + 1)) as K by lia.
  apply Z.mul_lt_mono_pos_l in K; [|done]. assert (A * (j * c) <= A * i) by (apply Z.mul_le_mono_nonneg_l; lia).
  unfold broadcast_address. rewrite Hj, Hc. lia.
Qed.
(** The check of the code is exact. *)
Lemma overlaps_spec (a b : network) :
  regular a -> regular b -> overlaps a b = false <-> forall v x, ~ (covers a v x /\ covers b v x).
Proof.
  intros Ra Rb. pose proof (block_pos a Ra). pose proof (block_pos b Rb). split.
  - intros Ho v x (Ca & Cb). unfold overlaps in Ho. rewrite !orb_false_iff in Ho. destruct Ho as (((O1 & _) & O3) & _).
    destruct (Z.le_ge_cases (net_block a) (net_block b)) as [Hle|Hle].
    + pose proof (smaller_block_inside a b v x Ra Rb Hle Ca Cb) as K. destruct Ca as [-> _].
      by rewrite (proj2 (address_in_covers _ _ b Rb) K) in O1.
    + pose proof (smaller_block_inside b a v x Rb Ra Hle Cb Ca) as K. destruct Cb as [-> _].
      by rewrite (proj2 (address_in_covers _ _ a Ra) K) in O3.
  - intros K. apply not_true_iff_false. unfold overlaps. rewrite !orb_true_iff, !address_in_covers by done.
    assert (forall n, regular n -> covers n (net_version n) (net_address n) /\ covers n (net_version n) (broadcast_address n)) as C.
    { intros n Rn. pose proof (block_pos n Rn). unfold covers, broadcast_address. split; (split; [done|lia]). }
    destruct (C a Ra) as (? & ?), (C b Rb) as (? & ?). intros [[[?|?]|?]|?]; eapply K; eauto.
Qed.

Section Values.
Context `{UnicodeData} `{NetlocRules}.

(** ** What accepted values satisfy *)
Lemma load_values_Ok (raw policy : pyval) (allow_example : bool) (values : list (string * string)) :
  load_values raw policy allow_example = Ok values ->
  let v := value_of values in
  exists d url net, raw = PDict d /\ set_eqb (keys d) REQUIRED = true /\ mapM_res text_value d = Ok values /\
    check_names v = Ok tt /\ check_networks v = Ok net /\ check_urls v = Ok url /\ check_endpoints v url = Ok tt /\
    check_identifiers v = Ok tt /\ check_images v policy allow_example = Ok tt.
Proof.
  unfold load_values. destruct raw as [| | | | | |d]; try done. destruct (set_eqb (keys d) REQUIRED) eqn:Es; [|done]. cbn [negb].
  intros (vs & Ev & ([] & E1 & (net & E2 & (url & E3 & ([] & E4 & ([] & E5 & ([] & E6 & ([] & _ & [= <-])%bind_Ok)%bind_Ok)%bind_Ok)%bind_Ok)%bind_Ok)%bind_Ok)%bind_Ok)%bind_Ok.
  exists d, url, net. by split_and!.
Qed.
Lemma text_values (d : attrs) (values : list (string * string)) :
  mapM_res text_value d = Ok values ->
  keys values = keys d /\ forall k s, (k, s) ∈ values -> s <> "" /\ all_bytes scalar_byte s = true.
Proof.
  revert values. induction d as [|[k x] d IH]; intros values.
  - intros [= <-]. split; [done|]. by intros k s ?%not_elem_of_nil.
  - cbn. intros ((k' & s) & Ex & (l & El & [= <-])%bind_Ok)%bind_Ok. destruct (IH l El) as (Ek & Hl).
    unfold text_value in Ex. cbn [fst snd] in Ex. destruct x as [| | | |t| |]; try done.
    destruct (String.eqb_spec t "") as [|Ht]; [done|]. unfold validate_render_scalar in Ex.
    destruct (all_bytes scalar_byte t) eqn:Ea; [|done]. injection Ex as <- <-. split; [unfold keys in *; cbn; by rewrite Ek|].
    intros k0 s0 [[= -> ->]|Hin]%elem_of_cons; [done|]. by eapply Hl.
Qed.
Lemma value_scalar (values : list (string * string)) (k : string) :
  (forall k s, (k, s) ∈ values -> s <> "" /\ all_bytes scalar_byte s = true) -> all_bytes scalar_byte (value_of values k) = true.
Proof.
  intros Hv. unfold value_of. destruct (dget k values) as [s|] eqn:E; [|done]. cbn. clear -Hv E.
  induction values as [|[k' s'] l IH]; [done|]. cbn in E. destruct (String.eqb k k').
  - injection E as <-. by apply (Hv k' s'); left.
  - apply IH; [|done]. intros k0 s0 Hin. apply (Hv k0 s0). by right.
Qed.

(** *** Networks *)
(** No address lies in both networks. *)
Definition apart (a b : network) : Prop := forall v x, ~ (covers a v x /\ covers b v x).
Lemma apart_intro (a b : network) : regular a -> regular b -> overlaps a b = false -> apart a b.
Proof. intros Ra Rb Ho. exact (proj1 (overlaps_spec a b Ra Rb) Ho). Qed.
Lemma apart_sym (a b : network) : apart a b -> apart b a.
Proof. intros K v x (A & B). by apply (K v x). Qed.
Lemma check_pairs_Ok (net : string -> network) (l : list string) :
  check_pairs net l = Ok tt ->
  (forall k, k ∈ l -> overlaps (net k) (net "POD_CIDR") = false) /\
  forall i j k k', l !! i = Some k -> l !! j = Some k' -> (i < j)%nat -> overlaps (net k) (net k') = false.
Proof.
  induction l as [|x l IH]; cbn [check_pairs].
  - intros _. split; [by intros k ?%not_elem_of_nil|done].
  - intros ([] & Ep & ([] & Ee & K)%bind_Ok)%bind_Ok. destruct (IH K) as (I1 & I2).
    destruct (overlaps (net x) (net "POD_CIDR")) eqn:Eo; [done|]. split.
    + by intros k [->|Hk]%elem_of_cons; [|apply I1].
    + rewrite each_Ok in Ee. intros [|i] [|j] k k' Ei Ej Hij; cbn in *; try lia.
      * injection Ei as <-. specialize (Ee k'). destruct (overlaps (net x) (net k')); [|done].
        discriminate Ee. by eapply list_elem_of_lookup_2.
      * eapply (I2 i j); [done|done|lia].
Qed.
Lemma is_private_covers (n : network) (x : Z) :
  is_private n = true -> covers n (net_version n) x -> exists p, p ∈ RFC1918_NETWORKS /\ covers p 4 x.
Proof.
  unfold is_private. rewrite andb_true_iff, existsb_exists. intros (Ev & p & Hp & Hs) (_ & Hx).
  apply list_elem_of_In in Hp. exists p. split; [done|]. unfold subnet_of in Hs. apply andb_true_iff in Hs as (H1 & H2).
  assert (net_version p = 4) as Evp.
  { unfold RFC1918_NETWORKS in Hp. rewrite !elem_of_cons, elem_of_nil in Hp. by destruct Hp as [->|[->|[->|[]]]]. }
  split; [done|]. lia.
Qed.

(** The networks of accepted values are apart: no address is in the ranges of two private
    dependencies, nor in one of a dependency or a provider and the range of the pods; the ranges
    of dependencies, pods and the ingress proxy hold private IPv4 addresses only. *)
Theorem accepted_networks_apart (raw policy : pyval) (allow_example : bool) (values : list (string * string)) :
  load_values raw policy allow_example = Ok values ->
  exists net, (forall k, k ∈ NETWORK_KEYS -> ip_network (value_of values k) = Ok (net k) /\ net_prefixlen (net k) <> 0) /\
    (forall k k', k ∈ private_dependency_keys -> k' ∈ private_dependency_keys -> k <> k' -> apart (net k) (net k')) /\
    (forall k, k ∈ (private_dependency_keys ++ provider_keys)%list -> apart (net k) (net "POD_CIDR")) /\
    (forall k x, k ∈ (private_dependency_keys ++ ["POD_CIDR"; "INGRESS_PROXY_CIDR"])%list -> covers (net k) (net_version (net k)) x ->
       exists p, p ∈ RFC1918_NETWORKS /\ covers p 4 x).
Proof.
  intros (d & url & net & _ & _ & _ & _ & E & _)%load_values_Ok. unfold check_networks in E.
  apply bind_Ok in E as (t & Et & E). pose proof (mapM_table _ _ _ Et) as Htab. clear Et.
  set (net' := fun key => default everywhere (dget key t)) in *. cbv zeta in E.
  apply bind_Ok in E as ([] & Eprivate & E). apply bind_Ok in E as ([] & Epairs & E).
  apply bind_Ok in E as ([] & _ & E). apply bind_Ok in E as ([] & Eproviders & _). exists net'.
  assert (forall k, k ∈ NETWORK_KEYS -> ip_network (value_of values k) = Ok (net' k) /\ net_prefixlen (net' k) <> 0) as Hnet.
  { intros k Hk. destruct (Htab k Hk) as (n & En & Ed). unfold net'. rewrite Ed. cbn. unfold network_of in En.
    apply bind_Ok in En as (m & Em & En). destruct (Z.eqb_spec (net_prefixlen m) 0); [done|]. by injection En as <-. }
  assert (forall k, k ∈ NETWORK_KEYS -> regular (net' k)) as Hreg.
  { intros k Hk. destruct (Hnet k Hk) as (E & _). by eapply ip_network_regular. }
  destruct (check_pairs_Ok net' private_dependency_keys Epairs) as (Hpod & Hpairs).
  assert (forall k, k ∈ private_dependency_keys -> k ∈ NETWORK_KEYS) as Hin.
  { intros k Hk. unfold NETWORK_KEYS. rewrite elem_of_app. by left. }
  assert ("POD_CIDR" ∈ NETWORK_KEYS) as Hpodin by (unfold NETWORK_KEYS; rewrite !elem_of_app; right; left; by left).
  split_and!.
  - exact Hnet.
  - intros k k' Hk Hk' Hne. apply list_elem_of_lookup in Hk as (i & Ei), Hk' as (j & Ej).
    destruct (Nat.lt_trichotomy i j) as [Hij|[->|Hij]]; [|congruence|].
    + apply apart_intro; [apply Hreg, Hin; by eapply list_elem_of_lookup_2..|]. by eapply Hpairs.
    + apply apart_sym, apart_intro; [apply Hreg, Hin; by eapply list_elem_of_lookup_2..|]. by eapply Hpairs.
  - intros k [Hk|Hk]%elem_of_app.
    + apply apart_intro; auto.
    + apply apart_intro; [apply Hreg|by apply Hreg|].
      * unfold NETWORK_KEYS. rewrite !elem_of_app. auto.
      * rewrite each_Ok in Eproviders. specialize (Eproviders k Hk). cbv zeta in Eproviders.
        change (default everywhere (dget k t)) with (net' k) in Eproviders.
        change (default everywhere (dget "POD_CIDR" t)) with (net' "POD_CIDR") in Eproviders.
        destruct (_ <? _) in Eproviders; [done|]. by destruct (overlaps (net' k) (net' "POD_CIDR")).
  - intros k x Hk Hx. eapply is_private_covers; [|exact Hx]. rewrite each_Ok in Eprivate. specialize (Eprivate k Hk).
    change (default everywhere (dget k t)) with (net' k) in Eprivate. by destruct (is_private (net' k)).
Qed.

(** ** Rendering *)
(** [s[n:]]. *)
Fixpoint sdrop (n : nat) (s : string) : string :=
  match n, s with S n, String _ r => sdrop n r | _, _ => s end.
Lemma pieces_skip (n : nat) (s : string) : pieces n s = pieces 0 (sdrop n s).
Proof. revert s. induction n as [|n IH]; intros [|a s]; try done. apply IH. Qed.
Lemma sdrop_app (s t : string) : sdrop (String.length s) (s ++ t) = t.
Proof. induction s as [|a s IH]; [by destruct t|]. exact IH. Qed.
Lemma span_split (stop : ascii -> bool) (s x y : string) :
  span stop s = (x, y) -> s = (x ++ y)%string /\ all_bytes (fun a => negb (stop a)) x = true.
Proof.
  revert x y. induction s as [|a s IH]; intros x y; cbn; [by intros [= <- <-]|].
  destruct (stop a) eqn:Ea; [by intros [= <- <-]|]. destruct (span stop s) as [x' y']. intros [= <- <-].
  destruct (IH x' y' eq_refl) as (-> & Hx). cbn. rewrite Ea. done.
Qed.
(** A placeholder in the text: its bytes and the rest. *)
Lemma hole_Some (s n : string) :
  hole s = Some n -> exists rest, s = ("{" ++ n ++ "}" ++ rest)%string /\ all_bytes scalar_byte n = true /\ sdrop (String.length n + 2) s = rest.
Proof.
  unfold hole. destruct (after_prefix "{" s) as [r|] eqn:Er; [|done].
  destruct (span _ r) as [x y] eqn:Esp. destruct x as [|a x]; [done|]. destruct y as [|b y]; [done|].
  destruct (between "A" "Z" a && Ascii.eqb b "}") eqn:E; [|done]. intros [= <-].
  apply andb_true_iff in E as (_ & ->%Ascii.eqb_eq). apply span_split in Esp as (-> & Hx).
  assert (s = "{" ++ String a x ++ "}" ++ y)%string as Es.
  { destruct s as [|c s]; [done|]. cbn [after_prefix] in Er. destruct (Ascii.eqb_spec "{" c) as [<-|]; [|done]. injection Er as ->. done. }
  exists y. split; [exact Es|]. split.
  - eapply all_bytes_impl; [|exact Hx]. intros c. destruct c as [[] [] [] [] [] [] [] []]; vm_compute; congruence.
  - rewrite Es. rewrite Nat.add_comm. change (sdrop (2 + String.length (String a x)) ("{" ++ String a x ++ "}" ++ y))
      with (sdrop (S (String.length (String a x))) (String a x ++ "}" ++ y)).
    rewrite append_assoc. replace (S (String.length (String a x))) with (String.length (String a x ++ "}")); [apply sdrop_app|].
    rewrite append_length. cbn. lia.
Qed.
Lemma remove_bytes_app (p : ascii -> bool) (s t : string) : remove_bytes p (s ++ t) = (remove_bytes p s ++ remove_bytes p t)%string.
Proof. induction s as [|a s IH]; [done|]. cbn. destruct (p a); [done|]. cbn. by rewrite IH. Qed.
Lemma remove_bytes_all (p : ascii -> bool) (s : string) : all_bytes p s = true -> remove_bytes p s = "".
Proof. induction s as [|a s IH]; [done|]. cbn. intros (-> & Hs)%andb_true_iff. by apply IH. Qed.
Lemma concat_cons' (s : string) (l : list string) : String.concat "" (s :: l) = (s ++ String.concat "" l)%string.
Proof. destruct l; [by rewrite append_nil_r|done]. Qed.

(** The bytes that no value may hold are those of the template, in their order. *)
Lemma substitute_structure (values : list (string * string)) (s : string) :
  (forall k, all_bytes scalar_byte (value_of values k) = true) ->
  remove_bytes scalar_byte (substitute values s) = remove_bytes scalar_byte s.
Proof.
  intros Hv. unfold substitute. remember (String.length s) as len eqn:Hlen.
  revert s Hlen. induction (lt_wf len) as [len _ IH]. intros s ->.
  destruct s as [|a r]; [done|]. cbn [pieces].
  destruct (if Ascii.eqb a "$" then hole r else None) as [n|] eqn:E.
  - destruct (Ascii.eqb_spec a "$") as [->|]; [|done]. apply hole_Some in E as (rest & -> & Hn & Hd).
    rewrite pieces_skip, Hd. cbn [map]. rewrite concat_cons', remove_bytes_app, (remove_bytes_all _ _ (Hv n)).
    rewrite (IH (String.length rest)); [|cbn [String.length]; rewrite !append_length; lia|done].
    transitivity (remove_bytes scalar_byte (n ++ ("}" ++ rest))%string); [|reflexivity].
    rewrite (remove_bytes_app _ n), (remove_bytes_all _ _ Hn). reflexivity.
  - cbn [map]. rewrite concat_cons', remove_bytes_app, (IH (String.length r)) by (cbn; lia || done).
    cbn. by destruct (scalar_byte a).
Qed.

(** The bytes that end a quoted scalar or continue elsewhere: white space, control characters,
    quotes, backslashes and what is not ASCII. *)
Definition breaks_scalar (a : ascii) : bool :=
  (code a <=? 32) || (127 <=? code a) || existsb (Z.eqb (code a)) [34; 39; 92].
Definition breaking_bytes : string -> string := remove_bytes (fun a => negb (breaks_scalar a)).
Lemma breaking_bytes_scalar (s : string) : breaking_bytes s = remove_bytes scalar_byte s.
Proof.
  unfold breaking_bytes. induction s as [|a s IH]; [done|]. cbn. rewrite IH.
  assert (negb (breaks_scalar a) = scalar_byte a) as ->; [|done].
  destruct a as [[] [] [] [] [] [] [] []]; vm_compute; reflexivity.
Qed.

End Values.

(** ** Examples *)
(** The example values of the repository (values.example.yaml) and the repositories of its
    supply-chain policy. *)
Module SampleRender.
#[export] Existing Instance ascii_unicode.
#[export] Instance netloc_rules : NetlocRules := {| bracketed_host_ok := fun _ => false; unicode_netloc_ok := fun _ => false |}.
Definition pinned (repository : string) : string := repository ++ "@sha256:" ++ zero_digest.
Definition example_values : attrs := [
  ("RELEASE_ID", PStr "r-00000000000000000000000000000000");
  ("PUBLIC_HOST", PStr "deal.example.invalid");
  ("INGRESS_CLASS", PStr "nginx");
  ("INGRESS_NAMESPACE", PStr "ingress-nginx");
  ("INGRESS_PROXY_CIDR", PStr "10.42.0.0/24");
  ("TLS_SECRET_NAME", PStr "archideal-public-tls");
  ("CLUSTER_ISSUER", PStr "production-issuer");
  ("SECRET_STORE_NAME", PStr "production-secret-store");
  ("SECRET_PREFIX", PStr "replace/archideal/production");
  ("OIDC_ISSUER_URL", PStr "https://identity.example.invalid/realms/archideal");
  ("OIDC_INTROSPECTION_URL", PStr "https://identity.example.invalid/oauth2/introspect");
  ("OIDC_ALLOWED_GROUP", PStr "archideal-production-readers");
  ("OIDC_ADMIN_GROUP", PStr "archideal-production-admins");
  ("OIDC_AUDIENCE", PStr "archideal-production");
  ("OIDC_EGRESS_CIDR", PStr "192.0.2.0/28");
  ("GITHUB_EGRESS_CIDR", PStr "192.0.2.16/28");
  ("KAFKA_BOOTSTRAP_SERVERS", PStr "kafka-0.example.invalid:9093,kafka-1.example.invalid:9093,kafka-2.example.invalid:9093");
  ("MQTT_HOST", PStr "mqtt.example.invalid");
  ("POSTGRES_METADATA_HOST", PStr "metadata-postgres.example.invalid");
  ("POSTGRES_DATA_HOST", PStr "data-postgres.example.invalid");
  ("POSTGRES_DEALIOT_REGISTRY_HOST", PStr "dealiot-registry-postgres.example.invalid");
  ("VALKEY_HOST", PStr "valkey.example.invalid");
  ("ETCD_ENDPOINT_1", PStr "https://etcd-0.example.invalid:2379");
  ("ETCD_ENDPOINT_2", PStr "https://etcd-1.example.invalid:2379");
  ("ETCD_ENDPOINT_3", PStr "https://etcd-2.example.invalid:2379");
  ("ETCD_TLS_SERVER_NAME", PStr "etcd.example.invalid");
  ("KAFKA_EGRESS_CIDR", PStr "10.100.0.0/24");
  ("MQTT_EGRESS_CIDR", PStr "10.100.1.0/24");
  ("POSTGRES_METADATA_EGRESS_CIDR", PStr "10.100.2.0/24");
  ("POSTGRES_DATA_EGRESS_CIDR", PStr "10.100.3.0/24");
  ("VALKEY_EGRESS_CIDR", PStr "10.100.4.0/24");
  ("ETCD_EGRESS_CIDR", PStr "10.100.5.0/24");
  ("POSTGRES_DEALIOT_REGISTRY_EGRESS_CIDR", PStr "10.100.6.0/24");
  ("KUBERNETES_API_EGRESS_CIDR", PStr "10.96.0.1/32");
  ("POD_CIDR", PStr "10.244.0.0/16");
  ("OTEL_COLLECTOR_HTTP_ENDPOINT", PStr "https://otel.example.invalid/v1/traces");
  ("OTEL_EGRESS_CIDR", PStr "203.0.113.0/28");
  ("MONITORING_NAMESPACE", PStr "monitoring");
  ("IMAGE_APISIX", PStr (pinned "apache/apisix"));
  ("IMAGE_OAUTH2_PROXY", PStr (pinned "quay.io/oauth2-proxy/oauth2-proxy"));
  ("IMAGE_APISIX_BOOTSTRAP", PStr (pinned "ghcr.io/smartappli/archideal-apisix-bootstrap"));
  ("IMAGE_MQTT_KAFKA_BRIDGE", PStr (pinned "ghcr.io/smartappli/archideal-mqtt-kafka-bridge"));
  ("IMAGE_DEALIOT_CONSOLE", PStr (pinned "ghcr.io/smartappli/archideal-dealiot-console"));
  ("IMAGE_DEALHOST", PStr (pinned "ghcr.io/smartappli/archideal-dealhost"));
  ("IMAGE_DEALDATA_CORE", PStr (pinned "ghcr.io/smartappli/archideal-dealdata-core"));
  ("IMAGE_DEALDATA_GPS", PStr (pinned "ghcr.io/smartappli/archideal-dealdata-gps"));
  ("IMAGE_DEALDATA_SENSOR", PStr (pinned "ghcr.io/smartappli/archideal-dealdata-sensor"));
  ("IMAGE_DEALINTERFACE", PStr (pinned "ghcr.io/smartappli/archideal-dealinterface"))].
Definition policy : pyval := PDict [("schemaVersion", PStr "archideal.supply-chain-policy/v1"); ("images", PDict [
  ("IMAGE_APISIX", PDict [("repository", PStr "apache/apisix")]);
  ("IMAGE_OAUTH2_PROXY", PDict [("repository", PStr "quay.io/oauth2-proxy/oauth2-proxy")]);
  ("IMAGE_APISIX_BOOTSTRAP", PDict [("repository", PStr "ghcr.io/smartappli/archideal-apisix-bootstrap")]);
  ("IMAGE_MQTT_KAFKA_BRIDGE", PDict [("repository", PStr "ghcr.io/smartappli/archideal-mqtt-kafka-bridge")]);
  ("IMAGE_DEALIOT_CONSOLE", PDict [("repository", PStr "ghcr.io/smartappli/archideal-dealiot-console")]);
  ("IMAGE_DEALHOST", PDict [("repository", PStr "ghcr.io/smartappli/archideal-dealhost")]);
  ("IMAGE_DEALDATA_CORE", PDict [("repository", PStr "ghcr.io/smartappli/archideal-dealdata-core")]);
  ("IMAGE_DEALDATA_GPS", PDict [("repository", PStr "ghcr.io/smartappli/archideal-dealdata-gps")]);
  ("IMAGE_DEALDATA_SENSOR", PDict [("repository", PStr "ghcr.io/smartappli/archideal-dealdata-sensor")]);
  ("IMAGE_DEALINTERFACE", PDict [("repository", PStr "ghcr.io/smartappli/archideal-dealinterface")])])].
Definition loaded : list (string * string) := Eval vm_compute in
  match load_values (PDict example_values) policy true with Ok l => l | Raise _ => [] end.
Lemma loaded_run : load_values (PDict example_values) policy true = Ok loaded.
Proof. by vm_compute. Qed.
(** Without the flag for examples the same values are refused. *)
Example examples_are_not_deployed :
  load_values (PDict example_values) policy false = Raise (ValueError "IMAGE_APISIX still has the example all-zero digest.").
Proof. by vm_compute. Qed.

Lemma accepted_networks_apart_witness :
  load_values (PDict example_values) policy true = Ok loaded /\
  exists net, ip_network (value_of loaded "KAFKA_EGRESS_CIDR") = Ok (net "KAFKA_EGRESS_CIDR") /\
    apart (net "KAFKA_EGRESS_CIDR") (net "MQTT_EGRESS_CIDR").
Proof.
  split; [exact loaded_run|].
  destruct (accepted_networks_apart (PDict example_values) policy true loaded loaded_run) as (net & K1 & K2 & _).
  exists net. split; [apply K1; by left|]. apply K2; [by left|by right; left|done].
Defined.
Definition template : string := "host: " ++ bytes [34] ++ "${PUBLIC_HOST}" ++ bytes [34; 10].
End SampleRender.
