(* ===== verification/Policies.v ===== *)
(** The checks of rendered manifests (src/deploy/kubernetes/render.py): the label selectors of
    network policies, the allowlists of dynamic routes against the routes, services and network
    policies that are deployed, and the closed namespace of the managed applications.

    The documents are the mappings YAML yields; their keys are texts. *)

From S2P Require Import Prelude PyValue Regex PyFloat Json PyTime PyText Wire Url Ip Service Release Gateway Render.
#[local] Open Scope list_scope.
#[local] Open Scope string_scope.
#[local] Open Scope Z_scope.

Definition RUNTIME_APPS_NAMESPACE : string := "archideal-runtime-apps".
Definition RUNTIME_APPS_NETWORK_POLICIES : list string := ["runtime-apps-default-deny"; "runtime-apps-allow-dns-egress"].
Definition RUNTIME_EXPOSURE_KINDS : list string :=
  ["Gateway"; "GRPCRoute"; "HTTPRoute"; "Ingress"; "ReferenceGrant"; "Route"; "ServiceExport"; "TCPRoute"; "TLSRoute"; "UDPRoute"].
Definition EXPECTED_APISIX_BOOTSTRAP_UPSTREAMS : list (string * (string * Z)) :=
  [("archideal-dealhost", ("dealhost", 8000)); ("archideal-dealiot", ("dealiot", 8080));
   ("archideal-dealdata-core", ("dealdata-core", 7000)); ("archideal-dealdata-gps", ("dealdata-gps", 7001));
   ("archideal-dealdata-sensor", ("dealdata-sensor", 7002)); ("archideal-interface", ("dealinterface", 8080))].

(** ** Documents *)
Definition kind_is (kind : string) (d : attrs) : bool := eq_str (vget "kind" d) kind.
(** [d.get("metadata", {}).get(k)]. *)
Definition meta (k : string) (d : attrs) : res pyval := attr_get_or k PNone (dget_or "metadata" (PDict []) d).
(** [[x for x in l if f(x)]], in order; an exception of [f] ends it. *)
Fixpoint filter_res {A} (f : A -> res bool) (l : list A) : res (list A) :=
  match l with
  | [] => Ok []
  | x :: l => b ← f x; r ← filter_res f l; Ok (if b : bool then x :: r else r)
  end.
(** [next((x for x in l if f(x)), None)]. *)
Fixpoint first_res {A} (f : A -> res bool) (l : list A) : res (option A) :=
  match l with
  | [] => Ok None
  | x :: l => b ← f x; if b : bool then Ok (Some x) else first_res f l
  end.
Definition named (kind name : string) (d : attrs) : res bool :=
  if kind_is kind d then n ← meta "name" d; Ok (eq_str n name) else Ok false.
(** [v[k]]. *)
Definition subscript (k : string) (v : pyval) : res pyval :=
  match v with
  | PDict d => match dget k d with Some x => Ok x | None => Raise (KeyError k) end
  | _ => Raise TypeError
  end.
Definition is_hashable (v : pyval) : bool := match v with PList _ | PDict _ => false | _ => true end.
(** [set(v)]. *)
Definition set_of (v : pyval) : res (list pyval) :=
  l ← iterate v; if forallb is_hashable l then Ok l else Raise TypeError.
Definition holds (l : list pyval) (s : string) : bool := existsb (fun v => eq_str v s) l.

(** ** Names *)
Section Policies.
Context `{UnicodeData} `{CaseFold}.

Definition _config_csv (runtime_config : attrs) (key : string) : res (list string) :=
  match dget_or key (PStr "") runtime_config with
  | PStr raw_value =>
      if String.eqb (py_strip raw_value) "" then Ok []
      else
        let items := map py_strip (py_split "," raw_value) in
        if existsb (fun item => String.eqb item "") items then fail (key ++ " must not contain empty entries.") else Ok items
  | _ => fail (key ++ " must be a comma-separated string.")
  end.
Definition _is_internal_dns_name (value : string) : bool :=
  if String.eqb value "" || (253 <? py_len value) || endswith "." value || String.eqb value "localhost"
     || endswith ".localhost" value || existsb (fun label => negb (fullmatch DNS_LABEL label)) (py_split "." value)
  then false
  else if is_ip_address value then false
  else negb (py_isdigit (remove_bytes (is_byte 46) value)).
Definition _is_runtime_upstream_host (value : string) : bool :=
  let labels := py_split "." (py_casefold value) in
  mem RUNTIME_APPS_NAMESPACE labels || startswith "dealrt-" (hd "" labels).

(** ** Label selectors *)
Definition texts (l : list pyval) : list string := omap (fun v => match v with PStr s => Some s | _ => None end) l.
(** The names one expression adds. *)
Definition expression_names (expression : pyval) : res (list string) :=
  key ← attr_get_or "key" PNone expression;
  if negb (eq_str key "app.kubernetes.io/name") then Ok []
  else
    operator ← attr_get_or "operator" PNone expression;
    if negb (eq_str operator "In") then Ok []
    else
      raw_values ← attr_get_or "values" (PList []) expression;
      values ← iterate raw_values;
      Ok (texts values).
Definition _network_policy_pod_names (peer : pyval) : res (list string) :=
  selector ← attr_get_or "podSelector" (PDict []) peer;
  match_labels ← attr_get_or "matchLabels" (PDict []) selector;
  label_name ← attr_get_or "app.kubernetes.io/name" PNone match_labels;
  raw_expressions ← attr_get_or "matchExpressions" (PList []) selector;
  expressions ← iterate raw_expressions;
  names ← mapM_res expression_names expressions;
  Ok (texts [label_name] ++ List.concat names)%list.

Definition label_value (labels : list (string * string)) (key : string) : pyval :=
  match dget key labels with Some s => PStr s | None => PNone end.
(** One expression: [None] goes on to the next, [Some b] returns [b]. *)
Definition expression_result (labels : list (string * string)) (expression : pyval) : option bool :=
  match expression with
  | PDict e =>
      match vget "key" e, dget_or "values" (PList []) e with
      | PStr key, PList values =>
          let operator := vget "operator" e in
          let held := has_key key labels in
          let listed := existsb (py_eqb (label_value labels key)) values in
          if eq_str operator "In" && negb listed then Some false
          else if eq_str operator "NotIn" && held && listed then Some false
          else if eq_str operator "Exists" && negb held then Some false
          else if eq_str operator "DoesNotExist" && held then Some false
          else if negb (existsb (eq_str operator) ["In"; "NotIn"; "Exists"; "DoesNotExist"]) then Some true
          else None
      | _, _ => Some true
      end
  | _ => Some true
  end.
Fixpoint expressions_match (labels : list (string * string)) (l : list pyval) : bool :=
  match l with
  | [] => true
  | e :: l => match expression_result labels e with Some b => b | None => expressions_match labels l end
  end.
Definition _label_selector_matches (selector : pyval) (labels : list (string * string)) : bool :=
  match selector with
  | PDict s =>
      match dget_or "matchLabels" (PDict []) s, dget_or "matchExpressions" (PList []) s with
      | PDict match_labels, PList expressions =>
          if existsb (fun kv => negb (py_eqb (label_value labels kv.1) kv.2)) match_labels then false
          else expressions_match labels expressions
      | _, _ => true
      end
  | _ => true
  end.
Definition _network_policy_types (spec : pyval) : list string :=
  match spec with
  | PDict s =>
      let policy_types :=
        match vget "policyTypes" s with
        | PList declared => omap (fun v => match v with PStr t => if mem t ["Ingress"; "Egress"] then Some t else None | _ => None end) declared
        | _ => "Ingress" :: (if has_key "egress" s then ["Egress"] else [])
        end in
      (policy_types ++ (if has_key "ingress" s then ["Ingress"] else []) ++ (if has_key "egress" s then ["Egress"] else []))%list
  | _ => ["Ingress"; "Egress"]
  end.

(** ** The allowlists of dynamic routes *)
(** A port in its canonical decimal form. *)
Definition canonical_port (message : string) (raw_port : string) : res Z :=
  if String.eqb raw_port "" || negb (all_bytes is_digit raw_port) then fail message
  else
    port ← int_of_digits raw_port;
    if negb (String.eqb raw_port (py_str_int port)) || (port <? 1) || (65535 <? port) then fail message else Ok port.
Definition nodup_ports (l : list Z) : bool := bool_decide (NoDup l).
Definition exact_upstream (hosts suffixes : list string) (ports : list Z) (pairs : list (string * Z)) (upstream : string)
    : res (list (string * Z)) :=
  let malformed := "APISIX_ROUTE_ALLOWED_UPSTREAMS must contain only canonical DNS host:port pairs." in
  match rpartition ":" upstream with
  | None => fail malformed
  | Some (host, raw_port) =>
      if negb (_is_internal_dns_name host) then fail malformed
      else
        port ← canonical_port malformed raw_port;
        if negb (mem host hosts || existsb (fun suffix => String.eqb host suffix || endswith ("." ++ suffix) host) suffixes)
           || negb (existsb (Z.eqb port) ports)
        then fail "Every APISIX exact upstream must also belong to the host/suffix and port allowlists."
        else if _is_runtime_upstream_host host
        then fail "APISIX exact upstreams must not target runtime-app Services while runtime exposure is unsupported."
        else if bool_decide ((host, port) ∈ pairs) then fail "APISIX_ROUTE_ALLOWED_UPSTREAMS must not contain duplicates."
        else Ok (pairs ++ [(host, port)])%list
  end.
Definition route_allowlists (runtime_config : attrs) : res (list (string * Z)) :=
  hosts ← _config_csv runtime_config "APISIX_ROUTE_ALLOWED_UPSTREAM_HOSTS";
  raw_suffixes ← _config_csv runtime_config "APISIX_ROUTE_ALLOWED_UPSTREAM_SUFFIXES";
  ports ← _config_csv runtime_config "APISIX_ROUTE_ALLOWED_UPSTREAM_PORTS";
  upstreams ← _config_csv runtime_config "APISIX_ROUTE_ALLOWED_UPSTREAMS";
  if (bool_decide (hosts = []) && bool_decide (raw_suffixes = [])) || bool_decide (ports = []) || bool_decide (upstreams = [])
  then fail "APISIX dynamic routes require a non-empty upstream host or suffix allowlist, a non-empty port allowlist and a non-empty exact host:port allowlist."
  else if negb (forallb _is_internal_dns_name hosts)
  then fail "APISIX_ROUTE_ALLOWED_UPSTREAM_HOSTS must contain only strict DNS hostnames, never IP addresses or localhost."
  else
    let suffixes := map (removeprefix ".") raw_suffixes in
    if negb (forallb _is_internal_dns_name suffixes)
    then fail "APISIX_ROUTE_ALLOWED_UPSTREAM_SUFFIXES must contain only strict DNS suffixes, never IP addresses or localhost."
    else
      let runtime_sentinel := "dealrt-sentinel." ++ RUNTIME_APPS_NAMESPACE ++ ".svc.cluster.local" in
      if existsb _is_runtime_upstream_host hosts
         || existsb (fun suffix => String.eqb runtime_sentinel suffix || endswith ("." ++ suffix) runtime_sentinel) suffixes
      then fail "APISIX upstream allowlists must not include the runtime-apps namespace while runtime exposure is unsupported."
      else
        parsed_ports ← mapM_res (canonical_port "APISIX_ROUTE_ALLOWED_UPSTREAM_PORTS must contain canonical ports between 1 and 65535.") ports;
        if negb (nodup_ports parsed_ports) then fail "APISIX_ROUTE_ALLOWED_UPSTREAM_PORTS must not contain duplicates."
        else foldM_res (exact_upstream hosts suffixes parsed_ports) [] upstreams.

(** *** The routes of the bootstrap *)
Definition decoded_routes (bootstrap_config : option attrs) : res pyval :=
  data ← (match bootstrap_config with Some d => subscript "data" (PDict d) | None => Raise TypeError end);
  text ← subscript "routes.json" data;
  match text with
  | PStr text => bootstrap ← loads text; subscript "routes" bootstrap
  | _ => Raise TypeError
  end.
Definition bootstrap_routes (documents : list attrs) : res (list pyval) :=
  bootstrap_config ← first_res (named "ConfigMap" "apisix-bootstrap") documents;
  match decoded_routes bootstrap_config with
  | Raise (KeyError _ | TypeError | JSONDecodeError) => fail "APISIX bootstrap routes are not valid JSON"
  | Raise e => Raise e
  | Ok (PList routes) =>
      let route_ids := map (fun route => match route with PDict d => vget "id" d | _ => PNone end) routes in
      let expected := keys EXPECTED_APISIX_BOOTSTRAP_UPSTREAMS in
      if negb (forallb is_str route_ids) || negb (Nat.eqb (length route_ids) (length expected)) || negb (set_eqb (texts route_ids) expected)
      then fail "APISIX bootstrap must contain exactly the reviewed core routes; runtime routes are forbidden."
      else Ok routes
  | Ok _ => fail "APISIX bootstrap routes must be a JSON list."
  end.
Definition oidc_upstreams : list string := ["dealhost"; "dealiot"; "dealdata-core"; "dealdata-gps"; "dealdata-sensor"].
(** The headers a route sets and removes. *)
Definition check_headers (host : string) (header_policy : pyval) : res unit :=
  set_headers ← attr_get_or "set" (PDict []) header_policy;
  raw_removed ← attr_get_or "remove" (PList []) header_policy;
  removed_headers ← set_of raw_removed;
  scheme ← attr_get_or "X-Forwarded-Proto" PNone set_headers;
  if negb (eq_str scheme "$http_x_forwarded_proto") then fail "Every APISIX route must preserve the trusted edge scheme."
  else
    authorization ← attr_get_or "Authorization" PNone set_headers;
    if mem host oidc_upstreams then
      if negb (eq_str authorization "Bearer $http_x_forwarded_access_token")
         || negb (holds removed_headers "X-Forwarded-Access-Token") || holds removed_headers "Authorization"
      then fail "Every OIDC-introspecting route must exchange the forwarded token for Authorization and remove the raw token header."
      else Ok tt
    else if match set_headers with PDict d => has_key "Authorization" d | _ => false end
            || negb (holds removed_headers "Authorization" && holds removed_headers "X-Forwarded-Access-Token")
    then fail "Non-introspecting APISIX upstreams must strip Authorization and X-Forwarded-Access-Token."
    else Ok tt.
(** Its id, the nodes of its upstream and its header policy. *)
Definition route_parts (route : pyval) : res (pyval * pyval * pyval) :=
  route_id ← subscript "id" route;
  upstream ← subscript "upstream" route;
  nodes ← subscript "nodes" upstream;
  plugins ← subscript "plugins" route;
  proxy_rewrite ← subscript "proxy-rewrite" plugins;
  header_policy ← subscript "headers" proxy_rewrite;
  Ok (route_id, nodes, header_policy).
(** The upstream of a route, unless it is the interface's. *)
Definition check_route (route : pyval) : res (list (string * Z)) :=
  match route_parts route with
  | Raise _ => fail "APISIX bootstrap route contract is incomplete"
  | Ok (route_id, nodes, header_policy) =>
      match nodes with
      | PDict [(node, _)] =>
          if negb (is_dict header_policy) then fail "Every APISIX bootstrap route must define a header policy."
          else
            match rpartition ":" node with
            | Some (host, raw_port) =>
                if negb (py_isdigit raw_port) then fail "APISIX bootstrap upstream nodes must use DNS host:port syntax."
                else
                  match py_int raw_port, route_id with
                  | None, _ => fail "invalid literal for int() with base 10"
                  | Some port, PStr route_id =>
                      if negb (bool_decide (dget route_id EXPECTED_APISIX_BOOTSTRAP_UPSTREAMS = Some (host, port)))
                      then fail "APISIX bootstrap routes must target only their reviewed core upstreams; runtime upstreams are forbidden."
                      else
                        _ ← check_headers host header_policy;
                        Ok (if String.eqb route_id "archideal-interface" then [] else [(host, port)])
                  | _, _ => Raise TypeError
                  end
            | None => fail "APISIX bootstrap upstream nodes must use DNS host:port syntax."
            end
      | _ => fail "Every APISIX bootstrap route must have exactly one upstream node."
      end
  end.

(** *** The deployed network *)
Definition number_is (n : Z) (v : pyval) : bool := eq_int v n.
(** The pods and TCP ports a rule of the egress policy opens. *)
Definition rule_pairs (rule : pyval) : res (list (string * pyval)) :=
  raw_peers ← attr_get_or "to" (PList []) rule;
  peers ← iterate raw_peers;
  pod_names ← mapM_res _network_policy_pod_names peers;
  raw_ports ← attr_get_or "ports" (PList []) rule;
  ports ← iterate raw_ports;
  rule_ports ← mapM_res (fun port =>
    protocol ← attr_get_or "protocol" (PStr "TCP") port;
    if eq_str protocol "TCP" then
      number ← attr_get_or "port" PNone port;
      Ok (match number with PInt _ | PBool _ => [number] | _ => [] end)
    else Ok []) ports;
  Ok (flat_map (fun name => map (fun port => (name, port)) (List.concat rule_ports)) (List.concat pod_names)).
Definition network_pairs (documents : list attrs) : res (list (string * pyval)) :=
  apisix_egress ← first_res (named "NetworkPolicy" "apisix-egress") documents;
  match apisix_egress with
  | None => fail "The APISIX egress NetworkPolicy is required."
  | Some policy =>
      raw_rules ← attr_get_or "egress" (PList []) (dget_or "spec" (PDict []) policy);
      rules ← iterate raw_rules;
      pairs ← mapM_res rule_pairs rules;
      Ok (List.concat pairs)
  end.
(** [{document name: document}]: the last document of a name. *)
Definition services (documents : list attrs) : res (list (pyval * attrs)) :=
  mapM_res (fun d => name ← meta "name" d; if is_hashable name then Ok (name, d) else Raise TypeError)
    (List.filter (kind_is "Service") documents).
Definition find_service (host : string) (l : list (pyval * attrs)) : option attrs :=
  snd <$> List.find (fun s => eq_str s.1 host) (rev l).
Definition check_service (services : list (pyval * attrs)) (network_pairs : list (string * pyval)) (pair : string * Z) : res unit :=
  let '(host, port) := pair in
  match find_service host services with
  | None => fail ("APISIX exact upstream Service is not deployed: " ++ host)
  | Some service =>
      let spec := dget_or "spec" (PDict []) service in
      raw_ports ← attr_get_or "ports" (PList []) spec;
      ports ← iterate raw_ports;
      service_ports ← mapM_res (attr_get_or "port" PNone) ports;
      _ ← raise_if (negb (forallb is_hashable service_ports)) TypeError;
      selector ← attr_get_or "selector" (PDict []) spec;
      pod_name ← attr_get_or "app.kubernetes.io/name" PNone selector;
      if negb (existsb (number_is port) service_ports)
         || negb (existsb (fun np => eq_str pod_name np.1 && number_is port np.2) network_pairs)
      then fail ("APISIX exact upstreams must match deployed Service ports and apisix-egress NetworkPolicy rules: " ++ host ++ ":" ++ py_str_int port)
      else Ok tt
  end.

Definition validate_apisix_route_policy (runtime_config : attrs) (documents : list attrs) : res unit :=
  exact_pairs ← route_allowlists runtime_config;
  routes ← bootstrap_routes documents;
  bootstrap ← mapM_res check_route routes;
  let bootstrap_pairs := List.concat bootstrap in
  if negb (forallb (fun p => bool_decide (p ∈ bootstrap_pairs)) exact_pairs && forallb (fun p => bool_decide (p ∈ exact_pairs)) bootstrap_pairs)
  then fail "APISIX_ROUTE_ALLOWED_UPSTREAMS must exactly match the deployed non-interface bootstrap upstreams."
  else
    services ← services documents;
    network_pairs ← network_pairs documents;
    each exact_pairs (check_service services network_pairs).
End Policies.

(** ** The namespace of the managed applications *)
Definition expected_kustomization : attrs :=
  [("apiVersion", PStr "kustomize.config.k8s.io/v1beta1"); ("kind", PStr "Kustomization");
   ("resources", PList (map PStr ["namespace.yaml"; "serviceaccount.yaml"; "rbac.yaml"; "resource-governance.yaml";
                                  "network-policies.yaml"; "registry-external-secret.yaml"]))].
Definition expected_platform_kustomizations : list attrs :=
  [[("apiVersion", PStr "kustomize.config.k8s.io/v1beta1"); ("kind", PStr "Kustomization"); ("namespace", PStr "archideal");
    ("resources", PList (map PStr
       ["namespace.yaml"; "serviceaccounts.yaml"; "runtime-controller-rbac.yaml"; "configuration.yaml"; "services.yaml";
        "workloads.yaml"; "runtime-management.yaml"; "consumers.yaml"; "private-network-preflight.yaml"; "preflight.yaml";
        "jobs.yaml"; "bootstrap.yaml"; "availability.yaml"; "autoscaling.yaml"; "network-policies.yaml"; "observability.yaml"]))];
   [("apiVersion", PStr "kustomize.config.k8s.io/v1beta1"); ("kind", PStr "Kustomization"); ("namespace", PStr "archideal");
    ("resources", PList (map PStr ["../../base"; "external-secrets.yaml"; "ingress.yaml"; "platform-contract.yaml"; "synthetic-smoke.yaml"]));
    ("labels", PList [PDict [("includeSelectors", PBool false);
                             ("pairs", PDict [("archideal.io/environment", PStr "production")])]])]].
Definition expected_namespace : attrs :=
  [("apiVersion", PStr "v1"); ("kind", PStr "Namespace");
   ("metadata", PDict
      [("name", PStr RUNTIME_APPS_NAMESPACE);
       ("labels", PDict
          [("app.kubernetes.io/part-of", PStr "archideal"); ("archideal.io/environment", PStr "production");
           ("archideal.io/purpose", PStr "managed-applications"); ("pod-security.kubernetes.io/audit", PStr "restricted");
           ("pod-security.kubernetes.io/audit-version", PStr "latest"); ("pod-security.kubernetes.io/enforce", PStr "restricted");
           ("pod-security.kubernetes.io/enforce-version", PStr "latest"); ("pod-security.kubernetes.io/warn", PStr "restricted");
           ("pod-security.kubernetes.io/warn-version", PStr "latest")])])].
Definition expected_default_deny : pyval :=
  PDict [("podSelector", PDict []); ("policyTypes", PList [PStr "Ingress"; PStr "Egress"])].
Definition expected_dns_only : pyval :=
  PDict [("podSelector", PDict []); ("policyTypes", PList [PStr "Egress"]);
         ("egress", PList [PDict
            [("to", PList [PDict
                [("namespaceSelector", PDict [("matchLabels", PDict [("kubernetes.io/metadata.name", PStr "kube-system")])]);
                 ("podSelector", PDict [("matchExpressions", PList [PDict
                    [("key", PStr "k8s-app"); ("operator", PStr "In"); ("values", PList [PStr "kube-dns"; PStr "coredns"])]])])]]);
             ("ports", PList [PDict [("protocol", PStr "UDP"); ("port", PInt 53)]; PDict [("protocol", PStr "TCP"); ("port", PInt 53)]])]])].
(** API version, kind, name and namespace. *)
Definition expected_runtime_inventory : list (list pyval) :=
  let ns := PStr RUNTIME_APPS_NAMESPACE in
  [[PStr "kustomize.config.k8s.io/v1beta1"; PStr "Kustomization"; PNone; PNone];
   [PStr "v1"; PStr "Namespace"; ns; PNone];
   [PStr "networking.k8s.io/v1"; PStr "NetworkPolicy"; PStr "runtime-apps-default-deny"; ns];
   [PStr "networking.k8s.io/v1"; PStr "NetworkPolicy"; PStr "runtime-apps-allow-dns-egress"; ns];
   [PStr "rbac.authorization.k8s.io/v1"; PStr "Role"; PStr "dealhost-runtime-controller"; ns];
   [PStr "rbac.authorization.k8s.io/v1"; PStr "RoleBinding"; PStr "dealhost-runtime-controller"; ns];
   [PStr "external-secrets.io/v1"; PStr "ExternalSecret"; PStr "archideal-registry-credentials"; ns];
   [PStr "v1"; PStr "ResourceQuota"; PStr "runtime-apps-capacity"; ns];
   [PStr "v1"; PStr "LimitRange"; PStr "runtime-apps-containers"; ns];
   [PStr "v1"; PStr "ServiceAccount"; PStr "dealhost-runtime-application"; ns]].

Definition same (a b : attrs) : bool := py_eqb (PDict a) (PDict b).
Definition in_runtime_apps (d : attrs) : res bool := n ← meta "namespace" d; Ok (eq_str n RUNTIME_APPS_NAMESPACE).
Definition check_kustomizations (runtime_documents all_documents : list attrs) : res unit :=
  match List.filter (kind_is "Kustomization") runtime_documents with
  | [k] =>
      if negb (same k expected_kustomization)
      then fail "Runtime-apps kustomization must contain exactly the reviewed local baseline resources; patches, generators, components and remote or additional resources are forbidden."
      else if existsb (fun d => kind_is "Kustomization" d && eq_str (vget "namespace" d) RUNTIME_APPS_NAMESPACE) all_documents
      then fail "Only the reviewed runtime-apps tree may target the managed-application namespace; namespace transforms in other kustomizations are forbidden."
      else
        let platform := List.filter (fun d => kind_is "Kustomization" d && negb (same d expected_kustomization)) all_documents in
        if negb (Nat.eqb (length platform) (length expected_platform_kustomizations))
           || existsb (fun e => negb (existsb (same e) platform)) expected_platform_kustomizations
        then fail "Base and production kustomizations must remain exact; cross-tree runtime-apps resources, patches, components, generators and replacements are forbidden."
        else Ok tt
  | _ => fail "Runtime-apps kustomization must contain exactly the reviewed local baseline resources; patches, generators, components and remote or additional resources are forbidden."
  end.
Definition check_namespace (runtime_documents : list attrs) : res unit :=
  match List.filter (kind_is "Namespace") runtime_documents with
  | [n] => if same n expected_namespace then Ok tt
           else fail "Runtime-apps must contain exactly its reviewed production Namespace with the restricted Pod Security Standard labels."
  | _ => fail "Runtime-apps must contain exactly its reviewed production Namespace with the restricted Pod Security Standard labels."
  end.

Definition externally_routable_fields : list string :=
  ["allocateLoadBalancerNodePorts"; "externalIPs"; "externalName"; "externalTrafficPolicy"; "healthCheckNodePort";
   "loadBalancerClass"; "loadBalancerIP"; "loadBalancerSourceRanges"].
(** A document of the runtime namespace exposes nothing. *)
Definition check_exposure (document : attrs) : res unit :=
  name ← meta "name" document;
  match vget "kind" document with
  | PList _ | PDict _ => Raise TypeError
  | kind =>
      if existsb (eq_str kind) RUNTIME_EXPOSURE_KINDS
      then fail "Runtime-apps must not contain resources of this kind while exposure is unsupported."
      else if negb (eq_str kind "Service") then Ok tt
      else
        match vget "spec" document with
        | PDict spec =>
            if negb (eq_str (vget "type" spec) "ClusterIP")
            then fail "Runtime-app Services must declare type ClusterIP; NodePort, LoadBalancer and ExternalName are forbidden"
            else
              match dget_or "ports" (PList []) spec with
              | PList ports =>
                  if negb (disjointb externally_routable_fields (keys spec))
                     || existsb (fun port => match port with PDict p => has_key "nodePort" p | _ => true end) ports
                  then fail "Runtime-app ClusterIP Services must not declare any external or node port"
                  else Ok tt
              | _ => fail "Runtime-app ClusterIP Services must not declare any external or node port"
              end
        | _ => fail "Runtime-app Services must declare type ClusterIP; NodePort, LoadBalancer and ExternalName are forbidden"
        end
  end.
(** The names of the policies are the two reviewed ones. *)
Definition check_policies (policies : list attrs) : res unit :=
  names ← mapM_res (meta "name") policies;
  _ ← raise_if (Nat.eqb (length policies) 2 && negb (forallb is_hashable names)) TypeError;
  if negb (Nat.eqb (length policies) (length RUNTIME_APPS_NETWORK_POLICIES)) || negb (forallb is_str names)
     || negb (set_eqb (texts names) RUNTIME_APPS_NETWORK_POLICIES)
  then fail "Runtime-apps NetworkPolicies must be exactly the default-deny and DNS-only baseline; additional policies are forbidden."
  else Ok tt.
(** [l.remove(x)] up to equality of documents, if one is equal. *)
Fixpoint take_out (d : attrs) (l : list attrs) : option (list attrs) :=
  match l with
  | [] => None
  | x :: l => if same x d then Some l else r ← take_out d l; Some (x :: r)
  end.
Definition check_matched (reviewed scoped : list attrs) : res unit :=
  unmatched ← foldM_res (fun l d =>
    match take_out d l with
    | Some l => Ok l
    | None => fail "Rendered runtime-apps resources must remain within the reviewed runtime-apps tree."
    end) scoped reviewed;
  if bool_decide (unmatched = []) then Ok tt
  else fail "Resources explicitly scoped to archideal-runtime-apps must live only in the reviewed runtime-apps tree.".

(** [policies_by_name[name]]: the last policy of the name. *)
Definition policy_named (name : string) (policies : list attrs) : res attrs :=
  named ← mapM_res (fun p => metadata ← subscript "metadata" (PDict p); n ← subscript "name" metadata; Ok (n, p)) policies;
  match find_service name named with Some p => Ok p | None => Raise (KeyError name) end.
Definition check_baseline (policies : list attrs) : res unit :=
  default_deny ← policy_named "runtime-apps-default-deny" policies;
  dns_only ← policy_named "runtime-apps-allow-dns-egress" policies;
  deny_scoped ← in_runtime_apps default_deny;
  dns_scoped ← in_runtime_apps dns_only;
  if negb deny_scoped || negb (py_eqb (vget "spec" default_deny) expected_default_deny)
     || negb dns_scoped || negb (py_eqb (vget "spec" dns_only) expected_dns_only)
  then fail "Runtime-apps must keep an exact deny-all ingress/egress policy and the reviewed DNS-only egress exception."
  else Ok tt.
Definition inventory (d : attrs) : res (list pyval) :=
  name ← meta "name" d;
  namespace ← meta "namespace" d;
  Ok [vget "apiVersion" d; vget "kind" d; name; namespace].
Definition same_row (a b : list pyval) : bool := py_eqb (PList a) (PList b).
Definition check_inventory (runtime_documents : list attrs) : res unit :=
  rows ← mapM_res inventory runtime_documents;
  _ ← raise_if (Nat.eqb (length rows) (length expected_runtime_inventory) && negb (forallb (forallb is_hashable) rows)) TypeError;
  if negb (Nat.eqb (length rows) (length expected_runtime_inventory))
     || negb (forallb (fun row => existsb (same_row row) expected_runtime_inventory) rows)
     || negb (forallb (fun row => existsb (same_row row) rows) expected_runtime_inventory)
  then fail "Runtime-apps must contain exactly the reviewed static resource inventory; additional CRDs or workload/exposure resources are forbidden."
  else Ok tt.

Definition validate_runtime_apps_fail_closed (runtime_documents all_documents : list attrs) : res unit :=
  _ ← check_kustomizations runtime_documents all_documents;
  _ ← check_namespace runtime_documents;
  explicitly_runtime_scoped ← filter_res in_runtime_apps all_documents;
  _ ← each (runtime_documents ++ explicitly_runtime_scoped)%list check_exposure;
  let tree_policies := List.filter (kind_is "NetworkPolicy") runtime_documents in
  cluster_runtime_policies ← filter_res in_runtime_apps (List.filter (kind_is "NetworkPolicy") all_documents);
  _ ← each [tree_policies; cluster_runtime_policies] check_policies;
  runtime_scoped_in_tree ← filter_res in_runtime_apps runtime_documents;
  _ ← check_matched runtime_scoped_in_tree explicitly_runtime_scoped;
  _ ← check_baseline tree_policies;
  check_inventory runtime_documents.
