(* ===== verification/Worker.v ===== *)
(** DEALHost's runtime worker (apps/hosting/runtime_worker.py) over the tables it keeps
    (apps/hosting/models.py): claiming a queued operation under a lease token,
    dispatching it to the runtime controller, and recording the outcome.

    A transaction is a function [db -> res db]; an exception rolls it back, so the
    caller keeps the database it had.  The instants a transaction reads from
    [timezone.now()] (microseconds) and the token of [uuid.uuid4()] are its arguments.
    The controller client, the clock and the token source are the interface
    [HostWorld].  Column widths (CharField lengths, small integers) are not enforced. *)

From S2P Require Import Prelude PyValue Release Kube PyTime Service.
#[local] Open Scope string_scope.
#[local] Open Scope list_scope.
#[local] Open Scope Z_scope.

(** ** Tables *)
Inductive OperationType := DEPLOY | CONFIGURE | START | STOP | RESTART | SCALE | UNDEPLOY | LOG_SNAPSHOT.
Inductive Status := QUEUED | RUNNING | SUCCEEDED | FAILED.
#[export] Instance OperationType_eq_dec : EqDecision OperationType.
Proof. solve_decision. Defined.
#[export] Instance Status_eq_dec : EqDecision Status.
Proof. solve_decision. Defined.

Definition type_text (t : OperationType) : string :=
  match t with
  | DEPLOY => "deploy" | CONFIGURE => "configure" | START => "start" | STOP => "stop"
  | RESTART => "restart" | SCALE => "scale" | UNDEPLOY => "undeploy" | LOG_SNAPSHOT => "log_snapshot"
  end.

Record RuntimeOperation := {
  op_deployment : string;
  operation_type : OperationType;
  status : Status;
  op_payload : list (string * pyval);
  progress : pyval;
  result : pyval;
  error : pyval;
  idempotency_key : string;
  request_hash : string;
  target_generation : Z;
  attempts : Z;
  controller_failures : Z;
  next_attempt_at : option Z;
  leased_by : string;
  lease_token : option string;
  lease_expires_at : option Z;
  requested_at : Z;
  started_at : option Z;
  finished_at : option Z
}.

(** The row with the columns of its release and its environment ([select_related]). *)
Record RuntimeDeployment := {
  dep_application : Z;
  dep_environment : string;
  dep_desired_state : string;
  observed_state : string;
  controller_id : string;
  dep_configuration : pyval;
  dep_secret_refs : pyval;
  dep_scaling : pyval;
  dep_generation : Z;
  observed_generation : Z;
  revision : Z;
  dep_last_error : string;
  last_reconciled_at : option Z;
  deleted_at : option Z;
  release_manifest : pyval;
  release_manifest_digest : string;
  env_row : RuntimeEnvironment
}.
Definition capabilities (x : RuntimeDeployment) : pyval := env_capabilities (env_row x).

(** Row of [RuntimeComponent]; the controller reports the same fields. *)
Record RuntimeComponent := {
  rc_slug : string;
  image_digest : string;
  desired_replicas : Z;
  ready_replicas : Z;
  available_replicas : Z;
  rc_state : string;
  health : string;
  restart_count : Z;
  rc_last_error : string
}.

Record RuntimeSnapshot := {
  snap_controller_id : string;
  snap_state : string;
  snap_message : string;
  snap_generation : Z;
  snap_components : list RuntimeComponent
}.
Record RuntimeLogs := {
  log_lines : list string;
  log_cursor : string;
  log_truncated : bool
}.

Record db := {
  operations : gmap string RuntimeOperation;
  deployments : gmap string RuntimeDeployment;
  components : gmap string (list RuntimeComponent);
  (** an entry and its timeout in seconds *)
  cache : gmap string (pyval * Z)
}.

Definition set_operation (id : string) (o : RuntimeOperation) (d : db) : db :=
  {| operations := <[id := o]> (operations d); deployments := deployments d;
     components := components d; cache := cache d |}.
Definition set_deployment (id : string) (x : RuntimeDeployment) (d : db) : db :=
  {| operations := operations d; deployments := <[id := x]> (deployments d);
     components := components d; cache := cache d |}.
Definition set_components (id : string) (cs : list RuntimeComponent) (d : db) : db :=
  {| operations := operations d; deployments := deployments d;
     components := <[id := cs]> (components d); cache := cache d |}.
Definition set_cache (c : gmap string (pyval * Z)) (d : db) : db :=
  {| operations := operations d; deployments := deployments d; components := components d; cache := c |}.

(** [Model.objects.get(pk=...)]. *)
Definition get_operation (id : string) (d : db) : res RuntimeOperation :=
  match operations d !! id with Some o => Ok o | None => Raise (KeyError id) end.
Definition get_deployment (id : string) (d : db) : res RuntimeDeployment :=
  match deployments d !! id with Some x => Ok x | None => Raise (KeyError id) end.
Definition get_components (id : string) (d : db) : list RuntimeComponent := default [] (components d !! id).

Definition second : Z := 1000000.
Definition TRANSITIONAL_STATES : list string := ["pending"; "reconciling"; "deleting"].
Definition MAX_CONTROLLER_FAILURES : Z := 5.
Definition MAX_RECONCILIATION_AGE : Z := 30 * 60 * second.
Definition LOG_TTL_SECONDS : Z := 300.

Definition stage (name : string) (percent : pyval) : pyval := PDict [("stage", PStr name); ("percent", percent)].
Definition failure (code detail : string) (retryable : bool) : pyval :=
  PDict [("code", PStr code); ("detail", PStr detail); ("retryable", PBool retryable)].
Definition controller_error (detail : string) (code : option Z) : pyexn := RuntimeControllerError detail code.

(** ** Claiming *)
Definition due (now : Z) (o : RuntimeOperation) : bool :=
  (match status o with
   | QUEUED => true
   | RUNNING => match lease_expires_at o with Some t => t <=? now | None => true end
   | _ => false
   end)
  && match next_attempt_at o with Some t => t <=? now | None => true end.

(** [order_by("requested_at").first()]. *)
Definition older (a b : string * RuntimeOperation) : string * RuntimeOperation :=
  if requested_at b.2 <? requested_at a.2 then b else a.
Definition first_due (now : Z) (d : db) : option (string * RuntimeOperation) :=
  match List.filter (fun kv => due now kv.2) (map_to_list (operations d)) with
  | [] => None
  | x :: l => Some (fold_left older l x)
  end.

Definition claimed_operation (worker_id token : string) (now : Z) (o : RuntimeOperation) : RuntimeOperation := {|
  op_deployment := op_deployment o; operation_type := operation_type o; status := RUNNING;
  op_payload := op_payload o; progress := stage "dispatching" (PInt 10); result := result o; error := error o;
  idempotency_key := idempotency_key o; request_hash := request_hash o; target_generation := target_generation o; attempts := attempts o + 1;
  controller_failures := controller_failures o; next_attempt_at := None; leased_by := worker_id;
  lease_token := Some token; lease_expires_at := Some (now + 90 * second); requested_at := requested_at o;
  started_at := Some (default now (started_at o)); finished_at := finished_at o |}.

Definition _claim (worker_id token : string) (now : Z) (d : db) : option string * db :=
  match first_due now d with
  | None => (None, d)
  | Some (id, o) => (Some id, set_operation id (claimed_operation worker_id token now o) d)
  end.

(** ** Recording a snapshot *)
(** The fields every end of an attempt resets. *)
Definition released (o : RuntimeOperation) (st : Status) (prog res_ err : pyval) (next fin : option Z)
    (failures : Z) : RuntimeOperation := {|
  op_deployment := op_deployment o; operation_type := operation_type o; status := st;
  op_payload := op_payload o; progress := prog; result := res_; error := err;
  idempotency_key := idempotency_key o; request_hash := request_hash o; target_generation := target_generation o; attempts := attempts o; controller_failures := failures;
  next_attempt_at := next; leased_by := ""; lease_token := None; lease_expires_at := None;
  requested_at := requested_at o; started_at := started_at o; finished_at := fin |}.

Definition _validate_snapshot_generation (x : RuntimeDeployment) (s : RuntimeSnapshot) (target : Z) : res unit :=
  _ ← raise_if (target <? snap_generation s)
        (controller_error "Runtime controller reported a generation newer than the queued operation." None);
  raise_if (snap_generation s <? observed_generation x)
    (controller_error "Runtime controller reported an observed generation older than DEALHost state." None).

(** The rows after [_apply_components]; [mutate] only decides whether they are saved. *)
Definition zero_component (c : RuntimeComponent) : RuntimeComponent := {|
  rc_slug := rc_slug c; image_digest := image_digest c; desired_replicas := 0; ready_replicas := 0;
  available_replicas := 0; rc_state := "deleted"; health := "stopped"; restart_count := restart_count c;
  rc_last_error := "" |}.
Definition find_component (slug : string) (cs : list RuntimeComponent) : option RuntimeComponent :=
  List.find (fun c => String.eqb (rc_slug c) slug) cs.
Definition replace_component (n : RuntimeComponent) (cs : list RuntimeComponent) : list RuntimeComponent :=
  map (fun c => if String.eqb (rc_slug c) (rc_slug n) then n else c) cs.

Definition _apply_components (cs : list RuntimeComponent) (s : RuntimeSnapshot) (mutate : bool)
    : res (list RuntimeComponent) :=
  let expected := map rc_slug cs in
  let received := map rc_slug (snap_components s) in
  if String.eqb (snap_state s) "deleted" && bool_decide (received = []) then
    Ok (if mutate then map zero_component cs else cs)
  else
    _ ← raise_if (negb (set_eqb received expected))
          (controller_error "Runtime controller component set does not match the immutable release." None);
    foldM_res (fun rows observed =>
      match find_component (rc_slug observed) cs with
      | None => Raise (KeyError (rc_slug observed))
      | Some c =>
          _ ← raise_if (negb (String.eqb (image_digest observed) (image_digest c)))
                (controller_error "Runtime controller reported an image outside the immutable release." None);
          Ok (if mutate then replace_component observed rows else rows)
      end) cs (snap_components s).

Definition _apply_snapshot (x : RuntimeDeployment) (s : RuntimeSnapshot) (target now : Z)
    : res RuntimeDeployment :=
  _ ← _validate_snapshot_generation x s target;
  Ok {| dep_application := dep_application x; dep_environment := dep_environment x; dep_desired_state := dep_desired_state x;
        observed_state := snap_state s; controller_id := snap_controller_id s;
        dep_configuration := dep_configuration x; dep_secret_refs := dep_secret_refs x;
        dep_scaling := dep_scaling x; dep_generation := dep_generation x;
        observed_generation := snap_generation s; revision := revision x;
        dep_last_error := if mem (snap_state s) ["degraded"; "failed"; "unknown"] then snap_message s else "";
        last_reconciled_at := last_reconciled_at x;
        deleted_at := if String.eqb (snap_state s) "deleted" then Some now else deleted_at x;
        release_manifest := release_manifest x; release_manifest_digest := release_manifest_digest x;
        env_row := env_row x |}.

(** [revision += 1; last_reconciled_at = now]. *)
Definition reconciled (x : RuntimeDeployment) (cid : string) (now : Z) : RuntimeDeployment := {|
  dep_application := dep_application x; dep_environment := dep_environment x; dep_desired_state := dep_desired_state x;
  observed_state := observed_state x; controller_id := cid;
  dep_configuration := dep_configuration x; dep_secret_refs := dep_secret_refs x;
  dep_scaling := dep_scaling x; dep_generation := dep_generation x;
  observed_generation := observed_generation x; revision := revision x + 1;
  dep_last_error := dep_last_error x; last_reconciled_at := Some now; deleted_at := deleted_at x;
  release_manifest := release_manifest x; release_manifest_digest := release_manifest_digest x;
  env_row := env_row x |}.
(** [observed_state = FAILED; last_error = detail]. *)
Definition failed_deployment (x : RuntimeDeployment) (detail : string) (bump : Z) : RuntimeDeployment := {|
  dep_application := dep_application x; dep_environment := dep_environment x; dep_desired_state := dep_desired_state x;
  observed_state := "failed"; controller_id := controller_id x;
  dep_configuration := dep_configuration x; dep_secret_refs := dep_secret_refs x;
  dep_scaling := dep_scaling x; dep_generation := dep_generation x;
  observed_generation := observed_generation x; revision := revision x + bump;
  dep_last_error := detail; last_reconciled_at := last_reconciled_at x; deleted_at := deleted_at x;
  release_manifest := release_manifest x; release_manifest_digest := release_manifest_digest x;
  env_row := env_row x |}.

(** [operation.payload.get("desired_state", deployment.desired_state)]. *)
Definition wanted_state (o : RuntimeOperation) (x : RuntimeDeployment) : pyval :=
  dget_or "desired_state" (PStr (dep_desired_state x)) (op_payload o).

Definition expected_states (desired : pyval) : list string :=
  if eq_str desired "running" then ["running"; "degraded"]
  else if eq_str desired "stopped" then ["stopped"] else ["deleted"].

Definition _terminal_state_error (o : RuntimeOperation) (x : RuntimeDeployment) (s : RuntimeSnapshot) : string :=
  if mem (snap_state s) ["failed"; "unknown"] then ""
  else
    let desired_state := wanted_state o x in
    if mem (snap_state s) (expected_states desired_state) then ""
    else ("Runtime controller reported terminal state " ++ snap_state s ++ " while the desired state is " ++
          py_str desired_state ++ ".")%string.

Definition waiting_for_generation (o : RuntimeOperation) (s : RuntimeSnapshot) : bool :=
  (snap_generation s <? target_generation o) && negb (mem (snap_state s) ["failed"; "unknown"]).

Definition TIMED_OUT : string := "Runtime reconciliation timed out.".

(** The branch for a snapshot that is not final. *)
Definition record_progress (id : string) (locked : RuntimeOperation) (x : RuntimeDeployment)
    (s : RuntimeSnapshot) (now : Z) (d : db) : res db :=
  _ ← _validate_snapshot_generation x s (target_generation locked);
  _ ← _apply_components (get_components (op_deployment locked) d) s false;
  let x := reconciled x (snap_controller_id s) now in
  let started := default (requested_at locked) (started_at locked) in
  if MAX_RECONCILIATION_AGE <=? now - started then
    let x := failed_deployment x TIMED_OUT 0 in
    let o := released locked FAILED (stage "failed" (PInt 100)) (result locked)
               (failure "runtime_reconciliation_timeout" TIMED_OUT true) None (Some now)
               (controller_failures locked) in
    Ok (set_operation id o (set_deployment (op_deployment locked) x d))
  else
    let name := if waiting_for_generation locked s then "waiting_for_generation" else snap_state s in
    let o := released locked RUNNING (stage name (PInt 50)) (PDict [("dispatched", PBool true)]) (error locked)
               (Some (now + 2 * second)) (finished_at locked) (controller_failures locked) in
    Ok (set_operation id o (set_deployment (op_deployment locked) x d)).

(** The branch for a final snapshot; [operation] is the row read before the call and
    [now'] the second reading of the clock, in [_apply_snapshot]. *)
Definition record_final (id : string) (operation locked : RuntimeOperation) (x : RuntimeDeployment)
    (s : RuntimeSnapshot) (now now' : Z) (d : db) : res db :=
  x ← _apply_snapshot x s (target_generation locked) now';
  let x := reconciled x (controller_id x) now in
  rows ← _apply_components (get_components (op_deployment locked) d) s true;
  let terminal_error := _terminal_state_error operation x s in
  let failed := mem (snap_state s) ["failed"; "unknown"] || negb (String.eqb terminal_error "") in
  let x := if negb (String.eqb terminal_error "") then failed_deployment x terminal_error 0 else x in
  let detail := if negb (String.eqb terminal_error "") then terminal_error
                else if negb (String.eqb (snap_message s) "") then snap_message s
                else "Runtime reconciliation failed." in
  let o :=
    if failed then
      released locked FAILED (stage (snap_state s) (PInt 100)) (result locked)
        (failure "runtime_reconciliation_failed" detail true) None (Some now) (controller_failures locked)
    else
      released locked SUCCEEDED (stage (snap_state s) (PInt 100))
        (PDict [("state", PStr (snap_state s)); ("observed_generation", PInt (snap_generation s))])
        PNone None (Some now) (controller_failures locked) in
  Ok (set_operation id o (set_components (op_deployment locked) rows (set_deployment (op_deployment locked) x d))).

Definition _record_snapshot (id : string) (operation : RuntimeOperation) (token : string)
    (s : RuntimeSnapshot) (now now' : Z) (d : db) : res db :=
  locked ← get_operation id d;
  if negb (bool_decide (lease_token locked = Some token)) then Ok d
  else
    x ← get_deployment (op_deployment locked) d;
    if mem (snap_state s) TRANSITIONAL_STATES || waiting_for_generation locked s
    then record_progress id locked x s now d
    else record_final id operation locked x s now now' d.

(** ** Recording a failure *)
Definition retryable_error (e : pyexn) : bool :=
  match e with
  | RuntimeControllerError _ (Some code) =>
      negb ((400 <=? code) && (code <? 500) && negb ((code =? 408) || (code =? 429)))
  | _ => true
  end.
Definition error_detail (e : pyexn) : string :=
  match e with
  | RuntimeControllerError detail _ | RuntimeControllerUnavailable detail => py_take 500 detail
  | _ => ""
  end.

(** The deployment side of a final failure. *)
Definition fail_deployment (locked : RuntimeOperation) (detail : string) (d : db) : res db :=
  if bool_decide (operation_type locked = LOG_SNAPSHOT) then Ok d
  else
    x ← get_deployment (op_deployment locked) d;
    Ok (set_deployment (op_deployment locked) (failed_deployment x detail 1) d).

Definition backoff (n : Z) : Z := Z.min (2 ^ n) 60 * second.

Definition _record_controller_failure (id token : string) (e : pyexn) (now : Z) (d : db) : res db :=
  locked ← get_operation id d;
  if negb (bool_decide (lease_token locked = Some token)) then Ok d
  else
    let failures := controller_failures locked + 1 in
    if retryable_error e && (failures <? MAX_CONTROLLER_FAILURES) then
      Ok (set_operation id (released locked QUEUED (stage "retrying" PNone) (result locked) (error locked)
            (Some (now + backoff (attempts locked))) (finished_at locked) failures) d)
    else
      fail_deployment locked (error_detail e)
        (set_operation id (released locked FAILED (stage "failed" (PInt 100)) (result locked)
           (failure "runtime_controller_error" (error_detail e) (retryable_error e))
           (next_attempt_at locked) (Some now) failures) d).

Definition UNEXPECTED : string := "The runtime worker failed unexpectedly.".
Definition _record_unexpected_failure (id token : string) (now : Z) (d : db) : res db :=
  locked ← get_operation id d;
  if negb (bool_decide (lease_token locked = Some token)) then Ok d
  else
    fail_deployment locked UNEXPECTED
      (set_operation id (released locked FAILED (stage "failed" (PInt 100)) (result locked)
         (failure "runtime_worker_error" UNEXPECTED true) (next_attempt_at locked) (Some now)
         (controller_failures locked)) d).

(** ** Completing a log snapshot *)
(** [bytes.decode("utf-8", errors="ignore")]: the well-formed sequences, in order. *)
Fixpoint decode_ignore (s : string) : string :=
  match s with
  | "" => ""
  | String a r =>
      let c := code a in
      if c <? 128 then String a (decode_ignore r)
      else if (194 <=? c) && (c <=? 223) then
        match r with
        | String b r' => if is_cont b then String a (String b (decode_ignore r')) else decode_ignore r
        | _ => ""
        end
      else if (224 <=? c) && (c <=? 239) then
        match r with
        | String b (String d r') =>
            if cont_in (if c =? 224 then 160 else 128) (if c =? 237 then 159 else 191) b && is_cont d
            then String a (String b (String d (decode_ignore r'))) else decode_ignore r
        | _ => decode_ignore r
        end
      else if (240 <=? c) && (c <=? 244) then
        match r with
        | String b (String d (String e r')) =>
            if cont_in (if c =? 240 then 144 else 128) (if c =? 244 then 143 else 191) b && is_cont d && is_cont e
            then String a (String b (String d (String e (decode_ignore r')))) else decode_ignore r
        | _ => decode_ignore r
        end
      else decode_ignore r
  end.

Definition LOG_MAX_BYTES : Z := 262144.
Definition maximum_bytes (capabilities : pyval) : Z :=
  match capabilities with
  | PDict c =>
      match vget "logs" c with
      | PDict logs =>
          match dget_or "max_bytes" (PInt LOG_MAX_BYTES) logs with
          | PInt configured => Z.min (Z.max configured 1) LOG_MAX_BYTES
          | _ => LOG_MAX_BYTES
          end
      | _ => LOG_MAX_BYTES
      end
  | _ => LOG_MAX_BYTES
  end.

Definition payload_item (k : string) (o : RuntimeOperation) : res pyval :=
  match dget k (op_payload o) with Some v => Ok v | None => Raise (KeyError k) end.

Definition log_key (id : string) : string := ("dealhost:runtime-log:" ++ id)%string.
Definition log_expiry (now : Z) : string := isoformat (now + LOG_TTL_SECONDS * second).

(** The cached value, computed before any write. *)
Definition log_snapshot (o : RuntimeOperation) (caps : pyval) (logs : RuntimeLogs) (now : Z) : res pyval :=
  let maximum := maximum_bytes caps in
  let content := String.concat (bytes [10]) (log_lines logs) in
  encoded ← encode_utf8 content;
  let truncated := log_truncated logs || (maximum <? byte_len encoded) in
  let content := if maximum <? byte_len encoded
                 then decode_ignore (String.substring 0 (Z.to_nat maximum) encoded) else content in
  component ← payload_item "component" o;
  Ok (PDict [("component", component); ("container", PStr "main"); ("content", PStr content);
             ("truncated", PBool truncated); ("line_count", PInt (Z.of_nat (length (splitlines content))));
             ("captured_at", PStr (isoformat now)); ("expires_at", PStr (log_expiry now))]).

(** [cache.set], outside any transaction. *)
Definition store_logs (id : string) (snapshot : pyval) (d : db) : db :=
  set_cache (<[log_key id := (snapshot, LOG_TTL_SECONDS)]> (cache d)) d.
(** The transaction that follows. *)
Definition finish_logs (id token : string) (now : Z) (d : db) : res db :=
  locked ← get_operation id d;
  if negb (bool_decide (lease_token locked = Some token))
  then Ok (set_cache (base.delete (log_key id) (cache d)) d)
  else
    Ok (set_operation id (released locked SUCCEEDED (stage "captured" (PInt 100))
          (PDict [("ephemeral", PBool true); ("expires_at", PStr (log_expiry now))]) PNone
          (next_attempt_at locked) (Some now) (controller_failures locked)) d).

(** ** The worker *)
(** What the worker calls: the controller client of runtime_controller.py, the clock
    and the token source. *)
Class HostWorld (W : Type) := {
  hw_now : M W Z;
  hw_uuid4 : M W string;
  hw_deploy : pyval -> string -> M W RuntimeSnapshot;
  hw_update : string -> pyval -> string -> M W RuntimeSnapshot;
  hw_action : string -> string -> pyval -> string -> M W RuntimeSnapshot;
  hw_undeploy : string -> pyval -> string -> M W RuntimeSnapshot;
  hw_status : string -> string -> M W RuntimeSnapshot;
  hw_logs : string -> pyval -> pyval -> pyval -> string -> M W RuntimeLogs
}.

Definition _controller_payload (x : RuntimeDeployment) (o : RuntimeOperation) : pyval :=
  PDict [("deployment_id", PStr (op_deployment o));
         ("environment", PStr (dep_environment x));
         ("generation", PInt (target_generation o));
         ("desired_state", wanted_state o x);
         ("release", PDict [("digest", PStr (release_manifest_digest x)); ("manifest", release_manifest x)]);
         ("configuration", dep_configuration x);
         ("secret_refs", dep_secret_refs x);
         ("scaling", dep_scaling x)].

Definition already_dispatched (o : RuntimeOperation) : bool :=
  match result o with PDict r => truthy (vget "dispatched" r) | _ => false end.

Section processor.
Context `{HW : HostWorld W}.

Definition call {A} (m : M W A) : M (W * db) A :=
  fun '(w, d) => let '(r, w') := m w in (r, (w', d)).
Definition atomic (f : db -> res db) : M (W * db) unit :=
  fun '(w, d) => match f d with Ok d' => (Ok tt, (w, d')) | Raise e => (Raise e, (w, d)) end.
Definition read {A} (f : db -> res A) : M (W * db) A := fun '(w, d) => (f d, (w, d)).

(** [controller_id or str(deployment.id)]. *)
Definition undeploy_id (x : RuntimeDeployment) (o : RuntimeOperation) : string :=
  if String.eqb (controller_id x) "" then op_deployment o else controller_id x.

(** The controller call of an operation that is not a log snapshot. *)
Definition dispatch (id : string) (o : RuntimeOperation) (x : RuntimeDeployment) : M W RuntimeSnapshot :=
  let payload := _controller_payload x o in
  match operation_type o with
  | DEPLOY => hw_deploy payload id
  | CONFIGURE | SCALE => hw_update (controller_id x) payload id
  | START | STOP | RESTART => hw_action (controller_id x) (type_text (operation_type o)) payload id
  | UNDEPLOY => hw_undeploy (undeploy_id x o) payload id
  | LOG_SNAPSHOT => raise (controller_error "Unsupported queued runtime operation." None)
  end.
Definition poll (id : string) (o : RuntimeOperation) (x : RuntimeDeployment) : M W RuntimeSnapshot :=
  fun w =>
    match hw_status (controller_id x) id w with
    | (Raise (RuntimeControllerError detail code), w') =>
        if negb (bool_decide (operation_type o = UNDEPLOY)) || negb (bool_decide (code = Some 404))
        then (Raise (RuntimeControllerError detail code), w')
        else hw_undeploy (undeploy_id x o) (_controller_payload x o) id w'
    | r => r
    end.

Definition _complete_logs (id : string) (o : RuntimeOperation) (x : RuntimeDeployment) (token : string)
    (logs : RuntimeLogs) : M (W * db) unit :=
  now ← call hw_now;
  snapshot ← read (fun _ => log_snapshot o (capabilities x) logs now);
  _ ← atomic (fun d => Ok (store_logs id snapshot d));
  atomic (finish_logs id token now).

Definition _execute (id : string) (o : RuntimeOperation) (x : RuntimeDeployment) (token : string)
    : M (W * db) unit :=
  if bool_decide (operation_type o = LOG_SNAPSHOT) then
    component ← read (fun _ => payload_item "component" o);
    tail ← read (fun _ => payload_item "tail_lines" o);
    since ← read (fun _ => payload_item "since_seconds" o);
    logs ← call (hw_logs (controller_id x) component tail since id);
    _complete_logs id o x token logs
  else if negb (dep_generation x =? target_generation o) then
    raise (controller_error "The queued operation no longer matches the deployment generation." (Some 409))
  else
    snapshot ← call (if already_dispatched o then poll id o x else dispatch id o x);
    now ← call hw_now;
    now' ← call hw_now;
    atomic (_record_snapshot id o token snapshot now now').

(** The [except] clauses of [process_next]. *)
Definition record_exception (id token : string) (e : pyexn) : M (W * db) unit :=
  now ← call hw_now;
  atomic (match e with
          | RuntimeControllerUnavailable _ | RuntimeControllerError _ _ => _record_controller_failure id token e now
          | _ => _record_unexpected_failure id token now
          end).

Definition claim_tx (worker_id token : string) (now : Z) : M (W * db) (option (string * string)) :=
  fun '(w, d) =>
    let '(claimed, d') := _claim (py_take 128 worker_id) token now d in
    (Ok (option_map (fun id => (id, token)) claimed), (w, d')).
Definition claim_step (worker_id : string) : M (W * db) (option (string * string)) :=
  now ← call hw_now;
  token ← call hw_uuid4;
  claim_tx worker_id token now.

(** [try: self._execute(...)] and its handlers. *)
Definition try_execute (id : string) (o : RuntimeOperation) (x : RuntimeDeployment) (token : string)
    : M (W * db) unit :=
  fun wd =>
    match _execute id o x token wd with
    | (Ok _, wd') => (Ok tt, wd')
    | (Raise e, wd') => record_exception id token e wd'
    end.

Definition process_next (worker_id : string) : M (W * db) bool :=
  claimed ← claim_step worker_id;
  match claimed with
  | None => mret false
  | Some (id, token) =>
      o ← read (get_operation id);
      x ← read (get_deployment (op_deployment o));
      _ ← try_execute id o x token;
      mret true
  end.
End processor.
