(* ===== verification/WorkerSpec.v ===== *)
(** Correctness of the runtime worker: the recording operations under a stale token,
    the interleavings of any number of workers with the request handlers, what a
    successful operation has established, and the bounds on retries and logs. *)

From S2P Require Import Prelude PyValue Release Kube PyTime Service Worker.
#[local] Open Scope string_scope.
#[local] Open Scope list_scope.
#[local] Open Scope Z_scope.

(** ** Interleavings

    One step is one transaction (or one cache write) of some worker, with whatever
    token, snapshot, exception or instant that worker holds, or a transaction of the
    request handlers of runtime_views.py, of which only [request] is assumed. *)
Record request (d d' : db) : Prop := {
  req_kept id o : operations d !! id = Some o -> operations d' !! id = Some o;
  req_new id o : operations d !! id = None -> operations d' !! id = Some o ->
    status o = QUEUED /\ lease_token o = None /\ controller_failures o = 0 /\
    exists x, deployments d' !! op_deployment o = Some x /\ target_generation o = dep_generation x;
  req_deployment id x : deployments d !! id = Some x ->
    exists x', deployments d' !! id = Some x' /\ observed_generation x' = observed_generation x /\
      dep_generation x <= dep_generation x';
  req_created id x : deployments d !! id = None -> deployments d' !! id = Some x ->
    observed_generation x = 0 /\ 1 <= dep_generation x
}.

Inductive event :=
| EClaim (id token : string) (now : Z)
| ERecord (token : string)
| ECache
| ERequest.

Definition fresh_token (token : string) (d : db) : Prop :=
  forall id o, operations d !! id = Some o -> lease_token o <> Some token.

Inductive wstep : db -> event -> db -> Prop :=
| step_claim wid token now id d d' :
    fresh_token token d -> _claim wid token now d = (Some id, d') -> wstep d (EClaim id token now) d'
| step_snapshot id o token s now now' d d' :
    _record_snapshot id o token s now now' d = Ok d' -> wstep d (ERecord token) d'
| step_failure id token e now d d' :
    _record_controller_failure id token e now d = Ok d' -> wstep d (ERecord token) d'
| step_unexpected id token now d d' :
    _record_unexpected_failure id token now d = Ok d' -> wstep d (ERecord token) d'
| step_finish id token now d d' :
    finish_logs id token now d = Ok d' -> wstep d (ERecord token) d'
| step_store id snapshot d : wstep d ECache (store_logs id snapshot d)
| step_request d d' : request d d' -> wstep d ERequest d'.

Inductive wsteps : db -> list event -> db -> Prop :=
| wsteps_nil d : wsteps d [] d
| wsteps_cons d e d' es d'' : wstep d e d' -> wsteps d' es d'' -> wsteps d (e :: es) d''.

(** The tables agree up to the cache. *)
Definition same_tables (d d' : db) : Prop :=
  operations d' = operations d /\ deployments d' = deployments d /\ components d' = components d.

(** ** What one recording transaction does *)
(** [o'] is [o] at the end of an attempt. *)
Definition settled (o o' : RuntimeOperation) : Prop :=
  exists st p r e n f k, o' = released o st p r e n f k /\
    (k = controller_failures o \/
     k = controller_failures o + 1 /\ (k < MAX_CONTROLLER_FAILURES \/ st = FAILED)).

(** The columns that a recording keeps: all that the request handlers decide. *)
Definition decided (x : RuntimeDeployment) : Z * string * string * pyval * pyval * pyval * pyval * string * RuntimeEnvironment :=
  (dep_application x, dep_environment x, dep_desired_state x, dep_configuration x, dep_secret_refs x, dep_scaling x,
   release_manifest x, release_manifest_digest x, env_row x).
(** [x'] is [x] after a recording under target generation [target]. *)
Definition recorded (target : Z) (x x' : RuntimeDeployment) : Prop :=
  dep_generation x' = dep_generation x /\
  (observed_generation x' = observed_generation x \/
   observed_generation x <= observed_generation x' <= target) /\
  decided x' = decided x /\ revision x <= revision x' /\ (is_Some (deleted_at x) -> is_Some (deleted_at x')).

Inductive effect (token : string) (d d' : db) : Prop :=
| effect_none : same_tables d d' -> effect token d d'
| effect_operation id o o' :
    operations d !! id = Some o -> lease_token o = Some token ->
    operations d' = <[id := o']> (operations d) -> settled o o' ->
    deployments d' = deployments d -> effect token d d'
| effect_both id o o' x x' :
    operations d !! id = Some o -> lease_token o = Some token ->
    operations d' = <[id := o']> (operations d) -> settled o o' ->
    deployments d !! op_deployment o = Some x -> recorded (target_generation o) x x' ->
    deployments d' = <[op_deployment o := x']> (deployments d) -> effect token d d'.

Lemma get_operation_Ok id d o : get_operation id d = Ok o <-> operations d !! id = Some o.
Proof. unfold get_operation. destruct (operations d !! id); naive_solver. Qed.
Lemma get_deployment_Ok id d x : get_deployment id d = Ok x <-> deployments d !! id = Some x.
Proof. unfold get_deployment. destruct (deployments d !! id); naive_solver. Qed.

Lemma validate_generation_Ok x s target u :
  _validate_snapshot_generation x s target = Ok u ->
  observed_generation x <= snap_generation s <= target.
Proof. unfold _validate_snapshot_generation. intros H. res_inv. autorewrite with pyguard in *. lia. Qed.

Ltac read_row :=
  match goal with
  | H : get_operation _ _ = Ok _ |- _ => apply get_operation_Ok in H
  | H : get_deployment _ _ = Ok _ |- _ => apply get_deployment_Ok in H
  | H : _validate_snapshot_generation _ _ _ = Ok _ |- _ => apply validate_generation_Ok in H
  end.
Ltac rows := res_inv; repeat read_row.

Lemma settled_same o st p r e n f : settled o (released o st p r e n f (controller_failures o)).
Proof. unfold settled. eauto 12. Qed.
#[export] Hint Resolve settled_same : worker.

Lemma record_progress_effect id locked x s now d d' token :
  operations d !! id = Some locked -> lease_token locked = Some token ->
  deployments d !! op_deployment locked = Some x ->
  record_progress id locked x s now d = Ok d' -> effect token d d'.
Proof.
  intros Ho Ht Hx H. unfold record_progress in H. rows.
  case_match; rows; (eapply effect_both; [done|done|reflexivity|auto with worker|done| |reflexivity]);
    unfold recorded, decided; simpl; split_and!; auto; try lia; try (intros [? ->]; case_match; by eexists).
Qed.

Lemma record_final_effect id o locked x s now now' d d' token :
  operations d !! id = Some locked -> lease_token locked = Some token ->
  deployments d !! op_deployment locked = Some x ->
  record_final id o locked x s now now' d = Ok d' -> effect token d d'.
Proof.
  intros Ho Ht Hx H. unfold record_final, _apply_snapshot in H. rows.
  eapply effect_both; [done|done|reflexivity| |done| |reflexivity].
  - case_match; auto with worker.
  - unfold recorded, decided.
    match goal with |- context [if negb (String.eqb (_terminal_state_error ?a ?b ?c) "") then _ else _] =>
      destruct (negb (String.eqb (_terminal_state_error a b c) "")) end;
      simpl; split_and!; auto; try lia; (intros [? ->]; destruct (String.eqb (snap_state s) "deleted"); by eexists).
Qed.

Lemma fail_deployment_effect locked detail id o' d d' token :
  operations d !! id = Some locked -> lease_token locked = Some token -> settled locked o' ->
  fail_deployment locked detail (set_operation id o' d) = Ok d' -> effect token d d'.
Proof.
  intros Ho Ht Hs H. unfold fail_deployment in H. case_match; rows.
  - by eapply effect_operation.
  - eapply effect_both; [done|done|reflexivity|done|eassumption| |reflexivity].
    unfold recorded, decided. simpl. split_and!; auto; lia.
Qed.

Ltac split_if H :=
  match type of H with (if ?b then _ else _) = Ok _ => let E := fresh "E" in destruct b eqn:E end.
Ltac stale :=
  match goal with
  | H : (if negb (bool_decide (lease_token _ = _)) then _ else _) = Ok _ |- _ =>
      split_if H; [apply effect_none; res_inv; split_and!; reflexivity|];
      match goal with E : negb (bool_decide _) = false |- _ => apply negb_false_iff, bool_decide_eq_true in E end
  end.

Lemma record_effect d token d' : wstep d (ERecord token) d' -> effect token d d'.
Proof.
  inversion 1 as [|id o ? s now now' ? ? H'|id ? e now ? ? H'|id ? now ? ? H'|id ? now ? ? H'| |]; subst;
    clear H; revert H';
    unfold _record_snapshot, _record_controller_failure, _record_unexpected_failure, finish_logs;
    intros H; rows; stale.
  - rows. case_match; [by eapply record_progress_effect|by eapply record_final_effect].
  - split_if H0.
    + rows. eapply effect_operation; [done|done|reflexivity| |done].
      apply andb_true_iff in E0 as [_ Hr%Z.ltb_lt]. unfold settled. eauto 15.
    + eapply fail_deployment_effect; [done|done| |done]. unfold settled. eauto 15.
  - eapply fail_deployment_effect; [done|done| |done]. auto with worker.
  - rows. eapply effect_operation; [done|done|reflexivity|auto with worker|done].
Qed.

(** ** Claiming *)
Lemma fold_older_In l x : fold_left older l x ∈ x :: l.
Proof.
  revert x. induction l as [|y l IH]; intros x; simpl; [set_solver|].
  specialize (IH (older x y)). unfold older in *. case_match; set_solver.
Qed.
Lemma fold_older_min l x y : y ∈ x :: l -> requested_at (fold_left older l x).2 <= requested_at y.2.
Proof.
  revert x y. induction l as [|z l IH]; intros x y Hy; simpl; [set_solver by lia|].
  assert (requested_at (older x z).2 <= requested_at x.2 /\ requested_at (older x z).2 <= requested_at z.2) as [??]
    by (unfold older; case_match; autorewrite with pyguard in *; lia).
  pose proof (IH (older x z) (older x z) ltac:(set_solver)) as Hl.
  apply elem_of_cons in Hy as [->|[->|Hy]%elem_of_cons]; [lia|lia|]. apply IH. set_solver.
Qed.

Lemma first_due_Some now d id o :
  first_due now d = Some (id, o) ->
  operations d !! id = Some o /\ due now o = true /\
  forall id' o', operations d !! id' = Some o' -> due now o' = true -> requested_at o <= requested_at o'.
Proof.
  unfold first_due. destruct (List.filter _ _) as [|x l] eqn:E; [done|]. intros [= H].
  assert (Hin : forall y, y ∈ x :: l <-> operations d !! y.1 = Some y.2 /\ due now y.2 = true).
  { intros [i y]. rewrite <-E. rewrite list_elem_of_In, filter_In, <-list_elem_of_In. simpl.
    by rewrite elem_of_map_to_list. }
  pose proof (fold_older_In l x) as Hf. rewrite H, Hin in Hf. destruct Hf as [? ?]. split_and!; [done|done|].
  intros id' o' ? ?. pose proof (fold_older_min l x (id', o')) as Hm. rewrite H in Hm. apply Hm. by rewrite Hin.
Qed.
Lemma first_due_None now d id o : first_due now d = None -> operations d !! id = Some o -> due now o = false.
Proof.
  unfold first_due. destruct (List.filter _ _) as [|x l] eqn:E; [|done]. intros _ Ho.
  destruct (due now o) eqn:Hd; [|done].
  assert (In (id, o) []) as []. rewrite <-E. apply filter_In. split; [|done].
  by apply list_elem_of_In, elem_of_map_to_list.
Qed.

Lemma claim_Some wid token now d id d' :
  _claim wid token now d = (Some id, d') ->
  exists o, operations d !! id = Some o /\ due now o = true /\
    d' = set_operation id (claimed_operation wid token now o) d.
Proof.
  unfold _claim. destruct (first_due now d) as [[i o]|] eqn:E; intros H; [|done].
  apply first_due_Some in E as (? & ? & _). injection H as <- <-. eauto.
Qed.

Lemma due_status now o : due now o = true -> status o = QUEUED \/ status o = RUNNING.
Proof. unfold due. destruct (status o); naive_solver. Qed.

(** ** The invariant of the tables *)
Definition operation_ok (d : db) (o : RuntimeOperation) : Prop :=
  (is_Some (lease_token o) -> status o = RUNNING) /\
  0 <= controller_failures o <= MAX_CONTROLLER_FAILURES /\
  (controller_failures o = MAX_CONTROLLER_FAILURES -> status o = FAILED) /\
  exists x, deployments d !! op_deployment o = Some x /\ target_generation o <= dep_generation x.
Definition deployment_ok (x : RuntimeDeployment) : Prop :=
  0 <= observed_generation x <= dep_generation x.
Record db_ok (d : db) : Prop := {
  operations_ok id o : operations d !! id = Some o -> operation_ok d o;
  deployments_ok id x : deployments d !! id = Some x -> deployment_ok x;
  tokens_unique i j oi oj t : operations d !! i = Some oi -> operations d !! j = Some oj ->
    lease_token oi = Some t -> lease_token oj = Some t -> i = j
}.

(** Deployments are kept and their generation does not decrease. *)
Definition generations_grow (d d' : db) : Prop :=
  forall id x, deployments d !! id = Some x ->
    exists x', deployments d' !! id = Some x' /\ dep_generation x <= dep_generation x' /\
      observed_generation x <= observed_generation x'.

Lemma operation_ok_grow d d' o : generations_grow d d' -> operation_ok d o -> operation_ok d' o.
Proof.
  intros Hg (? & ? & ? & x & Hx & ?). destruct (Hg _ _ Hx) as (x' & ? & ? & ?).
  split_and!; try done; try lia. exists x'. split; [done|lia].
Qed.
Lemma operation_ok_settled d o o' : operation_ok d o -> lease_token o <> None -> settled o o' -> operation_ok d o'.
Proof.
  intros (Hl & Hf & Hm & Hd) Ht (st & p & r & e & n & f & k & -> & Hk).
  assert (status o = RUNNING) by (apply Hl; destruct (lease_token o); [eauto|done]).
  assert (controller_failures o <> MAX_CONTROLLER_FAILURES) by (intros ?%Hm; congruence).
  unfold operation_ok, MAX_CONTROLLER_FAILURES in *. simpl. split_and!; [by intros []|lia|lia| |done].
  intros Hk5. destruct Hk as [?|[_ [?|?]]]; [lia|lia|done].
Qed.
Lemma operation_ok_claimed d wid token now o :
  operation_ok d o -> due now o = true -> operation_ok d (claimed_operation wid token now o).
Proof.
  intros (Hl & Hf & Hm & Hd) Hdue%due_status. unfold operation_ok. simpl. split_and!; try done; try lia.
  intros ?%Hm. destruct Hdue; congruence.
Qed.

Lemma effect_grow token d d' : effect token d d' -> generations_grow d d'.
Proof.
  intros [(_ & Hd & _)|id o o' _ _ _ _ Hd|id o o' x x' _ _ _ _ Hx (Hgen & Hobs) Hd] i y Hy; rewrite Hd.
  1,2: exists y; split_and!; [done|lia|lia].
  destruct (decide (i = op_deployment o)) as [->|].
  - rewrite lookup_insert. rewrite decide_True by done. rewrite Hx in Hy. injection Hy as <-. exists x'. split_and!; [done|lia|lia].
  - rewrite lookup_insert_ne by done. exists y. split_and!; [done|lia|lia].
Qed.
Lemma step_grow d e d' : wstep d e d' -> generations_grow d d'.
Proof.
  destruct e as [i t n|t| |]; intros H; try (by eapply effect_grow, record_effect).
  all: inversion H; subst; intros i' y Hy.
  - match goal with H : _claim _ _ _ _ = _ |- _ => apply claim_Some in H as (o & ? & ? & ->) end.
    exists y. split_and!; [done|lia|lia].
  - exists y. split_and!; [done|lia|lia].
  - match goal with H : request _ _ |- _ => destruct (req_deployment _ _ H _ _ Hy) as (x' & ? & ? & ?) end.
    exists x'. split_and!; [done|lia|lia].
Qed.

(** Where the token of a row comes from. *)
Lemma token_origin d e d' id o' t :
  wstep d e d' -> operations d' !! id = Some o' -> lease_token o' = Some t ->
  (exists now, e = EClaim id t now) \/ exists o, operations d !! id = Some o /\ lease_token o = Some t.
Proof.
  intros H Ho' Ht. destruct e as [i u n|u| |].
  - inversion H as [wid ? ? ? ? ? _ Hc| | | | | |]; subst. apply claim_Some in Hc as (o & Ho & _ & ->).
    simpl in Ho'. rewrite lookup_insert_Some in Ho'. destruct Ho' as [[<- <-]|[_ Ho']]; [|by eauto].
    simpl in Ht. injection Ht as <-. eauto.
  - right. apply record_effect in H as [(Eo & _)|i o o1 Ho _ Eo Hs _|i o o1 x x' Ho _ Eo Hs _ _ _];
      rewrite Eo in Ho'; [by eauto| |];
      (rewrite lookup_insert_Some in Ho'; destruct Ho' as [[<- <-]|[_ Ho']]; [|by eauto];
       destruct Hs as (? & ? & ? & ? & ? & ? & ? & -> & _); discriminate Ht).
  - right. inversion H; subst. eauto.
  - right. inversion H as [| | | | | |? ? Hq]; subst. destruct (operations d !! id) as [o|] eqn:Eo.
    + rewrite (req_kept _ _ Hq _ _ Eo) in Ho'. injection Ho' as <-. eauto.
    + destruct (req_new _ _ Hq _ _ Eo Ho') as (_ & Hl & _). congruence.
Qed.

Lemma tokens_step d e d' i j oi oj t :
  wstep d e d' -> db_ok d -> operations d' !! i = Some oi -> operations d' !! j = Some oj ->
  lease_token oi = Some t -> lease_token oj = Some t -> i = j.
Proof.
  intros H Hok Hi Hj Ti Tj.
  destruct (token_origin _ _ _ _ _ _ H Hi Ti) as [(n & ->)|(o1 & ? & ?)];
    destruct (token_origin _ _ _ _ _ _ H Hj Tj) as [(n' & He)|(o2 & ? & ?)].
  - congruence.
  - inversion H as [? ? ? ? ? ? Hf| | | | | |]; subst. by destruct (Hf j o2).
  - subst. inversion H as [? ? ? ? ? ? Hf| | | | | |]; subst. by destruct (Hf i o1).
  - by eapply (tokens_unique d Hok).
Qed.

Lemma operations_step d e d' id o :
  wstep d e d' -> db_ok d -> operations d' !! id = Some o -> operation_ok d' o.
Proof.
  intros H [Hops _ _] Ho. pose proof (step_grow _ _ _ H) as Hg.
  destruct e as [i t n|t| |].
  - inversion H as [wid ? ? ? ? ? _ Hc| | | | | |]; subst. apply claim_Some in Hc as (o1 & Ho1 & Hdue & ->).
    simpl in Ho. rewrite lookup_insert_Some in Ho. eapply (operation_ok_grow d); [done|].
    destruct Ho as [[<- <-]|[_ Ho]]; [|by eauto]. apply operation_ok_claimed; eauto.
  - eapply (operation_ok_grow d); [done|].
    apply record_effect in H as [(Eo & _)|i o1 o' Ho1 Ht Eo Hs _|i o1 o' x x' Ho1 Ht Eo Hs _ _ _];
      rewrite Eo in Ho; [by eauto| |];
      (rewrite lookup_insert_Some in Ho; destruct Ho as [[<- <-]|[_ Ho]]; [|by eauto];
       eapply operation_ok_settled; [by eauto|congruence|done]).
  - inversion H; subst. eauto using operation_ok_grow.
  - inversion H as [| | | | | |? ? Hq]; subst. destruct (operations d !! id) as [o1|] eqn:Eo.
    + rewrite (req_kept _ _ Hq _ _ Eo) in Ho. injection Ho as <-. eauto using operation_ok_grow.
    + destruct (req_new _ _ Hq _ _ Eo Ho) as (Es & El & Ef & x & Hx & Et). unfold operation_ok. rewrite El, Ef, Es.
      split_and!; [by intros []|done|done|done|]. exists x. split; [done|lia].
Qed.

Lemma deployments_step d e d' id x :
  wstep d e d' -> db_ok d -> deployments d' !! id = Some x -> deployment_ok x.
Proof.
  intros H [Hops Hdeps _] Hx. destruct e as [i t n|t| |].
  - inversion H as [wid ? ? ? ? ? _ Hc| | | | | |]; subst. apply claim_Some in Hc as (o1 & Ho1 & Hdue & ->). eauto.
  - apply record_effect in H as [(_ & Ed & _)|i o o' _ _ _ _ Ed|i o o' y x' Ho _ _ _ Hy [Hgen Hobs] Ed];
      rewrite Ed in Hx; [by eauto|by eauto|].
    rewrite lookup_insert_Some in Hx. destruct Hx as [[<- <-]|[_ Hx]]; [|by eauto].
    destruct (Hops _ _ Ho) as (_ & _ & _ & x1 & Hx1 & ?). pose proof (Hdeps _ _ Hy) as Hok.
    rewrite Hy in Hx1. injection Hx1 as <-. unfold deployment_ok in *. lia.
  - inversion H; subst. eauto.
  - inversion H as [| | | | | |? ? Hq]; subst. destruct (deployments d !! id) as [y|] eqn:Ex.
    + destruct (req_deployment _ _ Hq _ _ Ex) as (x' & Hx' & Eo & ?). rewrite Hx' in Hx. injection Hx as <-.
      specialize (Hdeps _ _ Ex). unfold deployment_ok in *. lia.
    + destruct (req_created _ _ Hq _ _ Ex Hx). unfold deployment_ok. lia.
Qed.

Lemma db_ok_step d e d' : wstep d e d' -> db_ok d -> db_ok d'.
Proof. split; eauto using operations_step, deployments_step, tokens_step. Qed.
Lemma db_ok_steps d es d' : wsteps d es d' -> db_ok d -> db_ok d'.
Proof. induction 1; eauto using db_ok_step. Qed.
Lemma steps_grow d es d' : wsteps d es d' -> generations_grow d d'.
Proof.
  induction 1 as [d|d e d' es d'' Hs _ IH]; intros id x Hx.
  - exists x. split_and!; [done|lia|lia].
  - destruct (step_grow _ _ _ Hs _ _ Hx) as (x1 & Hx1 & ? & ?). destruct (IH _ _ Hx1) as (x2 & ? & ? & ?).
    exists x2. split_and!; [done|lia|lia].
Qed.

(** A step leaves a row it does not own: neither the claimed row nor leased to the
    step's token. *)
Lemma row_kept d e d' id o :
  wstep d e d' -> operations d !! id = Some o ->
  (forall token now, e = EClaim id token now -> due now o = false) ->
  (forall token, e = ERecord token -> lease_token o <> Some token) ->
  operations d' !! id = Some o.
Proof.
  intros H Ho Hc Hr. destruct e as [i t n|t| |].
  - inversion H as [wid ? ? ? ? ? _ Hcl| | | | | |]; subst. apply claim_Some in Hcl as (o1 & Ho1 & Hdue & ->).
    simpl. rewrite lookup_insert_ne; [done|]. intros ->. rewrite Ho in Ho1. injection Ho1 as <-.
    rewrite (Hc t n eq_refl) in Hdue. done.
  - specialize (Hr t eq_refl). apply record_effect in H as [(Eo & _)|i o1 o' Ho1 Ht Eo _ _|i o1 o' x x' Ho1 Ht Eo _ _ _ _];
      rewrite Eo; [done| |]; (rewrite lookup_insert_ne; [done|]; intros ->; congruence).
  - inversion H; subst. done.
  - inversion H as [| | | | | |? ? Hq]; subst. by apply (req_kept _ _ Hq).
Qed.

Definition terminal (o : RuntimeOperation) : Prop := status o = SUCCEEDED \/ status o = FAILED.
Lemma terminal_kept d es d' id o :
  wsteps d es d' -> db_ok d -> operations d !! id = Some o -> terminal o -> operations d' !! id = Some o.
Proof.
  induction 1 as [|d e d1 es d2 Hs Hss IH]; intros Hok Ho Ht; [done|].
  apply IH; [by eapply db_ok_step| |done]. eapply row_kept; [done|done| |].
  - intros t n _. unfold due. destruct Ht as [-> | ->]; done.
  - intros t _ Hl. destruct (operations_ok _ Hok _ _ Ho) as [Hrun _].
    destruct Ht as [Ht|Ht]; rewrite Ht in Hrun; rewrite Hl in Hrun; discriminate Hrun; eauto.
Qed.

Lemma lease_kept d es d' id o token limit :
  wsteps d es d' -> operations d !! id = Some o ->
  status o = RUNNING -> lease_token o = Some token -> lease_expires_at o = Some limit ->
  Forall (fun e => match e with
                   | EClaim _ _ now => now < limit
                   | ERecord t => t <> token
                   | _ => True
                   end) es ->
  operations d' !! id = Some o.
Proof.
  induction 1 as [|d e d1 es d2 Hs Hss IH]; intros Ho Hst Ht Hl Hes; [done|].
  apply Forall_cons_1 in Hes as [He Hes]. apply IH; try done. eapply row_kept; [done|done| |].
  - intros t n ->. unfold due. rewrite Hst, Hl. destruct (Z.leb_spec limit n); [lia|done].
  - intros t ->. congruence.
Qed.

Lemma fresh_kept d es d' token :
  wsteps d es d' -> Forall (fun e => forall id now, e <> EClaim id token now) es ->
  fresh_token token d -> fresh_token token d'.
Proof.
  induction 1 as [|d e d1 es d2 Hs Hss IH]; intros Hes Hf; [done|].
  apply Forall_cons_1 in Hes as [He Hes]. apply IH; [done|]. intros id o Ho Ht.
  destruct (token_origin _ _ _ _ _ _ Hs Ho Ht) as [(n & ->)|(o1 & ? & ?)]; [by eapply He|by eapply Hf].
Qed.

(** The tables before the first request. *)
Definition empty_db : db := {| operations := ∅; deployments := ∅; components := ∅; cache := ∅ |}.
Lemma empty_ok : db_ok empty_db.
Proof. split; simpl; intros *; rewrite ?lookup_empty; done. Qed.
Lemma reachable_ok es d : wsteps empty_db es d -> db_ok d.
Proof. intros H. exact (db_ok_steps _ _ _ H empty_ok). Qed.

(** ** What a final snapshot establishes *)
Definition image_key (c : RuntimeComponent) : string * string := (rc_slug c, image_digest c).

Lemma find_component_Some slug cs c : find_component slug cs = Some c -> c ∈ cs /\ rc_slug c = slug.
Proof. intros [H1 H2%String.eqb_eq]%find_some. by rewrite list_elem_of_In. Qed.

Lemma slug_image cs c c' :
  NoDup (map rc_slug cs) -> c ∈ cs -> image_key c' ∈ map image_key cs -> rc_slug c = rc_slug c' ->
  image_digest c = image_digest c'.
Proof.
  intros Hn Hc (y & Ey & Hy)%list_elem_of_fmap Es. injection Ey as Ey1 Ey2.
  assert (Hinj : forall y c, y ∈ cs -> c ∈ cs -> rc_slug y = rc_slug c -> y = c); [|specialize (Hinj y c); naive_solver congruence].
  clear -Hn. induction cs as [|z cs IH]; [set_solver|]. simpl in Hn. apply NoDup_cons in Hn as [Hz Hn].
  intros y c [->|Hy]%elem_of_cons [->|Hc]%elem_of_cons E; [done| | |by apply IH].
  - destruct Hz. rewrite E. by apply list_elem_of_fmap_2.
  - destruct Hz. rewrite <-E. by apply list_elem_of_fmap_2.
Qed.

Lemma replace_component_keys cs rows n c :
  NoDup (map rc_slug cs) -> map image_key rows = map image_key cs ->
  c ∈ cs -> rc_slug c = rc_slug n -> image_digest n = image_digest c ->
  map image_key (replace_component n rows) = map image_key rows.
Proof.
  intros Hn Hk Hc Es Ei. unfold replace_component. rewrite map_map. apply map_ext_in. intros r Hr.
  destruct (String.eqb_spec (rc_slug r) (rc_slug n)) as [E|]; [|done].
  assert (image_key r ∈ map image_key cs) by (rewrite <-Hk; apply list_elem_of_fmap_2; by apply list_elem_of_In).
  unfold image_key. rewrite E, Ei. f_equal. eapply slug_image; [done|done|done|congruence].
Qed.

(** The components that may be recorded: every row is reported, with the image of the
    release; or the runtime is gone. *)
Definition components_match (cs : list RuntimeComponent) (s : RuntimeSnapshot) : Prop :=
  (snap_state s = "deleted" /\ snap_components s = []) \/
  (forall slug, slug ∈ map rc_slug (snap_components s) <-> slug ∈ map rc_slug cs) /\
  forall c, c ∈ snap_components s -> exists r, r ∈ cs /\ image_key r = image_key c.

Lemma apply_components_images cs s m rows :
  NoDup (map rc_slug cs) -> _apply_components cs s m = Ok rows ->
  map image_key rows = map image_key cs /\ components_match cs s.
Proof.
  intros Hn H. unfold _apply_components in H. split_if H.
  - apply andb_true_iff in E as [E1%String.eqb_eq E2%bool_decide_eq_true].
    split; [|left; split; [done|by destruct (snap_components s)]].
    apply Ok_inj in H as <-. destruct m; [|done]. rewrite map_map. by apply map_ext.
  - res_inv. rewrite negb_false_iff, set_eqb_spec in *.
    assert (Hfold : forall l st rows, foldM_res (fun rows observed =>
        match find_component (rc_slug observed) cs with
        | None => Raise (KeyError (rc_slug observed))
        | Some c =>
            _ ← raise_if (negb (String.eqb (image_digest observed) (image_digest c)))
                  (controller_error "Runtime controller reported an image outside the immutable release." None);
            Ok (if m then replace_component observed rows else rows)
        end) st l = Ok rows -> map image_key st = map image_key cs ->
        map image_key rows = map image_key cs /\ forall c, c ∈ l -> exists r, r ∈ cs /\ image_key r = image_key c).
    { clear -Hn. induction l as [|n l IH]; intros st rows H Hst; simpl in H; [res_inv; split; [done|set_solver]|].
      destruct (find_component (rc_slug n) cs) as [c|] eqn:Ef; res_inv.
      apply find_component_Some in Ef as [Hc Es]. rewrite negb_false_iff, String.eqb_eq in *.
      destruct (IH _ _ H0) as [H1 H2].
      - destruct m; [|done]. rewrite (replace_component_keys cs _ n c); done.
      - split; [done|]. intros y [->|Hy]%elem_of_cons; [|by apply H2]. exists c. split; [done|]. unfold image_key. congruence. }
    destruct (Hfold _ _ _ H0 eq_refl) as [H1 H2]. split; [done|]. right. auto.
Qed.

(** The recording of a snapshot by the holder of the lease is one of its branches. *)
Lemma record_snapshot_holder id o token s now now' d d' locked :
  operations d !! id = Some locked -> lease_token locked = Some token ->
  _record_snapshot id o token s now now' d = Ok d' ->
  exists x, deployments d !! op_deployment locked = Some x /\
    ((mem (snap_state s) TRANSITIONAL_STATES || waiting_for_generation locked s = true /\
      record_progress id locked x s now d = Ok d') \/
     (mem (snap_state s) TRANSITIONAL_STATES || waiting_for_generation locked s = false /\
      record_final id o locked x s now now' d = Ok d')).
Proof.
  intros Ho Ht H. unfold _record_snapshot in H. rows. rewrite Ho in *. simplify_eq.
  rewrite bool_decide_true in * by done. simpl in *. rows. eexists. split; [done|].
  case_match; auto.
Qed.

Lemma terminal_state_ok o x s : 
  mem (snap_state s) ["failed"; "unknown"] || negb (String.eqb (_terminal_state_error o x s) "") = false ->
  mem (snap_state s) ["failed"; "unknown"] = false /\ snap_state s ∈ expected_states (wanted_state o x).
Proof.
  rewrite orb_false_iff, negb_false_iff, String.eqb_eq. intros [Hf He]. split; [done|].
  unfold _terminal_state_error in He. rewrite Hf in He.
  destruct (mem _ (expected_states _)) eqn:E; [by apply mem_In|discriminate He].
Qed.

Section success.
Context (id token : string) (o locked : RuntimeOperation) (s : RuntimeSnapshot) (now now' : Z) (d d' : db).
Hypothesis Hlocked : operations d !! id = Some locked.
Hypothesis Htoken : lease_token locked = Some token.
Hypothesis Hrecord : _record_snapshot id o token s now now' d = Ok d'.

Lemma success_from_final o' :
  operations d' !! id = Some o' -> status o' = SUCCEEDED ->
  exists x, deployments d !! op_deployment locked = Some x /\
    waiting_for_generation locked s = false /\ record_final id o locked x s now now' d = Ok d'.
Proof.
  intros Ho' Hs. destruct (record_snapshot_holder _ _ _ _ _ _ _ _ _ Hlocked Htoken Hrecord) as (x & Hx & [[_ H]|[E H]]).
  - exfalso. unfold record_progress in H. rows. case_match; rows; simpl in Ho'; rewrite lookup_insert_Some in Ho';
      destruct Ho' as [[_ <-]|[? _]]; done.
  - exists x. apply orb_false_iff in E as [_ ?]. auto.
Qed.

(** The generation, the state and the controller a success has recorded. *)
Lemma success_facts o' :
  operations d' !! id = Some o' -> status o' = SUCCEEDED ->
  exists x x', deployments d !! op_deployment locked = Some x /\
    deployments d' !! op_deployment locked = Some x' /\
    snap_generation s = target_generation locked /\ snap_state s ∈ expected_states (wanted_state o x) /\
    observed_state x' = snap_state s /\ observed_generation x' = target_generation locked /\
    controller_id x' = snap_controller_id s /\ dep_generation x' = dep_generation x.
Proof.
  intros Ho' Hs. destruct (success_from_final o' Ho' Hs) as (x & Hx & Hw & H). exists x.
  unfold record_final, _apply_snapshot in H. rows. cbn [operations set_operation] in Ho'.
  rewrite lookup_insert_Some in Ho'. destruct Ho' as [[_ <-]|[? _]]; [|done]. revert Hs.
  match goal with |- status (if ?b then _ else _) = _ -> _ => destruct b eqn:Ef end; [done|]. intros _.
  pose proof (terminal_state_ok _ _ _ Ef) as [Hf He]. unfold waiting_for_generation in Hw. rewrite Hf in Hw.
  rewrite andb_true_r in Hw. apply Z.ltb_ge in Hw.
  apply orb_false_iff in Ef as [_ Et]. cbn [deployments set_operation set_components set_deployment].
  rewrite Et. rewrite lookup_insert, decide_True by done. eexists. split_and!; [done|reflexivity|lia|exact He|reflexivity|simpl; lia|reflexivity|reflexivity].
Qed.

Lemma success_components o' :
  operations d' !! id = Some o' -> status o' = SUCCEEDED ->
  NoDup (map rc_slug (get_components (op_deployment locked) d)) ->
  components_match (get_components (op_deployment locked) d) s /\
  map image_key (get_components (op_deployment locked) d') = map image_key (get_components (op_deployment locked) d).
Proof.
  intros Ho' Hs Hn. destruct (success_from_final o' Ho' Hs) as (x & Hx & Hw & H).
  unfold record_final, _apply_snapshot in H. rows.
  match goal with H : _apply_components _ _ _ = Ok _ |- _ => destruct (apply_components_images _ _ _ _ Hn H) as [Hk Hm] end.
  split; [done|]. unfold get_components at 1. simpl. rewrite lookup_insert, decide_True by done. exact Hk.
Qed.

Lemma deadline_terminal o' :
  MAX_RECONCILIATION_AGE <= now - default (requested_at locked) (started_at locked) ->
  operations d' !! id = Some o' -> terminal o'.
Proof.
  intros Hage Ho'. destruct (record_snapshot_holder _ _ _ _ _ _ _ _ _ Hlocked Htoken Hrecord) as (x & Hx & [[_ H]|[_ H]]).
  - unfold record_progress in H. rows. apply Z.leb_le in Hage. rewrite Hage in *. rows. simpl in Ho'.
    rewrite lookup_insert_Some in Ho'. destruct Ho' as [[_ <-]|[? _]]; [|done]. by right.
  - unfold record_final in H. rows. simpl in Ho'. rewrite lookup_insert_Some in Ho'.
    destruct Ho' as [[_ <-]|[? _]]; [|done]. case_match; [by right|by left].
Qed.
End success.

(** ** Log snapshots *)
Notation cut n s := (String.substring 0 n s).
Lemma cut_length n s : (String.length (cut n s) <= n)%nat.
Proof. revert n. induction s as [|a s IH]; intros [|n]; simpl; try lia. specialize (IH n). lia. Qed.
Lemma cut_0 s : cut 0 s = "".
Proof. by destruct s. Qed.

(** A text cut at [n] bytes and decoded loses at most the bytes of one character. *)
Definition kept_bytes (n : nat) (s : string) : Prop :=
  exists k, (k <= n <= k + 3)%nat /\ decode_ignore (cut n s) = cut k s.
Lemma kept_short n s : (n <= 3)%nat -> decode_ignore (cut n s) = "" -> kept_bytes n s.
Proof. intros Hn H. exists 0%nat. rewrite cut_0. split; [lia|done]. Qed.

Lemma cont_not_start b : is_cont b = true ->
  (code b <? 128) = false /\ (194 <=? code b) && (code b <=? 223) = false /\
  (224 <=? code b) && (code b <=? 239) = false /\ (240 <=? code b) && (code b <=? 244) = false.
Proof.
  unfold is_cont. rewrite andb_true_iff, Z.leb_le, Z.ltb_lt, Z.ltb_ge. intros [H1 H2].
  destruct (Z.leb_spec 194 (code b)), (Z.leb_spec 224 (code b)), (Z.leb_spec 240 (code b)); simpl; split_and!; lia || done.
Qed.
Lemma cont_in_cont lo hi b : 128 <= lo -> hi <= 191 -> cont_in lo hi b = true -> is_cont b = true.
Proof.
  unfold cont_in, is_cont. rewrite !andb_true_iff, !Z.leb_le, Z.ltb_lt. lia.
Qed.

Ltac run_decode := cbn [String.substring decode_ignore]; repeat match goal with H : _ = _ :> bool |- _ => rewrite H end.
Lemma decode_cut (m : nat) : forall s n,
  (String.length s <= m)%nat -> utf8_valid s = true -> (n <= String.length s)%nat -> kept_bytes n s.
Proof.
  induction m as [|m IH]; intros [|a r] n Hm Hv Hn; simpl in Hm, Hn; try lia;
    try (apply kept_short; [lia|by destruct n]).
  destruct n as [|n]; [apply kept_short; [lia|done]|]. simpl in Hv. unfold kept_bytes.
  destruct (code a <? 128) eqn:E1.
  { destruct (IH r n ltac:(lia) Hv ltac:(lia)) as (k & ? & Ek). exists (S k). split; [lia|]. run_decode. by rewrite Ek. }
  destruct ((194 <=? code a) && (code a <=? 223)) eqn:E2.
  { destruct r as [|b r]; [done|]. apply andb_true_iff in Hv as [Hb Hv]. simpl in Hn, Hm.
    destruct n as [|n]; [apply kept_short; [lia|]; by run_decode|].
    destruct (IH r n ltac:(lia) Hv ltac:(lia)) as (k & ? & Ek). exists (S (S k)). split; [lia|]. run_decode. by rewrite Ek. }
  destruct ((224 <=? code a) && (code a <=? 239)) eqn:E3.
  { destruct r as [|b [|c r]]; [done|done|]. rewrite !andb_true_iff in Hv. destruct Hv as [[Hb Hc] Hv]. simpl in Hn, Hm.
    assert (Hb' : is_cont b = true) by (eapply cont_in_cont; [| |exact Hb]; repeat case_match; lia).
    destruct (cont_not_start b Hb') as (? & ? & ? & ?), (cont_not_start c Hc) as (? & ? & ? & ?).
    destruct n as [|[|n]]; [apply kept_short; [lia|]; by run_decode
                           |apply kept_short; [lia|]; by run_decode|].
    destruct (IH r n ltac:(lia) Hv ltac:(lia)) as (k & ? & Ek). exists (S (S (S k))). split; [lia|]. run_decode.
    simpl. by rewrite Ek. }
  destruct ((240 <=? code a) && (code a <=? 244)) eqn:E4; [|done].
  destruct r as [|b [|c [|e r]]]; [done|done|done|]. rewrite !andb_true_iff in Hv.
  destruct Hv as [[[Hb Hc] He] Hv]. simpl in Hn, Hm.
  assert (Hb' : is_cont b = true) by (eapply cont_in_cont; [| |exact Hb]; repeat case_match; lia).
    destruct (cont_not_start b Hb') as (? & ? & ? & ?), (cont_not_start c Hc) as (? & ? & ? & ?).
  destruct n as [|[|[|n]]].
  1-3: apply kept_short; [lia|]; by run_decode.
  destruct (IH r n ltac:(lia) Hv ltac:(lia)) as (k & ? & Ek). exists (S (S (S (S k)))). split; [lia|]. run_decode.
  simpl. by rewrite Ek.
Qed.

Lemma maximum_bytes_range caps : 1 <= maximum_bytes caps <= LOG_MAX_BYTES.
Proof. unfold maximum_bytes, LOG_MAX_BYTES. repeat case_match; lia. Qed.

(** ** The worker's transactions are steps *)
Section steps.
Context `{HW : HostWorld W}.

(** A computation of the worker whose writes are the steps of events [E] allows. *)
Definition runs {A} (E : event -> Prop) (m : M (W * db) A) : Prop :=
  forall w d r w' d', m (w, d) = (r, (w', d')) -> exists es, wsteps d es d' /\ Forall E es.

Lemma wsteps_app d es d1 es' d2 : wsteps d es d1 -> wsteps d1 es' d2 -> wsteps d (es ++ es') d2.
Proof. induction 1; simpl; eauto using wsteps_cons. Qed.
Lemma wsteps_one d e d' : wstep d e d' -> wsteps d [e] d'.
Proof. eauto using wsteps_cons, wsteps_nil. Qed.

Lemma runs_ret {A} E (a : A) : runs E (mret a).
Proof. intros w d r w' d' [= _ _ <-]. exists []. split; constructor. Qed.
Lemma runs_raise {A} E e : runs E (raise e : M (W * db) A).
Proof. intros w d r w' d' [= _ _ <-]. exists []. split; constructor. Qed.
Lemma runs_call {A} E (m : M W A) : runs E (call m).
Proof. intros w d r w' d'. simpl. destruct (m w). intros [= _ _ <-]. exists []. split; constructor. Qed.
Lemma runs_read {A} E (f : db -> res A) : runs E (read f).
Proof. intros w d r w' d' [= _ _ <-]. exists []. split; constructor. Qed.
Lemma runs_bind {A B} E (m : M (W * db) A) (f : A -> M (W * db) B) :
  runs E m -> (forall a, runs E (f a)) -> runs E (m ≫= f).
Proof.
  intros Hm Hf w d r w' d'. unfold mbind, M_bind. destruct (m (w, d)) as [[a|e] [w1 d1]] eqn:E1; intros H.
  - destruct (Hm _ _ _ _ _ E1) as (es & ? & ?), (Hf _ _ _ _ _ _ H) as (es' & ? & ?).
    exists (es ++ es'). split; [by eapply wsteps_app|by apply Forall_app].
  - injection H as <- <- <-. eauto.
Qed.
Lemma runs_atomic (E : event -> Prop) e f :
  E e -> (forall d d', f d = Ok d' -> wstep d e d') -> runs E (atomic f).
Proof.
  intros He Hf w d r w' d'. simpl. destruct (f d) eqn:Ef; intros [= _ _ <-].
  - exists [e]. eauto using wsteps_one.
  - exists []. split; constructor.
Qed.

(** The events of an attempt that holds [token]. *)
Definition mine (token : string) (e : event) : Prop := e = ERecord token \/ e = ECache.

Lemma execute_runs id o x token : runs (mine token) (_execute id o x token).
Proof.
  unfold _execute, _complete_logs.
  repeat first [apply runs_bind; [|intros ?] | apply runs_call | apply runs_read | apply runs_raise | case_match].
  - apply (runs_atomic _ ECache); [by right|]. intros d d' [= <-]. constructor.
  - apply (runs_atomic _ (ERecord token)); [by left|]. intros d d'. apply step_finish.
  - apply (runs_atomic _ (ERecord token)); [by left|]. intros d d'. apply step_snapshot.
Qed.
Lemma record_exception_runs id token e : runs (mine token) (record_exception id token e).
Proof.
  unfold record_exception. apply runs_bind; [apply runs_call|intros now].
  apply (runs_atomic _ (ERecord token)); [by left|]. intros d d'.
  destruct e; eauto using step_failure, step_unexpected.
Qed.
Lemma try_execute_runs id o x token : runs (mine token) (try_execute id o x token).
Proof.
  intros w d r w' d'. unfold try_execute. destruct (_execute id o x token (w, d)) as [[[]|e] [w1 d1]] eqn:E1; intros H.
  - injection H as <- <- <-. by eapply execute_runs.
  - destruct (execute_runs _ _ _ _ _ _ _ _ _ E1) as (es & ? & ?), (record_exception_runs _ _ _ _ _ _ _ _ H) as (es' & ? & ?).
    exists (es ++ es'). split; [by eapply wsteps_app|by apply Forall_app].
Qed.

(** The events of one call of [process_next]: a claim, then the attempt's own. *)
Definition attempt_events (es : list event) : Prop :=
  es = [] \/ exists id token now rest, es = EClaim id token now :: rest /\ Forall (mine token) rest.

Lemma process_next_runs worker_id w d r w' d' :
  (forall w0 token w1, hw_uuid4 w0 = (Ok token, w1) -> fresh_token token d) ->
  process_next worker_id (w, d) = (r, (w', d')) -> exists es, wsteps d es d' /\ attempt_events es.
Proof.
  intros Hf H. unfold process_next, claim_step in H.
  assert (Hnil : d' = d -> exists es, wsteps d es d' /\ attempt_events es)
    by (intros ->; exists []; split; [constructor|by left]).
  revert H. unfold mbind, M_bind, call. destruct (hw_now w) as [[now|e] w1]; [|by intros [= _ _ <-]; auto].
  destruct (hw_uuid4 w1) as [[token|e] w2] eqn:Eu; [|by intros [= _ _ <-]; auto]. unfold claim_tx.
  destruct (_claim (py_take 128 worker_id) token now d) as [[id|] d1] eqn:Ec; cbn [option_map].
  2: { intros [= _ _ <-]. unfold _claim in Ec. destruct (first_due now d) as [[]|]; [done|]. injection Ec as <-. auto. }
  pose proof (step_claim _ _ _ _ _ _ (Hf _ _ _ Eu) Ec) as Hs. intros H.
  assert (exists es, wsteps d1 es d' /\ Forall (mine token) es) as (es & ? & ?).
  { eapply (runs_bind (mine token) (read (get_operation id))
      (fun o => read (get_deployment (op_deployment o)) ≫= fun x => try_execute id o x token ≫= fun _ => mret true));
      [apply runs_read| |exact H].
    intros o. apply runs_bind; [apply runs_read|intros x]. apply runs_bind; [apply try_execute_runs|intros ?].
    apply runs_ret. }
  exists (EClaim id token now :: es). split; [by econstructor|]. right. eauto 8.
Qed.
End steps.

(** ** An example queue *)
Module Queue.
Definition operation : RuntimeOperation := {|
  op_deployment := "dep"; operation_type := DEPLOY; status := QUEUED;
  op_payload := [("desired_state", PStr "running")]; progress := PNone; result := PNone; error := PNone;
  idempotency_key := "request-0001"; request_hash := ""; target_generation := 1; attempts := 0; controller_failures := 0; next_attempt_at := None; leased_by := "";
  lease_token := None; lease_expires_at := None; requested_at := 0; started_at := None; finished_at := None |}.
Definition deployment : RuntimeDeployment := {|
  dep_application := 7; dep_environment := "prod"; dep_desired_state := "running"; observed_state := "pending"; controller_id := "";
  dep_configuration := PDict []; dep_secret_refs := PDict []; dep_scaling := PDict []; dep_generation := 1;
  observed_generation := 0; revision := 1; dep_last_error := ""; last_reconciled_at := None; deleted_at := None;
  release_manifest := PDict []; release_manifest_digest := ""; 
  env_row := {| env_enabled := true; orchestrator := "kubernetes"; env_policy := PDict []; env_capabilities := PDict [] |} |}.
Definition web : RuntimeComponent := {|
  rc_slug := "web"; image_digest := "registry/web@sha256:0"; desired_replicas := 1; ready_replicas := 0;
  available_replicas := 0; rc_state := "pending"; health := "unknown"; restart_count := 0; rc_last_error := "" |}.
Definition running : RuntimeSnapshot := {|
  snap_controller_id := "dep"; snap_state := "running"; snap_message := ""; snap_generation := 1;
  snap_components := [{| rc_slug := "web"; image_digest := "registry/web@sha256:0"; desired_replicas := 1;
    ready_replicas := 1; available_replicas := 1; rc_state := "running"; health := "healthy";
    restart_count := 0; rc_last_error := "" |}] |}.

Definition queued : db := {|
  operations := {["op" := operation]}; deployments := {["dep" := deployment]};
  components := {["dep" := [web]]}; cache := ∅ |}.
Definition claimed (token : string) (now : Z) : db :=
  set_operation "op" (claimed_operation "w" token now operation) queued.
(** The lease of "a" ran out and "b" took the operation over. *)
Definition reclaimed : db :=
  set_operation "op" (claimed_operation "w" "b" (90 * second) (claimed_operation "w" "a" 0 operation)) (claimed "a" 0).
Definition done_db (token : string) (d : db) : db :=
  match _record_snapshot "op" operation token running second second d with Ok d' => d' | Raise _ => d end.

Lemma created : wstep empty_db ERequest queued.
Proof.
  constructor. split; simpl; intros id y; rewrite ?lookup_empty; try done; intros _ [<- <-]%lookup_singleton_Some.
  - split_and!; [done|done|done|]. exists deployment. by split.
  - done.
Qed.
Lemma fresh_queued token : fresh_token token queued.
Proof. intros id o. simpl. intros [<- <-]%lookup_singleton_Some. done. Qed.
Lemma first_claim token now : wstep queued (EClaim "op" token now) (claimed token now).
Proof. apply (step_claim "w"); [apply fresh_queued|reflexivity]. Qed.
Lemma second_claim : wstep (claimed "a" 0) (EClaim "op" "b" (90 * second)) reclaimed.
Proof.
  apply (step_claim "w"); [|reflexivity]. intros id o. simpl. rewrite lookup_insert_Some.
  intros [[<- <-]|[? [<- <-]%lookup_singleton_Some]]; done.
Qed.
Lemma claimed_reachable token now : wsteps empty_db [ERequest; EClaim "op" token now] (claimed token now).
Proof. eauto using wsteps_cons, wsteps_nil, created, first_claim. Qed.
Lemma recorded_step : wstep (claimed "a" 0) (ERecord "a") (done_db "a" (claimed "a" 0)).
Proof. apply (step_snapshot "op" operation "a" running second second). vm_compute. reflexivity. Qed.
Definition first_row : RuntimeOperation := claimed_operation "w" "a" 0 operation.
Definition succeeded : RuntimeOperation :=
  released first_row SUCCEEDED (stage "running" (PInt 100))
    (PDict [("state", PStr "running"); ("observed_generation", PInt 1)]) PNone None (Some second) 0.
Lemma done_row : operations (done_db "a" (claimed "a" 0)) !! "op" = Some succeeded.
Proof. vm_compute. reflexivity. Qed.
Lemma done_reachable : exists es, wsteps empty_db es (done_db "a" (claimed "a" 0)).
Proof. eexists. eapply wsteps_app; [apply claimed_reachable|apply wsteps_one, recorded_step]. Qed.
Definition log_operation : RuntimeOperation := {|
  op_deployment := "dep"; operation_type := LOG_SNAPSHOT; status := RUNNING;
  op_payload := [("component", PStr "web")]; progress := PNone; result := PNone; error := PNone;
  idempotency_key := "request-0001"; request_hash := ""; target_generation := 1; attempts := 1; controller_failures := 0; next_attempt_at := None; leased_by := "w";
  lease_token := Some "a"; lease_expires_at := None; requested_at := 0; started_at := None; finished_at := None |}.
Definition logs : RuntimeLogs := {|
  log_lines := [bytes [65; 195; 169]]; log_cursor := ""; log_truncated := false |}.
Definition two_bytes : pyval := PDict [("logs", PDict [("max_bytes", PInt 2)])].
End Queue.
Import Queue.

(** ** Theorems *)

(** C4: an operation that reached SUCCEEDED or FAILED is final: whatever the workers,
    with valid or stale tokens, and the request handlers do afterwards, its row is
    never written again. *)
Theorem operation_final es d es' d' id o :
  wsteps empty_db es d -> operations d !! id = Some o -> terminal o ->
  wsteps d es' d' -> operations d' !! id = Some o.
Proof. eauto using terminal_kept, reachable_ok. Qed.
Lemma operation_final_witness :
  terminal succeeded /\
  operations (store_logs "op" PNone (done_db "a" (claimed "a" 0))) !! "op" = Some succeeded.
Proof.
  split; [left; reflexivity|]. destruct done_reachable as [es Hes].
  exact (operation_final es _ [ECache] _ "op" succeeded Hes done_row (or_introl eq_refl) (wsteps_one _ _ _ (step_store _ _ _))).
Defined.

(** C5: a claim is exclusive for the 90 seconds of its lease: as long as the other
    workers claim before it runs out and nobody records under its token, the claimed row
    stays exactly as the claim left it, running and leased to that token, whatever
    stale workers and request handlers do. *)
Theorem claim_exclusive d id token now d1 es d2 :
  wstep d (EClaim id token now) d1 -> wsteps d1 es d2 ->
  Forall (fun e => match e with
                   | EClaim _ _ t => t < now + 90 * second
                   | ERecord t => t <> token
                   | _ => True
                   end) es ->
  exists o, operations d2 !! id = Some o /\ operations d1 !! id = Some o /\
    status o = RUNNING /\ lease_token o = Some token.
Proof.
  intros H Hs Hes. inversion H as [wid ? ? ? ? ? _ Hc| | | | | |]; subst. apply claim_Some in Hc as (o & Ho & _ & ->).
  exists (claimed_operation wid token now o).
  assert (operations (set_operation id (claimed_operation wid token now o) d) !! id
          = Some (claimed_operation wid token now o)) by (simpl; by rewrite lookup_insert, decide_True).
  split_and!; [|done|done|done]. by eapply lease_kept.
Qed.
Lemma claim_exclusive_witness :
  exists o, operations (claimed "a" 0) !! "op" = Some o /\ operations (claimed "a" 0) !! "op" = Some o /\
    status o = RUNNING /\ lease_token o = Some "a".
Proof.
  exact (claim_exclusive queued "op" "a" 0 _ [] _ (first_claim "a" 0) (wsteps_nil _) (Forall_nil_2 _)).
Defined.

(** A worker whose operation was claimed again is silenced for good: once another
    token has taken its operation over, nothing it records (a snapshot, a controller
    failure, an unexpected failure or logs) changes an operation, a deployment or a
    component, however long it is delayed. *)
Theorem superseded_silent es0 d id o token token' now d1 es d2 d3 :
  wsteps empty_db es0 d -> operations d !! id = Some o -> lease_token o = Some token ->
  wstep d (EClaim id token' now) d1 -> wsteps d1 es d2 ->
  Forall (fun e => forall i t, e <> EClaim i token t) es ->
  wstep d2 (ERecord token) d3 -> same_tables d2 d3.
Proof.
  intros H0 Ho Ht Hc Hs Hes Hr. apply reachable_ok in H0 as Hok.
  assert (Hf : fresh_token token d1).
  { intros i oi Hi Ti. destruct (token_origin _ _ _ _ _ _ Hc Hi Ti) as [(n & E)|(o1 & Ho1 & T1)].
    - injection E as _ -> _. inversion Hc as [? ? ? ? ? ? Hf| | | | | |]; subst. by apply (Hf id o).
    - pose proof (tokens_unique d Hok _ _ _ _ _ Ho1 Ho T1 Ht) as ->.
      inversion Hc as [wid ? ? ? ? ? Hf Hcl| | | | | |]; subst. apply claim_Some in Hcl as (o2 & _ & _ & ->).
      simpl in Hi. rewrite lookup_insert, decide_True in Hi by done. injection Hi as <-. simpl in Ti.
      injection Ti as ->. by apply (Hf id o). }
  pose proof (fresh_kept _ _ _ _ Hs Hes Hf) as Hf2.
  apply record_effect in Hr as [Hsame|i o1 o' Ho1 T1 _ _ _|i o1 o' x x' Ho1 T1 _ _ _ _ _]; [done| |];
    by destruct (Hf2 _ _ Ho1).
Qed.
Lemma superseded_silent_witness : same_tables reclaimed (done_db "a" reclaimed).
Proof.
  apply (superseded_silent _ _ "op" first_row "a" "b" (90 * second) reclaimed [] reclaimed _ (claimed_reachable "a" 0)).
  - reflexivity.
  - reflexivity.
  - apply second_claim.
  - constructor.
  - constructor.
  - apply (step_snapshot "op" operation "a" running second second). vm_compute. reflexivity.
Defined.

(** Generations are coherent: in every reachable state the observed generation of a
    deployment is between 0 and its desired generation, and no step of any worker ever
    decreases it, even when the controller reports an older one. *)
Theorem generation_coherent es d es' d' id x :
  wsteps empty_db es d -> deployments d !! id = Some x -> wsteps d es' d' ->
  0 <= observed_generation x <= dep_generation x /\
  exists x', deployments d' !! id = Some x' /\
    observed_generation x <= observed_generation x' <= dep_generation x'.
Proof.
  intros H Hx H'. pose proof (reachable_ok _ _ H) as Hok. split; [by eapply (deployments_ok d Hok)|].
  destruct (steps_grow _ _ _ H' _ _ Hx) as (x' & Hx' & ? & ?). exists x'. split; [done|].
  pose proof (db_ok_steps _ _ _ H' Hok) as Hok'. destruct (deployments_ok d' Hok' _ _ Hx'). lia.
Qed.
Lemma generation_coherent_witness :
  0 <= observed_generation deployment <= dep_generation deployment /\
  exists x', deployments (done_db "a" (claimed "a" 0)) !! "dep" = Some x' /\
    observed_generation deployment <= observed_generation x' <= dep_generation x'.
Proof.
  exact (generation_coherent _ _ _ _ "dep" deployment (claimed_reachable "a" 0) eq_refl (wsteps_one _ _ _ recorded_step)).
Defined.

(** Retries are bounded: in every reachable state an operation has at most five
    controller failures, the fifth one is final, and a failure recorded by the lease
    holder either fails the operation or, for a retryable error, puts it back in the
    queue with a delay of at most a minute, releasing the lease in both cases. *)
Theorem retries_bounded es d id o token e now d' :
  wsteps empty_db es d -> operations d !! id = Some o -> lease_token o = Some token -> 0 <= attempts o ->
  _record_controller_failure id token e now d = Ok d' ->
  exists o', operations d' !! id = Some o' /\ lease_token o' = None /\
    controller_failures o' = controller_failures o + 1 /\
    controller_failures o' <= MAX_CONTROLLER_FAILURES /\
    if retryable_error e && (controller_failures o + 1 <? MAX_CONTROLLER_FAILURES)
    then status o' = QUEUED /\ exists t, next_attempt_at o' = Some t /\ now + second <= t <= now + 60 * second
    else status o' = FAILED.
Proof.
  intros H Ho Ht Ha Hr. pose proof (reachable_ok _ _ H) as Hok.
  destruct (operations_ok d Hok _ _ Ho) as (Hl & Hf & Hm & _).
  assert (Hlt : controller_failures o < MAX_CONTROLLER_FAILURES).
  { destruct (decide (controller_failures o = MAX_CONTROLLER_FAILURES)) as [E|]; [|lia].
    apply Hm in E. rewrite Ht in Hl. rewrite E in Hl. discriminate Hl. eauto. }
  unfold _record_controller_failure in Hr. rows. rewrite Ho in *. simplify_eq. rewrite bool_decide_true in * by done.
  simpl in *. case_match.
  - rows. eexists. simpl. rewrite lookup_insert, decide_True by done. split_and!; [done|done|done|simpl; lia|done|].
    eexists. split; [done|]. unfold backoff, second.
    match goal with |- context [2 ^ ?n] => pose proof (Z.pow_pos_nonneg 2 n) end. lia.
  - unfold fail_deployment in *. case_match; rows; eexists; simpl; rewrite lookup_insert, decide_True by done;
      split_and!; (done || (simpl; lia)).
Qed.
Lemma retries_bounded_witness :
  exists d' o', _record_controller_failure "op" "a" (RuntimeControllerUnavailable "down") 7 (claimed "a" 0) = Ok d' /\
    operations d' !! "op" = Some o' /\ lease_token o' = None /\
    controller_failures o' = 0 + 1 /\ controller_failures o' <= MAX_CONTROLLER_FAILURES /\
    (status o' = QUEUED /\ exists t, next_attempt_at o' = Some t /\ 7 + second <= t <= 7 + 60 * second).
Proof.
  destruct (_record_controller_failure "op" "a" (RuntimeControllerUnavailable "down") 7 (claimed "a" 0)) as [d'|] eqn:E;
    [|vm_compute in E; discriminate E].
  destruct (retries_bounded _ _ "op" first_row "a" (RuntimeControllerUnavailable "down") 7 d'
              (claimed_reachable "a" 0) eq_refl eq_refl ltac:(vm_compute; discriminate) E) as (o' & H).
  exists d', o'. split; [reflexivity|exact H].
Defined.

(** C6: a success is what was asked for: when the lease holder's snapshot makes an
    operation SUCCEEDED, the controller has observed exactly the operation's generation,
    the reported state is one the desired state allows, the deployment row records that
    state and generation, every component of the release was reported with the image the
    release pins (or the runtime is gone), and no pinned image was altered. *)
Theorem success_sound id o locked token s now now' d d' o' :
  operations d !! id = Some locked -> lease_token locked = Some token ->
  NoDup (map rc_slug (get_components (op_deployment locked) d)) ->
  _record_snapshot id o token s now now' d = Ok d' ->
  operations d' !! id = Some o' -> status o' = SUCCEEDED ->
  (exists x x', deployments d !! op_deployment locked = Some x /\
    deployments d' !! op_deployment locked = Some x' /\
    snap_generation s = target_generation locked /\ snap_state s ∈ expected_states (wanted_state o x) /\
    observed_state x' = snap_state s /\ observed_generation x' = target_generation locked /\
    controller_id x' = snap_controller_id s /\ dep_generation x' = dep_generation x) /\
  components_match (get_components (op_deployment locked) d) s /\
  map image_key (get_components (op_deployment locked) d') = map image_key (get_components (op_deployment locked) d).
Proof. intros. split; [by eapply success_facts|by eapply success_components]. Qed.
Lemma success_sound_witness :
  components_match [web] running /\
  map image_key (get_components "dep" (done_db "a" (claimed "a" 0))) = map image_key [web].
Proof.
  refine (proj2 (success_sound "op" operation first_row "a" running second second (claimed "a" 0)
                   (done_db "a" (claimed "a" 0)) succeeded eq_refl eq_refl _ _ done_row eq_refl)).
  - apply nodupb_NoDup. reflexivity.
  - vm_compute. reflexivity.
Defined.

(** Reconciliation has a deadline: a snapshot the lease holder records thirty
    minutes or more after the operation started ends the operation, also when the
    controller still reports a transitional state. *)
Theorem reconciliation_deadline id o locked token s now now' d d' o' :
  operations d !! id = Some locked -> lease_token locked = Some token ->
  _record_snapshot id o token s now now' d = Ok d' ->
  MAX_RECONCILIATION_AGE <= now - default (requested_at locked) (started_at locked) ->
  operations d' !! id = Some o' -> terminal o'.
Proof. intros Ho Ht Hr Hage. exact (deadline_terminal id token o locked s now now' d d' Ho Ht Hr o' Hage). Qed.
Lemma reconciliation_deadline_witness :
  exists d' o', operations d' !! "op" = Some o' /\ terminal o' /\
    _record_snapshot "op" operation "a"
      {| snap_controller_id := "dep"; snap_state := "reconciling"; snap_message := ""; snap_generation := 1;
         snap_components := snap_components running |} MAX_RECONCILIATION_AGE 0 (claimed "a" 0) = Ok d'.
Proof.
  destruct (_record_snapshot _ _ _ _ _ _ _) as [d'|] eqn:E; [|vm_compute in E; discriminate E].
  destruct (operations d' !! "op") as [o'|] eqn:Eo.
  - exists d', o'. split; [done|]. split; [|done].
    refine (reconciliation_deadline "op" operation first_row "a" _ MAX_RECONCILIATION_AGE 0 (claimed "a" 0) d' o' eq_refl eq_refl E _ Eo).
    vm_compute. discriminate.
  - vm_compute in E. injection E as <-. vm_compute in Eo. discriminate Eo.
Defined.

(** A captured log respects the environment's limit: the cached text has at most
    the configured number of bytes, never more than 262144; a text within the limit is
    kept whole, and a longer one is cut to a prefix that loses at most the three bytes
    of a split character and is flagged as truncated. *)
Theorem log_text_bounded o caps logs now v :
  let text := String.concat (bytes [10]) (log_lines logs) in
  utf8_valid text = true ->
  log_snapshot o caps logs now = Ok v ->
  exists d content, v = PDict d /\ vget "content" d = PStr content /\
    byte_len content <= maximum_bytes caps <= LOG_MAX_BYTES /\
    if maximum_bytes caps <? byte_len text
    then vget "truncated" d = PBool true /\
         exists k, content = String.substring 0 k text /\ maximum_bytes caps - 3 <= Z.of_nat k <= maximum_bytes caps
    else content = text.
Proof.
  intros text Hv H. unfold log_snapshot in H. fold text in H. rows.
  match goal with H : encode_utf8 _ = Ok _ |- _ => unfold encode_utf8 in H; destruct (has_surrogate text); [done|]; apply Ok_inj in H; subst end.
  pose proof (maximum_bytes_range caps) as Hm. eexists _, _. split; [reflexivity|]. split; [reflexivity|].
  destruct (Z.ltb_spec (maximum_bytes caps) (byte_len text)) as [Hlt|Hge]; [|split; [lia|reflexivity]].
  unfold byte_len in Hlt.
  destruct (decode_cut (String.length text) text (Z.to_nat (maximum_bytes caps)) ltac:(lia) Hv ltac:(lia)) as (k & Hk & Ek).
  rewrite Ek. pose proof (cut_length k text). split; [unfold byte_len; lia|]. split.
  - unfold vget, dget_or. simpl. by rewrite orb_true_r.
  - exists k. split; [reflexivity|lia].
Qed.
Lemma log_text_bounded_witness :
  exists v d content, log_snapshot log_operation two_bytes logs 0 = Ok v /\
    v = PDict d /\ vget "content" d = PStr content /\ byte_len content <= 2 <= LOG_MAX_BYTES.
Proof.
  destruct (log_snapshot log_operation two_bytes logs 0) as [v|e] eqn:E; [|vm_compute in E; discriminate E].
  assert (Hv : utf8_valid (String.concat (bytes [10]) (log_lines logs)) = true) by (vm_compute; reflexivity).
  destruct (log_text_bounded log_operation two_bytes logs 0 v Hv E) as (d & content & H1 & H2 & H3 & _).
  exists v, d, content. split; [reflexivity|]. split; [exact H1|]. split; [exact H2|exact H3].
Defined.

(** A delayed worker can erase the logs of a finished operation: a holder stores
    its log text and completes the operation, and a worker with an older token that
    then reaches its own completion deletes the shared cache entry, so the operation
    stays SUCCEEDED and announces logs that are gone. *)
Theorem log_snapshot_lost id o token stale v now now' d d1 d2 :
  operations d !! id = Some o -> lease_token o = Some token ->
  finish_logs id token now (store_logs id v d) = Ok d1 ->
  finish_logs id stale now' d1 = Ok d2 ->
  cache d1 !! log_key id = Some (v, LOG_TTL_SECONDS) /\ cache d2 !! log_key id = None /\
  exists o', operations d2 !! id = Some o' /\ status o' = SUCCEEDED /\
    result o' = PDict [("ephemeral", PBool true); ("expires_at", PStr (log_expiry now))].
Proof.
  intros Ho Ht H1 H2. unfold finish_logs in H1. rows. simpl in *. rewrite Ho in *. simplify_eq.
  rewrite bool_decide_true in * by done. simpl in *. rows.
  unfold finish_logs in H2. rows. cbn [operations set_operation cache store_logs set_cache] in *.
  match goal with H : <[id := _]> _ !! id = Some _ |- _ => rewrite lookup_insert, decide_True in H by done; injection H as <- end.
  simpl in *. rows. simpl. split_and!.
  - by rewrite lookup_insert, decide_True.
  - by rewrite lookup_delete, decide_True.
  - eexists. rewrite lookup_insert, decide_True by done. split_and!; reflexivity.
Qed.
Lemma log_snapshot_lost_witness :
  exists d1 d2, finish_logs "op" "b" 0 (store_logs "op" PNone reclaimed) = Ok d1 /\
    finish_logs "op" "a" 1 d1 = Ok d2 /\ cache d1 !! log_key "op" = Some (PNone, LOG_TTL_SECONDS) /\
    cache d2 !! log_key "op" = None.
Proof.
  destruct (finish_logs "op" "b" 0 (store_logs "op" PNone reclaimed)) as [d1|] eqn:E1; [|vm_compute in E1; discriminate E1].
  destruct (finish_logs "op" "a" 1 d1) as [d2|] eqn:E2; [|vm_compute in E1; injection E1 as <-; vm_compute in E2; discriminate E2].
  destruct (log_snapshot_lost "op" _ "b" "a" PNone 0 1 reclaimed d1 d2 eq_refl eq_refl E1 E2) as (H1 & H2 & _).
  exists d1, d2. split; [reflexivity|]. split; [exact E2|]. split; [exact H1|exact H2].
Defined.

(** The sequential worker refines the interleaving semantics: whatever the
    controller answers or raises, one call of [process_next] writes the database only
    through the steps above: nothing, or the claim of a due operation followed by
    records under the token of that claim. *)
Theorem process_next_refines {W} {HW : HostWorld W} worker_id w d r w' d' :
  (forall w0 token w1, hw_uuid4 w0 = (Ok token, w1) -> fresh_token token d) ->
  process_next worker_id (w, d) = (r, (w', d')) -> exists es, wsteps d es d' /\ attempt_events es.
Proof. exact (process_next_runs worker_id w d r w' d'). Qed.

Module OneWorker.
(** A controller that reports the runtime as running; the clock stands still. *)
#[export] Instance world : HostWorld unit := {
  hw_now := mret 0;
  hw_uuid4 := mret "a";
  hw_deploy _ _ := mret running;
  hw_update _ _ _ := mret running;
  hw_action _ _ _ _ := mret running;
  hw_undeploy _ _ _ := mret running;
  hw_status _ _ := mret running;
  hw_logs _ _ _ _ _ := mret logs
}.
End OneWorker.
Lemma process_next_refines_witness :
  exists r d', process_next (HW := OneWorker.world) "w" (tt, queued) = (r, (tt, d')) /\
    exists es, wsteps queued es d' /\ attempt_events es.
Proof.
  destruct (process_next (HW := OneWorker.world) "w" (tt, queued)) as [r [[] d']] eqn:E.
  exists r, d'. split; [reflexivity|].
  refine (process_next_refines (HW := OneWorker.world) "w" tt queued r tt d' _ E).
  intros w0 token w1 _. apply fresh_queued.
Defined.

(** The queue is served in order: a claim takes an operation that is due (queued, or
    running without a live lease, and past its retry delay), none of the due operations
    was requested before it, and when nothing is claimed nothing is due. *)
Theorem claim_oldest wid token now d :
  match _claim wid token now d with
  | (Some id, d') => exists o, operations d !! id = Some o /\ due now o = true /\
      d' = set_operation id (claimed_operation wid token now o) d /\
      forall id' o', operations d !! id' = Some o' -> due now o' = true -> requested_at o <= requested_at o'
  | (None, d') => d' = d /\ forall id o, operations d !! id = Some o -> due now o = false
  end.
Proof.
  unfold _claim. destruct (first_due now d) as [[id o]|] eqn:E.
  - apply first_due_Some in E as (? & ? & ?). eauto.
  - split; [done|]. intros. by eapply first_due_None.
Qed.
