(* ===== verification/Client.v ===== *)
(** The host's client of the runtime controller (apps/hosting/runtime_controller.py): the
    requests it sends, the bounded reading of responses, and the validation of what the
    controller reports.

    The HTTP library is the interface [ClientTransport]: it yields a transport failure or
    a status, headers and the body in chunks. *)

From S2P Require Import Prelude PyValue Regex Json PyText Kube Worker.
#[local] Open Scope string_scope.
#[local] Open Scope list_scope.
#[local] Open Scope Z_scope.

Definition ALLOWED_RUNTIME_STATES : list string :=
  ["pending"; "reconciling"; "running"; "stopped"; "degraded"; "failed"; "deleting"; "deleted"; "unknown"].
Definition MAX_CONTROLLER_RESPONSE_BYTES : Z := 2 * 1024 * 1024.

(** ** The configuration (dealhost/settings/env.py) *)
Record RuntimeControllerConfig := {
  base_url : string;
  token : string;
  timeout_seconds : float64;
  ca_file : string
}.
Definition PLACEHOLDER_VALUES : list string :=
  [""; "replace-me"; "<apisix_admin_key>"; "<admin_api_token>"; "<django_secret_key>";
   "<github_personal_access_token>"; "<github_webhook_secret>"; "<runtime_controller_token>";
   "<service_api_token>"].
Definition _is_placeholder (value : string) : bool :=
  let normalized := py_strip value in
  mem normalized PLACEHOLDER_VALUES || (startswith "<" normalized && endswith ">" normalized).
Definition configured (c : RuntimeControllerConfig) : bool :=
  negb (String.eqb (base_url c) "") && negb (String.eqb (token c) "") && negb (_is_placeholder (token c)).

(** ** Text *)
(** [s.split()]: the words between runs of white space. *)
Fixpoint words (word : string) (chars : list string) : list string :=
  match chars with
  | [] => if String.eqb word "" then [] else [word]
  | c :: rest =>
      if is_space c then (if String.eqb word "" then words "" rest else word :: words "" rest)
      else words (word ++ c)%string rest
  end.
Definition py_split (s : string) : list string := words "" (pychars s).
(** [" ".join(s.split())[:n]]. *)
Definition one_line (n : nat) (s : string) : string := py_take n (String.concat " " (py_split s)).
(** [s.replace("\x00", "")]. *)
Fixpoint remove_nul (s : string) : string :=
  match s with
  | "" => ""
  | String a r => if code a =? 0 then remove_nul r else String a (remove_nul r)
  end.

Definition alnum_byte : ascii -> bool := por (between "A" "Z") (por (between "a" "z") (between "0" "9")).
Definition IDENTIFIER : regex :=
  Seq (Cls alnum_byte) (Rep 0 (Some 127%nat) (Cls (por alnum_byte (one_of "._-")))).
Definition COMPONENT : regex :=
  Seq (Cls lower_digit) (Rep 0 (Some 62%nat) (Cls (por lower_digit (one_of "-")))).

Definition client_error (detail : string) : pyexn := RuntimeControllerError detail None.

Definition _identifier (value : string) : res string :=
  if negb (fullmatch IDENTIFIER value) || mem value ["."; ".."] || has_byte 37 value
  then Raise (client_error "Runtime controller identifier is invalid.")
  else Ok (quote value).

(** ** Reported components and snapshots *)
Definition count_of (v : pyval) : option Z :=
  match v with PInt n => if (n <? 0) || (100000 <? n) then None else Some n | _ => None end.

Definition required_fields : list string :=
  ["slug"; "image_digest"; "desired_replicas"; "ready_replicas"; "available_replicas"; "state"; "health";
   "restart_count"].

Definition _component_snapshot (value : pyval) : res RuntimeComponent :=
  let bad := client_error "Runtime controller returned invalid components." in
  match value with
  | PDict d =>
      _ ← raise_if (negb (subsetb required_fields (keys d))) bad;
      match vget "slug" d, vget "image_digest" d, vget "state" d, vget "health" d,
            dget_or "last_error" (PStr "") d with
      | PStr slug, PStr image, PStr state, PStr health, PStr last_error =>
          _ ← raise_if (negb (fullmatch COMPONENT slug) || (255 <? py_len image) || (32 <? py_len state) ||
                        (32 <? py_len health)) bad;
          match count_of (vget "desired_replicas" d), count_of (vget "ready_replicas" d),
                count_of (vget "available_replicas" d), count_of (vget "restart_count" d) with
          | Some desired, Some ready, Some available, Some restarts =>
              Ok {| rc_slug := slug; image_digest := image; desired_replicas := desired; ready_replicas := ready;
                    available_replicas := available; rc_state := one_line 32 state; health := one_line 32 health;
                    restart_count := restarts; rc_last_error := one_line 500 last_error |}
          | _, _, _, _ => Raise bad
          end
      | _, _, _, _, _ => Raise bad
      end
  | _ => Raise bad
  end.

Definition identifier_of (data : list (string * pyval)) (fallback_id : string) : res string :=
  let omitted := client_error "Runtime controller omitted its deployment identifier." in
  match dget_or "id" (PStr fallback_id) data with
  | PStr controller_id =>
      _ ← raise_if (String.eqb controller_id "" || (128 <? py_len controller_id)) omitted;
      match _identifier controller_id with
      | Ok _ => Ok controller_id
      | Raise _ => Raise (client_error "Runtime controller returned an invalid deployment identifier.")
      end
  | _ => Raise omitted
  end.

(** [_snapshot]; the [require_id] clause repeats the test for an empty identifier. *)
Definition _snapshot (data : list (string * pyval)) (fallback_id expected_id : string) : res RuntimeSnapshot :=
  controller_id ← identifier_of data fallback_id;
  _ ← raise_if (negb (String.eqb expected_id "") && negb (String.eqb controller_id expected_id))
        (client_error "Runtime controller returned an inconsistent deployment identifier.");
  match vget "state" data with
  | PList _ | PDict _ => Raise TypeError
  | PStr state =>
      _ ← raise_if (negb (mem state ALLOWED_RUNTIME_STATES))
            (client_error "Runtime controller returned an invalid state.");
      match dget_or "message" (PStr "") data with
      | PStr message =>
          match vget "observed_generation" data with
          | PInt generation =>
              _ ← raise_if (generation <? 0)
                    (client_error "Runtime controller returned an invalid observed generation.");
              match vget "components" data with
              | PList components =>
                  _ ← raise_if (100 <? Z.of_nat (length components))
                        (client_error "Runtime controller returned invalid components.");
                  validated ← mapM_res _component_snapshot components;
                  _ ← raise_if (negb (nodupb (map rc_slug validated)))
                        (client_error "Runtime controller returned duplicate runtime components.");
                  Ok {| snap_controller_id := controller_id; snap_state := state;
                        snap_message := one_line 500 message; snap_generation := generation;
                        snap_components := validated |}
              | _ => Raise (client_error "Runtime controller returned invalid components.")
              end
          | _ => Raise (client_error "Runtime controller returned an invalid observed generation.")
          end
      | _ => Raise (client_error "Runtime controller returned an invalid status message.")
      end
  | _ => Raise (client_error "Runtime controller returned an invalid state.")
  end.

(** ** json.loads of bytes *)
(** UTF-8 where encoded surrogates are let through ([errors="surrogatepass"]). *)
Fixpoint utf8_pass (s : string) : bool :=
  match s with
  | "" => true
  | String a r =>
      let c := code a in
      if c <? 128 then utf8_pass r
      else if (194 <=? c) && (c <=? 223) then
        match r with String b r => is_cont b && utf8_pass r | _ => false end
      else if (224 <=? c) && (c <=? 239) then
        match r with
        | String b (String d r) => cont_in (if c =? 224 then 160 else 128) 191 b && is_cont d && utf8_pass r
        | _ => false
        end
      else if (240 <=? c) && (c <=? 244) then
        match r with
        | String b (String d (String e r)) =>
            cont_in (if c =? 240 then 144 else 128) (if c =? 244 then 143 else 191) b &&
            is_cont d && is_cont e && utf8_pass r
        | _ => false
        end
      else false
  end.

(** Code units of [n] bytes, in the given byte order; [None] when bytes are left over. *)
Fixpoint units (n : nat) (little : bool) (unit : list Z) (l : list Z) : option (list Z) :=
  match l with
  | [] => match unit with [] => Some [] | _ => None end
  | b :: l =>
      let unit := unit ++ [b] in
      if Nat.eqb (length unit) n then
        let value := fold_left (fun acc x => 256 * acc + x) (if little then rev unit else unit) 0 in
        rest ← units n little [] l; Some (value :: rest)
      else units n little unit l
  end.
(** Pairs of UTF-16 surrogates joined; a lone one passes. *)
Fixpoint join_surrogates (l : list Z) : list Z :=
  match l with
  | hi :: ((lo :: l) as rest) =>
      if (55296 <=? hi) && (hi <=? 56319) && (56320 <=? lo) && (lo <=? 57343)
      then (65536 + (hi - 55296) * 1024 + (lo - 56320)) :: join_surrogates l
      else hi :: join_surrogates rest
  | l => l
  end.
Definition text_of (points : list Z) : res string :=
  if forallb (fun p => p <=? 1114111) points then Ok (String.concat "" (map utf8_char points))
  else Raise UnicodeDecodeError.
Definition decode_utf16 (little : bool) (l : list Z) : res string :=
  match units 2 little [] l with Some us => text_of (join_surrogates us) | None => Raise UnicodeDecodeError end.
Definition decode_utf32 (little : bool) (l : list Z) : res string :=
  match units 4 little [] l with Some us => text_of us | None => Raise UnicodeDecodeError end.

(** [json.detect_encoding] and the decoding it selects. *)
Definition json_text (content : string) : res string :=
  let utf8 s := if utf8_pass s then Ok s else Raise UnicodeDecodeError in
  let l := map code (list_ascii_of_string content) in
  match l with
  | 0 :: 0 :: 254 :: 255 :: r => decode_utf32 false r
  | 255 :: 254 :: 0 :: 0 :: r => decode_utf32 true r
  | 254 :: 255 :: r => decode_utf16 false r
  | 255 :: 254 :: r => decode_utf16 true r
  | 239 :: 187 :: 191 :: r => utf8 (bytes r)
  | a :: b :: c :: d :: _ =>
      if a =? 0 then (if b =? 0 then decode_utf32 false l else decode_utf16 false l)
      else if b =? 0 then (if (c =? 0) && (d =? 0) then decode_utf32 true l else decode_utf16 true l)
      else utf8 content
  | [a; b] => if a =? 0 then decode_utf16 false l else if b =? 0 then decode_utf16 true l else utf8 content
  | _ => utf8 content
  end.

(** ** Requests *)
Record client_request := {
  cr_method : string;
  cr_path : string;
  cr_headers : list (string * string);
  cr_json : option pyval;
  cr_params : list (string * pyval)
}.
Class ClientTransport (W : Type) := {
  ct_send : client_request -> M W transport_result
}.

Fixpoint read_body (content : string) (chunks : list string) : res string :=
  match chunks with
  | [] => Ok content
  | chunk :: chunks =>
      if MAX_CONTROLLER_RESPONSE_BYTES <? byte_len content + byte_len chunk
      then Raise (client_error "Runtime controller response is too large.")
      else read_body (content ++ chunk)%string chunks
  end.

(** What [_request] makes of a response. *)
Definition receive (expected_statuses : list Z) (r : transport_result) : res (list (string * pyval)) :=
  match r with
  | HTTPError => Raise (client_error "Runtime controller could not be reached.")
  | Streamed status headers chunks =>
      _ ← raise_if (negb (existsb (Z.eqb status) expected_statuses))
            (RuntimeControllerError ("Runtime controller rejected the request (HTTP " ++ py_str_int status ++ ").")
               (Some status));
      let content_type := py_strip (before 59 (dget_or "content-type" "" headers)) in
      _ ← raise_if (negb (String.eqb content_type "application/json"))
            (client_error "Runtime controller returned a non-JSON response.");
      content ← read_body "" chunks;
      match json_text content ≫= loads with
      | Ok (PDict data) => Ok data
      | Ok _ => Raise (client_error "Runtime controller returned an invalid response.")
      | Raise _ => Raise (client_error "Runtime controller returned malformed JSON.")
      end
  end.

Section client.
Context (config : RuntimeControllerConfig) `{CT : ClientTransport W}.

Definition ensure_configured : res unit :=
  raise_if (negb (configured config))
    (RuntimeControllerUnavailable
       "Runtime deployment is unavailable until an isolated controller is configured.").

Definition request_headers (request_id : string) : list (string * string) :=
  [("Accept", "application/json"); ("Authorization", "Bearer " ++ token config);
   ("Idempotency-Key", request_id); ("X-Request-ID", request_id)]%string.
Definition _request (method path request_id : string) (expected_statuses : list Z) (json : option pyval)
    (params : list (string * pyval)) : M W (list (string * pyval)) :=
  _ ← lift ensure_configured;
  r ← ct_send {| cr_method := method; cr_path := path;
                 cr_headers := request_headers request_id;
                 cr_json := json; cr_params := params |};
  lift (receive expected_statuses r).

Definition deployment_path (controller_id suffix : string) : res string :=
  quoted ← _identifier controller_id; Ok ("/v1/deployments/" ++ quoted ++ suffix)%string.

Definition deploy (payload : pyval) (request_id : string) : M W RuntimeSnapshot :=
  data ← _request "POST" "/v1/deployments" request_id [200; 201; 202] (Some payload) [];
  deployment_id ← lift (attr_get_or "deployment_id" PNone payload);
  lift (_snapshot data "" (match deployment_id with PStr s => s | _ => "" end)).

Definition mutate (method controller_id suffix : string) (payload : pyval) (request_id : string)
    : M W RuntimeSnapshot :=
  path ← lift (deployment_path controller_id suffix);
  data ← _request method path request_id [200; 202] (Some payload) [];
  lift (_snapshot data controller_id controller_id).
Definition update (controller_id : string) (payload : pyval) (request_id : string) : M W RuntimeSnapshot :=
  mutate "PUT" controller_id "" payload request_id.
Definition action (controller_id action_name : string) (payload : pyval) (request_id : string)
    : M W RuntimeSnapshot :=
  _ ← lift (raise_if (negb (mem action_name ["start"; "stop"; "restart"; "redeploy"]))
              (ValueError "Unsupported runtime action."));
  mutate "POST" controller_id ("/actions/" ++ action_name) payload request_id.
Definition undeploy (controller_id : string) (payload : pyval) (request_id : string) : M W RuntimeSnapshot :=
  mutate "DELETE" controller_id "" payload request_id.
Definition status (controller_id request_id : string) : M W RuntimeSnapshot :=
  path ← lift (deployment_path controller_id "");
  data ← _request "GET" path request_id [200] None [];
  lift (_snapshot data controller_id controller_id).

(** One iteration over the returned lines: the lines so far and their length. *)
Definition add_line (acc : list string * Z) (value : pyval) : res (list string * Z) :=
  let '(lines, total) := acc in
  match value with
  | PStr text =>
      let line := py_take 16384 (remove_nul text) in
      let total := total + py_len line in
      _ ← raise_if (1000000 <? total) (client_error "Runtime controller log response is too large.");
      Ok (lines ++ [line], total)
  | _ => Raise (client_error "Runtime controller returned an invalid log response.")
  end.
Definition logs_of (tail : Z) (data : list (string * pyval)) : res RuntimeLogs :=
  let bad := client_error "Runtime controller returned an invalid log response." in
  match vget "lines" data with
  | PList raw_lines =>
      _ ← raise_if (tail <? Z.of_nat (length raw_lines)) bad;
      '(lines, _) ← foldM_res add_line ([], 0) raw_lines;
      match dget_or "cursor" (PStr "") data with
      | PStr cursor =>
          _ ← raise_if (500 <? py_len cursor) (client_error "Runtime controller returned an invalid log cursor.");
          match dget_or "truncated" (PBool false) data with
          | PBool truncated => Ok {| log_lines := lines; log_cursor := cursor; log_truncated := truncated |}
          | _ => Raise bad
          end
      | _ => Raise (client_error "Runtime controller returned an invalid log cursor.")
      end
  | _ => Raise bad
  end.

Definition logs (controller_id : string) (component tail since_seconds : pyval) (request_id : string)
    : M W RuntimeLogs :=
  let bad := client_error "Runtime log request is invalid." in
  match component with
  | PStr c =>
      _ ← lift (raise_if (negb (fullmatch COMPONENT c)) bad);
      match tail, since_seconds with
      | PInt t, PInt s =>
          _ ← lift (raise_if (negb ((1 <=? t) && (t <=? 1000)) || negb ((1 <=? s) && (s <=? 604800))) bad);
          path ← lift (deployment_path controller_id "/logs");
          data ← _request "GET" path request_id [200] None
                   [("component", component); ("tail", tail); ("since_seconds", since_seconds)];
          lift (logs_of t data)
      | _, _ => raise bad
      end
  | _ => raise TypeError
  end.
End client.

(** The worker's view of the controller, through the client. *)
Definition client_world (config : RuntimeControllerConfig) `{CT : ClientTransport W} (now : M W Z)
    (uuid4 : M W string) : HostWorld W := {|
  hw_now := now;
  hw_uuid4 := uuid4;
  hw_deploy := deploy config;
  hw_update := update config;
  hw_action := action config;
  hw_undeploy := undeploy config;
  hw_status := status config;
  hw_logs := logs config
|}.
