(* ===== verification/ClientSpec.v ===== *)
(** The controller client: what a validated answer satisfies, and that the client
    understands the answers of the controller. *)

From S2P Require Import Prelude PyValue Regex Sha256 Json PyText Config Contract Kube Status Service KubeLaws Cluster ServiceSpec Asgi AsgiSpec Worker WorkerSpec Client.
#[local] Open Scope string_scope.
#[local] Open Scope list_scope.
#[local] Open Scope Z_scope.

(** ** Validated snapshots *)
(** The limits of a reported component: those of the host's columns for texts. *)
Record component_limits (c : RuntimeComponent) : Prop := {
  cl_slug : fullmatch COMPONENT (rc_slug c) = true;
  cl_image : py_len (image_digest c) <= 255;
  cl_state : py_len (rc_state c) <= 32;
  cl_health : py_len (health c) <= 32;
  cl_error : py_len (rc_last_error c) <= 500;
  cl_counts : Forall (fun n => 0 <= n <= 100000)
    [desired_replicas c; ready_replicas c; available_replicas c; restart_count c]
}.
Record snapshot_limits (s : RuntimeSnapshot) : Prop := {
  sl_id : fullmatch IDENTIFIER (snap_controller_id s) = true;
  sl_state : snap_state s ∈ ALLOWED_RUNTIME_STATES;
  sl_message : py_len (snap_message s) <= 500;
  sl_generation : 0 <= snap_generation s;
  sl_count : (length (snap_components s) <= 100)%nat;
  sl_slugs : NoDup (map rc_slug (snap_components s));
  sl_components : Forall component_limits (snap_components s)
}.

Lemma one_line_len n s : py_len (one_line n s) <= Z.of_nat n.
Proof. apply py_len_take. Qed.
Lemma count_of_Some v n : count_of v = Some n -> v = PInt n /\ 0 <= n <= 100000.
Proof.
  destruct v; try done. simpl. destruct (Z.ltb_spec z 0), (Z.ltb_spec 100000 z); try done.
  intros [= <-]. split; [done|lia].
Qed.

Lemma component_validated v c : _component_snapshot v = Ok c -> component_limits c.
Proof.
  unfold _component_snapshot. destruct v as [| | | | | |d]; try done. intros H. res_inv.
  destruct (vget "slug" d) as [| | | |slug| |]; try done. destruct (vget "image_digest" d) as [| | | |image| |]; try done.
  destruct (vget "state" d) as [| | | |state| |]; try done. destruct (vget "health" d) as [| | | |hea| |]; try done.
  destruct (dget_or "last_error" (PStr "") d) as [| | | |err| |]; try done.
  res_inv. rewrite !orb_false_iff, !Z.ltb_ge, negb_false_iff in *. destruct_ex_and.
  repeat match goal with
  | H : match count_of ?v with _ => _ end = Ok _ |- _ => destruct (count_of v) eqn:?; try discriminate H
  end. res_inv.
  repeat match goal with H : count_of _ = Some _ |- _ => apply count_of_Some in H as [_ H] end.
  constructor; simpl; try done; try lia; try apply one_line_len.
  repeat (apply Forall_cons; split; [done|]). constructor.
Qed.

Lemma identifier_Ok data fallback id :
  identifier_of data fallback = Ok id -> fullmatch IDENTIFIER id = true.
Proof.
  unfold identifier_of. destruct (dget_or "id" (PStr fallback) data) as [| | | |s| |]; try done. intros H. res_inv.
  destruct (_identifier s) as [q|] eqn:E; [|done]. res_inv. unfold _identifier in E.
  destruct (fullmatch IDENTIFIER id); [done|discriminate E].
Qed.

Lemma snapshot_Ok data fallback expected s :
  _snapshot data fallback expected = Ok s ->
  snapshot_limits s /\ (expected <> "" -> snap_controller_id s = expected).
Proof.
  unfold _snapshot. intros H. res_inv.
  match goal with H : identifier_of _ _ = Ok _ |- _ => apply identifier_Ok in H end.
  destruct (vget "state" data) as [| | | |state| |]; try done.
  destruct (dget_or "message" (PStr "") data) as [| | | |message| |]; res_inv; try done.
  destruct (vget "observed_generation" data) as [| |g| | | |]; res_inv; try done.
  destruct (vget "components" data) as [| | | | |cs|]; res_inv; try done.
  rewrite ?Z.ltb_ge, ?negb_false_iff in *. split.
  - match goal with H : mapM_res _ _ = Ok ?l |- _ => apply mapM_res_Ok in H as Hc end.
    constructor; simpl; try done; try apply one_line_len; try (by apply mem_In); try (by apply nodupb_NoDup).
    + rewrite <-(Forall2_length _ _ _ Hc). lia.
    + clear -Hc. induction Hc; constructor; eauto using component_validated.
  - intros He. simpl. match goal with H : _ && _ = false |- _ => apply andb_false_iff in H as [H|H] end.
    + apply negb_false_iff, String.eqb_eq in H0. done.
    + apply negb_false_iff, String.eqb_eq in H0. done.
Qed.

(** ** The controller's answers *)
(** A component as the reconciler reports it, with the image found in the cluster. *)
Definition reported (c : Component) (live : string) (o : obj) : Prop :=
  exists desired ready available restarts state health error,
    o = dset "image_digest" (PStr live)
          (_component_result c desired ready available state health restarts error) /\
    0 <= desired /\ 0 <= ready /\ 0 <= available /\ 0 <= restarts /\
    py_len state <= 32 /\ py_len health <= 32.

Lemma reported_result c state health :
  py_len state <= 32 -> py_len health <= 32 -> reported c (image c) (_component_result c 0 0 0 state health 0 "").
Proof. intros. exists 0, 0, 0, 0, state, health, "". split_and!; try done; lia. Qed.

Lemma reported_status d c dep pods o :
  _component_status d c dep pods = Ok o -> exists live, reported c live o.
Proof.
  unfold _component_status. destruct dep as [dep|]; intros H.
  - apply bind_Ok in H as (live & _ & H). exists live.
    repeat match goal with H : context [if ?b then _ else _] |- _ => destruct b end; apply Ok_inj in H; subst o;
      do 7 eexists; (split_and!; [reflexivity|apply count_nonneg..| | |]);
      try apply restart_total_nonneg; vm_compute; discriminate.
  - exists (image c). apply Ok_inj in H; subst o. do 7 eexists.
    split_and!; [reflexivity|lia|lia|lia|apply restart_total_nonneg| |]; vm_compute; discriminate.
Qed.

(** The client's row has the reported slug, image and counters. *)
Definition same_report (o : obj) (n : RuntimeComponent) : Prop :=
  vget "slug" o = PStr (rc_slug n) /\ vget "image_digest" o = PStr (image_digest n) /\
  vget "desired_replicas" o = PInt (desired_replicas n) /\ vget "ready_replicas" o = PInt (ready_replicas n) /\
  vget "available_replicas" o = PInt (available_replicas n) /\ vget "restart_count" o = PInt (restart_count n).

(** The reported image fits the column of the host. *)
Definition image_fits (o : obj) : Prop := forall s, vget "image_digest" o = PStr s -> py_len s <= 255.

Lemma component_understood c live o :
  fullmatch _COMPONENT_SLUG (slug c) = true -> image_fits o -> reported c live o ->
  exists n, _component_snapshot (PDict o) = Ok n /\ rc_slug n = slug c /\ same_report o n.
Proof.
  intros Hslug Hfit (desired & ready & available & restarts & state & hea & err & -> & ? & ? & ? & ? & Hs & Hh).
  assert (Hlive : py_len live <= 255) by (apply Hfit; reflexivity).
  unfold _component_snapshot, _component_result.
  cbn [dset String.eqb Ascii.eqb Bool.eqb].
  match goal with |- context [subsetb ?a ?b] => replace (subsetb a b) with true by reflexivity end.
  cbn [negb raise_if mbind res_bind vget dget_or dget String.eqb Ascii.eqb Bool.eqb].
  change COMPONENT with _COMPONENT_SLUG. rewrite Hslug.
  destruct (Z.ltb_spec 255 (py_len live)); [lia|]. destruct (Z.ltb_spec 32 (py_len state)); [lia|].
  destruct (Z.ltb_spec 32 (py_len hea)); [lia|]. cbn [negb orb raise_if mbind res_bind].
  assert (Hcount : forall n hi, 0 <= n -> 0 <= hi <= 100000 -> count_of (PInt (Z.min n hi)) = Some (Z.min n hi)).
  { intros n hi ? ?. simpl. destruct (Z.ltb_spec (Z.min n hi) 0); [lia|]. destruct (Z.ltb_spec 100000 (Z.min n hi)); [lia|done]. }
  rewrite !Hcount by lia. eexists. split; [reflexivity|]. unfold same_report. split_and!; reflexivity.
Qed.

Lemma overall_allowed st l : overall_state st l ∈ ALLOWED_RUNTIME_STATES.
Proof. unfold overall_state. repeat case_match; apply mem_In; reflexivity. Qed.

Section observed.
Context (settings : ControllerSettings) {W : Type} `{KL : KubeLaws W}.

Lemma reported_map (f : Component -> obj) cs :
  (forall c, exists live, reported c live (f c)) -> Forall2 (fun c y => exists live, reported c live y) cs (map f cs).
Proof. intros Hf. induction cs; constructor; auto. Qed.

Lemma observe_reports id w w' r :
  observe settings id w = (Ok r, w') ->
  exists o d, objects w !! state_key id = Some o /\ _desired_from_state settings o = Ok d /\
    (rr_deployment_id r = id \/ rr_deployment_id r = deployment_id d) /\
    rr_observed_generation r = generation d /\ rr_state r ∈ ALLOWED_RUNTIME_STATES /\
    Forall2 (fun c y => exists live, reported c live y) (Contract.components d) (rr_components r).
Proof.
  intros E. pose proof E as E'. apply M_bind_Ok in E' as (s & w1 & S & E').
  apply (state_Ok (W := W)) in S. destruct s as [o|]; [|discriminate E'].
  apply M_bind_Ok in E' as (d & w2 & [Hd ->]%lift_Ok & E').
  apply M_bind_Ok in E' as (phase & w3 & [Hp ->]%lift_Ok & E'). exists o, d. split; [by symmetry|]. split; [done|].
  destruct (mem phase ["deleting"; "deleted"]) eqn:M.
  - assert (Hdel : forall st he, py_len st <= 32 -> py_len he <= 32 ->
        Forall2 (fun c y => exists live, reported c live y) (Contract.components d)
          (map (fun c => _component_result c 0 0 0 st he 0 "") (Contract.components d)))
      by (intros; apply reported_map; intros c; exists (image c); by apply reported_result).
    assert (Hrr : rr_observed_generation r = generation d /\
       ((r = {| rr_deployment_id := id; rr_state := "deleting"; rr_message := "Runtime resources are terminating.";
                rr_observed_generation := generation d; rr_components := map _deleting_component (Contract.components d) |}) \/
        r = _deleted_result d)).
    { apply mem_In in M. rewrite !elem_of_cons, elem_of_nil in M. destruct M as [->|[->|[]]].
      + change (String.eqb "deleting" "deleted") with false in E'. change (String.eqb "deleting" "deleting") with true in E'.
        cbv iota in E'. apply M_bind_Ok in E' as ([] & w4 & _ & E'); [apply mret_M_Ok in E' as [-> _]; by auto|].
        apply M_bind_Ok in E' as (? & w5 & _ & [-> _]%mret_M_Ok). by auto.
      + change (String.eqb "deleted" "deleted") with true in E'. cbv iota in E'.
        apply M_bind_Ok in E' as (? & w4 & _ & [-> _]%mret_M_Ok). by auto. }
    destruct Hrr as [_ [-> | ->]]; simpl.
    + split_and!; [by left|done|by apply mem_In|]. apply Hdel; vm_compute; discriminate.
    + split_and!; [by right|done|by apply mem_In|]. apply Hdel; vm_compute; discriminate.
  - assert (Hid : rr_deployment_id r = id).
    { unfold mem in M. cbn [existsb] in M. rewrite orb_false_r in M. apply orb_false_iff in M as [M1 M2].
      rewrite M2, M1 in E'. cbv iota in E'. apply M_bind_Ok in E' as (pods & w4 & _ & E').
      apply M_bind_Ok in E' as (g & w5 & _ & E'). apply M_bind_Ok in E' as (ob & w6 & _ & [-> _]%mret_M_Ok). done. }
    pose proof (observe_active settings id w w' r o d phase E (eq_sym S) Hd Hp M) as (_ & Hg & Hs & Hall).
    split_and!; [by left|done|rewrite Hs; apply overall_allowed|].
    clear -Hall. induction Hall as [|c y cs ys (dep & pods & _ & Hy) _ IH]; constructor; [|done].
    by eapply reported_status.
Qed.
End observed.

(** ** The text of an answer *)
Lemma byte_identifier a : hex_lower a = true -> alnum_byte a = true.
Proof. destruct a as [[] [] [] [] [] [] [] []]; vm_compute; congruence. Qed.
Lemma all_bytes_mono (p q : ascii -> bool) s :
  (forall a, p a = true -> q a = true) -> all_bytes p s = true -> all_bytes q s = true.
Proof. intros Hpq. induction s as [|a s IH]; [done|]. cbn [all_bytes]. rewrite !andb_true_iff. naive_solver. Qed.

Lemma identifier_intro a r :
  alnum_byte a = true -> all_bytes (por alnum_byte (one_of "._-")) r = true -> (String.length r <= 127)%nat ->
  _identifier (String a r) = Ok (quote (String a r)).
Proof.
  intros Ha Hr Hl. unfold _identifier.
  assert (fullmatch IDENTIFIER (String a r) = true) as ->.
  { apply fullmatch_spec. exists (String a ""), r. split; [done|]. split; [by exists a|].
    apply matches_Rep_Cls. split; [done|]. simpl. lia. }
  assert (mem (String a r) ["."; ".."] = false) as ->.
  { apply mem_not_In. rewrite !elem_of_cons, elem_of_nil. intros [[= -> _]|[[= -> _]|[]]]; discriminate Ha. }
  assert (Hp : forall b, por alnum_byte (one_of "._-") b = true -> (code b =? 37) = false).
  { intros b. destruct b as [[] [] [] [] [] [] [] []]; vm_compute; congruence. }
  assert (has_byte 37 (String a r) = false) as ->; [|done].
  unfold has_byte. simpl. rewrite (Hp a) by (unfold por; by rewrite Ha). simpl.
  clear -Hr Hp. induction r as [|b r IH]; [done|]. simpl in *. apply andb_true_iff in Hr as [Hb Hr].
  rewrite (Hp b Hb). by apply IH.
Qed.

Lemma uuid_identifier n : _identifier (uuid_str n) = Ok (quote (uuid_str n)) /\ py_len (uuid_str n) = 36.
Proof.
  assert (Hb : all_bytes (por alnum_byte (one_of "._-")) (uuid_str n) = true).
  { unfold uuid_str. rewrite !all_bytes_app. cbn [all_bytes].
    rewrite !(all_bytes_mono hex_lower _ (hex _ _)); try apply hex_shape; [reflexivity|..];
      intros a Ha; unfold por; by rewrite (byte_identifier a Ha). }
  assert (Hl : String.length (uuid_str n) = 36%nat).
  { unfold uuid_str. rewrite !append_length, !hex_length. reflexivity. }
  assert (Hascii : py_len (uuid_str n) = 36).
  { rewrite py_len_ascii; [unfold byte_len; by rewrite Hl|].
    apply (all_bytes_mono (por alnum_byte (one_of "._-"))); [|done].
    intros a. destruct a as [[] [] [] [] [] [] [] []]; vm_compute; congruence. }
  assert (Hd : exists a r, uuid_str n = String a r /\ alnum_byte a = true).
  { unfold uuid_str. cbn [hex append]. eexists _, _. split; [reflexivity|].
    apply byte_identifier, hex_digit_hex, Z.mod_pos_bound. lia. }
  destruct Hd as (a & r & E & Ha). rewrite E in *. split; [|done].
  simpl in Hb, Hl. apply andb_true_iff in Hb as [_ Hb]. apply identifier_intro; [done|done|lia].
Qed.

Lemma canonical_identifier id :
  validate_deployment_id (PStr id) = Ok id -> _identifier id = Ok (quote id) /\ id <> "" /\ py_len id <= 128.
Proof.
  unfold validate_deployment_id. destruct (uuid_of_string id) as [n|]; [|done].
  destruct (String.eqb_spec id (uuid_str n)) as [->|]; [|done]. intros _.
  destruct (uuid_identifier n) as (Hq & Hl). split_and!; [done| |lia].
  intros E. rewrite E in Hl. discriminate Hl.
Qed.

Lemma digits_rev_length fuel n : (length (digits_rev fuel n) <= S fuel)%nat.
Proof.
  revert n. induction fuel as [|fuel IH]; intros n; simpl; [lia|]. case_match; simpl; [lia|].
  specialize (IH (n / 10)). lia.
Qed.
Lemma small_json n : 0 <= n <= 100000 -> json_ok (PInt n).
Proof.
  intros Hn. constructor. rewrite Z.abs_eq by lia. unfold byte_len, str_nat, bytes, int_max_str_digits.
  rewrite length_string_of_list, !length_map, length_rev.
  pose proof (digits_rev_length (Z.to_nat (Z.log2 n) + 1) n).
  assert (Z.log2 n <= 16) by (change 16 with (Z.log2 100000); apply Z.log2_le_mono; lia). lia.
Qed.

Lemma reported_json c live o : reported c live o -> json_ok (PDict o).
Proof.
  intros (desired & ready & available & restarts & state & hea & err & -> & ? & ? & ? & ? & _).
  unfold _component_result. cbn [dset String.eqb Ascii.eqb Bool.eqb]. constructor.
  - apply nodupb_NoDup. reflexivity.
  - repeat (apply Forall_cons; split; [cbn [snd]; first [apply small_json; lia|apply ok_str]|]). constructor.
Qed.

Lemma result_json r cs :
  json_ok (PInt (rr_observed_generation r)) ->
  Forall2 (fun c y => exists live, reported c live y) cs (rr_components r) -> json_ok (RuntimeResult_as_dict r).
Proof.
  intros Hg Hc. constructor; [apply nodupb_NoDup; reflexivity|].
  repeat (apply Forall_cons; split; [cbn [snd]; first [exact Hg|apply ok_str|apply ok_list]|]); [|constructor].
  apply Forall_map. clear -Hc. induction Hc as [|c y cs ys (live & Hy) _ IH]; constructor; [|done].
  by eapply reported_json.
Qed.

Lemma result_text r : exists rest, dumps (RuntimeResult_as_dict r) = String "{" (String (ascii_of_nat 34) rest).
Proof. eexists. cbn. reflexivity. Qed.
Lemma json_text_object rest :
  let s := String "{" (String (ascii_of_nat 34) rest) in utf8_pass s = true -> json_text s = Ok s.
Proof.
  intros s H. assert (forall b : bool, b = true -> (if b then Ok s else Raise UnicodeDecodeError) = Ok s) as K by (by intros b ->).
  destruct rest as [|a [|b rest]]; unfold json_text; cbn [list_ascii_of_string map s];
    (change (code "{") with 123; change (code (ascii_of_nat 34)) with 34; change (123 =? 0) with false;
     change (34 =? 0) with false; cbv iota; by apply K).
Qed.

(** The body arrives in chunks of any sizes. *)
Lemma read_body_chunks chunks content :
  byte_len (content ++ String.concat "" chunks) <= MAX_CONTROLLER_RESPONSE_BYTES ->
  read_body content chunks = Ok (content ++ String.concat "" chunks)%string.
Proof.
  revert content. induction chunks as [|c chunks IH]; intros content H.
  - simpl. by rewrite append_nil_r.
  - rewrite concat_cons, append_assoc in H |- *. cbn [read_body].
    destruct (Z.ltb_spec MAX_CONTROLLER_RESPONSE_BYTES (byte_len content + byte_len c)) as [Hc|_]; [|by apply IH].
    unfold byte_len in *. rewrite !append_length in H. lia.
Qed.

Lemma reply_received status expected r rid reply cs chunks :
  existsb (Z.eqb status) expected = true -> json_ok (PInt (rr_observed_generation r)) ->
  Forall2 (fun c y => exists live, reported c live y) cs (rr_components r) ->
  _response status (RuntimeResult_as_dict r) rid = Ok reply ->
  utf8_pass (rp_body reply) = true -> byte_len (rp_body reply) <= MAX_CONTROLLER_RESPONSE_BYTES ->
  String.concat "" chunks = rp_body reply ->
  exists d, RuntimeResult_as_dict r = PDict d /\
    receive expected (Streamed status (rp_headers reply) chunks) = Ok d.
Proof.
  intros Hs Hg Hc Hr Hu Hb Hch. unfold _response in Hr. apply bind_Ok in Hr as (content & Hcon & Hr).
  apply encode_utf8_Ok in Hcon as [-> _]. apply Ok_inj in Hr. subst reply. cbn [rp_body rp_headers] in *.
  eexists. split; [reflexivity|]. unfold receive. rewrite Hs. cbn [negb raise_if mbind res_bind].
  cbn [app dget_or dget String.eqb Ascii.eqb Bool.eqb].
  match goal with |- context [String.eqb (py_strip (before 59 ?t)) ?u] =>
    replace (String.eqb (py_strip (before 59 t)) u) with true by (vm_compute; reflexivity) end.
  cbn [negb raise_if mbind res_bind]. rewrite read_body_chunks by (rewrite Hch; done). rewrite Hch.
  cbn [mbind res_bind]. change ("" ++ dumps (RuntimeResult_as_dict r))%string with (dumps (RuntimeResult_as_dict r)).
  destruct (result_text r) as [rest E]. rewrite E in Hu |- *. rewrite json_text_object by done. rewrite <-E.
  cbn [mbind res_bind]. rewrite loads_dumps by (by eapply result_json). reflexivity.
Qed.

Lemma components_understood cs ys :
  Forall (fun c => fullmatch _COMPONENT_SLUG (slug c) = true) cs -> Forall image_fits ys ->
  Forall2 (fun c y => exists live, reported c live y) cs ys ->
  exists ns, mapM_res _component_snapshot (map PDict ys) = Ok ns /\ map rc_slug ns = map slug cs /\
    Forall2 same_report ys ns.
Proof.
  intros Hs Hf H. induction H as [|c y cs ys (live & Hy) _ IH]; [by exists []|].
  apply Forall_cons in Hs as [Hc Hs]. apply Forall_cons in Hf as [Hfy Hf].
  destruct (IH Hs Hf) as (ns & Hns & E & Hr). destruct (component_understood c live y Hc Hfy Hy) as (n & Hn & En & Hrn).
  exists (n :: ns). cbn [map mapM_res]. rewrite Hn. cbn [mbind res_bind]. rewrite Hns. cbn [mbind res_bind].
  rewrite En, E. split_and!; try done. by constructor.
Qed.

Lemma snapshot_understood id r cs d :
  validate_deployment_id (PStr id) = Ok id -> rr_deployment_id r = id -> rr_state r ∈ ALLOWED_RUNTIME_STATES ->
  0 <= rr_observed_generation r -> (length cs <= 100)%nat -> NoDup (map slug cs) ->
  Forall (fun c => fullmatch _COMPONENT_SLUG (slug c) = true) cs -> Forall image_fits (rr_components r) ->
  Forall2 (fun c y => exists live, reported c live y) cs (rr_components r) ->
  RuntimeResult_as_dict r = PDict d ->
  exists s, _snapshot d id id = Ok s /\ snap_controller_id s = id /\ snap_state s = rr_state r /\
    snap_generation s = rr_observed_generation r /\ Forall2 same_report (rr_components r) (snap_components s).
Proof.
  intros Hid Er Hst Hg Hl Hnd Hsl Hf Hc Ed. destruct (canonical_identifier id Hid) as (Hq & Hne & Hlen).
  destruct (components_understood cs _ Hsl Hf Hc) as (ns & Hns & Es & Hr).
  unfold RuntimeResult_as_dict in Ed. injection Ed as <-. unfold _snapshot, identifier_of.
  cbn [vget dget_or dget String.eqb Ascii.eqb Bool.eqb]. rewrite Er.
  destruct (String.eqb_spec id ""); [done|]. destruct (Z.ltb_spec 128 (py_len id)); [lia|].
  cbn [orb raise_if mbind res_bind]. rewrite Hq. cbn [mbind res_bind]. rewrite String.eqb_refl. cbn [negb andb raise_if mbind res_bind].
  apply mem_In in Hst as Hm. rewrite Hm. cbn [negb raise_if mbind res_bind].
  destruct (Z.ltb_spec (rr_observed_generation r) 0); [lia|]. cbn [raise_if mbind res_bind].
  pose proof (Forall2_length _ _ _ Hc) as El.
  match goal with |- context [100 <? ?n] => destruct (Z.ltb_spec 100 n) as [H100|_] end.
  { rewrite length_map in H100. unfold obj in *. lia. }
  cbn [raise_if mbind res_bind]. rewrite Hns.
  cbn [mbind res_bind]. rewrite Es. assert (nodupb (map slug cs) = true) as -> by (by apply nodupb_NoDup).
  eexists. split; [reflexivity|]. done.
Qed.


Section client_calls.
Context (config : RuntimeControllerConfig) {W : Type} `{CT : ClientTransport W}.

Lemma snapshot_for cid data s q :
  _identifier cid = Ok q -> _snapshot data cid cid = Ok s -> snapshot_limits s /\ snap_controller_id s = cid.
Proof.
  intros Hq Hs. apply snapshot_Ok in Hs as [Hl He]. split; [done|]. apply He. intros ->. discriminate Hq.
Qed.
Lemma mutate_validated method cid suffix payload rid w s w' :
  mutate config method cid suffix payload rid w = (Ok s, w') -> snapshot_limits s /\ snap_controller_id s = cid.
Proof.
  intros H. apply M_bind_Ok in H as (path & w1 & [Hp _]%lift_Ok & H).
  apply bind_Ok in Hp as (q & Hq & _). apply M_bind_Ok in H as (data & w2 & _ & [H _]%lift_Ok).
  by eapply snapshot_for.
Qed.
Lemma status_validated cid rid w s w' :
  status config cid rid w = (Ok s, w') -> snapshot_limits s /\ snap_controller_id s = cid.
Proof.
  intros H. apply M_bind_Ok in H as (path & w1 & [Hp _]%lift_Ok & H).
  apply bind_Ok in Hp as (q & Hq & _). apply M_bind_Ok in H as (data & w2 & _ & [H _]%lift_Ok).
  by eapply snapshot_for.
Qed.
Lemma deploy_validated payload rid w s w' :
  deploy config payload rid w = (Ok s, w') ->
  snapshot_limits s /\
  (forall d id, payload = PDict d -> vget "deployment_id" d = PStr id -> id <> "" -> snap_controller_id s = id).
Proof.
  intros H. apply M_bind_Ok in H as (data & w1 & _ & H). apply M_bind_Ok in H as (v & w2 & [Hv _]%lift_Ok & [H _]%lift_Ok).
  apply snapshot_Ok in H as [Hl He]. split; [done|]. intros d id -> Hd Hne.
  unfold attr_get_or in Hv. simpl in Hv. unfold vget in Hd. apply Ok_inj in Hv. subst v. rewrite Hd in He. by apply He.
Qed.
End client_calls.

(** The calls of the worker that report a deployment, with the identifier each is about. *)
Inductive reporting `{HW : HostWorld W} : string -> M W RuntimeSnapshot -> Prop :=
| reports_deploy d id rid : vget "deployment_id" d = PStr id -> id <> "" -> reporting id (hw_deploy (PDict d) rid)
| reports_update id payload rid : reporting id (hw_update id payload rid)
| reports_action id name payload rid : reporting id (hw_action id name payload rid)
| reports_undeploy id payload rid : reporting id (hw_undeploy id payload rid)
| reports_status id rid : reporting id (hw_status id rid).

(** C23: whatever the controller (or anything in its place) answers, a snapshot the
    worker obtains through the client is about the deployment asked for and within the
    client's limits: an identifier of safe characters, a known state, a generation that
    is not negative, at most 100 components with different slugs, bounded texts and
    counters. *)
Theorem snapshot_validated (config : RuntimeControllerConfig) {W : Type} `{CT : ClientTransport W}
    (now : M W Z) (uuid4 : M W string) (id : string) (call : M W RuntimeSnapshot) (w w' : W) (s : RuntimeSnapshot) :
  reporting (HW := client_world config now uuid4) id call -> call w = (Ok s, w') ->
  snapshot_limits s /\ snap_controller_id s = id.
Proof.
  intros Hc H. destruct Hc; simpl in H.
  - apply deploy_validated in H as [Hl He]. split; [done|]. by eapply He.
  - by eapply mutate_validated.
  - unfold action in H. apply M_bind_Ok in H as (? & w1 & _ & H). by eapply mutate_validated.
  - by eapply mutate_validated.
  - by eapply status_validated.
Qed.

(** What the reconciler observes, the host learns: when the controller answers a
    status request with the result of [observe] and the transport delivers that answer,
    in whatever chunks, the client accepts it and returns a snapshot with the same
    identifier, state and generation and, component by component, the same slug, image
    and counters. *)
Theorem status_understood (settings : ControllerSettings) {K : Type} `{KubeLaws K} {W : Type} `{ClientTransport W}
    (config : RuntimeControllerConfig) (id request_id rid : string) (k k' : K) (w w' : W) (r : RuntimeResult)
    (answer : reply) (chunks : list string) :
  configured config = true -> validate_deployment_id (PStr id) = Ok id ->
  observe settings id k = (Ok r, k') -> state_consistent settings id (objects k) ->
  Forall image_fits (rr_components r) -> json_ok (PInt (rr_observed_generation r)) ->
  _response 200 (RuntimeResult_as_dict r) rid = Ok answer ->
  utf8_pass (rp_body answer) = true -> byte_len (rp_body answer) <= MAX_CONTROLLER_RESPONSE_BYTES ->
  String.concat "" chunks = rp_body answer ->
  (forall rq, cr_method rq = "GET" -> cr_path rq = ("/v1/deployments/" ++ quote id)%string ->
     ct_send rq w = (Ok (Streamed 200 (rp_headers answer) chunks), w')) ->
  exists s, status config id request_id w = (Ok s, w') /\
    snap_controller_id s = id /\ snap_state s = rr_state r /\ snap_generation s = rr_observed_generation r /\
    Forall2 same_report (rr_components r) (snap_components s).
Proof.
  intros Hconf Hid Ho Hcons Hf Hg Hr Hu Hb Hch Hsend.
  destruct (observe_reports settings id k k' r Ho) as (o & d & Hlook & Hd & Hrid & Hgen & Hst & Hc).
  assert (Er : rr_deployment_id r = id) by (destruct Hrid as [?|E]; [done|rewrite E; by eapply Hcons]).
  assert (Hwf : wf_desired settings d).
  { unfold _desired_from_state in Hd. repeat case_match; try done. by eapply parse_desired_wf. }
  destruct (reply_received 200 [200] r rid answer _ chunks eq_refl Hg Hc Hr Hu Hb Hch) as (dict & Hdict & Hrecv).
  destruct (snapshot_understood id r (Contract.components d) dict) as (s & Hs & Hrest); try done.
  - rewrite Hgen. destruct Hwf. lia.
  - destruct (wf_d_count _ _ Hwf). lia.
  - exact (wf_d_slugs _ _ Hwf).
  - by eapply wf_slugs.
  - exists s. split; [|done]. destruct (canonical_identifier id Hid) as (Hq & _).
    assert (Hreq : _request config "GET" ("/v1/deployments/" ++ quote id) request_id [200] None [] w = (Ok dict, w')).
    { unfold _request, ensure_configured. rewrite Hconf. erewrite M_bind_run by reflexivity.
      erewrite M_bind_run by (apply Hsend; reflexivity). unfold lift. by rewrite Hrecv. }
    unfold status, deployment_path. rewrite Hq. erewrite M_bind_run by reflexivity.
    rewrite append_nil_r. erewrite M_bind_run by exact Hreq. unfold lift. by rewrite Hs.
Qed.

(** ** The sample deployment, seen from the host *)
Module Host.
Definition config : RuntimeControllerConfig := {| base_url := "https://controller.example"; token := "0123456789abcdef";
  timeout_seconds := FFin false 15 0; ca_file := "" |}.
Definition id : string := deployment_id Demo.desired.

(** A reported image within the column. *)
Definition image_short (o : obj) : bool :=
  match vget "image_digest" o with PStr s => py_len s <=? 255 | _ => true end.
Lemma image_short_fits o : image_short o = true -> image_fits o.
Proof. unfold image_short. intros H s E. rewrite E in H. by apply Z.leb_le. Qed.

Definition deliverable (r : RuntimeResult) : bool :=
  let body := dumps (RuntimeResult_as_dict r) in
  forallb image_short (rr_components r) && (0 <=? rr_observed_generation r) && (rr_observed_generation r <=? 100000) &&
  utf8_pass body && (byte_len body <=? MAX_CONTROLLER_RESPONSE_BYTES) && negb (has_surrogate body).
Lemma observed_deliverable :
  exists r w', observe Demo.settings id Demo.running = (Ok r, w') /\ deliverable r = true.
Proof. apply Demo.succeeds_Ok. vm_compute. reflexivity. Qed.

Lemma running_consistent : state_consistent Demo.settings id (objects Demo.running).
Proof.
  intros o d Ho Hd.
  assert (objects Demo.running !! state_key id = Some (Demo.state_object "active")) as L.
  { refine (eq_trans (lookup_insert_ne _ _ _ _ _) (eq_trans (lookup_insert_ne _ _ _ _ _) (Demo.stored_lookup "active")));
      intros E; by apply (f_equal fst) in E. }
  assert (o = Demo.state_object "active") as -> by congruence.
  destruct (Demo.stored_decodes "active" eq_refl) as [D _]. rewrite D in Hd. injection Hd as <-. reflexivity.
Qed.

(** A transport that answers every request with one response. *)
Definition fixed (answer : transport_result) : ClientTransport unit := {| ct_send := fun _ w => (Ok answer, w) |}.
End Host.

Definition answer_body : string :=
  dumps (PDict [("id", PStr "app-1"); ("state", PStr "running"); ("observed_generation", PInt 2); ("components", PList [])]).
#[local] Instance one_answer : ClientTransport unit :=
  Host.fixed (Streamed 200 [("content-type", "application/json; charset=utf-8")] [answer_body]).
Lemma snapshot_validated_witness :
  exists s, status Host.config "app-1" "request-9" tt = (Ok s, tt) /\ snapshot_limits s /\ snap_controller_id s = "app-1".
Proof.
  assert (E : exists s, status Host.config "app-1" "request-9" tt = (Ok s, tt)) by (eexists; vm_compute; reflexivity).
  destruct E as (s & E). exists s. split; [exact E|].
  exact (snapshot_validated Host.config (mret 0) (mret "token") "app-1" (status Host.config "app-1" "request-9") tt tt s
    (reports_status (HW := client_world Host.config (mret 0) (mret "token")) "app-1" "request-9") E).
Defined.

Lemma status_understood_witness :
  exists answer s, @status Host.config unit (Host.fixed answer) Host.id "request-9" tt = (Ok s, tt) /\
    snap_controller_id s = Host.id.
Proof.
  destruct Host.observed_deliverable as (r & k' & Ho & Hd). unfold Host.deliverable in Hd.
  apply andb_true_iff in Hd as [Hd Hsur]. apply andb_true_iff in Hd as [Hd Hb]. apply andb_true_iff in Hd as [Hd Hu].
  apply andb_true_iff in Hd as [Hd Hg2]. apply andb_true_iff in Hd as [Hi Hg1].
  apply negb_true_iff in Hsur. apply Z.leb_le in Hb, Hg1, Hg2.
  destruct (_response 200 (RuntimeResult_as_dict r) "request-9") as [a|] eqn:Ea.
  - assert (Ebody : rp_body a = dumps (RuntimeResult_as_dict r)).
    { unfold _response, encode_utf8 in Ea. rewrite Hsur in Ea. injection Ea as <-. reflexivity. }
    exists (Streamed 200 (rp_headers a) [rp_body a]).
    destruct (@status_understood Demo.settings _ _ _ unit (Host.fixed (Streamed 200 (rp_headers a) [rp_body a]))
      Host.config Host.id "request-9" "request-9" Demo.running k' tt tt r a [rp_body a]) as (s & Hs & Hid & _).
    + reflexivity.
    + vm_compute. reflexivity.
    + exact Ho.
    + apply Host.running_consistent.
    + apply Forall_forall. intros o Hin. apply Host.image_short_fits.
      rewrite forallb_forall in Hi. apply Hi. by apply list_elem_of_In.
    + apply small_json. lia.
    + exact Ea.
    + by rewrite Ebody.
    + by rewrite Ebody.
    + reflexivity.
    + reflexivity.
    + exists s. by split.
  - exfalso. unfold _response, encode_utf8 in Ea. rewrite Hsur in Ea. discriminate Ea.
Defined.
