(* ===== verification/HostEnv.v ===== *)
(** The settings of the host (src/components/DEALHost/dealhost/settings/env.py, base.py,
    prod.py and runtime_worker.py): what an environment configures, and what production
    refuses to start with.

    [os.environ] is a list of pairs; [is_file] tells which paths are files. *)

From S2P Require Import Prelude PyValue Regex PyText Url Client Gateway Identity.
#[local] Open Scope list_scope.
#[local] Open Scope string_scope.
#[local] Open Scope Z_scope.

Notation environ := (list (string * string)).
Definition runtime_error {A} (detail : string) : res A := Raise (RuntimeError detail).

(** ** Variables *)
Section Variables.
Context (env : environ).

Definition get_env (name : string) (default : option string) : res string :=
  match dget name env with
  | Some value => Ok value
  | None => match default with
            | Some value => Ok value
            | None => runtime_error ("Missing required environment variable: " ++ name)
            end
  end.
Definition csv_items (value : string) : list string :=
  List.filter (fun item => negb (String.eqb item "")) (map py_strip (PyText.py_split "," value)).
Definition get_csv_env (name default : string) : res (list string) :=
  value ← get_env name (Some default); Ok (csv_items value).
Definition get_required_csv_env (name : string) : res (list string) :=
  values ← get_csv_env name "";
  if bool_decide (values = []) then runtime_error ("Missing required environment variable: " ++ name) else Ok values.
Definition get_int_csv_env `{UnicodeData} (name default : string) : res (list Z) :=
  values ← get_csv_env name default;
  match mapM py_int values with
  | None => runtime_error (name ++ " must contain only integers")
  | Some parsed =>
      if existsb (fun value => (value <? 1) || (65535 <? value)) parsed
      then runtime_error (name ++ " values must be between 1 and 65535")
      else Ok parsed
  end.
Definition get_secret_csv_env (name default : string) (allow_placeholder : bool) : res (list string) :=
  values ← get_csv_env name default;
  if negb allow_placeholder && existsb _is_placeholder values
  then runtime_error ("Invalid placeholder secret in environment variable: " ++ name)
  else Ok values.
Definition get_secret_env (name : string) (default : option string) (allow_placeholder : bool) : res string :=
  raw ← get_env name default;
  let value := py_strip raw in
  if negb allow_placeholder && _is_placeholder value
  then runtime_error ("Missing required secret environment variable: " ++ name)
  else Ok value.
Definition stripped (name default : string) : res string := py_strip <$> get_env name (Some default).
End Variables.

(** [int(value)] and [float(value)] of the value of a variable. *)
Definition int_env `{UnicodeData} (value : string) : res Z :=
  match py_int value with Some n => Ok n | None => Raise (ValueError "invalid literal for int() with base 10") end.
Definition float_env `{UnicodeData} (value : string) : res float64 :=
  match float_of_str value with Some f => Ok f | None => Raise (ValueError "could not convert string to float") end.

(** ** The groups of settings *)
Inductive database :=
| Sqlite (name : string)
| Postgresql (name user password host port : string) (conn_max_age : Z) (sslmode : string) (sslrootcert : option string).
Record NatsConfig := { nats_url : string; stream : string; subject_prefix : string; enabled : bool }.

(** [parsed.username], [parsed.password]. *)
Definition userinfo (u : url) : option string * option string :=
  match rpartition "@" (netloc u) with
  | None => (None, None)
  | Some (info, _) => match partition ":" info with
                      | Some (name, pw) => (Some name, Some pw)
                      | None => (Some info, None)
                      end
  end.
(** [not text] of a text or [None]. *)
Definition empty (s : option string) : bool := match s with None | Some "" => true | Some _ => false end.

Section Groups.
Context (env : environ) (is_file : string -> bool) `{UnicodeData} `{NetlocRules}.
#[local] Notation get := (get_env env).
#[local] Notation secret := (get_secret_env env).
#[local] Notation csv := (get_csv_env env).

Definition github_config (require_secrets : bool) : res GitHubConfig :=
  owner ← get "GITHUB_OWNER" (Some "Smartappli");
  repository ← get "GITHUB_REPOSITORY" (Some "DEALIoT");
  token ← secret "GITHUB_TOKEN" (Some "replace-me") (negb require_secrets);
  webhook_secret ← secret "GITHUB_WEBHOOK_SECRET" (Some "replace-me") (negb require_secrets);
  allowed_repositories ← csv "GITHUB_ALLOWED_REPOSITORIES" "Smartappli/DEALIoT,Smartappli/DEALData";
  Ok {| owner := owner; repository := repository; Gateway.token := token; webhook_secret := webhook_secret;
        allowed_repositories := allowed_repositories |}.
Definition apisix_config (require_secrets : bool) : res ApisixConfig :=
  admin_url ← get "APISIX_ADMIN_URL" (Some "http://apisix:9180");
  admin_key ← secret "APISIX_ADMIN_KEY" (Some "replace-me") (negb require_secrets);
  upstream_host ← get "APISIX_UPSTREAM_HOST" (Some "django-app");
  raw_port ← get "APISIX_UPSTREAM_PORT" (Some "8000");
  upstream_port ← int_env raw_port;
  hosts ← csv "APISIX_ROUTE_ALLOWED_UPSTREAM_HOSTS" "";
  suffixes ← csv "APISIX_ROUTE_ALLOWED_UPSTREAM_SUFFIXES" "";
  ports ← get_int_csv_env env "APISIX_ROUTE_ALLOWED_UPSTREAM_PORTS" "";
  upstreams ← csv "APISIX_ROUTE_ALLOWED_UPSTREAMS" "";
  prefixes ← csv "APISIX_ROUTE_RESERVED_PATH_PREFIXES" "";
  Ok {| admin_url := admin_url; admin_key := admin_key; upstream_host := upstream_host; upstream_port := upstream_port;
        route_allowed_upstream_hosts := hosts; route_allowed_upstream_suffixes := suffixes;
        route_allowed_upstream_ports := ports; route_allowed_upstreams := upstreams;
        route_reserved_path_prefixes := prefixes |}.

Definition valkey_url_ok (valkey_url : string) (parsed : url) (port : option Z) : bool :=
  String.eqb (scheme parsed) "rediss" && negb (empty (hostname parsed)) && bool_decide (port = Some 6380)
  && negb (empty (userinfo parsed).2) && startswith "/" (path parsed) && py_isdigit (removeprefix "/" (path parsed))
  && String.eqb (query parsed) "" && String.eqb (fragment parsed) "" && negb (any_space valkey_url).
Definition cache_config (require_tls : bool) : res string :=
  valkey_url ← stripped env "VALKEY_URL" "redis://valkey:6379/1";
  if require_tls then
    match (parsed ← urlsplit valkey_url; p ← port parsed; Ok (parsed, p)) with
    | Raise e => if is_value_error e then runtime_error "VALKEY_URL is not a valid URL." else Raise e
    | Ok (parsed, p) =>
        if valkey_url_ok valkey_url parsed p then Ok valkey_url
        else runtime_error "VALKEY_URL must use authenticated rediss:// on port 6380 with a numeric database and no query or fragment in production."
    end
  else Ok valkey_url.
Definition nats_config : res NatsConfig :=
  url ← get "NATS_URL" (Some "nats://nats:4222");
  stream ← get "NATS_STREAM" (Some "dealhost");
  subject_prefix ← get "NATS_SUBJECT_PREFIX" (Some "dealhost");
  flag ← get "NATS_ENABLED" (Some "false");
  Ok {| nats_url := url; stream := stream; subject_prefix := subject_prefix; enabled := String.eqb (py_lower flag) "true" |}.

(** The URL is that of a server, without credentials, query or fragment. *)
Definition controller_url_ok (base_url : string) (parsed : url) (port : option Z) : bool :=
  mem (scheme parsed) ["http"; "https"] && negb (empty (hostname parsed))
  && empty (userinfo parsed).1 && empty (userinfo parsed).2
  && String.eqb (query parsed) "" && String.eqb (fragment parsed) "" && negb (any_space base_url)
  && match port with Some p => (1 <=? p) && (p <=? 65535) | None => true end.
Definition controller_token_ok (token : string) : bool :=
  negb (_is_placeholder token) && (32 <=? py_len token) && (py_len token <=? 256) && all_bytes visible token.
Definition check_ca_file (require_tls : bool) (ca_file : string) (parsed : url) : res unit :=
  if negb (String.eqb ca_file "") then
    if negb (String.eqb (scheme parsed) "https")
    then runtime_error "DEALHOST_RUNTIME_CONTROLLER_CA_FILE requires an HTTPS controller URL."
    else if negb (startswith "/" ca_file) || negb (is_file ca_file)
    then runtime_error "DEALHOST_RUNTIME_CONTROLLER_CA_FILE must reference an existing absolute file."
    else Ok tt
  else if require_tls then runtime_error "DEALHOST_RUNTIME_CONTROLLER_CA_FILE is required for the production controller."
  else Ok tt.
Definition runtime_controller_config (require_tls : bool) : res RuntimeControllerConfig :=
  raw_url ← stripped env "DEALHOST_RUNTIME_CONTROLLER_URL" "";
  let base_url := rstrip_char "/" raw_url in
  ca_file ← stripped env "DEALHOST_RUNTIME_CONTROLLER_CA_FILE" "";
  token ← secret "DEALHOST_RUNTIME_CONTROLLER_TOKEN" (Some "") true;
  raw_timeout ← get "DEALHOST_RUNTIME_CONTROLLER_TIMEOUT_SECONDS" (Some "15");
  match float_of_str raw_timeout with
  | None => runtime_error "DEALHOST_RUNTIME_CONTROLLER_TIMEOUT_SECONDS must be a number."
  | Some timeout =>
      if negb (num_ge (NFloat timeout) 1 && num_le (NFloat timeout) 60)
      then runtime_error "DEALHOST_RUNTIME_CONTROLLER_TIMEOUT_SECONDS must be between 1 and 60."
      else if String.eqb base_url ""
      then Ok {| base_url := ""; Client.token := ""; timeout_seconds := timeout; ca_file := "" |}
      else
        match (parsed ← urlsplit base_url; p ← port parsed; Ok (parsed, p)) with
        | Raise e => if is_value_error e then runtime_error "DEALHOST_RUNTIME_CONTROLLER_URL is not a valid URL." else Raise e
        | Ok (parsed, p) =>
            if negb (controller_url_ok base_url parsed p)
            then runtime_error "DEALHOST_RUNTIME_CONTROLLER_URL must be an HTTP(S) URL without credentials, query or fragment."
            else if require_tls && negb (String.eqb (scheme parsed) "https")
            then runtime_error "DEALHOST_RUNTIME_CONTROLLER_URL must use HTTPS in production."
            else
              _ ← check_ca_file require_tls ca_file parsed;
              if negb (controller_token_ok token)
              then runtime_error "DEALHOST_RUNTIME_CONTROLLER_TOKEN must contain 32-256 visible ASCII characters when the runtime controller URL is set."
              else Ok {| base_url := base_url; Client.token := token; timeout_seconds := timeout; ca_file := ca_file |}
        end
  end.

Definition database_config (base_dir : string) (require_postgres : bool) : res database :=
  raw_engine ← stripped env "DEALHOST_DATABASE_ENGINE" "sqlite";
  let engine := py_lower raw_engine in
  if String.eqb engine "sqlite" then
    if require_postgres then runtime_error "DEALHOST_DATABASE_ENGINE must be postgresql in production."
    else name ← get "DEALHOST_DB_PATH" (Some (base_dir ++ "/db.sqlite3")); Ok (Sqlite name)
  else if negb (mem engine ["postgres"; "postgresql"])
  then runtime_error "DEALHOST_DATABASE_ENGINE must be sqlite or postgresql."
  else
    raw_sslmode ← stripped env "DEALHOST_DATABASE_SSLMODE" "prefer";
    let sslmode := py_lower raw_sslmode in
    if require_postgres && negb (String.eqb sslmode "verify-full")
    then runtime_error "DEALHOST_DATABASE_SSLMODE must be verify-full in production."
    else
      sslrootcert ← stripped env "DEALHOST_DATABASE_SSLROOTCERT" "";
      _ ← (if String.eqb sslrootcert "" && require_postgres
           then runtime_error "DEALHOST_DATABASE_SSLROOTCERT is required in production." else Ok tt);
      name ← get "DEALHOST_DATABASE_NAME" (Some "dealhost");
      user ← get "DEALHOST_DATABASE_USER" (Some "dealhost");
      password ← secret "DEALHOST_DATABASE_PASSWORD" (Some "") (negb require_postgres);
      host ← get "DEALHOST_DATABASE_HOST" (Some "localhost");
      port ← get "DEALHOST_DATABASE_PORT" (Some "5432");
      raw_age ← get "DEALHOST_DATABASE_CONN_MAX_AGE" (Some "60");
      age ← int_env raw_age;
      Ok (Postgresql name user password host port age sslmode (if String.eqb sslrootcert "" then None else Some sslrootcert)).
End Groups.

(** ** The settings modules *)
Record oidc_settings := {
  introspection_url : string;
  issuer : string;
  audience : string;
  client_id : string;
  client_secret : string;
  read_groups : list string;
  admin_groups : list string;
  oidc_timeout : float64
}.
Record settings := {
  SECRET_KEY : string;
  ALLOWED_HOSTS : list string;
  CSRF_TRUSTED_ORIGINS : list string;
  (** [FORCE_SCRIPT_NAME], which base.py leaves unset. *)
  SCRIPT_NAME : option string;
  DATABASE : database;
  CACHE : string;
  API_TOKENS : list string;
  ADMIN_API_TOKENS : list string;
  OIDC : oidc_settings;
  GITHUB_SETTINGS : GitHubConfig;
  APISIX_SETTINGS : ApisixConfig;
  RUNTIME_CONTROLLER : RuntimeControllerConfig;
  RUNTIME_ENABLED : bool
}.

Section Modules.
Context (env : environ) (is_file : string -> bool) (base_dir : string) `{UnicodeData} `{NetlocRules}.
#[local] Notation get := (get_env env).
#[local] Notation secret := (get_secret_env env).
#[local] Notation csv := (get_csv_env env).

Definition read_oidc : res oidc_settings :=
  url ← stripped env "DEALHOST_OIDC_INTROSPECTION_URL" "";
  issuer ← stripped env "DEALHOST_OIDC_ISSUER" "";
  audience ← stripped env "DEALHOST_OIDC_AUDIENCE" "";
  client_id ← stripped env "DEALHOST_OIDC_CLIENT_ID" "";
  client_secret ← stripped env "DEALHOST_OIDC_CLIENT_SECRET" "";
  read_groups ← csv "DEALHOST_OIDC_READ_GROUPS" "";
  admin_groups ← csv "DEALHOST_OIDC_ADMIN_GROUPS" "";
  raw_timeout ← get "DEALHOST_OIDC_TIMEOUT_SECONDS" (Some "3");
  timeout ← float_env raw_timeout;
  Ok {| introspection_url := url; issuer := issuer; audience := audience; client_id := client_id;
        client_secret := client_secret; read_groups := read_groups; admin_groups := admin_groups; oidc_timeout := timeout |}.
Definition runtime_flag : res bool :=
  flag ← stripped env "DEALHOST_RUNTIME_ENABLED" "false"; Ok (String.eqb (py_lower flag) "true").

(** base.py, in the order it reads the environment. *)
Definition base_settings : res settings :=
  secret_key ← get "DJANGO_SECRET_KEY" (Some "replace-me");
  allowed_hosts ← csv "DJANGO_ALLOWED_HOSTS" "*";
  database ← database_config env base_dir false;
  cache ← cache_config env false;
  api_tokens ← csv "DEALHOST_API_TOKENS" "";
  admin_tokens ← csv "DEALHOST_ADMIN_API_TOKENS" "";
  oidc ← read_oidc;
  github ← github_config env false;
  apisix ← apisix_config env false;
  _ ← nats_config env;
  controller ← runtime_controller_config env is_file false;
  runtime_enabled ← runtime_flag;
  Ok {| SECRET_KEY := secret_key; ALLOWED_HOSTS := allowed_hosts; CSRF_TRUSTED_ORIGINS := []; SCRIPT_NAME := None;
        DATABASE := database; CACHE := cache; API_TOKENS := api_tokens; ADMIN_API_TOKENS := admin_tokens; OIDC := oidc;
        GITHUB_SETTINGS := github; APISIX_SETTINGS := apisix; RUNTIME_CONTROLLER := controller;
        RUNTIME_ENABLED := runtime_enabled |}.

Definition oidc_values (o : oidc_settings) : list string :=
  [introspection_url o; issuer o; audience o; client_id o; client_secret o].
Definition oidc_configured (o : oidc_settings) : bool :=
  existsb (fun value => negb (String.eqb value "")) (oidc_values o)
  || negb (bool_decide (read_groups o = []) && bool_decide (admin_groups o = [])).
(** The OIDC settings of production: all of them, or none. *)
Definition checked_oidc (o : oidc_settings) : res oidc_settings :=
  if negb (oidc_configured o) then Ok o
  else
    client_secret ← secret "DEALHOST_OIDC_CLIENT_SECRET" None false;
    let o := {| introspection_url := introspection_url o; issuer := issuer o; audience := audience o; client_id := client_id o;
                client_secret := client_secret; read_groups := read_groups o; admin_groups := admin_groups o;
                oidc_timeout := oidc_timeout o |} in
    if existsb (fun value => String.eqb value "") (oidc_values o)
       || (bool_decide (read_groups o = []) && bool_decide (admin_groups o = []))
    then runtime_error "Incomplete DEALHost OIDC configuration"
    else if negb (startswith "https://" (introspection_url o))
    then runtime_error "DEALHOST_OIDC_INTROSPECTION_URL must use HTTPS."
    else if negb (startswith "https://" (issuer o)) then runtime_error "DEALHOST_OIDC_ISSUER must use HTTPS."
    else Ok o.

(** prod.py. *)
Definition prod_settings : res settings :=
  base ← base_settings;
  database ← database_config env base_dir true;
  secret_key ← secret "DJANGO_SECRET_KEY" None false;
  allowed_hosts ← get_required_csv_env env "DJANGO_ALLOWED_HOSTS";
  if mem "*" allowed_hosts then runtime_error "DJANGO_ALLOWED_HOSTS must not contain '*' in production."
  else
    origins ← get_required_csv_env env "DJANGO_CSRF_TRUSTED_ORIGINS";
    if negb (forallb (startswith "https://") origins)
    then runtime_error "DJANGO_CSRF_TRUSTED_ORIGINS must contain only HTTPS origins."
    else
      script_name ← stripped env "DEALHOST_SCRIPT_NAME" "/dealhost";
      if negb (startswith "/" script_name) || endswith "/" script_name
      then runtime_error "DEALHOST_SCRIPT_NAME must start with '/' and have no trailing '/'."
      else
        github ← github_config env true;
        apisix ← apisix_config env true;
        controller ← runtime_controller_config env is_file true;
        cache ← cache_config env true;
        api_tokens ← get_secret_csv_env env "DEALHOST_API_TOKENS" "" false;
        admin_tokens ← get_secret_csv_env env "DEALHOST_ADMIN_API_TOKENS" "" false;
        raw_oidc ← read_oidc;
        oidc ← checked_oidc raw_oidc;
        if bool_decide (api_tokens = []) && bool_decide (admin_tokens = []) && negb (oidc_configured raw_oidc)
        then runtime_error "At least one static API token or a complete OIDC configuration is required in production."
        else Ok {| SECRET_KEY := secret_key; ALLOWED_HOSTS := allowed_hosts; CSRF_TRUSTED_ORIGINS := origins;
                   SCRIPT_NAME := Some script_name; DATABASE := database; CACHE := cache; API_TOKENS := api_tokens;
                   ADMIN_API_TOKENS := admin_tokens; OIDC := oidc; GITHUB_SETTINGS := github; APISIX_SETTINGS := apisix;
                   RUNTIME_CONTROLLER := controller; RUNTIME_ENABLED := RUNTIME_ENABLED base |}.

(** runtime_worker.py. *)
Definition worker_settings : res settings :=
  base ← base_settings;
  database ← database_config env base_dir true;
  secret_key ← secret "DJANGO_SECRET_KEY" None false;
  cache ← cache_config env true;
  runtime_enabled ← runtime_flag;
  if negb runtime_enabled then runtime_error "DEALHOST_RUNTIME_ENABLED must be true for the runtime worker."
  else
    controller ← runtime_controller_config env is_file true;
    if negb (configured controller) then runtime_error "The runtime worker requires an isolated runtime-controller URL and token."
    else Ok {| SECRET_KEY := secret_key; ALLOWED_HOSTS := []; CSRF_TRUSTED_ORIGINS := []; SCRIPT_NAME := SCRIPT_NAME base;
               DATABASE := database; CACHE := cache; API_TOKENS := API_TOKENS base; ADMIN_API_TOKENS := ADMIN_API_TOKENS base;
               OIDC := OIDC base; GITHUB_SETTINGS := GITHUB_SETTINGS base; APISIX_SETTINGS := APISIX_SETTINGS base;
               RUNTIME_CONTROLLER := controller; RUNTIME_ENABLED := runtime_enabled |}.
End Modules.

(** ** What the other parts of the host read *)
Definition prod_site (s : settings) (repositories modules : option (list (string * string))) : site := {|
  DEBUG := false; FORCE_SCRIPT_NAME := SCRIPT_NAME s; GITHUB := GITHUB_SETTINGS s; APISIX := APISIX_SETTINGS s;
  repository_files := repositories; module_files := modules |}.
Definition identity_settings (env : environ) (s : settings) : host_settings := {|
  DEALHOST_ADMIN_API_TOKENS := ADMIN_API_TOKENS s; DEALHOST_API_TOKENS := API_TOKENS s;
  DEALHOST_OIDC_INTROSPECTION_URL := introspection_url (OIDC s); DEALHOST_OIDC_ISSUER := issuer (OIDC s);
  DEALHOST_OIDC_AUDIENCE := audience (OIDC s); DEALHOST_OIDC_ADMIN_GROUPS := admin_groups (OIDC s);
  DEALHOST_OIDC_READ_GROUPS := read_groups (OIDC s); groups_claim := PNone;
  groups_claim_env := dget "DEALHOST_OIDC_GROUPS_CLAIM" env |}.
