(* ===== verification/PoliciesSpec.v ===== *)
(** Properties of the checks of rendered manifests: label selectors select what Kubernetes
    selects, dynamic routes reach the reviewed upstreams only, and the namespace of the managed
    applications is closed. *)

From S2P Require Import Prelude PyValue Regex PyFloat Json PyTime PyText Wire Url Ip Release Gateway GatewayViews GatewaySpec Client Identity HostEnv HostEnvSpec Render RenderSpec Policies.
#[local] Open Scope list_scope.
#[local] Open Scope string_scope.
#[local] Open Scope Z_scope.

(** ** Label selectors, as Kubernetes defines them *)
Inductive requirement :=
| InValues (key : string) (values : list string)
| NotInValues (key : string) (values : list string)
| HasKey (key : string)
| LacksKey (key : string).
Record label_selector := { match_labels : list (string * string); requirements : list requirement }.

Definition met (labels : list (string * string)) (r : requirement) : Prop :=
  match r with
  | InValues key values => exists v, dget key labels = Some v /\ v ∈ values
  | NotInValues key values => forall v, dget key labels = Some v -> v ∉ values
  | HasKey key => is_Some (dget key labels)
  | LacksKey key => dget key labels = None
  end.
Definition selects (labels : list (string * string)) (s : label_selector) : Prop :=
  (forall key value, (key, value) ∈ match_labels s -> dget key labels = Some value) /\
  forall r, r ∈ requirements s -> met labels r.

(** The document of a selector. *)
Definition expression_value (key operator : string) (rest : attrs) : pyval :=
  PDict (("key", PStr key) :: ("operator", PStr operator) :: rest).
Definition requirement_value (r : requirement) : pyval :=
  match r with
  | InValues key values => expression_value key "In" [("values", PList (map PStr values))]
  | NotInValues key values => expression_value key "NotIn" [("values", PList (map PStr values))]
  | HasKey key => expression_value key "Exists" []
  | LacksKey key => expression_value key "DoesNotExist" []
  end.
Definition selector_value (s : label_selector) : pyval :=
  PDict [("matchLabels", PDict (map (fun kv => (kv.1, PStr kv.2)) (match_labels s)));
         ("matchExpressions", PList (map requirement_value (requirements s)))].

Lemma label_value_is (labels : list (string * string)) (key value : string) :
  py_eqb (label_value labels key) (PStr value) = true <-> dget key labels = Some value.
Proof.
  unfold label_value. destruct (dget key labels) as [v|]; cbn; [|done]. rewrite String.eqb_eq. naive_solver.
Qed.
Lemma listed_is (labels : list (string * string)) (key : string) (values : list string) :
  existsb (py_eqb (label_value labels key)) (map PStr values) = true <-> exists v, dget key labels = Some v /\ v ∈ values.
Proof.
  rewrite existsb_exists. setoid_rewrite list_elem_of_In. split.
  - intros (x & (v & <- & Hv)%in_map_iff & E). exists v. by rewrite <- label_value_is.
  - intros (v & E & Hv). exists (PStr v). split; [by apply in_map|]. by apply label_value_is.
Qed.
(** One expression settles the matter exactly when its requirement is not met. *)
Lemma requirement_result (labels : list (string * string)) (r : requirement) :
  (met labels r /\ expression_result labels (requirement_value r) = None) \/
  (~ met labels r /\ expression_result labels (requirement_value r) = Some false).
Proof.
  destruct r as [key values|key values|key|key]; cbn -[py_eqb existsb]; unfold expression_result; cbn -[py_eqb existsb].
  - change (vget "key" _) with (PStr key). change (dget_or "values" _ _) with (PList (map PStr values)).
    change (vget "operator" _) with (PStr "In"). cbn -[py_eqb existsb].
    destruct (existsb _ (map PStr values)) eqn:E; cbn; [left|right].
    + split; [by apply listed_is|done].
    + split; [intros K%listed_is; by rewrite K in E|done].
  - change (vget "key" _) with (PStr key). change (dget_or "values" _ _) with (PList (map PStr values)).
    change (vget "operator" _) with (PStr "NotIn"). cbn -[py_eqb existsb].
    unfold has_key. destruct (dget key labels) as [v|] eqn:Ek; cbn [andb].
    + destruct (existsb _ (map PStr values)) eqn:E; cbn; [right|left]; (split; [|done]).
      * apply listed_is in E as (v' & [= <-]%(eq_trans (eq_sym Ek)) & Hv). intros K. by apply (K v).
      * intros w [= <-] Hv. assert (existsb (py_eqb (label_value labels key)) (map PStr values) = true) as K; [|by rewrite K in E].
        apply listed_is. eauto.
    + left. by split.
  - unfold has_key. destruct (dget key labels) as [v|]; cbn; [left|right]; (split; [|done]); [by eexists|by intros [? ?]].
  - unfold has_key. destruct (dget key labels) as [v|]; cbn; [right|left]; done.
Qed.

(** Label selectors mean what Kubernetes means.  For every well-formed selector and all
    labels, the check that decides which network policies govern the managed applications
    answers yes exactly when Kubernetes selects a pod with these labels: every label of
    [matchLabels] is there with its value, and every expression holds, [NotIn] also when the
    key is absent. *)
Theorem selectors_mean_kubernetes (s : label_selector) (labels : list (string * string)) :
  _label_selector_matches (selector_value s) labels = true <-> selects labels s.
Proof.
  unfold _label_selector_matches, selector_value, selects. cbn -[py_eqb].
  change (dget_or "matchLabels" _ _) with (PDict (map (fun kv => (kv.1, PStr kv.2)) (match_labels s))).
  change (dget_or "matchExpressions" _ _) with (PList (map requirement_value (requirements s))). cbn -[py_eqb].
  destruct (existsb _ _) eqn:E.
  - split; [done|]. intros [K _]. apply existsb_exists in E as (kv & (kv' & <- & Hin)%in_map_iff & E). destruct kv' as [k v].
    apply negb_true_iff in E. cbn -[py_eqb] in E. apply list_elem_of_In in Hin. apply K, label_value_is in Hin. by rewrite Hin in E.
  - assert (forall key value, (key, value) ∈ match_labels s -> dget key labels = Some value) as Hl.
    { intros k v Hin. apply label_value_is. destruct (py_eqb _ _) eqn:F; [done|]. apply not_true_iff_false in E. exfalso. apply E.
      apply existsb_exists. exists (k, PStr v). split; [|by cbn -[py_eqb]; rewrite F].
      apply in_map_iff. exists (k, v). split; [done|]. by apply list_elem_of_In. }
    transitivity (forall r, r ∈ requirements s -> met labels r); [|naive_solver]. clear E Hl.
    induction (requirements s) as [|r l IH]; cbn -[expression_result requirement_value met].
    + split; [by intros _ r ?%not_elem_of_nil|done].
    + destruct (requirement_result labels r) as [[Hm ->]|[Hm ->]].
      * rewrite IH. setoid_rewrite elem_of_cons. naive_solver.
      * split; [done|]. intros K. destruct Hm. apply K. by left.
Qed.

(** ** The allowlists of dynamic routes *)
Definition upstream_text (p : string * Z) : string := p.1 ++ ":" ++ py_str_int p.2.
Definition core_upstreams : list (string * Z) :=
  [("dealhost", 8000); ("dealiot", 8080); ("dealdata-core", 7000); ("dealdata-gps", 7001); ("dealdata-sensor", 7002)].
Definition UPSTREAMS : string := "APISIX_ROUTE_ALLOWED_UPSTREAMS".

Lemma rpartition_Some (c : ascii) (s a b : string) : rpartition c s = Some (a, b) -> s = (a ++ String c b)%string.
Proof.
  revert a b. induction s as [|x s IH]; intros a b; cbn; [done|]. destruct (rpartition c s) as [[u v]|].
  - intros [= <- <-]. cbn. by rewrite (IH u v).
  - destruct (Ascii.eqb_spec x c) as [->|]; [|done]. by intros [= <- <-].
Qed.
Lemma rpartition_at (c : ascii) (a b : string) : without c b -> rpartition c (a ++ String c b) = Some (a, b).
Proof.
  intros Hb. induction a as [|x a IH]; cbn; [|by rewrite IH]. by rewrite rpartition_none, Ascii.eqb_refl.
Qed.
Lemma digits_colon (s : string) : all_digits s = true -> without ":" s.
Proof.
  unfold without. induction s as [|a s IH]; [done|]. cbn [all_digits all_bytes]. rewrite !andb_true_iff. intros [Ha Hs].
  split; [|auto]. destruct (Ascii.eqb_spec a ":") as [->|]; [by cbv in Ha|done].
Qed.
Lemma str_nat_colon (n : Z) : 0 <= n -> without ":" (str_nat n).
Proof. intros Hn. by apply digits_colon, all_digits_str_nat. Qed.
(** A pair is known from its text. *)
Lemma upstream_text_inj (p q : string * Z) : 0 <= p.2 -> 0 <= q.2 -> upstream_text p = upstream_text q -> p = q.
Proof.
  destruct p as [h n], q as [k m]. unfold upstream_text, py_str_int. cbn. intros Hn Hm.
  rewrite !(proj2 (Z.ltb_ge _ _)) by done. intros E. apply (f_equal (rpartition ":")) in E.
  change (":" ++ str_nat n) with (String ":" (str_nat n)) in E. change (":" ++ str_nat m) with (String ":" (str_nat m)) in E.
  rewrite !rpartition_at in E by (by apply str_nat_colon). injection E as <- E.
  by rewrite <- (digits_value_str_nat n), <- (digits_value_str_nat m), E by done.
Qed.

Section Routes.
Context `{UnicodeData} `{CaseFold}.

Lemma canonical_port_Ok (message raw : string) (p : Z) :
  canonical_port message raw = Ok p -> raw = py_str_int p /\ 1 <= p <= 65535.
Proof.
  unfold canonical_port. destruct (_ || _); [done|]. intros (q & _ & E)%bind_Ok.
  destruct (_ || _) eqn:Hc; [done|]. injection E as ->. rewrite !orb_false_iff, negb_false_iff in Hc.
  destruct Hc as ((->%String.eqb_eq & Hlo%Z.ltb_ge) & Hhi%Z.ltb_ge). split; [done|lia].
Qed.
Lemma exact_upstream_Ok (hosts suffixes : list string) (ports : list Z) (l l' : list (string * Z)) (t : string) :
  exact_upstream hosts suffixes ports l t = Ok l' ->
  exists p, t = upstream_text p /\ 1 <= p.2 <= 65535 /\ p ∉ l /\ l' = (l ++ [p])%list.
Proof.
  unfold exact_upstream. destruct (rpartition ":" t) as [[host raw]|] eqn:Er; [|done]. apply rpartition_Some in Er.
  destruct (negb _); [done|]. intros (port & (-> & Hp)%canonical_port_Ok & E)%bind_Ok.
  destruct (_ || _); [done|]. destruct (_is_runtime_upstream_host host); [done|].
  case_bool_decide as Hin; [done|]. injection E as <-. by exists (host, port).
Qed.
Lemma exact_upstreams_Ok (hosts suffixes : list string) (ports : list Z) (texts : list string) (l l' : list (string * Z)) :
  foldM_res (exact_upstream hosts suffixes ports) l texts = Ok l' ->
  exists new, l' = (l ++ new)%list /\ map upstream_text new = texts /\ (forall p, p ∈ new -> 1 <= p.2 <= 65535) /\
    (NoDup l -> NoDup l').
Proof.
  revert l. induction texts as [|t texts IH]; intros l E; cbn [foldM_res] in E.
  - injection E as <-. exists []. rewrite app_nil_r. split; [done|]. split; [done|]. split; [by intros p ?%not_elem_of_nil|done].
  - apply bind_Ok in E as (l1 & (p & -> & Hp & Hn & ->)%exact_upstream_Ok & E).
    apply IH in E as (new & -> & <- & Hb & Hd). exists (p :: new). rewrite <- app_assoc. split; [done|]. split; [done|].
    split; [intros q [->|Hq]%elem_of_cons; [done|by apply Hb]|].
    intros Hl. rewrite app_assoc. apply Hd. apply NoDup_app. split; [done|]. split; [|apply NoDup_singleton].
    intros x Hx ->%list_elem_of_singleton. done.
Qed.

Lemma config_csv_items (rc : attrs) (key : string) (items : list string) :
  _config_csv rc key = Ok items -> items <> [] ->
  exists raw, dget_or key (PStr "") rc = PStr raw /\ items = csv_items raw.
Proof.
  unfold _config_csv. destruct (dget_or key (PStr "") rc) as [| | | |raw| |]; try done.
  destruct (String.eqb _ ""); [by intros [= <-]|]. destruct (existsb _ _) eqn:E; [done|]. intros [= <-] _.
  exists raw. split; [done|]. unfold csv_items. rewrite <- not_true_iff_false, existsb_exists in E.
  revert E. induction (map py_strip _) as [|x l IH]; cbn; [done|]. intros K.
  destruct (String.eqb x "") eqn:Ex; cbn; [destruct K; exists x; auto|]. f_equal. apply IH. intros (y & Hy & Ey). apply K. eauto.
Qed.
(** What the checks of the allowlists leave. *)
Lemma route_allowlists_Ok (rc : attrs) (pairs : list (string * Z)) :
  route_allowlists rc = Ok pairs ->
  NoDup pairs /\ (forall p, p ∈ pairs -> 1 <= p.2 <= 65535) /\
  exists raw, dget UPSTREAMS rc = Some (PStr raw) /\ csv_items raw = map upstream_text pairs.
Proof.
  unfold route_allowlists. intros (hosts & _ & (raws & _ & (ports & _ & (ups & Hu & E)%bind_Ok)%bind_Ok)%bind_Ok)%bind_Ok.
  destruct (_ || _ || _) eqn:En; [done|]. destruct (negb _); [done|]. destruct (negb _); [done|].
  destruct (existsb _ hosts || _); [done|]. apply bind_Ok in E as (parsed & _ & E). destruct (negb _); [done|].
  apply orb_false_iff in En as (_ & Hne%bool_decide_eq_false).
  apply exact_upstreams_Ok in E as (new & -> & Ht & Hb & Hd). cbn. split; [apply Hd, NoDup_nil_2|]. split; [done|].
  destruct (config_csv_items _ _ _ Hu Hne) as (raw & Hraw & Hi). exists raw. unfold dget_or in Hraw.
  destruct (dget _ rc) as [v|] eqn:Ev; [|by injection Hraw as <-; rewrite Hi in Hne]. subst v. by rewrite Ht, <- Hi.
Qed.

(** *** The routes of the bootstrap *)
Lemma check_headers_unit (host : string) (policy : pyval) (u : unit) : check_headers host policy = Ok u -> u = tt.
Proof. by destruct u. Qed.
(** A checked route is one of the reviewed ones and goes to its reviewed upstream. *)
Lemma check_route_Ok (route : pyval) (l : list (string * Z)) :
  check_route route = Ok l ->
  exists d id p, route = PDict d /\ vget "id" d = PStr id /\ dget id EXPECTED_APISIX_BOOTSTRAP_UPSTREAMS = Some p /\
    l = if String.eqb id "archideal-interface" then [] else [p].
Proof.
  unfold check_route. destruct (route_parts route) as [[[rid nodes] policy]|] eqn:Ep; [|done].
  assert (exists d, route = PDict d /\ dget "id" d = Some rid) as (d & -> & Hid).
  { unfold route_parts in Ep. apply bind_Ok in Ep as (x & Hx & Ep). destruct route; try done. cbn in Hx.
    destruct (dget "id" d) as [y|] eqn:Ey; [|done]. injection Hx as ->. exists d. split; [done|].
    apply bind_Ok in Ep as (u1 & _ & Ep). apply bind_Ok in Ep as (u2 & _ & Ep). apply bind_Ok in Ep as (u3 & _ & Ep).
    apply bind_Ok in Ep as (u4 & _ & Ep). apply bind_Ok in Ep as (u5 & _ & Ep). by injection Ep as ->. }
  destruct nodes as [| | | | | |[|[node weight] [|]]]; try done. destruct (negb (is_dict policy)); [done|].
  destruct (rpartition ":" node) as [[host raw]|]; [|done]. destruct (negb (py_isdigit raw)); [done|].
  destruct (py_int raw) as [port|]; [|done]. destruct rid as [| | | |id| |]; try done.
  case_bool_decide as Hp; [|done]. cbn [negb]. intros (u & _ & [= <-])%bind_Ok.
  exists d, id, (host, port). split; [done|]. split; [unfold vget, dget_or; by rewrite Hid|]. split; [done|].
  by destruct (String.eqb id _).
Qed.
Lemma reviewed_upstream (id : string) (p : string * Z) :
  dget id EXPECTED_APISIX_BOOTSTRAP_UPSTREAMS = Some p -> id <> "archideal-interface" -> p ∈ core_upstreams.
Proof.
  intros Hp%dget_Some_In Hne. apply list_elem_of_In in Hp. apply list_elem_of_In. cbn in Hp |- *.
  destruct Hp as [E|[E|[E|[E|[E|[E|[]]]]]]]; injection E as <- <-; tauto.
Qed.
Lemma core_upstream_id (p : string * Z) :
  p ∈ core_upstreams -> exists id, id ∈ keys EXPECTED_APISIX_BOOTSTRAP_UPSTREAMS /\ id <> "archideal-interface" /\
    dget id EXPECTED_APISIX_BOOTSTRAP_UPSTREAMS = Some p.
Proof.
  intros Hp. apply list_elem_of_In in Hp. cbn in Hp.
  destruct Hp as [<-|[<-|[<-|[<-|[<-|[]]]]]];
    [exists "archideal-dealhost"|exists "archideal-dealiot"|exists "archideal-dealdata-core"|exists "archideal-dealdata-gps"
    |exists "archideal-dealdata-sensor"]; (split; [apply mem_In; reflexivity|done]).
Qed.
Lemma bootstrap_routes_Ok (docs : list attrs) (routes : list pyval) :
  bootstrap_routes docs = Ok routes ->
  forall id, id ∈ keys EXPECTED_APISIX_BOOTSTRAP_UPSTREAMS -> exists d, PDict d ∈ routes /\ vget "id" d = PStr id.
Proof.
  unfold bootstrap_routes. intros (config & _ & E)%bind_Ok. destruct (decoded_routes config) as [v|[]]; try done.
  destruct v as [| | | | |l|]; try done. destruct (_ || _) eqn:Hc; [done|]. injection E as ->.
  rewrite !orb_false_iff, !negb_false_iff in Hc. destruct Hc as (_ & Hs). intros id Hid. apply (proj1 (set_eqb_spec _ _) Hs id) in Hid.
  unfold texts in Hid. apply list_elem_of_omap in Hid as (v & Hv & Hid). apply list_elem_of_fmap in Hv as (route & -> & Hr).
  destruct route as [| | | | | |d]; try done. exists d. split; [done|]. by destruct (vget "id" d) as [| | | |s| |]; try done; injection Hid as ->.
Qed.
(** The upstreams of the bootstrap, the interface aside, are the reviewed ones. *)
Lemma bootstrap_pairs_core (docs : list attrs) (routes : list pyval) (pairs : list (list (string * Z))) :
  bootstrap_routes docs = Ok routes -> mapM_res check_route routes = Ok pairs ->
  forall p, p ∈ List.concat pairs <-> p ∈ core_upstreams.
Proof.
  intros Hr Hc%mapM_res_Ok p. rewrite list_elem_of_In, in_concat. split.
  - intros (l & Hl & Hp). apply list_elem_of_In, list_elem_of_lookup_1 in Hl as (i & Hi).
    destruct (Forall2_lookup_r _ _ _ _ _ Hc Hi) as (route & _ & Ec).
    apply check_route_Ok in Ec as (d & id & q & _ & _ & Hq & ->). destruct (String.eqb_spec id "archideal-interface") as [|Hne]; [done|].
    destruct Hp as [<-|[]]. by eapply reviewed_upstream.
  - intros (id & Hid & Hne & Hq)%core_upstream_id. destruct (bootstrap_routes_Ok _ _ Hr id Hid) as (d & Hd & Hv).
    apply list_elem_of_lookup_1 in Hd as (i & Hi). destruct (Forall2_lookup_l _ _ _ _ _ Hc Hi) as (l & Hl & Ec).
    apply check_route_Ok in Ec as (d' & id' & q & [= <-] & Hv' & Hq' & ->). rewrite Hv in Hv'. injection Hv' as <-.
    rewrite Hq in Hq'. injection Hq' as <-. exists [p]. split; [|by left].
    apply list_elem_of_In. apply list_elem_of_lookup_2 in Hl. by destruct (String.eqb_spec id "archideal-interface").
Qed.

(** *** Services and network policies *)
(** A Service of the documents is named [host] and has [port]; the egress policy of the gateway
    opens [port] of the pods the Service selects. *)
Definition deployed (docs : list attrs) (p : string * Z) : Prop :=
  exists d pod selector ports listed entry number pairs opened,
    d ∈ docs /\ kind_is "Service" d = true /\ meta "name" d = Ok (PStr p.1) /\
    attr_get_or "ports" (PList []) (dget_or "spec" (PDict []) d) = Ok ports /\ iterate ports = Ok listed /\
    entry ∈ listed /\ attr_get_or "port" PNone entry = Ok number /\ number_is p.2 number = true /\
    attr_get_or "selector" (PDict []) (dget_or "spec" (PDict []) d) = Ok selector /\
    attr_get_or "app.kubernetes.io/name" PNone selector = Ok (PStr pod) /\
    network_pairs docs = Ok pairs /\ (pod, opened) ∈ pairs /\ number_is p.2 opened = true.

Lemma eq_str_true (v : pyval) (s : string) : eq_str v s = true -> v = PStr s.
Proof. destruct v as [| | | |t| |]; try done. by intros ->%String.eqb_eq. Qed.
Lemma find_service_Some (host : string) (l : list (pyval * attrs)) (d : attrs) :
  find_service host l = Some d -> (PStr host, d) ∈ l.
Proof.
  unfold find_service. intros (s & (Hs & E)%List.find_some & ->)%fmap_Some_1.
  apply List.in_rev, list_elem_of_In in Hs. apply eq_str_true in E. destruct s as [n e]. cbn in E |- *. by subst n.
Qed.
Lemma services_Ok (docs : list attrs) (l : list (pyval * attrs)) (n : pyval) (d : attrs) :
  services docs = Ok l -> (n, d) ∈ l -> d ∈ docs /\ kind_is "Service" d = true /\ meta "name" d = Ok n.
Proof.
  unfold services. intros Hl%mapM_res_Ok (i & Hi)%list_elem_of_lookup_1.
  destruct (Forall2_lookup_r _ _ _ _ _ Hl Hi) as (e & He & E). apply bind_Ok in E as (m & Hm & E).
  destruct (is_hashable m); [|done]. injection E as -> ->. apply list_elem_of_lookup_2, list_elem_of_In, filter_In in He.
  rewrite list_elem_of_In. by destruct He.
Qed.
Lemma check_service_Ok (docs : list attrs) (l : list (pyval * attrs)) (pairs : list (string * pyval)) (p : string * Z) (u : unit) :
  services docs = Ok l -> network_pairs docs = Ok pairs -> check_service l pairs p = Ok u -> deployed docs p.
Proof.
  intros Hl Hn. destruct p as [host port]. unfold check_service. destruct (find_service host l) as [d|] eqn:Ef; [|done].
  apply find_service_Some in Ef. destruct (services_Ok docs l (PStr host) d Hl Ef) as (Hd & Hk & Hm).
  intros (ports & Hp & E)%bind_Ok. apply bind_Ok in E as (listed & Hi & E). apply bind_Ok in E as (numbers & Hs & E).
  apply bind_Ok in E as (? & _ & E). apply bind_Ok in E as (selector & Hsel & E). apply bind_Ok in E as (pod & Hpod & E).
  destruct (_ || _) eqn:Hc; [done|]. apply orb_false_iff in Hc as (H1%negb_false_iff & H2%negb_false_iff).
  apply existsb_exists in H1 as (number & Hin & Hnum). apply existsb_exists in H2 as ([name opened] & Ho & (He%eq_str_true & Hop)%andb_true_iff).
  apply mapM_res_Ok in Hs. apply list_elem_of_In, list_elem_of_lookup_1 in Hin as (i & Hin).
  destruct (Forall2_lookup_r _ _ _ _ _ Hs Hin) as (entry & Hentry & Heq). apply list_elem_of_lookup_2 in Hentry. cbn in He, Hop. subst pod.
  exists d, name, selector, ports, listed, entry, number, pairs, opened. apply list_elem_of_In in Ho. naive_solver.
Qed.
Lemma forallb_in (a b : list (string * Z)) : forallb (fun p => bool_decide (p ∈ b)) a = true <-> a ⊆ b.
Proof.
  rewrite forallb_forall. split.
  - intros K x Hx. by apply list_elem_of_In, K, bool_decide_eq_true in Hx.
  - intros K x Hx. apply bool_decide_eq_true, K. by apply list_elem_of_In.
Qed.

(** What a checked policy allows: the reviewed upstreams, each of them once. *)
Lemma route_policy_pairs (rc : attrs) (docs : list attrs) :
  validate_apisix_route_policy rc docs = Ok tt ->
  exists raw pairs, dget UPSTREAMS rc = Some (PStr raw) /\ csv_items raw = map upstream_text pairs /\ pairs ≡ₚ core_upstreams /\ forall p, p ∈ pairs -> deployed docs p.
Proof.
  unfold validate_apisix_route_policy. intros (pairs & (Hnd & _ & raw & Hraw & Hcsv)%route_allowlists_Ok & E)%bind_Ok.
  apply bind_Ok in E as (routes & Hr & E). apply bind_Ok in E as (bs & Hb & E). pose proof (bootstrap_pairs_core docs routes bs Hr Hb) as Hcore.
  destruct (negb _) eqn:Hsame; [done|]. apply negb_false_iff, andb_true_iff in Hsame as (H1%forallb_in & H2%forallb_in).
  apply bind_Ok in E as (svc & Hsvc & E). apply bind_Ok in E as (net & Hnet & E).
  exists raw, pairs. split; [done|]. split; [done|]. split.
  - apply NoDup_Permutation; [done|by apply (bool_decide_unpack (NoDup core_upstreams)); vm_compute|].
    intros p. rewrite <- Hcore. split; [apply H1|apply H2].
  - intros p Hp. apply (check_service_Ok docs svc net p tt Hsvc Hnet). by apply (proj1 (each_Ok _ _) E).
Qed.

(** The gateway's allowlist is exactly the reviewed core.  When the route policy of a
    deployment is accepted, its exact allowlist of upstreams consists of the five reviewed core upstreams,
    each once and in its canonical text; each of them is the name and a port of a deployed
    Service, and the egress policy of the gateway opens that port of the pods the Service selects. *)
Theorem route_policy_is_core (rc : attrs) (docs : list attrs) :
  validate_apisix_route_policy rc docs = Ok tt ->
  (exists raw, dget UPSTREAMS rc = Some (PStr raw) /\ csv_items raw ≡ₚ map upstream_text core_upstreams) /\
  forall p, p ∈ core_upstreams -> deployed docs p.
Proof.
  intros (raw & pairs & Hraw & Hcsv & Hp & Hd)%route_policy_pairs. split.
  - exists raw. split; [done|]. by rewrite Hcsv, Hp.
  - intros p Hin. apply Hd. by rewrite Hp.
Qed.
End Routes.

(** ** From the reviewed deployment to the requests the host sends *)
Lemma apisix_config_upstreams `{UnicodeData} (env : environ) (require_secrets : bool) (c : ApisixConfig) :
  apisix_config env require_secrets = Ok c ->
  route_allowed_upstreams c = csv_items (default "" (dget UPSTREAMS env)).
Proof.
  unfold apisix_config. intros E. do 8 (apply bind_Ok in E as (? & _ & E)).
  apply bind_Ok in E as (upstreams & K & E). apply bind_Ok in E as (? & _ & E). injection E as <-. cbn.
  unfold get_csv_env, get_env in K. apply bind_Ok in K as (v & Hv & K). injection K as <-.
  change "APISIX_ROUTE_ALLOWED_UPSTREAMS" with UPSTREAMS in Hv. by destruct (dget UPSTREAMS env); injection Hv as <-.
Qed.
Lemma prod_apisix `{UnicodeData} `{NetlocRules} (env : environ) (is_file : string -> bool) (base_dir : string) (cfg : settings) :
  prod_settings env is_file base_dir = Ok cfg -> apisix_config env true = Ok (APISIX_SETTINGS cfg).
Proof.
  unfold prod_settings. intros E. do 4 (apply bind_Ok in E as (? & _ & E)). destruct (mem "*" _); [done|].
  apply bind_Ok in E as (? & _ & E). destruct (negb _); [done|]. apply bind_Ok in E as (? & _ & E). destruct (_ || _); [done|].
  apply bind_Ok in E as (? & _ & E). apply bind_Ok in E as (apisix & K & E). do 6 (apply bind_Ok in E as (? & _ & E)).
  destruct (_ && _); [done|]. by injection E as <-.
Qed.

(** C12: the deployment sends routes to the reviewed core only.  When the rendered manifests
    pass the route policy and a host is started in production with the allowlist of the
    checked configuration in its environment, then whatever an operator's request or a webhook
    asks for, every request the host sends to APISIX is the route of one of the five reviewed
    core upstreams, which is deployed and opened to the gateway. *)
Theorem deployed_host_reaches_core `{UnicodeData} `{CaseFold} `{NetlocRules} `{SlugRules}
    (rc : attrs) (docs : list attrs) (env : environ) (is_file : string -> bool) (base_dir : string) (cfg : settings)
    (repositories modules : option (list (string * string))) (admin : put -> res (Z * string)) (bus : string -> attrs -> res unit)
    (gettext : string -> string) (exception_text : pyexn -> string) (parse : string -> res pyval) (w w' : world) (r : res response) :
  let s := prod_site cfg repositories modules in
  validate_apisix_route_policy rc docs = Ok tt ->
  dget UPSTREAMS rc = PStr <$> dget UPSTREAMS env ->
  prod_settings env is_file base_dir = Ok cfg ->
  (exists data if_match, publish_post s admin bus gettext exception_text data if_match w = (r, w')) \/
  (exists rq, webhook_post s admin bus gettext exception_text parse rq w = (r, w')) ->
  exists l, puts (gw w') = (puts (gw w) ++ l)%list /\
  forall p, p ∈ l -> exists a slug path host port,
    new_apisix s = Ok a /\ p = put_of s a slug path host port /\
    (host, port) ∈ core_upstreams /\ deployed docs (host, port).
Proof.
  intros s (raw & pairs & Hraw & Hcsv & Hperm & Hdep)%route_policy_pairs Henv Hcfg (l & Hl & Hs)%requests_sent_safely.
  exists l. split; [done|]. intros p Hp. destruct (proj1 (Forall_forall _ _) Hs p Hp) as (a & Ha & slug & path & host & port & Hput & Hsafe).
  exists a, slug, path, host, port. split; [done|]. split; [done|].
  assert ((host, port) ∈ pairs) as Hin.
  { pose proof (route_allowed _ _ _ _ _ _ _ Hsafe eq_refl) as Hal. unfold new_apisix in Ha.
    do 4 (apply bind_Ok in Ha as (? & _ & Ha)). injection Ha as <-. cbn in Hal.
    rewrite (apisix_config_upstreams env true) in Hal by (by eapply prod_apisix).
    rewrite Hraw in Henv. destruct (dget UPSTREAMS env) as [t|]; [|done]. injection Henv as <-. cbn -[csv_items] in Hal. rewrite Hcsv in Hal.
    apply list_elem_of_fmap in Hal as (q & Hq & Hin). pose proof (route_port _ _ _ _ _ _ _ Hsafe).
    assert (0 <= q.2) by (rewrite Hperm in Hin; apply list_elem_of_In in Hin; cbn in Hin; naive_solver lia).
    by rewrite (upstream_text_inj (host, port) q) by (done || cbn; lia). }
  split; [by rewrite <- Hperm|by apply Hdep].
Qed.

(** ** The namespace of the managed applications *)
Lemma eqb_str (v : pyval) (s : string) : py_eqb v (PStr s) = true -> v = PStr s.
Proof. destruct v as [| | | |t| |]; cbn; try done. by intros ->%String.eqb_eq. Qed.
Lemma eqb_none (v : pyval) : py_eqb v PNone = true -> v = PNone.
Proof. by destruct v as [| | | | | |]. Qed.
Lemma eqb_dict_in (d e : attrs) (k : string) (v : pyval) :
  py_eqb (PDict d) (PDict e) = true -> (k, v) ∈ d -> exists w, dget k e = Some w /\ py_eqb v w = true.
Proof.
  cbn. intros (_ & K)%andb_true_iff. induction d as [|[k' v'] d IH]; [by intros ?%not_elem_of_nil|].
  apply andb_true_iff in K as (Kv & Kd). intros [[= -> ->]|Hin]%elem_of_cons; [|by apply IH].
  destruct (dget k' e) as [w|]; [by exists w|done].
Qed.
(** Equal mappings have the same keys, and equal values under them. *)
Lemma eqb_dict_get (d e : attrs) (k : string) (w : pyval) :
  NoDup (keys d) -> py_eqb (PDict d) (PDict e) = true -> dget k e = Some w ->
  exists v, dget k d = Some v /\ py_eqb v w = true.
Proof.
  intros Hn K Hk.
  assert (length d = length e) as Hlen by (cbn in K; apply andb_true_iff in K as (E & _); by apply Nat.eqb_eq).
  assert (keys d ≡ₚ keys e) as Hp.
  { apply submseteq_length_Permutation; [|unfold keys; rewrite !length_fmap; lia]. apply NoDup_submseteq; [done|].
    intros x ([x' v] & -> & Hin)%list_elem_of_fmap. destruct (eqb_dict_in d e x' v K Hin) as (u & Hu & _).
    apply list_elem_of_fmap. exists (x', u). split; [done|]. by apply dget_Some_In. }
  assert (k ∈ keys d) as Hin by (rewrite Hp; apply list_elem_of_fmap; exists (k, w); split; [done|by apply dget_Some_In]).
  destruct (dget k d) as [v|] eqn:Ev; [|by apply dget_None in Ev]. exists v. split; [done|].
  destruct (eqb_dict_in d e k v K (dget_Some_In _ _ _ Ev)) as (u & Hu & E). by rewrite Hk in Hu; injection Hu as ->.
Qed.
Definition plain (v : pyval) : bool := match v with PNone | PStr _ => true | _ => false end.
Lemma same_row_eq (row e : list pyval) : e ∈ expected_runtime_inventory -> same_row row e = true -> row = e.
Proof.
  intros He. assert (forallb plain e = true) as K.
  { assert (forallb (forallb plain) expected_runtime_inventory = true) as K by done. rewrite forallb_forall in K.
    by apply K, list_elem_of_In. }
  clear He. unfold same_row. revert e K. induction row as [|x row IH]; intros [|y e] K E; try done. cbn in K, E.
  apply andb_true_iff in K as (Ky & K). apply andb_true_iff in E as (Ex & E). rewrite (IH e K E). f_equal.
  destruct y; try done; [by apply eqb_none|by apply eqb_str].
Qed.
Lemma check_inventory_Ok (docs : list attrs) :
  check_inventory docs = Ok tt -> exists rows, mapM_res inventory docs = Ok rows /\ rows ≡ₚ expected_runtime_inventory.
Proof.
  unfold check_inventory. intros (rows & Hr & E)%bind_Ok. apply bind_Ok in E as (u & _ & E). exists rows. split; [done|].
  destruct (_ || _ || _) eqn:Hc; [done|].
  apply orb_false_iff in Hc as ((Hlen%negb_false_iff%Nat.eqb_eq & Hrows%negb_false_iff)%orb_false_iff & Hall%negb_false_iff).
  rewrite forallb_forall in Hrows, Hall. symmetry. apply submseteq_length_Permutation; [|lia].
  apply NoDup_submseteq; [by apply (bool_decide_unpack (NoDup expected_runtime_inventory)); vm_compute|].
  intros e He%list_elem_of_In. destruct (proj1 (existsb_exists _ _) (Hall e He)) as (row & Hrow & Es).
  destruct (proj1 (existsb_exists _ _) (Hrows row Hrow)) as (e' & He'%list_elem_of_In & Es').
  apply same_row_eq in Es' as ->; [|done]. apply same_row_eq in Es as ->; [|done]. by apply list_elem_of_In.
Qed.

Lemma filter_res_in {A} (f : A -> res bool) (l k : list A) :
  filter_res f l = Ok k -> forall x, x ∈ k <-> x ∈ l /\ f x = Ok true.
Proof.
  revert k. induction l as [|y l IH]; intros k E x; cbn in E.
  - injection E as <-. rewrite !elem_of_nil. naive_solver.
  - apply bind_Ok in E as (b & Hb & E). apply bind_Ok in E as (r & Hr & E). injection E as <-.
    specialize (IH r Hr x). destruct b; rewrite ?elem_of_cons, IH.
    + split; [intros [->|[? ?]]; auto|intros [[->|?] ?]; auto].
    + split; [intros [? ?]; auto|]. intros [[->|?] E]; [by rewrite Hb in E|done].
Qed.
Lemma take_out_in (d : attrs) (l l' : list attrs) :
  take_out d l = Some l' -> forall x, x ∈ l -> same x d = true \/ x ∈ l'.
Proof.
  revert l'. induction l as [|y l IH]; intros l' E x; cbn -[same] in E; [by intros ?%not_elem_of_nil|].
  destruct (same y d) eqn:Es.
  - injection E as <-. intros [->|Hx]%elem_of_cons; [by left|by right].
  - destruct (take_out d l) as [r|]; [|done]. cbn in E. injection E as <-.
    intros [->|Hx]%elem_of_cons; [right; by left|]. destruct (IH r eq_refl x Hx); [by left|right; by right].
Qed.
(** Every document scoped to the namespace is a reviewed one. *)
Lemma check_matched_Ok (reviewed scoped : list attrs) (u : unit) :
  check_matched reviewed scoped = Ok u -> forall d, d ∈ scoped -> exists x, x ∈ reviewed /\ same d x = true.
Proof.
  unfold check_matched. intros (rest & E & Hnil)%bind_Ok. case_bool_decide as Hr; [|done]. subst rest. clear Hnil. revert scoped E.
  induction reviewed as [|x reviewed IH]; intros scoped E d Hd; cbn in E; [injection E as ->; by apply not_elem_of_nil in Hd|].
  apply bind_Ok in E as (l & El & E). destruct (take_out x scoped) as [l'|] eqn:Et; [|done]. injection El as <-.
  destruct (take_out_in x scoped l' Et d Hd) as [Hs|Hin]; [exists x; split; [by left|done]|].
  destruct (IH l' E d Hin) as (y & Hy & Hs). exists y. split; [by right|done].
Qed.

(** A mapping has unique keys, and so has its metadata ([UniqueKeyLoader] refuses others). *)
Definition mapping (d : attrs) : Prop :=
  NoDup (keys d) /\ forall m, dget "metadata" d = Some (PDict m) -> NoDup (keys m).
Lemma vget_str (k s : string) (d : attrs) : vget k d = PStr s -> dget k d = Some (PStr s).
Proof. unfold vget, dget_or. destruct (dget k d); [by intros ->|done]. Qed.
Lemma same_text (d x : attrs) (k s : string) :
  NoDup (keys d) -> same d x = true -> vget k x = PStr s -> vget k d = PStr s.
Proof.
  intros Hn K Hk%vget_str. destruct (eqb_dict_get d x k _ Hn K Hk) as (v & Hv & ->%eqb_str). unfold vget, dget_or. by rewrite Hv.
Qed.
Lemma meta_str (k s : string) (d : attrs) :
  meta k d = Ok (PStr s) -> exists m, dget "metadata" d = Some (PDict m) /\ vget k m = PStr s.
Proof.
  unfold meta, dget_or. destruct (dget "metadata" d) as [v|]; [|done]. destruct v as [| | | | | |m]; try done.
  cbn. intros [= E]. exists m. by split.
Qed.
Lemma same_meta (d x : attrs) (k s : string) :
  mapping d -> same d x = true -> meta k x = Ok (PStr s) -> meta k d = Ok (PStr s).
Proof.
  intros (Hn & Hm) K (m & Hx & Hs)%meta_str. destruct (eqb_dict_get d x _ _ Hn K Hx) as (v & Hv & E).
  destruct v as [| | | | | |m']; try done. unfold meta, dget_or. rewrite Hv. cbn. f_equal. apply (same_text m' m); [by apply Hm|done|done].
Qed.
Definition scoped_kinds : list string :=
  ["NetworkPolicy"; "Role"; "RoleBinding"; "ExternalSecret"; "ResourceQuota"; "LimitRange"; "ServiceAccount"].
Lemma scoped_row (row : list pyval) :
  row ∈ expected_runtime_inventory -> nth 3 row PNone = PStr RUNTIME_APPS_NAMESPACE ->
  exists api kind name, row = [PStr api; PStr kind; PStr name; PStr RUNTIME_APPS_NAMESPACE] /\ kind ∈ scoped_kinds.
Proof.
  intros Hr%list_elem_of_In. cbn in Hr. setoid_rewrite <- mem_In.
  destruct Hr as [<-|[<-|[<-|[<-|[<-|[<-|[<-|[<-|[<-|[<-|[]]]]]]]]]]]; try done; intros _; by do 3 eexists.
Qed.
Lemma inventory_Ok (d : attrs) (api kind name : string) :
  inventory d = Ok [PStr api; PStr kind; PStr name; PStr RUNTIME_APPS_NAMESPACE] <->
  vget "apiVersion" d = PStr api /\ vget "kind" d = PStr kind /\ meta "name" d = Ok (PStr name) /\
  meta "namespace" d = Ok (PStr RUNTIME_APPS_NAMESPACE).
Proof.
  unfold inventory. split.
  - intros (n & Hn & E)%bind_Ok. apply bind_Ok in E as (ns & Hns & E). injection E as -> -> -> ->. done.
  - intros (-> & -> & -> & ->). done.
Qed.
Lemma in_runtime_apps_true (d : attrs) :
  in_runtime_apps d = Ok true <-> meta "namespace" d = Ok (PStr RUNTIME_APPS_NAMESPACE).
Proof.
  unfold in_runtime_apps. split; [|by intros ->]. intros (n & -> & E)%bind_Ok. injection E as E. by apply eq_str_true in E as ->.
Qed.
Lemma reviewed_inventory (docs : list attrs) (rows : list (list pyval)) (d : attrs) :
  mapM_res inventory docs = Ok rows -> rows ≡ₚ expected_runtime_inventory -> d ∈ docs ->
  exists row, inventory d = Ok row /\ row ∈ expected_runtime_inventory.
Proof.
  intros Hr%mapM_res_Ok Hp (i & Hi)%list_elem_of_lookup_1. destruct (Forall2_lookup_l _ _ _ _ _ Hr Hi) as (row & Hrow & E).
  exists row. split; [done|]. rewrite <- Hp. by apply list_elem_of_lookup_2 in Hrow.
Qed.

(** *** The two policies *)
Definition reviewed_policy (d : attrs) : Prop :=
  (meta "name" d = Ok (PStr "runtime-apps-default-deny") /\ py_eqb (vget "spec" d) expected_default_deny = true) \/
  (meta "name" d = Ok (PStr "runtime-apps-allow-dns-egress") /\ py_eqb (vget "spec" d) expected_dns_only = true).
Lemma check_policies_Ok (policies : list attrs) (u : unit) :
  check_policies policies = Ok u ->
  exists p q a b, policies = [p; q] /\ meta "name" p = Ok (PStr a) /\ meta "name" q = Ok (PStr b) /\
    set_eqb [a; b] RUNTIME_APPS_NETWORK_POLICIES = true.
Proof.
  unfold check_policies. intros (names & Hn%mapM_res_Ok & E)%bind_Ok. apply bind_Ok in E as (? & _ & E).
  destruct (_ || _ || _) eqn:Hc; [done|].
  apply orb_false_iff in Hc as ((Hlen%negb_false_iff%Nat.eqb_eq & Hs%negb_false_iff)%orb_false_iff & Hset%negb_false_iff).
  destruct policies as [|p [|q [|]]]; try done. clear Hlen.
  inversion Hn as [|? n ? ns Hp Hn']; subst. inversion Hn' as [|? n2 ? ns2 Hq Hn'']; subst. inversion Hn''; subst.
  cbn in Hs. destruct n as [| | | |a| |]; try done. destruct n2 as [| | | |b| |]; try done. by exists p, q, a, b.
Qed.
Lemma named_policy (d : attrs) (n : string) :
  meta "name" d = Ok (PStr n) -> (metadata ← subscript "metadata" (PDict d); x ← subscript "name" metadata; Ok (x, d)) = Ok (PStr n, d).
Proof.
  intros (m & Hm & Hn%vget_str)%meta_str. cbn. rewrite Hm. cbn. by rewrite Hn.
Qed.
Lemma check_baseline_Ok (p q : attrs) (a b : string) (u : unit) :
  meta "name" p = Ok (PStr a) -> meta "name" q = Ok (PStr b) -> set_eqb [a; b] RUNTIME_APPS_NETWORK_POLICIES = true ->
  check_baseline [p; q] = Ok u -> reviewed_policy p /\ reviewed_policy q.
Proof.
  intros Hp Hq Hs E. assert (forall name, policy_named name [p; q] =
    if String.eqb b name then Ok q else if String.eqb a name then Ok p else Raise (KeyError name)) as Hnamed.
  { intros name. unfold policy_named. cbn [mapM_res]. rewrite (named_policy p a Hp), (named_policy q b Hq). cbn.
    unfold find_service. cbn. by destruct (String.eqb b name), (String.eqb a name). }
  unfold check_baseline in E. rewrite !Hnamed in E. clear Hnamed. rewrite set_eqb_spec in Hs.
  pose proof (proj2 (Hs "runtime-apps-default-deny") ltac:(by left)) as Hd.
  pose proof (proj2 (Hs "runtime-apps-allow-dns-egress") ltac:(by right; left)) as Hdns.
  rewrite !elem_of_cons, !elem_of_nil in Hd, Hdns.
  assert ((a = "runtime-apps-default-deny" /\ b = "runtime-apps-allow-dns-egress") \/
          (b = "runtime-apps-default-deny" /\ a = "runtime-apps-allow-dns-egress")) as [[-> ->]|[-> ->]] by naive_solver congruence.
  all: cbn [mbind res_bind String.eqb Ascii.eqb Bool.eqb] in E; apply bind_Ok in E as (x & _ & E); apply bind_Ok in E as (y & _ & E);
    destruct (_ || _) eqn:Hc in E; [done|];
    apply orb_false_iff in Hc as (((_ & H1%negb_false_iff)%orb_false_iff & _)%orb_false_iff & H2%negb_false_iff).
  - split; [by left|by right].
  - split; [by right|by left].
Qed.

(** C30: the namespace of the managed applications is closed.  When the checks of a deployment
    accept its documents, the tree of that namespace consists of exactly the ten reviewed
    documents; whatever any tree scopes to the namespace equals one of them, so that it is no
    workload, Service or route; and the network policies there are the two reviewed ones, the
    denial of all traffic and the exception for DNS. *)
Theorem managed_namespace_closed (runtime_documents all_documents : list attrs) :
  validate_runtime_apps_fail_closed runtime_documents all_documents = Ok tt ->
  (forall d, d ∈ all_documents -> mapping d) ->
  (exists rows, mapM_res inventory runtime_documents = Ok rows /\ rows ≡ₚ expected_runtime_inventory) /\
  (forall p, p ∈ runtime_documents -> kind_is "NetworkPolicy" p = true -> reviewed_policy p) /\
  forall d, d ∈ all_documents -> in_runtime_apps d = Ok true ->
    (exists x, x ∈ runtime_documents /\ same d x = true) /\
    exists api kind name, inventory d = Ok [PStr api; PStr kind; PStr name; PStr RUNTIME_APPS_NAMESPACE] /\
      [PStr api; PStr kind; PStr name; PStr RUNTIME_APPS_NAMESPACE] ∈ expected_runtime_inventory /\ kind ∈ scoped_kinds.
Proof.
  unfold validate_runtime_apps_fail_closed. intros E Hmap. do 2 (apply bind_Ok in E as (? & _ & E)).
  apply bind_Ok in E as (scoped & Hscoped & E). apply bind_Ok in E as (? & _ & E). apply bind_Ok in E as (cluster & _ & E).
  apply bind_Ok in E as (? & Hpol & E). apply bind_Ok in E as (tree & Htree & E). apply bind_Ok in E as (? & Hmatch & E).
  apply bind_Ok in E as (? & Hbase & E). apply check_inventory_Ok in E as (rows & Hrows & Hperm).
  split; [by exists rows|]. split.
  - intros p Hp Hk. cbn in Hpol. apply bind_Ok in Hpol as (? & Hpol & _).
    apply check_policies_Ok in Hpol as (p1 & q1 & a & b & Heq & Ha & Hb & Hset). rewrite Heq in Hbase.
    destruct (check_baseline_Ok p1 q1 a b _ Ha Hb Hset Hbase) as (H1 & H2).
    assert (p ∈ [p1; q1]) as Hin by (rewrite <- Heq; apply list_elem_of_In, filter_In; split; [by apply list_elem_of_In|done]).
    apply elem_of_cons in Hin as [->| ->%list_elem_of_singleton]; done.
  - intros d Hd Hns. destruct (check_matched_Ok _ _ _ Hmatch d) as (y & Hx & Hsame); [by apply (filter_res_in _ _ _ Hscoped)|].
    apply (filter_res_in _ _ _ Htree) in Hx as (Hx & Hxns). split; [by exists y|].
    destruct (reviewed_inventory _ _ y Hrows Hperm Hx) as (row & Hrow & Hin).
    destruct (scoped_row row Hin) as (api & kind & name & -> & Hkind).
    { apply in_runtime_apps_true in Hxns. unfold inventory in Hrow. rewrite Hxns in Hrow.
      apply bind_Ok in Hrow as (n & _ & Hrow). by injection Hrow as <-. }
    exists api, kind, name. split; [|done]. apply inventory_Ok in Hrow as (H1 & H2 & H3 & _). apply inventory_Ok.
    pose proof (Hmap d Hd) as Hm. repeat split; [apply (same_text d y)|apply (same_text d y)|apply (same_meta d y)|by apply in_runtime_apps_true];
      done || apply (proj1 Hm).
Qed.

(** ** Examples: the reviewed deployment *)
Module SamplePolicies.
Import Sample SampleHost.

Definition runtime_config : attrs :=
  [("APISIX_ROUTE_ALLOWED_UPSTREAM_HOSTS", PStr "dealhost,dealiot,dealdata-core,dealdata-gps,dealdata-sensor");
   ("APISIX_ROUTE_ALLOWED_UPSTREAM_SUFFIXES", PStr "");
   ("APISIX_ROUTE_ALLOWED_UPSTREAM_PORTS", PStr "8000,8080,7000,7001,7002");
   ("APISIX_ROUTE_ALLOWED_UPSTREAMS", PStr upstreams_text)].
Definition headers (host : string) : pyval :=
  let scheme := ("X-Forwarded-Proto", PStr "$http_x_forwarded_proto") in
  if mem host oidc_upstreams
  then PDict [("set", PDict [scheme; ("Authorization", PStr "Bearer $http_x_forwarded_access_token")]);
              ("remove", PList [PStr "X-Forwarded-Access-Token"])]
  else PDict [("set", PDict [scheme]); ("remove", PList [PStr "Authorization"; PStr "X-Forwarded-Access-Token"])].
Definition bootstrap_route (r : string * (string * Z)) : pyval :=
  PDict [("id", PStr r.1); ("upstream", PDict [("nodes", PDict [(upstream_text r.2, PInt 1)])]);
         ("plugins", PDict [("proxy-rewrite", PDict [("headers", headers r.2.1)])])].
Definition bootstrap : attrs :=
  [("kind", PStr "ConfigMap"); ("metadata", PDict [("name", PStr "apisix-bootstrap")]);
   ("data", PDict [("routes.json", PStr (dumps_sorted (PDict
      [("routes", PList (map bootstrap_route EXPECTED_APISIX_BOOTSTRAP_UPSTREAMS))])))])].
Definition service_of (p : string * Z) : attrs :=
  [("kind", PStr "Service"); ("metadata", PDict [("name", PStr p.1)]);
   ("spec", PDict [("selector", PDict [("app.kubernetes.io/name", PStr p.1)]); ("ports", PList [PDict [("port", PInt p.2)]])])].
Definition egress_rule (p : string * Z) : pyval :=
  PDict [("to", PList [PDict [("podSelector", PDict [("matchLabels", PDict [("app.kubernetes.io/name", PStr p.1)])])]]);
         ("ports", PList [PDict [("protocol", PStr "TCP"); ("port", PInt p.2)]])].
Definition apisix_egress : attrs :=
  [("kind", PStr "NetworkPolicy"); ("metadata", PDict [("name", PStr "apisix-egress")]);
   ("spec", PDict [("egress", PList (map egress_rule core_upstreams))])].
Definition documents : list attrs := Eval vm_compute in bootstrap :: apisix_egress :: map service_of core_upstreams.
Lemma accepted : validate_apisix_route_policy runtime_config documents = Ok tt.
Proof. vm_compute. reflexivity. Qed.
Lemma route_policy_is_core_witness :
  (exists raw, dget UPSTREAMS runtime_config = Some (PStr raw) /\ csv_items raw ≡ₚ map upstream_text core_upstreams) /\
  forall p, p ∈ core_upstreams -> deployed documents p.
Proof. exact (route_policy_is_core runtime_config documents accepted). Defined.

(** *** A host in production *)
Definition core_host : site :=
  prod_site configured_host (Some [("archideal.json", repository_manifest_text)]) (Some [ready_manifest "sensors"]).
Definition core_world : world :=
  {| gw := {| modules := [row 1 "sensors" "/sensors" "dealdata-sensor" (Some 7002)]; puts := [] |}; cache := ∅; events := [] |}.
Notation receive_core := (webhook_post core_host answer bus (fun t => t) (fun _ => "") loads).
Definition core_delivered : res response * world := Eval vm_compute in receive_core (push "d-1") core_world.
Lemma core_delivered_spec : receive_core (push "d-1") core_world = core_delivered.
Proof. vm_compute. reflexivity. Qed.
Lemma deployed_host_reaches_core_witness :
  length (puts (gw core_delivered.2)) = 1%nat /\
  exists l, puts (gw core_delivered.2) = (puts (gw core_world) ++ l)%list /\
  forall p, p ∈ l -> exists a slug path host port,
    new_apisix core_host = Ok a /\ p = put_of core_host a slug path host port /\
    (host, port) ∈ core_upstreams /\ deployed documents (host, port).
Proof.
  split; [reflexivity|].
  apply (deployed_host_reaches_core runtime_config documents environment files "/app" configured_host _ _ answer bus (fun t => t)
           (fun _ => "") loads core_world core_delivered.2 core_delivered.1 accepted eq_refl configured_host_run).
  right. exists (push "d-1"). exact core_delivered_spec.
Defined.

(** *** The tree of the managed applications *)
Definition spec_of (name : pyval) : list (string * pyval) :=
  if eq_str name "runtime-apps-default-deny" then [("spec", expected_default_deny)]
  else if eq_str name "runtime-apps-allow-dns-egress" then [("spec", expected_dns_only)] else [].
Definition tree_document (row : list pyval) : attrs :=
  match row with
  | [api; PStr "Kustomization"; _; _] => expected_kustomization
  | [api; PStr "Namespace"; _; _] => expected_namespace
  | [api; kind; name; namespace] =>
      [("apiVersion", api); ("kind", kind); ("metadata", PDict [("name", name); ("namespace", namespace)])] ++ spec_of name
  | _ => []
  end%list.
Definition tree : list attrs := Eval vm_compute in map tree_document expected_runtime_inventory.
Definition all_trees : list attrs := Eval vm_compute in (expected_platform_kustomizations ++ documents ++ tree)%list.
Lemma closed : validate_runtime_apps_fail_closed tree all_trees = Ok tt.
Proof. vm_compute. reflexivity. Qed.
Definition mappingb (d : attrs) : bool :=
  nodupb (keys d) && match dget "metadata" d with Some (PDict m) => nodupb (keys m) | _ => true end.
Lemma trees_mappings (d : attrs) : d ∈ all_trees -> mapping d.
Proof.
  intros Hd. assert (mappingb d = true) as K.
  { assert (forallb mappingb all_trees = true) as F by (by vm_compute). rewrite forallb_forall in F. by apply F, list_elem_of_In. }
  apply andb_true_iff in K as (K1 & K2). split; [by apply nodupb_NoDup|]. intros m Hm. rewrite Hm in K2. by apply nodupb_NoDup.
Qed.
(** A Service that slips into the namespace from another tree is refused. *)
Definition intruder : attrs :=
  [("apiVersion", PStr "v1"); ("kind", PStr "Service");
   ("metadata", PDict [("name", PStr "web"); ("namespace", PStr RUNTIME_APPS_NAMESPACE)]);
   ("spec", PDict [("type", PStr "ClusterIP"); ("ports", PList [PDict [("port", PInt 80)]])])].
Example intruder_refused :
  validate_runtime_apps_fail_closed tree (all_trees ++ [intruder])%list
  = fail "Resources explicitly scoped to archideal-runtime-apps must live only in the reviewed runtime-apps tree.".
Proof. vm_compute. reflexivity. Qed.
Lemma managed_namespace_closed_witness :
  validate_runtime_apps_fail_closed tree all_trees = Ok tt /\
  forall d, d ∈ all_trees -> in_runtime_apps d = Ok true -> exists x, x ∈ tree /\ same d x = true.
Proof.
  split; [exact closed|]. intros d Hd Hns.
  destruct (managed_namespace_closed tree all_trees closed trees_mappings) as (_ & _ & K). by destruct (K d Hd Hns) as (Hx & _).
Defined.
End SamplePolicies.
