(* ===== verification/Inputs.v ===== *)
(** The host's validation of what an operator enters for a deployment
    (apps/hosting/serializers.py): configuration, secret references and scaling, against
    the rules of the release's manifest or of the application's module profiles. *)

From S2P Require Import Prelude PyValue Regex Json Contract Service Release.
#[local] Open Scope string_scope.
#[local] Open Scope list_scope.
#[local] Open Scope Z_scope.

Definition RUNTIME_CONFIG_KEY_PATTERN : regex := CONFIGURATION_KEY.
Definition RUNTIME_SECRET_REFERENCE_PATTERN : regex := SECRET_REF.
Definition sensitive_words : list string :=
  ["PASSWORD"; "PASSWD"; "TOKEN"; "SECRET"; "PRIVATE"; "CREDENTIAL"; "API_KEY"; "ACCESS_KEY"].
(** [re.search] for one of the words; upper case is decided by [RUNTIME_CONFIG_KEY_PATTERN]. *)
Fixpoint RUNTIME_SECRET_KEY_PATTERN (key : string) : bool :=
  existsb (fun word => startswith word key) sensitive_words ||
  match key with "" => false | String _ rest => RUNTIME_SECRET_KEY_PATTERN rest end.

(** The plain and the secret keys of each module. *)
Record keyset := { ks_plain : list string; ks_secret : list string }.
Definition rules_map : Type := list (string * keyset).

Definition invalid_modules : pyexn :=
  ValidationError "The immutable runtime release has an invalid module contract.".

(** The [configuration] member of a specification; [label] is "Runtime release" or
    "Runtime profile". *)
Definition configuration_rules (label slug : string) (spec : list (string * pyval)) : res keyset :=
  match dget_or "configuration" (PDict []) spec with
  | PDict configuration =>
      let bad := ValidationError (label ++ " for " ++ slug ++ " has invalid configuration keys.") in
      match dget_or "plain" (PList []) configuration, dget_or "secret" (PList []) configuration with
      | PList plain, PList secret =>
          match mapM as_str plain, mapM as_str secret with
          | Some plain, Some secret => Ok {| ks_plain := plain; ks_secret := secret |}
          | _, _ => Raise bad
          end
      | _, _ => Raise bad
      end
  | _ => Raise (ValidationError (label ++ " for " ++ slug ++ " has an invalid configuration contract."))
  end.

Definition release_rule (rules : rules_map) (raw_module : pyval) : res rules_map :=
  match raw_module with
  | PDict m =>
      match vget "slug" m, vget "spec" m with
      | PStr slug, PDict spec =>
          _ ← raise_if (String.eqb slug "" || has_key slug rules) invalid_modules;
          rule ← configuration_rules "Runtime release" slug spec;
          Ok (dset slug rule rules)
      | _, _ => Raise invalid_modules
      end
  | _ => Raise invalid_modules
  end.

Definition profile_rule (rules : rules_map) (m : Module_) : res rules_map :=
  let none := {| ks_plain := []; ks_secret := [] |} in
  match runtime_profile m with
  | None => Ok (dset (mod_slug m) none rules)
  | Some p =>
      if negb (pr_enabled p) || match pr_verified_at p with None => true | _ => false end
      then Ok (dset (mod_slug m) none rules)
      else
        match pr_spec p with
        | PDict spec =>
            rule ← configuration_rules "Runtime profile" (mod_slug m) spec;
            Ok (dset (mod_slug m) rule rules)
        | _ => Raise (AttributeError "get")
        end
  end.

(** A manifest, when given, is a dict: the column of a validated release. *)
Definition _runtime_profile_rules (modules : list Module_) (manifest : option (list (string * pyval)))
    : res rules_map :=
  match manifest with
  | Some manifest =>
      match vget "modules" manifest with
      | PList raws => foldM_res release_rule [] raws
      | _ => Raise invalid_modules
      end
  | None => foldM_res profile_rule [] modules
  end.

(** ** Configuration and secret references *)
Definition label_of (secret : bool) : string := if secret then "Secret references" else "Configuration".

(** One entry of a module: the entries so far and the total size. *)
Definition check_entry (slug : string) (allowed : list string) (secret : bool)
    (acc : list (string * string) * Z) (entry : string * pyval) : res (list (string * string) * Z) :=
  let '(component, total_size) := acc in
  let '(raw_key, raw_value) := entry in
  _ ← raise_if (negb (fullmatch RUNTIME_CONFIG_KEY_PATTERN raw_key) || negb (mem raw_key allowed))
        (ValidationError (raw_key ++ " is not allowed by the runtime profile for " ++ slug ++ "."));
  match raw_value with
  | PStr text =>
      _ ← (if secret then
             raise_if (negb (fullmatch RUNTIME_SECRET_REFERENCE_PATTERN text))
               (ValidationError (raw_key ++ " must reference one canonical logical secret name."))
           else
             raise_if (RUNTIME_SECRET_KEY_PATTERN raw_key)
               (ValidationError (raw_key ++ " looks sensitive and must use secret_refs.")));
      _ ← raise_if (2048 <? py_len text) (ValidationError (raw_key ++ " is too long."));
      let total_size := total_size + (py_len raw_key + py_len text) in
      _ ← raise_if (16384 <? total_size) (ValidationError (label_of secret ++ " is limited to 16 KiB."));
      Ok (dset raw_key text component, total_size)
  | _ => Raise (ValidationError (raw_key ++ " must contain a string."))
  end.

Definition values_map : Type := list (string * list (string * string)).
Definition check_module (rules : rules_map) (secret : bool) (acc : values_map * Z) (entry : string * pyval)
    : res (values_map * Z) :=
  let '(normalized, total_size) := acc in
  let '(slug, raw_values) := entry in
  let bad := ValidationError (label_of secret ++ " for " ++ slug ++ " must be an object with at most 50 entries.") in
  match raw_values with
  | PDict values =>
      _ ← raise_if (50 <? Z.of_nat (length values)) bad;
      match dget slug rules with
      | Some rule =>
          '(component, total_size) ← foldM_res (check_entry slug (if secret then ks_secret rule else ks_plain rule) secret)
                                       ([], total_size) values;
          Ok (dset slug component normalized, total_size)
      | None => Raise (KeyError slug)
      end
  | _ => Raise bad
  end.

Definition _validate_component_values (value : pyval) (modules : list Module_)
    (manifest : option (list (string * pyval))) (secret : bool) : res values_map :=
  match value with
  | PDict items =>
      rules ← _runtime_profile_rules modules manifest;
      match set_diff (keys items) (keys rules) with
      | [] => '(normalized, _) ← foldM_res (check_module rules secret) ([], 0) items; Ok normalized
      | unknown => Raise (ValidationError (label_of secret ++ " contains modules outside the application: " ++
                     String.concat ", " (sort_strings unknown)))
      end
  | _ => Raise (ValidationError (label_of secret ++ " must be keyed by module slug."))
  end.

Definition validate_runtime_configuration (value : pyval) (modules : list Module_)
    (manifest : option (list (string * pyval))) : res values_map :=
  _validate_component_values value modules manifest false.

(** The logical secrets an environment allows. *)
Definition allowed_references (policy : pyval) : res (list string) :=
  let bad := ValidationError "The runtime environment has an invalid secret-reference policy." in
  match policy with
  | PDict p =>
      match vget "allowed_secret_refs" p with
      | PList raw =>
          _ ← raise_if (100 <? Z.of_nat (length raw)) bad;
          match mapM (pattern_item RUNTIME_SECRET_REFERENCE_PATTERN) raw with
          | Some items => _ ← raise_if (negb (nodupb items)) bad; Ok items
          | None => Raise bad
          end
      | _ => Raise bad
      end
  | _ => Raise bad
  end.

Definition references (normalized : values_map) : list string := flat_map (fun kv => map snd kv.2) normalized.

Definition validate_runtime_secret_references (value : pyval) (modules : list Module_)
    (manifest : option (list (string * pyval))) (environment : option RuntimeEnvironment) : res values_map :=
  normalized ← _validate_component_values value modules manifest true;
  match environment with
  | None => Ok normalized
  | Some e =>
      allowed ← allowed_references (env_policy e);
      match set_diff (remove_dups (references normalized)) allowed with
      | [] => Ok normalized
      | unknown => Raise (ValidationError ("Secret references are not allowed in this environment: " ++
                     String.concat ", " (sort_strings unknown)))
      end
  end.

(** ** Scaling *)
(** A slug counted from a module of the manifest: a text that is not empty. *)
Definition raw_slug (raw_module : pyval) : option string :=
  match raw_module with
  | PDict m => match vget "slug" m with PStr s => if String.eqb s "" then None else Some s | _ => None end
  | _ => None
  end.
Definition module_slugs (modules : list Module_) (manifest : option (list (string * pyval))) : res (list string) :=
  match manifest with
  | None => Ok (remove_dups (map mod_slug modules))
  | Some manifest =>
      match vget "modules" manifest with
      | PList raws =>
          let slugs := remove_dups (omap raw_slug raws) in
          _ ← raise_if (negb (Nat.eqb (length slugs) (length raws))) invalid_modules;
          Ok slugs
      | _ => Raise invalid_modules
      end
  end.

Definition scaling_contract (capabilities : pyval) : res (list (string * pyval)) :=
  let bad := ValidationError "The runtime environment has an invalid scaling contract." in
  match capabilities with
  | PDict c => match vget "scaling" c with PDict s => Ok s | _ => Raise bad end
  | _ => Raise bad
  end.

Definition py_int (v : pyval) : option Z := match v with PInt n => Some n | _ => None end.

(** The replicas allowed by one group of the environment's contract. *)
Definition within (group : pyval) (autoscaling : bool) (low high : Z) : bool :=
  match group with
  | PDict g =>
      (negb autoscaling || is_true (vget "enabled" g)) &&
      match py_int (vget "min_replicas" g), py_int (vget "max_replicas" g) with
      | Some lo, Some hi => (lo <=? low) && (high <=? hi)
      | _, _ => false
      end
  | _ => false
  end.

Definition fixed_policy (slug : string) (limits : option (list (string * pyval))) (policy : list (string * pyval))
    : res Scaling :=
  match set_diff (keys policy) ["mode"; "replicas"] with
  | [] =>
      let bad := ValidationError ("Fixed replicas for " ++ slug ++ " must be between 1 and 50.") in
      match vget "replicas" policy with
      | PInt n =>
          _ ← raise_if (negb ((1 <=? n) && (n <=? 50))) bad;
          _ ← raise_if (match limits with Some l => negb (within (vget "fixed" l) false n n) | None => false end)
                (ValidationError ("Fixed scaling for " ++ slug ++ " exceeds the environment limits."));
          Ok (Fixed n)
      | _ => Raise bad
      end
  | _ => Raise (ValidationError ("Scaling for " ++ slug ++ " contains unsupported fixed-mode fields."))
  end.

Definition autoscale_policy (slug : string) (limits : option (list (string * pyval))) (policy : list (string * pyval))
    : res Scaling :=
  match set_diff (keys policy) ["mode"; "min_replicas"; "max_replicas"; "target_cpu_utilization"] with
  | [] =>
      match vget "min_replicas" policy, vget "max_replicas" policy,
            dget_or "target_cpu_utilization" (PInt 70) policy with
      | PInt lo, PInt hi, PInt target =>
          _ ← raise_if (negb ((1 <=? lo) && (lo <=? hi) && (hi <=? 50)) || negb ((10 <=? target) && (target <=? 90)))
                (ValidationError ("Autoscaling for " ++ slug ++ " must use 1-50 replicas and a 10-90 CPU target."));
          _ ← raise_if (match limits with Some l => negb (within (vget "autoscaling" l) true lo hi) | None => false end)
                (ValidationError ("Autoscaling for " ++ slug ++ " is unavailable or exceeds the environment limits."));
          Ok (Autoscale lo hi target)
      | _, _, _ => Raise (ValidationError ("Autoscaling values for " ++ slug ++ " must be integers."))
      end
  | _ => Raise (ValidationError ("Scaling for " ++ slug ++ " contains unsupported autoscale fields."))
  end.

Definition check_scaling (limits : option (list (string * pyval))) (value : list (string * pyval)) (slug : string)
    : res (string * Scaling) :=
  match dget_or slug (PDict [("mode", PStr "fixed"); ("replicas", PInt 1)]) value with
  | PDict policy =>
      if eq_str (vget "mode" policy) "fixed" then s ← fixed_policy slug limits policy; Ok (slug, s)
      else if eq_str (vget "mode" policy) "autoscale" then s ← autoscale_policy slug limits policy; Ok (slug, s)
      else Raise (ValidationError ("Scaling mode for " ++ slug ++ " must be fixed or autoscale."))
  | _ => Raise (ValidationError ("Scaling for " ++ slug ++ " must be an object."))
  end.

Definition validate_runtime_scaling (value : pyval) (modules : list Module_)
    (manifest : option (list (string * pyval))) (environment : option RuntimeEnvironment)
    : res (list (string * Scaling)) :=
  match value with
  | PDict items =>
      slugs ← module_slugs modules manifest;
      match set_diff (keys items) slugs with
      | [] =>
          limits ← match environment with
                   | None => Ok None
                   | Some e => l ← scaling_contract (env_capabilities e); Ok (Some l)
                   end;
          mapM_res (check_scaling limits items) (sort_strings slugs)
      | unknown => Raise (ValidationError ("Scaling contains modules outside the application: " ++
                     String.concat ", " (sort_strings unknown)))
      end
  | _ => Raise (ValidationError "Scaling must be a JSON object keyed by module slug.")
  end.

(** The JSON columns the results are stored in. *)
Definition values_json (m : values_map) : pyval := PDict (map (fun '(k, v) => (k, py_strings v)) m).
Definition scaling_json (m : list (string * Scaling)) : pyval := PDict (map (fun '(k, v) => (k, py_scaling v)) m).
