(* ===== verification/InputsSpec.v ===== *)
(** The host's validation of runtime inputs agrees with the controller's: what the host
    accepts and stores, the controller accepts. *)

From S2P Require Import Prelude PyValue Regex Sha256 Json Config Contract Kube Service Worker Release ReleaseSpec Inputs.
#[local] Open Scope string_scope.
#[local] Open Scope list_scope.
#[local] Open Scope Z_scope.

(** ** Patterns of ASCII text *)
Fixpoint regex_all (p : ascii -> Prop) (r : regex) : Prop :=
  match r with
  | Void | Eps => True
  | Cls q => forall a, q a = true -> p a
  | Seq r s | Alt r s => regex_all p r /\ regex_all p s
  | Rep _ _ r => regex_all p r
  end.
Definition plain_byte (a : ascii) : bool := is_ascii a && negb (code a =? 0).

Lemma matches_all (p : ascii -> bool) r s : regex_all (fun a => p a = true) r -> matches r s -> all_bytes p s = true.
Proof.
  revert s. induction r as [| |q|r IHr t IHt|r IHr t IHt|lo hi r IHr]; cbn [regex_all matches]; intros s Hr Hm.
  - done.
  - by subst.
  - destruct Hm as (a & -> & Ha). simpl. by rewrite Hr.
  - destruct Hr, Hm as (s1 & s2 & -> & ? & ?). rewrite all_bytes_app, IHr, IHt by done. done.
  - destruct Hr, Hm as [?|?]; auto.
  - destruct Hm as (ws & -> & Hws & _). clear -Hr Hws IHr. induction Hws as [|w ws Hw _ IH]; [done|].
    rewrite concat_cons, all_bytes_app, IH, IHr by done. done.
Qed.
Ltac byte_class := intros a; destruct a as [[] [] [] [] [] [] [] []]; vm_compute; congruence.

Lemma env_key_plain k : fullmatch _ENV_KEY k = true -> all_bytes plain_byte k = true.
Proof. intros H%fullmatch_spec. revert H. apply matches_all. repeat split; byte_class. Qed.
Lemma secret_plain s : fullmatch _SECRET_NAME s = true -> all_bytes plain_byte s = true.
Proof. intros H%fullmatch_spec. revert H. apply matches_all. repeat split; byte_class. Qed.

Lemma plain_ascii s : all_bytes plain_byte s = true -> all_bytes is_ascii s = true.
Proof. apply all_bytes_impl. intros a [H _]%andb_true_iff. done. Qed.
Lemma plain_nul s : all_bytes plain_byte s = true -> has_byte 0 s = false.
Proof.
  unfold has_byte. induction s as [|a s IH]; [done|]. simpl. unfold plain_byte at 1.
  rewrite !andb_true_iff, negb_true_iff. intros [[_ ->] H]. by apply IH.
Qed.
Lemma ascii_surrogate s : all_bytes is_ascii s = true -> has_surrogate s = false.
Proof.
  induction s as [|a s IH]; [done|]. cbn [all_bytes]. rewrite andb_true_iff. intros [Ha Hs].
  specialize (IH Hs). destruct s as [|b s]; [done|]. cbn [has_surrogate] in *. rewrite IH, orb_false_r.
  unfold is_ascii in Ha. apply Z.ltb_lt in Ha. apply andb_false_iff. left. apply Z.eqb_neq. lia.
Qed.

(** ** The host's values *)
Definition entry_chars (kv : string * string) : Z := py_len kv.1 + py_len kv.2.
Definition total_chars (d : list (string * string)) : Z := foldr (fun kv n => entry_chars kv + n) 0 d.

(** What the host has checked of one entry. *)
Definition host_entry (allowed : list string) (secret : bool) (kv : string * string) : Prop :=
  fullmatch _ENV_KEY kv.1 = true /\ mem kv.1 allowed = true /\ py_len kv.2 <= 2048 /\
  (if secret then fullmatch _SECRET_NAME kv.2 = true else RUNTIME_SECRET_KEY_PATTERN kv.1 = false).
Definition host_values (allowed : list string) (secret : bool) (d : list (string * string)) : Prop :=
  NoDup (keys d) /\ Forall (host_entry allowed secret) d /\ total_chars d <= 16384 /\ Z.of_nat (length d) <= 50.

Lemma total_chars_dset k v d : total_chars (dset k v d) <= total_chars d + entry_chars (k, v).
Proof.
  assert (Hn : forall kv, 0 <= entry_chars kv)
    by (intros [a b]; unfold entry_chars; pose proof (py_len_byte_len a); pose proof (py_len_byte_len b); simpl; lia).
  induction d as [|[k' v'] d IH]; simpl; [lia|]. destruct (String.eqb_spec k k') as [->|]; simpl.
  - pose proof (Hn (k', v')). lia.
  - lia.
Qed.

Lemma check_entry_Ok slug allowed secret d t k v acc' :
  check_entry slug allowed secret (d, t) (k, v) = Ok acc' ->
  exists text, v = PStr text /\ host_entry allowed secret (k, text) /\
    acc' = (dset k text d, t + entry_chars (k, text)) /\ t + entry_chars (k, text) <= 16384.
Proof.
  unfold check_entry. intros H. apply bind_Ok in H as ([] & Hk%raise_if_Ok & H).
  destruct v as [| | | |text| |]; try done. apply orb_false_iff in Hk as [Hk1 Hk2]. rewrite negb_false_iff in *.
  apply bind_Ok in H as ([] & Hs & H). apply bind_Ok in H as ([] & Hl%raise_if_Ok & H).
  apply bind_Ok in H as ([] & Ht%raise_if_Ok & H). apply Ok_inj in H. subst acc'. rewrite Z.ltb_ge in *.
  exists text. split_and!; [done| |done|done]. unfold host_entry. split_and!; try done.
  destruct secret; apply raise_if_Ok in Hs; [by apply negb_false_iff|done].
Qed.

Lemma check_entries_Ok slug allowed secret vs d t d' t' :
  foldM_res (check_entry slug allowed secret) (d, t) vs = Ok (d', t') ->
  NoDup (keys d) -> Forall (host_entry allowed secret) d -> 0 <= t -> total_chars d <= t <= 16384 ->
  NoDup (keys d') /\ Forall (host_entry allowed secret) d' /\ t <= t' <= 16384 /\ total_chars d' <= t' /\
  (length d' <= length d + length vs)%nat.
Proof.
  revert d t. induction vs as [|[k v] vs IH]; intros d t H Hn Hf H0 Ht; simpl in H.
  - apply Ok_inj in H. simplify_eq. split_and!; try done; try lia.
  - apply bind_Ok in H as ([d1 t1] & Hc & H).
    apply check_entry_Ok in Hc as (text & -> & He & E & Hle). simplify_eq.
    assert (0 <= entry_chars (k, text)).
    { unfold entry_chars. pose proof (py_len_byte_len k). pose proof (py_len_byte_len text). simpl. lia. }
    apply IH in H as (G1 & G2 & G3 & G4 & G5).
    + pose proof (length_dset k text d). simpl. split_and!; try done; lia.
    + by apply NoDup_keys_dset.
    + by apply Forall_dset.
    + lia.
    + pose proof (total_chars_dset k text d). lia.
Qed.

(** ** The host's maps *)
Definition rule_keys (secret : bool) (rule : keyset) : list string := if secret then ks_secret rule else ks_plain rule.
(** Each module has a rule and values within it. *)
Definition host_map (rules : rules_map) (secret : bool) (m : values_map) : Prop :=
  NoDup (keys m) /\ Forall (fun kv => exists rule, dget kv.1 rules = Some rule /\
    host_values (rule_keys secret rule) secret kv.2) m.

Lemma check_module_Ok rules secret m t entry m' t' :
  check_module rules secret (m, t) entry = Ok (m', t') -> host_map rules secret m -> 0 <= t <= 16384 ->
  host_map rules secret m' /\ 0 <= t' <= 16384.
Proof.
  destruct entry as [slug raw]. unfold check_module. destruct raw as [| | | | | |vs]; try done. intros H [Hn Hf] Ht.
  apply bind_Ok in H as ([] & Hl%raise_if_Ok & H). destruct (dget slug rules) as [rule|] eqn:Hr; [|done].
  apply bind_Ok in H as ([d t1] & Hc & H). apply Ok_inj in H. simplify_eq. apply Z.ltb_ge in Hl.
  apply check_entries_Ok in Hc as (G1 & G2 & G3 & G4 & G5); [|constructor|constructor|lia|simpl; lia].
  split; [|lia]. split; [by apply NoDup_keys_dset|]. apply Forall_dset; [|done]. exists rule. split; [done|].
  split_and!; try done; simpl in *; lia.
Qed.

Lemma component_values_Ok value modules manifest secret m :
  _validate_component_values value modules manifest secret = Ok m ->
  exists rules, _runtime_profile_rules modules manifest = Ok rules /\ host_map rules secret m.
Proof.
  unfold _validate_component_values. destruct value as [| | | | | |items]; try done. intros H.
  apply bind_Ok in H as (rules & Hr & H). exists rules. split; [done|].
  destruct (set_diff _ _); [|done]. apply bind_Ok in H as ([m1 t] & Hf & H). apply Ok_inj in H. subst m1.
  apply (foldM_res_inv (fun acc => host_map rules secret acc.1 /\ 0 <= acc.2 <= 16384) _ _ _ (m, t)) in Hf; [by destruct Hf| |].
  - intros [m0 t0] e [m1 t1] _ [Hm Ht] Hc. simpl in *. by eapply check_module_Ok.
  - simpl. split; [|lia]. split; constructor.
Qed.

Lemma secret_references_Ok value modules manifest environment m :
  validate_runtime_secret_references value modules manifest environment = Ok m ->
  _validate_component_values value modules manifest true = Ok m /\
  forall e, environment = Some e -> exists allowed, allowed_references (env_policy e) = Ok allowed /\
    forall slug d k r, (slug, d) ∈ m -> (k, r) ∈ d -> r ∈ allowed.
Proof.
  unfold validate_runtime_secret_references. intros H. apply bind_Ok in H as (m0 & Hv & H).
  destruct environment as [e|]; [|apply Ok_inj in H; subst; split; [done|by intros]].
  apply bind_Ok in H as (allowed & Ha & H). destruct (set_diff _ _) eqn:Hd; [|done]. apply Ok_inj in H. subst m0.
  split; [done|]. intros e' [= <-]. exists allowed. split; [done|]. intros slug d k r Hm Hin.
  apply set_diff_nil in Hd. apply Hd. apply elem_of_remove_dups, list_elem_of_In, in_flat_map.
  exists (slug, d). split; [by apply list_elem_of_In|]. apply in_map_iff. exists (k, r). split; [done|].
  by apply list_elem_of_In.
Qed.

(** ** The rules of a release *)
Definition rule_of (mc : ManifestComponent) : keyset := {| ks_plain := mc_plain_keys mc; ks_secret := mc_secret_keys mc |}.
Definition rules_of (mcs : list (string * ManifestComponent)) : rules_map := map (fun '(k, mc) => (k, rule_of mc)) mcs.

Lemma env_keys_strings items ks : mapM env_key_item items = Some ks -> mapM as_str items = Some ks.
Proof.
  revert ks. induction items as [|v items IH]; intros ks; [done|]. cbn [mapM]. intros H.
  apply bind_Some in H as (k & Hk & H). apply bind_Some in H as (ks' & Hks & H).
  unfold env_key_item in Hk. destruct v; try done. destruct (fullmatch _ENV_KEY s); [|done].
  simplify_eq. simpl. by rewrite (IH _ Hks).
Qed.
Lemma key_set_strings v slug ks : _key_set v slug = Ok ks -> exists items, v = PList items /\ mapM as_str items = Some ks.
Proof.
  unfold _key_set. destruct v as [| | | | |items|]; try done. intros H. exists items. split; [done|].
  destruct (50 <? _); [done|]. destruct (mapM env_key_item items) as [ks'|] eqn:E; [|done].
  destruct (nodupb ks'); [|done]. apply Ok_inj in H. subst. by apply env_keys_strings.
Qed.
Lemma profile_rules id slug image spec mc :
  _parse_profile id slug image spec = Ok mc -> configuration_rules "Runtime release" slug spec = Ok (rule_of mc).
Proof.
  unfold _parse_profile, configuration_rules. intros H.
  repeat (apply bind_Ok in H as (? & ? & H)). destruct (valid_health _); [|done].
  apply bind_Ok in H as (res & _ & H). apply bind_Ok in H as (conf & Hc & H).
  destruct (dget_or "configuration" (PDict []) spec); try done. apply Ok_inj in Hc. subst.
  apply bind_Ok in H as ([] & _ & H).
  apply bind_Ok in H as (plain & Hp & H). apply bind_Ok in H as (secret & Hs & H). apply bind_Ok in H as ([] & _ & H).
  apply key_set_strings in Hp as (ps & -> & Hp). apply key_set_strings in Hs as (ss & -> & Hs). rewrite Hp, Hs.
  destruct (dget_or "network_egress" (PList []) spec) as [| | | | |[|]|]; try done. apply Ok_inj in H. by subst.
Qed.

Lemma release_rule_parsed settings parsed ids raw acc' :
  parse_module settings (parsed, ids) raw = Ok acc' -> release_rule (rules_of parsed) raw = Ok (rules_of acc'.1).
Proof.
  intros H. pose proof (parse_module_Ok _ _ _ _ _ H) as (slug & mc & -> & Hfresh & _ & Hslug & _).
  unfold parse_module in H. apply bind_Ok in H as (d & Hd & H). destruct raw as [| | | | | |d']; try done.
  apply Ok_inj in Hd. subst d'. apply bind_Ok in H as (? & _ & H). apply bind_Ok in H as (id & _ & H).
  destruct (vget "slug" d) as [| | | |s| |] eqn:Es; try done. apply bind_Ok in H as ([] & Hk%raise_if_Ok & H).
  destruct (vget "image" d) as [| | | |img| |]; try done. apply bind_Ok in H as (? & _ & H). apply bind_Ok in H as (? & _ & H).
  apply bind_Ok in H as (spec & Hspec & H). destruct (vget "profile_digest" d); try done.
  apply bind_Ok in H as (? & _ & H). apply bind_Ok in H as (? & _ & H). apply bind_Ok in H as (? & _ & H).
  apply bind_Ok in H as (mc' & Hmc & H). apply Ok_inj in H. apply (f_equal fst) in H. cbn [fst] in H.
  unfold release_rule. rewrite Es. destruct (vget "spec" d) as [| | | | | |spec']; try done. apply Ok_inj in Hspec. subst spec'.
  rewrite !orb_false_iff, negb_false_iff in Hk. destruct Hk as [[Hs Hkey] _].
  assert (Hkeys : keys (rules_of parsed) = keys parsed) by (unfold rules_of; apply keys_map_snd).
  assert (Hks : s ∉ keys parsed) by (rewrite has_key_mem in Hkey; by apply mem_not_In).
  rewrite has_key_mem, Hkeys, <-has_key_mem, Hkey, orb_false_r.
  destruct (String.eqb_spec s ""); [by subst|]. cbn [raise_if mbind res_bind].
  rewrite (profile_rules _ _ _ _ _ Hmc). cbn [mbind res_bind]. rewrite dset_fresh in H by done. rewrite dset_fresh by (by rewrite Hkeys).
  apply app_inj_tail in H as [_ E]. injection E as -> ->. simpl. unfold rules_of. by rewrite map_app.
Qed.

Lemma rules_parsed settings m mcs modules :
  _parse_manifest m settings = Ok mcs -> _runtime_profile_rules modules (Some m) = Ok (rules_of mcs).
Proof.
  unfold _parse_manifest, _runtime_profile_rules. intros H. repeat (apply bind_Ok in H as (? & _ & H)).
  destruct (vget "modules" m) as [| | | | |raws|]; try done. apply bind_Ok in H as ([] & _ & H).
  apply bind_Ok in H as ([p ids] & Hf & H). apply Ok_inj in H. subst p.
  change (@nil (string * keyset)) with (rules_of []). revert Hf. generalize (@nil (string * ManifestComponent)) (@nil Z).
  induction raws as [|raw raws IH]; intros parsed l Hf; simpl in Hf |- *.
  - apply Ok_inj in Hf. by simplify_eq.
  - apply bind_Ok in Hf as ([p1 l1] & Hp & Hf). rewrite (release_rule_parsed _ _ _ _ _ Hp). simpl. by eapply IH.
Qed.

(** ** What the controller makes of the stored maps *)
(** The texts can be sent: no NUL, no lone surrogate, 16 KiB of UTF-8 at most. *)
Definition deliverable (d : list (string * string)) : Prop :=
  total_bytes d <= 16384 /\ Forall (fun kv => has_byte 0 kv.2 = false /\ has_surrogate kv.2 = false) d.

Lemma secret_bytes allowed d : Forall (host_entry allowed true) d -> total_bytes d = total_chars d.
Proof.
  induction 1 as [|[k v] d (Hk & _ & _ & Hv) _ IH]; [done|]. simpl in *. unfold entry_bytes, entry_chars. simpl.
  rewrite IH, !py_len_ascii; [done|by apply plain_ascii, secret_plain|by apply plain_ascii, env_key_plain].
Qed.
Lemma host_values_wf allowed secret d :
  host_values allowed secret d -> (secret = false -> deliverable d) -> wf_values allowed secret d.
Proof.
  intros (Hn & Hf & Ht & Hl) Hd. split_and!; try done.
  - destruct secret.
    + eapply Forall_impl; [exact Hf|]. intros [k v] (Hk & Ha & Hv & Hs). simpl in *.
      assert (all_bytes plain_byte v = true) as Hp by (by apply secret_plain).
      unfold wf_entry. cbn [fst snd]. rewrite Hk, Ha, Hs, (plain_nul v Hp), orb_false_r. split_and!; try done.
      * by apply Z.ltb_ge.
      * by apply ascii_surrogate, plain_ascii, env_key_plain.
      * by apply ascii_surrogate, plain_ascii.
    + destruct (Hd eq_refl) as [_ Hok]. rewrite Forall_forall in Hf, Hok |- *. intros [k v] Hin.
      destruct (Hf _ Hin) as (Hk & Ha & Hv & _), (Hok _ Hin) as [Hb Hs]. simpl in *.
      unfold wf_entry. cbn [fst snd]. rewrite Hk, Ha, Hb, Hs, orb_false_r. split_and!; try done.
      * by apply Z.ltb_ge.
      * by apply ascii_surrogate, plain_ascii, env_key_plain.
  - destruct secret; [by erewrite secret_bytes|by apply Hd].
Qed.

Definition sent (m : values_map) : list (string * list (string * pyval)) := map (fun '(k, v) => (k, values_of v)) m.
Lemma mapping_accepted m label :
  Forall (fun kv => fullmatch _COMPONENT_SLUG kv.1 = true) m -> _component_mapping (values_json m) label = Ok (sent m).
Proof.
  intros H. unfold _component_mapping, values_json. cbn [_object mbind res_bind]. apply mapM_res_Ok.
  induction H as [|[k v] m Hk _ IH]; constructor; [|done]. simpl in *. by rewrite Hk.
Qed.

Definition host_scaling (s : Scaling) : Prop :=
  match s with Fixed n => 1 <= n <= 50 | Autoscale lo hi t => 1 <= lo <= hi /\ hi <= 50 /\ 10 <= t <= 90 end.
Definition top (s : Scaling) : Z := match s with Fixed n => n | Autoscale _ hi _ => hi end.

(** The environment does not offer more replicas than the controller allows. *)
Definition limits_agree (settings : ControllerSettings) (e : RuntimeEnvironment) : Prop :=
  forall l name g hi, scaling_contract (env_capabilities e) = Ok l -> name ∈ ["fixed"; "autoscaling"] ->
    vget name l = PDict g -> vget "max_replicas" g = PInt hi -> hi <= max_replicas settings.

Lemma within_top group auto lo hi : within group auto lo hi = true ->
  exists g n, group = PDict g /\ vget "max_replicas" g = PInt n /\ hi <= n.
Proof.
  unfold within. destruct group as [| | | | | |g]; try done. rewrite andb_true_iff. intros [_ H].
  destruct (py_int (vget "min_replicas" g)); [|done]. destruct (vget "max_replicas" g) as [| |n| | | |] eqn:E; try done.
  simpl in H. apply andb_true_iff in H as [_ H%Z.leb_le]. by exists g, n.
Qed.

Lemma check_scaling_Ok settings e l items slug r :
  scaling_contract (env_capabilities e) = Ok l -> limits_agree settings e ->
  check_scaling (Some l) items slug = Ok r -> r.1 = slug /\ wf_scaling (max_replicas settings) r.2 /\ host_scaling r.2.
Proof.
  intros Hl Hag. unfold check_scaling. destruct (dget_or _ _ _) as [| | | | | |p]; try done.
  destruct (eq_str _ "fixed"); [|destruct (eq_str _ "autoscale"); [|done]]; intros H;
    apply bind_Ok in H as (s & Hs & H); apply Ok_inj in H; subst r; cbn [fst snd]; (split; [done|]).
  - unfold fixed_policy in Hs. destruct (set_diff _ _); [|done]. destruct (vget "replicas" p) as [| |n| | | |]; try done.
    apply bind_Ok in Hs as ([] & H1%raise_if_Ok & Hs). apply bind_Ok in Hs as ([] & H2%raise_if_Ok & Hs).
    apply Ok_inj in Hs. subst s. apply negb_false_iff in H1, H2. apply within_top in H2 as (g & hi & Hg & Hhi & Hle).
    pose proof (Hag l "fixed" g hi Hl ltac:(set_solver) Hg Hhi). simpl. lia.
  - unfold autoscale_policy in Hs. destruct (set_diff _ _); [|done].
    destruct (vget "min_replicas" p) as [| |lo| | | |]; try done. destruct (vget "max_replicas" p) as [| |hi| | | |]; try done.
    destruct (dget_or "target_cpu_utilization" _ p) as [| |t| | | |]; try done.
    apply bind_Ok in Hs as ([] & H1%raise_if_Ok & Hs). apply bind_Ok in Hs as ([] & H2%raise_if_Ok & Hs).
    apply Ok_inj in Hs. subst s. apply orb_false_iff in H1 as [H1 H3]. apply negb_false_iff in H1, H2, H3.
    apply within_top in H2 as (g & n & Hg & Hn & Hle).
    pose proof (Hag l "autoscaling" g n Hl ltac:(set_solver) Hg Hn). simpl. lia.
Qed.

Lemma sort_strings_perm l : sort_strings l ≡ₚ l.
Proof.
  unfold sort_strings. rewrite (sort_items_perm (map (fun k => (k, tt)) l)).
  induction l as [|x l IH]; [done|]. simpl. by rewrite IH.
Qed.

Lemma slugs_parsed settings raws parsed ids parsed' ids' :
  foldM_res (parse_module settings) (parsed, ids) raws = Ok (parsed', ids') ->
  keys parsed' = keys parsed ++ omap raw_slug raws.
Proof.
  revert parsed ids. induction raws as [|raw raws IH]; intros parsed ids H; simpl in H.
  - apply Ok_inj in H. simplify_eq. simpl. by rewrite app_nil_r.
  - apply bind_Ok in H as ([p1 i1] & Hp & H). apply IH in H.
    pose proof (release_rule_parsed _ _ _ _ _ Hp) as Hr.
    destruct (parse_module_Ok _ _ _ _ _ Hp) as (slug & mc & E & Hfresh & _). injection E as -> ->. cbn [fst] in *.
    assert (raw_slug raw = Some slug) as Hs.
    { unfold release_rule in Hr. destruct raw as [| | | | | |d]; try done. simpl in Hr |- *.
      destruct (vget "slug" d) as [| | | |s| |]; try done. destruct (vget "spec" d) as [| | | | | |spec]; try done.
      apply bind_Ok in Hr as ([] & Hk%raise_if_Ok & Hr). apply bind_Ok in Hr as (rule & _ & Hr).
      apply orb_false_iff in Hk as [-> Hk]. apply Ok_inj in Hr. apply (f_equal keys) in Hr.
      rewrite keys_dset_new in Hr by done. unfold rules_of in Hr. rewrite map_app in Hr. unfold keys in Hr.
      rewrite fmap_app in Hr. simpl in Hr. apply app_inj_tail in Hr as [_ ->]. done. }
    rewrite H. cbn [omap list_omap]. rewrite Hs. unfold keys. rewrite fmap_app, <-app_assoc. done.
Qed.
Lemma module_slugs_parsed settings m mcs modules slugs :
  _parse_manifest m settings = Ok mcs -> module_slugs modules (Some m) = Ok slugs -> forall k, k ∈ slugs <-> k ∈ keys mcs.
Proof.
  unfold _parse_manifest, module_slugs. intros H. repeat (apply bind_Ok in H as (? & _ & H)).
  destruct (vget "modules" m) as [| | | | |raws|]; try done. apply bind_Ok in H as ([] & _ & H).
  apply bind_Ok in H as ([p ids] & Hf & H). apply Ok_inj in H. subst p. apply slugs_parsed in Hf. simpl in Hf.
  intros Hm k. apply bind_Ok in Hm as ([] & _ & Hm). apply Ok_inj in Hm. subst slugs.
  by rewrite elem_of_remove_dups, Hf.
Qed.

Lemma scaling_Ok settings value modules m mcs e sc :
  validate_runtime_scaling value modules (Some m) (Some e) = Ok sc -> limits_agree settings e ->
  _parse_manifest m settings = Ok mcs ->
  (forall k, k ∈ keys sc <-> k ∈ keys mcs) /\
  Forall (fun ks => wf_scaling (max_replicas settings) ks.2 /\ host_scaling ks.2) sc.
Proof.
  unfold validate_runtime_scaling. destruct value as [| | | | | |items]; try done. intros H Hag Hm.
  apply bind_Ok in H as (slugs & Hs & H). destruct (set_diff _ _); [|done]. apply bind_Ok in H as (limits & Hl & H).
  apply bind_Ok in Hl as (l & Hl & E). apply Ok_inj in E. subst limits. apply mapM_res_Ok in H.
  assert (Hk : keys sc = sort_strings slugs /\ Forall (fun ks => wf_scaling (max_replicas settings) ks.2 /\ host_scaling ks.2) sc).
  { clear -H Hl Hag. induction H as [|slug [k s] ss sc Hc _ [IH1 IH2]]; [done|].
    destruct (check_scaling_Ok _ _ _ _ _ _ Hl Hag Hc) as (E & Hw). cbn [fst snd] in *. subst k. split; [|by constructor].
    change (slug :: keys sc = slug :: ss). by rewrite IH1. }
  destruct Hk as [Hk Hf]. split; [|done]. intros k. rewrite Hk, sort_strings_perm. by apply (module_slugs_parsed settings m mcs modules).
Qed.

Lemma sent_values m slug : dget slug (sent m) = values_of <$> dget slug m.
Proof. unfold sent. apply dget_map_snd. Qed.

Lemma validate_sent mcs secret (m : values_map) slug mc :
  host_map (rules_of mcs) secret m -> (secret = false -> Forall (fun kv => deliverable kv.2) m) ->
  NoDup (keys mcs) -> (slug, mc) ∈ mcs ->
  exists d, _validate_values (dget_or slug [] (sent m)) (rule_keys secret (rule_of mc)) slug secret = Ok d.
Proof.
  intros [Hn Hf] Hd Hnd Hin. unfold dget_or. rewrite sent_values. destruct (dget slug m) as [d|] eqn:E; simpl.
  - exists d. apply _validate_values_idem. apply dget_Some_In in E. rewrite Forall_forall in Hf.
    destruct (Hf _ E) as (rule & Hr & Hv). cbn [fst snd] in *.
    assert (rule = rule_of mc) as ->.
    { unfold rules_of in Hr. rewrite dget_map_snd in Hr. by rewrite (dget_In slug mc mcs Hnd Hin) in Hr; injection Hr. }
    apply host_values_wf; [done|]. intros Es. specialize (Hd Es). rewrite Forall_forall in Hd. by apply (Hd _ E).
  - exists []. apply (_validate_values_idem []). split_and!; try constructor; simpl; lia.
Qed.

Lemma keys_sent m : keys (sent m) = keys m.
Proof. apply keys_map_snd. Qed.
Lemma host_map_keys mcs secret m : host_map (rules_of mcs) secret m -> keys m ⊆ keys mcs.
Proof.
  intros [_ Hf] k Hk. unfold keys in Hk. apply list_elem_of_fmap in Hk as ([k' d] & -> & Hin).
  rewrite Forall_forall in Hf. destruct (Hf _ Hin) as (rule & Hr & _). cbn [fst] in *.
  destruct (decide (k' ∈ keys mcs)) as [|Hn]; [done|]. unfold rules_of in Hr. rewrite dget_map_snd in Hr.
  apply dget_None in Hn. by rewrite Hn in Hr.
Qed.

Lemma components_built settings mcs conf sec sc :
  NoDup (keys mcs) -> host_map (rules_of mcs) false conf -> Forall (fun kv => deliverable kv.2) conf ->
  host_map (rules_of mcs) true sec -> (forall k, k ∈ keys sc <-> k ∈ keys mcs) ->
  Forall (fun ks => wf_scaling (max_replicas settings) ks.2 /\ host_scaling ks.2) sc ->
  exists cs, mapM_res (build_component settings (sent conf) (sent sec) (map (fun '(k, v) => (k, py_scaling v)) sc)) mcs = Ok cs.
Proof.
  intros Hn Hconf Hd Hsec Hk Hf.
  assert (G : forall l, l ⊆ mcs -> exists cs,
    mapM_res (build_component settings (sent conf) (sent sec) (map (fun '(k, v) => (k, py_scaling v)) sc)) l = Ok cs);
    [|by apply G].
  induction l as [|[slug mc] l IH]; intros Hsub; [by exists []|].
  destruct IH as (cs & Hcs); [set_solver|]. assert (Hin : (slug, mc) ∈ mcs) by set_solver.
  destruct (validate_sent mcs false conf slug mc Hconf (fun _ => Hd) Hn Hin) as (d & Hv).
  destruct (validate_sent mcs true sec slug mc Hsec ltac:(done) Hn Hin) as (d' & Hv').
  destruct (dget slug sc) as [s|] eqn:Es.
  - enough (exists c, build_component settings (sent conf) (sent sec) (map (fun '(k, v) => (k, py_scaling v)) sc)
              (slug, mc) = Ok c) as (c & Hc).
    { cbn [mapM_res]. rewrite Hc. cbn [mbind res_bind]. rewrite Hcs. by eexists. }
    cbn [rule_keys rule_of ks_plain ks_secret] in Hv, Hv'.
    unfold build_component. rewrite Hv. cbn [mbind res_bind]. rewrite Hv'. cbn [mbind res_bind].
    rewrite dget_map_snd, Es. cbn [fmap option_fmap option_map]. apply dget_Some_In in Es.
    rewrite Forall_forall in Hf. destruct (Hf _ Es) as [Hw _]. cbn [snd] in Hw.
    rewrite (_scaling_policy_idem s slug _ Hw). by eexists.
  - apply dget_None in Es. exfalso. apply Es, Hk. unfold keys. apply list_elem_of_fmap. by exists (slug, mc).
Qed.

(** A row whose columns are what the host validated against the row's release. *)
Record validated (modules : list Module_) (e : RuntimeEnvironment) (m : list (string * pyval)) (x : RuntimeDeployment)
    (conf sec : values_map) (sc : list (string * Scaling)) : Prop := {
  v_manifest : release_manifest x = PDict m;
  v_digest : payload_digest (PDict m) = Ok (release_manifest_digest x);
  v_configuration : exists raw, validate_runtime_configuration raw modules (Some m) = Ok conf;
  v_secrets : exists raw, validate_runtime_secret_references raw modules (Some m) (Some e) = Ok sec;
  v_scaling : exists raw, validate_runtime_scaling raw modules (Some m) (Some e) = Ok sc;
  v_columns : dep_configuration x = values_json conf /\ dep_secret_refs x = values_json sec /\
    dep_scaling x = scaling_json sc
}.

(** The host and the controller agree on runtime inputs: when a deployment's
    configuration, secret references and scaling passed the host's validation against
    its release, and the release is one the controller accepts, the payload the worker
    sends is accepted by the controller and parsed to a deployment of the same identity,
    generation and desired state.  The configuration's texts must fit 16 KiB of UTF-8
    per component without NUL (the host counts characters), and the environment must not
    offer more replicas than the controller allows. *)
Lemma payload_ok settings modules e m mcs x o conf sec sc st allow_absent :
  validated modules e m x conf sec sc -> _parse_manifest m settings = Ok mcs ->
  Forall (fun kv => deliverable kv.2) conf -> limits_agree settings e ->
  validate_deployment_id (PStr (op_deployment o)) = Ok (op_deployment o) ->
  dep_environment x = Config.environment settings -> 1 <= target_generation o ->
  wanted_state o x = PStr st -> st ∈ allowed_desired_states allow_absent ->
  exists d, parse_desired_deployment (_controller_payload x o) settings allow_absent = Ok d /\
    deployment_id d = op_deployment o /\ generation d = target_generation o /\ desired_state d = st /\
    map slug (Contract.components d) = keys mcs.
Proof.
  intros [Hm Hdig (rc & Hconf) (rs & Hsec) (rsc & Hsc) (Ec & Es & Esc)] Hp Hdel Hlim Hid Henv Hgen Hst Hin.
  destruct (_parse_manifest_inv _ _ _ Hp) as (Hn & _ & _ & Hwf).
  apply component_values_Ok in Hconf as (rules & Hr & Hconf). rewrite (rules_parsed settings m mcs modules Hp) in Hr.
  apply Ok_inj in Hr. subst rules.
  apply secret_references_Ok in Hsec as [Hsec _]. apply component_values_Ok in Hsec as (rules & Hr & Hsec).
  rewrite (rules_parsed settings m mcs modules Hp) in Hr. apply Ok_inj in Hr. subst rules.
  destruct (scaling_Ok settings rsc modules m mcs e sc Hsc Hlim Hp) as [Hk Hf].
  destruct (components_built settings mcs conf sec sc Hn Hconf Hdel Hsec Hk Hf) as (cs & Hcs).
  assert (Hslugs : forall secret v, host_map (rules_of mcs) secret v -> Forall (fun kv => fullmatch _COMPONENT_SLUG kv.1 = true) v).
  { intros secret v Hv. pose proof (host_map_keys _ _ _ Hv) as Hkv. apply Forall_forall. intros [k d] Hkd.
    assert (k ∈ keys mcs) as Hkm by (apply Hkv; unfold keys; apply list_elem_of_fmap; by exists (k, d)).
    unfold keys in Hkm. apply list_elem_of_fmap in Hkm as ([k' mc] & -> & Hmc). rewrite Forall_forall in Hwf.
    by destruct (Hwf _ Hmc). }
  unfold _controller_payload. rewrite Hm, Ec, Es, Esc, Henv, Hst.
  eexists. split; [eapply (parse_desired_intro settings allow_absent _ _ m _ (op_deployment o) st (release_manifest_digest x)
    (target_generation o) mcs (sent conf) (sent sec) cs); try reflexivity; try done|].
  - by eapply digest_hex.
  - by eapply mapping_accepted, Hslugs.
  - rewrite keys_sent. by eapply host_map_keys.
  - by eapply mapping_accepted, Hslugs.
  - rewrite keys_sent. by eapply host_map_keys.
  - intros k. rewrite keys_map_snd. apply Hk.
  - intros k. rewrite keys_map_snd. apply Hk.
  - cbn [deployment_id generation desired_state Contract.components]. split_and!; try done.
    apply build_components_Ok in Hcs as [-> _]. by rewrite keys_manifest.
Qed.

(** The sample deployment, entered at the host. *)
Module Entered.
Definition environment : RuntimeEnvironment := Shop.environment.
Definition configuration : values_map := [("web", [("LOG_LEVEL", "info")])].
Definition secret_refs : values_map := [("web", [("DB_PASSWORD", "shop-db")])].
Definition scaling : list (string * Scaling) := [("web", Fixed 2)].
Definition row : RuntimeDeployment := {|
  dep_application := 7; dep_environment := "production"; dep_desired_state := "running"; observed_state := "pending"; controller_id := "";
  dep_configuration := values_json configuration; dep_secret_refs := values_json secret_refs;
  dep_scaling := scaling_json scaling; dep_generation := 1; observed_generation := 0; revision := 1; dep_last_error := "";
  last_reconciled_at := None; deleted_at := None; release_manifest := PDict Sample.manifest;
  release_manifest_digest := Sample.manifest_digest; env_row := environment |}.
Definition operation : RuntimeOperation := {|
  op_deployment := Sample.id; operation_type := DEPLOY; status := QUEUED;
  op_payload := [("desired_state", PStr "running")]; progress := PNone; result := PNone; error := PNone;
  idempotency_key := "request-0001"; request_hash := ""; target_generation := 1; attempts := 0; controller_failures := 0; next_attempt_at := None; leased_by := "";
  lease_token := None; lease_expires_at := None; requested_at := 0; started_at := None; finished_at := None |}.

Lemma row_validated : validated [] environment Sample.manifest row configuration secret_refs scaling.
Proof.
  pose proof (parse_desired_Ok _ _ _ _ parse_sample) as (_ & _ & _ & _ & _ & Hd & _).
  constructor.
  - reflexivity.
  - exact Hd.
  - exists (values_json configuration). vm_compute. reflexivity.
  - exists (values_json secret_refs). vm_compute. reflexivity.
  - exists (scaling_json scaling). vm_compute. reflexivity.
  - split_and!; reflexivity.
Qed.
End Entered.

(** The host counts characters where the controller counts bytes of UTF-8: five values
    of 2048 two-byte characters pass the host's limit of 16 KiB and not the controller's. *)
Fixpoint repeated (n : nat) (s : string) : string := match n with O => "" | S n => (s ++ repeated n s)%string end.
Definition accents : list (string * pyval) :=
  map (fun k => (k, PStr (repeated 2048 (bytes [195; 169])))) ["K1"; "K2"; "K3"; "K4"; "K5"].
Example configuration_divergence :
  (exists r, foldM_res (check_entry "web" (keys accents) false) ([], 0) accents = Ok r) /\
  exists e, _validate_values accents (keys accents) "web" false = Raise e.
Proof. split; eexists; vm_compute; reflexivity. Qed.
