(* ===== verification/ControllerEnv.v ===== *)
(** How the controller is configured (dealhost/runtime_controller_service/config.py):
    [ControllerSettings.from_env] and [validate].

    [is_file] tells which paths are files, [read_text] what a file holds.  The durations of the
    settings are rationals; a float that is not finite, which every check refuses as it
    refuses a negative number, becomes [-1]. *)

From Stdlib Require Import QArith.
From S2P Require Import Prelude PyValue Regex PyText PyFloat Url Config Client HostEnv.
#[local] Open Scope list_scope.
#[local] Open Scope string_scope.
#[local] Open Scope Z_scope.

Definition configuration_error {A} (detail : string) : res A := Raise (ControllerConfigurationError detail).
Definition _PLACEHOLDERS : list string := [""; "replace-me"; "<runtime_controller_token>"].

(** ** Paths *)
(** [str(Path(s))]: its root and its parts. *)
Definition path_root (s : string) : string :=
  if startswith "///" s then "/" else if startswith "//" s then "//" else if startswith "/" s then "/" else "".
Definition path_parts (s : string) : list string :=
  List.filter (fun part => negb (mem part [""; "."])) (PyText.py_split "/" s).
Definition path_of (root : string) (parts : list string) : string :=
  let text := root ++ String.concat "/" parts in if String.eqb text "" then "." else text.
Definition path_text (s : string) : string := path_of (path_root s) (path_parts s).
(** [Path(s) / name]. *)
Definition path_join (s name : string) : string := path_of (path_root s) (path_parts s ++ [name])%list.
Definition is_absolute (s : string) : bool := startswith "/" s.

Definition seconds (f : float64) : Q :=
  match f with
  | FFin neg m e => let '(n, d) := ratio neg m e in (inject_Z n / inject_Z d)%Q
  | _ => inject_Z (-1)
  end.
(** The float [0.1]. *)
Definition tenth : Q := Qmake 3602879701896397 36028797018963968.

Section Controller.
Context (env : environ) (is_file : string -> bool) (read_text : string -> res string) `{UnicodeData} `{NetlocRules}.
(** [os.getenv(name, default)]. *)
Definition getenv (name default : string) : string := dget_or name default env.
Definition stripped_env (name default : string) : string := py_strip (getenv name default).

(** ** validate *)
Definition auth_token_ok (token : string) : bool :=
  negb (mem token _PLACEHOLDERS) && (32 <=? py_len token) && (py_len token <=? 256) && all_bytes visible token.
Definition check_labels (s : ControllerSettings) : res unit :=
  match List.find (fun lv => negb (fullmatch _DNS_LABEL lv.2))
          [("environment", environment s); ("namespace", namespace s);
           ("workload service account", workload_service_account s); ("secret catalog namespace", secret_catalog_namespace s)] with
  | Some (label, _) => configuration_error ("The runtime-controller " ++ label ++ " must be a canonical DNS label.")
  | None =>
      if negb (String.eqb (image_pull_secret s) "") && negb (fullmatch _DNS_LABEL (image_pull_secret s))
      then configuration_error "RUNTIME_CONTROLLER_IMAGE_PULL_SECRET must be a canonical DNS label."
      else if negb (fullmatch _DNS_LABEL (secret_name_prefix s))
      then configuration_error "RUNTIME_CONTROLLER_SECRET_NAME_PREFIX must be a canonical DNS label."
      else if negb (fullmatch _DNS_LABEL (secret_catalog_name s))
      then configuration_error "RUNTIME_CONTROLLER_SECRET_CATALOG_NAME must be a canonical DNS label."
      else Ok tt
  end.
Definition api_url_ok (parsed : url) (port : option Z) : bool :=
  String.eqb (scheme parsed) "https" && negb (empty (hostname parsed)) && empty (userinfo parsed).1 && empty (userinfo parsed).2
  && mem (path parsed) [""; "/"] && String.eqb (query parsed) "" && String.eqb (fragment parsed) ""
  && match port with Some p => (1 <=? p) && (p <=? 65535) | None => true end.
Definition check_api_url (s : ControllerSettings) : res unit :=
  match (parsed ← urlsplit (kubernetes_url s); p ← port parsed; Ok (parsed, p)) with
  | Raise e => if is_value_error e then configuration_error "RUNTIME_CONTROLLER_KUBERNETES_URL is invalid." else Raise e
  | Ok (parsed, p) =>
      if api_url_ok parsed p then Ok tt
      else configuration_error "The Kubernetes API URL must be an HTTPS origin without credentials or path."
  end.
Definition prefix_ok (prefix : string) : bool := endswith "/" prefix && negb (has_byte 64 prefix) && negb (any_space prefix).
Definition check_limits (s : ControllerSettings) : res unit :=
  if bool_decide (allowed_image_prefixes s = []) || negb (forallb prefix_ok (allowed_image_prefixes s))
  then configuration_error "RUNTIME_CONTROLLER_ALLOWED_IMAGE_PREFIXES must contain canonical repository prefixes ending in '/'."
  else if negb ((1 <=? max_replicas s) && (max_replicas s <=? 100))
  then configuration_error "RUNTIME_CONTROLLER_MAX_REPLICAS must be between 1 and 100."
  else if negb (Qle_bool 1 (request_timeout_seconds s) && Qle_bool (request_timeout_seconds s) 60)
  then configuration_error "RUNTIME_CONTROLLER_KUBERNETES_TIMEOUT_SECONDS must be between 1 and 60."
  else if negb ((10 <=? lease_duration_seconds s) && (lease_duration_seconds s <=? 300))
          || negb (Qle_bool (2 * request_timeout_seconds s) (inject_Z (lease_duration_seconds s)))
  then configuration_error "RUNTIME_CONTROLLER_LEASE_DURATION_SECONDS must be between 10 and 300 and at least twice the Kubernetes timeout."
  else if negb (Qle_bool tenth (lease_acquire_timeout_seconds s) && Qle_bool (lease_acquire_timeout_seconds s) 30)
  then configuration_error "RUNTIME_CONTROLLER_LEASE_ACQUIRE_TIMEOUT_SECONDS must be between 0.1 and 30."
  else Ok tt.
Definition check_files (s : ControllerSettings) : res unit :=
  match List.find (fun lp => negb (is_absolute lp.2) || negb (is_file lp.2))
          [("service-account token", kubernetes_token_file s); ("Kubernetes CA", kubernetes_ca_file s)] with
  | Some (label, _) => configuration_error ("The mounted " ++ label ++ " file is missing or is not absolute.")
  | None => Ok tt
  end.
Definition validate (require_files : bool) (s : ControllerSettings) : res unit :=
  if negb (auth_token_ok (auth_token s))
  then configuration_error "RUNTIME_CONTROLLER_AUTH_TOKEN must contain 32-256 visible ASCII characters."
  else
    _ ← check_labels s;
    _ ← check_api_url s;
    _ ← check_limits s;
    if require_files then check_files s else Ok tt.

(** ** from_env *)
Definition service_account_root : string :=
  getenv "RUNTIME_CONTROLLER_SERVICE_ACCOUNT_ROOT" "/var/run/secrets/kubernetes.io/serviceaccount".
Definition configured_namespace : res string :=
  let configured := stripped_env "RUNTIME_CONTROLLER_NAMESPACE" "" in
  if negb (String.eqb configured "") then Ok configured
  else
    match read_text (path_join service_account_root "namespace") with
    | Ok text => Ok (py_strip text)
    | Raise OSError => configuration_error "RUNTIME_CONTROLLER_NAMESPACE or the mounted service-account namespace is required."
    | Raise e => Raise e
    end.
Definition configured_url : string :=
  let host := stripped_env "KUBERNETES_SERVICE_HOST" "" in
  let port := stripped_env "KUBERNETES_SERVICE_PORT_HTTPS" "443" in
  let default_url := if String.eqb host "" then "" else "https://" ++ host ++ ":" ++ port in
  rstrip_char "/" (stripped_env "RUNTIME_CONTROLLER_KUBERNETES_URL" default_url).
Definition configured_numbers : res (Z * float64 * Z * float64) :=
  match py_int (getenv "RUNTIME_CONTROLLER_MAX_REPLICAS" "10"),
        float_of_str (getenv "RUNTIME_CONTROLLER_KUBERNETES_TIMEOUT_SECONDS" "15"),
        py_int (getenv "RUNTIME_CONTROLLER_LEASE_DURATION_SECONDS" "30"),
        float_of_str (getenv "RUNTIME_CONTROLLER_LEASE_ACQUIRE_TIMEOUT_SECONDS" "10") with
  | Some maximum, Some timeout, Some lease_duration, Some lease_acquire_timeout =>
      Ok (maximum, timeout, lease_duration, lease_acquire_timeout)
  | _, _, _, _ => configuration_error "Runtime-controller numeric settings are invalid."
  end.
Definition from_env : res ControllerSettings :=
  namespace ← configured_namespace;
  '(maximum, timeout, lease_duration, lease_acquire_timeout) ← configured_numbers;
  let settings := {|
    auth_token := stripped_env "RUNTIME_CONTROLLER_AUTH_TOKEN" "";
    environment := stripped_env "RUNTIME_CONTROLLER_ENVIRONMENT" "production";
    namespace := namespace;
    kubernetes_url := configured_url;
    kubernetes_token_file := path_text (getenv "RUNTIME_CONTROLLER_KUBERNETES_TOKEN_FILE" (path_join service_account_root "token"));
    kubernetes_ca_file := path_text (getenv "RUNTIME_CONTROLLER_KUBERNETES_CA_FILE" (path_join service_account_root "ca.crt"));
    allowed_image_prefixes := csv_items (getenv "RUNTIME_CONTROLLER_ALLOWED_IMAGE_PREFIXES" "ghcr.io/smartappli/");
    workload_service_account := stripped_env "RUNTIME_CONTROLLER_WORKLOAD_SERVICE_ACCOUNT" "dealhost-runtime-application";
    image_pull_secret := stripped_env "RUNTIME_CONTROLLER_IMAGE_PULL_SECRET" "archideal-registry-credentials";
    secret_name_prefix := stripped_env "RUNTIME_CONTROLLER_SECRET_NAME_PREFIX" "dealapp";
    secret_catalog_name := stripped_env "RUNTIME_CONTROLLER_SECRET_CATALOG_NAME" "dealhost-runtime-secret-catalog";
    secret_catalog_namespace := stripped_env "RUNTIME_CONTROLLER_SECRET_CATALOG_NAMESPACE" "archideal";
    max_replicas := maximum;
    request_timeout_seconds := seconds timeout;
    lease_duration_seconds := lease_duration;
    lease_acquire_timeout_seconds := seconds lease_acquire_timeout |} in
  _ ← validate true settings;
  Ok settings.
End Controller.
