(* ===== verification/ControllerEnvSpec.v ===== *)
(** Properties of the controller's settings: what a controller that starts relies on, and that
    the host and the controller share a token. *)

From Stdlib Require Import QArith Qminmax Lqa.
From S2P Require Import Prelude PyValue Regex PyText PyFloat Url Config Kube Contract InputsSpec Lease Asgi Client Gateway HostEnv HostEnvSpec ControllerEnv.
#[local] Open Scope list_scope.
#[local] Open Scope string_scope.
#[local] Open Scope Z_scope.

(** ** The lease outlives a request *)
Lemma renewal_in_time (s : ControllerSettings) :
  10 <= lease_duration_seconds s -> (2 * request_timeout_seconds s <= inject_Z (lease_duration_seconds s))%Q ->
  (renew_interval s + request_timeout_seconds s < inject_Z (lease_duration_seconds s))%Q.
Proof.
  intros Hd Ht. unfold renew_interval. assert (10 <= inject_Z (lease_duration_seconds s))%Q as Hq.
  { change 10%Q with (inject_Z 10). by rewrite <- Zle_Qle. }
  set (d := inject_Z (lease_duration_seconds s)) in *. clearbody d. set (t := request_timeout_seconds s) in *. clearbody t.
  destruct (Q.max_spec 1 (d / 3)) as [[_ ->]|[_ ->]].
  - unfold Qdiv. assert (/ 3 == 1 # 3)%Q as -> by reflexivity. lra.
  - lra.
Qed.

Record ready_controller `{UnicodeData} `{NetlocRules} (is_file : string -> bool) (s : ControllerSettings) : Prop := {
  visible_token : 32 <= py_len (auth_token s) <= 256 /\ all_bytes visible (auth_token s) = true;
  label_names : forall name, name ∈ [environment s; namespace s; workload_service_account s; secret_catalog_namespace s;
                                     secret_name_prefix s; secret_catalog_name s] -> fullmatch _DNS_LABEL name = true;
  secure_api : exists u, urlsplit (kubernetes_url s) = Ok u /\ scheme u = "https" /\ empty (hostname u) = false /\
    empty (userinfo u).1 = true /\ empty (userinfo u).2 = true /\ path u ∈ [""; "/"];
  some_prefixes : allowed_image_prefixes s <> [] /\
    forall p, p ∈ allowed_image_prefixes s -> endswith "/" p = true /\ has_byte 64 p = false;
  bounded_replicas : 1 <= max_replicas s <= 100;
  bounded_request : (1 <= request_timeout_seconds s <= 60)%Q;
  bounded_lease : 10 <= lease_duration_seconds s <= 300;
  bounded_acquisition : (0 < lease_acquire_timeout_seconds s <= 30)%Q;
  renewed_in_time : (renew_interval s + request_timeout_seconds s < inject_Z (lease_duration_seconds s))%Q;
  mounted_files : is_file (kubernetes_token_file s) = true /\ is_file (kubernetes_ca_file s) = true
}.

Lemma find_none {A} (f : A -> bool) (l : list A) : List.find f l = None -> forall x, x ∈ l -> f x = false.
Proof. intros K x Hx%list_elem_of_In. by apply (List.find_none f l K). Qed.

Section Claims.
Context (env : environ) (is_file : string -> bool) (read_text : string -> res string) `{UnicodeData} `{NetlocRules}.

Lemma validate_Ok (s : ControllerSettings) (u : unit) : validate is_file true s = Ok u -> ready_controller is_file s.
Proof.
  unfold validate. destruct (auth_token_ok (auth_token s)) eqn:Ht; [|done]. cbn [negb].
  intros (u1 & Hl & E)%bind_Ok. apply bind_Ok in E as (u2 & Hu & E). apply bind_Ok in E as (u3 & Hlim & Hf).
  unfold auth_token_ok in Ht. rewrite !andb_true_iff in Ht. destruct Ht as (((_ & Hlo) & Hhi) & Hvis).
  unfold check_labels in Hl. destruct (List.find _ _) as [[]|] eqn:Ef in Hl; [done|].
  destruct (_ && _) in Hl; [done|]. destruct (fullmatch _DNS_LABEL (secret_name_prefix s)) eqn:Hpre; [|done].
  destruct (fullmatch _DNS_LABEL (secret_catalog_name s)) eqn:Hcat; [|done]. clear Hl.
  unfold check_api_url in Hu. destruct (parsed ← urlsplit _; _) as [[pu p]|e] eqn:Eu; [|by destruct (is_value_error e)].
  destruct (api_url_ok pu p) eqn:Hok; [|done]. apply bind_Ok in Eu as (pu' & Hpu & Eu). apply bind_Ok in Eu as (p' & _ & Eu).
  injection Eu as -> ->. unfold api_url_ok in Hok. rewrite !andb_true_iff in Hok.
  destruct Hok as (((((((Hs%String.eqb_eq & Hh%negb_true_iff) & Hu1) & Hu2) & Hpath%mem_In) & _) & _) & _).
  unfold check_limits in Hlim. destruct (_ || _) eqn:Hp in Hlim; [done|].
  apply orb_false_iff in Hp as (Hne%bool_decide_eq_false & Hall%negb_false_iff).
  destruct (negb (_ && _)) eqn:Hm in Hlim; [done|]. apply negb_false_iff, andb_true_iff in Hm as (Hm1%Z.leb_le & Hm2%Z.leb_le).
  destruct (negb (_ && _)) eqn:Hr in Hlim; [done|]. apply negb_false_iff, andb_true_iff in Hr as (Hr1%Qle_bool_iff & Hr2%Qle_bool_iff).
  destruct (_ || _) eqn:Hd in Hlim; [done|].
  apply orb_false_iff in Hd as ((Hd1%Z.leb_le & Hd2%Z.leb_le)%negb_false_iff%andb_true_iff & Hd3%negb_false_iff%Qle_bool_iff).
  destruct (negb (_ && _)) eqn:Ha in Hlim; [done|]. apply negb_false_iff, andb_true_iff in Ha as (Ha1%Qle_bool_iff & Ha2%Qle_bool_iff).
  unfold check_files in Hf. destruct (List.find _ _) as [[]|] eqn:Eff in Hf; [done|].
  pose proof (find_none _ _ Ef) as Kl. pose proof (find_none _ _ Eff) as Kf. split.
  - split; [lia|done].
  - intros name Hn. rewrite !elem_of_cons, elem_of_nil in Hn.
    destruct Hn as [->|[->|[->|[->|[->|[->|[]]]]]]]; try done; apply negb_false_iff.
    + apply (Kl ("environment", environment s)). set_solver.
    + apply (Kl ("namespace", namespace s)). set_solver.
    + apply (Kl ("workload service account", workload_service_account s)). set_solver.
    + apply (Kl ("secret catalog namespace", secret_catalog_namespace s)). set_solver.
  - exists pu. done.
  - split; [done|]. intros q Hq. rewrite forallb_forall in Hall. specialize (Hall q (proj1 (list_elem_of_In _ _) Hq)).
    unfold prefix_ok in Hall. rewrite !andb_true_iff, !negb_true_iff in Hall. tauto.
  - lia.
  - done.
  - lia.
  - split; [|done]. eapply Qlt_le_trans; [|exact Ha1]. done.
  - by apply renewal_in_time.
  - split; [specialize (Kf ("service-account token", kubernetes_token_file s))|specialize (Kf ("Kubernetes CA", kubernetes_ca_file s))].
    all: cbn in Kf; rewrite orb_false_iff, !negb_false_iff in Kf; apply Kf; set_solver.
Qed.

(** A controller that starts is ready: its token is 32 to 256 visible characters, its names are
    DNS labels, the API it calls is an HTTPS origin without credentials, its image prefixes end in
    a slash, its files are there, its limits are in their bounds, and a renewal of the lease that
    is sent in time and answered within the time of a request comes before the lease expires. *)
Theorem controller_starts_ready (s : ControllerSettings) : from_env env is_file read_text = Ok s -> ready_controller is_file s.
Proof.
  unfold from_env. intros (n & _ & E)%bind_Ok. apply bind_Ok in E as ((((m & t) & d) & a) & _ & E).
  apply bind_Ok in E as (u & Hv & [= <-]). by eapply validate_Ok.
Qed.
End Claims.

(** ** The token of the host and of the controller *)
Lemma long_token (token : string) (l : list string) :
  32 <= py_len token -> forallb (fun p => py_len p <? 32) l = true -> mem token l = false.
Proof.
  intros Hl Hall. apply not_true_iff_false. intros Hin%mem_In. rewrite forallb_forall in Hall.
  specialize (Hall token (proj1 (list_elem_of_In _ _) Hin)). lia.
Qed.

(** The host takes the tokens the controller takes, but for those in angle brackets. *)
Theorem host_token_is_controller_token (token : string) :
  controller_token_ok token = auth_token_ok token && negb (startswith "<" token && endswith ">" token).
Proof.
  unfold controller_token_ok, auth_token_ok, _is_placeholder.
  destruct (Z.leb_spec 32 (py_len token)) as [Hl|]; [|by rewrite !andb_false_r].
  destruct (all_bytes visible token) eqn:Hv; [|by rewrite !andb_false_r]. rewrite (strip_visible token Hv).
  rewrite !(long_token token _ Hl) by (vm_compute; reflexivity). cbn [negb andb orb]. rewrite !andb_true_r. apply andb_comm.
Qed.

(** Text between two characters that are not white space is stripped to itself. *)
Lemma drop_while_head {A} (p : A -> bool) (x : A) (l : list A) : p x = false -> drop_while p (x :: l) = x :: l.
Proof. intros Hx. cbn. by rewrite Hx. Qed.
Lemma strip_ends (s first last : string) (mid : list string) :
  pychars s = (first :: mid ++ [last])%list -> is_space first = false -> is_space last = false -> py_strip s = s.
Proof.
  intros Hs Hf Hl. unfold py_strip, strip_chars. rewrite Hs, drop_while_head by done.
  rewrite app_comm_cons, rev_app_distr. cbn [rev app]. rewrite drop_while_head by done.
  change (last :: rev mid ++ [first])%list with (rev [last] ++ rev (first :: mid))%list.
  rewrite <- rev_app_distr, rev_involutive. cbn [app]. by rewrite <- Hs, concat_pychars.
Qed.
Lemma visible_ascii (s : string) : all_bytes visible s = true -> all_bytes is_ascii s = true.
Proof. apply all_bytes_impl. unfold visible, is_ascii. lia. Qed.
Lemma strip_bearer (token : string) :
  all_bytes visible token = true -> token <> "" -> py_strip ("Bearer " ++ token) = ("Bearer " ++ token)%string.
Proof.
  intros Hv Hne. assert (list_ascii_of_string token <> []) as Hl by by destruct token.
  destruct (exists_last Hl) as (k & z & Hk). rewrite all_bytes_string, Hk, forallb_app in Hv.
  apply andb_true_iff in Hv as (Hv & Hz). cbn in Hz. rewrite andb_true_r in Hz.
  apply (strip_ends _ "B" (String z "") (map (fun a => String a "") (list_ascii_of_string "earer " ++ k)%list)).
  - rewrite pychars_ascii.
    + cbn [String.append list_ascii_of_string map app]. do 7 f_equal. by rewrite Hk, map_app.
    + rewrite all_bytes_app. apply andb_true_intro. split; [done|]. apply visible_ascii. rewrite all_bytes_string, Hk, forallb_app, Hv. cbn. by rewrite Hz.
  - done.
  - by apply visible_not_space.
Qed.
Lemma decode_latin1_ascii (s : string) : all_bytes is_ascii s = true -> decode_latin1 s = s.
Proof.
  induction s as [|a s IH]; [done|]. cbn [all_bytes decode_latin1]. intros (Ha & Hs)%andb_true_iff.
  unfold is_ascii in Ha. replace (code a <? 128) with true by lia. by rewrite IH.
Qed.
Lemma request_id_visible (s : string) : fullmatch _REQUEST_ID s = true -> all_bytes visible s = true.
Proof. intros K%fullmatch_spec. revert K. apply matches_all. repeat split; byte_class. Qed.

(** What the controller reads of the headers the client sends. *)
Lemma headers_read (cfg : RuntimeControllerConfig) (rid : string) :
  all_bytes visible (Client.token cfg) = true -> Client.token cfg <> "" -> all_bytes visible rid = true ->
  _headers (request_headers cfg rid) =
    Ok [("accept", "application/json"); ("authorization", ("Bearer " ++ Client.token cfg)%string);
        ("idempotency-key", rid); ("x-request-id", rid)].
Proof.
  intros Ht Hne Hr. unfold request_headers, _headers. cbn -[py_strip decode_latin1 String.append].
  rewrite !decode_latin1_ascii, strip_bearer, (strip_visible rid); try done; [by rewrite all_bytes_app; apply visible_ascii in Ht; rewrite Ht|by apply visible_ascii].
Qed.

(** ** Starting values, and the two environments *)
Section Shared.
Context (host_env controller_env : environ) (host_file controller_file : string -> bool) (read_text : string -> res string)
  `{UnicodeData} `{NetlocRules}.

Lemma controller_token_of (s : ControllerSettings) :
  from_env controller_env controller_file read_text = Ok s ->
  auth_token s = py_strip (dget_or "RUNTIME_CONTROLLER_AUTH_TOKEN" "" controller_env).
Proof.
  unfold from_env. intros (n & _ & E)%bind_Ok. apply bind_Ok in E as ((((m & t) & d) & a) & _ & E).
  by apply bind_Ok in E as (u & _ & [= <-]).
Qed.
Lemma host_token_of (tls : bool) (cfg : RuntimeControllerConfig) :
  runtime_controller_config host_env host_file tls = Ok cfg -> base_url cfg <> "" ->
  Client.token cfg = py_strip (dget_or "DEALHOST_RUNTIME_CONTROLLER_TOKEN" "" host_env) /\ controller_token_ok (Client.token cfg) = true.
Proof.
  unfold runtime_controller_config. intros (raw & _ & E)%bind_Ok Hurl. apply bind_Ok in E as (ca & _ & E).
  apply bind_Ok in E as (token & Htok & E). apply bind_Ok in E as (text & _ & E). destruct (float_of_str text) as [t|]; [|done].
  destruct (negb (_ && _)) in E; [done|]. destruct (String.eqb (rstrip_char "/" raw) ""); [by injection E as <-|].
  destruct (parsed ← urlsplit _; _) as [[u p]|e] in E; [|by destruct (is_value_error e)].
  destruct (negb _) in E; [done|]. destruct (_ && _) in E; [done|]. apply bind_Ok in E as (? & _ & E).
  destruct (controller_token_ok token) eqn:Hok; [|done]. injection E as <-. split; [|done]. cbn [Client.token].
  unfold get_secret_env, get_env, dget_or in *. cbn [negb andb] in Htok.
  destruct (dget _ host_env) as [v|]; cbn in Htok; by injection Htok as <-.
Qed.

End Shared.

(** ** Examples *)
Module SampleController.
#[local] Existing Instance ascii_unicode.
#[local] Existing Instance SampleHost.plain_netloc.
Definition variables : environ :=
  [("RUNTIME_CONTROLLER_AUTH_TOKEN", (SampleHost.controller_token ++ " ")%string); ("KUBERNETES_SERVICE_HOST", "10.96.0.1");
   ("KUBERNETES_SERVICE_PORT_HTTPS", "6443")].
Definition service_account : string := "/var/run/secrets/kubernetes.io/serviceaccount".
Definition mounted (file : string) : bool := mem file [(service_account ++ "/token")%string; (service_account ++ "/ca.crt")%string].
Definition mounted_text (file : string) : res string :=
  if String.eqb file (service_account ++ "/namespace") then Ok ("dealhost-runtime" ++ bytes [10])%string else Raise OSError.
Definition configured_controller : ControllerSettings := Eval vm_compute in
  match from_env variables mounted mounted_text with
  | Ok s => s
  | Raise _ => {| auth_token := ""; environment := ""; namespace := ""; kubernetes_url := ""; kubernetes_token_file := "";
      kubernetes_ca_file := ""; allowed_image_prefixes := []; workload_service_account := ""; image_pull_secret := "";
      secret_name_prefix := ""; secret_catalog_name := ""; secret_catalog_namespace := ""; max_replicas := 0;
      request_timeout_seconds := 0; lease_duration_seconds := 0; lease_acquire_timeout_seconds := 0 |}
  end.
Lemma controller_run : from_env variables mounted mounted_text = Ok configured_controller.
Proof. vm_compute. reflexivity. Qed.
Example controller_url : kubernetes_url configured_controller = "https://10.96.0.1:6443".
Proof. reflexivity. Qed.
(** A lease that does not outlast two requests, a placeholder for the token, and a namespace that
    is nowhere stop the start. *)
Example short_lease_refused :
  from_env (dset "RUNTIME_CONTROLLER_LEASE_DURATION_SECONDS" "29" variables) mounted mounted_text
  = configuration_error "RUNTIME_CONTROLLER_LEASE_DURATION_SECONDS must be between 10 and 300 and at least twice the Kubernetes timeout.".
Proof. vm_compute. reflexivity. Qed.
Example placeholder_token_refused :
  from_env (dset "RUNTIME_CONTROLLER_AUTH_TOKEN" "<runtime_controller_token>" variables) mounted mounted_text
  = configuration_error "RUNTIME_CONTROLLER_AUTH_TOKEN must contain 32-256 visible ASCII characters.".
Proof. vm_compute. reflexivity. Qed.
Example namespace_required :
  from_env variables mounted (fun _ => Raise OSError)
  = configuration_error "RUNTIME_CONTROLLER_NAMESPACE or the mounted service-account namespace is required.".
Proof. vm_compute. reflexivity. Qed.
(** A token in angle brackets starts the controller, and not the host. *)
Example bracketed_token : forall token, token = ("<" ++ SampleHost.controller_token ++ ">")%string ->
  auth_token_ok token = true /\ controller_token_ok token = false.
Proof. intros token ->. split; vm_compute; reflexivity. Qed.

Lemma controller_starts_ready_witness :
  from_env variables mounted mounted_text = Ok configured_controller /\ ready_controller mounted configured_controller.
Proof. split; [exact controller_run|]. exact (controller_starts_ready variables mounted mounted_text configured_controller controller_run). Defined.

Definition status_request : request :=
  {| rq_method := "GET"; rq_target := "/v1/deployments/abc"; rq_query := "";
     rq_raw_headers := request_headers (RUNTIME_CONTROLLER SampleHost.configured_host) "request-0001"; rq_messages := [] |}.
Lemma host_controller_run :
  runtime_controller_config SampleHost.environment SampleHost.files true = Ok (RUNTIME_CONTROLLER SampleHost.configured_host).
Proof. vm_compute. reflexivity. Qed.
End SampleController.
