(* ===== verification/Application.v ===== *)
(** The rest of the controller's HTTP application: what it counts
    (dealhost/runtime_controller_service/metrics.py) and, in asgi.py, the probes, the metrics
    endpoint, the lifespan and the wrapper that loads the settings.

    Durations are an abstract type with the operations the code uses; [ready] is the client's
    [ready] ([Kube.ready]). *)

From Stdlib Require Import QArith.
From S2P Require Import Prelude PyValue Regex Json PyText Url Config Kube Lease Service Asgi HostEnv ControllerEnv.
#[local] Open Scope list_scope.
#[local] Open Scope string_scope.
#[local] Open Scope Z_scope.

(** ** metrics.py *)
Class Durations (D : Type) := {
  no_time : D;
  add_time : D -> D -> D;
  (** [max(duration, 0.0)]. *)
  non_negative : D -> D;
  (** [format(value, ".12g")]. *)
  time_text : D -> string
}.
Record series := { method_label : string; route_label : string }.
#[export] Instance series_eq_dec : EqDecision series.
Proof. solve_decision. Defined.

(** [d[k] = f(d[k])] of a [defaultdict]. *)
Fixpoint update_default {K A} `{EqDecision K} (k : K) (dflt : A) (f : A -> A) (d : list (K * A)) : list (K * A) :=
  match d with
  | [] => [(k, f dflt)]
  | (k', v) :: d => if decide (k = k') then (k', f v) :: d else (k', v) :: update_default k dflt f d
  end.
Definition lookup_default {K A} `{EqDecision K} (k : K) (dflt : A) (d : list (K * A)) : A :=
  match List.find (fun kv => bool_decide (k = kv.1)) d with Some kv => kv.2 | None => dflt end.

Section Metrics.
Context {D : Type} `{Durations D}.
Record RuntimeControllerMetrics := {
  started_at : D;
  _requests : list (series * Z * Z);
  _duration_count : list (series * Z);
  _duration_sum : list (series * D)
}.
Definition new_metrics (now : D) : RuntimeControllerMetrics :=
  {| started_at := now; _requests := []; _duration_count := []; _duration_sum := [] |}.
Definition observe_request (s : series) (status : Z) (duration : D) (m : RuntimeControllerMetrics) : RuntimeControllerMetrics :=
  {| started_at := started_at m;
     _requests := update_default (s, status) 0 (fun n => n + 1) (_requests m);
     _duration_count := update_default s 0 (fun n => n + 1) (_duration_count m);
     _duration_sum := update_default s no_time (fun t => add_time t (non_negative duration)) (_duration_sum m) |}.

(** *** render *)
Definition _escape_label (value : string) : string :=
  String.concat "" (map (fun a =>
    if code a =? 92 then bytes [92; 92] else if code a =? 10 then bytes [92; 110] else if code a =? 34 then bytes [92; 34]
    else String a "") (list_ascii_of_string value)).
(** The labels in the order of their names. *)
Definition _sample (name value : string) (labels : list (string * string)) : string :=
  let rendered := String.concat "," (map (fun kl => kl.1 ++ "=" ++ bytes [34] ++ _escape_label kl.2 ++ bytes [34]) labels) in
  name ++ (if bool_decide (labels = []) then "" else "{" ++ rendered ++ "}") ++ " " ++ value.
Definition labels_of (s : series) : list (string * string) := [("method", method_label s); ("route", route_label s)].
(** [sorted]: of tuples, by their parts; no two keys are equal. *)
Definition series_leb (a b : series) : bool :=
  match String.compare (method_label a) (method_label b) with
  | Lt => true | Gt => false
  | Eq => match String.compare (route_label a) (route_label b) with Gt => false | _ => true end
  end.
Definition request_leb (a b : series * Z * Z) : bool :=
  if decide (a.1.1 = b.1.1) then a.1.2 <=? b.1.2 else series_leb a.1.1 b.1.1.
Fixpoint insert_by {A} (leb : A -> A -> bool) (x : A) (l : list A) : list A :=
  match l with [] => [x] | y :: l' => if leb x y then x :: l else y :: insert_by leb x l' end.
Definition sort_by {A} (leb : A -> A -> bool) (l : list A) : list A := foldr (insert_by leb) [] l.

Definition PREFIX : string := "dealhost_runtime_controller_".
Definition render_lines (kubernetes_ready : bool) (m : RuntimeControllerMetrics) : list string :=
  ([("# HELP " ++ PREFIX ++ "process_start_time_seconds Unix time when the controller process started.")%string;
    ("# TYPE " ++ PREFIX ++ "process_start_time_seconds gauge")%string;
    _sample (PREFIX ++ "process_start_time_seconds") (time_text (started_at m)) [];
    ("# HELP " ++ PREFIX ++ "kubernetes_ready Whether the Kubernetes API and controller credentials are ready.")%string;
    ("# TYPE " ++ PREFIX ++ "kubernetes_ready gauge")%string;
    _sample (PREFIX ++ "kubernetes_ready") (if kubernetes_ready then "1" else "0") [];
    ("# HELP " ++ PREFIX ++ "requests_total Runtime-controller HTTP responses.")%string;
    ("# TYPE " ++ PREFIX ++ "requests_total counter")%string] ++
   map (fun r => _sample (PREFIX ++ "requests_total") (py_str_int r.2) (labels_of r.1.1 ++ [("status", py_str_int r.1.2)]))
     (sort_by request_leb (_requests m)) ++
   [("# HELP " ++ PREFIX ++ "request_duration_seconds Runtime-controller request duration by route.")%string;
    ("# TYPE " ++ PREFIX ++ "request_duration_seconds summary")%string] ++
   flat_map (fun c =>
     [_sample (PREFIX ++ "request_duration_seconds_count") (py_str_int c.2) (labels_of c.1);
      _sample (PREFIX ++ "request_duration_seconds_sum") (time_text (lookup_default c.1 no_time (_duration_sum m))) (labels_of c.1)])
     (sort_by (fun a b => series_leb a.1 b.1) (_duration_count m)))%list.
Definition render (kubernetes_ready : bool) (m : RuntimeControllerMetrics) : string :=
  (String.concat (bytes [10]) (render_lines kubernetes_ready m) ++ bytes [10])%string.
End Metrics.
Arguments RuntimeControllerMetrics : clear implicits.

(** ** The labels of a request *)
Definition METHODS : list string := ["GET"; "POST"; "PUT"; "DELETE"].
Definition observed_method (method : string) : string := if mem method METHODS then method else "OTHER".
Definition _route_label (path : string) : string :=
  if mem path ["/health/live"; "/health/ready"; "/metrics"; "/v1/deployments"] then path
  else
    match _LOG_ROUTE path, _ACTION_ROUTE path, _DEPLOYMENT_ROUTE path with
    | Some _, _, _ => "/v1/deployments/{deployment_id}/logs"
    | None, Some (_, action), _ => "/v1/deployments/{deployment_id}/actions/" ++ action
    | None, None, Some _ => "/v1/deployments/{deployment_id}"
    | None, None, None => "unknown"
    end.
Definition series_of (rq : request) : series :=
  {| method_label := observed_method (rq_method rq); route_label := _route_label (rq_target rq) |}.

(** ** The application *)
Section Application.
Context (settings : ControllerSettings) {W D : Type} `{KubeClient W} `{Runtime W} `{Durations D} `{UnicodeData} `{NetlocRules}.
Variable is_file : string -> bool.
Variable read_text : string -> res string.
Variable ready : M W unit.

Definition _text_response (status : Z) (content : string) : reply :=
  {| rp_status := status;
     rp_headers := [("content-type", "text/plain; version=0.0.4; charset=utf-8"); ("cache-control", "no-store");
                    ("content-length", py_str_int (byte_len content)); ("x-content-type-options", "nosniff")];
     rp_body := content |}.
(** [except (ControllerConfigurationError, KubernetesApiError, OSError)]. *)
Definition unavailable (e : pyexn) : bool :=
  match e with ControllerConfigurationError _ | KubernetesApiError _ _ | OSError => true | _ => false end.
Definition or_unavailable {A} (m : M W A) (handler : A) : M W A :=
  fun w => match m w with (Raise e, w') => if unavailable e then (Ok handler, w') else (Raise e, w') | r => r end.
Definition check_ready : M W unit :=
  _ ← lift (validate is_file true settings);
  text ← lift (read_text (kubernetes_token_file settings));
  _ ← lift (if String.eqb (py_strip text) "" then configuration_error "The projected Kubernetes token is empty." else Ok tt);
  ready.
Definition status_reply (status : Z) (text : string) : res reply := _response status (PDict [("status", PStr text)]) "".
Definition _ready : M W reply :=
  ok ← or_unavailable (_ ← check_ready; mret true) false;
  lift (if ok : bool then status_reply 200 "ready" else status_reply 503 "unavailable").
Definition _metrics (m : RuntimeControllerMetrics D) : M W reply :=
  kubernetes_ready ← or_unavailable (_ ← lift (validate is_file true settings); _ ← ready; mret true) false;
  mret (_text_response 200 (render kubernetes_ready m)).

Definition answer_request (m : RuntimeControllerMetrics D) (rq : request) : M W reply :=
  if String.eqb (rq_method rq) "GET" && String.eqb (rq_target rq) "/health/live" then lift (status_reply 200 "ok")
  else if String.eqb (rq_method rq) "GET" && String.eqb (rq_target rq) "/health/ready" then _ready
  else if String.eqb (rq_method rq) "GET" && String.eqb (rq_target rq) "/metrics" then _metrics m
  else serve settings rq.
(** [__call__]: the response is counted when it starts, after the metrics it may hold. *)
Definition application (rq : request) (duration : D) : M (RuntimeControllerMetrics D * W) reply :=
  fun '(m, w) =>
    match answer_request m rq w with
    | (Ok r, w') => (Ok r, (observe_request (series_of rq) (rp_status r) duration m, w'))
    | (Raise e, w') => (Raise e, (m, w'))
    end.

(** *** _lifespan: the messages received and those sent *)
Inductive lifespan_message := Startup | Shutdown | OtherLifespan.
Inductive lifespan_reply := StartupComplete | ShutdownComplete.
Fixpoint _lifespan (messages : list lifespan_message) : list lifespan_reply :=
  match messages with
  | [] => []
  | Startup :: messages => StartupComplete :: _lifespan messages
  | Shutdown :: _ => [ShutdownComplete]
  | OtherLifespan :: messages => _lifespan messages
  end.
End Application.

(** ** LazyRuntimeControllerApplication: the settings are read by the first call that finds them *)
Section Lazy.
Context (env : environ) (is_file : string -> bool) (read_text : string -> res string) `{UnicodeData} `{NetlocRules}.
Definition lazy_settings (loaded : option ControllerSettings) : res ControllerSettings :=
  match loaded with Some settings => Ok settings | None => from_env env is_file read_text end.
End Lazy.
