(* ===== verification/ApplicationSpec.v ===== *)
(** Properties of the controller's probes and metrics: what is counted, that no request can
    make the metrics grow without bound or break their lines, and when the controller says it
    is ready. *)

From Stdlib Require Import QArith.
From S2P Require Import Prelude PyValue Regex Json PyText Url ConsoleSpec Wire Config Kube Lease Service Cluster ServiceSpec Asgi AsgiSpec HostEnv HostEnvSpec ControllerEnv ControllerEnvSpec Application.
#[local] Open Scope list_scope.
#[local] Open Scope string_scope.
#[local] Open Scope Z_scope.

(** ** Dictionaries with a default *)
Section Default.
Context {K A : Type} `{EqDecision K} (dflt : A) (f : A -> A).
Lemma update_default_keys (k : K) (d : list (K * A)) :
  (k ∈ d.*1 /\ (update_default k dflt f d).*1 = d.*1) \/ (k ∉ d.*1 /\ (update_default k dflt f d).*1 = (d.*1 ++ [k])%list).
Proof.
  induction d as [|[k' v] d IH]; cbn; [right; split; [apply not_elem_of_nil|done]|]. case_decide as E; cbn.
  - subst. left. split; [by left|done].
  - destruct IH as [(Hin & ->)|(Hin & ->)]; [left; split; [by right|done]|right; split; [|done]]. by rewrite not_elem_of_cons.
Qed.
Lemma update_default_NoDup (k : K) (d : list (K * A)) : NoDup d.*1 -> NoDup (update_default k dflt f d).*1.
Proof.
  intros Hd. destruct (update_default_keys k d) as [(_ & ->)|(Hin & ->)]; [done|]. apply NoDup_app. split; [done|].
  split; [|apply NoDup_singleton]. intros x Hx ->%list_elem_of_singleton. done.
Qed.
Lemma update_default_in (P : K -> Prop) (k : K) (d : list (K * A)) : P k -> Forall P d.*1 -> Forall P (update_default k dflt f d).*1.
Proof. intros Hk Hd. destruct (update_default_keys k d) as [(_ & ->)|(_ & ->)]; [done|]. rewrite Forall_app. by repeat constructor. Qed.
End Default.
Definition total {K} (d : list (K * Z)) : Z := foldr (fun kv n => kv.2 + n) 0 d.
Lemma total_update {K} `{EqDecision K} (k : K) (d : list (K * Z)) : total (update_default k 0 (fun n => n + 1) d) = total d + 1.
Proof. induction d as [|[k' v] d IH]; cbn; [done|]. case_decide; cbn; [lia|]. unfold total in IH. rewrite IH. lia. Qed.

(** ** The labels *)
Definition all_methods : list string := ["GET"; "POST"; "PUT"; "DELETE"; "OTHER"].
Definition all_routes : list string :=
  ["/health/live"; "/health/ready"; "/metrics"; "/v1/deployments"; "/v1/deployments/{deployment_id}/logs";
   "/v1/deployments/{deployment_id}/actions/start"; "/v1/deployments/{deployment_id}/actions/stop";
   "/v1/deployments/{deployment_id}/actions/restart"; "/v1/deployments/{deployment_id}/actions/redeploy";
   "/v1/deployments/{deployment_id}"; "unknown"].
Definition all_series : list series :=
  flat_map (fun m => map (fun r => {| method_label := m; route_label := r |}) all_routes) all_methods.
Lemma action_route (path id action : string) : _ACTION_ROUTE path = Some (id, action) -> action ∈ ["start"; "stop"; "restart"; "redeploy"].
Proof.
  unfold _ACTION_ROUTE. destruct (under_deployments path) as [[? [tail|]]|]; try done. destruct (strip_prefix "actions/" tail) as [a|]; [|done].
  destruct (mem a _) eqn:E; [|done]. intros [= _ <-]. by apply mem_In.
Qed.
Lemma series_of_known (rq : request) : series_of rq ∈ all_series.
Proof.
  apply list_elem_of_In, in_flat_map. exists (observed_method (rq_method rq)). split.
  - apply list_elem_of_In. unfold observed_method. destruct (mem _ METHODS) eqn:E; [|set_solver]. apply mem_In in E. unfold METHODS, all_methods in *. set_solver.
  - apply in_map_iff. exists (_route_label (rq_target rq)). split; [done|]. apply list_elem_of_In. unfold _route_label, all_routes.
    destruct (mem _ _) eqn:E; [apply mem_In in E; set_solver|]. destruct (_LOG_ROUTE _); [set_solver|].
    destruct (_ACTION_ROUTE _) as [[id a]|] eqn:Ea; [|destruct (_DEPLOYMENT_ROUTE _); set_solver].
    apply action_route in Ea. rewrite !elem_of_cons, elem_of_nil in Ea. destruct Ea as [->|[->|[->|[->|[]]]]]; cbn; set_solver.
Qed.

(** ** Lines *)
Lemma no_byte_app (z : Z) (s t : string) : has_byte z (s ++ t) = has_byte z s || has_byte z t.
Proof. unfold has_byte. induction s as [|a s IH]; [done|]. cbn. by rewrite IH, orb_assoc. Qed.
Lemma no_newline_concat (sep : string) (l : list string) :
  has_byte 10 sep = false -> Forall (fun s => has_byte 10 s = false) l -> has_byte 10 (String.concat sep l) = false.
Proof.
  intros Hs. induction 1 as [|s l Hx Hl IH]; [done|]. destruct l as [|s0 l]; [done|].
  change (String.concat sep (s :: s0 :: l)) with (s ++ sep ++ String.concat sep (s0 :: l)). by rewrite !no_byte_app, Hx, Hs, IH.
Qed.
Lemma escaped_no_newline (s : string) : has_byte 10 (_escape_label s) = false.
Proof.
  apply no_newline_concat; [done|]. apply Forall_forall. intros x (a & <- & _)%list_elem_of_In%in_map_iff.
  destruct (code a =? 92); [done|]. destruct (Z.eqb_spec (code a) 10) as [|Hn]; [done|]. destruct (code a =? 34); [done|].
  unfold has_byte. cbn. by rewrite (proj2 (Z.eqb_neq _ _) Hn).
Qed.
Lemma number_no_newline (z : Z) : has_byte 10 (py_str_int z) = false.
Proof.
  assert (forall s, all_digits s = true -> has_byte 10 s = false) as K.
  { induction s as [|a s IH]; [done|]. cbn. intros (Ha & Hs)%andb_true_iff. unfold has_byte in *. cbn. rewrite IH by done.
    unfold is_digit in Ha. rewrite (proj2 (Z.eqb_neq _ _)) by lia. done. }
  unfold py_str_int. destruct (Z.ltb_spec z 0); [rewrite no_byte_app; cbn|]; apply K, all_digits_str_nat; lia.
Qed.
Lemma sample_no_newline (name value : string) (labels : list (string * string)) :
  has_byte 10 name = false -> has_byte 10 value = false -> Forall (fun kl => has_byte 10 kl.1 = false) labels ->
  has_byte 10 (_sample name value labels) = false.
Proof.
  intros Hn Hv Hl. unfold _sample. rewrite !no_byte_app, Hn, Hv. case_bool_decide; [done|]. rewrite !no_byte_app.
  rewrite (no_newline_concat "," _ eq_refl); [done|]. apply Forall_forall. intros x ((k & l) & <- & Hin)%list_elem_of_In%in_map_iff.
  rewrite Forall_forall in Hl. apply list_elem_of_In in Hin. rewrite !no_byte_app, (Hl _ Hin), escaped_no_newline. done.
Qed.
Lemma sort_by_perm {A} (leb : A -> A -> bool) (l : list A) : sort_by leb l ≡ₚ l.
Proof.
  assert (forall x t, insert_by leb x t ≡ₚ x :: t) as K.
  { intros x t. induction t as [|y t IH]; cbn; [done|]. destruct (leb x y); [done|]. rewrite IH. apply Permutation_swap. }
  unfold sort_by. induction l as [|x l IH]; cbn; [done|]. by rewrite K, IH.
Qed.

(** ** Counting *)
Section Counting.
Context (settings : ControllerSettings) {W D : Type} `{KubeClient W} `{Runtime W} `{Durations D} `{UnicodeData} `{NetlocRules}.
Variable is_file : string -> bool.
Variable read_text : string -> res string.
Variable ready : M W unit.
#[local] Notation app := (application settings is_file read_text ready).

(** Requests one after the other; an exception is answered by the server. *)
Fixpoint serve_all (requests : list (request * D)) (st : RuntimeControllerMetrics D * W) : Z * (RuntimeControllerMetrics D * W) :=
  match requests with
  | [] => (0, st)
  | (rq, duration) :: requests =>
      let '(r, st) := app rq duration st in
      let '(n, st) := serve_all requests st in
      ((match r with Ok _ => 1 | Raise _ => 0 end) + n, st)
  end.

Record counted (m : RuntimeControllerMetrics D) : Prop := {
  counted_once : total (_requests m) = total (_duration_count m);
  known_series : Forall (fun s => s ∈ all_series) (_duration_count m).*1;
  distinct_series : NoDup (_duration_count m).*1
}.
Lemma observe_counted (s : series) (status : Z) (duration : D) (m : RuntimeControllerMetrics D) :
  s ∈ all_series -> counted m -> counted (observe_request s status duration m).
Proof.
  intros Hs [K1 K2 K3]. split; cbn [_requests _duration_count observe_request].
  - by rewrite !total_update, K1.
  - by apply update_default_in.
  - by apply update_default_NoDup.
Qed.

(** Whatever is requested, in any order, each answer is counted once and the metrics keep at
    most 55 time series of durations. *)
Theorem answers_counted (now : D) (w : W) (requests : list (request * D)) (n : Z) (m : RuntimeControllerMetrics D) (w' : W) :
  serve_all requests (new_metrics now, w) = (n, (m, w')) ->
  total (_requests m) = n /\ total (_duration_count m) = n /\ (length (_duration_count m) <= 55)%nat.
Proof.
  assert (forall m0 w0 n m w', counted m0 -> serve_all requests (m0, w0) = (n, (m, w')) ->
    counted m /\ total (_requests m) = total (_requests m0) + n) as K.
  { clear n m w'. induction requests as [|[rq duration] rest IH]; intros m0 w0 n m w' Hm.
    - intros [= <- <- <-]. split; [done|lia].
    - cbn [serve_all]. unfold application at 1. destruct (answer_request _ _ _ _ m0 rq w0) as [[r|e] w1].
      + destruct (serve_all rest _) as [n1 [m1 w2]] eqn:E. intros [= <- <- <-].
        apply IH in E as (E1 & E2); [|apply observe_counted; [apply series_of_known|done]]. split; [done|].
        rewrite E2. cbn [_requests observe_request]. rewrite total_update. lia.
      + destruct (serve_all rest _) as [n1 [m1 w2]] eqn:E. intros [= <- <- <-]. apply IH in E as (E1 & E2); [|done]. split; [done|lia]. }
  intros E. apply K in E as ([E1 E2 E3] & E); [|split; [done|constructor|constructor]]. cbn in E. split; [done|]. split; [lia|].
  rewrite <- (length_fmap fst). change 55%nat with (length all_series). apply submseteq_length, NoDup_submseteq; [done|].
  intros x Hx. rewrite Forall_forall in E2. by apply E2.
Qed.

(** The text has one line for each sample: nothing in it breaks a line. *)
Theorem samples_on_lines (kubernetes_ready : bool) (m : RuntimeControllerMetrics D) :
  (forall d : D, has_byte 10 (time_text d) = false) ->
  Forall (fun line => has_byte 10 line = false) (render_lines kubernetes_ready m) /\
  length (render_lines kubernetes_ready m) = (10 + length (_requests m) + 2 * length (_duration_count m))%nat.
Proof.
  intros Ht. unfold render_lines. split.
  - rewrite !Forall_app. split_and!.
    + repeat constructor; try reflexivity; apply sample_no_newline; try done. by destruct kubernetes_ready.
    + apply Forall_forall. intros x (r & <- & _)%list_elem_of_In%in_map_iff. apply sample_no_newline; [done|apply number_no_newline|by repeat constructor].
    + by repeat constructor.
    + apply Forall_forall. intros x (c & _ & Hx)%list_elem_of_In%in_flat_map. destruct Hx as [<-|[<-|[]]]; apply sample_no_newline; try done;
        try apply number_no_newline; by repeat constructor.
  - rewrite !length_app, length_map, (Permutation_length (sort_by_perm _ _)). cbn [length].
    assert (forall l, length (flat_map (fun c : series * Z =>
       [_sample (PREFIX ++ "request_duration_seconds_count") (py_str_int c.2) (labels_of c.1);
        _sample (PREFIX ++ "request_duration_seconds_sum") (time_text (lookup_default c.1 no_time (_duration_sum m))) (labels_of c.1)]) l) = (2 * length l)%nat) as ->.
    { induction l as [|c l IH]; cbn; [done|]. cbn in IH. lia. }
    rewrite (Permutation_length (sort_by_perm _ _)). lia.
Qed.

(** ** Probes *)
(** The controller says it is ready exactly when its settings are valid, its token is not empty
    and the API answers. *)
Theorem ready_iff (w w' : W) (r : reply) :
  _ready settings is_file read_text ready w = (Ok r, w') ->
  rp_status r = 200 <->
  ready_controller is_file settings /\ (exists text, read_text (kubernetes_token_file settings) = Ok text /\ py_strip text <> "") /\
  validate is_file true settings = Ok tt /\ ready w = (Ok tt, w').
Proof.
  unfold _ready, or_unavailable, check_ready, status_reply. unfold mbind, M_bind, lift.
  destruct (validate is_file true settings) as [[]|e] eqn:V.
  2: { destruct (unavailable e); [|done]. intros [= <- <-]. split; [done|]. by intros (_ & _ & K & _). }
  destruct (read_text (kubernetes_token_file settings)) as [text|e].
  2: { destruct (unavailable e); [|done]. intros [= <- <-]. split; [done|]. by intros (_ & (? & K & _) & _). }
  destruct (String.eqb_spec (py_strip text) "") as [Et|Et].
  { intros [= <- <-]. split; [done|]. intros (_ & (? & [= <-] & K) & _). done. }
  destruct (ready w) as [[[]|e] w1].
  - intros [= <- <-]. split; [|done]. intros _. split; [by eapply validate_Ok|]. split; [by exists text|done].
  - destruct (unavailable e); [|done]. intros [= <- <-]. split; [done|]. by intros (_ & _ & _ & K).
Qed.
(** The probes leave the world to what the client's [ready] does, and need no token. *)
Theorem liveness_always (m : RuntimeControllerMetrics D) (w : W) (rq : request) (duration : D) :
  rq_method rq = "GET" -> rq_target rq = "/health/live" ->
  exists r, app rq duration (m, w) = (Ok r, (observe_request {| method_label := "GET"; route_label := "/health/live" |} 200 duration m, w)) /\ rp_status r = 200.
Proof.
  intros Hm Ht. unfold application, answer_request, series_of. rewrite Hm, Ht. eexists. split; [reflexivity|done].
Qed.
End Counting.

(** ** Examples *)
Module SampleMetrics.
#[local] Existing Instance ascii_unicode.
#[local] Existing Instance SampleHost.plain_netloc.
(** Durations in whole seconds. *)
#[local] Instance seconds_durations : Durations Z :=
  {| no_time := 0; add_time := Z.add; non_negative := Z.max 0; time_text := py_str_int |}.
Definition get (target : string) : request :=
  {| rq_method := "GET"; rq_target := target; rq_query := ""; rq_raw_headers := []; rq_messages := [] |}.
Definition answer_alive : M cluster unit := fun w => (Ok tt, w).
#[local] Notation settings := SampleController.configured_controller.
#[local] Notation mounted := SampleController.mounted.
Definition token_text (file : string) : res string := Ok "projected token".
Definition requests : list (request * Z) :=
  [(get "/health/live", 1); (get "/health/ready", 2); (get "/v1/deployments/abc", 3); (get "/../../etc", -1); (get "/v1/deployments/xyz", 4)].
Definition after : Z * (RuntimeControllerMetrics Z * cluster) :=
  serve_all settings mounted token_text answer_alive requests (new_metrics 0, Demo.start).
(** Two of the requests are of one series, none has a token, and both probes answer. *)
Example five_answers :
  after.1 = 5 /\ map (fun r => (r.1.1, r.1.2, r.2)) (_requests after.2.1) =
    [({| method_label := "GET"; route_label := "/health/live" |}, 200, 1);
     ({| method_label := "GET"; route_label := "/health/ready" |}, 200, 1);
     ({| method_label := "GET"; route_label := "/v1/deployments/{deployment_id}" |}, 401, 2);
     ({| method_label := "GET"; route_label := "unknown" |}, 401, 1)].
Proof. vm_compute. split; reflexivity. Qed.
Lemma answers_counted_witness : total (_requests after.2.1) = 5 /\ (length (_duration_count after.2.1) <= 55)%nat.
Proof.
  assert (serve_all settings mounted token_text answer_alive requests (new_metrics 0, Demo.start) = (after.1, (after.2.1, after.2.2))) as E
    by (rewrite <- !surjective_pairing; reflexivity).
  destruct (answers_counted settings mounted token_text answer_alive 0 Demo.start requests _ _ _ E) as (K1 & _ & K2).
  rewrite (proj1 five_answers) in K1. split; [exact K1|exact K2].
Defined.
Lemma ready_iff_witness : ready_controller mounted settings.
Proof.
  assert (exists r, _ready settings mounted token_text answer_alive Demo.start = (Ok r, Demo.start) /\ rp_status r = 200) as (r & E & Hr)
    by (eexists; split; [vm_compute; reflexivity|reflexivity]).
  exact (proj1 (proj1 (ready_iff settings mounted token_text answer_alive Demo.start Demo.start r E) Hr)).
Defined.
End SampleMetrics.
