(* ===== verification/DataEnv.v ===== *)
(** The settings of the DEALData services (src/components/DEALData/dealdata_common/
    django_settings.py), the checks of a deployment (deployment.py) and the decision of the
    entrypoints to run them (gps_layer/entrypoint.sh and the same file of the other layers).

    [os.environ] is a list of pairs; [random_key] is what [get_random_secret_key] returns. *)

From S2P Require Import Prelude PyValue PyText HostEnv.
#[local] Open Scope list_scope.
#[local] Open Scope string_scope.
#[local] Open Scope Z_scope.

(** The settings with a role in security; the lists of applications, of middleware and the
    templates are constants. *)
Inductive data_database :=
| DataSqlite
| DataPostgres (name user password host port : string) (conn_max_age : Z) (sslmode sslrootcert : option string).
Record data_settings := {
  DEBUG : bool;
  DATA_SECRET_KEY : string;
  DATA_ALLOWED_HOSTS : list string;
  DATA_CSRF_TRUSTED_ORIGINS : list string;
  DEALDATA_INGEST_TOKEN : string;
  DEALDATA_REQUIRE_INGEST_TOKEN : bool;
  DEALDATA_OIDC_INTROSPECTION_URL : string;
  DEALDATA_OIDC_ISSUER : string;
  DEALDATA_OIDC_AUDIENCE : string;
  DEALDATA_OIDC_CLIENT_ID : string;
  DEALDATA_OIDC_CLIENT_SECRET : string;
  DEALDATA_OIDC_GROUPS_CLAIM : string;
  DEALDATA_OIDC_READ_GROUPS : list string;
  DEALDATA_OIDC_ADMIN_GROUPS : list string;
  DEALDATA_OIDC_TIMEOUT_SECONDS : float64;
  DATABASES_default : data_database;
  SESSION_COOKIE_SECURE : bool;
  CSRF_COOKIE_SECURE : bool;
  SECURE_SSL_REDIRECT : bool;
  SECURE_HSTS_SECONDS : Z;
  SECURE_HSTS_INCLUDE_SUBDOMAINS : bool;
  SECURE_HSTS_PRELOAD : bool;
  SENTRY_DSN : string
}.

Section Environment.
Context `{UnicodeData} (env : environ) (random_key : string).

(** ** Variables *)
Definition env_bool (name : string) (default : bool) : bool :=
  match dget name env with
  | None => default
  | Some value => mem (py_lower value) ["1"; "true"; "yes"; "on"]
  end.
Definition env_list (name : string) (default : list string) : list string :=
  match dget name env with None => default | Some value => csv_items value end.
Definition env_int (name : string) (default : Z) (minimum : option Z) : res Z :=
  match dget name env with
  | None => Ok default
  | Some value =>
      match py_int value with
      | None => runtime_error (name ++ " must be an integer.")
      | Some parsed =>
          match minimum with
          | Some m => if parsed <? m then runtime_error (name ++ " must be greater than or equal to " ++ py_str_int m ++ ".") else Ok parsed
          | None => Ok parsed
          end
      end
  end.
(** The bounds are a test and a text: [parsed < minimum], [parsed > maximum]. *)
Definition float_bound : Type := (float64 -> bool) * string.
Definition env_float (name : string) (default : float64) (minimum maximum : float_bound) : res float64 :=
  match dget name env with
  | None => Ok default
  | Some value =>
      match float_of_str value with
      | None => runtime_error (name ++ " must be a number.")
      | Some parsed =>
          if negb (isfinite parsed) then runtime_error (name ++ " must be finite.")
          else if minimum.1 parsed then runtime_error (name ++ " must be greater than or equal to " ++ minimum.2 ++ ".")
          else if maximum.1 parsed then runtime_error (name ++ " must be less than or equal to " ++ maximum.2 ++ ".")
          else Ok parsed
      end
  end.
Definition below (bound : Z) : float64 -> bool := fun x => num_lt (NFloat x) bound.
Definition above (bound : Z) : float64 -> bool := fun x => num_gt (NFloat x) bound.
(** [x < 0.001]: the float 0.001 is 1152921504606847 / 2^60. *)
Definition below_millisecond (x : float64) : bool :=
  match x with
  | FNan => false
  | FInf neg => neg
  | FFin neg m e => let '(n, d) := ratio neg m e in n * 2 ^ 60 <? 1152921504606847 * d
  end.

Definition stripped_var (name : string) : string := py_strip (dget_or name "" env).
Definition stripped_option (name : string) : option string :=
  let value := stripped_var name in if String.eqb value "" then None else Some value.
Definition data_database_config (default_name : string) : res data_database :=
  if env_bool "DATABASE_USE_POSTGRES" false || negb (String.eqb (dget_or "DATABASE_HOST" "" env) "") then
    age ← env_int "DATABASE_CONN_MAX_AGE" 60 (Some 0);
    Ok (DataPostgres (dget_or "DATABASE_NAME" default_name env) (dget_or "DATABASE_USER" "dealdata" env)
          (dget_or "DATABASE_PASSWORD" "" env) (dget_or "DATABASE_HOST" "localhost" env) (dget_or "DATABASE_PORT" "5432" env)
          age (stripped_option "DATABASE_SSLMODE") (stripped_option "DATABASE_SSLROOTCERT"))
  else Ok DataSqlite.

Definition _secret_key (debug : bool) : res string :=
  let secret_key := dget_or "DJANGO_SECRET_KEY" "" env in
  if negb (String.eqb secret_key "") then Ok secret_key
  else if debug then Ok random_key
  else runtime_error "DJANGO_SECRET_KEY is required when DJANGO_DEBUG is false.".
Definition _allowed_hosts (debug : bool) : res (list string) :=
  let hosts := env_list "DJANGO_ALLOWED_HOSTS" (if debug then ["localhost"; "127.0.0.1"; "testserver"] else []) in
  if debug || negb (bool_decide (hosts = [])) then Ok hosts
  else runtime_error "DJANGO_ALLOWED_HOSTS is required when DJANGO_DEBUG is false.".

(** ** The settings of a service *)
Definition three : float64 := FFin false 3 0.
Definition configure_service_settings (database_name : string) (require_ingest_token : bool) : res data_settings :=
  let debug := env_bool "DJANGO_DEBUG" true in
  secret_key ← _secret_key debug;
  allowed_hosts ← _allowed_hosts debug;
  timeout ← env_float "DEALDATA_OIDC_TIMEOUT_SECONDS" three (below_millisecond, "0.001") (above 30, "30.0");
  database ← data_database_config database_name;
  hsts ← env_int "DJANGO_SECURE_HSTS_SECONDS" 0 (Some 0);
  let sentry_dsn := dget_or "SENTRY_DSN" "" env in
  _ ← (if String.eqb sentry_dsn "" then Ok (FFin false 0 0)
       else env_float "SENTRY_TRACES_SAMPLE_RATE" (FFin false 0 0) (below 0, "0.0") (above 1, "1.0"));
  Ok {| DEBUG := debug; DATA_SECRET_KEY := secret_key; DATA_ALLOWED_HOSTS := allowed_hosts;
        DATA_CSRF_TRUSTED_ORIGINS := env_list "DJANGO_CSRF_TRUSTED_ORIGINS" [];
        DEALDATA_INGEST_TOKEN := dget_or "DEALDATA_INGEST_TOKEN" "" env;
        DEALDATA_REQUIRE_INGEST_TOKEN := require_ingest_token;
        DEALDATA_OIDC_INTROSPECTION_URL := stripped_var "DEALDATA_OIDC_INTROSPECTION_URL";
        DEALDATA_OIDC_ISSUER := stripped_var "DEALDATA_OIDC_ISSUER";
        DEALDATA_OIDC_AUDIENCE := stripped_var "DEALDATA_OIDC_AUDIENCE";
        DEALDATA_OIDC_CLIENT_ID := stripped_var "DEALDATA_OIDC_CLIENT_ID";
        DEALDATA_OIDC_CLIENT_SECRET := dget_or "DEALDATA_OIDC_CLIENT_SECRET" "" env;
        DEALDATA_OIDC_GROUPS_CLAIM := dget_or "DEALDATA_OIDC_GROUPS_CLAIM" "groups" env;
        DEALDATA_OIDC_READ_GROUPS := env_list "DEALDATA_OIDC_READ_GROUPS" [];
        DEALDATA_OIDC_ADMIN_GROUPS := env_list "DEALDATA_OIDC_ADMIN_GROUPS" [];
        DEALDATA_OIDC_TIMEOUT_SECONDS := timeout;
        DATABASES_default := database;
        SESSION_COOKIE_SECURE := negb debug; CSRF_COOKIE_SECURE := negb debug;
        SECURE_SSL_REDIRECT := env_bool "DJANGO_SECURE_SSL_REDIRECT" false;
        SECURE_HSTS_SECONDS := hsts;
        SECURE_HSTS_INCLUDE_SUBDOMAINS := env_bool "DJANGO_SECURE_HSTS_INCLUDE_SUBDOMAINS" false;
        SECURE_HSTS_PRELOAD := env_bool "DJANGO_SECURE_HSTS_PRELOAD" false;
        SENTRY_DSN := sentry_dsn |}.
End Environment.

(** ** deployment.py: the errors, by message and identifier *)
Definition check_error (condition : bool) (message id : string) : list (string * string) :=
  if condition then [(message, id)] else [].
Definition is_postgres (d : data_database) : bool := match d with DataPostgres _ _ _ _ _ _ _ _ => true | DataSqlite => false end.
Definition database_password (d : data_database) : string :=
  match d with DataPostgres _ _ password _ _ _ _ _ => password | DataSqlite => "" end.
Definition database_sslmode (d : data_database) : option string :=
  match d with DataPostgres _ _ _ _ _ _ sslmode _ => sslmode | DataSqlite => None end.
Definition database_sslrootcert (d : data_database) : option string :=
  match d with DataPostgres _ _ _ _ _ _ _ cert => cert | DataSqlite => None end.
Definition check_deployment_security (s : data_settings) : list (string * string) :=
  if DEBUG s then []
  else
    (check_error (negb (SECURE_SSL_REDIRECT s)) "DJANGO_SECURE_SSL_REDIRECT must be enabled in production." "dealdata.E001" ++
     check_error (SECURE_HSTS_SECONDS s <=? 0) "DJANGO_SECURE_HSTS_SECONDS must be positive in production." "dealdata.E002" ++
     check_error (negb (SECURE_HSTS_INCLUDE_SUBDOMAINS s)) "DJANGO_SECURE_HSTS_INCLUDE_SUBDOMAINS must be enabled in production." "dealdata.E003" ++
     check_error (DEALDATA_REQUIRE_INGEST_TOKEN s && String.eqb (DEALDATA_INGEST_TOKEN s) "")
       "DEALDATA_INGEST_TOKEN is required for production ingestion services." "dealdata.E004" ++
     check_error (negb (is_postgres (DATABASES_default s))) "PostgreSQL is required in production." "dealdata.E005" ++
     check_error (String.eqb (database_password (DATABASES_default s)) "") "A PostgreSQL password is required in production." "dealdata.E006" ++
     check_error (negb (bool_decide (database_sslmode (DATABASES_default s) = Some "verify-full")))
       "PostgreSQL certificate and hostname verification are required." "dealdata.E007" ++
     check_error (String.eqb (default "" (database_sslrootcert (DATABASES_default s))) "")
       "The PostgreSQL CA certificate is required in production." "dealdata.E008")%list.

(** ** entrypoint.sh: [case "${DJANGO_DEBUG:-true}" in ...] *)
Definition runs_deploy_check (env : environ) : bool :=
  let value := dget_or "DJANGO_DEBUG" "" env in
  mem (if String.eqb value "" then "true" else value)
    ["false"; "False"; "FALSE"; "0"; "no"; "No"; "NO"; "off"; "Off"; "OFF"].
(** The service starts: the settings load, and the checks, where they run, find no error. *)
Definition service_starts `{UnicodeData} (env : environ) (random_key database_name : string) (require_ingest_token : bool) : res data_settings :=
  s ← configure_service_settings env random_key database_name require_ingest_token;
  if runs_deploy_check env && negb (bool_decide (check_deployment_security s = []))
  then Raise (CommandError "System check identified issues.")
  else Ok s.
