(* ===== verification/DataAuth.v ===== *)
(** Who reads DEALData: OIDC bearer tokens
    (src/components/DEALData/dealdata_common/authentication.py).

    [_open_introspection_request] is a parameter: what the endpoint answers to a request, as
    bytes, or the exception. *)

From S2P Require Import Prelude PyValue Regex Json PyText Url Kube HostingViews Identity HostEnv DataEnv.
#[local] Open Scope list_scope.
#[local] Open Scope string_scope.
#[local] Open Scope Z_scope.

Definition MAX_OIDC_CLAIM_LENGTH : Z := 255.
Definition MAX_INTROSPECTION_RESPONSE_BYTES : Z := 1024 * 1024.
Definition DATA_FORBIDDEN_CLAIMS : list string := ["scope"; "scp"; "roles"; "realm_access"; "realm_access.roles"].

Record OIDCPrincipal := {
  principal_username : string;
  principal_issuer : string;
  principal_subject : string;
  (** A set: order and repetitions do not matter. *)
  principal_groups : list string;
  principal_is_staff : bool;
  principal_is_superuser : bool
}.
Definition has_perm (u : OIDCPrincipal) (perm : string) : bool := principal_is_superuser u.
Definition has_perms (u : OIDCPrincipal) (perm_list : list string) : bool := forallb (has_perm u) perm_list.

Record _OIDCConfiguration := {
  introspection_url : string;
  issuer : string;
  audience : string;
  client_id : string;
  client_secret : string;
  groups_claim : string;
  read_groups : list string;
  admin_groups : list string;
  timeout_seconds : float64
}.

(** ** Canonical text *)
(** A text of at most 255 characters without white space around it and without control
    characters. *)
Definition printable_byte (a : ascii) : bool := (32 <=? code a) && negb (code a =? 127).
Definition canonical_text (value : string) : bool :=
  negb (String.eqb value "") && String.eqb value (py_strip value) && (py_len value <=? MAX_OIDC_CLAIM_LENGTH)
  && negb (has_byte 0 value) && all_bytes printable_byte value.
Definition _is_canonical_string (value : pyval) : bool := match value with PStr s => canonical_text s | _ => false end.
Definition url_byte (a : ascii) : bool := (33 <=? code a) && (code a <=? 126) && negb ((code a =? 34) || (code a =? 39) || (code a =? 92)).
Definition canonical_url `{UnicodeData} (parsed : url) (port : option Z) (allow_query : bool) : bool :=
  String.eqb (scheme parsed) "https" && negb (HostEnv.empty (hostname parsed)) && negb (has_userinfo parsed)
  && String.eqb (fragment parsed) "" && (allow_query || String.eqb (query parsed) "")
  && match port with Some p => (1 <=? p) && (p <=? 65535) | None => true end.
Definition _is_canonical_https_url `{UnicodeData} `{NetlocRules} (value : string) (allow_query : bool) : res bool :=
  if String.eqb value "" || negb (String.eqb value (py_strip value)) || negb (all_bytes url_byte value) then Ok false
  else
    match (parsed ← urlsplit value; p ← port parsed; Ok (parsed, p)) with
    | Raise e => if is_value_error e then Ok false else Raise e
    | Ok (parsed, p) => Ok (canonical_url parsed p allow_query)
    end.
Definition _is_canonical_claim_name `{CaseFold} (value : string) : bool :=
  canonical_text value && negb (mem (py_casefold value) DATA_FORBIDDEN_CLAIMS).

(** ** The configuration *)
Section Configuration.
Context `{UnicodeData} `{NetlocRules} `{CaseFold} (settings : data_settings).

Definition _configured_groups (configured : list string) : list string :=
  if existsb (fun group => negb (canonical_text group)) configured then [] else configured.
Definition configured_values : list string :=
  [DEALDATA_OIDC_INTROSPECTION_URL settings; DEALDATA_OIDC_ISSUER settings; DEALDATA_OIDC_AUDIENCE settings;
   DEALDATA_OIDC_CLIENT_ID settings; DEALDATA_OIDC_CLIENT_SECRET settings].
Definition unconfigured (value : string) : bool := String.eqb value "" || negb (String.eqb value (py_strip value)).
Definition timeout_ok (timeout : float64) : bool := isfinite timeout && num_gt (NFloat timeout) 0 && num_le (NFloat timeout) 30.
Definition _configuration : res _OIDCConfiguration :=
  if existsb unconfigured configured_values then reject "OIDC authentication is not configured."
  else
    url_ok ← _is_canonical_https_url (DEALDATA_OIDC_INTROSPECTION_URL settings) false;
    if negb url_ok then reject "Invalid OIDC introspection configuration."
    else
      issuer_ok ← _is_canonical_https_url (DEALDATA_OIDC_ISSUER settings) false;
      if negb issuer_ok then reject "Invalid OIDC issuer configuration."
      else if negb (_is_canonical_claim_name (DEALDATA_OIDC_GROUPS_CLAIM settings))
      then reject "Invalid OIDC groups claim configuration."
      else
        let read_groups := _configured_groups (DEALDATA_OIDC_READ_GROUPS settings) in
        let admin_groups := _configured_groups (DEALDATA_OIDC_ADMIN_GROUPS settings) in
        if bool_decide (read_groups = []) || bool_decide (admin_groups = []) || meets read_groups admin_groups
        then reject "Invalid OIDC group configuration."
        else if negb (timeout_ok (DEALDATA_OIDC_TIMEOUT_SECONDS settings)) then reject "Invalid OIDC timeout configuration."
        else
          Ok {| introspection_url := DEALDATA_OIDC_INTROSPECTION_URL settings; issuer := DEALDATA_OIDC_ISSUER settings;
                audience := DEALDATA_OIDC_AUDIENCE settings; client_id := DEALDATA_OIDC_CLIENT_ID settings;
                client_secret := DEALDATA_OIDC_CLIENT_SECRET settings; groups_claim := DEALDATA_OIDC_GROUPS_CLAIM settings;
                read_groups := read_groups; admin_groups := admin_groups;
                timeout_seconds := DEALDATA_OIDC_TIMEOUT_SECONDS settings |}.
End Configuration.

(** ** Introspection *)
Record introspection_request := {
  full_url : string;
  data : string;
  headers : list (string * string);
  timeout : float64
}.
(** [quote_plus]: [quote] with a plus sign for a space. *)
Definition quote_plus (s : string) : string :=
  String.concat "" (map (fun a => if code a =? 32 then "+" else quote_byte a) (list_ascii_of_string s)).
(** [data.read(limit)] of a body that has arrived. *)
Definition read_bytes (limit : Z) (body : string) : string :=
  if byte_len body <=? limit then body else String.substring 0 (Z.to_nat limit) body.

Section Authentication.
Context `{UnicodeData} `{NetlocRules} `{CaseFold}.
Variable _open_introspection_request : introspection_request -> res string.

Definition introspection_of (token : string) (configuration : _OIDCConfiguration) (credentials : string) : introspection_request :=
  {| full_url := introspection_url configuration; data := "token=" ++ quote_plus token;
     headers := [("Accept", "application/json"); ("Authorization", "Basic " ++ b64encode credentials);
                 ("Content-Type", "application/x-www-form-urlencoded")];
     timeout := timeout_seconds configuration |}.
Definition validation_failed {A} : res A := reject "OIDC token validation failed.".
Definition _introspect (token : string) (configuration : _OIDCConfiguration) : res attrs :=
  credentials ← encode_utf8 (client_id configuration ++ ":" ++ client_secret configuration);
  match _open_introspection_request (introspection_of token configuration credentials) with
  | Raise e => match e with
               | Prelude.HTTPError | OSError => validation_failed
               | e => if is_value_error e then validation_failed else Raise e
               end
  | Ok body =>
      let payload := read_bytes (MAX_INTROSPECTION_RESPONSE_BYTES + 1) body in
      if MAX_INTROSPECTION_RESPONSE_BYTES <? byte_len payload then validation_failed
      else
        match decode_utf8 payload ≫= loads with
        | Raise (UnicodeDecodeError | JSONDecodeError | TypeError) => validation_failed
        | Raise e => Raise e
        | Ok (PDict claims) => Ok claims
        | Ok _ => validation_failed
        end
  end.

(** ** The principal *)
Definition claim_audiences (claims : attrs) : list string :=
  match vget "aud" claims with
  | PStr audience => [audience]
  | PList l => if forallb (fun v => match v with PStr _ => true | _ => false end) l then group_names l else []
  | _ => []
  end.
Fixpoint principal_name (names : list string) (subject : string) (claims : attrs) : string :=
  match names with
  | [] => subject
  | name :: names =>
      match vget name claims with
      | PStr s => if canonical_text s then s else principal_name names subject claims
      | _ => principal_name names subject claims
      end
  end.
Definition _principal_from_claims (claims : attrs) (configuration : _OIDCConfiguration) : res OIDCPrincipal :=
  match vget "active" claims with
  | PBool true =>
      if negb (eq_str (vget "iss" claims) (issuer configuration)) then reject "Invalid bearer token issuer."
      else if negb (mem (audience configuration) (claim_audiences claims)) then reject "Invalid bearer token audience."
      else
        match vget (groups_claim configuration) claims with
        | PList group_claim =>
            if existsb (fun group => negb (_is_canonical_string group)) group_claim
            then reject "Bearer token has no valid authorization groups."
            else
              let groups := group_names group_claim in
              let is_admin := meets groups (admin_groups configuration) in
              if negb is_admin && negb (meets groups (read_groups configuration))
              then reject "Bearer token has no authorized group."
              else
                match vget "sub" claims with
                | PStr subject =>
                    if negb (canonical_text subject) then reject "Bearer token has no stable subject."
                    else
                      Ok {| principal_username := principal_name ["preferred_username"; "email"] subject claims;
                            principal_issuer := issuer configuration; principal_subject := subject;
                            principal_groups := groups; principal_is_staff := is_admin; principal_is_superuser := is_admin |}
                | _ => reject "Bearer token has no stable subject."
                end
        | _ => reject "Bearer token has no valid authorization groups."
        end
  | _ => reject "Invalid bearer token."
  end.

(** [authorization] are the bytes of the header; [Ok None] leaves the request to the next
    authenticator. *)
Definition data_authenticate (settings : data_settings) (authorization : string) : res (option OIDCPrincipal) :=
  match byte_words "" authorization with
  | [] => Ok None
  | keyword :: rest =>
      if negb (String.eqb (map_bytes lower_ascii keyword) "bearer") then Ok None
      else
        match rest with
        | [raw] =>
            match decode_utf8 raw with
            | Raise UnicodeDecodeError => reject "Invalid bearer token encoding."
            | Raise e => Raise e
            | Ok token =>
                if String.eqb token "" || (16384 <? py_len token) || has_byte 0 token then reject "Invalid bearer token."
                else
                  configuration ← _configuration settings;
                  claims ← _introspect token configuration;
                  Some <$> _principal_from_claims claims configuration
            end
        | _ => reject "Invalid bearer token header."
        end
  end.
Definition authenticate_header (settings : data_settings) : option string :=
  if String.eqb (py_strip (DEALDATA_OIDC_INTROSPECTION_URL settings)) "" then None else Some "Bearer".
End Authentication.
