(* ===== verification/DataSpec.v ===== *)
(** Properties of the DEALData services: what a service that starts after its checks relies on,
    who its bearers are, and that they are the same persons as for the host. *)

From S2P Require Import Prelude PyValue Regex Json PyText Url HostingViews Identity IdentitySpec HostEnv HostEnvSpec DataEnv DataAuth.
#[local] Open Scope list_scope.
#[local] Open Scope string_scope.
#[local] Open Scope Z_scope.

(** ** The checks of a deployment *)
Definition verified_postgres (d : data_database) : Prop :=
  exists name user password host port age cert,
    d = DataPostgres name user password host port age (Some "verify-full") (Some cert) /\ password <> "" /\ cert <> "".
Record secured_service (s : data_settings) : Prop := {
  tls_redirected : SECURE_SSL_REDIRECT s = true;
  hsts_lasts : 0 < SECURE_HSTS_SECONDS s /\ SECURE_HSTS_INCLUDE_SUBDOMAINS s = true;
  ingestion_guarded : DEALDATA_REQUIRE_INGEST_TOKEN s = true -> DEALDATA_INGEST_TOKEN s <> "";
  database_verified : verified_postgres (DATABASES_default s);
  own_secret_key : DATA_SECRET_KEY s <> "";
  hosts_named : DATA_ALLOWED_HOSTS s <> [];
  cookies_secure : SESSION_COOKIE_SECURE s = true /\ CSRF_COOKIE_SECURE s = true
}.

Lemma check_error_nil (c : bool) (message id : string) (rest : list (string * string)) :
  (check_error c message id ++ rest)%list = [] <-> c = false /\ rest = [].
Proof. destruct c; cbn; naive_solver. Qed.
Lemma database_checks (d : data_database) :
  is_postgres d = true /\ database_password d <> "" /\ database_sslmode d = Some "verify-full" /\ default "" (database_sslrootcert d) <> "" <->
  verified_postgres d.
Proof.
  unfold verified_postgres. destruct d as [|name user password host port age mode cert]; cbn; [naive_solver|]. split.
  - intros (_ & Hp & -> & Hc). destruct cert as [cert|]; [|done]. naive_solver.
  - intros (? & ? & ? & ? & ? & ? & ? & [= -> -> -> -> -> -> -> ->] & ? & ?). done.
Qed.
(** The checks find nothing exactly in the settings they are for. *)
Lemma checks_iff (s : data_settings) :
  DEBUG s = false ->
  check_deployment_security s = [] <->
  SECURE_SSL_REDIRECT s = true /\ 0 < SECURE_HSTS_SECONDS s /\ SECURE_HSTS_INCLUDE_SUBDOMAINS s = true /\
  (DEALDATA_REQUIRE_INGEST_TOKEN s = true -> DEALDATA_INGEST_TOKEN s <> "") /\ verified_postgres (DATABASES_default s).
Proof.
  intros Hd. unfold check_deployment_security. rewrite Hd, !check_error_nil, <- database_checks, !negb_false_iff, Z.leb_gt.
  rewrite <- (app_nil_r (check_error (String.eqb (default "" _) "") _ _)), check_error_nil, !String.eqb_neq, bool_decide_eq_true.
  rewrite andb_false_iff, String.eqb_neq. destruct (DEALDATA_REQUIRE_INGEST_TOKEN s); naive_solver.
Qed.

Section Start.
Context `{UnicodeData} (env : environ) (random_key database_name : string) (require_ingest_token : bool).

Lemma check_means_production : runs_deploy_check env = true -> env_bool env "DJANGO_DEBUG" true = false.
Proof.
  unfold runs_deploy_check, env_bool, dget_or. destruct (dget "DJANGO_DEBUG" env) as [value|]; [|done].
  destruct (String.eqb_spec value ""); [done|]. intros Hin%mem_In. rewrite !elem_of_cons, elem_of_nil in Hin.
  by destruct Hin as [->|[->|[->|[->|[->|[->|[->|[->|[->|[->|[]]]]]]]]]]].
Qed.
Lemma configured_production (s : data_settings) :
  configure_service_settings env random_key database_name require_ingest_token = Ok s ->
  DEBUG s = env_bool env "DJANGO_DEBUG" true /\ DEALDATA_REQUIRE_INGEST_TOKEN s = require_ingest_token /\
  (DEBUG s = false -> DATA_SECRET_KEY s <> "" /\ DATA_ALLOWED_HOSTS s <> [] /\ SESSION_COOKIE_SECURE s = true /\ CSRF_COOKIE_SECURE s = true).
Proof.
  unfold configure_service_settings. intros (key & Hk & E)%bind_Ok. apply bind_Ok in E as (hosts & Hh & E).
  do 4 (apply bind_Ok in E as (? & _ & E)). injection E as <-. cbn. split; [done|]. split; [done|]. intros Hd. rewrite Hd in *.
  unfold _secret_key in Hk. unfold _allowed_hosts in Hh. cbn in Hk, Hh.
  destruct (String.eqb_spec (dget_or "DJANGO_SECRET_KEY" "" env) ""); [done|]. injection Hk as <-.
  case_bool_decide; [done|]. by injection Hh as <-.
Qed.

Lemma started_layer (s : data_settings) :
  service_starts env random_key database_name require_ingest_token = Ok s -> runs_deploy_check env = true ->
  DEALDATA_REQUIRE_INGEST_TOKEN s = require_ingest_token /\ DEBUG s = false /\ secured_service s.
Proof.
  unfold service_starts. intros (s' & Hs & E)%bind_Ok Hrun. rewrite Hrun in E. cbn [andb] in E. case_bool_decide as Hc; [|done]. injection E as ->.
  apply configured_production in Hs as (Hd & Hreq & Hprod). rewrite check_means_production in Hd by done. split; [done|]. split; [done|].
  destruct (Hprod Hd) as (K1 & K2 & K3 & K4). apply checks_iff in Hc as (C1 & C2 & C3 & C4 & C5); [|done]. by split.
Qed.

(** A service whose entrypoint runs the checks and goes on is a production service with secured
    settings: TLS everywhere, a verified database, a secret key and host names of its own, and a
    token for the ingestion where the layer needs one. *)
Theorem checked_service_secured (s : data_settings) :
  service_starts env random_key database_name require_ingest_token = Ok s -> runs_deploy_check env = true ->
  DEBUG s = false /\ secured_service s /\ (require_ingest_token = true -> DEALDATA_INGEST_TOKEN s <> "").
Proof.
  intros Hs Hrun. destruct (started_layer s Hs Hrun) as (Hreq & Hd & K). split; [done|]. split; [done|].
  intros Ht. apply (ingestion_guarded s K). by rewrite Hreq.
Qed.
End Start.

(** ** Bearers *)
Section Bearers.
Context `{UnicodeData} `{NetlocRules} `{CaseFold} (settings : data_settings).
Variable _open_introspection_request : introspection_request -> res string.

Lemma canonical_text_spec (s : string) :
  canonical_text s = true -> s <> "" /\ py_strip s = s /\ py_len s <= 255 /\ has_byte 0 s = false.
Proof.
  unfold canonical_text. rewrite !andb_true_iff, !negb_true_iff, String.eqb_neq, String.eqb_eq. unfold MAX_OIDC_CLAIM_LENGTH.
  intros ((((K1 & K2) & K3%Z.leb_le) & K4) & _). done.
Qed.
Lemma configured_groups_spec (l : list string) :
  _configured_groups l <> [] -> _configured_groups l = l.
Proof. unfold _configured_groups. by destruct (existsb _ l). Qed.

(** What a usable configuration is. *)
Record usable_configuration (c : _OIDCConfiguration) : Prop := {
  https_endpoints : (exists u, urlsplit (introspection_url c) = Ok u /\ scheme u = "https") /\
                    (exists u, urlsplit (issuer c) = Ok u /\ scheme u = "https");
  all_configured : issuer c <> "" /\ audience c <> "" /\ client_id c <> "" /\ client_secret c <> "";
  groups_apart : read_groups c <> [] /\ admin_groups c <> [] /\ (forall g, g ∈ read_groups c -> g ∉ admin_groups c);
  groups_claim_allowed : groups_claim c ∉ DATA_FORBIDDEN_CLAIMS;
  of_settings : issuer c = DEALDATA_OIDC_ISSUER settings /\ audience c = DEALDATA_OIDC_AUDIENCE settings /\
    groups_claim c = DEALDATA_OIDC_GROUPS_CLAIM settings /\
    read_groups c = DEALDATA_OIDC_READ_GROUPS settings /\ admin_groups c = DEALDATA_OIDC_ADMIN_GROUPS settings
}.
Lemma https_url_Ok (value : string) :
  _is_canonical_https_url value false = Ok true -> exists u, urlsplit value = Ok u /\ scheme u = "https".
Proof.
  unfold _is_canonical_https_url. destruct (_ || _ || _); [done|].
  destruct (parsed ← urlsplit value; p ← port parsed; Ok (parsed, p)) as [[u p]|e] eqn:E; [|by destruct (is_value_error e)].
  apply bind_Ok in E as (u' & Hu & E). apply bind_Ok in E as (p' & _ & [= <- <-]). intros [= K]. unfold canonical_url in K.
  rewrite !andb_true_iff in K. destruct K as (((((K%String.eqb_eq & _) & _) & _) & _) & _). by exists u'.
Qed.
Lemma folded_claim (name : string) : mem (py_casefold name) DATA_FORBIDDEN_CLAIMS = false -> name ∉ DATA_FORBIDDEN_CLAIMS.
Proof.
  intros K Hin. apply not_true_iff_false in K. apply K. unfold DATA_FORBIDDEN_CLAIMS in Hin. rewrite !elem_of_cons, elem_of_nil in Hin.
  by destruct Hin as [->|[->|[->|[->|[->|[]]]]]]; vm_compute.
Qed.
Lemma configuration_usable (c : _OIDCConfiguration) : _configuration settings = Ok c -> usable_configuration c.
Proof.
  unfold _configuration. destruct (existsb unconfigured _) eqn:Hv; [done|]. intros (b1 & U1 & E)%bind_Ok. destruct b1; [|done]. cbn [negb] in E.
  apply bind_Ok in E as (b2 & U2 & E). destruct b2; [|done]. cbn [negb] in E.
  destruct (negb (_is_canonical_claim_name _)) eqn:Hn in E; [done|]. destruct (_ || _ || _) eqn:Hg in E; [done|].
  destruct (negb (timeout_ok _)) in E; [done|]. injection E as <-.
  apply orb_false_iff in Hg as ((G1%bool_decide_eq_false & G2%bool_decide_eq_false)%orb_false_iff & G3).
  apply negb_false_iff, andb_true_iff in Hn as (_ & Hn%negb_true_iff).
  assert (forall v, v ∈ configured_values settings -> v <> "") as Hne.
  { intros v Hin ->. apply not_true_iff_false in Hv. apply Hv, existsb_exists. exists "". split; [by apply list_elem_of_In|done]. }
  split; cbn.
  - split; by apply https_url_Ok.
  - unfold configured_values in Hne. repeat split; apply Hne; set_solver.
  - split; [done|]. split; [done|]. intros g Hr Ha. apply not_true_iff_false in G3. apply G3, meets_spec. by exists g.
  - by apply folded_claim.
  - rewrite !configured_groups_spec by done. done.
Qed.

(** What the introspected claims of a principal say. *)
Record data_vouched (c : _OIDCConfiguration) (claims : attrs) (u : OIDCPrincipal) : Prop := {
  claims_active : vget "active" claims = PBool true;
  claims_issuer : vget "iss" claims = PStr (issuer c) /\ principal_issuer u = issuer c;
  claims_audience : audience c ∈ claim_audiences claims;
  claims_groups : exists l, vget (groups_claim c) claims = PList l /\ forallb _is_canonical_string l = true /\ principal_groups u = group_names l;
  claims_subject : vget "sub" claims = PStr (principal_subject u) /\ canonical_text (principal_subject u) = true;
  claims_staff : principal_is_staff u = true <-> exists g, g ∈ principal_groups u /\ g ∈ admin_groups c;
  claims_reader : exists g, g ∈ principal_groups u /\ g ∈ (admin_groups c ++ read_groups c)%list;
  claims_superuser : principal_is_superuser u = principal_is_staff u;
  claims_username : principal_username u = principal_name ["preferred_username"; "email"] (principal_subject u) claims
}.
Lemma principal_iff (c : _OIDCConfiguration) (claims : attrs) (u : OIDCPrincipal) :
  _principal_from_claims claims c = Ok u <-> data_vouched c claims u.
Proof.
  unfold _principal_from_claims. split.
  - destruct (vget "active" claims) as [|[]| | | | |] eqn:Ha; try done.
    destruct (eq_str (vget "iss" claims) (issuer c)) eqn:Hi; [|done]. destruct (mem (audience c) _) eqn:Hd; [|done]. cbn [negb].
    destruct (vget (groups_claim c) claims) as [| | | | |l|] eqn:Hg; try done.
    destruct (existsb _ l) eqn:Hc; [done|]. destruct (negb (meets (group_names l) (admin_groups c)) && _) eqn:Hm; [done|].
    destruct (vget "sub" claims) as [| | | |subject| |] eqn:Hs; try done. destruct (canonical_text subject) eqn:Ht; [|done]. intros [= <-]. cbn [negb].
    split; cbn; try done.
    + destruct (vget "iss" claims); try done. cbn in Hi. apply String.eqb_eq in Hi. by subst.
    + by apply mem_In.
    + exists l. split; [done|]. split; [|done]. apply forallb_forall. intros x Hx. apply not_true_iff_false in Hc.
      destruct (_is_canonical_string x) eqn:Hx'; [done|]. exfalso. apply Hc, existsb_exists. exists x. by rewrite Hx'.
    + apply meets_spec.
    + apply andb_false_iff in Hm as [Hm|Hm]; apply negb_false_iff, meets_spec in Hm as (g & H1' & H2'); exists g; rewrite elem_of_app; auto.
  - intros [-> (-> & E1) Hd (l & Hl & Hc & E2) (-> & Ht) Hst (g & Hr1 & Hr2) Hsu Hu]. cbn. rewrite String.eqb_refl, (proj2 (mem_In _ _) Hd), Hl, Ht. cbn [negb].
    assert (existsb (fun group => negb (_is_canonical_string group)) l = false) as ->.
    { apply not_true_iff_false. intros (x & Hx & K)%existsb_exists. rewrite forallb_forall in Hc. by rewrite Hc in K. }
    rewrite E2 in *. assert (negb (meets (group_names l) (admin_groups c)) && negb (meets (group_names l) (read_groups c)) = false) as ->.
    { rewrite elem_of_app in Hr2. apply andb_false_iff. rewrite !negb_false_iff, !meets_spec. destruct Hr2; [left|right]; eauto. }
    f_equal. destruct u as [un ui us ug ust usu]. cbn in *. subst. f_equal.
    + apply eq_true_iff_eq. by rewrite meets_spec, Hst.
    + apply eq_true_iff_eq. by rewrite meets_spec, Hst.
Qed.

(** A bearer that DEALData authenticates is vouched for by the claims of an active token for the
    configured issuer and audience, in a configured group, with a stable subject; it is staff
    exactly when it is in an administrator group; and it comes with a usable configuration. *)
Theorem data_bearer_vouched (authorization : string) (u : OIDCPrincipal) :
  data_authenticate _open_introspection_request settings authorization = Ok (Some u) ->
  exists token c claims,
    token <> "" /\ _configuration settings = Ok c /\ usable_configuration c /\
    _introspect _open_introspection_request token c = Ok claims /\ data_vouched c claims u.
Proof.
  unfold data_authenticate. destruct (byte_words "" authorization) as [|keyword [|raw [|? ?]]]; try done; destruct (negb _); try done.
  destruct (decode_utf8 raw) as [token|e]; [|by destruct e]. destruct (_ || _ || _) eqn:Ht; [done|].
  intros (c & Hc & E)%bind_Ok. apply bind_Ok in E as (claims & Hi & E).
  destruct (_principal_from_claims claims c) as [v|] eqn:Hp; [|done]. injection E as ->. exists token, c, claims.
  apply orb_false_iff in Ht as ((Ht%String.eqb_neq & _)%orb_false_iff & _). split; [done|]. split; [done|].
  split; [by apply configuration_usable|]. split; [done|]. by apply principal_iff.
Qed.
End Bearers.

(** ** The same person on the host and on DEALData *)
Section Shared.
Context `{UnicodeData} `{NetlocRules} `{CaseFold} (st : host_settings) (settings : data_settings) (c : _OIDCConfiguration).

(** The two programs are configured for the same issuer, audience, claim and groups. *)
Record same_provider : Prop := {
  same_issuer : DEALHOST_OIDC_ISSUER st = issuer c;
  same_audience : DEALHOST_OIDC_AUDIENCE st = audience c;
  same_claim : _configured_groups_claim_name st = Some (groups_claim c);
  same_admins : forall g, g ∈ DEALHOST_OIDC_ADMIN_GROUPS st <-> g ∈ admin_groups c;
  same_readers : forall g, g ∈ DEALHOST_OIDC_READ_GROUPS st <-> g ∈ read_groups c;
  host_asks : py_strip (DEALHOST_OIDC_INTROSPECTION_URL st) <> ""
}.
(** The claims give names as text, or not at all. *)
Definition textual_names (claims : attrs) : Prop :=
  forall name, name ∈ ["preferred_username"; "email"] -> vget name claims = PNone \/ exists s, vget name claims = PStr s.

Lemma text_audiences (l : list pyval) :
  forallb (fun v => match v with PStr _ => true | _ => false end) l = true -> mapM_res py_str l = Ok (group_names l).
Proof.
  induction l as [|v l IH]; [done|]. cbn. destruct v; try done. intros K. cbn. by rewrite (IH K).
Qed.
Lemma canonical_groups (l : list pyval) : forallb _is_canonical_string l = true -> existsb bad_group l = false.
Proof.
  induction l as [|v l IH]; [done|]. cbn. destruct v as [| | | |s| |]; try done. cbn. intros (K & Kl)%andb_true_iff.
  apply canonical_text_spec in K as (K1 & K2 & _). rewrite K2, String.eqb_refl, (IH Kl). by destruct (String.eqb_spec s "").
Qed.
Lemma textual_display (claims : attrs) (subject : string) (names : list string) :
  (forall name, name ∈ names -> vget name claims = PNone \/ exists s, vget name claims = PStr s) ->
  exists name, display_name names subject claims = Ok name.
Proof.
  induction names as [|n names IH]; [by eexists|]. intros K. cbn [display_name].
  destruct (K n ltac:(by left)) as [->|[s ->]]; [cbn; apply IH; intros m Hm; apply K; by right|].
  destruct (truthy (PStr s)); [by eexists|]. apply IH. intros m Hm. apply K. by right.
Qed.

End Shared.

(** ** Examples *)
Module SampleData.
#[export] Existing Instance ascii_unicode.
#[export] Existing Instance ascii_fold.
#[export] Existing Instance SampleHost.plain_netloc.
Definition variables : environ :=
  [("DJANGO_DEBUG", "False"); ("DJANGO_SECRET_KEY", "a secret key"); ("DJANGO_ALLOWED_HOSTS", "data.example.org");
   ("DJANGO_SECURE_SSL_REDIRECT", "true"); ("DJANGO_SECURE_HSTS_SECONDS", "31536000");
   ("DJANGO_SECURE_HSTS_INCLUDE_SUBDOMAINS", "true"); ("DEALDATA_INGEST_TOKEN", "ingest token");
   ("DATABASE_HOST", "postgres.example.org"); ("DATABASE_PASSWORD", "a password");
   ("DATABASE_SSLMODE", "verify-full"); ("DATABASE_SSLROOTCERT", "/etc/ssl/postgres.pem");
   ("DEALDATA_OIDC_INTROSPECTION_URL", "https://idp.example.org/introspect"); ("DEALDATA_OIDC_ISSUER", "https://idp.example.org/");
   ("DEALDATA_OIDC_AUDIENCE", "dealdata"); ("DEALDATA_OIDC_CLIENT_ID", "dealdata"); ("DEALDATA_OIDC_CLIENT_SECRET", "a client secret");
   ("DEALDATA_OIDC_READ_GROUPS", "readers"); ("DEALDATA_OIDC_ADMIN_GROUPS", "admins, operators")].
Definition empty_settings : data_settings :=
  {| DEBUG := true; DATA_SECRET_KEY := ""; DATA_ALLOWED_HOSTS := []; DATA_CSRF_TRUSTED_ORIGINS := []; DEALDATA_INGEST_TOKEN := "";
     DEALDATA_REQUIRE_INGEST_TOKEN := false; DEALDATA_OIDC_INTROSPECTION_URL := ""; DEALDATA_OIDC_ISSUER := ""; DEALDATA_OIDC_AUDIENCE := "";
     DEALDATA_OIDC_CLIENT_ID := ""; DEALDATA_OIDC_CLIENT_SECRET := ""; DEALDATA_OIDC_GROUPS_CLAIM := ""; DEALDATA_OIDC_READ_GROUPS := [];
     DEALDATA_OIDC_ADMIN_GROUPS := []; DEALDATA_OIDC_TIMEOUT_SECONDS := FNan; DATABASES_default := DataSqlite; SESSION_COOKIE_SECURE := false;
     CSRF_COOKIE_SECURE := false; SECURE_SSL_REDIRECT := false; SECURE_HSTS_SECONDS := 0; SECURE_HSTS_INCLUDE_SUBDOMAINS := false;
     SECURE_HSTS_PRELOAD := false; SENTRY_DSN := "" |}.
Definition configured_service : data_settings := Eval vm_compute in
  match service_starts variables "random" "dealdata_gps" true with Ok s => s | Raise _ => empty_settings end.
Lemma service_run : service_starts variables "random" "dealdata_gps" true = Ok configured_service.
Proof. vm_compute. reflexivity. Qed.
Example missing_token_found :
  service_starts (dset "DEALDATA_INGEST_TOKEN" "" variables) "random" "dealdata_gps" true = Raise (CommandError "System check identified issues.").
Proof. vm_compute. reflexivity. Qed.
(** The entrypoint and the settings do not read DJANGO_DEBUG alike: an empty value makes a
    production service that no check has seen. *)
Theorem empty_debug_skips_checks :
  runs_deploy_check [("DJANGO_DEBUG", "")] = false /\
  exists s, service_starts [("DJANGO_DEBUG", ""); ("DJANGO_SECRET_KEY", "k"); ("DJANGO_ALLOWED_HOSTS", "data")] "random" "dealdata_gps" true = Ok s /\
    DEBUG s = false /\ DEALDATA_INGEST_TOKEN s = "" /\ length (check_deployment_security s) = 8%nat.
Proof. split; [reflexivity|]. eexists. split; [vm_compute; reflexivity|]. done. Qed.

Lemma checked_service_secured_witness :
  runs_deploy_check variables = true /\ DEBUG configured_service = false /\ secured_service configured_service.
Proof.
  split; [reflexivity|].
  destruct (checked_service_secured variables "random" "dealdata_gps" true configured_service service_run eq_refl) as (K1 & K2 & _).
  by split.
Defined.

(** A session of the identity provider. *)
Definition in_quotes (s : string) : string := (bytes [34] ++ s ++ bytes [34])%string.
Definition session_text : string :=
  ("{" ++ in_quotes "active" ++ ":true," ++ in_quotes "iss" ++ ":" ++ in_quotes "https://idp.example.org/" ++ "," ++
   in_quotes "aud" ++ ":[" ++ in_quotes "dealdata" ++ "]," ++ in_quotes "groups" ++ ":[" ++ in_quotes "readers" ++ "," ++ in_quotes "operators" ++ "]," ++
   in_quotes "sub" ++ ":" ++ in_quotes "subject-1" ++ "," ++ in_quotes "email" ++ ":" ++ in_quotes "ada@example.org" ++ "}")%string.
Definition session : attrs :=
  [("active", PBool true); ("iss", PStr "https://idp.example.org/"); ("aud", PList [PStr "dealdata"]);
   ("groups", PList [PStr "readers"; PStr "operators"]); ("sub", PStr "subject-1"); ("email", PStr "ada@example.org")].
Definition provider (rq : introspection_request) : res string :=
  if String.eqb (data rq) "token=a%2Bb" then Ok session_text else Raise HTTPError.
Definition ada : OIDCPrincipal :=
  {| principal_username := "ada@example.org"; principal_issuer := "https://idp.example.org/"; principal_subject := "subject-1";
     principal_groups := ["readers"; "operators"]; principal_is_staff := true; principal_is_superuser := true |}.
Lemma ada_authenticated : data_authenticate provider configured_service "Bearer a+b" = Ok (Some ada).
Proof. vm_compute. reflexivity. Qed.
Example other_token_refused :
  data_authenticate provider configured_service "Bearer other" = reject "OIDC token validation failed.".
Proof. vm_compute. reflexivity. Qed.
(** An integer of more than 4300 digits in the answer raises out of the authentication. *)
Theorem huge_claim_uncaught :
  data_authenticate (fun _ => Ok ("{" ++ in_quotes "exp" ++ ":1" ++ bytes (repeat 48 4300) ++ "}")%string) configured_service "Bearer a+b"
  = Raise (ValueError "Exceeds the limit (4300 digits) for integer string conversion").
Proof. vm_compute. reflexivity. Qed.
Lemma data_bearer_vouched_witness : exists token c claims, token <> "" /\ data_vouched c claims ada.
Proof.
  destruct (data_bearer_vouched configured_service provider "Bearer a+b" ada ada_authenticated) as (token & c & claims & Ht & _ & _ & _ & Hv).
  by exists token, c, claims.
Defined.

Definition configuration : _OIDCConfiguration :=
  {| introspection_url := "https://idp.example.org/introspect"; issuer := "https://idp.example.org/"; audience := "dealdata";
     client_id := "dealdata"; client_secret := "a client secret"; groups_claim := "groups"; read_groups := ["readers"];
     admin_groups := ["admins"; "operators"]; timeout_seconds := three |}.
Definition host : host_settings :=
  {| DEALHOST_ADMIN_API_TOKENS := []; DEALHOST_API_TOKENS := []; DEALHOST_OIDC_INTROSPECTION_URL := "https://idp.example.org/introspect";
     DEALHOST_OIDC_ISSUER := "https://idp.example.org/"; DEALHOST_OIDC_AUDIENCE := "dealdata";
     DEALHOST_OIDC_ADMIN_GROUPS := ["operators"; "admins"]; DEALHOST_OIDC_READ_GROUPS := ["readers"]; Identity.groups_claim := PNone;
     groups_claim_env := None |}.
End SampleData.
