(* ===== verification/DataViews.v ===== *)
(** The HTTP interface of the GPS and sensor layers
    (src/components/DEALData/dealdata_common/views.py, gps_layer/gps_data/views.py and
    sensor_layer/sensor_data/views.py): the token of the ingestion, single events and batches,
    and the listings.

    A handler runs when nobody else uses the table; [Ingest.step] interleaves the same
    accesses with those of others. *)

From S2P Require Import Prelude PyValue Regex PyFloat PyTime PyText Url Events Ingest HostEnv DataEnv DataAuth.
#[local] Open Scope list_scope.
#[local] Open Scope string_scope.
#[local] Open Scope Z_scope.

(** What the layers take from Django and the REST framework, besides [Framework]: the
    conversion by the declared fields of data that is already converted, which the serializer
    of a batch hands to [ingest_event], and [parse_datetime], which raises ValueError for a
    well formed text that is no date; the offset is [None] for a naive value. *)
Class HttpFramework := {
  gps_fields_again : attrs -> option attrs;
  sensor_fields_again : attrs -> option attrs;
  django_parse_datetime : string -> res (option (Z * option Z))
}.

(** A layer behind HTTP. *)
Record http_layer := {
  ingestion : layer;
  is_valid_again : attrs -> option attrs;
  serialize_event : string * row -> bool -> res (list (string * pyval));
  (** The filter the sensor layer adds. *)
  filters_sensor_type : bool
}.

(** ** The answers of a listing *)
Definition float_value_json (f : float64) : pyval :=
  PFloat (match f with FNan => "nan" | FInf neg => if neg then "-inf" else "inf" | FFin neg m e => float_repr neg m e end).
Definition float_option_json (f : option float64) : pyval := match f with Some f => float_value_json f | None => PNone end.
Section Serialize.
Context `{UnicodeData}.
(** The fields the two layers share, around those of the layer. *)
Definition common_fields (kr : string * row) (own : list (string * pyval)) : res (list (string * pyval)) :=
  let event := kr.2 in
  observed ← (if vtruthy (observed_object_id event) then PStr <$> vstr (observed_object_id event) else Ok PNone);
  Ok ([("id", PStr kr.1); ("device_id", PStr (wildfi_device_id event)); ("observed_object_id", observed);
       ("timestamp", PStr (isoformat (acquisition_time event)))] ++ own)%list.
Definition full_fields (event : row) : list (string * pyval) :=
  [("event_id", PStr (event_id event)); ("payload_hash", PStr (payload_hash event)); ("topic", PStr (dealiot_topic event));
   ("source", PStr (source event)); ("mqtt_topic", PStr (mqtt_topic event));
   ("ingested_at", match ingested_at event with Some t => PStr (isoformat t) | None => PNone end)].
Definition data_fields (event : row) : list (string * pyval) :=
  [("payload", PDict (row_payload event)); ("metadata", PDict (map (fun kv => (kv.1, jsonable kv.2)) (message_metadata event)))].
Definition as_geojson (latitude longitude : float64) : pyval :=
  PDict [("type", PStr "Point"); ("coordinates", PList [float_value_json longitude; float_value_json latitude])].
Definition _serialize_gps_fix (kr : string * row) (summary : bool) : res (list (string * pyval)) :=
  match row_details kr.2 with
  | GpsDetails latitude longitude altitude speed heading =>
      result ← common_fields kr [("latitude", float_value_json latitude); ("longitude", float_value_json longitude)];
      if summary then Ok result
      else Ok (result ++ full_fields kr.2 ++
               [("altitude", float_option_json altitude); ("speed", float_option_json speed);
                ("heading", float_option_json heading); ("geojson", as_geojson latitude longitude)] ++ data_fields kr.2)%list
  | SensorDetails _ => Raise (AttributeError "latitude")
  end.
Definition _serialize_sensor_event (kr : string * row) (summary : bool) : res (list (string * pyval)) :=
  result ← common_fields kr [("sensor_type", PStr (sensor_type kr.2))];
  if summary then Ok result else Ok (result ++ full_fields kr.2 ++ data_fields kr.2)%list.
End Serialize.

Definition gps_http `{UnicodeData} `{Framework} `{HttpFramework} (clean_fields : row -> option string) : http_layer :=
  {| ingestion := gps_layer clean_fields;
     is_valid_again := fun e => e ← gps_fields_again e; e ← run_payload true e; gps_validate e;
     serialize_event := _serialize_gps_fix; filters_sensor_type := false |}.
Definition sensor_http `{UnicodeData} `{Framework} `{HttpFramework} (clean_fields : row -> option string) : http_layer :=
  {| ingestion := sensor_layer clean_fields;
     is_valid_again := fun e => e ← sensor_fields_again e; run_payload false e;
     serialize_event := _serialize_sensor_event; filters_sensor_type := true |}.

(** A request: the X-DEALDATA-INGEST-TOKEN header, the parsed body, and the last value of
    each query parameter. *)
Record data_request := {
  ingest_header : option string;
  request_data : pyval;
  query_params : list (string * string)
}.
Definition response := (pyval * Z)%type.
Definition detail_response (detail : string) (status : Z) : response := (PDict [("detail", PStr detail)], status).

(** ** ingestion_token_error *)
Definition ingestion_token_error (settings : data_settings) (rq : data_request) : res (option response) :=
  let token := DEALDATA_INGEST_TOKEN settings in
  if String.eqb token "" then Ok None
  else
    same ← compare_digest (default "" (ingest_header rq)) token;
    Ok (if same : bool then None else Some (detail_response "Invalid ingestion token." 403)).
Definition with_token (settings : data_settings) (rq : data_request) (handler : M table response) : M table response :=
  error ← lift (ingestion_token_error settings rq);
  match error with Some r => mret r | None => handler end.

Section Ingestion.
Context `{UnicodeData} (settings : data_settings) (l : http_layer).

(** ** One event *)
Definition post_event (id : string) (rq : data_request) : M table response :=
  with_token settings rq
    (match request_data rq with
     | PDict d => '(body, status) ← ingest_event (ingestion l) id d; mret (PDict body, status)
     | _ => mret (detail_response "Expected a JSON object." 400)
     end).

(** ** A batch *)
Definition MAX_INGEST_BATCH_SIZE : Z := 1000.
Definition batch_is_valid (data : event) : option (list attrs) :=
  match dget "events" data with
  | Some (PList events) =>
      if MAX_INGEST_BATCH_SIZE <? Z.of_nat (length events) then None
      else mapM (fun v => match v with PDict e => is_valid (ingestion l) e | _ => None end) events
  | _ => None
  end.
(** [ingest_event] of data the serializer of the batch has converted. *)
Definition prepare_again (validated : attrs) : res (row + answer) :=
  match is_valid_again l validated with
  | None => Ok (inr (bad_request "invalid"))
  | Some validated =>
      match build_row (ingestion l) validated with
      | Ok e => Ok (inl e)
      | Raise (ValueError d) => Ok (inr (bad_request d))
      | Raise x => Raise x
      end
  end.
Definition ingest_again (id : string) (validated : attrs) : M table answer :=
  r ← lift (prepare_again validated);
  match r with
  | inr a => mret a
  | inl e => persist_idempotent_event (clean_fields_of (ingestion l)) (serialize_of (ingestion l)) id e
  end.

Record tally := { inserted_count : Z; duplicate_count : Z; error_count : Z; batch_results : list pyval }.
Definition no_results : tally := {| inserted_count := 0; duplicate_count := 0; error_count := 0; batch_results := [] |}.
Definition record_answer (index : Z) (a : answer) (c : tally) : tally :=
  let '(body, response_status) := a in
  let result := PDict (fold_left (fun d kv => dset kv.1 kv.2 d) body [("index", PInt index); ("status", PInt response_status)]) in
  let results := (batch_results c ++ [result])%list in
  if response_status =? 201
  then {| inserted_count := inserted_count c + 1; duplicate_count := duplicate_count c; error_count := error_count c; batch_results := results |}
  else if (response_status =? 200) && truthy (vget "duplicate" body)
  then {| inserted_count := inserted_count c; duplicate_count := duplicate_count c + 1; error_count := error_count c; batch_results := results |}
  else {| inserted_count := inserted_count c; duplicate_count := duplicate_count c; error_count := error_count c + 1; batch_results := results |}.
(** The events in order; [ids] gives the primary key a new row gets. *)
Fixpoint batch_loop (ids : Z -> string) (index : Z) (events : list attrs) (c : tally) : M table tally :=
  match events with
  | [] => mret c
  | event_payload :: events =>
      a ← ingest_again (ids index) event_payload;
      batch_loop ids (index + 1) events (record_answer index a c)
  end.
Definition batch_response (c : tally) : response :=
  (PDict [("inserted", PInt (inserted_count c)); ("duplicates", PInt (duplicate_count c)); ("errors", PInt (error_count c));
          ("results", PList (batch_results c))],
   if error_count c =? 0 then 200 else 207).
(** A list stands for an object with that list. *)
Definition batch_data (data : pyval) : pyval :=
  match data with PList events => PDict [("events", PList events)] | data => data end.
(** [errors] stands for the errors of the serializer. *)
Definition batch_ingest_response (errors : pyval) (ids : Z -> string) (data : pyval) : M table response :=
  match batch_data data with
  | PDict data =>
      match batch_is_valid data with
      | None => mret (PDict [("detail", errors)], 400)
      | Some events => c ← batch_loop ids 0 events no_results; mret (batch_response c)
      end
  | _ => mret (detail_response "Expected a JSON object or array." 400)
  end.
Definition post_batch (errors : pyval) (ids : Z -> string) (rq : data_request) : M table response :=
  with_token settings rq (batch_ingest_response errors ids (request_data rq)).
End Ingestion.

(** ** Listings *)
Section Listing.
Context `{UnicodeData} `{CaseFold} `{HttpFramework} (l : http_layer).

(** [inl] is [QueryParameterError]. *)
Definition parse_positive_int (value : option string) (field_name : string) (default maximum : Z) : string + Z :=
  match value with
  | None | Some "" => inr default
  | Some text =>
      match py_int text with
      | Some parsed => if parsed <? 0 then inl ("Query parameter '" ++ field_name ++ "' must be a positive integer.") else inr (Z.min parsed maximum)
      | None => inl ("Query parameter '" ++ field_name ++ "' must be a positive integer.")
      end
  end.
(** The instant: an absent offset is UTC. *)
Definition parse_datetime_filter (value : option string) (field_name : string) : res (string + option Z) :=
  match value with
  | None | Some "" => Ok (inr None)
  | Some text =>
      parsed ← django_parse_datetime text;
      Ok (match parsed with
          | None => inl ("Query parameter '" ++ field_name ++ "' must be an ISO datetime.")
          | Some (local_time, offset) => inr (Some (local_time - default 0 offset))
          end)
  end.
Record list_params := { limit : Z; offset : Z; started_at : option Z; ended_at : option Z }.
Definition parse_list_params (query : list (string * string)) : res (string + list_params) :=
  match parse_positive_int (dget "limit" query) "limit" 100 1000 with
  | inl e => Ok (inl e)
  | inr limit =>
      match parse_positive_int (dget "offset" query) "offset" 0 1000000 with
      | inl e => Ok (inl e)
      | inr offset =>
          started ← parse_datetime_filter (dget "from" query) "from";
          match started with
          | inl e => Ok (inl e)
          | inr started_at =>
              ended ← parse_datetime_filter (dget "to" query) "to";
              Ok (match ended with
                  | inl e => inl e
                  | inr ended_at =>
                      if match started_at, ended_at with Some s, Some e => e <? s | _, _ => false end
                      then inl "Query parameter 'from' must be earlier than or equal to 'to'."
                      else inr {| limit := limit; offset := offset; started_at := started_at; ended_at := ended_at |}
                  end)
          end
      end
  end.

(** A filter by equality; an absent or empty parameter does not filter. *)
Definition equal_filter (name : string) (query : list (string * string)) (value : string) : bool :=
  let wanted := dget_or name "" query in String.eqb wanted "" || String.eqb value wanted.
Definition event_filter (query : list (string * string)) (p : list_params) (r : row) : bool :=
  equal_filter "device_id" query (wildfi_device_id r) && equal_filter "source" query (source r)
  && equal_filter "topic" query (dealiot_topic r)
  && match started_at p with Some t => t <=? acquisition_time r | None => true end
  && match ended_at p with Some t => acquisition_time r <=? t | None => true end.
Definition list_filter (query : list (string * string)) (p : list_params) (r : row) : bool :=
  event_filter query p r && (if filters_sensor_type l then equal_filter "sensor_type" query (sensor_type r) else true).

(** [order_by("-acquisition_time", "-created_at")]: the rows of a table are in the order of
    their creation. *)
Fixpoint insert_newest (kr : string * row) (t : table) : table :=
  match t with
  | [] => [kr]
  | kr' :: t' => if acquisition_time kr'.2 <=? acquisition_time kr.2 then kr :: t else kr' :: insert_newest kr t'
  end.
Definition newest_first (t : table) : table := foldr insert_newest [] (rev t).
Definition queryset (query : list (string * string)) (p : list_params) (t : table) : table :=
  newest_first (List.filter (fun kr => list_filter query p kr.2) t).
(** [queryset[offset : offset + limit]]. *)
Definition page (p : list_params) (t : table) : table := take (Z.to_nat (limit p)) (drop (Z.to_nat (offset p)) t).

Definition get_events (rq : data_request) (t : table) : res response :=
  let query := query_params rq in
  params ← parse_list_params query;
  match params with
  | inl _ => Ok (detail_response "Invalid list query parameters." 400)
  | inr p =>
      let summary := String.eqb (py_casefold (dget_or "summary" "" query)) "true" in
      results ← mapM_res (fun kr => PDict <$> serialize_event l kr summary) (page p (queryset query p t));
      Ok (PDict [("count", PInt (Z.of_nat (length (queryset query p t)))); ("limit", PInt (limit p));
                 ("offset", PInt (offset p)); ("results", PList results)], 200)
  end.
End Listing.

(** ** Who may list: [IsAdminUser]

    [session_staff] is the [is_staff] of the user of a session or of Basic credentials, tried
    when the request has no bearer; [denied] is the framework's answer without permission. *)
Section Access.
Context `{UnicodeData} `{NetlocRules} `{CaseFold} `{HttpFramework} (settings : data_settings) (l : http_layer).
Variable _open_introspection_request : introspection_request -> res string.
Variable denied : response.

Definition list_events (authorization : string) (session_staff : bool) (rq : data_request) (t : table) : res response :=
  user ← data_authenticate _open_introspection_request settings authorization;
  if match user with Some u => principal_is_staff u | None => session_staff end then get_events l rq t else Ok denied.
End Access.
