(* ===== verification/DataViewsSpec.v ===== *)
(** Properties of the HTTP interface of the GPS and sensor layers: what a batch reports and
    writes, what sending it again does, which rows a listing shows, and that nothing is
    ingested without the token. *)

From stdpp Require Import sorting.
From S2P Require Import Prelude PyValue Regex Json PyTime PyText Url ConsoleSpec Events Ingest IngestSpec HostEnv DataEnv DataAuth DataSpec DataViews.
#[local] Open Scope list_scope.
#[local] Open Scope string_scope.
#[local] Open Scope Z_scope.

(** ** Batches *)
Section Batch.
Context `{UnicodeData} (l : http_layer) `{!LayerLaws (ingestion l)}.
#[local] Notation L := (ingestion l).

(** What one event of a batch does: how it is counted and which rows it adds. *)
Inductive event_outcome (t : table) (validated : attrs) : answer -> table -> Prop :=
| stored id e body :
    prepare_again l validated = Ok (inl e) -> conflicts t e = false ->
    event_outcome t validated (body, 201) [(id, e)]
| known body :
    truthy (vget "duplicate" body) = true -> event_outcome t validated (body, 200) []
| refused body : event_outcome t validated (body, 400) [].

Lemma prepare_keyed (validated : attrs) (e : row) : prepare_again l validated = Ok (inl e) -> payload_hash e <> "".
Proof.
  unfold prepare_again. destruct (is_valid_again l validated) as [a|]; [|done].
  destruct (build_row L a) as [e'|x] eqn:B; [|by destruct x]. intros [= <-]. eapply row_keyed. exact B.
Qed.
Lemma prepare_refused (validated : attrs) (a : answer) : prepare_again l validated = Ok (inr a) -> exists body, a = (body, 400).
Proof.
  unfold prepare_again. destruct (is_valid_again l validated) as [v|]; [|intros [= <-]; by eexists].
  destruct (build_row L v) as [e'|x]; [done|]. destruct x; try done. intros [= <-]. by eexists.
Qed.
(** Nothing more can come of the event on any later table. *)
Definition event_settled (t : table) (validated : attrs) : Prop :=
  match prepare_again l validated with Ok (inl e) => row_settled (clean_fields_of L) t e | Ok (inr _) => True | Raise _ => False end.
Lemma event_settled_mono (t t' : table) (v : attrs) : t `prefix_of` t' -> event_settled t v -> event_settled t' v.
Proof. unfold event_settled. destruct (prepare_again l v) as [[e|a]|x]; try done. apply row_settled_mono. Qed.

(** The three outcomes of a persistence alone on the table, and when each of them comes. *)
Lemma persist_run (id : string) (e : row) (t : table) :
  payload_hash e <> "" ->
  let persist := persist_idempotent_event (clean_fields_of L) (serialize_of L) id e t in
  (row_settled (clean_fields_of L) t e /\ exists existing, persist = (Ok (serialize_of L existing true, 200), t)) \/
  (row_settled (clean_fields_of L) t e /\ exists d, persist = (Ok (bad_request d), t)) \/
  (~ row_settled (clean_fields_of L) t e /\ save t id e = Ok (t ++ [(id, e)])%list /\
  persist = (Ok (serialize_of L (id, e) false, 201), (t ++ [(id, e)])%list)).
Proof.
  intros He. cbv zeta. unfold persist_idempotent_event, row_settled. pose proof (find_existing_conflicts t e) as F.
  destruct (find_existing t e) as [kr|]; [left; rewrite F; eauto|]. destruct (full_clean _ t e) as [u|x] eqn:C.
  - apply full_clean_Ok in C as (C1 & _ & C2). right. right. unfold save. rewrite F, C2. cbn. rewrite C1. naive_solver.
  - apply full_clean_Raise in C as [[d ->] K]. right. left. split; [done|]. cbn. eauto.
Qed.
Lemma ingest_again_run (id : string) (v : attrs) (t t' : table) (a : answer) :
  ingest_again l id v t = (Ok a, t') ->
  exists new, t' = (t ++ new)%list /\ event_outcome t v a new /\ event_settled t' v /\ (unique_rows t -> unique_rows t') /\
  (event_settled t v -> new = []).
Proof.
  unfold ingest_again, event_settled. unfold mbind, M_bind, lift. destruct (prepare_again l v) as [[e|b]|x] eqn:P; [| |done].
  - pose proof (prepare_keyed _ _ P) as He.
    destruct (persist_run id e t He) as [(K & kr & ->)|[(K & d & ->)|(K & S & ->)]]; intros [= <- <-].
    + exists []. rewrite app_nil_r. split_and!; try done. apply known. by rewrite duplicate_flag.
    + exists []. rewrite app_nil_r. split_and!; try done. apply refused.
    + pose proof (save_Ok _ _ _ _ S) as (_ & C & _). exists [(id, e)]. split_and!; try done.
      * by apply stored.
      * left. eapply save_stored; [by right|exact S].
      * intros U. by eapply save_unique.
  - intros [= <- <-]. exists []. rewrite app_nil_r. apply prepare_refused in P as (body & ->).
    split_and!; try done. apply refused.
Qed.

(** ** The counts of a batch *)
Definition tally_total (c : tally) : Z := inserted_count c + duplicate_count c + error_count c.
Lemma record_answer_counts (t new : table) (v : attrs) (index : Z) (a : answer) (c : tally) :
  event_outcome t v a new ->
  tally_total (record_answer index a c) = tally_total c + 1 /\
  inserted_count (record_answer index a c) = inserted_count c + Z.of_nat (length new) /\
  error_count c <= error_count (record_answer index a c) /\
  length (batch_results (record_answer index a c)) = S (length (batch_results c)).
Proof.
  unfold tally_total. intros [id e body _ _|body Hd|body]; unfold record_answer; cbn -[truthy vget].
  - rewrite length_app. cbn. lia.
  - rewrite Hd. cbn. rewrite length_app. cbn. lia.
  - rewrite length_app. cbn. lia.
Qed.
Lemma batch_loop_run (ids : Z -> string) (events : list attrs) (index : Z) (c c' : tally) (t t' : table) :
  batch_loop l ids index events c t = (Ok c', t') ->
  exists new, t' = (t ++ new)%list /\
  tally_total c' = tally_total c + Z.of_nat (length events) /\
  inserted_count c' = inserted_count c + Z.of_nat (length new) /\
  error_count c <= error_count c' /\
  length (batch_results c') = (length (batch_results c) + length events)%nat /\
  Forall (event_settled t') events /\ (unique_rows t -> unique_rows t') /\
  (Forall (event_settled t) events -> new = []).
Proof.
  revert index c t. induction events as [|v events IH]; intros index c t.
  - intros [= <- <-]. exists []. rewrite app_nil_r. cbn. split_and!; [done|lia|lia|lia|lia|constructor|done|done].
  - cbn [batch_loop]. intros K. unfold mbind, M_bind in K. destruct (ingest_again l (ids index) v t) as [[a|x] t1] eqn:E; [|done].
    destruct (ingest_again_run _ _ _ _ _ E) as (n1 & -> & O & S & U & N).
    destruct (record_answer_counts _ _ _ index _ c O) as (R1 & R2 & R3 & R4).
    apply IH in K as (n2 & -> & I1 & I2 & I3 & I4 & I5 & I6 & I7). exists (n1 ++ n2)%list.
    rewrite app_assoc, length_app. cbn [length]. split_and!; [done|lia|lia|lia|lia| |auto|].
    + constructor; [|done]. eapply event_settled_mono; [|exact S]. by exists n2.
    + intros (H1 & H2)%Forall_cons. rewrite (N H1) in *. rewrite app_nil_r in I7. by rewrite I7.
Qed.
End Batch.

(** ** Sending a batch again *)
Section Resend.
Context `{UnicodeData} (settings : data_settings) (l : http_layer) `{!LayerLaws (ingestion l)}.
Variable errors : pyval.

(** The loop ends with an answer unless an event raises on its own. *)
Lemma batch_loop_total (ids : Z -> string) (events : list attrs) (index : Z) (c : tally) (t : table) :
  Forall (fun v => exists a, prepare_again l v = Ok a) events -> exists c' t', batch_loop l ids index events c t = (Ok c', t').
Proof.
  intros K. revert index c t. induction K as [|v events (a & P) _ IH]; intros index c t; [eauto|].
  cbn [batch_loop]. unfold mbind, M_bind. assert (exists b t1, ingest_again l (ids index) v t = (Ok b, t1)) as (b & t1 & ->); [|apply IH].
  unfold ingest_again, mbind, M_bind, lift. rewrite P. destruct a as [e|b]; [|by eexists _, _].
  destruct (persist_run l (ids index) e t (prepare_keyed l v e P)) as [(_ & kr & ->)|[(_ & d & ->)|(_ & _ & ->)]]; eauto.
Qed.

(** The events a request carries, when it passes the token and the serializer. *)
Definition accepted_events (rq : data_request) : option (list attrs) :=
  match ingestion_token_error settings rq with
  | Ok None =>
      match batch_data (request_data rq) with
      | PDict data => batch_is_valid l data
      | _ => None
      end
  | _ => None
  end.
Lemma post_batch_cases (ids : Z -> string) (rq : data_request) (t t' : table) (r : response) :
  post_batch settings l errors ids rq t = (Ok r, t') ->
  (accepted_events rq = None /\ t' = t /\ (r.2 = 403 \/ r.2 = 400)) \/
  (exists events c, accepted_events rq = Some events /\ r = batch_response c /\ batch_loop l ids 0 events no_results t = (Ok c, t')).
Proof.
  unfold post_batch, with_token, accepted_events. unfold mbind at 1, M_bind at 1, lift. cbn -[batch_ingest_response ingestion_token_error].
  unfold ingestion_token_error. destruct (if String.eqb _ _ then _ else _) as [[e|]|x] eqn:K; [| |done].
  - intros [= <- <-]. left. split_and!; [done..|]. left. destruct (String.eqb _ _) in K; [done|]. apply bind_Ok in K as (same & _ & K).
    destruct same; [done|]. by injection K as <-.
  - unfold batch_ingest_response.
    destruct (batch_data (request_data rq)) as [|b|z|x|s|evs|d];
      try (intros [= <- <-]; left; split_and!; [done..|by right]).
    destruct (batch_is_valid l d) as [events|] eqn:B; [|intros [= <- <-]; left; split_and!; [done..|by right]].
    unfold mbind, M_bind. destruct (batch_loop _ _ _ _ _ _) as [[c|x] t1] eqn:E; [|done]. intros [= <- <-]. right. eauto.
Qed.
Lemma batch_size (rq : data_request) (events : list attrs) :
  accepted_events rq = Some events -> Z.of_nat (length events) <= MAX_INGEST_BATCH_SIZE.
Proof.
  unfold accepted_events. destruct (ingestion_token_error settings rq) as [[|]|]; try done.
  destruct (batch_data (request_data rq)) as [| | | | | |d]; try done.
  unfold batch_is_valid. destruct (dget "events" d) as [[| | | | |evs|]|]; try done. destruct (Z.ltb_spec MAX_INGEST_BATCH_SIZE (Z.of_nat (length evs))); [done|].
  intros K%mapM_Some_1%Forall2_length. lia.
Qed.


(** C34: a batch that was answered can be sent again at any later time, whatever was stored in
    between: no row is written a second time. *)
Theorem resent_batch_writes_nothing (ids ids' : Z -> string) (rq : data_request) (t t1 t2 t3 : table) (r r' : response) :
  post_batch settings l errors ids rq t = (Ok r, t1) -> t1 `prefix_of` t2 ->
  post_batch settings l errors ids' rq t2 = (Ok r', t3) -> t3 = t2.
Proof.
  intros [(A & -> & _)|(events & c & A & -> & K)]%post_batch_cases P [(A' & -> & _)|(events' & c' & A' & -> & K')]%post_batch_cases; try done.
  - by rewrite A in A'.
  - rewrite A in A'. injection A' as <-. destruct (batch_loop_run l _ _ _ _ _ _ _ K) as (n & -> & _ & _ & _ & _ & S & _).
    destruct (batch_loop_run l _ _ _ _ _ _ _ K') as (n' & -> & _ & _ & _ & _ & _ & _ & N). rewrite N, app_nil_r; [done|].
    eapply Forall_impl; [exact S|]. intros v. by apply event_settled_mono.
Qed.
End Resend.

(** ** Printed numbers are read back *)
Lemma int_body_digits (s : string) (n : Z) (seen : bool) :
  all_digits s = true -> (seen = true \/ s <> "") ->
  int_body n seen s = Some (fold_left (fun n a => 10 * n + (code a - 48)) (list_ascii_of_string s) n).
Proof.
  revert n seen. induction s as [|a s IH]; intros n seen; cbn.
  - by intros _ [->|].
  - intros (-> & Hs)%andb_true_iff _. apply IH; auto.
Qed.
Lemma py_int_str_nat `{UnicodeData} (n : Z) : 0 <= n -> n <= 1000000 -> py_int (str_nat n) = Some n.
Proof.
  intros Hn Hb. pose proof (all_digits_str_nat n Hn) as Hd. unfold py_int.
  assert (all_bytes visible (str_nat n) = true) as Hv.
  { revert Hd. generalize (str_nat n). induction s as [|a s IH]; [done|]. cbn. intros (Ha & Hs)%andb_true_iff. rewrite IH by done.
    unfold is_digit in Ha. unfold visible. lia. }
  assert (all_bytes is_ascii (str_nat n) = true) as -> by (eapply all_bytes_impl; [|exact Hv]; unfold visible, is_ascii; lia).
  unfold int_opt. rewrite strip_visible by done. pose proof (str_nat_length n) as Hl.
  assert (Z.log2 n <= 19) as Hlog by (apply (Z.le_trans _ (Z.log2 1000000)); [by apply Z.log2_le_mono|done]).
  pose proof (digits_value_str_nat n Hn) as Hval. unfold digits_value in Hval.
  destruct (str_nat n) as [|a r] eqn:E.
  { cbn in Hval. subst n. by vm_compute in E. }
  rewrite (proj2 (Z.ltb_ge _ _)) by (unfold int_max_str_digits; lia).
  cbn [all_digits] in Hd. pose proof Hd as (Ha & _)%andb_true_iff. unfold is_digit in Ha.
  rewrite (proj2 (Z.eqb_neq (code a) 45)), (proj2 (Z.eqb_neq (code a) 43)) by lia.
  rewrite int_body_digits by (by right || done). by f_equal.
Qed.

(** ** Listings *)
Section Listings.
Context `{UnicodeData} `{CaseFold} `{HttpFramework} (l : http_layer).

Definition newer (a b : string * row) : Prop := acquisition_time b.2 <= acquisition_time a.2.
#[local] Instance newer_trans : Transitive newer.
Proof. intros a b c. unfold newer. lia. Qed.
Lemma insert_newest_perm (kr : string * row) (t : table) : insert_newest kr t ≡ₚ kr :: t.
Proof. induction t as [|x t IH]; cbn; [done|]. destruct (_ <=? _); [done|]. rewrite IH. by apply Permutation_swap. Qed.
Lemma insert_newest_sorted (kr : string * row) (t : table) : StronglySorted newer t -> StronglySorted newer (insert_newest kr t).
Proof.
  induction 1 as [|x t S IH F]; cbn; [repeat constructor|]. destruct (Z.leb_spec (acquisition_time x.2) (acquisition_time kr.2)) as [K|K].
  - constructor; [by constructor|]. constructor; [done|]. eapply Forall_impl; [exact F|]. intros y Hy. unfold newer in *. lia.
  - constructor; [done|]. rewrite insert_newest_perm. constructor; [unfold newer; lia|done].
Qed.
Lemma newest_first_perm (t : table) : newest_first t ≡ₚ t.
Proof.
  unfold newest_first. trans (rev t); [|symmetry; apply Permutation_rev]. generalize (rev t). induction l0 as [|x t' IH]; cbn; [done|].
  by rewrite insert_newest_perm, IH.
Qed.
Lemma newest_first_sorted (t : table) : StronglySorted newer (newest_first t).
Proof. unfold newest_first. generalize (rev t). induction l0 as [|x t' IH]; cbn; [constructor|]. by apply insert_newest_sorted. Qed.

(** The bounds of a page that is served. *)
Lemma positive_int_bounds (value : option string) (field : string) (dflt maximum n : Z) :
  0 <= dflt <= maximum -> parse_positive_int value field dflt maximum = inr n -> 0 <= n <= maximum.
Proof.
  intros Hd. unfold parse_positive_int. destruct value as [[|a r]|]; [by intros [= <-]| |by intros [= <-]].
  destruct (py_int _) as [z|]; [|done]. destruct (Z.ltb_spec z 0); [done|]. intros [= <-]. lia.
Qed.
Lemma list_params_bounds (query : list (string * string)) (p : list_params) :
  parse_list_params query = Ok (inr p) -> 0 <= limit p <= 1000 /\ 0 <= offset p <= 1000000 /\
  (forall s e, started_at p = Some s -> ended_at p = Some e -> s <= e).
Proof.
  unfold parse_list_params. destruct (parse_positive_int (dget "limit" query) _ _ _) as [|lim] eqn:E1; [done|].
  destruct (parse_positive_int (dget "offset" query) _ _ _) as [|off] eqn:E2; [done|].
  apply positive_int_bounds in E1; [|lia]. apply positive_int_bounds in E2; [|lia].
  intros (s & _ & K)%bind_Ok. destruct s as [|s]; [done|]. apply bind_Ok in K as (e & _ & K). destruct e as [|e]; [done|].
  destruct (match s, e with Some s, Some e => e <? s | _, _ => false end) eqn:C; [done|]. injection K as <-. cbn.
  split_and!; try lia. intros s' e' -> ->. lia.
Qed.

Definition page_query (limit offset : Z) : list (string * string) := [("limit", str_nat limit); ("offset", str_nat offset)].
Lemma page_query_parsed (lim off : Z) :
  0 <= lim <= 1000 -> 0 <= off <= 1000000 ->
  parse_list_params (page_query lim off) = Ok (inr {| limit := lim; offset := off; started_at := None; ended_at := None |}).
Proof.
  intros Hl Ho. unfold parse_list_params, page_query, parse_positive_int. cbn -[str_nat py_int].
  pose proof (str_nat_nonempty lim ltac:(lia)). pose proof (str_nat_nonempty off ltac:(lia)).
  pose proof (py_int_str_nat lim ltac:(lia) ltac:(lia)) as P1. pose proof (py_int_str_nat off ltac:(lia) ltac:(lia)) as P2.
  destruct (str_nat lim) as [|a r] eqn:E1; [done|]. destruct (str_nat off) as [|a' r'] eqn:E2; [done|].
  rewrite P1, P2. rewrite !(proj2 (Z.ltb_ge _ _)) by lia. by rewrite !Z.min_l by lia.
Qed.

(** Asking for another page of the same listing. *)
Lemma other_page_parsed (query : list (string * string)) (p : list_params) (lim off : Z) :
  0 <= lim <= 1000 -> 0 <= off <= 1000000 -> parse_list_params query = Ok (inr p) ->
  parse_list_params (page_query lim off ++ query)%list =
    Ok (inr {| limit := lim; offset := off; started_at := started_at p; ended_at := ended_at p |}).
Proof.
  intros Hl Ho K. pose proof (page_query_parsed lim off Hl Ho) as P. unfold parse_list_params in *.
  change (dget "limit" (page_query lim off ++ query)%list) with (dget "limit" (page_query lim off)).
  change (dget "offset" (page_query lim off ++ query)%list) with (dget "offset" (page_query lim off)).
  change (dget "from" (page_query lim off ++ query)%list) with (dget "from" query).
  change (dget "to" (page_query lim off ++ query)%list) with (dget "to" query).
  destruct (parse_positive_int (dget "limit" (page_query lim off)) _ _ _) as [|lim']; [done|].
  destruct (parse_positive_int (dget "offset" (page_query lim off)) _ _ _) as [|off']; [done|].
  cbn in P. injection P as -> ->.
  destruct (parse_positive_int (dget "limit" query) _ _ _); [done|]. destruct (parse_positive_int (dget "offset" query) _ _ _); [done|].
  apply bind_Ok in K as (s & -> & K). destruct s as [|s]; [done|]. apply bind_Ok in K as (e & Ee & K). cbn. rewrite Ee. cbn.
  destruct e as [|e]; [done|]. destruct (match s, e with Some s, Some e => e <? s | _, _ => false end); [done|]. by injection K as <-.
Qed.
Lemma other_page_queryset (query : list (string * string)) (p p' : list_params) (lim off : Z) (t : table) :
  started_at p' = started_at p -> ended_at p' = ended_at p ->
  queryset l (page_query lim off ++ query)%list p' t = queryset l query p t.
Proof. intros Hs He. unfold queryset, list_filter, event_filter. by rewrite Hs, He. Qed.
Lemma page_lookup (p : list_params) (t : table) (k : nat) :
  page p t !! k = if decide (k < Z.to_nat (limit p))%nat then t !! (Z.to_nat (offset p) + k)%nat else None.
Proof.
  unfold page. case_decide.
  - etrans; [by apply lookup_take_lt|apply lookup_drop].
  - apply lookup_take_ge. lia.
Qed.

(** C36: a listing shows the rows that pass its filters, the newest first, each once; asking for
    page after page reaches the first 1,001,000 of them and no other. *)
Theorem listing_reaches (query : list (string * string)) (p : list_params) (t : table) :
  parse_list_params query = Ok (inr p) ->
  queryset l query p t ≡ₚ List.filter (fun kr => list_filter l query p kr.2) t /\
  StronglySorted newer (queryset l query p t) /\
  forall i kr, queryset l query p t !! i = Some kr ->
    ((exists lim off p', let query' := (page_query lim off ++ query)%list in
        parse_list_params query' = Ok (inr p') /\ offset p' <= Z.of_nat i /\
        page p' (queryset l query' p' t) !! (i - Z.to_nat (offset p'))%nat = Some kr) <->
     Z.of_nat i < 1001000).
Proof.
  intros Hp. split; [apply newest_first_perm|]. split; [apply newest_first_sorted|]. intros i kr Hi. split.
  - intros (lim & off & p' & Hp' & Hle & Hpage). apply list_params_bounds in Hp' as (Hl & Ho & _). rewrite page_lookup in Hpage.
    destruct (decide _); [lia|done].
  - intros Hlt. exists 1000, (Z.min (Z.of_nat i) 1000000), {| limit := 1000; offset := Z.min (Z.of_nat i) 1000000; started_at := started_at p; ended_at := ended_at p |}.
    cbv zeta. split; [apply other_page_parsed; [lia|lia|done]|]. cbn [offset]. split; [lia|].
    rewrite (other_page_queryset query p) by done. rewrite page_lookup. cbn [limit offset]. rewrite decide_True by lia.
    replace (Z.to_nat (Z.min (Z.of_nat i) 1000000) + (i - Z.to_nat (Z.min (Z.of_nat i) 1000000)))%nat with i by lia. done.
Qed.
End Listings.

(** ** The token of the ingestion *)
Section Token.
Context `{UnicodeData} (env : environ) (random_key database_name : string) (l : http_layer).

Lemma token_refused (s : data_settings) (rq : data_request) (handler : M table response) (t : table) :
  DEALDATA_INGEST_TOKEN s <> "" -> default "" (ingest_header rq) <> DEALDATA_INGEST_TOKEN s ->
  with_token s rq handler t = (Ok (detail_response "Invalid ingestion token." 403), t) \/ with_token s rq handler t = (Raise TypeError, t).
Proof.
  intros Hs Hr. unfold with_token, ingestion_token_error. rewrite (proj2 (String.eqb_neq _ _) Hs). unfold compare_digest.
  destruct (_ && _); [left|by right]. cbn. by rewrite (proj2 (String.eqb_neq _ _) Hr).
Qed.
Lemma token_accepted (s : data_settings) (rq : data_request) (handler : M table response) (t : table) :
  default "" (ingest_header rq) = DEALDATA_INGEST_TOKEN s -> all_bytes is_ascii (DEALDATA_INGEST_TOKEN s) = true ->
  with_token s rq handler t = handler t.
Proof.
  intros Hr Ha. unfold with_token, ingestion_token_error. rewrite Hr. unfold compare_digest. rewrite Ha, String.eqb_refl.
  by destruct (String.eqb _ "").
Qed.

(** C35: on a layer whose entrypoint checked the deployment, an event or a batch without the
    configured token writes nothing: it is answered 403, or raises when a text is not ASCII. *)
Theorem ingestion_needs_token (s : data_settings) (rq : data_request) :
  service_starts env random_key database_name true = Ok s -> runs_deploy_check env = true ->
  default "" (ingest_header rq) <> DEALDATA_INGEST_TOKEN s ->
  forall (id : string) (errors : pyval) (ids : Z -> string) (t : table) (handle : M table response),
    handle = post_event s l id rq \/ handle = post_batch s l errors ids rq ->
    handle t = (Ok (detail_response "Invalid ingestion token." 403), t) \/ handle t = (Raise TypeError, t).
Proof.
  intros Hs Hrun Hr id errors ids t handle Hh.
  destruct (started_layer env random_key database_name true s Hs Hrun) as (Hreq & _ & [_ _ K _ _ _ _]).
  destruct Hh as [->| ->]; apply token_refused; auto.
Qed.
End Token.

(** ** Examples *)
Module SampleLayers.
#[local] Existing Instance ascii_unicode.
#[local] Existing Instance ascii_fold.
#[local] Existing Instance Herd.framework.
(** Converted data is converted to itself; a text with the length of a timestamp that names no
    instant is well formed. *)
#[local] Instance http_framework : HttpFramework :=
  {| gps_fields_again := Some; sensor_fields_again := Some;
     django_parse_datetime := fun s => match fromisoformat s with
                                       | Some parsed => Ok (Some parsed)
                                       | None => if Nat.eqb (String.length s) 19 then Raise (ValueError "month must be in 1..12") else Ok None
                                       end |}.
Definition gps : http_layer := gps_http (fun _ => None).
#[local] Instance gps_laws : LayerLaws (ingestion gps) := gps_layer_laws (fun _ => None).
Definition fix_at (id day : string) : pyval :=
  PDict [("device_id", PStr "WF-002"); ("event_id", PStr id); ("timestamp", PStr ("2026-01-" ++ day ++ "T00:00:00+00:00"));
         ("latitude", PInt 1); ("longitude", PInt 2); ("payload", PDict [])].
Definition request_of (token : string) (data : pyval) : data_request :=
  {| ingest_header := Some token; request_data := data; query_params := [] |}.
Definition batch_request : data_request := request_of "ingest token" (PList [fix_at "a" "01"; fix_at "a" "01"; fix_at "b" "02"]).
Definition keys_of (index : Z) : string := ("key-" ++ py_str_int index)%string.
#[local] Notation run := (post_batch SampleData.configured_service gps PNone keys_of).
(** A GPS fix without coordinates is refused by the serializer of the batch. *)
Example incomplete_batch_refused :
  run (request_of "ingest token" (PList [PDict [("device_id", PStr "WF-002")]])) [] = (Ok (PDict [("detail", PNone)], 400), []).
Proof. vm_compute. reflexivity. Qed.
Lemma batch_run : exists r t, run batch_request [] = (Ok r, t) /\ length t = 2%nat /\ r.2 = 200.
Proof. eexists _, _. split; [vm_compute; reflexivity|done]. Qed.
(** An altitude beyond the range of floats raises out of a batch whose first event is stored. *)
Definition huge_fix : pyval :=
  PDict [("device_id", PStr "WF-002"); ("event_id", PStr "c"); ("timestamp", PStr "2026-01-03T00:00:00+00:00");
         ("latitude", PInt 1); ("longitude", PInt 2); ("payload", PDict [("alt", PInt (10 ^ 309))])].
Theorem batch_stops_half_way :
  exists t, run (request_of "ingest token" (PList [fix_at "a" "01"; huge_fix; fix_at "b" "02"])) [] = (Raise OverflowError, t) /\ length t = 1%nat.
Proof. eexists. split; [vm_compute; reflexivity|done]. Qed.
(** A date that does not exist is no query parameter error: it raises out of the listing. *)
Theorem impossible_date_uncaught (t : table) :
  get_events gps {| ingest_header := None; request_data := PNone; query_params := [("from", "2026-13-01T00:00:00")] |} t
  = Raise (ValueError "month must be in 1..12").
Proof. reflexivity. Qed.
(** A token that is not ASCII raises out of the comparison. *)
Theorem non_ascii_ingest_token_uncaught (t : table) :
  run (request_of (bytes [195; 169]) (PList [])) t = (Raise TypeError, t).
Proof. reflexivity. Qed.

Lemma resent_batch_writes_nothing_witness :
  exists r t, run batch_request [] = (Ok r, t) /\ length t = 2%nat /\ forall r' t', run batch_request t = (Ok r', t') -> t' = t.
Proof.
  destruct batch_run as (r & t & E & L & _). exists r, t. split; [exact E|]. split; [exact L|]. intros r' t' E'.
  exact (resent_batch_writes_nothing SampleData.configured_service gps PNone keys_of keys_of batch_request [] t t t' r r' E ltac:(reflexivity) E').
Defined.
Lemma ingestion_needs_token_witness :
  run (request_of "guess" (PList [fix_at "a" "01"])) [] = (Ok (detail_response "Invalid ingestion token." 403), []).
Proof.
  destruct (ingestion_needs_token SampleData.variables "random" "dealdata_gps" gps SampleData.configured_service
              (request_of "guess" (PList [fix_at "a" "01"])) SampleData.service_run eq_refl ltac:(discriminate) "key" PNone keys_of []
              (run (request_of "guess" (PList [fix_at "a" "01"]))) ltac:(right; reflexivity)) as [K|K]; [exact K|].
  exfalso. vm_compute in K. discriminate K.
Defined.

Definition window : list (string * string) := [("device_id", "WF-002"); ("from", "2026-01-01T00:00:00+00:00"); ("limit", "1")].
Definition window_params : list_params :=
  {| limit := 1; offset := 0; started_at := Some 1767225600000000; ended_at := None |}.
Lemma window_parsed : parse_list_params window = Ok (inr window_params).
Proof. vm_compute. reflexivity. Qed.
Lemma listing_reaches_witness :
  exists t kr, length t = 2%nat /\ queryset gps window window_params t !! 1%nat = Some kr /\
    exists lim off p', let query' := (page_query lim off ++ window)%list in
      parse_list_params query' = Ok (inr p') /\ offset p' <= 1 /\
      page p' (queryset gps query' p' t) !! (1 - Z.to_nat (offset p'))%nat = Some kr.
Proof.
  assert (exists t kr, length t = 2%nat /\ queryset gps window window_params t !! 1%nat = Some kr) as (t & kr & L & E).
  { assert (exists r t, run batch_request [] = (Ok r, t) /\ length t = 2%nat /\ is_Some (queryset gps window window_params t !! 1%nat))
      as (r & t & _ & L & [kr E]) by (eexists _, _; split; [vm_compute; reflexivity|split; [reflexivity|vm_compute; by eexists]]).
    by exists t, kr. }
  exists t, kr. split; [exact L|]. split; [exact E|].
  destruct (listing_reaches gps window window_params t window_parsed) as (_ & _ & K).
  exact (proj2 (K 1%nat kr E) ltac:(reflexivity)).
Defined.
End SampleLayers.
