(* ===== verification/Views.v ===== *)
(** The runtime API of the host (apps/hosting/runtime_views.py): the request handlers that
    change desired state and queue operations for the worker.

    A handler reads and validates, then runs one transaction under a row lock; the
    transactions are the definitions ending in [_tx].  The identifiers and the instant
    Django fills in for a new row are arguments.  The inputs are those left by the field
    validation of the REST framework; the query parameters that narrow [get_queryset] are
    taken as absent; the actor columns are left out. *)

From S2P Require Import Prelude PyValue Regex Sha256 Json Contract Service Release Kube Worker Inputs.
#[local] Open Scope string_scope.
#[local] Open Scope list_scope.
#[local] Open Scope Z_scope.

(** ** State *)
Record Application := {
  application : HostedApplication;
  modules : list Module_;
  app_revision : Z;
  app_enabled : bool;
  current_version : string
}.
Record host := {
  tables : db;
  release_tables : catalog;
  applications : gmap Z Application;
  environments : gmap string RuntimeEnvironment
}.
Definition set_tables (d : db) (h : host) : host :=
  {| tables := d; release_tables := release_tables h; applications := applications h; environments := environments h |}.
Definition set_releases (c : catalog) (h : host) : host :=
  {| tables := tables h; release_tables := c; applications := applications h; environments := environments h |}.

(** ** Requests and responses *)
Record Request := {
  idempotency_header : option string;
  if_match : option string
}.
Inductive body :=
| Problem (detail code : string)
| Errors (detail : string)
| Mutation (id : string) (deployment : RuntimeDeployment) (operation_id : string) (operation : RuntimeOperation)
| Operation (operation_id : string) (operation : RuntimeOperation).
Record Response := {
  status_code : Z;
  content : body;
  response_headers : list (string * string)
}.

Definition quoted (s : string) : string := (bytes [34] ++ s ++ bytes [34])%string.
Definition _etag (revision : Z) : string := quoted (py_str_int revision).
Definition _problem (detail code : string) (status_code : Z) : Response :=
  {| status_code := status_code; content := Problem detail code; response_headers := [] |}.
Definition no_store : string * string := ("Cache-Control", "private, no-store").
Definition replay_header (replay : bool) : list (string * string) :=
  if replay then [("Idempotent-Replay", "true")] else [].
Definition _mutation_response (id : string) (x : RuntimeDeployment) (oid : string) (o : RuntimeOperation)
    (status_code : Z) (replay : bool) : Response :=
  {| status_code := status_code; content := Mutation id x oid o;
     response_headers := [("ETag", _etag (revision x)); no_store] ++ replay_header replay |}.

Definition _request_hash (scope : string) (payload : pyval) : res string :=
  text ← encode_utf8 (dumps_sorted (PDict [("scope", PStr scope); ("payload", payload)]));
  Ok (sha256_hex text).

(** ** Computations over the host's tables *)
Definition read {A} (f : host -> res A) : M host A := fun h => (f h, h).
Definition write (f : host -> host) : M host unit := fun h => (Ok tt, f h).
(** [transaction.atomic]: an exception restores the tables. *)
Definition atomic {A} (m : M host A) : M host A :=
  fun h => match m h with (Raise e, _) => (Raise e, h) | r => r end.
(** [if response is not None: return response]. *)
Definition unless {A} (early : option A) (rest : M host A) : M host A :=
  match early with Some r => mret r | None => rest end.

Definition find_deployment (id : string) : M host RuntimeDeployment := read (fun h => get_deployment id (tables h)).

(** ** Idempotency *)
Definition _idempotency_key (rq : Request) : option string :=
  match idempotency_header rq with
  | Some value => if String.eqb value "" then None else Some (py_strip value)
  | None => None
  end.
Definition IDEMPOTENCY_KEY_PATTERN : regex :=
  let alnum := por (between "A" "Z") (por (between "a" "z") (between "0" "9")) in
  Seq (Cls alnum) (Rep 7 (Some 127%nat) (Cls (por alnum (one_of "._:-")))).

(** [RuntimeOperation.objects.filter(idempotency_key=key).first()]. *)
Definition operation_of_key (key : string) (d : db) : option (string * RuntimeOperation) :=
  find (fun p => String.eqb (idempotency_key p.2) key) (map_to_list (operations d)).

Definition _idempotency_replay (rq : Request) (hash : string) (d : db) : option (string * RuntimeOperation) + Response :=
  match _idempotency_key rq with
  | None => inr (_problem "Idempotency-Key is required for runtime mutations." "idempotency_key_required" 428)
  | Some key =>
      if negb (fullmatch IDEMPOTENCY_KEY_PATTERN key)
      then inr (_problem "Idempotency-Key must contain 8-128 safe characters." "invalid_idempotency_key" 400)
      else
        match operation_of_key key d with
        | None => inl None
        | Some (id, o) =>
            if negb (String.eqb (request_hash o) hash)
            then inr (_problem "The idempotency key was already used for a different request." "idempotency_conflict" 409)
            else inl (Some (id, o))
        end
  end.

Definition _replay (rq : Request) (hash : string) : M host (option Response) :=
  read (fun h =>
    match _idempotency_replay rq hash (tables h) with
    | inr problem => Ok (Some problem)
    | inl None => Ok None
    | inl (Some (oid, o)) =>
        x ← get_deployment (op_deployment o) (tables h);
        Ok (Some (_mutation_response (op_deployment o) x oid o 200 true))
    end).
Definition _replay_operation (rq : Request) (hash : string) : M host (option Response) :=
  read (fun h =>
    match _idempotency_replay rq hash (tables h) with
    | inr problem => Ok (Some problem)
    | inl None => Ok None
    | inl (Some (oid, o)) =>
        Ok (Some {| status_code := 200; content := Operation oid o;
                    response_headers := replay_header true ++ [no_store] |})
    end).

(** ** Preconditions *)
Definition ETAG : regex :=
  Seq (lit (bytes [34])) (Seq (Seq (Cls (between "1" "9")) (star (Cls (between "0" "9")))) (lit (bytes [34]))).
Definition _revision_precondition (rq : Request) (revision : Z) (resource : string) : res (option Response) :=
  match if_match rq with
  | None => Ok (Some (_problem ("If-Match is required for runtime " ++ resource ++ " mutations.") "precondition_required" 428))
  | Some value =>
      let value := py_strip value in
      if negb (fullmatch ETAG value)
      then Ok (Some (_problem ("If-Match must contain a strong revision ETag such as " ++ quoted "3" ++ ".")
                       "invalid_precondition" 400))
      else
        n ← int_of_digits (String.substring 1 (String.length value - 2) value);
        Ok (if n =? revision then None
            else Some {| status_code := 412;
                         content := Problem ("The runtime " ++ resource ++ " changed after it was loaded.") "stale_revision";
                         response_headers := [("ETag", _etag revision)] |})
  end.
Definition _application_precondition (rq : Request) (a : Application) : res (option Response) :=
  _revision_precondition rq (app_revision a) "application".
Definition _deployment_precondition (rq : Request) (x : RuntimeDeployment) : res (option Response) :=
  _revision_precondition rq (revision x) "deployment".

Definition active (o : RuntimeOperation) : bool := match status o with QUEUED | RUNNING => true | _ => false end.
Definition is_log (o : RuntimeOperation) : bool := match operation_type o with LOG_SNAPSHOT => true | _ => false end.
(** [deployment.operations.filter(...)...exists()]. *)
Definition any_operation (id : string) (p : RuntimeOperation -> bool) (d : db) : bool :=
  existsb (fun kv => String.eqb (op_deployment kv.2) id && p kv.2) (map_to_list (operations d)).
Definition _busy_response (id : string) (d : db) : option Response :=
  if any_operation id (fun o => active o && negb (is_log o)) d
  then Some (_problem "Another runtime operation is already in progress." "operation_in_progress" 409)
  else None.
Definition _environment_unavailable (x : RuntimeDeployment) : option Response :=
  if env_enabled (env_row x) then None
  else Some (_problem "The runtime environment is disabled for operational requests." "runtime_environment_disabled" 409).

Definition allowed_states (action_name : string) : list string :=
  if String.eqb action_name "start" then ["stopped"; "failed"; "unknown"]
  else if String.eqb action_name "stop" then ["running"; "degraded"; "failed"; "unknown"]
  else if String.eqb action_name "restart" then ["running"; "degraded"]
  else ["running"; "degraded"; "stopped"].
Definition _validate_transition (x : RuntimeDeployment) (action_name : string) : option Response :=
  match deleted_at x with
  | Some _ => Some (_problem "A deleted deployment cannot accept runtime actions." "deployment_deleted" 409)
  | None =>
      if mem (observed_state x) (allowed_states action_name) then None
      else Some (_problem ("Action " ++ action_name ++ " is not valid while the deployment is " ++ observed_state x ++ ".")
                   "invalid_runtime_transition" 409)
  end.
Definition supported (capabilities : pyval) (action_name : string) : bool :=
  match capabilities with
  | PDict c =>
      if mem action_name ["start"; "stop"] then is_true (vget "start_stop" c)
      else if String.eqb action_name "restart" then is_true (vget "restart" c)
      else match vget "scaling" c with
           | PDict scaling => match vget "fixed" scaling with PDict _ => true | _ => false end
           | _ => false
           end
  | _ => false
  end.
Definition _validate_action_capability (x : RuntimeDeployment) (action_name : string) : option Response :=
  if supported (capabilities x) action_name then None
  else Some (_problem ("Action " ++ action_name ++ " is not supported by this environment.")
               "runtime_capability_unavailable" 409).

(** ** Rows *)
(** [v[k]] of a JSON value. *)
Definition getitem (k : string) (v : pyval) : res pyval :=
  match v with
  | PDict d => match dget k d with Some x => Ok x | None => Raise (KeyError k) end
  | _ => Raise TypeError
  end.
Definition as_int (v : pyval) : res Z := match v with PInt n => Ok n | _ => Raise TypeError end.
Definition as_text (v : pyval) : res string := match v with PStr s => Ok s | _ => Raise TypeError end.

(** The replicas a scaling policy asks for first. *)
Definition desired_of (policy : pyval) : res Z :=
  mode ← getitem "mode" policy;
  n ← getitem (if eq_str mode "fixed" then "replicas" else "min_replicas") policy;
  as_int n.

Definition new_component (scaling : pyval) (manifest_component : pyval) : res RuntimeComponent :=
  slug ← getitem "slug" manifest_component ≫= as_text;
  policy ← getitem slug scaling;
  desired ← desired_of policy;
  _ ← getitem "module_id" manifest_component;
  image ← getitem "image" manifest_component ≫= as_text;
  Ok {| rc_slug := slug; image_digest := image; desired_replicas := desired; ready_replicas := 0;
        available_replicas := 0; rc_state := "pending"; health := "unknown"; restart_count := 0; rc_last_error := "" |}.
(** The rows of [_create_components]; the unique constraint on deployment and slug. *)
Definition _create_components (scaling manifest : pyval) : res (list RuntimeComponent) :=
  raws ← getitem "modules" manifest;
  match raws with
  | PList raws =>
      rows ← mapM_res (new_component scaling) raws;
      _ ← raise_if (negb (nodupb (map rc_slug rows))) IntegrityError;
      Ok rows
  | _ => Raise TypeError
  end.

Definition with_replicas (n : Z) (c : RuntimeComponent) : RuntimeComponent := {|
  rc_slug := rc_slug c; image_digest := image_digest c; desired_replicas := n; ready_replicas := ready_replicas c;
  available_replicas := available_replicas c; rc_state := rc_state c; health := health c;
  restart_count := restart_count c; rc_last_error := rc_last_error c |}.
Definition _sync_component_scaling (scaling : pyval) (cs : list RuntimeComponent) : res (list RuntimeComponent) :=
  mapM_res (fun c => policy ← getitem (rc_slug c) scaling; n ← desired_of policy; Ok (with_replicas n c)) cs.

Definition new_operation (deployment_id : string) (x : RuntimeDeployment) (operation_type : OperationType)
    (payload : list (string * pyval)) (key hash : string) (now : Z) : RuntimeOperation := {|
  op_deployment := deployment_id; Worker.operation_type := operation_type; status := QUEUED;
  op_payload := match operation_type with
                | LOG_SNAPSHOT => payload
                | _ => dset "desired_state" (PStr (dep_desired_state x)) payload
                end;
  progress := stage "queued" PNone; result := PNone; error := PNone; idempotency_key := key; request_hash := hash;
  target_generation := dep_generation x; attempts := 0; controller_failures := 0; next_attempt_at := None;
  leased_by := ""; lease_token := None; lease_expires_at := None; requested_at := now; started_at := None;
  finished_at := None |}.

(** A row that breaks the primary key, the unique idempotency key or the unique active log
    snapshot of a deployment. *)
Definition operation_conflict (oid : string) (o : RuntimeOperation) (d : db) : bool :=
  match operations d !! oid with Some _ => true | None => false end ||
  match operation_of_key (idempotency_key o) d with Some _ => true | None => false end ||
  (is_log o && active o && any_operation (op_deployment o) (fun o' => is_log o' && active o') d).

Definition _create_operation (rq : Request) (deployment_id : string) (x : RuntimeDeployment)
    (operation_type : OperationType) (hash : string) (payload : list (string * pyval)) (oid : string) (now : Z)
    : M host RuntimeOperation :=
  match _idempotency_key rq with
  | None => raise AssertionError
  | Some key =>
      let o := new_operation deployment_id x operation_type payload key hash now in
      fun h =>
        if operation_conflict oid o (tables h) then (Raise RuntimeIdempotencyConflict, h)
        else (Ok o, set_tables (set_operation oid o (tables h)) h)
  end.

(** [locked] after a mutation: one more generation and revision, no error. *)
Definition mutated (x : RuntimeDeployment) (desired observed : string) (configuration secret_refs scaling : pyval)
    : RuntimeDeployment := {|
  dep_application := dep_application x; dep_environment := dep_environment x; dep_desired_state := desired;
  observed_state := observed; controller_id := controller_id x; dep_configuration := configuration;
  dep_secret_refs := secret_refs; dep_scaling := scaling; dep_generation := dep_generation x + 1;
  observed_generation := observed_generation x; revision := revision x + 1; dep_last_error := "";
  last_reconciled_at := last_reconciled_at x; deleted_at := deleted_at x; release_manifest := release_manifest x;
  release_manifest_digest := release_manifest_digest x; env_row := env_row x |}.

Definition save (id : string) (x : RuntimeDeployment) : M host unit :=
  write (fun h => set_tables (set_deployment id x (tables h)) h).
Definition save_components (id : string) (cs : list RuntimeComponent) : M host unit :=
  write (fun h => set_tables (set_components id cs (tables h)) h).
Definition components_of (id : string) : M host (list RuntimeComponent) :=
  read (fun h => Ok (get_components id (tables h))).

(** The manifest of a stored release is a dict. *)
Definition manifest_of (v : pyval) : res (list (string * pyval)) :=
  match v with PDict m => Ok m | _ => Raise (AttributeError "get") end.

Section handlers.
Context (runtime_enabled : bool).

Definition _runtime_unavailable : option Response :=
  if runtime_enabled then None
  else Some (_problem "Runtime operations require an isolated controller configuration." "runtime_backend_unavailable" 503).

(** The frame of a handler on a deployment: the replay, the switch, the transaction. *)
Definition guarded (replay : M host (option Response)) (transaction : M host Response) : M host Response :=
  r ← replay;
  unless r (unless _runtime_unavailable (atomic transaction)).

(** ** destroy *)
Definition destroy_tx (rq : Request) (pk hash oid : string) (now : Z) : M host Response :=
  locked ← find_deployment pk;
  locked_replay ← _replay rq hash;
  unless locked_replay (
  precondition ← lift (_deployment_precondition rq locked);
  unless precondition (
  busy ← read (fun h => Ok (_busy_response pk (tables h)));
  unless busy (
  match deleted_at locked with
  | Some _ => mret (_problem "The deployment is already deleted." "deployment_deleted" 409)
  | None =>
      let x := mutated locked "absent" "deleting" (dep_configuration locked) (dep_secret_refs locked) (dep_scaling locked) in
      _ ← save pk x;
      o ← _create_operation rq pk x UNDEPLOY hash [] oid now;
      mret (_mutation_response pk x oid o 202 false)
  end))).
Definition destroy (rq : Request) (pk oid : string) (now : Z) : M host Response :=
  _ ← find_deployment pk;
  hash ← lift (_request_hash ("undeploy:" ++ pk) (PDict []));
  guarded (_replay rq hash) (destroy_tx rq pk hash oid now).

(** ** partial_update *)
(** The validated fields of RuntimeDeploymentUpdateSerializer, in its order. *)
Definition update_fields (x : RuntimeDeployment) (modules : list Module_) (data : list (string * pyval))
    : res (list (string * pyval)) :=
  manifest ← manifest_of (release_manifest x);
  scaling ← match dget "scaling" data with
            | None => Ok []
            | Some v => s ← validate_runtime_scaling v modules (Some manifest) (Some (env_row x));
                        Ok [("scaling", scaling_json s)]
            end;
  configuration ← match dget "configuration" data with
                  | None => Ok []
                  | Some v => c ← validate_runtime_configuration v modules (Some manifest);
                              Ok [("configuration", values_json c)]
                  end;
  secret_refs ← match dget "secret_refs" data with
                | None => Ok []
                | Some v => s ← validate_runtime_secret_references v modules (Some manifest) (Some (env_row x));
                            Ok [("secret_refs", values_json s)]
                end;
  match scaling ++ configuration ++ secret_refs with
  | [] => Raise (ValidationError "At least one runtime field is required.")
  | attrs => Ok attrs
  end.

Definition update_tx (rq : Request) (pk : string) (attrs : list (string * pyval)) (hash oid : string) (now : Z)
    : M host Response :=
  locked ← find_deployment pk;
  locked_replay ← _replay rq hash;
  unless locked_replay (
  precondition ← lift (_deployment_precondition rq locked);
  unless precondition (
  unless (_environment_unavailable locked) (
  busy ← read (fun h => Ok (_busy_response pk (tables h)));
  unless busy (
  match deleted_at locked with
  | Some _ => mret (_problem "A deleted deployment cannot be configured." "deployment_deleted" 409)
  | None =>
      if String.eqb (dep_desired_state locked) "absent"
      then mret (_problem "A deployment pending removal cannot be configured." "deployment_deleting" 409)
      else
        let x := mutated locked (dep_desired_state locked) "reconciling"
                   (dget_or "configuration" (dep_configuration locked) attrs)
                   (dget_or "secret_refs" (dep_secret_refs locked) attrs)
                   (dget_or "scaling" (dep_scaling locked) attrs) in
        _ ← save pk x;
        cs ← components_of pk;
        cs ← lift (_sync_component_scaling (dep_scaling x) cs);
        _ ← save_components pk cs;
        let operation_type := if String.eqb (controller_id x) "" then DEPLOY else CONFIGURE in
        o ← _create_operation rq pk x operation_type hash
              [("changed_fields", PList (map PStr (sort_strings (keys attrs))))] oid now;
        mret (_mutation_response pk x oid o 202 false)
  end)))).
Definition partial_update (rq : Request) (pk : string) (modules : list Module_) (data : list (string * pyval))
    (oid : string) (now : Z) : M host Response :=
  deployment ← find_deployment pk;
  attrs ← lift (update_fields deployment modules data);
  hash ← lift (_request_hash ("configure:" ++ pk) (PDict attrs));
  guarded (_replay rq hash) (update_tx rq pk attrs hash oid now).

(** ** actions *)
(** RuntimeActionSerializer.validate, on the fields that passed. *)
Definition action_attrs (attrs : list (string * pyval)) : res (list (string * pyval)) :=
  if eq_str (vget "action" attrs) "scale" then
    _ ← raise_if (negb (has_key "component" attrs) || negb (has_key "replicas" attrs))
          (ValidationError "Scale requires a component and replicas.");
    Ok attrs
  else
    _ ← raise_if (has_key "component" attrs || has_key "replicas" attrs)
          (ValidationError "Component and replicas are accepted only for scale.");
    Ok attrs.

Definition action_type (action_name : string) : OperationType :=
  if String.eqb action_name "start" then START
  else if String.eqb action_name "stop" then STOP
  else if String.eqb action_name "restart" then RESTART
  else SCALE.

(** The desired state, the scaling, the changed components and the payload of an action, or
    the response that refuses it. *)
Definition plan_action (x : RuntimeDeployment) (modules : list Module_) (cs : list RuntimeComponent)
    (action_name : string) (attrs : list (string * pyval))
    : res (Response + (string * pyval * option (list RuntimeComponent) * list (string * pyval))) :=
  if String.eqb action_name "start" then Ok (inr ("running", dep_scaling x, None, []))
  else if String.eqb action_name "stop" then Ok (inr ("stopped", dep_scaling x, None, []))
  else if String.eqb action_name "scale" then
    slug ← as_text (vget "component" attrs);
    replicas ← as_int (vget "replicas" attrs);
    match find_component slug cs with
    | None => Ok (inl (_problem "The requested component is not part of the deployment." "component_not_found" 400))
    | Some component =>
        manifest ← manifest_of (release_manifest x);
        match dep_scaling x with
        | PDict current =>
            let scaling := dset slug (PDict [("mode", PStr "fixed"); ("replicas", PInt replicas)]) current in
            match validate_runtime_scaling (PDict scaling) modules (Some manifest) (Some (env_row x)) with
            | Raise (ValidationError detail) =>
                Ok (inl {| status_code := 400; content := Errors detail; response_headers := [] |})
            | Raise e => Raise e
            | Ok s =>
                Ok (inr (dep_desired_state x, scaling_json s, Some (replace_component (with_replicas replicas component) cs),
                         [("component", PStr slug); ("replicas", PInt replicas)]))
            end
        | _ => Raise TypeError
        end
    end
  else Ok (inr (dep_desired_state x, dep_scaling x, None, [])).

Definition actions_tx (rq : Request) (pk : string) (modules : list Module_) (action_name : string)
    (attrs : list (string * pyval)) (hash oid : string) (now : Z) : M host Response :=
  locked ← find_deployment pk;
  locked_replay ← _replay rq hash;
  unless locked_replay (
  precondition ← lift (_deployment_precondition rq locked);
  unless precondition (
  unless (_environment_unavailable locked) (
  busy ← read (fun h => Ok (_busy_response pk (tables h)));
  unless busy (
  unless (_validate_action_capability locked action_name) (
  unless (_validate_transition locked action_name) (
  if String.eqb (controller_id locked) "" && negb (String.eqb action_name "start")
  then mret (_problem "Retry the deployment before requesting this action." "runtime_identity_unavailable" 409)
  else
    let operation_type := if String.eqb action_name "start" && String.eqb (controller_id locked) ""
                          then DEPLOY else action_type action_name in
    cs ← components_of pk;
    plan ← lift (plan_action locked modules cs action_name attrs);
    match plan with
    | inl refused => mret refused
    | inr (desired, scaling, cs, payload) =>
        _ ← match cs with Some cs => save_components pk cs | None => mret tt end;
        let x := mutated locked desired "reconciling" (dep_configuration locked) (dep_secret_refs locked) scaling in
        _ ← save pk x;
        o ← _create_operation rq pk x operation_type hash payload oid now;
        mret (_mutation_response pk x oid o 202 false)
    end)))))).
Definition actions (rq : Request) (pk : string) (modules : list Module_) (data : list (string * pyval)) (oid : string)
    (now : Z) : M host Response :=
  _ ← find_deployment pk;
  attrs ← lift (action_attrs data);
  action_name ← lift (as_text (vget "action" attrs));
  hash ← lift (_request_hash ("action:" ++ pk) (PDict attrs));
  guarded (_replay rq hash) (actions_tx rq pk modules action_name attrs hash oid now).

(** ** log_requests *)
Definition log_limit (x : RuntimeDeployment) (tail_lines : Z) : option Response :=
  let limits := match capabilities x with PDict c => dget_or "logs" (PDict []) c | _ => PDict [] end in
  match limits with
  | PDict l =>
      let bad := _problem "The runtime environment has an invalid log contract." "runtime_environment_invalid" 503 in
      match vget "max_lines" l with
      | PInt maximum =>
          if negb ((1 <=? maximum) && (maximum <=? 1000)) then Some bad
          else if maximum <? tail_lines
          then Some (_problem "The requested log tail exceeds the environment limit." "log_limit_exceeded" 400)
          else None
      | _ => Some bad
      end
  | _ => Some (_problem "Logs are not supported by this environment." "runtime_capability_unavailable" 409)
  end.

Definition logs_tx (rq : Request) (pk : string) (attrs : list (string * pyval)) (hash oid : string) (now : Z)
    : M host Response :=
  locked ← find_deployment pk;
  locked_replay ← _replay_operation rq hash;
  unless locked_replay (
  precondition ← lift (_deployment_precondition rq locked);
  unless precondition (
  unless (_environment_unavailable locked) (
  busy ← read (fun h => Ok (any_operation pk (fun o => is_log o && active o) (tables h)));
  if busy : bool
  then mret (_problem "Another log snapshot is already in progress for this deployment." "log_snapshot_in_progress" 409)
  else if String.eqb (controller_id locked) ""
  then mret (_problem "Logs are unavailable until the deployment has a runtime identity." "runtime_identity_unavailable" 409)
  else if negb (mem (observed_state locked) ["running"; "degraded"; "stopped"; "failed"; "unknown"])
  then mret (_problem "Logs are unavailable during this runtime transition." "invalid_runtime_transition" 409)
  else
    cs ← components_of pk;
    slug ← lift (as_text (vget "component" attrs));
    match find_component slug cs with
    | None => mret (_problem "The requested log component is not part of the deployment." "component_not_found" 400)
    | Some _ =>
        tail_lines ← lift (as_int (vget "tail_lines" attrs));
        unless (log_limit locked tail_lines) (
        o ← _create_operation rq pk locked LOG_SNAPSHOT hash attrs oid now;
        mret {| status_code := 202; content := Operation oid o; response_headers := [no_store] |})
    end))).
Definition log_requests (rq : Request) (pk : string) (attrs : list (string * pyval)) (oid : string) (now : Z)
    : M host Response :=
  _ ← find_deployment pk;
  hash ← lift (_request_hash ("logs:" ++ pk) (PDict attrs));
  guarded (_replay_operation rq hash) (logs_tx rq pk attrs hash oid now).

(** ** create *)
(** Decimal digits of the Unicode database, for [\d]. *)
Context (decimal : string -> bool).

Fixpoint skip_digits (l : list string) : list string :=
  match l with c :: r => if decimal c then skip_digits r else l | [] => [] end.
(** One or more digits, then what is left. *)
Definition number (l : list string) : option (list string) :=
  match l with c :: r => if decimal c then Some (skip_digits r) else None | [] => None end.
Definition dotted (l : list string) : option (list string) :=
  match l with c :: r => if String.eqb c "." then number r else None | [] => None end.
Definition version_byte (c : string) : bool :=
  match c with
  | String a "" => (between "0" "9" a || between "A" "Z" a || between "a" "z" a || one_of ".-" a)%bool
  | _ => false
  end.
(** [re.fullmatch(SEMVER_PATTERN, s)]. *)
Definition semver (s : string) : bool :=
  let l := pychars s in
  let l := match l with c :: r => if String.eqb c "v" then r else l | [] => [] end in
  let rest : option (list string) := (major ← number l; minor ← dotted major; dotted minor) in
  match rest with
  | Some [] => true
  | Some (c :: rest) =>
      mem c ["-"; "+"] && forallb version_byte rest && match rest with [] => false | _ => true end
  | None => false
  end.

Record CreateAttrs := {
  ca_application : Z;
  ca_environment : string;
  ca_version : string;
  ca_scaling : pyval;
  ca_configuration : pyval;
  ca_secret_refs : pyval
}.
(** RuntimeDeploymentCreateSerializer: the two lookups (whose messages are the REST
    framework's) and [validate]; an omitted version is
    empty. *)
Definition create_attrs (data : CreateAttrs) (h : host) : res (Application * RuntimeEnvironment * string) :=
  match applications h !! ca_application data, environments h !! ca_environment data with
  | Some a, Some e =>
      _ ← raise_if (negb (env_enabled e)) (ValidationError "");
      _ ← raise_if (negb (app_enabled a)) (ValidationError "Disabled applications cannot be deployed.");
      let version := py_strip (if String.eqb (ca_version data) "" then current_version a else ca_version data) in
      _ ← raise_if (negb (semver version)) (ValidationError "A semantic version is required.");
      _ ← raise_if (match versions (release_tables h) !! (app_id (application a), version) with None => true | _ => false end)
            (ValidationError "Only published application versions can be deployed.");
      Ok (a, e, version)
  | _, _ => Raise (ValidationError "")
  end.

(** An active deployment of the application in the environment. *)
Definition deployed_in (application_id : Z) (environment : string) (d : db) : bool :=
  existsb (fun kv => (dep_application kv.2 =? application_id) && String.eqb (dep_environment kv.2) environment &&
                     match deleted_at kv.2 with None => true | _ => false end) (map_to_list (deployments d)).

Definition release_for (a : Application) (version : string) (e : RuntimeEnvironment) : M host (RuntimeRelease + Response) :=
  fun h =>
    match runtime_release_for (application a) (modules a) version e (release_tables h) with
    | (Ok r, c) => (Ok (inl r), set_releases c h)
    | (Raise (RuntimeReleaseNotDeployable detail code), c) => (Ok (inr (_problem detail code 409)), set_releases c h)
    | (Raise e, c) => (Raise e, set_releases c h)
    end.

Definition validate_all (a : Application) (e : RuntimeEnvironment) (data : CreateAttrs) (manifest : list (string * pyval))
    : res (values_map * values_map * list (string * Scaling)) :=
  scaling ← validate_runtime_scaling (ca_scaling data) (modules a) (Some manifest) (Some e);
  configuration ← validate_runtime_configuration (ca_configuration data) (modules a) (Some manifest);
  secret_refs ← validate_runtime_secret_references (ca_secret_refs data) (modules a) (Some manifest) (Some e);
  Ok (configuration, secret_refs, scaling).

Definition new_deployment (a : Application) (environment : string) (e : RuntimeEnvironment) (r : RuntimeRelease)
    (configuration secret_refs : values_map) (scaling : list (string * Scaling)) : RuntimeDeployment := {|
  dep_application := app_id (application a); dep_environment := environment; dep_desired_state := "running";
  observed_state := "pending"; controller_id := ""; dep_configuration := values_json configuration;
  dep_secret_refs := values_json secret_refs; dep_scaling := scaling_json scaling; dep_generation := 1;
  observed_generation := 0; revision := 1; dep_last_error := ""; last_reconciled_at := None; deleted_at := None;
  release_manifest := rel_manifest r; release_manifest_digest := manifest_digest r; env_row := e |}.

(** The primary key and the unique active deployment of an application and environment. *)
Definition insert_deployment (id : string) (x : RuntimeDeployment) : M host unit :=
  fun h =>
    if match deployments (tables h) !! id with Some _ => true | None => false end ||
       deployed_in (dep_application x) (dep_environment x) (tables h)
    then (Raise IntegrityError, h)
    else (Ok tt, set_tables (set_deployment id x (tables h)) h).

Definition create_tx (rq : Request) (data : CreateAttrs) (e : RuntimeEnvironment) (version hash did oid : string)
    (now : Z) : M host Response :=
  locked ← read (fun h => match applications h !! ca_application data with
                          | Some a => Ok a | None => Raise (KeyError "application") end);
  locked_replay ← _replay rq hash;
  unless locked_replay (
  precondition ← lift (_application_precondition rq locked);
  unless precondition (
  exists_ ← read (fun h => Ok (deployed_in (app_id (application locked)) (ca_environment data) (tables h)));
  if exists_ : bool
  then mret (_problem "This application already has an active deployment in that environment." "deployment_exists" 409)
  else
    r ← release_for locked version e;
    match r with
    | inr problem => mret problem
    | inl release =>
        manifest ← lift (manifest_of (rel_manifest release));
        match validate_all locked e data manifest with
        | Raise (ValidationError detail) =>
            mret {| status_code := 400; content := Errors detail; response_headers := [] |}
        | Raise e => raise e
        | Ok (configuration, secret_refs, scaling) =>
            let x := new_deployment locked (ca_environment data) e release configuration secret_refs scaling in
            _ ← insert_deployment did x;
            cs ← lift (_create_components (dep_scaling x) (release_manifest x));
            _ ← save_components did cs;
            o ← _create_operation rq did x DEPLOY hash [] oid now;
            mret (_mutation_response did x oid o 202 false)
        end
    end)).

Definition create (rq : Request) (data : CreateAttrs) (did oid : string) (now : Z) : M host Response :=
  attrs ← read (create_attrs data);
  let '(a, e, version) := attrs in
  hash ← lift (_request_hash "create" (PDict
    [("application_id", PInt (app_id (application a))); ("environment", PStr (ca_environment data));
     ("version", PStr version); ("configuration", ca_configuration data); ("secret_refs", ca_secret_refs data);
     ("scaling", ca_scaling data)]));
  replay ← _replay rq hash;
  unless replay (
  unless _runtime_unavailable (
  precondition ← lift (_application_precondition rq a);
  unless precondition (
  fun h =>
    match atomic (create_tx rq data e version hash did oid now) h with
    | (Raise IntegrityError, h) =>
        (Ok (_problem "The deployment or idempotency key already exists." "runtime_conflict" 409), h)
    | r => r
    end))).
End handlers.
