(* ===== verification/ViewsSpec.v ===== *)
(** Correctness of the runtime API: what a transaction of a handler may do to the tables,
    idempotency, optimistic locking, and the invariants that hold for any interleaving of
    handlers with the worker. *)

From S2P Require Import Prelude PyValue Regex Sha256 Json Contract Service Release ReleaseSpec Kube Worker WorkerSpec Inputs InputsSpec Views.
#[local] Open Scope string_scope.
#[local] Open Scope list_scope.
#[local] Open Scope Z_scope.

(** ** Running the computations *)
Lemma unless_Ok {A} (early : option A) (rest : M host A) h r h' :
  unless early rest h = (Ok r, h') -> (early = Some r /\ h' = h) \/ (early = None /\ rest h = (Ok r, h')).
Proof. destruct early; intros H; [apply mret_M_Ok in H as [-> ->]; by left|by right]. Qed.
Lemma read_Ok {A} (f : host -> res A) h a h' : read f h = (Ok a, h') <-> f h = Ok a /\ h' = h.
Proof. unfold read. split; [intros [= ? <-]; done|by intros [-> ->]]. Qed.
Lemma atomic_cases {A} (m : M host A) h r h' :
  atomic m h = (r, h') -> (exists e, r = Raise e /\ h' = h) \/ exists a, r = Ok a /\ m h = (Ok a, h').
Proof. unfold atomic. destruct (m h) as [[a|e] h1]; intros [= <- <-]; eauto. Qed.
Lemma find_Ok id h x h' : find_deployment id h = (Ok x, h') <-> deployments (tables h) !! id = Some x /\ h' = h.
Proof.
  unfold find_deployment. rewrite read_Ok. unfold get_deployment. destruct (deployments (tables h) !! id); naive_solver.
Qed.
Lemma lift_M_Ok {A} (c : res A) (h : host) a h' : lift c h = (Ok a, h') -> c = Ok a /\ h' = h.
Proof. intros H. by apply lift_Ok in H. Qed.

(** One step of a handler's transaction. *)
Ltac step H :=
  lazymatch type of H with
  | unless _ _ _ = _ => apply unless_Ok in H as [[? ->]|[? H]]
  | _ =>
      let a := fresh "a" in let w := fresh "w" in let E := fresh "E" in
      apply M_bind_Ok in H as (a & w & E & H);
      lazymatch type of E with
      | find_deployment _ _ = _ => apply find_Ok in E as [E ->]
      | lift _ _ = _ => apply lift_M_Ok in E as [E ->]
      | read _ _ = _ => apply read_Ok in E as [E ->]
      | _replay _ _ _ = _ => apply read_Ok in E as [E ->]
      | _replay_operation _ _ _ = _ => apply read_Ok in E as [E ->]
      | components_of _ _ = _ => apply read_Ok in E as [E ->]
      | _ => idtac
      end
  end.

(** ** Rows the API writes *)
Definition DESIRED_STATES : list string := ["running"; "stopped"; "absent"].
(** The columns passed the host's validation against the row's release and environment. *)
Definition row_ok (x : RuntimeDeployment) : Prop :=
  (exists m conf sec sc, validated [] (env_row x) m x conf sec sc) /\ dep_desired_state x ∈ DESIRED_STATES /\
  1 <= dep_generation x.
(** An operation for the controller carries a desired state and a generation. *)
Definition payload_ready (o : RuntimeOperation) : Prop :=
  is_log o = false -> 1 <= target_generation o /\
  exists st, dget "desired_state" (op_payload o) = Some (PStr st) /\ st ∈ DESIRED_STATES.

(** With a manifest, the application's current modules do not matter. *)
Lemma configuration_modules raw modules m :
  validate_runtime_configuration raw modules (Some m) = validate_runtime_configuration raw [] (Some m).
Proof. reflexivity. Qed.
Lemma secrets_modules raw modules m e :
  validate_runtime_secret_references raw modules (Some m) e = validate_runtime_secret_references raw [] (Some m) e.
Proof. reflexivity. Qed.
Lemma scaling_modules raw modules m e :
  validate_runtime_scaling raw modules (Some m) e = validate_runtime_scaling raw [] (Some m) e.
Proof. reflexivity. Qed.

Lemma row_ok_mutated x desired observed conf sec scaling :
  row_ok x -> desired ∈ DESIRED_STATES ->
  (conf = dep_configuration x \/ exists m raw c, release_manifest x = PDict m /\ conf = values_json c /\
     validate_runtime_configuration raw [] (Some m) = Ok c) ->
  (sec = dep_secret_refs x \/ exists m raw c, release_manifest x = PDict m /\ sec = values_json c /\
     validate_runtime_secret_references raw [] (Some m) (Some (env_row x)) = Ok c) ->
  (scaling = dep_scaling x \/ exists m raw c, release_manifest x = PDict m /\ scaling = scaling_json c /\
     validate_runtime_scaling raw [] (Some m) (Some (env_row x)) = Ok c) ->
  row_ok (mutated x desired observed conf sec scaling).
Proof.
  intros ((m & c0 & s0 & k0 & [Hm Hd (rc & Hc) (rs & Hs) (rk & Hk) (E1 & E2 & E3)]) & _ & Hg) Hst Hconf Hsec Hscl.
  split; [|split; [done|simpl; lia]].
  assert (exists c, conf = values_json c /\ exists raw, validate_runtime_configuration raw [] (Some m) = Ok c) as (c & Ec & Hc').
  { destruct Hconf as [->|(m' & raw & c & Hm' & -> & Hv)]; [eauto|]. exists c. split; [done|].
    assert (m' = m) as -> by congruence. eauto. }
  assert (exists c, sec = values_json c /\ exists raw, validate_runtime_secret_references raw [] (Some m) (Some (env_row x)) = Ok c)
    as (sc & Es & Hs').
  { destruct Hsec as [->|(m' & raw & c1 & Hm' & -> & Hv)]; [eauto|]. exists c1. split; [done|].
    assert (m' = m) as -> by congruence. eauto. }
  assert (exists c, scaling = scaling_json c /\ exists raw, validate_runtime_scaling raw [] (Some m) (Some (env_row x)) = Ok c)
    as (k & Ek & Hk').
  { destruct Hscl as [->|(m' & raw & c1 & Hm' & -> & Hv)]; [eauto|]. exists c1. split; [done|].
    assert (m' = m) as -> by congruence. eauto. }
  exists m, c, sc, k. split; try done.
Qed.

Lemma row_ok_update x modules data attrs :
  row_ok x -> update_fields x modules data = Ok attrs ->
  row_ok (mutated x (dep_desired_state x) "reconciling" (dget_or "configuration" (dep_configuration x) attrs)
    (dget_or "secret_refs" (dep_secret_refs x) attrs) (dget_or "scaling" (dep_scaling x) attrs)).
Proof.
  intros Hx H. unfold update_fields in H. apply bind_Ok in H as (m & Hm & H).
  destruct (release_manifest x) as [| | | | | |m'] eqn:Em; try done. apply Ok_inj in Hm. subst m'.
  apply bind_Ok in H as (l1 & H1 & H). apply bind_Ok in H as (l2 & H2 & H). apply bind_Ok in H as (l3 & H3 & H).
  assert (attrs = l1 ++ l2 ++ l3) as -> by (destruct (l1 ++ l2 ++ l3); [done|by apply Ok_inj in H]). clear H.
  assert (l1 = [] \/ exists raw c, l1 = [("scaling", scaling_json c)] /\
            validate_runtime_scaling raw [] (Some m) (Some (env_row x)) = Ok c) as C1.
  { destruct (dget "scaling" data) as [v|]; [|apply Ok_inj in H1; auto]. apply bind_Ok in H1 as (c & Hc & H1).
    apply Ok_inj in H1. right. exists v, c. split; [by symmetry|by rewrite <-(scaling_modules v modules)]. }
  assert (l2 = [] \/ exists raw c, l2 = [("configuration", values_json c)] /\
            validate_runtime_configuration raw [] (Some m) = Ok c) as C2.
  { destruct (dget "configuration" data) as [v|]; [|apply Ok_inj in H2; auto]. apply bind_Ok in H2 as (c & Hc & H2).
    apply Ok_inj in H2. right. exists v, c. split; [by symmetry|by rewrite <-(configuration_modules v modules)]. }
  assert (l3 = [] \/ exists raw c, l3 = [("secret_refs", values_json c)] /\
            validate_runtime_secret_references raw [] (Some m) (Some (env_row x)) = Ok c) as C3.
  { destruct (dget "secret_refs" data) as [v|]; [|apply Ok_inj in H3; auto]. apply bind_Ok in H3 as (c & Hc & H3).
    apply Ok_inj in H3. right. exists v, c. split; [by symmetry|by rewrite <-(secrets_modules v modules)]. }
  clear H1 H2 H3. apply row_ok_mutated; [done|by destruct Hx as (_ & ? & _)|..];
    destruct C1 as [->|(r1 & c1 & -> & V1)], C2 as [->|(r2 & c2 & -> & V2)], C3 as [->|(r3 & c3 & -> & V3)];
    cbn; eauto 10.
Qed.

Lemma row_ok_plan x modules cs name attrs desired scaling cs' payload observed :
  row_ok x -> plan_action x modules cs name attrs = Ok (inr (desired, scaling, cs', payload)) ->
  row_ok (mutated x desired observed (dep_configuration x) (dep_secret_refs x) scaling).
Proof.
  intros Hx H. unfold plan_action in H.
  assert (Hd : dep_desired_state x ∈ DESIRED_STATES) by (by destruct Hx as (_ & ? & _)).
  destruct (String.eqb name "start"); [simplify_eq; apply row_ok_mutated; auto; by apply mem_In|].
  destruct (String.eqb name "stop"); [simplify_eq; apply row_ok_mutated; auto; by apply mem_In|].
  destruct (String.eqb name "scale"); [|simplify_eq; apply row_ok_mutated; auto].
  apply bind_Ok in H as (slug & _ & H). apply bind_Ok in H as (n & _ & H). destruct (find_component _ _); [|done].
  apply bind_Ok in H as (m & Hm & H). destruct (release_manifest x) as [| | | | | |m'] eqn:Em; try done.
  apply Ok_inj in Hm. subst m'. destruct (dep_scaling x); try done. rewrite scaling_modules in H.
  destruct (validate_runtime_scaling _ _ _ _) as [k|[]] eqn:V; simplify_eq. apply row_ok_mutated; auto. eauto 10.
Qed.

(** ** What a transaction may do *)
(** A row is queued for the worker, new by its identifier and its idempotency key. *)
Record queues (rq : Request) (pk hash oid : string) (x : RuntimeDeployment) (o : RuntimeOperation) (d d' : db) : Prop := {
  q_operations : operations d' = <[oid := o]> (operations d);
  q_conflict : operation_conflict oid o d = false;
  q_key : _idempotency_key rq = Some (idempotency_key o);
  q_new : exists t payload now, o = new_operation pk x t payload (idempotency_key o) hash now
}.

(** An accepted mutation of a deployment. *)
Record mutation (rq : Request) (pk hash oid : string) (x x' : RuntimeDeployment) (o : RuntimeOperation) (d d' : db) : Prop := {
  m_row : deployments d !! pk = Some x;
  m_precondition : _deployment_precondition rq x = Ok None;
  m_idle : any_operation pk (fun o => active o && negb (is_log o)) d = false;
  m_alive : deleted_at x = None;
  m_changed : exists desired observed configuration secret_refs scaling,
    x' = mutated x desired observed configuration secret_refs scaling;
  m_valid : row_ok x -> row_ok x';
  m_deployments : deployments d' = <[pk := x']> (deployments d);
  m_kind : is_log o = false;
  m_queues : queues rq pk hash oid x' o d d'
}.
(** An accepted log request. *)
Record log_request (rq : Request) (pk hash oid : string) (x : RuntimeDeployment) (o : RuntimeOperation) (d d' : db) : Prop := {
  l_row : deployments d !! pk = Some x;
  l_precondition : _deployment_precondition rq x = Ok None;
  l_deployments : deployments d' = deployments d;
  l_kind : is_log o = true;
  l_queues : queues rq pk hash oid x o d d'
}.
(** An accepted creation. *)
Record creation (rq : Request) (did hash oid : string) (x : RuntimeDeployment) (o : RuntimeOperation) (d d' : db) : Prop := {
  c_fresh : deployments d !! did = None;
  c_unique : deployed_in (dep_application x) (dep_environment x) d = false;
  c_row : exists a environment e r m data configuration secret_refs scaling,
    x = new_deployment a environment e r configuration secret_refs scaling /\
    rel_manifest r = PDict m /\ payload_digest (PDict m) = Ok (manifest_digest r) /\
    validate_all a e data m = Ok (configuration, secret_refs, scaling);
  c_deployments : deployments d' = <[did := x]> (deployments d);
  c_kind : is_log o = false;
  c_queues : queues rq did hash oid x o d d'
}.

Lemma create_operation_Ok rq pk x t hash payload oid now h o h' :
  _create_operation rq pk x t hash payload oid now h = (Ok o, h') ->
  queues rq pk hash oid x o (tables h) (tables h') /\ deployments (tables h') = deployments (tables h) /\
  components (tables h') = components (tables h) /\ operation_type o = t /\ release_tables h' = release_tables h.
Proof.
  unfold _create_operation. destruct (_idempotency_key rq) as [key|] eqn:K; [|done].
  set (o' := new_operation _ _ _ _ _ _ _). destruct (operation_conflict oid o' (tables h)) eqn:C; [done|].
  intros [= <- <-]. split_and!; try done. split; try done. by exists t, payload, now.
Qed.

(** The outcome of a handler's transaction on a deployment. *)
Inductive outcome (log : bool) (rq : Request) (pk hash oid : string) (r : Response) (d d' : db) : Prop :=
| refused : d' = d -> status_code r <> 202 -> outcome log rq pk hash oid r d d'
| changed x x' o : mutation rq pk hash oid x x' o d d' -> status_code r = 202 -> log = false -> outcome log rq pk hash oid r d d'
| logged x o : log_request rq pk hash oid x o d d' -> status_code r = 202 -> log = true -> outcome log rq pk hash oid r d d'.

Lemma busy_None pk d : _busy_response pk d = None -> any_operation pk (fun o => active o && negb (is_log o)) d = false.
Proof. unfold _busy_response. by destruct (any_operation _ _ _). Qed.

(** A response other than 202. *)
Lemma idempotency_refuses rq hash d r : _idempotency_replay rq hash d = inr r -> status_code r <> 202.
Proof. unfold _idempotency_replay. repeat case_match; intros; simplify_eq; simpl; lia. Qed.
Lemma replay_refuses rq hash h r :
  match _idempotency_replay rq hash (tables h) with
  | inr problem => Ok (Some problem)
  | inl None => Ok None
  | inl (Some (oid, o)) =>
      x ← get_deployment (op_deployment o) (tables h);
      Ok (Some (_mutation_response (op_deployment o) x oid o 200 true))
  end = Ok (Some r) -> status_code r <> 202.
Proof.
  destruct (_idempotency_replay rq hash (tables h)) as [[[oid o]|]|problem] eqn:E; [|done|intros [= <-]; by eapply idempotency_refuses].
  intros H. apply bind_Ok in H as (x & _ & [= <-]). done.
Qed.
Lemma replay_operation_refuses rq hash h r :
  match _idempotency_replay rq hash (tables h) with
  | inr problem => Ok (Some problem)
  | inl None => Ok None
  | inl (Some (oid, o)) =>
      Ok (Some {| status_code := 200; content := Operation oid o; response_headers := replay_header true ++ [no_store] |})
  end = Ok (Some r) -> status_code r <> 202.
Proof.
  destruct (_idempotency_replay rq hash (tables h)) as [[[oid o]|]|problem] eqn:E; [intros [= <-]; done|done|].
  intros [= <-]. by eapply idempotency_refuses.
Qed.
Lemma precondition_refuses rq x r : _deployment_precondition rq x = Ok (Some r) -> status_code r <> 202.
Proof.
  unfold _deployment_precondition, _revision_precondition. destruct (if_match rq); [|intros [= <-]; done].
  destruct (negb _); [intros [= <-]; done|]. intros H. apply bind_Ok in H as (n & _ & H). case_match; simplify_eq. done.
Qed.
Lemma busy_refuses pk d r : _busy_response pk d = Some r -> status_code r <> 202.
Proof. unfold _busy_response. case_match; intros; simplify_eq; done. Qed.
Lemma environment_refuses x r : _environment_unavailable x = Some r -> status_code r <> 202.
Proof. unfold _environment_unavailable. case_match; intros; simplify_eq; done. Qed.
Lemma capability_refuses x name r : _validate_action_capability x name = Some r -> status_code r <> 202.
Proof. unfold _validate_action_capability. case_match; intros; simplify_eq; done. Qed.
Lemma transition_refuses x name r : _validate_transition x name = Some r -> status_code r <> 202.
Proof. unfold _validate_transition. repeat case_match; intros; simplify_eq; done. Qed.
Lemma limit_refuses x n r : log_limit x n = Some r -> status_code r <> 202.
Proof. unfold log_limit. repeat case_match; intros; simplify_eq; done. Qed.
Lemma plan_refuses x modules cs name attrs r : plan_action x modules cs name attrs = Ok (inl r) -> status_code r <> 202.
Proof.
  unfold plan_action. destruct (String.eqb name "start"); [done|]. destruct (String.eqb name "stop"); [done|].
  destruct (String.eqb name "scale"); [|done]. intros H. apply bind_Ok in H as (slug & _ & H). apply bind_Ok in H as (n & _ & H).
  destruct (find_component _ _); [|simplify_eq; done]. apply bind_Ok in H as (m & _ & H). destruct (dep_scaling x); try done.
  destruct (validate_runtime_scaling _ _ _ _) as [|[]]; try done. simplify_eq. done.
Qed.
#[export] Hint Resolve replay_refuses replay_operation_refuses precondition_refuses busy_refuses environment_refuses
  capability_refuses transition_refuses limit_refuses plan_refuses : refuses.
(** The transaction left the tables and did not accept. *)
Ltac refuse := subst; apply refused; [done|first [done|simplify_eq; eauto with refuses]].

Ltac changed_by x Hq :=
  match type of Hq with queues _ _ _ _ ?x' ?o _ _ => apply (changed _ _ _ _ _ _ _ _ x x' o); [|done|done] end.

Lemma destroy_outcome rq pk hash oid now h r h' :
  destroy_tx rq pk hash oid now h = (Ok r, h') -> outcome false rq pk hash oid r (tables h) (tables h').
Proof.
  unfold destroy_tx. intros H. step H. step H. step H; [by refuse|].
  step H. step H; [by refuse|]. step H. step H; [by refuse|].
  destruct (deleted_at a) eqn:D; [apply mret_M_Ok in H as [-> ->]; by refuse|].
  step H. step H. apply mret_M_Ok in H as [-> ->]. injection E3 as _ <-. apply Ok_inj in E2. subst.
  apply create_operation_Ok in E4 as (Hq & Hd & _ & Ht & _). changed_by a Hq. split; try done.
  - by apply busy_None.
  - by repeat eexists.
  - intros Hx. apply row_ok_mutated; auto; by apply mem_In.
  - by unfold is_log; rewrite Ht.
  - by destruct Hq.
Qed.

Lemma update_outcome rq pk attrs hash oid now h r h' :
  (forall x, deployments (tables h) !! pk = Some x -> exists ms data, update_fields x ms data = Ok attrs) ->
  update_tx rq pk attrs hash oid now h = (Ok r, h') -> outcome false rq pk hash oid r (tables h) (tables h').
Proof.
  unfold update_tx. intros Hattrs H. step H. step H. step H; [by refuse|].
  step H. step H; [by refuse|]. step H; [by refuse|]. step H. step H; [by refuse|].
  destruct (deleted_at a) eqn:D; [apply mret_M_Ok in H as [-> ->]; by refuse|].
  destruct (String.eqb _ "absent"); [apply mret_M_Ok in H as [-> ->]; by refuse|].
  step H. step H. step H. step H. step H. apply mret_M_Ok in H as [-> ->]. injection E3 as _ <-. injection E6 as _ <-.
  apply Ok_inj in E2. subst.
  apply create_operation_Ok in E7 as (Hq & Hd & _ & Ht & _). changed_by a Hq. split; try done.
  - by apply busy_None.
  - by repeat eexists.
  - intros Hx. destruct (Hattrs _ E) as (ms & data & Hu). by eapply row_ok_update.
  - unfold is_log; rewrite Ht. by destruct (String.eqb _ _).
  - by destruct Hq.
Qed.

Lemma actions_outcome rq pk modules name attrs hash oid now h r h' :
  actions_tx rq pk modules name attrs hash oid now h = (Ok r, h') -> outcome false rq pk hash oid r (tables h) (tables h').
Proof.
  unfold actions_tx. intros H. step H. step H. step H; [by refuse|].
  step H. step H; [by refuse|]. step H; [by refuse|]. step H. step H; [by refuse|].
  step H; [by refuse|]. step H; [by refuse|].
  destruct (_ && _); [apply mret_M_Ok in H as [-> ->]; by refuse|].
  step H. step H. destruct a4 as [refusal|[[[desired scaling] cs] payload]]; [apply mret_M_Ok in H as [-> ->]; by refuse|].
  step H. step H. step H. apply mret_M_Ok in H as [-> ->]. injection E6 as _ <-.
  apply Ok_inj in E2. subst.
  apply create_operation_Ok in E7 as (Hq & Hd & _ & Ht & _). changed_by a Hq.
  assert (Hw : operations (tables w) = operations (tables h) /\ deployments (tables w) = deployments (tables h)).
  { destruct cs; [injection E5 as _ <-|apply mret_M_Ok in E5 as [_ ->]]; done. }
  destruct Hw as [Hw1 Hw2]. split; try done.
  - by apply busy_None.
  - match goal with H : _validate_transition _ _ = None |- _ => unfold _validate_transition in H; by destruct (deleted_at a) end.
  - by repeat eexists.
  - intros Hx. by eapply row_ok_plan.
  - rewrite Hd. simpl. by rewrite Hw2.
  - unfold is_log, action_type in *; rewrite Ht. by repeat case_match.
  - destruct Hq as [Q1 Q2 Q3 Q4]. simpl in Q1, Q2. split; [by rewrite Q1, Hw1| |done|done].
    unfold operation_conflict, operation_of_key, any_operation in *. simpl in Q2. by rewrite Hw1 in Q2.
Qed.

Lemma logs_outcome rq pk attrs hash oid now h r h' :
  logs_tx rq pk attrs hash oid now h = (Ok r, h') -> outcome true rq pk hash oid r (tables h) (tables h').
Proof.
  unfold logs_tx. intros H. step H. step H. step H; [by refuse|].
  step H. step H; [by refuse|]. step H; [by refuse|]. step H.
  destruct a2; [apply mret_M_Ok in H as [-> ->]; by refuse|].
  destruct (String.eqb _ ""); [apply mret_M_Ok in H as [-> ->]; by refuse|].
  destruct (negb _); [apply mret_M_Ok in H as [-> ->]; by refuse|].
  step H. step H. destruct (find_component _ _); [|apply mret_M_Ok in H as [-> ->]; by refuse].
  step H. step H; [by refuse|]. step H. apply mret_M_Ok in H as [-> ->]. subst.
  apply create_operation_Ok in E6 as (Hq & Hd & _ & Ht & _). match type of Hq with queues _ _ _ _ _ ?o _ _ => apply (logged _ _ _ _ _ _ _ _ a o); [|done|done] end. split; try done.
  by unfold is_log; rewrite Ht.
Qed.

Lemma deployment_Ok did x h u h' :
  insert_deployment did x h = (Ok u, h') ->
  deployments (tables h) !! did = None /\ deployed_in (dep_application x) (dep_environment x) (tables h) = false /\
  h' = set_tables (set_deployment did x (tables h)) h.
Proof.
  unfold insert_deployment. destruct (deployments (tables h) !! did); [done|].
  destruct (deployed_in _ _ _); [done|]. by intros [= _ <-].
Qed.
Lemma release_for_Ok a version e h r h' :
  release_for a version e h = (Ok r, h') -> tables h' = tables h /\
  forall rel, r = inl rel -> exists c, runtime_release_for (application a) (modules a) version e (release_tables h) = (Ok rel, c).
Proof.
  unfold release_for. destruct (runtime_release_for _ _ _ _ _) as [[rel|ex] c].
  - intros [= <- <-]. split; [done|]. intros ? [= ->]. eauto.
  - destruct ex; try done; intros [= <- <-]; by split.
Qed.

Lemma create_outcome rq data e version hash did oid now h r h' :
  create_tx rq data e version hash did oid now h = (Ok r, h') ->
  tables h' = tables h \/
  status_code r = 202 /\ exists x o, creation rq did hash oid x o (tables h) (tables h').
Proof.
  unfold create_tx. intros H. step H. step H. step H; [by left|]. step H. step H; [by left|]. step H.
  destruct a2; [apply mret_M_Ok in H as [_ ->]; by left|]. step H.
  apply release_for_Ok in E3 as [Hw Hr]. destruct a2 as [rel|problem]; [|apply mret_M_Ok in H as [_ ->]; by left].
  step H. destruct (validate_all _ _ _ _) as [[[conf sec] sc]|ex] eqn:V;
    [|destruct ex; try discriminate H; apply mret_M_Ok in H as [_ ->]; by left].
  step H. step H. step H. step H. apply mret_M_Ok in H as [-> ->]. right. split; [done|].
  match goal with H : insert_deployment _ _ _ = _ |- _ => apply deployment_Ok in H as (Hf & Hu & ->) end.
  match goal with H : save_components _ _ _ = _ |- _ => injection H as _ <- end.
  match goal with H : _create_operation _ _ _ _ _ _ _ _ _ = _ |- _ =>
    apply create_operation_Ok in H as (Hq & Hd & _ & Ht & _) end.
  match goal with H : manifest_of _ = _ |- _ => rename H into Hman end. simpl in *. rewrite Hw in *.
  match type of Hq with queues _ _ _ _ ?x ?o _ _ => exists x, o end.
  split; [exact Hf|exact Hu| |exact Hd|by unfold is_log; rewrite Ht|by destruct Hq].
  destruct (Hr rel eq_refl) as (c & Hrel). destruct (release_published _ _ _ _ _ _ _ Hrel) as (_ & v & _ & Hi & _).
  destruct (integrity_Ok _ _ _ Hi) as (m & ms & Em & Hdig & _). rewrite Em in Hman. apply Ok_inj in Hman. subst.
  eexists a, _, e, rel, _, data, conf, sec, sc. split_and!; [reflexivity|exact Em|exact Hdig|exact V].
Qed.

(** ** The transactions of the API

    An update carries fields that were validated against the deployment as it was read
    before the transaction; what the validation uses of the row never changes
    ([update_fields_fixed], [run_rows]), so they are valid for the locked row. *)
Inductive api_step (h h' : host) : Prop :=
| api_destroy rq pk hash oid now r : atomic (destroy_tx rq pk hash oid now) h = (r, h') -> api_step h h'
| api_update rq pk attrs hash oid now r :
    (forall x, deployments (tables h) !! pk = Some x -> exists ms data, update_fields x ms data = Ok attrs) ->
    atomic (update_tx rq pk attrs hash oid now) h = (r, h') -> api_step h h'
| api_actions rq pk modules name attrs hash oid now r :
    atomic (actions_tx rq pk modules name attrs hash oid now) h = (r, h') -> api_step h h'
| api_logs rq pk attrs hash oid now r : atomic (logs_tx rq pk attrs hash oid now) h = (r, h') -> api_step h h'
| api_create rq data e version hash did oid now r :
    atomic (create_tx rq data e version hash did oid now) h = (r, h') -> api_step h h'.

(** What a transaction of the API does to the tables. *)
Inductive api_effect (d d' : db) : Prop :=
| api_none : d' = d -> api_effect d d'
| api_mutation rq pk hash oid x x' o : mutation rq pk hash oid x x' o d d' -> api_effect d d'
| api_log rq pk hash oid x o : log_request rq pk hash oid x o d d' -> api_effect d d'
| api_creation rq did hash oid x o : creation rq did hash oid x o d d' -> api_effect d d'.

Lemma outcome_effect log rq pk hash oid r d d' : outcome log rq pk hash oid r d d' -> api_effect d d'.
Proof. intros [? _| |]; [by apply api_none|by eapply api_mutation|by eapply api_log]. Qed.
Lemma api_step_effect h h' : api_step h h' -> api_effect (tables h) (tables h').
Proof.
  intros []; match goal with H : atomic _ _ = _ |- _ => apply atomic_cases in H as [(? & _ & ->)|(a & _ & H)] end;
    try by apply api_none.
  - eapply outcome_effect, destroy_outcome. eassumption.
  - eapply outcome_effect, update_outcome; eassumption.
  - eapply outcome_effect, actions_outcome. eassumption.
  - eapply outcome_effect, logs_outcome. eassumption.
  - destruct (create_outcome _ _ _ _ _ _ _ _ _ _ _ H) as [Heq|(_ & x & o & Hc)]; [by apply api_none|by eapply api_creation].
Qed.

Lemma conflict_fresh oid o d : operation_conflict oid o d = false ->
  operations d !! oid = None /\ operation_of_key (idempotency_key o) d = None /\
  (is_log o = true -> active o = true -> any_operation (op_deployment o) (fun o' => is_log o' && active o') d = false).
Proof.
  unfold operation_conflict. rewrite !orb_false_iff. intros [[H1 H2] H3].
  destruct (operations d !! oid); [done|]. destruct (operation_of_key _ _); [done|]. split_and!; try done.
  intros Hl Ha. by rewrite Hl, Ha in H3.
Qed.

Lemma queues_request rq pk hash oid x o d d' :
  queues rq pk hash oid x o d d' -> deployments d' !! pk = Some x ->
  (forall id y, deployments d !! id = Some y -> exists y', deployments d' !! id = Some y' /\
     observed_generation y' = observed_generation y /\ dep_generation y <= dep_generation y') ->
  (forall id y, deployments d !! id = None -> deployments d' !! id = Some y -> observed_generation y = 0 /\ 1 <= dep_generation y) ->
  request d d'.
Proof.
  intros [Ho Hc _ (t & payload & now & En)] Hx Hdep Hnew. apply conflict_fresh in Hc as (Hf & _ & _).
  split; [|intros id o' Hn Ho'|done|done].
  - intros id o' Ho'. rewrite Ho, lookup_insert_ne; [done|]. intros ->. congruence.
  - rewrite Ho in Ho'. apply lookup_insert_Some in Ho' as [[-> <-]|[? ?]]; [|congruence]. rewrite En. simpl.
    split_and!; try done. by exists x.
Qed.

Lemma effect_request d d' : api_effect d d' -> request d d'.
Proof.
  intros [->|rq pk hash oid x x' o [Hr _ _ _ (de & ob & co & se & sc & E) _ Hd _ Hq]|rq pk hash oid x o [Hr _ Hd _ Hq]|
          rq did hash oid x o [Hf _ (a & env & e & r & m & da & co & se & sc & E & _) Hd _ Hq]].
  - split; try done; [congruence|eauto with lia|congruence].
  - eapply queues_request; [exact Hq|by rewrite Hd, lookup_insert_eq| |].
    + intros id y Hy. rewrite Hd. destruct (decide (pk = id)) as [->|Hne].
      * rewrite lookup_insert_eq. exists x'. assert (y = x) as -> by congruence. subst x'. simpl. split_and!; [done|done|lia].
      * rewrite lookup_insert_ne by done. exists y. split_and!; [done|done|lia].
    + intros id y Hn. rewrite Hd. destruct (decide (pk = id)) as [->|Hne]; [congruence|].
      rewrite lookup_insert_ne by done. congruence.
  - eapply queues_request; [exact Hq|by rewrite Hd| |]; rewrite Hd; [|congruence].
    intros id y Hy. exists y. split_and!; [done|done|lia].
  - eapply queues_request; [exact Hq|by rewrite Hd, lookup_insert_eq| |].
    + intros id y Hy. rewrite Hd, lookup_insert_ne by congruence. exists y. split_and!; [done|done|lia].
    + intros id y Hn. rewrite Hd. destruct (decide (did = id)) as [->|Hne].
      * rewrite lookup_insert_eq. intros [= <-]. subst x. simpl. lia.
      * rewrite lookup_insert_ne by done. congruence.
Qed.

(** ** The whole system *)
(** A step of a worker (claim, recording, cache) or a transaction of the API. *)
Inductive sys_step (h h' : host) : Prop :=
| sys_worker e d' : wstep (tables h) e d' -> e <> ERequest -> h' = set_tables d' h -> sys_step h h'
| sys_api : api_step h h' -> sys_step h h'.

(** What identifies an operation. *)
Definition identity (o : RuntimeOperation) : string * OperationType * string * string * list (string * pyval) * Z :=
  (op_deployment o, operation_type o, idempotency_key o, request_hash o, op_payload o, target_generation o).

Record queue_ok (d : db) : Prop := {
  qo_rows : db_ok d;
  qo_keys i j oi oj : operations d !! i = Some oi -> operations d !! j = Some oj ->
    idempotency_key oi = idempotency_key oj -> i = j;
  qo_active i j oi oj : operations d !! i = Some oi -> operations d !! j = Some oj ->
    op_deployment oi = op_deployment oj -> active oi = true -> active oj = true -> is_log oi = is_log oj -> i = j;
  qo_live i j xi xj : deployments d !! i = Some xi -> deployments d !! j = Some xj ->
    dep_application xi = dep_application xj -> dep_environment xi = dep_environment xj ->
    deleted_at xi = None -> deleted_at xj = None -> i = j
}.

Lemma settled_identity o o' : settled o o' -> identity o' = identity o.
Proof. intros (st & p & r & e & n & f & k & -> & _). done. Qed.

Lemma identity_log o o' : identity o' = identity o -> is_log o' = is_log o.
Proof. unfold identity, is_log. intros [= _ -> _ _ _ _]. done. Qed.

Lemma worker_rows d e d' : wstep d e d' -> e <> ERequest -> db_ok d ->
  (forall i o', operations d' !! i = Some o' -> exists o, operations d !! i = Some o /\ identity o' = identity o /\
     (active o' = true -> active o = true)) /\
  (forall i x', deployments d' !! i = Some x' -> exists x, deployments d !! i = Some x /\ decided x' = decided x /\
     dep_generation x' = dep_generation x /\ revision x <= revision x' /\ (is_Some (deleted_at x) -> is_Some (deleted_at x'))).
Proof.
  intros H He Hok. assert (Hsame : forall i x', deployments d !! i = Some x' -> exists x, deployments d !! i = Some x /\
    decided x' = decided x /\ dep_generation x' = dep_generation x /\ revision x <= revision x' /\ (is_Some (deleted_at x) -> is_Some (deleted_at x')))
    by (intros i x' Hx; exists x'; split_and!; try done; lia).
  destruct e as [id token now|token| |]; [| | |done].
  - inversion H; subst.
    match goal with Hc : _claim _ _ _ _ = _ |- _ => destruct (claim_Some _ _ _ _ _ _ Hc) as (o & Ho & Hdue & ->) end.
    split; [|done].
    intros i o' Hi. simpl in Hi. apply lookup_insert_Some in Hi as [[<- <-]|[Hne Hi]]; [|by exists o'].
    exists o. split_and!; try done. intros _. unfold active. by destruct (due_status _ _ Hdue) as [-> | ->].
  - apply record_effect in H as [(E1 & E2 & _)|id o o' Ho Hl E Hs E2|id o o' x x' Ho Hl E Hs Hx Hr E2].
    + rewrite E1, E2. split; [|done]. intros i o' Hi. by exists o'.
    + rewrite E, E2. split; [|done]. intros i oi Hi. apply lookup_insert_Some in Hi as [[<- <-]|[Hne Hi]]; [|by exists oi].
      exists o. split_and!; [done|by apply settled_identity|]. intros _. unfold active.
      destruct (operations_ok _ Hok _ _ Ho) as (Hrun & _). by rewrite Hrun by (rewrite Hl; eexists; done).
    + rewrite E, E2. split.
      * intros i oi Hi. apply lookup_insert_Some in Hi as [[<- <-]|[Hne Hi]]; [|by exists oi].
        exists o. split_and!; [done|by apply settled_identity|]. intros _. unfold active.
        destruct (operations_ok _ Hok _ _ Ho) as (Hrun & _). by rewrite Hrun by (rewrite Hl; eexists; done).
      * intros i y Hi. apply lookup_insert_Some in Hi as [[<- <-]|[Hne Hi]]; [|by apply Hsame].
        exists x. destruct Hr as (? & _ & ? & ? & ?). done.
  - inversion H; subst. simpl. split; [|done]. intros i o' Hi. by exists o'.
Qed.

Lemma any_operation_false pk p d i o :
  any_operation pk p d = false -> operations d !! i = Some o -> op_deployment o = pk -> p o = false.
Proof.
  unfold any_operation. intros H Ho <-. destruct (p o) eqn:E; [|done]. exfalso. apply not_true_iff_false in H. apply H, existsb_exists. exists (i, o). simpl. rewrite String.eqb_refl, E. split; [|done].
  by apply list_elem_of_In, elem_of_map_to_list.
Qed.
Lemma key_fresh key d i o : operation_of_key key d = None -> operations d !! i = Some o -> idempotency_key o <> key.
Proof.
  intros H Ho E. eapply find_none in H as Hf; [|apply list_elem_of_In, elem_of_map_to_list, Ho].
  simpl in Hf. by apply String.eqb_neq in Hf.
Qed.
Lemma deployed_in_false a env d i x :
  deployed_in a env d = false -> deployments d !! i = Some x -> dep_application x = a -> dep_environment x = env ->
  deleted_at x = None -> False.
Proof.
  unfold deployed_in. intros H Hx <- <- Hd. apply not_true_iff_false in H. apply H, existsb_exists. exists (i, x). simpl. rewrite Z.eqb_refl, String.eqb_refl, Hd. split; [|done].
  by apply list_elem_of_In, elem_of_map_to_list.
Qed.

Lemma queue_worker d e d' : wstep d e d' -> e <> ERequest -> queue_ok d -> queue_ok d'.
Proof.
  intros H He [Hok Hk Ha Hl]. destruct (worker_rows _ _ _ H He Hok) as [Ho Hx]. split.
  - by eapply db_ok_step.
  - intros i j oi oj Hi Hj E. destruct (Ho _ _ Hi) as (pi & Hpi & Ei & _), (Ho _ _ Hj) as (pj & Hpj & Ej & _).
    unfold identity in *. simplify_eq. apply (Hk i j pi pj Hpi Hpj). congruence.
  - intros i j oi oj Hi Hj E Ai Aj El. destruct (Ho _ _ Hi) as (pi & Hpi & Ei & Hai), (Ho _ _ Hj) as (pj & Hpj & Ej & Haj).
    pose proof (identity_log _ _ Ei). pose proof (identity_log _ _ Ej). unfold identity in *. simplify_eq.
    apply (Ha i j pi pj Hpi Hpj); auto; congruence.
  - intros i j xi xj Hi Hj Ea Ee Di Dj. destruct (Hx _ _ Hi) as (yi & Hyi & Ei & _ & _ & Gi), (Hx _ _ Hj) as (yj & Hyj & Ej & _ & _ & Gj).
    unfold decided in *. simplify_eq.
    assert (Hnone : forall x x' : RuntimeDeployment, (is_Some (deleted_at x) -> is_Some (deleted_at x')) -> deleted_at x' = None ->
      deleted_at x = None).
    { intros x x' Hs Hn. destruct (deleted_at x) eqn:E; [|done]. destruct Hs as [? Hs]; [by eexists|]. congruence. }
    apply (Hl i j yi yj Hyi Hyj); try congruence; by eapply Hnone.
Qed.

(** A queued row against the rows that were there. *)
Lemma queue_operations rq pk hash oid x o d d' :
  queues rq pk hash oid x o d d' -> queue_ok d ->
  (forall i oi, operations d !! i = Some oi -> op_deployment oi = pk -> active oi = true -> is_log oi <> is_log o) ->
  (forall i j oi oj, operations d' !! i = Some oi -> operations d' !! j = Some oj ->
    idempotency_key oi = idempotency_key oj -> i = j) /\
  (forall i j oi oj, operations d' !! i = Some oi -> operations d' !! j = Some oj ->
    op_deployment oi = op_deployment oj -> active oi = true -> active oj = true -> is_log oi = is_log oj -> i = j).
Proof.
  intros [Hops Hc _ (t & payload & now & En)] [_ Hk Ha _] Hidle. apply conflict_fresh in Hc as (Hf & Hkey & _).
  assert (Hpk : op_deployment o = pk) by (by rewrite En). rewrite Hops. split.
  - intros i j oi oj [[<- <-]|[Hi Hoi]]%lookup_insert_Some [[<- <-]|[Hj Hoj]]%lookup_insert_Some E; try done.
    + by destruct (key_fresh _ _ _ _ Hkey Hoj).
    + by destruct (key_fresh _ _ _ _ Hkey Hoi).
    + by eapply Hk.
  - intros i j oi oj [[<- <-]|[Hi Hoi]]%lookup_insert_Some [[<- <-]|[Hj Hoj]]%lookup_insert_Some E Ai Aj El; try done.
    + destruct (Hidle j oj Hoj); congruence.
    + destruct (Hidle i oi Hoi); congruence.
    + by eapply Ha.
Qed.

Lemma queue_api d d' : api_effect d d' -> queue_ok d -> queue_ok d'.
Proof.
  intros He Hq. pose proof (db_ok_step d ERequest d' (step_request _ _ (effect_request _ _ He)) (qo_rows _ Hq)) as Hok.
  destruct He as [->|rq pk hash oid x x' o Hm|rq pk hash oid x o Hm|rq did hash oid x o Hm]; [done| | |].
  - destruct Hm as [Hr _ Hidle _ (de & ob & co & se & sc & E) _ Hd Hkind Hqs].
    destruct (queue_operations _ _ _ _ _ _ _ _ Hqs Hq) as [G1 G2].
    { intros i oi Hi Hpk Hact. pose proof (any_operation_false _ _ _ _ _ Hidle Hi Hpk) as Hn. simpl in Hn.
      rewrite Hact, Hkind in *. by destruct (is_log oi). }
    split; [done|done|done|]. rewrite Hd.
    intros i j xi xj [[<- <-]|[Hi Hxi]]%lookup_insert_Some [[<- <-]|[Hj Hxj]]%lookup_insert_Some Ea Ee Di Dj; try done.
    + subst x'. exact (qo_live _ Hq pk j x xj Hr Hxj Ea Ee Di Dj).
    + subst x'. exact (qo_live _ Hq i pk xi x Hxi Hr Ea Ee Di Dj).
    + exact (qo_live _ Hq i j xi xj Hxi Hxj Ea Ee Di Dj).
  - destruct Hm as [Hr _ Hd Hkind Hqs]. destruct (queue_operations _ _ _ _ _ _ _ _ Hqs Hq) as [G1 G2].
    { intros i oi Hi Hpk Hact Hlog. destruct Hqs as [_ Hc _ (t & payload & now & En)].
      apply conflict_fresh in Hc as (_ & _ & Hc). rewrite Hkind in *.
      assert (any_operation pk (fun o' => is_log o' && active o') d = false) as Hno
        by (replace pk with (op_deployment o) by (by rewrite En); apply Hc; [done|by rewrite En]).
      pose proof (any_operation_false _ _ _ _ _ Hno Hi Hpk) as Hn. simpl in Hn. by rewrite Hact, Hlog in Hn. }
    split; [done|done|done|]. rewrite Hd. apply Hq.
  - destruct Hm as [Hf Hu _ Hd _ Hqs]. destruct (queue_operations _ _ _ _ _ _ _ _ Hqs Hq) as [G1 G2].
    { intros i oi Hi Hpk _. destruct (operations_ok _ (qo_rows _ Hq) _ _ Hi) as (_ & _ & _ & y & Hy & _). congruence. }
    split; [done|done|done|]. rewrite Hd.
    intros i j xi xj [[<- <-]|[Hi Hxi]]%lookup_insert_Some [[<- <-]|[Hj Hxj]]%lookup_insert_Some Ea Ee Di Dj; try done.
    + exfalso. by eapply deployed_in_false.
    + exfalso. by eapply deployed_in_false.
    + exact (qo_live _ Hq i j xi xj Hxi Hxj Ea Ee Di Dj).
Qed.

Lemma queue_step h h' : sys_step h h' -> queue_ok (tables h) -> queue_ok (tables h').
Proof.
  intros [e d' H He ->|H] Hq; [by eapply queue_worker|]. by eapply queue_api; [apply api_step_effect|].
Qed.
Lemma queue_empty : queue_ok empty_db.
Proof. split; [apply empty_ok| | |]; intros i j ? ? Hi; simpl in Hi; by rewrite lookup_empty in Hi. Qed.
Lemma queue_reachable h h' : tables h = empty_db -> rtc sys_step h h' -> queue_ok (tables h').
Proof.
  intros E H. assert (queue_ok (tables h)) as Hq by (rewrite E; apply queue_empty). clear E.
  induction H; eauto using queue_step.
Qed.

(** ** Rows persist *)
(** The columns of a deployment that nothing changes. *)
Definition fixed_columns (x : RuntimeDeployment) : Z * string * pyval * string * RuntimeEnvironment :=
  (dep_application x, dep_environment x, release_manifest x, release_manifest_digest x, env_row x).

Lemma worker_keeps d e d' : wstep d e d' -> e <> ERequest ->
  (forall i, is_Some (operations d !! i) -> is_Some (operations d' !! i)) /\
  (forall i, is_Some (deployments d !! i) -> is_Some (deployments d' !! i)).
Proof.
  intros H He. assert (Hins : forall {A} (m : gmap string A) k v i, is_Some (m !! i) -> is_Some (<[k := v]> m !! i))
    by (intros A m k v i Hi; rewrite lookup_insert_is_Some; destruct (decide (k = i)); auto).
  destruct e as [id token now|token| |]; [| | |done].
  - inversion H; subst. match goal with Hc : _claim _ _ _ _ = _ |- _ => destruct (claim_Some _ _ _ _ _ _ Hc) as (o & Ho & _ & ->) end.
    simpl. split; [|done]. intros i. apply Hins.
  - apply record_effect in H as [(E1 & E2 & _)|id o o' Ho Hl E Hs E2|id o o' x x' Ho Hl E Hs Hx Hr E2]; rewrite ?E, ?E1, ?E2;
      split; try done; intros i; apply Hins.
  - inversion H; subst. done.
Qed.

Lemma sys_operations h h' i o : sys_step h h' -> queue_ok (tables h) -> operations (tables h) !! i = Some o ->
  exists o', operations (tables h') !! i = Some o' /\ identity o' = identity o.
Proof.
  intros [e d' H He ->|H] Hq Ho.
  - destruct (worker_keeps _ _ _ H He) as [Hk _]. destruct (Hk i ltac:(by eexists)) as [o' Ho'].
    destruct (worker_rows _ _ _ H He (qo_rows _ Hq)) as [Hr _]. destruct (Hr _ _ Ho') as (o1 & Ho1 & E & _).
    exists o'. split; [done|]. congruence.
  - pose proof (req_kept _ _ (effect_request _ _ (api_step_effect _ _ H)) i o Ho). by exists o.
Qed.

Lemma api_rows d d' i x : api_effect d d' -> deployments d !! i = Some x ->
  exists x', deployments d' !! i = Some x' /\ fixed_columns x' = fixed_columns x /\ revision x <= revision x'.
Proof.
  intros [->|rq pk hash oid y y' o [Hr _ _ _ (de & ob & co & se & sc & E) _ Hd _ Hq]|rq pk hash oid y o [_ _ Hd _ _]|
          rq did hash oid y o [Hf _ _ Hd _ _]] Hx.
  - exists x. split_and!; [done|done|lia].
  - rewrite Hd. destruct (decide (pk = i)) as [->|Hne].
    + rewrite lookup_insert_eq. assert (y = x) as -> by congruence. exists y'. subst y'. split_and!; [done|done|simpl; lia].
    + rewrite lookup_insert_ne by done. exists x. split_and!; [done|done|lia].
  - rewrite Hd. exists x. split_and!; [done|done|lia].
  - rewrite Hd, lookup_insert_ne by congruence. exists x. split_and!; [done|done|lia].
Qed.

Lemma sys_deployments h h' i x : sys_step h h' -> queue_ok (tables h) -> deployments (tables h) !! i = Some x ->
  exists x', deployments (tables h') !! i = Some x' /\ fixed_columns x' = fixed_columns x /\ revision x <= revision x'.
Proof.
  intros [e d' H He ->|H] Hq Hx.
  - destruct (worker_keeps _ _ _ H He) as [_ Hk]. destruct (Hk i ltac:(by eexists)) as [x' Hx'].
    destruct (worker_rows _ _ _ H He (qo_rows _ Hq)) as [_ Hr]. destruct (Hr _ _ Hx') as (x1 & Hx1 & E & _ & Hrev & _).
    exists x'. assert (x1 = x) as -> by congruence. unfold decided, fixed_columns in *. simplify_eq. split_and!; [done|congruence|done].
  - by eapply api_rows; [apply api_step_effect|].
Qed.

Lemma run_rows h h' : rtc sys_step h h' -> queue_ok (tables h) ->
  queue_ok (tables h') /\
  (forall i o, operations (tables h) !! i = Some o -> exists o', operations (tables h') !! i = Some o' /\ identity o' = identity o) /\
  (forall i x, deployments (tables h) !! i = Some x ->
    exists x', deployments (tables h') !! i = Some x' /\ fixed_columns x' = fixed_columns x /\ revision x <= revision x').
Proof.
  induction 1 as [h|h h1 h' Hs _ IH]; intros Hq.
  - split_and!; [done|eauto|]. intros i x Hx. exists x. split_and!; [done|done|lia].
  - destruct (IH (queue_step _ _ Hs Hq)) as (Hq' & Ho & Hx). split_and!; [done| |].
    + intros i o Hi. destruct (sys_operations _ _ _ _ Hs Hq Hi) as (o1 & H1 & E1). destruct (Ho _ _ H1) as (o2 & H2 & E2).
      exists o2. split; [done|congruence].
    + intros i x Hi. destruct (sys_deployments _ _ _ _ Hs Hq Hi) as (x1 & H1 & E1 & R1).
      destruct (Hx _ _ H1) as (x2 & H2 & E2 & R2). exists x2. split_and!; [done|congruence|lia].
Qed.

(** ** Calls on a deployment *)
Inductive call :=
| Destroy (pk : string)
| Update (pk : string) (modules : list Module_) (data : list (string * pyval))
| Act (pk : string) (modules : list Module_) (data : list (string * pyval))
| LogRequest (pk : string) (attrs : list (string * pyval)).
Definition target (c : call) : string :=
  match c with Destroy pk | Update pk _ _ | Act pk _ _ | LogRequest pk _ => pk end.
Definition is_log_call (c : call) : bool := match c with LogRequest _ _ => true | _ => false end.
Definition handle (enabled : bool) (c : call) (rq : Request) (oid : string) (now : Z) : M host Response :=
  match c with
  | Destroy pk => destroy enabled rq pk oid now
  | Update pk modules data => partial_update enabled rq pk modules data oid now
  | Act pk modules data => actions enabled rq pk modules data oid now
  | LogRequest pk attrs => log_requests enabled rq pk attrs oid now
  end.
(** The hash of a call on a row, and its replay. *)
Definition call_hash (c : call) (x : RuntimeDeployment) : res string :=
  match c with
  | Destroy pk => _request_hash ("undeploy:" ++ pk) (PDict [])
  | Update pk modules data => attrs ← update_fields x modules data; _request_hash ("configure:" ++ pk) (PDict attrs)
  | Act pk modules data =>
      attrs ← action_attrs data; _ ← as_text (vget "action" attrs); _request_hash ("action:" ++ pk) (PDict attrs)
  | LogRequest pk attrs => _request_hash ("logs:" ++ pk) (PDict attrs)
  end.
Definition call_replay (c : call) (rq : Request) (hash : string) : M host (option Response) :=
  match c with LogRequest _ _ => _replay_operation rq hash | _ => _replay rq hash end.

Lemma handle_guarded enabled c rq oid now h :
  exists tx : string -> M host Response,
    (forall x hash, deployments (tables h) !! target c = Some x -> call_hash c x = Ok hash ->
      handle enabled c rq oid now h = guarded enabled (call_replay c rq hash) (tx hash) h) /\
    (forall r h', handle enabled c rq oid now h = (Ok r, h') ->
      exists x hash, deployments (tables h) !! target c = Some x /\ call_hash c x = Ok hash) /\
    (forall hash r h2, tx hash h = (Ok r, h2) -> outcome (is_log_call c) rq (target c) hash oid r (tables h) (tables h2)).
Proof.
  assert (Hfind : forall pk x, deployments (tables h) !! pk = Some x -> find_deployment pk h = (Ok x, h))
    by (intros; by apply find_Ok).
  destruct c as [pk|pk ms data|pk ms data|pk attrs]; cbn [handle target call_hash call_replay].
  - exists (fun hash => destroy_tx rq pk hash oid now). split_and!; [| |intros; by eapply destroy_outcome].
    + intros x hash Hx Hh. unfold destroy. erewrite M_bind_run by (by apply Hfind). by erewrite M_bind_run by (by rewrite Hh).
    + intros r h' H. unfold destroy in H. step H. step H. eauto.
  - destruct (deployments (tables h) !! pk) as [x0|] eqn:E0.
    + destruct (update_fields x0 ms data) as [attrs|ex] eqn:Eu.
      * exists (fun hash => update_tx rq pk attrs hash oid now). split_and!; [| |intros; eapply update_outcome; [|done]; rewrite E0; intros ? [= <-]; eauto].
        -- intros x hash [= <-] Hh. rewrite Eu in Hh. cbn [mbind res_bind] in Hh. unfold partial_update.
           erewrite M_bind_run by (by apply Hfind). rewrite Eu. erewrite M_bind_run by reflexivity.
           by erewrite M_bind_run by (by rewrite Hh).
        -- intros r h' H. unfold partial_update in H. step H. step H. step H. rewrite E0 in E. injection E as <-.
           exists x0, a1. split; [done|]. rewrite E1. done.
      * exists (fun _ => raise TypeError). split_and!; [| |done].
        -- intros x hash [= <-] Hh. by rewrite Eu in Hh.
        -- intros r h' H. unfold partial_update in H. step H. rewrite E0 in E. injection E as <-. step H. congruence.
    + exists (fun _ => raise TypeError). split_and!; [done| |done].
      intros r h' H. unfold partial_update in H. step H. congruence.
  - destruct (action_attrs data) as [attrs|ex] eqn:Eu.
    + destruct (as_text (vget "action" attrs)) as [name|] eqn:En.
      * exists (fun hash => actions_tx rq pk ms name attrs hash oid now). split_and!; [| |intros; by eapply actions_outcome].
        -- intros x hash Hx Hh. cbn [mbind res_bind] in Hh. rewrite En in Hh. cbn [mbind res_bind] in Hh. unfold actions.
           erewrite M_bind_run by (by apply Hfind). rewrite Eu. erewrite M_bind_run by reflexivity.
           rewrite En. erewrite M_bind_run by reflexivity. by erewrite M_bind_run by (by rewrite Hh).
        -- intros r h' H. unfold actions in H. step H. step H. step H. step H. exists a, a2. split; [done|].
           cbn [mbind res_bind]. assert (a0 = attrs) as <- by congruence. rewrite En. done.
      * exists (fun _ => raise TypeError). split_and!; [| |done].
        -- intros x hash Hx Hh. cbn [mbind res_bind] in Hh. by rewrite En in Hh.
        -- intros r h' H. unfold actions in H. step H. step H. step H. assert (a0 = attrs) as <- by congruence. congruence.
    + exists (fun _ => raise TypeError). split_and!; [done| |done].
      intros r h' H. unfold actions in H. step H. step H. congruence.
  - exists (fun hash => logs_tx rq pk attrs hash oid now). split_and!; [| |intros; by eapply logs_outcome].
    + intros x hash Hx Hh. unfold log_requests. erewrite M_bind_run by (by apply Hfind). by erewrite M_bind_run by (by rewrite Hh).
    + intros r h' H. unfold log_requests in H. step H. step H. eauto.
Qed.

Lemma unavailable_refuses enabled r : _runtime_unavailable enabled = Some r -> status_code r <> 202.
Proof. unfold _runtime_unavailable. case_match; intros; simplify_eq; done. Qed.
Lemma call_replay_Ok c rq hash h r h' :
  call_replay c rq hash h = (Ok r, h') -> h' = h /\ (forall rep, r = Some rep -> status_code rep <> 202) /\
  (r = None -> exists key, _idempotency_key rq = Some key /\ fullmatch IDEMPOTENCY_KEY_PATTERN key = true).
Proof.
  assert (Hkey : _idempotency_replay rq hash (tables h) = inl None ->
    exists key, _idempotency_key rq = Some key /\ fullmatch IDEMPOTENCY_KEY_PATTERN key = true).
  { unfold _idempotency_replay. destruct (_idempotency_key rq) as [key|]; [|done]. intros H. exists key.
    by destruct (fullmatch IDEMPOTENCY_KEY_PATTERN key). }
  destruct c; cbn [call_replay]; intros [H ->]%read_Ok; (split_and!; [done|intros rep ->; eauto with refuses|]);
    intros ->; apply Hkey; destruct (_idempotency_replay _ _ _) as [[[]|]|]; try done;
    by apply bind_Ok in H as (? & _ & ?).
Qed.

Lemma handle_outcome enabled c rq oid now h r h' :
  handle enabled c rq oid now h = (Ok r, h') ->
  exists x hash, deployments (tables h) !! target c = Some x /\ call_hash c x = Ok hash /\
    outcome (is_log_call c) rq (target c) hash oid r (tables h) (tables h') /\
    (status_code r = 202 -> exists key, _idempotency_key rq = Some key /\ fullmatch IDEMPOTENCY_KEY_PATTERN key = true).
Proof.
  intros H. destruct (handle_guarded enabled c rq oid now h) as (tx & Hg & Hi & Ho).
  destruct (Hi _ _ H) as (x & hash & Hx & Hh). exists x, hash. split; [done|]. split; [done|].
  rewrite (Hg _ _ Hx Hh) in H. unfold guarded in H. apply M_bind_Ok in H as (rep & w & Hr & H).
  apply call_replay_Ok in Hr as (-> & Hr & Hkey). apply unless_Ok in H as [[-> ->]|[-> H]].
  { specialize (Hr _ eq_refl). split; [by apply refused|done]. }
  split; [|by auto].
  apply unless_Ok in H as [[E ->]|[E H]]; [apply refused; [done|by eapply unavailable_refuses]|].
  apply atomic_cases in H as [(? & ? & _)|(a & [= <-] & H)]; [done|]. by eapply Ho.
Qed.

(** The operation a response is about. *)
Definition about (r : Response) : option (string * RuntimeOperation) :=
  match content r with Mutation _ _ oid o | Operation oid o => Some (oid, o) | _ => None end.

Lemma update_fields_fixed x x' modules data :
  fixed_columns x' = fixed_columns x -> update_fields x' modules data = update_fields x modules data.
Proof. unfold fixed_columns. intros [= _ _ Em _ Ee]. unfold update_fields. by rewrite Em, Ee. Qed.
Lemma call_hash_fixed c x x' : fixed_columns x' = fixed_columns x -> call_hash c x' = call_hash c x.
Proof. intros E. destruct c; cbn [call_hash]; try done. by erewrite update_fields_fixed. Qed.

Lemma key_found d oid o : queue_ok d -> operations d !! oid = Some o -> operation_of_key (idempotency_key o) d = Some (oid, o).
Proof.
  intros Hq Ho. unfold operation_of_key. destruct (find _ _) as [[i oi]|] eqn:F.
  - apply find_some in F as [Hin%list_elem_of_In E%String.eqb_eq]. apply elem_of_map_to_list in Hin. simpl in E.
    assert (i = oid) as -> by (by eapply (qo_keys _ Hq)). congruence.
  - by destruct (key_fresh _ _ _ _ F Ho).
Qed.

(** What the replay of an accepted key answers. *)
Lemma replay_answers enabled c rq oid' now h x hash oid o :
  queue_ok (tables h) -> deployments (tables h) !! target c = Some x -> call_hash c x = Ok hash ->
  operations (tables h) !! oid = Some o -> _idempotency_key rq = Some (idempotency_key o) ->
  fullmatch IDEMPOTENCY_KEY_PATTERN (idempotency_key o) = true -> op_deployment o = target c -> request_hash o = hash ->
  exists r, handle enabled c rq oid' now h = (Ok r, h) /\ status_code r = 200 /\ about r = Some (oid, o).
Proof.
  intros Hq Hx Hh Ho Hk Hm Hdep Hhash. destruct (handle_guarded enabled c rq oid' now h) as (tx & Hg & _).
  assert (E : _idempotency_replay rq hash (tables h) = inl (Some (oid, o))).
  { unfold _idempotency_replay. rewrite Hk, Hm, (key_found _ _ _ Hq Ho), Hhash, String.eqb_refl. done. }
  assert (exists r, call_replay c rq hash h = (Ok (Some r), h) /\ status_code r = 200 /\ about r = Some (oid, o)) as (r & Hr & Hs).
  { destruct c; cbn [call_replay]; unfold _replay, _replay_operation, read; rewrite E; [..|by eexists];
      unfold get_deployment; rewrite Hdep, Hx; by eexists. }
  exists r. split; [|done]. rewrite (Hg _ _ Hx Hh). unfold guarded. by erewrite M_bind_run by exact Hr.
Qed.

(** The operation an accepted call has queued. *)
Lemma accepted_row enabled c rq oid now h r h' :
  handle enabled c rq oid now h = (Ok r, h') -> status_code r = 202 ->
  exists x hash o, deployments (tables h) !! target c = Some x /\ call_hash c x = Ok hash /\
    _deployment_precondition rq x = Ok None /\
    operations (tables h') !! oid = Some o /\ operations (tables h) !! oid = None /\
    _idempotency_key rq = Some (idempotency_key o) /\ fullmatch IDEMPOTENCY_KEY_PATTERN (idempotency_key o) = true /\
    op_deployment o = target c /\ request_hash o = hash.
Proof.
  intros H Hs. destruct (handle_outcome _ _ _ _ _ _ _ _ H) as (x & hash & Hx & Hh & Ho & Hkey).
  destruct (Hkey Hs) as (key & Hk & Hm). exists x, hash.
  destruct Ho as [_ ?|y y' o [Hr Hp _ _ _ _ _ _ Hq] _ _|y o [Hr Hp _ _ Hq] _ _]; [done| |];
    destruct Hq as [Ho Hc Hk' (t & payload & now' & En)]; apply conflict_fresh in Hc as (Hf & _ & _);
    assert (y = x) as -> by congruence; exists o; rewrite Ho, lookup_insert_eq;
    (split_and!; try done; [congruence|by rewrite En|by rewrite En]).
Qed.

Lemma api_call enabled c rq oid now h r h' : handle enabled c rq oid now h = (Ok r, h') -> queue_ok (tables h) -> queue_ok (tables h').
Proof.
  intros H Hq. destruct (handle_outcome _ _ _ _ _ _ _ _ H) as (x & hash & _ & _ & Ho & _).
  eapply queue_api; [by eapply outcome_effect|done].
Qed.

(** The revision a matching precondition names. *)
Lemma precondition_revision rq rq' x x' :
  _deployment_precondition rq x = Ok None -> _deployment_precondition rq' x' = Ok None -> if_match rq' = if_match rq ->
  revision x' = revision x.
Proof.
  unfold _deployment_precondition, _revision_precondition. intros H H' E. rewrite E in H'.
  destruct (if_match rq); [|done]. destruct (negb _); [done|].
  apply bind_Ok in H as (n & Hn & H). rewrite Hn in H'. cbn [mbind res_bind] in H'.
  destruct (Z.eqb_spec n (revision x)); [|done]. destruct (Z.eqb_spec n (revision x')); [|done]. congruence.
Qed.

(** ** The payloads of the queue *)
Definition rows_ok (d : db) : Prop :=
  (forall i x, deployments d !! i = Some x -> row_ok x) /\ (forall i o, operations d !! i = Some o -> payload_ready o).

Lemma row_ok_decided x x' : decided x' = decided x -> dep_generation x' = dep_generation x -> row_ok x -> row_ok x'.
Proof.
  unfold decided. intros E Eg ((m & c & s & k & [Hm Hd Hc Hs Hk (E1 & E2 & E3)]) & Hst & Hg). simplify_eq.
  split; [|split; congruence]. exists m, c, s, k. split; try congruence; try done; [..|split_and!; congruence];
    repeat match goal with E : env_row _ = env_row _ |- _ => rewrite E end; done.
Qed.
Lemma new_payload pk x t payload key hash now : row_ok x -> payload_ready (new_operation pk x t payload key hash now).
Proof.
  intros (_ & Hst & Hg) Hl. split; [done|]. exists (dep_desired_state x). split; [|done].
  destruct t; try discriminate Hl; simpl; by rewrite dget_dset, String.eqb_refl.
Qed.
Lemma created_ok a environment e r m data configuration secret_refs scaling :
  rel_manifest r = PDict m -> payload_digest (PDict m) = Ok (manifest_digest r) ->
  validate_all a e data m = Ok (configuration, secret_refs, scaling) ->
  row_ok (new_deployment a environment e r configuration secret_refs scaling).
Proof.
  intros Hm Hd Hv. unfold validate_all in Hv. apply bind_Ok in Hv as (sc & Hs & Hv). apply bind_Ok in Hv as (c & Hc & Hv).
  apply bind_Ok in Hv as (s & Hse & Hv). simplify_eq. split; [|split; [by apply mem_In|simpl; lia]].
  exists m, configuration, secret_refs, scaling. split; try done; eauto.
Qed.

Lemma rows_queued rq pk hash oid x o d d' :
  queues rq pk hash oid x o d d' -> row_ok x -> rows_ok d -> forall i o', operations d' !! i = Some o' -> payload_ready o'.
Proof.
  intros [Ho _ _ (t & payload & now & En)] Hx [_ Hops] i o' Hi. rewrite Ho in Hi.
  apply lookup_insert_Some in Hi as [[_ <-]|[_ Hi]]; [|by eapply Hops]. rewrite En. by apply new_payload.
Qed.
Lemma rows_api d d' : api_effect d d' -> rows_ok d -> rows_ok d'.
Proof.
  intros He [Hd Ho]. destruct He as [->|rq pk hash oid x x' o [Hr _ _ _ _ Hv Hd' _ Hq]|rq pk hash oid x o [Hr _ Hd' _ Hq]|
    rq did hash oid x o [_ _ (a & env & e & r & m & da & co & se & sc & E & Hm & Hdig & Hv) Hd' _ Hq]]; [done| | |].
  - split; [|by eapply rows_queued; [exact Hq|auto|]; eauto]. rewrite Hd'.
    intros i y [[_ <-]|[_ Hi]]%lookup_insert_Some; eauto.
  - split; [by rewrite Hd'|by eapply rows_queued; [exact Hq|eauto|]].
  - assert (row_ok x) as Hx by (subst x; by eapply created_ok).
    split; [|by eapply rows_queued; [exact Hq|done|]]. rewrite Hd'. intros i y [[_ <-]|[_ Hi]]%lookup_insert_Some; eauto.
Qed.
Lemma rows_step h h' : sys_step h h' -> queue_ok (tables h) -> rows_ok (tables h) -> rows_ok (tables h').
Proof.
  intros [e d' H He ->|H] Hq [Hd Ho]; [|by eapply rows_api; [apply api_step_effect|]].
  destruct (worker_rows _ _ _ H He (qo_rows _ Hq)) as [Hops Hdeps]. split.
  - intros i x' Hi. destruct (Hdeps _ _ Hi) as (x & Hx & E & Eg & _). eapply row_ok_decided; [done|done|]. by eapply Hd.
  - intros i o' Hi. destruct (Hops _ _ Hi) as (o & Hoo & E & _). pose proof (Ho _ _ Hoo) as Hp. pose proof (identity_log _ _ E) as El.
    unfold identity in E. injection E as _ _ _ _ Ep Et. intros Hl. rewrite Et, Ep. apply Hp. congruence.
Qed.
Lemma rows_reachable h h' : tables h = empty_db -> rtc sys_step h h' -> rows_ok (tables h').
Proof.
  intros E H. assert (queue_ok (tables h) /\ rows_ok (tables h)) as [Hq Hr].
  { rewrite E. split; [apply queue_empty|]. split; intros i y Hi; simpl in Hi; by rewrite lookup_empty in Hi. }
  clear E. induction H as [|h h1 h2 Hs _ IH]; [done|]. apply IH; [by eapply queue_step|by eapply rows_step].
Qed.
