(* ===== verification/SystemSpec.v ===== *)
(** The host as a whole: the runtime API and the workers over the same tables.  An example
    run, and the theorems on retries, lost updates, serialisation, the refinement of the
    worker's system, and the payloads that reach the controller. *)

From S2P Require Import Prelude PyValue Regex Sha256 Json Config Contract Service Release ReleaseSpec Kube Worker WorkerSpec Inputs InputsSpec Views ViewsSpec.
#[local] Open Scope string_scope.
#[local] Open Scope list_scope.
#[local] Open Scope Z_scope.

(** ** An example: the shop is deployed, the worker fails, the deployment is removed *)
Module Portal.
Definition app : Application := {|
  application := Shop.application; modules := []; app_revision := 1; app_enabled := true; current_version := "1.4.0" |}.
Definition start : host := {|
  tables := empty_db; release_tables := Shop.published; applications := {[7 := app]};
  environments := {["production" := Shop.environment]} |}.
Definition request (key : string) (revision : Z) : Request :=
  {| idempotency_header := Some key; if_match := Some (_etag revision) |}.
Definition data : CreateAttrs := {|
  ca_application := 7; ca_environment := "production"; ca_version := "1.4.0"; ca_scaling := scaling_json Entered.scaling;
  ca_configuration := values_json Entered.configuration; ca_secret_refs := values_json Entered.secret_refs |}.
Definition row : RuntimeDeployment :=
  new_deployment app "production" Shop.environment Shop.release Entered.configuration Entered.secret_refs Entered.scaling.
Definition operation : RuntimeOperation := new_operation Sample.id row DEPLOY [] "request-0001" "hash" 0.
Definition web : RuntimeComponent := {|
  rc_slug := "web"; image_digest := Sample.image; desired_replicas := 2; ready_replicas := 0; available_replicas := 0;
  rc_state := "pending"; health := "unknown"; restart_count := 0; rc_last_error := "" |}.
Definition created : host := set_tables {|
  operations := {["op-1" := operation]}; deployments := {[Sample.id := row]}; components := {[Sample.id := [web]]};
  cache := ∅ |} start.

Lemma release_step : release_for app "1.4.0" Shop.environment start = (Ok (inl Shop.release), start).
Proof.
  unfold release_for. pose proof (Shop.release_found []) as E. revert E.
  change (runtime_release_for (application app) (modules app) "1.4.0" Shop.environment (release_tables start))
    with (runtime_release_for Shop.application [] "1.4.0" Shop.environment Shop.published).
  generalize (runtime_release_for Shop.application [] "1.4.0" Shop.environment Shop.published). intros p ->. reflexivity.
Qed.
Lemma creation_step : api_step start created.
Proof.
  eapply (api_create _ _ (request "request-0001" 1) data Shop.environment "1.4.0" "hash" Sample.id "op-1" 0).
  unfold atomic.
  enough (create_tx (request "request-0001" 1) data Shop.environment "1.4.0" "hash" Sample.id "op-1" 0 start =
          (Ok (_mutation_response Sample.id row "op-1" operation 202 false), created)) as -> by reflexivity.
  unfold create_tx. erewrite M_bind_run by (instantiate (2 := app); reflexivity).
  erewrite M_bind_run by (instantiate (2 := None); vm_compute; reflexivity). cbn [unless].
  erewrite M_bind_run by (instantiate (2 := None); vm_compute; reflexivity). cbn [unless].
  erewrite M_bind_run by (instantiate (2 := false); vm_compute; reflexivity). cbv iota.
  erewrite M_bind_run by exact release_step.
  vm_compute. reflexivity.
Qed.

(** A worker claims what is due and fails. *)
Definition worker_fails (token : string) (h : host) : option host :=
  match _claim "w" token 0 (tables h) with
  | (Some id, d) =>
      match _record_unexpected_failure id token 0 d with Ok d' => Some (set_tables d' h) | Raise _ => None end
  | _ => None
  end.
Definition fresh (token : string) (d : db) : bool :=
  forallb (fun kv => bool_decide (lease_token kv.2 <> Some token)) (map_to_list (operations d)).
Lemma worker_fails_run token h h' : fresh token (tables h) = true -> worker_fails token h = Some h' -> rtc sys_step h h'.
Proof.
  intros Hf. unfold worker_fails. destruct (_claim "w" token 0 (tables h)) as [[id|] d] eqn:C; [|done].
  destruct (_record_unexpected_failure id token 0 d) as [d'|] eqn:R; [|done]. intros [= <-].
  apply (rtc_l _ _ (set_tables d h)).
  - apply (sys_worker _ _ (EClaim id token 0) d); [|discriminate|reflexivity]. apply (step_claim "w"); [|exact C].
    intros i o Ho. unfold fresh in Hf. rewrite forallb_forall in Hf.
    specialize (Hf (i, o) ltac:(by apply list_elem_of_In, elem_of_map_to_list)). by apply bool_decide_eq_true in Hf.
  - apply rtc_once, (sys_worker _ _ (ERecord token) d'); [|discriminate|reflexivity]. simpl. by eapply step_unexpected.
Qed.

Definition failed : host := default created (worker_fails "t1" created).
Lemma failed_reachable : rtc sys_step start failed.
Proof.
  eapply rtc_l; [apply sys_api, creation_step|].
  apply (worker_fails_run "t1"); vm_compute; reflexivity.
Qed.

(** A call and the state it leaves. *)
Definition run (c : call) (key : string) (revision : Z) (oid : string) (h : host) : option (Response * host) :=
  match handle true c (request key revision) oid 0 h with
  | (Ok r, h') => if status_code r =? 202 then Some (r, h') else None
  | _ => None
  end.
Lemma run_accepted c key revision oid h : is_Some (run c key revision oid h) ->
  exists r h', handle true c (request key revision) oid 0 h = (Ok r, h') /\ status_code r = 202 /\ run c key revision oid h = Some (r, h').
Proof.
  unfold run. destruct (handle _ _ _ _ _ _) as [[r|] h']; [|by intros []]. destruct (Z.eqb_spec (status_code r) 202); [|by intros []].
  eauto 8.
Qed.
Definition start_again : call := Act Sample.id [] [("action", PStr "start")].
Definition restarted : host := match run start_again "request-0002" 2 "op-2" failed with Some (_, h) => h | None => failed end.
Lemma restart_accepted : is_Some (run start_again "request-0002" 2 "op-2" failed).
Proof. vm_compute. by eexists. Qed.
Definition failed_again : host := default restarted (worker_fails "t2" restarted).
Lemma failed_again_run : rtc sys_step restarted failed_again.
Proof. apply (worker_fails_run "t2"); vm_compute; reflexivity. Qed.
Lemma removal_accepted : is_Some (run (Destroy Sample.id) "request-0003" 4 "op-3" failed_again).
Proof. vm_compute. by eexists. Qed.
End Portal.


(** C8: no lost update: two accepted calls on a deployment of which the first changed it
    never carry the same If-Match, however far apart they are: whoever acts on a revision
    that someone else has changed since is refused. *)
Theorem no_lost_update enabled enabled' c c' rq rq' oid oid' now now' h0 h h1 h2 h3 r r' :
  tables h0 = empty_db -> rtc sys_step h0 h ->
  handle enabled c rq oid now h = (Ok r, h1) -> status_code r = 202 -> is_log_call c = false ->
  rtc sys_step h1 h2 ->
  handle enabled' c' rq' oid' now' h2 = (Ok r', h3) -> status_code r' = 202 -> target c' = target c ->
  if_match rq' <> if_match rq.
Proof.
  intros H0 Hrun H Hs Hc Hlater H' Hs' Ht E. pose proof (queue_reachable _ _ H0 Hrun) as Hq.
  destruct (accepted_row _ _ _ _ _ _ _ _ H Hs) as (x & _ & _ & Hx & _ & Hp & _).
  destruct (accepted_row _ _ _ _ _ _ _ _ H' Hs') as (x' & _ & _ & Hx' & _ & Hp' & _). rewrite Ht in Hx'.
  pose proof (precondition_revision _ _ _ _ Hp Hp' E) as Er.
  assert (exists x1, deployments (tables h1) !! target c = Some x1 /\ revision x < revision x1) as (x1 & Hx1 & R1).
  { destruct (handle_outcome _ _ _ _ _ _ _ _ H) as (y & hash & _ & _ & Ho & _).
    destruct Ho as [_ ?|y0 y' o [Hr _ _ _ (de & ob & co & se & sc & Ey) _ Hd _ _] _ _|y0 o _ _ Hl]; [done| |].
    - exists y'. rewrite Hd, lookup_insert_eq. assert (y0 = x) as -> by congruence. subst y'. simpl. split; [done|lia].
    - by rewrite Hc in Hl. }
  destruct (run_rows _ _ Hlater (api_call _ _ _ _ _ _ _ _ H Hq)) as (_ & _ & Hdeps).
  destruct (Hdeps _ _ Hx1) as (x2 & Hx2 & _ & R2). assert (x2 = x') as -> by congruence. lia.
Qed.
Lemma no_lost_update_witness : if_match (Portal.request "request-0003" 4) <> if_match (Portal.request "request-0002" 2).
Proof.
  destruct (Portal.run_accepted _ _ _ _ _ Portal.restart_accepted) as (r & h1 & H & Hs & E).
  destruct (Portal.run_accepted _ _ _ _ _ Portal.removal_accepted) as (r' & h3 & H' & Hs' & _).
  assert (Portal.restarted = h1) as E1 by (unfold Portal.restarted; rewrite E; reflexivity).
  pose proof Portal.failed_again_run as Hrun. rewrite E1 in Hrun.
  exact (no_lost_update true true Portal.start_again (Destroy Sample.id) _ _ "op-2" "op-3" 0 0 Portal.start Portal.failed h1
    Portal.failed_again h3 r r' eq_refl Portal.failed_reachable H Hs eq_refl Hrun H' Hs' eq_refl).
Defined.

(** In every state the API and any number of workers can reach, a deployment has at
    most one unfinished mutation and at most one unfinished log snapshot, an idempotency
    key names one operation, and an application has one live deployment per environment. *)
Theorem operations_serialised h0 h :
  tables h0 = empty_db -> rtc sys_step h0 h ->
  (forall i j oi oj, operations (tables h) !! i = Some oi -> operations (tables h) !! j = Some oj ->
     op_deployment oi = op_deployment oj -> active oi = true -> active oj = true -> is_log oi = is_log oj -> i = j) /\
  (forall i j oi oj, operations (tables h) !! i = Some oi -> operations (tables h) !! j = Some oj ->
     idempotency_key oi = idempotency_key oj -> i = j) /\
  (forall i j xi xj, deployments (tables h) !! i = Some xi -> deployments (tables h) !! j = Some xj ->
     dep_application xi = dep_application xj -> dep_environment xi = dep_environment xj ->
     deleted_at xi = None -> deleted_at xj = None -> i = j).
Proof. intros H0 Hrun. destruct (queue_reachable _ _ H0 Hrun) as [_ Hk Ha Hl]. split_and!; [exact Ha|exact Hk|exact Hl]. Qed.
Lemma operations_serialised_witness :
  active Portal.operation = true /\
  forall i oi, operations (tables Portal.created) !! i = Some oi -> active oi = true -> is_log oi = false ->
    op_deployment oi = Sample.id -> i = "op-1".
Proof.
  split; [reflexivity|]. intros i oi Hi Ha Hl Hd.
  exact (proj1 (operations_serialised Portal.start Portal.created eq_refl (rtc_once _ _ (sys_api _ _ Portal.creation_step)))
    i "op-1" oi Portal.operation Hi (lookup_singleton_eq _ _) Hd Ha eq_refl Hl).
Defined.

(** C10: the API plays by the worker's rules: every state that handlers and workers reach
    together is a state of the worker's system, in which the handlers appear only as
    transactions that add operations in the initial status, keep the existing ones and
    never lower a generation; so what is proved of all runs of the worker's system holds
    of the whole. *)
Theorem api_refines_requests h0 h :
  tables h0 = empty_db -> rtc sys_step h0 h -> exists es, wsteps empty_db es (tables h).
Proof.
  intros H0 Hrun. rewrite <-H0. clear H0. induction Hrun as [h|h h1 h2 Hs _ (es & IH)]; [exists []; constructor|].
  destruct Hs as [e d' Hw _ ->|Ha].
  - exists (e :: es). by econstructor.
  - exists (ERequest :: es). econstructor; [|done]. apply step_request, effect_request, api_step_effect, Ha.
Qed.
Lemma api_refines_requests_witness : exists es, wsteps empty_db es (tables Portal.failed).
Proof. exact (api_refines_requests Portal.start Portal.failed eq_refl Portal.failed_reachable). Defined.

